(* ===== verification/_CoqProject ===== *)
-Q . S2P
Prelude.v
Bitops.v
Dlist.v
Mm.v
MmAlloc.v
MmSpec.v
MmAlign.v
Mmu.v
MmInit.v
MmInitSpec.v
Pgt.v
PgtSpec.v
PgtMap.v
Slab.v
SlabSpec.v
Sched.v
SchedSpec.v
SchedSteps.v
Mutex.v
MutexSpec.v
CString.v
Printk.v
Signal.v
SignalSpec.v
Disk.v
Vfs.v
VfsSpec.v
Lmfs.v
LmfsSpec.v
Path.v
PathSpec.v
Mklmfs.v
MklmfsSpec.v
MklmfsTree.v
MklmfsMount.v
Fat.v
FatSpec.v
Devfs.v
DevfsSpec.v
File.v
FileSpec.v
FileReads.v
FileBoot.v
Elf.v
ElfSpec.v
ElfBoot.v
TaskMm.v
TaskMmSpec.v
X86.v
X86Spec.v
Irq.v
IrqSpec.v
Syscall.v
Trap.v
TrapSpec.v
TrapSyscall.v
TrapSwitch.v
Wshell.v
WshellParse.v
WshellRead.v
Fork.v
ForkSpec.v
Exec.v
ExecSpec.v
Soc.v
