(* ===== verification/Prelude.v ===== *)
(** * A verification library for the Chunos kernel

    Chunos is a small kernel in C for 32-bit x86 and ARM.  The library models its portable
    core and its x86 port as functions of Rocq, and proves what the parts promise to each
    other.

    ** Parts and files

    - Memory.  [Bitops] (kernel/bitops.c) and [Dlist] (include/os/list.h) are the bitmaps
      and the intrusive lists everything is built from.  [Mm] is the page allocator
      (mm/mm.c): zones of sections, each with a bitmap and descriptors of its pages;
      [MmAlloc] and [MmSpec] prove it, [MmAlign] the aligned requests.  [MmInit] and
      [MmInitSpec] are its start-up from the memory map of the board.  [Mmu] is the format
      of page directories (kernel/mmu.c, arch/x86/kernel/x86_mmu.c), with the class
      [MmuLaws] for what its clients rely on.  [Pgt] and [PgtSpec] are the page tables of
      a task (mm/pgt.c), [PgtMap] the mapping of lists of pages. [Slab] and [SlabSpec]
      are [kmalloc] and [kfree] (mm/slab.c), on top of the page allocator.
    - Tasks.  [Sched] (kernel/sched.c) has the task states, the lists of the scheduler, the
      tick, sleeping and waking, and the process numbers; [SchedSpec] has its invariant
      and [SchedSteps] the sequences of operations.  [Mutex] (kernel/mutex.c and the end of
      a task in kernel/task.c) and [MutexSpec] add mutexes and all interleavings of them
      with ticks and switches.  [Signal] and [SignalSpec] (syscall/sys_signal.c) queue
      signals in memory of the slab allocator.
    - Files.  [Vfs] (fs/vfs.c) reads, writes, seeks and lists an open file over any file
      system, whose operations are the class [FsOps]; [VfsSpec] states in the class
      [FileLaws] what a file system promises about the blocks of a file, and proves the
      operations against it.  [Disk] is kernel/disk.c and kernel/memdisk.c.  [Lmfs]
      (fs/lmfs.c) is an instance, and [LmfsSpec] discharges the laws for files whose blocks
      are in one table; [Fat] and [FatSpec] (fs/fat.c) are another, with chains of clusters.
      [Path] and [PathSpec] are the parts of a name, the choice of the mount, the lookup in
      directories over the class [FsDir], and the table of descriptors (fs/fnode.c,
      fs/mount.c, fs/file.c).  [Devfs] and [DevfsSpec] are devices, terminals and their
      files (fs/devfs.c, drivers/device.c, drivers/tty.c).  [File] puts the three file
      systems together: registration, mounting, open files that share disks and super
      blocks, and the system calls of a task on its descriptors (fs/filesystem.c, fs/mount.c,
      fs/file.c); [FileSpec], [FileReads] and [FileBoot] prove it.
    - Images.  [Mklmfs] is the tool that packs a directory tree into an image of LMFS
      (tools/mklmfs/mklmfs.c); [MklmfsSpec], [MklmfsTree] and [MklmfsMount] prove what the
      image holds and that the kernel reads it back.
    - Programs.  [Elf] (kernel/elf.c) parses and loads a program from the files of any
      store, the class [FileIo]; [ElfSpec] proves it against [ReaderLaws], which [ElfBoot]
      discharges for the files of the mounted root.  [TaskMm] and [TaskMmSpec]
      (kernel/task_mm.c, kernel/mmap.c) are the sections of a task, their pages and the
      page table they are mapped in.
    - The whole.  [Fork] and [ForkSpec] (kernel/task.c, syscall/sys_fork.c) start tasks over
      one state of all the parts above; [Exec] and [ExecSpec] start programs in them, with
      their arguments.  [Soc] (init/soc.c) finds the platform the kernel runs on.
    - The x86 port.  [X86] and [X86Spec] (arch/x86/kernel) are descriptors, gates, the
      interrupt controllers and ports; [Irq] and [IrqSpec] (kernel/irq.c) the interrupt
      lines over any controller that satisfies the class [ChipLaws]; [Syscall]
      (kernel/syscall.c) the table of system calls.  [Trap] has the registers and the
      assembly of entries, exits and switches, instruction by instruction; [TrapSpec],
      [TrapSyscall] and [TrapSwitch] prove what a task sees of them.
    - Text.  [CString] is kernel/string.c; [Printk] is kernel/printk.c with the consoles of
      drivers/tty.c.
    - The shell.  [Wshell] (userspace/bin/wshell) cuts a line into words and finds its
      operators; [WshellRead] and [WshellParse] prove it against scans of the line and of
      its words.

    ** How the code is translated

    A C integer is a [Z], cut to its width by [u32], [s32] and the like where the code
    can leave it.  Memory is a map from addresses to words ([rd], [wr]) or, for strings,
    to bytes.  A structure is a record, a linked [list_head] a node of a heap of [next] and
    [pre] pointers.  Each function of the source is a definition of its name that takes
    and returns the state it changes, in the monad [outcome]: [Ret] is a return, [Fault] an
    access the code must not make, [Panic] a call of [panic], [NoFuel] a loop that was
    cut off.  Waiting for a mutex the same path holds is [NoFuel] as well.  Interrupts and
    switches are explicit steps; [enter_critical] and spin locks are where a step cannot
    be cut and have no definition.  Messages the other parts print are left out.

    ** What is proved

    Allocation and release refine a set of disjoint blocks, for pages ([MmSpec]) and
    slabs ([SlabSpec]); start-up establishes the invariant, on the SVB board by
    evaluation; translation changes for the mapped or unmapped page only.  All sequences
    of scheduler operations return and keep exactly one task running, the one chosen is
    the first of the best priority, a timed sleep ends.  At most one task is inside a
    mutex.  Signals arrive once and in order.  Reads deliver the bytes of the file, writes
    put them there and seeks reach every offset; what is different when an access ends
    with a block is stated beside it.  An open FAT file reads as its chain of clusters.
    A directory tree that mklmfs packs is mounted at boot, and each of its files is opened
    by its path and read through a descriptor with the contents it was packed with.  All
    sequences of system calls on files keep the tables of descriptors, files, nodes, super
    blocks and disks well typed; a call on one descriptor leaves the others alone, and calls
    that do not write leave the disks alone.  A terminal that is registered is found in
    devfs.  A program on the image is parsed and loaded byte for byte, and a task that runs
    one gets a stack, meta data and an image on pages nobody else has, mapped where they
    belong.  A trap saves and restores every register of the code it interrupts, a switch
    resumes the next task where it was left, a system call takes six arguments in registers
    and changes one; gates, interrupt lines and the table of system calls lead to the
    handlers they were set up with.  [vsprintf] writes what its format says, and the log
    keeps the last 8192 bytes.  The shell finds the words, redirections and the pipe of a
    line.  Starting a thread keeps the invariants of scheduler, process numbers and page
    allocator together and gives the thread the frame that enters its function; the arguments
    of a program are copied to its page.  A property with hypotheses has a lemma with the
    suffix [_witness] that applies it to a concrete state.

    Where the code does not do this, a theorem says what it does: loops that do not end
    ([bitmap_find_free_base_hang], [mmap_base_hang]), a sleep without an end
    ([mutex_lost_wakeup]), a queue that becomes its own tail ([second_signal_loops]),
    a slab smaller than asked for ([kmalloc_too_small]), bytes of an old block
    ([vfs_read_stale]), a missing file that opens ([missing_file_opened]), an image mapped over
    itself ([image_wraps]), a fork that copies all pages into one ([copies_into_one_page]),
    a number that leads to a task that was released ([number_of_freed_task]), and others.

    ** Bounds and fuel

    Loops over arrays run by structural recursion on their number of iterations.  Loops
    that follow pointers or end on a condition have fuel; the theorems ask for as much as
    the data has elements, and show that the result is then not [NoFuel].  Fixed amounts
    are enough for every input: 32 digits of a 32-bit number, 8 shifts of the zone mask,
    4 zones, 33 pools.

    ** What is not modelled

    The ARM port; boot assembly; the drivers of timers and serial lines; the memory of
    nodes, open files and program headers, which comes as an argument; the C library of
    user programs, and what the shell does with it to run a command.  The sources have
    no driver of a terminal: it is a parameter of [File].  [main] is only the order of
    initialisers that are modelled with their parts.  The bytes of user pages are kept
    by virtual address where programs are loaded and by physical address where they are
    copied, and the two are not tied to each other; those of the kernel are a parameter.
    Fork and exec of user programs are definitions that the theorems about their parts
    apply to, without a theorem about the whole: [TaskMmFaults] and [ExecFaults] show
    that a forked task has one page of its parent and a program does not find its
    arguments.  Caches of translations are not part of the machine.  *)

From Stdlib Require Export ZArith Lia.
From stdpp Require Export base gmap list strings numbers.
Export stdpp.list_basics.list stdpp.list_relations.list stdpp.list_monad.list.

#[export] Set Default Goal Selector "!".
Open Scope Z_scope.

(** ** Machine integers

    A C object of an unsigned or signed w-bit type is a [Z]; [u32], [s32], ...
    are the conversions to that type (wrap-around made explicit). *)

Definition u8 (z : Z) : Z := z mod 256.
Definition u16 (z : Z) : Z := z mod 65536.
Definition u32 (z : Z) : Z := z mod 4294967296.
Definition s8 (z : Z) : Z := (z + 128) mod 256 - 128.
Definition s32 (z : Z) : Z := (z + 2147483648) mod 4294967296 - 2147483648.

(** [lnot32 z] is C's [~z] on a 32-bit unsigned operand. *)
Definition lnot32 (z : Z) : Z := u32 (Z.lnot z).

Lemma u32_range z : 0 <= u32 z < 4294967296.
Proof. unfold u32. apply Z.mod_pos_bound. lia. Qed.

Lemma u32_small z : 0 <= z < 4294967296 -> u32 z = z.
Proof. intros. unfold u32. by apply Z.mod_small. Qed.

Lemma u32_idem z : u32 (u32 z) = u32 z.
Proof. apply u32_small, u32_range. Qed.

Lemma s32_range z : -2147483648 <= s32 z < 2147483648.
Proof. unfold s32. pose proof (Z.mod_pos_bound (z + 2147483648) 4294967296). lia. Qed.

Lemma s32_small z : -2147483648 <= z < 2147483648 -> s32 z = z.
Proof. intros. unfold s32. rewrite Z.mod_small; lia. Qed.

Lemma u16_range z : 0 <= u16 z < 65536.
Proof. unfold u16. apply Z.mod_pos_bound. lia. Qed.

Lemma u16_small z : 0 <= z < 65536 -> u16 z = z.
Proof. intros. unfold u16. by apply Z.mod_small. Qed.

Lemma u8_range z : 0 <= u8 z < 256.
Proof. unfold u8. apply Z.mod_pos_bound. lia. Qed.

Lemma u8_small z : 0 <= z < 256 -> u8 z = z.
Proof. intros. unfold u8. by apply Z.mod_small. Qed.

(** ** Bounds and alignment (include/os/bound.h)

    The macros are stated on [Z]; a use converts the result to the C type of
    the expression it occurs in. *)

Definition align (num size : Z) : Z := Z.land (num + (size - 1)) (Z.lnot (size - 1)).
Definition min_align (num size : Z) : Z := Z.land num (Z.lnot (size - 1)).
Definition baligin (num size : Z) : Z := Z.land (num + size - 1) (Z.lnot (size - 1)).
Definition is_align (base bound : Z) : bool := Z.land base (bound - 1) =? 0.

Definition PAGE_SIZE : Z := 4096.
Definition PAGE_SHIFT : Z := 12.
Definition page_nr (size : Z) : Z := Z.shiftr (align size PAGE_SIZE) PAGE_SHIFT.

Lemma land_lnot_ones n k : 0 <= k -> Z.land n (Z.lnot (2 ^ k - 1)) = n - n mod 2 ^ k.
Proof.
  intros Hk.
  assert (Z.land n (Z.lnot (2 ^ k - 1)) = Z.ldiff n (Z.ones k)) as ->.
  { rewrite Z.ldiff_land, Z.ones_equiv. f_equal. }
  rewrite Z.ldiff_ones_r by done.
  rewrite Z.shiftl_mul_pow2, Z.shiftr_div_pow2 by done.
  pose proof (Z.div_mod n (2 ^ k)). assert (2 ^ k <> 0) by lia. lia.
Qed.

Lemma min_align_spec n k : 0 <= k -> min_align n (2 ^ k) = n - n mod 2 ^ k.
Proof. apply land_lnot_ones. Qed.

Lemma align_spec n k :
  0 <= k -> align n (2 ^ k) = n + (2 ^ k - 1) - (n + (2 ^ k - 1)) mod 2 ^ k.
Proof. intros. unfold align. by rewrite land_lnot_ones. Qed.

Lemma baligin_align n s : baligin n s = align n s.
Proof. unfold baligin, align. f_equal. lia. Qed.

Lemma is_align_spec n k : 0 <= k -> is_align n (2 ^ k) = (n mod 2 ^ k =? 0).
Proof.
  intros. unfold is_align.
  replace (2 ^ k - 1) with (Z.ones k) by (rewrite Z.ones_equiv; lia).
  by rewrite Z.land_ones.
Qed.

Lemma align_ceil n k :
  0 <= k -> n <= align n (2 ^ k) < n + 2 ^ k /\ align n (2 ^ k) mod 2 ^ k = 0.
Proof.
  intros Hk. rewrite align_spec by done.
  assert (0 < 2 ^ k) by (apply Z.pow_pos_nonneg; lia).
  pose proof (Z.mod_pos_bound (n + (2 ^ k - 1)) (2 ^ k)).
  split; [lia|]. by rewrite Zminus_mod_idemp_r, Z.sub_diag.
Qed.

Lemma min_align_floor n k :
  0 <= k -> n - 2 ^ k < min_align n (2 ^ k) <= n /\ min_align n (2 ^ k) mod 2 ^ k = 0.
Proof.
  intros Hk. rewrite min_align_spec by done.
  assert (0 < 2 ^ k) by (apply Z.pow_pos_nonneg; lia).
  pose proof (Z.mod_pos_bound n (2 ^ k)).
  split; [lia|]. by rewrite Zminus_mod_idemp_r, Z.sub_diag.
Qed.

Lemma land_u32_r x y : 0 <= x < 4294967296 -> Z.land x (u32 y) = Z.land x y.
Proof.
  intros Hx. unfold u32. change 4294967296 with (2 ^ 32). apply Z.bits_inj'. intros n Hn.
  rewrite !Z.land_spec. destruct (decide (n < 32)).
  - by rewrite Z.mod_pow2_bits_low by lia.
  - rewrite Z.mod_pow2_bits_high by lia. rewrite <- (Z.mod_small x (2 ^ 32)) by lia.
    by rewrite Z.mod_pow2_bits_high by lia.
Qed.

(** [min_align] at 32 bits. *)
Lemma min_align32 n k :
  0 <= n < 4294967296 -> 0 <= k -> Z.land n (lnot32 (2 ^ k - 1)) = n - n mod 2 ^ k.
Proof. intros. unfold lnot32. rewrite land_u32_r by done. by apply land_lnot_ones. Qed.

(** Flags in the low [k] bits of an aligned address: masking gives both back. *)
Lemma mod_pow2_bit x j n : 0 <= n < j -> x mod 2 ^ j = 0 -> Z.testbit x n = false.
Proof.
  intros Hn Hx. rewrite <- (Z.mod_pow2_bits_low x j n) by lia. by rewrite Hx, Z.bits_0.
Qed.

Lemma small_bit x j n : 0 <= j <= n -> 0 <= x < 2 ^ j -> Z.testbit x n = false.
Proof. intros Hn Hx. rewrite <- (Z.mod_small x (2 ^ j)) by done. by rewrite Z.mod_pow2_bits_high by lia. Qed.

(** Putting a low part below a shifted high part is adding them. *)
Lemma lor_shiftl h l n : 0 <= n -> 0 <= l < 2 ^ n -> Z.lor (Z.shiftl h n) l = h * 2 ^ n + l.
Proof.
  intros Hn Hl. assert (Z.land (Z.shiftl h n) l = 0) as E.
  { apply Z.bits_inj'. intros k Hk. rewrite Z.land_spec, Z.bits_0. destruct (decide (k < n)).
    - by rewrite Z.shiftl_spec_low by lia.
    - destruct (decide (l = 0)) as [->|]; [by rewrite Z.bits_0, andb_false_r|].
      rewrite (Z.bits_above_log2 l k), andb_false_r; [done|lia|].
      apply Z.log2_lt_pow2; [lia|]. assert (2 ^ n <= 2 ^ k) by (apply Z.pow_le_mono_r; lia). lia. }
  rewrite <- Z.lxor_lor, <- Z.add_nocarry_lxor by done. by rewrite Z.shiftl_mul_pow2.
Qed.

Lemma land_lor_mask pa f j k :
  0 <= k <= j -> j <= 32 -> 0 <= pa < 2 ^ 32 -> pa mod 2 ^ j = 0 -> 0 <= f < 2 ^ k ->
  Z.land (Z.lor pa f) (Z.shiftl (Z.ones (32 - k)) k) = pa.
Proof.
  intros Hk Hj Hpa Hal Hf. apply Z.bits_inj'. intros n Hn.
  rewrite Z.land_spec, Z.lor_spec. destruct (decide (n < k)).
  - rewrite Z.shiftl_spec_low by done. rewrite andb_false_r. by rewrite (mod_pow2_bit pa j) by (try done; lia).
  - rewrite (small_bit f k) by (try done; lia). rewrite orb_false_r, Z.shiftl_spec_high by lia.
    destruct (decide (n < 32)).
    + rewrite Z.ones_spec_low by lia. apply andb_true_r.
    + rewrite (small_bit pa 32) by (try done; lia). done.
Qed.

(** [page_nr] rounds a byte count up to whole pages. *)
Lemma page_nr_spec n : page_nr n = (n + 4095) / 4096.
Proof.
  unfold page_nr, PAGE_SIZE, PAGE_SHIFT. rewrite Z.shiftr_div_pow2 by lia.
  change 4096 with (2 ^ 12). rewrite align_spec by lia. change (2 ^ 12) with 4096.
  pose proof (Z.div_mod (n + 4095) 4096 ltac:(lia)) as E.
  replace (n + (4096 - 1) - (n + (4096 - 1)) mod 4096) with ((n + 4095) / 4096 * 4096)
    by (replace (n + (4096 - 1)) with (n + 4095) by lia; lia).
  apply Z.div_mul. lia.
Qed.

(** ** Error numbers (include/os/errno.h) *)

Definition ENOENT : Z := 2.
Definition ESRCH : Z := 3.
Definition EIO : Z := 5.
Definition ENXIO : Z := 6.
Definition EAGAIN : Z := 11.
Definition ENOMEM : Z := 12.
Definition EFAULT : Z := 14.
Definition ENODEV : Z := 19.
Definition ENOTDIR : Z := 20.
Definition EINVAL : Z := 22.
Definition EMFILE : Z := 24.
Definition EFBIG : Z := 27.
Definition ENOSPC : Z := 28.
Definition ETIMEDOUT : Z := 110.

(** ** Word memory

    32-bit words at byte addresses; a word that was never written reads 0. *)

Abbreviation wmem := (gmap Z Z).

Definition rd (m : gmap Z Z) (a : Z) : Z := default 0 (m !! a).
Definition wr (m : gmap Z Z) (a v : Z) : gmap Z Z := <[a := v]> m.

Lemma rd_wr_eq m a v : rd (wr m a v) a = v.
Proof. unfold rd, wr. by rewrite lookup_insert_eq. Qed.

Lemma rd_wr_ne m a b v : a <> b -> rd (wr m a v) b = rd m b.
Proof. intros. unfold rd, wr. by rewrite lookup_insert_ne. Qed.

Lemma rd_wr m a b v : rd (wr m a v) b = if decide (a = b) then v else rd m b.
Proof. case_decide; subst; [apply rd_wr_eq | by apply rd_wr_ne]. Qed.

(** ** Counted loops

    [zfor n i f a] runs [f i], [f (i+1)], ... for [n] iterations (a C [for] loop
    without an exit); [zfirst n i p] is the loop that stops at the first index
    satisfying [p]. *)

Fixpoint zfor {A} (n : nat) (i : Z) (f : Z -> A -> A) (a : A) : A :=
  match n with
  | O => a
  | S n => zfor n (i + 1) f (f i a)
  end.

Fixpoint zfirst (n : nat) (i : Z) (p : Z -> bool) : option Z :=
  match n with
  | O => None
  | S n => if p i then Some i else zfirst n (i + 1) p
  end.

Lemma zfor_inv {A} (P : Z -> A -> Prop) n i (f : Z -> A -> A) a :
  P i a ->
  (forall j b, i <= j < i + Z.of_nat n -> P j b -> P (j + 1) (f j b)) ->
  P (i + Z.of_nat n) (zfor n i f a).
Proof.
  revert i a. induction n as [|n IH]; intros i a H0 HS; simpl zfor.
  - by rewrite Z.add_0_r.
  - replace (i + Z.of_nat (S n)) with (i + 1 + Z.of_nat n) by lia.
    apply IH; [apply HS; [lia|done]|]. intros j b Hj Hb. apply HS; [lia|done].
Qed.

Lemma zfor_S {A} n i (f : Z -> A -> A) a :
  zfor (S n) i f a = f (i + Z.of_nat n) (zfor n i f a).
Proof.
  revert i a. induction n as [|n IH]; intros i a.
  - simpl. by rewrite Z.add_0_r.
  - change (zfor (S (S n)) i f a) with (zfor (S n) (i + 1) f (f i a)).
    rewrite IH. simpl zfor. f_equal. lia.
Qed.

Lemma zfirst_Some n i p k :
  zfirst n i p = Some k ->
  i <= k < i + Z.of_nat n /\ p k = true /\ (forall j, i <= j < k -> p j = false).
Proof.
  revert i. induction n as [|n IH]; intros i H; simpl in H; [done|].
  destruct (p i) eqn:E.
  - simplify_eq. split; [lia|]. split; [done|]. lia.
  - apply IH in H as (H1 & H2 & H3). split; [lia|]. split; [done|].
    intros j Hj. destruct (decide (j = i)) as [->|]; [done|]. apply H3. lia.
Qed.

Lemma zfirst_None n i p :
  zfirst n i p = None -> forall j, i <= j < i + Z.of_nat n -> p j = false.
Proof.
  revert i. induction n as [|n IH]; intros i H j Hj; simpl in H; [lia|].
  destruct (p i) eqn:E; [done|].
  destruct (decide (j = i)) as [->|]; [done|]. apply (IH (i + 1)); [done|lia].
Qed.

(** ** Outcomes

    What a call does besides returning: [Fault] is an access the C standard leaves
    undefined (outside an array, through a null pointer, of an uninitialised
    variable), [Panic] a call of [panic], [NoFuel] an exhausted loop bound or a wait that
    nothing ends. *)

Inductive outcome (A : Type) :=
  | Ret (a : A)
  | Fault
  | Panic
  | NoFuel.
Arguments Ret {A} a.
Arguments Fault {A}.
Arguments Panic {A}.
Arguments NoFuel {A}.

#[export] Instance outcome_ret : MRet outcome := fun A a => Ret a.
#[export] Instance outcome_bind : MBind outcome := fun A B k o =>
  match o with Ret a => k a | Fault => Fault | Panic => Panic | NoFuel => NoFuel end.

Definition fuelled {A} (o : option A) : outcome A :=
  match o with Some a => Ret a | None => NoFuel end.
Definition defined {A} (o : option A) : outcome A :=
  match o with Some a => Ret a | None => Fault end.

Lemma ret_bind {A B} (a : A) (k : A -> outcome B) : mret a ≫= k = k a.
Proof. done. Qed.

Lemma Ret_bind {A B} (a : A) (k : A -> outcome B) : Ret a ≫= k = k a.
Proof. done. Qed.

Lemma bind_Ret {A B} (k : A -> outcome B) o b :
  o ≫= k = Ret b <-> exists a, o = Ret a /\ k a = Ret b.
Proof. destruct o; simpl; split; naive_solver. Qed.

Lemma fuelled_Ret {A} (o : option A) a : fuelled o = Ret a <-> o = Some a.
Proof. destruct o; simpl; split; naive_solver. Qed.

Lemma defined_Ret {A} (o : option A) a : defined o = Ret a <-> o = Some a.
Proof. destruct o; simpl; split; naive_solver. Qed.

(** The result of a call that returns. *)
Definition returns {A} (o : outcome A) : bool := match o with Ret _ => true | _ => false end.
Definition result {A} (d : A) (o : outcome A) : A := match o with Ret a => a | _ => d end.
Lemma returns_result {A} (d : A) o : returns o = true -> o = Ret (result d o).
Proof. by destruct o. Qed.

(** Opens every [bind] of a hypothesis that ends in [Ret]. *)
Ltac bind_inv :=
  repeat match goal with
  | H : mbind _ _ = Ret _ |- _ => apply bind_Ret in H as (? & ? & H)
  | H : fuelled _ = Ret _ |- _ => apply fuelled_Ret in H
  | H : defined _ = Ret _ |- _ => apply defined_Ret in H
  | H : mret _ = Ret _ |- _ => injection H as H
  | H : Ret _ = Ret _ |- _ => injection H as H
  | H : Fault = Ret _ |- _ => discriminate H
  | H : Panic = Ret _ |- _ => discriminate H
  | H : NoFuel = Ret _ |- _ => discriminate H
  end.

(** ** Automation *)

(** Case analysis on the first integer comparison of the goal or a hypothesis. *)
Ltac zcase :=
  match goal with
  | |- context [?a =? ?b] => destruct (Z.eqb_spec a b)
  | |- context [?a <? ?b] => destruct (Z.ltb_spec a b)
  | |- context [?a <=? ?b] => destruct (Z.leb_spec a b)
  | H : context [?a =? ?b] |- _ => destruct (Z.eqb_spec a b)
  | H : context [?a <? ?b] |- _ => destruct (Z.ltb_spec a b)
  | H : context [?a <=? ?b] |- _ => destruct (Z.leb_spec a b)
  end.

Ltac zcases := repeat (zcase; simpl in *; try lia; try done).

Create HintDb chunos.
#[export] Hint Resolve u32_range u16_range u8_range s32_range : chunos.
#[export] Hint Rewrite rd_wr_eq u32_idem : chunos.
