(* ===== verification/Bitops.v ===== *)
(** * Bitmaps (kernel/bitops.c, include/os/bitops.h)

    A bitmap is an array of [u32] words in word memory, given by the address of
    its first word.  The operations are the ones of [op_bits]; the search is
    [bitmap_find_free_base], whose loop is a fuelled fixpoint on the loop's own
    variables ([i], [again], [sum]). *)

From S2P Require Import Prelude.

Inductive bit_ops_t := BITS_CLEAR | BITS_SET | BITS_READ.

(** [n] is converted to unsigned by the division with [sizeof]. *)
Definition get_bit_pos (n : Z) : Z * Z := (u32 n / 32, u32 n mod 32).

Definition op_bits (m : gmap Z Z) (bit_map n : Z) (ops : bit_ops_t) : gmap Z Z * Z :=
  if bit_map =? 0 then (m, - EINVAL)
  else
    let '(x, y) := get_bit_pos n in
    let a := bit_map + 4 * x in
    match ops with
    | BITS_CLEAR => (wr m a (Z.land (rd m a) (lnot32 (Z.shiftl 1 y))), 0)
    | BITS_SET => (wr m a (Z.lor (rd m a) (Z.shiftl 1 y)), 0)
    | BITS_READ => (m, Z.shiftr (Z.land (rd m a) (Z.shiftl 1 y)) y)
    end.

Definition clear_bit (m : gmap Z Z) (bit_map n : Z) : gmap Z Z :=
  (op_bits m bit_map n BITS_CLEAR).1.
Definition set_bit (m : gmap Z Z) (bit_map n : Z) : gmap Z Z :=
  (op_bits m bit_map n BITS_SET).1.
Definition read_bit (m : gmap Z Z) (bit_map n : Z) : Z :=
  (op_bits m bit_map n BITS_READ).2.

(** The words [DECLARE_BITMAP] and the page allocator reserve for [n] bits. *)
Definition bits_to_long (n : Z) : Z := Z.land (n + 8) 4294967232 / 32.

Definition init_bitmap (m : gmap Z Z) (bitmap n : Z) : gmap Z Z :=
  zfor (Z.to_nat n) 0 (fun i m => clear_bit m bitmap i) m.

(** One run of the [while (1)] body; [None] is "out of fuel". *)
Fixpoint find_free_loop (fuel : nat) (m : gmap Z Z)
    (map start value map_nr count : Z) (i : Z) (again : bool) (sum : Z) : option Z :=
  match fuel with
  | O => None
  | S fuel =>
    let hit := read_bit m map i =? value in
    let sum := if hit then sum + 1 else 0 in
    if hit && (sum =? count) then Some (i + 1 - count)
    else
      let '(i, again, sum) :=
        if i =? map_nr - 1 then (0, true, 0) else (i, again, sum) in
      if again && (i =? start) then Some (- ENOSPC)
      else find_free_loop fuel m map start value map_nr count (i + 1) again sum
  end.

(** The fuel is twice the number of bits: the scan goes once from [start] to the
    end and once from the beginning back to [start]. *)
Definition bitmap_find_free_base (m : gmap Z Z) (map start value map_nr count : Z) : option Z :=
  find_free_loop (Z.to_nat (2 * map_nr)) m map start value map_nr count start false 0.

(** ** Reading and writing single bits *)

(** The bit itself, as a truth value. *)
Definition bit_at (m : gmap Z Z) (map n : Z) : bool :=
  Z.testbit (rd m (map + 4 * (u32 n / 32))) (u32 n mod 32).

Lemma land_shiftl_1 w y : 0 <= y ->
  Z.shiftr (Z.land w (Z.shiftl 1 y)) y = Z.b2z (Z.testbit w y).
Proof.
  intros Hy. apply Z.bits_inj'. intros k Hk.
  rewrite Z.shiftr_spec, Z.land_spec by done.
  destruct (decide (k = 0)) as [->|].
  - rewrite Z.b2z_bit0, Z.add_0_l, Z.shiftl_spec, Z.sub_diag by done.
    by rewrite Z.bit0_odd, andb_true_r.
  - rewrite Z.shiftl_spec by lia. replace (k + y - y) with k by lia.
    assert (Z.testbit 1 k = false) as ->.
    { change 1 with (Z.b2z true). destruct k; try lia. done. }
    rewrite andb_false_r. destruct (Z.testbit w y); simpl.
    + destruct k; try lia; done.
    + by rewrite Z.bits_0.
Qed.

Lemma read_bit_spec m map n :
  map <> 0 -> read_bit m map n = Z.b2z (bit_at m map n).
Proof.
  intros Hm. unfold read_bit, op_bits, get_bit_pos. zcases. simpl.
  apply land_shiftl_1. pose proof (Z.mod_pos_bound (u32 n) 32). lia.
Qed.

Lemma read_bit_01 m map n : map <> 0 -> read_bit m map n = 0 \/ read_bit m map n = 1.
Proof. intros. rewrite read_bit_spec by done. destruct (bit_at _ _ _); simpl; lia. Qed.

Lemma bit_pos_inj k n :
  u32 k / 32 = u32 n / 32 -> u32 k mod 32 = u32 n mod 32 -> u32 k = u32 n.
Proof. intros. rewrite (Z.div_mod (u32 k) 32), (Z.div_mod (u32 n) 32) by lia. lia. Qed.

Lemma testbit_lnot32_shift y k :
  0 <= y < 32 -> 0 <= k < 32 -> Z.testbit (lnot32 (Z.shiftl 1 y)) k = negb (k =? y).
Proof.
  intros. unfold lnot32, u32. change 4294967296 with (2 ^ 32).
  rewrite Z.mod_pow2_bits_low, Z.lnot_spec, Z.shiftl_spec by lia. f_equal.
  destruct (Z.eqb_spec k y) as [->|].
  - by rewrite Z.sub_diag.
  - destruct (decide (k < y)); [by rewrite Z.testbit_neg_r by lia|].
    change 1 with (2 ^ 0). rewrite Z.pow2_bits_false by lia. done.
Qed.

Lemma testbit_shiftl_1 y k : 0 <= y -> 0 <= k -> Z.testbit (Z.shiftl 1 y) k = (k =? y).
Proof.
  intros. rewrite Z.shiftl_1_l. rewrite Z.pow2_bits_eqb by done.
  apply Z.eqb_sym.
Qed.

Lemma bit_at_set m map n k :
  map <> 0 ->
  bit_at (set_bit m map n) map k = if decide (u32 n = u32 k) then true else bit_at m map k.
Proof.
  intros Hm. unfold set_bit, op_bits, get_bit_pos, bit_at. zcases. simpl.
  pose proof (Z.mod_pos_bound (u32 n) 32). pose proof (Z.mod_pos_bound (u32 k) 32).
  rewrite rd_wr. case_decide as E1; case_decide as E2.
  - rewrite E2. by rewrite Z.lor_spec, testbit_shiftl_1, Z.eqb_refl, orb_true_r by lia.
  - rewrite Z.lor_spec, testbit_shiftl_1 by lia.
    replace (rd m (map + 4 * (u32 n / 32))) with (rd m (map + 4 * (u32 k / 32))) by (f_equal; lia).
    zcase; [|by rewrite orb_false_r].
    destruct E2. apply bit_pos_inj; lia.
  - rewrite E2 in E1. lia.
  - done.
Qed.

Lemma bit_at_clear m map n k :
  map <> 0 ->
  bit_at (clear_bit m map n) map k = if decide (u32 n = u32 k) then false else bit_at m map k.
Proof.
  intros Hm. unfold clear_bit, op_bits, get_bit_pos, bit_at. zcases. simpl.
  pose proof (Z.mod_pos_bound (u32 n) 32). pose proof (Z.mod_pos_bound (u32 k) 32).
  rewrite rd_wr. case_decide as E1; case_decide as E2.
  - rewrite E2. by rewrite Z.land_spec, testbit_lnot32_shift, Z.eqb_refl, andb_false_r by lia.
  - rewrite Z.land_spec, testbit_lnot32_shift by lia.
    replace (rd m (map + 4 * (u32 n / 32))) with (rd m (map + 4 * (u32 k / 32))) by (f_equal; lia).
    zcase; [|by rewrite andb_true_r].
    destruct E2. apply bit_pos_inj; lia.
  - rewrite E2 in E1. lia.
  - done.
Qed.

(** ** The search *)

Section Search.
Context (m : gmap Z Z) (map value count : Z).
Hypothesis Hcount : 0 < count.

Let hit (k : Z) : bool := read_bit m map k =? value.

(** [run a c]: the [c] bits from [a] on all read [value]. *)
Definition run (a c : Z) : Prop := forall k, a <= k < a + c -> hit k = true.

(** The state of a scan that began at [lo] and is about to read bit [i]: the
    last [sum] bits form the longest run that ends here, and no run of [count]
    bits ends before [i]. *)
Definition scanning (lo i sum : Z) : Prop :=
  0 <= sum < count /\ lo <= i - sum /\ run (i - sum) sum /\
  (forall a, lo <= a -> a + count <= i -> ~ run a count) /\
  (forall a, lo <= a < i - sum -> ~ run a (i - a)).

Lemma scanning_start lo : scanning lo lo 0.
Proof. split_and!; try lia. intros k; lia. Qed.

Lemma scanning_hit lo i sum :
  scanning lo i sum -> hit i = true -> run (i - sum) (sum + 1).
Proof.
  intros (_ & _ & Hr & _) Hi k Hk.
  destruct (decide (k = i)) as [->|]; [done|]. apply Hr. lia.
Qed.

Lemma scanning_next_hit lo i sum :
  scanning lo i sum -> hit i = true -> sum + 1 <> count -> scanning lo (i + 1) (sum + 1).
Proof.
  intros HS Hi Hne. pose proof (scanning_hit _ _ _ HS Hi) as Hrun.
  destruct HS as (? & ? & Hr & Hno & Hmax).
  split_and!; try lia.
  - by replace (i + 1 - (sum + 1)) with (i - sum) by lia.
  - intros a Ha Hac Hrun'. destruct (decide (a + count <= i)); [by apply (Hno a)|].
    apply (Hmax a); [lia|]. intros k Hk. apply Hrun'. lia.
  - intros a Ha Hrun'. apply (Hmax a); [lia|]. intros k Hk. apply Hrun'. lia.
Qed.

Lemma scanning_next_miss lo i sum :
  scanning lo i sum -> hit i = false -> scanning lo (i + 1) 0.
Proof.
  intros (? & ? & Hr & Hno & Hmax) Hi.
  split_and!; try lia.
  - intros k; lia.
  - intros a Ha Hac Hrun'. destruct (decide (a + count <= i)); [by apply (Hno a)|].
    rewrite (Hrun' i) in Hi by lia. done.
  - intros a Ha Hrun'. rewrite (Hrun' i) in Hi by lia. done.
Qed.

(** One loop step, seen as a scan step: the run is complete, or the scan goes on. *)
Lemma scanning_step lo i sum :
  scanning lo i sum ->
  (hit i = true /\ sum + 1 = count /\ run (i + 1 - count) count /\ lo <= i + 1 - count) \/
  ((hit i && ((if hit i then sum + 1 else 0) =? count)) = false /\
   scanning lo (i + 1) (if hit i then sum + 1 else 0)).
Proof.
  intros HS. destruct (hit i) eqn:Hi; simpl.
  - destruct (Z.eqb_spec (sum + 1) count) as [Heq|Hne].
    + left. split_and!; try done.
      * pose proof (scanning_hit _ _ _ HS Hi) as Hrun. rewrite Heq in Hrun.
        by replace (i + 1 - count) with (i - sum) by lia.
      * destruct HS as (? & ? & _). lia.
    + right. split; [done|]. by apply scanning_next_hit.
  - right. split; [done|]. by eapply scanning_next_miss.
Qed.

(** What a search in the two windows [start .. map_nr-1] and [1 .. start] returns. *)
Definition found_in (start map_nr r : Z) : Prop :=
  run r count /\ ((start <= r /\ r + count <= map_nr) \/ (1 <= r /\ r + count <= start + 1)).
Definition nothing_in (start map_nr : Z) : Prop :=
  forall a, (start <= a /\ a + count <= map_nr) \/ (1 <= a /\ a + count <= start + 1) ->
  ~ run a count.
Definition search_result (start map_nr r : Z) : Prop :=
  (r = - ENOSPC /\ nothing_in start map_nr) \/ found_in start map_nr r.

Lemma second_pass fuel start map_nr i sum :
  1 <= i <= start -> start < map_nr - 1 -> start - i < Z.of_nat fuel ->
  scanning 1 i sum ->
  (forall a, start <= a -> a + count <= map_nr -> ~ run a count) ->
  exists r, find_free_loop fuel m map start value map_nr count i true sum = Some r /\
            search_result start map_nr r.
Proof.
  revert i sum. induction fuel as [|fuel IH]; intros i sum Hi Hs Hf HS Hfst; [lia|].
  simpl. fold (hit i).
  destruct (scanning_step _ _ _ HS) as [(Hh & Hc & Hrun & Hlo)|[Hno HS']].
  - rewrite Hh, Hc, Z.eqb_refl. simpl. eexists; split; [done|].
    right. split; [done|]. lia.
  - rewrite Hno. destruct (Z.eqb_spec i (map_nr - 1)); [lia|]. simpl.
    destruct (Z.eqb_spec i start) as [->|].
    + eexists; split; [done|]. left. split; [done|].
      intros a [[? ?]|[? ?]]; [by apply Hfst|].
      destruct HS' as (_ & _ & _ & Hw & _). by apply Hw.
    + apply IH; try done; lia.
Qed.

Lemma first_pass fuel start map_nr i sum :
  0 <= start <= i -> i < map_nr -> (start < map_nr - 1 \/ start = 0) ->
  map_nr - i + start <= Z.of_nat fuel ->
  scanning start i sum ->
  exists r, find_free_loop fuel m map start value map_nr count i false sum = Some r /\
            search_result start map_nr r.
Proof.
  revert i sum. induction fuel as [|fuel IH]; intros i sum Hi Hs Hend Hf HS; [lia|].
  simpl. fold (hit i).
  destruct (scanning_step _ _ _ HS) as [(Hh & Hc & Hrun & Hlo)|[Hno HS']].
  - rewrite Hh, Hc, Z.eqb_refl. simpl. eexists; split; [done|].
    right. split; [done|]. lia.
  - rewrite Hno. destruct (Z.eqb_spec i (map_nr - 1)) as [->|].
    + cbn [andb]. assert (forall a, start <= a -> a + count <= map_nr -> ~ run a count) as Hfst.
      { destruct HS' as (_ & _ & _ & Hw & _). intros a Ha Hc. apply Hw; lia. }
      destruct (Z.eqb_spec 0 start) as [<-|].
      * eexists; split; [done|]. left. split; [done|].
        intros a [[? ?]|[? ?]]; [by apply Hfst | lia].
      * apply second_pass; try done; try lia. apply scanning_start.
    + cbn [andb]. apply IH; try done; lia.
Qed.

(** Whatever the start, an answer of the loop is right: a run inside the map, or
    the error code. *)
Lemma find_free_loop_sound fuel start map_nr lo i again sum r :
  0 <= start < map_nr -> 0 <= lo -> i < map_nr -> scanning lo i sum ->
  find_free_loop fuel m map start value map_nr count i again sum = Some r ->
  r = - ENOSPC \/ (run r count /\ 0 <= r /\ r + count <= map_nr).
Proof.
  revert lo i again sum. induction fuel as [|fuel IH]; intros lo i again sum Hst Hlo Hi HS; [done|].
  simpl. fold (hit i).
  destruct (scanning_step _ _ _ HS) as [(Hh & Hc & Hrun & Hlo')|[Hno HS']].
  - rewrite Hh, Hc, Z.eqb_refl. simpl. intros [= <-]. right. split; [done|lia].
  - rewrite Hno. destruct (Z.eqb_spec i (map_nr - 1)) as [->|].
    + cbn [andb]. destruct (Z.eqb_spec 0 start); [intros [= <-]; by left|].
      apply (IH 1); try done; try lia. apply scanning_start.
    + destruct (again && (i =? start)); [intros [= <-]; by left|].
      apply (IH lo); try done; lia.
Qed.

Lemma find_free_base_sound start map_nr r :
  0 <= start < map_nr ->
  bitmap_find_free_base m map start value map_nr count = Some r ->
  r = - ENOSPC \/ (run r count /\ 0 <= r /\ r + count <= map_nr).
Proof. intros Hst. apply (find_free_loop_sound _ _ _ start); try lia. apply scanning_start. Qed.

(** The second pass never leaves the loop when it starts at the last bit. *)
Lemma second_pass_diverges fuel map_nr i sum :
  1 <= i <= map_nr - 1 -> scanning 1 i sum ->
  (forall a, 1 <= a -> a + count <= map_nr -> ~ run a count) ->
  find_free_loop fuel m map (map_nr - 1) value map_nr count i true sum = None.
Proof.
  revert i sum. induction fuel as [|fuel IH]; intros i sum Hi HS Hnone; [done|].
  simpl. fold (hit i).
  destruct (scanning_step _ _ _ HS) as [(Hh & Hc & Hrun & Hlo)|[Hno HS']].
  - exfalso. apply (Hnone (i + 1 - count)); [lia|lia|done].
  - rewrite Hno. destruct (Z.eqb_spec i (map_nr - 1)) as [->|].
    + cbn [andb]. destruct (Z.eqb_spec 0 (map_nr - 1)); [lia|].
      apply IH; [lia|apply scanning_start|done].
    + destruct (Z.eqb_spec i (map_nr - 1)); [lia|]. cbn [andb].
      apply IH; [lia|done|done].
Qed.
End Search.

(** ** Frame: the words a bit operation does not touch *)

Lemma rd_set_bit_other m map n a :
  a <> map + 4 * (u32 n / 32) -> rd (set_bit m map n) a = rd m a.
Proof. intros. unfold set_bit, op_bits, get_bit_pos. zcase; [done|]. simpl. by rewrite rd_wr_ne. Qed.

Lemma rd_clear_bit_other m map n a :
  a <> map + 4 * (u32 n / 32) -> rd (clear_bit m map n) a = rd m a.
Proof. intros. unfold clear_bit, op_bits, get_bit_pos. zcase; [done|]. simpl. by rewrite rd_wr_ne. Qed.

(** Setting or clearing [count] bits from [index] on. *)
Definition fill_bits (m : gmap Z Z) (map index count : Z) (update : bool) : gmap Z Z :=
  zfor (Z.to_nat count) index
    (fun i m => if update then set_bit m map i else clear_bit m map i) m.

Lemma bit_at_fill m map index count update k :
  map <> 0 -> 0 <= index -> index + count <= 4294967296 -> 0 <= k < 4294967296 ->
  bit_at (fill_bits m map index count update) map k =
  if decide (index <= k < index + count) then update else bit_at m map k.
Proof.
  intros Hmap Hi Hc Hk. destruct (decide (count <= 0)) as [Hz|Hz].
  { unfold fill_bits. replace (Z.to_nat count) with O by lia. simpl. case_decide; [lia|done]. }
  set (P := fun j m' => bit_at m' map k =
    if decide (index <= k < j) then update else bit_at m map k).
  enough (P (index + Z.of_nat (Z.to_nat count)) (fill_bits m map index count update)) as HP
    by (unfold P in HP; by rewrite Z2Nat.id in HP by lia).
  unfold fill_bits. apply (zfor_inv P); [unfold P; case_decide; [lia|done]|].
  intros j b Hj IH. unfold P in *.
  destruct update; [rewrite bit_at_set by done|rewrite bit_at_clear by done]; rewrite IH;
    rewrite !u32_small by lia; repeat case_decide; try done; lia.
Qed.

Lemma rd_fill m map index count update a :
  0 <= index -> index + count <= 4294967296 ->
  (forall k, index <= k < index + count -> a <> map + 4 * (k / 32)) ->
  rd (fill_bits m map index count update) a = rd m a.
Proof.
  intros Hi Hc Ha. unfold fill_bits.
  apply (zfor_inv (fun (_ : Z) m' => rd m' a = rd m a)
    (Z.to_nat count) index _ m); [done|].
  intros j b Hj IH. rewrite <- IH.
  destruct update; [apply rd_set_bit_other|apply rd_clear_bit_other];
    rewrite u32_small by lia; apply Ha; lia.
Qed.

(** Bits of another bitmap, whose words are elsewhere. *)
Lemma bit_at_fill_other m map index count update map' k :
  0 <= index -> index + count <= 4294967296 -> 0 <= k < 4294967296 ->
  (forall i, index <= i < index + count -> map' + 4 * (k / 32) <> map + 4 * (i / 32)) ->
  bit_at (fill_bits m map index count update) map' k = bit_at m map' k.
Proof.
  intros Hi Hc Hk Ha. unfold bit_at. rewrite (u32_small k) by done.
  by rewrite rd_fill.
Qed.

(** ** Properties *)

(** [set_bit] makes the bit read 1, [clear_bit] makes it read 0, and neither
    changes any other bit of the bitmap. *)
Theorem op_bits_read_write m map n k (Hmap : map <> 0) :
  read_bit (set_bit m map n) map k = (if decide (u32 n = u32 k) then 1 else read_bit m map k) /\
  read_bit (clear_bit m map n) map k = (if decide (u32 n = u32 k) then 0 else read_bit m map k).
Proof.
  rewrite !read_bit_spec, bit_at_set, bit_at_clear by done.
  by case_decide.
Qed.

Lemma op_bits_read_write_witness :
  read_bit (set_bit ∅ 4096 37) 4096 37 = 1 /\ read_bit (clear_bit ∅ 4096 37) 4096 36 = 0.
Proof.
  split.
  - rewrite (proj1 (op_bits_read_write ∅ 4096 37 37 ltac:(lia))). by vm_compute.
  - rewrite (proj2 (op_bits_read_write ∅ 4096 37 36 ltac:(lia))). by vm_compute.
Defined.

(** C33: with the start bit inside the map and not its last bit (or bit 0),
    [bitmap_find_free_base] terminates; it returns the base of [count] bits that
    all have the wanted value, inside [start .. map_nr-1] or [1 .. start], or
    [-ENOSPC] exactly when neither window holds such a run. *)
Theorem bitmap_find_free_base_correct m map start value map_nr count
    (Hcount : 0 < count) (Hstart : 0 <= start < map_nr)
    (Hlast : start < map_nr - 1 \/ start = 0) :
  exists r, bitmap_find_free_base m map start value map_nr count = Some r /\
            search_result m map value count start map_nr r.
Proof.
  apply first_pass; try done; try lia. by apply scanning_start.
Qed.

Definition bitmap_example : gmap Z Z := {[ 4096 := 0xfffffff7 ]}.

Lemma bitmap_find_free_base_correct_witness :
  exists r, bitmap_find_free_base bitmap_example 4096 5 0 32 1 = Some r /\
            search_result bitmap_example 4096 0 1 5 32 r.
Proof. apply (bitmap_find_free_base_correct bitmap_example 4096 5 0 32 1); lia. Defined.

(** A search that starts at the last bit of the map and finds no run never
    returns: the wrap to bit 0 hides the test that ends the second pass. *)
Theorem bitmap_find_free_base_hang m map value map_nr count fuel
    (Hcount : 0 < count) (Hnr : 1 < map_nr)
    (Hnone : forall a, 1 <= a -> a + count <= map_nr -> ~ run m map value a count) :
  find_free_loop fuel m map (map_nr - 1) value map_nr count (map_nr - 1) false 0 = None.
Proof.
  destruct fuel as [|fuel]; [done|]. simpl.
  destruct (scanning_step m map value count Hcount (map_nr - 1) (map_nr - 1) 0)
    as [(_ & _ & Hrun & ?)|[Hno _]]; [by apply scanning_start| |].
  - exfalso. apply (Hnone (map_nr - 1 + 1 - count)); [lia|lia|done].
  - simpl in Hno. rewrite Hno, Z.eqb_refl. destruct (Z.eqb_spec 0 (map_nr - 1)); [lia|]. simpl.
    apply second_pass_diverges; try done; try lia. by apply scanning_start.
Qed.

Lemma bitmap_find_free_base_hang_witness :
  find_free_loop 1000 bitmap_example 4096 (32 - 1) 0 32 2 (32 - 1) false 0 = None.
Proof.
  apply (bitmap_find_free_base_hang bitmap_example 4096 0 32 2 1000); [lia|lia|].
  intros a Ha Hc Hrun.
  pose proof (Hrun a ltac:(lia)) as H1. pose proof (Hrun (a + 1) ltac:(lia)) as H2.
  destruct (decide (a = 3)) as [->|]; [vm_compute in H2; done|].
  assert (a = 1 \/ a = 2 \/ (4 <= a <= 30)) as [->|[->|Hr]] by lia;
    [vm_compute in H1; done|vm_compute in H1; done|].
  assert (zfirst 27 4 (fun b => read_bit bitmap_example 4096 b =? 0) = None) as Hall
    by by vm_compute.
  cbv beta in H1. rewrite (zfirst_None _ _ _ Hall a) in H1 by lia. done.
Defined.

(** The words reserved for a bitmap of [n] bits: exact for multiples of 64, none
    at all below 56 bits. *)
Lemma bits_to_long_exact k : 0 <= k < 67108863 -> bits_to_long (64 * k) = 2 * k.
Proof.
  intros Hk. unfold bits_to_long.
  replace 4294967232 with (Z.ldiff (Z.ones 32) (Z.ones 6)) by done.
  rewrite Z.ldiff_land, Z.land_assoc, Z.land_ones by lia.
  rewrite (Z.mod_small (64 * k + 8)) by (change (2 ^ 32) with 4294967296; lia).
  rewrite <- Z.ldiff_land, Z.ldiff_ones_r, Z.shiftr_div_pow2, Z.shiftl_mul_pow2 by lia.
  change (2 ^ 6) with 64. replace (64 * k + 8) with (8 + k * 64) by lia.
  rewrite Z.div_add, (Z.div_small 8) by lia. rewrite Z.add_0_l.
  replace (k * 64) with (2 * k * 32) by lia. by apply Z.div_mul.
Qed.

(** A bitmap of fewer than 56 bits gets an array of length 0: [tty_bitmap] and
    [iname_buffer] (8 bits each) own no storage. *)
Lemma bits_to_long_short : bits_to_long 8 = 0 /\ bits_to_long 55 = 0.
Proof. by vm_compute. Qed.
