(* ===== verification/Dlist.v ===== *)
(** * Intrusive doubly linked lists (include/os/list.h)

    [struct list_head] nodes live in a heap that gives every node its [next] and
    [pre] pointer; the operations are the source's sequences of stores.  A node is
    never re-initialised when it is deleted, so its stale pointers stay visible, as
    the loops of the kernel that delete while they iterate rely on.

    [dlist h hd xs] is the abstraction: the circular list with head [hd] holds the
    nodes [xs], in order.  The theorems say that each operation implements the
    corresponding operation on sequences, and leaves disjoint lists alone. *)

From S2P Require Import Prelude.

Section Dlist.
Context {K : Type} `{EqDecision K}.

Record lheap := Lheap { lnext : K -> K; lpre : K -> K }.

Definition set_next (h : lheap) (a v : K) : lheap :=
  Lheap (fun k => if decide (k = a) then v else lnext h k) (lpre h).
Definition set_pre (h : lheap) (a v : K) : lheap :=
  Lheap (lnext h) (fun k => if decide (k = a) then v else lpre h k).

Definition init_list (h : lheap) (list : K) : lheap :=
  set_pre (set_next h list list) list list.

Definition list_add (h : lheap) (head new : K) : lheap :=
  let h := set_pre h (lnext h head) new in
  let h := set_next h new (lnext h head) in
  let h := set_pre h new head in
  set_next h head new.

Definition list_add_tail (h : lheap) (head new : K) : lheap :=
  let h := set_next h (lpre h head) new in
  let h := set_next h new head in
  let h := set_pre h new (lpre h head) in
  set_pre h head new.

Definition list_del (h : lheap) (list : K) : lheap :=
  let h := set_pre h (lnext h list) (lpre h list) in
  set_next h (lpre h list) (lnext h list).

Definition list_del_tail (h : lheap) (head : K) : lheap :=
  let h := set_next h (lpre h (lpre h head)) head in
  set_pre h head (lpre h (lpre h head)).

Definition is_list_empty (h : lheap) (head : K) : bool := bool_decide (lnext h head = head).
Definition is_list_last (h : lheap) (head list : K) : bool := bool_decide (lnext h list = head).
Definition list_next (h : lheap) (list : K) : K := lnext h list.
Definition list_prve (h : lheap) (list : K) : K := lpre h list.

(** [list_for_each]: the body runs on a state that contains the heap, and the
    successor is read after the body ran. *)
Fixpoint list_for_each {A} (fuel : nat) (heap : A -> lheap) (head list : K)
    (body : K -> A -> A) (a : A) : option A :=
  match fuel with
  | O => None
  | S fuel =>
    if decide (list = head) then Some a
    else let a := body list a in
         list_for_each fuel heap head (lnext (heap a) list) body a
  end.

(** The same loop with a body that can fail. *)
Fixpoint list_for_each_m {A} (fuel : nat) (heap : A -> lheap) (head list : K)
    (body : K -> A -> outcome A) (a : A) : outcome A :=
  match fuel with
  | O => NoFuel
  | S fuel =>
    if decide (list = head) then mret a
    else a ← body list a; list_for_each_m fuel heap head (lnext (heap a) list) body a
  end.

(** ** The abstraction *)

Fixpoint chain (h : lheap) (a : K) (xs : list K) (b : K) : Prop :=
  match xs with
  | [] => lnext h a = b /\ lpre h b = a
  | x :: xs => lnext h a = x /\ lpre h x = a /\ chain h x xs b
  end.

Definition dlist (h : lheap) (head : K) (xs : list K) : Prop :=
  NoDup (head :: xs) /\ chain h head xs head.

Lemma chain_app h a xs x ys b :
  chain h a (xs ++ x :: ys) b <-> chain h a xs x /\ chain h x ys b.
Proof.
  revert a. induction xs as [|y xs IH]; intros a; simpl.
  - tauto.
  - rewrite IH. tauto.
Qed.

Lemma chain_frame h h' a xs b :
  (forall u, u ∈ a :: xs -> lnext h' u = lnext h u) ->
  (forall v, v ∈ xs ++ [b] -> lpre h' v = lpre h v) ->
  chain h a xs b -> chain h' a xs b.
Proof.
  revert a. induction xs as [|x xs IH]; intros a Hn Hp; simpl.
  - intros [H1 H2]. rewrite Hn, Hp by set_solver. done.
  - intros (H1 & H2 & H3). rewrite Hn, Hp by set_solver. split_and!; [done..|].
    apply IH; [| |done]; intros; [apply Hn|apply Hp]; set_solver.
Qed.

Lemma chain_first h a xs b : chain h a xs b -> lnext h a = hd b xs.
Proof. destruct xs; simpl; tauto. Qed.

Lemma chain_last h a xs b : chain h a xs b -> lpre h b = List.last xs a.
Proof.
  revert a. induction xs as [|x xs IH]; intros a; simpl; [tauto|].
  intros (_ & _ & H). rewrite (IH _ H). clear. destruct xs; [done|].
  simpl. revert k. induction xs as [|y xs IH]; intros k; [done|]. apply (IH y).
Qed.

Lemma dlist_frame h h' hd xs :
  (forall u, u ∈ hd :: xs -> lnext h' u = lnext h u /\ lpre h' u = lpre h u) ->
  dlist h hd xs -> dlist h' hd xs.
Proof.
  intros Hf [Hnd Hc]. split; [done|].
  eapply chain_frame; [| |exact Hc]; intros u Hu; apply Hf; set_solver.
Qed.

Lemma dlist_next h head xs ys x :
  dlist h head (xs ++ x :: ys) -> lnext h x = hd head ys.
Proof. intros [_ Hc]. apply chain_app in Hc as [_ Hc]. by eapply chain_first. Qed.

Lemma dlist_first h head xs : dlist h head xs -> lnext h head = hd head xs.
Proof. intros [_ Hc]. by eapply chain_first. Qed.

Lemma dlist_inj h head xs ys : dlist h head xs -> dlist h head ys -> xs = ys.
Proof.
  intros [Hx Hcx] [Hy Hcy].
  apply NoDup_cons in Hx as [Hnx _]. apply NoDup_cons in Hy as [Hny _].
  cut (forall a, chain h a xs head -> chain h a ys head -> xs = ys); [eauto|].
  clear Hcx Hcy. revert ys Hnx Hny.
  induction xs as [|x xs IH]; intros [|y ys] Hnx Hny a; simpl.
  - done.
  - intros [H1 _] (H2 & _). set_solver.
  - intros (H1 & _) [H2 _]. set_solver.
  - intros (H1 & _ & H1') (H2 & _ & H2'). assert (x = y) as -> by congruence.
    f_equal. eapply IH; [set_solver|set_solver|done|done].
Qed.

(** ** What each operation changes *)

Lemma list_add_next h head n u :
  lnext (list_add h head n) u =
  if decide (u = head) then n else if decide (u = n) then lnext h head else lnext h u.
Proof. done. Qed.

Lemma list_add_pre h head n u :
  lpre (list_add h head n) u =
  if decide (u = n) then head else if decide (u = lnext h head) then n else lpre h u.
Proof. done. Qed.

Lemma list_add_tail_next h head n u :
  lnext (list_add_tail h head n) u =
  if decide (u = n) then head else if decide (u = lpre h head) then n else lnext h u.
Proof. done. Qed.

Lemma list_add_tail_pre h head n u :
  lpre (list_add_tail h head n) u =
  if decide (u = head) then n else if decide (u = n) then lpre h head else lpre h u.
Proof. done. Qed.

Lemma list_del_next h n u :
  lnext (list_del h n) u = if decide (u = lpre h n) then lnext h n else lnext h u.
Proof. unfold list_del. simpl. by destruct (decide (n = lnext h n)). Qed.

Lemma list_del_pre h n u :
  lpre (list_del h n) u = if decide (u = lnext h n) then lpre h n else lpre h u.
Proof. done. Qed.

Ltac members :=
  rewrite ?not_elem_of_cons, ?not_elem_of_app, ?elem_of_cons, ?elem_of_app in *;
  rewrite ?list_elem_of_singleton in *; destruct_and?.
Ltac lcases :=
  do 2 members; repeat case_decide; try congruence;
  try (exfalso; intuition congruence); intuition congruence.

Lemma dlist_init h head : dlist (init_list h head) head [].
Proof.
  split; [apply NoDup_singleton|]. simpl. by rewrite !decide_True.
Qed.

(** ** Refinement of sequence operations *)

Lemma list_add_dlist h head xs n :
  dlist h head xs -> n ∉ head :: xs -> dlist (list_add h head n) head (n :: xs).
Proof.
  intros [Hnd Hc] Hn. split.
  { apply NoDup_cons in Hnd as [??]. apply NoDup_cons.
    split; [set_solver|]. apply NoDup_cons. set_solver. }
  cbn [chain]. rewrite list_add_next, list_add_pre, !decide_True by done.
  split_and!; [done..|].
  pose proof (chain_first _ _ _ _ Hc) as Hf.
  destruct xs as [|x xs]; simpl in Hf; cbn [chain] in *.
  - rewrite list_add_next, list_add_pre. lcases.
  - destruct Hc as (H1 & H2 & H3). apply NoDup_cons in Hnd as [? [? ?]%NoDup_cons].
    rewrite list_add_next, list_add_pre.
    split_and!; [lcases|lcases|].
    eapply chain_frame; [| |exact H3]; intros u Hu.
    + rewrite list_add_next. lcases.
    + rewrite list_add_pre. lcases.
Qed.

Lemma last_snoc_default (xs : list K) x a : List.last (xs ++ [x]) a = x.
Proof. apply List.last_last. Qed.

Lemma list_add_tail_dlist h head xs n :
  dlist h head xs -> n ∉ head :: xs -> dlist (list_add_tail h head n) head (xs ++ [n]).
Proof.
  intros [Hnd Hc] Hn. split.
  { apply NoDup_cons in Hnd as [??]. apply NoDup_cons.
    split; [set_solver|]. apply NoDup_app. split_and!; [done|set_solver|apply NoDup_singleton]. }
  apply chain_app. cbn [chain].
  pose proof (chain_last _ _ _ _ Hc) as Hl.
  destruct xs as [|x xs _] using rev_ind; simpl in Hl.
  - cbn [chain] in *. rewrite !list_add_tail_next, !list_add_tail_pre. lcases.
  - rewrite last_snoc_default in Hl.
    apply chain_app in Hc as [Hc1 Hc2]. cbn [chain] in Hc2.
    assert (x <> head /\ x ∉ xs /\ head ∉ xs) as (? & ? & ?).
    { apply NoDup_cons in Hnd as [? (? & ? & ?)%NoDup_app]. set_solver. }
    rewrite chain_app. cbn [chain]. rewrite !list_add_tail_next, !list_add_tail_pre.
    split_and!; try (lcases; fail).
    eapply chain_frame; [| |exact Hc1]; intros u Hu.
    + rewrite list_add_tail_next. lcases.
    + rewrite list_add_tail_pre. lcases.
Qed.

Lemma list_del_dlist h head xs n ys :
  dlist h head (xs ++ n :: ys) -> dlist (list_del h n) head (xs ++ ys).
Proof.
  intros [Hnd Hc].
  apply NoDup_cons in Hnd as [Hhd (Hx & Hdis & [Hn Hy]%NoDup_cons)%NoDup_app].
  split.
  { apply NoDup_cons. split; [set_solver|]. apply NoDup_app. set_solver. }
  apply chain_app in Hc as [Hc1 Hc2].
  pose proof (chain_last _ _ _ _ Hc1) as Hl. pose proof (chain_first _ _ _ _ Hc2) as Hf.
  destruct ys as [|y ys]; simpl in Hf.
  - rewrite app_nil_r. destruct xs as [|x xs _] using rev_ind; simpl in Hl; cbn [chain] in *.
    + rewrite list_del_next, list_del_pre. lcases.
    + rewrite last_snoc_default in Hl. apply chain_app in Hc1 as [Hc1 _].
      apply NoDup_app in Hx as (_ & Hxs & _). assert (x ∉ xs) by set_solver.
      rewrite chain_app. cbn [chain]. rewrite list_del_next, list_del_pre.
      split_and!; [|lcases|lcases].
      eapply chain_frame; [| |exact Hc1]; intros u Hu.
      * rewrite list_del_next. lcases.
      * rewrite list_del_pre. lcases.
  - assert (y ∉ xs) by set_solver. apply NoDup_cons in Hy as [??]. cbn [chain] in Hc2. destruct Hc2 as (_ & _ & Hc2).
    rewrite chain_app. split.
    + destruct xs as [|x xs _] using rev_ind; simpl in Hl; cbn [chain] in *.
      * rewrite list_del_next, list_del_pre. lcases.
      * rewrite last_snoc_default in Hl. apply chain_app in Hc1 as [Hc1 _].
        apply NoDup_app in Hx as (_ & Hxs & _). assert (x ∉ xs) by set_solver.
        rewrite chain_app. cbn [chain]. rewrite list_del_next, list_del_pre.
        split_and!; [|lcases|lcases].
        eapply chain_frame; [| |exact Hc1]; intros u Hu.
        -- rewrite list_del_next. lcases.
        -- rewrite list_del_pre. lcases.
    + assert (lpre h n ∉ y :: ys).
      { rewrite Hl. clear -Hdis Hhd. destruct xs as [|x xs _] using rev_ind; simpl; [set_solver|].
        rewrite last_snoc_default. set_solver. }
      eapply chain_frame; [| |exact Hc2]; intros u Hu.
      * rewrite list_del_next. lcases.
      * rewrite list_del_pre. lcases.
Qed.

(** The neighbours of a member are the head or members. *)
Lemma dlist_next_in h head xs n : dlist h head xs -> n ∈ head :: xs -> lnext h n ∈ head :: xs.
Proof.
  intros Hd Hn. apply elem_of_cons in Hn as [->|Hn].
  - rewrite (dlist_first _ _ _ Hd). destruct xs; set_solver.
  - apply list_elem_of_split in Hn as (l1 & l2 & ->).
    rewrite (dlist_next _ _ _ _ _ Hd). destruct l2; set_solver.
Qed.

Lemma dlist_pre_in h head xs n : dlist h head xs -> n ∈ head :: xs -> lpre h n ∈ head :: xs.
Proof.
  intros [_ Hc] Hn. apply elem_of_cons in Hn as [->|Hn].
  - rewrite (chain_last _ _ _ _ Hc).
    destruct xs as [|x xs _] using rev_ind; [set_solver|]. rewrite last_snoc_default. set_solver.
  - apply list_elem_of_split in Hn as (l1 & l2 & ->).
    apply chain_app in Hc as [Hc _]. rewrite (chain_last _ _ _ _ Hc).
    destruct l1 as [|x l1 _] using rev_ind; [set_solver|]. rewrite last_snoc_default. set_solver.
Qed.

(** [u] is a node of another list, so it is none of the nodes touched here. *)
Ltac foreign u Hu Hdis :=
  split_and!; intros ->; refine (Hdis _ _ Hu); set_solver.

(** An operation on one list leaves every disjoint list as it is. *)
Lemma list_add_other h head xs n hd' ys :
  dlist h head xs -> dlist h hd' ys -> (forall u, u ∈ head :: n :: xs -> u ∉ hd' :: ys) ->
  dlist (list_add h head n) hd' ys.
Proof.
  intros Hd Hd' Hdis. eapply dlist_frame; [|exact Hd']. intros u Hu.
  pose proof (dlist_next_in _ _ _ head Hd ltac:(left)) as Hin.
  rewrite list_add_next, list_add_pre.
  assert (u <> head /\ u <> n /\ u <> lnext h head) as (? & ? & ?) by (foreign u Hu Hdis).
  by rewrite !decide_False.
Qed.

Lemma list_add_tail_other h head xs n hd' ys :
  dlist h head xs -> dlist h hd' ys -> (forall u, u ∈ head :: n :: xs -> u ∉ hd' :: ys) ->
  dlist (list_add_tail h head n) hd' ys.
Proof.
  intros Hd Hd' Hdis. eapply dlist_frame; [|exact Hd']. intros u Hu.
  pose proof (dlist_pre_in _ _ _ head Hd ltac:(left)) as Hin.
  rewrite list_add_tail_next, list_add_tail_pre.
  assert (u <> head /\ u <> n /\ u <> lpre h head) as (? & ? & ?) by (foreign u Hu Hdis).
  by rewrite !decide_False.
Qed.

Lemma list_del_other h head xs n hd' ys :
  dlist h head xs -> n ∈ xs -> dlist h hd' ys -> (forall u, u ∈ head :: xs -> u ∉ hd' :: ys) ->
  dlist (list_del h n) hd' ys.
Proof.
  intros Hd Hn Hd' Hdis. eapply dlist_frame; [|exact Hd']. intros u Hu.
  pose proof (dlist_pre_in _ _ _ n Hd ltac:(by right)) as Hin.
  pose proof (dlist_next_in _ _ _ n Hd ltac:(by right)) as Hin'.
  rewrite list_del_next, list_del_pre.
  assert (u <> lpre h n /\ u <> lnext h n) as (? & ?) by (foreign u Hu Hdis).
  by rewrite !decide_False.
Qed.

(** A deleted node keeps its own successor pointer. *)
Lemma list_del_stale h head xs n : dlist h head xs -> n ∈ xs -> lnext (list_del h n) n = lnext h n.
Proof.
  intros Hd Hn. rewrite list_del_next. case_decide as E; [|done].
  exfalso. destruct Hd as [Hnd Hc]. apply list_elem_of_split in Hn as (l1 & l2 & ->).
  apply chain_app in Hc as [Hc _]. rewrite (chain_last _ _ _ _ Hc) in E.
  apply NoDup_cons in Hnd as [Hhd (Hx & Hdis & _)%NoDup_app].
  destruct l1 as [|x l1 _] using rev_ind; simpl in E; [set_solver|].
  rewrite last_snoc_default in E. set_solver.
Qed.

(** [list_for_each] by an invariant on the nodes still to visit: the body may
    unlink the node it was given, as long as that node's successor pointer still
    leads to the next one. *)
Lemma list_for_each_inv {A} (P : list K -> A -> Prop) (heap : A -> lheap) head
    (body : K -> A -> A) :
  (forall x rest a, P (x :: rest) a ->
     x <> head /\ P rest (body x a) /\ lnext (heap (body x a)) x = hd head rest) ->
  forall xs fuel a, P xs a -> (length xs < fuel)%nat ->
  exists a', list_for_each fuel heap head (hd head xs) body a = Some a' /\ P [] a'.
Proof.
  intros Hstep xs. induction xs as [|x xs IH]; intros fuel a HP Hf.
  - destruct fuel; simpl in *; [lia|]. rewrite decide_True by done. eauto.
  - destruct fuel; simpl in *; [lia|]. destruct (Hstep _ _ _ HP) as (Hne & HP' & Hnext).
    rewrite decide_False by done. rewrite Hnext. apply IH; [done|lia].
Qed.
Lemma list_for_each_m_inv {A} (P : list K -> A -> Prop) (heap : A -> lheap) head
    (body : K -> A -> outcome A) :
  (forall x rest a, P (x :: rest) a ->
     x <> head /\ exists a', body x a = Ret a' /\ P rest a' /\ lnext (heap a') x = hd head rest) ->
  forall xs fuel a, P xs a -> (length xs < fuel)%nat ->
  exists a', list_for_each_m fuel heap head (hd head xs) body a = Ret a' /\ P [] a'.
Proof.
  intros Hstep xs. induction xs as [|x xs IH]; intros fuel a HP Hf.
  - destruct fuel; simpl in *; [lia|]. rewrite decide_True by done. eauto.
  - destruct fuel; simpl in *; [lia|]. destruct (Hstep _ _ _ HP) as (Hne & a' & E & HP' & Hnext).
    rewrite decide_False by done. rewrite E. simpl. rewrite Hnext. apply IH; [done|lia].
Qed.

(** ** Families of lists

    [family h heads F]: the head [a] of [heads] has the nodes [F a], and no node is on two
    of the lists. *)

Definition family (h : lheap) (heads : K -> Prop) (F : K -> list K) : Prop :=
  (forall a, heads a -> dlist h a (F a)) /\
  (forall a b x, heads a -> heads b -> x ∈ a :: F a -> x ∈ b :: F b -> a = b).

Definition fupd {B} (F : K -> B) (a : K) (v : B) : K -> B := fun x => if decide (x = a) then v else F x.

Lemma fupd_eq {B} (F : K -> B) a v : fupd F a v a = v.
Proof. unfold fupd. by rewrite decide_True. Qed.

Lemma fupd_ne {B} (F : K -> B) a v b : b <> a -> fupd F a v b = F b.
Proof. intros. unfold fupd. by rewrite decide_False. Qed.

(** One list changes, to nodes it had and nodes no list had. *)
Lemma family_change h h' heads F a xs :
  family h heads F -> heads a -> dlist h' a xs ->
  (forall x, x ∈ xs -> x ∈ F a \/ forall b, heads b -> x ∉ b :: F b) ->
  (forall b, heads b -> b <> a -> dlist h' b (F b)) ->
  family h' heads (fupd F a xs).
Proof.
  intros [Hd Hdis] Ha Hxs Hnew Hoth.
  assert (forall x b, heads b -> b <> a -> x ∈ a :: xs -> x ∉ b :: F b) as Hsep.
  { intros x b Hb Hne [->|Hx]%elem_of_cons Hxb.
    - apply Hne. eapply Hdis; [done|exact Ha|exact Hxb|left].
    - destruct (Hnew x Hx) as [Hx'|Hx']; [|by eapply Hx'].
      apply Hne. eapply Hdis; [done|exact Ha|exact Hxb|by right]. }
  split.
  - intros b Hb. destruct (decide (b = a)) as [->|Hne]; [by rewrite fupd_eq|].
    rewrite fupd_ne by done. by apply Hoth.
  - intros b c x Hb Hc. destruct (decide (b = a)) as [->|Hnb], (decide (c = a)) as [->|Hnc];
      rewrite ?fupd_eq, ?fupd_ne by done; intros H1 H2; try done.
    + by destruct (Hsep x c Hc Hnc H1).
    + by destruct (Hsep x b Hb Hnb H2).
    + by eapply Hdis.
Qed.

Lemma family_add_tail h heads F a n :
  family h heads F -> heads a -> (forall b, heads b -> n ∉ b :: F b) ->
  family (list_add_tail h a n) heads (fupd F a (F a ++ [n])).
Proof.
  intros HF Ha Hn. pose proof HF as [Hd Hdis]. eapply family_change; [exact HF|done| | |].
  - apply list_add_tail_dlist; auto.
  - intros x [Hx|Hx]%elem_of_app; [by left|right]. apply list_elem_of_singleton in Hx as ->. done.
  - intros b Hb Hne. eapply list_add_tail_other; [by apply Hd|by apply Hd|]. intros u Hu Hub.
    apply elem_of_cons in Hu as [->|Hu]; [apply Hne; by eapply Hdis; [..|left]|].
    apply elem_of_cons in Hu as [->|Hu]; [by eapply Hn|].
    apply Hne. eapply Hdis; [done|exact Ha|exact Hub|by right].
Qed.

Lemma family_add h heads F a n :
  family h heads F -> heads a -> (forall b, heads b -> n ∉ b :: F b) ->
  family (list_add h a n) heads (fupd F a (n :: F a)).
Proof.
  intros HF Ha Hn. pose proof HF as [Hd Hdis]. eapply family_change; [exact HF|done| | |].
  - apply list_add_dlist; auto.
  - intros x [->|Hx]%elem_of_cons; [by right|by left].
  - intros b Hb Hne. eapply list_add_other; [by apply Hd|by apply Hd|]. intros u Hu Hub.
    apply elem_of_cons in Hu as [->|Hu]; [apply Hne; by eapply Hdis; [..|left]|].
    apply elem_of_cons in Hu as [->|Hu]; [by eapply Hn|].
    apply Hne. eapply Hdis; [done|exact Ha|exact Hub|by right].
Qed.

Lemma family_del h heads F a xs n ys :
  family h heads F -> heads a -> F a = xs ++ n :: ys ->
  family (list_del h n) heads (fupd F a (xs ++ ys)) /\ lnext (list_del h n) n = lnext h n.
Proof.
  intros HF Ha E. pose proof HF as [Hd Hdis]. pose proof (Hd a Ha) as Hda. rewrite E in Hda.
  assert (n ∈ xs ++ n :: ys) as Hn by (apply elem_of_app; right; left).
  split; [|by eapply list_del_stale].
  eapply family_change; [exact HF|done|by apply list_del_dlist| |].
  - intros x Hx. left. rewrite E. apply elem_of_app in Hx as [Hx|Hx]; apply elem_of_app; [by left|].
    right. by right.
  - intros b Hb Hne. eapply list_del_other; [exact Hda|done|by apply Hd|]. intros u Hu Hub.
    apply Hne. eapply Hdis; [done|exact Ha|exact Hub|]. by rewrite E.
Qed.
End Dlist.

Arguments lheap : clear implicits.
Arguments Lheap {K} _ _.

#[export] Hint Resolve dlist_init list_add_dlist list_add_tail_dlist list_del_dlist : chunos.
