(* ===== verification/Mm.v ===== *)
(** * The page allocator (mm/mm.c)

    [mm_bank] with its zones and sections is a record; a [struct mm_section *] is a
    pair of indices (zone, section).  Bitmaps live in one word memory and page
    descriptors in one table keyed by the address of the [struct page], so that two
    sections whose arrays overlap would really share them.  [zone_mutex] records
    whether the zone's mutex is held by the running path (Mutex.v models the lock
    itself). *)

From S2P Require Import Prelude Bitops Dlist.

Definition __GFP_KERNEL : Z := 0x1.
Definition __GFP_DMA : Z := 0x2.
Definition __GFP_RES : Z := 0x4.
Definition __GFP_USER : Z := 0x8.
Definition GFP_ZONE_ID_MASK : Z := 0xff.
Definition __GFP_PGT : Z := 0x100.
Definition __GFP_MMAP : Z := 0x200.
Definition __GFP_SLAB : Z := 0x400.
Definition __GFP_PAGE_HEADER : Z := 0x10000.
Definition GFP_KERNEL : Z := __GFP_KERNEL.
Definition GFP_USER : Z := __GFP_USER.
Definition GFP_PGT : Z := Z.lor __GFP_KERNEL __GFP_PGT.
Definition GFP_SLAB : Z := Z.lor __GFP_KERNEL __GFP_SLAB.

Definition MM_ZONE_KERNEL : Z := 0.
Definition MM_ZONE_DMA : Z := 1.
Definition MM_ZONE_RES : Z := 2.
Definition MM_ZONE_USER : Z := 3.
Definition MM_ZONE_UNKNOWN : Z := 4.
Definition ZONE_MAX_SECTION : Z := 4.

(** [struct page]; its [plist] node lives in [plists], keyed by its address. *)
Record page := Page {
  phy_address : Z;
  map_address : Z;
  pflag : Z;
  pcount : Z;
  pinfo : Z;
  pdata : Z }.

Definition zero_page : page := Page 0 0 0 0 0 0.
Definition sizeof_page : Z := 28.
Definition plist_offset : Z := 12.

Record mm_section := MmSection {
  phy_start : Z;
  vir_start : Z;
  size : Z;
  nr_page : Z;
  pv_offset : Z;
  maped_size : Z;
  bm_end : Z;
  bm_current : Z;
  nr_free_pages : Z;
  bitmap : Z;
  section_table_id : Z;
  page_table : Z }.

Definition zero_section : mm_section := MmSection 0 0 0 0 0 0 0 0 0 0 0 0.

Record mm_zone := MmZone {
  memory_section : list mm_section;
  nr_section : Z;
  zone_mutex : bool;
  zone_maped_size : Z;
  map_base : Z;
  page_num : Z;
  zone_free_pages : Z }.

Definition zero_zone : mm_zone := MmZone (replicate 4 zero_section) 0 false 0 0 0 0.

Definition sref : Set := nat * nat.

Record mm_bank := MmBank {
  total_size : Z;
  total_page : Z;
  zone : list mm_zone;
  section_table : list (option sref);
  bitmaps : gmap Z Z;
  pages : gmap Z page;
  plists : lheap Z }.

(** ** Field updates *)

Definition set_zones (mm : mm_bank) (zs : list mm_zone) : mm_bank :=
  MmBank (total_size mm) (total_page mm) zs (section_table mm) (bitmaps mm) (pages mm) (plists mm).
Definition set_bitmaps (mm : mm_bank) (b : gmap Z Z) : mm_bank :=
  MmBank (total_size mm) (total_page mm) (zone mm) (section_table mm) b (pages mm) (plists mm).
Definition set_pages (mm : mm_bank) (p : gmap Z page) (l : lheap Z) : mm_bank :=
  MmBank (total_size mm) (total_page mm) (zone mm) (section_table mm) (bitmaps mm) p l.

Definition zone_set_sections (z : mm_zone) (ss : list mm_section) : mm_zone :=
  MmZone ss (nr_section z) (zone_mutex z) (zone_maped_size z) (map_base z) (page_num z)
    (zone_free_pages z).
Definition zone_set_mutex (b : bool) (z : mm_zone) : mm_zone :=
  MmZone (memory_section z) (nr_section z) b (zone_maped_size z) (map_base z) (page_num z)
    (zone_free_pages z).
Definition zone_add_free (d : Z) (z : mm_zone) : mm_zone :=
  MmZone (memory_section z) (nr_section z) (zone_mutex z) (zone_maped_size z) (map_base z)
    (page_num z) (s32 (zone_free_pages z + d)).

Definition section_set_current (c : Z) (s : mm_section) : mm_section :=
  MmSection (phy_start s) (vir_start s) (size s) (nr_page s) (pv_offset s) (maped_size s)
    (bm_end s) c (nr_free_pages s) (bitmap s) (section_table_id s) (page_table s).
Definition section_add_free (d : Z) (s : mm_section) : mm_section :=
  MmSection (phy_start s) (vir_start s) (size s) (nr_page s) (pv_offset s) (maped_size s)
    (bm_end s) (bm_current s) (s32 (nr_free_pages s + d)) (bitmap s) (section_table_id s)
    (page_table s).

Definition zone_at (mm : mm_bank) (i : nat) : mm_zone := default zero_zone (zone mm !! i).
Definition section_at (mm : mm_bank) (r : sref) : mm_section :=
  default zero_section (memory_section (zone_at mm r.1) !! r.2).

Definition upd_zone (i : nat) (f : mm_zone -> mm_zone) (mm : mm_bank) : mm_bank :=
  set_zones mm (alter f i (zone mm)).
Definition upd_section (r : sref) (f : mm_section -> mm_section) (mm : mm_bank) : mm_bank :=
  upd_zone r.1 (fun z => zone_set_sections z (alter f r.2 (memory_section z))) mm.

Definition page_at (mm : mm_bank) (pg : Z) : page := default zero_page (pages mm !! pg).

(** ** Address translation *)

(** The [while (1)] over [section_table]; its end is the null entry. *)
Fixpoint table_search (mm : mm_bank) (p : mm_section -> bool) (t : list (option sref)) : option sref :=
  match t with
  | [] | None :: _ => None
  | Some r :: t => if p (section_at mm r) then Some r else table_search mm p t
  end.

Definition va_get_section (mm : mm_bank) (va : Z) : option sref :=
  table_search mm (fun s => (vir_start s <=? va) && (va <? u32 (vir_start s + size s)))
    (section_table mm).

Definition pa_get_section (mm : mm_bank) (pa : Z) : option sref :=
  table_search mm (fun s => (phy_start s <=? pa) && (pa <? u32 (phy_start s + size s)))
    (section_table mm).

Definition page_get_section (mm : mm_bank) (pg : Z) : option sref :=
  default None (section_table mm !! Z.to_nat (Z.land (phy_address (page_at mm pg)) 0xff)).

Definition section_page_id (va base : Z) : Z := Z.shiftr (u32 (va - base)) PAGE_SHIFT.
Definition page_ref (s : mm_section) (i : Z) : Z := u32 (page_table s + sizeof_page * i).
Definition section_va_to_page (s : mm_section) (va : Z) : Z :=
  page_ref s (section_page_id va (vir_start s)).
Definition section_pa_to_page (s : mm_section) (pa : Z) : Z :=
  page_ref s (section_page_id pa (phy_start s)).

Definition va_to_page (mm : mm_bank) (va : Z) : Z :=
  match va_get_section mm va with
  | Some r => section_va_to_page (section_at mm r) va
  | None => 0
  end.
Definition page_to_va (mm : mm_bank) (pg : Z) : Z :=
  Z.land (map_address (page_at mm pg)) 0xfffff000.
Definition page_to_pa (mm : mm_bank) (pg : Z) : Z :=
  Z.land (phy_address (page_at mm pg)) 0xffffff00.
Definition pa_to_page (mm : mm_bank) (pa : Z) : Z :=
  match pa_get_section mm pa with
  | Some r => section_pa_to_page (section_at mm r) pa
  | None => 0
  end.
Definition va_to_pa (mm : mm_bank) (va : Z) : Z := page_to_pa mm (va_to_page mm va).

(** ** Allocation *)

(** The loop of [init_pages] on its variables [i], [pa], [pg], [nr], [flag_temp]. *)
Fixpoint init_pages_loop (n : nat) (mm : mm_bank) (id va page_size flag : Z)
    (i pa pg nr flag_temp : Z) : mm_bank :=
  match n with
  | O => mm
  | S n =>
    let p := Page (Z.lor pa id) (u32 (va + i * page_size)) flag_temp (u16 nr) 0 0 in
    let mm := set_pages mm (<[pg := p]> (pages mm)) (init_list (plists mm) (pg + plist_offset)) in
    init_pages_loop n mm id va page_size flag
      (i + 1) (u32 (pa + PAGE_SIZE)) (u32 (pg + sizeof_page)) 0 flag
  end.

Definition init_pages (mm : mm_bank) (s : mm_section) (index count flag : Z) : mm_bank :=
  let va := u32 (vir_start s + Z.shiftl index PAGE_SHIFT) in
  let pa := u32 (phy_start s + Z.shiftl index PAGE_SHIFT) in
  let pg := page_ref s index in
  let user := negb (Z.land flag __GFP_USER =? 0) in
  let va := if user then 0 else va in
  let page_size := if user then 0 else PAGE_SIZE in
  init_pages_loop (Z.to_nat count) mm (section_table_id s) va page_size flag
    0 pa pg count (Z.lor flag __GFP_PAGE_HEADER).

Definition update_memory_bitmap (m : gmap Z Z) (bitmap index count : Z) (update : bool) : gmap Z Z :=
  if update then zfor (Z.to_nat count) index (fun i m => set_bit m bitmap i) m
  else zfor (Z.to_nat count) index (fun i m => clear_bit m bitmap i) m.

(** [vp]: return the virtual address (true) or the [struct page *] (false). *)
Definition get_free_pages_from_section (mm : mm_bank) (r : sref) (count flag : Z) (vp : bool)
  : outcome (mm_bank * Z) :=
  let s := section_at mm r in
  index ← fuelled (bitmap_find_free_base (bitmaps mm) (bitmap s) (bm_current s) 0 (nr_page s) count);
  if index <? 0 then mret (mm, 0)
  else
    let mm := set_bitmaps mm (update_memory_bitmap (bitmaps mm) (bitmap s) index count true) in
    let cur := index + count in
    let cur := if bm_end s <=? cur then 0 else cur in
    let mm := upd_section r (section_set_current cur) mm in
    let mm := upd_section r (section_add_free (- count)) mm in
    let mm := init_pages mm s index count flag in
    mret (mm, if vp then u32 (vir_start s + Z.shiftl index PAGE_SHIFT) else page_ref s index).

(** The [for] loop over the sections of a zone. *)
Fixpoint zone_sections_loop (mm : mm_bank) (zi : nat) (ids : list nat) (count flag : Z) (vp : bool)
  : outcome (mm_bank * Z) :=
  match ids with
  | [] => mret (mm, 0)
  | id :: ids =>
    let s := section_at mm (zi, id) in
    if size s =? 0 then zone_sections_loop mm zi ids count flag vp
    else if nr_free_pages s <? count then zone_sections_loop mm zi ids count flag vp
    else
      '(mm, ret) ← get_free_pages_from_section mm (zi, id) count flag vp;
      if negb (ret =? 0) then mret (mm, ret)
      else zone_sections_loop mm zi ids count flag vp
  end.

Definition __get_free_pages_from_zone (mm : mm_bank) (zi : nat) (count flag : Z) (vp : bool)
  : outcome (mm_bank * Z) :=
  let mm := upd_zone zi (zone_set_mutex true) mm in
  '(mm, ret) ←
    (if zone_free_pages (zone_at mm zi) <? count then mret (mm, 0)
     else
       '(mm, ret) ← zone_sections_loop mm zi (seq 0 4) count flag vp;
       if ret =? 0 then mret (mm, ret)
       else mret (upd_zone zi (zone_add_free (- count)) mm, ret));
  mret (upd_zone zi (zone_set_mutex false) mm, ret).

Fixpoint zone_id_loop (fuel : nat) (flag i : Z) : option Z :=
  match fuel with
  | O => None
  | S fuel => if flag =? 1 then Some i else zone_id_loop fuel (Z.shiftr flag 1) (i + 1)
  end.

(** Eight shifts exhaust the mask: fuel 8 is enough unless the field is 0. *)
Definition get_zone_id (flag : Z) : option Z := zone_id_loop 8 (Z.land flag GFP_ZONE_ID_MASK) 0.

Fixpoint zones_loop (fuel : nat) (mm : mm_bank) (id count flag : Z) (vp : bool)
  : outcome (mm_bank * Z) :=
  match fuel with
  | O => NoFuel
  | S fuel =>
    '(mm, ret) ← __get_free_pages_from_zone mm (Z.to_nat id) count flag vp;
    if negb (ret =? 0) then mret (mm, ret)
    else
      let id := if id =? MM_ZONE_USER then MM_ZONE_KERNEL - 1 else id in
      if id =? MM_ZONE_RES then mret (mm, ret)
      else zones_loop fuel mm (id + 1) count flag vp
  end.

(** At most the four zones are tried. *)
Definition __get_free_pages (mm : mm_bank) (count flag : Z) (vp : bool) : outcome (mm_bank * Z) :=
  id ← fuelled (get_zone_id flag);
  if MM_ZONE_UNKNOWN <=? id then mret (mm, 0)
  else zones_loop 4 mm id count flag vp.

Definition request_pages (mm : mm_bank) (count flag : Z) : outcome (mm_bank * Z) :=
  if count <? 0 then mret (mm, 0) else __get_free_pages mm count flag false.

Definition get_free_pages (mm : mm_bank) (count flag : Z) : outcome (mm_bank * Z) :=
  if (count <=? 0) || negb (Z.land flag __GFP_USER =? 0) then mret (mm, 0)
  else __get_free_pages mm count flag true.

(** ** Release *)

(** [while (!read_bit(bitmap, start))]; a bit below 0 is outside the array. *)
Fixpoint bm_current_loop (n : nat) (m : gmap Z Z) (bitmap start count : Z) : outcome Z :=
  if start <? 0 then Fault
  else match n with
  | O => NoFuel
  | S n =>
    if read_bit m bitmap start =? 0 then bm_current_loop n m bitmap (start - 1) (count + 1)
    else mret count
  end.

Definition update_bm_current (mm : mm_bank) (r : sref) : outcome mm_bank :=
  let s := section_at mm r in
  if bm_current s =? 0 then mret mm
  else
    count ← bm_current_loop (Z.to_nat (bm_current s)) (bitmaps mm) (bitmap s) (bm_current s - 1) 0;
    mret (upd_section r (section_set_current (bm_current s - count)) mm).

Definition __free_pages (mm : mm_bank) (r : sref) (pg : Z) : outcome mm_bank :=
  let s := section_at mm r in
  let index := (pg - page_table s) / sizeof_page in
  let count := pcount (page_at mm pg) in
  let mm := set_bitmaps mm (update_memory_bitmap (bitmaps mm) (bitmap s) index count false) in
  update_bm_current mm r.

Definition _free_pages (mm : mm_bank) (section : option sref) (pg : Z) : outcome mm_bank :=
  match section with
  | None => mret mm
  | Some r =>
    if pg =? 0 then mret mm
    else if Z.land (pflag (page_at mm pg)) __GFP_PAGE_HEADER =? 0 then mret mm
    else
      id ← fuelled (get_zone_id (pflag (page_at mm pg)));
      if MM_ZONE_UNKNOWN <=? id then Fault else
      let id := Z.to_nat id in
      let mm := upd_zone id (zone_set_mutex true) mm in
      let mm := upd_zone id (zone_add_free (pcount (page_at mm pg))) mm in
      mm ← __free_pages mm r pg;
      mret (upd_zone id (zone_set_mutex false) mm)
  end.

(** The address is translated through the section before the null test. *)
Definition free_pages (mm : mm_bank) (addr : Z) : outcome mm_bank :=
  if negb (is_align addr PAGE_SIZE) then mret mm
  else
    match va_get_section mm addr with
    | None => Fault
    | Some r => _free_pages mm (Some r) (section_va_to_page (section_at mm r) addr)
    end.

Definition release_page (mm : mm_bank) (pg : Z) : outcome mm_bank :=
  if pg =? 0 then mret mm else _free_pages mm (page_get_section mm pg) pg.

(** ** Aligned and matching requests *)

(** The inner [for] of [find_align_page]: every one of the [nr] bits is clear. *)
Definition all_clear (m : gmap Z Z) (bitmap id nr : Z) : bool :=
  match zfirst (Z.to_nat nr) 0 (fun i => negb (read_bit m bitmap (id + i) =? 0)) with
  | Some _ => false
  | None => true
  end.

(** The outer loop on [base]; the result is [id], -1 for none. *)
Fixpoint find_align_loop (fuel : nat) (m : gmap Z Z) (s : mm_section) (align nr base : Z) : option Z :=
  match fuel with
  | O => None
  | S fuel =>
    if base <? u32 (vir_start s + size s) then
      let id := section_page_id base (vir_start s) in
      if all_clear m (bitmap s) id nr then Some id
      else find_align_loop fuel m s align nr (u32 (base + align))
    else Some (-1)
  end.

Definition take_special (mm : mm_bank) (s : mm_section) (id nr flag : Z) : mm_bank * Z :=
  if id =? -1 then (mm, 0)
  else
    let mm := set_bitmaps mm (update_memory_bitmap (bitmaps mm) (bitmap s) id nr true) in
    (init_pages mm s id nr flag, page_ref s id).

(** The loop advances by at least a page when [align] is a positive multiple of the
    page size: [nr_page] steps and the final test are enough fuel. *)
Definition find_align_page (mm : mm_bank) (r : sref) (align nr flag : Z) : outcome (mm_bank * Z) :=
  let s := section_at mm r in
  let base := u32 (vir_start s + Z.shiftl (bm_current s) PAGE_SHIFT) in
  let base := Z.land base (lnot32 (align - 1)) in
  id ← fuelled (find_align_loop (Z.to_nat (nr_page s + 2)) (bitmaps mm) s align nr base);
  mret (take_special mm s id nr flag).

Fixpoint find_match_loop (fuel : nat) (m : gmap Z Z) (s : mm_section) (align base : Z) : option Z :=
  match fuel with
  | O => None
  | S fuel =>
    if base <? u32 (vir_start s + Z.shiftl (nr_page s) PAGE_SHIFT) then
      let id := section_page_id base (vir_start s) + align in
      if read_bit m (bitmap s) id =? 0 then Some id
      else find_match_loop fuel m s align (u32 (base + align))
    else Some (-1)
  end.

(** [align] is a page number here, and [base] advances by that many bytes. *)
Definition find_match_page (mm : mm_bank) (r : sref) (align nr flag : Z) : outcome (mm_bank * Z) :=
  let s := section_at mm r in
  id ← fuelled (find_match_loop (Z.to_nat (Z.shiftl (nr_page s) PAGE_SHIFT + 1)) (bitmaps mm) s
    align (vir_start s));
  mret (take_special mm s id nr flag).

Fixpoint special_sections_loop (mm : mm_bank) (ids : list nat) (nr align flag : Z) (match_ : bool)
  : outcome (mm_bank * Z) :=
  match ids with
  | [] => mret (mm, 0)
  | i :: ids =>
    '(mm, pg) ← (if match_ then find_match_page mm (0, i)%nat align nr flag
                 else find_align_page mm (0, i)%nat align nr flag);
    if negb (pg =? 0) then mret (mm, pg) else special_sections_loop mm ids nr align flag match_
  end.

(** [zone = &mm_bank->zone[i]] with [i] still 0: the kernel zone whatever the flag. *)
Definition __request_special_pages (mm : mm_bank) (nr align flag : Z) (match_ : bool)
  : outcome (mm_bank * Z) :=
  if negb (is_align align PAGE_SIZE) then mret (mm, 0)
  else
    id ← fuelled (get_zone_id flag);
    if MM_ZONE_UNKNOWN <=? id then mret (mm, 0)
    else
      let align := if match_ then Z.shiftr (Z.land align 0x000fffff) PAGE_SHIFT else align in
      let mm := upd_zone 0 (zone_set_mutex true) mm in
      '(mm, pg) ← special_sections_loop mm (seq 0 (Z.to_nat (nr_section (zone_at mm 0)))) nr align
                    flag match_;
      let mm := if negb (pg =? 0) then upd_zone 0 (zone_add_free (- nr)) mm else mm in
      mret (upd_zone 0 (zone_set_mutex false) mm, pg).

Definition get_free_pages_align (mm : mm_bank) (nr align flag : Z) : outcome (mm_bank * Z) :=
  __request_special_pages mm nr align flag false.
Definition get_free_page_match (mm : mm_bank) (match_ flag : Z) : outcome (mm_bank * Z) :=
  __request_special_pages mm 1 match_ flag true.

(** ** Pages on lists; accessors *)

Definition add_page_to_list_tail (mm : mm_bank) (pg head : Z) : mm_bank :=
  set_pages mm (pages mm) (list_add_tail (plists mm) head (pg + plist_offset)).
Definition del_page_from_list (mm : mm_bank) (pg : Z) : mm_bank :=
  set_pages mm (pages mm) (list_del (plists mm) (pg + plist_offset)).
Definition list_to_page (list : Z) : Z := list - plist_offset.

(** [list_for_each] with a body that may fault; the successor is read afterwards. *)
Fixpoint free_list_loop (fuel : nat) (mm : mm_bank) (head list : Z) : outcome mm_bank :=
  match fuel with
  | O => NoFuel
  | S fuel =>
    if list =? head then mret mm
    else
      mm ← release_page mm (list_to_page list);
      free_list_loop fuel mm head (lnext (plists mm) list)
  end.

Definition free_pages_on_list (fuel : nat) (mm : mm_bank) (head : Z) : outcome mm_bank :=
  free_list_loop fuel mm head (lnext (plists mm) head).

Definition upd_page (mm : mm_bank) (pg : Z) (f : page -> page) : mm_bank :=
  set_pages mm (<[pg := f (page_at mm pg)]> (pages mm)) (plists mm).

Definition page_set_map_address (mm : mm_bank) (pg addr : Z) : mm_bank :=
  upd_page mm pg (fun p => Page (phy_address p) addr (pflag p) (pcount p) (pinfo p) (pdata p)).
Definition page_get_map_address (mm : mm_bank) (pg : Z) : Z := map_address (page_at mm pg).
Definition page_set_pdata (mm : mm_bank) (pg data : Z) : mm_bank :=
  upd_page mm pg (fun p => Page (phy_address p) (map_address p) (pflag p) (pcount p) (pinfo p) data).
Definition page_get_pdata (mm : mm_bank) (pg : Z) : Z := pdata (page_at mm pg).
