(* ===== verification/MmAlloc.v ===== *)
(** * Correctness of the page allocator (mm/mm.c)

    The layout invariant [mm_wf], the effect of an allocation and of a release on
    bitmaps and page descriptors, and the refinement of an abstract allocator whose
    state is the list of live blocks. *)

From S2P Require Import Prelude Bitops Dlist Mm.

(** ** The fixed part of a section *)

Record geo := Geo {
  g_phy : Z; g_vir : Z; g_size : Z; g_nr : Z; g_end : Z; g_bitmap : Z; g_id : Z; g_pt : Z }.

Definition geom (s : mm_section) : geo :=
  Geo (phy_start s) (vir_start s) (size s) (nr_page s) (bm_end s) (bitmap s)
    (section_table_id s) (page_table s).

Definition geo_at (mm : mm_bank) (r : sref) : geo := geom (section_at mm r).

(** [section->size] is not 0: the slot is in use. *)
Definition used_sec (mm : mm_bank) (r : sref) : Prop := g_size (geo_at mm r) <> 0.

Record geo_ok (g : geo) : Prop := {
  ok_nr : 0 < g_nr g;
  ok_size : g_size g = g_nr g * 4096;
  ok_size_max : g_size g < 2147483648;
  ok_end : g_end g = g_nr g;
  ok_bitmap : 0 < g_bitmap g;
  ok_vir : 0 <= g_vir g /\ g_vir g mod 4096 = 0 /\ g_vir g + g_size g < 4294967296;
  ok_phy : 0 <= g_phy g /\ g_phy g mod 4096 = 0 /\ g_phy g + g_size g < 4294967296;
  ok_pt : 0 < g_pt g /\ g_pt g + 28 * g_nr g < 4294967296;
  ok_id : 0 <= g_id g < 256 }.

Definition ranges_apart (a n b k : Z) : Prop := a + n <= b \/ b + k <= a.

(** Arrays and address ranges of two sections in use do not overlap; sections of the
    user zone have no virtual range of their own. *)
Record geo_apart (r r' : sref) (g g' : geo) : Prop := {
  apart_bitmap : ranges_apart (g_bitmap g) (4 * ((g_nr g + 31) / 32))
                   (g_bitmap g') (4 * ((g_nr g' + 31) / 32));
  apart_pt : ranges_apart (g_pt g) (28 * g_nr g) (g_pt g') (28 * g_nr g');
  apart_phy : ranges_apart (g_phy g) (g_size g) (g_phy g') (g_size g');
  apart_vir : r.1 <> 3%nat -> ranges_apart (g_vir g) (g_size g) (g_vir g') (g_size g') }.

Record mm_wf (mm : mm_bank) : Prop := {
  wf_zones : length (zone mm) = 4%nat;
  wf_sections : forall i z, zone mm !! i = Some z -> length (memory_section z) = 4%nat;
  wf_geo : forall r, used_sec mm r -> geo_ok (geo_at mm r);
  wf_apart : forall r r', used_sec mm r -> used_sec mm r' -> r <> r' ->
    geo_apart r r' (geo_at mm r) (geo_at mm r');
  wf_id : forall r, used_sec mm r ->
    section_table mm !! Z.to_nat (g_id (geo_at mm r)) = Some (Some r);
  wf_table : exists rs rest, section_table mm = (Some <$> rs) ++ None :: rest /\
    forall r, r ∈ rs <-> used_sec mm r }.

Definition cur_ok (mm : mm_bank) : Prop := forall r, used_sec mm r ->
  0 <= bm_current (section_at mm r) < nr_page (section_at mm r).

(** ** Updating one section or zone *)

Lemma sref_in_range mm r : used_sec mm r -> mm_wf mm ->
  exists z, zone mm !! r.1 = Some z /\ memory_section z !! r.2 = Some (section_at mm r).
Proof.
  intros Hu Hwf. unfold used_sec, geo_at, section_at, zone_at in *.
  destruct (zone mm !! r.1) as [z|] eqn:Ez; simpl in *.
  - destruct (memory_section z !! r.2) eqn:Es; simpl in *; [eauto|done].
  - destruct r.2 as [|[|[|[|?]]]]; simpl in Hu; done.
Qed.

Lemma section_at_upd mm r f r' :
  section_at (upd_section r f mm) r' =
  if decide (r = r' /\ is_Some (zone mm !! r.1 ≫= fun z => memory_section z !! r.2))
  then f (section_at mm r') else section_at mm r'.
Proof.
  unfold section_at, upd_section, upd_zone, zone_at. simpl.
  destruct r as [i j], r' as [i' j']; simpl.
  destruct (decide (i = i')) as [->|Hi].
  - rewrite list_lookup_alter_eq. destruct (zone mm !! i') as [z|] eqn:Ez; simpl.
    + destruct (decide (j = j')) as [->|Hj].
      * rewrite list_lookup_alter_eq. destruct (memory_section z !! j') eqn:Es; simpl.
        -- rewrite decide_True by eauto. done.
        -- rewrite decide_False; [done|]. intros [_ [? [=]]].
      * rewrite list_lookup_alter_ne by done. rewrite decide_False by naive_solver. done.
    + rewrite decide_False; [done|]. intros [_ [? [=]]].
  - rewrite list_lookup_alter_ne by done. rewrite decide_False by naive_solver. done.
Qed.

Lemma section_at_upd_eq mm r f : mm_wf mm -> used_sec mm r ->
  section_at (upd_section r f mm) r = f (section_at mm r).
Proof.
  intros Hwf Hu. rewrite section_at_upd, decide_True; [done|].
  destruct (sref_in_range mm r Hu Hwf) as (z & -> & Hs). split; [done|]. simpl. rewrite Hs. eauto.
Qed.

Lemma section_at_upd_ne mm r f r' : r <> r' ->
  section_at (upd_section r f mm) r' = section_at mm r'.
Proof. intros. rewrite section_at_upd, decide_False by naive_solver. done. Qed.

(** An update that keeps the sections of the zone. *)
Lemma section_at_upd_zone mm i f r :
  (forall z, memory_section (f z) = memory_section z) ->
  section_at (upd_zone i f mm) r = section_at mm r.
Proof.
  intros Hf. unfold section_at, upd_zone, zone_at. simpl.
  destruct (decide (i = r.1)) as [->|Hi].
  - rewrite list_lookup_alter_eq. destruct (zone mm !! r.1) as [z|]; simpl; [by rewrite Hf|done].
  - by rewrite list_lookup_alter_ne.
Qed.

(** ** States with the same layout *)

Record same_layout (mm mm' : mm_bank) : Prop := {
  sl_geo : forall r, geo_at mm' r = geo_at mm r;
  sl_table : section_table mm' = section_table mm;
  sl_zones : length (zone mm') = length (zone mm);
  sl_sections : forall i z', zone mm' !! i = Some z' ->
    exists z, zone mm !! i = Some z /\ length (memory_section z') = length (memory_section z) }.

#[export] Instance same_layout_preorder : PreOrder same_layout.
Proof.
  split.
  - intros mm. split; try done. eauto.
  - intros a b c [G1 T1 Z1 S1] [G2 T2 Z2 S2]. split; [congruence..|].
    intros i z' Hz. destruct (S2 _ _ Hz) as (z1 & Hz1 & Hl1).
    destruct (S1 _ _ Hz1) as (z0 & Hz0 & Hl0). exists z0. split; [done|congruence].
Qed.

Lemma used_sec_layout mm mm' r : same_layout mm mm' -> used_sec mm' r <-> used_sec mm r.
Proof. intros H. unfold used_sec. by rewrite (sl_geo _ _ H). Qed.

Lemma mm_wf_layout mm mm' : same_layout mm mm' -> mm_wf mm -> mm_wf mm'.
Proof.
  intros HL Hwf. pose proof (fun r => used_sec_layout _ _ r HL) as Hu.
  destruct HL as [HG HT HZ HS], Hwf as [W1 W2 W3 W4 W5 W6]. split.
  - congruence.
  - intros i z' Hz. destruct (HS _ _ Hz) as (z & Hz0 & ->). eauto.
  - intros r Hr. rewrite HG. apply W3. by apply Hu.
  - intros r r' Hr Hr' Hne. rewrite !HG. apply W4; [by apply Hu..|done].
  - intros r Hr. rewrite HG, HT. apply W5. by apply Hu.
  - destruct W6 as (rs & rest & E & Hrs). exists rs, rest. rewrite HT. split; [done|].
    intros r. by rewrite Hrs, Hu.
Qed.

Lemma same_layout_upd_zone mm i f :
  (forall z, memory_section (f z) = memory_section z) -> same_layout mm (upd_zone i f mm).
Proof.
  intros Hf. split; simpl; try done.
  - intros r. unfold geo_at. by rewrite section_at_upd_zone.
  - apply length_alter.
  - intros j z'. destruct (decide (i = j)) as [->|Hi].
    + rewrite list_lookup_alter_eq. destruct (zone mm !! j) as [z|]; simpl; [|done].
      intros [= <-]. rewrite Hf. eauto.
    + rewrite list_lookup_alter_ne by done. eauto.
Qed.

Lemma same_layout_upd_section mm r f :
  (forall s, geom (f s) = geom s) -> same_layout mm (upd_section r f mm).
Proof.
  intros Hf. split; simpl; try done.
  - intros r'. unfold geo_at. rewrite section_at_upd. case_decide; [apply Hf|done].
  - apply length_alter.
  - intros j z'. destruct (decide (r.1 = j)) as [<-|Hi].
    + rewrite list_lookup_alter_eq. destruct (zone mm !! r.1) as [z|]; simpl; [|done].
      intros [= <-]. simpl. rewrite length_alter. eauto.
    + rewrite list_lookup_alter_ne by done. eauto.
Qed.

Lemma same_layout_zones mm mm' :
  zone mm' = zone mm -> section_table mm' = section_table mm -> same_layout mm mm'.
Proof.
  intros HZ HT. split; [|done|by rewrite HZ|rewrite HZ; eauto].
  intros r. unfold geo_at, section_at, zone_at. by rewrite HZ.
Qed.

(** ** Page descriptors written by [init_pages] *)

(** The list nodes other than those of [P] are as they were. *)
Definition same_nodes (mm mm' : mm_bank) (P : Z -> Prop) : Prop :=
  forall a, ~ P a -> lnext (plists mm') a = lnext (plists mm) a /\ lpre (plists mm') a = lpre (plists mm) a.

Definition new_page (s : mm_section) (index i count flag : Z) : page :=
  Page (Z.lor (phy_start s + (index + i) * 4096) (section_table_id s))
    (if Z.land flag __GFP_USER =? 0 then vir_start s + (index + i) * 4096 else 0)
    (if i =? 0 then Z.lor flag __GFP_PAGE_HEADER else flag)
    (if i =? 0 then u16 count else 0) 0 0.

Lemma init_pages_loop_frame n mm id va psz flag i pa pg nr ft :
  let mm' := init_pages_loop n mm id va psz flag i pa pg nr ft in
  zone mm' = zone mm /\ section_table mm' = section_table mm /\ bitmaps mm' = bitmaps mm /\
  total_size mm' = total_size mm /\ total_page mm' = total_page mm.
Proof.
  revert mm i pa pg nr ft. induction n as [|n IH]; intros mm i pa pg nr ft; simpl; [done|].
  edestruct IH as (-> & -> & -> & -> & ->). done.
Qed.

Lemma page_at_set mm p l a : page_at (set_pages mm p l) a = default zero_page (p !! a).
Proof. done. Qed.

Lemma init_pages_loop_other n mm id va psz flag i pa pg nr ft a :
  0 <= pg -> pg + 28 * Z.of_nat n < 4294967296 -> (a < pg \/ pg + 28 * Z.of_nat n <= a) ->
  page_at (init_pages_loop n mm id va psz flag i pa pg nr ft) a = page_at mm a.
Proof.
  revert mm i pa pg nr ft. induction n as [|n IH]; intros mm i pa pg nr ft H0 Hb Ha; [done|].
  simpl. unfold sizeof_page. rewrite (u32_small (pg + 28)) by lia. rewrite IH by lia.
  rewrite page_at_set, lookup_insert_ne by lia. done.
Qed.

Lemma init_pages_loop_at n mm id va psz flag i pa pg nr ft j :
  0 <= pg -> pg + 28 * Z.of_nat n < 4294967296 ->
  0 <= pa -> pa + 4096 * Z.of_nat n < 4294967296 ->
  0 <= j < Z.of_nat n ->
  page_at (init_pages_loop n mm id va psz flag i pa pg nr ft) (pg + 28 * j) =
  Page (Z.lor (pa + j * 4096) id) (u32 (va + (i + j) * psz))
    (if j =? 0 then ft else flag) (if j =? 0 then u16 nr else 0) 0 0.
Proof.
  revert mm i pa pg nr ft j. induction n as [|n IH]; intros mm i pa pg nr ft j H0 Hb Hp Hpb Hj; [lia|].
  simpl. unfold sizeof_page, PAGE_SIZE. rewrite (u32_small (pg + 28)), (u32_small (pa + 4096)) by lia.
  destruct (Z.eqb_spec j 0) as [->|Hj0].
  - rewrite init_pages_loop_other by lia.
    rewrite page_at_set. replace (pg + 28 * 0) with pg by lia. rewrite lookup_insert_eq. simpl.
    f_equal; [f_equal; lia|f_equal; lia].
  - replace (pg + 28 * j) with (pg + 28 + 28 * (j - 1)) by lia. rewrite IH by lia.
    replace (if j - 1 =? 0 then flag else flag) with flag by (by destruct (j - 1 =? 0)).
    replace (if j - 1 =? 0 then u16 0 else 0) with 0 by (by destruct (j - 1 =? 0)).
    f_equal; [f_equal; lia|f_equal; lia].
Qed.

Lemma init_pages_loop_nodes n mm id va psz flag i pa pg nr ft a :
  0 <= pg -> pg + 28 * Z.of_nat n < 4294967296 -> (forall j, 0 <= j < Z.of_nat n -> a <> pg + 28 * j + plist_offset) ->
  let mm' := init_pages_loop n mm id va psz flag i pa pg nr ft in
  lnext (plists mm') a = lnext (plists mm) a /\ lpre (plists mm') a = lpre (plists mm) a.
Proof.
  revert mm i pa pg nr ft. induction n as [|n IH]; intros mm i pa pg nr ft H0 Hb Ha; [done|].
  cbn [init_pages_loop]. unfold sizeof_page. rewrite (u32_small (pg + 28)) by lia.
  destruct (IH (set_pages mm (<[pg := Page (Z.lor pa id) (u32 (va + i * psz)) ft (u16 nr) 0 0]> (pages mm))
    (init_list (plists mm) (pg + plist_offset))) (i + 1) (u32 (pa + PAGE_SIZE)) (pg + 28) 0 flag) as [-> ->]; [lia|lia| |].
  { intros j Hj. specialize (Ha (j + 1)). lia. }
  specialize (Ha 0 ltac:(lia)). cbn. by rewrite !decide_False by lia.
Qed.

Lemma init_pages_frame mm s index count flag :
  let mm' := init_pages mm s index count flag in
  zone mm' = zone mm /\ section_table mm' = section_table mm /\ bitmaps mm' = bitmaps mm /\
  total_size mm' = total_size mm /\ total_page mm' = total_page mm.
Proof. apply init_pages_loop_frame. Qed.

Section InitPages.
Context (s : mm_section) (index count : Z).
Hypothesis Hok : geo_ok (geom s).
Hypothesis Hblock : 0 <= index /\ 0 <= count /\ index + count <= nr_page s.

Lemma page_ref_val k : 0 <= k <= nr_page s -> page_ref s k = page_table s + 28 * k.
Proof.
  intros Hk. destruct Hok as [_ _ _ _ _ _ _ [Hpt Hpt'] _]. simpl in *.
  unfold page_ref, sizeof_page. apply u32_small. lia.
Qed.

Lemma shift_page k : Z.shiftl k PAGE_SHIFT = k * 4096.
Proof. unfold PAGE_SHIFT. by rewrite Z.shiftl_mul_pow2. Qed.

Lemma init_pages_at mm flag i :
  0 <= i < count ->
  page_at (init_pages mm s index count flag) (page_ref s (index + i)) = new_page s index i count flag.
Proof.
  intros Hi. destruct Hok as [Hn Hsz Hmx _ _ (Hv1 & _ & Hv2) (Hp1 & _ & Hp2) [Ht1 Ht2] _].
  simpl in *. unfold init_pages. rewrite !page_ref_val, !shift_page by lia.
  replace (page_table s + 28 * (index + i)) with (page_table s + 28 * index + 28 * i) by lia.
  rewrite !(u32_small (_ + index * 4096)) by lia.
  rewrite init_pages_loop_at by lia. unfold new_page, PAGE_SIZE. f_equal.
  - f_equal. lia.
  - destruct (Z.land flag __GFP_USER =? 0); simpl; rewrite u32_small; lia.
Qed.

Lemma init_pages_other mm flag a :
  (a < page_ref s index \/ page_ref s (index + count) <= a) ->
  page_at (init_pages mm s index count flag) a = page_at mm a.
Proof.
  intros Ha. destruct Hok as [Hn Hsz Hmx _ _ _ _ [Ht1 Ht2] _].
  simpl in *. unfold init_pages. rewrite !page_ref_val in * by lia.
  apply init_pages_loop_other; lia.
Qed.

Lemma init_pages_nodes mm flag :
  same_nodes mm (init_pages mm s index count flag)
    (fun a => exists i, 0 <= i < count /\ a = page_ref s (index + i) + plist_offset).
Proof.
  intros a Ha. destruct Hok as [Hn Hsz Hmx _ _ _ _ [Ht1 Ht2] _]. simpl in *. unfold init_pages.
  rewrite page_ref_val by lia. apply init_pages_loop_nodes; [lia..|].
  intros j Hj ->. apply Ha. exists j. rewrite page_ref_val by lia. lia.
Qed.
End InitPages.

(** ** The effect of taking a block out of a section *)

Definition page_used (mm : mm_bank) (r : sref) (k : Z) : bool :=
  bit_at (bitmaps mm) (bitmap (section_at mm r)) k.

Definition in_section (mm : mm_bank) (r : sref) (k : Z) : Prop :=
  used_sec mm r /\ 0 <= k < nr_page (section_at mm r).

Definition in_block (r : sref) (index count : Z) (r' : sref) (k : Z) : Prop :=
  r' = r /\ index <= k < index + count.

#[export] Instance in_block_dec r index count r' k : Decision (in_block r index count r' k).
Proof. unfold in_block. apply _. Defined.

(** The descriptor of page [k] of section [r]. *)
Definition desc (mm : mm_bank) (r : sref) (k : Z) : page := page_at mm (page_ref (section_at mm r) k).

Record took (mm mm' : mm_bank) (r : sref) (index count flag : Z) : Prop := {
  took_layout : same_layout mm mm';
  took_range : 0 <= index /\ index + count <= nr_page (section_at mm r);
  took_free : forall k, index <= k < index + count -> page_used mm r k = false;
  took_bits : forall r' k, in_section mm r' k ->
    page_used mm' r' k = if decide (in_block r index count r' k) then true else page_used mm r' k;
  took_desc : forall i, 0 <= i < count -> desc mm' r (index + i) = new_page (section_at mm r) index i count flag;
  took_other_desc : forall r' k, in_section mm r' k -> ~ in_block r index count r' k ->
    desc mm' r' k = desc mm r' k;
  took_current : bm_current (section_at mm' r) =
    (if nr_page (section_at mm r) <=? index + count then 0 else index + count);
  took_free_pages : nr_free_pages (section_at mm' r) = s32 (nr_free_pages (section_at mm r) - count);
  took_other_section : forall r', r' <> r -> section_at mm' r' = section_at mm r';
  took_plists : same_nodes mm mm' (fun a => exists i, 0 <= i < count /\ a = page_ref (section_at mm r) (index + i) + plist_offset) }.

Lemma update_bitmap_fill m map index count update :
  update_memory_bitmap m map index count update = fill_bits m map index count update.
Proof. by destruct update. Qed.

(** The words of two bitmaps are apart. *)
Lemma bitmap_words_apart mm r r' k k' :
  mm_wf mm -> in_section mm r k -> in_section mm r' k' -> r <> r' ->
  bitmap (section_at mm r') + 4 * (k' / 32) <> bitmap (section_at mm r) + 4 * (k / 32).
Proof.
  intros Hwf [Hu Hk] [Hu' Hk'] Hne.
  destruct (wf_apart _ Hwf r r' Hu Hu' Hne) as [Hb _ _ _].
  unfold ranges_apart, geo_at in Hb. simpl in Hb.
  set (n := nr_page (section_at mm r)) in *. set (n' := nr_page (section_at mm r')) in *.
  assert (k / 32 < (n + 31) / 32 /\ k' / 32 < (n' + 31) / 32 /\ 0 <= k / 32 /\ 0 <= k' / 32)
    by (Z.to_euclidean_division_equations; lia).
  lia.
Qed.

Lemma page_refs_apart mm r r' k k' :
  mm_wf mm -> in_section mm r k -> in_section mm r' k' -> (r, k) <> (r', k') ->
  ranges_apart (page_ref (section_at mm r) k) 28 (page_ref (section_at mm r') k') 28.
Proof.
  intros Hwf [Hu Hk] [Hu' Hk'] Hne.
  rewrite (page_ref_val _ (wf_geo _ Hwf r Hu)), (page_ref_val _ (wf_geo _ Hwf r' Hu')) by lia.
  unfold ranges_apart. destruct (decide (r = r')) as [<-|Hr].
  - assert (k <> k') by congruence. lia.
  - destruct (wf_apart _ Hwf r r' Hu Hu' Hr) as [_ Hp _ _].
    unfold ranges_apart, geo_at in Hp. simpl in Hp. lia.
Qed.

Lemma geo_nr_small mm r : mm_wf mm -> used_sec mm r -> 0 < nr_page (section_at mm r) < 4294967296.
Proof.
  intros Hwf Hu. destruct (wf_geo _ Hwf r Hu) as [H1 H2 H3 _ _ _ _ _ _]. simpl in *. lia.
Qed.

(** Bits after a range of section [r] was filled. *)
Lemma page_used_fill mm r index count update b r' k :
  mm_wf mm -> used_sec mm r -> 0 <= index -> index + count <= nr_page (section_at mm r) ->
  in_section mm r' k ->
  b = fill_bits (bitmaps mm) (bitmap (section_at mm r)) index count update ->
  bit_at b (bitmap (section_at mm r')) k =
  if decide (in_block r index count r' k) then update else page_used mm r' k.
Proof.
  intros Hwf Hu Hi Hc [Hu' Hk] ->. pose proof (geo_nr_small _ _ Hwf Hu).
  pose proof (geo_nr_small _ _ Hwf Hu'). unfold in_block, page_used.
  destruct (decide (r' = r)) as [->|Hr].
  - rewrite bit_at_fill; [|destruct (wf_geo _ Hwf r Hu); simpl in *; lia|lia..].
    repeat case_decide; naive_solver.
  - rewrite decide_False by naive_solver.
    apply bit_at_fill_other; [lia..|]. intros i Hib.
    apply bitmap_words_apart; [done| |done|done]. split; [done|lia].
Qed.

(** The state [get_free_pages_from_section] leaves behind once it has an index. *)
Definition take_block (mm : mm_bank) (r : sref) (index count flag : Z) : mm_bank :=
  let s := section_at mm r in
  let cur := if bm_end s <=? index + count then 0 else index + count in
  init_pages
    (upd_section r (section_add_free (- count))
      (upd_section r (section_set_current cur)
        (set_bitmaps mm (update_memory_bitmap (bitmaps mm) (bitmap s) index count true))))
    s index count flag.

Section TakeBlock.
Context (mm : mm_bank) (r : sref) (index count flag : Z).
Hypothesis Hwf : mm_wf mm.
Hypothesis Hu : used_sec mm r.
Hypothesis Hblock : 0 <= index /\ 0 <= count /\ index + count <= nr_page (section_at mm r).
Let mm' := take_block mm r index count flag.
Let s := section_at mm r.

Lemma take_block_layout : same_layout mm mm'.
Proof.
  unfold mm', take_block.
  edestruct init_pages_frame as (Fz & Ft & _).
  etrans; [|by apply same_layout_zones].
  etrans; [|by apply same_layout_upd_section].
  etrans; [|by apply same_layout_upd_section].
  by apply same_layout_zones.
Qed.

Lemma section_at_zones m1 m2 r' : zone m1 = zone m2 -> section_at m1 r' = section_at m2 r'.
Proof. intros E. unfold section_at, zone_at. by rewrite E. Qed.

Lemma take_block_section :
  section_at mm' r = section_add_free (- count) (section_set_current
    (if bm_end s <=? index + count then 0 else index + count) s).
Proof.
  unfold mm', take_block. edestruct init_pages_frame as (Fz & _).
  rewrite (section_at_zones _ _ r Fz).
  set (m1 := set_bitmaps mm _).
  assert (same_layout mm m1) as L1 by by apply same_layout_zones.
  assert (mm_wf m1) by by eapply mm_wf_layout.
  assert (used_sec m1 r) by by apply (used_sec_layout _ _ _ L1).
  rewrite section_at_upd_eq.
  - by rewrite section_at_upd_eq.
  - by eapply mm_wf_layout, H; apply same_layout_upd_section.
  - by eapply used_sec_layout; [by apply same_layout_upd_section|].
Qed.

Lemma take_block_other_section r' : r' <> r -> section_at mm' r' = section_at mm r'.
Proof.
  intros Hne. unfold mm', take_block. edestruct init_pages_frame as (Fz & _).
  rewrite (section_at_zones _ _ r' Fz). by rewrite !section_at_upd_ne.
Qed.

Lemma take_block_bits r' k : in_section mm r' k ->
  page_used mm' r' k = if decide (in_block r index count r' k) then true else page_used mm r' k.
Proof.
  intros Hin. unfold page_used at 1.
  assert (bitmap (section_at mm' r') = bitmap (section_at mm r')) as ->.
  { pose proof (sl_geo _ _ take_block_layout r') as E. injection E. done. }
  eapply page_used_fill; try done; try lia.
  unfold mm', take_block. edestruct init_pages_frame as (_ & _ & -> & _).
  exact (update_bitmap_fill _ _ _ _ true).
Qed.

Lemma take_block_page_ref r' k : page_ref (section_at mm' r') k = page_ref (section_at mm r') k.
Proof.
  pose proof (sl_geo _ _ take_block_layout r') as E. unfold page_ref. injection E. congruence.
Qed.

Lemma take_block_desc i :
  0 <= i < count -> desc mm' r (index + i) = new_page s index i count flag.
Proof.
  intros Hi. unfold desc. rewrite take_block_page_ref.
  apply init_pages_at; [by apply wf_geo|done|done].
Qed.

Lemma take_block_other_desc r' k :
  in_section mm r' k -> ~ in_block r index count r' k -> desc mm' r' k = desc mm r' k.
Proof.
  intros Hin Hout. unfold desc. rewrite take_block_page_ref.
  assert (geo_ok (geom s)) as Hok by by apply wf_geo.
  destruct (decide (count = 0)) as [->|Hc].
  { unfold mm', take_block. rewrite init_pages_other; [done|done|done|].
    rewrite Z.add_0_r. lia. }
  unfold mm', take_block. rewrite init_pages_other; [done|done|done|].
  rewrite !(page_ref_val _ Hok) by (unfold s; lia).
  assert (in_section mm r index /\ in_section mm r (index + count - 1)) as [I1 I2].
  { unfold in_section. split_and!; try done; lia. }
  destruct (decide (r' = r)) as [->|Hr].
  - destruct Hin as [_ Hk]. rewrite (page_ref_val _ Hok) by (unfold s; lia).
    assert (~ index <= k < index + count) by (intros ?; apply Hout; done). lia.
  - destruct (wf_apart _ Hwf r r' Hu (proj1 Hin) ltac:(congruence)) as [_ Hp _ _].
    destruct Hin as [Hu' Hk]. rewrite (page_ref_val _ (wf_geo _ Hwf r' Hu')) by lia.
    unfold ranges_apart, geo_at in Hp. simpl in Hp. unfold s. lia.
Qed.
End TakeBlock.

Lemma gfps_effect mm r count flag vp mm' a :
  mm_wf mm -> cur_ok mm -> used_sec mm r -> 0 < count ->
  get_free_pages_from_section mm r count flag vp = Ret (mm', a) ->
  (mm' = mm /\ a = 0) \/
  exists index, took mm mm' r index count flag /\
    a = if vp then vir_start (section_at mm r) + index * 4096 else page_ref (section_at mm r) index.
Proof.
  intros Hwf Hcur Hu Hc H. apply bind_Ret in H as (index & Hfind & H).
  pose proof (wf_geo _ Hwf r Hu) as Hok. apply fuelled_Ret in Hfind.
  apply find_free_base_sound in Hfind; [|done|by apply Hcur].
  destruct Hfind as [->|(Hrun & Hi0 & Hi1)]; [left; by injection H as <- <-|].
  destruct (Z.ltb_spec index 0); [lia|]. right. exists index.
  injection H as Hm <-. change (take_block mm r index count flag = mm') in Hm. subst mm'. split.
  - pose proof (take_block_layout mm r index count flag).
    pose proof (take_block_section mm r index count flag Hwf Hu) as HS.
    pose proof (ok_end _ Hok) as Hend. simpl in Hend. rewrite Hend in HS.
    split; try rewrite HS; eauto using take_block_other_section.
    + intros k Hk. specialize (Hrun k Hk). cbv beta in Hrun.
      rewrite read_bit_spec in Hrun by (destruct Hok; simpl in *; lia).
      unfold page_used. by destruct (bit_at _ _ k).
    + intros r' k. apply take_block_bits; try done; lia.
    + apply take_block_desc; try done; lia.
    + apply take_block_other_desc; try done; lia.
    + intros a Ha. exact (init_pages_nodes (section_at mm r) index count Hok ltac:(lia) _ flag a Ha).
  - rewrite shift_page. destruct vp; [|done].
    destruct Hok; simpl in *. apply u32_small. lia.
Qed.

(** ** Steps that only touch the counters and mutexes of zones *)

Record quiet (mm mm' : mm_bank) : Prop := {
  q_layout : same_layout mm mm';
  q_section : forall r, section_at mm' r = section_at mm r;
  q_bitmaps : bitmaps mm' = bitmaps mm;
  q_pages : pages mm' = pages mm;
  q_plists : plists mm' = plists mm }.

#[export] Instance quiet_preorder : PreOrder quiet.
Proof.
  split.
  - intros mm. by split.
  - intros a b c [] []. split; [by etrans|congruence..].
Qed.

Lemma quiet_upd_zone mm i f :
  (forall z, memory_section (f z) = memory_section z) -> quiet mm (upd_zone i f mm).
Proof.
  intros Hf. split; [by apply same_layout_upd_zone| |done..].
  intros r. by apply section_at_upd_zone.
Qed.

#[export] Hint Resolve quiet_upd_zone : chunos.

Lemma quiet_page_used mm mm' r k : quiet mm mm' -> page_used mm' r k = page_used mm r k.
Proof. intros [_ S B _ _]. unfold page_used. by rewrite S, B. Qed.

Lemma quiet_desc mm mm' r k : quiet mm mm' -> desc mm' r k = desc mm r k.
Proof. intros [_ S _ P _]. unfold desc, page_at. by rewrite S, P. Qed.

Lemma quiet_in_section mm mm' r k : quiet mm mm' -> in_section mm' r k <-> in_section mm r k.
Proof. intros [L S _ _ _]. unfold in_section. by rewrite S, (used_sec_layout _ _ _ L). Qed.

Lemma quiet_cur_ok mm mm' : quiet mm mm' -> cur_ok mm -> cur_ok mm'.
Proof.
  intros Q H r Hu. rewrite (q_section _ _ Q). apply H.
  by apply (used_sec_layout _ _ _ (q_layout _ _ Q)).
Qed.

Lemma took_quiet_l mm m1 mm' r index count flag :
  quiet mm m1 -> took m1 mm' r index count flag -> took mm mm' r index count flag.
Proof.
  intros Q [L R F B D OD C NF OS PL]. pose proof (q_section _ _ Q) as S. rewrite S in *. split; auto.
  - by etrans; [apply Q|].
  - intros k Hk. rewrite <- (quiet_page_used _ _ _ _ Q). auto.
  - intros r' k Hk. rewrite <- (quiet_page_used _ _ _ _ Q). apply B.
    by apply (quiet_in_section _ _ _ _ Q).
  - intros r' k Hk Hb. rewrite <- (quiet_desc _ _ _ _ Q). apply OD; [|done].
    by apply (quiet_in_section _ _ _ _ Q).
  - intros r' Hr. rewrite <- S. auto.
  - intros a Ha. rewrite <- (q_plists _ _ Q). auto.
Qed.

Lemma took_quiet_r mm m1 mm' r index count flag :
  took mm m1 r index count flag -> quiet m1 mm' -> took mm mm' r index count flag.
Proof.
  intros [L R F B D OD C NF OS PL] Q. pose proof (q_section _ _ Q) as S.
  split; try rewrite S; auto.
  - by etrans; [|apply Q].
  - intros r' k Hk. rewrite (quiet_page_used _ _ _ _ Q). auto.
  - intros i Hi. rewrite (quiet_desc _ _ _ _ Q). auto.
  - intros r' k Hk Hb. rewrite (quiet_desc _ _ _ _ Q). auto.
  - intros r' Hr. rewrite S. auto.
  - intros a Ha. rewrite (q_plists _ _ Q). auto.
Qed.

Lemma took_cur_ok mm mm' r index count flag :
  0 < count -> used_sec mm r -> took mm mm' r index count flag -> cur_ok mm -> cur_ok mm'.
Proof.
  intros Hc Hu T H r' Hu'. pose proof (took_range _ _ _ _ _ _ T).
  apply (used_sec_layout _ _ _ (took_layout _ _ _ _ _ _ T)) in Hu'.
  pose proof (sl_geo _ _ (took_layout _ _ _ _ _ _ T) r') as E. injection E as _ _ _ E _ _ _ _.
  destruct (decide (r' = r)) as [->|Hr].
  - rewrite (took_current _ _ _ _ _ _ T), E. zcase; lia.
  - rewrite (took_other_section _ _ _ _ _ _ T) by done. auto.
Qed.

(** ** Whole requests *)

(** The answer of a request: nothing changed, or a block was taken out of a section
    of one of the zones [zs]. *)
Definition answer (s : mm_section) (index : Z) (vp : bool) : Z :=
  if vp then vir_start s + index * 4096 else page_ref s index.

Definition served (zs : list nat) (mm mm' : mm_bank) (count flag : Z) (vp : bool) (a : Z) : Prop :=
  (quiet mm mm' /\ a = 0) \/
  exists r index, r.1 ∈ zs /\ used_sec mm r /\ took mm mm' r index count flag /\
    a = answer (section_at mm r) index vp /\ a <> 0.

(** Only [answer] 0 hides a block: the first page of a section mapped at address 0. *)
Definition no_zero_block (mm : mm_bank) (zs : list nat) (vp : bool) : Prop :=
  vp = true -> forall r, r.1 ∈ zs -> used_sec mm r -> 0 < vir_start (section_at mm r).

Lemma answer_nonzero mm zs vp r index count :
  mm_wf mm -> no_zero_block mm zs vp -> r.1 ∈ zs -> used_sec mm r ->
  0 <= index -> 0 < count -> index + count <= nr_page (section_at mm r) ->
  answer (section_at mm r) index vp <> 0.
Proof.
  intros Hwf Hz Hr Hu H0 Hc Hi. unfold answer. destruct vp.
  - specialize (Hz eq_refl r Hr Hu). lia.
  - pose proof (wf_geo _ Hwf r Hu) as Hok. rewrite (page_ref_val _ Hok) by lia.
    destruct Hok; simpl in *. lia.
Qed.

Lemma zone_sections_served mm zi ids count flag vp mm' a :
  mm_wf mm -> cur_ok mm -> 0 < count -> no_zero_block mm [zi] vp ->
  zone_sections_loop mm zi ids count flag vp = Ret (mm', a) ->
  served [zi] mm mm' count flag vp a.
Proof.
  intros Hwf Hcur Hc Hz. induction ids as [|id ids IH]; simpl; intros H.
  - bind_inv. simplify_eq. left. done.
  - destruct (Z.eqb_spec (size (section_at mm (zi, id))) 0) as [|Hs]; [by apply IH|].
    destruct (_ <? _); [by apply IH|]. apply bind_Ret in H as ([m1 a1] & H1 & H).
    apply gfps_effect in H1 as [[-> ->]|(index & T & ->)]; try done.
    + by apply IH.
    + fold (answer (section_at mm (zi, id)) index vp) in H.
      pose proof (took_range _ _ _ _ _ _ T) as [? ?].
      assert (answer (section_at mm (zi, id)) index vp <> 0) as Hne
        by (by eapply answer_nonzero; [..|done]; try done; [set_solver]).
      destruct (Z.eqb_spec (answer (section_at mm (zi, id)) index vp) 0); [done|].
      simpl in H. bind_inv. simplify_eq. right. exists (zi, id), index. set_solver.
Qed.

Lemma served_mono zs zs' mm mm' count flag vp a :
  (forall i, i ∈ zs -> i ∈ zs') -> served zs mm mm' count flag vp a -> served zs' mm mm' count flag vp a.
Proof. intros Hs [?|(r & index & ? & ?)]; [by left|right; eauto 10]. Qed.

Lemma served_quiet_l zs mm m1 mm' count flag vp a :
  quiet mm m1 -> served zs m1 mm' count flag vp a -> served zs mm mm' count flag vp a.
Proof.
  intros Q [[Q' ->]|(r & index & Hr & Hu & T & -> & Hne)].
  - left. split; [by etrans|done].
  - right. exists r, index. rewrite (q_section _ _ Q) in *.
    split_and!; try done; [by apply (used_sec_layout _ _ _ (q_layout _ _ Q))|by eapply took_quiet_l].
Qed.

Lemma served_quiet_r zs mm m1 mm' count flag vp a :
  served zs mm m1 count flag vp a -> quiet m1 mm' -> served zs mm mm' count flag vp a.
Proof.
  intros [[Q' ->]|(r & index & Hr & Hu & T & -> & Hne)] Q.
  - left. split; [by etrans|done].
  - right. exists r, index. split_and!; try done. by eapply took_quiet_r.
Qed.

Lemma no_zero_block_quiet mm mm' zs vp :
  quiet mm mm' -> no_zero_block mm zs vp -> no_zero_block mm' zs vp.
Proof.
  intros Q H Hvp r Hr Hu. rewrite (q_section _ _ Q). apply H; [done..|].
  by apply (used_sec_layout _ _ _ (q_layout _ _ Q)).
Qed.

Lemma zone_served mm zi count flag vp mm' a :
  mm_wf mm -> cur_ok mm -> 0 < count -> no_zero_block mm [zi] vp ->
  __get_free_pages_from_zone mm zi count flag vp = Ret (mm', a) ->
  served [zi] mm mm' count flag vp a.
Proof.
  intros Hwf Hcur Hc Hz H. unfold __get_free_pages_from_zone in H.
  set (m0 := upd_zone zi (zone_set_mutex true) mm) in *.
  assert (quiet mm m0) as Q0 by by apply quiet_upd_zone.
  apply bind_Ret in H as ([m2 a2] & H1 & H). injection H as <- <-.
  eapply served_quiet_l; [done|]. eapply served_quiet_r; [|by apply quiet_upd_zone].
  destruct (_ <? count); [injection H1 as <- <-; by left|].
  apply bind_Ret in H1 as ([m1 a1] & H1 & H2).
  apply zone_sections_served in H1; [|by eapply mm_wf_layout, Hwf; apply Q0
    |by eapply quiet_cur_ok|done|by eapply no_zero_block_quiet].
  destruct (a1 =? 0); injection H2 as <- <-; [done|].
  eapply served_quiet_r; [done|by apply quiet_upd_zone].
Qed.

(** The zones a request visits, by the zone id of its flag. *)
Definition zone_order (id : Z) : list nat :=
  if id =? 3 then [3; 0; 1; 2]%nat else seq (Z.to_nat id) (3 - Z.to_nat id).

Fixpoint visits (fuel : nat) (id : Z) : list nat :=
  match fuel with
  | O => []
  | S fuel =>
    Z.to_nat id ::
      (let id := if id =? MM_ZONE_USER then MM_ZONE_KERNEL - 1 else id in
       if id =? MM_ZONE_RES then [] else visits fuel (id + 1))
  end.

Lemma visits_order id : 0 <= id < 4 -> visits 4 id = zone_order id.
Proof. intros. assert (id = 0 \/ id = 1 \/ id = 2 \/ id = 3) as [-> | [-> | [-> | ->]]] by lia; done. Qed.

Lemma zones_loop_served fuel mm id count flag vp mm' a :
  mm_wf mm -> cur_ok mm -> 0 < count -> no_zero_block mm (visits fuel id) vp ->
  zones_loop fuel mm id count flag vp = Ret (mm', a) ->
  served (visits fuel id) mm mm' count flag vp a.
Proof.
  revert mm id. induction fuel as [|fuel IH]; intros mm id Hwf Hcur Hc Hz H; [done|].
  cbn [zones_loop] in H. apply bind_Ret in H as ([m1 a1] & H1 & H).
  apply zone_served in H1; try done; [|intros ? r Hr; apply Hz; [done|]; simpl; set_solver].
  destruct (Z.eqb_spec a1 0) as [->|Hne].
  - destruct H1 as [[Q _]|(r & index & _ & _ & _ & _ & Hne)]; [|done].
    cbn [negb] in H. eapply served_quiet_l; [exact Q|]. cbn [visits] in *.
    set (id' := if id =? MM_ZONE_USER then MM_ZONE_KERNEL - 1 else id) in *.
    destruct (id' =? MM_ZONE_RES); [injection H as <- <-; by left|].
    eapply served_mono; [|eapply IH; [by eapply mm_wf_layout, Hwf; apply Q
      |by eapply quiet_cur_ok|done| |exact H]]; [set_solver|].
    eapply no_zero_block_quiet; [exact Q|]. intros Hvp r Hr. apply Hz; [done|]. set_solver.
  - cbn [negb] in H. injection H as <- <-. eapply served_mono; [|done]. simpl. set_solver.
Qed.

(** The zone id is the position of the highest zone bit of the flag. *)
Lemma zone_id_loop_log2 fuel f i :
  0 < f -> Z.log2 f < Z.of_nat fuel -> zone_id_loop fuel f i = Some (i + Z.log2 f).
Proof.
  revert f i. induction fuel as [|fuel IH]; intros f i Hf Hl.
  { pose proof (Z.log2_nonneg f). lia. }
  simpl. destruct (Z.eqb_spec f 1) as [->|Hne]; [f_equal; simpl; lia|].
  assert (Z.log2 (Z.shiftr f 1) = Z.log2 f - 1) as El.
  { rewrite Z.log2_shiftr by lia. assert (1 <= Z.log2 f); [|lia].
    apply (Z.log2_le_mono 2). lia. }
  rewrite IH; [f_equal; lia| |lia].
  rewrite Z.shiftr_div_pow2 by lia. apply Z.div_str_pos. lia.
Qed.

Lemma zone_id_loop_zero fuel i : zone_id_loop fuel 0 i = None.
Proof. revert i. induction fuel as [|fuel IH]; intros i; simpl; [done|]. apply IH. Qed.

Lemma get_zone_id_val flag :
  get_zone_id flag =
  if Z.land flag 255 =? 0 then None else Some (Z.log2 (Z.land flag 255)).
Proof.
  unfold get_zone_id, GFP_ZONE_ID_MASK.
  assert (0 <= Z.land flag 255 < 256) as Hb.
  { change 255 with (Z.ones 8). rewrite Z.land_ones by lia. apply Z.mod_pos_bound. lia. }
  zcase.
  - rewrite e. apply zone_id_loop_zero.
  - rewrite zone_id_loop_log2 by (try lia; apply Z.log2_lt_pow2; lia). done.
Qed.

(** ** Releasing a block *)

Lemma bm_current_loop_spec n m map start count c :
  map <> 0 -> bm_current_loop n m map start count = Ret c ->
  count <= c <= count + start /\ bit_at m map (start - (c - count)) = true /\
  (forall k, start - (c - count) < k <= start -> bit_at m map k = false).
Proof.
  intros Hm. revert start count. induction n as [|n IH]; intros start count; simpl;
    destruct (Z.ltb_spec start 0); try done.
  rewrite read_bit_spec by done. destruct (bit_at m map start) eqn:Hb; simpl.
  - intros [= <-]. replace (start - (count - count)) with start by lia. split_and!; try done; lia.
  - intros (H1 & H2 & H3)%IH.
    replace (start - 1 - (c - (count + 1))) with (start - (c - count)) in * by lia.
    split_and!; [lia|lia|done|]. intros k Hk.
    destruct (decide (k = start)) as [->|]; [done|]. apply H3. lia.
Qed.

Lemma bm_current_loop_total n m map start count k :
  map <> 0 -> 0 <= k <= start -> start < Z.of_nat n -> bit_at m map k = true ->
  exists c, bm_current_loop n m map start count = Ret c.
Proof.
  intros Hm. revert start count. induction n as [|n IH]; intros start count Hk Hn Hb; [lia|].
  simpl. destruct (Z.ltb_spec start 0); [lia|].
  rewrite read_bit_spec by done. destruct (bit_at m map start) eqn:Hs; simpl; [eauto|].
  assert (k <> start) by congruence. apply IH; [lia|lia|done].
Qed.

(** What a release does to the section that owned the block; [nr_free_pages] of the
    section stays as it was. *)
Record freed (mm mm' : mm_bank) (r : sref) (index count : Z) : Prop := {
  freed_layout : same_layout mm mm';
  freed_bits : forall r' k, in_section mm r' k ->
    page_used mm' r' k = if decide (in_block r index count r' k) then false else page_used mm r' k;
  freed_pages : pages mm' = pages mm;
  freed_current : 0 <= bm_current (section_at mm' r) <= bm_current (section_at mm r);
  freed_free_pages : nr_free_pages (section_at mm' r) = nr_free_pages (section_at mm r);
  freed_other_section : forall r', r' <> r -> section_at mm' r' = section_at mm r' }.

(** [page - section->page_table]. *)
Lemma page_index mm r index :
  mm_wf mm -> used_sec mm r -> 0 <= index <= nr_page (section_at mm r) ->
  (page_ref (section_at mm r) index - page_table (section_at mm r)) / sizeof_page = index.
Proof.
  intros Hwf Hu Hi. rewrite (page_ref_val _ (wf_geo _ Hwf r Hu)) by done.
  replace (_ + _ - _) with (index * sizeof_page) by (unfold sizeof_page; lia).
  by apply Z.div_mul.
Qed.

Lemma free_block_effect mm r pg index count mm' :
  mm_wf mm -> cur_ok mm -> used_sec mm r ->
  0 <= index -> 0 <= count -> index + count <= nr_page (section_at mm r) ->
  pg = page_ref (section_at mm r) index -> pcount (page_at mm pg) = count ->
  __free_pages mm r pg = Ret mm' -> freed mm mm' r index count.
Proof.
  intros Hwf Hcur Hu Hi Hc Hic -> Hcount H. unfold __free_pages in H.
  rewrite page_index in H by (try done; lia). rewrite Hcount, update_bitmap_fill in H. unfold update_bm_current in H.
  set (m1 := set_bitmaps mm _) in *.
  assert (same_layout mm m1) as L1 by by apply same_layout_zones.
  assert (forall r' k, in_section mm r' k -> page_used m1 r' k =
    if decide (in_block r index count r' k) then false else page_used mm r' k) as B1.
  { intros r' k Hk. unfold page_used at 1. change (section_at m1 r') with (section_at mm r').
    by eapply page_used_fill. }
  change (section_at m1 r) with (section_at mm r) in H.
  destruct (Z.eqb_spec (bm_current (section_at mm r)) 0) as [E0|E0].
  { injection H as <-. split; try done. change (section_at m1 r) with (section_at mm r). lia. }
  apply bind_Ret in H as (c & Hloop & H). injection H as <-.
  apply bm_current_loop_spec in Hloop as (Hc1 & _); [|destruct (wf_geo _ Hwf r Hu); simpl in *; lia].
  assert (mm_wf m1) by by eapply mm_wf_layout.
  assert (used_sec m1 r) by by apply (used_sec_layout _ _ _ L1).
  set (f := section_set_current _).
  assert (same_layout m1 (upd_section r f m1)) as L2 by by apply same_layout_upd_section.
  split.
  - by etrans.
  - intros r' k Hk. rewrite <- B1 by done. unfold page_used. simpl.
    pose proof (sl_geo _ _ L2 r') as E. injection E as _ _ _ _ _ -> _ _. done.
  - done.
  - rewrite section_at_upd_eq by done. simpl. change (section_at m1 r) with (section_at mm r). lia.
  - by rewrite section_at_upd_eq.
  - intros r' Hr. by rewrite section_at_upd_ne.
Qed.

Lemma free_block_total mm r index count k :
  mm_wf mm -> used_sec mm r ->
  0 <= index -> 0 <= count -> index + count <= nr_page (section_at mm r) ->
  pcount (desc mm r index) = count ->
  bm_current (section_at mm r) = 0 \/
    (0 <= k < bm_current (section_at mm r) /\ bm_current (section_at mm r) <= nr_page (section_at mm r)
     /\ page_used mm r k = true /\ ~ in_block r index count r k) ->
  exists mm', __free_pages mm r (page_ref (section_at mm r) index) = Ret mm'.
Proof.
  intros Hwf Hu Hi Hc Hic Hcount Hcur. unfold __free_pages. fold (desc mm r index).
  rewrite Hcount, update_bitmap_fill.
  rewrite page_index by (try done; lia).
  unfold update_bm_current. change (section_at (set_bitmaps mm _) r) with (section_at mm r).
  destruct (Z.eqb_spec (bm_current (section_at mm r)) 0); [eauto|].
  destruct Hcur as [|(Hk & Hcn & Hb & Hout)]; [done|].
  edestruct (bm_current_loop_total (Z.to_nat (bm_current (section_at mm r)))
    (bitmaps (set_bitmaps mm (fill_bits (bitmaps mm) (bitmap (section_at mm r)) index count false)))
    (bitmap (section_at mm r)) (bm_current (section_at mm r) - 1) 0 k) as [c ->].
  - destruct (wf_geo _ Hwf r Hu); simpl in *; lia.
  - lia.
  - lia.
  - simpl. erewrite (page_used_fill mm r index count false _ r k); try done; [|by split; [|lia]].
    by rewrite decide_False.
  - simpl. eauto.
Qed.
