(* ===== verification/MmSpec.v ===== *)
(** * The page allocator against its abstract specification

    The abstract state is the list of live blocks; an allocation adds a block that
    is disjoint from every other one, a release removes a block.  The concrete
    operations of mm/mm.c are shown to implement it, and address translation is
    shown to be exact on the sections of the machine. *)

From S2P Require Import Prelude Bitops Dlist Mm MmAlloc.

(** ** Translation between addresses, pages and sections *)

Lemma table_search_found mm p rs rest r :
  r ∈ rs -> p (section_at mm r) = true ->
  (forall r', r' ∈ rs -> p (section_at mm r') = true -> r' = r) ->
  table_search mm p ((Some <$> rs) ++ None :: rest) = Some r.
Proof.
  induction rs as [|r0 rs IH]; intros Hr Hp Hu; [set_solver|]. simpl.
  destruct (p (section_at mm r0)) eqn:E.
  - f_equal. apply Hu; [set_solver|done].
  - apply IH; [|done|intros r' Hr'; apply Hu; set_solver].
    apply elem_of_cons in Hr as [->|]; [congruence|done].
Qed.

Lemma in_range_spec a n va :
  0 <= a -> 0 <= n -> a + n < 4294967296 ->
  ((a <=? va) && (va <? u32 (a + n)))%Z = true <-> a <= va < a + n.
Proof. intros. rewrite u32_small by lia. rewrite andb_true_iff, Z.leb_le, Z.ltb_lt. done. Qed.

Lemma va_get_section_found mm r va :
  mm_wf mm -> used_sec mm r -> r.1 <> 3%nat ->
  vir_start (section_at mm r) <= va < vir_start (section_at mm r) + size (section_at mm r) ->
  va_get_section mm va = Some r.
Proof.
  intros Hwf Hu Hz Hva. unfold va_get_section.
  destruct (wf_table _ Hwf) as (rs & rest & -> & Hrs).
  apply table_search_found; [by apply Hrs| |].
  - destruct (wf_geo _ Hwf r Hu). simpl in *. apply in_range_spec; lia.
  - intros r' Hr' Hp. apply Hrs in Hr'. destruct (wf_geo _ Hwf r' Hr'). simpl in *.
    apply in_range_spec in Hp; [|lia..].
    destruct (decide (r' = r)) as [|Hne]; [done|].
    destruct (wf_apart _ Hwf r r' Hu Hr' ltac:(congruence)) as [_ _ _ Hv].
    specialize (Hv Hz). unfold ranges_apart in Hv. simpl in Hv. lia.
Qed.

Lemma pa_get_section_found mm r pa :
  mm_wf mm -> used_sec mm r ->
  phy_start (section_at mm r) <= pa < phy_start (section_at mm r) + size (section_at mm r) ->
  pa_get_section mm pa = Some r.
Proof.
  intros Hwf Hu Hva. unfold pa_get_section.
  destruct (wf_table _ Hwf) as (rs & rest & -> & Hrs).
  apply table_search_found; [by apply Hrs| |].
  - destruct (wf_geo _ Hwf r Hu). simpl in *. apply in_range_spec; lia.
  - intros r' Hr' Hp. apply Hrs in Hr'. destruct (wf_geo _ Hwf r' Hr'). simpl in *.
    apply in_range_spec in Hp; [|lia..].
    destruct (decide (r' = r)) as [|Hne]; [done|].
    destruct (wf_apart _ Hwf r r' Hu Hr' ltac:(congruence)) as [_ _ Hv _].
    unfold ranges_apart in Hv. simpl in Hv. lia.
Qed.

(** Page [k] of a section, from any address inside it. *)
Lemma section_page_id_val base k off :
  0 <= k -> 0 <= off < 4096 -> k * 4096 + off < 4294967296 ->
  section_page_id (base + k * 4096 + off) base = k.
Proof.
  intros. unfold section_page_id, PAGE_SHIFT.
  replace (base + k * 4096 + off - base) with (off + k * 4096) by lia.
  rewrite u32_small, Z.shiftr_div_pow2 by lia. change (2 ^ 12) with 4096.
  rewrite Z.div_add, Z.div_small by lia. lia.
Qed.

Lemma va_to_page_found mm r k off :
  mm_wf mm -> in_section mm r k -> r.1 <> 3%nat -> 0 <= off < 4096 ->
  let va := vir_start (section_at mm r) + k * 4096 + off in
  va_get_section mm va = Some r /\ va_to_page mm va = page_ref (section_at mm r) k.
Proof.
  intros Hwf [Hu Hk] Hz Hoff va. destruct (wf_geo _ Hwf r Hu) as [H1 H2 H3 H4 H5 H6 H7 H8 H9].
  simpl in *. assert (va_get_section mm va = Some r) as E
    by (apply va_get_section_found; try done; lia).
  split; [done|]. unfold va_to_page. rewrite E. unfold section_va_to_page, va.
  by rewrite section_page_id_val by lia.
Qed.

Lemma pa_to_page_found mm r k off :
  mm_wf mm -> in_section mm r k -> 0 <= off < 4096 ->
  pa_to_page mm (phy_start (section_at mm r) + k * 4096 + off) = page_ref (section_at mm r) k.
Proof.
  intros Hwf [Hu Hk] Hoff. destruct (wf_geo _ Hwf r Hu) as [H1 H2 H3 H4 H5 H6 H7 H8 H9].
  simpl in *. unfold pa_to_page. rewrite (pa_get_section_found mm r) by (try done; lia).
  unfold section_pa_to_page. by rewrite section_page_id_val by lia.
Qed.

(** The section id rides in the low byte of [phy_address]. *)
Lemma lor_low_byte pa id : pa mod 4096 = 0 -> 0 <= id < 256 -> Z.land (Z.lor pa id) 0xff = id.
Proof.
  intros Hpa Hid. change 255 with (Z.ones 8). apply Z.bits_inj'. intros n Hn.
  rewrite Z.land_spec, Z.lor_spec. destruct (decide (n < 8)).
  - rewrite (mod_pow2_bit pa 12) by (try done; lia). by rewrite Z.ones_spec_low, andb_true_r by lia.
  - rewrite Z.ones_spec_high, andb_false_r by lia. by rewrite (small_bit id 8) by lia.
Qed.

(** ** The abstract allocator *)

Record block := Block { b_sec : sref; b_base : Z; b_count : Z; b_flag : Z }.

#[export] Instance block_eq_dec : EqDecision block.
Proof. solve_decision. Defined.

Definition covers (b : block) (r : sref) (k : Z) : Prop := in_block (b_sec b) (b_base b) (b_count b) r k.

(** The descriptor of the first page still says what the allocator wrote into the
    fields a release reads. *)
Definition header_ok (mm : mm_bank) (b : block) : Prop :=
  let s := section_at mm (b_sec b) in
  let p := desc mm (b_sec b) (b_base b) in
  phy_address p = Z.lor (phy_start s + b_base b * 4096) (section_table_id s) /\
  pflag p = Z.lor (b_flag b) __GFP_PAGE_HEADER /\ pcount p = b_count b.

Record block_ok (mm : mm_bank) (b : block) : Prop := {
  bok_sec : used_sec mm (b_sec b);
  bok_range : 0 <= b_base b /\ 0 < b_count b < 65536 /\
    b_base b + b_count b <= nr_page (section_at mm (b_sec b));
  bok_zone : exists id, get_zone_id (b_flag b) = Some id /\ id < 4;
  bok_header : header_ok mm b }.

Definition disjoint_blocks (b b' : block) : Prop := forall r k, covers b r k -> ~ covers b' r k.

(** [reserved] are the pages handed out before the allocator was up. *)
Record alloc_inv (reserved : sref -> Z -> Prop) (mm : mm_bank) (live : list block) : Prop := {
  inv_wf : mm_wf mm;
  inv_cur : cur_ok mm;
  inv_bits : forall r k, in_section mm r k ->
    page_used mm r k = true <-> reserved r k \/ exists b, b ∈ live /\ covers b r k;
  inv_live : forall b, b ∈ live -> block_ok mm b;
  inv_apart : ForallOrdPairs disjoint_blocks live;
  inv_reserved : forall b r k, b ∈ live -> covers b r k -> ~ reserved r k }.

(** ** Requests return

    A search that starts at the last page of a section may not end (see
    [bitmap_find_free_base_hang]); everywhere else it does. *)

Definition start_ok (mm : mm_bank) : Prop := forall r, used_sec mm r ->
  bm_current (section_at mm r) < nr_page (section_at mm r) - 1 \/ bm_current (section_at mm r) = 0.

Lemma quiet_start_ok mm mm' : quiet mm mm' -> start_ok mm -> start_ok mm'.
Proof.
  intros Q H r Hu. rewrite (q_section _ _ Q). apply H.
  by apply (used_sec_layout _ _ _ (q_layout _ _ Q)).
Qed.

(** The last two pages of every section are in use: no search ends behind them, so every
    later search starts well. *)
Definition sealed (mm : mm_bank) : Prop := forall r, used_sec mm r ->
  bm_current (section_at mm r) < nr_page (section_at mm r) - 1 /\
  forall k, 0 <= k -> nr_page (section_at mm r) - 2 <= k < nr_page (section_at mm r) -> page_used mm r k = true.

Lemma sealed_start mm : sealed mm -> start_ok mm.
Proof. intros H r Hu. left. by apply H. Qed.

Lemma sealed_quiet mm mm' : quiet mm mm' -> sealed mm -> sealed mm'.
Proof.
  intros Q H r Hu%(used_sec_layout _ _ _ (q_layout _ _ Q)). rewrite (q_section _ _ Q).
  destruct (H r Hu) as [H1 H2]. split; [done|]. intros k H0 Hk. rewrite (quiet_page_used _ _ _ _ Q). auto.
Qed.

Lemma sealed_took mm mm' r index count flag :
  0 < count -> used_sec mm r -> took mm mm' r index count flag -> sealed mm -> sealed mm'.
Proof.
  intros Hc Hu T H r' Hu'%(used_sec_layout _ _ _ (took_layout _ _ _ _ _ _ T)).
  pose proof (sl_geo _ _ (took_layout _ _ _ _ _ _ T) r') as E. injection E as _ _ _ E _ _ _ _. rewrite E.
  destruct (H r' Hu') as [H1 H2]. pose proof (took_range _ _ _ _ _ _ T) as [R1 R2].
  split.
  - destruct (decide (r' = r)) as [->|Hr]; [|by rewrite (took_other_section _ _ _ _ _ _ T)].
    assert (index + count <= nr_page (section_at mm r) - 2).
    { destruct (decide (index + count <= nr_page (section_at mm r) - 2)); [done|].
      pose proof (took_free _ _ _ _ _ _ T (index + count - 1) ltac:(lia)) as F. rewrite H2 in F; [done|lia..]. }
    rewrite (took_current _ _ _ _ _ _ T). destruct (Z.leb_spec (nr_page (section_at mm r)) (index + count)); lia.
  - intros k H0 Hk. rewrite (took_bits _ _ _ _ _ _ T) by (split; [done|lia]). case_decide; [done|]. by apply H2.
Qed.

Lemma gfps_total mm r count flag vp :
  cur_ok mm -> start_ok mm -> used_sec mm r -> 0 < count ->
  exists mm' a, get_free_pages_from_section mm r count flag vp = Ret (mm', a).
Proof.
  intros Hcur Hst Hu Hc. unfold get_free_pages_from_section, bitmap_find_free_base.
  edestruct (first_pass (bitmaps mm) (bitmap (section_at mm r)) 0 count Hc
    (Z.to_nat (2 * nr_page (section_at mm r))) (bm_current (section_at mm r))
    (nr_page (section_at mm r)) (bm_current (section_at mm r)) 0) as (i & -> & _);
    [specialize (Hcur r Hu); specialize (Hst r Hu); lia..|by apply scanning_start|].
  simpl. destruct (i <? 0); eauto.
Qed.

Section Requests.
Context (count flag : Z) (vp : bool).
Hypothesis Hcount : 0 < count.

Lemma zone_sections_total mm zi ids :
  mm_wf mm -> cur_ok mm -> start_ok mm -> no_zero_block mm [zi] vp ->
  exists mm' a, zone_sections_loop mm zi ids count flag vp = Ret (mm', a).
Proof.
  intros Hwf Hcur Hst Hz. induction ids as [|id ids IH]; simpl; [eauto|].
  destruct (Z.eqb_spec (size (section_at mm (zi, id))) 0) as [|Hs]; [done|].
  destruct (_ <? _); [done|].
  destruct (gfps_total mm (zi, id) count flag vp) as (m1 & a1 & E); try done.
  rewrite E. simpl. destruct (Z.eqb_spec a1 0) as [->|]; simpl; [|eauto].
  apply gfps_effect in E as [[-> _]|(index & T & Ha)]; try done.
  pose proof (took_range _ _ _ _ _ _ T) as [? ?]. exfalso.
  eapply (answer_nonzero mm [zi] vp (zi, id) index count); try done. set_solver.
Qed.

Lemma zone_total mm zi :
  mm_wf mm -> cur_ok mm -> start_ok mm -> no_zero_block mm [zi] vp ->
  exists mm' a, __get_free_pages_from_zone mm zi count flag vp = Ret (mm', a).
Proof.
  intros Hwf Hcur Hst Hz. unfold __get_free_pages_from_zone.
  set (m0 := upd_zone zi (zone_set_mutex true) mm).
  assert (quiet mm m0) as Q0 by by apply quiet_upd_zone.
  destruct (_ <? count); [simpl; eauto|].
  destruct (zone_sections_total m0 zi (seq 0 4)) as (m1 & a1 & ->);
    [by eapply mm_wf_layout, Hwf; apply Q0|by eapply quiet_cur_ok|by eapply quiet_start_ok
    |by eapply no_zero_block_quiet|].
  simpl. destruct (a1 =? 0); simpl; eauto.
Qed.

(** A request visits at most [fuel] zones when it ends within [fuel] steps. *)
Fixpoint ends_in (fuel : nat) (id : Z) : bool :=
  match fuel with
  | O => false
  | S fuel =>
    let id := if id =? MM_ZONE_USER then MM_ZONE_KERNEL - 1 else id in
    (id =? MM_ZONE_RES) || ends_in fuel (id + 1)
  end.

Lemma zones_loop_total fuel mm id :
  mm_wf mm -> cur_ok mm -> start_ok mm -> no_zero_block mm (visits fuel id) vp ->
  ends_in fuel id = true ->
  exists mm' a, zones_loop fuel mm id count flag vp = Ret (mm', a).
Proof.
  revert mm id. induction fuel as [|fuel IH]; intros mm id Hwf Hcur Hst Hz He; [done|].
  assert (no_zero_block mm [Z.to_nat id] vp) as Hz1
    by (intros ? r Hr; apply Hz; [done|]; simpl; set_solver).
  destruct (zone_total mm (Z.to_nat id)) as (m1 & a1 & E); try done.
  cbn [zones_loop]. rewrite E. cbn [mbind outcome_bind].
  destruct (Z.eqb_spec a1 0) as [->|Hne]; cbn [negb]; [|eauto].
  cbn [ends_in visits] in *.
  set (id' := if id =? MM_ZONE_USER then MM_ZONE_KERNEL - 1 else id) in *.
  destruct (id' =? MM_ZONE_RES); [eauto|]. simpl in He.
  apply zone_served in E as [[Q _]|(r & index & _ & _ & _ & _ & Hne)]; try done.
  apply IH; [by eapply mm_wf_layout, Hwf; apply Q|by eapply quiet_cur_ok
    |by eapply quiet_start_ok| |done].
  eapply no_zero_block_quiet; [exact Q|]. intros Hvp r Hr. apply Hz; [done|]. set_solver.
Qed.

(** A request by flag, for a flag that names a zone: it returns, and its answer is
    [served] by the zones it visits. *)
Lemma __get_free_pages_served mm id :
  mm_wf mm -> cur_ok mm -> start_ok mm -> get_zone_id flag = Some id -> 0 <= id < 4 ->
  no_zero_block mm (zone_order id) vp ->
  exists mm' a, __get_free_pages mm count flag vp = Ret (mm', a) /\
    served (zone_order id) mm mm' count flag vp a.
Proof.
  intros Hwf Hcur Hst Hid Hr Hz. rewrite <- visits_order in Hz |- * by done.
  unfold __get_free_pages. rewrite Hid. cbn [fuelled mbind outcome_bind].
  destruct (Z.leb_spec MM_ZONE_UNKNOWN id) as [?|_]; [unfold MM_ZONE_UNKNOWN in *; lia|].
  destruct (zones_loop_total 4 mm id) as (m1 & a1 & E); try done.
  { assert (id = 0 \/ id = 1 \/ id = 2 \/ id = 3) as [-> | [-> | [-> | ->]]] by lia; done. }
  exists m1, a1. split; [done|]. by apply zones_loop_served in E.
Qed.
End Requests.

(** ** Refinement *)

Lemma pairs_remove {A} (R : A -> A -> Prop) l1 b l2 :
  ForallOrdPairs R (l1 ++ b :: l2) -> ForallOrdPairs R (l1 ++ l2).
Proof.
  induction l1 as [|x l1 IH]; simpl; intros H; inversion H as [|? ? HF HO]; subst; [done|].
  constructor; [|by apply IH]. apply List.Forall_app in HF as [? HF].
  apply List.Forall_app. split; [done|]. by inversion HF.
Qed.

Lemma disjoint_blocks_sym b b' : disjoint_blocks b b' -> disjoint_blocks b' b.
Proof. intros H r k Hb' Hb. by eapply H. Qed.

Lemma pairs_other l1 b l2 b' :
  ForallOrdPairs disjoint_blocks (l1 ++ b :: l2) -> b' ∈ l1 ++ l2 -> disjoint_blocks b b'.
Proof.
  induction l1 as [|x l1 IH]; simpl; intros H Hb'; inversion H as [|? ? HF HO]; subst.
  - rewrite List.Forall_forall in HF. apply HF. by apply list_elem_of_In.
  - apply elem_of_cons in Hb' as [->|Hb']; [|by apply IH].
    apply disjoint_blocks_sym. rewrite List.Forall_forall in HF. apply HF.
    apply list_elem_of_In. set_solver.
Qed.

Lemma layout_fields mm mm' r : same_layout mm mm' ->
  phy_start (section_at mm' r) = phy_start (section_at mm r) /\
  vir_start (section_at mm' r) = vir_start (section_at mm r) /\
  nr_page (section_at mm' r) = nr_page (section_at mm r) /\
  section_table_id (section_at mm' r) = section_table_id (section_at mm r) /\
  page_table (section_at mm' r) = page_table (section_at mm r).
Proof. intros L. pose proof (sl_geo _ _ L r) as E. injection E. auto. Qed.

Lemma in_section_layout mm mm' r k : same_layout mm mm' -> in_section mm' r k <-> in_section mm r k.
Proof.
  intros L. unfold in_section. destruct (layout_fields _ _ r L) as (_ & _ & -> & _).
  by rewrite (used_sec_layout _ _ _ L).
Qed.

Lemma block_ok_keep mm mm' b :
  same_layout mm mm' -> desc mm' (b_sec b) (b_base b) = desc mm (b_sec b) (b_base b) ->
  block_ok mm b -> block_ok mm' b.
Proof.
  intros L D [H1 H2 H3 (H4 & H5 & H6)].
  destruct (layout_fields _ _ (b_sec b) L) as (Ep & _ & En & Ei & _).
  split; [by apply (used_sec_layout _ _ _ L)|by rewrite En|done|].
  unfold header_ok. by rewrite D, Ep, Ei.
Qed.

Lemma block_base_covered mm b : block_ok mm b ->
  in_section mm (b_sec b) (b_base b) /\ covers b (b_sec b) (b_base b).
Proof.
  intros [H1 H2 _ _]. unfold in_section, covers, in_block.
  split_and!; try done; lia.
Qed.

Lemma quiet_inv reserved mm mm' live :
  quiet mm mm' -> alloc_inv reserved mm live -> alloc_inv reserved mm' live.
Proof.
  intros Q [W C B L A R]. split; try done.
  - by eapply mm_wf_layout, W; apply Q.
  - by eapply quiet_cur_ok.
  - intros r k Hk. rewrite (quiet_page_used _ _ _ _ Q). apply B.
    by apply (quiet_in_section _ _ _ _ Q).
  - intros b Hb. eapply block_ok_keep; [apply Q|by apply quiet_desc|auto].
Qed.


(** Taking a block out of a section adds it to the live blocks. *)
Lemma took_inv reserved mm mm' live r index count flag id :
  alloc_inv reserved mm live -> used_sec mm r -> 0 < count < 65536 ->
  get_zone_id flag = Some id -> id < 4 ->
  took mm mm' r index count flag ->
  let b := Block r index count flag in
  alloc_inv reserved mm' (b :: live) /\
  (forall k, index <= k < index + count -> ~ reserved r k) /\
  (forall b', b' ∈ live -> disjoint_blocks b b').
Proof.
  intros [W C B L A R] Hu Hc Hid Hid4 T b. pose proof (took_range _ _ _ _ _ _ T) as [Hi0 Hi1].
  pose proof (took_layout _ _ _ _ _ _ T) as TL.
  destruct (layout_fields _ _ r TL) as (Ep & _ & En & Ei & _).
  assert (forall k, index <= k < index + count ->
    in_section mm r k /\ ~ (reserved r k \/ exists b', b' ∈ live /\ covers b' r k)) as Hfree.
  { intros k Hk. assert (in_section mm r k) by (split; [done|lia]). split; [done|].
    rewrite <- B by done. by rewrite (took_free _ _ _ _ _ _ T). }
  assert (forall k, index <= k < index + count -> ~ reserved r k) as Hres
    by (intros k Hk Hr; apply (Hfree k Hk); by left).
  assert (forall b', b' ∈ live -> disjoint_blocks b b') as Hdis.
  { intros b' Hb' r' k [-> Hk] Hb2. apply (Hfree k Hk). eauto. }
  split; [|done]. split.
  - by eapply mm_wf_layout.
  - eapply took_cur_ok; [|done|done|done]. lia.
  - intros r' k Hk%(in_section_layout _ _ _ _ TL). rewrite (took_bits _ _ _ _ _ _ T) by done.
    case_decide as Hin.
    + split; [|done]. intros _. right. exists b. split; [set_solver|done].
    + rewrite B by done. split; [intros [?|(b' & ? & ?)]; [by left|right]|intros [?|(b' & Hb' & ?)]; [by left|right]].
      * exists b'. set_solver.
      * apply elem_of_cons in Hb' as [->|]; [done|eauto].
  - intros b' [->|Hb']%elem_of_cons.
    + split; simpl; [by apply (used_sec_layout _ _ _ TL)|by rewrite En|eauto|].
      unfold header_ok. simpl. rewrite <- (Z.add_0_r index) at 1 3 4.
      rewrite (took_desc _ _ _ _ _ _ T) by lia. unfold new_page. simpl.
      rewrite Ep, Ei, u16_small by lia. rewrite Z.add_0_r. done.
    + eapply block_ok_keep; [done| |auto].
      destruct (block_base_covered mm b' (L _ Hb')) as [Hs Hcov].
      apply (took_other_desc _ _ _ _ _ _ T); [done|]. intros Hin.
      by eapply (Hdis b' Hb').
  - constructor; [|done]. apply List.Forall_forall. intros b' Hb'. apply Hdis. by apply list_elem_of_In.
  - intros b' r' k [->|Hb']%elem_of_cons; [intros [-> Hk]; auto|eauto].
Qed.

(** Clearing the bits of a live block removes it. *)
Lemma freed_inv reserved mm mm' l1 b l2 :
  alloc_inv reserved mm (l1 ++ b :: l2) ->
  freed mm mm' (b_sec b) (b_base b) (b_count b) ->
  alloc_inv reserved mm' (l1 ++ l2).
Proof.
  intros [W C B L A R] F. pose proof (freed_layout _ _ _ _ _ F) as FL.
  assert (forall b', b' ∈ l1 ++ l2 -> b' ∈ l1 ++ b :: l2) as Hsub by set_solver.
  split.
  - by eapply mm_wf_layout.
  - intros r Hu%(used_sec_layout _ _ _ FL). destruct (layout_fields _ _ r FL) as (_ & _ & -> & _).
    specialize (C r Hu). destruct (decide (r = b_sec b)) as [->|Hr].
    + pose proof (freed_current _ _ _ _ _ F). lia.
    + by rewrite (freed_other_section _ _ _ _ _ F).
  - intros r k Hk%(in_section_layout _ _ _ _ FL). rewrite (freed_bits _ _ _ _ _ F) by done.
    case_decide as Hin.
    + split; [done|]. intros [Hr|(b' & Hb' & Hc)].
      * exfalso. eapply (R b r k); [set_solver|done|done].
      * exfalso. by eapply (pairs_other _ _ _ _ A Hb').
    + rewrite B by done. split; [intros [?|(b' & Hb' & ?)]; [by left|right]|intros [?|(b' & ? & ?)]; [by left|right; eauto]].
      exists b'. split; [|done]. apply elem_of_app in Hb' as [?|[->|?]%elem_of_cons]; set_solver.
  - intros b' Hb'. eapply block_ok_keep; [done| |eauto].
    unfold desc, page_ref, page_at. rewrite (freed_pages _ _ _ _ _ F).
    by destruct (layout_fields _ _ (b_sec b') FL) as (_ & _ & _ & _ & ->).
  - by eapply pairs_remove.
  - intros b' r k Hb'. eauto.
Qed.

(** ** Releasing a live block *)

Definition block_va (mm : mm_bank) (b : block) : Z :=
  vir_start (section_at mm (b_sec b)) + b_base b * 4096.
Definition block_page (mm : mm_bank) (b : block) : Z := page_ref (section_at mm (b_sec b)) (b_base b).

(** [update_bm_current] stops at a page in use below [bm_current]: there must be one
    that is not part of the block. *)
Definition anchored (mm : mm_bank) (b : block) : Prop :=
  let s := section_at mm (b_sec b) in
  bm_current s = 0 \/
  exists k, 0 <= k < bm_current s /\ page_used mm (b_sec b) k = true /\ ~ covers b (b_sec b) k.

Lemma testbit_low_header flag n : 0 <= n < 8 ->
  Z.testbit (Z.lor flag __GFP_PAGE_HEADER) n = Z.testbit flag n.
Proof.
  intros Hn. rewrite Z.lor_spec. change __GFP_PAGE_HEADER with (2 ^ 16).
  rewrite Z.pow2_bits_false by lia. apply orb_false_r.
Qed.

Lemma get_zone_id_header flag : get_zone_id (Z.lor flag __GFP_PAGE_HEADER) = get_zone_id flag.
Proof.
  unfold get_zone_id. f_equal. change GFP_ZONE_ID_MASK with (Z.ones 8).
  apply Z.bits_inj'. intros n Hn. rewrite !Z.land_spec.
  destruct (decide (n < 8)); [by rewrite testbit_low_header by lia|].
  by rewrite Z.ones_spec_high, !andb_false_r by lia.
Qed.

Lemma header_bit flag : Z.land (Z.lor flag __GFP_PAGE_HEADER) __GFP_PAGE_HEADER <> 0.
Proof.
  intros E. apply (f_equal (fun z => Z.testbit z 16)) in E.
  rewrite Z.land_spec, Z.lor_spec, Z.bits_0 in E. change __GFP_PAGE_HEADER with (2 ^ 16) in E.
  rewrite Z.pow2_bits_true, orb_true_r in E by lia. done.
Qed.

Section Release.
Context (reserved : sref -> Z -> Prop) (mm : mm_bank) (l1 : list block) (b : block) (l2 : list block).
Hypothesis Hinv : alloc_inv reserved mm (l1 ++ b :: l2).

Let Hok : block_ok mm b := inv_live _ _ _ Hinv b ltac:(set_solver).

Lemma block_page_nonzero : block_page mm b <> 0.
Proof.
  destruct Hok as [H1 H2 _ _]. unfold block_page.
  pose proof (wf_geo _ (inv_wf _ _ _ Hinv) _ H1) as G. rewrite (page_ref_val _ G) by lia.
  destruct G; simpl in *. lia.
Qed.

(** [_free_pages] on a live block is [__free_pages] on it, up to zone bookkeeping. *)
Lemma _free_pages_live :
  exists zi mm0, quiet mm mm0 /\
    _free_pages mm (Some (b_sec b)) (block_page mm b) =
    (mm ← __free_pages mm0 (b_sec b) (block_page mm b); mret (upd_zone zi (zone_set_mutex false) mm)).
Proof.
  destruct Hok as [H1 H2 (id & Hid & Hid4) (_ & Hfl & Hcnt)].
  unfold desc in Hfl, Hcnt. fold (block_page mm b) in Hfl, Hcnt.
  unfold _free_pages. destruct (Z.eqb_spec (block_page mm b) 0); [by destruct block_page_nonzero|].
  rewrite Hfl. destruct (Z.eqb_spec (Z.land (Z.lor (b_flag b) __GFP_PAGE_HEADER) __GFP_PAGE_HEADER) 0)
    as [E|_]; [by destruct (header_bit (b_flag b))|].
  rewrite get_zone_id_header, Hid. cbn [fuelled mbind outcome_bind].
  destruct (Z.leb_spec MM_ZONE_UNKNOWN id); [unfold MM_ZONE_UNKNOWN in *; lia|].
  do 2 eexists. split; [|done]. etrans; by apply quiet_upd_zone.
Qed.

Lemma release_live_total :
  anchored mm b ->
  exists mm', _free_pages mm (Some (b_sec b)) (block_page mm b) = Ret mm'.
Proof.
  intros Ha. destruct _free_pages_live as (zi & m0 & Q & ->).
  pose proof (quiet_inv _ _ _ _ Q Hinv) as Hinv0.
  destruct (inv_live _ _ _ Hinv0 b ltac:(set_solver)) as [H1 H2 _ (_ & _ & H3)].
  assert (exists k, bm_current (section_at m0 (b_sec b)) = 0 \/
    (0 <= k < bm_current (section_at m0 (b_sec b)) /\
     bm_current (section_at m0 (b_sec b)) <= nr_page (section_at m0 (b_sec b)) /\
     page_used m0 (b_sec b) k = true /\ ~ in_block (b_sec b) (b_base b) (b_count b) (b_sec b) k))
    as [k Hk].
  { rewrite !(q_section _ _ Q). destruct Ha as [->|(k & Hk & Hb & Hout)]; [exists 0; by left|].
    exists k. right. rewrite (quiet_page_used _ _ _ _ Q).
    pose proof (inv_cur _ _ _ Hinv _ (bok_sec _ _ Hok)). split_and!; try done; lia. }
  destruct (free_block_total m0 (b_sec b) (b_base b) (b_count b) k) as [m1 E];
    [apply Hinv0|done|lia|lia|lia|done|done|].
  unfold block_page. rewrite <- (q_section _ _ Q), E. simpl. eauto.
Qed.

Lemma release_live_effect mm' :
  _free_pages mm (Some (b_sec b)) (block_page mm b) = Ret mm' ->
  alloc_inv reserved mm' (l1 ++ l2) /\
  (forall r, nr_free_pages (section_at mm' r) = nr_free_pages (section_at mm r)).
Proof.
  destruct _free_pages_live as (zi & m0 & Q & ->). intros (m1 & E & H)%bind_Ret.
  injection H as <-.
  pose proof (quiet_inv _ _ _ _ Q Hinv) as Hinv0.
  destruct (inv_live _ _ _ Hinv0 b ltac:(set_solver)) as [H1 H2 _ (_ & _ & H3)].
  unfold block_page in E. rewrite <- (q_section _ _ Q) in E.
  apply (free_block_effect _ _ _ (b_base b) (b_count b)) in E as F;
    [|apply Hinv0|apply Hinv0|done|lia|lia|lia|done|done].
  assert (quiet m1 (upd_zone zi (zone_set_mutex false) m1)) as Q1 by by apply quiet_upd_zone.
  split; [by eapply quiet_inv, freed_inv|].
  intros r. rewrite (q_section _ _ Q1), <- (q_section _ _ Q).
  destruct (decide (r = b_sec b)) as [->|Hr].
  - apply (freed_free_pages _ _ _ _ _ F).
  - by rewrite (freed_other_section _ _ _ _ _ F).
Qed.

Lemma free_pages_live :
  (b_sec b).1 <> 3%nat ->
  free_pages mm (block_va mm b) = _free_pages mm (Some (b_sec b)) (block_page mm b).
Proof.
  intros Hz. destruct (block_base_covered _ _ Hok) as [Hin _].
  pose proof (wf_geo _ (inv_wf _ _ _ Hinv) _ (proj1 Hin)) as G.
  destruct (va_to_page_found mm (b_sec b) (b_base b) 0 (inv_wf _ _ _ Hinv) Hin Hz) as [E1 E2]; [lia|].
  rewrite Z.add_0_r in E1, E2. fold (block_va mm b) in E1, E2.
  unfold free_pages, va_to_page in *. rewrite E1 in *.
  change PAGE_SIZE with (2 ^ 12). rewrite is_align_spec by lia.
  assert (block_va mm b mod 2 ^ 12 = 0) as ->; [|simpl; by rewrite E2].
  unfold block_va. change (2 ^ 12) with 4096. rewrite Z.mod_add by done. destruct G; simpl in *; lia.
Qed.

Lemma release_page_live :
  release_page mm (block_page mm b) = _free_pages mm (Some (b_sec b)) (block_page mm b).
Proof.
  destruct Hok as [H1 H2 _ (Hp & _ & _)]. unfold release_page.
  destruct (Z.eqb_spec (block_page mm b) 0); [by destruct block_page_nonzero|]. f_equal.
  unfold page_get_section. unfold desc in Hp. fold (block_page mm b) in Hp. rewrite Hp.
  pose proof (wf_geo _ (inv_wf _ _ _ Hinv) _ H1) as G.
  pose proof (wf_id _ (inv_wf _ _ _ Hinv) _ H1) as Hid. simpl in Hid.
  pose proof (ok_id _ G) as Hb. simpl in Hb.
  rewrite lor_low_byte; [by rewrite Hid| |done].
  destruct G; simpl in *. rewrite Z.mod_add by lia. lia.
Qed.
End Release.

(** ** Live blocks *)

Definition block_pa (mm : mm_bank) (b : block) : Z :=
  phy_start (section_at mm (b_sec b)) + b_base b * 4096.

Section Live.
Context (reserved : sref -> Z -> Prop) (mm : mm_bank) (live : list block).
Hypothesis Hinv : alloc_inv reserved mm live.

Lemma live_apart b b' : b ∈ live -> b' ∈ live -> b <> b' -> disjoint_blocks b b'.
Proof.
  pose proof (inv_apart _ _ _ Hinv) as HA. clear Hinv. induction HA as [|x l HF HA IH]; [set_solver|].
  rewrite List.Forall_forall in HF.
  intros [->|Hb]%elem_of_cons [->|Hb']%elem_of_cons Hne; [done| | |by apply IH].
  - apply HF. by apply list_elem_of_In.
  - apply disjoint_blocks_sym, HF. by apply list_elem_of_In.
Qed.

Lemma live_in_section b : b ∈ live -> in_section mm (b_sec b) (b_base b).
Proof. intros Hb. by apply block_base_covered, (inv_live _ _ _ Hinv). Qed.

Lemma live_pa b : b ∈ live ->
  0 <= block_pa mm b /\ block_pa mm b + 4096 <= 4294967296 /\ block_pa mm b mod 4096 = 0.
Proof.
  intros Hb. destruct (live_in_section b Hb) as [Hu Hk].
  destruct (wf_geo _ (inv_wf _ _ _ Hinv) _ Hu). simpl in *. unfold block_pa.
  rewrite Z.mod_add by lia. lia.
Qed.

Lemma live_va b : b ∈ live ->
  0 <= block_va mm b /\ block_va mm b + 4096 <= 4294967296 /\ block_va mm b mod 4096 = 0.
Proof.
  intros Hb. destruct (live_in_section b Hb) as [Hu Hk].
  destruct (wf_geo _ (inv_wf _ _ _ Hinv) _ Hu). simpl in *. unfold block_va.
  rewrite Z.mod_add by lia. lia.
Qed.

Lemma live_va_end b : b ∈ live -> block_va mm b + 4096 * b_count b < 4294967296.
Proof.
  intros Hb. destruct (live_in_section b Hb) as [Hu Hk].
  destruct (wf_geo _ (inv_wf _ _ _ Hinv) _ Hu). simpl in *. unfold block_va.
  destruct (bok_range _ _ (inv_live _ _ _ Hinv b Hb)) as (R1 & R2 & R3). lia.
Qed.

Lemma live_page_to_pa b : b ∈ live -> page_to_pa mm (block_page mm b) = block_pa mm b.
Proof.
  intros Hb. pose proof (live_pa b Hb) as (P1 & P2 & P3). destruct (live_in_section b Hb) as [Hu _].
  destruct (bok_header _ _ (inv_live _ _ _ Hinv b Hb)) as (Hp & _).
  unfold page_to_pa. unfold desc in Hp. fold (block_page mm b) in Hp. rewrite Hp.
  fold (block_pa mm b). pose proof (ok_id _ (wf_geo _ (inv_wf _ _ _ Hinv) _ Hu)) as Hid. simpl in Hid.
  apply (land_lor_mask _ _ 12 8); try done; lia.
Qed.

Lemma live_pa_to_page b off : b ∈ live -> 0 <= off < 4096 ->
  pa_to_page mm (block_pa mm b + off) = block_page mm b.
Proof.
  intros Hb Hoff. apply pa_to_page_found; [by apply (inv_wf _ _ _ Hinv)|by apply live_in_section|done].
Qed.

Lemma live_page_inj b b' : b ∈ live -> b' ∈ live -> b <> b' ->
  ranges_apart (block_page mm b) 28 (block_page mm b') 28.
Proof.
  intros Hb Hb' Hne. apply page_refs_apart; [by apply (inv_wf _ _ _ Hinv)|by apply live_in_section..|].
  intros [= E1 E2]. eapply (live_apart b b' Hb Hb' Hne (b_sec b) (b_base b)).
  - by apply (block_base_covered mm), (inv_live _ _ _ Hinv).
  - unfold covers, in_block. pose proof (bok_range _ _ (inv_live _ _ _ Hinv b' Hb')). split; [done|lia].
Qed.

(** Two live blocks of the kernel zones are apart in virtual memory. *)
Lemma live_va_ranges b b' : b ∈ live -> b' ∈ live -> b <> b' -> (b_sec b).1 <> 3%nat ->
  ranges_apart (block_va mm b) (4096 * b_count b) (block_va mm b') (4096 * b_count b').
Proof.
  intros Hb Hb' Hne Hz. destruct (live_in_section b Hb) as [Hu Hk].
  destruct (live_in_section b' Hb') as [Hu' Hk']. unfold ranges_apart, block_va.
  destruct (bok_range _ _ (inv_live _ _ _ Hinv b Hb)) as (R1 & R2 & R3).
  destruct (bok_range _ _ (inv_live _ _ _ Hinv b' Hb')) as (R1' & R2' & R3').
  destruct (decide (b_sec b = b_sec b')) as [E|E].
  - rewrite <- E in *. pose proof (live_apart b b' Hb Hb' Hne (b_sec b)) as D.
    unfold covers, in_block in D. rewrite <- E in D.
    assert (~ (b_base b <= b_base b' < b_base b + b_count b)) as D1
      by (intros ?; by apply (D (b_base b')); split; [|lia| |lia]).
    assert (~ (b_base b' <= b_base b < b_base b' + b_count b')) as D2
      by (intros ?; by apply (D (b_base b)); split; [|lia| |lia]). lia.
  - destruct (wf_apart _ (inv_wf _ _ _ Hinv) _ _ Hu Hu' E) as [_ _ _ Hv].
    specialize (Hv Hz). unfold ranges_apart in Hv. simpl in Hv.
    destruct (wf_geo _ (inv_wf _ _ _ Hinv) _ Hu), (wf_geo _ (inv_wf _ _ _ Hinv) _ Hu'). simpl in *. lia.
Qed.

Lemma live_va_apart b b' : b ∈ live -> b' ∈ live -> b <> b' -> (b_sec b).1 <> 3%nat ->
  ranges_apart (block_va mm b) 4096 (block_va mm b') 4096.
Proof.
  intros Hb Hb' Hne Hz. pose proof (live_va_ranges b b' Hb Hb' Hne Hz) as H.
  destruct (bok_range _ _ (inv_live _ _ _ Hinv b Hb)) as (_ & R & _).
  destruct (bok_range _ _ (inv_live _ _ _ Hinv b' Hb')) as (_ & R' & _).
  unfold ranges_apart in *. lia.
Qed.
End Live.

(** ** Changes to descriptors that a release does not look at *)

Record soft (mm mm' : mm_bank) : Prop := {
  so_zone : zone mm' = zone mm;
  so_table : section_table mm' = section_table mm;
  so_bitmaps : bitmaps mm' = bitmaps mm;
  so_page : forall a, phy_address (page_at mm' a) = phy_address (page_at mm a) /\
    pflag (page_at mm' a) = pflag (page_at mm a) /\ pcount (page_at mm' a) = pcount (page_at mm a) }.

#[export] Instance soft_preorder : PreOrder soft.
Proof.
  split; [by split|]. intros a b c [Z1 T1 B1 P1] [Z2 T2 B2 P2]. split; [congruence..|].
  intros x. destruct (P1 x) as (? & ? & ?), (P2 x) as (? & ? & ?). split_and!; congruence.
Qed.

Lemma soft_section mm mm' r : soft mm mm' -> section_at mm' r = section_at mm r.
Proof. intros H. apply section_at_zones, H. Qed.

Lemma soft_inv reserved mm mm' live : soft mm mm' -> alloc_inv reserved mm live -> alloc_inv reserved mm' live.
Proof.
  intros S [W C B L A R]. pose proof (fun r => soft_section _ _ r S) as Hs.
  destruct S as [SZ ST SB SP].
  assert (same_layout mm mm') as HL by by apply same_layout_zones.
  split; try done.
  - by eapply mm_wf_layout.
  - intros r Hu. rewrite Hs. apply C. by apply (used_sec_layout _ _ _ HL).
  - intros r k Hk. unfold page_used. rewrite SB, Hs. apply B. by apply (in_section_layout _ _ _ _ HL).
  - intros b Hb. destruct (L b Hb) as [H1 H2 H3 H4]. split; [by apply (used_sec_layout _ _ _ HL)| |done|].
    + by rewrite Hs.
    + unfold header_ok, desc in *. rewrite Hs. destruct (SP (page_ref (section_at mm (b_sec b)) (b_base b)))
        as (-> & -> & ->). done.
Qed.

Lemma page_at_upd mm pg f a : page_at (upd_page mm pg f) a = if decide (pg = a) then f (page_at mm pg) else page_at mm a.
Proof.
  unfold upd_page. rewrite page_at_set. case_decide as E.
  - subst. by rewrite lookup_insert_eq.
  - by rewrite lookup_insert_ne.
Qed.

Lemma soft_upd_page mm pg f :
  (forall p, phy_address (f p) = phy_address p /\ pflag (f p) = pflag p /\ pcount (f p) = pcount p) ->
  soft mm (upd_page mm pg f).
Proof.
  intros Hf. split; try done. intros a. rewrite page_at_upd. case_decide; [subst; apply Hf|done].
Qed.

Lemma soft_plists mm l : soft mm (set_pages mm (pages mm) l).
Proof. by split. Qed.

Lemma sealed_soft mm mm' : soft mm mm' -> sealed mm -> sealed mm'.
Proof.
  intros S H r Hu. assert (same_layout mm mm') as HL by (apply same_layout_zones; apply S).
  apply (used_sec_layout _ _ _ HL) in Hu. unfold page_used. rewrite (soft_section _ _ _ S), (so_bitmaps _ _ S). by apply H.
Qed.

(** ** Kernel pages *)

(** A block whose descriptor still holds its kernel address. *)
Definition kernel_page (mm : mm_bank) (b : block) : Prop :=
  map_address (page_at mm (block_page mm b)) = block_va mm b.

Lemma kernel_page_va reserved mm live b : alloc_inv reserved mm live -> b ∈ live -> kernel_page mm b ->
  page_to_va mm (block_page mm b) = block_va mm b.
Proof.
  intros Hinv Hb Hk. destruct (live_va _ _ _ Hinv b Hb) as (V1 & V2 & V3).
  unfold page_to_va. rewrite Hk. rewrite <- (Z.lor_0_r (block_va mm b)) at 1.
  apply (land_lor_mask _ 0 12 12); try done; lia.
Qed.

Lemma block_layout mm mm' b : same_layout mm mm' ->
  block_va mm' b = block_va mm b /\ block_pa mm' b = block_pa mm b /\ block_page mm' b = block_page mm b.
Proof.
  intros HL. destruct (layout_fields _ _ (b_sec b) HL) as (E1 & E2 & _ & _ & E3).
  unfold block_va, block_pa, block_page, page_ref. by rewrite E1, E2, E3.
Qed.

Definition node (mm : mm_bank) (b : block) : Z := block_page mm b + plist_offset.

(** A page that was taken from any zone. *)
Record taken_ok reserved (mm mm' : mm_bank) (live : list block) (b : block) : Prop := {
  tk_layout : same_layout mm mm';
  tk_alloc : alloc_inv reserved mm' (b :: live);
  tk_fresh : b ∉ live;
  tk_keep : forall b', b' ∈ live -> page_at mm' (block_page mm b') = page_at mm (block_page mm b');
  tk_nodes : b_count b = 1 -> same_nodes mm mm' (eq (node mm b));
  tk_sealed : sealed mm -> sealed mm' }.

Lemma took_taken reserved mm mm' live r index n flag id :
  alloc_inv reserved mm live -> used_sec mm r -> 0 < n < 65536 -> get_zone_id flag = Some id -> id < 4 ->
  took mm mm' r index n flag -> taken_ok reserved mm mm' live (Block r index n flag).
Proof.
  intros A Hu Hn Hid Hid4 T. pose proof (took_layout _ _ _ _ _ _ T) as TL.
  destruct (took_inv reserved mm mm' live r index n flag id A Hu Hn Hid Hid4 T) as (A' & Hres & Hdis). split; try done.
  - intros Hin. apply (Hdis _ Hin r index); unfold covers, in_block; simpl; split; try done; lia.
  - intros b' Hb'. destruct (block_layout mm mm' b' TL) as (_ & _ & E5). rewrite <- E5 at 1.
    pose proof (block_base_covered _ _ (inv_live _ _ _ A b' Hb')) as [Hin Hcov].
    apply (took_other_desc _ _ _ _ _ _ T); [done|]. intros Hc. by apply (Hdis b' Hb' (b_sec b') (b_base b')).
  - simpl. intros -> a Ha. apply (took_plists _ _ _ _ _ _ T). intros (i & Hi & ->). apply Ha.
    assert (i = 0) as -> by lia. by rewrite Z.add_0_r.
  - eapply sealed_took; try done; lia.
Qed.

(** A single page from the zones of [flag]. *)
Lemma request_page reserved mm live flag id :
  alloc_inv reserved mm live -> start_ok mm -> get_zone_id flag = Some id -> 0 <= id < 4 ->
  exists mm' pg, request_pages mm 1 flag = Ret (mm', pg) /\
    ((pg = 0 /\ quiet mm mm') \/
     exists b, b_count b = 1 /\ pg = block_page mm b /\ pg <> 0 /\ taken_ok reserved mm mm' live b).
Proof.
  intros A Hst Hid Hid4. unfold request_pages. destruct (Z.ltb_spec 1 0); [lia|].
  destruct (__get_free_pages_served 1 flag false ltac:(lia) mm id)
    as (mm' & a & E & [[Q ->]|(r & index & Hr & Hu & T & -> & Hne)]);
    [apply A|apply A|done|done|lia|done| |].
  { exists mm', 0. split; [by rewrite E|]. by left. }
  eexists mm', _. split; [by rewrite E|]. right. exists (Block r index 1 flag).
  split; [done|]. split; [done|]. split; [done|]. eapply took_taken; try done; lia.
Qed.

(** The page is a new live block that holds its kernel address, and no other live
    descriptor changed. *)
Record new_page_ok reserved (mm mm' : mm_bank) (live : list block) (b : block) : Prop := {
  np_layout : same_layout mm mm';
  np_alloc : alloc_inv reserved mm' (b :: live);
  np_zone : (b_sec b).1 <> 3%nat;
  np_kernel : kernel_page mm' b;
  np_fresh : b ∉ live;
  np_keep : forall b', b' ∈ live -> page_at mm' (block_page mm b') = page_at mm (block_page mm b');
  np_nodes : b_count b = 1 -> same_nodes mm mm' (eq (node mm b));
  np_sealed : sealed mm -> sealed mm' }.

Lemma request_kernel_page reserved mm live n flag :
  alloc_inv reserved mm live -> start_ok mm -> 0 < n < 65536 -> get_zone_id flag = Some 0 ->
  Z.land flag __GFP_USER = 0 ->
  exists mm' pg, request_pages mm n flag = Ret (mm', pg) /\
    ((pg = 0 /\ quiet mm mm') \/
     exists b, b_count b = n /\ pg = block_page mm' b /\ pg <> 0 /\ new_page_ok reserved mm mm' live b).
Proof.
  intros A Hst Hn Hid Hus. unfold request_pages. destruct (Z.ltb_spec n 0); [lia|].
  destruct (__get_free_pages_served n flag false ltac:(lia) mm 0)
    as (mm' & a & E & [[Q ->]|(r & index & Hr & Hu & T & -> & Hne)]);
    [apply A|apply A|done|done|lia|done| |].
  { exists mm', 0. split; [by rewrite E|]. by left. }
  eexists mm', _. split; [by rewrite E|]. right. exists (Block r index n flag). split; [done|].
  pose proof (took_layout _ _ _ _ _ _ T) as TL.
  destruct (took_taken reserved mm mm' live r index n flag 0 A Hu Hn Hid ltac:(lia) T) as [_ A' Hfr Hkp Hnd Hsl].
  destruct (block_layout mm mm' (Block r index n flag) TL) as (E1 & _ & E3).
  split; [by rewrite E3|]. split; [done|]. split; try done.
  - intros E2. change (zone_order 0) with [0; 1; 2]%nat in Hr. simpl in E2. rewrite E2 in Hr.
    rewrite !elem_of_cons, elem_of_nil in Hr. lia.
  - unfold kernel_page. rewrite E1. unfold block_page. cbn [b_sec b_base].
    fold (desc mm' r index). rewrite <- (Z.add_0_r index) at 1.
    rewrite (took_desc _ _ _ _ _ _ T) by lia. unfold new_page, block_va. simpl. rewrite Hus. simpl. lia.
Qed.

(** [soft] changes that keep the kernel addresses keep a page new. *)
Lemma new_page_soft reserved mm mm1 mm2 live b :
  new_page_ok reserved mm mm1 live b -> soft mm1 mm2 ->
  (forall a, map_address (page_at mm2 a) = map_address (page_at mm1 a)) ->
  same_layout mm mm2 /\ alloc_inv reserved mm2 (b :: live) /\ kernel_page mm2 b /\
  (forall b', b' ∈ live -> map_address (page_at mm2 (block_page mm b')) =
                          map_address (page_at mm (block_page mm b'))).
Proof.
  intros [NL NA NZ NK NF NKp _ _] S Hm.
  assert (same_layout mm1 mm2) as L2 by (apply same_layout_zones; apply S).
  destruct (block_layout _ _ b L2) as (E1 & _ & E3). split_and!.
  - by etrans.
  - by eapply soft_inv.
  - unfold kernel_page. by rewrite E1, E3, Hm.
  - intros b' Hb'. by rewrite Hm, NKp.
Qed.

(** Every section outside the user zone is mapped above address 0. *)
Definition kernel_mapped (mm : mm_bank) : Prop :=
  forall r, r.1 <> 3%nat -> used_sec mm r -> 0 < vir_start (section_at mm r).

Lemma zone_order_kernel id i : 0 <= id < 3 -> i ∈ zone_order id -> i <> 3%nat.
Proof.
  intros. assert (id = 0 \/ id = 1 \/ id = 2) as [-> | [-> | ->]] by lia;
    vm_compute in H0; set_solver.
Qed.

(** ** Properties *)

(** C1: [get_free_pages] of [count] pages from a kernel zone returns; either it
    returns 0 and the live blocks are what they were, or it returns the virtual
    address of a new block of [count] pages that no live block and no boot page
    overlaps, in one of the zones the flag allows. *)
Theorem get_free_pages_correct reserved mm live count flag id
    (Hinv : alloc_inv reserved mm live) (Hstart : start_ok mm) (Hmap : kernel_mapped mm)
    (Hcount : 0 < count < 65536) (Hzone : get_zone_id flag = Some id) (Hid : 0 <= id < 3)
    (Huser : Z.land flag __GFP_USER = 0) :
  exists mm' a, get_free_pages mm count flag = Ret (mm', a) /\
    ((a = 0 /\ alloc_inv reserved mm' live) \/
     exists b, b_count b = count /\ b_flag b = flag /\ (b_sec b).1 ∈ zone_order id /\
       a = block_va mm' b /\ a <> 0 /\ alloc_inv reserved mm' (b :: live) /\
       forall k, covers b (b_sec b) k -> page_used mm (b_sec b) k = false).
Proof.
  unfold get_free_pages. destruct (Z.leb_spec count 0); [lia|]. rewrite Huser. simpl.
  destruct (__get_free_pages_served count flag true ltac:(lia) mm id)
    as (mm' & a & E & [[Q ->]|(r & index & Hr & Hu & T & -> & Hne)]);
    [apply Hinv|apply Hinv|done|done|lia
    |intros _ r Hr Hu; apply Hmap; [by eapply zone_order_kernel|done]| |].
  - exists mm', 0. split; [done|]. left. split; [done|]. by eapply quiet_inv.
  - eexists mm', _. split; [done|]. right. exists (Block r index count flag). simpl.
    destruct (layout_fields _ _ r (took_layout _ _ _ _ _ _ T)) as (_ & Ev & _).
    split_and!; try done; [unfold block_va; simpl; by rewrite Ev| |].
    + by eapply took_inv; try done; lia.
    + intros k [_ Hk]. by apply (took_free _ _ _ _ _ _ T).
Qed.

(** The same for [request_pages], from any zone, with the address of the first
    page descriptor as the answer. *)
Theorem request_pages_correct reserved mm live count flag id
    (Hinv : alloc_inv reserved mm live) (Hstart : start_ok mm)
    (Hcount : 0 < count < 65536) (Hzone : get_zone_id flag = Some id) (Hid : 0 <= id < 4) :
  exists mm' a, request_pages mm count flag = Ret (mm', a) /\
    ((a = 0 /\ alloc_inv reserved mm' live) \/
     exists b, b_count b = count /\ b_flag b = flag /\ (b_sec b).1 ∈ zone_order id /\
       a = block_page mm' b /\ a <> 0 /\ alloc_inv reserved mm' (b :: live) /\
       forall k, covers b (b_sec b) k -> page_used mm (b_sec b) k = false).
Proof.
  unfold request_pages. destruct (Z.ltb_spec count 0); [lia|].
  destruct (__get_free_pages_served count flag false ltac:(lia) mm id)
    as (mm' & a & E & [[Q ->]|(r & index & Hr & Hu & T & -> & Hne)]);
    [apply Hinv|apply Hinv|done|done|lia|done| |].
  - exists mm', 0. split; [by rewrite E|]. left. split; [done|]. by eapply quiet_inv.
  - eexists mm', _. split; [by rewrite E|]. right. exists (Block r index count flag). simpl.
    destruct (layout_fields _ _ r (took_layout _ _ _ _ _ _ T)) as (_ & _ & _ & _ & Ep).
    split_and!; try done; [unfold block_page, page_ref; simpl; by rewrite Ep| |].
    + by eapply took_inv; try done; lia.
    + intros k [_ Hk]. by apply (took_free _ _ _ _ _ _ T).
Qed.

(** C2: giving a live block back, by its virtual address or by its page descriptor,
    returns when a page in use below [bm_current] stays in use; the block is no
    longer live and every other one still is. *)
Theorem free_pages_correct reserved mm l1 b l2
    (Hinv : alloc_inv reserved mm (l1 ++ b :: l2)) (Hanchor : anchored mm b) :
  exists mm', release_page mm (block_page mm b) = Ret mm' /\
    ((b_sec b).1 <> 3%nat -> free_pages mm (block_va mm b) = Ret mm') /\
    alloc_inv reserved mm' (l1 ++ l2).
Proof.
  destruct (release_live_total _ _ _ _ _ Hinv Hanchor) as [mm' E]. exists mm'.
  rewrite (release_page_live _ _ _ _ _ Hinv). split; [done|]. split.
  - intros Hz. by rewrite (free_pages_live _ _ _ _ _ Hinv Hz).
  - by eapply release_live_effect.
Qed.

(** a release never gives the pages back to the section's own counter
    [nr_free_pages], which every allocation lowers: after an allocation and its
    release the section offers [count] pages less. *)
Theorem release_keeps_section_counter reserved mm l1 b l2 mm' r
    (Hinv : alloc_inv reserved mm (l1 ++ b :: l2))
    (Hfree : release_page mm (block_page mm b) = Ret mm') :
  nr_free_pages (section_at mm' r) = nr_free_pages (section_at mm r).
Proof.
  rewrite (release_page_live _ _ _ _ _ Hinv) in Hfree.
  by apply (release_live_effect _ _ _ _ _ Hinv _ Hfree).
Qed.

(** On a page the allocator handed out of a section, the translations agree:
    every virtual or physical address inside the page leads to its descriptor, and
    for the first page of a live block the descriptor leads back to the page's
    physical address. *)
Theorem translation_round_trip reserved mm live b off
    (Hinv : alloc_inv reserved mm live) (Hb : b ∈ live) (Hz : (b_sec b).1 <> 3%nat)
    (Hoff : 0 <= off < 4096) :
  let pa := phy_start (section_at mm (b_sec b)) + b_base b * 4096 in
  va_to_page mm (block_va mm b + off) = block_page mm b /\
  pa_to_page mm (pa + off) = block_page mm b /\
  page_to_pa mm (block_page mm b) = pa /\ va_to_pa mm (block_va mm b + off) = pa.
Proof.
  intros pa. pose proof (inv_wf _ _ _ Hinv) as W. pose proof (live_in_section _ _ _ Hinv b Hb) as Hin.
  destruct (va_to_page_found mm (b_sec b) (b_base b) off W Hin Hz Hoff) as [_ E1].
  unfold va_to_pa. change (block_va mm b + off) with (vir_start (section_at mm (b_sec b)) + b_base b * 4096 + off).
  rewrite E1. pose proof (live_page_to_pa _ _ _ Hinv b Hb). split_and!; try done.
  by apply pa_to_page_found.
Qed.

(** ** A machine with one kernel and one user section *)

Module Demo.
Definition ksec : mm_section :=
  MmSection 0x100000 0x80000000 (64 * 4096) 64 0x7ff00000 (64 * 4096) 64 5 59 0x80000100 0 0x80000400.
Definition usec : mm_section :=
  MmSection 0x200000 0 (32 * 4096) 32 0 0 32 1 31 0x80000200 1 0x80000c00.
Definition kzone : mm_zone := MmZone (ksec :: replicate 3 zero_section) 1 false (64 * 4096) 0x80400000 64 59.
Definition uzone : mm_zone := MmZone (usec :: replicate 3 zero_section) 1 false 0 0 32 31.

(** Pages 0 and 1 and the last two pages of both sections are boot pages; pages 2 and 3 are a live block of two pages, page 4
    and the first user page are live blocks of one page. *)
Definition blk : block := Block (0, 0)%nat 2 2 GFP_KERNEL.
Definition kblk : block := Block (0, 0)%nat 4 1 GFP_PGT.
Definition ublk : block := Block (3, 0)%nat 0 1 GFP_USER.
Definition bank : mm_bank :=
  MmBank (96 * 4096) 96 [kzone; zero_zone; zero_zone; uzone]
    [Some (0, 0)%nat; Some (3, 0)%nat; None]
    {[ 0x80000100 := 31; 0x80000104 := 0xc0000000; 0x80000200 := 0xc0000001 ]}
    {[ 0x80000400 + 56 := Page 0x102000 0x80002000 (Z.lor GFP_KERNEL __GFP_PAGE_HEADER) 2 0 0;
       0x80000400 + 112 := Page 0x104000 0x80004000 (Z.lor GFP_PGT __GFP_PAGE_HEADER) 1 0 0;
       0x80000c00 := Page 0x200001 0 (Z.lor GFP_USER __GFP_PAGE_HEADER) 1 0 0 ]}
    (Lheap (fun x => x) (fun x => x)).
Definition reserved (r : sref) (k : Z) : Prop :=
  (r = (0, 0)%nat /\ (0 <= k < 2 \/ 62 <= k < 64)) \/ (r = (3, 0)%nat /\ 30 <= k < 32).

Lemma used r : used_sec bank r <-> r = (0, 0)%nat \/ r = (3, 0)%nat.
Proof.
  unfold used_sec. split.
  - destruct r as [[|[|[|[|[|i]]]]] [|[|[|[|[|j]]]]]]; intros H; try (by left); try (by right); by destruct H.
  - by intros [-> | ->].
Qed.

Lemma bits k : 0 <= k < 64 -> page_used bank (0, 0)%nat k = (k <? 5) || (62 <=? k).
Proof.
  intros Hk. assert (zfirst 64 0 (fun k => xorb (page_used bank (0, 0)%nat k) ((k <? 5) || (62 <=? k))) = None) as E
    by by vm_compute.
  pose proof (zfirst_None _ _ _ E k ltac:(lia)) as X. cbv beta in X.
  by destruct (page_used bank (0, 0)%nat k), ((k <? 5) || (62 <=? k)).
Qed.

Lemma ubits k : 0 <= k < 32 -> page_used bank (3, 0)%nat k = (k <? 1) || (30 <=? k).
Proof.
  intros Hk. assert (zfirst 32 0 (fun k => xorb (page_used bank (3, 0)%nat k) ((k <? 1) || (30 <=? k))) = None) as E
    by by vm_compute.
  pose proof (zfirst_None _ _ _ E k ltac:(lia)) as X. cbv beta in X.
  by destruct (page_used bank (3, 0)%nat k), ((k <? 1) || (30 <=? k)).
Qed.

Lemma wf : mm_wf bank.
Proof.
  split.
  - done.
  - intros i z Hz. do 4 (destruct i as [|i]; [by simplify_eq/=|]). done.
  - by intros r [-> | ->]%used; split; vm_compute.
  - intros r r' [-> | ->]%used [-> | ->]%used Hne; try done; split;
      unfold ranges_apart; simpl; vm_compute; (try by left); by right.
  - by intros r [-> | ->]%used.
  - exists [(0, 0)%nat; (3, 0)%nat], []. split; [done|]. intros r. rewrite used. set_solver.
Qed.

Definition live : list block := [blk; kblk; ublk].

Lemma live_cases b : b ∈ live -> b = blk \/ b = kblk \/ b = ublk.
Proof. unfold live. rewrite !elem_of_cons, elem_of_nil. tauto. Qed.

Lemma live_in : blk ∈ live /\ kblk ∈ live /\ ublk ∈ live.
Proof. unfold live. rewrite !elem_of_cons. tauto. Qed.

Lemma bits_live r k : in_section bank r k ->
  page_used bank r k = true <-> reserved r k \/ exists b, b ∈ live /\ covers b r k.
Proof.
  destruct live_in as (L1 & L2 & L3). unfold reserved.
  intros [[-> | ->]%used Hk]; change (nr_page _) with 64 in Hk || change (nr_page _) with 32 in Hk.
  - rewrite bits, orb_true_iff, Z.ltb_lt, Z.leb_le by done. split.
    + intros Hlt. destruct (decide (k < 2 \/ 62 <= k)); [left; left; split; [done|lia]|right].
      destruct (decide (k < 4)); [exists blk|exists kblk]; (split; [done|]); split; [done|simpl; lia|done|simpl; lia].
    + intros [[[_ ?]|[? _]]|(b & [-> | [-> | ->]]%live_cases & Hb1 & Hb)]; [lia|done|simpl in Hb; lia|simpl in Hb; lia|done].
  - rewrite ubits, orb_true_iff, Z.ltb_lt, Z.leb_le by done. split.
    + intros Hlt. destruct (decide (30 <= k)); [left; right; split; [done|lia]|right].
      exists ublk. split; [done|]. split; [done|]. simpl. lia.
    + intros [[[? _]|[_ ?]]|(b & [-> | [-> | ->]]%live_cases & Hb1 & Hb)]; [done|lia|done..|]. simpl in Hb. lia.
Qed.

Lemma demo_inv : alloc_inv reserved bank live.
Proof.
  split.
  - exact wf.
  - intros r [-> | ->]%used; by vm_compute.
  - exact bits_live.
  - intros b [-> | [-> | ->]]%live_cases; (split; [apply used; auto|by vm_compute| |by vm_compute]).
    + exists 0. by vm_compute.
    + exists 0. by vm_compute.
    + exists 3. by vm_compute.
  - repeat constructor; intros r k [-> H1] [H2 H3]; try done. simpl in *. lia.
  - intros b r k [-> | [-> | ->]]%live_cases [-> Hk] [[E ?]|[E ?]]; simpl in E, Hk; try done; lia.
Qed.

Lemma start : start_ok bank.
Proof. intros r [-> | ->]%used; vm_compute; by left. Qed.

Lemma seal : sealed bank.
Proof.
  intros r [-> | ->]%used; (split; [by vm_compute|]); intros k H0 Hk.
  - change (nr_page _) with 64 in Hk. rewrite bits by lia. apply orb_true_iff. right. apply Z.leb_le. lia.
  - change (nr_page _) with 32 in Hk. rewrite ubits by lia. apply orb_true_iff. right. apply Z.leb_le. lia.
Qed.

Lemma mapped : kernel_mapped bank.
Proof. intros r Hz [-> | ->]%used; [by vm_compute|done]. Qed.

Lemma anchor : anchored bank blk.
Proof.
  right. exists 0. split_and!; [lia|by vm_compute|by vm_compute|].
  intros [_ ?]. simpl in *. lia.
Qed.
End Demo.

Lemma get_free_pages_correct_witness :
  exists mm' a, get_free_pages Demo.bank 3 GFP_KERNEL = Ret (mm', a) /\
    ((a = 0 /\ alloc_inv Demo.reserved mm' Demo.live) \/
     exists b, b_count b = 3 /\ b_flag b = GFP_KERNEL /\ (b_sec b).1 ∈ zone_order 0 /\
       a = block_va mm' b /\ a <> 0 /\ alloc_inv Demo.reserved mm' (b :: Demo.live) /\
       forall k, covers b (b_sec b) k -> page_used Demo.bank (b_sec b) k = false).
Proof.
  apply (get_free_pages_correct Demo.reserved Demo.bank Demo.live 3 GFP_KERNEL 0
    Demo.demo_inv Demo.start Demo.mapped); [lia|by vm_compute|lia|by vm_compute].
Defined.

Lemma request_pages_correct_witness :
  exists mm' a, request_pages Demo.bank 5 GFP_USER = Ret (mm', a) /\
    ((a = 0 /\ alloc_inv Demo.reserved mm' Demo.live) \/
     exists b, b_count b = 5 /\ b_flag b = GFP_USER /\ (b_sec b).1 ∈ zone_order 3 /\
       a = block_page mm' b /\ a <> 0 /\ alloc_inv Demo.reserved mm' (b :: Demo.live) /\
       forall k, covers b (b_sec b) k -> page_used Demo.bank (b_sec b) k = false).
Proof.
  apply (request_pages_correct Demo.reserved Demo.bank Demo.live 5 GFP_USER 3
    Demo.demo_inv Demo.start); [lia|by vm_compute|lia].
Defined.

Lemma free_pages_correct_witness :
  exists mm', release_page Demo.bank (block_page Demo.bank Demo.blk) = Ret mm' /\
    ((b_sec Demo.blk).1 <> 3%nat -> free_pages Demo.bank (block_va Demo.bank Demo.blk) = Ret mm') /\
    alloc_inv Demo.reserved mm' ([] ++ [Demo.kblk; Demo.ublk]).
Proof. exact (free_pages_correct Demo.reserved Demo.bank [] Demo.blk [Demo.kblk; Demo.ublk] Demo.demo_inv Demo.anchor). Defined.

Definition demo_released : mm_bank :=
  match release_page Demo.bank (block_page Demo.bank Demo.blk) with Ret m => m | _ => Demo.bank end.

Lemma release_keeps_section_counter_witness :
  nr_free_pages (section_at demo_released (0, 0)%nat) = nr_free_pages (section_at Demo.bank (0, 0)%nat).
Proof.
  apply (release_keeps_section_counter Demo.reserved Demo.bank [] Demo.blk [Demo.kblk; Demo.ublk] demo_released (0, 0)%nat Demo.demo_inv).
  by vm_compute.
Defined.

Lemma translation_round_trip_witness :
  let pa := phy_start (section_at Demo.bank (0, 0)%nat) + 2 * 4096 in
  va_to_page Demo.bank (block_va Demo.bank Demo.blk + 17) = block_page Demo.bank Demo.blk /\
  pa_to_page Demo.bank (pa + 17) = block_page Demo.bank Demo.blk /\
  page_to_pa Demo.bank (block_page Demo.bank Demo.blk) = pa /\
  va_to_pa Demo.bank (block_va Demo.bank Demo.blk + 17) = pa.
Proof.
  apply (translation_round_trip Demo.reserved Demo.bank Demo.live Demo.blk 17 Demo.demo_inv);
    [left|done|lia].
Defined.
