(* ===== verification/MmAlign.v ===== *)
(** * Aligned page requests (mm/mm.c)

    [find_align_page] and the requests built on it, used for page directories. *)

From S2P Require Import Prelude Bitops Dlist Mm MmAlloc MmSpec.

Lemma all_clear_spec m map id nr : map <> 0 ->
  all_clear m map id nr = true <-> forall i, 0 <= i < nr -> bit_at m map (id + i) = false.
Proof.
  intros Hm. unfold all_clear. destruct (zfirst _ _ _) as [i|] eqn:E; (split; [|done || intros H]).
  - done.
  - apply zfirst_Some in E as (Hi & Hp & _). rewrite read_bit_spec, H in Hp by (try done; lia). done.
  - intros _ i Hi. apply (zfirst_None _ _ _) with (j := i) in E; [|lia].
    rewrite read_bit_spec in E by done. by destruct (bit_at m map (id + i)).
Qed.

Section AlignSearch.
Context (m : gmap Z Z) (s : mm_section) (k nr : Z).
Hypothesis Hok : geo_ok (geom s).
Hypothesis Hk : 12 <= k.
Hypothesis Hroom : vir_start s + size s + 2 ^ k <= 4294967296.
Hypothesis Hvir : vir_start s mod 2 ^ k = 0.

(** Page [id] begins at an aligned address and the [nr] pages from it are free. *)
Definition aligned_free (id : Z) : Prop :=
  (vir_start s + id * 4096) mod 2 ^ k = 0 /\
  forall i, 0 <= i < nr -> bit_at m (bitmap s) (id + i) = false.

Lemma find_align_loop_spec fuel base :
  vir_start s <= base -> base mod 2 ^ k = 0 -> base < 4294967296 ->
  vir_start s + size s - base < 4096 * Z.of_nat fuel -> (0 < fuel)%nat ->
  exists id, find_align_loop fuel m s (2 ^ k) nr base = Some id /\
    ((id = -1 /\ forall j, base <= vir_start s + j * 4096 -> 0 <= j < nr_page s -> ~ aligned_free j) \/
     (0 <= id < nr_page s /\ base <= vir_start s + id * 4096 /\ aligned_free id)).
Proof.
  destruct Hok as [G1 G2 G3 _ G4 (G5 & G6 & G7) _ _ _]. simpl in *.
  assert (2 ^ k = 4096 * 2 ^ (k - 12)) as Epow.
  { change 4096 with (2 ^ 12). rewrite <- Z.pow_add_r by lia. f_equal. lia. }
  assert (0 < 2 ^ (k - 12)) by (apply Z.pow_pos_nonneg; lia).
  revert base. induction fuel as [|fuel IH]; intros base Hb Hal Hb2 Hf Hpos; [lia|].
  simpl. rewrite (u32_small (vir_start s + size s)) by lia.
  destruct (Z.ltb_spec base (vir_start s + size s)) as [Hlt|Hge].
  2:{ exists (-1). split; [done|]. left. split; [done|]. intros j Hj1 Hj2. lia. }
  assert (exists id, base = vir_start s + id * 4096 /\ 0 <= id < nr_page s) as (id & Eb & Hid).
  { exists ((base - vir_start s) / 4096).
    assert ((base - vir_start s) mod 2 ^ k = 0) as E0 by by rewrite Zminus_mod, Hal, Hvir.
    apply Z.mod_divide in E0 as [q Eq]; [|lia].
    rewrite Eq, Epow. replace (q * (4096 * 2 ^ (k - 12))) with (q * 2 ^ (k - 12) * 4096) by lia.
    rewrite Z.div_mul by lia. split; [lia|]. nia. }
  assert (section_page_id base (vir_start s) = id) as ->.
  { rewrite Eb. rewrite <- (Z.add_0_r (vir_start s + id * 4096)).
    apply section_page_id_val; lia. }
  destruct (all_clear m (bitmap s) id nr) eqn:Hc.
  - exists id. split; [done|]. right. split; [done|]. split; [lia|]. split; [by rewrite <- Eb|].
    apply all_clear_spec; [lia|done].
  - rewrite (u32_small (base + 2 ^ k)) by lia.
    destruct (IH (base + 2 ^ k)) as (id' & -> & Hres);
      [lia|by rewrite <- (Z.mul_1_l (2 ^ k)) at 1; rewrite Z.mod_add by lia|lia|lia|lia|].
    exists id'. split; [done|].
    destruct Hres as [[-> Hno]|(? & ? & ?)]; [left|right; split_and!; try done; lia].
    split; [done|]. intros j Hj1 Hj2 [Haf1 Haf2].
    destruct (decide (j = id)) as [->|Hne].
    { assert (all_clear m (bitmap s) id nr = true) by (apply all_clear_spec; [lia|done]). congruence. }
    apply (Hno j); [|done|by split].
    assert ((vir_start s + j * 4096 - base) mod 2 ^ k = 0) as E0 by by rewrite Zminus_mod, Hal, Haf1.
    apply Z.mod_divide in E0 as [q Eq]; [|lia]. assert (0 < q) by nia. nia.
Qed.
End AlignSearch.

Section FindAlignPage.
Context (mm : mm_bank) (r : sref) (k nr flag : Z).
Hypothesis Hwf : mm_wf mm.
Hypothesis Hcur : cur_ok mm.
Hypothesis Hu : used_sec mm r.
Hypothesis Hk : 12 <= k.
Let s := section_at mm r.
Hypothesis Hroom : vir_start s + size s + 2 ^ k <= 4294967296.
Hypothesis Hvir : vir_start s mod 2 ^ k = 0.

(** The page the search begins at: [bm_current] rounded down. *)
Definition align_from : Z := (vir_start s + bm_current s * 4096) / 2 ^ k * 2 ^ k.

Lemma find_align_page_search :
  exists id, find_align_page mm r (2 ^ k) nr flag = Ret (take_special mm s id nr flag) /\
    ((id = -1 /\ forall j, align_from <= vir_start s + j * 4096 -> 0 <= j < nr_page s ->
        ~ aligned_free (bitmaps mm) s k nr j) \/
     (0 <= id < nr_page s /\ aligned_free (bitmaps mm) s k nr id)).
Proof.
  pose proof (wf_geo _ Hwf r Hu) as G. pose proof G as [G1 G2 G3 _ _ (G5 & G6 & G7) _ _ _].
  pose proof (Hcur r Hu) as Hc. simpl in *. fold s in Hc, G1, G2, G3, G5, G6, G7.
  assert (0 < 2 ^ k) by (apply Z.pow_pos_nonneg; lia).
  unfold find_align_page. fold s. rewrite shift_page, u32_small by lia.
  rewrite min_align32 by lia. set (c := vir_start s + bm_current s * 4096).
  assert (c - c mod 2 ^ k = align_from) as -> by (pose proof (Z.div_mod c (2 ^ k)); unfold align_from; fold c; lia).
  assert (vir_start s <= align_from <= c) as [Hlo Hhi].
  { unfold align_from. fold c. pose proof (Z.div_mod c (2 ^ k) ltac:(lia)).
    pose proof (Z.mod_pos_bound c (2 ^ k) ltac:(lia)). split; [|lia].
    pose proof (Z.div_mod (vir_start s) (2 ^ k) ltac:(lia)).
    assert (vir_start s / 2 ^ k <= c / 2 ^ k) by (apply Z.div_le_mono; lia). nia. }
  destruct (find_align_loop_spec (bitmaps mm) s k nr G Hk Hroom Hvir (Z.to_nat (nr_page s + 2)) align_from)
    as (id & -> & Hres); [done|apply Z.mod_mul; lia|lia|lia|lia|].
  exists id. split; [done|]. destruct Hres as [[-> Hno]|(? & ? & ?)]; [by left|by right].
Qed.
End FindAlignPage.

(** In a section mapped at a multiple of the wanted power-of-two alignment,
    [find_align_page] returns; it fails only when no aligned page from the (rounded
    down) [bm_current] on begins a run of [nr] free pages, and otherwise the page it
    hands out is aligned, its run was free, and the pages of the run that lie in the
    section are in use afterwards. *)
Theorem find_align_page_correct mm r k nr flag
    (Hwf : mm_wf mm) (Hcur : cur_ok mm) (Hu : used_sec mm r) (Hk : 12 <= k)
    (Hroom : vir_start (section_at mm r) + size (section_at mm r) + 2 ^ k <= 4294967296)
    (Hvir : vir_start (section_at mm r) mod 2 ^ k = 0) (Hnr : 0 < nr) :
  exists mm' pg, find_align_page mm r (2 ^ k) nr flag = Ret (mm', pg) /\
    ((pg = 0 /\ mm' = mm /\
      forall j, align_from mm r k <= vir_start (section_at mm r) + j * 4096 ->
        0 <= j < nr_page (section_at mm r) -> ~ aligned_free (bitmaps mm) (section_at mm r) k nr j) \/
     exists id, 0 <= id < nr_page (section_at mm r) /\ pg = page_ref (section_at mm r) id /\
       aligned_free (bitmaps mm) (section_at mm r) k nr id /\
       (id + nr <= nr_page (section_at mm r) ->
        forall j, id <= j < id + nr -> page_used mm' r j = true)).
Proof.
  destruct (find_align_page_search mm r k nr flag Hwf Hcur Hu Hk Hroom Hvir) as (id & -> & Hres).
  unfold take_special. destruct Hres as [[-> Hno]|[Hid Haf]].
  - exists mm, 0. split; [done|]. left. done.
  - destruct (Z.eqb_spec id (-1)); [lia|]. eexists _, _. split; [done|]. right.
    exists id. split_and!; try done; [lia|lia|]. intros Hin j Hj.
    set (m1 := set_bitmaps mm _).
    destruct (init_pages_frame m1 (section_at mm r) id nr flag) as (Fz & _ & Fb & _).
    unfold page_used. rewrite Fb, (section_at_zones _ _ r Fz).
    change (section_at m1 r) with (section_at mm r). unfold m1. cbn [bitmaps set_bitmaps].
    rewrite (page_used_fill mm r id nr true _ r j); try done; try lia.
    + by rewrite decide_True.
    + split; [done|lia].
Qed.

Lemma find_align_page_correct_witness :
  exists mm' pg, find_align_page Demo.bank (0, 0)%nat (2 ^ 14) 4 GFP_PGT = Ret (mm', pg) /\
    ((pg = 0 /\ mm' = Demo.bank /\
      forall j, align_from Demo.bank (0, 0)%nat 14 <= vir_start Demo.ksec + j * 4096 ->
        0 <= j < nr_page Demo.ksec -> ~ aligned_free (bitmaps Demo.bank) Demo.ksec 14 4 j) \/
     exists id, 0 <= id < nr_page Demo.ksec /\ pg = page_ref Demo.ksec id /\
       aligned_free (bitmaps Demo.bank) Demo.ksec 14 4 id /\
       (id + 4 <= nr_page Demo.ksec -> forall j, id <= j < id + 4 -> page_used mm' (0, 0)%nat j = true)).
Proof.
  apply (find_align_page_correct Demo.bank (0, 0)%nat 14 4 GFP_PGT Demo.wf (inv_cur _ _ _ Demo.demo_inv));
    [apply Demo.used; by left|lia|by vm_compute|by vm_compute|lia].
Defined.

(** Near the end of a section the run is not checked against [nr_page]: eight pages
    from page 60 of a section of 64. *)
Definition tail_bank : mm_bank :=
  set_bitmaps (upd_section (0, 0)%nat (section_set_current 60) Demo.bank) {[ 0x80000100 := 31 ]}.

(** The pages handed out reach past the section, into whatever follows its bitmap
    and page table. *)
Theorem find_align_page_overrun :
  exists mm', find_align_page tail_bank (0, 0)%nat (2 ^ 14) 8 GFP_PGT =
    Ret (mm', page_ref (section_at tail_bank (0, 0)%nat) 60) /\
  nr_page (section_at tail_bank (0, 0)%nat) = 64.
Proof. eexists. split; [vm_compute; reflexivity|done]. Qed.
