(* ===== verification/Mmu.v ===== *)
(** * The MMU layer (kernel/mmu.c, include/os/mmu.h, arch/x86/kernel/x86_mmu.c)

    [struct mmu_ops] is a record of operations on word memory; [MmuLaws] is what the
    generic code relies on, and the x86 operations satisfy it.  TLB invalidation has
    no effect on memory and is left out. *)

From S2P Require Import Prelude.

Definition PDE_ATTR_KERNEL_MEMORY : Z := 0x1.
Definition PDE_ATTR_DMA_MEMORY : Z := 0x2.
Definition PDE_ATTR_IO_MEMORY : Z := 0x4.

Definition PDE_ALIGN_SIZE : Z := 4194304.
Definition PDE_ALIGN (addr : Z) : Z := u32 (align addr PDE_ALIGN_SIZE).
Definition PDE_MIN_ALIGN (addr : Z) : Z := u32 (min_align addr PDE_ALIGN_SIZE).

Definition PDE_MAP_SIZE : Z := 4194304.
Definition PDE_ENTRY_SIZE : Z := 4.
Definition PDE_ENTRY_SHIFT : Z := 22.
Definition PDE_TABLE_SIZE : Z := 4096.
Definition PDE_TABLE_ALIGN_SIZE : Z := 4096.
Definition PTES_PER_PDE : Z := 1024.
Definition PTE_ENTRY_SIZE : Z := 4.
Definition PTE_TABLE_SIZE : Z := 4096.
Definition MAP_SIZE_PER_PAGE : Z := 4194304.
Definition PTE_TABLE_PER_PAGE : Z := MAP_SIZE_PER_PAGE / PDE_MAP_SIZE.

(** Block moves of words. *)
Definition memset0 (m : gmap Z Z) (base bytes : Z) : gmap Z Z :=
  zfor (Z.to_nat (bytes / 4)) 0 (fun i m => wr m (base + 4 * i) 0) m.
Definition memcpy_words (m : gmap Z Z) (dst src bytes : Z) : gmap Z Z :=
  zfor (Z.to_nat (bytes / 4)) 0 (fun i m => wr m (dst + 4 * i) (rd m (src + 4 * i))) m.

Record mmu_ops := MmuOps {
  build_pde_entry : gmap Z Z -> Z -> Z -> Z -> gmap Z Z;
  build_pte_pde_entry : gmap Z Z -> Z -> Z -> Z -> gmap Z Z;
  build_pte_entry : gmap Z Z -> Z -> Z -> Z -> gmap Z Z;
  clear_pte_pde_entry : gmap Z Z -> Z -> gmap Z Z;
  clear_pte_entry : gmap Z Z -> Z -> gmap Z Z;
  pte_pde_to_pa : gmap Z Z -> Z -> Z;
  pte_to_pa : gmap Z Z -> Z -> Z }.

Record mmu := Mmu { boot_pde : Z; ops : mmu_ops }.

(** ** Generic operations *)

Section Generic.
Context (u : mmu).

Fixpoint kernel_pde_loop (fuel : nat) (m : gmap Z Z) (pde_addr pa size flag : Z) : option (gmap Z Z) :=
  match fuel with
  | O => None
  | S fuel =>
    if size =? 0 then Some m
    else
      let m := build_pde_entry (ops u) m pde_addr pa flag in
      kernel_pde_loop fuel m (u32 (pde_addr + 4)) (u32 (pa + PDE_ALIGN_SIZE))
        (u32 (size - PDE_ALIGN_SIZE)) flag
  end.

(** [size] runs through its 1024 values modulo 2^32 at most once. *)
Definition build_kernel_pde_entry (m : gmap Z Z) (vstart pstart size flag : Z)
  : option (gmap Z Z * Z) :=
  if negb (is_align (u32 size) PDE_ALIGN_SIZE) then Some (m, u32 (- EINVAL))
  else
    let pa := PDE_MIN_ALIGN pstart in
    let va := PDE_MIN_ALIGN vstart in
    let ret_va := u32 (va + (pstart - pa)) in
    let pde_addr := u32 (boot_pde u + va / PDE_ALIGN_SIZE * 4) in
    m ← kernel_pde_loop 1025 m pde_addr pa (u32 size) flag;
    Some (m, ret_va).

Definition mmu_create_pde_entry (m : gmap Z Z) (pde_entry_addr pte_base va : Z) : gmap Z Z :=
  build_pte_pde_entry (ops u) m pde_entry_addr pte_base 0.
Definition mmu_create_pte_entry (m : gmap Z Z) (pte_entry_addr pa va : Z) : gmap Z Z :=
  build_pte_entry (ops u) m pte_entry_addr pa 0.
Definition mmu_pde_entry_to_pa (m : gmap Z Z) (pde : Z) : Z := pte_pde_to_pa (ops u) m pde.
Definition mmu_pte_entry_to_pa (m : gmap Z Z) (pte : Z) : Z := pte_to_pa (ops u) m pte.
Definition mmu_clear_pte_entry (m : gmap Z Z) (pte : Z) : gmap Z Z := clear_pte_entry (ops u) m pte.
Definition mmu_clear_pde_entry (m : gmap Z Z) (pde : Z) : gmap Z Z :=
  clear_pte_pde_entry (ops u) m pde.

Definition KERNEL_PDE_OFFSET : Z := Z.shiftr PDE_TABLE_SIZE 1.
Definition KERNEL_PDE_SIZE : Z := PDE_TABLE_SIZE - KERNEL_PDE_OFFSET.

Definition mmu_copy_kernel_pde (m : gmap Z Z) (base : Z) : gmap Z Z :=
  if base =? boot_pde u then m
  else
    let m := memset0 m base PDE_TABLE_SIZE in
    memcpy_words m (base + KERNEL_PDE_OFFSET) (boot_pde u + KERNEL_PDE_OFFSET) KERNEL_PDE_SIZE.

Definition mmu_get_boot_pde : Z := boot_pde u.
End Generic.

(** ** x86 entries *)

Definition PDE_PS : Z := 128.
Definition PDE_PCD : Z := 16.
Definition PDE_US : Z := 4.
Definition PDE_RW : Z := 2.
Definition PDE_P : Z := 1.
Definition PTE_RW : Z := 2.
Definition PTE_P : Z := 1.

Definition x86_build_pde_entry (m : gmap Z Z) (pde_address pa flag : Z) : gmap Z Z :=
  let pa := Z.lor pa (Z.lor (Z.lor PDE_PS PDE_RW) PDE_P) in
  let pa := if negb (Z.land flag PDE_ATTR_DMA_MEMORY =? 0) || negb (Z.land flag PDE_ATTR_IO_MEMORY =? 0)
            then Z.lor pa PDE_PCD else pa in
  wr m pde_address pa.
Definition x86_build_pte_pde_entry (m : gmap Z Z) (pde pa flag : Z) : gmap Z Z :=
  wr m pde (Z.lor pa (Z.lor (Z.lor PDE_P PDE_RW) PDE_US)).
Definition x86_build_pte_entry (m : gmap Z Z) (pte pa flag : Z) : gmap Z Z :=
  wr m pte (Z.lor pa (Z.lor (Z.lor PTE_P PTE_RW) PDE_US)).
Definition x86_clear_pte_pde_entry (m : gmap Z Z) (pde : Z) : gmap Z Z := wr m pde 0.
Definition x86_clear_pte_entry (m : gmap Z Z) (pte : Z) : gmap Z Z := wr m pte 0.
Definition x86_pte_pde_to_pa (m : gmap Z Z) (pde : Z) : Z := Z.land (rd m pde) 0xfffff000.
Definition x86_pte_to_pa (m : gmap Z Z) (pte : Z) : Z := Z.land (rd m pte) 0xffffff00.

Definition x86_mmu_ops : mmu_ops :=
  MmuOps x86_build_pde_entry x86_build_pte_pde_entry x86_build_pte_entry
    x86_clear_pte_pde_entry x86_clear_pte_entry x86_pte_pde_to_pa x86_pte_to_pa.

(** ** What the generic code relies on *)

Class MmuLaws (o : mmu_ops) := {
  law_pde : forall m a pa f, 0 <= pa < 4294967296 -> pa mod 4096 = 0 ->
    pte_pde_to_pa o (build_pte_pde_entry o m a pa f) a = pa;
  law_pte : forall m a pa f, 0 <= pa < 4294967296 -> pa mod 4096 = 0 ->
    pte_to_pa o (build_pte_entry o m a pa f) a = pa;
  law_pte_present : forall m a pa f, 0 <= pa -> rd (build_pte_entry o m a pa f) a <> 0;
  law_section_frame : forall m a pa f b, b <> a -> rd (build_pde_entry o m a pa f) b = rd m b;
  law_pde_frame : forall m a pa f b, b <> a -> rd (build_pte_pde_entry o m a pa f) b = rd m b;
  law_pte_frame : forall m a pa f b, b <> a -> rd (build_pte_entry o m a pa f) b = rd m b;
  law_clear_pte : forall m a b, rd (clear_pte_entry o m a) b = if decide (a = b) then 0 else rd m b;
  law_read_pde : forall m m' a, rd m a = rd m' a -> pte_pde_to_pa o m a = pte_pde_to_pa o m' a;
  law_read_pte : forall m m' a, rd m a = rd m' a -> pte_to_pa o m a = pte_to_pa o m' a;
  law_zero_pde : forall m a, rd m a = 0 -> pte_pde_to_pa o m a = 0 }.

Lemma lor_pos_bit x y n : 0 <= x -> Z.testbit y n = true -> Z.lor x y <> 0.
Proof. intros Hx Hy E. apply (f_equal (fun z => Z.testbit z n)) in E. rewrite Z.lor_spec, Hy, orb_true_r, Z.bits_0 in E. done. Qed.

#[export] Instance x86_mmu_laws : MmuLaws x86_mmu_ops.
Proof.
  split; simpl; intros.
  - unfold x86_pte_pde_to_pa, x86_build_pte_pde_entry. rewrite rd_wr_eq.
    apply (land_lor_mask pa 7 12 12); try lia. by vm_compute.
  - unfold x86_pte_to_pa, x86_build_pte_entry. rewrite rd_wr_eq.
    apply (land_lor_mask pa 7 12 8); try lia. by vm_compute.
  - unfold x86_build_pte_entry. rewrite rd_wr_eq. by apply (lor_pos_bit _ _ 0).
  - unfold x86_build_pde_entry. by rewrite rd_wr_ne.
  - unfold x86_build_pte_pde_entry. by rewrite rd_wr_ne.
  - unfold x86_build_pte_entry. by rewrite rd_wr_ne.
  - unfold x86_clear_pte_entry. apply rd_wr.
  - unfold x86_pte_pde_to_pa. by rewrite H.
  - unfold x86_pte_to_pa. by rewrite H.
  - unfold x86_pte_pde_to_pa. by rewrite H.
Qed.

Lemma rd_memset0 m base bytes a : 0 <= bytes ->
  (exists i, 0 <= i < bytes / 4 /\ a = base + 4 * i) -> rd (memset0 m base bytes) a = 0.
Proof.
  intros Hb (i & Hi & ->). unfold memset0.
  pose proof (zfor_inv (fun j m' => forall k, 0 <= k < j -> rd m' (base + 4 * k) = 0)
    (Z.to_nat (bytes / 4)) 0 (fun i m => wr m (base + 4 * i) 0) m) as X. simpl in X.
  apply X; [lia| |lia]. intros j b Hj IH k Hk. rewrite rd_wr. case_decide; [done|]. apply IH. lia.
Qed.

Lemma rd_memset0_other m base bytes a :
  (forall i, 0 <= i < bytes / 4 -> a <> base + 4 * i) -> rd (memset0 m base bytes) a = rd m a.
Proof.
  intros Ha. unfold memset0.
  pose proof (zfor_inv (fun (_ : Z) m' => rd m' a = rd m a)
    (Z.to_nat (bytes / 4)) 0 (fun i m => wr m (base + 4 * i) 0) m) as X. simpl in X.
  apply X; [done|]. intros j b Hj IH. rewrite rd_wr_ne; [done|]. apply not_eq_sym, Ha. lia.
Qed.

Lemma rd_memcpy m dst src bytes a :
  dst + bytes <= src \/ src + bytes <= dst -> 0 <= bytes ->
  rd (memcpy_words m dst src bytes) a =
  if decide (dst <= a < dst + 4 * (bytes / 4) /\ (a - dst) mod 4 = 0) then rd m (a - dst + src) else rd m a.
Proof.
  intros Hd Hb. unfold memcpy_words. assert (bytes / 4 * 4 <= bytes) by (Z.to_euclidean_division_equations; lia).
  assert (0 <= bytes / 4) by (apply Z.div_pos; lia).
  set (P := fun j m' => forall a, rd m' a =
    if decide (dst <= a < dst + 4 * j /\ (a - dst) mod 4 = 0) then rd m (a - dst + src) else rd m a).
  enough (P (0 + Z.of_nat (Z.to_nat (bytes / 4)))
    (zfor (Z.to_nat (bytes / 4)) 0 (fun i m => wr m (dst + 4 * i) (rd m (src + 4 * i))) m)) as HP.
  { unfold P in HP. rewrite HP. rewrite Z2Nat.id by done. by rewrite Z.add_0_l. }
  apply zfor_inv; unfold P.
  - intros b. rewrite decide_False; [done|]. lia.
  - intros j b Hj IH c. rewrite rd_wr. case_decide as E.
    + subst c. rewrite decide_True.
      * rewrite IH, decide_False by lia. f_equal. lia.
      * replace (dst + 4 * j - dst) with (j * 4) by lia. rewrite Z.mod_mul by lia. lia.
    + rewrite IH. case_decide as E1; case_decide as E2; try done; exfalso; [lia|].
      apply E1. destruct E2 as [E2 E3]. split; [|done].
      assert (c - dst < 4 * j \/ c - dst = 4 * j) as [|]; try lia.
      Z.to_euclidean_division_equations; lia.
Qed.

(** ** The kernel's section mapping *)

Section KernelMap.
Context (u : mmu).
Context {L : MmuLaws (ops u)}.

Lemma kernel_pde_loop_spec n : forall fuel m pde pa flag,
  (n < fuel)%nat -> 0 <= pde -> pde + 4 * Z.of_nat n < 4294967296 ->
  0 <= pa -> pa + PDE_ALIGN_SIZE * Z.of_nat n <= 4294967296 ->
  exists m', kernel_pde_loop u fuel m pde pa (PDE_ALIGN_SIZE * Z.of_nat n) flag = Some m' /\
    (forall a, (forall j, 0 <= j < Z.of_nat n -> a <> pde + 4 * j) -> rd m' a = rd m a) /\
    (forall j, 0 <= j < Z.of_nat n -> exists m1,
       rd m' (pde + 4 * j) = rd (build_pde_entry (ops u) m1 (pde + 4 * j) (pa + PDE_ALIGN_SIZE * j) flag)
         (pde + 4 * j)).
Proof.
  unfold PDE_ALIGN_SIZE. induction n as [|n IH]; intros fuel m pde pa flag Hf H1 H2 H3 H4;
    (destruct fuel as [|fuel]; [lia|]); cbn [kernel_pde_loop].
  - rewrite Z.mul_0_r, Z.eqb_refl. exists m. split; [done|]. split; [done|]. lia.
  - destruct (Z.eqb_spec (4194304 * Z.of_nat (S n)) 0); [lia|]. unfold PDE_ALIGN_SIZE.
    rewrite (u32_small (pde + 4)) by lia.
    replace (4194304 * Z.of_nat (S n) - 4194304) with (4194304 * Z.of_nat n) by lia.
    rewrite (u32_small (4194304 * Z.of_nat n)) by lia.
    destruct n as [|n'].
    { destruct fuel as [|fuel]; [lia|]. cbn [kernel_pde_loop]. rewrite Z.mul_0_r, Z.eqb_refl.
      eexists. split; [done|]. split.
      - intros a Ha. apply law_section_frame. specialize (Ha 0). lia.
      - intros j Hj. assert (j = 0) as -> by lia. exists m. by rewrite !Z.mul_0_r, !Z.add_0_r. }
    rewrite (u32_small (pa + 4194304)) by lia.
    destruct (IH fuel (build_pde_entry (ops u) m pde pa flag) (pde + 4) (pa + 4194304) flag)
      as (m' & -> & Hfr & Hen); [lia..|].
    exists m'. split; [done|]. split.
    + intros a Ha. rewrite Hfr.
      * apply law_section_frame. specialize (Ha 0). lia.
      * intros j Hj. specialize (Ha (j + 1)). lia.
    + intros j Hj. destruct (decide (j = 0)) as [->|Hj0].
      * exists m. rewrite !Z.mul_0_r, !Z.add_0_r. apply Hfr. lia.
      * destruct (Hen (j - 1)) as [m1 Hm1]; [lia|]. exists m1.
        replace (pde + 4 * j) with (pde + 4 + 4 * (j - 1)) by lia.
        replace (pa + 4194304 * j) with (pa + 4194304 + 4194304 * (j - 1)) by lia. done.
Qed.
End KernelMap.

Definition x86_section_entry (pa flag : Z) : Z := rd (x86_build_pde_entry ∅ 0 pa flag) 0.

Lemma pde_min_align_val a : 0 <= a < 4294967296 -> PDE_MIN_ALIGN a = a / 4194304 * 4194304.
Proof.
  intros Ha. unfold PDE_MIN_ALIGN, PDE_ALIGN_SIZE. change 4194304 with (2 ^ 22) at 1.
  rewrite min_align_spec by lia. change (2 ^ 22) with 4194304.
  pose proof (Z.div_mod a 4194304). rewrite u32_small; Z.to_euclidean_division_equations; lia.
Qed.

Definition x86_mmu_at (boot : Z) : mmu := Mmu boot x86_mmu_ops.

(** a request whose size is a multiple of 4M writes exactly the page directory
    entries of the virtual range: entry [j] maps the [j]-th 4M of physical memory with
    the attributes of the flag, every other word keeps its value, and the address
    returned has the offset of [pstart] inside its 4M frame.  Any other size is refused
    and nothing is mapped. *)
Theorem build_kernel_pde_entry_maps boot m vstart pstart size flag
    (Hboot : 0 <= boot < 4294967296 - 4096)
    (Hv : 0 <= vstart < 4294967296) (Hp : 0 <= pstart < 4294967296)
    (Hs : 0 <= size < 2147483648)
    (Hvr : vstart / 4194304 * 4194304 + size <= 4294967296)
    (Hpr : pstart / 4194304 * 4194304 + size <= 4294967296) :
  exists m' ret, build_kernel_pde_entry (x86_mmu_at boot) m vstart pstart size flag = Some (m', ret) /\
    if decide (size mod 4194304 = 0) then
      ret = vstart / 4194304 * 4194304 + pstart mod 4194304 /\
      (forall j, 0 <= j < size / 4194304 ->
        rd m' (boot + 4 * (vstart / 4194304 + j)) =
        x86_section_entry ((pstart / 4194304 + j) * 4194304) flag) /\
      (forall a, (forall j, 0 <= j < size / 4194304 -> a <> boot + 4 * (vstart / 4194304 + j)) ->
        rd m' a = rd m a)
    else ret = u32 (- EINVAL) /\ m' = m.
Proof.
  unfold build_kernel_pde_entry. rewrite (u32_small size) by lia.
  change PDE_ALIGN_SIZE with (2 ^ 22). rewrite is_align_spec by lia. change (2 ^ 22) with 4194304.
  case_decide as Hal; [|destruct (Z.eqb_spec (size mod 4194304) 0); [done|]; simpl; by eauto].
  rewrite Hal. cbn [Z.eqb negb]. rewrite !pde_min_align_val by done.
  rewrite Z.div_mul by lia. cbn [boot_pde x86_mmu_at].
  assert (0 <= vstart / 4194304 < 1024) by (Z.to_euclidean_division_equations; lia).
  assert (0 <= pstart / 4194304 < 1024) by (Z.to_euclidean_division_equations; lia).
  rewrite (u32_small (boot + vstart / 4194304 * 4)) by lia.
  apply Z.mod_divide in Hal as [n ->]; [|lia]. rewrite Z.div_mul in * by lia.
  destruct (kernel_pde_loop_spec (x86_mmu_at boot) (Z.to_nat n) 1025 m
    (boot + vstart / 4194304 * 4) (pstart / 4194304 * 4194304) flag) as (m' & E & Hfr & Hen);
    unfold PDE_ALIGN_SIZE in *; [lia..|].
  replace (4194304 * Z.of_nat (Z.to_nat n)) with (n * 4194304) in E by lia.
  rewrite E. cbn [mbind option_bind]. eexists m', _. split; [done|]. split_and!.
  - pose proof (Z.div_mod pstart 4194304). pose proof (Z.mod_pos_bound pstart 4194304).
    rewrite u32_small; [lia|]. Z.to_euclidean_division_equations; lia.
  - intros j Hj. destruct (Hen j) as [m1 Hm1]; [lia|].
    replace (boot + 4 * (vstart / 4194304 + j)) with (boot + vstart / 4194304 * 4 + 4 * j) by lia.
    rewrite Hm1. unfold x86_section_entry, x86_build_pde_entry. simpl.
    unfold x86_build_pde_entry. rewrite !rd_wr_eq.
    by replace ((pstart / 4194304 + j) * 4194304) with (pstart / 4194304 * 4194304 + 4194304 * j) by lia.
  - intros a Ha. apply Hfr. intros j Hj. specialize (Ha j). lia.
Qed.

Lemma build_kernel_pde_entry_maps_witness :
  exists m' ret, build_kernel_pde_entry (x86_mmu_at 0x80000000) ∅ 0x80800000 0x800000 0x1000000 1
      = Some (m', ret) /\
    if decide (0x1000000 mod 4194304 = 0) then
      ret = 0x80800000 / 4194304 * 4194304 + 0x800000 mod 4194304 /\
      (forall j, 0 <= j < 0x1000000 / 4194304 ->
        rd m' (0x80000000 + 4 * (0x80800000 / 4194304 + j)) =
        x86_section_entry ((0x800000 / 4194304 + j) * 4194304) 1) /\
      (forall a, (forall j, 0 <= j < 0x1000000 / 4194304 ->
          a <> 0x80000000 + 4 * (0x80800000 / 4194304 + j)) -> rd m' a = rd ∅ a)
    else ret = u32 (- EINVAL) /\ m' = ∅.
Proof.
  apply (build_kernel_pde_entry_maps 0x80000000 ∅ 0x80800000 0x800000 0x1000000 1);
    try lia; by vm_compute.
Defined.

(** ** The kernel half of a new page directory *)

(** copying the kernel's entries into a new page directory clears the user half and
    makes the kernel half equal to the boot directory's, word for word. *)
Theorem mmu_copy_kernel_pde_shares u m base i
    (Hne : base + 4096 <= boot_pde u \/ boot_pde u + 4096 <= base) (Hi : 0 <= i < 1024) :
  rd (mmu_copy_kernel_pde u m base) (base + 4 * i) =
  if decide (i < 512) then 0 else rd m (boot_pde u + 4 * i).
Proof.
  unfold mmu_copy_kernel_pde. destruct (Z.eqb_spec base (boot_pde u)); [lia|].
  change KERNEL_PDE_OFFSET with 2048. change KERNEL_PDE_SIZE with 2048.
  rewrite rd_memcpy by lia. change (2048 / 4) with 512. unfold PDE_TABLE_SIZE.
  case_decide as E1; case_decide as E2; try lia.
  - replace (base + 4 * i - (base + 2048) + (boot_pde u + 2048)) with (boot_pde u + 4 * i) by lia.
    apply rd_memset0_other. change (4096 / 4) with 1024. intros j Hj. lia.
  - apply rd_memset0; [lia|]. change (4096 / 4) with 1024. exists i. lia.
  - exfalso. apply E1. split; [lia|].
    replace (base + 4 * i - (base + 2048)) with ((i - 512) * 4) by lia. apply Z.mod_mul. lia.
Qed.

Lemma mmu_copy_kernel_pde_shares_witness :
  rd (mmu_copy_kernel_pde (x86_mmu_at 0x80000000) {[ 0x80000800 := 7 ]} 0x80003000) (0x80003000 + 4 * 512)
  = 7.
Proof.
  rewrite (mmu_copy_kernel_pde_shares (x86_mmu_at 0x80000000) {[ 0x80000800 := 7 ]} 0x80003000 512);
    [by vm_compute|simpl; lia|lia].
Defined.
