(* ===== verification/MmInit.v ===== *)
(** * Bringing up the page allocator (mm/mm.c, init/soc.c)

    From the memory regions the board registers to a page allocator that is ready:
    sorting the regions, building the zones, choosing virtual addresses, placing page
    tables and bitmaps behind the kernel image, and marking the boot pages. *)

From S2P Require Import Prelude Bitops Dlist Mm Mmu.

Definition NORMAL_MEM : Z := 0.
Definition DMA_MEM : Z := 1.
Definition RES_MEM : Z := 2.
Definition UNKNOWN_MEM : Z := 3.
Definition MEM_MAX_REGION : Z := 16.
Definition SIZE_1M : Z := 1048576.

Definition KERNEL_VIRTUAL_BASE : Z := 0x80000000.
Definition KERNEL_VIRTUAL_SIZE : Z := 1073741824.
Definition KERNEL_DMA_BASE : Z := KERNEL_VIRTUAL_BASE + KERNEL_VIRTUAL_SIZE.
Definition KERNEL_DMA_SIZE : Z := 134217728.
Definition KERNEL_TEMP_BUFFER_BASE : Z := 0xec000000.

Record memory_region := Region { r_start : Z; r_size : Z; r_attr : Z }.

Record soc_memory_info := SocInfo {
  code_end : Z;
  kernel_physical_start : Z;
  region : list memory_region }.

Definition set_region (info : soc_memory_info) (l : list memory_region) : soc_memory_info :=
  SocInfo (code_end info) (kernel_physical_start info) l.

(** [region_nr] is the length of the list; a region is kept in 1M units. *)
Definition register_memory_region (info : soc_memory_info) (start size attr : Z) : soc_memory_info :=
  if Z.of_nat (length (region info)) <? MEM_MAX_REGION then
    let new_start := u32 (baligin start SIZE_1M) in
    let size := s32 (size - (new_start - start)) in
    let size := s32 (min_align size SIZE_1M) in
    if is_align (u32 size) SIZE_1M && (PAGE_SIZE <=? size)
    then set_region info (region info ++ [Region new_start (u32 size) attr])
    else info
  else info.

(** ** Zones *)

Definition init_memory_bank : mm_bank :=
  MmBank 0 0 (replicate 4 zero_zone) (replicate 13 None) ∅ ∅ (Lheap (fun _ => 0) (fun _ => 0)).

Definition new_section (s : mm_section) (base size : Z) : mm_section :=
  MmSection base (vir_start s) size (Z.shiftr size PAGE_SHIFT) (pv_offset s) (maped_size s)
    (bm_end s) (bm_current s) (Z.shiftr size PAGE_SHIFT) (bitmap s) (section_table_id s) (page_table s).

Definition insert_region_to_zone (rg : memory_region) (z : mm_zone) : mm_zone * Z :=
  let end_addr := min_align (u32 (r_start rg + r_size rg)) PAGE_SIZE in
  let base_addr := u32 (align (r_start rg) PAGE_SIZE) in
  let size := s32 (end_addr - base_addr) in
  if size <? PAGE_SIZE then (z, 0)
  else if nr_section z =? ZONE_MAX_SECTION then (z, 0)
  else
    let pn := s32 (page_num z + Z.shiftr size PAGE_SHIFT) in
    (MmZone (alter (fun s => new_section s base_addr size) (Z.to_nat (nr_section z)) (memory_section z))
       (nr_section z + 1) (zone_mutex z) (zone_maped_size z) (map_base z) pn pn, u32 size).

(** The selection sort of [get_memory_sections]. *)
Definition region_at (l : list memory_region) (i : nat) : memory_region :=
  default (Region 0 0 0) (l !! i).

Definition select_min (l : list memory_region) (i : nat) : nat :=
  foldl (fun min j => if r_start (region_at l j) <? r_start (region_at l min) then j else min)
    i (seq (S i) (length l - S i)).

Definition swap_regions (l : list memory_region) (i min : nat) : list memory_region :=
  if decide (min = i) then l
  else <[min := region_at l i]> (<[i := region_at l min]> l).

Definition sort_regions (l : list memory_region) : list memory_region :=
  foldl (fun l i => swap_regions l i (select_min l i)) l (seq 0 (length l)).

Fixpoint insert_regions (mm : mm_bank) (l : list memory_region) : outcome mm_bank :=
  match l with
  | [] => mret mm
  | rg :: l =>
    if UNKNOWN_MEM <=? r_attr rg then insert_regions mm l
    else if r_attr rg <? 0 then Fault
    else
      let zi := Z.to_nat (r_attr rg) in
      let '(z, size) := insert_region_to_zone rg (zone_at mm zi) in
      let mm := set_zones mm (<[zi := z]> (zone mm)) in
      insert_regions
        (MmBank (u32 (total_size mm + size)) (total_page mm) (zone mm) (section_table mm) (bitmaps mm)
           (pages mm) (plists mm)) l
  end.

Definition get_memory_sections (mm : mm_bank) (info : soc_memory_info) : outcome (mm_bank * soc_memory_info) :=
  match region info with
  | [] => Panic
  | _ =>
    let l := sort_regions (region info) in
    mm ← insert_regions mm l;
    mret (MmBank (total_size mm) (Z.shiftr (total_size mm) PAGE_SHIFT) (zone mm) (section_table mm)
            (bitmaps mm) (pages mm) (plists mm), set_region info l)
  end.

Definition shrink_section (n : Z) (s : mm_section) : mm_section :=
  MmSection (phy_start s) (vir_start s) (s32 (size s - Z.shiftl n PAGE_SHIFT)) (s32 (nr_page s - n))
    (pv_offset s) (maped_size s) (bm_end s) (bm_current s) (s32 (nr_free_pages s - n)) (bitmap s)
    (section_table_id s) (page_table s).

Definition alloc_dma_section (mm : mm_bank) : outcome mm_bank :=
  let z := zone_at mm 0 in
  let size := Z.shiftr (page_num z) 4 in
  let size := if KERNEL_DMA_SIZE <? s32 (Z.shiftl size PAGE_SHIFT)
              then Z.shiftr KERNEL_DMA_SIZE PAGE_SHIFT else size in
  if nr_section z <=? 0 then Fault
  else
    let i := Z.to_nat (nr_section z - 1) in
    let pr := section_at mm (0%nat, i) in
    let rtmp := Region (u32 (phy_start pr + Z.shiftl (nr_page pr - size) PAGE_SHIFT))
                  (u32 (Z.shiftl size PAGE_SHIFT)) DMA_MEM in
    let mm := upd_section (0%nat, i) (shrink_section size) mm in
    let mm := upd_zone 0 (fun z => MmZone (memory_section z) (nr_section z) (zone_mutex z)
                (zone_maped_size z) (map_base z) (s32 (page_num z - size)) (s32 (page_num z - size))) mm in
    mret (upd_zone 1 (fun z => (insert_region_to_zone rtmp z).1) mm).

Definition analyse_soc_memory_info (mm : mm_bank) (info : soc_memory_info)
  : outcome (mm_bank * soc_memory_info) :=
  '(mm, info) ← get_memory_sections mm info;
  mm ← (if nr_section (zone_at mm 1) =? 0 then alloc_dma_section mm else mret mm);
  mret (mm, info).

(** ** Virtual addresses *)

Definition map_section (vir msize : Z) (s : mm_section) : mm_section :=
  MmSection (phy_start s) vir (size s) (nr_page s) (s32 (vir - phy_start s)) msize (bm_end s)
    (bm_current s) (nr_free_pages s) (bitmap s) (section_table_id s) (page_table s).

Definition zone_set_map (z : mm_zone) (ss : list mm_section) (msize mbase : Z) : mm_zone :=
  MmZone ss (nr_section z) (zone_mutex z) msize mbase (page_num z) (zone_free_pages z).

(** The loop of [map_zone_memory] on [i] and the local [map_base]. *)
Fixpoint map_zone_loop (idx : list nat) (z : mm_zone) (base zone_map_end : Z) : mm_zone :=
  match idx with
  | [] => z
  | i :: idx =>
    let s := default zero_section (memory_section z !! i) in
    if negb (maped_size s =? 0) then map_zone_loop idx z base zone_map_end
    else
      let tmp := s32 (phy_start s - PDE_MIN_ALIGN (phy_start s)) in
      let base := u32 (base + tmp) in
      let map_size := s32 (zone_map_end - base) in
      let map_size := if size s <? map_size then size s else map_size in
      let ss := alter (map_section base map_size) i (memory_section z) in
      let next := PDE_ALIGN (u32 (base + map_size)) in
      let z := zone_set_map z ss (s32 (zone_maped_size z + map_size)) next in
      if next =? zone_map_end then z else map_zone_loop idx z next zone_map_end
  end.

Definition map_zone_memory (z : mm_zone) (size : Z) : mm_zone * Z :=
  if size <=? 0 then (z, - EINVAL)
  else
    let zone_map_end := u32 (map_base z + size) in
    if map_base z =? zone_map_end then (z, 0)
    else (map_zone_loop (seq 0 (Z.to_nat (nr_section z))) z (map_base z) zone_map_end, 0).

(** The loop of [map_kernel_memory] that maps the section the kernel was loaded
    into; [size] stays uninitialised when there is none. *)
Fixpoint map_boot_loop (idx : list nat) (z : mm_zone) (phys : Z) : mm_zone * option Z :=
  match idx with
  | [] => (z, None)
  | i :: idx =>
    let s := default zero_section (memory_section z !! i) in
    if phy_start s =? phys then
      let sz := if KERNEL_VIRTUAL_SIZE <? size s then KERNEL_VIRTUAL_SIZE else size s in
      (zone_set_map z (alter (map_section (map_base z) sz) i (memory_section z))
         (s32 (zone_maped_size z + sz)) (u32 (map_base z + PDE_ALIGN sz)), Some sz)
    else map_boot_loop idx z phys
  end.

Definition zone_set_base (b : Z) (z : mm_zone) : mm_zone :=
  zone_set_map z (memory_section z) (zone_maped_size z) b.

Definition map_kernel_memory (mm : mm_bank) (info : soc_memory_info) : outcome mm_bank :=
  let z := zone_set_base KERNEL_VIRTUAL_BASE (zone_at mm 0) in
  let '(z, sz) := map_boot_loop (seq 0 (Z.to_nat (nr_section z))) z (kernel_physical_start info) in
  sz ← defined sz;
  let z := (map_zone_memory z (s32 (KERNEL_VIRTUAL_SIZE - PDE_ALIGN sz))).1 in
  mret (set_zones mm (<[0%nat := z]> (zone mm))).

Definition map_dma_memory (mm : mm_bank) : mm_bank :=
  upd_zone 1 (fun z => (map_zone_memory (zone_set_base KERNEL_DMA_BASE z) KERNEL_DMA_SIZE).1) mm.

Definition map_res_memory (mm : mm_bank) : mm_bank :=
  let base := map_base (zone_at mm 0) in
  let map_size := s32 (KERNEL_VIRTUAL_BASE + KERNEL_VIRTUAL_SIZE - base) in
  upd_zone 2 (fun z => (map_zone_memory (zone_set_base base z) map_size).1) mm.

(** ** Entering the mappings into the boot page directory *)

Section Mapping.
Context (u : mmu).

Definition map_boot_section (m : gmap Z Z) (s : mm_section) (mapped flag : Z) : option (gmap Z Z) :=
  let vstart := u32 (KERNEL_VIRTUAL_BASE + mapped) in
  let msize := s32 (maped_size s - mapped) in
  let pstart := u32 (phy_start s + (vstart - vir_start s)) in
  if 0 <? msize then fst <$> build_kernel_pde_entry u m vstart pstart msize flag else Some m.

Definition zone_pde_flag (i : Z) : Z :=
  if i =? MM_ZONE_DMA then PDE_ATTR_DMA_MEMORY else PDE_ATTR_KERNEL_MEMORY.

Fixpoint map_sections_loop (m : gmap Z Z) (ss : list mm_section) (already_map flag : Z)
  : option (gmap Z Z) :=
  match ss with
  | [] => Some m
  | s :: ss =>
    m ← (if maped_size s =? 0 then Some m
         else if (vir_start s <=? KERNEL_VIRTUAL_BASE) && (KERNEL_VIRTUAL_BASE <? u32 (vir_start s + size s))
         then map_boot_section m s already_map flag
         else fst <$> build_kernel_pde_entry u m (vir_start s) (phy_start s) (maped_size s) flag);
    map_sections_loop m ss already_map flag
  end.

Definition zone_sections (mm : mm_bank) (i : nat) : list mm_section :=
  take (Z.to_nat (nr_section (zone_at mm i))) (memory_section (zone_at mm i)).

Definition do_map_kernel_memory (m : gmap Z Z) (mm : mm_bank) (info : soc_memory_info)
  : option (gmap Z Z) :=
  let already_map := u32 (align (u32 (code_end info - KERNEL_VIRTUAL_BASE)) PDE_ALIGN_SIZE) in
  m ← map_sections_loop m (zone_sections mm 0) already_map (zone_pde_flag 0);
  m ← map_sections_loop m (zone_sections mm 1) already_map (zone_pde_flag 1);
  map_sections_loop m (zone_sections mm 2) already_map (zone_pde_flag 2).

Definition map_memory (m : gmap Z Z) (mm : mm_bank) (info : soc_memory_info)
  : outcome (gmap Z Z * mm_bank) :=
  mm ← map_kernel_memory mm info;
  let mm := map_res_memory (map_dma_memory mm) in
  m ← fuelled (do_map_kernel_memory m mm info);
  mret (m, mm).
End Mapping.

(** ** Page tables and bitmaps *)

Definition set_page_table (pt : Z) (s : mm_section) : mm_section :=
  MmSection (phy_start s) (vir_start s) (size s) (nr_page s) (pv_offset s) (maped_size s) (bm_end s)
    (bm_current s) (nr_free_pages s) (bitmap s) (section_table_id s) pt.
Definition set_bitmap (b : Z) (s : mm_section) : mm_section :=
  MmSection (phy_start s) (vir_start s) (size s) (nr_page s) (pv_offset s) (maped_size s) (nr_page s)
    0 (nr_free_pages s) b (section_table_id s) (page_table s).

(** The sections the two placement loops visit, in their order. *)
Definition placed_sections (mm : mm_bank) : list sref :=
  i ← seq 0 4; j ← seq 0 (Z.to_nat (nr_section (zone_at mm i))); [(i, j)].

Definition init_sections_page_table (mm : mm_bank) (base : Z) : mm_bank * Z :=
  let '(mm, tmp) := foldl (fun '(mm, tmp) r =>
    (upd_section r (set_page_table tmp) mm, u32 (tmp + sizeof_page * nr_page (section_at mm r))))
    (mm, base) (placed_sections mm) in
  (set_pages mm (filter (fun '(a, _) => ~ base <= a < tmp) (pages mm)) (plists mm), tmp).

Definition init_sections_bitmap (mm : mm_bank) (base : Z) : mm_bank * Z :=
  let '(mm, tmp) := foldl (fun '(mm, tmp) r =>
    (upd_section r (set_bitmap tmp) mm, u32 (tmp + 4 * bits_to_long (nr_page (section_at mm r)))))
    (mm, base) (placed_sections mm) in
  (set_bitmaps mm (filter (fun '(a, _) => ~ base <= a < tmp) (bitmaps mm)), tmp).

Fixpoint boot_pages_loop (n : nat) (mm : mm_bank) (map i pv_offset tmp pg : Z) : mm_bank :=
  match n with
  | O => mm
  | S n =>
    let mm := set_bitmaps mm (set_bit (bitmaps mm) map i) in
    let p := page_at mm pg in
    let p := Page (u32 (tmp - pv_offset)) tmp __GFP_KERNEL 1 (pinfo p) (pdata p) in
    let mm := set_pages mm (<[pg := p]> (pages mm)) (init_list (plists mm) (pg + plist_offset)) in
    boot_pages_loop n mm map (i + 1) pv_offset (u32 (tmp + PAGE_SIZE)) (u32 (pg + sizeof_page))
  end.

Definition update_boot_section_info (mm : mm_bank) (r : sref) (kernel_boot_page : Z) : mm_bank * Z :=
  let s := section_at mm r in
  if negb (vir_start s =? KERNEL_VIRTUAL_BASE) then (mm, - EINVAL)
  else
    let mm := boot_pages_loop (Z.to_nat kernel_boot_page) mm (bitmap s) 0 (pv_offset s) (vir_start s)
                (page_table s) in
    (upd_section r (section_add_free (- kernel_boot_page))
      (upd_section r (section_set_current kernel_boot_page) mm), 0).

(** The section found by the loop: the one mapped at the kernel base, or the last. *)
Definition find_boot_section (mm : mm_bank) : option nat :=
  let n := Z.to_nat (nr_section (zone_at mm 0)) in
  match zfirst n 0 (fun i => vir_start (section_at mm (0%nat, Z.to_nat i)) =? KERNEL_VIRTUAL_BASE) with
  | Some i => Some (Z.to_nat i)
  | None => if decide (n = O) then None else Some (n - 1)%nat
  end.

Definition init_page_table (mm : mm_bank) (info : soc_memory_info) : outcome mm_bank :=
  let base := u32 (align (code_end info) 4) in
  let '(mm, base) := init_sections_page_table mm base in
  let base := u32 (align base 4) in
  let '(mm, base) := init_sections_bitmap mm base in
  match find_boot_section mm with
  | None => Panic
  | Some i =>
    let base := u32 (align base PAGE_SIZE) in
    let size := Z.shiftr (u32 (base - KERNEL_VIRTUAL_BASE)) PAGE_SHIFT in
    let mm := upd_zone 0 (zone_add_free (- size)) mm in
    mret (update_boot_section_info mm (0%nat, i) size).1
  end.

(** ** The user zone and the section table *)

Definition user_section (s : mm_section) : mm_section :=
  let mapped := Z.shiftr (maped_size s) PAGE_SHIFT in
  let nr := s32 (nr_page s - mapped) in
  MmSection (u32 (phy_start s + maped_size s)) 0 (s32 (Z.shiftl nr PAGE_SHIFT)) nr 0 0 nr 0 nr
    (u32 (bitmap s + 4 * bits_to_long mapped)) 0 (u32 (page_table s + sizeof_page * mapped)).

Definition give_to_user (us : mm_section) (s : mm_section) : mm_section :=
  MmSection (phy_start s) (vir_start s) (s32 (size s - size us)) (s32 (nr_page s - nr_page us))
    (pv_offset s) (maped_size s) (s32 (nr_page s - nr_page us)) (bm_current s)
    (s32 (nr_free_pages s - nr_page us)) (bitmap s) (section_table_id s) (page_table s).

(** One iteration of [init_user_zone] on (zone 0, zone 3, [j]). *)
Definition user_zone_step (i : nat) (st : mm_zone * mm_zone * nat) : mm_zone * mm_zone * nat :=
  let '(z, uz, j) := st in
  let s := default zero_section (memory_section z !! i) in
  if maped_size s <? s32 (Z.shiftl (nr_page s) PAGE_SHIFT) then
    let us := user_section s in
    let us := MmSection (phy_start us) (vir_start us) (size us) (nr_page us) (pv_offset us)
                (maped_size us) (bm_end us) (bm_current us) (nr_free_pages us) (bitmap us)
                (section_table_id (default zero_section (memory_section uz !! j))) (page_table us) in
    let uz := MmZone (<[j := us]> (memory_section uz)) (nr_section uz + 1) (zone_mutex uz)
                (zone_maped_size uz) (map_base uz) (s32 (page_num uz + nr_page us))
                (s32 (zone_free_pages uz + nr_free_pages us)) in
    let gone := maped_size s =? 0 in
    let s := if gone then zero_section else give_to_user us s in
    let z := MmZone (<[i := s]> (memory_section z)) (nr_section z - (if gone then 1 else 0))
               (zone_mutex z) (zone_maped_size z) (map_base z) (s32 (page_num z - nr_page us))
               (s32 (zone_free_pages z - nr_page us)) in
    (z, uz, S j)
  else st.

Definition init_user_zone (mm : mm_bank) : mm_bank :=
  let z := zone_at mm 0 in
  let '(z, uz, _) := foldl (fun st i => user_zone_step i st) (z, zone_at mm 3, O)
                       (seq 0 (Z.to_nat (nr_section z))) in
  set_zones mm (<[3%nat := uz]> (<[0%nat := z]> (zone mm))).

Definition set_table_id (k : Z) (s : mm_section) : mm_section :=
  MmSection (phy_start s) (vir_start s) (size s) (nr_page s) (pv_offset s) (maped_size s) (bm_end s)
    (bm_current s) (nr_free_pages s) (bitmap s) k (page_table s).

(** The table has 13 slots, for twelve sections and the null entry. *)
Definition table_slots : nat := 13.

Fixpoint section_table_loop (rs : list sref) (mm : mm_bank) (k : nat) : outcome mm_bank :=
  match rs with
  | [] => mret mm
  | r :: rs =>
    if size (section_at mm r) =? 0 then section_table_loop rs mm k
    else if (table_slots <=? k)%nat then Fault
    else
      let mm := upd_section r (set_table_id (Z.of_nat k)) mm in
      let mm := MmBank (total_size mm) (total_page mm) (zone mm) (<[k := Some r]> (section_table mm))
                  (bitmaps mm) (pages mm) (plists mm) in
      section_table_loop rs mm (S k)
  end.

Definition all_srefs : list sref := i ← seq 0 4; j ← seq 0 4; [(i, j)].

Definition update_section_table (mm : mm_bank) : outcome mm_bank :=
  section_table_loop all_srefs mm 0.

Definition mm_init (u : mmu) (m : gmap Z Z) (info : soc_memory_info) : outcome (gmap Z Z * mm_bank) :=
  '(mm, info) ← analyse_soc_memory_info init_memory_bank info;
  '(m, mm) ← map_memory u m mm info;
  mm ← init_page_table mm info;
  let mm := init_user_zone mm in
  mm ← update_section_table mm;
  mret (m, mm).

(** ** The SVB board (arch/x86/board/sofia-svb/svb_init.c) *)

Definition svb_parse_memory_region (info : soc_memory_info) : soc_memory_info :=
  let info := register_memory_region info 0x0 (256 * 1024 * 1024) NORMAL_MEM in
  register_memory_region info 0x10000000 (768 * 1024 * 1024) NORMAL_MEM.

(** A kernel image that is loaded at physical 0 and ends 2M above its base. *)
Definition svb_info : soc_memory_info := svb_parse_memory_region (SocInfo 0x80200000 0 []).
Definition x86_mmu : mmu := Mmu KERNEL_VIRTUAL_BASE x86_mmu_ops.
Definition svb_boot : outcome (gmap Z Z * mm_bank) := mm_init x86_mmu ∅ svb_info.
Definition svb_bank : mm_bank := match svb_boot with Ret (_, mm) => mm | _ => init_memory_bank end.
Definition svb_pdes : gmap Z Z := match svb_boot with Ret (m, _) => m | _ => ∅ end.
