(* ===== verification/MmInitSpec.v ===== *)
(** * Correctness of memory initialisation

    The sort of the memory regions, the DMA split, the choice of virtual addresses,
    and the whole of [mm_init] on the SVB board: it ends in a state that satisfies the
    allocator's invariant, with every section entered in the page directory. *)

From S2P Require Import Prelude Bitops Dlist Mm MmAlloc MmSpec Mmu MmInit.

(** ** Sorting *)

Section Sort.
Implicit Types l : list memory_region.

Abbreviation key l i := (r_start (region_at l i)).

Lemma select_min_inv l js min (P : nat -> Prop) :
  P min -> (forall j, j ∈ js -> P j) ->
  let r := foldl (fun min j => if key l j <? key l min then j else min) min js in
  P r /\ key l r <= key l min /\ (forall j, j ∈ js -> key l r <= key l j).
Proof.
  revert min. induction js as [|j js IH]; intros min Hm Hj; simpl.
  - split; [done|]. split; [done|]. set_solver.
  - destruct (IH (if key l j <? key l min then j else min)) as (H1 & H2 & H3).
    + destruct (_ <? _); [apply Hj; set_solver|done].
    + intros j' Hj'. apply Hj. set_solver.
    + split; [done|]. destruct (Z.ltb_spec (key l j) (key l min)).
      * split; [lia|]. intros j' [->|Hj']%elem_of_cons; [done|auto].
      * split; [done|]. intros j' [->|Hj']%elem_of_cons; [lia|auto].
Qed.

Lemma select_min_spec l i : (i < length l)%nat ->
  (i <= select_min l i < length l)%nat /\
  forall j, (i <= j < length l)%nat -> key l (select_min l i) <= key l j.
Proof.
  intros Hi. destruct (select_min_inv l (seq (S i) (length l - S i)) i
    (fun k => (i <= k < length l)%nat)) as (H1 & H2 & H3).
  - lia.
  - intros j Hj%elem_of_seq. lia.
  - split; [done|]. intros j Hj. destruct (decide (j = i)) as [->|]; [done|].
    apply H3, elem_of_seq. lia.
Qed.

Lemma region_at_lookup l i : (i < length l)%nat -> l !! i = Some (region_at l i).
Proof. intros [x Hx]%lookup_lt_is_Some. unfold region_at. by rewrite Hx. Qed.

Definition swap_index (i min k : nat) : nat :=
  if decide (k = i) then min else if decide (k = min) then i else k.

Lemma swap_regions_lookup l i min k :
  (i < length l)%nat -> (min < length l)%nat ->
  swap_regions l i min !! k = l !! swap_index i min k.
Proof.
  intros Hi Hm. unfold swap_regions, swap_index. case_decide as E.
  { subst. repeat case_decide; congruence. }
  destruct (decide (k = min)) as [->|Hk].
  - rewrite list_lookup_insert_eq by (by rewrite length_insert).
    repeat case_decide; try done. by rewrite region_at_lookup.
  - rewrite list_lookup_insert_ne by done. case_decide as E2.
    + subst. rewrite list_lookup_insert_eq by done. by rewrite region_at_lookup.
    + by rewrite list_lookup_insert_ne.
Qed.

Lemma swap_regions_length l i min : length (swap_regions l i min) = length l.
Proof. unfold swap_regions. case_decide; [done|]. by rewrite !length_insert. Qed.

Lemma swap_regions_perm l i min :
  (i < length l)%nat -> (min < length l)%nat -> swap_regions l i min ≡ₚ l.
Proof.
  intros Hi Hm. apply Permutation_inj. split; [apply swap_regions_length|].
  exists (swap_index i min). split.
  - intros a b. unfold swap_index. repeat case_decide; congruence.
  - intros k. by apply swap_regions_lookup.
Qed.

Lemma swap_regions_key l i min k :
  (i < length l)%nat -> (min < length l)%nat ->
  region_at (swap_regions l i min) k = region_at l (swap_index i min k).
Proof. intros. unfold region_at. by rewrite swap_regions_lookup. Qed.

(** The first [i] regions are in their final place. *)
Definition settled l (i : nat) : Prop :=
  forall a b, (a < i)%nat -> (a <= b < length l)%nat -> key l a <= key l b.

Lemma sort_step l i : (i < length l)%nat -> settled l i ->
  settled (swap_regions l i (select_min l i)) (S i).
Proof.
  intros Hi Hs. destruct (select_min_spec l i Hi) as [[H1 H2] H3].
  intros a b Ha Hb. rewrite swap_regions_length in Hb.
  rewrite !swap_regions_key by lia. unfold swap_index.
  destruct (decide (a = i)) as [->|Hai].
  - repeat case_decide; apply H3; lia.
  - rewrite (decide_False (P := a = select_min l i)) by lia.
    repeat case_decide; apply Hs; lia.
Qed.

Lemma sort_loop n : forall l0 l i,
  l ≡ₚ l0 -> (i + n = length l)%nat -> settled l i ->
  let r := foldl (fun l i => swap_regions l i (select_min l i)) l (seq i n) in
  r ≡ₚ l0 /\ settled r (length r).
Proof.
  induction n as [|n IH]; intros l0 l i Hp Hn Hs; simpl.
  - split; [done|]. by replace (length l) with i by lia.
  - apply IH.
    + rewrite <- Hp. apply swap_regions_perm; [lia|]. pose proof (select_min_spec l i). lia.
    + rewrite swap_regions_length. lia.
    + apply sort_step; [lia|done].
Qed.

Lemma sort_regions_spec l : sort_regions l ≡ₚ l /\ settled (sort_regions l) (length (sort_regions l)).
Proof. apply (sort_loop (length l)); [done|lia|]. intros a b Ha. lia. Qed.
End Sort.

(** the regions the zones are built from are the registered ones in increasing
    order of their start address. *)
Theorem sort_regions_correct l :
  sort_regions l ≡ₚ l /\
  forall i j a b, (i <= j)%nat -> sort_regions l !! i = Some a -> sort_regions l !! j = Some b ->
    r_start a <= r_start b.
Proof.
  destruct (sort_regions_spec l) as [Hp Hs]. split; [done|].
  intros i j a b Hij Ha Hb.
  pose proof (lookup_lt_Some _ _ _ Ha). pose proof (lookup_lt_Some _ _ _ Hb).
  specialize (Hs i j). rewrite region_at_lookup in Ha, Hb by done. simplify_eq. apply Hs; lia.
Qed.

(** ** The DMA split *)

Lemma zone_at_upd mm i f j :
  zone_at (upd_zone i f mm) j =
  if decide (i = j /\ (i < length (zone mm))%nat) then f (zone_at mm j) else zone_at mm j.
Proof.
  unfold zone_at, upd_zone. simpl. destruct (decide (i = j)) as [->|Hi].
  - rewrite list_lookup_alter_eq. destruct (zone mm !! j) as [z|] eqn:E; simpl.
    + rewrite decide_True; [done|]. split; [done|]. by eapply lookup_lt_Some.
    + apply lookup_ge_None in E. rewrite decide_False by lia. done.
  - rewrite list_lookup_alter_ne, decide_False by tauto. done.
Qed.

Lemma pages_shift n : Z.shiftr (n * 4096) PAGE_SHIFT = n.
Proof. unfold PAGE_SHIFT. rewrite Z.shiftr_div_pow2 by lia. apply Z.div_mul. lia. Qed.

Lemma insert_region_fresh rg z n :
  nr_section z = 0 -> 0 <= page_num z + n < 2147483648 -> 0 < n -> 0 <= r_start rg ->
  r_start rg mod 4096 = 0 -> r_size rg = n * 4096 -> r_start rg + r_size rg < 4294967296 ->
  n * 4096 < 2147483648 ->
  let z' := (insert_region_to_zone rg z).1 in
  nr_section z' = 1 /\ page_num z' = page_num z + n /\ zone_free_pages z' = page_num z + n /\
  memory_section z' = alter (fun s => new_section s (r_start rg) (n * 4096)) 0%nat (memory_section z).
Proof.
  intros Hz Hp Hn Hs Hal Hsz Hmax Hmx. rewrite Hsz in *.
  assert (u32 (align (r_start rg) PAGE_SIZE) = r_start rg) as E1.
  { change PAGE_SIZE with (2 ^ 12). rewrite align_spec by lia. change (2 ^ 12) with 4096.
    rewrite Zplus_mod, Hal. change ((0 + (4096 - 1) mod 4096) mod 4096) with 4095.
    rewrite u32_small; lia. }
  assert (min_align (u32 (r_start rg + n * 4096)) PAGE_SIZE = r_start rg + n * 4096) as E2.
  { change PAGE_SIZE with (2 ^ 12). rewrite u32_small, min_align_spec by lia.
    change (2 ^ 12) with 4096. rewrite Z.mod_add, Hal by lia. lia. }
  unfold insert_region_to_zone. rewrite Hsz, E1, E2.
  replace (r_start rg + n * 4096 - r_start rg) with (n * 4096) by lia.
  rewrite (s32_small (n * 4096)) by lia.
  destruct (Z.ltb_spec (n * 4096) PAGE_SIZE); [unfold PAGE_SIZE in *; lia|].
  rewrite Hz. change (0 =? ZONE_MAX_SECTION) with false.
  cbn [fst nr_section page_num zone_free_pages memory_section].
  by rewrite pages_shift, s32_small by lia.
Qed.

(** Zones 0 and 1 after the three updates of [alloc_dma_section]. *)
Lemma dma_updates mm i f g h :
  length (zone mm) = 4%nat -> (i < 4)%nat ->
  (forall k z, zone mm !! k = Some z -> length (memory_section z) = 4%nat) ->
  (forall z, memory_section (f z) = memory_section z) ->
  (forall z ss, page_num (f (zone_set_sections z ss)) = page_num (f z)) ->
  let mm' := upd_zone 1 h (upd_zone 0 f (upd_section (0%nat, i) g mm)) in
  section_at mm' (0%nat, i) = g (section_at mm (0%nat, i)) /\
  page_num (zone_at mm' 0) = page_num (f (zone_at mm 0)) /\ zone_at mm' 1 = h (zone_at mm 1).
Proof.
  intros Hl Hi Hs Hf Hp. destruct mm as [? ? zs]. simpl in Hl, Hs.
  destruct zs as [|z0 [|z1 zs]]; [done|done|].
  unfold section_at, zone_at, upd_zone, upd_section. simpl. rewrite Hf. simpl.
  rewrite list_lookup_alter_eq. split_and!; [|apply Hp|done].
  destruct (lookup_lt_is_Some_2 (memory_section z0) i) as [x ->]; [|done].
  rewrite (Hs 0%nat z0); done.
Qed.

Lemma first_section_insert z s base size :
  length (memory_section z) = 4%nat ->
  memory_section s = alter (fun s => new_section s base size) 0%nat (memory_section z) ->
  exists x, memory_section s !! 0%nat = Some (new_section x base size).
Proof. intros Hl ->. destruct (memory_section z); [done|]. simpl. eauto. Qed.

(** The number of pages given to the DMA zone: a sixteenth of the zone, 128M at most. *)
Definition dma_pages (mm : mm_bank) : Z := Z.min (page_num (zone_at mm 0) / 16) 32768.

(** without a DMA region, [alloc_dma_section] splits the last kernel section: the
    section keeps its start and loses its last [dma_pages] pages, which become the
    first DMA section, and no page is lost or counted twice. *)
Theorem alloc_dma_section_splits mm n
    (Hzones : length (zone mm) = 4%nat)
    (Hsecs : forall i z, zone mm !! i = Some z -> length (memory_section z) = 4%nat)
    (Hn : 0 < n <= 4) (Hnr : nr_section (zone_at mm 0) = n)
    (Hdma : nr_section (zone_at mm 1) = 0) (Hdma0 : page_num (zone_at mm 1) = 0)
    (Hpn : 0 <= page_num (zone_at mm 0) < 524288)
    (Hd : 0 < dma_pages mm)
    (Hpr : let s := section_at mm (0%nat, Z.to_nat (n - 1)) in
           dma_pages mm < nr_page s < 524288 /\ size s = nr_page s * 4096 /\
           nr_free_pages s = nr_page s /\
           0 <= phy_start s /\ phy_start s mod 4096 = 0 /\ phy_start s + size s < 4294967296) :
  exists mm', alloc_dma_section mm = Ret mm' /\
    let s := section_at mm (0%nat, Z.to_nat (n - 1)) in
    let s' := section_at mm' (0%nat, Z.to_nat (n - 1)) in
    let d := section_at mm' (1%nat, 0%nat) in
    phy_start s' = phy_start s /\ nr_page s' + nr_page d = nr_page s /\ nr_page d = dma_pages mm /\
    size s' = nr_page s' * 4096 /\ size d = nr_page d * 4096 /\
    phy_start d = phy_start s' + size s' /\
    page_num (zone_at mm' 0) + page_num (zone_at mm' 1) = page_num (zone_at mm 0).
Proof.
  destruct Hpr as (Hp1 & Hp2 & Hp3 & Hp4 & Hp5 & Hp6). set (s := section_at mm _) in *.
  unfold alloc_dma_section. rewrite Hnr. destruct (Z.leb_spec n 0); [lia|]. fold s.
  set (pn := page_num (zone_at mm 0)) in *.
  assert (0 <= pn / 16 <= 32768 /\ pn / 16 <= pn) as [? ?] by (Z.to_euclidean_division_equations; lia).
  assert ((if KERNEL_DMA_SIZE <? s32 (Z.shiftl (Z.shiftr pn 4) PAGE_SHIFT)
           then Z.shiftr KERNEL_DMA_SIZE PAGE_SHIFT else Z.shiftr pn 4) = dma_pages mm) as ->.
  { unfold dma_pages, KERNEL_DMA_SIZE. fold pn. rewrite shift_page, Z.shiftr_div_pow2 by lia.
    change (2 ^ 4) with 16. rewrite s32_small by lia.
    change (Z.shiftr 134217728 PAGE_SHIFT) with 32768. zcase; lia. }
  assert (dma_pages mm <= pn / 16) by (unfold dma_pages; fold pn; lia).
  set (d := dma_pages mm) in *. eexists. split; [done|].
  rewrite !shift_page, (u32_small (phy_start s + _)), (u32_small (d * 4096)) by lia.
  set (rg := Region _ _ _).
  destruct (dma_updates mm (Z.to_nat (n - 1)) (fun z => MmZone (memory_section z) (nr_section z)
    (zone_mutex z) (zone_maped_size z) (map_base z) (s32 (page_num z - d)) (s32 (page_num z - d)))
    (shrink_section d) (fun z => (insert_region_to_zone rg z).1))
    as (-> & -> & Z1); [done|lia|done|done|done|].
  destruct (insert_region_fresh rg (zone_at mm 1) d) as (_ & I2 & _ & I4);
    try (unfold rg; simpl; lia); [by unfold rg; simpl; rewrite Z.mod_add|].
  destruct (lookup_lt_is_Some_2 (zone mm) 1) as [z1 Hz1]; [lia|].
  destruct (first_section_insert (zone_at mm 1) _ _ _
    ltac:(unfold zone_at; rewrite Hz1; by eapply Hsecs) I4) as [x Hx].
  match goal with |- context [section_at ?m (1%nat, 0%nat)] =>
    assert (section_at m (1%nat, 0%nat) = new_section x (r_start rg) (d * 4096)) as ->
      by (unfold section_at; cbn [fst snd]; by rewrite Z1, Hx) end.
  rewrite Z1. unfold shrink_section, new_section. fold s. cbn [size nr_page phy_start page_num]. fold pn.
  rewrite shift_page, pages_shift, I2, Hdma0, !s32_small by lia. unfold rg. simpl. split_and!; lia.
Qed.

Definition svb_sections : mm_bank :=
  match get_memory_sections init_memory_bank svb_info with Ret (mm, _) => mm | _ => init_memory_bank end.

Lemma zones_check mm :
  forallb (fun z => bool_decide (length (memory_section z) = 4%nat)) (zone mm) = true ->
  forall i z, zone mm !! i = Some z -> length (memory_section z) = 4%nat.
Proof.
  intros H i z Hz. rewrite forallb_forall in H. eapply bool_decide_eq_true, H.
  apply list_elem_of_In. by eapply list_elem_of_lookup_2.
Qed.

Lemma alloc_dma_section_splits_witness :
  exists mm', alloc_dma_section svb_sections = Ret mm' /\
    let s := section_at svb_sections (0%nat, Z.to_nat (2 - 1)) in
    let s' := section_at mm' (0%nat, Z.to_nat (2 - 1)) in
    let d := section_at mm' (1%nat, 0%nat) in
    phy_start s' = phy_start s /\ nr_page s' + nr_page d = nr_page s /\
    nr_page d = dma_pages svb_sections /\
    size s' = nr_page s' * 4096 /\ size d = nr_page d * 4096 /\
    phy_start d = phy_start s' + size s' /\
    page_num (zone_at mm' 0) + page_num (zone_at mm' 1) = page_num (zone_at svb_sections 0).
Proof.
  apply (alloc_dma_section_splits svb_sections 2 ltac:(by vm_compute)
    (zones_check svb_sections ltac:(by vm_compute))); by vm_compute.
Defined.

(** ** Virtual addresses *)

(** Every section in use that has a mapping is mapped at an address that has the
    offset of its physical address inside a 4M frame. *)
Definition frame_congruent (s : mm_section) : Prop := (vir_start s - phy_start s) mod 4194304 = 0.

Lemma frame_mod_u32 a : u32 a mod 4194304 = a mod 4194304.
Proof. unfold u32. apply Z.mod_mod_divide. by exists 1024. Qed.

Lemma pde_align_mod a : PDE_ALIGN a mod 4194304 = 0.
Proof.
  unfold PDE_ALIGN, PDE_ALIGN_SIZE. rewrite frame_mod_u32. change 4194304 with (2 ^ 22).
  apply (align_ceil a 22). lia.
Qed.

Lemma frame_offset a : 0 <= a < 4294967296 -> s32 (a - PDE_MIN_ALIGN a) = a mod 4194304.
Proof.
  intros Ha. rewrite pde_min_align_val by done. pose proof (Z.div_mod a 4194304).
  pose proof (Z.mod_pos_bound a 4194304). rewrite s32_small; lia.
Qed.

(** What one pass of [map_zone_memory] may do to a section. *)
Definition mapped_ok (s s' : mm_section) : Prop :=
  s' = s \/ (maped_size s = 0 /\ frame_congruent s' /\ maped_size s' <= size s' /\
             phy_start s' = phy_start s /\ size s' = size s).

Lemma map_section_ok base msize s :
  0 <= phy_start s < 4294967296 -> base mod 4194304 = 0 -> maped_size s = 0 -> msize <= size s ->
  mapped_ok s (map_section (u32 (base + s32 (phy_start s - PDE_MIN_ALIGN (phy_start s)))) msize s).
Proof.
  intros Hp Hb Hm Hs. right. unfold frame_congruent. simpl. split_and!; try done.
  rewrite frame_offset by done. rewrite Zminus_mod, frame_mod_u32, Zplus_mod, Hb, Z.mod_mod by lia.
  by rewrite Z.add_0_l, Z.mod_mod, Z.sub_diag by lia.
Qed.

Definition sec_of (z : mm_zone) (i : nat) : mm_section := default zero_section (memory_section z !! i).

Lemma map_zone_loop_ok idx : forall z base e,
  NoDup idx -> base mod 4194304 = 0 ->
  (forall i, 0 <= phy_start (sec_of z i) < 4294967296) ->
  let z' := map_zone_loop idx z base e in
  forall i, mapped_ok (sec_of z i) (sec_of z' i) /\ (i ∉ idx -> sec_of z' i = sec_of z i).
Proof.
  induction idx as [|k idx IH]; intros z base e Hnd Hb Hp; cbn [map_zone_loop].
  { intros i. split; [by left|done]. }
  apply NoDup_cons in Hnd as [Hk Hnd]. fold (sec_of z k).
  destruct (Z.eqb_spec (maped_size (sec_of z k)) 0) as [Hm|Hm]; cbn [negb].
  2:{ intros i. destruct (IH z base e Hnd Hb Hp i) as [H1 H2]. split; [done|]. set_solver. }
  set (b := u32 (base + _)). set (ms := if size (sec_of z k) <? _ then _ else _).
  assert (ms <= size (sec_of z k)) as Hms by (unfold ms; zcase; lia).
  set (ss := alter _ k (memory_section z)).
  set (nx := PDE_ALIGN _). set (z1 := zone_set_map z ss _ nx).
  assert (forall i, i <> k -> sec_of z1 i = sec_of z i) as Hother.
  { intros i Hi. unfold sec_of, z1, ss. simpl. by rewrite list_lookup_alter_ne. }
  assert (mapped_ok (sec_of z k) (sec_of z1 k)) as Hhere.
  { unfold sec_of at 2, z1, ss. simpl. rewrite list_lookup_alter_eq.
    destruct (memory_section z !! k) eqn:E; simpl.
    - replace m with (sec_of z k) by (unfold sec_of; by rewrite E). by apply map_section_ok.
    - left. unfold sec_of. by rewrite E. }
  destruct (nx =? e).
  { intros i. destruct (decide (i = k)) as [->|Hi]; [split; [done|set_solver]|].
    rewrite Hother by done. split; [by left|done]. }
  intros i. destruct (IH z1 nx e Hnd (pde_align_mod _)) with (i := i) as [H1 H2].
  { intros j. destruct (decide (j = k)) as [->|]; [|by rewrite Hother].
    destruct Hhere as [->|(_ & _ & _ & -> & _)]; apply Hp. }
  destruct (decide (i = k)) as [->|Hi].
  - split; [by rewrite H2|set_solver].
  - rewrite Hother in H1, H2 by done. split; [done|set_solver].
Qed.

(** [map_zone_memory], from a base on a 4M boundary, leaves every mapped section
    alone; a section it maps gets a virtual start with the same offset inside a 4M
    frame as its physical start, as the 4M page directory entries need, and no more
    than its own size is mapped. *)
Theorem map_zone_memory_congruent z sz i
    (Hbase : map_base z mod 4194304 = 0)
    (Hphy : forall i, 0 <= phy_start (sec_of z i) < 4294967296) :
  mapped_ok (sec_of z i) (sec_of (map_zone_memory z sz).1 i).
Proof.
  unfold map_zone_memory. destruct (sz <=? 0); [by left|]. destruct (_ =? _); [by left|].
  apply map_zone_loop_ok; [apply NoDup_seq|done|done].
Qed.

Lemma map_zone_memory_congruent_witness :
  mapped_ok (sec_of (zone_set_base KERNEL_VIRTUAL_BASE (zone_at svb_sections 0)) 1)
    (sec_of (map_zone_memory (zone_set_base KERNEL_VIRTUAL_BASE (zone_at svb_sections 0))
       KERNEL_VIRTUAL_SIZE).1 1).
Proof.
  apply (map_zone_memory_congruent (zone_set_base KERNEL_VIRTUAL_BASE (zone_at svb_sections 0))
    KERNEL_VIRTUAL_SIZE 1); [by vm_compute|].
  intros i. do 4 (destruct i as [|i]; [by vm_compute|]). by vm_compute.
Defined.

(** ** Booting the SVB board *)

Lemma svb_boot_returns : match svb_boot with Ret _ => true | _ => false end = true.
Proof. by vm_compute. Qed.

Lemma svb_boot_ret : svb_boot = Ret (svb_pdes, svb_bank).
Proof.
  pose proof svb_boot_returns as E. unfold svb_pdes, svb_bank.
  destruct svb_boot as [[? ?]| | |]; [reflexivity|discriminate E..].
Qed.

#[local] Opaque svb_boot svb_bank svb_pdes svb_sections.

(** The pages of the boot section below [bm_current] hold the kernel image, the page
    tables and the bitmaps. *)
Definition svb_reserved (r : sref) (k : Z) : Prop :=
  r = (0, 0)%nat /\ 0 <= k < bm_current (section_at svb_bank (0, 0)%nat).

Lemma all_srefs_in (r : sref) : (r.1 < 4)%nat -> (r.2 < 4)%nat -> List.In r all_srefs.
Proof.
  intros H1 H2. destruct r as [i j]. simpl in *.
  do 4 (destruct i as [|i]; [do 4 (destruct j as [|j]; [simpl; tauto|]); lia|]). lia.
Qed.

Lemma svb_used r : used_sec svb_bank r <-> r = (0, 0)%nat \/ r = (0, 1)%nat \/ r = (1, 0)%nat.
Proof.
  split.
  - intros Hu. assert (forallb (fun r => bool_decide (size (section_at svb_bank r) = 0) ||
      bool_decide (r ∈ [(0, 0); (0, 1); (1, 0)]%nat)) all_srefs = true) as E by by vm_compute.
    rewrite forallb_forall in E. unfold used_sec, geo_at in Hu. simpl in Hu.
    destruct (decide (r.1 < 4 /\ r.2 < 4)%nat) as [[H1 H2]|Hout].
    + specialize (E r (all_srefs_in r H1 H2)).
      apply orb_true_iff in E as [E|E]; apply bool_decide_eq_true in E; [destruct (Hu E)|].
      clear -E. set_solver.
    + exfalso. apply Hu. unfold section_at, zone_at.
      assert (length (zone svb_bank) = 4%nat) as Hl by by vm_compute.
      pose proof (zones_check svb_bank ltac:(by vm_compute)) as Hs.
      destruct (zone svb_bank !! r.1) as [z|] eqn:Ez; simpl.
      * pose proof (lookup_lt_Some _ _ _ Ez). rewrite lookup_ge_None_2; [done|]. rewrite (Hs _ _ Ez). lia.
      * by destruct r.2 as [|[|[|[|?]]]].
  - intros [-> | [-> | ->]]; by vm_compute.
Qed.

(** A bitmap whose first [boot] bits are set and the others clear, checked by words. *)
Definition boot_word (boot i : Z) : Z := Z.ones (Z.max 0 (Z.min 32 (boot - 32 * i))).

Definition boot_bitmap (m : gmap Z Z) (map n boot : Z) : bool :=
  match zfirst (Z.to_nat (n / 32)) 0 (fun i => negb (rd m (map + 4 * i) =? boot_word boot i)) with
  | None => true
  | Some _ => false
  end.

Lemma boot_bitmap_spec m map n boot k :
  boot_bitmap m map n boot = true -> n mod 32 = 0 -> n < 4294967296 -> 0 <= k < n ->
  bit_at m map k = (k <? boot).
Proof.
  unfold boot_bitmap. destruct (zfirst _ _ _) eqn:E; [done|]. intros _ Hn Hmax Hk.
  unfold bit_at. rewrite u32_small by lia.
  pose proof (Z.div_mod k 32 ltac:(lia)). pose proof (Z.mod_pos_bound k 32 ltac:(lia)).
  assert (0 <= k / 32 < n / 32) by (Z.to_euclidean_division_equations; lia).
  pose proof (zfirst_None _ _ _ E (k / 32) ltac:(lia)) as X. apply negb_false_iff, Z.eqb_eq in X.
  rewrite X. unfold boot_word. destruct (Z.ltb_spec k boot).
  - rewrite Z.ones_spec_low; [done|lia].
  - rewrite Z.ones_spec_high; [done|lia].
Qed.

(** A section's layout facts as one boolean, so that they evaluate. *)
Definition geo_okb (g : geo) : bool :=
  (0 <? g_nr g) && (g_size g =? g_nr g * 4096) && (g_size g <? 2147483648) && (g_end g =? g_nr g) &&
  (0 <? g_bitmap g) && ((0 <=? g_vir g) && (g_vir g mod 4096 =? 0) && (g_vir g + g_size g <? 4294967296)) &&
  ((0 <=? g_phy g) && (g_phy g mod 4096 =? 0) && (g_phy g + g_size g <? 4294967296)) &&
  ((0 <? g_pt g) && (g_pt g + 28 * g_nr g <? 4294967296)) && ((0 <=? g_id g) && (g_id g <? 256)).

Lemma geo_okb_spec g : geo_okb g = true -> geo_ok g.
Proof. unfold geo_okb. rewrite !andb_true_iff, !Z.ltb_lt, !Z.leb_le, !Z.eqb_eq. intros H. split; lia. Qed.

Definition apartb (a n b k : Z) : bool := (a + n <=? b) || (b + k <=? a).
Definition geo_apartb (g g' : geo) : bool :=
  apartb (g_bitmap g) (4 * ((g_nr g + 31) / 32)) (g_bitmap g') (4 * ((g_nr g' + 31) / 32)) &&
  apartb (g_pt g) (28 * g_nr g) (g_pt g') (28 * g_nr g') &&
  apartb (g_phy g) (g_size g) (g_phy g') (g_size g') &&
  apartb (g_vir g) (g_size g) (g_vir g') (g_size g').

Lemma geo_apartb_spec r r' g g' : geo_apartb g g' = true -> geo_apart r r' g g'.
Proof.
  unfold geo_apartb, apartb. rewrite !andb_true_iff, !orb_true_iff, !Z.leb_le.
  intros H. split; unfold ranges_apart; intros; lia.
Qed.

Definition svb_srefs : list sref := [(0, 0); (0, 1); (1, 0)]%nat.

Lemma svb_apart :
  forallb (fun r => forallb (fun r' =>
    bool_decide (r = r') || geo_apartb (geo_at svb_bank r) (geo_at svb_bank r')) svb_srefs) svb_srefs = true.
Proof. by vm_compute. Qed.

Lemma svb_wf : mm_wf svb_bank.
Proof.
  split.
  - by vm_compute.
  - apply zones_check. by vm_compute.
  - intros r [-> | [-> | ->]]%svb_used; apply geo_okb_spec; by vm_compute.
  - intros r r' Hr Hr' Hne. apply geo_apartb_spec.
    pose proof svb_apart as E. rewrite forallb_forall in E.
    specialize (E r ltac:(apply svb_used in Hr as [-> | [-> | ->]]; simpl; tauto)).
    rewrite forallb_forall in E.
    specialize (E r' ltac:(apply svb_used in Hr' as [-> | [-> | ->]]; simpl; tauto)).
    apply orb_true_iff in E as [E|E]; [|exact E]. by apply bool_decide_eq_true in E.
  - intros r [-> | [-> | ->]]%svb_used; by vm_compute.
  - exists [(0, 0); (0, 1); (1, 0)]%nat, (replicate 9 None). split; [by vm_compute|].
    intros r. rewrite svb_used. set_solver.
Qed.

Lemma svb_nr_page :
  nr_page (section_at svb_bank (0, 0)%nat) = 65536 /\ nr_page (section_at svb_bank (0, 1)%nat) = 180224 /\
  nr_page (section_at svb_bank (1, 0)%nat) = 16384 /\ bm_current (section_at svb_bank (0, 0)%nat) = 2312.
Proof. by vm_compute. Qed.

Definition svb_boot_pages (r : sref) : Z := if decide (r = (0, 0)%nat) then 2312 else 0.

Lemma svb_bitmaps :
  forallb (fun r => boot_bitmap (bitmaps svb_bank) (bitmap (section_at svb_bank r))
    (nr_page (section_at svb_bank r)) (svb_boot_pages r) &&
    (nr_page (section_at svb_bank r) mod 32 =? 0)) svb_srefs = true.
Proof. by vm_compute. Qed.

Lemma svb_srefs_in r : used_sec svb_bank r -> List.In r svb_srefs.
Proof. intros [-> | [-> | ->]]%svb_used; simpl; tauto. Qed.

Lemma svb_bits r k : in_section svb_bank r k -> page_used svb_bank r k = true <-> svb_reserved r k.
Proof.
  intros [Hu Hk]. pose proof svb_bitmaps as B. rewrite forallb_forall in B.
  specialize (B r (svb_srefs_in r Hu)). apply andb_true_iff in B as [B1 B2%Z.eqb_eq].
  pose proof (geo_nr_small _ _ svb_wf Hu). unfold page_used.
  rewrite (boot_bitmap_spec _ _ _ _ k B1 B2) by lia. rewrite Z.ltb_lt.
  unfold svb_reserved, svb_boot_pages. destruct svb_nr_page as (_ & _ & _ & ->).
  case_decide; split; [intros; split; [done|lia]|lia|lia|tauto].
Qed.

Definition current_okb (s : mm_section) : bool :=
  (0 <=? bm_current s) && (bm_current s <? nr_page s - 1) && (0 <? vir_start s).

Lemma current_okb_spec s : current_okb s = true ->
  0 <= bm_current s /\ (bm_current s < nr_page s - 1 \/ bm_current s = 0) /\ 0 < vir_start s.
Proof. unfold current_okb. rewrite !andb_true_iff, Z.leb_le, !Z.ltb_lt. lia. Qed.

Lemma svb_currentsb : forallb (fun r => current_okb (section_at svb_bank r)) svb_srefs = true.
Proof. by vm_compute. Qed.

Lemma svb_currents r : used_sec svb_bank r ->
  let s := section_at svb_bank r in
  0 <= bm_current s /\ (bm_current s < nr_page s - 1 \/ bm_current s = 0) /\ 0 < vir_start s.
Proof.
  intros Hu. exact (current_okb_spec _ (proj1 (forallb_forall _ _) svb_currentsb r (svb_srefs_in r Hu))).
Qed.


Lemma frame_translate f off pv :
  0 <= off < 4194304 -> pv mod 4194304 = 0 ->
  u32 (f * 4194304 - pv) + off = u32 (f * 4194304 + off - pv).
Proof.
  intros Ho Hp. apply Z.mod_divide in Hp as [q ->]; [|lia]. unfold u32.
  replace (f * 4194304 - q * 4194304) with ((f - q) * 4194304) by lia.
  replace (f * 4194304 + off - q * 4194304) with (off + (f - q) * 4194304) by lia.
  change 4294967296 with (1024 * 4194304). Z.to_euclidean_division_equations; lia.
Qed.

(** Every 4M frame of a section, from the second one of the kernel on, has its page
    directory entry. *)
Definition frame_entered (m : gmap Z Z) (s : mm_section) (f : Z) : bool :=
  Z.land (rd m (KERNEL_VIRTUAL_BASE + 4 * f)) 0xffc00000 =? u32 (f * 4194304 - pv_offset s).

Definition frames_entered (m : gmap Z Z) (s : mm_section) : bool :=
  let lo := Z.max (vir_start s / 4194304) (KERNEL_VIRTUAL_BASE / 4194304 + 1) in
  let hi := (vir_start s + size s) / 4194304 in
  match zfirst (Z.to_nat (hi - lo)) lo (fun f => negb (frame_entered m s f)) with
  | None => ((vir_start s + size s) mod 4194304 =? 0) && (pv_offset s mod 4194304 =? 0)
  | Some _ => false
  end.

Lemma frames_entered_spec m s va :
  frames_entered m s = true -> vir_start s <= va < vir_start s + size s ->
  KERNEL_VIRTUAL_BASE + 4194304 <= va ->
  Z.land (rd m (KERNEL_VIRTUAL_BASE + 4 * (va / 4194304))) 0xffc00000 + va mod 4194304 =
  u32 (va - pv_offset s).
Proof.
  unfold frames_entered. destruct (zfirst _ _ _) eqn:E; [done|].
  intros [A1%Z.eqb_eq A2%Z.eqb_eq]%andb_true_iff Hva Hboot. set (f := va / 4194304).
  assert (vir_start s / 4194304 <= f) by (apply Z.div_le_mono; lia).
  assert (KERNEL_VIRTUAL_BASE / 4194304 + 1 <= f).
  { unfold f. change (KERNEL_VIRTUAL_BASE / 4194304 + 1) with ((KERNEL_VIRTUAL_BASE + 4194304) / 4194304).
    apply Z.div_le_mono; lia. }
  assert (f < (vir_start s + size s) / 4194304).
  { unfold f. apply Z.mod_divide in A1 as [q Eq]; [|lia]. rewrite Eq, Z.div_mul by lia.
    apply Z.div_lt_upper_bound; lia. }
  pose proof (zfirst_None _ _ _ E f ltac:(lia)) as Hf. apply negb_false_iff, Z.eqb_eq in Hf.
  rewrite Hf, frame_translate; [|apply Z.mod_pos_bound; lia|done].
  f_equal. pose proof (Z.div_mod va 4194304). unfold f. lia.
Qed.

Lemma svb_frames : forallb (fun r => frames_entered svb_pdes (section_at svb_bank r)) svb_srefs = true.
Proof. by vm_compute. Qed.

(** After [mm_init] on the SVB board, every address of a kernel or DMA section above
    the 4M that were mapped at boot is mapped by the page directory to the physical
    address the section's [pv_offset] gives. *)
Theorem svb_boot_mapped r va
    (Hr : used_sec svb_bank r)
    (Hva : vir_start (section_at svb_bank r) <= va <
           vir_start (section_at svb_bank r) + size (section_at svb_bank r))
    (Hboot : KERNEL_VIRTUAL_BASE + 4194304 <= va) :
  Z.land (rd svb_pdes (KERNEL_VIRTUAL_BASE + 4 * (va / 4194304))) 0xffc00000 + va mod 4194304 =
  u32 (va - pv_offset (section_at svb_bank r)).
Proof.
  exact (frames_entered_spec svb_pdes (section_at svb_bank r) va
    (proj1 (forallb_forall _ _) svb_frames r (svb_srefs_in r Hr)) Hva Hboot).
Qed.

Lemma svb_boot_mapped_witness :
  Z.land (rd svb_pdes (KERNEL_VIRTUAL_BASE + 4 * (0x80812345 / 4194304))) 0xffc00000 + 0x80812345 mod 4194304
  = u32 (0x80812345 - pv_offset (section_at svb_bank (0, 0)%nat)).
Proof. apply (svb_boot_mapped (0, 0)%nat 0x80812345); by vm_compute. Defined.

(** ** Memory that is not a multiple of 4M

    [build_kernel_pde_entry] refuses a size that is not a multiple of 4M and its
    callers ignore the answer. *)

Definition odd_info : soc_memory_info :=
  register_memory_region (SocInfo 0x80200000 0 []) 0x0 (66 * 1024 * 1024) NORMAL_MEM.

(** With 66M of memory the kernel section keeps 61.875M; none of it above the 4M
    mapped at boot is entered in the page directory, yet the allocator owns it: its
    pages are free and [get_free_pages] hands out an address that is not mapped. *)
Theorem odd_memory_not_mapped :
  match mm_init x86_mmu ∅ odd_info with
  | Ret (m, mm) =>
    match get_free_pages mm 1024 GFP_KERNEL with
    | Ret (_, a) => 0x80400000 < a + 1024 * 4096 /\
        rd m (KERNEL_VIRTUAL_BASE + 4 * ((a + 1023 * 4096) / 4194304)) = 0
    | _ => False
    end
  | _ => False
  end.
Proof. by vm_compute. Qed.
