(* ===== verification/Pgt.v ===== *)
(** * Task page tables (mm/pgt.c, include/os/pgt.h)

    The state is the page allocator, the memory that holds page directories and page
    tables (words at kernel virtual addresses) and the buffer of page directories.  A
    [struct task_page_table] is passed as a record; the list heads inside it are given
    by their addresses in the page lists of the allocator.  [pgt_lock] protects single
    operations and is not part of the state. *)

From S2P Require Import Prelude Bitops Dlist Mm Mmu MmInit.

Definition PROCESS_USER_MMAP_BASE : Z := 0x50000000.
Definition PROCESS_USER_MMAP_END : Z := 0x70000000.
Definition PGT_MAP_STACK : Z := 1.
Definition CONFIG_PGT_PDE_BUFFER_MIN : Z := 64.

Record pgt_buffer := PgtBuffer { pb_list : Z; pb_alloc_nr : Z; pb_nr_free : Z }.

Record pgst := Pgst { pg_mm : mm_bank; pg_mem : gmap Z Z; pg_buf : pgt_buffer }.

Record pte_cache_list := PteCacheList {
  pte_list : Z;
  pte_alloc_size : Z;
  pte_free_size : Z;
  pte_current_page : Z }.

Record task_page_table := TaskPageTable {
  pde_base : Z;
  pde_base_pa : Z;
  task_list : pte_cache_list;
  mmap_list : pte_cache_list;
  mmap_current_base : Z;
  tbuf_pte_base : Z;
  tbuf_pte_page : Z;
  tbuf_page_nr : Z }.

Definition set_mm (st : pgst) (mm : mm_bank) : pgst := Pgst mm (pg_mem st) (pg_buf st).
Definition set_mem (st : pgst) (m : gmap Z Z) : pgst := Pgst (pg_mm st) m (pg_buf st).
Definition set_buf (st : pgst) (alloc_nr nr_free : Z) : pgst :=
  Pgst (pg_mm st) (pg_mem st) (PgtBuffer (pb_list (pg_buf st)) alloc_nr nr_free).
Definition set_task_list (t : task_page_table) (c : pte_cache_list) : task_page_table :=
  TaskPageTable (pde_base t) (pde_base_pa t) c (mmap_list t) (mmap_current_base t) (tbuf_pte_base t)
    (tbuf_pte_page t) (tbuf_page_nr t).
Definition set_mmap_list (t : task_page_table) (c : pte_cache_list) : task_page_table :=
  TaskPageTable (pde_base t) (pde_base_pa t) (task_list t) c (mmap_current_base t) (tbuf_pte_base t)
    (tbuf_pte_page t) (tbuf_page_nr t).
Definition set_mmap_base (t : task_page_table) (b : Z) : task_page_table :=
  TaskPageTable (pde_base t) (pde_base_pa t) (task_list t) (mmap_list t) b (tbuf_pte_base t)
    (tbuf_pte_page t) (tbuf_page_nr t).

(** Reading a descriptor through a null pointer is a fault. *)
Definition page_va (st : pgst) (pg : Z) : outcome Z :=
  if pg =? 0 then Fault else mret (page_to_va (pg_mm st) pg).
Definition page_pa (st : pgst) (pg : Z) : outcome Z :=
  if pg =? 0 then Fault else mret (page_to_pa (pg_mm st) pg).

Section Pgt.
Context (u : mmu).

Definition alloc_new_pde (st : pgst) : outcome (pgst * Z) :=
  let b := pg_buf st in
  if pb_nr_free b =? 0 then
    '(mm, pg) ← get_free_pages_align (pg_mm st) (page_nr PDE_TABLE_SIZE) PDE_TABLE_ALIGN_SIZE GFP_PGT;
    let st := set_mm st mm in
    if pg =? 0 then mret (st, 0) else mret (set_buf st (pb_alloc_nr b + 1) (pb_nr_free b), pg)
  else
    let node := list_next (plists (pg_mm st)) (pb_list b) in
    let pg := list_to_page node in
    let st := set_mm st (set_pages (pg_mm st) (pages (pg_mm st)) (list_del (plists (pg_mm st)) node)) in
    mret (set_buf st (pb_alloc_nr b) (pb_nr_free b - 1), pg).

Definition release_pde (st : pgst) (base : Z) : outcome pgst :=
  let pg := va_to_page (pg_mm st) base in
  if pg =? 0 then Fault
  else
    let st := set_mm st (add_page_to_list_tail (pg_mm st) pg (pb_list (pg_buf st))) in
    mret (set_buf st (pb_alloc_nr (pg_buf st)) (pb_nr_free (pg_buf st) + 1)).

Definition init_pte_cache_list (st : pgst) (c : pte_cache_list) : pgst * pte_cache_list :=
  if negb (pte_alloc_size c =? 0)
  then (st, PteCacheList (pte_list c) (pte_alloc_size c) (pte_alloc_size c) (pte_list c))
  else (set_mm st (set_pages (pg_mm st) (pages (pg_mm st)) (init_list (plists (pg_mm st)) (pte_list c))),
        PteCacheList (pte_list c) 0 0 0).

Definition init_pte (st : pgst) (t : task_page_table) : pgst * task_page_table :=
  let '(st, c) := init_pte_cache_list st (task_list t) in
  let t := set_task_list t c in
  let '(st, c) := init_pte_cache_list st (mmap_list t) in
  (st, set_mmap_list t c).

Definition alloc_new_pte_page (st : pgst) (c : pte_cache_list) : outcome (pgst * pte_cache_list * Z) :=
  if pte_free_size c =? 0 then
    '(mm, pg) ← request_pages (pg_mm st) 1 GFP_PGT;
    let st := set_mm st mm in
    if pg =? 0 then mret (st, c, 0)
    else
      let st := set_mm st (add_page_to_list_tail (pg_mm st) pg (pte_list c)) in
      let c := PteCacheList (pte_list c) (pte_alloc_size c + PAGE_SIZE) (pte_free_size c)
                 (pte_current_page c) in
      va ← page_va st pg;
      mret (set_mem st (memset0 (pg_mem st) va PAGE_SIZE), c, pg)
  else
    let cur := list_next (plists (pg_mm st)) (pte_current_page c) in
    let pg := list_to_page cur in
    let c := PteCacheList (pte_list c) (pte_alloc_size c) (pte_free_size c - PAGE_SIZE) cur in
    va ← page_va st pg;
    mret (set_mem st (memset0 (pg_mem st) va PAGE_SIZE), c, pg).

Definition pgt_get_pde_entry_addr (base mbase : Z) : Z :=
  u32 (base + Z.shiftr mbase PDE_ENTRY_SHIFT * PDE_ENTRY_SIZE).
Definition pgt_get_pte_entry_addr (base mbase : Z) : Z :=
  u32 (base + Z.shiftr (mbase mod PDE_MAP_SIZE) PAGE_SHIFT * PTE_ENTRY_SIZE).

Definition pgt_get_pte_addr (st : pgst) (base map_address : Z) : outcome Z :=
  let pde := pgt_get_pde_entry_addr base map_address in
  let pte := mmu_pde_entry_to_pa u (pg_mem st) pde in
  if pte =? 0 then mret 0
  else
    va ← page_va st (pa_to_page (pg_mm st) pte);
    mret (pgt_get_pte_entry_addr va map_address).

Definition pgt_get_pte_page (st : pgst) (base mbase : Z) : Z :=
  let pde := pgt_get_pde_entry_addr base mbase in
  let pte := mmu_pde_entry_to_pa u (pg_mem st) pde in
  if pte =? 0 then 0 else pa_to_page (pg_mm st) pte.

Definition set_pinfo (mm : mm_bank) (pg info : Z) : mm_bank :=
  upd_page mm pg (fun p => Page (phy_address p) (map_address p) (pflag p) (pcount p) (u16 info) (pdata p)).

(** The loop over [PTE_TABLE_PER_PAGE] entries, on [pde], [pte_free_base], [user_base]. *)
Fixpoint new_pde_loop (n : nat) (m : gmap Z Z) (pde pte_free_base user_base : Z) : gmap Z Z * Z :=
  match n with
  | O => (m, user_base)
  | S n =>
    let m := mmu_create_pde_entry u m pde pte_free_base user_base in
    new_pde_loop n m (u32 (pde + PDE_ENTRY_SIZE)) (u32 (pte_free_base + PTE_TABLE_SIZE))
      (u32 (user_base + PDE_MAP_SIZE))
  end.

Definition pgt_map_new_pde_entry (st : pgst) (c : pte_cache_list) (pde_base user_address : Z)
  : outcome (pgst * pte_cache_list * Z) :=
  let user_base := min_align user_address MAP_SIZE_PER_PAGE in
  let pde := pgt_get_pde_entry_addr pde_base user_base in
  '(st, c, pg) ← alloc_new_pte_page st c;
  if pg =? 0 then mret (st, c, 0)
  else
    let pte_free_base := page_to_pa (pg_mm st) pg in
    let '(m, user_base) := new_pde_loop (Z.to_nat PTE_TABLE_PER_PAGE) (pg_mem st) pde pte_free_base user_base in
    let st := set_mem st m in
    let st := set_mm st (page_set_pdata (pg_mm st) pg user_base) in
    mret (set_mm st (set_pinfo (pg_mm st) pg 0), c, pg).

Definition pgt_get_mapped_pte_addr (st : pgst) (t : task_page_table) (map_address : Z)
  : outcome (pgst * task_page_table * Z) :=
  let pde := pgt_get_pde_entry_addr (pde_base t) map_address in
  let pte := mmu_pde_entry_to_pa u (pg_mem st) pde in
  if pte =? 0 then
    '(st, c, pg) ← pgt_map_new_pde_entry st (task_list t) (pde_base t) map_address;
    let t := set_task_list t c in
    if pg =? 0 then mret (st, t, 0)
    else
      va ← page_va st pg;
      mret (st, t, pgt_get_pte_entry_addr va map_address)
  else
    va ← page_va st (pa_to_page (pg_mm st) pte);
    mret (st, t, pgt_get_pte_entry_addr va map_address).

Definition __pgt_map_page (st : pgst) (t : task_page_table) (pg user_addr : Z)
  : outcome (pgst * task_page_table * Z) :=
  '(st, t, pte_addr) ← pgt_get_mapped_pte_addr st t user_addr;
  if pte_addr =? 0 then mret (st, t, - ENOMEM)
  else
    pa ← page_pa st pg;
    let st := set_mem st (mmu_create_pte_entry u (pg_mem st) pte_addr pa user_addr) in
    mret (set_mm st (page_set_map_address (pg_mm st) pg user_addr), t, 0).

Definition pgt_map_temp_page (st : pgst) (t : task_page_table) (pg : Z) : outcome (pgst * Z) :=
  pa ← page_pa st pg;
  mret (set_mem st (mmu_create_pte_entry u (pg_mem st) (tbuf_pte_base t) pa KERNEL_TEMP_BUFFER_BASE),
        KERNEL_TEMP_BUFFER_BASE).

Definition pgt_unmap_temp_page (st : pgst) (t : task_page_table) (base : Z) : Z := 0.

Definition pgt_map_task_page (st : pgst) (t : task_page_table) (pg user_addr : Z)
  : outcome (pgst * task_page_table * Z) := __pgt_map_page st t pg user_addr.

(** ** Mapping lists of pages *)

(** [while (list != mem_list)] on [list], [base], [pte], [pte_end]. *)
Fixpoint stack_loop (fuel : nat) (st : pgst) (t : task_page_table) (mem_list list base pte pte_end : Z)
  : outcome (pgst * task_page_table * Z) :=
  match fuel with
  | O => NoFuel
  | S fuel =>
    if list =? mem_list then mret (st, t, 0)
    else
      let base := u32 (base - PAGE_SIZE) in
      '(st, t, pte, pte_end, err) ←
        (if pte =? pte_end then
           '(st, t, pte) ← pgt_get_mapped_pte_addr st t base;
           if pte =? 0 then mret (st, t, pte, pte_end, true)
           else mret (st, t, pte,
             u32 (Z.land (u32 (pte - PTES_PER_PDE)) (lnot32 (PTES_PER_PDE - 1)) - 4), false)
         else mret (st, t, pte, pte_end, false));
      if (err : bool) then mret (st, t, - ENOMEM)
      else
        let pg := list_to_page list in
        pa ← page_pa st pg;
        let st := set_mem st (mmu_create_pte_entry u (pg_mem st) pte pa base) in
        let st := set_mm st (page_set_map_address (pg_mm st) pg base) in
        stack_loop fuel st t mem_list (list_next (plists (pg_mm st)) list) base (u32 (pte - 4)) pte_end
  end.

Definition pgt_map_stack_memory (fuel : nat) (st : pgst) (t : task_page_table) (mem_list map_base : Z)
  : outcome (pgst * task_page_table * Z) :=
  if map_base =? 0 then mret (st, t, - EINVAL)
  else stack_loop fuel st t mem_list (list_next (plists (pg_mm st)) mem_list) map_base 0 0.

(** The page table is looked up at [map_base] every time, not at [base]. *)
Fixpoint normal_loop (fuel : nat) (st : pgst) (t : task_page_table)
    (mem_list map_base list base pte pte_end : Z) : outcome (pgst * task_page_table * Z) :=
  match fuel with
  | O => NoFuel
  | S fuel =>
    if list =? mem_list then mret (st, t, 0)
    else
      '(st, t, pte, pte_end, err) ←
        (if pte =? pte_end then
           '(st, t, pte) ← pgt_get_mapped_pte_addr st t map_base;
           if pte =? 0 then mret (st, t, pte, pte_end, true)
           else mret (st, t, pte,
             Z.land (u32 (pte + PTES_PER_PDE)) (lnot32 (PTES_PER_PDE - 1)), false)
         else mret (st, t, pte, pte_end, false));
      if (err : bool) then mret (st, t, - ENOMEM)
      else
        let pg := list_to_page list in
        pa ← page_pa st pg;
        let st := set_mem st (mmu_create_pte_entry u (pg_mem st) pte pa base) in
        let st := set_mm st (page_set_map_address (pg_mm st) pg base) in
        normal_loop fuel st t mem_list map_base (list_next (plists (pg_mm st)) list)
          (u32 (base + PAGE_SIZE)) (u32 (pte + 4)) pte_end
  end.

Definition pgt_map_normal_memory (fuel : nat) (st : pgst) (t : task_page_table) (mem_list map_base : Z)
  : outcome (pgst * task_page_table * Z) :=
  if map_base =? 0 then mret (st, t, - EINVAL)
  else normal_loop fuel st t mem_list map_base (list_next (plists (pg_mm st)) mem_list) map_base 0 0.

Definition pgt_map_task_memory (fuel : nat) (st : pgst) (t : task_page_table) (mem_list map_base type : Z)
  : outcome (pgst * task_page_table * Z) :=
  if type =? PGT_MAP_STACK then pgt_map_stack_memory fuel st t mem_list map_base
  else pgt_map_normal_memory fuel st t mem_list map_base.

(** ** Creation and destruction *)

(** The list heads of the table keep their addresses when it is cleared. *)
Definition clear_table (t : task_page_table) : task_page_table :=
  TaskPageTable 0 0 (PteCacheList (pte_list (task_list t)) 0 0 0) (PteCacheList (pte_list (mmap_list t)) 0 0 0)
    0 0 0 0.

(** On failure of the temporary buffer, [release_pde(base)] is called with [base]
    still 0. *)
Definition init_task_page_table (st : pgst) (t : task_page_table) : outcome (pgst * task_page_table * Z) :=
  '(st, t, err) ←
    (if pde_base t =? 0 then
       let t := clear_table t in
       '(st, pg) ← alloc_new_pde st;
       if pg =? 0 then mret (st, t, - ENOMEM)
       else
         let t := TaskPageTable (page_to_va (pg_mm st) pg) (page_to_pa (pg_mm st) pg) (task_list t)
                    (mmap_list t) 0 0 0 0 in
         '(mm, tb) ← request_pages (pg_mm st) 1 GFP_PGT;
         let st := set_mm st mm in
         if tb =? 0 then (st ← release_pde st 0; mret (st, t, - ENOMEM))
         else mret (st, TaskPageTable (pde_base t) (pde_base_pa t) (task_list t) (mmap_list t) 0
                          (page_to_va (pg_mm st) tb) tb PTES_PER_PDE, 0)
     else mret (st, t, 0));
  if negb (err =? 0) then mret (st, t, err)
  else
    let st := set_mem st (mmu_copy_kernel_pde u (pg_mem st) (pde_base t)) in
    let '(st, t) := init_pte st t in
    let base := pgt_get_pde_entry_addr (pde_base t) KERNEL_TEMP_BUFFER_BASE in
    pa ← page_pa st (tbuf_pte_page t);
    let st := set_mem st (mmu_create_pde_entry u (pg_mem st) base pa KERNEL_TEMP_BUFFER_BASE) in
    mret (st, set_mmap_base t PROCESS_USER_MMAP_BASE, 0).

Definition free_task_page_table (fuel : nat) (st : pgst) (t : task_page_table)
  : outcome (pgst * task_page_table) :=
  st ← release_pde st (pde_base t);
  let t := TaskPageTable 0 (pde_base_pa t) (task_list t) (mmap_list t) (mmap_current_base t)
             (tbuf_pte_base t) (tbuf_pte_page t) (tbuf_page_nr t) in
  mm ← free_pages_on_list fuel (pg_mm st) (pte_list (task_list t));
  mm ← free_pages_on_list fuel mm (pte_list (mmap_list t));
  mret (set_mm st mm, t).

(** ** The mmap area *)

(** [while (1)] on [addr], [sum], [again]; [addr] changes only when it has reached the
    end of the table. *)
Fixpoint mmap_base_loop (fuel : nat) (m : gmap Z Z) (first ua temp page_nr : Z) (addr sum : Z) (again : bool)
  : option Z :=
  match fuel with
  | O => None
  | S fuel =>
    let free := rd m addr =? 0 in
    let sum := if free then sum + 1 else 0 in
    if free && (sum =? page_nr) then Some (u32 (addr - 4 * page_nr))
    else
      let '(addr, sum, again) := if addr =? ua then (first, 0, true) else (addr, sum, again) in
      if again && (addr =? temp) then Some 0
      else mmap_base_loop fuel m first ua temp page_nr addr sum again
  end.

Definition pgt_get_page_mmap_base (fuel : nat) (st : pgst) (pg page_nr : Z) : option Z :=
  let start := pinfo (page_at (pg_mm st) pg) in
  let ua := page_to_va (pg_mm st) pg in
  let addr := u32 (ua + 4 * start) in
  if PTES_PER_PDE - start <? page_nr then Some (u32 (- EINVAL))
  else mmap_base_loop fuel (pg_mem st) ua (u32 (ua + PAGE_SIZE)) addr page_nr addr 0 false.

Fixpoint new_mmap_loop (fuel : nat) (m : gmap Z Z) (pde_base temp user_base : Z) : option (option Z) :=
  match fuel with
  | O => None
  | S fuel =>
    if rd m (pgt_get_pde_entry_addr pde_base user_base) =? 0 then Some (Some user_base)
    else
      let user_base := u32 (user_base + PDE_MAP_SIZE) in
      let user_base := if user_base =? PROCESS_USER_MMAP_END then PROCESS_USER_MMAP_BASE else user_base in
      if user_base =? temp then Some None else new_mmap_loop fuel m pde_base temp user_base
  end.

(** The 512M of the area are 128 directory entries; one round needs no more steps. *)
Definition get_new_mmap_base (st : pgst) (t : task_page_table) : option (task_page_table * Z) :=
  r ← new_mmap_loop 128 (pg_mem st) (pde_base t) (mmap_current_base t) (mmap_current_base t);
  match r with
  | None => Some (t, 0)
  | Some user_base => Some (set_mmap_base t (u32 (user_base + PDE_MAP_SIZE)), user_base)
  end.

(** [ua > 0] on an unsigned value: any answer but 0 ends the search, [-EINVAL] too. *)
Fixpoint mmap_pages_loop (fuel : nat) (st : pgst) (head list page_nr : Z) : option Z :=
  match fuel with
  | O => None
  | S fuel =>
    if list =? head then Some 0
    else
      ua ← pgt_get_page_mmap_base fuel st (list_to_page list) page_nr;
      if negb (ua =? 0) then Some ua
      else mmap_pages_loop fuel st head (list_next (plists (pg_mm st)) list) page_nr
  end.

Definition pgt_get_mmap_base (fuel : nat) (st : pgst) (t : task_page_table) (page_nr : Z)
  : option (task_page_table * Z) :=
  let head := pte_list (mmap_list t) in
  ua ← mmap_pages_loop fuel st head (list_next (plists (pg_mm st)) head) page_nr;
  if negb (ua =? 0) then Some (t, ua) else get_new_mmap_base st t.

Fixpoint check_mmap_loop (n : nat) (st : pgst) (base start : Z) : outcome Z :=
  match n with
  | O => mret 0
  | S n =>
    pte_addr ← pgt_get_pte_addr st base start;
    if pte_addr =? 0 then Fault
    else if negb (rd (pg_mem st) pte_addr =? 0) then mret (- ENXIO)
    else check_mmap_loop n st base (u32 (start + PAGE_SIZE))
  end.

Definition pgt_check_mmap_addr (st : pgst) (t : task_page_table) (start nr : Z) : outcome Z :=
  if rd (pg_mem st) (pgt_get_pde_entry_addr (pde_base t) start) =? 0 then mret 0
  else check_mmap_loop (Z.to_nat nr) st (pde_base t) start.

Definition pgt_map_mmap_page (st : pgst) (t : task_page_table) (pg user_addr : Z)
  : outcome (pgst * task_page_table * Z) :=
  let pte_page := pgt_get_pte_page st (pde_base t) user_addr in
  '(st, t, pte_page) ←
    (if pte_page =? 0 then
       '(st, c, pte_page) ← pgt_map_new_pde_entry st (mmap_list t) (pde_base t) user_addr;
       mret (st, set_mmap_list t c, pte_page)
     else mret (st, t, pte_page));
  if pte_page =? 0 then mret (st, t, - ENOMEM)
  else
    let pte := pgt_get_pte_entry_addr (page_to_va (pg_mm st) pte_page) user_addr in
    let st := set_mm st (set_pinfo (pg_mm st) pte_page (pinfo (page_at (pg_mm st) pte_page) + 1)) in
    pa ← page_pa st pg;
    let st := set_mem st (mmu_create_pte_entry u (pg_mem st) pte pa user_addr) in
    mret (set_mm st (page_set_map_address (pg_mm st) pg user_addr), t, 0).

Definition pgt_unmap_mmap_page (st : pgst) (t : task_page_table) (base : Z) : pgst * Z :=
  let pte_page := pgt_get_pte_page st (pde_base t) base in
  if pte_page =? 0 then (st, 0)
  else
    let pte := pgt_get_pte_entry_addr (page_to_va (pg_mm st) pte_page) base in
    let pg := pa_to_page (pg_mm st) (mmu_pte_entry_to_pa u (pg_mem st) pte) in
    (set_mem st (mmu_clear_pte_entry u (pg_mem st) pte), pg).

Definition pgt_get_task_page (st : pgst) (t : task_page_table) (base : Z) : outcome Z :=
  pte ← pgt_get_pte_addr st (pde_base t) base;
  if pte =? 0 then mret 0
  else mret (pa_to_page (pg_mm st) (mmu_pte_entry_to_pa u (pg_mem st) pte)).

Fixpoint pgt_init_loop (n : nat) (st : pgst) : outcome pgst :=
  match n with
  | O => mret st
  | S n =>
    '(mm, pg) ← get_free_pages_align (pg_mm st) (page_nr PDE_TABLE_SIZE) PDE_TABLE_ALIGN_SIZE GFP_PGT;
    let st := set_mm st mm in
    if pg =? 0 then mret st
    else
      let st := set_mm st (add_page_to_list_tail (pg_mm st) pg (pb_list (pg_buf st))) in
      pgt_init_loop n (set_buf st (pb_alloc_nr (pg_buf st) + 1) (pb_nr_free (pg_buf st) + 1))
  end.

(** The boot page directory joins the buffer; more are allocated only where a
    directory needs more than page alignment. *)
Definition pgt_init (st : pgst) : outcome pgst :=
  let st := set_buf st 0 0 in
  let mm := pg_mm st in
  let st := set_mm st (set_pages mm (pages mm) (init_list (plists mm) (pb_list (pg_buf st)))) in
  let count := if PDE_TABLE_ALIGN_SIZE =? PAGE_SIZE then 0 else CONFIG_PGT_PDE_BUFFER_MIN in
  let pg := va_to_page (pg_mm st) (mmu_get_boot_pde u) in
  let st := if negb (pg =? 0) then
      set_buf (set_mm st (add_page_to_list_tail (pg_mm st) pg (pb_list (pg_buf st)))) 1 1
    else st in
  pgt_init_loop (Z.to_nat count) st.
End Pgt.
