(* ===== verification/PgtSpec.v ===== *)
(** * Correctness of task page tables (mm/pgt.c)

    [translate] is what the hardware walk finds for a user address.  Under the
    invariant [pgt_inv] (every page table of the directory is a live block of its own),
    mapping a page changes [translate] at that page and nowhere else. *)

From S2P Require Import Prelude Bitops Dlist Mm MmAlloc MmSpec Mmu MmInit Pgt.

(** Directory and table index of an address. *)
Definition pdi (va : Z) : Z := va / 4194304.
Definition pti (va : Z) : Z := va mod 4194304 / 4096.

Lemma pti_range va : 0 <= pti va < 1024.
Proof. unfold pti. Z.to_euclidean_division_equations; lia. Qed.

Lemma pdi_range va : 0 <= va < 2147483648 -> 0 <= pdi va < 512.
Proof. unfold pdi. Z.to_euclidean_division_equations; lia. Qed.

Lemma same_page va va' : va / 4096 = va' / 4096 <-> pdi va = pdi va' /\ pti va = pti va'.
Proof. unfold pdi, pti. Z.to_euclidean_division_equations; lia. Qed.

Lemma pde_addr_val base va :
  0 <= base -> base + 4096 <= 4294967296 -> 0 <= va < 4294967296 ->
  pgt_get_pde_entry_addr base va = base + 4 * pdi va.
Proof.
  intros. unfold pgt_get_pde_entry_addr, pdi, PDE_ENTRY_SHIFT, PDE_ENTRY_SIZE.
  rewrite Z.shiftr_div_pow2 by lia. change (2 ^ 22) with 4194304.
  rewrite u32_small; Z.to_euclidean_division_equations; lia.
Qed.

Lemma pte_addr_val base va :
  0 <= base -> base + 4096 <= 4294967296 -> pgt_get_pte_entry_addr base va = base + 4 * pti va.
Proof.
  intros. unfold pgt_get_pte_entry_addr, PDE_MAP_SIZE, PAGE_SHIFT, PTE_ENTRY_SIZE.
  rewrite Z.shiftr_div_pow2 by lia. change (2 ^ 12) with 4096. fold (pti va).
  pose proof (pti_range va). rewrite u32_small; lia.
Qed.

Section Spec.
Context (u : mmu) {L : MmuLaws (ops u)}.
Context (reserved : sref -> Z -> Prop).

Record pgt_inv (st : pgst) (t : task_page_table) (live : list block) (bp : block) (ptes : gmap Z block)
  : Prop := {
  pi_alloc : alloc_inv reserved (pg_mm st) live;
  pi_mapped : kernel_mapped (pg_mm st);
  pi_zero : forall r, used_sec (pg_mm st) r -> phy_start (section_at (pg_mm st) r) = 0 -> reserved r 0;
  pi_bp : bp ∈ live;
  pi_bp_zone : (b_sec bp).1 <> 3%nat;
  pi_base : pde_base t = block_va (pg_mm st) bp;
  pi_range : forall i b, ptes !! i = Some b -> 0 <= i < 512;
  pi_pte : forall i b, ptes !! i = Some b ->
    b ∈ live /\ (b_sec b).1 <> 3%nat /\ b <> bp /\ kernel_page (pg_mm st) b;
  pi_entry : forall i b, ptes !! i = Some b ->
    pte_pde_to_pa (ops u) (pg_mem st) (block_va (pg_mm st) bp + 4 * i) = block_pa (pg_mm st) b;
  pi_none : forall i, 0 <= i < 512 -> ptes !! i = None ->
    pte_pde_to_pa (ops u) (pg_mem st) (block_va (pg_mm st) bp + 4 * i) = 0;
  pi_inj : forall i j b, ptes !! i = Some b -> ptes !! j = Some b -> i = j }.

(** The walk: directory entry, page table, entry. *)
Definition translate (st : pgst) (t : task_page_table) (va : Z) : option Z :=
  let pte := mmu_pde_entry_to_pa u (pg_mem st) (pgt_get_pde_entry_addr (pde_base t) va) in
  if pte =? 0 then None
  else
    let a := pgt_get_pte_entry_addr (page_to_va (pg_mm st) (pa_to_page (pg_mm st) pte)) va in
    if rd (pg_mem st) a =? 0 then None else Some (mmu_pte_entry_to_pa u (pg_mem st) a).

(** The same through the invariant's map. *)
Definition entry_of (m : gmap Z Z) (mm : mm_bank) (ptes : gmap Z block) (va : Z) : option Z :=
  match ptes !! pdi va with
  | None => None
  | Some b =>
    let a := block_va mm b + 4 * pti va in
    if rd m a =? 0 then None else Some (pte_to_pa (ops u) m a)
  end.

(** A live page is not at physical address 0, which an entry cannot express. *)
Lemma pte_pa_nonzero st t live bp ptes b :
  pgt_inv st t live bp ptes -> b ∈ live -> block_pa (pg_mm st) b <> 0.
Proof.
  intros I Hb E. pose proof (pi_alloc _ _ _ _ _ I) as A.
  destruct (live_in_section _ _ _ A b Hb) as [Hu Hk].
  destruct (wf_geo _ (inv_wf _ _ _ A) _ Hu). simpl in *. unfold block_pa in E.
  assert (phy_start (section_at (pg_mm st) (b_sec b)) = 0 /\ b_base b = 0) as [E1 E2] by lia.
  pose proof (block_base_covered _ _ (inv_live _ _ _ A b Hb)) as [_ Hc]. rewrite E2 in Hc.
  apply (inv_reserved _ _ _ A b _ 0 Hb Hc). by apply (pi_zero _ _ _ _ _ I).
Qed.

Section Walk.
Context (st : pgst) (t : task_page_table) (live : list block) (bp : block) (ptes : gmap Z block).
Hypothesis I : pgt_inv st t live bp ptes.
Let mm := pg_mm st.
Let A : alloc_inv reserved mm live := pi_alloc _ _ _ _ _ I.

Lemma pde_entry va : 0 <= va < 2147483648 ->
  pgt_get_pde_entry_addr (pde_base t) va = block_va mm bp + 4 * pdi va.
Proof.
  intros Hva. destruct (live_va _ _ _ A bp (pi_bp _ _ _ _ _ I)) as (V1 & V2 & _).
  rewrite (pi_base _ _ _ _ _ I). apply pde_addr_val; fold mm; lia.
Qed.

Lemma pte_entry i b va : ptes !! i = Some b ->
  pgt_get_pte_entry_addr (page_to_va mm (block_page mm b)) va = block_va mm b + 4 * pti va /\
  block_va mm b + 4 * pti va <> 0.
Proof.
  intros Hb. destruct (pi_pte _ _ _ _ _ I i b Hb) as (Hl & Hz & Hne & Hk).
  destruct (live_va _ _ _ A b Hl) as (V1 & V2 & _). pose proof (pti_range va).
  rewrite (kernel_page_va _ _ _ _ A Hl Hk). split; [by apply pte_addr_val|].
  destruct (live_in_section _ _ _ A b Hl) as [Hu Hin].
  pose proof (pi_mapped _ _ _ _ _ I _ Hz Hu). unfold block_va, mm in *. lia.
Qed.

Lemma walk_none va : 0 <= va < 2147483648 -> ptes !! pdi va = None ->
  mmu_pde_entry_to_pa u (pg_mem st) (pgt_get_pde_entry_addr (pde_base t) va) = 0.
Proof.
  intros Hva Hn. rewrite pde_entry by done. apply (pi_none _ _ _ _ _ I); [|done].
  by apply pdi_range.
Qed.

Lemma walk_some va b : 0 <= va < 2147483648 -> ptes !! pdi va = Some b ->
  let pa := mmu_pde_entry_to_pa u (pg_mem st) (pgt_get_pde_entry_addr (pde_base t) va) in
  pa <> 0 /\ pa_to_page mm pa = block_page mm b /\ block_page mm b <> 0.
Proof.
  intros Hva Hb pa. assert (pa = block_pa mm b) as ->.
  { unfold pa. rewrite pde_entry by done. apply (pi_entry _ _ _ _ _ I _ _ Hb). }
  destruct (pi_pte _ _ _ _ _ I _ b Hb) as (Hl & _).
  split; [by eapply pte_pa_nonzero|]. split.
  - rewrite <- (Z.add_0_r (block_pa mm b)). by apply (live_pa_to_page _ _ _ A); [|lia].
  - destruct (list_elem_of_split _ _ Hl) as (l1 & l2 & El).
    eapply (block_page_nonzero reserved mm l1 b l2). by rewrite <- El.
Qed.

Lemma translate_entry va : 0 <= va < 2147483648 -> translate st t va = entry_of (pg_mem st) mm ptes va.
Proof.
  intros Hva. unfold translate, entry_of. destruct (ptes !! pdi va) as [b|] eqn:E.
  - destruct (walk_some va b Hva E) as (H1 & H2 & H3).
    destruct (Z.eqb_spec (mmu_pde_entry_to_pa u (pg_mem st)
      (pgt_get_pde_entry_addr (pde_base t) va)) 0); [done|].
    fold mm. rewrite H2. by rewrite (proj1 (pte_entry _ b va E)).
  - by rewrite walk_none.
Qed.

(** Writing an entry of a page table. *)
Section WriteEntry.
Context (i k pa : Z) (b : block).
Hypothesis Hb : ptes !! i = Some b.
Hypothesis Hk : 0 <= k < 1024.
Let a := block_va mm b + 4 * k.
Let m' := build_pte_entry (ops u) (pg_mem st) a pa 0.

Lemma table_word_apart j b' k' : ptes !! j = Some b' -> 0 <= k' < 1024 ->
  block_va mm b' + 4 * k' = a -> j = i /\ k' = k.
Proof.
  intros Hb' Hk' E. destruct (decide (b' = b)) as [->|Hne].
  - split; [by eapply (pi_inj _ _ _ _ _ I)|unfold a in E; lia].
  - destruct (pi_pte _ _ _ _ _ I _ _ Hb) as (Hl & Hz & _).
    destruct (pi_pte _ _ _ _ _ I _ _ Hb') as (Hl' & _).
    pose proof (live_va_apart _ _ _ A b b' Hl Hl' ltac:(congruence) Hz) as H.
    unfold ranges_apart, a in *. lia.
Qed.

Lemma directory_word_apart j : 0 <= j < 1024 -> block_va mm bp + 4 * j <> a.
Proof.
  intros Hj. destruct (pi_pte _ _ _ _ _ I _ _ Hb) as (Hl & Hz & Hne & _).
  pose proof (live_va_apart _ _ _ A b bp Hl (pi_bp _ _ _ _ _ I) Hne Hz) as H.
  unfold ranges_apart, a in *. lia.
Qed.

Lemma write_entry_inv : pgt_inv (set_mem st m') t live bp ptes.
Proof.
  pose proof I as [I1 Im I2 I3 I4 I5 I6 I7 I8 I9 I10]. split; simpl; try done.
  - intros j b' Hb'. rewrite <- (I8 j b' Hb'). apply law_read_pde, law_pte_frame.
    apply directory_word_apart. specialize (I6 j b' Hb'). lia.
  - intros j Hj Hn. rewrite <- (I9 j Hj Hn). apply law_read_pde, law_pte_frame.
    apply directory_word_apart. lia.
Qed.

Lemma write_entry_translate va : 0 <= pa < 4294967296 -> pa mod 4096 = 0 -> 
  entry_of m' mm ptes va =
  if decide (pdi va = i /\ pti va = k) then Some pa else entry_of (pg_mem st) mm ptes va.
Proof.
  intros Hpa Hal. unfold entry_of. case_decide as E.
  - destruct E as [-> ->]. rewrite Hb. fold a.
    destruct (Z.eqb_spec (rd m' a) 0) as [E|_]; [by destruct (law_pte_present (pg_mem st) a pa 0 ltac:(lia))|].
    unfold m'. by rewrite law_pte.
  - destruct (ptes !! pdi va) as [b'|] eqn:Eb; [|done].
    assert (block_va mm b' + 4 * pti va <> a) as Hne.
    { intros Ea. apply E. by apply (table_word_apart _ b'); [|apply pti_range|]. }
    assert (rd m' (block_va mm b' + 4 * pti va) = rd (pg_mem st) (block_va mm b' + 4 * pti va)) as Er
      by by apply law_pte_frame.
    rewrite Er. by rewrite (law_read_pte m' (pg_mem st)).
Qed.
End WriteEntry.

(** Changing descriptors, but no kernel address of a page table. *)
Lemma soft_pgt mm' : soft mm mm' ->
  (forall i b, ptes !! i = Some b -> map_address (page_at mm' (block_page mm b)) = block_va mm b) ->
  pgt_inv (set_mm st mm') t live bp ptes.
Proof.
  intros S Hkeep. pose proof (fun r => soft_section _ _ r S) as Hs.
  assert (forall b, block_va mm' b = block_va mm b) as Ev by (intros b; unfold block_va; by rewrite Hs).
  assert (forall b, block_page mm' b = block_page mm b) as Ep by (intros b; unfold block_page; by rewrite Hs).
  assert (forall b, block_pa mm' b = block_pa mm b) as Epa by (intros b; unfold block_pa; by rewrite Hs).
  assert (same_layout mm mm') as HL by (apply same_layout_zones; apply S).
  pose proof I as [I1 Im I2 I3 I4 I5 I6 I7 I8 I9 I10]. split; simpl; try done.
  - by eapply soft_inv.
  - intros r Hz Hu. rewrite Hs. apply Im; [done|]. by apply (used_sec_layout _ _ _ HL).
  - intros r Hu. rewrite Hs. apply I2. by apply (used_sec_layout _ _ _ HL).
  - by rewrite Ev.
  - intros i b Hb. destruct (I7 i b Hb) as (? & ? & ? & ?). split_and!; try done.
    unfold kernel_page. rewrite Ep, Ev. by eapply Hkeep.
  - intros i b Hb. rewrite Ev, Epa. by apply I8.
  - intros i Hi Hn. rewrite Ev. by apply I9.
Qed.
End Walk.

Lemma entry_of_soft m mm mm' ptes va : soft mm mm' -> entry_of m mm' ptes va = entry_of m mm ptes va.
Proof.
  intros S. unfold entry_of. destruct (ptes !! pdi va) as [b|]; [|done].
  unfold block_va. by rewrite (soft_section _ _ _ S).
Qed.

(** ** A new page table *)

Section Extend.
Context (st : pgst) (t : task_page_table) (live : list block) (bp : block) (ptes : gmap Z block).
Hypothesis I : pgt_inv st t live bp ptes.
Context (mm' : mm_bank) (b : block) (i : Z).
Hypothesis Hlay : same_layout (pg_mm st) mm'.
Hypothesis Halloc : alloc_inv reserved mm' (b :: live).
Hypothesis Hzone : (b_sec b).1 <> 3%nat.
Hypothesis Hkern : kernel_page mm' b.
Hypothesis Hfresh : b ∉ live.
Hypothesis Hkeep : forall b', b' ∈ live ->
  map_address (page_at mm' (block_page (pg_mm st) b')) = map_address (page_at (pg_mm st) (block_page (pg_mm st) b')).
Hypothesis Hi : 0 <= i < 512.
Hypothesis Hnone : ptes !! i = None.

Let mm := pg_mm st.
Let m1 := memset0 (pg_mem st) (block_va mm b) 4096.
Let m2 := build_pte_pde_entry (ops u) m1 (block_va mm bp + 4 * i) (block_pa mm b) 0.

(** Words of other live pages are not touched. *)
Lemma fresh_apart b' w : b' ∈ live -> 0 <= w < 4096 ->
  forall k, 0 <= k < 4096 / 4 -> block_va mm b' + w <> block_va mm b + 4 * k.
Proof.
  intros Hb' Hw k Hk. change (4096 / 4) with 1024 in Hk.
  pose proof (live_va_apart _ _ _ Halloc b b' ltac:(set_solver) ltac:(set_solver)
    ltac:(intros ->; done) Hzone) as H. unfold ranges_apart in H.
  rewrite !(proj1 (block_layout _ _ _ Hlay)) in H. fold mm in H. lia.
Qed.

Lemma directory_entry j : 0 <= j < 512 ->
  pte_pde_to_pa (ops u) m2 (block_va mm bp + 4 * j) =
  if decide (j = i) then block_pa mm b else pte_pde_to_pa (ops u) (pg_mem st) (block_va mm bp + 4 * j).
Proof.
  intros Hj. case_decide as E.
  - subst j. unfold m2. destruct (live_pa _ _ _ Halloc b ltac:(set_solver)) as (P1 & P2 & P3).
    rewrite (proj1 (proj2 (block_layout _ _ b Hlay))) in P1, P2, P3. fold mm in P1, P2, P3. apply law_pde; [lia|done].
  - apply law_read_pde. unfold m2. rewrite law_pde_frame by lia. unfold m1.
    apply rd_memset0_other. apply fresh_apart; [apply (pi_bp _ _ _ _ _ I)|lia].
Qed.

Lemma table_entry_old j b' k : ptes !! j = Some b' -> 0 <= k < 1024 ->
  rd m2 (block_va mm b' + 4 * k) = rd (pg_mem st) (block_va mm b' + 4 * k).
Proof.
  intros Hb' Hk. destruct (pi_pte _ _ _ _ _ I _ _ Hb') as (Hl & _ & Hne & _). unfold m2.
  rewrite law_pde_frame.
  - apply rd_memset0_other, fresh_apart; [done|lia].
  - pose proof (live_va_apart _ _ _ (pi_alloc _ _ _ _ _ I) bp b' (pi_bp _ _ _ _ _ I) Hl
      ltac:(congruence) (pi_bp_zone _ _ _ _ _ I)) as H. unfold ranges_apart in H. fold mm in H. lia.
Qed.

Lemma table_entry_new k : 0 <= k < 1024 -> rd m2 (block_va mm b + 4 * k) = 0.
Proof.
  intros Hk. unfold m2. rewrite law_pde_frame.
  - apply rd_memset0; [lia|]. change (4096 / 4) with 1024. by exists k.
  - pose proof (fresh_apart bp (4 * i) (pi_bp _ _ _ _ _ I) ltac:(lia) k ltac:(by change (4096 / 4) with 1024)).
    lia.
Qed.

Lemma extend_inv : pgt_inv (Pgst mm' m2 (pg_buf st)) t (b :: live) bp (<[i := b]> ptes).
Proof.
  pose proof (fun x => block_layout _ _ x Hlay) as Hbl.
  pose proof I as [I1 Im I2 I3 I4 I5 I6 I7 I8 I9 I10]. split; simpl; try done.
  - intros r Hz Hu. destruct (layout_fields _ _ r Hlay) as (_ & -> & _). apply Im; [done|].
    by apply (used_sec_layout _ _ _ Hlay).
  - intros r Hu. destruct (layout_fields _ _ r Hlay) as (-> & _). apply I2.
    by apply (used_sec_layout _ _ _ Hlay).
  - set_solver.
  - by rewrite (proj1 (Hbl bp)).
  - intros j b' [[<- <-]|[_ Hb']]%lookup_insert_Some; [done|eauto].
  - intros j b' [[<- <-]|[_ Hb']]%lookup_insert_Some.
    + split_and!; [set_solver|done|intros ->; done|done].
    + destruct (I7 j b' Hb') as (Hl & ? & ? & Hk). split_and!; [set_solver|done|done|].
      destruct (Hbl b') as (E1 & _ & E3). unfold kernel_page. rewrite E1, E3, (Hkeep b' Hl). exact Hk.
  - intros j b' [[<- <-]|[Hne Hb']]%lookup_insert_Some; rewrite (proj1 (Hbl bp)), (proj1 (proj2 (Hbl _))).
    + rewrite directory_entry by done. by rewrite decide_True.
    + rewrite directory_entry by (by eapply I6). rewrite decide_False by congruence. by apply I8.
  - intros j Hj [Hn Hne]%lookup_insert_None. rewrite (proj1 (Hbl bp)), directory_entry by done.
    rewrite decide_False by congruence. by apply I9.
  - intros j k b' [[E1 E2]|[Hne Hb']]%lookup_insert_Some [[E3 E4]|[Hne' Hb'']]%lookup_insert_Some.
    + congruence.
    + subst b'. by destruct (I7 k b Hb'').
    + subst b'. by destruct (I7 j b Hb').
    + by eapply I10.
Qed.

Lemma extend_entry va : entry_of m2 mm' (<[i := b]> ptes) va = entry_of (pg_mem st) mm ptes va.
Proof.
  unfold entry_of. pose proof (pti_range va). destruct (decide (i = pdi va)) as [<-|Hne].
  - rewrite lookup_insert_eq, Hnone. rewrite (proj1 (block_layout _ _ b Hlay)). fold mm.
    by rewrite table_entry_new.
  - rewrite lookup_insert_ne by done. destruct (ptes !! pdi va) as [b'|] eqn:E; [|done].
    rewrite (proj1 (block_layout _ _ b' Hlay)). fold mm.
    rewrite (table_entry_old _ b' (pti va) E) by done.
    by rewrite (law_read_pte m2 (pg_mem st)) by by eapply table_entry_old.
Qed.
End Extend.

(** ** Getting a page for a page table *)

(** The descriptor bookkeeping of [pgt_map_new_pde_entry]. *)
Definition note_table (mm : mm_bank) (pg data : Z) : mm_bank :=
  set_pinfo (page_set_pdata mm pg data) pg 0.

Lemma note_table_soft mm pg data :
  soft mm (note_table mm pg data) /\
  forall a, map_address (page_at (note_table mm pg data) a) = map_address (page_at mm a).
Proof.
  unfold note_table. split.
  - etrans; by apply soft_upd_page.
  - intros a. unfold set_pinfo, page_set_pdata. rewrite !page_at_upd. repeat case_decide; by subst.
Qed.

Lemma pdi_floor va : pdi (min_align va 4194304) = pdi va.
Proof.
  change 4194304 with (2 ^ 22) at 1. rewrite min_align_spec by lia. unfold pdi.
  change (2 ^ 22) with 4194304. Z.to_euclidean_division_equations; lia.
Qed.

Lemma floor_range va : 0 <= va < 2147483648 -> 0 <= min_align va 4194304 < 2147483648.
Proof.
  intros. change 4194304 with (2 ^ 22). rewrite min_align_spec by lia.
  change (2 ^ 22) with 4194304. Z.to_euclidean_division_equations; lia.
Qed.

(** The node [n], new or not, was put at the end of the list of [head]. *)
Definition queued (mm mm' : mm_bank) (head n : Z) : Prop :=
  exists h, (forall a, a <> n -> lnext h a = lnext (plists mm) a /\ lpre h a = lpre (plists mm) a) /\
    plists mm' = list_add_tail h head n.

Definition same_cache (c c' : pte_cache_list) : Prop := pte_list c' = pte_list c /\ pte_free_size c' = pte_free_size c.

Lemma alloc_new_pte_page_spec st live c :
  alloc_inv reserved (pg_mm st) live -> start_ok (pg_mm st) -> pte_free_size c = 0 ->
  exists st' c' pg, alloc_new_pte_page st c = Ret (st', c', pg) /\ pg_buf st' = pg_buf st /\ same_cache c c' /\
    ((pg = 0 /\ pg_mem st' = pg_mem st /\ quiet (pg_mm st) (pg_mm st')) \/
     exists b mm1, pg = block_page mm1 b /\ pg <> 0 /\ new_page_ok reserved (pg_mm st) mm1 live b /\
       soft mm1 (pg_mm st') /\ pages (pg_mm st') = pages mm1 /\
       queued (pg_mm st) (pg_mm st') (pte_list c) (node (pg_mm st) b) /\
       pg_mem st' = memset0 (pg_mem st) (block_va mm1 b) 4096).
Proof.
  intros A Hst Hc. unfold alloc_new_pte_page. rewrite Hc. change (0 =? 0) with true. cbv iota.
  destruct (request_kernel_page reserved (pg_mm st) live 1 GFP_PGT A Hst)
    as (mm1 & pg & -> & [[-> Q]|(b & Hc1 & -> & Hne & N)]); [lia|by vm_compute|by vm_compute| |];
    rewrite Ret_bind; cbv beta iota.
  { eexists _, _, _. split; [done|]. split; [done|]. split; [done|]. by left. }
  destruct (Z.eqb_spec (block_page mm1 b) 0); [done|].
  unfold page_va. destruct (Z.eqb_spec (block_page mm1 b) 0); [done|]. rewrite ret_bind.
  eexists _, _, _. split; [done|]. split; [done|]. split; [done|]. right. exists b, mm1.
  destruct (block_layout _ _ b (np_layout _ _ _ _ _ N)) as (_ & _ & Epg).
  split_and!; try done; [|simpl; f_equal].
  { exists (plists mm1). split; [|simpl; unfold node; by rewrite Epg]. intros a Ha. by apply (np_nodes _ _ _ _ _ N Hc1). }
  exact (kernel_page_va reserved mm1 (b :: live) b (np_alloc _ _ _ _ _ N) ltac:(left) (np_kernel _ _ _ _ _ N)).
Qed.

Lemma new_pde_entry_spec st t live bp ptes c va :
  pgt_inv st t live bp ptes -> start_ok (pg_mm st) -> pte_free_size c = 0 ->
  0 <= va < 2147483648 -> ptes !! pdi va = None ->
  exists st' c' pg, pgt_map_new_pde_entry u st c (pde_base t) va = Ret (st', c', pg) /\ same_cache c c' /\
    ((pg = 0 /\ pg_mem st' = pg_mem st /\ quiet (pg_mm st) (pg_mm st')) \/
     exists b, pg = block_page (pg_mm st') b /\ pg <> 0 /\ b ∉ live /\ 
       same_layout (pg_mm st) (pg_mm st') /\
       pgt_inv st' t (b :: live) bp (<[pdi va := b]> ptes) /\
       queued (pg_mm st) (pg_mm st') (pte_list c) (node (pg_mm st) b) /\ (sealed (pg_mm st) -> sealed (pg_mm st')) /\
       forall va', entry_of (pg_mem st') (pg_mm st') (<[pdi va := b]> ptes) va' =
                  entry_of (pg_mem st) (pg_mm st) ptes va').
Proof.
  intros I Hst Hc Hva Hn. pose proof (pi_alloc _ _ _ _ _ I) as A. unfold pgt_map_new_pde_entry.
  destruct (alloc_new_pte_page_spec st live c A Hst Hc)
    as (st1 & c1 & pg & -> & Eb & Ec & [(-> & Em & Q)|(b & mm1 & Epg & Hne & N & S1 & Ep & Hq & Em)]);
    rewrite Ret_bind; cbv beta iota.
  { eexists _, _, _. split; [done|]. split; [done|]. by left. }
  rewrite (proj2 (Z.eqb_neq pg 0) Hne).
  assert (page_to_pa (pg_mm st1) pg = block_pa mm1 b) as Epa.
  { rewrite <- (live_page_to_pa _ _ _ (np_alloc _ _ _ _ _ N) b) by left.
    unfold page_to_pa, page_at. by rewrite Ep, Epg. }
  change (Z.to_nat PTE_TABLE_PER_PAGE) with 1%nat. cbn [new_pde_loop]. rewrite Epa, Em.
  eexists _, _, _. split; [done|]. split; [done|]. right. exists b. cbn [pg_mm pg_mem pg_buf set_mm set_mem].
  set (data := u32 (min_align va MAP_SIZE_PER_PAGE + PDE_MAP_SIZE)).
  fold (note_table (pg_mm st1) pg data). set (mm2 := note_table _ _ _).
  destruct (note_table_soft (pg_mm st1) pg data) as [S2 M2]. fold mm2 in S2, M2.
  destruct (new_page_soft _ _ _ mm2 _ _ N ltac:(by etrans)) as (L2 & A2 & K2 & Keep2).
  { intros a. rewrite M2. unfold page_at. by rewrite Ep. }
  destruct (block_layout _ _ b (np_layout _ _ _ _ _ N)) as (B1 & B2 & B4).
  destruct (block_layout _ _ b L2) as (_ & _ & B3).
  unfold MAP_SIZE_PER_PAGE. rewrite B1, B2.
  rewrite (pde_entry st t live bp ptes I) by (by apply floor_range). rewrite pdi_floor.
  split_and!; [by rewrite B3, Epg, B4|done|apply N|done| |exact Hq|
    intros Hs; apply (sealed_soft (pg_mm st1)); [done|]; apply (sealed_soft mm1); [done|]; by apply N|].
  - unfold set_mm, set_mem. cbn [pg_buf pg_mem pg_mm]. rewrite Eb.
    by apply (extend_inv st t live bp ptes I mm2 b (pdi va) L2 A2 (np_zone _ _ _ _ _ N) K2
      (np_fresh _ _ _ _ _ N) Keep2 (pdi_range _ Hva)).
  - intros va'. by apply (extend_entry st t live bp ptes I mm2 b (pdi va) L2 A2 (np_zone _ _ _ _ _ N) K2
      (np_fresh _ _ _ _ _ N) Keep2 (pdi_range _ Hva)).
Qed.

(** ** Mapping a page *)

(** A page that is live and not used by the page table itself. *)
Definition user_page (live : list block) (bp : block) (ptes : gmap Z block) (bx : block) : Prop :=
  bx ∈ live /\ bx <> bp /\ forall i, ptes !! i <> Some bx.

(** The common tail of the mapping functions: write the entry, note the address. *)
Definition enter_page (st : pgst) (a pa pg va : Z) : pgst :=
  let st := set_mem st (mmu_create_pte_entry u (pg_mem st) a pa va) in
  set_mm st (page_set_map_address (pg_mm st) pg va).

Lemma enter_page_spec st t live bp ptes b bx va :
  pgt_inv st t live bp ptes -> 0 <= va < 2147483648 -> ptes !! pdi va = Some b ->
  user_page live bp ptes bx ->
  let st' := enter_page st (block_va (pg_mm st) b + 4 * pti va) (block_pa (pg_mm st) bx)
               (block_page (pg_mm st) bx) va in
  pgt_inv st' t live bp ptes /\
  forall va', 0 <= va' < 2147483648 -> translate st' t va' =
    if decide (va' / 4096 = va / 4096) then Some (block_pa (pg_mm st) bx) else translate st t va'.
Proof.
  intros I Hva Hb (Hx & Hxbp & Hxp) st'. pose proof (pi_alloc _ _ _ _ _ I) as A.
  set (m' := build_pte_entry (ops u) (pg_mem st) (block_va (pg_mm st) b + 4 * pti va)
    (block_pa (pg_mm st) bx) 0).
  pose proof (write_entry_inv st t live bp ptes I (pdi va) (pti va) (block_pa (pg_mm st) bx) b Hb
    (pti_range va)) as I1.
  set (mm' := page_set_map_address (pg_mm st) (block_page (pg_mm st) bx) va).
  assert (soft (pg_mm st) mm') as S by by apply soft_upd_page.
  assert (pgt_inv st' t live bp ptes) as I2.
  { apply (soft_pgt _ t live bp ptes I1 mm' S). intros i b' Hb'.
    destruct (pi_pte _ _ _ _ _ I1 i b' Hb') as (Hl & _ & _ & Hk). cbn [set_mem pg_mm] in *.
    pose proof (live_page_inj _ _ _ A bx b' Hx Hl ltac:(intros ->; by eapply Hxp)) as Hp.
    unfold mm', page_set_map_address. rewrite page_at_upd, decide_False; [done|].
    unfold ranges_apart in Hp. lia. }
  split; [done|]. intros va' Hva'.
  rewrite (translate_entry st' t live bp ptes I2 va' Hva'), (translate_entry st t live bp ptes I va' Hva').
  change (pg_mm st') with mm'. change (pg_mem st') with m'. rewrite (entry_of_soft _ _ _ _ _ S).
  destruct (live_pa _ _ _ A bx Hx) as (P1 & P2 & P3).
  unfold m'. rewrite (write_entry_translate st t live bp ptes I (pdi va) (pti va) _ b Hb (pti_range va))
    by (try done; lia).
  apply decide_ext. rewrite same_page. tauto.
Qed.

Definition same_table (t t' : task_page_table) : Prop :=
  pde_base t' = pde_base t /\ same_cache (task_list t) (task_list t') /\ same_cache (mmap_list t) (mmap_list t') /\
  tbuf_pte_base t' = tbuf_pte_base t /\ tbuf_pte_page t' = tbuf_pte_page t.

(** [pgt_get_mapped_pte_addr]: the entry of the address, in a page table that may be new;
    nothing is mapped differently. *)
Lemma mapped_pte_addr_spec st t live bp ptes va :
  pgt_inv st t live bp ptes -> start_ok (pg_mm st) -> pte_free_size (task_list t) = 0 ->
  0 <= va < 2147483648 ->
  exists st' t' a, pgt_get_mapped_pte_addr u st t va = Ret (st', t', a) /\ same_table t t' /\
    ((a = 0 /\ pg_mem st' = pg_mem st /\ quiet (pg_mm st) (pg_mm st')) \/
     exists live' ptes' b, pgt_inv st' t live' bp ptes' /\ ptes' !! pdi va = Some b /\
       a = block_va (pg_mm st') b + 4 * pti va /\ a <> 0 /\
       same_layout (pg_mm st) (pg_mm st') /\
       (forall bx, user_page live bp ptes bx -> user_page live' bp ptes' bx) /\
       ((live' = live /\ st' = st) \/ exists b, live' = b :: live /\ b ∉ live /\
          queued (pg_mm st) (pg_mm st') (pte_list (task_list t)) (node (pg_mm st) b)) /\
       (sealed (pg_mm st) -> sealed (pg_mm st')) /\
       forall va', entry_of (pg_mem st') (pg_mm st') ptes' va' = entry_of (pg_mem st) (pg_mm st) ptes va').
Proof.
  intros I Hst Hc Hva. unfold pgt_get_mapped_pte_addr.
  destruct (ptes !! pdi va) as [b|] eqn:Eb.
  - destruct (walk_some st t live bp ptes I va b Hva Eb) as (H1 & H2 & H3).
    destruct (Z.eqb_spec (mmu_pde_entry_to_pa u (pg_mem st)
      (pgt_get_pde_entry_addr (pde_base t) va)) 0); [done|].
    rewrite H2. unfold page_va. destruct (Z.eqb_spec (block_page (pg_mm st) b) 0); [done|].
    rewrite ret_bind. eexists _, _, _. split; [done|]. split; [done|]. right.
    destruct (pte_entry st t live bp ptes I _ b va Eb) as [E1 E2].
    exists live, ptes, b. rewrite E1. split_and!; try done. by left.
  - rewrite (walk_none st t live bp ptes I va Hva Eb). change (0 =? 0) with true. cbv iota.
    destruct (new_pde_entry_spec st t live bp ptes (task_list t) va I Hst Hc Hva Eb)
      as (st1 & c1 & pg & -> & Ec & [(-> & Em & Q)|(b & -> & Hne & Hfr & HL & I1 & Hq & Hsl & He)]);
      rewrite Ret_bind; cbv beta iota.
    { eexists _, _, _. split; [done|]. split; [done|]. by left. }
    destruct (Z.eqb_spec (block_page (pg_mm st1) b) 0); [done|].
    unfold page_va. destruct (Z.eqb_spec (block_page (pg_mm st1) b) 0); [done|].
    rewrite ret_bind. eexists _, _, _. split; [done|]. split; [done|]. right.
    assert (<[pdi va := b]> ptes !! pdi va = Some b) as El by apply lookup_insert_eq.
    destruct (pte_entry st1 t _ bp _ I1 _ b va El) as [E1 E2].
    exists (b :: live), (<[pdi va := b]> ptes), b. rewrite E1. split_and!; try done; [|by right; exists b].
    intros bx (Hx & Hxbp & Hxp). split; [by right|]. split; [done|].
    intros i [[_ ->]|[_ Hi]]%lookup_insert_Some; [done|by eapply Hxp].
Qed.

(** Only [pde_base] of the table matters, and quiet changes of the allocator do not. *)
Lemma quiet_pgt st st' t t' live bp ptes :
  pgt_inv st t live bp ptes -> pde_base t' = pde_base t -> pg_mem st' = pg_mem st ->
  quiet (pg_mm st) (pg_mm st') -> pgt_inv st' t' live bp ptes.
Proof.
  intros [I1 Im I2 I3 I4 I5 I6 I7 I8 I9 I10] Et Em Q. destruct (q_layout _ _ Q) as [HG _ _ _].
  pose proof (q_section _ _ Q) as Hs. pose proof (q_layout _ _ Q) as HL.
  pose proof (fun x => block_layout _ _ x HL) as Hbl. split; try done.
  - by eapply quiet_inv.
  - intros r Hz Hu. rewrite Hs. apply Im; [done|]. by apply (used_sec_layout _ _ _ HL).
  - intros r Hu. rewrite Hs. apply I2. by apply (used_sec_layout _ _ _ HL).
  - by rewrite (proj1 (Hbl bp)), Et.
  - intros i b Hb. destruct (I7 i b Hb) as (? & ? & ? & Hk). split_and!; try done.
    unfold kernel_page, page_at in *. destruct (Hbl b) as (-> & _ & ->). by rewrite (q_pages _ _ Q).
  - intros i b Hb. rewrite Em. destruct (Hbl b) as (_ & -> & _). rewrite (proj1 (Hbl bp)). by apply I8.
  - intros i Hi Hn. rewrite Em, (proj1 (Hbl bp)). by apply I9.
Qed.

Lemma entry_of_layout m mm mm' ptes va : same_layout mm mm' -> entry_of m mm' ptes va = entry_of m mm ptes va.
Proof.
  intros HL. unfold entry_of. destruct (ptes !! pdi va) as [b|]; [|done].
  by rewrite (proj1 (block_layout _ _ b HL)).
Qed.

(** The lookup by address finds the page behind the translation. *)
Lemma get_task_page_spec st t live bp ptes va pa :
  pgt_inv st t live bp ptes -> 0 <= va < 2147483648 -> translate st t va = Some pa ->
  pgt_get_task_page u st t va = Ret (pa_to_page (pg_mm st) pa).
Proof.
  intros I Hva Ht. rewrite (translate_entry st t live bp ptes I va Hva) in Ht. unfold entry_of in Ht.
  destruct (ptes !! pdi va) as [b|] eqn:Eb; [|done].
  destruct (walk_some st t live bp ptes I va b Hva Eb) as (H1 & H2 & H3).
  destruct (pte_entry st t live bp ptes I _ b va Eb) as [E1 E2].
  unfold pgt_get_task_page, pgt_get_pte_addr.
  destruct (Z.eqb_spec (mmu_pde_entry_to_pa u (pg_mem st)
    (pgt_get_pde_entry_addr (pde_base t) va)) 0); [done|].
  rewrite H2. unfold page_va. destruct (Z.eqb_spec (block_page (pg_mm st) b) 0); [done|].
  rewrite !ret_bind, E1. destruct (Z.eqb_spec (block_va (pg_mm st) b + 4 * pti va) 0); [done|].
  destruct (_ =? 0) in Ht; [done|]. by injection Ht as <-.
Qed.
End Spec.

(** Mapping a live page at a user address, in a table whose page tables are live
    blocks of their own, either fails for want of a page and changes no translation, or
    makes the address translate to the page and leaves the translation of every other
    user page as it was; the invariant is kept and the page is found again by
    [pgt_get_task_page]. *)
Theorem pgt_map_task_page_correct u (HL : MmuLaws (ops u)) reserved st t live bp ptes bx va
    (Hinv : pgt_inv u reserved st t live bp ptes) (Hstart : start_ok (pg_mm st))
    (Hcache : pte_free_size (task_list t) = 0)
    (Hva : 0 <= va < 2147483648) (Hpage : user_page live bp ptes bx) :
  exists st' t' ret live' ptes',
    pgt_map_task_page u st t (block_page (pg_mm st) bx) va = Ret (st', t', ret) /\
    pgt_inv u reserved st' t' live' bp ptes' /\
    ((ret = - ENOMEM /\ forall va', 0 <= va' < 2147483648 -> translate u st' t' va' = translate u st t va') \/
     (ret = 0 /\ pgt_get_task_page u st' t' va = Ret (block_page (pg_mm st) bx) /\
      forall va', 0 <= va' < 2147483648 -> translate u st' t' va' =
        if decide (va' / 4096 = va / 4096) then Some (block_pa (pg_mm st) bx) else translate u st t va')).
Proof.
  unfold pgt_map_task_page, __pgt_map_page.
  destruct (mapped_pte_addr_spec u reserved st t live bp ptes va Hinv Hstart Hcache Hva)
    as (st1 & t1 & a & -> & (Et & _) & [(-> & Em & Q)|(live' & ptes' & b & I1 & Hb & -> & Hne & HLay & Hup & _ & _ & He)]);
    rewrite Ret_bind; cbv beta iota.
  { assert (pgt_inv u reserved st1 t1 live bp ptes) as I1 by by eapply quiet_pgt.
    eexists _, _, _, live, ptes. split; [done|]. split; [done|]. left. split; [done|]. intros va' Hva'.
    rewrite (translate_entry u reserved st1 t1 live bp ptes I1 va' Hva').
    rewrite (translate_entry u reserved st t live bp ptes Hinv va' Hva').
    rewrite Em. apply entry_of_layout, Q. }
  destruct (Z.eqb_spec (block_va (pg_mm st1) b + 4 * pti va) 0); [done|].
  pose proof (Hup bx Hpage) as Hpage1. destruct (block_layout _ _ bx HLay) as (_ & Bpa & Bpg).
  pose proof (pi_alloc _ _ _ _ _ _ _ I1) as A1.
  destruct (enter_page_spec u reserved st1 t live' bp ptes' b bx va I1 Hva Hb Hpage1) as [I2 Ht].
  unfold page_pa. rewrite <- Bpg. destruct (Z.eqb_spec (block_page (pg_mm st1) bx) 0) as [E0|_].
  { destruct (list_elem_of_split _ _ (proj1 Hpage1)) as (l1 & l2 & El). rewrite El in A1.
    by destruct (block_page_nonzero reserved (pg_mm st1) l1 bx l2 A1). }
  rewrite ret_bind, (live_page_to_pa _ _ _ A1 bx (proj1 Hpage1)).
  eexists _, t1, 0, live', ptes'. split; [done|].
  fold (enter_page u st1 (block_va (pg_mm st1) b + 4 * pti va) (block_pa (pg_mm st1) bx)
    (block_page (pg_mm st1) bx) va). set (st2 := enter_page _ _ _ _ _ _) in *.
  assert (pgt_inv u reserved st2 t1 live' bp ptes') as I3 by by eapply quiet_pgt.
  assert (forall va', translate u st2 t1 va' = translate u st2 t va') as Ett
    by (intros; unfold translate; by rewrite Et).
  split; [done|]. right. split; [done|]. split.
  - rewrite (get_task_page_spec u reserved st2 t1 live' bp ptes' va (block_pa (pg_mm st1) bx)); try done.
    + f_equal. destruct (block_layout (pg_mm st1) (pg_mm st2) bx) as (_ & B1 & B2);
        [by apply same_layout_zones|].
      rewrite <- B1, <- B2, <- (Z.add_0_r (block_pa _ bx)).
      apply (live_pa_to_page _ _ _ (pi_alloc _ _ _ _ _ _ _ I3)); [apply Hpage1|lia].
    + rewrite Ett, Ht by done. by rewrite decide_True.
  - intros va' Hva'. rewrite Ett, Ht, Bpa by done. case_decide; [done|].
    rewrite (translate_entry u reserved st1 t live' bp ptes' I1 va' Hva').
    rewrite (translate_entry u reserved st t live bp ptes Hinv va' Hva'). apply He.
Qed.

Module PgtDemo.
Definition heads : pte_cache_list := PteCacheList 0x80001000 0 0 0.
Definition table : task_page_table :=
  TaskPageTable 0x80002000 0x102000 heads (PteCacheList 0x80001010 0 0 0) PROCESS_USER_MMAP_BASE 0 0 0.
Definition state : pgst := Pgst Demo.bank ∅ (PgtBuffer 0x80001100 0 0).

Lemma pgt_demo_inv : pgt_inv x86_mmu Demo.reserved state table Demo.live Demo.blk ∅.
Proof.
  split; try done.
  - exact Demo.demo_inv.
  - exact Demo.mapped.
  - by intros r [-> | ->]%Demo.used.
  - apply Demo.live_in.
Qed.

Lemma page : user_page Demo.live Demo.blk ∅ Demo.ublk.
Proof. split; [apply Demo.live_in|]. split; [done|]. intros i. by rewrite lookup_empty. Qed.
End PgtDemo.

Lemma pgt_map_task_page_correct_witness :
  exists st' t' ret live' ptes',
    pgt_map_task_page x86_mmu PgtDemo.state PgtDemo.table (block_page Demo.bank Demo.ublk) 0x404000
      = Ret (st', t', ret) /\
    pgt_inv x86_mmu Demo.reserved st' t' live' Demo.blk ptes' /\
    ((ret = - ENOMEM /\ forall va', 0 <= va' < 2147483648 ->
        translate x86_mmu st' t' va' = translate x86_mmu PgtDemo.state PgtDemo.table va') \/
     (ret = 0 /\ pgt_get_task_page x86_mmu st' t' 0x404000 = Ret (block_page Demo.bank Demo.ublk) /\
      forall va', 0 <= va' < 2147483648 -> translate x86_mmu st' t' va' =
        if decide (va' / 4096 = 0x404000 / 4096) then Some (block_pa Demo.bank Demo.ublk)
        else translate x86_mmu PgtDemo.state PgtDemo.table va')).
Proof.
  apply (pgt_map_task_page_correct x86_mmu x86_mmu_laws Demo.reserved PgtDemo.state PgtDemo.table
    Demo.live Demo.blk ∅ Demo.ublk 0x404000 PgtDemo.pgt_demo_inv Demo.start); [done|lia|exact PgtDemo.page].
Defined.

(** ** Unmapping *)

Section Unmap.
Context (u : mmu) {L : MmuLaws (ops u)}.
Context (reserved : sref -> Z -> Prop).
Context (st : pgst) (t : task_page_table) (live : list block) (bp : block) (ptes : gmap Z block).
Hypothesis I : pgt_inv u reserved st t live bp ptes.

Lemma clear_entry_inv i b k : ptes !! i = Some b -> 0 <= k < 1024 ->
  let m' := clear_pte_entry (ops u) (pg_mem st) (block_va (pg_mm st) b + 4 * k) in
  pgt_inv u reserved (set_mem st m') t live bp ptes /\
  forall va, entry_of u m' (pg_mm st) ptes va =
    if decide (pdi va = i /\ pti va = k) then None else entry_of u (pg_mem st) (pg_mm st) ptes va.
Proof.
  intros Hb Hk m'.
  assert (forall a, a <> block_va (pg_mm st) b + 4 * k -> rd m' a = rd (pg_mem st) a) as Hfr.
  { intros a Ha. unfold m'. rewrite law_clear_pte. by rewrite decide_False. }
  split.
  - pose proof I as [I1 Im I2 I3 I4 I5 I6 I7 I8 I9 I10]. split; simpl; try done.
    + intros j b' Hb'. rewrite <- (I8 j b' Hb'). apply law_read_pde, Hfr.
      apply (directory_word_apart u reserved st t live bp ptes I i k b Hb Hk). specialize (I6 j b' Hb'). lia.
    + intros j Hj Hn. rewrite <- (I9 j Hj Hn). apply law_read_pde, Hfr.
      apply (directory_word_apart u reserved st t live bp ptes I i k b Hb Hk). lia.
  - intros va. unfold entry_of. case_decide as E.
    + destruct E as [-> ->]. rewrite Hb. unfold m'. rewrite law_clear_pte. by rewrite decide_True.
    + destruct (ptes !! pdi va) as [b'|] eqn:Eb; [|done].
      assert (block_va (pg_mm st) b' + 4 * pti va <> block_va (pg_mm st) b + 4 * k) as Hne.
      { intros Ea. apply E.
        exact (table_word_apart u reserved st t live bp ptes I i k b Hb Hk (pdi va) b' (pti va) Eb
          (pti_range va) Ea). }
      rewrite Hfr by done. by rewrite (law_read_pte m' (pg_mem st)) by (by apply Hfr).
Qed.

Lemma unmap_spec va pa : 0 <= va < 2147483648 -> translate u st t va = Some pa ->
  exists st', pgt_unmap_mmap_page u st t va = (st', pa_to_page (pg_mm st) pa) /\
    pgt_inv u reserved st' t live bp ptes /\
    forall va', 0 <= va' < 2147483648 -> translate u st' t va' =
      if decide (va' / 4096 = va / 4096) then None else translate u st t va'.
Proof.
  intros Hva Ht. pose proof Ht as Ht0.
  rewrite (translate_entry u reserved st t live bp ptes I va Hva) in Ht. unfold entry_of in Ht.
  destruct (ptes !! pdi va) as [b|] eqn:Eb; [|done].
  destruct (walk_some u reserved st t live bp ptes I va b Hva Eb) as (H1 & H2 & H3).
  destruct (pte_entry u reserved st t live bp ptes I _ b va Eb) as [E1 E2].
  unfold pgt_unmap_mmap_page, pgt_get_pte_page.
  rewrite (proj2 (Z.eqb_neq _ 0) H1), H2, (proj2 (Z.eqb_neq _ 0) H3), E1.
  destruct (_ =? 0) in Ht; [done|]. injection Ht as <-. eexists. split; [done|].
  destruct (clear_entry_inv (pdi va) b (pti va) Eb (pti_range va)) as [I' He].
  unfold mmu_clear_pte_entry. split; [done|]. intros va' Hva'.
  rewrite (translate_entry u reserved _ t live bp ptes I' va' Hva').
  rewrite (translate_entry u reserved st t live bp ptes I va' Hva').
  cbn [set_mem pg_mem pg_mm]. rewrite He. apply decide_ext. rewrite same_page. tauto.
Qed.
End Unmap.

(** Unmapping a mapped address returns the page it was mapped to, makes the address
    translate to nothing and changes no other translation. *)
Theorem pgt_unmap_mmap_page_correct u (HL : MmuLaws (ops u)) reserved st t live bp ptes va bx
    (Hinv : pgt_inv u reserved st t live bp ptes) (Hva : 0 <= va < 2147483648)
    (Hbx : bx ∈ live) (Hmap : translate u st t va = Some (block_pa (pg_mm st) bx)) :
  exists st', pgt_unmap_mmap_page u st t va = (st', block_page (pg_mm st) bx) /\
    pgt_inv u reserved st' t live bp ptes /\
    forall va', 0 <= va' < 2147483648 -> translate u st' t va' =
      if decide (va' / 4096 = va / 4096) then None else translate u st t va'.
Proof.
  destruct (unmap_spec u reserved st t live bp ptes Hinv va _ Hva Hmap) as (st' & E & H).
  exists st'. rewrite E, <- (Z.add_0_r (block_pa _ bx)).
  by rewrite (live_pa_to_page _ _ _ (pi_alloc _ _ _ _ _ _ _ Hinv)) by (done || lia).
Qed.

(** The demo state with a page table in place and the user page mapped at 0x404000. *)
Module UnmapDemo.
Definition mem : gmap Z Z := {[ 0x80002000 + 4 * 1 := 0x104007; 0x80004000 + 4 * 4 := 0x200007 ]}.
Definition state : pgst := Pgst Demo.bank mem (PgtBuffer 0x80001100 0 0).
Definition ptes : gmap Z block := {[ 1 := Demo.kblk ]}.

Lemma unmap_demo_inv : pgt_inv x86_mmu Demo.reserved state PgtDemo.table Demo.live Demo.blk ptes.
Proof.
  unfold ptes. split; try done.
  - exact Demo.demo_inv.
  - exact Demo.mapped.
  - by intros r [-> | ->]%Demo.used.
  - apply Demo.live_in.
  - by intros i b [<- <-]%lookup_singleton_Some.
  - intros i b [<- <-]%lookup_singleton_Some. split; [apply Demo.live_in|]. by vm_compute.
  - intros i b [<- <-]%lookup_singleton_Some. by vm_compute.
  - intros i Hi Hn%lookup_singleton_None. apply law_zero_pde. unfold state, rd, mem. cbn [pg_mem pg_mm].
    change (block_va Demo.bank Demo.blk) with 0x80002000.
    rewrite lookup_insert_ne by lia. rewrite lookup_singleton_ne by lia. done.
  - by intros i j b [<- _]%lookup_singleton_Some [<- _]%lookup_singleton_Some.
Qed.
End UnmapDemo.

Lemma pgt_unmap_mmap_page_correct_witness :
  exists st', pgt_unmap_mmap_page x86_mmu UnmapDemo.state PgtDemo.table 0x404123
      = (st', block_page Demo.bank Demo.ublk) /\
    pgt_inv x86_mmu Demo.reserved st' PgtDemo.table Demo.live Demo.blk UnmapDemo.ptes /\
    forall va', 0 <= va' < 2147483648 -> translate x86_mmu st' PgtDemo.table va' =
      if decide (va' / 4096 = 0x404123 / 4096) then None
      else translate x86_mmu UnmapDemo.state PgtDemo.table va'.
Proof.
  apply (pgt_unmap_mmap_page_correct x86_mmu x86_mmu_laws Demo.reserved UnmapDemo.state PgtDemo.table
    Demo.live Demo.blk UnmapDemo.ptes 0x404123 Demo.ublk UnmapDemo.unmap_demo_inv);
    [lia|apply Demo.live_in|by vm_compute].
Defined.

(** ** Looking for room in the mmap area *)

(** the search for free entries in an existing mmap page table never moves on: when
    the entry it starts at is in use it does not return, whatever follows. *)
Theorem mmap_base_hang fuel m first ua temp page_nr addr
    (Hused : rd m addr <> 0) (Hend : addr <> ua) :
  mmap_base_loop fuel m first ua temp page_nr addr 0 false = None.
Proof.
  induction fuel as [|fuel IH]; [done|]. simpl.
  rewrite (proj2 (Z.eqb_neq _ _) Hused), (proj2 (Z.eqb_neq _ _) Hend). exact IH.
Qed.

Lemma mmap_base_hang_witness :
  mmap_base_loop 1000 UnmapDemo.mem 0x80004000 0x80005000 0x80004010 1 0x80004010 0 false = None.
Proof. apply (mmap_base_hang 1000 UnmapDemo.mem); by vm_compute. Defined.

(** When that entry is free, it is counted [page_nr] times and the answer is a kernel
    address [page_nr] entries below it, not a user address. *)
Theorem mmap_base_wrong :
  pgt_get_page_mmap_base 100 UnmapDemo.state (block_page Demo.bank Demo.kblk) 3 = Some (0x80004000 - 12).
Proof. by vm_compute. Qed.
