(* ===== verification/PgtMap.v ===== *)
(** * Mapping lists of pages (mm/pgt.c)

    What [pgt_map_task_memory] does with the pages of a section: the pages of a list, upwards
    from an address or, for a stack, downwards.  [listed] relates the list of a head to the
    blocks whose descriptors are on it; [space] is a task's page table with the list of the
    pages it is made of. *)

From S2P Require Import Prelude Bitops Dlist Mm MmAlloc MmSpec Mmu MmInit Pgt PgtSpec.

(** ** Lists of pages *)

Definition nodes (mm : mm_bank) (bs : list block) : list Z := node mm <$> bs.

Record listed (mm : mm_bank) (live : list block) (head : Z) (bs : list block) : Prop := {
  li_list : dlist (plists mm) head (nodes mm bs);
  li_head : forall r k, in_section mm r k -> head <> page_ref (section_at mm r) k + plist_offset;
  li_live : Forall (fun b => b ∈ live) bs }.

Lemma node_layout mm mm' b : same_layout mm mm' -> node mm' b = node mm b.
Proof. intros HL. unfold node. by rewrite (proj2 (proj2 (block_layout _ _ b HL))). Qed.

Lemma nodes_layout mm mm' bs : same_layout mm mm' -> nodes mm' bs = nodes mm bs.
Proof. intros HL. apply list_fmap_ext. intros i b _. by apply node_layout. Qed.

Lemma head_layout mm mm' (head : Z) : same_layout mm mm' ->
  (forall r k, in_section mm r k -> head <> page_ref (section_at mm r) k + plist_offset) ->
  forall r k, in_section mm' r k -> head <> page_ref (section_at mm' r) k + plist_offset.
Proof.
  intros HL H r k Hk. destruct (layout_fields _ _ r HL) as (_ & _ & _ & _ & Ep). unfold page_ref. rewrite Ep.
  apply (H r k). by apply (in_section_layout _ _ _ _ HL).
Qed.

Lemma listed_same mm mm' live head bs : same_layout mm mm' -> plists mm' = plists mm ->
  listed mm live head bs -> listed mm' live head bs.
Proof.
  intros HL Hp [L1 L2 L3]. split; [by rewrite Hp, (nodes_layout _ _ _ HL)|by eapply head_layout|done].
Qed.

Lemma listed_mono mm live live' head bs : (forall b, b ∈ live -> b ∈ live') -> listed mm live head bs -> listed mm live' head bs.
Proof. intros H [L1 L2 L3]. split; [done..|]. eapply Forall_impl; [done|]. done. Qed.

Section Listed.
Context (reserved : sref -> Z -> Prop) (mm : mm_bank) (live : list block).
Hypothesis A : alloc_inv reserved mm live.

Lemma node_inj b b' : b ∈ live -> b' ∈ live -> node mm b = node mm b' -> b = b'.
Proof.
  intros Hb Hb' E. destruct (decide (b = b')) as [|Hne]; [done|].
  pose proof (live_page_inj _ _ _ A b b' Hb Hb' Hne) as H. unfold ranges_apart, node in *. lia.
Qed.

Lemma nodes_elem b bs : b ∈ live -> Forall (fun b => b ∈ live) bs -> node mm b ∈ nodes mm bs -> b ∈ bs.
Proof.
  intros Hb Hbs (b' & E & Hin)%list_elem_of_fmap. rewrite Forall_forall in Hbs.
  by rewrite (node_inj b b' Hb (Hbs _ Hin) E).
Qed.

Lemma head_no_node head bs b : listed mm live head bs -> b ∈ live -> head <> node mm b.
Proof.
  intros L Hb. pose proof (block_base_covered _ _ (inv_live _ _ _ A b Hb)) as [Hin _]. by apply L.
Qed.
End Listed.

(** A new page at the end of a list. *)
Section Queue.
Context (reserved : sref -> Z -> Prop) (mm mm' : mm_bank) (live : list block) (b : block) (head : Z) (bs : list block).
Hypothesis A' : alloc_inv reserved mm' (b :: live).
Hypothesis HL : same_layout mm mm'.
Hypothesis Hfresh : b ∉ live.
Hypothesis Hq : queued mm mm' head (node mm b).
Hypothesis L : listed mm live head bs.

Lemma fresh_node bs' : Forall (fun b => b ∈ live) bs' -> node mm b ∉ nodes mm bs'.
Proof.
  intros Hl Hin. rewrite <- (node_layout _ _ b HL), <- (nodes_layout _ _ bs' HL) in Hin.
  apply (nodes_elem _ _ _ A') in Hin; [|left|by eapply Forall_impl; [done|intros x Hx; by right]].
  rewrite Forall_forall in Hl. by apply Hfresh, Hl.
Qed.

Lemma fresh_head head' bs' : listed mm live head' bs' -> head' <> node mm b.
Proof.
  intros L'. rewrite <- (node_layout _ _ b HL).
  pose proof (block_base_covered _ _ (inv_live _ _ _ A' b ltac:(left))) as [Hin _].
  apply (head_layout _ _ head' HL (li_head _ _ _ _ L') _ _ Hin).
Qed.

Lemma kept_list head' bs' h : listed mm live head' bs' ->
  (forall a, a <> node mm b -> lnext h a = lnext (plists mm) a /\ lpre h a = lpre (plists mm) a) ->
  dlist h head' (nodes mm bs').
Proof.
  intros L' Hh. apply (dlist_frame (plists mm)); [|apply L']. intros u Hu. apply Hh. intros ->.
  apply elem_of_cons in Hu as [E|Hu]; [by apply (fresh_head head' bs')|]. by apply (fresh_node bs' (li_live _ _ _ _ L')).
Qed.

Lemma listed_queued : listed mm' (b :: live) head (bs ++ [b]).
Proof.
  destruct Hq as (h & Hh & E). split.
  - rewrite E, (nodes_layout _ _ _ HL). unfold nodes. rewrite fmap_app. apply list_add_tail_dlist; [by apply kept_list|].
    rewrite not_elem_of_cons. split; [intros Hn; by apply (fresh_head head bs)|by apply fresh_node, L].
  - by eapply head_layout, L.
  - apply Forall_app. split; [|by repeat constructor]. eapply Forall_impl; [apply L|]. intros x Hx. by right.
Qed.

Lemma listed_queued_other head' bs' : listed mm live head' bs' -> head' <> head -> (forall x, x ∈ bs -> x ∉ bs') ->
  alloc_inv reserved mm live -> listed mm' (b :: live) head' bs'.
Proof.
  intros L' Hne Hd A. destruct Hq as (h & Hh & E). split.
  - rewrite E, (nodes_layout _ _ _ HL). apply (list_add_tail_other h head (nodes mm bs)); [by apply kept_list..|].
    intros x Hx Hx'. rewrite !elem_of_cons in Hx. rewrite elem_of_cons in Hx'. pose proof (li_live _ _ _ _ L) as Ll. pose proof (li_live _ _ _ _ L') as Ll'.
    rewrite Forall_forall in Ll, Ll'. destruct Hx as [->|[->|Hx]], Hx' as [E'|Hx'].
    + done.
    + apply list_elem_of_fmap in Hx' as (y & E' & Hy). by apply (head_no_node _ _ _ A head bs y L (Ll' y Hy)).
    + by apply (fresh_head head' bs').
    + by apply (fresh_node bs' (li_live _ _ _ _ L')).
    + subst x. apply list_elem_of_fmap in Hx as (y & E' & Hy). by apply (head_no_node _ _ _ A head' bs' y L' (Ll y Hy)).
    + apply list_elem_of_fmap in Hx as (y & -> & Hy). apply (Hd y Hy).
      apply (nodes_elem _ _ _ A); [by apply Ll|by apply L'|done].
  - by eapply head_layout, L'.
  - eapply Forall_impl; [apply L'|]. intros x Hx. by right.
Qed.
End Queue.

(** ** The loops *)

(** The pages [bs] under the numbers [slot], over the translation [f]. *)
Definition placed (mm : mm_bank) (slot : Z) (bs : list block) (f : option Z) : option Z :=
  if decide (0 <= slot) then match bs !! Z.to_nat slot with Some b => Some (block_pa mm b) | None => f end else f.

(** The number of the page of [va], from [base] upwards and downwards. *)
Definition slot_up (base va : Z) : Z := va / 4096 - base / 4096.
Definition slot_down (base va : Z) : Z := base / 4096 - 1 - va / 4096.

Lemma placed_cons mm slot b bs f :
  placed mm slot (b :: bs) f = placed mm (slot - 1) bs (if decide (slot = 0) then Some (block_pa mm b) else f).
Proof.
  unfold placed. destruct (decide (slot = 0)) as [->|Hs]; [by simpl|].
  destruct (decide (0 <= slot)), (decide (0 <= slot - 1)); try lia; [|done].
  replace (Z.to_nat slot) with (S (Z.to_nat (slot - 1))) by lia. done.
Qed.

Lemma placed_nil mm slot f : placed mm slot [] f = f.
Proof. unfold placed. by case_decide. Qed.

Lemma placed_layout mm mm' slot bs f : same_layout mm mm' -> placed mm' slot bs f = placed mm slot bs f.
Proof.
  intros HL. unfold placed. case_decide; [|done]. destruct (bs !! _) as [b|]; [|done].
  by destruct (block_layout _ _ b HL) as (_ & -> & _).
Qed.

Lemma next_page base : (base + 4096) / 4096 = base / 4096 + 1.
Proof. Z.to_euclidean_division_equations; lia. Qed.

Lemma next_entry base : pti base + 1 < 1024 -> pdi (base + 4096) = pdi base /\ pti (base + 4096) = pti base + 1.
Proof. unfold pdi, pti. Z.to_euclidean_division_equations; lia. Qed.

Lemma previous_entry base : 0 < pti base -> pdi (base - 4096) = pdi base /\ pti (base - 4096) = pti base - 1.
Proof. unfold pdi, pti. Z.to_euclidean_division_equations; lia. Qed.

Lemma live_va_page reserved mm live b : alloc_inv reserved mm live -> b ∈ live -> block_va mm b + 4096 < 4294967296.
Proof.
  intros A Hb. pose proof (live_va_end _ _ _ A b Hb). destruct (bok_range _ _ (inv_live _ _ _ A b Hb)) as (_ & R & _). lia.
Qed.

Section Loops.
Context (u : mmu) {L : MmuLaws (ops u)} (reserved : sref -> Z -> Prop).
Context (live : list block) (bp : block) (ptes : gmap Z block) (bt : block) (head : Z).

(** What a round does with the page at the front. *)
Lemma round_ok st t bx base :
  pgt_inv u reserved st t live bp ptes -> 0 <= base < 2147483648 -> ptes !! pdi base = Some bt -> user_page live bp ptes bx ->
  let st' := enter_page u st (block_va (pg_mm st) bt + 4 * pti base) (block_pa (pg_mm st) bx) (block_page (pg_mm st) bx) base in
  page_pa st (list_to_page (node (pg_mm st) bx)) = Ret (block_pa (pg_mm st) bx) /\
  list_to_page (node (pg_mm st) bx) = block_page (pg_mm st) bx /\
  pgt_inv u reserved st' t live bp ptes /\ soft (pg_mm st) (pg_mm st') /\ plists (pg_mm st') = plists (pg_mm st) /\
  forall va, 0 <= va < 2147483648 -> translate u st' t va =
    if decide (va / 4096 = base / 4096) then Some (block_pa (pg_mm st) bx) else translate u st t va.
Proof.
  intros I Hb Ht Hx st'. pose proof (pi_alloc _ _ _ _ _ _ _ I) as A.
  destruct (enter_page_spec u reserved st t live bp ptes bt bx base I Hb Ht Hx) as [I' Htr].
  assert (list_to_page (node (pg_mm st) bx) = block_page (pg_mm st) bx) as El by (unfold list_to_page, node; lia).
  rewrite El. split; [|split; [done|]].
  - unfold page_pa. destruct (Z.eqb_spec (block_page (pg_mm st) bx) 0) as [E0|_].
    + destruct (list_elem_of_split _ _ (proj1 Hx)) as (l1 & l2 & E). rewrite E in A.
      by destruct (block_page_nonzero reserved (pg_mm st) l1 bx l2 A).
    + by rewrite (live_page_to_pa _ _ _ A bx (proj1 Hx)).
  - split; [done|]. split; [by apply soft_upd_page|]. by split.
Qed.

Lemma normal_loop_ok t mbase W rest : forall fuel st base pte a,
  (length rest < fuel)%nat -> pgt_inv u reserved st t live bp ptes -> W <= 1024 -> bt ∈ live ->
  Forall (user_page live bp ptes) rest -> chain (plists (pg_mm st)) a (nodes (pg_mm st) rest) head ->
  head ∉ nodes (pg_mm st) rest -> 0 <= base -> base + 4096 * Z.of_nat (length rest) <= 2147483648 ->
  (rest <> [] -> ptes !! pdi base = Some bt /\ pte = block_va (pg_mm st) bt + 4 * pti base /\
     pti base + Z.of_nat (length rest) <= W) ->
  exists st', normal_loop u fuel st t head mbase (hd head (nodes (pg_mm st) rest)) base pte (block_va (pg_mm st) bt + 4 * W)
      = Ret (st', t, 0) /\ pgt_inv u reserved st' t live bp ptes /\ soft (pg_mm st) (pg_mm st') /\
    plists (pg_mm st') = plists (pg_mm st) /\
    forall va, 0 <= va < 2147483648 -> translate u st' t va = placed (pg_mm st) (slot_up base va) rest (translate u st t va).
Proof.
  induction rest as [|bx rest IH]; intros fuel st base pte a Hf I HW Hbt Hus Hch Hh H0 Hr Hp; (destruct fuel as [|fuel]; [simpl in Hf; lia|]).
  { exists st. cbn [normal_loop nodes fmap list_fmap hd]. rewrite Z.eqb_refl. split; [done|]. split; [done|]. split; [done|].
    split; [done|]. intros va _. by rewrite placed_nil. }
  destruct (Hp ltac:(done)) as (Ht & -> & Hw). apply Forall_cons in Hus as [Hx Hus]. cbn [length] in *.
  change (nodes (pg_mm st) (bx :: rest)) with (node (pg_mm st) bx :: nodes (pg_mm st) rest) in Hh, Hch |- *. cbn [hd].
  apply not_elem_of_cons in Hh as [Hh1 Hh2]. destruct Hch as (_ & _ & Hch).
  destruct (round_ok st t bx base I ltac:(lia) Ht Hx) as (Epa & Epg & I1 & S1 & P1 & T1).
  pose proof (chain_first _ _ _ _ Hch) as Hnx. cbn [normal_loop]. rewrite (proj2 (Z.eqb_neq _ _) (not_eq_sym Hh1)).
  destruct (Z.eqb_spec (block_va (pg_mm st) bt + 4 * pti base) (block_va (pg_mm st) bt + 4 * W)) as [|_]; [lia|].
  rewrite ret_bind. cbv beta iota. rewrite Epa, Ret_bind, Epg.
  change (set_mm (set_mem st (mmu_create_pte_entry u (pg_mem st) (block_va (pg_mm st) bt + 4 * pti base) (block_pa (pg_mm st) bx) base)) _)
    with (enter_page u st (block_va (pg_mm st) bt + 4 * pti base) (block_pa (pg_mm st) bx) (block_page (pg_mm st) bx) base).
  set (st1 := enter_page _ _ _ _ _ _) in *.
  assert (same_layout (pg_mm st) (pg_mm st1)) as HL by (apply same_layout_zones; apply S1).
  unfold list_next. rewrite P1, Hnx, <- (nodes_layout _ _ rest HL). destruct (block_layout _ _ bt HL) as (Ebt & _).
  rewrite <- Ebt. destruct (live_va _ _ _ (pi_alloc _ _ _ _ _ _ _ I1) bt Hbt) as (V1 & _). pose proof (pti_range base).
  pose proof (live_va_page _ _ _ bt (pi_alloc _ _ _ _ _ _ _ I1) Hbt) as V2.
  unfold PAGE_SIZE. rewrite (u32_small (base + 4096)), (u32_small (_ + 4)) by lia.
  destruct (IH fuel st1 (base + 4096) (block_va (pg_mm st1) bt + 4 * pti base + 4) (node (pg_mm st1) bx)) as (st' & E & I' & S' & P' & T'); try done; try lia.
  - intros Hne. assert (0 < length rest)%nat by (destruct rest; simpl in *; [done|lia]).
    destruct (next_entry base) as [-> ->]; [lia|]. split; [done|]. lia.
  - exists st'. split; [exact E|]. split; [done|]. split; [by etrans|]. split; [by rewrite P'|].
    intros va Hva. rewrite T', placed_cons, (placed_layout _ _ _ _ _ HL) by done. unfold slot_up. rewrite next_page.
    replace (va / 4096 - (base / 4096 + 1)) with (va / 4096 - base / 4096 - 1) by lia. f_equal. rewrite T1 by done.
    apply decide_ext. lia.
Qed.

(** Downwards; [pte_end] is the entry behind which the next lookup is. *)
Lemma stack_loop_ok t pte_end rest : forall fuel st base pte a,
  (length rest < fuel)%nat -> pgt_inv u reserved st t live bp ptes -> bt ∈ live ->
  Forall (user_page live bp ptes) rest -> chain (plists (pg_mm st)) a (nodes (pg_mm st) rest) head ->
  head ∉ nodes (pg_mm st) rest -> base <= 2147483648 -> 4096 * Z.of_nat (length rest) <= base ->
  (rest <> [] -> ptes !! pdi (base - 4096) = Some bt /\ pte = block_va (pg_mm st) bt + 4 * pti (base - 4096) /\
     Z.of_nat (length rest) <= pti (base - 4096) + 1 /\ pte_end + 4 * Z.of_nat (length rest) <= pte /\ 0 < block_va (pg_mm st) bt) ->
  exists st', stack_loop u fuel st t head (hd head (nodes (pg_mm st) rest)) base pte pte_end
      = Ret (st', t, 0) /\ pgt_inv u reserved st' t live bp ptes /\ soft (pg_mm st) (pg_mm st') /\
    plists (pg_mm st') = plists (pg_mm st) /\
    forall va, 0 <= va < 2147483648 -> translate u st' t va = placed (pg_mm st) (slot_down base va) rest (translate u st t va).
Proof.
  induction rest as [|bx rest IH]; intros fuel st base pte a Hf I Hbt Hus Hch Hh H0 Hr Hp; (destruct fuel as [|fuel]; [simpl in Hf; lia|]).
  { exists st. cbn [stack_loop nodes fmap list_fmap hd]. rewrite Z.eqb_refl. split; [done|]. split; [done|]. split; [done|].
    split; [done|]. intros va _. by rewrite placed_nil. }
  destruct (Hp ltac:(done)) as (Ht & -> & Hw & Hend & Hpos). apply Forall_cons in Hus as [Hx Hus]. cbn [length] in *.
  change (nodes (pg_mm st) (bx :: rest)) with (node (pg_mm st) bx :: nodes (pg_mm st) rest) in Hh, Hch |- *. cbn [hd].
  apply not_elem_of_cons in Hh as [Hh1 Hh2]. destruct Hch as (_ & _ & Hch).
  destruct (round_ok st t bx (base - 4096) I ltac:(lia) Ht Hx) as (Epa & Epg & I1 & S1 & P1 & T1).
  pose proof (chain_first _ _ _ _ Hch) as Hnx. cbn [stack_loop]. rewrite (proj2 (Z.eqb_neq _ _) (not_eq_sym Hh1)).
  unfold PAGE_SIZE. rewrite (u32_small (base - 4096)) by lia.
  destruct (Z.eqb_spec (block_va (pg_mm st) bt + 4 * pti (base - 4096)) pte_end) as [|_]; [lia|].
  rewrite ret_bind. cbv beta iota. rewrite Epa, Ret_bind, Epg.
  change (set_mm (set_mem st (mmu_create_pte_entry u (pg_mem st) (block_va (pg_mm st) bt + 4 * pti (base - 4096)) (block_pa (pg_mm st) bx) (base - 4096))) _)
    with (enter_page u st (block_va (pg_mm st) bt + 4 * pti (base - 4096)) (block_pa (pg_mm st) bx) (block_page (pg_mm st) bx) (base - 4096)).
  set (st1 := enter_page _ _ _ _ _ _) in *.
  assert (same_layout (pg_mm st) (pg_mm st1)) as HL by (apply same_layout_zones; apply S1).
  unfold list_next. rewrite P1, Hnx, <- (nodes_layout _ _ rest HL). destruct (block_layout _ _ bt HL) as (Ebt & _).
  rewrite <- Ebt in Hend, Hpos |- *. destruct (live_va _ _ _ (pi_alloc _ _ _ _ _ _ _ I1) bt Hbt) as (V1 & V2 & V3).
  pose proof (pti_range (base - 4096)).
  assert (4 <= block_va (pg_mm st1) bt + 4 * pti (base - 4096)) by (Z.to_euclidean_division_equations; lia).
  rewrite (u32_small (_ - 4)) by lia.
  destruct (IH fuel st1 (base - 4096) (block_va (pg_mm st1) bt + 4 * pti (base - 4096) - 4) (node (pg_mm st1) bx)) as (st' & E & I' & S' & P' & T'); try done; try lia.
  - intros Hne. assert (0 < length rest)%nat by (destruct rest; simpl in *; [done|lia]).
    destruct (previous_entry (base - 4096)) as [-> ->]; [lia|]. split; [done|]. lia.
  - exists st'. split; [exact E|]. split; [done|]. split; [by etrans|]. split; [by rewrite P'|].
    intros va Hva. rewrite T', placed_cons, (placed_layout _ _ _ _ _ HL) by done. unfold slot_down.
    pose proof (next_page (base - 4096)) as En. replace (base - 4096 + 4096) with base in En by lia.
    replace ((base - 4096) / 4096 - 1 - va / 4096) with (base / 4096 - 1 - va / 4096 - 1) by lia. f_equal. rewrite T1 by done.
    apply decide_ext. lia.
Qed.
End Loops.

(** ** Page tables with their pages *)

Section Space.
Context (u : mmu) {L : MmuLaws (ops u)} (reserved : sref -> Z -> Prop).

(** The page tables of user addresses are the blocks [ptes]; [pts] are the pages on the
    list of the table. *)
Record space (st : pgst) (t : task_page_table) (live : list block) (bp : block) (ptes : gmap Z block) (pts : list block) : Prop := {
  sp_inv : pgt_inv u reserved st t live bp ptes;
  sp_sealed : sealed (pg_mm st);
  sp_cache : pte_free_size (task_list t) = 0;
  sp_list : listed (pg_mm st) live (pte_list (task_list t)) pts }.

(** The list of [head] holds the pages [bs] of the task. *)
Record pages_of (st : pgst) (t : task_page_table) (live : list block) (bp : block) (ptes : gmap Z block) (pts : list block)
    (head : Z) (bs : list block) : Prop := {
  po_list : listed (pg_mm st) live head bs;
  po_user : Forall (user_page live bp ptes) bs;
  po_head : head <> pte_list (task_list t);
  po_apart : forall x, x ∈ pts -> x ∉ bs }.

(** What the user addresses translate to. *)
Definition same_view (st : pgst) (t : task_page_table) (st' : pgst) (t' : task_page_table) : Prop :=
  forall va, 0 <= va < 2147483648 -> translate u st' t' va = translate u st t va.

(** A step that keeps the lists of pages. *)
Definition keeps (st : pgst) (t : task_page_table) live bp ptes pts (st' : pgst) (t' : task_page_table) live' ptes' pts' : Prop :=
  same_table t t' /\ same_layout (pg_mm st) (pg_mm st') /\ (forall b, b ∈ live -> b ∈ live') /\
  forall head bs, pages_of st t live bp ptes pts head bs -> pages_of st' t' live' bp ptes' pts' head bs.

Lemma keeps_same st t live bp ptes pts st' t' :
  same_table t t' -> same_layout (pg_mm st) (pg_mm st') -> plists (pg_mm st') = plists (pg_mm st) ->
  keeps st t live bp ptes pts st' t' live ptes pts.
Proof.
  intros Ht HL Hp. split; [done|]. split; [done|]. split; [done|]. intros head bs [P1 P2 P3 P4].
  split; [by eapply listed_same|done| |done]. destruct Ht as (_ & [-> _] & _). done.
Qed.

Lemma keeps_trans st t live bp ptes pts st1 t1 live1 ptes1 pts1 st2 t2 live2 ptes2 pts2 :
  keeps st t live bp ptes pts st1 t1 live1 ptes1 pts1 -> keeps st1 t1 live1 bp ptes1 pts1 st2 t2 live2 ptes2 pts2 ->
  keeps st t live bp ptes pts st2 t2 live2 ptes2 pts2.
Proof.
  intros (T1 & L1 & I1 & P1) (T2 & L2 & I2 & P2). split; [|split; [by etrans|split; [auto|auto]]].
  unfold same_table, same_cache in *. destruct T1 as (? & [? ?] & [? ?] & ? & ?), T2 as (? & [? ?] & [? ?] & ? & ?).
  split_and!; congruence.
Qed.

Lemma same_table_refl t : same_table t t.
Proof. unfold same_table, same_cache. done. Qed.

Lemma inv_table st t t' live bp ptes : pde_base t' = pde_base t -> pgt_inv u reserved st t live bp ptes ->
  pgt_inv u reserved st t' live bp ptes.
Proof. intros E I. by eapply quiet_pgt. Qed.

Lemma space_soft st t t' live bp ptes pts st' :
  space st t live bp ptes pts -> same_table t t' -> pgt_inv u reserved st' t live bp ptes -> soft (pg_mm st) (pg_mm st') ->
  plists (pg_mm st') = plists (pg_mm st) -> space st' t' live bp ptes pts.
Proof.
  intros [S1 S2 S3 S4] (T1 & [T2 T3] & _) I S Hp. assert (same_layout (pg_mm st) (pg_mm st')) as HL by (apply same_layout_zones; apply S).
  split; [by eapply inv_table|by eapply sealed_soft|congruence|]. rewrite T2. by eapply listed_same.
Qed.

(** The lookup of the entry of an address. *)
Lemma lookup_ok st t live bp ptes pts va : space st t live bp ptes pts -> 0 <= va < 2147483648 ->
  exists st' t' a live' ptes' pts', pgt_get_mapped_pte_addr u st t va = Ret (st', t', a) /\
    space st' t' live' bp ptes' pts' /\ keeps st t live bp ptes pts st' t' live' ptes' pts' /\ same_view st t st' t' /\
    (a = 0 \/ exists b, ptes' !! pdi va = Some b /\ a = block_va (pg_mm st') b + 4 * pti va /\ a <> 0).
Proof.
  intros [S1 S2 S3 S4] Hva. pose proof (pi_alloc _ _ _ _ _ _ _ S1) as A.
  destruct (mapped_pte_addr_spec u reserved st t live bp ptes va S1 (sealed_start _ S2) S3 Hva)
    as (st' & t' & a & E & Ht & [(-> & Em & Q)|(live' & ptes' & b & I1 & Hb & Ea & Hne & HL & Hup & Hq & Hsl & He)]);
    pose proof Ht as (T1 & [T2 T3] & _).
  - exists st', t', 0, live, ptes, pts. pose proof (q_layout _ _ Q) as HL. pose proof (q_plists _ _ Q) as Hp.
    pose proof (quiet_pgt u reserved _ st' _ t' _ _ _ S1 T1 Em Q) as I'.
    split; [done|]. split; [split; [done|by eapply sealed_quiet|congruence|rewrite T2; by eapply listed_same]|].
    split; [by apply keeps_same|]. split; [|by left]. intros va' Hva'.
    rewrite (translate_entry u reserved _ _ _ _ _ I' va' Hva'), (translate_entry u reserved _ _ _ _ _ S1 va' Hva'), Em.
    by apply entry_of_layout.
  - assert (same_view st t st' t') as Hview.
    { intros va' Hva'. rewrite (translate_entry u reserved _ _ _ _ _ (inv_table _ _ _ _ _ _ T1 I1) va' Hva').
      by rewrite (translate_entry u reserved _ _ _ _ _ S1 va' Hva'). }
    destruct Hq as [[-> ->]|(b' & -> & Hfr & Hq)].
    + exists st, t', a, live, ptes', pts. split; [done|]. split; [split; [by eapply inv_table|done|congruence|by rewrite T2]|].
      split; [|split; [done|right; by exists b]]. split; [done|]. split; [done|]. split; [done|].
      intros head bs [P1 P2 P3 P4]. split; [done|by eapply Forall_impl|congruence|done].
    + exists st', t', a, (b' :: live), ptes', (pts ++ [b']). split; [done|]. pose proof (pi_alloc _ _ _ _ _ _ _ I1) as A'.
      split; [split; [by eapply inv_table|auto|congruence|rewrite T2; by eapply listed_queued]|].
      split; [|split; [done|right; by exists b]]. split; [done|]. split; [done|]. split; [by right|].
      intros head bs [P1 P2 P3 P4]. split; [by eapply listed_queued_other|by eapply Forall_impl|congruence|].
      intros x [Hx|Hx%list_elem_of_singleton]%elem_of_app; [by apply P4|]. subst x. intros Hin. apply Hfr.
      pose proof (li_live _ _ _ _ P1) as Hl. rewrite Forall_forall in Hl. by apply Hl.
Qed.

(** Where the loops look the table up again. *)
Lemma normal_end va i : 0 <= va -> va mod 4096 = 0 -> va + 4096 < 4294967296 -> 0 <= i < 1024 ->
  Z.land (u32 (va + 4 * i + PTES_PER_PDE)) (lnot32 (PTES_PER_PDE - 1)) = va + 4 * (256 * (i / 256 + 1)).
Proof.
  intros. change PTES_PER_PDE with (2 ^ 10). rewrite (u32_small (_ + 2 ^ 10)) by (Z.to_euclidean_division_equations; lia).
  rewrite min_align32 by (Z.to_euclidean_division_equations; lia). change (2 ^ 10) with 1024. Z.to_euclidean_division_equations; lia.
Qed.

Lemma stack_end va i : 0 < va -> va mod 4096 = 0 -> va + 4096 < 4294967296 -> 0 <= i < 1024 ->
  u32 (Z.land (u32 (va + 4 * i - PTES_PER_PDE)) (lnot32 (PTES_PER_PDE - 1)) - 4) = va + 1024 * (i / 256) - 1028.
Proof.
  intros. change PTES_PER_PDE with (2 ^ 10). rewrite (u32_small (_ - 2 ^ 10)) by (Z.to_euclidean_division_equations; lia).
  rewrite min_align32 by (Z.to_euclidean_division_equations; lia). change (2 ^ 10) with 1024.
  rewrite u32_small; Z.to_euclidean_division_equations; lia.
Qed.

(** Where pages may be mapped: one lookup of the table is enough. *)
Definition fits_window (type base n : Z) : Prop :=
  if type =? PGT_MAP_STACK
  then 4096 * n <= base <= 2147483648 /\ n <= pti (base - 4096) + 1 /\ n <= pti (base - 4096) mod 256 + 257
  else base + 4096 * n <= 2147483648 /\ pti base mod 256 + n <= 256.

Definition slot_of (type base va : Z) : Z := if type =? PGT_MAP_STACK then slot_down base va else slot_up base va.

Section MapMemory.
Context (fuel : nat) (st : pgst) (t : task_page_table) (live : list block) (bp : block) (ptes : gmap Z block) (pts : list block).
Context (head : Z) (bs : list block) (base : Z).
Hypothesis Hspace : space st t live bp ptes pts.
Hypothesis Hpages : pages_of st t live bp ptes pts head bs.
Hypothesis Hfuel : (S (length bs) < fuel)%nat.
Hypothesis Hbase : 0 < base.

Definition mapped_result (type : Z) (r : outcome (pgst * task_page_table * Z)) : Prop :=
  exists st' t' ret live' ptes' pts', r = Ret (st', t', ret) /\
    space st' t' live' bp ptes' pts' /\ keeps st t live bp ptes pts st' t' live' ptes' pts' /\
    ((ret = - ENOMEM /\ same_view st t st' t') \/
     (ret = 0 /\ forall va, 0 <= va < 2147483648 ->
        translate u st' t' va = placed (pg_mm st) (slot_of type base va) bs (translate u st t va))).

Lemma map_nothing type : bs = [] -> mapped_result type (Ret (st, t, 0)).
Proof.
  intros Hn. exists st, t, 0, live, ptes, pts. split; [done|]. split; [done|].
  split; [by apply keeps_same|]. right. split; [done|]. intros va _. by rewrite Hn, placed_nil.
Qed.

(** The loop ran behind the lookup. *)
Lemma mapped_by_loop type st1 t1 st2 live1 ptes1 pts1 : space st1 t1 live1 bp ptes1 pts1 ->
  keeps st t live bp ptes pts st1 t1 live1 ptes1 pts1 -> same_view st t st1 t1 ->
  pgt_inv u reserved st2 t1 live1 bp ptes1 -> soft (pg_mm st1) (pg_mm st2) -> plists (pg_mm st2) = plists (pg_mm st1) ->
  (forall va, 0 <= va < 2147483648 -> translate u st2 t1 va = placed (pg_mm st1) (slot_of type base va) bs (translate u st1 t1 va)) ->
  mapped_result type (Ret (st2, t1, 0)).
Proof.
  intros S1 K1 V1 I2 So Hp Ht. exists st2, t1, 0, live1, ptes1, pts1. split; [done|].
  split; [exact (space_soft st1 t1 t1 live1 bp ptes1 pts1 st2 S1 (same_table_refl t1) I2 So Hp)|].
  split; [eapply keeps_trans; [done|]; apply keeps_same; [done|apply same_layout_zones; apply So|done]|].
  right. split; [done|]. intros va Hva. rewrite Ht, V1 by done. apply placed_layout, K1.
Qed.

Lemma first_node : bs <> [] -> (hd head (nodes (pg_mm st) bs) =? head) = false.
Proof.
  intros Hne. apply Z.eqb_neq. destruct (li_list _ _ _ _ (po_list _ _ _ _ _ _ _ _ Hpages)) as [Hnd _].
  apply NoDup_cons in Hnd as [Hh _]. destruct bs as [|b l]; [done|]. simpl. intros E. apply Hh. rewrite <- E. left.
Qed.

Lemma table_block st1 t1 live1 ptes1 pts1 i b : space st1 t1 live1 bp ptes1 pts1 -> ptes1 !! i = Some b ->
  b ∈ live1 /\ 0 < block_va (pg_mm st1) b /\ block_va (pg_mm st1) b mod 4096 = 0 /\ block_va (pg_mm st1) b + 4096 < 4294967296.
Proof.
  intros [I _ _ _] Hb. destruct (pi_pte _ _ _ _ _ _ _ I i b Hb) as (Hl & Hz & _). pose proof (pi_alloc _ _ _ _ _ _ _ I) as A.
  destruct (live_va _ _ _ A b Hl) as (V1 & _ & V3). destruct (live_in_section _ _ _ A b Hl) as [Hu Hin].
  pose proof (pi_mapped _ _ _ _ _ _ _ I _ Hz Hu). split; [done|]. split; [unfold block_va in *; lia|].
  split; [done|]. by eapply live_va_page.
Qed.

Lemma map_normal_ok : fits_window 0 base (Z.of_nat (length bs)) ->
  mapped_result 0 (pgt_map_normal_memory u fuel st t head base).
Proof.
  intros [Hr Hw]. unfold pgt_map_normal_memory. rewrite (proj2 (Z.eqb_neq base 0)) by lia.
  unfold list_next. rewrite (dlist_first _ _ _ (li_list _ _ _ _ (po_list _ _ _ _ _ _ _ _ Hpages))).
  assert (exists f, fuel = S f) as [f Ef] by (destruct fuel; [lia|eauto]). rewrite Ef. cbn [normal_loop]. destruct (decide (bs = [])) as [E|Hne].
  { rewrite E. cbn [nodes fmap list_fmap hd]. rewrite Z.eqb_refl. by apply map_nothing. }
  rewrite first_node by done. change (0 =? 0) with true. cbv iota.
  assert (0 < length bs)%nat as Hn by (destruct bs; simpl in *; [done|lia]).
  destruct (lookup_ok st t live bp ptes pts base Hspace ltac:(lia)) as (st1 & t1 & a & live1 & ptes1 & pts1 & -> & S1 & K1 & V1 & Ha).
  rewrite !Ret_bind. cbv beta iota. destruct Ha as [->|(bt & Hbt & -> & Hnz)].
  { exists st1, t1, (- ENOMEM), live1, ptes1, pts1. split; [done|]. split; [done|]. split; [done|]. by left. }
  rewrite (proj2 (Z.eqb_neq _ _) Hnz), ret_bind. cbv beta iota.
  destruct (table_block st1 t1 live1 ptes1 pts1 _ bt S1 Hbt) as (B1 & B2 & B3 & B4). pose proof (pti_range base) as Hi.
  rewrite normal_end by (done || lia).
  pose proof K1 as (_ & HL & _ & KP). destruct (KP head bs Hpages) as [P1 P2 P3 P4].
  destruct (normal_loop_ok u reserved live1 bp ptes1 bt head t1 base (256 * (pti base / 256 + 1)) bs (S f) st1 base
    (block_va (pg_mm st1) bt + 4 * pti base) head) as (st2 & E & I2 & So & Hp & Ht); try done; try lia.
  - apply S1.
  - Z.to_euclidean_division_equations; lia.
  - by destruct P1 as [[_ ?] _ _].
  - destruct P1 as [[Hnd _] _ _]. by apply NoDup_cons in Hnd as [? _].
  - intros _. split; [done|]. split; [done|]. Z.to_euclidean_division_equations; lia.
  - cbn [normal_loop] in E. rewrite (nodes_layout _ _ bs HL), first_node in E by done.
    destruct (Z.eqb_spec (block_va (pg_mm st1) bt + 4 * pti base) (block_va (pg_mm st1) bt + 4 * (256 * (pti base / 256 + 1))));
      [Z.to_euclidean_division_equations; lia|].
    rewrite ret_bind in E. cbv beta iota in E. rewrite E. by apply (mapped_by_loop 0 st1 t1 st2 live1 ptes1 pts1).
Qed.

Lemma map_stack_ok : fits_window PGT_MAP_STACK base (Z.of_nat (length bs)) ->
  mapped_result PGT_MAP_STACK (pgt_map_stack_memory u fuel st t head base).
Proof.
  intros (Hr & Hw1 & Hw2). unfold pgt_map_stack_memory. rewrite (proj2 (Z.eqb_neq base 0)) by lia.
  unfold list_next. rewrite (dlist_first _ _ _ (li_list _ _ _ _ (po_list _ _ _ _ _ _ _ _ Hpages))).
  assert (exists f, fuel = S f) as [f Ef] by (destruct fuel; [lia|eauto]). rewrite Ef. cbn [stack_loop]. destruct (decide (bs = [])) as [E|Hne].
  { rewrite E. cbn [nodes fmap list_fmap hd]. rewrite Z.eqb_refl. by apply map_nothing. }
  rewrite first_node by done. change (0 =? 0) with true. cbv iota.
  assert (0 < length bs)%nat as Hn by (destruct bs; simpl in *; [done|lia]).
  unfold PAGE_SIZE. rewrite (u32_small (base - 4096)) by lia. set (va := base - 4096) in *.
  destruct (lookup_ok st t live bp ptes pts va Hspace ltac:(lia)) as (st1 & t1 & a & live1 & ptes1 & pts1 & -> & S1 & K1 & V1 & Ha).
  rewrite !Ret_bind. cbv beta iota. destruct Ha as [->|(bt & Hbt & -> & Hnz)].
  { exists st1, t1, (- ENOMEM), live1, ptes1, pts1. split; [done|]. split; [done|]. split; [done|]. by left. }
  rewrite (proj2 (Z.eqb_neq _ _) Hnz), ret_bind. cbv beta iota.
  destruct (table_block st1 t1 live1 ptes1 pts1 _ bt S1 Hbt) as (B1 & B2 & B3 & B4). pose proof (pti_range va) as Hi.
  rewrite stack_end by (done || lia).
  pose proof K1 as (_ & HL & _ & KP). destruct (KP head bs Hpages) as [P1 P2 P3 P4].
  destruct (stack_loop_ok u reserved live1 bp ptes1 bt head t1 (block_va (pg_mm st1) bt + 1024 * (pti va / 256) - 1028) bs (S f) st1 base
    (block_va (pg_mm st1) bt + 4 * pti va) head) as (st2 & E & I2 & So & Hp & Ht); try done; try lia.
  - apply S1.
  - by destruct P1 as [[_ ?] _ _].
  - destruct P1 as [[Hnd _] _ _]. by apply NoDup_cons in Hnd as [? _].
  - intros _. fold va. split; [done|]. split; [done|]. split; [done|]. split; [|done]. Z.to_euclidean_division_equations; lia.
  - cbn [stack_loop] in E. rewrite (nodes_layout _ _ bs HL), first_node in E by done.
    unfold PAGE_SIZE in E. rewrite (u32_small (base - 4096)) in E by lia. fold va in E.
    destruct (Z.eqb_spec (block_va (pg_mm st1) bt + 4 * pti va) (block_va (pg_mm st1) bt + 1024 * (pti va / 256) - 1028));
      [Z.to_euclidean_division_equations; lia|].
    rewrite ret_bind in E. cbv beta iota in E. rewrite E. by apply (mapped_by_loop PGT_MAP_STACK st1 t1 st2 live1 ptes1 pts1).
Qed.

Lemma map_memory_ok type : fits_window type base (Z.of_nat (length bs)) ->
  mapped_result type (pgt_map_task_memory u fuel st t head base type).
Proof.
  unfold pgt_map_task_memory. destruct (Z.eqb_spec type PGT_MAP_STACK) as [->|Ht]; [apply map_stack_ok|].
  intros Hw. unfold fits_window in Hw. rewrite (proj2 (Z.eqb_neq _ _) Ht) in Hw.
  destruct (map_normal_ok Hw) as (st' & t' & ret & live' & ptes' & pts' & E & S' & K' & R).
  exists st', t', ret, live', ptes', pts'. split; [exact E|]. split; [done|]. split; [done|].
  unfold slot_of in *. by rewrite (proj2 (Z.eqb_neq _ _) Ht).
Qed.
End MapMemory.
End Space.
