(* ===== verification/Slab.v ===== *)
(** * The slab allocator (mm/slab.c)

    The pools are a list of the heads of their free lists; slab headers live in word
    memory, [size] at the header's address and the union of [magic] and [next] four
    bytes above.  The mutex is the flag [slab_mutex]: taking it while the same path
    holds it waits for ever. *)

From S2P Require Import Prelude Bitops Dlist Mm Mmu.

Definition SLAB_CACHE_SIZE : Z := 1048576.
Definition SLAB_HEADER_SIZE : Z := 8.
Definition SLAB_MAGIC : Z := 0x1234abcd.
Definition GFP_DMA : Z := __GFP_DMA.
Definition GFP_RES : Z := __GFP_RES.

(** The sizes of [slab_pool]: 16 to 512 in steps of 16, and the last pool. *)
Definition pool_size : list Z := map (fun i => 16 * Z.of_nat i) (seq 1 32) ++ [0].
Definition pool0_size : Z := 16.
Definition pool_nr : Z := Z.of_nat (length pool_size).

Record slab := Slab {
  s_mm : mm_bank;
  s_mem : gmap Z Z;
  pool_head : list Z;
  slab_mutex : bool;
  slab_free : Z;
  free_size : Z;
  alloc_size : Z;
  alloc_pages : Z;
  plist : Z }.

Definition SLAB_SIZE (size : Z) : Z := size + SLAB_HEADER_SIZE.
Definition header_to_base (header : Z) : Z := u32 (header + SLAB_HEADER_SIZE).
Definition base_to_header (base : Z) : Z := u32 (base - SLAB_HEADER_SIZE).

Definition set_slab_mm (s : slab) (mm : mm_bank) : slab :=
  Slab mm (s_mem s) (pool_head s) (slab_mutex s) (slab_free s) (free_size s) (alloc_size s)
    (alloc_pages s) (plist s).
Definition set_slab_mem (s : slab) (m : gmap Z Z) : slab :=
  Slab (s_mm s) m (pool_head s) (slab_mutex s) (slab_free s) (free_size s) (alloc_size s)
    (alloc_pages s) (plist s).
Definition set_pool_head (s : slab) (id h : Z) : slab :=
  Slab (s_mm s) (s_mem s) (<[Z.to_nat id := h]> (pool_head s)) (slab_mutex s) (slab_free s) (free_size s)
    (alloc_size s) (alloc_pages s) (plist s).
Definition set_free (s : slab) (base size : Z) : slab :=
  Slab (s_mm s) (s_mem s) (pool_head s) (slab_mutex s) base size (alloc_size s) (alloc_pages s) (plist s).
Definition set_mutex (s : slab) (b : bool) : slab :=
  Slab (s_mm s) (s_mem s) (pool_head s) b (slab_free s) (free_size s) (alloc_size s) (alloc_pages s)
    (plist s).

Definition mutex_lock (s : slab) : outcome slab :=
  if slab_mutex s then NoFuel else mret (set_mutex s true).
Definition mutex_unlock (s : slab) : slab := set_mutex s false.

Definition head_of (s : slab) (id : Z) : Z := default 0 (pool_head s !! Z.to_nat id).

Definition get_slab_alloc_size (size : Z) : Z := s32 (align size pool0_size).

Definition slab_pool_id (size : Z) : Z :=
  let id := Z.quot size pool0_size - 1 in
  if pool_nr <=? id then pool_nr - 1 else id.

(** The mutex stays locked when there is no page. *)
Definition alloc_new_slab_cache (s : slab) (size : Z) : outcome (slab * Z) :=
  let nr := page_nr size in
  s ← mutex_lock s;
  '(mm, pg) ← request_pages (s_mm s) nr GFP_SLAB;
  let s := set_slab_mm s mm in
  if pg =? 0 then mret (s, - ENOMEM)
  else
    let s := set_slab_mm s (add_page_to_list_tail (s_mm s) pg (plist s)) in
    let bytes := s32 (Z.shiftl nr PAGE_SHIFT) in
    let s := Slab (s_mm s) (s_mem s) (pool_head s) (slab_mutex s) (page_to_va (s_mm s) pg) bytes
               (s32 (alloc_size s + bytes)) (s32 (alloc_pages s + nr)) (plist s) in
    mret (mutex_unlock s, 0).

Definition get_slab_from_slab_pool (s : slab) (id : Z) : slab * Z :=
  let header := head_of s id in
  let s := set_pool_head s id (rd (s_mem s) (header + 4)) in
  (set_slab_mem s (wr (s_mem s) (header + 4) SLAB_MAGIC), header).

Definition add_slab_to_slab_pool (s : slab) (header id : Z) : slab :=
  let s := set_slab_mem s (wr (s_mem s) (header + 4) (head_of s id)) in
  set_pool_head s id header.

Definition get_slab_from_pool (s : slab) (size flag : Z) : outcome (slab * Z) :=
  let id := slab_pool_id size in
  s ← mutex_lock s;
  if head_of s id =? 0 then mret (mutex_unlock s, 0)
  else
    let '(s, header) := get_slab_from_slab_pool s id in
    mret (mutex_unlock s, header_to_base header).

Definition get_slab_from_slab_free (s : slab) (size flag : Z) : outcome (slab * Z) :=
  s ← mutex_lock s;
  let header := slab_free s in
  if free_size s <? SLAB_SIZE size then mret (mutex_unlock s, 0)
  else
    let m := wr (wr (s_mem s) header size) (header + 4) SLAB_MAGIC in
    let s := set_slab_mem s m in
    let s := set_free s (u32 (slab_free s + SLAB_SIZE size)) (free_size s - SLAB_SIZE size) in
    let s :=
      if free_size s <? SLAB_SIZE pool0_size then
        set_free (set_slab_mem s (wr (s_mem s) header (rd (s_mem s) header + free_size s))) 0 0
      else s in
    mret (mutex_unlock s, header_to_base header).

(** What is left of the current cache goes to a pool before a page is added. *)
Definition retire_cache (s : slab) : slab :=
  if SLAB_SIZE pool0_size <=? free_size s then
    let id := slab_pool_id (free_size s - SLAB_HEADER_SIZE) in
    let header := slab_free s in
    let m := wr (wr (s_mem s) header (free_size s - SLAB_HEADER_SIZE)) (header + 4) SLAB_MAGIC in
    let s := add_slab_to_slab_pool (set_slab_mem s m) header id in
    set_free s 0 0
  else s.

Definition __get_new_slab (s : slab) (size flag : Z) : outcome (slab * Z) :=
  s ← mutex_lock s;
  let s := mutex_unlock (retire_cache s) in
  '(s, err) ← alloc_new_slab_cache s PAGE_SIZE;
  if negb (err =? 0) then mret (s, 0) else get_slab_from_slab_free s size flag.

Definition get_new_slab (s : slab) (size flag : Z) : outcome (slab * Z) :=
  if (flag =? GFP_DMA) || (flag =? GFP_RES) || (PAGE_SIZE <=? size) then
    '(mm, a) ← get_free_pages (s_mm s) (page_nr size) flag;
    mret (set_slab_mm s mm, a)
  else __get_new_slab s size flag.

(** [while (1)] over the pools from [id] on; there are no more than 33. *)
Fixpoint big_slab_loop (fuel : nat) (s : slab) (id : Z) : option (option Z) :=
  match fuel with
  | O => None
  | S fuel =>
    if head_of s id =? 0 then
      if id + 1 =? pool_nr then Some None else big_slab_loop fuel s (id + 1)
    else Some (Some id)
  end.

Definition get_big_slab (s : slab) (size flag : Z) : outcome (slab * Z) :=
  let id := slab_pool_id size in
  s ← mutex_lock s;
  r ← fuelled (big_slab_loop 33 s id);
  match r with
  | None => mret (mutex_unlock s, 0)
  | Some id =>
    let '(s, header) := get_slab_from_slab_pool s id in
    mret (mutex_unlock s, header_to_base header)
  end.

(** The table [alloc_func], tried in order until one gives memory. *)
Fixpoint try_alloc (fs : list (slab -> Z -> Z -> outcome (slab * Z))) (s : slab) (size flag : Z)
  : outcome (slab * Z) :=
  match fs with
  | [] => mret (s, 0)
  | f :: fs =>
    '(s, ret) ← f s size flag;
    if negb (ret =? 0) then mret (s, ret) else try_alloc fs s size flag
  end.

Definition __kmalloc (s : slab) (size flag : Z) : outcome (slab * Z) :=
  if negb (Z.land flag __GFP_USER =? 0) then mret (s, 0)
  else
    let size := get_slab_alloc_size size in
    if negb (flag =? GFP_KERNEL) || (PAGE_SIZE <=? size) then get_new_slab s size flag
    else try_alloc [get_slab_from_pool; get_slab_from_slab_free; get_new_slab; get_big_slab] s size flag.

Definition kmalloc (s : slab) (size flag : Z) : outcome (slab * Z) :=
  if size <=? 0 then mret (s, 0)
  else if negb (flag =? GFP_KERNEL) && negb (flag =? GFP_DMA) && negb (flag =? GFP_RES) then mret (s, 0)
  else __kmalloc s size flag.

(** Clearing [size] bytes from a word boundary. *)
Definition memset_bytes (m : gmap Z Z) (base size : Z) : gmap Z Z :=
  let m := memset0 m base size in
  let last := base + 4 * (size / 4) in
  if size mod 4 =? 0 then m
  else wr m last (Z.land (rd m last) (lnot32 (Z.ones (8 * (size mod 4))))).

(** The result is cleared before it is tested. *)
Definition kzalloc (s : slab) (size flag : Z) : outcome (slab * Z) :=
  '(s, ret) ← kmalloc s size flag;
  if ret =? 0 then Fault else mret (set_slab_mem s (memset_bytes (s_mem s) ret size), ret).

Definition kfree (s : slab) (addr : Z) : outcome slab :=
  if addr =? 0 then mret s
  else
    s ← mutex_lock s;
    let header := base_to_header addr in
    s ← (if negb (rd (s_mem s) (header + 4) =? SLAB_MAGIC) then
           mm ← free_pages (s_mm s) addr; mret (set_slab_mm s mm)
         else mret (add_slab_to_slab_pool s header (slab_pool_id (rd (s_mem s) header))));
    mret (mutex_unlock s).

Definition slab_init (mm : mm_bank) (m : gmap Z Z) (plist : Z) : outcome (slab * Z) :=
  let mm := set_pages mm (pages mm) (init_list (plists mm) plist) in
  alloc_new_slab_cache (Slab mm m (replicate 33 0) false 0 0 0 0 plist) SLAB_CACHE_SIZE.
