(* ===== verification/SlabSpec.v ===== *)
(** * Correctness of the slab allocator (mm/slab.c)

    A slab is named by the address of its header.  The invariant says that the slabs
    handed out, the ones on the pools' free lists and the unused rest of the current
    cache are apart from each other and lie in pages the allocator owns. *)

From S2P Require Import Prelude Bitops Dlist Mm MmAlloc MmSpec Mmu Slab.

(** ** Free lists *)

Fixpoint flist (m : gmap Z Z) (a : Z) (l : list Z) : Prop :=
  match l with
  | [] => a = 0
  | h :: l => a = h /\ h <> 0 /\ flist m (rd m (h + 4)) l
  end.

Lemma flist_frame m m' a l :
  (forall h, h ∈ l -> rd m' (h + 4) = rd m (h + 4)) -> flist m a l -> flist m' a l.
Proof.
  revert a. induction l as [|h l IH]; intros a Hf; simpl; [done|].
  intros (-> & Hh & Hl). split; [done|]. split; [done|]. rewrite Hf by left.
  apply IH; [|done]. intros h' Hh'. apply Hf. by right.
Qed.

Lemma concat_insert {A} (ls : list (list A)) i x l :
  ls !! i = Some (x :: l) -> concat ls ≡ₚ x :: concat (<[i := l]> ls).
Proof.
  intros Hi. rewrite <- (take_drop_middle _ _ _ Hi) at 1.
  rewrite insert_take_drop by (by eapply lookup_lt_Some). rewrite !concat_app. simpl.
  by rewrite <- Permutation_middle.
Qed.

Lemma concat_elem {A} (ls : list (list A)) i l x : ls !! i = Some l -> x ∈ l -> x ∈ concat ls.
Proof.
  intros Hi Hx. rewrite <- (take_drop_middle _ _ _ Hi). rewrite concat_app. simpl. set_solver.
Qed.

Definition ssize (m : gmap Z Z) (h : Z) : Z := rd m h.

(** The bytes of a slab with its header. *)
Definition slabs_apart (m : gmap Z Z) (h h' : Z) : Prop :=
  ranges_apart h (8 + ssize m h) h' (8 + ssize m h').

Section Inv.
Context (reserved : sref -> Z -> Prop).

(** [a .. a+n) lies in one of the blocks [own]. *)
Definition owned (mm : mm_bank) (own : list block) (a n : Z) : Prop :=
  exists b, b ∈ own /\ block_va mm b <= a /\ a + n <= block_va mm b + 4096 * b_count b.

Record heap_ok (mm : mm_bank) (m : gmap Z Z) (own : list block) (all : list Z) : Prop := {
  ho_nodup : NoDup all;
  ho_slab : forall h, h ∈ all -> 0 < h /\ 16 <= ssize m h < 2147483648 /\ owned mm own h (8 + ssize m h);
  ho_apart : forall h h', h ∈ all -> h' ∈ all -> h <> h' -> slabs_apart m h h' }.

Record slab_inv (s : slab) (blocks own : list block) (pools : list (list Z)) (live : list Z) : Prop := {
  si_mutex : slab_mutex s = false;
  si_alloc : alloc_inv reserved (s_mm s) blocks;
  si_mapped : kernel_mapped (s_mm s);
  si_own : forall b, b ∈ own -> b ∈ blocks /\ (b_sec b).1 <> 3%nat;
  si_pools : length pools = 33%nat /\ length (pool_head s) = 33%nat;
  si_list : forall i l, pools !! i = Some l ->
    exists a, pool_head s !! i = Some a /\ flist (s_mem s) a l;
  si_class : forall i l h, pools !! i = Some l -> h ∈ l -> slab_pool_id (ssize (s_mem s) h) = Z.of_nat i;
  si_heap : heap_ok (s_mm s) (s_mem s) own (live ++ concat pools);
  si_magic : forall h, h ∈ live -> rd (s_mem s) (h + 4) = SLAB_MAGIC;
  si_free : free_size s = 0 \/ (24 <= free_size s < 2147483648 /\ 0 < slab_free s /\
    owned (s_mm s) own (slab_free s) (free_size s) /\
    forall h, h ∈ live ++ concat pools ->
      ranges_apart h (8 + ssize (s_mem s) h) (slab_free s) (free_size s)) }.

(** ** Memory changes that keep the slabs *)

Lemma heap_ok_frame mm m m' own all :
  (forall h, h ∈ all -> rd m' h = rd m h) -> heap_ok mm m own all -> heap_ok mm m' own all.
Proof.
  intros Hf [H1 H2 H3]. split; [done| |].
  - intros h Hh. unfold ssize. rewrite Hf by done. by apply H2.
  - intros h h' Hh Hh' Hne. unfold slabs_apart, ssize. rewrite !Hf by done. by apply H3.
Qed.

Lemma heap_ok_perm mm m own all all' : all ≡ₚ all' -> heap_ok mm m own all -> heap_ok mm m own all'.
Proof.
  intros Hp [H1 H2 H3]. split; [by rewrite <- Hp| |].
  - intros h Hh. apply H2. by rewrite Hp.
  - intros h h' Hh Hh'. apply H3; by rewrite Hp.
Qed.

(** Header words of different slabs are different words. *)
Lemma header_words mm m own all h h' :
  heap_ok mm m own all -> h ∈ all -> h' ∈ all -> h <> h' ->
  h + 4 <> h' /\ h + 4 <> h' + 4.
Proof.
  intros H Hh Hh' Hne. pose proof (ho_apart _ _ _ _ H h h' Hh Hh' Hne) as Ha.
  destruct (ho_slab _ _ _ _ H h Hh) as (_ & ? & _). destruct (ho_slab _ _ _ _ H h' Hh') as (_ & ? & _).
  unfold slabs_apart, ranges_apart in Ha. lia.
Qed.

Lemma own_word mm m own all h h' : heap_ok mm m own all -> h ∈ all -> h' ∈ all -> h + 4 <> h'.
Proof.
  intros H Hh Hh'. destruct (decide (h = h')) as [->|Hne]; [lia|]. by eapply header_words.
Qed.

Lemma pool_sizes_ok size : 0 < size <= 512 -> size mod 16 = 0 ->
  slab_pool_id size = size / 16 - 1 /\ 0 <= slab_pool_id size < 33.
Proof.
  clear reserved. intros Hs Hm. unfold slab_pool_id, pool0_size. rewrite Z.quot_div_nonneg by lia.
  change pool_nr with 33. zcase; Z.to_euclidean_division_equations; lia.
Qed.

Lemma pool_id_range size : 16 <= size -> 0 <= slab_pool_id size < 33.
Proof.
  clear reserved. intros Hs. unfold slab_pool_id, pool0_size. rewrite Z.quot_div_nonneg by lia.
  change pool_nr with 33. zcase; Z.to_euclidean_division_equations; lia.
Qed.

(** A slab found in the pool of a size, or a later one, is large enough. *)
Lemma pool_id_enough size k : 0 < size <= 512 -> size mod 16 = 0 -> 16 <= k ->
  slab_pool_id size <= slab_pool_id k -> size <= k.
Proof.
  clear reserved. intros Hs Hm Hk. unfold slab_pool_id, pool0_size. rewrite !Z.quot_div_nonneg by lia.
  change pool_nr with 33. zcases; Z.to_euclidean_division_equations; lia.
Qed.

(** ** Taking a slab from a pool, giving one back *)

Lemma pool_elem pools i l (h : Z) live : pools !! i = Some l -> h ∈ l -> h ∈ live ++ concat pools.
Proof. intros. apply elem_of_app. right. by eapply concat_elem. Qed.

Lemma pop_perm (pools : list (list Z)) i h l live :
  pools !! i = Some (h :: l) -> live ++ concat pools ≡ₚ (h :: live) ++ concat (<[i := l]> pools).
Proof. intros Hi. rewrite (concat_insert _ _ _ _ Hi). simpl. by rewrite Permutation_middle. Qed.

(** No word of a slab of [live] changed, header or contents. *)
Definition kept (m m' : gmap Z Z) (live : list Z) : Prop :=
  forall a, (exists k, k ∈ live /\ k <= a < k + 8 + ssize m k) -> rd m' a = rd m a.

Lemma kept_size m m' live k : kept m m' live -> k ∈ live -> 16 <= ssize m k -> ssize m' k = ssize m k.
Proof. intros H Hk Hs. apply H. exists k. split; [done|]. lia. Qed.

Lemma kept_trans m m' m'' live : (forall k, k ∈ live -> 16 <= ssize m k) ->
  kept m m' live -> kept m' m'' live -> kept m m'' live.
Proof.
  intros Hs H1 H2 a (k & Hk & Ha). rewrite H2, H1; [done|eauto|].
  exists k. split; [done|]. by rewrite (kept_size _ _ _ _ H1) by auto.
Qed.

Section Pools.
Context (s : slab) (blocks own : list block) (pools : list (list Z)) (live : list Z).
Hypothesis I : slab_inv s blocks own pools live.
Let all := live ++ concat pools.

Lemma head_of_pool i l : pools !! i = Some l -> flist (s_mem s) (head_of s (Z.of_nat i)) l.
Proof.
  intros Hi. destruct (si_list _ _ _ _ _ I i l Hi) as (a & Ha & Hl).
  unfold head_of. by rewrite Nat2Z.id, Ha.
Qed.

(** The state after one header word [h + 4] changed. *)
Lemma word_frame h v : h ∈ all ->
  let m' := wr (s_mem s) (h + 4) v in
  (forall k, k ∈ all -> rd m' k = rd (s_mem s) k) /\
  (forall k, k ∈ all -> k <> h -> rd m' (k + 4) = rd (s_mem s) (k + 4)).
Proof.
  intros Hh m'. pose proof (si_heap _ _ _ _ _ I) as H. split.
  - intros k Hk. apply rd_wr_ne. by eapply own_word.
  - intros k Hk Hne. apply rd_wr_ne. lia.
Qed.

Lemma pop_inv i h l : pools !! i = Some (h :: l) ->
  exists s', get_slab_from_slab_pool s (Z.of_nat i) = (s', h) /\
    s_mm s' = s_mm s /\ slab_inv s' blocks own (<[i := l]> pools) (h :: live) /\
    s_mem s' = wr (s_mem s) (h + 4) SLAB_MAGIC /\ ssize (s_mem s') h = ssize (s_mem s) h /\ h ∉ live.
Proof.
  intros Hi. pose proof (head_of_pool _ _ Hi) as (Eh & Hh0 & Hl).
  assert (h ∈ all) as Hall by (by eapply pool_elem; [|left]).
  destruct (word_frame h SLAB_MAGIC Hall) as [Fsz Fw].
  pose proof (pop_perm pools i h l live Hi) as Hp.
  assert (NoDup ((h :: live) ++ concat (<[i := l]> pools))) as Hnd
    by (rewrite <- Hp; apply (ho_nodup _ _ _ _ (si_heap _ _ _ _ _ I))).
  apply NoDup_cons in Hnd as Hnd'. destruct Hnd' as [Hnot _].
  assert (forall k, k ∈ (h :: live) ++ concat (<[i := l]> pools) -> k ∈ all) as Hsub
    by (intros k Hk; unfold all; by rewrite Hp).
  unfold get_slab_from_slab_pool. rewrite Eh. eexists. split; [done|]. split; [done|].
  pose proof I as [I1 I2 IM I3 [I4 I4'] I5 I6 I7 I8 I9].
  split; [|split; [done|split; [apply Fsz; done|intros Hin; apply Hnot, elem_of_app; by left]]].
  assert (forall j l', <[i := l]> pools !! j = Some l' -> forall k, k ∈ l' -> k <> h) as Hnoth.
  { intros j l' Hj k Hk ->. apply Hnot, elem_of_app. right. by eapply concat_elem. }
  split; cbn [slab_mutex s_mm s_mem pool_head free_size slab_free set_slab_mem set_pool_head]; try done.
  - by rewrite !length_insert.
  - rewrite Nat2Z.id. intros j l' Hj. specialize (Hnoth j l' Hj).
    assert (forall k, k ∈ l' -> rd (wr (s_mem s) (h + 4) SLAB_MAGIC) (k + 4) = rd (s_mem s) (k + 4)) as Hfr.
    { intros k Hk. apply Fw; [|auto]. apply Hsub. by eapply pool_elem. }
    destruct (decide (j = i)) as [->|Hne].
    + rewrite list_lookup_insert_eq in Hj by (by eapply lookup_lt_Some). injection Hj as <-.
      eexists. split; [apply list_lookup_insert_eq; rewrite I4', <- I4; by eapply lookup_lt_Some|].
      by eapply flist_frame.
    + rewrite list_lookup_insert_ne in Hj by done. destruct (I5 j l' Hj) as (a & Ha & Hla).
      exists a. rewrite list_lookup_insert_ne by done. split; [done|]. by eapply flist_frame.
  - intros j l' k Hj Hk. unfold ssize. rewrite Fsz by (apply Hsub; by eapply pool_elem).
    destruct (decide (j = i)) as [->|Hne].
    + rewrite list_lookup_insert_eq in Hj by (by eapply lookup_lt_Some). injection Hj as <-.
      apply (I6 i (h :: l) k Hi). by right.
    + rewrite list_lookup_insert_ne in Hj by done. by eapply I6.
  - eapply heap_ok_perm; [exact Hp|]. eapply heap_ok_frame; [exact Fsz|exact I7].
  - intros k [->|Hk]%elem_of_cons; [apply rd_wr_eq|].
    rewrite Fw; [by apply I8|apply elem_of_app; by left|intros ->; apply Hnot, elem_of_app; by left].
  - destruct I9 as [?|(F1 & F2 & F3 & F4)]; [by left|right]. split_and!; try done; try lia.
    intros k Hk. unfold ssize. rewrite Fsz by (by apply Hsub). apply F4. by apply Hsub.
Qed.

Lemma push_inv i l h l1 l2 :
  live = l1 ++ h :: l2 -> pools !! i = Some l -> slab_pool_id (ssize (s_mem s) h) = Z.of_nat i ->
  let s' := add_slab_to_slab_pool s h (Z.of_nat i) in
  slab_inv s' blocks own (<[i := h :: l]> pools) (l1 ++ l2) /\ forall k, k ∈ all -> ssize (s_mem s') k = ssize (s_mem s) k.
Proof.
  intros El Hi Hid. simpl.
  assert (h ∈ live) as Hlive by (rewrite El; apply elem_of_app; right; left).
  assert (h ∈ all) as Hall by (apply elem_of_app; by left).
  destruct (word_frame h (head_of s (Z.of_nat i)) Hall) as [Fsz Fw].
  pose proof (head_of_pool _ _ Hi) as Hl.
  pose proof (lookup_lt_Some _ _ _ Hi) as Hlt.
  assert (all ≡ₚ (l1 ++ l2) ++ concat (<[i := h :: l]> pools)) as Hp.
  { rewrite (concat_insert (<[i := h :: l]> pools) i h l) by (by apply list_lookup_insert_eq).
    rewrite list_insert_insert_eq, list_insert_id by done. unfold all. rewrite El.
    rewrite <- app_assoc. simpl. by rewrite <- !Permutation_middle, app_assoc. }
  pose proof I as [I1 I2 IM I3 [I4 I4'] I5 I6 I7 I8 I9]. split; [|exact Fsz].
  assert (NoDup all) as Hnd by apply I7.
  assert (forall j l' k, pools !! j = Some l' -> k ∈ l' -> k <> h) as Hnoth.
  { intros j l' k Hj Hk ->. apply NoDup_app in Hnd as (_ & Hnd & _). apply (Hnd h); [done|].
    by eapply concat_elem. }
  assert (forall j l', pools !! j = Some l' -> forall a, flist (s_mem s) a l' ->
    flist (wr (s_mem s) (h + 4) (head_of s (Z.of_nat i))) a l') as Hfl.
  { intros j l' Hj a. apply flist_frame. intros k Hk. apply Fw; [by eapply pool_elem|by eapply Hnoth]. }
  split; cbn [slab_mutex s_mm s_mem pool_head free_size slab_free set_slab_mem set_pool_head add_slab_to_slab_pool];
    try done; rewrite ?Nat2Z.id.
  - by rewrite !length_insert.
  - intros j l' [(<- & <- & _)|(Hne & Hj)]%list_lookup_insert_Some.
    + exists h. split; [apply list_lookup_insert_eq; lia|]. simpl. split; [done|].
      split; [|rewrite rd_wr_eq; by eapply Hfl].
      destruct (ho_slab _ _ _ _ I7 h Hall) as (? & _). lia.
    + destruct (I5 j l' Hj) as (a & Ha & Hla). exists a. rewrite list_lookup_insert_ne by done.
      split; [done|]. by eapply Hfl.
  - intros j l' k [(<- & <- & _)|(Hne & Hj)]%list_lookup_insert_Some Hk; unfold ssize.
    + apply elem_of_cons in Hk as [->|Hk]; [by rewrite Fsz|].
      rewrite Fsz by (by eapply pool_elem). by eapply I6.
    + rewrite Fsz by (by eapply pool_elem). by eapply I6.
  - eapply heap_ok_perm; [exact Hp|]. eapply heap_ok_frame; [exact Fsz|exact I7].
  - intros k Hk. assert (k ∈ live) as Hkl by (rewrite El; set_solver).
    rewrite Fw; [by apply I8|apply elem_of_app; by left|]. intros ->.
    apply NoDup_app in Hnd as (Hnd & _). rewrite El in Hnd.
    rewrite <- Permutation_middle in Hnd. by apply NoDup_cons in Hnd as [? _].
  - destruct I9 as [?|(F1 & F2 & F3 & F4)]; [by left|right]. split_and!; try done; try lia.
    intros k Hk. rewrite <- Hp in Hk. unfold ssize. rewrite Fsz by done. by apply F4.
Qed.
(** The front of the current cache becomes a slab of [k] bytes; what is left is the new
    cache. *)
Lemma carve_inv k m' base' size' :
  let h := slab_free s in
  16 <= k -> 8 + k <= free_size s -> rd m' h = k -> rd m' (h + 4) = SLAB_MAGIC ->
  (forall a, a <> h -> a <> h + 4 -> rd m' a = rd (s_mem s) a) ->
  size' = 0 \/ (24 <= size' /\ base' = h + 8 + k /\ 8 + k + size' = free_size s) ->
  slab_inv (set_free (set_slab_mem s m') base' size') blocks own pools (h :: live) /\ h ∉ live /\
  forall k, k ∈ all -> ssize m' k = ssize (s_mem s) k.
Proof.
  intros h Hk Hfit Rs Rm Fr Hrest.
  pose proof I as [I1 I2 IM I3 I4 I5 I6 I7 I8 I9].
  destruct I9 as [?|(F1 & F2 & F3 & F4)]; [lia|]. fold h in F2, F3, F4.
  assert (forall x, x ∈ all -> ssize m' x = ssize (s_mem s) x /\ rd m' (x + 4) = rd (s_mem s) (x + 4) /\
    ranges_apart x (8 + ssize m' x) h (8 + k) /\ x <> h /\ 16 <= ssize m' x) as Hold.
  { intros x Hx. pose proof (F4 x Hx) as Ha. destruct (ho_slab _ _ _ _ I7 x Hx) as (_ & Hs & _).
    unfold ranges_apart, ssize in *. rewrite (Fr x) by lia. rewrite Fr by lia. repeat split; try done; try lia. }
  assert (h ∉ all) as Hnew by (intros Hin; by apply Hold in Hin as (_ & _ & _ & ? & _)).
  split; [|split; [intros Hin; apply Hnew, elem_of_app; by left|intros x Hx; by apply Hold]].
  split; cbn [slab_mutex s_mm s_mem pool_head free_size slab_free set_slab_mem set_free]; try done.
  - intros i l Hi. destruct (I5 i l Hi) as (a & Ha & Hl). exists a. split; [done|].
    eapply flist_frame; [|exact Hl]. intros x Hx. apply Hold. by eapply pool_elem.
  - intros i l x Hi Hx. destruct (Hold x) as (-> & _); [by eapply pool_elem|]. by eapply I6.
  - destruct I7 as [J1 J2 J3]. split.
    + simpl. by apply NoDup_cons.
    + intros x [->|Hx]%elem_of_cons.
      * unfold ssize. rewrite Rs. split; [done|]. split; [lia|].
        destruct F3 as (b & Hb & ? & ?). exists b. split; [done|]. lia.
      * destruct (Hold x Hx) as (-> & _). by apply J2.
    + intros x y [->|Hx]%elem_of_cons [->|Hy]%elem_of_cons Hne; [done| | |].
      * destruct (Hold y Hy) as (_ & _ & Ha & _). unfold slabs_apart, ranges_apart in *. unfold ssize in *. lia.
      * destruct (Hold x Hx) as (_ & _ & Ha & _). unfold slabs_apart, ranges_apart in *. unfold ssize in *. lia.
      * unfold slabs_apart. destruct (Hold x Hx) as (-> & _), (Hold y Hy) as (-> & _). by apply J3.
  - intros x [->|Hx]%elem_of_cons; [done|]. destruct (Hold x) as (_ & -> & _); [apply elem_of_app; by left|].
    by apply I8.
  - destruct Hrest as [->|(R1 & -> & R3)]; [by left|right]. split; [lia|]. split; [lia|].
    split; [destruct F3 as (b & Hb & ? & ?); exists b; split; [done|]; lia|].
    intros x [->|Hx]%elem_of_cons; [unfold ranges_apart, ssize; lia|].
    pose proof (F4 x Hx) as Ha. destruct (Hold x Hx) as (-> & _). unfold ranges_apart in *. lia.
Qed.
Lemma header_elsewhere h k a :
  h ∈ all -> k ∈ all -> k <> h -> k <= a < k + 8 + ssize (s_mem s) k -> a <> h + 4.
Proof.
  intros Hh Hk Hne Ha. pose proof (si_heap _ _ _ _ _ I) as H.
  pose proof (ho_apart _ _ _ _ H k h Hk Hh Hne) as Hap. destruct (ho_slab _ _ _ _ H h Hh) as (_ & ? & _).
  unfold slabs_apart, ranges_apart in Hap. lia.
Qed.

Lemma word_kept h v l : h ∈ all -> (forall k, k ∈ l -> k ∈ all /\ k <> h) ->
  kept (s_mem s) (wr (s_mem s) (h + 4) v) l.
Proof.
  intros Hh Hl a (k & Hk & Ha). destruct (Hl k Hk) as [? ?]. apply rd_wr_ne. intros Heq.
  by eapply (header_elsewhere h k a).
Qed.

Lemma cache_kept m' : free_size s <> 0 ->
  (forall a, a <> slab_free s -> a <> slab_free s + 4 -> rd m' a = rd (s_mem s) a) ->
  kept (s_mem s) m' live.
Proof.
  intros Hf Fr a (k & Hk & Ha).
  destruct (si_free _ _ _ _ _ I) as [?|(F1 & F2 & F3 & F4)]; [done|].
  assert (ranges_apart k (8 + ssize (s_mem s) k) (slab_free s) (free_size s)) as Hap
    by (apply F4, elem_of_app; by left).
  unfold ranges_apart in Hap. apply Fr; lia.
Qed.
End Pools.
(** ** Adding pages *)

Lemma owned_layout mm mm' own a n : same_layout mm mm' -> owned mm own a n -> owned mm' own a n.
Proof.
  intros HL (b & Hb & H1 & H2). exists b. destruct (block_layout _ _ b HL) as (-> & _). done.
Qed.

Lemma owned_more mm own b a n : owned mm own a n -> owned mm (b :: own) a n.
Proof. intros (b' & Hb & H). exists b'. split; [by right|done]. Qed.

Lemma mapped_layout mm mm' : same_layout mm mm' -> kernel_mapped mm -> kernel_mapped mm'.
Proof.
  intros HL H r Hr Hu. destruct (layout_fields _ _ r HL) as (_ & -> & _).
  apply H; [done|]. by apply (used_sec_layout _ _ _ HL).
Qed.

Lemma add_page_soft mm pg l : soft mm (add_page_to_list_tail mm pg l) /\
  pages (add_page_to_list_tail mm pg l) = pages mm.
Proof. unfold add_page_to_list_tail. split; [apply soft_plists|done]. Qed.

Lemma page_va_soft mm pg l : page_to_va (add_page_to_list_tail mm pg l) pg = page_to_va mm pg.
Proof. done. Qed.

Definition cache_of (s : slab) (mm : mm_bank) (base bytes sz np : Z) : slab :=
  Slab mm (s_mem s) (pool_head s) false base bytes sz np (plist s).

Lemma new_cache_keeps s blocks own pools live mm' b sz np :
  slab_inv s blocks own pools live -> new_page_ok reserved (s_mm s) mm' blocks b -> 0 < b_count b < 65536 ->
  forall l, slab_inv (cache_of s (add_page_to_list_tail mm' (block_page mm' b) l) (block_va mm' b) (4096 * b_count b) sz np)
    (b :: blocks) (b :: own) pools live.
Proof.
  intros [I1 I2 IM I3 I4 I5 I6 I7 I8 I9] [N1 N2 N3 N4 N5 N6] Hn l.
  destruct (add_page_soft mm' (block_page mm' b) l) as [S _].
  assert (same_layout mm' (add_page_to_list_tail mm' (block_page mm' b) l)) as HL' by (apply same_layout_zones; apply S).
  assert (same_layout (s_mm s) (add_page_to_list_tail mm' (block_page mm' b) l)) as HL by (by etrans).
  destruct (block_layout _ _ b HL') as (Ev & _).
  assert (b ∈ b :: blocks) as Hb by left.
  pose proof (live_va _ _ _ N2 b Hb) as (V1 & _).
  assert (0 < block_va mm' b) as Hpos.
  { destruct (bok_range _ _ (inv_live _ _ _ N2 b Hb)) as (R1 & _).
    pose proof (mapped_layout _ _ N1 IM (b_sec b) N3 (bok_sec _ _ (inv_live _ _ _ N2 b Hb))).
    unfold block_va. lia. }
  split; cbn [slab_mutex s_mm s_mem pool_head free_size slab_free cache_of]; try done.
  - by eapply soft_inv.
  - by eapply mapped_layout.
  - intros b' [->|Hb']%elem_of_cons; [by split; [left|]|].
    destruct (I3 b' Hb') as [? ?]. split; [by right|done].
  - destruct I7 as [J1 J2 J3]. split; [done| |done]. intros h Hh. destruct (J2 h Hh) as (? & ? & ?).
    split_and!; try done; try lia. by eapply owned_more, owned_layout.
  - right. split; [lia|]. split; [done|].
    split; [exists b; rewrite Ev; split; [left|]; lia|]. intros h Hh.
    destruct (ho_slab _ _ _ _ I7 h Hh) as (_ & _ & b' & Hb' & ? & ?).
    destruct (I3 b' Hb') as [Hb2 Hz]. assert (b' <> b) as Hne by (intros ->; done).
    pose proof (live_va_ranges _ _ _ N2 b' b ltac:(by right) Hb Hne Hz) as Ha.
    destruct (block_layout _ _ b' N1) as (E' & _). unfold ranges_apart in *. lia.
Qed.

(** A cache of [size] bytes: there is a new block of pages, or none and the mutex stays
    locked. *)
Lemma alloc_new_slab_cache_spec s blocks own pools live size :
  slab_inv s blocks own pools live -> start_ok (s_mm s) -> 0 < size <= 268431360 ->
  exists s' err, alloc_new_slab_cache s size = Ret (s', err) /\
    ((err = - ENOMEM /\ slab_mutex s' = true /\
      exists mm', request_pages (s_mm s) (page_nr size) GFP_SLAB = Ret (mm', 0)) \/
     (err = 0 /\ s_mem s' = s_mem s /\ free_size s' = 4096 * page_nr size /\
      exists b, slab_inv s' (b :: blocks) (b :: own) pools live)).
Proof.
  intros I Hst Hsz. pose proof (si_alloc _ _ _ _ _ I) as A.
  assert (0 < page_nr size < 65536) as Hn by (rewrite page_nr_spec; Z.to_euclidean_division_equations; lia).
  unfold alloc_new_slab_cache, mutex_lock. rewrite (si_mutex _ _ _ _ _ I), ret_bind.
  destruct (request_kernel_page reserved (s_mm s) blocks (page_nr size) GFP_SLAB A Hst Hn)
    as (mm1 & pg & E & H); [by vm_compute|by vm_compute|].
  change (s_mm (set_mutex s true)) with (s_mm s). rewrite E, Ret_bind. cbv beta iota.
  destruct H as [[-> Q]|(b & Hc1 & -> & Hne & N)].
  { eexists _, _. split; [done|]. left. split; [done|]. split; [done|]. by exists mm1. }
  rewrite (proj2 (Z.eqb_neq _ 0) Hne). eexists _, _. split; [done|]. right. split; [done|].
  split; [done|].
  assert (s32 (Z.shiftl (page_nr size) PAGE_SHIFT) = 4096 * page_nr size) as Eb.
  { rewrite Z.shiftl_mul_pow2 by (unfold PAGE_SHIFT; lia). change (2 ^ PAGE_SHIFT) with 4096.
    rewrite s32_small; lia. }
  split; [exact Eb|]. exists b.
  pose proof (new_cache_keeps s blocks own pools live mm1 b
    (s32 (alloc_size s + 4096 * page_nr size)) (s32 (alloc_pages s + page_nr size)) I N ltac:(lia) (plist s)) as K.
  rewrite Hc1 in K.
  rewrite <- (kernel_page_va reserved mm1 (b :: blocks) b (np_alloc _ _ _ _ _ N) ltac:(left)
    (np_kernel _ _ _ _ _ N)) in K.
  unfold mutex_unlock, set_mutex. cbn [s_mm s_mem pool_head slab_free free_size alloc_size alloc_pages plist set_slab_mm].
  rewrite page_va_soft, Eb. exact K.
Qed.
(** ** Each allocation function *)

(** A slab [h] of at least [size] bytes was handed out; [new] are the pages added. *)
Definition gave (s : slab) (blocks : list block) (live : list Z) (size : Z) (s' : slab) (h : Z) : Prop :=
  exists new own' pools', slab_inv s' (new ++ blocks) own' pools' (h :: live) /\ h ∉ live /\
    size <= ssize (s_mem s') h /\ kept (s_mem s) (s_mem s') live.

Lemma live_sizes s blocks own pools live k : slab_inv s blocks own pools live -> k ∈ live -> 16 <= ssize (s_mem s) k.
Proof.
  intros I Hk. assert (k ∈ live ++ concat pools) as Hk' by (apply elem_of_app; by left).
  destruct (ho_slab _ _ _ _ (si_heap _ _ _ _ _ I) k Hk') as (_ & ? & _). lia.
Qed.

(** The address handed out for a header, and back. *)
Lemma base_of_header s blocks own pools live h : slab_inv s blocks own pools live -> h ∈ live ->
  header_to_base h = h + 8 /\ base_to_header (h + 8) = h /\ 0 < h.
Proof.
  intros I Hh. assert (h ∈ live ++ concat pools) as Hh' by (apply elem_of_app; by left).
  destruct (ho_slab _ _ _ _ (si_heap _ _ _ _ _ I) h Hh') as (? & ? & b & Hb & ? & ?).
  destruct (si_own _ _ _ _ _ I b Hb) as [Hb' _].
  pose proof (live_va_end _ _ _ (si_alloc _ _ _ _ _ I) b Hb').
  unfold header_to_base, base_to_header, SLAB_HEADER_SIZE. rewrite !u32_small by lia. lia.
Qed.

Lemma get_slab_from_pool_spec s blocks own pools live size flag :
  slab_inv s blocks own pools live -> 0 < size <= 512 -> size mod 16 = 0 ->
  get_slab_from_pool s size flag = Ret (s, 0) \/
  exists s' h, get_slab_from_pool s size flag = Ret (s', h + 8) /\ gave s blocks live size s' h.
Proof.
  intros I Hs Hm. destruct (pool_sizes_ok size Hs Hm) as [_ Hid].
  set (i := Z.to_nat (slab_pool_id size)). assert (slab_pool_id size = Z.of_nat i) as Ei by lia.
  destruct (si_pools _ _ _ _ _ I) as [Lp _].
  destruct (lookup_lt_is_Some_2 pools i) as [l Hi]; [lia|].
  pose proof (head_of_pool _ _ _ _ _ I i l Hi) as Hl.
  assert (get_slab_from_pool s size flag = Ret (if head_of s (Z.of_nat i) =? 0 then (s, 0) else
    let '(s', h) := get_slab_from_slab_pool s (Z.of_nat i) in (s', header_to_base h))) as ->.
  { unfold get_slab_from_pool, mutex_lock. rewrite (si_mutex _ _ _ _ _ I), Ei. pose proof (si_mutex _ _ _ _ _ I) as Hmu.
    destruct s; simpl in Hmu. subst. unfold head_of. simpl. by destruct (_ =? 0). }
  destruct l as [|h l]; simpl in Hl; [rewrite Hl; by left|]. destruct Hl as (Eh & Hh & _). rewrite Eh.
  rewrite (proj2 (Z.eqb_neq _ 0) Hh). right.
  destruct (pop_inv _ _ _ _ _ I i h l Hi) as (s' & -> & _ & I' & Em & Esz & Hnew).
  exists s', h. destruct (base_of_header _ _ _ _ _ h I') as (-> & _); [left|]. split; [done|].
  assert (h ∈ live ++ concat pools) as Hall by (by eapply pool_elem; [|left]).
  destruct (ho_slab _ _ _ _ (si_heap _ _ _ _ _ I) h Hall) as (_ & ? & _).
  exists [], own, (<[i := l]> pools). split; [done|]. split; [done|]. split.
  - rewrite Esz. apply pool_id_enough; [done..|lia|].
    rewrite (si_class _ _ _ _ _ I i (h :: l) h Hi) by left. lia.
  - rewrite Em. eapply word_kept; [exact I|done|]. intros k Hk. split; [apply elem_of_app; by left|]. by intros ->.
Qed.
(** The state [get_slab_from_slab_free] leaves when the cache is large enough. *)
Definition carved (s : slab) (size : Z) : slab :=
  let header := slab_free s in
  let rest := free_size s - SLAB_SIZE size in
  let m := wr (wr (s_mem s) header size) (header + 4) SLAB_MAGIC in
  if rest <? SLAB_SIZE pool0_size then set_free (set_slab_mem s (wr m header (size + rest))) 0 0
  else set_free (set_slab_mem s m) (u32 (slab_free s + SLAB_SIZE size)) rest.

Lemma get_slab_from_slab_free_carved s size flag : slab_mutex s = false ->
  get_slab_from_slab_free s size flag =
  Ret (if free_size s <? SLAB_SIZE size then (s, 0) else (carved s size, header_to_base (slab_free s))).
Proof.
  intros Hmu. destruct s; simpl in Hmu. subst. unfold get_slab_from_slab_free, mutex_lock, carved. simpl.
  destruct (_ <? _); [done|]. rewrite rd_wr_ne, rd_wr_eq by lia. by destruct (_ <? _).
Qed.

Lemma carved_spec s blocks own pools live size :
  slab_inv s blocks own pools live -> 16 <= size -> SLAB_SIZE size <= free_size s ->
  slab_inv (carved s size) blocks own pools (slab_free s :: live) /\ slab_free s ∉ live /\
  size <= ssize (s_mem (carved s size)) (slab_free s) /\ kept (s_mem s) (s_mem (carved s size)) live.
Proof.
  intros I Hs Hfit. unfold SLAB_SIZE, SLAB_HEADER_SIZE in Hfit.
  assert (free_size s <> 0) as Hf by lia.
  assert (slab_free s + free_size s < 4294967296) as Hend.
  { destruct (si_free _ _ _ _ _ I) as [?|(_ & _ & (b & Hb & _ & ?) & _)]; [done|].
    destruct (si_own _ _ _ _ _ I b Hb) as [Hb' _].
    pose proof (live_va_end _ _ _ (si_alloc _ _ _ _ _ I) b Hb'). lia. }
  assert (0 < slab_free s) as Hpos by (destruct (si_free _ _ _ _ _ I) as [?|(_ & ? & _)]; done).
  unfold carved, SLAB_SIZE, SLAB_HEADER_SIZE, pool0_size.
  set (m := wr (wr (s_mem s) (slab_free s) size) (slab_free s + 4) SLAB_MAGIC).
  destruct (Z.ltb_spec (free_size s - (size + 8)) (16 + 8)).
  - set (m' := wr m _ _).
    assert (forall a, a <> slab_free s -> a <> slab_free s + 4 -> rd m' a = rd (s_mem s) a) as Fr.
    { intros a ? ?. unfold m', m. by rewrite !rd_wr_ne. }
    destruct (carve_inv s blocks own pools live I (size + (free_size s - (size + 8))) m' 0 0) as (I' & Hn & _);
      [lia|lia|by apply rd_wr_eq| |done|by left|].
    { unfold m', m. rewrite rd_wr_ne by lia. by rewrite rd_wr_eq. }
    split; [done|]. split; [done|]. split; [|by eapply cache_kept].
    cbn [s_mem set_free set_slab_mem]. unfold ssize, m'. rewrite rd_wr_eq. lia.
  - assert (forall a, a <> slab_free s -> a <> slab_free s + 4 -> rd m a = rd (s_mem s) a) as Fr.
    { intros a ? ?. unfold m. by rewrite !rd_wr_ne. }
    assert (rd m (slab_free s) = size) as Esz by (unfold m; rewrite rd_wr_ne by lia; apply rd_wr_eq).
    rewrite u32_small by lia.
    destruct (carve_inv s blocks own pools live I size m (slab_free s + (size + 8)) (free_size s - (size + 8)))
      as (I' & Hn & _); [lia|lia|done|by apply rd_wr_eq|done|right; lia|].
    split; [done|]. split; [done|]. split; [|by eapply cache_kept].
    cbn [s_mem set_free set_slab_mem]. unfold ssize. lia.
Qed.

Lemma get_slab_from_slab_free_spec s blocks own pools live size flag :
  slab_inv s blocks own pools live -> 16 <= size ->
  (free_size s < SLAB_SIZE size /\ get_slab_from_slab_free s size flag = Ret (s, 0)) \/
  exists s' h, get_slab_from_slab_free s size flag = Ret (s', h + 8) /\ gave s blocks live size s' h.
Proof.
  intros I Hs. rewrite get_slab_from_slab_free_carved by apply I.
  destruct (Z.ltb_spec (free_size s) (SLAB_SIZE size)); [by left|right].
  destruct (carved_spec _ _ _ _ _ size I) as (I' & Hn & Hsz & Hk); [done..|].
  exists (carved s size), (slab_free s).
  destruct (base_of_header _ _ _ _ _ (slab_free s) I') as (-> & _); [left|].
  split; [done|]. exists [], own, pools. done.
Qed.

(** The rest of the cache joins the pool of its size. *)
Lemma retire_cache_spec s blocks own pools live : slab_inv s blocks own pools live ->
  exists pools', slab_inv (retire_cache s) blocks own pools' live /\ s_mm (retire_cache s) = s_mm s /\
    kept (s_mem s) (s_mem (retire_cache s)) live.
Proof.
  intros I. unfold retire_cache, SLAB_SIZE, SLAB_HEADER_SIZE, pool0_size.
  destruct (Z.leb_spec (16 + 8) (free_size s)) as [Hf|]; [|by exists pools].
  set (m := wr (wr (s_mem s) (slab_free s) (free_size s - 8)) (slab_free s + 4) SLAB_MAGIC).
  assert (forall a, a <> slab_free s -> a <> slab_free s + 4 -> rd m a = rd (s_mem s) a) as Fr.
  { intros a ? ?. unfold m. by rewrite !rd_wr_ne. }
  assert (rd m (slab_free s) = free_size s - 8) as Esz by (unfold m; rewrite rd_wr_ne by lia; apply rd_wr_eq).
  destruct (carve_inv s blocks own pools live I (free_size s - 8) m 0 0) as (I' & Hn & _);
    [lia|lia|done|by apply rd_wr_eq|done|by left|].
  set (s1 := set_free (set_slab_mem s m) 0 0) in I'.
  pose proof (pool_id_range (free_size s - 8) ltac:(lia)) as Hid.
  set (i := Z.to_nat (slab_pool_id (free_size s - 8))).
  assert (slab_pool_id (free_size s - 8) = Z.of_nat i) as Ei by lia. rewrite Ei.
  destruct (si_pools _ _ _ _ _ I) as [Lp _]. destruct (lookup_lt_is_Some_2 pools i) as [l Hi]; [lia|].
  destruct (push_inv s1 blocks own pools (slab_free s :: live) I' i l (slab_free s) [] live) as [I2 _];
    [done|done|unfold ssize; simpl; by rewrite Esz|].
  eexists. split; [exact I2|]. split; [done|].
  eapply kept_trans; [intros k Hk; by eapply live_sizes|by eapply cache_kept; [|lia|]|].
  eapply (word_kept s1); [exact I'|left|]. intros k Hk. split; [right; apply elem_of_app; by left|].
  by intros ->.
Qed.
Lemma __get_new_slab_unlocked s size flag : slab_mutex s = false ->
  __get_new_slab s size flag =
  ('(s', err) ← alloc_new_slab_cache (retire_cache s) PAGE_SIZE;
   if negb (err =? 0) then mret (s', 0) else get_slab_from_slab_free s' size flag).
Proof.
  intros Hmu. unfold __get_new_slab, mutex_lock. rewrite Hmu, ret_bind. do 2 f_equal.
  destruct s; simpl in Hmu. subst. unfold retire_cache. simpl. by destruct (_ <=? _).
Qed.

Lemma __get_new_slab_spec s blocks own pools live size flag :
  slab_inv s blocks own pools live -> start_ok (s_mm s) -> 16 <= size <= 4088 ->
  (exists s' h, __get_new_slab s size flag = Ret (s', h + 8) /\ gave s blocks live size s' h) \/
  (exists s' mm', __get_new_slab s size flag = Ret (s', 0) /\ slab_mutex s' = true /\
     request_pages (s_mm s) 1 GFP_SLAB = Ret (mm', 0)).
Proof.
  intros I Hst Hs. rewrite __get_new_slab_unlocked by apply I.
  destruct (retire_cache_spec _ _ _ _ _ I) as (pools1 & I1 & Emm & K1).
  destruct (alloc_new_slab_cache_spec _ _ _ _ _ PAGE_SIZE I1) as (s2 & err & E & H);
    [by rewrite Emm|unfold PAGE_SIZE; lia|]. rewrite E, Ret_bind. cbv beta iota. clear E.
  change (page_nr PAGE_SIZE) with 1 in H. rewrite Emm in H.
  destruct H as [(-> & Hmu & mm' & Hr)|(-> & Em & Ef & b & I2)].
  { right. exists s2, mm'. done. }
  left. change (negb (0 =? 0)) with false. cbv iota.
  destruct (get_slab_from_slab_free_spec _ _ _ _ _ size flag I2) as [[Hbad _]|(s3 & h & E3 & G)]; [lia| |].
  { unfold SLAB_SIZE, SLAB_HEADER_SIZE in Hbad. lia. }
  exists s3, h. split; [done|]. destruct G as (new & own' & pools' & I3 & Hn & Hsz & K3).
  exists (new ++ [b]), own', pools'. rewrite <- app_assoc. split; [done|]. split; [done|]. split; [done|].
  rewrite Em in K3. eapply kept_trans; [intros k Hk; by eapply live_sizes|done..].
Qed.

Lemma alloc_size_spec size : 0 < size <= 512 ->
  let sz := get_slab_alloc_size size in size <= sz /\ 16 <= sz <= 512 /\ sz mod 16 = 0.
Proof.
  clear reserved. intros Hs. unfold get_slab_alloc_size, pool0_size. change 16 with (2 ^ 4).
  destruct (align_ceil size 4 ltac:(lia)) as [H1 H2]. change (2 ^ 4) with 16 in *.
  rewrite s32_small by lia. cbv zeta. split; [lia|]. split; [|done]. Z.to_euclidean_division_equations; lia.
Qed.

Lemma gave_less s blocks live size size' s' h : size' <= size ->
  gave s blocks live size s' h -> gave s blocks live size' s' h.
Proof. intros ? (new & own' & pools' & ? & ? & ? & ?). exists new, own', pools'. split_and!; try done. lia. Qed.

(** The address handed out is not the failure value. *)
Lemma gave_base s blocks live size s' h : gave s blocks live size s' h -> h + 8 =? 0 = false.
Proof.
  intros (new & own' & pools' & I & _). apply Z.eqb_neq.
  destruct (base_of_header _ _ _ _ _ h I) as (_ & _ & ?); [left|]. lia.
Qed.

Lemma try_alloc_spec s blocks own pools live size :
  slab_inv s blocks own pools live -> start_ok (s_mm s) -> 16 <= size <= 512 -> size mod 16 = 0 ->
  let r := try_alloc [get_slab_from_pool; get_slab_from_slab_free; get_new_slab; get_big_slab] s size GFP_KERNEL in
  (exists s' h, r = Ret (s', h + 8) /\ gave s blocks live size s' h) \/
  (r = NoFuel /\ exists mm', request_pages (s_mm s) 1 GFP_SLAB = Ret (mm', 0)).
Proof.
  intros I Hst Hs Hm. cbn [try_alloc].
  destruct (get_slab_from_pool_spec _ _ _ _ _ size GFP_KERNEL I) as [->|(s' & h & -> & G)]; [lia|done| |];
    rewrite Ret_bind; cbv beta iota.
  2: { rewrite (gave_base _ _ _ _ _ _ G). left. exists s', h. done. }
  change (negb (0 =? 0)) with false. cbv iota.
  destruct (get_slab_from_slab_free_spec _ _ _ _ _ size GFP_KERNEL I) as [[_ ->]|(s' & h & -> & G)]; [lia| |];
    rewrite Ret_bind; cbv beta iota.
  2: { rewrite (gave_base _ _ _ _ _ _ G). left. exists s', h. done. }
  change (negb (0 =? 0)) with false. cbv iota.
  assert (get_new_slab s size GFP_KERNEL = __get_new_slab s size GFP_KERNEL) as ->.
  { unfold get_new_slab. rewrite (proj2 (Z.leb_gt PAGE_SIZE size)) by (unfold PAGE_SIZE; lia). done. }
  destruct (__get_new_slab_spec _ _ _ _ _ size GFP_KERNEL I) as [(s' & h & -> & G)|(s' & mm' & -> & Hmu & Hr)];
    [done|lia| |]; rewrite Ret_bind; cbv beta iota.
  { rewrite (gave_base _ _ _ _ _ _ G). left. exists s', h. done. }
  change (negb (0 =? 0)) with false. cbv iota. unfold get_big_slab, mutex_lock. rewrite Hmu.
  right. split; [done|]. by exists mm'.
Qed.

(** Storing into a slab that was handed out keeps the invariant. *)
Lemma store_inv s blocks own pools live h a v :
  slab_inv s blocks own pools live -> h ∈ live -> h + 8 <= a < h + 8 + ssize (s_mem s) h ->
  slab_inv (set_slab_mem s (wr (s_mem s) a v)) blocks own pools live.
Proof.
  intros I Hh Ha. pose proof (si_heap _ _ _ _ _ I) as H.
  assert (forall k, k ∈ live ++ concat pools -> a <> k /\ a <> k + 4) as Hne.
  { intros k Hk. destruct (decide (k = h)) as [->|Hn]; [lia|].
    pose proof (ho_apart _ _ _ _ H k h Hk ltac:(apply elem_of_app; by left) Hn) as Hap.
    destruct (ho_slab _ _ _ _ H k Hk) as (_ & ? & _). unfold slabs_apart, ranges_apart in Hap. lia. }
  assert (forall k, k ∈ live ++ concat pools -> rd (wr (s_mem s) a v) k = rd (s_mem s) k /\
    rd (wr (s_mem s) a v) (k + 4) = rd (s_mem s) (k + 4)) as Fr.
  { intros k Hk. destruct (Hne k Hk). by rewrite !rd_wr_ne. }
  pose proof I as [I1 I2 IM I3 I4 I5 I6 I7 I8 I9].
  split; cbn [slab_mutex s_mm s_mem pool_head free_size slab_free set_slab_mem]; try done.
  - intros i l Hi. destruct (I5 i l Hi) as (x & Hx & Hl). exists x. split; [done|].
    eapply flist_frame; [|exact Hl]. intros k Hk. apply Fr. by eapply pool_elem.
  - intros i l k Hi Hk. unfold ssize. rewrite (proj1 (Fr k ltac:(by eapply pool_elem))). by eapply I6.
  - eapply heap_ok_frame; [|done]. intros k Hk. by apply Fr.
  - intros k Hk. rewrite (proj2 (Fr k ltac:(apply elem_of_app; by left))). by apply I8.
  - destruct I9 as [?|(F1 & F2 & F3 & F4)]; [by left|right]. split_and!; try done; try lia.
    intros k Hk. unfold ssize. rewrite (proj1 (Fr k Hk)). by apply F4.
Qed.
End Inv.

(** ** Properties *)

Lemma kmalloc_spec reserved s blocks own pools live size
    (I : slab_inv reserved s blocks own pools live) (Hst : start_ok (s_mm s)) (Hs : 0 < size <= 512) :
  (exists s' h, kmalloc s size GFP_KERNEL = Ret (s', h + 8) /\ gave reserved s blocks live size s' h) \/
  (kmalloc s size GFP_KERNEL = NoFuel /\ exists mm', request_pages (s_mm s) 1 GFP_SLAB = Ret (mm', 0)).
Proof.
  unfold kmalloc. rewrite (proj2 (Z.leb_gt size 0)) by lia.
  change (negb (GFP_KERNEL =? GFP_KERNEL) && _ && _) with false. cbv iota.
  unfold __kmalloc. change (negb (Z.land GFP_KERNEL __GFP_USER =? 0)) with false. cbv iota.
  destruct (alloc_size_spec size Hs) as (H1 & H2 & H3).
  change (negb (GFP_KERNEL =? GFP_KERNEL)) with false.
  rewrite (proj2 (Z.leb_gt PAGE_SIZE (get_slab_alloc_size size))) by (unfold PAGE_SIZE; lia). cbn [orb].
  destruct (try_alloc_spec reserved s blocks own pools live _ I Hst H2 H3) as [(s' & h & -> & G)|[-> R]].
  - left. exists s', h. split; [done|]. by eapply gave_less.
  - right. done.
Qed.

Lemma kfree_spec reserved s blocks own pools l1 h l2
    (I : slab_inv reserved s blocks own pools (l1 ++ h :: l2)) :
  exists s' pools', kfree s (h + 8) = Ret s' /\ slab_inv reserved s' blocks own pools' (l1 ++ l2) /\
    kept (s_mem s) (s_mem s') (l1 ++ l2).
Proof.
  assert (h ∈ l1 ++ h :: l2) as Hh by (apply elem_of_app; right; left).
  destruct (base_of_header _ _ _ _ _ _ _ I Hh) as (_ & Eb & Hpos).
  assert (kfree s (h + 8) = Ret (add_slab_to_slab_pool s h (slab_pool_id (rd (s_mem s) h)))) as ->.
  { pose proof (si_mutex _ _ _ _ _ _ I) as Hmu. pose proof (si_magic _ _ _ _ _ _ I h Hh) as Hmg.
    unfold kfree, mutex_lock. rewrite (proj2 (Z.eqb_neq (h + 8) 0)) by lia. rewrite Hmu, Eb.
    destruct s; simpl in Hmu, Hmg |- *. subst. rewrite Hmg. done. }
  pose proof (live_sizes _ _ _ _ _ _ h I Hh) as Hs. unfold ssize in Hs.
  pose proof (pool_id_range _ Hs) as Hid. set (i := Z.to_nat (slab_pool_id (rd (s_mem s) h))).
  assert (slab_pool_id (rd (s_mem s) h) = Z.of_nat i) as Ei by lia. rewrite Ei.
  destruct (si_pools _ _ _ _ _ _ I) as [Lp _]. destruct (lookup_lt_is_Some_2 pools i) as [l Hi]; [lia|].
  destruct (push_inv _ _ _ _ _ _ I i l h l1 l2) as [I' _]; [done..|].
  eexists _, _. split; [done|]. split; [exact I'|].
  eapply word_kept; [exact I|apply elem_of_app; by left|]. intros k Hk.
  split; [apply elem_of_app; left; set_solver|]. intros ->.
  pose proof (ho_nodup _ _ _ _ (si_heap _ _ _ _ _ _ I)) as Hnd. apply NoDup_app in Hnd as (Hnd & _).
  rewrite <- Permutation_middle in Hnd. by apply NoDup_cons in Hnd as [? _].
Qed.

(** C6: for 1 to 512 bytes of kernel memory, [kmalloc] hands out a new slab of at least
    that size, apart from every slab in use and changing no word of them; when the page
    allocator has no page for a new cache it never returns, because the mutex is still
    locked. *)
Theorem kmalloc_correct reserved s blocks own pools live size
    (I : slab_inv reserved s blocks own pools live) (Hst : start_ok (s_mm s)) (Hs : 0 < size <= 512) :
  (exists s' h, kmalloc s size GFP_KERNEL = Ret (s', h + 8) /\ gave reserved s blocks live size s' h) \/
  (kmalloc s size GFP_KERNEL = NoFuel /\ exists mm', request_pages (s_mm s) 1 GFP_SLAB = Ret (mm', 0)).
Proof. by apply (kmalloc_spec reserved s blocks own pools live size). Qed.


(** ** The allocator before and after start-up *)

Lemma fresh_inv reserved mm m blocks own base size sz np l :
  alloc_inv reserved mm blocks -> kernel_mapped mm ->
  (forall b, b ∈ own -> b ∈ blocks /\ (b_sec b).1 <> 3%nat) ->
  size = 0 \/ (24 <= size < 2147483648 /\ 0 < base /\ owned mm own base size) ->
  slab_inv reserved (Slab mm m (replicate 33 0) false base size sz np l) blocks own (replicate 33 []) [].
Proof.
  intros A M Ho Hf.
  assert (concat (replicate 33 ([] : list Z)) = []) as Ec by done.
  split; cbn [slab_mutex s_mm s_mem pool_head free_size slab_free]; rewrite ?Ec; try done.
  - intros i l' [-> Hi]%lookup_replicate. exists 0. split; [|done]. by apply lookup_replicate.
  - intros i l' h [-> _]%lookup_replicate Hh. by apply elem_of_nil in Hh.
  - split; [apply NoDup_nil_2|intros h Hh|intros h h' Hh]; by apply elem_of_nil in Hh.
  - intros h Hh. by apply elem_of_nil in Hh.
  - destruct Hf as [->|(H1 & H2 & H3)]; [by left|right]. split_and!; try done; try lia.
    intros h Hh. by apply elem_of_nil in Hh.
Qed.

(** [slab_init] either starts the slab allocator with a cache of 256 pages that the
    page allocator handed out and no slab in use, or reports ENOMEM. *)
Theorem slab_init_correct reserved mm blocks m l
    (A : alloc_inv reserved mm blocks) (Hst : start_ok mm) (M : kernel_mapped mm) :
  exists s' err, slab_init mm m l = Ret (s', err) /\
    (err = - ENOMEM \/
     (err = 0 /\ free_size s' = SLAB_CACHE_SIZE /\
      exists b, slab_inv reserved s' (b :: blocks) [b] (replicate 33 []) [])).
Proof.
  unfold slab_init. set (mm1 := set_pages mm (pages mm) (init_list (plists mm) l)).
  assert (soft mm mm1) as S by apply soft_plists.
  pose proof (fresh_inv reserved mm1 m blocks [] 0 0 0 0 l (soft_inv _ _ _ _ S A) M) as I.
  destruct (alloc_new_slab_cache_spec reserved _ _ _ _ _ SLAB_CACHE_SIZE (I ltac:(intros b Hb; by apply elem_of_nil in Hb) ltac:(by left)))
    as (s' & err & -> & H); [exact Hst|by vm_compute|].
  exists s', err. split; [done|]. destruct H as [(-> & _)|(-> & _ & Ef & b & I')]; [by left|right].
  split; [done|]. split; [by rewrite Ef; vm_compute|]. by exists b.
Qed.

Module SlabDemo.
(** No cache yet, and the two pages of a live block as the cache. *)
Definition empty : slab := Slab Demo.bank ∅ (replicate 33 0) false 0 0 0 0 0x80001200.
Definition cached : slab := Slab Demo.bank ∅ (replicate 33 0) false 0x80002000 8192 8192 2 0x80001200.

Lemma slab_empty_inv : slab_inv Demo.reserved empty Demo.live [] (replicate 33 []) [].
Proof.
  apply fresh_inv; [exact Demo.demo_inv|exact Demo.mapped| |by left]. intros b Hb. by apply elem_of_nil in Hb.
Qed.

Lemma slab_cached_inv : slab_inv Demo.reserved cached Demo.live [Demo.blk] (replicate 33 []) [].
Proof.
  apply fresh_inv; [exact Demo.demo_inv|exact Demo.mapped| |right].
  - intros b [->|Hb]%elem_of_cons; [|by apply elem_of_nil in Hb]. split; [apply Demo.live_in|done].
  - split; [lia|]. split; [lia|]. exists Demo.blk. split; [left|]. by vm_compute.
Qed.

(** A slab of 16 bytes in use at the start of the cache. *)
Lemma slab_used_inv :
  slab_inv Demo.reserved (carved cached 16) Demo.live [Demo.blk] (replicate 33 []) [0x80002000].
Proof. by apply (carved_spec Demo.reserved cached Demo.live [Demo.blk] (replicate 33 []) [] 16 slab_cached_inv). Qed.
End SlabDemo.

Lemma kmalloc_correct_witness :
  (exists s' h, kmalloc SlabDemo.cached 100 GFP_KERNEL = Ret (s', h + 8) /\
     gave Demo.reserved SlabDemo.cached Demo.live [] 100 s' h) \/
  (kmalloc SlabDemo.cached 100 GFP_KERNEL = NoFuel /\
     exists mm', request_pages (s_mm SlabDemo.cached) 1 GFP_SLAB = Ret (mm', 0)).
Proof.
  apply (kmalloc_correct Demo.reserved SlabDemo.cached Demo.live [Demo.blk] (replicate 33 []) [] 100
    SlabDemo.slab_cached_inv Demo.start). lia.
Defined.


Lemma slab_init_correct_witness :
  exists s' err, slab_init Demo.bank ∅ 0x80001200 = Ret (s', err) /\
    (err = - ENOMEM \/
     (err = 0 /\ free_size s' = SLAB_CACHE_SIZE /\
      exists b, slab_inv Demo.reserved s' (b :: Demo.live) [b] (replicate 33 []) [])).
Proof. exact (slab_init_correct Demo.reserved Demo.bank Demo.live ∅ 0x80001200 Demo.demo_inv Demo.start Demo.mapped). Defined.

(** ** What [kmalloc] does above 512 bytes

    The last pool holds slabs of every size above 512 bytes, and its first one is handed
    out whatever was asked for. *)
Definition mixed_pool : slab :=
  Slab Demo.bank {[ 0x80002000 := 528 ]} (<[32%nat := 0x80002000]> (replicate 33 0)) false 0 0 0 0 0x80001200.

Theorem kmalloc_too_small :
  exists s', kmalloc mixed_pool 4000 GFP_KERNEL = Ret (s', 0x80002008) /\ ssize (s_mem s') 0x80002000 = 528.
Proof. eexists. split; by vm_compute. Qed.
