(* ===== verification/Sched.v ===== *)
(** * The process scheduler (kernel/sched.c)

    Every [list_head] the scheduler and the mutexes link is a [node]: the heads of the
    64 priority lists and of the system, idle and sleep lists, the members [prio_running],
    [system], [sleep], [idle], [wait] and [mutex_get] of a task, the members [wait] and
    [task] of a mutex.  A task or a mutex is named by its address, 0 is NULL.  The fields
    of [struct task_struct] the scheduler reads are the record [task]; the [count] of a
    [struct sched_list] is found by its head. *)

From S2P Require Import Prelude Bitops Dlist.

(** ** Data *)

Inductive state_t :=
  | PROCESS_STATE_PREPARE
  | PROCESS_STATE_RUNNING
  | PROCESS_STATE_SLEEP
  | PROCESS_STATE_IDLE
  | PROCESS_STATE_STOP
  | PROCESS_STATE_UNKNOWN.

#[export] Instance state_t_eq_dec : EqDecision state_t.
Proof. solve_decision. Defined.

Inductive state_change_t :=
  | STATE_NONE_TO_PREPARE
  | STATE_NONE_TO_SLEEP
  | STATE_PREPARE_TO_RUNNING
  | STATE_PREPARE_TO_SLEEP
  | STATE_PREPARE_TO_IDLE
  | STATE_RUNNING_TO_SLEEP
  | STATE_RUNNING_TO_PREPARE
  | STATE_RUNNING_TO_IDLE
  | STATE_SLEEP_TO_PREPARE
  | STATE_SLEEP_TO_IDLE
  | STATE_SLEEP_TO_RUNNING
  | STATE_PREPARE_TO_UNKNOWN
  | STATE_NONE_TO_NONE.

#[export] Instance state_change_t_eq_dec : EqDecision state_change_t.
Proof. solve_decision. Defined.

Inductive node :=
  | HPrio (i : Z)
  | HSystem
  | HIdle
  | HSleep
  | NPrio (t : Z)
  | NSystem (t : Z)
  | NIdle (t : Z)
  | NSleep (t : Z)
  | NWait (t : Z)
  | HGot (t : Z)
  | HWait (m : Z)
  | NMutex (m : Z)
  | HChild (t : Z)
  | NChild (t : Z).

#[export] Instance node_eq_dec : EqDecision node.
Proof. solve_decision. Defined.

Record task := Task {
  pid : Z;
  state : state_t;
  run_time : Z;
  wait_time : Z;
  time_out : Z;
  run_count : Z;
  prio : Z;
  pre_prio : Z;
  parent : Z }.

Definition zero_task : task := Task 0 PROCESS_STATE_PREPARE 0 0 0 0 0 0 0.

Record pid_map := PidMap {
  nr_free : Z;
  map_current : Z;
  nr : Z;
  pid_map_mutex : bool;
  addr : gmap Z Z }.

Record sched_st := SchedSt {
  tasks : gmap Z task;
  heap : lheap node;
  counts : node -> Z;
  mutexes : gmap Z Z;
  pids : pid_map;
  current : Z;
  idle : Z;
  next_run : Z;
  schedule_running : bool;
  in_interrupt : bool }.

Definition TASK_MAX_PRIO : Z := 64.
Definition TASK_DEFAULT_PRIO : Z := 20.

Definition get_task (s : sched_st) (t : Z) : task := default zero_task (tasks s !! t).
Definition get_task_state (s : sched_st) (t : Z) : state_t := state (get_task s t).
Definition get_task_pid (s : sched_st) (t : Z) : Z := pid (get_task s t).

Definition set_tasks (s : sched_st) (ts : gmap Z task) : sched_st :=
  SchedSt ts (heap s) (counts s) (mutexes s) (pids s) (current s) (idle s) (next_run s)
    (schedule_running s) (in_interrupt s).
Definition upd_task (s : sched_st) (t : Z) (f : task -> task) : sched_st :=
  set_tasks s (<[t := f (get_task s t)]> (tasks s)).
Definition set_lists (s : sched_st) (h : lheap node) (c : node -> Z) : sched_st :=
  SchedSt (tasks s) h c (mutexes s) (pids s) (current s) (idle s) (next_run s)
    (schedule_running s) (in_interrupt s).
Definition set_heap (s : sched_st) (h : lheap node) : sched_st := set_lists s h (counts s).
Definition set_count (s : sched_st) (m c : Z) : sched_st :=
  SchedSt (tasks s) (heap s) (counts s) (<[m := c]> (mutexes s)) (pids s) (current s) (idle s) (next_run s)
    (schedule_running s) (in_interrupt s).
Definition set_pids (s : sched_st) (p : pid_map) : sched_st :=
  SchedSt (tasks s) (heap s) (counts s) (mutexes s) p (current s) (idle s) (next_run s)
    (schedule_running s) (in_interrupt s).
Definition set_current (s : sched_st) (t : Z) : sched_st :=
  SchedSt (tasks s) (heap s) (counts s) (mutexes s) (pids s) t (idle s) (next_run s)
    (schedule_running s) (in_interrupt s).
Definition set_next_run (s : sched_st) (t : Z) : sched_st :=
  SchedSt (tasks s) (heap s) (counts s) (mutexes s) (pids s) (current s) (idle s) t
    (schedule_running s) (in_interrupt s).
Definition set_in_interrupt (s : sched_st) (b : bool) : sched_st :=
  SchedSt (tasks s) (heap s) (counts s) (mutexes s) (pids s) (current s) (idle s) (next_run s)
    (schedule_running s) b.

Definition with_state (x : state_t) (k : task) : task :=
  Task (pid k) x (run_time k) (wait_time k) (time_out k) (run_count k) (prio k) (pre_prio k) (parent k).
Definition with_run_time (x : Z) (k : task) : task :=
  Task (pid k) (state k) x (wait_time k) (time_out k) (run_count k) (prio k) (pre_prio k) (parent k).
Definition with_wait_time (x : Z) (k : task) : task :=
  Task (pid k) (state k) (run_time k) x (time_out k) (run_count k) (prio k) (pre_prio k) (parent k).
Definition with_time_out (x : Z) (k : task) : task :=
  Task (pid k) (state k) (run_time k) (wait_time k) x (run_count k) (prio k) (pre_prio k) (parent k).
Definition with_run_count (x : Z) (k : task) : task :=
  Task (pid k) (state k) (run_time k) (wait_time k) (time_out k) x (prio k) (pre_prio k) (parent k).
Definition with_prio (x : Z) (k : task) : task :=
  Task (pid k) (state k) (run_time k) (wait_time k) (time_out k) (run_count k) x (pre_prio k) (parent k).
Definition with_pre_prio (x : Z) (k : task) : task :=
  Task (pid k) (state k) (run_time k) (wait_time k) (time_out k) (run_count k) (prio k) x (parent k).
Definition with_pid (x : Z) (k : task) : task :=
  Task x (state k) (run_time k) (wait_time k) (time_out k) (run_count k) (prio k) (pre_prio k) (parent k).
Definition with_parent (x : Z) (k : task) : task :=
  Task (pid k) (state k) (run_time k) (wait_time k) (time_out k) (run_count k) (prio k) (pre_prio k) x.

(** ** Lists with counters *)

Definition bump (c : node -> Z) (hd : node) (d : Z) : node -> Z :=
  fun x => if decide (x = hd) then u32 (c x + d) else c x.

Definition sched_list_add (s : sched_st) (hd n : node) : sched_st :=
  set_lists s (list_add (heap s) hd n) (bump (counts s) hd 1).
Definition sched_list_add_tail (s : sched_st) (hd n : node) : sched_st :=
  set_lists s (list_add_tail (heap s) hd n) (bump (counts s) hd 1).
Definition sched_list_del (s : sched_st) (hd n : node) : sched_st :=
  set_lists s (list_del (heap s) n) (bump (counts s) hd (-1)).

(** [os_sched_table[task->prio]], which has 64 entries. *)
Definition in_table (i : Z) : bool := (0 <=? i) && (i <? TASK_MAX_PRIO).

Definition prio_list_add_task (s : sched_st) (t : Z) : outcome sched_st :=
  let i := prio (get_task s t) in
  if in_table i then mret (sched_list_add s (HPrio i) (NPrio t)) else Fault.
Definition prio_list_add_task_tail (s : sched_st) (t : Z) : outcome sched_st :=
  let i := prio (get_task s t) in
  if in_table i then mret (sched_list_add_tail s (HPrio i) (NPrio t)) else Fault.
Definition prio_list_del_task (s : sched_st) (t : Z) : outcome sched_st :=
  let i := prio (get_task s t) in
  if in_table i then mret (sched_list_del s (HPrio i) (NPrio t)) else Fault.

(** ** State changes *)

(** The table [init_state_change_table] fills. *)
Definition change_table (old new : state_t) : state_change_t :=
  match old, new with
  | PROCESS_STATE_UNKNOWN, PROCESS_STATE_PREPARE => STATE_NONE_TO_PREPARE
  | PROCESS_STATE_UNKNOWN, PROCESS_STATE_SLEEP => STATE_NONE_TO_SLEEP
  | PROCESS_STATE_PREPARE, PROCESS_STATE_RUNNING => STATE_PREPARE_TO_RUNNING
  | PROCESS_STATE_PREPARE, PROCESS_STATE_SLEEP => STATE_PREPARE_TO_SLEEP
  | PROCESS_STATE_PREPARE, PROCESS_STATE_IDLE => STATE_PREPARE_TO_IDLE
  | PROCESS_STATE_RUNNING, PROCESS_STATE_SLEEP => STATE_RUNNING_TO_SLEEP
  | PROCESS_STATE_RUNNING, PROCESS_STATE_PREPARE => STATE_RUNNING_TO_PREPARE
  | PROCESS_STATE_RUNNING, PROCESS_STATE_IDLE => STATE_RUNNING_TO_IDLE
  | PROCESS_STATE_SLEEP, PROCESS_STATE_PREPARE => STATE_SLEEP_TO_PREPARE
  | PROCESS_STATE_SLEEP, PROCESS_STATE_IDLE => STATE_SLEEP_TO_IDLE
  | PROCESS_STATE_SLEEP, PROCESS_STATE_RUNNING => STATE_SLEEP_TO_RUNNING
  | PROCESS_STATE_PREPARE, PROCESS_STATE_UNKNOWN => STATE_PREPARE_TO_UNKNOWN
  | _, _ => STATE_NONE_TO_NONE
  end.

Definition set_task_state (s : sched_st) (t : Z) (new : state_t) : outcome sched_st :=
  let change := change_table (get_task_state s t) new in
  if decide (change = STATE_NONE_TO_NONE) then mret s
  else
    let s := upd_task s t (with_state new) in
    match change with
    | STATE_NONE_TO_PREPARE =>
      prio_list_add_task_tail (sched_list_add_tail s HSystem (NSystem t)) t
    | STATE_NONE_TO_SLEEP =>
      let s := sched_list_add_tail s HSystem (NSystem t) in
      mret (sched_list_add s HSleep (NSleep t))
    | STATE_PREPARE_TO_RUNNING => prio_list_del_task s t
    | STATE_PREPARE_TO_IDLE =>
      s ← prio_list_del_task s t;
      mret (sched_list_add_tail s HIdle (NIdle t))
    | STATE_PREPARE_TO_SLEEP =>
      s ← prio_list_del_task s t;
      mret (sched_list_add_tail s HSleep (NSleep t))
    | STATE_RUNNING_TO_SLEEP => mret (sched_list_add_tail s HSleep (NSleep t))
    | STATE_RUNNING_TO_PREPARE => prio_list_add_task_tail s t
    | STATE_RUNNING_TO_IDLE => mret (sched_list_add_tail s HIdle (NIdle t))
    | STATE_SLEEP_TO_PREPARE => prio_list_add_task_tail (sched_list_del s HSleep (NSleep t)) t
    | STATE_SLEEP_TO_IDLE =>
      let s := sched_list_del s HSleep (NSleep t) in
      mret (sched_list_add_tail s HIdle (NIdle t))
    | STATE_SLEEP_TO_RUNNING => mret (sched_list_del s HSleep (NSleep t))
    | STATE_PREPARE_TO_UNKNOWN => prio_list_del_task s t
    | STATE_NONE_TO_NONE => mret s
    end.

(** ** Process numbers *)

Definition PID_MAP_PAGE_NR : Z := 1.

Definition pid_lock (p : pid_map) : outcome pid_map :=
  if pid_map_mutex p then NoFuel else mret (PidMap (nr_free p) (map_current p) (nr p) true (addr p)).
Definition pid_unlock (p : pid_map) : pid_map :=
  PidMap (nr_free p) (map_current p) (nr p) false (addr p).

(** [page] says whether the page allocator has a page. *)
Definition init_pid_allocater (page : bool) : pid_map * Z :=
  let n := PID_MAP_PAGE_NR * PAGE_SIZE / 4 in
  if page then (PidMap n 0 n false ∅, 0) else (PidMap n 0 n false ∅, - ENOMEM).

Definition release_pid (s : sched_st) (t : Z) : outcome sched_st :=
  p ← pid_lock (pids s);
  let i := pid (get_task s t) in
  if (0 <=? i) && (i <? nr p) then
    let p := PidMap (nr_free p) (map_current p) (nr p) (pid_map_mutex p) (wr (addr p) i 0) in
    mret (set_pids s (pid_unlock p))
  else Fault.

Definition get_new_pid (p : pid_map) (t : Z) : outcome (pid_map * Z) :=
  if nr_free p =? 0 then mret (pid_unlock p, -1)
  else
    p ← pid_lock p;
    match zfirst (Z.to_nat (nr p - map_current p)) (map_current p) (fun i => rd (addr p) i =? 0) with
    | Some i =>
      mret (pid_unlock (PidMap (nr_free p - 1) (map_current p + 1) (nr p) (pid_map_mutex p) (wr (addr p) i t)), i)
    | None => mret (pid_unlock p, -1)
    end.

Definition pid_get_task (p : pid_map) (i : Z) : outcome Z :=
  if i <? nr p then (if 0 <=? i then mret (rd (addr p) i) else Fault) else mret 0.

Definition sys_getpid (s : sched_st) : Z := get_task_pid s (current s).

(** ** Scheduling *)

Definition sched_remove_task (s : sched_st) (t : Z) : outcome (sched_st * Z) :=
  let p := get_task_pid s t in
  if negb (bool_decide (get_task_state s t = PROCESS_STATE_IDLE)) then mret (s, - EINVAL)
  else if (p =? 1) || (p =? 0) then mret (s, - EINVAL)
  else
    let s := sched_list_del s HIdle (NIdle t) in
    let s := sched_list_del s HSystem (NSystem t) in
    s ← release_pid s t;
    mret (s, 0).

Definition get_task_run_time (s : sched_st) (t : Z) : sched_st :=
  upd_task s t (fun k => with_run_time (5 + (TASK_MAX_PRIO - prio k)) k).

Definition init_sched_struct (s : sched_st) (t : Z) : sched_st :=
  let s := upd_task s t (with_prio (if t =? idle s then TASK_MAX_PRIO - 1 else TASK_DEFAULT_PRIO)) in
  let s := get_task_run_time s t in
  let s := upd_task s t (fun k =>
    with_state PROCESS_STATE_UNKNOWN (with_run_count 0 (with_time_out 0 (with_wait_time (-1) k)))) in
  set_heap s (foldl init_list (heap s) [NPrio t; NSystem t; NSleep t; NIdle t; HGot t; NWait t]).

Definition set_task_prio (s : sched_st) (t p : Z) : outcome (sched_st * Z) :=
  if TASK_MAX_PRIO <=? p then mret (s, - EINVAL)
  else
    let change := fun s => upd_task s t (fun k => with_prio p (with_pre_prio (prio k) k)) in
    match get_task_state s t with
    | PROCESS_STATE_RUNNING | PROCESS_STATE_SLEEP => mret (change s, 0)
    | PROCESS_STATE_PREPARE =>
      s ← set_task_state s t PROCESS_STATE_UNKNOWN;
      s ← set_task_state (change s) t PROCESS_STATE_PREPARE;
      mret (s, 0)
    | _ => mret (s, 0)
    end.

(** [list_first_entry(head, struct task_struct, prio_running)] *)
Definition first_prio (s : sched_st) (i : Z) : outcome Z :=
  match lnext (heap s) (HPrio i) with NPrio t => mret t | _ => Fault end.

Definition find_next_run_task (s : sched_st) : outcome sched_st :=
  match zfirst 64 0 (fun i => negb (counts s (HPrio i) =? 0)) with
  | None => mret s
  | Some i => t ← first_prio s i; mret (set_next_run s t)
  end.

Definition dec_prio (s : sched_st) (t : Z) : sched_st :=
  let s := if prio (get_task s t) <? TASK_MAX_PRIO - 1 then upd_task s t (fun k => with_prio (prio k + 1) k) else s in
  if negb (pid (get_task s t) =? -1) then
    if prio (get_task s t) =? TASK_MAX_PRIO - 1 then upd_task s t (with_prio 0) else s
  else s.

Definition prepare_to_switch (s : sched_st) : outcome (sched_st * Z) :=
  let next := next_run s in
  let cur := current s in
  if cur =? next then
    let s := get_task_run_time s next in
    mret (upd_task s next (fun k => with_run_count (u32 (run_count k + 1)) k), - EAGAIN)
  else
    s ← (if bool_decide (get_task_state s cur = PROCESS_STATE_RUNNING) then
           let s :=
             if (run_time (get_task s cur) =? 0) || negb (in_interrupt s) then get_task_run_time (dec_prio s cur) cur
             else s in
           set_task_state s cur PROCESS_STATE_PREPARE
         else mret s);
    let s := if wait_time (get_task s next) =? 0 then upd_task s next (with_time_out 1) else s in
    let s := upd_task s next (with_wait_time (-1)) in
    s ← set_task_state s next PROCESS_STATE_RUNNING;
    mret (s, 0).

(** [arch_switch_task_sw] saves the registers of [current] on its stack, makes [next_run]
    the current task and restores the registers saved there (arch/x86/kernel/cpu_s.S). *)
Definition arch_switch_task_sw (s : sched_st) : sched_st := set_current s (next_run s).

Definition sched (s : sched_st) : outcome sched_st :=
  if in_interrupt s then mret s
  else if negb (schedule_running s) then mret s
  else
    s ← find_next_run_task s;
    '(s, ret) ← prepare_to_switch s;
    if negb (ret =? 0) then mret s else mret (arch_switch_task_sw s).

Definition tick_task (n : node) (s : sched_st) : outcome sched_st :=
  match n with
  | NSleep t =>
    let s := if 0 <? wait_time (get_task s t) then upd_task s t (fun k => with_wait_time (wait_time k - 1) k) else s in
    if wait_time (get_task s t) =? 0 then set_task_state s t PROCESS_STATE_PREPARE else mret s
  | _ => Fault
  end.

Definition os_tick_handler (fuel : nat) (s : sched_st) : outcome sched_st :=
  s ← list_for_each_m fuel heap HSleep (lnext (heap s) HSleep) tick_task s;
  let s := upd_task s (current s) (fun k => with_run_time (run_time k - 1) k) in
  if run_time (get_task s (current s)) =? 0 then
    s ← find_next_run_task s;
    '(s, _) ← prepare_to_switch s;
    mret s
  else mret s.

(** The timer interrupt: [irq_handler] calls the handler with [in_interrupt] set, and the
    return path of the interrupt makes [next_run] the current task
    (arch/x86/kernel/trap_s.S). *)
Definition tick_interrupt (fuel : nat) (s : sched_st) : outcome sched_st :=
  s ← os_tick_handler fuel (set_in_interrupt s true);
  mret (arch_switch_task_sw (set_in_interrupt s false)).

(** [suspend_task_timeout] up to the return of [sched], and the value it returns once the
    task runs again; [inr] is an early return. *)
Definition suspend_task_timeout (s : sched_st) (t timeout : Z) : outcome (sched_st + sched_st * Z) :=
  if (t =? 0) || (timeout =? 0) then mret (inr (s, - EINVAL))
  else if bool_decide (get_task_state s t = PROCESS_STATE_IDLE) then mret (inr (s, - EINVAL))
  else
    let s := upd_task s t (fun k => with_time_out 0 (with_wait_time timeout k)) in
    s ← set_task_state s t PROCESS_STATE_SLEEP;
    s ← sched s;
    mret (inl s).
Definition suspend_result (s : sched_st) (t : Z) : Z := time_out (get_task s t).

Definition wakeup_task (s : sched_st) (t : Z) : outcome (sched_st * Z) :=
  if negb (bool_decide (get_task_state s t = PROCESS_STATE_SLEEP)) then mret (s, - EINVAL)
  else
    let s := get_task_run_time s t in
    s ← set_task_state s t PROCESS_STATE_PREPARE;
    mret (s, 0).

(** ** Start *)

Definition table_heads : list node := (fun i => HPrio (Z.of_nat i)) <$> seq 0 64.

Definition sched_init (s : sched_st) (page : bool) : sched_st :=
  let hds := table_heads ++ [HSleep; HIdle; HSystem] in
  let h := foldl init_list (heap s) hds in
  let c := fun n => if decide (n ∈ hds) then 0 else counts s n in
  SchedSt (tasks s) h c (mutexes s) (fst (init_pid_allocater page)) 0 (idle s) 0 true (in_interrupt s).
