(* ===== verification/SchedSpec.v ===== *)
(** * Correctness of the scheduler (kernel/sched.c)

    The abstract state is the list of tasks on each list head.  [sched_inv] relates it to
    the linked nodes, the counters and the states of the tasks; the operations are shown
    to keep it and to do to the abstract lists what they are for. *)

From S2P Require Import Prelude Bitops Dlist Sched.

(** ** Abstract lists *)

(** The node by which a task (or a mutex) is on the list with the given head. *)
Definition entry (hd : node) (t : Z) : node :=
  match hd with
  | HPrio _ => NPrio t
  | HSystem => NSystem t
  | HIdle => NIdle t
  | HSleep => NSleep t
  | HWait _ => NWait t
  | HGot _ => NMutex t
  | HChild _ => NChild t
  | n => n
  end.

Definition is_head (n : node) : Prop :=
  match n with HPrio _ | HSystem | HIdle | HSleep | HWait _ | HGot _ | HChild _ => True | _ => False end.

Definition sched_head (n : node) : Prop :=
  match n with HPrio i => 0 <= i < 64 | HSystem | HIdle | HSleep => True | _ => False end.

Lemma entry_inj hd : is_head hd -> Inj (=) (=) (entry hd).
Proof. intros H x y E. destruct hd; simpl in *; (try done); congruence. Qed.

Lemma entry_not_head hd b t : is_head hd -> is_head b -> entry hd t <> b.
Proof. by destruct hd, b. Qed.

(** Two heads use the same member of a task. *)
Definition same_kind (a b : node) : Prop := forall t, entry a t = entry b t.

Lemma entry_kind a b t t' : is_head a -> is_head b -> entry a t = entry b t' -> t = t' /\ same_kind a b.
Proof. intros Ha Hb E. destruct a, b; simpl in *; try done; split; try congruence; by intros x. Qed.

Definition drop_task (t : Z) (l : list Z) : list Z := filter (fun x => x <> t) l.

Lemma drop_task_middle t xs ys : t ∉ xs -> t ∉ ys -> drop_task t (xs ++ t :: ys) = xs ++ ys.
Proof.
  intros Hx Hy. unfold drop_task. rewrite filter_app, filter_cons_False by (intros H; by apply H).
  assert (forall l : list Z, t ∉ l -> filter (fun x => x <> t) l = l) as Hf; [|by rewrite !Hf].
  intros l. induction l as [|x l IH]; intros Hl; [done|].
  apply not_elem_of_cons in Hl as [? ?]. rewrite filter_cons_True by done. by rewrite IH.
Qed.

Lemma elem_drop_task t x l : x ∈ drop_task t l <-> x ∈ l /\ x <> t.
Proof. unfold drop_task. rewrite list_elem_of_filter. tauto. Qed.

Abbreviation lists := (node -> list Z).

Definition entries (L : lists) (hd : node) : list node := entry hd <$> L hd.

Definition push (L : lists) (hd : node) (t : Z) : lists := fupd L hd (L hd ++ [t]).
Definition pushf (L : lists) (hd : node) (t : Z) : lists := fupd L hd (t :: L hd).
Definition pull (L : lists) (hd : node) (t : Z) : lists := fupd L hd (drop_task t (L hd)).

Lemma elem_push L hd t b x : x ∈ push L hd t b <-> x ∈ L b \/ (b = hd /\ x = t).
Proof.
  unfold push, fupd. case_decide; subst; [|naive_solver].
  rewrite elem_of_app, list_elem_of_singleton. naive_solver.
Qed.

Lemma elem_pushf L hd t b x : x ∈ pushf L hd t b <-> x ∈ L b \/ (b = hd /\ x = t).
Proof. unfold pushf, fupd. case_decide; subst; [|naive_solver]. rewrite elem_of_cons. naive_solver. Qed.

Lemma elem_pull L hd t b x : x ∈ pull L hd t b <-> x ∈ L b /\ ~ (b = hd /\ x = t).
Proof. unfold pull, fupd. case_decide; subst; [|naive_solver]. rewrite elem_drop_task. naive_solver. Qed.

(** ** Linked lists and counters *)

Section Spec.
Context (heads : node -> Prop).
Hypothesis heads_are : forall n, heads n -> is_head n.
Hypothesis heads_sched : forall n, sched_head n -> heads n.
Hypothesis heads_prio : forall i, heads (HPrio i) -> 0 <= i < 64.

Record shape (s : sched_st) (L : lists) : Prop := {
  sh_family : family (heap s) heads (entries L);
  sh_count : forall hd, sched_head hd -> counts s hd = Z.of_nat (length (L hd));
  sh_range : forall hd t, sched_head hd -> t ∈ L hd -> 0 < t < 4294967296 }.

Lemma entries_upd L hd (l : list Z) b : entries (fupd L hd l) b = fupd (entries L) hd (entry hd <$> l) b.
Proof. unfold entries, fupd. case_decide; by subst. Qed.

Lemma family_entries h L hd (l : list Z) :
  family h heads (fupd (entries L) hd (entry hd <$> l)) -> family h heads (entries (fupd L hd l)).
Proof.
  intros [H1 H2]. split; [intros a Ha; rewrite entries_upd; auto|].
  intros a b x Ha Hb. rewrite !entries_upd. by apply H2.
Qed.

(** [t] is on no list by that member. *)
Definition absent (L : lists) (hd : node) (t : Z) : Prop := forall b, heads b -> same_kind b hd -> t ∉ L b.

Lemma absent_fresh L hd t : heads hd -> absent L hd t ->
  forall b, heads b -> entry hd t ∉ b :: entries L b.
Proof.
  intros Hh Ha b Hb [E|Hin]%elem_of_cons; [by eapply entry_not_head in E; auto|].
  apply list_elem_of_fmap in Hin as (t' & E & Ht').
  apply entry_kind in E as [-> Hk]; auto. apply (Ha b); [done| |done]. intros x. by rewrite Hk.
Qed.

Lemma range_length (l : list Z) : NoDup l -> (forall t, t ∈ l -> 0 < t < 4294967296) ->
  Z.of_nat (length l) < 4294967296.
Proof.
  intros Hnd Hr. assert (length l <= length (seqZ 1 4294967295))%nat as H.
  { apply NoDup_incl_length; [by apply NoDup_ListNoDup|]. intros x Hx. apply list_elem_of_In, elem_of_seqZ.
    apply list_elem_of_In, Hr in Hx. lia. }
  rewrite length_seqZ in H. lia.
Qed.

Lemma shape_nodup s L hd : shape s L -> sched_head hd -> NoDup (L hd).
Proof.
  intros [[Hd _] _ _] Hh. destruct (Hd hd (heads_sched _ Hh)) as [Hnd _].
  apply NoDup_cons in Hnd as [_ Hnd]. by apply NoDup_fmap_1 in Hnd.
Qed.

Lemma shape_count_small s L hd t : shape s L -> sched_head hd -> 0 < t < 4294967296 -> t ∉ L hd ->
  Z.of_nat (length (L hd)) + 1 < 4294967296.
Proof.
  intros S Hh Ht Hn.
  pose proof (range_length (t :: L hd)) as H. simpl in H. assert (NoDup (t :: L hd)) as Hnd
    by (apply NoDup_cons; split; [done|by eapply shape_nodup]).
  specialize (H Hnd). assert (forall x, x ∈ t :: L hd -> 0 < x < 4294967296) as Hr.
  { intros x [->|Hx]%elem_of_cons; [done|]. by eapply sh_range. }
  specialize (H Hr). lia.
Qed.

Lemma shape_count_add s L hd t (l : list Z) d :
  shape s L -> sched_head hd -> u32 (Z.of_nat (length (L hd)) + d) = Z.of_nat (length l) ->
  (forall x, x ∈ l -> x ∈ L hd \/ x = t) -> 0 < t < 4294967296 ->
  (forall hd', sched_head hd' -> bump (counts s) hd d hd' = Z.of_nat (length (fupd L hd l hd'))) /\
  (forall hd' x, sched_head hd' -> x ∈ fupd L hd l hd' -> 0 < x < 4294967296).
Proof.
  intros S Hh Hc Hl Ht. split.
  - intros hd' Hh'. unfold bump, fupd. rewrite (sh_count _ _ S) by done. case_decide; by subst.
  - intros hd' x Hh'. unfold fupd. case_decide; subst; [|by apply S].
    intros [Hx| ->]%Hl; [|done]. by eapply sh_range.
Qed.

Lemma shape_push s L hd t : shape s L -> sched_head hd -> absent L hd t -> 0 < t < 4294967296 ->
  shape (sched_list_add_tail s hd (entry hd t)) (push L hd t).
Proof.
  intros S Hh Ha Ht. assert (t ∉ L hd) as Hn by (apply Ha; [by apply heads_sched|by intros x]).
  destruct (shape_count_add s L hd t (L hd ++ [t]) 1) as [C R]; try done.
  { rewrite length_app. simpl. pose proof (shape_count_small _ _ _ _ S Hh Ht Hn). rewrite u32_small; lia. }
  { intros x [?|Hx]%elem_of_app; [by left|]. apply list_elem_of_singleton in Hx as ->. by right. }
  split; [|done|done]. apply family_entries.
  rewrite fmap_app. apply (family_add_tail (heap s) heads (entries L) hd (entry hd t)); [apply S|by apply heads_sched|].
  apply absent_fresh; [by apply heads_sched|done].
Qed.

Lemma shape_pushf s L hd t : shape s L -> sched_head hd -> absent L hd t -> 0 < t < 4294967296 ->
  shape (sched_list_add s hd (entry hd t)) (pushf L hd t).
Proof.
  intros S Hh Ha Ht. assert (t ∉ L hd) as Hn by (apply Ha; [by apply heads_sched|by intros x]).
  destruct (shape_count_add s L hd t (t :: L hd) 1) as [C R]; try done.
  { simpl. pose proof (shape_count_small _ _ _ _ S Hh Ht Hn). rewrite u32_small; lia. }
  { intros x [->|?]%elem_of_cons; [by right|by left]. }
  split; [|done|done]. apply family_entries.
  rewrite fmap_cons. apply (family_add (heap s) heads (entries L) hd (entry hd t)); [apply S|by apply heads_sched|].
  apply absent_fresh; [by apply heads_sched|done].
Qed.

Lemma shape_pull s L hd t : shape s L -> sched_head hd -> t ∈ L hd ->
  let s' := sched_list_del s hd (entry hd t) in
  shape s' (pull L hd t) /\ lnext (heap s') (entry hd t) = lnext (heap s) (entry hd t).
Proof.
  intros S Hh Ht s'. pose proof (shape_nodup _ _ _ S Hh) as Hnd.
  pose proof (sh_range _ _ S hd t Hh Ht) as Hr.
  apply list_elem_of_split in Ht as (l1 & l2 & E). rewrite E in Hnd.
  apply NoDup_app in Hnd as (Hnd1 & Hn1 & [Hn2 Hnd2]%NoDup_cons).
  assert (t ∉ l1) as Hn1' by (intros H; apply (Hn1 t H); left).
  assert (drop_task t (L hd) = l1 ++ l2) as Ed by (rewrite E; by apply drop_task_middle).
  destruct (family_del (heap s) heads (entries L) hd (entry hd <$> l1) (entry hd t) (entry hd <$> l2))
    as [F N]; [apply S|by apply heads_sched|unfold entries; by rewrite E, fmap_app|].
  split; [|exact N].
  destruct (shape_count_add s L hd t (drop_task t (L hd)) (-1)) as [C R]; try done.
  { rewrite Ed, E, !length_app. simpl. pose proof (sh_count _ _ S hd Hh).
    pose proof (range_length (L hd) (shape_nodup _ _ _ S Hh) (fun x Hx => sh_range _ _ S hd x Hh Hx)) as Hb.
    rewrite E, length_app in Hb. simpl in Hb. rewrite u32_small; lia. }
  { intros x Hx. apply elem_drop_task in Hx as [? _]. by left. }
  split; [|done|done]. apply family_entries.
  rewrite Ed, fmap_app. exact F.
Qed.
(** ** Lists and task states *)

Record members (ts : gmap Z task) (L : lists) : Prop := {
  mb_task : forall t k, ts !! t = Some k -> 0 <= prio k < 64 /\ 0 < t < 4294967296;
  mb_known : forall hd t, sched_head hd -> t ∈ L hd -> is_Some (ts !! t);
  mb_prio : forall t k i, ts !! t = Some k -> 0 <= i < 64 ->
    t ∈ L (HPrio i) <-> state k = PROCESS_STATE_PREPARE /\ prio k = i;
  mb_sleep : forall t k, ts !! t = Some k -> t ∈ L HSleep <-> state k = PROCESS_STATE_SLEEP;
  mb_idle : forall t k, ts !! t = Some k -> t ∈ L HIdle -> state k = PROCESS_STATE_IDLE;
  mb_system : forall t k, ts !! t = Some k -> state k = PROCESS_STATE_UNKNOWN -> t ∉ L HSystem }.

(** One task changes, and the lists change for that task only. *)
Lemma members_change ts L t k k' L' :
  members ts L -> ts !! t = Some k -> 0 <= prio k' < 64 ->
  (forall b x, x <> t -> x ∈ L' b <-> x ∈ L b) ->
  (forall i, 0 <= i < 64 -> t ∈ L' (HPrio i) <-> state k' = PROCESS_STATE_PREPARE /\ prio k' = i) ->
  (t ∈ L' HSleep <-> state k' = PROCESS_STATE_SLEEP) ->
  (t ∈ L' HIdle -> state k' = PROCESS_STATE_IDLE) ->
  (state k' = PROCESS_STATE_UNKNOWN -> t ∉ L' HSystem) ->
  members (<[t := k']> ts) L'.
Proof.
  intros [M1 M2 M3 M4 M5 M6] Hk Hp Hx Hprio Hsleep Hidle Hsys.
  split.
  - intros x kx [[<- <-]|[Hne Hkx]]%lookup_insert_Some; [split; [done|by eapply M1]|by apply M1].
  - intros hd x Hh Hin. destruct (decide (x = t)) as [->|Hne]; [by rewrite lookup_insert_eq|].
    rewrite lookup_insert_ne by done. apply (M2 hd); [done|]. by apply Hx.
  - intros x kx i [[<- <-]|[Hne Hkx]]%lookup_insert_Some Hi; [by apply Hprio|].
    rewrite Hx by done. by apply M3.
  - intros x kx [[<- <-]|[Hne Hkx]]%lookup_insert_Some; [done|]. rewrite Hx by done. by apply M4.
  - intros x kx [[<- <-]|[Hne Hkx]]%lookup_insert_Some; [done|]. rewrite Hx by done. by apply M5.
  - intros x kx [[<- <-]|[Hne Hkx]]%lookup_insert_Some; [done|]. rewrite Hx by done. by apply M6.
Qed.

Record sched_inv (s : sched_st) (L : lists) : Prop := {
  sv_shape : shape s L;
  sv_members : members (tasks s) L }.

(** Everything but the tasks, the lists and their counters. *)
Record same_rest (s s' : sched_st) : Prop := {
  sr_mutexes : mutexes s' = mutexes s;
  sr_pids : pids s' = pids s;
  sr_current : current s' = current s;
  sr_idle : idle s' = idle s;
  sr_next : next_run s' = next_run s;
  sr_running : schedule_running s' = schedule_running s;
  sr_irq : in_interrupt s' = in_interrupt s }.

#[export] Instance same_rest_preorder : PreOrder same_rest.
Proof. split; [by split|]. intros a b c [] []. split; congruence. Qed.

Lemma get_task_some s t k : tasks s !! t = Some k -> get_task s t = k.
Proof. intros H. unfold get_task. by rewrite H. Qed.

Lemma get_task_upd s t f : get_task (upd_task s t f) t = f (get_task s t).
Proof. unfold upd_task, get_task at 1. simpl. by rewrite lookup_insert_eq. Qed.

Lemma in_table_true i : 0 <= i < 64 -> in_table i = true.
Proof. intros. unfold in_table, TASK_MAX_PRIO. apply andb_true_iff. split; [apply Z.leb_le|apply Z.ltb_lt]; lia. Qed.

(** What [set_task_state] does to the lists. *)
Definition abs_change (c : state_change_t) (p t : Z) (L : lists) : lists :=
  match c with
  | STATE_NONE_TO_PREPARE => push (push L HSystem t) (HPrio p) t
  | STATE_NONE_TO_SLEEP => pushf (push L HSystem t) HSleep t
  | STATE_PREPARE_TO_RUNNING | STATE_PREPARE_TO_UNKNOWN => pull L (HPrio p) t
  | STATE_PREPARE_TO_IDLE => push (pull L (HPrio p) t) HIdle t
  | STATE_PREPARE_TO_SLEEP => push (pull L (HPrio p) t) HSleep t
  | STATE_RUNNING_TO_SLEEP => push L HSleep t
  | STATE_RUNNING_TO_PREPARE => push L (HPrio p) t
  | STATE_RUNNING_TO_IDLE => push L HIdle t
  | STATE_SLEEP_TO_PREPARE => push (pull L HSleep t) (HPrio p) t
  | STATE_SLEEP_TO_IDLE => push (pull L HSleep t) HIdle t
  | STATE_SLEEP_TO_RUNNING => pull L HSleep t
  | STATE_NONE_TO_NONE => L
  end.

Section Change.
Context (s : sched_st) (L : lists) (t : Z) (k : task).
Hypothesis I : sched_inv s L.
Hypothesis Hk : tasks s !! t = Some k.

Lemma prio_ok : 0 <= prio k < 64.
Proof. by eapply mb_task, Hk; apply I. Qed.
Lemma task_ok : 0 < t < 4294967296.
Proof. by eapply mb_task, Hk; apply I. Qed.

(** Lists [t] is not on, by its state. *)
Lemma not_in_prio i : state k <> PROCESS_STATE_PREPARE -> heads (HPrio i) -> t ∉ L (HPrio i).
Proof.
  intros Hs Hi Hin. apply heads_prio in Hi. by apply (mb_prio _ _ (sv_members _ _ I) t k) in Hin as [? _].
Qed.
Lemma in_prio : state k = PROCESS_STATE_PREPARE -> t ∈ L (HPrio (prio k)).
Proof. intros Hs. apply (mb_prio _ _ (sv_members _ _ I) t k); [done|apply prio_ok|done]. Qed.
Lemma not_in_sleep : state k <> PROCESS_STATE_SLEEP -> t ∉ L HSleep.
Proof. intros Hs Hin. by apply (mb_sleep _ _ (sv_members _ _ I) t k) in Hin. Qed.
Lemma in_sleep : state k = PROCESS_STATE_SLEEP -> t ∈ L HSleep.
Proof. intros Hs. by apply (mb_sleep _ _ (sv_members _ _ I) t k). Qed.
Lemma not_in_idle : state k <> PROCESS_STATE_IDLE -> t ∉ L HIdle.
Proof. intros Hs Hin. by apply Hs, (mb_idle _ _ (sv_members _ _ I) t k Hk). Qed.
Lemma not_in_system : state k = PROCESS_STATE_UNKNOWN -> t ∉ L HSystem.
Proof. by apply (mb_system _ _ (sv_members _ _ I) t k). Qed.

Lemma prio_add s1 new : get_task s1 t = with_state new k ->
  prio_list_add_task_tail s1 t = Ret (sched_list_add_tail s1 (HPrio (prio k)) (NPrio t)).
Proof. intros E. unfold prio_list_add_task_tail. rewrite E. simpl. by rewrite in_table_true by apply prio_ok. Qed.

Lemma prio_del s1 new : get_task s1 t = with_state new k ->
  prio_list_del_task s1 t = Ret (sched_list_del s1 (HPrio (prio k)) (NPrio t)).
Proof. intros E. unfold prio_list_del_task. rewrite E. simpl. by rewrite in_table_true by apply prio_ok. Qed.

Lemma shape_del s1 L1 hd : shape s1 L1 -> sched_head hd -> t ∈ L1 hd ->
  shape (sched_list_del s1 hd (entry hd t)) (pull L1 hd t).
Proof. intros H1 H2 H3. by apply (shape_pull s1 L1 hd t H1 H2 H3). Qed.

Lemma absent_prio L1 i : (forall j, 0 <= j < 64 -> t ∉ L1 (HPrio j)) -> absent L1 (HPrio i) t.
Proof.
  intros H b Hb Hkd. pose proof (Hkd 0) as E. pose proof (heads_are _ Hb) as Hi.
  destruct b; try discriminate E; try done. by apply H, heads_prio.
Qed.

Definition lone (hd : node) : Prop := hd = HSystem \/ hd = HIdle \/ hd = HSleep.

Lemma absent_one L1 hd : lone hd -> t ∉ L1 hd -> absent L1 hd t.
Proof.
  intros Hl H b Hb Hkd. pose proof (Hkd 0) as E. apply heads_are in Hb.
  destruct Hl as [-> | [-> | ->]]; destruct b; try discriminate E; try done.
Qed.

(** The lists after a change, for [t] itself and for the other tasks. *)
Ltac in_lists := repeat first [rewrite elem_push | rewrite elem_pushf | rewrite elem_pull].
Ltac by_state :=
  repeat match goal with
  | Hi : 0 <= ?i < 64 |- context [t ∈ L (HPrio ?i)] =>
    rewrite (mb_prio _ _ (sv_members _ _ I) t k i Hk Hi)
  | |- context [t ∈ L HSleep] => rewrite (mb_sleep _ _ (sv_members _ _ I) t k Hk)
  end.
Ltac absent_by Es :=
  let F1 := fresh "F" in let F2 := fresh "G" in
  first [apply absent_prio; intros | apply absent_one; [unfold lone; tauto|]];
  in_lists; by_state; pose proof not_in_idle as F1; pose proof not_in_system as F2;
  rewrite ?Es; rewrite Es in F1, F2; clear -F1 F2; naive_solver.
Ltac shape_by Es :=
  repeat first
  [ assumption | done | apply in_sleep; congruence | apply in_prio; congruence
  | apply (shape_push _ _ (HPrio (prio k)) t) | apply (shape_push _ _ HSystem t)
  | apply (shape_push _ _ HSleep t) | apply (shape_push _ _ HIdle t) | apply (shape_pushf _ _ HSleep t)
  | apply (shape_del _ _ (HPrio (prio k))) | apply (shape_del _ _ HSleep) | absent_by Es ].
Ltac members_by Es :=
  apply (members_change _ L t k);
  [ apply I | exact Hk | exact prio_ok
  | intros b x Hne; in_lists; clear -Hne; naive_solver
  | intros i Hi; in_lists; by_state; rewrite Es; cbn; clear; destruct (decide (i = prio k)); naive_solver
  | in_lists; by_state; rewrite Es; cbn; clear; naive_solver
  | in_lists; pose proof not_in_idle as Hidle; rewrite Es in Hidle; cbn; clear -Hidle; naive_solver
  | done ].

(** [set_task_state] keeps the invariant and does [abs_change], unless it takes the task
    back to the unknown state. *)
Lemma set_task_state_spec new : new <> PROCESS_STATE_UNKNOWN ->
  let c := change_table (state k) new in
  exists s', set_task_state s t new = Ret s' /\ sched_inv s' (abs_change c (prio k) t L) /\ same_rest s s' /\
    tasks s' = (if decide (c = STATE_NONE_TO_NONE) then tasks s else <[t := with_state new k]> (tasks s)).
Proof.
  intros Hnew c. pose proof I as [S M]. pose proof prio_ok as Hp. pose proof task_ok as Ht.
  unfold set_task_state, get_task_state. rewrite (get_task_some _ _ _ Hk). fold c.
  destruct (decide (c = STATE_NONE_TO_NONE)) as [E|E].
  { exists s. rewrite E. by split_and!. }
  set (s0 := upd_task s t (with_state new)).
  assert (tasks s0 = <[t := with_state new k]> (tasks s)) as Et.
  { unfold s0, upd_task. simpl. by rewrite (get_task_some _ _ _ Hk). }
  assert (shape s0 L) as S0 by (destruct S; by split).
  assert (sched_head (HPrio (prio k))) as Hh by done.
  assert (get_task s0 t = with_state new k) as Eg by (unfold get_task; by rewrite Et, lookup_insert_eq).
  subst c.
  destruct (state k) eqn:Es, new; cbn [change_table abs_change] in *; try done;
    rewrite ?(prio_add s0 _ Eg), ?(prio_del s0 _ Eg), ?Ret_bind,
      ?(prio_add (sched_list_add_tail s0 _ _) _ Eg), ?(prio_add (sched_list_del s0 _ _) _ Eg);
    (eexists; split; [reflexivity|]; split; [|split; [by split|exact Et]]; split;
      [|cbn [tasks sched_list_add_tail sched_list_add sched_list_del set_lists]; rewrite Et]).
  all: lazymatch goal with |- shape _ _ => shape_by Es | _ => members_by Es end.
Qed.
End Change.
(** ** Choosing a task *)

Lemma sched_inv_upd s L t k f : sched_inv s L -> tasks s !! t = Some k ->
  state (f k) = state k -> 0 <= prio (f k) < 64 -> prio (f k) = prio k \/ state k <> PROCESS_STATE_PREPARE ->
  sched_inv (upd_task s t f) L.
Proof.
  intros [S M] Hk Es Hp Hq. split; [destruct S; by split|].
  unfold upd_task. cbn [tasks set_tasks]. rewrite (get_task_some _ _ _ Hk).
  apply (members_change _ L t k); try done; rewrite ?Es; try by apply M.
  intros i Hi. rewrite (mb_prio _ _ M t k i Hk Hi). destruct Hq as [-> |]; [done|]. naive_solver.
Qed.

Lemma prio_head s L i : sched_inv s L -> 0 <= i < 64 ->
  match L (HPrio i) with
  | [] => counts s (HPrio i) = 0
  | t :: _ => counts s (HPrio i) <> 0 /\ first_prio s i = Ret t /\
      exists k, tasks s !! t = Some k /\ state k = PROCESS_STATE_PREPARE /\ prio k = i
  end.
Proof.
  intros [S M] Hi. pose proof (sh_count _ _ S (HPrio i) Hi) as Hc. pose proof (sh_family _ _ S) as [Hd _].
  specialize (Hd (HPrio i) (heads_sched (HPrio i) Hi)). apply dlist_first in Hd. unfold entries in Hd.
  destruct (L (HPrio i)) as [|t l] eqn:E; [done|]. split; [rewrite Hc; simpl; lia|].
  split; [unfold first_prio; by rewrite Hd|].
  assert (t ∈ L (HPrio i)) as Ht by (rewrite E; left).
  destruct (mb_known _ _ M (HPrio i) t Hi Ht) as [k Hk]. exists k. split; [done|]. by apply (mb_prio _ _ M t k i).
Qed.

(** The task [find_next_run_task] chooses: the first one of the first list that is not
    empty. *)
Definition best (L : lists) (t : Z) : Prop :=
  exists i rest, 0 <= i < 64 /\ L (HPrio i) = t :: rest /\ forall j, 0 <= j < i -> L (HPrio j) = [].

Lemma find_next_spec s L : sched_inv s L ->
  ((forall i, 0 <= i < 64 -> L (HPrio i) = []) /\ find_next_run_task s = Ret s) \/
  exists t k, best L t /\ tasks s !! t = Some k /\ state k = PROCESS_STATE_PREPARE /\
    find_next_run_task s = Ret (set_next_run s t).
Proof.
  intros I. unfold find_next_run_task.
  destruct (zfirst 64 0 _) as [i|] eqn:E.
  - apply zfirst_Some in E as (Hi & Hp & Hlow). pose proof (prio_head s L i I ltac:(lia)) as H.
    destruct (L (HPrio i)) as [|t l] eqn:El; [by rewrite H in Hp|].
    destruct H as (_ & Hf & k & Hk & Hs & _). right. exists t, k. rewrite Hf.
    split; [|done]. exists i, l. split; [lia|]. split; [done|]. intros j Hj.
    pose proof (Hlow j ltac:(lia)) as Hz. cbv beta in Hz. apply negb_false_iff, Z.eqb_eq in Hz.
    pose proof (prio_head s L j I ltac:(lia)) as H'. destruct (L (HPrio j)); [done|]. by destruct H' as [? _].
  - left. split; [|done]. intros i Hi. pose proof (zfirst_None _ _ _ E i ltac:(lia)) as Hz.
    cbv beta in Hz. apply negb_false_iff, Z.eqb_eq in Hz.
    pose proof (prio_head s L i I Hi) as H. destruct (L (HPrio i)); [done|]. by destruct H as [? _].
Qed.

(** ** Priorities *)

(** The priority [dec_prio] gives: one lower, back to the highest from the lowest, which
    only the idle task (process number -1) keeps. *)
Definition lower (p q : Z) : Z :=
  let q := if q <? 63 then q + 1 else q in if negb (p =? -1) && (q =? 63) then 0 else q.

Lemma lower_range p q : 0 <= q < 64 -> 0 <= lower p q < 64 /\ (p <> -1 -> lower p q < 63).
Proof. intros Hq. unfold lower. zcases. Qed.

Lemma set_tasks_same s t k : tasks s !! t = Some k -> set_tasks s (<[t := k]> (tasks s)) = s.
Proof. intros Hk. rewrite insert_id by done. by destruct s. Qed.

Lemma dec_prio_spec s t k : tasks s !! t = Some k ->
  dec_prio s t = set_tasks s (<[t := with_prio (lower (pid k) (prio k)) k]> (tasks s)).
Proof.
  intros Hk. unfold dec_prio, lower. rewrite (get_task_some _ _ _ Hk). change (TASK_MAX_PRIO - 1) with 63.
  assert (set_tasks s (<[t := with_prio (prio k) k]> (tasks s)) = s) as Esame.
  { rewrite <- (set_tasks_same s t k Hk) at 3. by destruct k. }
  destruct (Z.ltb_spec (prio k) 63).
  - assert (upd_task s t (fun k => with_prio (prio k + 1) k) = set_tasks s (<[t := with_prio (prio k + 1) k]> (tasks s))) as E1
      by (unfold upd_task; by rewrite (get_task_some _ _ _ Hk)).
    rewrite get_task_upd, (get_task_some _ _ _ Hk). cbn [pid with_prio prio].
    destruct (negb (pid k =? -1)); cbn [andb]; [|by rewrite E1].
    destruct (prio k + 1 =? 63); [|by rewrite E1].
    rewrite E1. unfold upd_task, get_task. cbn [tasks set_tasks]. by rewrite lookup_insert_eq, insert_insert_eq.
  - rewrite (get_task_some _ _ _ Hk). destruct (negb (pid k =? -1)); cbn [andb]; [|by rewrite Esame].
    destruct (Z.eqb_spec (prio k) 63); [|by rewrite Esame].
    unfold upd_task. by rewrite (get_task_some _ _ _ Hk).
Qed.
(** ** Switching *)

(** The priority with which the current task joins the lists again. *)
Definition give_prio (s : sched_st) (k : task) : Z :=
  if (run_time k =? 0) || negb (in_interrupt s) then lower (pid k) (prio k) else prio k.

Definition yield_cpu (s : sched_st) (cur : Z) : sched_st :=
  if (run_time (get_task s cur) =? 0) || negb (in_interrupt s) then get_task_run_time (dec_prio s cur) cur else s.

Lemma yield_cpu_spec s L cur k : sched_inv s L -> tasks s !! cur = Some k -> state k = PROCESS_STATE_RUNNING ->
  exists s' k', set_task_state (yield_cpu s cur) cur PROCESS_STATE_PREPARE = Ret s' /\
    sched_inv s' (push L (HPrio (give_prio s k)) cur) /\ same_rest s s' /\
    tasks s' = <[cur := k']> (tasks s) /\ state k' = PROCESS_STATE_PREPARE /\ pid k' = pid k.
Proof.
  intros I Hk Hs. pose proof (prio_ok _ _ _ _ I Hk) as Hp.
  pose proof (lower_range (pid k) (prio k) Hp) as [Hl _].
  assert (exists k1, sched_inv (yield_cpu s cur) L /\ same_rest s (yield_cpu s cur) /\
    tasks (yield_cpu s cur) !! cur = Some k1 /\ state k1 = PROCESS_STATE_RUNNING /\ pid k1 = pid k /\
    prio k1 = give_prio s k /\ forall k2, <[cur := k2]> (tasks (yield_cpu s cur)) = <[cur := k2]> (tasks s)) as
    (k1 & I1 & R1 & Hk1 & Hs1 & Hpid & Hprio & Ht1).
  { unfold yield_cpu, give_prio. rewrite (get_task_some _ _ _ Hk).
    destruct ((run_time k =? 0) || negb (in_interrupt s)); [|exists k; split_and!; try done; reflexivity].
    rewrite (dec_prio_spec _ _ _ Hk).
    set (k0 := with_prio _ k). set (s0 := set_tasks s _).
    assert (sched_inv s0 L) as I0.
    { replace s0 with (upd_task s cur (with_prio (lower (pid k) (prio k))))
        by (unfold upd_task; by rewrite (get_task_some _ _ _ Hk)).
      eapply sched_inv_upd; [done|exact Hk|done|done|right; by rewrite Hs]. }
    assert (tasks s0 !! cur = Some k0) as Hk0 by apply lookup_insert_eq.
    exists (with_run_time (5 + (TASK_MAX_PRIO - prio k0)) k0). split_and!; try done.
    - eapply sched_inv_upd; [exact I0|exact Hk0|done|done|by left].
    - unfold get_task_run_time, upd_task. rewrite (get_task_some _ _ _ Hk0). apply lookup_insert_eq.
    - intros k2. unfold get_task_run_time, upd_task, s0. cbn [tasks set_tasks]. by rewrite !insert_insert_eq. }
  destruct (set_task_state_spec _ _ _ _ I1 Hk1 PROCESS_STATE_PREPARE) as (s2 & E & I2 & R2 & T2); [done|].
  rewrite Hs1 in I2, T2. cbn [change_table abs_change] in I2, T2. rewrite Hprio in I2. rewrite decide_False in T2 by done.
  exists s2, (with_state PROCESS_STATE_PREPARE k1). split_and!; try done; [by etrans|]. by rewrite T2, Ht1.
Qed.

Lemma switch_to_spec s L cur k t kt :
  sched_inv s L -> current s = cur -> tasks s !! cur = Some k -> state k <> PROCESS_STATE_PREPARE ->
  next_run s = t -> tasks s !! t = Some kt -> state kt = PROCESS_STATE_PREPARE ->
  let L1 := if decide (state k = PROCESS_STATE_RUNNING) then push L (HPrio (give_prio s k)) cur else L in
  exists s' k' kt', prepare_to_switch s = Ret (s', 0) /\ sched_inv s' (pull L1 (HPrio (prio kt)) t) /\ same_rest s s' /\
    tasks s' = <[t := kt']> (<[cur := k']> (tasks s)) /\
    state kt' = PROCESS_STATE_RUNNING /\ pid kt' = pid kt /\ pid k' = pid k /\
    state k' = (if decide (state k = PROCESS_STATE_RUNNING) then PROCESS_STATE_PREPARE else state k) /\
    (state k <> PROCESS_STATE_RUNNING -> k' = k) /\
    time_out kt' = (if wait_time kt =? 0 then 1 else time_out kt).
Proof.
  intros I Hcur Hk Hs Hnx Hkt Hst L1.
  assert (cur <> t) as Hne by (intros ->; congruence).
  unfold prepare_to_switch. rewrite Hcur, Hnx. rewrite (proj2 (Z.eqb_neq cur t) Hne).
  assert (exists s1 k', (if bool_decide (get_task_state s cur = PROCESS_STATE_RUNNING)
      then set_task_state (yield_cpu s cur) cur PROCESS_STATE_PREPARE else mret s) = Ret s1 /\
    sched_inv s1 L1 /\ same_rest s s1 /\ tasks s1 = <[cur := k']> (tasks s) /\ pid k' = pid k /\
    state k' = (if decide (state k = PROCESS_STATE_RUNNING) then PROCESS_STATE_PREPARE else state k) /\
    (state k <> PROCESS_STATE_RUNNING -> k' = k))
    as (s1 & k' & E1 & I1 & R1 & T1 & Hp1 & Hs1 & Hu1).
  { unfold get_task_state. rewrite (get_task_some _ _ _ Hk). subst L1.
    destruct (decide (state k = PROCESS_STATE_RUNNING)) as [Hr|Hr].
    - rewrite bool_decide_true by done. destruct (yield_cpu_spec s L cur k I Hk Hr) as (s1 & k' & ? & ? & ? & ? & ? & ?).
      exists s1, k'. by split_and!.
    - rewrite bool_decide_false by done. exists s, k. split_and!; try done. by rewrite insert_id. }
  unfold yield_cpu in E1. rewrite E1, Ret_bind. clear E1.
  assert (tasks s1 !! t = Some kt) as Hkt1 by (rewrite T1; by rewrite lookup_insert_ne).
  rewrite (get_task_some _ _ _ Hkt1).
  set (s2 := upd_task (if wait_time kt =? 0 then _ else s1) t (with_wait_time (-1))).
  assert (exists k2, sched_inv s2 L1 /\ same_rest s1 s2 /\ tasks s2 = <[t := k2]> (tasks s1) /\
    state k2 = PROCESS_STATE_PREPARE /\ prio k2 = prio kt /\ pid k2 = pid kt /\
    time_out k2 = (if wait_time kt =? 0 then 1 else time_out kt)) as (k2 & I2 & R2 & T2 & Hs2 & Hpr2 & Hp2 & Ho2).
  { pose proof (prio_ok _ _ _ _ I1 Hkt1) as Hpk. subst s2. destruct (wait_time kt =? 0).
    - exists (with_wait_time (-1) (with_time_out 1 kt)).
      assert (tasks (upd_task s1 t (with_time_out 1)) !! t = Some (with_time_out 1 kt)) as Hk3
        by (unfold upd_task; cbn [tasks set_tasks]; rewrite (get_task_some _ _ _ Hkt1); apply lookup_insert_eq).
      split_and!; try done.
      + eapply sched_inv_upd; [|exact Hk3|done|done|by left].
        eapply sched_inv_upd; [exact I1|exact Hkt1|done|done|by left].
      + unfold upd_task at 1. cbn [tasks set_tasks]. rewrite (get_task_some _ _ _ Hk3).
        unfold upd_task. cbn [tasks set_tasks]. by rewrite insert_insert_eq.
    - exists (with_wait_time (-1) kt). split_and!; try done.
      + eapply sched_inv_upd; [exact I1|exact Hkt1|done|done|by left].
      + unfold upd_task. cbn [tasks set_tasks]. by rewrite (get_task_some _ _ _ Hkt1). }
  assert (tasks s2 !! t = Some k2) as Hk2 by (rewrite T2; apply lookup_insert_eq).
  destruct (set_task_state_spec _ _ _ _ I2 Hk2 PROCESS_STATE_RUNNING) as (s3 & E3 & I3 & R3 & T3); [done|].
  rewrite Hs2 in I3, T3. cbn [change_table abs_change] in I3, T3. rewrite decide_False in T3 by done. rewrite Hpr2 in I3.
  rewrite E3, Ret_bind. exists s3, k', (with_state PROCESS_STATE_RUNNING k2). split_and!; try done.
  - etrans; [exact R1|]. by etrans.
  - by rewrite T3, T2, T1, insert_insert_eq.
Qed.
(** ** The whole scheduler *)

(** [kernel_at irq]: one task is current, no other one runs, and the idle task can always
    run; [kernel_ok]: the current task runs. *)
Record kernel_at (irq : bool) (s : sched_st) (L : lists) : Prop := {
  ka_inv : sched_inv s L;
  ka_current : exists k, tasks s !! current s = Some k /\ state k <> PROCESS_STATE_PREPARE;
  ka_only : forall t k, tasks s !! t = Some k -> state k = PROCESS_STATE_RUNNING -> t = current s;
  ka_next : next_run s = current s;
  ka_on : schedule_running s = true;
  ka_irq : in_interrupt s = irq;
  ka_idle : exists k, tasks s !! idle s = Some k /\ pid k = -1 /\
    (state k = PROCESS_STATE_RUNNING \/ state k = PROCESS_STATE_PREPARE) }.

Definition runs (s : sched_st) : Prop :=
  exists k, tasks s !! current s = Some k /\ state k = PROCESS_STATE_RUNNING.
Definition kernel_ok (s : sched_st) (L : lists) : Prop := kernel_at false s L /\ runs s.

(** Sleeping tasks, mutexes and process numbers are as they were. *)
Record sleepers_kept (s s' : sched_st) : Prop := {
  sk_sleep : forall x k, tasks s !! x = Some k -> state k = PROCESS_STATE_SLEEP -> tasks s' !! x = Some k;
  sk_none : forall x k, tasks s' !! x = Some k -> state k = PROCESS_STATE_SLEEP -> tasks s !! x = Some k;
  sk_dom : forall x, is_Some (tasks s !! x) -> is_Some (tasks s' !! x);
  sk_mutexes : mutexes s' = mutexes s;
  sk_pids : pids s' = pids s;
  sk_idle : idle s' = idle s }.

Definition resched (s : sched_st) : outcome (sched_st * Z) :=
  s ← find_next_run_task s; prepare_to_switch s.

Lemma idle_runs irq s L : kernel_at irq s L -> (forall i, 0 <= i < 64 -> L (HPrio i) = []) -> runs s.
Proof.
  intros K He. destruct (ka_idle _ _ _ K) as (k & Hk & _ & [Hs|Hs]).
  - rewrite (ka_only _ _ _ K _ _ Hk Hs) in Hk. exists k. done.
  - pose proof (in_prio s L _ _ (ka_inv _ _ _ K) Hk Hs) as Hin.
    rewrite He in Hin by (by eapply prio_ok; [apply K|]). by apply elem_of_nil in Hin.
Qed.

(** Nothing can run but the current task: it goes on with a new time slice. *)
Lemma resched_again irq s L : kernel_at irq s L -> (forall i, 0 <= i < 64 -> L (HPrio i) = []) ->
  find_next_run_task s = Ret s ->
  exists s', resched s = Ret (s', - EAGAIN) /\ kernel_at irq s' L /\ runs s' /\ sleepers_kept s s' /\
    current s' = current s /\ next_run s' = current s.
Proof.
  intros K He E. destruct (idle_runs _ _ _ K He) as (k & Hk & Hs).
  unfold resched. rewrite E, Ret_bind. unfold prepare_to_switch.
  rewrite (ka_next _ _ _ K), Z.eqb_refl. unfold get_task_run_time.
  set (s1 := upd_task s _ _). set (s2 := upd_task s1 _ _).
  pose proof (prio_ok _ _ _ _ (ka_inv _ _ _ K) Hk) as Hp.
  assert (exists k', tasks s2 = <[current s := k']> (tasks s) /\ state k' = state k /\ pid k' = pid k /\ sched_inv s2 L)
    as (k' & T2 & Hs' & Hp' & I2).
  { set (k1 := with_run_time (5 + (TASK_MAX_PRIO - prio k)) k).
    assert (tasks s1 !! current s = Some k1) as Hk1
      by (unfold s1, upd_task; rewrite (get_task_some _ _ _ Hk); apply lookup_insert_eq).
    exists (with_run_count (u32 (run_count k1 + 1)) k1). split_and!; try done.
    - unfold s2, upd_task. rewrite (get_task_some _ _ _ Hk1). cbn [tasks set_tasks].
      unfold s1, upd_task. cbn [tasks set_tasks]. by rewrite insert_insert_eq.
    - eapply sched_inv_upd; [|exact Hk1|done|done|by left].
      eapply sched_inv_upd; [apply K|exact Hk|done|done|by left]. }
  exists s2. split; [done|]. destruct K as [K1 K2 K3 K4 K5 K6 K7].
  assert (tasks s2 !! current s = Some k') as Hk' by (rewrite T2; apply lookup_insert_eq).
  split_and!; try done.
  - split; try done.
    + exists k'. split; [done|]. rewrite Hs', Hs. done.
    + rewrite T2. intros t kt [[<- _]|[_ ?]]%lookup_insert_Some ?; [done|]. by eapply K3.
    + destruct K7 as (ki & Hki & Hpi & Hsi). change (idle s2) with (idle s). rewrite T2.
      destruct (decide (current s = idle s)) as [Ec|Ec].
      * exists k'. rewrite <- Ec, lookup_insert_eq in *. split; [done|].
        assert (k = ki) as -> by congruence. by rewrite Hs', Hp'.
      * exists ki. by rewrite lookup_insert_ne.
  - exists k'. by rewrite Hs'.
  - split; try done; rewrite T2.
    + intros x kx Hx Hsx. rewrite lookup_insert_ne; [done|]. congruence.
    + intros x kx [[<- <-]|[_ ?]]%lookup_insert_Some ?; [congruence|done].
    + intros x ?. rewrite lookup_insert_is_Some. destruct (decide (current s = x)); auto.
Qed.
(** Otherwise the best task becomes the running one. *)
Lemma switch_same s : next_run s = current s -> arch_switch_task_sw s = s.
Proof. intros E. destruct s. unfold arch_switch_task_sw, set_current. simpl in *. by rewrite E. Qed.

Lemma resched_switch irq s L t kt : kernel_at irq s L -> best L t ->
  tasks s !! t = Some kt -> state kt = PROCESS_STATE_PREPARE ->
  find_next_run_task s = Ret (set_next_run s t) ->
  exists s' L', resched s = Ret (s', 0) /\ kernel_at irq (arch_switch_task_sw s') L' /\
    runs (arch_switch_task_sw s') /\ sleepers_kept s s' /\ next_run s' = t.
Proof.
  intros K Hb Hkt Hst E. destruct K as [K1 (k & Hk & Hs) K3 K4 K5 K6 K7].
  unfold resched. rewrite E, Ret_bind. set (s1 := set_next_run s t).
  assert (sched_inv s1 L) as I1 by (destruct K1 as [[] ?]; by split).
  destruct (switch_to_spec s1 L (current s) k t kt) as (s2 & k' & kt' & E2 & I2 & R2 & T2 & Hst' & Hpt & Hp' & Hs' & Hu & _);
    [done..|].
  exists s2. eexists. split; [exact E2|]. change (tasks s1) with (tasks s) in T2.
  destruct R2 as [R2m R2p R2c R2i R2n R2r R2q]. cbn [mutexes pids current idle next_run schedule_running in_interrupt s1 set_next_run] in *.
  assert (t <> current s) as Hne by (intros ->; congruence).
  assert (tasks s2 !! t = Some kt') as Hkt2 by (rewrite T2; apply lookup_insert_eq).
  assert (runs (arch_switch_task_sw s2)) as Hr.
  { exists kt'. cbn [arch_switch_task_sw set_current current tasks]. by rewrite R2n. }
  split; [|split; [done|split; [|done]]].
  - split; cbn [arch_switch_task_sw set_current current tasks next_run schedule_running in_interrupt idle]; try congruence.
    + destruct I2 as [[] ?]. split; [by split|done].
    + destruct Hr as (kr & Hkr & Hsr). exists kr. split; [exact Hkr|]. congruence.
    + rewrite R2n, T2. intros x kx [[<- _]|[Hx Hin]]%lookup_insert_Some Hsx; [done|].
      apply lookup_insert_Some in Hin as [[<- <-]|[Hx' Hin]]; [|by destruct (Hx' (eq_sym (K3 _ _ Hin Hsx)))].
      rewrite Hs' in Hsx. case_decide; congruence.
    + rewrite R2i. destruct K7 as (ki & Hki & Hpi & Hsi).
      destruct (decide (idle s = t)) as [Ei|Ei].
      { exists kt'. rewrite Ei, Hkt2. split; [done|]. rewrite Ei in Hki. split; [congruence|by left]. }
      destruct (decide (idle s = current s)) as [Ec|Ec].
      { rewrite Ec in *. exists k'. rewrite T2, lookup_insert_ne by done. rewrite lookup_insert_eq.
        assert (ki = k) as -> by congruence. split; [done|]. split; [congruence|]. right. rewrite Hs'.
        destruct Hsi; [by rewrite decide_True|done]. }
      exists ki. rewrite T2, !lookup_insert_ne by done. done.
  - split; try congruence; rewrite T2.
    + intros x kx Hx Hsx. rewrite lookup_insert_ne by congruence.
      destruct (decide (x = current s)) as [->|Hxc]; [|by rewrite lookup_insert_ne].
      rewrite lookup_insert_eq. assert (kx = k) as -> by congruence. f_equal. apply Hu. congruence.
    + intros x kx [[<- <-]|[_ Hx]]%lookup_insert_Some Hsx; [congruence|].
      apply lookup_insert_Some in Hx as [[<- <-]|[_ ?]]; [|done]. rewrite Hs' in Hsx.
      case_decide as Hd; [done|]. by rewrite (Hu Hd).
    + intros x ?. rewrite !lookup_insert_is_Some. destruct (decide (t = x)), (decide (current s = x)); auto.
Qed.

(** Rescheduling returns, keeps the invariant, and gives the processor to the best task. *)
Lemma resched_spec irq s L : kernel_at irq s L ->
  exists s' L' r, resched s = Ret (s', r) /\ kernel_at irq (arch_switch_task_sw s') L' /\
    runs (arch_switch_task_sw s') /\ sleepers_kept s s' /\
    ((r = 0 /\ best L (next_run s')) \/
     (r = - EAGAIN /\ arch_switch_task_sw s' = s' /\ next_run s' = current s /\
      forall i, 0 <= i < 64 -> L (HPrio i) = [])).
Proof.
  intros K. destruct (find_next_spec s L (ka_inv _ _ _ K)) as [[He E]|(t & k & Hb & Hk & Hs & E)].
  - destruct (resched_again _ _ _ K He E) as (s' & E' & K' & Hr & Hsk & Hc & Hn).
    assert (arch_switch_task_sw s' = s') as Es.
    { destruct s'. unfold arch_switch_task_sw, set_current. simpl in *. by rewrite Hn, Hc. }
    exists s', L, (- EAGAIN). rewrite Es. split_and!; try done. right. done.
  - destruct (resched_switch _ _ _ _ _ K Hb Hk Hs E) as (s' & L' & E' & K' & Hr & Hsk & Hn).
    exists s', L', 0. split_and!; try done. left. by rewrite Hn.
Qed.

Lemma sched_spec s L : kernel_at false s L ->
  exists s' L', sched s = Ret s' /\ kernel_ok s' L' /\ sleepers_kept s s' /\
    (best L (current s') \/ (current s' = current s /\ forall i, 0 <= i < 64 -> L (HPrio i) = [])).
Proof.
  intros K. destruct (resched_spec _ _ _ K) as (s' & L' & r & E & K' & Hr & Hsk & H).
  unfold sched. rewrite (ka_irq _ _ _ K), (ka_on _ _ _ K). cbn [negb].
  unfold resched in E. apply bind_Ret in E as (s1 & E1 & E2). rewrite E1, Ret_bind, E2, Ret_bind.
  assert (sleepers_kept s (arch_switch_task_sw s')) as Hsk' by (destruct Hsk; by split).
  destruct H as [(-> & Hb)|(-> & Es & Hn & He)].
  - exists (arch_switch_task_sw s'), L'. split; [done|]. split; [by split|]. split; [done|]. by left.
  - rewrite Es in K', Hr. exists s', L'. split; [done|]. split; [by split|]. split; [done|]. right.
    split; [|done]. rewrite <- Es. exact Hn.
Qed.
(** ** Sleeping and waking *)

(** Only sleeping tasks change, and none of them starts to run. *)
Lemma kernel_sleepers irq s L s' L' : kernel_at irq s L -> runs s -> sched_inv s' L' -> same_rest s s' ->
  (forall t k, tasks s !! t = Some k -> state k <> PROCESS_STATE_SLEEP -> tasks s' !! t = Some k) ->
  (forall t k', tasks s' !! t = Some k' -> tasks s !! t = Some k' \/ state k' <> PROCESS_STATE_RUNNING) ->
  kernel_at irq s' L' /\ runs s'.
Proof.
  intros [K1 K2 K3 K4 K5 K6 (ki & Hki & Hpi & Hsi)] (k & Hk & Hs) I' [R1 R2 R3 R4 R5 R6 R7] Hkeep Hnew.
  assert (tasks s' !! current s = Some k) as Hk' by (apply Hkeep; [done|congruence]).
  split; [|exists k; by rewrite R3]. split; try congruence.
  - exists k. rewrite R3. split; [done|congruence].
  - rewrite R3. intros t kt Hkt Hst. destruct (Hnew t kt Hkt) as [Ho|Ho]; [by eapply K3|done].
  - rewrite R4. exists ki. split; [|done]. apply Hkeep; [done|]. destruct Hsi; congruence.
Qed.

Lemma wake_spec s L t k : sched_inv s L -> tasks s !! t = Some k -> state k = PROCESS_STATE_SLEEP ->
  exists s', set_task_state s t PROCESS_STATE_PREPARE = Ret s' /\
    sched_inv s' (push (pull L HSleep t) (HPrio (prio k)) t) /\ same_rest s s' /\
    tasks s' = <[t := with_state PROCESS_STATE_PREPARE k]> (tasks s) /\
    lnext (heap s') (NSleep t) = lnext (heap s) (NSleep t) /\
    forall w, lnext (heap s') (NWait w) = lnext (heap s) (NWait w).
Proof.
  intros I Hk Hs.
  destruct (set_task_state_spec s L t k I Hk PROCESS_STATE_PREPARE) as (s' & E & I' & R & T); [done|].
  rewrite Hs in I', T. cbn [change_table abs_change] in I', T. rewrite decide_False in T by done.
  exists s'. do 4 (split; [done|]). clear I' R T.
  unfold set_task_state, get_task_state in E. rewrite (get_task_some _ _ _ Hk), Hs in E. cbn [change_table] in E.
  rewrite decide_False in E by done. set (s0 := upd_task s t _) in E.
  rewrite (prio_add s L t k I Hk (sched_list_del s0 HSleep (NSleep t)) PROCESS_STATE_PREPARE) in E
    by (change (get_task (sched_list_del s0 HSleep (NSleep t)) t) with (get_task s0 t); unfold s0;
        by rewrite get_task_upd, (get_task_some _ _ _ Hk)).
  injection E as <-. cbn [sched_list_add_tail heap set_lists].
  assert (shape s0 L) as S0 by (destruct (sv_shape _ _ I); by split).
  destruct (shape_pull s0 L HSleep t S0) as [S1 N1]; [done|by apply (in_sleep s L t k)|].
  destruct (sh_family _ _ S0) as [Hd0 _]. destruct (sh_family _ _ S1) as [Hd _].
  pose proof (prio_ok _ _ _ _ I Hk) as Hp.
  pose proof (dlist_pre_in _ _ _ (HPrio (prio k)) (Hd (HPrio (prio k)) (heads_sched (HPrio (prio k)) Hp)) ltac:(left)) as Hin.
  cbn [sched_list_del heap set_lists entry] in Hin.
  assert (forall u, (forall x, u <> NPrio x) -> (forall x, u <> HPrio x) ->
    lnext (list_add_tail (list_del (heap s0) (NSleep t)) (HPrio (prio k)) (NPrio t)) u =
    lnext (list_del (heap s0) (NSleep t)) u) as Hadd.
  { intros u Hu1 Hu2. rewrite list_add_tail_next, decide_False by done. rewrite decide_False; [done|]. intros Heq.
    rewrite <- Heq in Hin. apply elem_of_cons in Hin as [?|Hin]; [by eapply Hu2|].
    apply list_elem_of_fmap in Hin as (x & ? & _). by eapply Hu1. }
  split; [rewrite Hadd by done; exact N1|]. intros w. rewrite Hadd by done. rewrite list_del_next, decide_False; [done|].
  intros Heq. pose proof (in_sleep s L t k I Hk Hs) as HtL.
  assert (NSleep t ∈ HSleep :: entries L HSleep) as Hn by (right; apply list_elem_of_fmap; by exists t).
  pose proof (dlist_pre_in _ _ _ (NSleep t) (Hd0 HSleep (heads_sched HSleep Logic.I)) Hn) as Hpre.
  rewrite <- Heq in Hpre. apply elem_of_cons in Hpre as [?|Hpre]; [done|].
  by apply list_elem_of_fmap in Hpre as (? & ? & _).
Qed.

Lemma wakeup_task_spec s L t k : kernel_ok s L -> tasks s !! t = Some k ->
  (state k <> PROCESS_STATE_SLEEP /\ wakeup_task s t = Ret (s, - EINVAL)) \/
  exists s' L' k', state k = PROCESS_STATE_SLEEP /\ wakeup_task s t = Ret (s', 0) /\ kernel_ok s' L' /\
    same_rest s s' /\ tasks s' = <[t := k']> (tasks s) /\ state k' = PROCESS_STATE_PREPARE.
Proof.
  intros [K Hr] Hk. unfold wakeup_task, get_task_state. rewrite (get_task_some _ _ _ Hk).
  destruct (decide (state k = PROCESS_STATE_SLEEP)) as [Hs|Hs];
    [rewrite bool_decide_true by done|rewrite bool_decide_false by done; by left].
  cbn [negb]. right. set (k1 := with_run_time (5 + (TASK_MAX_PRIO - prio k)) k).
  set (s1 := get_task_run_time s t).
  assert (tasks s1 = <[t := k1]> (tasks s)) as T1
    by (unfold s1, get_task_run_time, upd_task; by rewrite (get_task_some _ _ _ Hk)).
  assert (sched_inv s1 L) as I1.
  { eapply sched_inv_upd; [apply K|exact Hk|done| |by left]. cbn. by eapply prio_ok; [apply K|]. }
  destruct (wake_spec s1 L t k1 I1) as (s' & E & I' & R & T & _); [rewrite T1; apply lookup_insert_eq|done|].
  rewrite E, Ret_bind. rewrite T1, insert_insert_eq in T.
  assert (same_rest s s') as R' by (etrans; [|exact R]; by split).
  eexists s', _, _. split; [done|]. split; [done|]. split; [|by split_and!].
  eapply kernel_sleepers; try done.
  - intros x kx Hx Hsx. rewrite T, lookup_insert_ne; [done|]. congruence.
  - rewrite T. intros x kx [[<- <-]|[Hne Hx]]%lookup_insert_Some; [by right|by left].
Qed.

(** The current task, not the idle one, goes to sleep; another one runs. *)
Lemma suspend_spec s L timeout : kernel_ok s L -> current s <> idle s -> timeout <> 0 ->
  exists s' L' k', suspend_task_timeout s (current s) timeout = Ret (inl s') /\ kernel_ok s' L' /\
    tasks s' !! current s = Some k' /\ state k' = PROCESS_STATE_SLEEP /\ wait_time k' = timeout /\ time_out k' = 0 /\
    current s' <> current s /\ mutexes s' = mutexes s /\
    forall x k, x <> current s -> tasks s !! x = Some k -> state k = PROCESS_STATE_SLEEP -> tasks s' !! x = Some k.
Proof.
  intros [K (k & Hk & Hs)] Hni Ht. unfold suspend_task_timeout, get_task_state.
  pose proof (ka_inv _ _ _ K) as I. pose proof (prio_ok _ _ _ _ I Hk) as Hp.
  pose proof (task_ok _ _ _ _ I Hk) as Hc.
  rewrite (proj2 (Z.eqb_neq (current s) 0)), (proj2 (Z.eqb_neq timeout 0)) by lia. cbn [orb].
  rewrite (get_task_some _ _ _ Hk), bool_decide_false by congruence.
  set (k1 := with_time_out 0 (with_wait_time timeout k)). set (s1 := upd_task s (current s) _).
  assert (tasks s1 = <[current s := k1]> (tasks s)) as T1 by (unfold s1, upd_task; by rewrite (get_task_some _ _ _ Hk)).
  assert (sched_inv s1 L) as I1 by (eapply sched_inv_upd; [exact I|exact Hk|done|done|by left]).
  destruct (set_task_state_spec s1 L (current s) k1 I1) with (new := PROCESS_STATE_SLEEP) as (s2 & E2 & I2 & R2 & T2);
    [rewrite T1; apply lookup_insert_eq|done|].
  change (state k1) with (state k) in I2, T2. rewrite Hs in I2, T2. cbn [change_table abs_change] in I2, T2.
  rewrite decide_False in T2 by done. rewrite T1, insert_insert_eq in T2. rewrite E2, Ret_bind.
  set (k2 := with_state PROCESS_STATE_SLEEP k1) in T2.
  assert (same_rest s s2) as [R1 R3 R4 R5 R6 R7 R8] by (etrans; [|exact R2]; by split).
  assert (tasks s2 !! current s = Some k2) as Hk2 by (rewrite T2; apply lookup_insert_eq).
  destruct K as [K1 K2 K3 K4 K5 K6 (ki & Hki & Hpi & Hsi)].
  assert (kernel_at false s2 (push L HSleep (current s))) as K'.
  { split; try congruence.
    - exists k2. by rewrite R4.
    - rewrite R4, T2. intros x kx [[<- <-]|[Hne Hx]]%lookup_insert_Some Hsx; [done|]. by eapply K3.
    - exists ki. rewrite R5, T2, lookup_insert_ne by congruence. done. }
  destruct (sched_spec _ _ K') as (s3 & L3 & E3 & K3' & [Sk _ _ Sm Sp Si] & _). rewrite E3, Ret_bind.
  exists s3, L3, k2. pose proof (Sk _ _ Hk2 eq_refl) as Hk3. split_and!; try done; [|congruence|].
  - destruct K3' as [_ (kr & Hkr & Hsr)]. intros Ec. rewrite Ec in Hkr.
    assert (kr = k2) as -> by congruence. done.
  - intros x kx Hne Hx Hsx. apply Sk; [|done]. by rewrite T2, lookup_insert_ne.
Qed.
(** ** The timer tick *)

(** What a tick does to a sleeping task. *)
Definition tick_of (k : task) : task :=
  let w := if 0 <? wait_time k then wait_time k - 1 else wait_time k in
  if w =? 0 then with_state PROCESS_STATE_PREPARE (with_wait_time w k) else with_wait_time w k.

Lemma tick_task_spec s L t k : sched_inv s L -> tasks s !! t = Some k -> state k = PROCESS_STATE_SLEEP ->
  exists s' L', tick_task (NSleep t) s = Ret s' /\ sched_inv s' L' /\ same_rest s s' /\
    tasks s' = <[t := tick_of k]> (tasks s) /\ lnext (heap s') (NSleep t) = lnext (heap s) (NSleep t) /\
    (L' HSleep = L HSleep \/ L' HSleep = drop_task t (L HSleep)).
Proof.
  intros I Hk Hs. unfold tick_task. rewrite (get_task_some _ _ _ Hk).
  set (w := if 0 <? wait_time k then wait_time k - 1 else wait_time k).
  set (s1 := if 0 <? wait_time k then _ else s).
  pose proof (prio_ok _ _ _ _ I Hk) as Hp.
  assert (sched_inv s1 L /\ same_rest s s1 /\ heap s1 = heap s /\ tasks s1 = <[t := with_wait_time w k]> (tasks s))
    as (I1 & R1 & H1 & T1).
  { subst s1 w. destruct (0 <? wait_time k).
    - split; [eapply sched_inv_upd; [exact I|exact Hk|done|done|by left]|].
      split; [by split|]. split; [done|]. unfold upd_task. by rewrite (get_task_some _ _ _ Hk).
    - split; [done|]. split; [done|]. split; [done|].
      rewrite insert_id; [done|]. rewrite Hk. by destruct k. }
  assert (tasks s1 !! t = Some (with_wait_time w k)) as Hk1 by (rewrite T1; apply lookup_insert_eq).
  rewrite (get_task_some _ _ _ Hk1). cbn [wait_time with_wait_time]. unfold tick_of. fold w.
  destruct (w =? 0).
  - destruct (wake_spec s1 L t _ I1 Hk1 Hs) as (s' & E & I' & R & T & N & _).
    exists s'. eexists. split; [exact E|]. split; [exact I'|]. split; [by etrans|].
    split; [by rewrite T, T1, insert_insert_eq|]. split; [by rewrite N, H1|]. right.
    unfold push. rewrite fupd_ne by done. unfold pull. by rewrite fupd_eq.
  - exists s1, L. split; [done|]. split; [done|]. split; [done|]. split; [done|].
    split; [by rewrite H1|]. by left.
Qed.

Lemma sleep_loop_spec s L fuel : sched_inv s L -> (length (L HSleep) < fuel)%nat ->
  exists s' L', list_for_each_m fuel heap HSleep (lnext (heap s) HSleep) tick_task s = Ret s' /\
    sched_inv s' L' /\ same_rest s s' /\
    forall x, tasks s' !! x = (if decide (x ∈ L HSleep) then tick_of <$> tasks s !! x else tasks s !! x).
Proof.
  intros I Hf.
  set (P := fun (ns : list node) (a : sched_st) => exists L' keep todo, ns = NSleep <$> todo /\
    L' HSleep = keep ++ todo /\ sched_inv a L' /\ same_rest s a /\ (forall x, x ∈ todo -> x ∈ L HSleep) /\
    forall x, tasks a !! x = (if decide (x ∈ L HSleep /\ x ∉ todo) then tick_of <$> tasks s !! x else tasks s !! x)).
  assert (lnext (heap s) HSleep = hd HSleep (NSleep <$> L HSleep)) as Eh.
  { destruct (sh_family _ _ (sv_shape _ _ I)) as [Hd _].
    exact (dlist_first _ _ _ (Hd HSleep (heads_sched HSleep Logic.I))). }
  rewrite Eh.
  destruct (list_for_each_m_inv P heap HSleep tick_task) with (xs := NSleep <$> L HSleep) (fuel := fuel) (a := s)
    as (s' & E & L' & keep & todo & En & _ & I' & R & _ & Ht).
  - intros n rest a (L' & keep & todo & En & EL & Ia & R & Hin & Ht).
    destruct todo as [|t todo]; [done|]. injection En as -> ->. split; [done|].
    assert (t ∈ L' HSleep) as HtL by (rewrite EL; apply elem_of_app; right; left).
    pose proof (shape_nodup _ _ HSleep (sv_shape _ _ Ia) Logic.I) as Hnd. rewrite EL in Hnd.
    apply NoDup_app in Hnd as (Hnd1 & Hnd2 & [Hnd3 Hnd4]%NoDup_cons).
    destruct (mb_known _ _ (sv_members _ _ Ia) HSleep t Logic.I HtL) as [k Hk].
    pose proof (proj1 (mb_sleep _ _ (sv_members _ _ Ia) t k Hk) HtL) as Hs.
    destruct (tick_task_spec a L' t k Ia Hk Hs) as (a' & L2 & E & I2 & R2 & T2 & N2 & HL2).
    exists a'. split; [exact E|]. split.
    + exists L2, (if decide (L2 HSleep = L' HSleep) then keep ++ [t] else keep), todo.
      split; [done|]. split.
      { destruct (decide _) as [->|Hn]; [rewrite EL, <- app_assoc; done|].
        destruct HL2 as [?| ->]; [done|]. rewrite EL. apply drop_task_middle; [|done].
        intros Hx. apply (Hnd2 t Hx). left. }
      split; [done|]. split; [by etrans|]. split; [intros x Hx; apply Hin; by right|].
      intros x. rewrite T2. destruct (decide (x = t)) as [->|Hne].
      * rewrite lookup_insert_eq, decide_True by (split; [apply Hin; left|done]).
        rewrite Ht, decide_False in Hk by (intros [_ Hx]; apply Hx; left). by rewrite Hk.
      * rewrite lookup_insert_ne, Ht by done. apply decide_ext. rewrite not_elem_of_cons. tauto.
    + rewrite N2. destruct (sh_family _ _ (sv_shape _ _ Ia)) as [Hd _].
      specialize (Hd HSleep (heads_sched HSleep Logic.I)). unfold entries in Hd. rewrite EL, fmap_app in Hd.
      exact (dlist_next _ _ _ _ _ Hd).
  - exists L, [], (L HSleep). split_and!; try done. intros x. by rewrite decide_False by (by intros [? ?]).
  - by rewrite length_fmap.
  - exists s', L'. split; [exact E|]. split; [done|]. split; [done|]. intros x. rewrite Ht.
    symmetry in En. apply fmap_nil_inv in En as ->. apply decide_ext. set_solver.
Qed.

Lemma tick_interrupt_spec s L fuel : kernel_ok s L -> (length (L HSleep) < fuel)%nat ->
  exists s' L', tick_interrupt fuel s = Ret s' /\ kernel_ok s' L' /\ mutexes s' = mutexes s /\
    forall x k, tasks s !! x = Some k -> state k = PROCESS_STATE_SLEEP ->
      exists k', tasks s' !! x = Some k' /\
        if decide (state (tick_of k) = PROCESS_STATE_SLEEP) then k' = tick_of k else state k' <> PROCESS_STATE_SLEEP.
Proof.
  intros [K Hr] Hf. unfold tick_interrupt, os_tick_handler.
  set (s0 := set_in_interrupt s true).
  assert (sched_inv s0 L) as I0 by (destruct (ka_inv _ _ _ K) as [[] ?]; by split).
  destruct (sleep_loop_spec s0 L fuel I0 Hf) as (s1 & L1 & E1 & I1 & R1 & T1). rewrite E1, Ret_bind. clear E1.
  assert (forall x k, tasks s !! x = Some k -> x ∈ L HSleep <-> state k = PROCESS_STATE_SLEEP) as HL.
  { intros x k Hk. by apply (mb_sleep _ _ (sv_members _ _ I0)). }
  assert (kernel_at true s1 L1 /\ runs s1) as [K1 Hr1].
  { eapply (kernel_sleepers true s0 L); [by destruct K; split|done|done|done| |].
    - intros t k Hk Hs. rewrite T1, decide_False by (by rewrite (HL t k Hk)). done.
    - intros t k'. rewrite T1. case_decide as Hd; [|by left]. intros Hk'. right.
      apply fmap_Some in Hk' as (k & Hk & ->). change (tasks s0) with (tasks s) in Hk.
      rewrite (HL t k Hk) in Hd. unfold tick_of. destruct (_ =? 0); cbn; congruence. }
  destruct Hr1 as (kc & Hkc & Hsc).
  set (s2 := upd_task s1 (current s1) _).
  set (kc2 := with_run_time (run_time kc - 1) kc).
  assert (tasks s2 = <[current s1 := kc2]> (tasks s1)) as T2
    by (unfold s2, upd_task; by rewrite (get_task_some _ _ _ Hkc)).
  assert (kernel_at true s2 L1 /\ runs s2) as [K2 Hr2].
  { destruct K1 as [J1 J2 J3 J4 J5 J6 (ki & Hki & Hpi & Hsi)].
    assert (tasks s2 !! current s1 = Some kc2) as Hk2 by (rewrite T2; apply lookup_insert_eq).
    split; [|by exists kc2]. split; try done.
    - eapply sched_inv_upd; [exact J1|exact Hkc|done|exact (prio_ok _ _ _ _ J1 Hkc)|by left].
    - exists kc2. split; [done|]. cbn. congruence.
    - rewrite T2. intros x kx [[<- _]|[_ ?]]%lookup_insert_Some ?; [done|]. by eapply J3.
    - rewrite T2. change (idle s2) with (idle s1). destruct (decide (current s1 = idle s1)) as [Ec|Ec].
      + exists kc2. rewrite <- Ec in Hki |- *. rewrite lookup_insert_eq.
        assert (ki = kc) as -> by congruence. done.
      + exists ki. by rewrite lookup_insert_ne. }
  assert (forall x k, tasks s !! x = Some k -> state k = PROCESS_STATE_SLEEP -> tasks s2 !! x = Some (tick_of k)) as Hsl.
  { intros x k Hk Hs. rewrite T2, lookup_insert_ne.
    - rewrite T1, decide_True by (by apply (HL x k)). change (tasks s0) with (tasks s). by rewrite Hk.
    - rewrite (sr_current _ _ R1). change (current s0) with (current s).
      destruct Hr as (kr & Hkr & Hsr). intros <-. congruence. }
  assert (mutexes s2 = mutexes s) as Hm by apply R1.
  assert (forall s3 L3, kernel_at true (arch_switch_task_sw s3) L3 -> runs (arch_switch_task_sw s3) ->
    sleepers_kept s2 s3 -> let s' := arch_switch_task_sw (set_in_interrupt s3 false) in
    kernel_ok s' L3 /\ mutexes s' = mutexes s /\ forall x k, tasks s !! x = Some k -> state k = PROCESS_STATE_SLEEP ->
      exists k', tasks s' !! x = Some k' /\
        if decide (state (tick_of k) = PROCESS_STATE_SLEEP) then k' = tick_of k else state k' <> PROCESS_STATE_SLEEP) as Hend.
  { intros s3 L3 K3 Hr3 [S1 S2 S3 S4 S5 S6] s'. split; [|split; [by rewrite <- Hm, <- S4|]].
    - split; [|done]. destruct K3 as [[[] ?] ? ? ? ? ? ?]. by split.
    - intros x k Hk Hs. pose proof (Hsl x k Hk Hs) as Hk2. change (tasks s') with (tasks s3).
      destruct (decide (state (tick_of k) = PROCESS_STATE_SLEEP)) as [Hd|Hd].
      + exists (tick_of k). split; [|done]. by apply S1.
      + destruct (S3 x) as [k' Hk']; [by rewrite Hk2|]. exists k'. split; [done|]. intros Hs'.
        pose proof (S2 x k' Hk' Hs') as Hk3. rewrite Hk2 in Hk3. congruence. }
  destruct (run_time (get_task s2 (current s2)) =? 0).
  - destruct (resched_spec _ _ _ K2) as (s3 & L3 & r & E3 & K3 & Hr3 & Hsk & _).
    unfold resched in E3. apply bind_Ret in E3 as (s4 & E4 & E5).
    change (s1 ← find_next_run_task s2; prepare_to_switch s1) with (resched s2) in *.
    rewrite E4, Ret_bind, E5, !Ret_bind. eexists _, L3. split; [done|]. by apply Hend.
  - rewrite ret_bind. eexists _, L1. split; [done|]. apply Hend; [..|by split];
      rewrite switch_same; try done; apply K2.
Qed.
End Spec.

(** ** The scheduler's own lists *)

Lemma sched_heads_are n : sched_head n -> is_head n.
Proof. by destruct n. Qed.
Lemma sched_heads_prio i : sched_head (HPrio i) -> 0 <= i < 64.
Proof. done. Qed.

Abbreviation sinv := (sched_inv sched_head).
Abbreviation kernel := (kernel_ok sched_head).

Section Own.
Let HA := sched_heads_are.
Let HS : forall n, sched_head n -> sched_head n := fun n H => H.
Let HP := sched_heads_prio.

(** Preparing the nodes of a new task does not touch any list. *)
Lemma init_nodes_family h F ns : family h sched_head F ->
  (forall n hd, n ∈ ns -> sched_head hd -> n ∉ hd :: F hd) -> family (foldl init_list h ns) sched_head F.
Proof.
  revert h. induction ns as [|n ns IH]; intros h HF Hn; [done|]. simpl. apply IH.
  - destruct HF as [Hd Hdis]. split; [|done]. intros a Ha. eapply dlist_frame; [|by apply Hd].
    intros u Hu. assert (u <> n) as Hne by (intros ->; eapply Hn; [left|exact Ha|done]).
    unfold init_list, set_pre, set_next. simpl. by rewrite !decide_False.
  - intros m hd Hm. apply Hn. by right.
Qed.

Definition new_task (k : task) : Prop :=
  state k = PROCESS_STATE_UNKNOWN /\ prio k = TASK_DEFAULT_PRIO /\ wait_time k = -1 /\ time_out k = 0.

Lemma init_sched_struct_spec s L t : sinv s L -> tasks s !! t = None -> 0 < t < 4294967296 -> t <> idle s ->
  exists k, sinv (init_sched_struct s t) L /\ same_rest s (init_sched_struct s t) /\
    tasks (init_sched_struct s t) = <[t := k]> (tasks s) /\ new_task k.
Proof.
  intros [S M] Hnone Ht Hni. unfold init_sched_struct. rewrite (proj2 (Z.eqb_neq t (idle s)) Hni).
  unfold upd_task, get_task_run_time, upd_task. cbn [tasks set_tasks set_heap set_lists].
  unfold get_task. cbn [tasks set_tasks]. rewrite !lookup_insert_eq, !insert_insert_eq. cbn [default].
  set (k := with_state _ _). exists k.
  assert (forall hd, sched_head hd -> t ∉ L hd) as Hnew.
  { intros hd Hh Hin. destruct (mb_known _ _ M hd t Hh Hin) as [? ?]. congruence. }
  split; [|split; [by split|split; [done|by split_and!]]]. split.
  - destruct S as [S1 S2 S3]. split; [|done|done]. cbn [heap]. apply init_nodes_family; [done|].
    intros n hd Hn Hh. apply not_elem_of_cons. split.
    + intros <-. repeat (apply elem_of_cons in Hn as [->|Hn]; [done|]). by apply elem_of_nil in Hn.
    + intros Hin. apply list_elem_of_fmap in Hin as (x & -> & Hx).
      assert (x = t) as ->; [|by eapply Hnew].
      destruct hd; try done; repeat (apply elem_of_cons in Hn as [Hn|Hn]; [by simplify_eq/=|]);
        by apply elem_of_nil in Hn.
  - cbn [tasks set_tasks set_heap set_lists]. destruct M as [M1 M2 M3 M4 M5 M6]. split.
    + intros x kx [[<- <-]|[_ ?]]%lookup_insert_Some; [by split|by apply M1].
    + intros hd x Hh Hx. destruct (M2 hd x Hh Hx) as [kx Hkx]. rewrite lookup_insert_ne; [by eexists|congruence].
    + intros x kx i [[<- <-]|[_ ?]]%lookup_insert_Some Hi; [|by apply M3].
      split; [intros Hin; by destruct (Hnew (HPrio i) Hi)|by intros [? _]].
    + intros x kx [[<- <-]|[_ ?]]%lookup_insert_Some; [|by apply M4].
      split; [intros Hin; by destruct (Hnew HSleep Logic.I)|done].
    + intros x kx [[<- <-]|[_ ?]]%lookup_insert_Some; [|by apply M5].
      intros Hin. by destruct (Hnew HIdle Logic.I).
    + intros x kx [[<- <-]|[_ ?]]%lookup_insert_Some; [|by apply M6]. intros _. by apply Hnew.
Qed.

(** The scheduling side of [do_fork]. *)
Definition start_task (s : sched_st) (t : Z) : outcome sched_st :=
  set_task_state (init_sched_struct s t) t PROCESS_STATE_PREPARE.

Lemma start_task_spec s L t : kernel s L -> tasks s !! t = None -> 0 < t < 4294967296 ->
  exists s' k, start_task s t = Ret s' /\ kernel s' (push (push L HSystem t) (HPrio 20) t) /\ same_rest s s' /\
    tasks s' = <[t := k]> (tasks s) /\ state k = PROCESS_STATE_PREPARE.
Proof.
  intros [K Hr] Hnone Ht. pose proof (ka_inv _ _ _ _ K) as I.
  assert (t <> idle s) as Hni by (destruct (ka_idle _ _ _ _ K) as (ki & Hki & _); congruence).
  destruct (init_sched_struct_spec s L t I Hnone Ht Hni) as (k & I1 & R1 & T1 & Hn1 & Hn2 & _).
  unfold start_task.
  destruct (set_task_state_spec sched_head HA HS HP _ L t k I1) with (new := PROCESS_STATE_PREPARE)
    as (s' & E & I' & R & T); [rewrite T1; apply lookup_insert_eq|done|].
  rewrite Hn1, Hn2 in I'. rewrite Hn1 in T. cbn [change_table abs_change] in I', T. rewrite decide_False in T by done.
  rewrite T1, insert_insert_eq in T.
  exists s', (with_state PROCESS_STATE_PREPARE k). assert (same_rest s s') as R' by (by etrans).
  split; [done|]. split; [|by split_and!].
  eapply kernel_sleepers; try done.
  - intros x kx Hx _. rewrite T, lookup_insert_ne; [done|congruence].
  - rewrite T. intros x kx [[<- <-]|[_ ?]]%lookup_insert_Some; [by right|by left].
Qed.
End Own.
