(* ===== verification/SchedSteps.v ===== *)
(** * Runs of the scheduler

    The operations as a step relation, what holds in every state they reach, how long a
    timed sleep can last, and the numbers of processes. *)

From S2P Require Import Prelude Bitops Dlist Sched SchedSpec.

Section Steps.
Let HA := sched_heads_are.
Let HS : forall n, sched_head n -> sched_head n := fun n H => H.
Let HP := sched_heads_prio.

(** The current task ends: it is idle from now on and another one runs. *)
Definition end_task (s : sched_st) : outcome sched_st :=
  s ← set_task_state s (current s) PROCESS_STATE_IDLE; sched s.

Lemma end_task_spec s L : kernel s L -> current s <> idle s ->
  exists s' L', end_task s = Ret s' /\ kernel s' L' /\ mutexes s' = mutexes s /\
    forall x k, tasks s !! x = Some k -> state k = PROCESS_STATE_SLEEP -> tasks s' !! x = Some k.
Proof.
  intros [K (k & Hk & Hs)] Hni. pose proof (ka_inv _ _ _ _ K) as I. unfold end_task.
  destruct (set_task_state_spec sched_head HA HS HP s L (current s) k I Hk PROCESS_STATE_IDLE)
    as (s2 & E2 & I2 & [R1 R3 R4 R5 R6 R7 R8] & T2); [done|].
  rewrite Hs in I2, T2. cbn [change_table abs_change] in I2, T2. rewrite decide_False in T2 by done.
  rewrite E2, Ret_bind. set (k2 := with_state PROCESS_STATE_IDLE k) in T2.
  assert (tasks s2 !! current s = Some k2) as Hk2 by (rewrite T2; apply lookup_insert_eq).
  destruct K as [K1 K2 K3 K4 K5 K6 (ki & Hki & Hpi & Hsi)].
  assert (kernel_at sched_head false s2 (push L HIdle (current s))) as K'.
  { split; try congruence.
    - exists k2. by rewrite R4.
    - rewrite R4, T2. intros x kx [[<- <-]|[Hne Hx]]%lookup_insert_Some Hsx; [done|]. by eapply K3.
    - exists ki. rewrite R5, T2, lookup_insert_ne by congruence. done. }
  destruct (sched_spec sched_head HA HS HP _ _ K') as (s3 & L3 & E3 & K3' & [Sk _ _ Sm Sp Si] & _).
  exists s3, L3. split; [done|]. split; [done|]. split; [congruence|].
  intros x kx Hx Hsx. apply Sk; [|done]. rewrite T2, lookup_insert_ne; [done|congruence].
Qed.

(** ** Steps *)

Inductive kop :=
  | OpSched
  | OpTick (fuel : nat)
  | OpSuspend (timeout : Z)
  | OpWakeup (t : Z)
  | OpStart (t : Z)
  | OpEnd.

(** What an operation asks of its caller: only the idle task may not sleep or end, a task
    that is woken exists and one that is started does not. *)
Definition op_ok (s : sched_st) (L : lists) (o : kop) : Prop :=
  match o with
  | OpSched => True
  | OpTick fuel => (length (L HSleep) < fuel)%nat
  | OpSuspend timeout => current s <> idle s /\ timeout <> 0
  | OpWakeup t => is_Some (tasks s !! t)
  | OpStart t => tasks s !! t = None /\ 0 < t < 4294967296
  | OpEnd => current s <> idle s
  end.

Definition run_op (s : sched_st) (o : kop) : outcome sched_st :=
  match o with
  | OpSched => sched s
  | OpTick fuel => tick_interrupt fuel s
  | OpSuspend timeout =>
    r ← suspend_task_timeout s (current s) timeout;
    mret (match r with inl s => s | inr (s, _) => s end)
  | OpWakeup t => '(s, _) ← wakeup_task s t; mret s
  | OpStart t => start_task s t
  | OpEnd => end_task s
  end.

Definition is_tick (o : kop) : nat := match o with OpTick _ => 1 | _ => 0 end.

(** What a step does to a task that sleeps. *)
Definition sleeper_step (o : kop) (t : Z) (k k' : task) : Prop :=
  match o with
  | OpTick _ => if decide (state (tick_of k) = PROCESS_STATE_SLEEP) then k' = tick_of k else state k' <> PROCESS_STATE_SLEEP
  | OpWakeup t' => if decide (t = t') then state k' = PROCESS_STATE_PREPARE else k' = k
  | _ => k' = k
  end.

Lemma run_op_spec s L o : kernel s L -> op_ok s L o ->
  exists s' L', run_op s o = Ret s' /\ kernel s' L' /\ mutexes s' = mutexes s /\
    forall t k, tasks s !! t = Some k -> state k = PROCESS_STATE_SLEEP ->
      exists k', tasks s' !! t = Some k' /\ sleeper_step o t k k'.
Proof.
  intros K Hok. destruct o as [|fuel|timeout|t|t|]; simpl in *.
  - destruct K as [K Hr]. destruct (sched_spec sched_head HA HS HP s L K) as (s' & L' & E & K' & [S1 _ _ S2 _ _] & _).
    exists s', L'. split_and!; try done. intros x k Hx Hs. exists k. split; [by apply S1|done].
  - destruct (tick_interrupt_spec sched_head HA HS HP s L fuel K Hok) as (s' & L' & E & K' & Hm & H).
    exists s', L'. by split_and!.
  - destruct Hok as [Hni Ht].
    destruct (suspend_spec sched_head HA HS HP s L timeout K Hni Ht) as (s' & L' & k' & E & K' & _ & _ & _ & _ & _ & Hm & H).
    rewrite E, Ret_bind. exists s', L'. split_and!; try done. intros x k Hx Hs. exists k. split; [|done].
    apply H; [|done|done]. destruct K as [_ (kc & Hkc & Hsc)]. intros ->. congruence.
  - destruct Hok as [k Hk].
    destruct (wakeup_task_spec sched_head HA HS HP s L t k K Hk) as [[Hs E]|(s' & L' & k' & Hs & E & K' & R & T & Hs')];
      rewrite E, Ret_bind.
    + exists s, L. split_and!; try done. intros x kx Hx Hsx. exists kx. split; [done|].
      rewrite decide_False; [done|]. intros ->. congruence.
    + exists s', L'. split_and!; try done; [apply R|]. intros x kx Hx Hsx. rewrite T.
      case_decide as Hd; subst; [exists k'|exists kx]; rewrite ?lookup_insert_eq, ?lookup_insert_ne by done; done.
  - destruct Hok as [Hn Ht]. destruct (start_task_spec s L t K Hn Ht) as (s' & k & E & K' & R & T & _).
    eexists s', _. split; [exact E|]. split; [exact K'|]. split; [apply R|]. intros x kx Hx Hsx. exists kx.
    rewrite T, lookup_insert_ne by congruence. done.
  - destruct (end_task_spec s L K Hok) as (s' & L' & E & K' & Hm & H).
    exists s', L'. split_and!; try done. intros x kx Hx Hsx. exists kx. split; [by apply H|done].
Qed.

(** Sequences of operations, each called as [op_ok] asks. *)
Inductive steps : list kop -> sched_st -> sched_st -> Prop :=
  | steps_nil s : steps [] s s
  | steps_cons o os s L s1 s2 :
      kernel s L -> op_ok s L o -> run_op s o = Ret s1 -> steps os s1 s2 -> steps (o :: os) s s2.

Lemma lists_unique s L L' hd : kernel s L -> kernel s L' -> sched_head hd -> L hd = L' hd.
Proof.
  intros [K _] [K' _] Hh.
  destruct (sh_family _ _ _ (sv_shape _ _ _ (ka_inv _ _ _ _ K))) as [Hd _].
  destruct (sh_family _ _ _ (sv_shape _ _ _ (ka_inv _ _ _ _ K'))) as [Hd' _].
  pose proof (dlist_inj _ _ _ _ (Hd hd Hh) (Hd' hd Hh)) as E. unfold entries in E.
  eapply list_fmap_eq_inj; [|exact E]. by apply entry_inj, sched_heads_are.
Qed.

Lemma steps_kernel os s s' : steps os s s' -> forall L, kernel s L -> exists L', kernel s' L'.
Proof.
  induction 1 as [s|o os s L0 s1 s2 K0 Hok E Hst IH]; intros L K; [by exists L|].
  destruct (run_op_spec s L0 o K0 Hok) as (s' & L' & E' & K' & _). rewrite E in E'. injection E' as <-. by eapply IH.
Qed.
End Steps.

(** ** Properties *)


(** C3: from a consistent state every sequence of scheduler calls, timer ticks, sleeps,
    wake-ups, starts and ends of tasks returns and leads to a consistent state, in which
    exactly the current task runs. *)
Theorem scheduler_safe os s L s' (K : kernel s L) (Hsteps : steps os s s') :
  exists L', kernel s' L' /\
    (forall t k, tasks s' !! t = Some k -> state k = PROCESS_STATE_RUNNING <-> t = current s') /\
    forall o, op_ok s' L' o -> exists s'', run_op s' o = Ret s''.
Proof.
  destruct (steps_kernel os s s' Hsteps L K) as [L' K']. exists L'. split; [done|]. split.
  - intros t k Hk. split; [by eapply ka_only, Hk; apply K'|]. intros ->.
    destruct K' as [_ (kc & Hkc & Hs)]. congruence.
  - intros o Ho. destruct (run_op_spec s' L' o K' Ho) as (s'' & _ & E & _). by exists s''.
Qed.

(** C31: [sched] called by a running task gives the processor to the first task of the
    best priority that can run; it keeps it only if no other task can. *)
Theorem sched_picks_best s L (K : kernel s L) :
  exists s' L', sched s = Ret s' /\ kernel s' L' /\
    (best L (current s') \/ (current s' = current s /\ forall i, 0 <= i < 64 -> L (HPrio i) = [])).
Proof.
  destruct K as [K _].
  destruct (sched_spec sched_head sched_heads_are (fun n H => H) sched_heads_prio s L K) as (s' & L' & E & K' & _ & H).
  by exists s', L'.
Qed.

(** C30: a task that sleeps with [n > 0] ticks to go sleeps for less than [n] ticks, whatever
    the other tasks do. *)
Theorem timed_sleep_ends os s L s' t k
    (K : kernel s L) (Hsteps : steps os s s') (Hk : tasks s !! t = Some k) (Hs : state k = PROCESS_STATE_SLEEP)
    (Hw : 0 < wait_time k) :
  (exists os1 s1 k1, steps os1 s s1 /\ (exists os2, os = os1 ++ os2) /\
     tasks s1 !! t = Some k1 /\ state k1 <> PROCESS_STATE_SLEEP) \/
  (Z.of_nat (list_sum (is_tick <$> os)) < wait_time k).
Proof.
  revert L k K Hk Hs Hw. induction Hsteps as [s|o os s L0 s1 s2 K0 Hok E Hst IH]; intros L k K Hk Hs Hw.
  { right. simpl. lia. }
  destruct (run_op_spec s L0 o K0 Hok) as (s1' & L1 & E1 & K1 & _ & Hsl). rewrite E in E1. injection E1 as <-.
  destruct (Hsl t k Hk Hs) as (k1 & Hk1 & Hstep).
  destruct (decide (state k1 = PROCESS_STATE_SLEEP)) as [Hs1|Hs1].
  2: { left. exists [o], s1, k1. split; [exact (steps_cons _ _ _ _ _ _ K0 Hok E (steps_nil _))|]. split; [by exists os|done]. }
  assert (wait_time k1 = wait_time k - Z.of_nat (is_tick o) /\ 0 < wait_time k1) as [Ew Hw1].
  { destruct o; simpl in *; try (subst k1; lia).
    - case_decide as Hd; [|done]. subst k1. revert Hd. unfold tick_of.
      rewrite (proj2 (Z.ltb_lt 0 (wait_time k)) Hw). zcase; simpl; [done|lia].
    - case_decide; [congruence|]. subst k1. lia. }
  destruct (IH L1 k1 K1 Hk1 Hs1 Hw1) as [(os1 & s3 & k3 & H1 & (os2 & ->) & H3 & H4)|Hlt].
  - left. exists (o :: os1), s3, k3. split; [exact (steps_cons _ _ _ _ _ _ K0 Hok E H1)|]. split; [by exists os2|done].
  - right. change (list_sum (is_tick <$> o :: os)) with (is_tick o + list_sum (is_tick <$> os))%nat. lia.
Qed.

(** ** Process numbers *)

(** Tasks hold different numbers: [base[i]] is the task with number [i]. *)
Record pids_ok (p : pid_map) : Prop := {
  po_free : pid_map_mutex p = false;
  po_range : 0 <= map_current p <= nr p /\ nr p = 1024;
  po_count : nr_free p = nr p - map_current p;
  po_above : forall i, map_current p <= i < nr p -> rd (addr p) i = 0 }.

(** [get_new_pid] returns a number below 1024 that no task had before and notes the
    task under it, or reports that all numbers were given out. *)
Theorem get_new_pid_correct p t (H : pids_ok p) (Ht : t <> 0) :
  exists p' i, get_new_pid p t = Ret (p', i) /\ pids_ok p' /\
    ((i = -1 /\ map_current p = 1024 /\ addr p' = addr p) \/
     (0 <= i < 1024 /\ i = map_current p /\ rd (addr p) i = 0 /\ pid_get_task p' i = Ret t /\
      forall j, j <> i -> rd (addr p') j = rd (addr p) j)).
Proof.
  destruct H as [H1 [H2 H2'] H3 H4]. unfold get_new_pid.
  destruct (Z.eqb_spec (nr_free p) 0) as [Ez|Ez].
  { exists (pid_unlock p), (-1). split; [done|]. split; [by split|]. left. split_and!; [done|lia|done]. }
  unfold pid_lock. rewrite H1, ret_bind. cbn [nr map_current addr].
  destruct (Z.to_nat (nr p - map_current p)) as [|n] eqn:En; [lia|]. cbn [zfirst].
  rewrite (H4 (map_current p)) by lia. cbn [Z.eqb].
  eexists _, (map_current p). split; [done|]. split.
  - split; cbn [pid_unlock pid_map_mutex map_current nr nr_free addr]; try done; try lia.
    intros i Hi. rewrite rd_wr_ne by lia. apply H4. lia.
  - right. split; [lia|]. split; [done|]. split; [apply H4; lia|].
    unfold pid_get_task. cbn [pid_unlock nr addr]. rewrite (proj2 (Z.ltb_lt _ _)), (proj2 (Z.leb_le _ _)) by lia.
    rewrite rd_wr_eq. split; [done|]. intros j Hj. by rewrite rd_wr_ne.
Qed.

(** Numbers that are given back are not given out again: after 1024 tasks were
    created none can be, even when all of them have ended. *)
Theorem pids_run_out s t s' (H : pids_ok (pids s)) (Hr : release_pid s t = Ret s') :
  pids_ok (pids s') /\ map_current (pids s') = map_current (pids s) /\
  (map_current (pids s) = 1024 -> forall t', exists p', get_new_pid (pids s') t' = Ret (p', -1)).
Proof.
  destruct H as [H1 [H2 H2'] H3 H4]. unfold release_pid, pid_lock in Hr. rewrite H1, ret_bind in Hr.
  cbn [nr addr] in Hr. destruct ((0 <=? pid (get_task s t)) && _); [|done]. injection Hr as <-.
  cbn [set_pids pids pid_unlock map_current nr_free nr addr pid_map_mutex].
  split; [|split; [done|]].
  - split; try done. cbn [addr map_current nr pid_unlock]. intros i Hi. rewrite rd_wr.
    case_decide; [done|]. by apply H4.
  - intros Ec t'. unfold get_new_pid. cbn [nr_free]. rewrite H3, H2', Ec. by eexists.
Qed.

(** ** A machine that just started *)

Module SchedDemo.
Definition idle_task : task := Task (-1) PROCESS_STATE_RUNNING 6 (-1) 0 0 63 0 0.
Definition IDLE : Z := 0x80002000.

(** After [sched_init] and [build_idle_task]. *)
Definition boot0 : sched_st :=
  sched_init (SchedSt ∅ (Lheap (fun x => x) (fun x => x)) (fun _ => 7) ∅ (PidMap 0 0 0 false ∅) 0 0 0 false false) true.
Definition boot : sched_st :=
  SchedSt {[ IDLE := idle_task ]} (heap boot0) (counts boot0) ∅ (pids boot0) IDLE IDLE IDLE true false.

Lemma foldl_init_list (h : lheap node) ns a : a ∈ ns -> lnext (foldl init_list h ns) a = a /\ lpre (foldl init_list h ns) a = a.
Proof.
  assert (forall ns h, lnext h a = a /\ lpre h a = a ->
    lnext (foldl init_list h ns) a = a /\ lpre (foldl init_list h ns) a = a) as Hkeep.
  { clear. intros ns. induction ns as [|n ns IH]; intros h H; [done|]. apply IH. simpl. repeat case_decide; subst; tauto. }
  revert h. induction ns as [|n ns IH]; intros h Hin; [by apply elem_of_nil in Hin|].
  apply elem_of_cons in Hin as [<-|Hin]; [|by apply IH].
  apply (Hkeep ns (init_list h a)). simpl. repeat case_decide; done.
Qed.

Lemma boot_heads hd : sched_head hd -> hd ∈ table_heads ++ [HSleep; HIdle; HSystem].
Proof.
  intros Hh. apply elem_of_app. destruct hd; try done.
  - left. apply list_elem_of_fmap. exists (Z.to_nat i). simpl in Hh. split; [f_equal; lia|].
    apply elem_of_seq. lia.
  - right. set_solver.
  - right. set_solver.
  - right. set_solver.
Qed.

Lemma boot_task t k : tasks boot !! t = Some k -> t = IDLE /\ k = idle_task.
Proof. unfold boot. cbn [tasks]. by intros [<- <-]%lookup_singleton_Some. Qed.

Lemma boot_kernel : kernel boot (fun _ => []).
Proof.
  assert (forall hd t, t ∈ (fun _ : node => [] : list Z) hd -> False) as Hnil
    by (intros hd t Ht; by apply elem_of_nil in Ht).
  split; [split|by exists idle_task].
  - split.
    + split; [split| |].
      * intros a Ha. split; [apply NoDup_singleton|]. apply foldl_init_list. by apply boot_heads.
      * intros a b x Ha Hb Hx Hy. cbn in Hx, Hy. apply list_elem_of_singleton in Hx, Hy. congruence.
      * intros hd Hh. unfold boot. cbn [counts boot0 sched_init]. rewrite decide_True by (by apply boot_heads). done.
      * intros hd t Hh Ht. by destruct (Hnil hd t Ht).
    + split.
      * intros t k [-> ->]%boot_task. done.
      * intros hd t Hh Ht. by destruct (Hnil hd t Ht).
      * intros t k i [-> ->]%boot_task Hi. split; [intros Ht; by destruct (Hnil (HPrio i) _ Ht)|by intros [? _]].
      * intros t k [-> ->]%boot_task. split; [intros Ht; by destruct (Hnil HSleep _ Ht)|done].
      * intros t k _ Ht. by destruct (Hnil HIdle _ Ht).
      * intros t k [-> ->]%boot_task. done.
  - by exists idle_task.
  - intros t k [-> ->]%boot_task. done.
  - done.
  - done.
  - done.
  - exists idle_task. split; [done|]. split; [done|]. by left.
Qed.

(** Two tasks are started; the first one gets the processor and sleeps for three ticks. *)
Definition A : Z := 0x80200000.
Definition B : Z := 0x80300000.
Definition ops : list kop := [OpStart A; OpStart B; OpSched; OpSuspend 3].
End SchedDemo.

(** Executable form of [op_ok]. *)
Definition op_check (s : sched_st) (o : kop) : bool :=
  match o with
  | OpSched => true
  | OpTick fuel => counts s HSleep <? Z.of_nat fuel
  | OpSuspend timeout => negb (current s =? idle s) && negb (timeout =? 0)
  | OpWakeup t => bool_decide (is_Some (tasks s !! t))
  | OpStart t => bool_decide (tasks s !! t = None) && (0 <? t) && (t <? 4294967296)
  | OpEnd => negb (current s =? idle s)
  end.

Fixpoint exec_ops (os : list kop) (s : sched_st) : option sched_st :=
  match os with
  | [] => Some s
  | o :: os =>
    if op_check s o then match run_op s o with Ret s => exec_ops os s | _ => None end else None
  end.

Lemma op_check_ok s L o : kernel s L -> op_check s o = true -> op_ok s L o.
Proof.
  intros [K _] H. destruct o; simpl in *; rewrite ?andb_true_iff, ?negb_true_iff, ?Z.eqb_neq, ?bool_decide_eq_true, ?Z.ltb_lt in H.
  - done.
  - rewrite (sh_count _ _ _ (sv_shape _ _ _ (ka_inv _ _ _ _ K)) HSleep) in H by done. lia.
  - done.
  - done.
  - tauto.
  - done.
Qed.

Lemma exec_ops_steps os s s' L : kernel s L -> exec_ops os s = Some s' -> steps os s s' /\ exists L', kernel s' L'.
Proof.
  revert s L. induction os as [|o os IH]; intros s L K E; simpl in E; [injection E as <-; split; [constructor|eauto]|].
  destruct (op_check s o) eqn:Ec; [|done]. apply (op_check_ok s L) in Ec as Hok; [|done].
  destruct (run_op_spec s L o K Hok) as (s1 & L1 & E1 & K1 & _). rewrite E1 in E.
  destruct (IH s1 L1 K1 E) as [Hst HK]. split; [|done]. by apply (steps_cons o os s L s1 s').
Qed.

Definition sched_demo : sched_st := default SchedDemo.boot (exec_ops SchedDemo.ops SchedDemo.boot).

Lemma some_default {X} (o : option X) d : bool_decide (is_Some o) = true -> o = Some (default d o).
Proof. by destruct o. Qed.

Lemma sched_demo_runs : bool_decide (is_Some (exec_ops SchedDemo.ops SchedDemo.boot)) = true.
Proof. by vm_compute. Qed.

Lemma sched_demo_exec : exec_ops SchedDemo.ops SchedDemo.boot = Some sched_demo.
Proof. exact (some_default _ _ sched_demo_runs). Qed.

Definition sleeps (o : option task) (w : Z) : bool :=
  match o with Some k => bool_decide (state k = PROCESS_STATE_SLEEP) && (wait_time k =? w) | None => false end.

Lemma sleeps_spec o w : sleeps o w = true -> exists k, o = Some k /\ state k = PROCESS_STATE_SLEEP /\ wait_time k = w.
Proof.
  destruct o as [k|]; [|done]. simpl. rewrite andb_true_iff, bool_decide_eq_true, Z.eqb_eq. intros [? ?]. by exists k.
Qed.

Lemma sched_demo_sleeps : sleeps (tasks sched_demo !! SchedDemo.A) 3 = true.
Proof. by vm_compute. Qed.

Lemma sched_demo_asleep : exists k, tasks sched_demo !! SchedDemo.A = Some k /\
  state k = PROCESS_STATE_SLEEP /\ wait_time k = 3.
Proof. exact (sleeps_spec _ _ sched_demo_sleeps). Qed.


Lemma scheduler_safe_witness :
  exists L', kernel sched_demo L' /\
    (forall t k, tasks sched_demo !! t = Some k -> state k = PROCESS_STATE_RUNNING <-> t = current sched_demo) /\
    forall o, op_ok sched_demo L' o -> exists s'', run_op sched_demo o = Ret s''.
Proof.
  exact (scheduler_safe SchedDemo.ops SchedDemo.boot (fun _ => []) sched_demo SchedDemo.boot_kernel
    (proj1 (exec_ops_steps SchedDemo.ops SchedDemo.boot sched_demo _ SchedDemo.boot_kernel sched_demo_exec))).
Defined.

Lemma sched_picks_best_witness :
  exists s' L', sched SchedDemo.boot = Ret s' /\ kernel s' L' /\
    (best (fun _ => []) (current s') \/
     (current s' = current SchedDemo.boot /\ forall i, 0 <= i < 64 -> (fun _ : node => [] : list Z) (HPrio i) = [])).
Proof. exact (sched_picks_best SchedDemo.boot (fun _ => []) SchedDemo.boot_kernel). Defined.

Lemma timed_sleep_ends_witness :
  exists k L, tasks sched_demo !! SchedDemo.A = Some k /\ kernel sched_demo L /\
  ((exists os1 s1 k1, steps os1 sched_demo s1 /\ (exists os2, [] = os1 ++ os2) /\
     tasks s1 !! SchedDemo.A = Some k1 /\ state k1 <> PROCESS_STATE_SLEEP) \/
   Z.of_nat (list_sum (is_tick <$> [])) < wait_time k).
Proof.
  destruct sched_demo_asleep as (k & Hk & Hs & Hw).
  destruct (exec_ops_steps SchedDemo.ops SchedDemo.boot sched_demo _ SchedDemo.boot_kernel sched_demo_exec) as [_ [L K]].
  exists k, L. split; [exact Hk|]. split; [exact K|].
  apply (timed_sleep_ends [] sched_demo L sched_demo SchedDemo.A k K (steps_nil _) Hk Hs). rewrite Hw. lia.
Defined.

Lemma pids_start_ok : pids_ok (pids SchedDemo.boot).
Proof. by split. Qed.

Lemma get_new_pid_correct_witness :
  exists p' i, get_new_pid (pids SchedDemo.boot) 0x80200000 = Ret (p', i) /\ pids_ok p' /\
    ((i = -1 /\ map_current (pids SchedDemo.boot) = 1024 /\ addr p' = addr (pids SchedDemo.boot)) \/
     (0 <= i < 1024 /\ i = map_current (pids SchedDemo.boot) /\ rd (addr (pids SchedDemo.boot)) i = 0 /\
      pid_get_task p' i = Ret 0x80200000 /\ forall j, j <> i -> rd (addr p') j = rd (addr (pids SchedDemo.boot)) j)).
Proof. apply (get_new_pid_correct (pids SchedDemo.boot) 0x80200000 pids_start_ok). lia. Defined.

Lemma pids_run_out_witness :
  exists s', release_pid SchedDemo.boot 0x80200000 = Ret s' /\
    pids_ok (pids s') /\ map_current (pids s') = map_current (pids SchedDemo.boot) /\
    (map_current (pids SchedDemo.boot) = 1024 -> forall t', exists p', get_new_pid (pids s') t' = Ret (p', -1)).
Proof. eexists. split; [reflexivity|]. exact (pids_run_out SchedDemo.boot 0x80200000 _ pids_start_ok eq_refl). Defined.

(** ** Changing the priority of a task that is ready

    [set_task_prio] takes such a task to the unknown state and back, and the way back adds
    it to the list of all tasks a second time: with two tasks the other one is no longer
    found there. *)
Definition two_ready : sched_st :=
  default SchedDemo.boot (exec_ops [OpStart SchedDemo.A; OpStart SchedDemo.B] SchedDemo.boot).

Definition system_walk (s : sched_st) : list node :=
  let n1 := lnext (heap s) HSystem in let n2 := lnext (heap s) n1 in [n1; n2; lnext (heap s) n2].

Theorem set_task_prio_loses_task :
  system_walk two_ready = [NSystem SchedDemo.A; NSystem SchedDemo.B; HSystem] /\
  exists s', set_task_prio two_ready SchedDemo.A 10 = Ret (s', 0) /\
    system_walk s' = [NSystem SchedDemo.A; HSystem; NSystem SchedDemo.A] /\ counts s' HSystem = 3.
Proof.
  split; [by vm_compute|].
  assert (match set_task_prio two_ready SchedDemo.A 10 with
    | Ret (s', r) => bool_decide (system_walk s' = [NSystem SchedDemo.A; HSystem; NSystem SchedDemo.A]) &&
        (counts s' HSystem =? 3) && (r =? 0)
    | _ => false end = true) as H by by vm_compute.
  destruct (set_task_prio two_ready SchedDemo.A 10) as [[s' r]| | |]; try done.
  apply andb_true_iff in H as [[H1 H2]%andb_true_iff H3]. apply bool_decide_eq_true in H1. apply Z.eqb_eq in H2, H3.
  exists s'. by rewrite H3.
Qed.
