(* ===== verification/Mutex.v ===== *)
(** * Mutexes and the end of tasks (kernel/mutex.c, kernel/task.c)

    A mutex is its address: its [count] is in [mutexes], its members [wait] and [task] are
    the nodes [HWait] and [NMutex].  [mutex_lock_timeout] is cut where other code can run:
    after each critical section and inside [suspend_task_timeout]. *)

From S2P Require Import Prelude Bitops Dlist Sched.

Definition mutex_count (s : sched_st) (m : Z) : Z := default 0 (mutexes s !! m).

Definition init_mutex (s : sched_st) (m : Z) : sched_st :=
  set_heap (set_count s m 0) (init_list (init_list (heap s) (HWait m)) (NMutex m)).

(** The critical section at the head of the loop: [true] if the mutex was free. *)
Definition lock_round (s : sched_st) (m : Z) : sched_st * bool :=
  let t := current s in
  if negb (mutex_count s m =? 0) then (set_heap s (list_add_tail (heap s) (HWait m) (NWait t)), false)
  else
    let s := set_count s m 1 in
    (set_heap s (list_add_tail (heap s) (HGot t) (NMutex m)), true).

(** After [suspend_task_timeout]: on a timeout the task leaves the wait list and gives up. *)
Definition lock_woken (s : sched_st) (t timeout : Z) : sched_st * option Z :=
  if negb (timeout =? 0) then (set_heap s (list_del (heap s) (NWait t)), Some (- ETIMEDOUT)) else (s, None).

(** One pass of the loop when nothing happens between the critical section and the sleep:
    [inl] the task sleeps, [inr] the call returned. *)
Definition mutex_lock_timeout (s : sched_st) (m ms : Z) : outcome (sched_st + sched_st * Z) :=
  let t := current s in
  if t =? 0 then mret (inr (s, 0))
  else
    let '(s, got) := lock_round s m in
    if got then mret (inr (s, 0))
    else
      r ← suspend_task_timeout s t ms;
      match r with
      | inl s => mret (inl s)
      | inr (s, err) =>
        match lock_woken s t err with
        | (s, Some e) => mret (inr (s, e))
        | (s, None) => mret (inl s)
        end
      end.

Definition unlock_one (n : node) (s : sched_st) : outcome sched_st :=
  match n with
  | NWait t =>
    let s := set_heap s (list_del (heap s) (NWait t)) in
    '(s, _) ← wakeup_task s t;
    mret s
  | _ => Fault
  end.

Definition mutex_unlock (fuel : nat) (s : sched_st) (m : Z) : outcome sched_st :=
  if mutex_count s m =? 0 then mret s
  else
    let s := set_count s m 0 in
    s ← list_for_each_m fuel heap (HWait m) (lnext (heap s) (HWait m)) unlock_one s;
    if negb (is_list_empty (heap s) (NMutex m)) then mret (set_heap s (list_del (heap s) (NMutex m))) else mret s.

(** ** The end of a task *)

Definition task_kill_self (s : sched_st) (t : Z) : outcome (sched_st * Z) :=
  system_killer ← pid_get_task (pids s) 0;
  if system_killer =? 0 then mret (s, - EINVAL)
  else
    s ← set_task_state s t PROCESS_STATE_IDLE;
    '(s, _) ← wakeup_task s system_killer;
    s ← sched s;
    mret (s, 0).

(** The children move to the parent's list while the loop walks the task's own. *)
Definition adopt (t : Z) (n : node) (s : sched_st) : outcome sched_st :=
  match n with
  | NChild c =>
    let p := parent (get_task s t) in
    let s := upd_task s c (with_parent p) in
    mret (set_heap s (list_add_tail (heap s) (HChild p) (NChild c)))
  | _ => Fault
  end.

Definition unlock_got (fuel : nat) (n : node) (s : sched_st) : outcome sched_st :=
  match n with NMutex m => mutex_unlock fuel s m | _ => Fault end.

(** [kill_task] without the release of files and memory at its end. *)
Definition kill_task (fuel : nat) (s : sched_st) (t : Z) : outcome (sched_st * Z) :=
  if t =? 0 then mret (s, - EINVAL)
  else
    s ← set_task_state s t PROCESS_STATE_IDLE;
    '(s, ret) ← sched_remove_task s t;
    if negb (ret =? 0) then mret (s, ret)
    else
      let s := set_heap s (list_del (heap s) (NChild t)) in
      s ← list_for_each_m fuel heap (HChild t) (lnext (heap s) (HChild t)) (adopt t) s;
      let s := if negb (is_list_empty (heap s) (NWait t)) then set_heap s (list_del (heap s) (NWait t)) else s in
      s ← list_for_each_m fuel heap (HGot t) (lnext (heap s) (HGot t)) (unlock_got fuel) s;
      mret (s, 0).

(** The endless loop of the killer task, up to the point where it sleeps again. *)
Definition kill_idle (fuel : nat) (n : node) (s : sched_st) : outcome sched_st :=
  match n with NIdle t => '(s, _) ← kill_task fuel s t; mret s | _ => Fault end.
Definition system_killer_round (fuel : nat) (s : sched_st) : outcome (sched_st + sched_st * Z) :=
  s ← list_for_each_m fuel heap HIdle (lnext (heap s) HIdle) (kill_idle fuel) s;
  suspend_task_timeout s (current s) (-1).
