(* ===== verification/MutexSpec.v ===== *)
(** * Mutual exclusion (kernel/mutex.c)

    Tasks that lock and unlock one mutex, interleaved with timer ticks and voluntary
    switches at every point where interrupts are enabled. *)

From S2P Require Import Prelude Bitops Dlist Sched SchedSpec SchedSteps Mutex.

(** ** The scheduler does not touch mutexes *)

Definition same_mutexes (s s' : sched_st) : Prop := mutexes s' = mutexes s.

#[export] Instance same_mutexes_preorder : PreOrder same_mutexes.
Proof. split; [done|]. intros a b c H1 H2. unfold same_mutexes in *. congruence. Qed.

Lemma prio_list_mutexes s t s' : prio_list_add_task_tail s t = Ret s' \/ prio_list_del_task s t = Ret s' ->
  same_mutexes s s'.
Proof.
  unfold prio_list_add_task_tail, prio_list_del_task. destruct (in_table _); intros [E|E]; try done; by injection E as <-.
Qed.

Lemma set_task_state_mutexes s t x s' : set_task_state s t x = Ret s' -> same_mutexes s s'.
Proof.
  unfold set_task_state. case_decide; [by intros [= <-]|].
  destruct (change_table _ _); intros E; bind_inv; subst; try done;
    try (eapply (prio_list_mutexes _ _ _ (or_introl E))); try (eapply (prio_list_mutexes _ _ _ (or_intror E)));
    match goal with H : prio_list_del_task _ _ = Ret _ |- _ => exact (prio_list_mutexes _ _ _ (or_intror H)) end.
Qed.

Lemma find_next_mutexes s s' : find_next_run_task s = Ret s' -> same_mutexes s s'.
Proof. unfold find_next_run_task. destruct (zfirst _ _ _); intros E; bind_inv; by subst. Qed.

Lemma dec_prio_mutexes s t : same_mutexes s (dec_prio s t).
Proof. unfold dec_prio. by repeat (case_match; try done). Qed.

Lemma prepare_mutexes s s' r : prepare_to_switch s = Ret (s', r) -> same_mutexes s s'.
Proof.
  unfold prepare_to_switch. destruct (_ =? _); [by intros [= <- _]|].
  intros (s1 & E1 & (s2 & E2 & [= -> _])%bind_Ret)%bind_Ret.
  apply set_task_state_mutexes in E2. etrans; [|exact E2].
  assert (same_mutexes s s1) as Hx.
  { destruct (bool_decide _); [|by injection E1 as <-]. apply set_task_state_mutexes in E1. etrans; [|exact E1].
    destruct (_ || _); [|done]. etrans; [apply (dec_prio_mutexes s (current s))|done]. }
  etrans; [exact Hx|]. unfold same_mutexes. by destruct (wait_time _ =? 0).
Qed.

Lemma sched_mutexes s s' : sched s = Ret s' -> same_mutexes s s'.
Proof.
  unfold sched. destruct (in_interrupt s); [by intros [= <-]|]. destruct (negb _); [by intros [= <-]|].
  intros (s1 & E1%find_next_mutexes & ([s2 r] & E2%prepare_mutexes & E3)%bind_Ret)%bind_Ret.
  etrans; [exact E1|]. etrans; [exact E2|]. by destruct (negb _); injection E3 as <-.
Qed.

Lemma tick_loop_mutexes fuel l s s' :
  list_for_each_m fuel heap HSleep l tick_task s = Ret s' -> same_mutexes s s'.
Proof.
  revert l s. induction fuel as [|fuel IH]; intros l s; simpl; [done|]. case_decide; [by intros [= <-]|].
  intros (s1 & E1 & E2%IH)%bind_Ret. etrans; [|exact E2]. destruct l; try done. unfold tick_task in E1.
  destruct (_ =? 0); [apply set_task_state_mutexes in E1; etrans; [|exact E1]|injection E1 as <-]; by destruct (0 <? _).
Qed.

Lemma tick_mutexes fuel s s' : tick_interrupt fuel s = Ret s' -> same_mutexes s s'.
Proof.
  intros (s1 & E & [= <-])%bind_Ret. unfold os_tick_handler in E.
  apply bind_Ret in E as (s2 & E1%tick_loop_mutexes & E2). etrans; [exact E1|].
  destruct (_ =? 0); [|by injection E2 as <-].
  apply bind_Ret in E2 as (s3 & E3%find_next_mutexes & ([s4 r] & E4%prepare_mutexes & [= <-])%bind_Ret).
  etrans; [|exact E4]. etrans; [|exact E3]. done.
Qed.

Lemma suspend_mutexes s t ms r : suspend_task_timeout s t ms = Ret r ->
  same_mutexes s (match r with inl s' => s' | inr (s', _) => s' end).
Proof.
  unfold suspend_task_timeout. destruct (_ || _); [by intros [= <-]|]. destruct (bool_decide _); [by intros [= <-]|].
  intros (s1 & E1%set_task_state_mutexes & (s2 & E2%sched_mutexes & [= <-])%bind_Ret)%bind_Ret.
  etrans; [|exact E2]. etrans; [|exact E1]. done.
Qed.

Lemma wakeup_mutexes s t s' r : wakeup_task s t = Ret (s', r) -> same_mutexes s s'.
Proof.
  unfold wakeup_task. destruct (negb _); [by intros [= <- _]|].
  intros (s1 & E1%set_task_state_mutexes & [= <- _])%bind_Ret. etrans; [|exact E1]. done.
Qed.

Lemma unlock_loop_mutexes fuel m l s s' :
  list_for_each_m fuel heap (HWait m) l unlock_one s = Ret s' -> same_mutexes s s'.
Proof.
  revert l s. induction fuel as [|fuel IH]; intros l s; simpl; [done|]. case_decide; [by intros [= <-]|].
  intros (s1 & E1 & E2%IH)%bind_Ret. etrans; [|exact E2]. destruct l; try done. unfold unlock_one in E1.
  apply bind_Ret in E1 as ([s2 r] & E1%wakeup_mutexes & [= <-]). etrans; [|exact E1]. done.
Qed.

Lemma unlock_count fuel s m s' : mutex_unlock fuel s m = Ret s' ->
  mutex_count s' m = 0 /\ forall m', m' <> m -> mutex_count s' m' = mutex_count s m'.
Proof.
  unfold mutex_unlock. destruct (Z.eqb_spec (mutex_count s m) 0) as [E0|_]; [by intros [= <-]|].
  intros (s1 & E1%unlock_loop_mutexes & E2)%bind_Ret.
  assert (mutexes s' = <[m := 0]> (mutexes s)) as E.
  { transitivity (mutexes s1); [by destruct (negb _); injection E2 as <-|exact E1]. }
  unfold mutex_count. rewrite E, lookup_insert_eq. split; [done|]. intros m' Hm. by rewrite lookup_insert_ne.
Qed.

(** ** Interleavings *)

(** Where a task is in its use of the mutex. *)
Inductive pc :=
  | Outside
  | Trying (ms : Z)
  | Queued (ms : Z)
  | Asleep (ms : Z)
  | Inside.

Abbreviation pcs := (Z -> pc).
Definition goto (p : pcs) (t : Z) (x : pc) : pcs := fun u => if decide (u = t) then x else p u.

Section Steps.
Context (m : Z).

Inductive mstep : sched_st * pcs -> sched_st * pcs -> Prop :=
  | m_call s p ms : p (current s) = Outside -> current s <> 0 ->
      mstep (s, p) (s, goto p (current s) (Trying ms))
  | m_take s p ms s' : p (current s) = Trying ms -> lock_round s m = (s', true) ->
      mstep (s, p) (s', goto p (current s) Inside)
  | m_queue s p ms s' : p (current s) = Trying ms -> lock_round s m = (s', false) ->
      mstep (s, p) (s', goto p (current s) (Queued ms))
  | m_sleep s p ms s' : p (current s) = Queued ms ->
      suspend_task_timeout s (current s) ms = Ret (inl s') ->
      mstep (s, p) (s', goto p (current s) (Asleep ms))
  | m_no_sleep s p ms s1 e s' err : p (current s) = Queued ms ->
      suspend_task_timeout s (current s) ms = Ret (inr (s1, e)) ->
      lock_woken s1 (current s) e = (s', Some err) ->
      mstep (s, p) (s', goto p (current s) Outside)
  | m_again s p ms s' : p (current s) = Asleep ms ->
      lock_woken s (current s) (suspend_result s (current s)) = (s', None) ->
      mstep (s, p) (s', goto p (current s) (Trying ms))
  | m_give_up s p ms s' err : p (current s) = Asleep ms ->
      lock_woken s (current s) (suspend_result s (current s)) = (s', Some err) ->
      mstep (s, p) (s', goto p (current s) Outside)
  | m_unlock fuel s p s' : p (current s) = Inside -> mutex_unlock fuel s m = Ret s' ->
      mstep (s, p) (s', goto p (current s) Outside)
  | m_yield s p s' : sched s = Ret s' -> mstep (s, p) (s', p)
  | m_tick fuel s p s' : tick_interrupt fuel s = Ret s' -> mstep (s, p) (s', p).

(** The mutex is locked exactly while one task is inside, and then by one task only. *)
Record mutex_inv (x : sched_st * pcs) : Prop := {
  mi_one : forall t t', x.2 t = Inside -> x.2 t' = Inside -> t = t';
  mi_count : mutex_count x.1 m <> 0 <-> exists t, x.2 t = Inside }.

(** A step of a task that neither enters nor leaves. *)
Lemma mutex_inv_other s p s' t x : mutex_inv (s, p) -> mutex_count s' m = mutex_count s m ->
  p t <> Inside -> x <> Inside -> mutex_inv (s', goto p t x).
Proof.
  intros [H1 H2] Ec Ht Hx. assert (forall u, goto p t x u = Inside <-> p u = Inside) as Hg.
  { intros u. unfold goto. case_decide; subst; [|done]. split; congruence. }
  split; simpl in *.
  - intros u u' Hu Hu'. apply H1; by apply Hg.
  - rewrite Ec, H2. by setoid_rewrite Hg.
Qed.

Lemma mutex_inv_sched s p s' : mutex_inv (s, p) -> mutex_count s' m = mutex_count s m -> mutex_inv (s', p).
Proof. intros [H1 H2] Ec. split; simpl in *; [done|]. by rewrite Ec. Qed.

Lemma same_mutexes_count s s' : same_mutexes s s' -> mutex_count s' m = mutex_count s m.
Proof. intros E. unfold mutex_count. by rewrite E. Qed.

Lemma lock_woken_count s t e s' r : lock_woken s t e = (s', r) -> mutex_count s' m = mutex_count s m.
Proof. unfold lock_woken. by destruct (negb _); intros [= <- _]. Qed.

Lemma mstep_inv x y : mutex_inv x -> mstep x y -> mutex_inv y.
Proof.
  intros I H. destruct H as [s p ms Hp _|s p ms s' Hp E|s p ms s' Hp E|s p ms s' Hp E|s p ms s1 e s' err Hp E E'
    |s p ms s' Hp E|s p ms s' err Hp E|fuel s p s' Hp E|s p s' E|fuel s p s' E].
  - by apply (mutex_inv_other s); [| |congruence|].
  - unfold lock_round in E. destruct (Z.eqb_spec (mutex_count s m) 0) as [E0|]; [|done]. injection E as <-.
    destruct I as [H1 H2]. simpl in *.
    assert (forall t, p t <> Inside) as Hno by (intros t Ht; apply (proj2 H2); [by exists t|done]).
    split; simpl.
    + intros t t'. unfold goto. repeat case_decide; subst; try done; intros; by edestruct Hno.
    + unfold mutex_count. simpl. rewrite lookup_insert_eq. split; [|done]. intros _. exists (current s).
      unfold goto. by rewrite decide_True.
  - apply (mutex_inv_other s); [done| |congruence|done].
    unfold lock_round in E. by destruct (negb _); injection E as <-.
  - apply (mutex_inv_other s); [done| |congruence|done]. apply suspend_mutexes in E. by apply same_mutexes_count.
  - apply (mutex_inv_other s); [done| |congruence|done]. apply suspend_mutexes in E.
    rewrite (lock_woken_count _ _ _ _ _ E'). by apply same_mutexes_count.
  - apply (mutex_inv_other s); [done| |congruence|done]. by eapply lock_woken_count.
  - apply (mutex_inv_other s); [done| |congruence|done]. by eapply lock_woken_count.
  - apply unlock_count in E as [E _]. destruct I as [H1 H2]. simpl in *.
    assert (forall t, goto p (current s) Outside t <> Inside) as Hno.
    { intros t. unfold goto. case_decide as Hd; [done|]. intros Ht. apply Hd. by apply H1. }
    split; simpl; [intros t t' Ht; by edestruct Hno|]. rewrite E. split; [done|]. intros [t Ht]. by edestruct Hno.
  - apply (mutex_inv_sched s); [done|]. by apply same_mutexes_count, sched_mutexes.
  - apply (mutex_inv_sched s); [done|]. by eapply same_mutexes_count, tick_mutexes.
Qed.

(** C5: whatever the interleaving of tasks, ticks and switches, at most one task is
    between the return of [mutex_lock] and [mutex_unlock], and the mutex is locked exactly
    when one is. *)
Theorem mutex_exclusion s p x
    (Hfree : mutex_count s m = 0) (Hout : forall t, p t <> Inside) (Hsteps : rtc mstep (s, p) x) :
  (forall t t', x.2 t = Inside -> x.2 t' = Inside -> t = t') /\
  (mutex_count x.1 m <> 0 <-> exists t, x.2 t = Inside).
Proof.
  assert (mutex_inv (s, p)) as I.
  { split; simpl; [intros t t' Ht; by edestruct Hout|]. rewrite Hfree. split; [done|]. intros [t Ht]. by edestruct Hout. }
  assert (mutex_inv x) as [H1 H2]; [|done].
  clear Hfree Hout. induction Hsteps as [|y z w Hyz _ IH]; [done|]. by eapply IH, mstep_inv.
Qed.
End Steps.

(** ** A wake-up that is lost

    A task that found the mutex locked is on the wait list before it sleeps.  When the
    timer takes the processor from it in between, the owner's [mutex_unlock] removes it
    from the list and cannot wake it, since it does not sleep yet. *)

Inductive mact := ACall (ms : Z) | ARound | ASleep | AUnlock | AYield | ATick.

Definition act (m : Z) (a : mact) (x : sched_st * pcs) : option (sched_st * pcs) :=
  let '(s, p) := x in
  let t := current s in
  match a, p t with
  | ACall ms, Outside => if t =? 0 then None else Some (s, goto p t (Trying ms))
  | ARound, Trying ms =>
    let '(s', got) := lock_round s m in Some (s', goto p t (if got then Inside else Queued ms))
  | ASleep, Queued ms =>
    match suspend_task_timeout s t ms with Ret (inl s') => Some (s', goto p t (Asleep ms)) | _ => None end
  | AUnlock, Inside => match mutex_unlock 8 s m with Ret s' => Some (s', goto p t Outside) | _ => None end
  | AYield, _ => match sched s with Ret s' => Some (s', p) | _ => None end
  | ATick, _ => match tick_interrupt 8 s with Ret s' => Some (s', p) | _ => None end
  | _, _ => None
  end.

Fixpoint acts (m : Z) (l : list mact) (x : sched_st * pcs) : option (sched_st * pcs) :=
  match l with [] => Some x | a :: l => y ← act m a x; acts m l y end.

Lemma act_mstep m a x y : act m a x = Some y -> mstep m x y.
Proof.
  destruct x as [s p]. unfold act. destruct a, (p (current s)) eqn:Ep; try done;
    try (case_match; try done); try (case_match; try done); intros [= <-].
  all: try by econstructor; eauto.
  - constructor; [done|]. by apply Z.eqb_neq.
Qed.

Lemma acts_steps m l x y : acts m l x = Some y -> rtc (mstep m) x y.
Proof.
  revert x. induction l as [|a l IH]; intros x; simpl; [by intros [= <-]|].
  intros (z & Hz & H)%bind_Some. eapply rtc_l; [by eapply act_mstep|by apply IH].
Qed.

Module MutexDemo.
Definition M : Z := 0x80400000.
Definition start : sched_st * pcs := (init_mutex two_ready M, fun _ => Outside).
(** [A] locks; [B] queues up and is preempted; [A] unlocks; [B] goes to sleep. *)
Definition trace : list mact :=
  [AYield; ACall (-1); ARound; AYield; ACall (-1); ARound] ++ replicate 49 ATick ++ [AUnlock; AYield; ASleep].
Definition stuck (o : option (sched_st * pcs)) : bool :=
  match o with
  | Some (s, p) =>
    (mutex_count s M =? 0) && is_list_empty (heap s) (HWait M) && sleeps (tasks s !! SchedDemo.B) (-1) &&
    match p SchedDemo.B with Asleep ms => ms =? -1 | _ => false end
  | None => false
  end.

Lemma stuck_spec o : stuck o = true -> exists s p k, o = Some (s, p) /\ mutex_count s M = 0 /\
  is_list_empty (heap s) (HWait M) = true /\ tasks s !! SchedDemo.B = Some k /\ state k = PROCESS_STATE_SLEEP /\
  wait_time k = -1 /\ p SchedDemo.B = Asleep (-1).
Proof.
  destruct o as [[s p]|]; [|done]. simpl. intros [[[H1 H2]%andb_true_iff (k & Hk & Hs & Hw)%sleeps_spec]%andb_true_iff H4]%andb_true_iff.
  apply Z.eqb_eq in H1. exists s, p, k. split_and!; try done.
  destruct (p SchedDemo.B); try done. apply Z.eqb_eq in H4. by subst.
Qed.

Lemma trace_stuck : stuck (acts M trace start) = true.
Proof. by vm_compute. Qed.
End MutexDemo.


Lemma mutex_exclusion_witness :
  exists x, rtc (mstep MutexDemo.M) MutexDemo.start x /\
    (forall t t', x.2 t = Inside -> x.2 t' = Inside -> t = t') /\
    (mutex_count x.1 MutexDemo.M <> 0 <-> exists t, x.2 t = Inside).
Proof.
  destruct (MutexDemo.stuck_spec _ MutexDemo.trace_stuck) as (s & p & k & E & H).
  exists (s, p). split; [exact (acts_steps _ _ _ _ E)|].
  apply (mutex_exclusion MutexDemo.M (init_mutex two_ready MutexDemo.M) (fun _ => Outside) (s, p));
    [by vm_compute|done|exact (acts_steps _ _ _ _ E)].
Defined.

(** ** Unlocking wakes the waiters *)

Section Unlock.
Context (m o : Z).

(** The lists of the scheduler, the wait list of [m] and the mutexes its owner [o] holds. *)
Definition lock_heads (n : node) : Prop := sched_head n \/ n = HWait m \/ n = HGot o.

Lemma lock_heads_are n : lock_heads n -> is_head n.
Proof. intros [H | [-> | ->]]; [by apply sched_heads_are|done..]. Qed.
Lemma lock_heads_sched n : sched_head n -> lock_heads n.
Proof. by left. Qed.
Lemma lock_heads_prio i : lock_heads (HPrio i) -> 0 <= i < 64.
Proof. by intros [H | [H | H]]. Qed.

Abbreviation linv := (sched_inv lock_heads).

Lemma members_ext ts L L' : (forall hd, sched_head hd -> L' hd = L hd) -> members ts L -> members ts L'.
Proof.
  intros E [M1 M2 M3 M4 M5 M6].
  assert (L' HSleep = L HSleep) as E1 by (by apply E). assert (L' HIdle = L HIdle) as E2 by (by apply E).
  assert (L' HSystem = L HSystem) as E3 by (by apply E).
  split; [done| | | | |]; rewrite ?E1, ?E2, ?E3; try done.
  - intros hd t Hh. rewrite (E hd Hh). by apply M2.
  - intros t k i Hk Hi. rewrite (E (HPrio i) Hi). by apply M3.
Qed.

(** Leaving a list that has no counter. *)
Lemma unlink_inv s L hd t : linv s L -> hd = HWait m \/ hd = HGot o -> t ∈ L hd ->
  let s' := set_heap s (list_del (heap s) (entry hd t)) in
  linv s' (pull L hd t) /\ lnext (heap s') (entry hd t) = lnext (heap s) (entry hd t).
Proof.
  intros [S M] Hh Ht s'. assert (lock_heads hd) as Hl by (destruct Hh as [-> | ->]; unfold lock_heads; tauto).
  assert (forall b, sched_head b -> b <> hd) as Hns by (intros b Hb ->; by destruct Hh as [-> | ->]).
  pose proof (sh_family _ _ _ S) as [Hd _]. destruct (Hd hd Hl) as [Hnd _].
  apply NoDup_cons in Hnd as [_ Hnd]. apply NoDup_fmap_1 in Hnd.
  apply list_elem_of_split in Ht as (l1 & l2 & E). rewrite E in Hnd.
  apply NoDup_app in Hnd as (_ & Hn1 & [Hn2 _]%NoDup_cons).
  assert (drop_task t (L hd) = l1 ++ l2) as Ed.
  { rewrite E. apply drop_task_middle; [|done]. intros H. apply (Hn1 t H). left. }
  destruct (family_del (heap s) lock_heads (entries L) hd (entry hd <$> l1) (entry hd t) (entry hd <$> l2))
    as [F N]; [apply S|done|unfold entries; by rewrite E, fmap_app|].
  split; [|exact N]. split.
  - destruct S as [S1 S2 S3]. split.
    + apply family_entries. rewrite Ed, fmap_app. exact F.
    + intros b Hb. unfold pull. rewrite fupd_ne by (by apply Hns). by apply S2.
    + intros b x Hb. unfold pull. rewrite fupd_ne by (by apply Hns). by apply S3.
  - eapply members_ext; [|exact M]. intros b Hb. unfold pull. by rewrite fupd_ne by (by apply Hns).
Qed.

(** What [wakeup_task] makes of a task. *)
Definition woke (k : task) : task :=
  if decide (state k = PROCESS_STATE_SLEEP) then
    with_state PROCESS_STATE_PREPARE (with_run_time (5 + (TASK_MAX_PRIO - prio k)) k)
  else k.

Lemma wakeup_inv s L t k : linv s L -> tasks s !! t = Some k ->
  exists s' L' r, wakeup_task s t = Ret (s', r) /\ linv s' L' /\ same_rest s s' /\
    tasks s' = <[t := woke k]> (tasks s) /\ L' (HWait m) = L (HWait m) /\ L' (HGot o) = L (HGot o) /\
    forall w, lnext (heap s') (NWait w) = lnext (heap s) (NWait w).
Proof.
  intros I Hk. unfold wakeup_task, get_task_state, woke. rewrite (get_task_some _ _ _ Hk).
  destruct (decide (state k = PROCESS_STATE_SLEEP)) as [Hs|Hs];
    [rewrite bool_decide_true by done|rewrite bool_decide_false by done].
  2: { exists s, L, (- EINVAL). split; [done|]. split; [done|]. split; [done|].
       split; [by rewrite insert_id|]. done. }
  cbn [negb]. set (k1 := with_run_time (5 + (TASK_MAX_PRIO - prio k)) k). set (s1 := get_task_run_time s t).
  assert (tasks s1 = <[t := k1]> (tasks s)) as T1
    by (unfold s1, get_task_run_time, upd_task; by rewrite (get_task_some _ _ _ Hk)).
  assert (linv s1 L) as I1.
  { eapply (sched_inv_upd lock_heads lock_heads_prio s L t k); [exact I|exact Hk|done| |by left]. exact (proj1 (mb_task _ _ (sv_members _ _ _ I) t k Hk)). }
  destruct (wake_spec lock_heads lock_heads_are lock_heads_sched lock_heads_prio s1 L t k1 I1)
    as (s' & E & I' & R & T & _ & N); [rewrite T1; apply lookup_insert_eq|done|].
  rewrite E, Ret_bind. rewrite T1, insert_insert_eq in T.
  eexists s', _, 0. split; [done|]. split; [exact I'|]. split; [etrans; [|exact R]; by split|]. split; [done|].
  unfold push, pull. rewrite !fupd_ne by done. done.
Qed.

Lemma unlock_loop s L ws fuel : linv s L -> L (HWait m) = ws -> (length ws < fuel)%nat ->
  (forall t, t ∈ ws -> is_Some (tasks s !! t)) ->
  exists s' L', list_for_each_m fuel heap (HWait m) (lnext (heap s) (HWait m)) unlock_one s = Ret s' /\
    linv s' L' /\ same_rest s s' /\ L' (HWait m) = [] /\ L' (HGot o) = L (HGot o) /\
    forall x, tasks s' !! x = (if decide (x ∈ ws) then woke <$> tasks s !! x else tasks s !! x).
Proof.
  intros I Ew Hf Hk.
  set (P := fun (ns : list node) (a : sched_st) => exists L' todo, ns = NWait <$> todo /\ L' (HWait m) = todo /\
    linv a L' /\ same_rest s a /\ L' (HGot o) = L (HGot o) /\ (forall x, x ∈ todo -> x ∈ ws) /\
    forall x, tasks a !! x = (if decide (x ∈ ws /\ x ∉ todo) then woke <$> tasks s !! x else tasks s !! x)).
  assert (forall a L', linv a L' -> dlist (heap a) (HWait m) (NWait <$> L' (HWait m))) as Hdl.
  { intros a L' Ia. destruct (sh_family _ _ _ (sv_shape _ _ _ Ia)) as [Hd _].
    apply (Hd (HWait m)). unfold lock_heads. tauto. }
  rewrite (dlist_first _ _ _ (Hdl s L I)), Ew.
  destruct (list_for_each_m_inv P heap (HWait m) unlock_one) with (xs := NWait <$> ws) (fuel := fuel) (a := s)
    as (s' & E & L' & todo & En & EL & I' & R & Eg & _ & Ht).
  - intros n rest a (L' & todo & En & EL & Ia & R & Eg & Hin & Ht).
    destruct todo as [|t todo]; [done|]. injection En as -> ->. split; [done|].
    pose proof (Hdl a L' Ia) as Hda. rewrite EL in Hda.
    assert (t ∉ todo) as Hnt.
    { destruct Hda as [Hnd _]. apply NoDup_cons in Hnd as [_ Hnd]. apply NoDup_fmap_1, NoDup_cons in Hnd. tauto. }
    destruct (unlink_inv a L' (HWait m) t Ia) as [I1 N1]; [by left|rewrite EL; left|].
    set (a1 := set_heap a (list_del (heap a) (entry (HWait m) t))) in I1, N1.
    destruct (Hk t (Hin t ltac:(left))) as [k Hkt].
    assert (tasks a1 !! t = Some k) as Hka.
    { change (tasks a1) with (tasks a). rewrite Ht, decide_False; [done|]. intros [_ H]. apply H. left. }
    destruct (wakeup_inv a1 _ t k I1 Hka) as (a2 & L2 & r & E2 & I2 & R2 & T2 & W2 & G2 & N2).
    exists a2. split; [unfold unlock_one; cbn [entry] in a1; fold a1; by rewrite E2|]. split.
    + exists L2, todo. split; [done|]. split.
      { rewrite W2. unfold pull. rewrite fupd_eq, EL. by apply (drop_task_middle t [] todo); [apply not_elem_of_nil|]. }
      split; [done|]. split; [etrans; [exact R|]; etrans; [|exact R2]; by split|].
      split; [rewrite G2; unfold pull; by rewrite fupd_ne|].
      split; [intros x Hx; apply Hin; by right|].
      intros x. rewrite T2. change (tasks a1) with (tasks a). destruct (decide (x = t)) as [->|Hne].
      * rewrite lookup_insert_eq, decide_True by (split; [apply Hin; left|done]). by rewrite Hkt.
      * rewrite lookup_insert_ne, Ht by done. apply decide_ext. rewrite not_elem_of_cons. tauto.
    + rewrite N2. cbn [entry] in N1. rewrite N1. exact (dlist_next _ _ [] _ _ Hda).
  - exists L, ws. split_and!; try done. intros x. by rewrite decide_False by (by intros [? ?]).
  - by rewrite length_fmap.
  - exists s', L'. symmetry in En. apply fmap_nil_inv in En as ->. split_and!; try done.
    intros x. rewrite Ht. apply decide_ext. set_solver.
Qed.

(** [mutex_unlock] of a locked mutex frees it, empties its wait list, takes it from its
    owner, and makes every waiting task that sleeps ready to run; no other task changes. *)
Theorem mutex_unlock_wakes s L fuel
    (I : linv s L) (Hlocked : mutex_count s m <> 0) (Hown : m ∈ L (HGot o))
    (Htasks : forall t, t ∈ L (HWait m) -> is_Some (tasks s !! t)) (Hf : (length (L (HWait m)) < fuel)%nat) :
  exists s' L', mutex_unlock fuel s m = Ret s' /\ linv s' L' /\ mutex_count s' m = 0 /\
    L' (HWait m) = [] /\ L' (HGot o) = drop_task m (L (HGot o)) /\
    forall x, tasks s' !! x = (if decide (x ∈ L (HWait m)) then woke <$> tasks s !! x else tasks s !! x).
Proof.
  unfold mutex_unlock. rewrite (proj2 (Z.eqb_neq _ 0) Hlocked).
  set (s0 := set_count s m 0). assert (linv s0 L) as I0 by (destruct I as [[] ?]; by split).
  destruct (unlock_loop s0 L _ fuel I0 eq_refl Hf Htasks) as (s1 & L1 & E & I1 & R1 & W1 & G1 & T1).
  rewrite E, Ret_bind. rewrite <- G1 in Hown.
  destruct (unlink_inv s1 L1 (HGot o) m I1) as [I2 _]; [by right|done|]. cbn [entry] in I2.
  assert (is_list_empty (heap s1) (NMutex m) = false) as ->.
  { unfold is_list_empty. apply bool_decide_false. intros Heq.
    destruct (sh_family _ _ _ (sv_shape _ _ _ I1)) as [Hd _]. specialize (Hd (HGot o) ltac:(unfold lock_heads; tauto)).
    unfold entries in Hd. apply list_elem_of_split in Hown as (l1 & l2 & Eo). rewrite Eo, fmap_app in Hd. simpl in Hd.
    pose proof (dlist_next _ _ _ _ _ Hd) as Hn. destruct Hd as [Hnd _].
    apply NoDup_cons in Hnd as [Hnh Hnd]. apply NoDup_app in Hnd as (_ & _ & [Hnd _]%NoDup_cons).
    rewrite Heq in Hn. destruct l2 as [|x l2]; simpl in Hn; [done|]. apply Hnd. rewrite Hn. left. }
  cbn [negb]. eexists _, _. split; [done|]. split; [exact I2|].
  assert (mutex_count s1 m = 0) as Ec.
  { unfold mutex_count. rewrite (sr_mutexes _ _ R1). simpl. by rewrite lookup_insert_eq. }
  split; [exact Ec|]. unfold pull. rewrite fupd_ne, fupd_eq, W1, G1 by done. done.
Qed.
End Unlock.

Module LockDemo.
Definition O : Z := SchedDemo.IDLE.
Definition hds : list node := (table_heads ++ [HSleep; HIdle; HSystem]) ++ [HWait MutexDemo.M; HGot O].
Definition h0 : lheap node := foldl init_list (Lheap (fun x => x) (fun x => x)) hds.
(** The idle task holds the mutex and is (also) on its wait list. *)
Definition locked : sched_st :=
  SchedSt (tasks SchedDemo.boot)
    (list_add_tail (list_add_tail h0 (HGot O) (NMutex MutexDemo.M)) (HWait MutexDemo.M) (NWait O))
    (counts SchedDemo.boot) {[ MutexDemo.M := 1 ]} (pids SchedDemo.boot) O O O true false.
Definition lists0 : lists := push (push (fun _ => []) (HGot O) MutexDemo.M) (HWait MutexDemo.M) O.

Lemma lock_demo_heads hd : lock_heads MutexDemo.M O hd -> hd ∈ hds.
Proof.
  intros [H | [-> | ->]]; apply elem_of_app; [left; by apply SchedDemo.boot_heads|right..]; set_solver.
Qed.

Lemma lock_demo_family : family h0 (lock_heads MutexDemo.M O) (entries (fun _ => [])).
Proof.
  split.
  - intros a Ha. split; [apply NoDup_singleton|]. apply SchedDemo.foldl_init_list. by apply lock_demo_heads.
  - intros a b x Ha Hb Hx Hy. cbn in Hx, Hy. apply list_elem_of_singleton in Hx, Hy. congruence.
Qed.

Lemma lock_demo_inv : sched_inv (lock_heads MutexDemo.M O) locked lists0.
Proof.
  destruct SchedDemo.boot_kernel as [[[[_ S2 S3] MB] _ _ _ _ _ _] _].
  assert (forall hd, sched_head hd -> lists0 hd = []) as El.
  { intros hd Hh. unfold lists0, push. rewrite !fupd_ne; [done|by destruct hd..]. }
  split; [split|].
  - apply family_entries. apply (family_add_tail _ _ (entries (push (fun _ => []) (HGot O) MutexDemo.M)) (HWait MutexDemo.M) (NWait O)).
    + apply family_entries. apply (family_add_tail _ _ (entries (fun _ => [])) (HGot O) (NMutex MutexDemo.M)).
      * exact lock_demo_family.
      * right. by right.
      * intros b Hb [E|Hin]%elem_of_cons; [|by apply elem_of_nil in Hin]. subst b.
        by destruct Hb as [H | [H | H]].
    + right. by left.
    + intros b Hb [E|Hin]%elem_of_cons; [subst b; by destruct Hb as [H | [H | H]]|].
      unfold entries, push, fupd in Hin. case_decide; subst; simpl in Hin;
        [|by apply elem_of_nil in Hin]. apply list_elem_of_singleton in Hin. done.
  - intros hd Hh. rewrite El by done. exact (S2 hd Hh).
  - intros hd t Hh. rewrite El by done. intros Ht. by apply elem_of_nil in Ht.
  - eapply members_ext; [|exact MB]. exact El.
Qed.
End LockDemo.

Lemma mutex_unlock_wakes_witness :
  exists s' L', mutex_unlock 2 LockDemo.locked MutexDemo.M = Ret s' /\
    sched_inv (lock_heads MutexDemo.M LockDemo.O) s' L' /\ mutex_count s' MutexDemo.M = 0 /\
    L' (HWait MutexDemo.M) = [] /\ L' (HGot LockDemo.O) = drop_task MutexDemo.M (LockDemo.lists0 (HGot LockDemo.O)) /\
    forall x, tasks s' !! x =
      (if decide (x ∈ LockDemo.lists0 (HWait MutexDemo.M)) then woke <$> tasks LockDemo.locked !! x
       else tasks LockDemo.locked !! x).
Proof.
  apply (mutex_unlock_wakes MutexDemo.M LockDemo.O LockDemo.locked LockDemo.lists0 2 LockDemo.lock_demo_inv).
  - by vm_compute.
  - left.
  - intros t Ht. apply list_elem_of_singleton in Ht as ->. by eexists.
  - simpl. lia.
Defined.

(** ** Killing a task that has children

    The loop that hands the children to the parent appends each of them to the parent's
    list before it reads the successor: from there on it walks the parent's list, and
    treats the head of that list as a child. *)

(** for a task with at least one child the loop of [kill_task] over the children reads
    and writes outside of any task. *)
Theorem kill_task_children_fault fuel s t c
    (Hc : lnext (heap s) (HChild t) = NChild c) (Hp : parent (get_task s t) <> t) :
  list_for_each_m (S (S fuel)) heap (HChild t) (lnext (heap s) (HChild t)) (adopt t) s = Fault.
Proof.
  rewrite Hc. cbn [list_for_each_m]. rewrite decide_False by done. cbn [adopt].
  rewrite ret_bind. cbn [heap set_heap set_lists].
  assert (forall h p, lnext (list_add_tail h (HChild p) (NChild c)) (NChild c) = HChild p) as Hn
    by (intros h p; rewrite list_add_tail_next; by rewrite decide_True).
  rewrite !Hn, decide_False by congruence. done.
Qed.

Lemma kill_task_children_fault_witness :
  let s := upd_task (set_heap SchedDemo.boot (list_add_tail (init_list (heap SchedDemo.boot) (HChild 5)) (HChild 5) (NChild 6)))
    5 (with_parent 4) in
  list_for_each_m 2 heap (HChild 5) (lnext (heap s) (HChild 5)) (adopt 5) s = Fault.
Proof. apply (kill_task_children_fault 0 _ 5 6); by vm_compute. Defined.
