(* ===== verification/CString.v ===== *)
(** * Strings and numbers (kernel/string.c)

    Bytes live in a memory of their own, at byte addresses; a byte that was never written
    reads 0.  Loops that look for a terminating zero have fuel. *)

From S2P Require Import Prelude.

Abbreviation bmem := (gmap Z Z).

(** The characters [s] at [a], without and with the terminating zero. *)
Definition bytes_at (m : bmem) (a : Z) (s : list Z) : Prop :=
  forall i c, s !! i = Some c -> rd m (a + Z.of_nat i) = c.
Definition is_chars (s : list Z) : Prop := Forall (fun c => 0 < c < 256) s.
Definition cstr (m : bmem) (a : Z) (s : list Z) : Prop :=
  is_chars s /\ bytes_at m a (s ++ [0]).

(** ** Operations *)

Definition absolute (num : Z) : Z := if 0 <? num then num else s32 (Z.lnot num + 1).

Definition hex_digit (d : Z) : Z := if d <? 10 then 48 + d else 87 + d.

(** The [do] loop of [num_to_str]: the digits, the least one first. *)
Fixpoint digits_loop (fuel : nat) (num bdho : Z) : option (list Z) :=
  match fuel with
  | O => None
  | S fuel =>
    let m := num mod bdho in
    let num := num / bdho in
    if bdho <=? num then ds ← digits_loop fuel num bdho; Some (hex_digit m :: ds)
    else Some (hex_digit m :: (if num =? 0 then [] else [hex_digit num]))
  end.

Fixpoint put_bytes (m : bmem) (a : Z) (s : list Z) : bmem :=
  match s with [] => m | c :: s => put_bytes (wr m a c) (a + 1) s end.

Fixpoint read_bytes (m : bmem) (a : Z) (n : nat) : list Z :=
  match n with O => [] | S n => rd m a :: read_bytes m (a + 1) n end.

(** [tmp_buf] has 32 bytes. *)
Definition num_to_str (m : bmem) (buf num bdho : Z) : outcome (bmem * Z) :=
  ds ← fuelled (digits_loop 32 num bdho);
  if 32 <? Z.of_nat (length ds) then Fault
  else mret (put_bytes m buf (reverse ds), Z.of_nat (length ds)).

Definition itoa (m : bmem) (buf num : Z) : outcome (bmem * Z) :=
  if buf =? 0 then mret (m, -1)
  else if num <? 0 then
    '(m, len) ← num_to_str (wr m buf 45) (buf + 1) (u32 (absolute num)) 10;
    mret (m, len + 1)
  else num_to_str m buf (u32 num) 10.
Definition uitoa (m : bmem) (buf num : Z) : outcome (bmem * Z) := num_to_str m buf num 10.
Definition hextoa (m : bmem) (buf num : Z) : outcome (bmem * Z) := num_to_str m buf num 16.
Definition octtoa (m : bmem) (buf num : Z) : outcome (bmem * Z) := num_to_str m buf num 8.
Definition bintoa (m : bmem) (buf num : Z) : outcome (bmem * Z) := num_to_str m buf num 2.

Fixpoint strlen_loop (fuel : nat) (m : bmem) (buf len : Z) : option Z :=
  match fuel with
  | O => None
  | S fuel => if rd m buf =? 0 then Some len else strlen_loop fuel m (buf + 1) (len + 1)
  end.
Definition strlen (fuel : nat) (m : bmem) (buf : Z) : option Z :=
  if buf =? 0 then Some (-1) else strlen_loop fuel m buf 0.

Fixpoint strcpy_loop (fuel : nat) (m : bmem) (des src : Z) : option bmem :=
  match fuel with
  | O => None
  | S fuel =>
    let c := rd m src in
    let m := wr m des c in
    if c =? 0 then Some m else strcpy_loop fuel m (des + 1) (src + 1)
  end.
Definition strcpy (fuel : nat) (m : bmem) (des src : Z) : option (bmem * Z) :=
  if (des =? 0) || (src =? 0) then Some (m, 0)
  else m ← strcpy_loop fuel m des src; Some (m, des).

Definition strncpy (m : bmem) (des src len : Z) : bmem * Z :=
  if (des =? 0) || (src =? 0) then (m, 0)
  else (zfor (Z.to_nat len) 0 (fun i m => wr m (des + i) (rd m (src + i))) m, des).

Definition is_digit (ch : Z) : bool := (ch <=? 57) && (48 <=? ch).

Definition sign (ret : Z) : Z := if ret <? 0 then -1 else if 0 <? ret then 1 else ret.

Fixpoint strcmp_loop (fuel : nat) (m : bmem) (src dst : Z) : option Z :=
  match fuel with
  | O => None
  | S fuel =>
    let ret := rd m src - rd m dst in
    if (ret =? 0) && negb (rd m dst =? 0) then strcmp_loop fuel m (src + 1) (dst + 1) else Some ret
  end.
Definition strcmp (fuel : nat) (m : bmem) (src dst : Z) : option Z :=
  ret ← strcmp_loop fuel m src dst; Some (sign ret).

(** [char] is signed: the difference of two of them is cut to a [char] again. *)
Fixpoint memcmp_loop (n : nat) (m : bmem) (src dst i : Z) : Z :=
  match n with
  | O => 0
  | S n =>
    let a := s8 (rd m (src + i)) in
    let b := s8 (rd m (dst + i)) in
    if negb (a =? b) then
      let ret := s8 (a - b) in
      if ret <? 0 then -1 else if 0 <? ret then 1 else memcmp_loop n m src dst (i + 1)
    else memcmp_loop n m src dst (i + 1)
  end.
Definition memcmp (m : bmem) (src dst size : Z) : Z :=
  if size =? 0 then - EINVAL else memcmp_loop (Z.to_nat size) m src dst 0.

Fixpoint strncmp_loop (n : nat) (m : bmem) (src dst : Z) : Z :=
  match n with
  | O => 0
  | S n =>
    let ret := rd m src - rd m dst in
    if ret =? 0 then strncmp_loop n m (src + 1) (dst + 1) else ret
  end.
(** A negative [n] counts down through all integers. *)
Definition strncmp (m : bmem) (src dst n : Z) : Z := sign (strncmp_loop (Z.to_nat (u32 n)) m src dst).

Fixpoint strchr (fuel : nat) (m : bmem) (src ch : Z) : option Z :=
  match fuel with
  | O => None
  | S fuel => if rd m src =? ch then Some src else if rd m src =? 0 then Some 0 else strchr fuel m (src + 1) ch
  end.

Definition memcpy (m : bmem) (target source size : Z) : bmem * Z :=
  if size <=? 0 then (m, 0)
  else (zfor (Z.to_nat size) 0 (fun i m => wr m (target + i) (rd m (source + i))) m, size).

Definition memset (m : bmem) (base ch size : Z) : bmem :=
  zfor (Z.to_nat size) 0 (fun i m => wr m (base + i) ch) m.

(** ** Lemmas *)

Lemma bytes_at_cons m a c s : bytes_at m a (c :: s) <-> rd m a = c /\ bytes_at m (a + 1) s.
Proof.
  split.
  - intros H. split; [pose proof (H 0%nat c eq_refl) as E; by rewrite Z.add_0_r in E|].
    intros i d Hi. rewrite <- (H (S i) d Hi). f_equal. lia.
  - intros [H1 H2] [|i] d Hi; simpl in Hi; [rewrite Z.add_0_r; congruence|].
    rewrite <- (H2 i d Hi). f_equal. lia.
Qed.

Lemma bytes_at_app m a s1 s2 :
  bytes_at m a (s1 ++ s2) <-> bytes_at m a s1 /\ bytes_at m (a + Z.of_nat (length s1)) s2.
Proof.
  revert a. induction s1 as [|c s1 IH]; intros a; simpl.
  - rewrite Z.add_0_r. split; [intros H; split; [by intros i c|done]|by intros [_ ?]].
  - rewrite !bytes_at_cons, IH. replace (a + 1 + Z.of_nat (length s1)) with (a + Z.of_nat (S (length s1))) by lia.
    tauto.
Qed.

Lemma put_bytes_other m a s x : x < a \/ a + Z.of_nat (length s) <= x -> rd (put_bytes m a s) x = rd m x.
Proof.
  revert m a. induction s as [|c s IH]; intros m a Hx; simpl in *; [done|].
  rewrite IH by lia. apply rd_wr_ne. lia.
Qed.

Lemma put_bytes_at m a s : bytes_at (put_bytes m a s) a s.
Proof.
  revert m a. induction s as [|c s IH]; intros m a; [by intros i c|]. simpl. apply bytes_at_cons.
  split; [rewrite put_bytes_other by lia; apply rd_wr_eq|apply IH].
Qed.

Lemma read_bytes_at m a s : bytes_at m a s -> read_bytes m a (length s) = s.
Proof.
  revert a. induction s as [|c s IH]; intros a H; [done|]. apply bytes_at_cons in H as [E H]. simpl. by rewrite E, IH.
Qed.

Lemma length_read_bytes m a n : length (read_bytes m a n) = n.
Proof. revert a. induction n as [|n IH]; intros a; simpl; [done|]. by rewrite IH. Qed.

Lemma read_bytes_app m a n k : read_bytes m a (n + k) = read_bytes m a n ++ read_bytes m (a + Z.of_nat n) k.
Proof.
  revert a. induction n as [|n IH]; intros a; simpl; [by rewrite Z.add_0_r|]. rewrite IH. do 3 f_equal. lia.
Qed.

(** [m'] is [m] with [s] written at [a]. *)
Definition wrote (m m' : bmem) (a : Z) (s : list Z) : Prop :=
  bytes_at m' a s /\ forall x, x < a \/ a + Z.of_nat (length s) <= x -> rd m' x = rd m x.

Lemma wrote_put m a s : wrote m (put_bytes m a s) a s.
Proof. split; [apply put_bytes_at|apply put_bytes_other]. Qed.

Lemma wrote_wr m a c : wrote m (wr m a c) a [c].
Proof. apply (wrote_put m a [c]). Qed.

Lemma wrote_app m m1 m2 a s1 s2 :
  wrote m m1 a s1 -> wrote m1 m2 (a + Z.of_nat (length s1)) s2 -> wrote m m2 a (s1 ++ s2).
Proof.
  intros [A1 B1] [A2 B2]. split.
  - apply bytes_at_app. split; [|done]. intros i c Hi. rewrite B2; [by apply A1|].
    apply lookup_lt_Some in Hi. lia.
  - intros x Hx. rewrite length_app in Hx. rewrite B2 by lia. apply B1. lia.
Qed.

(** Value of a digit string, the most significant digit first. *)
Definition digit_of (c : Z) : Z := if c <? 58 then c - 48 else c - 87.
Definition num_of (b : Z) (s : list Z) : Z := foldl (fun v c => v * b + digit_of c) 0 s.

Lemma digit_of_hex d : 0 <= d < 16 -> digit_of (hex_digit d) = d.
Proof. intros. unfold digit_of, hex_digit. zcases. Qed.

Lemma num_of_snoc b s c : num_of b (s ++ [c]) = num_of b s * b + digit_of c.
Proof. unfold num_of. by rewrite foldl_app. Qed.

(** The loop ends, gives digits of the base whose value is the number, the first one not
    zero unless it is alone, and no more of them than the number has bits. *)
Lemma digits_loop_spec b : 2 <= b <= 16 -> forall n num, 0 <= num < 2 ^ (Z.of_nat n + 1) ->
  exists ds, digits_loop (S n) num b = Some ds /\ num_of b (reverse ds) = num /\
    (0 < length ds <= S n)%nat /\ Forall (fun c => exists d, 0 <= d < b /\ c = hex_digit d) ds /\
    (length ds = 1%nat \/ List.last ds 0 <> 48).
Proof.
  intros Hb n. induction n as [|n IH]; intros num Hn.
  - assert (0 <= num < 2) as Hn' by (change (2 ^ (Z.of_nat 0 + 1)) with 2 in Hn; lia). cbn [digits_loop].
    assert (num / b = 0 /\ num mod b = num) as [-> ->] by (rewrite Z.div_small, Z.mod_small; lia).
    rewrite (proj2 (Z.leb_gt b 0)) by lia. simpl. exists [hex_digit num]. split; [done|].
    split; [unfold num_of; simpl; rewrite digit_of_hex; lia|]. split; [simpl; lia|].
    split; [constructor; [exists num; lia|constructor]|]. by left.
  - assert (0 <= num mod b < b) as Hm by (apply Z.mod_pos_bound; lia).
    assert (0 <= num / b) as Hd by (apply Z.div_pos; lia).
    pose proof (Z.div_mod num b ltac:(lia)) as E.
    assert (num / b < 2 ^ (Z.of_nat n + 1)) as Hlt.
    { apply Z.div_lt_upper_bound; [lia|].
      replace (Z.of_nat (S n) + 1) with (1 + (Z.of_nat n + 1)) in Hn by lia. rewrite Z.pow_add_r in Hn by lia. nia. }
    assert (digit_of (hex_digit (num mod b)) = num mod b) as Eh by (apply digit_of_hex; lia).
    cbn [digits_loop]. change (digits_loop (S n) (num / b) b) with (digits_loop (S n) (num / b) b) in *.
    destruct (Z.leb_spec b (num / b)).
    + destruct (IH (num / b) ltac:(lia)) as (ds & Eds & Hv & Hl & Hf & Hz).
      unfold digits_loop in Eds |- *. fold digits_loop in Eds |- *. rewrite Eds. simpl.
      eexists. split; [done|]. split; [rewrite reverse_cons, num_of_snoc, Hv, Eh; lia|]. split; [simpl; lia|].
      split; [constructor; [exists (num mod b); lia|done]|]. right.
      destruct ds as [|c ds]; [simpl in Hl; lia|]. destruct Hz as [Hz|Hz]; [|done].
      destruct ds; [|done]. simpl. simpl in Hv. unfold num_of in Hv. simpl in Hv.
      intros ->. change (digit_of 48) with 0 in Hv. lia.
    + destruct (Z.eqb_spec (num / b) 0) as [E0|E0].
      * eexists. split; [done|]. split; [unfold num_of; simpl; rewrite Eh; nia|]. split; [simpl; lia|].
        split; [constructor; [exists (num mod b); lia|constructor]|]. by left.
      * eexists. split; [done|]. rewrite reverse_cons, num_of_snoc, Eh.
        assert (digit_of (hex_digit (num / b)) = num / b) as Eq by (apply digit_of_hex; lia).
        split; [unfold num_of; simpl; rewrite Eq; lia|]. split; [simpl; lia|].
        split; [repeat constructor; [exists (num mod b); lia|exists (num / b); lia]|]. right. simpl.
        intros Hc. rewrite Hc in Eq. change (digit_of 48) with 0 in Eq. lia.
Qed.

(** Lexicographic order of strings, as [strcmp] reports it. *)
Fixpoint lex_cmp (s t : list Z) : Z :=
  match s, t with
  | [], [] => 0
  | [], _ :: _ => -1
  | _ :: _, [] => 1
  | c :: s, d :: t => if c =? d then lex_cmp s t else if c <? d then -1 else 1
  end.

Lemma strlen_loop_spec fuel m a s len : cstr m a s -> (length s < fuel)%nat ->
  strlen_loop fuel m a len = Some (len + Z.of_nat (length s)).
Proof.
  revert fuel a len. induction s as [|c s IH]; intros [|fuel] a len [Hc Hb] Hf; simpl in *; try lia;
    apply bytes_at_cons in Hb as [E Hb].
  - rewrite E. simpl. f_equal. lia.
  - apply Forall_cons in Hc as [Hc Hs]. rewrite E, (proj2 (Z.eqb_neq c 0)) by lia.
    rewrite IH by (try done; lia). f_equal. lia.
Qed.

Lemma cstr_cons m a c s : cstr m a (c :: s) <-> 0 < c < 256 /\ rd m a = c /\ cstr m (a + 1) s.
Proof. unfold cstr, is_chars. rewrite Forall_cons, <- app_comm_cons, bytes_at_cons. tauto. Qed.

Lemma cstr_nil m a : cstr m a [] <-> rd m a = 0.
Proof.
  unfold cstr, is_chars. simpl. rewrite bytes_at_cons. split; [tauto|]. intros H. split; [constructor|]. split; [done|].
  by intros i c.
Qed.

Lemma strcmp_loop_spec fuel m a b s t : cstr m a s -> cstr m b t -> (length t < fuel)%nat ->
  exists r, strcmp_loop fuel m a b = Some r /\ sign r = lex_cmp s t.
Proof.
  revert fuel a b t. induction s as [|c s IH]; intros [|fuel] a b [|d t] Hs Ht Hf; simpl in *; try lia;
    rewrite ?cstr_cons, ?cstr_nil in Hs; rewrite ?cstr_cons, ?cstr_nil in Ht; repeat match goal with H : _ /\ _ |- _ => destruct H end;
    repeat match goal with H : rd m _ = _ |- _ => rewrite H end.
  - by exists 0.
  - match goal with |- context [?x =? 0] => rewrite (proj2 (Z.eqb_neq x 0)) by lia end.
    eexists. split; [done|]. unfold sign. zcases.
  - match goal with |- context [?x =? 0] => rewrite (proj2 (Z.eqb_neq x 0)) by lia end.
    eexists. split; [done|]. unfold sign. zcases.
  - destruct (Z.eqb_spec c d) as [->|Hne].
    + rewrite Z.sub_diag, (proj2 (Z.eqb_neq d 0)) by lia. simpl. apply IH; try done. lia.
    + rewrite (proj2 (Z.eqb_neq (c - d) 0)) by lia. simpl. eexists. split; [done|]. unfold sign. zcases.
Qed.

Lemma strcpy_loop_spec fuel m des src s :
  cstr m src s -> (length s < fuel)%nat ->
  des + Z.of_nat (length s) < src \/ src + Z.of_nat (length s) < des ->
  exists m', strcpy_loop fuel m des src = Some m' /\ cstr m' des s /\
    forall x, x < des \/ des + Z.of_nat (length s) < x -> rd m' x = rd m x.
Proof.
  revert fuel m des src. induction s as [|c s IH]; intros [|fuel] m des src Hs Hf Hap; simpl in *; try lia.
  - apply cstr_nil in Hs. rewrite Hs. simpl. eexists. split; [done|].
    split; [apply cstr_nil, rd_wr_eq|]. intros x Hx. apply rd_wr_ne. lia.
  - apply cstr_cons in Hs as (Hc & E & Hs). rewrite E, (proj2 (Z.eqb_neq c 0)) by lia.
    destruct (IH fuel (wr m des c) (des + 1) (src + 1)) as (m' & E' & Hm' & Ho); [|lia|lia|].
    { destruct Hs as [H1 H2]. split; [done|]. intros i d Hi. rewrite rd_wr_ne; [by apply H2|].
      apply lookup_lt_Some in Hi. rewrite length_app in Hi. simpl in Hi. lia. }
    exists m'. split; [done|]. split.
    + apply cstr_cons. split; [done|]. split; [|done]. rewrite Ho by lia. apply rd_wr_eq.
    + intros x Hx. rewrite Ho by lia. apply rd_wr_ne. lia.
Qed.

(** ** Properties *)

(** The text [num_to_str] writes for a 32-bit number in a base from 2 to 16 reads back
    as the number, has no leading zero, has between 1 and 32 digits, and no other byte
    changes. *)
Theorem num_to_str_round_trip m buf num bdho (Hn : 0 <= num < 4294967296) (Hb : 2 <= bdho <= 16) :
  exists m' s, num_to_str m buf num bdho = Ret (m', Z.of_nat (length s)) /\ bytes_at m' buf s /\
    num_of bdho s = num /\ (1 <= length s <= 32)%nat /\ (length s = 1%nat \/ hd 0 s <> 48) /\
    forall x, x < buf \/ buf + Z.of_nat (length s) <= x -> rd m' x = rd m x.
Proof.
  destruct (digits_loop_spec bdho Hb 31 num) as (ds & E & Hv & Hl & _ & Hz); [by change (2 ^ (Z.of_nat 31 + 1)) with 4294967296|].
  unfold num_to_str. rewrite E. cbn [fuelled]. rewrite Ret_bind.
  rewrite (proj2 (Z.ltb_ge 32 (Z.of_nat (length ds)))) by lia.
  exists (put_bytes m buf (reverse ds)), (reverse ds). rewrite length_reverse. split; [done|].
  split; [apply put_bytes_at|]. split; [done|]. split; [lia|]. split.
  - destruct Hz as [Hz|Hz]; [by left|right]. destruct ds as [|d ds _] using rev_ind; [simpl in Hl; lia|].
    rewrite reverse_app. rewrite List.last_last in Hz. done.
  - intros x Hx. apply put_bytes_other. by rewrite length_reverse.
Qed.

(** [strcmp] of two terminated strings returns and agrees with the lexicographic order
    of their characters; it is 0 exactly on equal strings. *)
Theorem strcmp_correct fuel m a b s t (Hs : cstr m a s) (Ht : cstr m b t) (Hf : (length t < fuel)%nat) :
  strcmp fuel m a b = Some (lex_cmp s t) /\ (lex_cmp s t = 0 <-> s = t).
Proof.
  destruct (strcmp_loop_spec fuel m a b s t Hs Ht Hf) as (r & E & Hr). unfold strcmp. rewrite E. simpl. rewrite Hr.
  split; [done|]. clear. revert t. induction s as [|c s IH]; intros [|d t]; simpl; try done.
  destruct (Z.eqb_spec c d) as [->|Hne]; [rewrite IH; split; congruence|]. destruct (c <? d); split; congruence.
Qed.

(** [strcpy] between ranges that do not overlap returns, makes the destination the
    source's string, and changes no byte behind its terminator; [strlen] finds the length
    of both. *)
Theorem strcpy_strlen_correct fuel m des src s
    (Hd : des <> 0) (Hs0 : src <> 0) (Hs : cstr m src s) (Hf : (length s < fuel)%nat)
    (Hap : des + Z.of_nat (length s) < src \/ src + Z.of_nat (length s) < des) :
  exists m', strcpy fuel m des src = Some (m', des) /\ cstr m' des s /\ cstr m' src s /\
    strlen fuel m' des = Some (Z.of_nat (length s)) /\ strlen fuel m src = Some (Z.of_nat (length s)) /\
    forall x, x < des \/ des + Z.of_nat (length s) < x -> rd m' x = rd m x.
Proof.
  destruct (strcpy_loop_spec fuel m des src s Hs Hf Hap) as (m' & E & Hm' & Ho). exists m'.
  unfold strcpy, strlen. rewrite (proj2 (Z.eqb_neq des 0) Hd), (proj2 (Z.eqb_neq src 0) Hs0). simpl. rewrite E.
  rewrite !(strlen_loop_spec fuel _ _ s) by done. split_and!; try done.
  destruct Hs as [H1 H2]. split; [done|]. intros i d Hi. rewrite Ho; [by apply H2|].
  apply lookup_lt_Some in Hi. rewrite length_app in Hi. simpl in Hi. lia.
Qed.

Lemma num_to_str_round_trip_witness :
  exists m' s, num_to_str ∅ 100 4294967295 2 = Ret (m', Z.of_nat (length s)) /\ bytes_at m' 100 s /\
    num_of 2 s = 4294967295 /\ (1 <= length s <= 32)%nat /\ (length s = 1%nat \/ hd 0 s <> 48) /\
    forall x, x < 100 \/ 100 + Z.of_nat (length s) <= x -> rd m' x = rd ∅ x.
Proof. apply (num_to_str_round_trip ∅ 100 4294967295 2); lia. Defined.

Definition demo_text : bmem := put_bytes (put_bytes ∅ 100 [97; 98; 0]) 200 [97; 99; 0].

Lemma demo_cstr : cstr demo_text 100 [97; 98] /\ cstr demo_text 200 [97; 99].
Proof. split; (split; [repeat constructor; lia|]); repeat (apply bytes_at_cons; split; [by vm_compute|]); by intros i c. Qed.

Lemma strcmp_correct_witness : strcmp 5 demo_text 100 200 = Some (-1) /\ (lex_cmp [97; 98] [97; 99] = 0 <-> [97; 98] = [97; 99]).
Proof. apply (strcmp_correct 5 demo_text 100 200 [97; 98] [97; 99] (proj1 demo_cstr) (proj2 demo_cstr)). simpl. lia. Defined.

Lemma strcpy_strlen_correct_witness :
  exists m', strcpy 5 demo_text 300 100 = Some (m', 300) /\ cstr m' 300 [97; 98] /\ cstr m' 100 [97; 98] /\
    strlen 5 m' 300 = Some (Z.of_nat 2) /\ strlen 5 demo_text 100 = Some (Z.of_nat 2) /\
    forall x, x < 300 \/ 300 + Z.of_nat 2 < x -> rd m' x = rd demo_text x.
Proof. apply (strcpy_strlen_correct 5 demo_text 300 100 [97; 98]); [lia|lia|exact (proj1 demo_cstr)|simpl; lia..]. Defined.
