(* ===== verification/Printk.v ===== *)
(** * Kernel messages (kernel/printk.c, drivers/tty.c)

    [vsprintf] on byte memory with the format as the list of its characters and the
    variable arguments as a list; the ring buffer of the log; what reaches the consoles is
    a list of texts. *)

From S2P Require Import Prelude CString.

Definition PRINTF_DEC : Z := 0x1.
Definition PRINTF_HEX : Z := 0x2.
Definition PRINTF_OCT : Z := 0x4.
Definition PRINTF_BIN : Z := 0x8.
Definition PRINTF_MASK : Z := 0xf.
Definition PRINTF_UNSIGNED : Z := 0x10.
Definition PRINTF_SIGNED : Z := 0x20.
Definition LOG_BUFFER_SIZE : Z := 8192.
Definition CONFIG_LOG_LEVEL : Z := 3.

(** ** Formatting *)

Definition numbric (m : bmem) (buf num flag : Z) : outcome (bmem * Z) :=
  let k := Z.land flag PRINTF_MASK in
  if k =? PRINTF_DEC then
    if negb (Z.land flag PRINTF_SIGNED =? 0) then itoa m buf (s32 num) else uitoa m buf num
  else if k =? PRINTF_HEX then hextoa m buf num
  else if k =? PRINTF_OCT then octtoa m buf num
  else if k =? PRINTF_BIN then bintoa m buf num
  else mret (m, 0).

(** An argument: a 32-bit word, or the address of a string. *)
Inductive varg := VInt (z : Z) | VStr (p : Z).

Definition va_int (args : list varg) : outcome (Z * list varg) :=
  match args with VInt z :: args => mret (z, args) | _ => Fault end.
Definition va_str (args : list varg) : outcome (Z * list varg) :=
  match args with VStr p :: args => mret (p, args) | _ => Fault end.

(** The flags a conversion sets: [%d], [%x], [%u], [%o]. *)
Definition conv_flag (d : Z) : option Z :=
  if d =? 100 then Some (Z.lor PRINTF_DEC PRINTF_SIGNED)
  else if d =? 120 then Some (Z.lor PRINTF_HEX PRINTF_UNSIGNED)
  else if d =? 117 then Some (Z.lor PRINTF_DEC PRINTF_UNSIGNED)
  else if d =? 111 then Some (Z.lor PRINTF_DEC PRINTF_SIGNED)
  else None.

(** A format that ends in [%] is read past its terminator. *)
Fixpoint vsprintf_loop (fuel : nat) (m : bmem) (str : Z) (fmt : list Z) (args : list varg) : outcome (bmem * Z) :=
  match fmt with
  | [] => mret (m, str)
  | c :: fmt =>
    if negb (c =? 37) then vsprintf_loop fuel (wr m str c) (str + 1) fmt args
    else
      match fmt with
      | [] => Fault
      | d :: fmt =>
        match conv_flag d with
        | Some flag =>
          '(z, args) ← va_int args;
          let num := if negb (Z.land flag PRINTF_UNSIGNED =? 0) then u32 z else s32 z in
          '(m, len) ← numbric m str (u32 num) flag;
          vsprintf_loop fuel m (str + len) fmt args
        | None =>
          if d =? 115 then
            '(tmp, args) ← va_str args;
            len ← fuelled (strlen fuel m tmp);
            vsprintf_loop fuel (fst (strncpy m str tmp len)) (str + len) fmt args
          else if d =? 99 then
            '(z, args) ← va_int args;
            vsprintf_loop fuel (wr m str (u8 z)) (str + 1) fmt args
          else if d =? 37 then vsprintf_loop fuel (wr m str 37) (str + 1) fmt args
          else vsprintf_loop fuel (wr (wr m str 37) (str + 1) d) (str + 2) fmt args
        end
      end
  end.

Definition vsprintf (fuel : nat) (m : bmem) (buf : Z) (fmt : list Z) (args : list varg) : outcome (bmem * Z) :=
  if buf =? 0 then mret (m, -1)
  else
    '(m, str) ← vsprintf_loop fuel m buf fmt args;
    mret (wr m str 0, str - buf).

(** ** The log *)

Record log_buffer := LogBuffer { head : Z; tail : Z; total : Z; lbuf : gmap Z Z }.

Definition log_buffer_init (b : gmap Z Z) : log_buffer := LogBuffer 0 0 0 b.

(** [memcpy] into the array, which has 8192 bytes. *)
Definition log_copy (b : gmap Z Z) (at_ : Z) (text : list Z) : outcome (gmap Z Z) :=
  if (0 <=? at_) && (at_ + Z.of_nat (length text) <=? LOG_BUFFER_SIZE) then mret (put_bytes b at_ text) else Fault.

Definition update_log_buffer (lb : log_buffer) (text : list Z) : outcome log_buffer :=
  let printed := Z.of_nat (length text) in
  let over := LOG_BUFFER_SIZE - 1 <? tail lb + printed in
  let len1 := if over then LOG_BUFFER_SIZE - tail lb else printed in
  let len2 := if over then printed - len1 else 0 in
  b ← (if len1 =? 0 then mret (lbuf lb) else log_copy (lbuf lb) (tail lb) (take (Z.to_nat len1) text));
  b ← (if len2 =? 0 then mret b else log_copy b 0 (take (Z.to_nat len2) (drop (Z.to_nat len1) text)));
  let tot := s32 (total lb + printed) in
  if negb (len2 =? 0) then mret (LogBuffer len2 len2 tot b)
  else
    let t := tail lb + len1 in
    mret (LogBuffer (if LOG_BUFFER_SIZE <? tot then t else head lb) t tot b).

(** ** Consoles *)

(** [ttys]: the entries of [tty_table] with their [is_console]; [shown] is the text the
    console terminals and the early console were given. *)
Record printk_st := PrintkSt {
  plog : log_buffer;
  early : bool;
  ttys : list (option bool);
  shown : list (list Z) }.

Definition tty_flush_log (ttys : list (option bool)) (text : list Z) : list (list Z) * Z :=
  let out := omap (fun t => match t with Some true => Some text | _ => None end) ttys in
  (out, match out with [] => 0 | _ => Z.of_nat (length text) end).

(** The early console prints a string: the bytes up to the first zero. *)
Fixpoint chars_of (s : list Z) : list Z :=
  match s with [] => [] | c :: s => if c =? 0 then [] else c :: chars_of s end.

Definition early_printk (s : printk_st) (text : list Z) : list (list Z) := if early s then [chars_of text] else [].

(** The bytes of the log up to the first zero, from the start of the array. *)
Fixpoint until_zero (fuel : nat) (b : gmap Z Z) (i : Z) : list Z :=
  match fuel with O => [] | S fuel => if rd b i =? 0 then [] else rd b i :: until_zero fuel b (i + 1) end.

Definition register_early_printk (s : printk_st) : outcome printk_st :=
  if early s then mret s
  else
    let lb := plog s in
    if tail lb <? LOG_BUFFER_SIZE then
      let ch := rd (lbuf lb) (tail lb) in
      let b := wr (lbuf lb) (tail lb) 0 in
      let out := [until_zero (Z.to_nat LOG_BUFFER_SIZE) b 0; if ch =? 0 then [] else [ch]] in
      mret (PrintkSt (LogBuffer (head lb) (tail lb) (total lb) (wr b (tail lb) ch)) true (ttys s) (shown s ++ out))
    else Fault.

Definition unregister_early_printk (s : printk_st) : printk_st := PrintkSt (plog s) false (ttys s) (shown s).

(** [buf] is the array of 1024 bytes on the stack. *)
Definition level_printk (fuel : nat) (s : printk_st) (m : bmem) (buf : Z) (fmt : list Z) (args : list varg)
  : outcome (printk_st * Z) :=
  let digit := match fmt with c :: _ => is_digit c | [] => false end in
  if digit && (CONFIG_LOG_LEVEL <? List.hd 0 fmt - 48) then mret (s, 0)
  else
    let fmt := if digit then drop 1 fmt else fmt in
    '(m, printed) ← vsprintf fuel (wr m buf 0) buf fmt args;
    if 1024 <? printed + 1 then Fault
    else
      let text := read_bytes m buf (Z.to_nat printed) in
      let '(out, flushed) := tty_flush_log (ttys s) text in
      let out := if flushed =? 0 then out ++ early_printk s text else out in
      lb ← update_log_buffer (plog s) text;
      mret (PrintkSt lb (early s) (ttys s) (shown s ++ out), printed).

(** ** Formatting is what the format says *)

(** Arguments by value, and what a conversion makes of them. *)
Inductive rarg := RInt (z : Z) | RStr (s : list Z).
Inductive conversion := CNum (f : Z -> list Z) | CStr | CText (s : list Z).

Definition num_text (num b : Z) : list Z := reverse (default [] (digits_loop 32 num b)).
Definition int_text (z : Z) : list Z := if z <? 0 then 45 :: num_text (- z) 10 else num_text z 10.

Definition conv (d : Z) : conversion :=
  if (d =? 100) || (d =? 111) then CNum (fun z => int_text (s32 z))
  else if d =? 120 then CNum (fun z => num_text (u32 z) 16)
  else if d =? 117 then CNum (fun z => num_text (u32 z) 10)
  else if d =? 115 then CStr
  else if d =? 99 then CNum (fun z => [u8 z])
  else if d =? 37 then CText [37]
  else CText [37; d].

Fixpoint render (fmt : list Z) (args : list rarg) : option (list Z) :=
  match fmt with
  | [] => Some []
  | c :: fmt =>
    if negb (c =? 37) then t ← render fmt args; Some ([c] ++ t)
    else
      match fmt with
      | [] => None
      | d :: fmt =>
        match conv d, args with
        | CNum f, RInt z :: args => t ← render fmt args; Some (f z ++ t)
        | CStr, RStr s :: args => t ← render fmt args; Some (s ++ t)
        | CText l, _ => t ← render fmt args; Some (l ++ t)
        | _, _ => None
        end
      end
  end.

(** A string argument lies outside the range [lo, hi) the text goes to. *)
Definition arg_at (fuel : nat) (m : bmem) (lo hi : Z) (v : varg) (r : rarg) : Prop :=
  match v, r with
  | VInt z, RInt z' => z = z'
  | VStr p, RStr s => 0 < p /\ cstr m p s /\ (length s < fuel)%nat /\ (p + Z.of_nat (length s) < lo \/ hi <= p)
  | _, _ => False
  end.

Lemma cstr_keep m m' p s :
  (forall x, p <= x <= p + Z.of_nat (length s) -> rd m' x = rd m x) -> cstr m p s -> cstr m' p s.
Proof.
  intros E [H1 H2]. split; [done|]. intros i c Hi. rewrite E; [by apply H2|].
  apply lookup_lt_Some in Hi. rewrite length_app in Hi. simpl in Hi. lia.
Qed.

Lemma args_wrote fuel m m' lo hi a s vs rs :
  wrote m m' a s -> lo <= a -> a + Z.of_nat (length s) <= hi ->
  Forall2 (arg_at fuel m lo hi) vs rs -> Forall2 (arg_at fuel m' lo hi) vs rs.
Proof.
  intros [_ Ho] H1 H2 Hv. apply (Forall2_impl _ _ _ _ Hv). intros [z|p] [z'|t]; try done.
  intros (H3 & H4 & H5 & H6). split_and!; try done. apply (cstr_keep m); [|done].
  intros x Hx. apply Ho. lia.
Qed.

Lemma num_to_str_wrote m buf num b : 2 <= b <= 16 -> 0 <= num < 4294967296 ->
  exists m', num_to_str m buf num b = Ret (m', Z.of_nat (length (num_text num b))) /\ wrote m m' buf (num_text num b).
Proof.
  intros Hb Hn. destruct (digits_loop_spec b Hb 31 num) as (ds & E & _ & Hl & _); [by change (2 ^ (Z.of_nat 31 + 1)) with 4294967296|].
  unfold num_to_str, num_text. rewrite E. cbn [fuelled default]. rewrite Ret_bind.
  rewrite (proj2 (Z.ltb_ge 32 (Z.of_nat (length ds)))) by lia. rewrite length_reverse.
  eexists. split; [done|]. apply wrote_put.
Qed.

Lemma itoa_wrote m buf z : buf <> 0 -> -2147483648 <= z < 2147483648 ->
  exists m', itoa m buf z = Ret (m', Z.of_nat (length (int_text z))) /\ wrote m m' buf (int_text z).
Proof.
  intros Hb Hz. unfold itoa, int_text. rewrite (proj2 (Z.eqb_neq buf 0) Hb). destruct (Z.ltb_spec z 0).
  - assert (u32 (absolute z) = - z) as -> by
      (unfold absolute; rewrite (proj2 (Z.ltb_ge 0 z)) by lia; unfold s32, u32, Z.lnot; Z.to_euclidean_division_equations; lia).
    destruct (num_to_str_wrote (wr m buf 45) (buf + 1) (- z) 10) as (m' & E & W); [lia..|].
    rewrite E, Ret_bind. exists m'. split; [simpl; do 2 f_equal; lia|].
    apply (wrote_app m (wr m buf 45) m' buf [45]); [apply wrote_wr|done].
  - assert (u32 z = z) as -> by (apply Z.mod_small; lia). apply num_to_str_wrote; lia.
Qed.

Lemma strncpy_wrote m des src s :
  des <> 0 -> src <> 0 -> bytes_at m src s ->
  src + Z.of_nat (length s) <= des \/ des + Z.of_nat (length s) <= src ->
  wrote m (fst (strncpy m des src (Z.of_nat (length s)))) des s.
Proof.
  intros Hd Hs0 Hs Hap. unfold strncpy. rewrite (proj2 (Z.eqb_neq des 0) Hd), (proj2 (Z.eqb_neq src 0) Hs0).
  cbn [orb fst]. rewrite Nat2Z.id.
  set (f := fun i m => _). assert (forall i m, f i m = wr m (des + i) (rd m (src + i))) as Ef by done.
  assert (forall n, (n <= length s)%nat -> wrote m (zfor n 0 f m) des (take n s)) as H.
  { intros n. induction n as [|n IH]; intros Hn; [split; [by intros i c|done]|].
    destruct (lookup_lt_is_Some_2 s n ltac:(lia)) as [c Hc].
    rewrite zfor_S, (take_S_r _ _ c) by done. apply (wrote_app m (zfor n 0 f m)); [apply IH; lia|].
    destruct (IH ltac:(lia)) as [_ Ho]. rewrite Ef, Z.add_0_l, Ho, (Hs n c Hc).
    - rewrite length_take_le by lia. apply wrote_wr.
    - rewrite length_take_le by lia. lia. }
  specialize (H (length s) ltac:(lia)). by rewrite take_ge in H by lia.
Qed.

Lemma s32_u32 z : s32 (u32 (s32 z)) = s32 z.
Proof. unfold s32, u32. Z.to_euclidean_division_equations; lia. Qed.

(** A numeric conversion writes the text of its argument. *)
Lemma conv_flag_num d flag : conv_flag d = Some flag ->
  exists f, conv d = CNum f /\
    forall m str z, str <> 0 ->
      exists m', numbric m str (u32 (if negb (Z.land flag PRINTF_UNSIGNED =? 0) then u32 z else s32 z)) flag =
          Ret (m', Z.of_nat (length (f z))) /\ wrote m m' str (f z).
Proof.
  unfold conv_flag, conv. intros H.
  repeat (match type of H with context [?a =? ?b] => destruct (Z.eqb_spec a b) as [->|?] end);
    simplify_eq; simpl; eexists; (split; [done|]); intros m str z Hs; unfold numbric; simpl.
  - rewrite s32_u32. apply itoa_wrote; [done|apply s32_range].
  - rewrite u32_idem. apply num_to_str_wrote; [lia|apply u32_range].
  - rewrite u32_idem. apply num_to_str_wrote; [lia|apply u32_range].
  - rewrite s32_u32. apply itoa_wrote; [done|apply s32_range].
Qed.

(** The rest of the loop after [s1] was written. *)
Definition rest_ok (fuel : nat) (lo hi : Z) (n : nat) : Prop :=
  forall fmt m str args vals text, (length fmt <= n)%nat ->
    Forall2 (arg_at fuel m lo hi) args vals -> render fmt vals = Some text ->
    lo <= str -> str + Z.of_nat (length text) <= hi ->
    exists m', vsprintf_loop fuel m str fmt args = Ret (m', str + Z.of_nat (length text)) /\ wrote m m' str text.

Lemma loop_next fuel lo hi n fmt m m1 str s1 args vals t :
  rest_ok fuel lo hi n -> (length fmt <= n)%nat -> wrote m m1 str s1 ->
  Forall2 (arg_at fuel m lo hi) args vals -> render fmt vals = Some t ->
  lo <= str -> str + Z.of_nat (length (s1 ++ t)) <= hi ->
  exists m', vsprintf_loop fuel m1 (str + Z.of_nat (length s1)) fmt args = Ret (m', str + Z.of_nat (length (s1 ++ t))) /\
    wrote m m' str (s1 ++ t).
Proof.
  intros IH Hn W Ha Hr H1 H2. rewrite length_app in *.
  destruct (IH fmt m1 (str + Z.of_nat (length s1)) args vals t) as (m' & E & W'); [done| |done|lia|lia|].
  { eapply args_wrote; [exact W|lia|lia|done]. }
  exists m'. split; [rewrite E; do 2 f_equal; lia|by eapply wrote_app].
Qed.

Lemma vsprintf_loop_spec fuel lo hi n : 0 < lo -> rest_ok fuel lo hi n.
Proof.
  intros Hlo. induction n as [|n IH]; intros [|c fmt] m str args vals text Hn Ha Hr H1 H2; simpl in Hn; try lia.
  1, 2: simpl in Hr; simplify_eq; simpl; exists m; rewrite Z.add_0_r; (split; [done|]); (split; [by intros i c|done]).
  simpl in Hr |- *. destruct (negb (c =? 37)).
  { apply bind_Some in Hr as (t & Hr & [= <-]). apply (loop_next fuel lo hi n fmt m _ str [c] args vals t); [done|lia|apply wrote_wr|done..]. }
  destruct fmt as [|d fmt]; [done|]. simpl in Hn.
  destruct (conv_flag d) as [flag|] eqn:Ef.
  { destruct (conv_flag_num d flag Ef) as (f & Ec & Hnum). rewrite Ec in Hr.
    destruct Ha as [|[z|p] [z'|s] args vals Hv Ha]; try done. simpl in Hv. subst z'.
    apply bind_Some in Hr as (t & Hr & [= <-]). simpl. destruct (Hnum m str z ltac:(lia)) as (m1 & E & W).
    rewrite E, Ret_bind. apply (loop_next fuel lo hi n fmt m m1 str (f z) args vals t); [done|lia|done..]. }
  assert (conv d = if d =? 115 then CStr else if d =? 99 then CNum (fun z => [u8 z]) else if d =? 37 then CText [37] else CText [37; d]) as Ec.
  { revert Ef. unfold conv_flag, conv. zcases. }
  rewrite Ec in Hr. clear Ec. destruct (d =? 115); [|destruct (d =? 99); [|destruct (d =? 37)]].
  - destruct Ha as [|[z|p] [z'|s] args vals Hv Ha]; try done. destruct Hv as (Hp & Hc & Hf & Hap).
    apply bind_Some in Hr as (t & Hr & [= <-]). rewrite length_app in H2. simpl.
    unfold strlen. rewrite (proj2 (Z.eqb_neq p 0)) by lia. rewrite (strlen_loop_spec fuel m p s 0) by done.
    rewrite Z.add_0_l. cbn [fuelled]. rewrite Ret_bind.
    apply (loop_next fuel lo hi n fmt m _ str s args vals t); [done|lia| |done|done|done|rewrite length_app; lia].
    destruct Hc as [_ Hc]. apply bytes_at_app in Hc as [Hc _]. apply strncpy_wrote; [lia|lia|done|lia].
  - destruct Ha as [|[z|p] [z'|s] args vals Hv Ha]; try done. simpl in Hv. subst z'.
    apply bind_Some in Hr as (t & Hr & [= <-]). simpl.
    apply (loop_next fuel lo hi n fmt m _ str [u8 z] args vals t); [done|lia|apply wrote_wr|done..].
  - apply bind_Some in Hr as (t & Hr & [= <-]).
    apply (loop_next fuel lo hi n fmt m _ str [37] args vals t); [done|lia|apply wrote_wr|done..].
  - apply bind_Some in Hr as (t & Hr & [= <-]).
    apply (loop_next fuel lo hi n fmt m _ str [37; d] args vals t); [done|lia|apply (wrote_put m str [37; d])|done..].
Qed.

Lemma vsprintf_spec fuel m buf hi fmt args vals text :
  0 < buf -> buf + Z.of_nat (length text) <= hi ->
  Forall2 (arg_at fuel m buf hi) args vals -> render fmt vals = Some text ->
  exists m', vsprintf fuel m buf fmt args = Ret (m', Z.of_nat (length text)) /\ wrote m m' buf (text ++ [0]).
Proof.
  intros Hb Hh Ha Hr. unfold vsprintf. rewrite (proj2 (Z.eqb_neq buf 0)) by lia.
  destruct (vsprintf_loop_spec fuel buf hi (length fmt) Hb fmt m buf args vals text) as (m' & E & W);
    [lia|done|done|lia|lia|].
  rewrite E, Ret_bind. eexists. split; [do 2 f_equal; lia|]. eapply wrote_app; [exact W|apply wrote_wr].
Qed.

(** ** The ring buffer *)

(** [hist] is every byte ever logged: the array holds its last 8192 bytes, byte number [k]
    at index [k mod 8192], and the next one goes to [tail], which stands at the end of
    the array instead of its start when the last text filled it exactly. *)
Definition log_inv (lb : log_buffer) (hist : list Z) : Prop :=
  let n := Z.of_nat (length hist) in
  total lb = n /\ 0 <= tail lb <= LOG_BUFFER_SIZE /\ tail lb mod LOG_BUFFER_SIZE = n mod LOG_BUFFER_SIZE /\
  head lb = (if LOG_BUFFER_SIZE <? n then tail lb else 0) /\ (n <= LOG_BUFFER_SIZE -> tail lb = n) /\
  forall k c, n - LOG_BUFFER_SIZE <= Z.of_nat k -> hist !! k = Some c ->
    rd (lbuf lb) (Z.of_nat k mod LOG_BUFFER_SIZE) = c.

Lemma log_inv_init b : log_inv (log_buffer_init b) [].
Proof. by split_and!. Qed.

(** Writing [text] at its place in the ring, in at most two parts. *)
Definition ring_put (b : gmap Z Z) (t : Z) (text : list Z) : gmap Z Z :=
  let len1 := Z.to_nat (LOG_BUFFER_SIZE - t) in
  put_bytes (put_bytes b t (take len1 text)) 0 (drop len1 text).

(** One guarded copy of the routine. *)
Lemma log_copy_part b at_ len (s : list Z) :
  0 <= at_ -> 0 <= len <= Z.of_nat (length s) -> at_ + len <= LOG_BUFFER_SIZE ->
  (if len =? 0 then mret b else log_copy b at_ (take (Z.to_nat len) s)) = Ret (put_bytes b at_ (take (Z.to_nat len) s)).
Proof.
  intros Ha Hl Hs. destruct (Z.eqb_spec len 0) as [->|]; [done|]. unfold log_copy. rewrite length_take_le by lia.
  rewrite (proj2 (Z.leb_le 0 at_)), (proj2 (Z.leb_le (at_ + _) _)) by lia. done.
Qed.

Lemma update_log_buffer_eq lb text :
  0 <= tail lb <= LOG_BUFFER_SIZE -> Z.of_nat (length text) < LOG_BUFFER_SIZE ->
  let n := Z.of_nat (length text) in
  let over := LOG_BUFFER_SIZE <? tail lb + n in
  let t := if over then tail lb + n - LOG_BUFFER_SIZE else tail lb + n in
  let tot := s32 (total lb + n) in
  update_log_buffer lb text =
    Ret (LogBuffer (if over || (LOG_BUFFER_SIZE <? tot) then t else head lb) t tot (ring_put (lbuf lb) (tail lb) text)).
Proof.
  intros Ht Hn n over t tot. unfold update_log_buffer. fold n. fold tot. unfold t, over, ring_put. clear t over.
  unfold LOG_BUFFER_SIZE in *. destruct (Z.ltb_spec (8192 - 1) (tail lb + n)) as [H1|H1].
  - rewrite log_copy_part by (unfold LOG_BUFFER_SIZE; lia). rewrite Ret_bind.
    rewrite log_copy_part by (rewrite ?length_drop; unfold LOG_BUFFER_SIZE; lia). rewrite Ret_bind.
    rewrite (take_ge (drop _ _)) by (rewrite length_drop; lia).
    destruct (Z.ltb_spec 8192 (tail lb + n)).
    + rewrite (proj2 (Z.eqb_neq _ 0)) by lia. cbn [negb orb]. unfold mret, outcome_ret. do 2 f_equal; lia.
    + rewrite (proj2 (Z.eqb_eq _ 0)) by lia. cbn [negb orb].
      replace (tail lb + (8192 - tail lb)) with (tail lb + n) by lia. done.
  - rewrite (proj2 (Z.ltb_ge 8192 (tail lb + n))) by lia. rewrite log_copy_part by (unfold LOG_BUFFER_SIZE; lia).
    rewrite Ret_bind. cbn [Z.eqb]. rewrite ret_bind. cbn [negb orb].
    rewrite !(take_ge text), (drop_ge text) by lia. done.
Qed.

Lemma rd_ring_put b t text x : 0 <= t <= LOG_BUFFER_SIZE -> Z.of_nat (length text) < LOG_BUFFER_SIZE ->
  forall i c, text !! i = Some c -> x = (t + Z.of_nat i) mod LOG_BUFFER_SIZE -> rd (ring_put b t text) x = c.
Proof.
  intros Ht Hn i c Hi ->. pose proof (lookup_lt_Some _ _ _ Hi). unfold ring_put.
  set (l := Z.to_nat _). unfold LOG_BUFFER_SIZE in *.
  destruct (decide (i < l)%nat).
  - rewrite put_bytes_other; rewrite Z.mod_small by lia.
    + apply put_bytes_at. by rewrite lookup_take_lt by lia.
    + rewrite length_drop. lia.
  - replace ((t + Z.of_nat i) mod 8192) with (0 + Z.of_nat (i - l)).
    + apply put_bytes_at. rewrite lookup_drop. by replace (l + (i - l))%nat with i by lia.
    + apply (Z.mod_unique_pos _ _ 1); lia.
Qed.

Lemma rd_ring_put_other b t text x : 0 <= t <= LOG_BUFFER_SIZE -> Z.of_nat (length text) < LOG_BUFFER_SIZE ->
  0 <= x < LOG_BUFFER_SIZE -> (forall i, (i < length text)%nat -> x <> (t + Z.of_nat i) mod LOG_BUFFER_SIZE) ->
  rd (ring_put b t text) x = rd b x.
Proof.
  intros Ht Hn Hx Hne. unfold ring_put. set (l := Z.to_nat _). unfold LOG_BUFFER_SIZE in *.
  assert (Z.of_nat (length text) + t - 8192 <= x) as Hlo.
  { destruct (decide (x < Z.of_nat (length text) + t - 8192)); [|lia]. exfalso.
    apply (Hne (l + Z.to_nat x)%nat); [lia|]. apply (Z.mod_unique_pos _ _ 1); lia. }
  assert (x < t \/ t + Z.of_nat (length text) <= x) as Hhi.
  { destruct (decide (t <= x < t + Z.of_nat (length text))); [|lia]. exfalso.
    apply (Hne (Z.to_nat (x - t))); [lia|]. apply (Z.mod_unique_pos _ _ 0); lia. }
  rewrite put_bytes_other by (rewrite length_drop; lia). rewrite put_bytes_other by (rewrite length_take; lia). done.
Qed.

Lemma log_append lb hist text :
  log_inv lb hist -> Z.of_nat (length text) < LOG_BUFFER_SIZE ->
  Z.of_nat (length (hist ++ text)) < 2147483648 ->
  exists lb', update_log_buffer lb text = Ret lb' /\ log_inv lb' (hist ++ text).
Proof.
  intros (Et & Ht & Em & Eh & Es & Hb) Hn Hmax. rewrite update_log_buffer_eq by done.
  rewrite length_app in Hmax. eexists. split; [done|]. unfold log_inv. rewrite length_app. cbn [total tail head lbuf].
  set (n := Z.of_nat (length text)) in *. set (h := Z.of_nat (length hist)) in *.
  replace (Z.of_nat (length hist + length text)) with (h + n) in * by lia.
  assert (0 <= h /\ 0 <= n) as [] by lia. rewrite Et. rewrite s32_small by lia. split; [done|].
  assert (Z.of_nat (length hist) = h) as Eh' by done. clear Et Eh' Hmax.
  split; [unfold LOG_BUFFER_SIZE in *; zcases|].
  split; [clear - Ht Em Hn; unfold LOG_BUFFER_SIZE in *; destruct (Z.ltb_spec 8192 (tail lb + n));
    Z.to_euclidean_division_equations; lia|].
  split; [unfold LOG_BUFFER_SIZE in *; rewrite Eh; zcases|].
  split; [unfold LOG_BUFFER_SIZE in *; zcases|].
  intros k c Hk Hc. apply lookup_app_Some in Hc as [Hc|[Hge Hc]].
  - pose proof (lookup_lt_Some _ _ _ Hc). rewrite rd_ring_put_other; [apply Hb; [lia|done]|done|done|apply Z.mod_pos_bound; done|].
    intros i Hi E. clear - E Em Hk Hi H1 Hn. unfold LOG_BUFFER_SIZE in *. Z.to_euclidean_division_equations; lia.
  - eapply rd_ring_put; [done|done|exact Hc|].
    clear - Em Hge. unfold LOG_BUFFER_SIZE in *. Z.to_euclidean_division_equations; lia.
Qed.

(** The number of terminals that are consoles, and what a message of [text] gives them and
    the early console. *)
Definition consoles (ts : list (option bool)) : nat := length (filter (fun t => t = Some true) ts).
Definition delivered (ts : list (option bool)) (early : bool) (text : list Z) : list (list Z) :=
  replicate (consoles ts) text ++
  (if decide (consoles ts = 0%nat \/ text = []) then (if early then [chars_of text] else []) else []).

Lemma tty_flush_log_spec ts text :
  tty_flush_log ts text =
    (replicate (consoles ts) text, if decide (consoles ts = 0%nat) then 0 else Z.of_nat (length text)).
Proof.
  unfold tty_flush_log.
  assert (forall l : list (option bool), omap (fun t => match t with Some true => Some text | _ => None end) l = replicate (consoles l) text) as ->.
  { unfold consoles. induction l as [|[[]|] l IH]; [done|..]; cbn [omap list_omap]; rewrite IH; done. }
  destruct (consoles ts); done.
Qed.

(** ** Properties *)


(** The level and the rest of a format. *)
Definition level (fmt : list Z) : option Z :=
  match fmt with c :: _ => if is_digit c then Some (c - 48) else None | [] => None end.
Definition body (fmt : list Z) : list Z := match level fmt with Some _ => drop 1 fmt | None => fmt end.

Lemma level_printk_spec fuel s m buf fmt args vals text hist :
  log_inv (plog s) hist -> 0 < buf -> Forall2 (arg_at fuel m buf (buf + 1024)) args vals ->
  render (body fmt) vals = Some text -> (length text <= 1023)%nat -> Z.of_nat (length (hist ++ text)) < 2147483648 ->
  default 0 (level fmt) <= CONFIG_LOG_LEVEL ->
  exists lb, level_printk fuel s m buf fmt args =
    Ret (PrintkSt lb (early s) (ttys s) (shown s ++ delivered (ttys s) (early s) text), Z.of_nat (length text)) /\
    log_inv lb (hist ++ text).
Proof.
  intros Hl Hb Ha Hr Hn Hmax Hlev. unfold level_printk.
  set (digit := match fmt with c :: _ => is_digit c | [] => false end).
  assert (digit && (CONFIG_LOG_LEVEL <? List.hd 0 fmt - 48) = false) as ->.
  { destruct fmt as [|c fmt]; [done|]. unfold level in Hlev. unfold digit. destruct (is_digit c); [|done]. simpl in *. lia. }
  assert ((if digit then drop 1 fmt else fmt) = body fmt) as ->.
  { unfold body, level, digit. destruct fmt as [|c fmt]; [done|]. by destruct (is_digit c). }
  clear digit. cbv zeta.
  destruct (vsprintf_spec fuel (wr m buf 0) buf (buf + 1024) (body fmt) args vals text) as (m' & E & [W _]); [done|lia| |done|].
  { eapply args_wrote; [apply wrote_wr|lia|simpl; lia|done]. }
  rewrite E, Ret_bind, (proj2 (Z.ltb_ge 1024 _)) by lia. rewrite Nat2Z.id.
  apply bytes_at_app in W as [W _]. rewrite (read_bytes_at m' buf text W), tty_flush_log_spec.
  destruct (log_append (plog s) hist text Hl ltac:(unfold LOG_BUFFER_SIZE; lia) Hmax) as (lb & El & Hl'). rewrite El, Ret_bind.
  exists lb. split; [|done]. unfold mret, outcome_ret. do 4 f_equal. unfold delivered, early_printk.
  destruct (decide (consoles (ttys s) = 0%nat)) as [E0|E0]; [rewrite decide_True by tauto; simpl; by destruct (early s)|].
  destruct text as [|c text]; [rewrite decide_True by tauto; simpl; by destruct (early s)|].
  rewrite decide_False by (intros [?|?]; done). by rewrite app_nil_r.
Qed.

(** C40: a message at or below the configured level, or without one, is shown on every
    console terminal, on the early console when no terminal is a console, and appended to
    the log, which keeps the last 8192 bytes of all messages at their places in the ring;
    a message above the level changes nothing.  Texts of up to 1023 bytes fit. *)
Theorem level_printk_correct fuel s m buf fmt args vals text hist
    (Hl : log_inv (plog s) hist) (Hb : 0 < buf) (Ha : Forall2 (arg_at fuel m buf (buf + 1024)) args vals)
    (Hr : render (body fmt) vals = Some text) (Hn : (length text <= 1023)%nat)
    (Hmax : Z.of_nat (length (hist ++ text)) < 2147483648) :
  if CONFIG_LOG_LEVEL <? default 0 (level fmt) then level_printk fuel s m buf fmt args = Ret (s, 0)
  else exists lb, level_printk fuel s m buf fmt args =
    Ret (PrintkSt lb (early s) (ttys s) (shown s ++ delivered (ttys s) (early s) text), Z.of_nat (length text)) /\
    log_inv lb (hist ++ text).
Proof.
  destruct (Z.ltb_spec CONFIG_LOG_LEVEL (default 0 (level fmt))) as [Hlev|Hlev].
  - unfold level_printk. destruct fmt as [|c fmt]; [done|]. simpl in Hlev |- *. destruct (is_digit c); [|done].
    simpl in *. by rewrite (proj2 (Z.ltb_lt _ _) Hlev).
  - by apply level_printk_spec with vals.
Qed.

(** A text that fills the array exactly leaves [tail] behind its end, and registering the
    early console then reads and writes one byte past it. *)
Lemma early_flush_overrun b :
  exists lb, update_log_buffer (LogBuffer 0 8191 8191 b) [65] = Ret lb /\
    register_early_printk (PrintkSt lb false [] []) = Fault.
Proof. rewrite update_log_buffer_eq by (vm_compute; done). eexists. split; [done|]. by vm_compute. Qed.

(** [%o] prints decimal digits. *)
Lemma octal_is_decimal : render [37; 111] [RInt 8] = Some [56].
Proof. done. Qed.

Definition demo_fmt : list Z := [51; 120; 61; 37; 100; 44; 37; 115; 37; 37; 37; 120].  (* "3x=%d,%s%%%x" *)
Definition demo_out : list Z := [120; 61; 45; 52; 50; 44; 97; 98; 37; 102; 102].       (* "x=-42,ab%ff" *)
Definition demo_args : list varg := [VInt (-42); VStr 100; VInt 255].
Definition demo_vals : list rarg := [RInt (-42); RStr [97; 98]; RInt 255].

Lemma demo_args_at : Forall2 (arg_at 5 demo_text 1000 2024) demo_args demo_vals.
Proof. repeat constructor; try lia; try apply demo_cstr; simpl; lia. Qed.


Definition demo_printk : printk_st := PrintkSt (log_buffer_init ∅) true [None; Some true; Some false] [].

Lemma level_printk_correct_witness :
  exists lb, level_printk 5 demo_printk demo_text 1000 demo_fmt demo_args =
    Ret (PrintkSt lb true [None; Some true; Some false] [demo_out], 11) /\ log_inv lb demo_out.
Proof.
  apply (level_printk_correct 5 demo_printk demo_text 1000 demo_fmt demo_args demo_vals demo_out []);
    [exact (log_inv_init ∅)|lia|exact demo_args_at|by vm_compute|simpl; lia|simpl; lia].
Defined.
