(* ===== verification/Signal.v ===== *)
(** * Signals (syscall/sys_signal.c)

    A queued signal is a [struct signal_action] in memory of the slab allocator: [action],
    [arg] and [next] at offsets 0, 4 and 8.  An index outside the table of handlers, and a
    null pointer that is followed, are faults. *)

From S2P Require Import Prelude Bitops Dlist Mm MmAlloc MmSpec Mmu Slab SlabSpec Sched Mutex.

Definition MAX_SIGNAL : Z := 64.
Definition SIG_HANDLER_IGN : Z := 1.
Definition SIG_HANDLER_DFL : Z := 2.
Definition SIG_DFL : Z := 0.
Definition SIG_IGN : Z := 1.
Definition SIGQUIT : Z := 3.
Definition SIGABRT : Z := 6.
Definition SIGKILL : Z := 9.
Definition SIGSTOP : Z := 19.
Definition sizeof_signal_action : Z := 12.

Record signal_entry := SignalEntry { handler : Z; flag : Z }.

Record signal_struct := SignalStruct {
  pending : Z;
  plast : Z;
  signal_table : list signal_entry;
  signal_pending : Z;
  in_signal : Z }.

Definition zero_signal : signal_struct := SignalStruct 0 0 [] 0 0.

(** The scheduler, the slab allocator and the member [signal] of each task. *)
Record sig_st := SigSt { sg_sched : sched_st; sg_slab : slab; sigs : gmap Z signal_struct }.

Definition signal_of (s : sig_st) (t : Z) : signal_struct := default zero_signal (sigs s !! t).
Definition set_signal (s : sig_st) (t : Z) (g : signal_struct) : sig_st :=
  SigSt (sg_sched s) (sg_slab s) (<[t := g]> (sigs s)).
Definition set_sched (s : sig_st) (k : sched_st) : sig_st := SigSt k (sg_slab s) (sigs s).
Definition set_slab (s : sig_st) (k : slab) : sig_st := SigSt (sg_sched s) k (sigs s).
Definition store (s : sig_st) (a v : Z) : sig_st :=
  set_slab s (set_slab_mem (sg_slab s) (wr (s_mem (sg_slab s)) a v)).
Definition word (s : sig_st) (a : Z) : Z := rd (s_mem (sg_slab s)) a.

Definition table_entry (g : signal_struct) (i : Z) : outcome signal_entry :=
  if i <? 0 then Fault else match signal_table g !! Z.to_nat i with Some e => mret e | None => Fault end.

(** The result is 1 when the handler of the first pending signal was entered. *)
Definition signal_handler (s : sig_st) : outcome (sig_st * Z) :=
  let t := current (sg_sched s) in
  let g := signal_of s t in
  if negb (in_signal g =? 0) then mret (s, 0)
  else if negb (signal_pending g =? 0) then
    let action := pending g in
    if action =? 0 then mret (set_signal s t (SignalStruct (pending g) 0 (signal_table g) 0 (in_signal g)), 0)
    else
      entry ← table_entry g (s32 (word s action));
      if handler entry =? 0 then mret (s, 0)
      else mret (set_signal s t (SignalStruct (pending g) (plast g) (signal_table g) (signal_pending g) 1), 1)
  else mret (s, 0).

Definition sys_signal (s : sig_st) (signum h : Z) : outcome (sig_st * Z) :=
  let t := current (sg_sched s) in
  let g := signal_of s t in
  if MAX_SIGNAL <=? signum then mret (s, 0)
  else
    entry ← table_entry g signum;
    let e :=
      if h =? SIG_DFL then
        SignalEntry (handler entry) (Z.land (Z.lor (flag entry) SIG_HANDLER_DFL) (Z.lnot SIG_HANDLER_IGN))
      else if h =? SIG_IGN then
        SignalEntry (handler entry) (Z.land (Z.lor (flag entry) SIG_HANDLER_IGN) (Z.lnot SIG_HANDLER_DFL))
      else
        SignalEntry h (Z.land (Z.land (flag entry) (Z.lnot SIG_HANDLER_DFL)) (Z.lnot SIG_HANDLER_IGN)) in
    mret (set_signal s t (SignalStruct (pending g) (plast g) (<[Z.to_nat signum := e]> (signal_table g))
            (signal_pending g) (in_signal g)), handler entry).

(** The handler in [act]; the second component is stored in [old], the third is returned. *)
Definition sigaction (s : sig_st) (signum act : Z) : outcome (sig_st * Z * Z) :=
  '(s, ret) ← sys_signal s signum act;
  mret (s, ret, 0).

Definition sys_sigreturn (s : sig_st) : outcome sig_st :=
  let t := current (sg_sched s) in
  let g := signal_of s t in
  let now := pending g in
  if now =? 0 then Fault
  else
    let s := set_signal s t (SignalStruct (word s (now + 8)) (plast g) (signal_table g) (u16 (signal_pending g - 1)) 0) in
    sl ← kfree (sg_slab s) now;
    mret (set_slab s sl).

Definition do_default_signal_handler (fuel : nat) (s : sig_st) (t sig : Z) : outcome (sig_st * Z) :=
  if (sig =? SIGABRT) || (sig =? SIGKILL) || (sig =? SIGQUIT) || (sig =? SIGSTOP) then
    '(k, _) ← (if current (sg_sched s) =? t then task_kill_self (sg_sched s) t else kill_task fuel (sg_sched s) t);
    mret (set_sched s k, 0)
  else mret (s, 0).

(** The part of [sys_kill] that queues a signal. *)
Definition queue_signal (s : sig_st) (t sig : Z) : outcome (sig_st * Z) :=
  '(sl, action) ← kmalloc (sg_slab s) sizeof_signal_action GFP_KERNEL;
  let s := set_slab s sl in
  if action =? 0 then mret (s, - ENOMEM)
  else
    let s := store s action sig in
    let s := store s (action + 8) 0 in
    let s := store s (action + 4) 0 in
    let g := signal_of s t in
    let s := if negb (plast g =? 0) then store s (plast g + 8) action else s in
    mret (set_signal s t (SignalStruct (if pending g =? 0 then action else pending g) action (signal_table g)
            (u16 (signal_pending g + 1)) (in_signal g)), 0).

Definition sys_kill (fuel : nat) (s : sig_st) (pid sig : Z) : outcome (sig_st * Z) :=
  if (pid <? 0) || (MAX_SIGNAL <=? sig) then mret (s, - EINVAL)
  else
    t ← pid_get_task (pids (sg_sched s)) pid;
    if t =? 0 then mret (s, - ESRCH)
    else
      entry ← table_entry (signal_of s t) sig;
      if negb (Z.land (flag entry) SIG_HANDLER_IGN =? 0) then mret (s, 0)
      else if negb (Z.land (flag entry) SIG_HANDLER_DFL =? 0) then do_default_signal_handler fuel s t sig
      else queue_signal s t sig.

Definition init_signal_struct (s : sig_st) (t : Z) : sig_st * Z :=
  (set_signal s t (SignalStruct 0 0 (replicate (Z.to_nat MAX_SIGNAL) (SignalEntry 0 (Z.lor 0 SIG_HANDLER_DFL))) 0 0), 0).
