(* ===== verification/SignalSpec.v ===== *)
(** * Correctness of signals (syscall/sys_signal.c)

    The queue of a task refines a list of signals, first in first out, on top of the slab
    allocator's contract; and what happens when it has been emptied once. *)

From S2P Require Import Prelude Bitops Dlist Mm MmAlloc MmSpec Mmu Slab SlabSpec Sched Mutex Signal.

(** The queued signals from address [a] on, each as the header of its slab and its number. *)
Fixpoint chain (m : gmap Z Z) (a : Z) (q : list (Z * Z)) : Prop :=
  match q with
  | [] => a = 0
  | (h, sig) :: q => a = h + 8 /\ rd m (h + 8) = sig /\ chain m (rd m (h + 16)) q
  end.

Definition last_addr (q : list (Z * Z)) : Z := match last q with Some (h, _) => h + 8 | None => 0 end.

Record queue_inv (m : gmap Z Z) (g : signal_struct) (live : list Z) (q : list (Z * Z)) : Prop := {
  qi_live : forall h, h ∈ q.*1 -> h ∈ live;
  qi_nodup : NoDup q.*1;
  qi_chain : chain m (pending g) q;
  qi_last : plast g = last_addr q;
  qi_count : signal_pending g = Z.of_nat (length q) }.

(** Slabs that are not part of the queue keep their words. *)
Definition others_kept (m m' : gmap Z Z) (live : list Z) (q : list (Z * Z)) : Prop :=
  forall k a, k ∈ live -> k ∉ q.*1 -> k <= a < k + 8 + ssize m k -> rd m' a = rd m a.

Lemma queue_frame m m' a q :
  (forall h, h ∈ q.*1 -> rd m' (h + 8) = rd m (h + 8) /\ rd m' (h + 16) = rd m (h + 16)) -> chain m a q -> chain m' a q.
Proof.
  revert a. induction q as [|[h sig] q IH]; intros a Hf; simpl; [done|]. intros (-> & Hs & Hc).
  destruct (Hf h) as [E1 E2]; [simpl; left|]. split; [done|]. split; [congruence|]. rewrite E2.
  apply IH; [|done]. intros k Hk. apply Hf. simpl. by right.
Qed.

Lemma chain_null m a q : (forall h, h ∈ q.*1 -> 0 < h) -> chain m a q -> (a =? 0) = bool_decide (q = []).
Proof.
  intros Hp. destruct q as [|[h sig] q]; simpl; [by intros ->|]. intros (-> & _).
  specialize (Hp h ltac:(simpl; left)). rewrite (proj2 (Z.eqb_neq _ 0)) by lia. done.
Qed.

(** Linking a new last element. *)
Lemma chain_snoc m a q h sig :
  chain m a q -> NoDup q.*1 -> h ∉ q.*1 ->
  (forall k k', k ∈ h :: q.*1 -> k' ∈ h :: q.*1 -> k <> k' -> k + 16 <> k' + 8 /\ k + 16 <> k' + 16) ->
  rd m (h + 8) = sig -> rd m (h + 16) = 0 ->
  chain (if decide (q = []) then m else wr m (last_addr q + 8) (h + 8)) (if decide (q = []) then h + 8 else a) (q ++ [(h, sig)]).
Proof.
  revert a. induction q as [|[h1 s1] q IH]; intros a Hc Hnd Hh Hap E1 E2; [done|].
  rewrite decide_False by done. rewrite decide_False by done. simpl in Hc. destruct Hc as (-> & Es & Hc).
  rewrite fmap_cons in *. simpl in Hnd, Hh, Hap. apply NoDup_cons in Hnd as [Hn1 Hnd].
  assert (h <> h1) as Hne by (intros ->; apply Hh; left).
  destruct q as [|[h2 s2] q].
  - change (last_addr [(h1, s1)]) with (h1 + 8). replace (h1 + 8 + 8) with (h1 + 16) by lia.
    destruct (Hap h1 h ltac:(right; left) ltac:(left) ltac:(done)).
    simpl. rewrite rd_wr_eq, !rd_wr_ne by lia. done.
  - change (last_addr ((h1, s1) :: (h2, s2) :: q)) with (last_addr ((h2, s2) :: q)).
    assert (forall k, k ∈ h :: ((h2, s2) :: q).*1 -> k ∈ h :: h1 :: ((h2, s2) :: q).*1) as Hsub.
    { intros k [->|Hk]%elem_of_cons; [left|by right; right]. }
    specialize (IH (rd m (h1 + 16)) Hc Hnd ltac:(intros Hx; apply Hh; by right) ltac:(auto) E1 E2).
    rewrite decide_False in IH by done. rewrite decide_False in IH by done.
    assert (exists hl, hl ∈ ((h2, s2) :: q).*1 /\ last_addr ((h2, s2) :: q) = hl + 8) as (hl & Hl & El).
    { unfold last_addr. destruct (last ((h2, s2) :: q)) as [[hl sl]|] eqn:E; [|by apply last_None in E].
      exists hl. split; [|done]. apply list_elem_of_fmap. exists (hl, sl). split; [done|].
      by apply last_Some_elem_of in E. }
    rewrite El in IH |- *. replace (hl + 8 + 8) with (hl + 16) in * by lia.
    destruct (Hap hl h1 ltac:(by right; right) ltac:(right; left) ltac:(intros ->; done)).
    split; [done|]. rewrite !rd_wr_ne by lia. split; [done|]. exact IH.
Qed.

Section Queue.
Context (reserved : sref -> Z -> Prop) (s : sig_st) (t : Z) (blocks own : list block) (pools : list (list Z)) (live : list Z).
Context (I : slab_inv reserved (sg_slab s) blocks own pools live).

(** Words of different slabs in use differ. *)
Lemma live_words k k' i j : k ∈ live -> k' ∈ live -> k <> k' -> 0 <= i < 24 -> 0 <= j < 24 -> k + i <> k' + j.
Proof.
  intros Hk Hk' Hne Hi Hj. pose proof (si_heap _ _ _ _ _ _ I) as H.
  pose proof (ho_apart _ _ _ _ H k k' ltac:(apply elem_of_app; by left) ltac:(apply elem_of_app; by left) Hne) as Ha.
  pose proof (live_sizes _ _ _ _ _ _ k I Hk). pose proof (live_sizes _ _ _ _ _ _ k' I Hk').
  unfold slabs_apart, ranges_apart in Ha. lia.
Qed.

Lemma live_pos k : k ∈ live -> 0 < k.
Proof. intros Hk. apply (base_of_header _ _ _ _ _ _ _ I Hk). Qed.

(** A store to one of the first 16 bytes of a slab in use. *)
Lemma store_word h i v : h ∈ live -> 8 <= i < 24 -> slab_inv reserved (sg_slab (store s (h + i) v)) blocks own pools live.
Proof.
  intros Hh Hi. pose proof (live_sizes _ _ _ _ _ _ h I Hh). apply (store_inv _ _ _ _ _ _ h); [done|done|lia].
Qed.

Lemma store_other h i v k a : h ∈ live -> k ∈ live -> k <> h -> 8 <= i < 24 -> k <= a < k + 8 + ssize (s_mem (sg_slab s)) k ->
  word (store s (h + i) v) a = word s a.
Proof.
  intros Hh Hk Hne Hi Ha. apply rd_wr_ne. pose proof (si_heap _ _ _ _ _ _ I) as H.
  pose proof (ho_apart _ _ _ _ H k h ltac:(apply elem_of_app; by left) ltac:(apply elem_of_app; by left) Hne) as Hap.
  pose proof (live_sizes _ _ _ _ _ _ h I Hh). unfold slabs_apart, ranges_apart in Hap. lia.
Qed.
End Queue.

Lemma signal_of_set s t g sl : signal_of (set_slab (set_signal s t g) sl) t = g.
Proof. unfold signal_of, set_slab, set_signal. cbn [sigs]. by rewrite lookup_insert_eq. Qed.

(** The new action with its three words. *)
Definition filled (s : sig_st) (h sig : Z) : sig_st := store (store (store s (h + 8) sig) (h + 16) 0) (h + 12) 0.

Lemma filled_inv reserved s blocks own pools live h sig :
  slab_inv reserved (sg_slab s) blocks own pools live -> h ∈ live ->
  slab_inv reserved (sg_slab (filled s h sig)) blocks own pools live /\
  word (filled s h sig) (h + 8) = sig /\ word (filled s h sig) (h + 16) = 0 /\
  forall k a, k ∈ live -> k <> h -> k <= a < k + 8 + ssize (s_mem (sg_slab s)) k -> word (filled s h sig) a = word s a.
Proof.
  intros I Hh. assert (I1 := store_word _ _ _ _ _ _ I h 8 sig Hh ltac:(lia)).
  assert (I2 := store_word _ _ _ _ _ _ I1 h 16 0 Hh ltac:(lia)).
  split; [by apply (store_word _ _ _ _ _ _ I2); [|lia]|].
  unfold word, filled, store; cbn [set_slab set_slab_mem sg_slab s_mem].
  split; [rewrite !rd_wr_ne by lia; apply rd_wr_eq|]. split; [rewrite rd_wr_ne by lia; apply rd_wr_eq|].
  intros k a Hk Hne Ha.
  assert (forall i v (m : gmap Z Z), 8 <= i < 24 -> rd (wr m (h + i) v) a = rd m a) as E.
  { intros i v m Hi. apply rd_wr_ne. intros Ea. pose proof (si_heap _ _ _ _ _ _ I) as H.
    pose proof (ho_apart _ _ _ _ H k h ltac:(apply elem_of_app; by left) ltac:(apply elem_of_app; by left) Hne) as Hap.
    pose proof (live_sizes _ _ _ _ _ _ h I Hh). unfold slabs_apart, ranges_apart in Hap. lia. }
  by rewrite !E by lia.
Qed.

(** The action is linked behind the last one and the counters follow. *)
Definition linked (s : sig_st) (t h : Z) : sig_st :=
  let g := signal_of s t in
  let s := if negb (plast g =? 0) then store s (plast g + 8) (h + 8) else s in
  set_signal s t (SignalStruct (if pending g =? 0 then h + 8 else pending g) (h + 8) (signal_table g)
    (u16 (signal_pending g + 1)) (in_signal g)).

Lemma last_addr_snoc q h sig : last_addr (q ++ [(h, sig)]) = h + 8.
Proof. unfold last_addr. by rewrite last_snoc. Qed.

Lemma last_addr_elem q : q <> [] -> exists h, h ∈ q.*1 /\ last_addr q = h + 8.
Proof.
  intros Hq. unfold last_addr. destruct (last q) as [[h sig]|] eqn:E; [|by apply last_None in E].
  exists h. split; [|done]. apply list_elem_of_fmap. exists (h, sig). split; [done|]. by apply last_Some_elem_of in E.
Qed.

Lemma linked_spec reserved s t blocks own pools live h sig q :
  slab_inv reserved (sg_slab s) blocks own pools live -> h ∈ live -> h ∉ q.*1 ->
  queue_inv (s_mem (sg_slab s)) (signal_of s t) live q -> Z.of_nat (length q) < 65535 ->
  word s (h + 8) = sig -> word s (h + 16) = 0 ->
  let s' := linked s t h in
  slab_inv reserved (sg_slab s') blocks own pools live /\
  queue_inv (s_mem (sg_slab s')) (signal_of s' t) live (q ++ [(h, sig)]) /\
  others_kept (s_mem (sg_slab s)) (s_mem (sg_slab s')) live q.
Proof.
  intros I Hh Hq [Q1 Q2 Q3 Q4 Q5] Hn E1 E2 s'.
  assert (forall k, k ∈ h :: q.*1 -> k ∈ live) as Hin by (intros k [->|Hk]%elem_of_cons; auto).
  assert (forall k, k ∈ q.*1 -> 0 < k) as Hpos by (intros k Hk; eapply live_pos; [exact I|auto]).
  pose proof (chain_null _ _ _ Hpos Q3) as En.
  assert ((plast (signal_of s t) =? 0) = bool_decide (q = [])) as El.
  { rewrite Q4. case_bool_decide as Hd; [by subst|]. destruct (last_addr_elem q Hd) as (k & Hk & ->).
    specialize (Hpos k Hk). apply Z.eqb_neq. lia. }
  pose proof (chain_snoc _ _ _ h sig Q3 Q2 Hq) as Hc.
  specialize (Hc ltac:(intros k k' Hk Hk' Hne; split; apply (live_words _ _ _ _ _ _ I); auto; lia) E1 E2).
  assert (s_mem (sg_slab s') = if decide (q = []) then s_mem (sg_slab s) else wr (s_mem (sg_slab s)) (last_addr q + 8) (h + 8)) as Em.
  { unfold s', linked. rewrite El, Q4. destruct (decide (q = [])); [by rewrite bool_decide_eq_true_2|by rewrite bool_decide_eq_false_2]. }
  assert (signal_of s' t = SignalStruct (if decide (q = []) then h + 8 else pending (signal_of s t)) (h + 8)
    (signal_table (signal_of s t)) (Z.of_nat (length q) + 1) (in_signal (signal_of s t))) as Eg.
  { unfold s', linked, set_signal, signal_of at 1. cbn [sigs]. rewrite lookup_insert_eq. cbn [default from_option].
    rewrite En, Q5, u16_small by lia. unfold id. by destruct (decide (q = [])); [rewrite bool_decide_eq_true_2|rewrite bool_decide_eq_false_2]. }
  split; [|split].
  - unfold s', linked. rewrite El, Q4. case_bool_decide as Hd; [done|].
    destruct (last_addr_elem q Hd) as (k & Hk & ->). simpl. replace (k + 8 + 8) with (k + 16) by lia.
    apply (store_word _ _ _ _ _ _ I); [auto|lia].
  - rewrite Em, Eg. split; cbn [pending plast signal_pending].
    + intros k Hk. rewrite fmap_app in Hk. apply Hin. set_solver.
    + rewrite fmap_app. apply NoDup_app. split; [done|]. split; [|apply NoDup_singleton]. intros k Hk ->%list_elem_of_singleton. done.
    + exact Hc.
    + by rewrite last_addr_snoc.
    + rewrite length_app. simpl. lia.
  - intros k a Hk Hkq Ha. rewrite Em. destruct (decide (q = [])) as [|Hd]; [done|].
    destruct (last_addr_elem q Hd) as (l & Hl & ->). replace (l + 8 + 8) with (l + 16) by lia.
    apply (store_other reserved s blocks own pools live I l 16 (h + 8) k a); [auto|done|by intros ->|lia|done].
Qed.

Lemma queue_signal_eq s t sig sl h : h + 8 <> 0 ->
  kmalloc (sg_slab s) sizeof_signal_action GFP_KERNEL = Ret (sl, h + 8) ->
  queue_signal s t sig = Ret (linked (filled (set_slab s sl) h sig) t h, 0).
Proof.
  intros Hh E. unfold queue_signal. rewrite E, Ret_bind, (proj2 (Z.eqb_neq _ 0) Hh). unfold linked, filled.
  replace (h + 8 + 8) with (h + 16) by lia. replace (h + 8 + 4) with (h + 12) by lia. done.
Qed.

Lemma queue_signal_spec reserved s t blocks own pools live q sig :
  slab_inv reserved (sg_slab s) blocks own pools live -> start_ok (s_mm (sg_slab s)) ->
  queue_inv (s_mem (sg_slab s)) (signal_of s t) live q -> Z.of_nat (length q) < 65535 ->
  (exists s' h blocks' own' pools', queue_signal s t sig = Ret (s', 0) /\ h ∉ live /\
     slab_inv reserved (sg_slab s') blocks' own' pools' (h :: live) /\
     queue_inv (s_mem (sg_slab s')) (signal_of s' t) (h :: live) (q ++ [(h, sig)]) /\
     others_kept (s_mem (sg_slab s)) (s_mem (sg_slab s')) live q) \/
  (queue_signal s t sig = NoFuel /\ exists mm', request_pages (s_mm (sg_slab s)) 1 GFP_SLAB = Ret (mm', 0)).
Proof.
  intros I Hst Q Hn.
  destruct (kmalloc_spec reserved _ _ _ _ _ sizeof_signal_action I Hst ltac:(unfold sizeof_signal_action; lia))
    as [(sl & h & E & new & own' & pools' & I' & Hnew & _ & K)|[E R]].
  2: { right. split; [|done]. unfold queue_signal. by rewrite E. }
  left. set (s1 := set_slab s sl). change sl with (sg_slab s1) in I'.
  assert (h ∈ h :: live) as Hh by left.
  destruct (filled_inv reserved s1 _ _ _ _ h sig I' Hh) as (I2 & E1 & E2 & F).
  assert (h ∉ q.*1) as Hq by (intros Hx; apply Hnew; by apply (qi_live _ _ _ _ Q)).
  assert (forall k a, k ∈ live -> k <= a < k + 8 + ssize (s_mem (sg_slab s)) k -> word (filled s1 h sig) a = word s a) as F'.
  { intros k a Hk Ha. rewrite (F k a); [|by right|by intros ->|].
    - apply K. by exists k.
    - change (s_mem (sg_slab s1)) with (s_mem sl). rewrite (kept_size _ _ _ _ K Hk); [done|by eapply live_sizes]. }
  assert (queue_inv (s_mem (sg_slab (filled s1 h sig))) (signal_of (filled s1 h sig) t) (h :: live) q) as Q'.
  { destruct Q as [Q1 Q2 Q3 Q4 Q5]. split; try done; [intros k Hk; right; auto|].
    eapply queue_frame; [|exact Q3]. intros k Hk.
    pose proof (live_sizes _ _ _ _ _ _ k I (Q1 k Hk)). split; apply (F' k); auto; lia. }
  destruct (linked_spec reserved _ t _ _ _ _ h sig q I2 Hh Hq Q' Hn E1 E2) as (I3 & Q3 & K3).
  pose proof (live_pos _ _ _ _ _ _ I' h Hh).
  eexists _, h, _, _, _. split; [apply (queue_signal_eq s t sig sl h); [lia|exact E]|]. split; [done|]. split; [exact I3|]. split; [exact Q3|].
  intros k a Hk Hkq Ha. etrans; [apply (K3 k a); [by right|done|]|by apply (F' k)].
  assert (16 <= ssize (s_mem (sg_slab s)) k) as Hz by (by eapply live_sizes).
  assert (ssize (s_mem (sg_slab (filled s1 h sig))) k = ssize (s_mem (sg_slab s)) k) as -> by (apply (F' k k Hk); lia). done.
Qed.

(** The first signal of a queue leaves it. *)
Lemma sys_sigreturn_spec reserved s t blocks own pools l1 h l2 sig q :
  current (sg_sched s) = t -> slab_inv reserved (sg_slab s) blocks own pools (l1 ++ h :: l2) ->
  queue_inv (s_mem (sg_slab s)) (signal_of s t) (l1 ++ h :: l2) ((h, sig) :: q) -> Z.of_nat (length q) < 65535 ->
  exists s' pools', sys_sigreturn s = Ret s' /\ slab_inv reserved (sg_slab s') blocks own pools' (l1 ++ l2) /\
    kept (s_mem (sg_slab s)) (s_mem (sg_slab s')) (l1 ++ l2) /\
    chain (s_mem (sg_slab s')) (pending (signal_of s' t)) q /\ signal_pending (signal_of s' t) = Z.of_nat (length q) /\
    in_signal (signal_of s' t) = 0 /\ plast (signal_of s' t) = last_addr ((h, sig) :: q) /\
    (forall k, k ∈ q.*1 -> k ∈ l1 ++ l2).
Proof.
  intros Ec I [Q1 Q2 Q3 Q4 Q5] Hn. assert (h ∈ l1 ++ h :: l2) as Hh by (apply elem_of_app; right; left).
  pose proof (live_pos _ _ _ _ _ _ I h Hh) as Hp. simpl in Q3. destruct Q3 as (Ep & _ & Hc).
  simpl in Q1, Q2, Q5. apply NoDup_cons in Q2 as [Hhq _].
  destruct (kfree_spec reserved _ _ _ _ _ _ _ I) as (sl & pools' & E & I' & K).
  unfold sys_sigreturn. rewrite Ec, Ep, (proj2 (Z.eqb_neq (h + 8) 0)) by lia.
  change (sg_slab (set_signal s t _)) with (sg_slab s). rewrite E, Ret_bind.
  eexists _, pools'. split; [done|]. cbn [set_slab sg_slab]. split; [done|]. split; [done|].
  rewrite signal_of_set. cbn [pending plast signal_pending in_signal]. replace (h + 8 + 8) with (h + 16) by lia.
  assert (forall k, k ∈ q.*1 -> k ∈ l1 ++ l2) as Hin.
  { intros k Hk. assert (k ∈ l1 ++ h :: l2) as Hl by (apply Q1; by right). assert (k <> h) by (by intros ->).
    apply elem_of_app in Hl as [?|[?|?]%elem_of_cons]; [apply elem_of_app; by left|done|apply elem_of_app; by right]. }
  split_and!; try done.
  - eapply queue_frame; [|exact Hc]. intros k Hk. specialize (Hin k Hk).
    assert (k ∈ l1 ++ h :: l2) as Hl by (apply Q1; by right). pose proof (live_sizes _ _ _ _ _ _ k I Hl).
    split; apply K; exists k; (split; [done|lia]).
  - rewrite Q5, u16_small by lia. lia.
Qed.

(** ** Properties *)

(** C35: a signal with a handler sent to an existing task is queued behind the ones already
    pending, in a new slab; the slab allocator stays consistent and no word of a slab
    outside the queue changes.  Without a page for a new slab the call never returns. *)
Theorem sys_kill_queues reserved fuel s t pid sig e blocks own pools live q
    (I : slab_inv reserved (sg_slab s) blocks own pools live) (Hst : start_ok (s_mm (sg_slab s)))
    (Hpid : 0 <= pid) (Hsig : sig < MAX_SIGNAL) (Ht : pid_get_task (pids (sg_sched s)) pid = Ret t) (Ht0 : t <> 0)
    (He : table_entry (signal_of s t) sig = Ret e)
    (Hf : Z.land (flag e) SIG_HANDLER_IGN = 0 /\ Z.land (flag e) SIG_HANDLER_DFL = 0)
    (Q : queue_inv (s_mem (sg_slab s)) (signal_of s t) live q) (Hn : Z.of_nat (length q) < 65535) :
  (exists s' h blocks' own' pools', sys_kill fuel s pid sig = Ret (s', 0) /\ h ∉ live /\
     slab_inv reserved (sg_slab s') blocks' own' pools' (h :: live) /\
     queue_inv (s_mem (sg_slab s')) (signal_of s' t) (h :: live) (q ++ [(h, sig)]) /\
     others_kept (s_mem (sg_slab s)) (s_mem (sg_slab s')) live q) \/
  (sys_kill fuel s pid sig = NoFuel /\ exists mm', request_pages (s_mm (sg_slab s)) 1 GFP_SLAB = Ret (mm', 0)).
Proof.
  assert (sys_kill fuel s pid sig = queue_signal s t sig) as ->; [|by eapply queue_signal_spec].
  unfold sys_kill. rewrite (proj2 (Z.ltb_ge pid 0)), (proj2 (Z.leb_gt MAX_SIGNAL sig)) by lia. cbn [orb].
  rewrite Ht, Ret_bind, (proj2 (Z.eqb_neq t 0) Ht0), He, Ret_bind. by rewrite (proj1 Hf), (proj2 Hf).
Qed.


(** ** A concrete task, and the second round of signals *)

Module SignalDemo.
Definition me : Z := 0x80200000.
Definition table : list signal_entry := <[10%nat := SignalEntry 0x401000 0]> (replicate 64 (SignalEntry 0 2)).
Definition pid_table : pid_map := PidMap 1000 6 1024 false {[ 5 := me ]}.
Definition kernel : sched_st :=
  SchedSt ∅ (Lheap (fun n => n) (fun n => n)) (fun _ => 0) ∅ pid_table me 0 0 false false.
Definition start : sig_st := SigSt kernel SlabDemo.cached {[ me := SignalStruct 0 0 table 0 0 ]}.

Definition step (r : outcome (sig_st * Z)) : sig_st := match r with Ret (s, _) => s | _ => start end.
Definition step' (r : outcome sig_st) : sig_st := match r with Ret s => s | _ => start end.

(** The queue after one signal, emptied again, and after another one. *)
Definition one : sig_st := step (sys_kill 5 start 5 10).
Definition emptied : sig_st := step' (sys_sigreturn (step (signal_handler one))).
Definition again : sig_st := step (sys_kill 5 emptied 5 10).

Lemma start_queue : queue_inv (s_mem (sg_slab start)) (signal_of start me) [] [].
Proof. split; try done. apply NoDup_nil_2. Qed.

(** Two signals queued by hand in the first two slabs of the cache. *)
Definition slabs2 : slab := carved (carved SlabDemo.cached 16) 16.
Definition s0 : sig_st := SigSt kernel slabs2 {[ me := SignalStruct 0 0 table 0 0 ]}.
Definition two : sig_st := linked (filled (linked (filled s0 0x80002000 10) me 0x80002000) 0x80002018 10) me 0x80002018.

Lemma slabs2_inv : slab_inv Demo.reserved slabs2 Demo.live [Demo.blk] (replicate 33 []) [0x80002018; 0x80002000].
Proof. by apply (carved_spec Demo.reserved (carved SlabDemo.cached 16) Demo.live [Demo.blk] (replicate 33 []) _ 16 SlabDemo.slab_used_inv). Qed.

Lemma two_ok : slab_inv Demo.reserved (sg_slab two) Demo.live [Demo.blk] (replicate 33 []) [0x80002018; 0x80002000] /\
  queue_inv (s_mem (sg_slab two)) (signal_of two me) [0x80002018; 0x80002000] [(0x80002000, 10); (0x80002018, 10)].
Proof.
  set (live := [0x80002018; 0x80002000]).
  assert (0x80002000 ∈ live) as H1 by (right; left). assert (0x80002018 ∈ live) as H2 by left.
  destruct (filled_inv Demo.reserved s0 _ _ _ live 0x80002000 10 slabs2_inv H1) as (I1 & _).
  destruct (linked_spec Demo.reserved _ me _ _ _ live 0x80002000 10 [] I1 H1) as (I2 & _ & _);
    [by intros ?%elem_of_nil|split; try done; [by intros h Hh%elem_of_nil|apply NoDup_nil_2]|done|by vm_compute|by vm_compute|].
  destruct (filled_inv Demo.reserved _ _ _ _ live 0x80002018 10 I2 H2) as (I3 & _).
  destruct (linked_spec Demo.reserved _ me _ _ _ live 0x80002018 10 [(0x80002000, 10)] I3 H2) as (I4 & Q4 & _);
    [by intros ?%list_elem_of_singleton| |done|by vm_compute|by vm_compute|done].
  split; try (by vm_compute); [intros h Hh%list_elem_of_singleton; by subst|apply NoDup_singleton].
Qed.
End SignalDemo.

Lemma sys_kill_queues_witness :
  (exists s' h blocks' own' pools', sys_kill 5 SignalDemo.start 5 10 = Ret (s', 0) /\ h ∉ ([] : list Z) /\
     slab_inv Demo.reserved (sg_slab s') blocks' own' pools' [h] /\
     queue_inv (s_mem (sg_slab s')) (signal_of s' SignalDemo.me) [h] [(h, 10)] /\
     others_kept (s_mem (sg_slab SignalDemo.start)) (s_mem (sg_slab s')) [] []) \/
  (sys_kill 5 SignalDemo.start 5 10 = NoFuel /\
     exists mm', request_pages (s_mm (sg_slab SignalDemo.start)) 1 GFP_SLAB = Ret (mm', 0)).
Proof.
  apply (sys_kill_queues Demo.reserved 5 SignalDemo.start SignalDemo.me 5 10 (SignalEntry 0x401000 0) Demo.live [Demo.blk]
    (replicate 33 []) [] []);
    [exact SlabDemo.slab_cached_inv|exact Demo.start|lia|by vm_compute|done|done|done|done|exact SignalDemo.start_queue|simpl; lia].
Defined.


(** [sys_sigreturn] leaves [plast] at the freed action.  The next signal gets the same
    slab, and [plast->next = action] makes it its own successor: it is delivered, and its
    slab freed, for ever. *)
Theorem second_signal_loops :
  pending (signal_of SignalDemo.emptied SignalDemo.me) = 0 /\
  plast (signal_of SignalDemo.emptied SignalDemo.me) = 0x80002008 /\
  pending (signal_of SignalDemo.again SignalDemo.me) = 0x80002008 /\
  word SignalDemo.again (0x80002008 + 8) = 0x80002008.
Proof. split_and!; by vm_compute. Qed.

(** A negative signal number indexes the table from below. *)
Lemma sys_kill_negative fuel s pid sig t : 0 <= pid -> sig < 0 -> pid_get_task (pids (sg_sched s)) pid = Ret t -> t <> 0 ->
  sys_kill fuel s pid sig = Fault.
Proof.
  intros Hp Hs Ht Ht0. unfold sys_kill. rewrite (proj2 (Z.ltb_ge pid 0)) by lia.
  rewrite (proj2 (Z.leb_gt MAX_SIGNAL sig)) by (unfold MAX_SIGNAL; lia). cbn [orb].
  rewrite Ht, Ret_bind, (proj2 (Z.eqb_neq t 0) Ht0). unfold table_entry. by rewrite (proj2 (Z.ltb_lt sig 0) Hs).
Qed.
