(* ===== verification/Disk.v ===== *)
(** * Disks (kernel/disk.c, kernel/memdisk.c)

    The memory disk is a map from sector numbers to the 512 bytes of a sector; sectors
    that were never written are zero.  A [bdev] is the part of a disk a file system is on.
    The locks around the two transfers are taken and released in the same call. *)

From S2P Require Import Prelude.

Definition MAX_DISK : Z := 4.
Definition DISK_MAX_PARTITIONS : Z := 4.
Definition MEMDISK_SECTOR_SIZE : Z := 512.

Abbreviation sectors := (gmap Z (list Z)).

Definition zero_sector : list Z := replicate 512 0.
Definition sector (d : sectors) (i : Z) : list Z := default zero_sector (d !! i).

(** ** The memory disk *)

Fixpoint memdisk_read_sectors (d : sectors) (s : Z) (count : nat) : list Z :=
  match count with O => [] | S n => sector d s ++ memdisk_read_sectors d (s + 1) n end.

Fixpoint memdisk_write_sectors (d : sectors) (b : list Z) (s : Z) (count : nat) : sectors :=
  match count with O => d | S n => memdisk_write_sectors (<[s := take 512 b]> d) (drop 512 b) (s + 1) n end.

(** ** Partitions *)

Record bdev := Bdev { start_sector : Z; sector_nr : Z; max_start : Z; minor : Z }.

(** Only the first sector of a transfer is tested, and [start_sector] is not added to it. *)
Definition read_sectors (d : sectors) (b : bdev) (start count : Z) : list Z + Z :=
  if max_start b <? start then inr (- EINVAL) else inl (memdisk_read_sectors d start (Z.to_nat count)).
Definition write_sectors (d : sectors) (b : bdev) (buf : list Z) (start count : Z) : sectors * Z :=
  if max_start b <? start then (d, - EINVAL) else (memdisk_write_sectors d buf start (Z.to_nat count), 0).

(** ** The table of disks *)

Record disk := Disk {
  d_name : list Z; d_data : sectors; d_bdev : list (option bdev); blk_n_sectors : Z; partitions : Z;
  d_sector_size : Z; d_sector_nr : Z }.

(** [major_current] is the length of the table. *)
Definition disk_table := list disk.

(** The one partition of a new disk. *)
Definition first_bdev : bdev := let b := 4 + 2048 in Bdev 4 2048 (b - 4096 / 512) 0.

Definition init_disk (t : disk_table) (data : sectors) : disk_table * Z :=
  if Z.of_nat (length t) =? MAX_DISK then (t, - ENOMEM)
  else
    (t ++ [Disk [] data (<[0%nat := Some first_bdev]> (replicate (Z.to_nat DISK_MAX_PARTITIONS) None)) (4096 / 512) 1 512 2048], 0).

Definition set_disk_name (d : disk) (name : list Z) : disk :=
  Disk name (d_data d) (d_bdev d) (blk_n_sectors d) (partitions d) (d_sector_size d) (d_sector_nr d).

(** The error of [init_disk] is reported as ENOMEM as well; the memory of a new disk is
    there. *)
Definition register_disk (t : disk_table) (name : list Z) (data : sectors) : disk_table * Z :=
  let '(t, err) := init_disk t data in
  if negb (err =? 0) then (t, - ENOMEM)
  else (alter (fun d => set_disk_name d name) (length t - 1)%nat t, 0).

Definition disk_get_bdev (t : disk_table) (major minor : Z) : option (disk * bdev) :=
  if (MAX_DISK <=? major) || (DISK_MAX_PARTITIONS <=? minor) then None
  else
    d ← t !! Z.to_nat major;
    b ← mjoin (d_bdev d !! Z.to_nat minor);
    Some (d, b).

(** ** Transfers *)

Lemma sector_insert_eq d i b : sector (<[i := b]> d) i = b.
Proof. unfold sector. by rewrite lookup_insert_eq. Qed.

Lemma sector_insert_ne d i j b : i <> j -> sector (<[i := b]> d) j = sector d j.
Proof. intros H. unfold sector. by rewrite lookup_insert_ne. Qed.

Lemma write_sector_other d b s n i : i < s \/ s + Z.of_nat n <= i -> sector (memdisk_write_sectors d b s n) i = sector d i.
Proof.
  revert d b s. induction n as [|n IH]; intros d b s Hi; [done|]. cbn [memdisk_write_sectors].
  rewrite IH by lia. apply sector_insert_ne. lia.
Qed.

(** Sectors a write does not reach are read as before. *)
Lemma read_write_other d b s n s' n' : s' + Z.of_nat n' <= s \/ s + Z.of_nat n <= s' ->
  memdisk_read_sectors (memdisk_write_sectors d b s n) s' n' = memdisk_read_sectors d s' n'.
Proof.
  revert s'. induction n' as [|n' IH]; intros s' Hs; [done|]. cbn [memdisk_read_sectors].
  rewrite IH by lia. by rewrite write_sector_other by lia.
Qed.

(** A read gives back the bytes the write of the same sectors put there. *)
Lemma read_write_same d b s n : length b = (512 * n)%nat ->
  memdisk_read_sectors (memdisk_write_sectors d b s n) s n = b.
Proof.
  revert d b s. induction n as [|n IH]; intros d b s Hb; [by destruct b|].
  cbn [memdisk_read_sectors memdisk_write_sectors]. rewrite write_sector_other, sector_insert_eq by lia.
  rewrite IH by (rewrite length_drop; lia). apply take_drop.
Qed.

Lemma read_sectors_add d s n m :
  memdisk_read_sectors d s (n + m) = memdisk_read_sectors d s n ++ memdisk_read_sectors d (s + Z.of_nat n) m.
Proof.
  revert s. induction n as [|n IH]; intros s; simpl; [f_equal; lia|].
  rewrite IH, <- app_assoc. do 3 f_equal. lia.
Qed.

(** A disk with the given blocks of eight sectors. *)
Definition disk_of (l : list (Z * list Z)) : sectors :=
  foldr (fun ib d => memdisk_write_sectors d ib.2 (ib.1 * 8) 8) ∅ l.

(** Every sector has 512 bytes. *)
Definition disk_wf (d : sectors) : Prop := forall i, length (sector d i) = 512%nat.

Lemma empty_wf : disk_wf ∅.
Proof. intros i. unfold sector. by rewrite lookup_empty. Qed.

Lemma insert_wf d i b : disk_wf d -> length b = 512%nat -> disk_wf (<[i := b]> d).
Proof.
  intros H Hb j. destruct (decide (i = j)) as [->|]; [by rewrite sector_insert_eq|by rewrite sector_insert_ne].
Qed.

Lemma write_wf d b s n : disk_wf d -> length b = (512 * n)%nat -> disk_wf (memdisk_write_sectors d b s n).
Proof.
  revert d b s. induction n as [|n IH]; intros d b s Hd Hb; [done|]. cbn [memdisk_write_sectors].
  apply IH; [|rewrite length_drop; lia]. apply insert_wf; [done|]. rewrite length_take. lia.
Qed.

Lemma length_read d s n : disk_wf d -> length (memdisk_read_sectors d s n) = (512 * n)%nat.
Proof.
  intros Hd. revert s. induction n as [|n IH]; intros s; [done|]. cbn [memdisk_read_sectors].
  rewrite length_app, Hd, IH. lia.
Qed.

Lemma disk_of_wf l : Forall (fun ib => length ib.2 = 4096%nat) l -> disk_wf (disk_of l).
Proof. induction 1 as [|ib l Hb _ IH]; [apply empty_wf|]. by apply write_wf. Qed.

#[global] Arguments memdisk_read_sectors : simpl never.
#[global] Arguments memdisk_write_sectors : simpl never.
