(* ===== verification/Vfs.v ===== *)
(** * Open files (fs/vfs.c)

    The operations of a file system on one open file are the class [FsOps]; its state [FS]
    has the disk and the private part of the [fnode].  [vfile] is [struct file] with the
    members of [struct fnode] the routines use; the block in [data_buffer] is a list of
    bytes, the caller's buffer is byte memory. *)

From S2P Require Import Prelude CString.

Definition VFS_NEXT_BLOCK : Z := 0.
Definition VFS_PREV_BLOCK : Z := 1.
Definition VFS_START_BLOCK : Z := 2.
Definition VFS_CURRENT_BLOCK : Z := 4.
Definition SEEK_SET : Z := 0.
Definition SEEK_CUR : Z := 1.
Definition SEEK_END : Z := 2.
Definition FS_FOPS_PREV_BLOCK : Z := 2.
Definition DT_UNKNOWN : Z := 0.
Definition DT_CHR : Z := 2.
Definition DT_DIR : Z := 4.
Definition DT_BLK : Z := 6.

(** [get_data_block] may wait for a lock or leave its tables; [read_block] gives the bytes
    of a block or an error, [getdents] the name of the next entry and the number of bytes
    it handled. *)
Class FsOps (FS : Type) := {
  get_data_block : FS -> Z -> outcome (FS * Z);
  read_block : FS -> Z -> list Z + Z;
  write_block : FS -> list Z -> Z -> FS * Z;
  get_block : option (FS -> outcome (FS * Z));
  getdents : option (FS -> Z -> list Z -> list Z * Z);
  fs_flag : Z }.

(** The members of [struct fnode] that looking up a name sets. *)
Record fattr := FAttr {
  a_mode : Z; a_flags : Z; a_type : Z; a_blk_cnt : Z; a_data_size : Z; a_buffer_size : Z; a_dev : Z }.

(** What the lookup of a name calls: [parse_name] rewrites a part of the name in a buffer of
    its own, [find_file] searches a block of a directory and goes on to the file it finds,
    [copy_fnode] starts from a directory that is open. *)
Class FsDir (FS : Type) `{FsOps FS} := {
  parse_name : gmap Z Z -> list Z -> outcome (gmap Z Z * list Z);
  find_file : FS -> fattr -> list Z -> list Z -> outcome (FS * fattr * Z);
  copy_fnode : FS -> fattr -> FS * fattr * Z }.

Record vfile (FS : Type) := VFile {
  v_fs : FS;
  offset : Z;
  rw_pos : Z;
  data_size : Z;
  buffer_size : Z;
  data_buffer : list Z;
  current_block : Z;
  blk_cnt : Z;
  ftype : Z }.
Arguments VFile {FS}.
Arguments v_fs {FS}.
Arguments offset {FS}.
Arguments rw_pos {FS}.
Arguments data_size {FS}.
Arguments buffer_size {FS}.
Arguments data_buffer {FS}.
Arguments current_block {FS}.
Arguments blk_cnt {FS}.
Arguments ftype {FS}.

Section Vfs.
Context {FS : Type} `{FsOps FS}.

Definition set_fs (f : vfile FS) (s : FS) : vfile FS :=
  VFile s (offset f) (rw_pos f) (data_size f) (buffer_size f) (data_buffer f) (current_block f) (blk_cnt f) (ftype f).
Definition set_pos (f : vfile FS) (off pos : Z) : vfile FS :=
  VFile (v_fs f) off pos (data_size f) (buffer_size f) (data_buffer f) (current_block f) (blk_cnt f) (ftype f).
Definition set_buffer (f : vfile FS) (b : list Z) : vfile FS :=
  VFile (v_fs f) (offset f) (rw_pos f) (data_size f) (buffer_size f) b (current_block f) (blk_cnt f) (ftype f).
Definition set_block (f : vfile FS) (b : Z) : vfile FS :=
  VFile (v_fs f) (offset f) (rw_pos f) (data_size f) (buffer_size f) (data_buffer f) b (blk_cnt f) (ftype f).
Definition set_size (f : vfile FS) (size cnt : Z) : vfile FS :=
  VFile (v_fs f) (offset f) (rw_pos f) size (buffer_size f) (data_buffer f) (current_block f) cnt (ftype f).

Definition vfs_get_new_data_block (f : vfile FS) : outcome (vfile FS * Z) :=
  match get_block with
  | None => mret (f, 0)
  | Some g =>
    '(s, block) ← g (v_fs f);
    let f := set_fs f s in
    if block =? 0 then mret (f, block) else mret (set_size f (data_size f) (blk_cnt f + 1), block)
  end.

Definition vfs_get_data_block (f : vfile FS) (whence : Z) : outcome (vfile FS * Z) :=
  '(s, block) ← get_data_block (v_fs f) whence; mret (set_fs f s, block).

(** The block's bytes, or an error. *)
Definition vfs_read_block (f : vfile FS) (whence : Z) : outcome (vfile FS * (list Z + Z)) :=
  '(f, block) ← vfs_get_data_block f whence;
  if block =? 0 then mret (f, inr (- ENOSPC))
  else
    let f := set_block f block in
    mret (f, read_block (v_fs f) block).

Definition __vfs_write_block (f : vfile FS) (b : list Z) (block : Z) : vfile FS * Z :=
  let '(s, err) := write_block (v_fs f) b block in (set_fs f s, err).

Definition vfs_write_block (f : vfile FS) (b : list Z) (whence : Z) : outcome (vfile FS * Z) :=
  '(f, block) ← vfs_get_data_block f whence;
  if block =? 0 then mret (f, - ENOSPC)
  else mret (__vfs_write_block (set_block f block) b block).

(** Reading a block into [data_buffer]. *)
Definition load_block (f : vfile FS) (whence : Z) : outcome (vfile FS * Z) :=
  '(f, r) ← vfs_read_block f whence;
  match r with
  | inl b => mret (set_buffer f b, 0)
  | inr e => mret (f, e)
  end.

Definition vfs_open (f : vfile FS) : outcome (vfile FS * Z) := load_block f VFS_START_BLOCK.

(** [for (i = 0; i < blocks; i++)] of [vfs_read], with the error that ends it. *)
Fixpoint read_blocks (n : nat) (f : vfile FS) (m : bmem) (buffer : Z) : outcome (vfile FS * bmem * Z * Z) :=
  match n with
  | O => mret (f, m, buffer, 0)
  | S n =>
    '(f, r) ← vfs_read_block f VFS_NEXT_BLOCK;
    match r with
    | inl b => read_blocks n f (put_bytes m buffer b) (buffer + buffer_size f)
    | inr e => mret (f, m, buffer, e)
    end
  end.

(** [n] bytes of the block from [pos] on. *)
Definition slice (b : list Z) (pos n : Z) : list Z := take (Z.to_nat n) (drop (Z.to_nat pos) b).

Definition vfs_read (f : vfile FS) (m : bmem) (buffer size : Z) : outcome (vfile FS * bmem * Z) :=
  let pos := rw_pos f in
  let bs := buffer_size f in
  let real_size := if data_size f <? s32 (offset f + size) then data_size f - offset f else size in
  if real_size =? 0 then mret (f, m, 0)
  else
    let in_buffer := bs - pos in
    let '(in_buffer, blocks, rest) :=
      if real_size <? in_buffer then (real_size, 0, 0)
      else (in_buffer, Z.quot (real_size - in_buffer) bs, Z.rem (real_size - in_buffer) bs) in
    if bs <? pos + in_buffer then Fault
    else
      let m := put_bytes m buffer (slice (data_buffer f) pos in_buffer) in
      '(f, m, buffer, err) ← read_blocks (Z.to_nat blocks) f m (buffer + in_buffer);
      if negb (err =? 0) then mret (f, m, err)
      else
        '(f, m, in_buffer, err) ←
          (if negb (rest =? 0) then
             '(f, err) ← load_block f VFS_NEXT_BLOCK;
             if negb (err =? 0) then mret (f, m, in_buffer, err)
             else mret (f, put_bytes m buffer (slice (data_buffer f) 0 rest), bs - rest, 0)
           else mret (f, m, in_buffer, 0));
        if negb (err =? 0) then mret (f, m, err)
        else
          '(f, err) ← (if in_buffer =? bs then load_block f VFS_NEXT_BLOCK else mret (f, 0));
          if negb (err =? 0) then mret (f, m, err)
          else mret (set_pos f (offset f + real_size) (Z.rem (pos + real_size) bs), m, real_size).

(** The block a write goes on with: the next one of the file, and new ones from the first
    time there is none. *)
Definition write_next (f : vfile FS) (fresh : bool) : outcome (vfile FS * bool * (Z + Z)) :=
  if negb fresh then
    '(f, block) ← vfs_get_data_block f VFS_NEXT_BLOCK;
    if block =? 0 then
      '(f, block) ← vfs_get_new_data_block f;
      mret (f, true, if block =? 0 then inr (- ENOSPC) else inl block)
    else mret (f, false, inl block)
  else
    '(f, block) ← vfs_get_new_data_block f;
    mret (f, true, if block =? 0 then inr (- EFBIG) else inl block).

Fixpoint write_blocks (n : nat) (f : vfile FS) (fresh : bool) (m : bmem) (buffer : Z) : outcome (vfile FS * bool * Z * Z) :=
  match n with
  | O => mret (f, fresh, buffer, 0)
  | S n =>
    '(f, fresh, next) ← write_next f fresh;
    match next with
    | inr e => mret (f, fresh, buffer, e)
    | inl block =>
      let '(f, err) := __vfs_write_block f (read_bytes m buffer (Z.to_nat (buffer_size f))) block in
      if negb (err =? 0) then mret (f, fresh, buffer, - EIO)
      else write_blocks n f fresh m (buffer + buffer_size f)
    end
  end.

(** [memcpy] of [d] into the block at [pos]. *)
Definition patch (b : list Z) (pos : Z) (d : list Z) : list Z :=
  take (Z.to_nat pos) b ++ d ++ drop (Z.to_nat pos + length d) b.

(** The value returned is the one of the first [vfs_write_block]. *)
Definition vfs_write (f : vfile FS) (m : bmem) (buffer size : Z) : outcome (vfile FS * Z) :=
  let pos := rw_pos f in
  let bs := buffer_size f in
  let in_buffer := bs - pos in
  let '(in_buffer, blocks, rest) :=
    if size <? in_buffer then (size, 0, 0)
    else (in_buffer, Z.quot (size - in_buffer) bs, Z.rem (size - in_buffer) bs) in
  if bs <? pos + in_buffer then Fault
  else
    let f := set_buffer f (patch (data_buffer f) pos (read_bytes m buffer (Z.to_nat in_buffer))) in
    '(f, ret) ← vfs_write_block f (data_buffer f) VFS_CURRENT_BLOCK;
    if negb (ret =? 0) then mret (f, - EIO)
    else
      '(f, fresh, buffer, err) ← write_blocks (Z.to_nat blocks) f false m (buffer + in_buffer);
      if negb (err =? 0) then mret (f, err)
      else
        '(f, err) ←
          (if negb (rest =? 0) then
             '(f, _, next) ← write_next f fresh;
             match next with
             | inr e => mret (f, e)
             | inl block =>
               let f := set_buffer f (patch (data_buffer f) 0 (read_bytes m buffer (Z.to_nat rest))) in
               let '(f, err) := __vfs_write_block f (data_buffer f) block in
               mret (f, if negb (err =? 0) then - EIO else 0)
             end
           else mret (f, 0));
        if negb (err =? 0) then mret (f, err)
        else
          let new := s32 (offset f + size) in
          let f := set_size f new (Z.quot (s32 (baligin new bs)) bs) in
          mret (set_pos f new (Z.rem (pos + size) bs), ret).

(** Steps of [vfs_seek]: [n] blocks on or back; the last one's number, 0 for none. *)
Fixpoint walk_blocks (n : nat) (f : vfile FS) (whence block : Z) : outcome (vfile FS * option Z) :=
  match n with
  | O => mret (f, Some block)
  | S n =>
    '(f, block) ← vfs_get_data_block f whence;
    if block =? 0 then mret (f, None) else walk_blocks n f whence block
  end.

(** The blocks to walk and the position in the last one. *)
Definition walk_to (f : vfile FS) (n : Z) (whence pos new : Z) : outcome (vfile FS * Z) :=
  '(f, last) ← walk_blocks (Z.to_nat n) f whence 0;
  match last with
  | None => mret (f, - ENOSPC)
  | Some block =>
    match read_block (v_fs f) block with
    | inr _ => mret (f, - EIO)
    | inl b => mret (set_pos (set_buffer f b) new (Z.rem pos (buffer_size f)), new)
    end
  end.

(** Going back and forward by [new_off] bytes to the offset [new]. *)
Definition seek_back (f : vfile FS) (new_off new : Z) : outcome (vfile FS * Z) :=
  let pos := rw_pos f in
  let bs := buffer_size f in
  let rest := u32 pos in
  if rest <? new_off then
    let d := u32 (new_off - rest) in
    walk_to f (u32 (baligin d bs) / bs) VFS_PREV_BLOCK (bs - d mod bs) new
  else mret (set_pos f new (Z.rem (pos - new_off) bs), new).

Definition seek_forward (f : vfile FS) (new_off new : Z) : outcome (vfile FS * Z) :=
  let pos := rw_pos f in
  let bs := buffer_size f in
  let rest := u32 (bs - pos) in
  if rest <=? new_off then
    let d := u32 (new_off - rest) in
    let blocks := u32 (baligin d bs) / bs in
    walk_to f (if d mod bs =? 0 then blocks + 1 else blocks) VFS_NEXT_BLOCK (d mod bs) new
  else mret (set_pos f new (Z.rem (pos + new_off) bs), new).

Definition vfs_seek (f : vfile FS) (off whence : Z) : outcome (vfile FS * Z) :=
  if (whence =? SEEK_SET) && (data_size f <? off) then mret (f, - EINVAL)
  else
  '(new_off, back, new) ←
    (if whence =? SEEK_SET then
       if off <? offset f then mret (offset f - off, true, off) else mret (off - offset f, false, off)
     else if whence =? SEEK_CUR then
       mret (if data_size f <? s32 (offset f + off) then data_size f - offset f else off, false, s32 (offset f + off))
     else if whence =? SEEK_END then mret (data_size f - offset f, false, data_size f)
     else Fault);
  if new_off <=? 0 then mret (f, 0)
  else
    '(f, new_off, back) ←
      (if back && (Z.land fs_flag FS_FOPS_PREV_BLOCK =? 0) && (rw_pos f <? new_off) then
         '(g, _) ← load_block (set_pos f (offset f) 0) VFS_START_BLOCK;
         mret (g, offset f - new_off, false)
       else mret (f, new_off, back));
    if back : bool then seek_back f new_off new else seek_forward f new_off new.

Definition vfs_mmap (f : vfile FS) (m : bmem) (buffer size off : Z) : outcome (vfile FS * bmem * Z) :=
  if negb (offset f =? off) then
    '(f, err) ← vfs_seek f off SEEK_SET;
    if negb (err =? 0) then mret (f, m, err) else vfs_read f m buffer size
  else vfs_read f m buffer size.

Definition vfs_msync (f : vfile FS) (m : bmem) (buffer size off : Z) : outcome (vfile FS * Z) :=
  if negb (offset f =? off) then
    '(f, err) ← vfs_seek f off SEEK_SET;
    if negb (err =? 0) then mret (f, err) else vfs_write f m buffer size
  else vfs_write f m buffer size.

(** [vfs_getdents]: the records written, as their offset, length and name.
    [struct os_dirent] has 12 bytes. *)
Definition sizeof_os_dirent : Z := 12.

Fixpoint getdents_loop (fuel : nat) (f : vfile FS) (at_ dent_count count : Z) (out : list (Z * Z * list Z))
  : outcome (vfile FS * list (Z * Z * list Z) * Z) :=
  match fuel with
  | O => NoFuel
  | S fuel =>
    if negb (dent_count + sizeof_os_dirent + 256 <? count) then mret (f, out, dent_count)
    else
      dents ← defined getdents;
      let '(name, handled) := dents (v_fs f) (rw_pos f) (drop (Z.to_nat at_) (data_buffer f)) in
      if handled =? 0 then mret (f, out, dent_count)
      else
        let f := set_pos f (offset f + handled) (rw_pos f + handled) in
        let at_ := at_ + handled in
        let len := Z.of_nat (length name) in
        let '(out, dent_count) :=
          if len =? 0 then (out, dent_count)
          else
            let reclen := baligin (u16 (len + sizeof_os_dirent)) 4 in
            (out ++ [(offset f, u16 reclen, name)], dent_count + u16 reclen) in
        if buffer_size f <=? rw_pos f then
          '(f, err) ← load_block f VFS_NEXT_BLOCK;
          if negb (err =? 0) then mret (set_block f 0, out, dent_count)
          else getdents_loop fuel (set_pos f (offset f) 0) 0 dent_count count out
        else getdents_loop fuel f at_ dent_count count out
  end.

(** Every call reads from the start of [data_buffer]. *)
Definition vfs_getdents (fuel : nat) (f : vfile FS) (count : Z) : outcome (vfile FS * list (Z * Z * list Z) * Z) :=
  if negb (ftype f =? DT_DIR) then mret (f, [], - ENOTDIR)
  else if count =? 0 then mret (f, [], - EINVAL)
  else if (rw_pos f =? buffer_size f) && (current_block f =? 0) then mret (f, [], - ENOSPC)
  else getdents_loop fuel f 0 0 count [].
End Vfs.
