(* ===== verification/VfsSpec.v ===== *)
(** * Correctness of open files (fs/vfs.c)

    [FileLaws] is what a file system promises about the blocks of an open file.  Against it,
    reading, writing and seeking are proved to work on the bytes of the file. *)

From S2P Require Import Prelude CString Vfs.

(** An open file has blocks of [2 ^ bits] bytes with their numbers, and stands at one of
    them. *)
Class FileLaws (FS : Type) `{FsOps FS} := {
  f_ok : FS -> Prop;
  f_bits : Z;
  f_blocks : FS -> list (list Z);
  f_ids : FS -> list Z;
  f_cur : FS -> nat;
  f_bits_ok : 0 <= f_bits < 31;
  f_shape s : f_ok s -> length (f_ids s) = length (f_blocks s) /\
    Forall (fun b => Z.of_nat (length b) = 2 ^ f_bits) (f_blocks s) /\ Forall (fun i => i <> 0) (f_ids s);
  f_next s i : f_ok s -> f_ids s !! S (f_cur s) = Some i ->
    exists s', get_data_block s VFS_NEXT_BLOCK = Ret (s', i) /\ f_ok s' /\ f_blocks s' = f_blocks s /\
      f_ids s' = f_ids s /\ f_cur s' = S (f_cur s);
  f_prev s i c : Z.land fs_flag FS_FOPS_PREV_BLOCK <> 0 -> f_ok s -> f_cur s = S c -> f_ids s !! c = Some i ->
    exists s', get_data_block s VFS_PREV_BLOCK = Ret (s', i) /\ f_ok s' /\ f_blocks s' = f_blocks s /\
      f_ids s' = f_ids s /\ f_cur s' = c;
  f_start s i : Z.land fs_flag FS_FOPS_PREV_BLOCK = 0 -> f_ok s -> f_ids s !! 0%nat = Some i ->
    exists s', get_data_block s VFS_START_BLOCK = Ret (s', i) /\ f_ok s' /\ f_blocks s' = f_blocks s /\
      f_ids s' = f_ids s /\ f_cur s' = 0%nat;
  f_first s i : f_ok s -> f_cur s = 0%nat -> f_ids s !! 0%nat = Some i ->
    exists s', get_data_block s VFS_START_BLOCK = Ret (s', i) /\ f_ok s' /\ f_blocks s' = f_blocks s /\
      f_ids s' = f_ids s /\ f_cur s' = 0%nat;
  f_current s i : f_ok s -> f_ids s !! f_cur s = Some i -> get_data_block s VFS_CURRENT_BLOCK = Ret (s, i);
  f_read s i k b : f_ok s -> f_ids s !! k = Some i -> f_blocks s !! k = Some b -> read_block s i = inl b;
  f_write s i k b : f_ok s -> f_ids s !! k = Some i -> Z.of_nat (length b) = 2 ^ f_bits ->
    exists s', write_block s b i = (s', 0) /\ f_ok s' /\ f_blocks s' = <[k := b]> (f_blocks s) /\
      f_ids s' = f_ids s /\ f_cur s' = f_cur s }.

(** ** Bytes of a list of blocks *)

Lemma drop_concat (B : nat) (bs : list (list Z)) i : Forall (fun b => length b = B) bs ->
  (i <= length bs)%nat -> drop (i * B) (concat bs) = concat (drop i bs).
Proof.
  revert i. induction bs as [|b bs IH]; intros [|i] Hb Hi; simpl in *; try done; [lia|].
  apply Forall_cons in Hb as [Hl Hb]. rewrite <- IH by (done || lia).
  rewrite drop_app_ge by lia. f_equal. lia.
Qed.

Lemma take_concat (B : nat) (bs : list (list Z)) n : Forall (fun b => length b = B) bs ->
  (n <= length bs)%nat -> take (n * B) (concat bs) = concat (take n bs).
Proof.
  revert n. induction bs as [|b bs IH]; intros [|n] Hb Hn; simpl in *; try done; [lia|].
  apply Forall_cons in Hb as [Hl Hb]. rewrite <- IH by (done || lia).
  rewrite take_app_ge by lia. do 2 f_equal. lia.
Qed.

Lemma length_concat_blocks (B : nat) (bs : list (list Z)) : Forall (fun b => length b = B) bs ->
  length (concat bs) = (length bs * B)%nat.
Proof.
  induction 1 as [|b bs Hb _ IH]; [done|]. simpl. rewrite length_app, IH. lia.
Qed.

(** Bytes [off .. off + n) of the blocks, block by block: the rest of the first one, whole
    ones, and the start of the last. *)
Lemma bytes_split (B : nat) (bs : list (list Z)) c b pos n l :
  Forall (fun b => length b = B) bs -> bs !! c = Some b -> (pos <= B)%nat -> (c + n < length bs)%nat ->
  take (B - pos + n * B + l) (drop (c * B + pos) (concat bs)) =
    drop pos b ++ concat (take n (drop (S c) bs)) ++ take l (concat (drop (S c + n) bs)).
Proof.
  intros Hb Hc Hp Hn. rewrite <- drop_drop, drop_concat by (done || lia).
  assert (length b = B) as Hl by exact (Forall_lookup_1 _ _ _ _ Hb Hc).
  rewrite (drop_S bs b c Hc). cbn [concat]. rewrite drop_app_le by lia.
  replace (B - pos + n * B + l)%nat with (length (drop pos b) + (n * B + l))%nat by (rewrite length_drop; lia).
  rewrite take_app_add. f_equal.
  assert (Forall (fun b => length b = B) (drop (S c) bs)) as Hb' by (by apply Forall_drop).
  rewrite <- (take_concat B (drop (S c) bs) n Hb') by (rewrite length_drop; lia).
  rewrite <- drop_drop, <- (drop_concat B (drop (S c) bs) n Hb') by (rewrite length_drop; lia).
  by rewrite take_take_drop.
Qed.

(** ** Reading *)

Section Files.
Context {FS : Type} `{FileLaws FS}.

Definition bsize : nat := Z.to_nat (2 ^ f_bits).

Lemma bsize_pos : (0 < bsize)%nat /\ Z.of_nat bsize = 2 ^ f_bits /\ 2 ^ f_bits < 2147483648.
Proof.
  pose proof f_bits_ok as Hb. assert (0 < 2 ^ f_bits) by (apply Z.pow_pos_nonneg; lia).
  assert (2 ^ f_bits < 2 ^ 31) by (apply Z.pow_lt_mono_r; lia). unfold bsize. lia.
Qed.

Lemma blocks_len s : f_ok s -> Forall (fun b => length b = bsize) (f_blocks s).
Proof.
  intros Hs. destruct (f_shape s Hs) as (_ & Hf & _). eapply Forall_impl; [exact Hf|]. intros b Hb. cbv beta in Hb. unfold bsize. lia.
Qed.

Definition nblocks (f : vfile FS) : nat := length (f_blocks (v_fs f)).
Definition cur (f : vfile FS) : nat := f_cur (v_fs f).
Definition bytes (f : vfile FS) : list Z := concat (f_blocks (v_fs f)).

(** The file system stands at the block of [offset], [data_buffer] holds it, and [rw_pos]
    is the position in it. *)
Record vinv (f : vfile FS) : Prop := {
  vi_ok : f_ok (v_fs f);
  vi_bs : buffer_size f = Z.of_nat bsize;
  vi_pos : 0 <= rw_pos f < Z.of_nat bsize;
  vi_off : offset f = Z.of_nat (cur f * bsize) + rw_pos f;
  vi_buf : f_blocks (v_fs f) !! cur f = Some (data_buffer f);
  vi_size : 0 <= data_size f <= Z.of_nat (nblocks f * bsize) /\ Z.of_nat (nblocks f * bsize) < 2147483648 }.

(** [f'] is [f] with the file system at block [c], the buffer and the number of the
    current block aside. *)
Record at_block (f f' : vfile FS) (c : nat) : Prop := {
  ab_ok : f_ok (v_fs f');
  ab_blocks : f_blocks (v_fs f') = f_blocks (v_fs f);
  ab_ids : f_ids (v_fs f') = f_ids (v_fs f);
  ab_cur : cur f' = c;
  ab_rest : offset f' = offset f /\ data_size f' = data_size f /\
    buffer_size f' = buffer_size f /\ blk_cnt f' = blk_cnt f /\ ftype f' = ftype f }.

Lemma at_block_refl f : f_ok (v_fs f) -> at_block f f (cur f).
Proof. by split. Qed.

Lemma at_block_trans f g h c d : at_block f g c -> at_block g h d -> at_block f h d.
Proof.
  intros [A1 A2 A3 A4 A5] [B1 B2 B3 B4 B5]. split; try congruence.
  destruct A5 as (-> & -> & -> & -> & ->) in B5. done.
Qed.

(** Numbers and contents of the blocks go together. *)
Lemma block_id s k b : f_ok s -> f_blocks s !! k = Some b -> exists i, f_ids s !! k = Some i /\ i <> 0.
Proof.
  intros Hs Hb. destruct (f_shape s Hs) as (Hl & _ & Hi).
  destruct (lookup_lt_is_Some_2 (f_ids s) k) as [i Ei]; [rewrite Hl; by eapply lookup_lt_Some|].
  exists i. split; [done|]. by apply (Forall_lookup_1 _ _ _ _ Hi Ei).
Qed.

Lemma read_next f b : f_ok (v_fs f) -> f_blocks (v_fs f) !! S (cur f) = Some b ->
  exists f', vfs_read_block f VFS_NEXT_BLOCK = Ret (f', inl b) /\ at_block f f' (S (cur f)) /\ data_buffer f' = data_buffer f.
Proof.
  intros Hs Hb. destruct (block_id _ _ _ Hs Hb) as (i & Ei & Hi). unfold cur in *.
  destruct (f_next (v_fs f) i Hs Ei) as (s' & E & H1 & H2 & H3 & H4).
  unfold vfs_read_block, vfs_get_data_block. rewrite E, Ret_bind, ret_bind, (proj2 (Z.eqb_neq i 0) Hi).
  exists (set_block (set_fs f s') i). split; [|split; [|done]].
  - unfold mret, outcome_ret. do 2 f_equal. cbn [set_block set_fs v_fs]. apply (f_read s' i (S (f_cur (v_fs f)))); [done|congruence|congruence].
  - by split.
Qed.

Lemma load_next f b : f_ok (v_fs f) -> f_blocks (v_fs f) !! S (cur f) = Some b ->
  exists f', load_block f VFS_NEXT_BLOCK = Ret (f', 0) /\ at_block f f' (S (cur f)) /\ data_buffer f' = b.
Proof.
  intros Hs Hb. destruct (read_next f b Hs Hb) as (f' & E & A & _). unfold load_block. rewrite E, Ret_bind.
  eexists. split; [done|]. split; [|done]. by destruct A; split.
Qed.

Lemma read_blocks_spec n : forall f m buffer, f_ok (v_fs f) -> buffer_size f = Z.of_nat bsize ->
  (cur f + n < nblocks f)%nat ->
  exists f' m', read_blocks n f m buffer = Ret (f', m', buffer + Z.of_nat (n * bsize), 0) /\
    at_block f f' (cur f + n) /\ data_buffer f' = data_buffer f /\
    wrote m m' buffer (concat (take n (drop (S (cur f)) (f_blocks (v_fs f))))).
Proof.
  induction n as [|n IH]; intros f m buffer Hs Hbs Hn.
  - exists f, m. simpl. rewrite Z.add_0_r, Nat.add_0_r. split; [done|]. split; [by apply at_block_refl|].
    split; [done|]. split; [by intros i c|done].
  - destruct (lookup_lt_is_Some_2 (f_blocks (v_fs f)) (S (cur f))) as [b Hb]; [unfold nblocks in Hn; lia|].
    destruct (read_next f b Hs Hb) as (f1 & E1 & A1 & D1). cbn [read_blocks]. rewrite E1, Ret_bind.
    destruct A1 as [a1 a2 a3 a4 a5]. assert (length b = bsize) as Hl by exact (Forall_lookup_1 _ _ _ _ (blocks_len _ Hs) Hb).
    assert (buffer_size f1 = Z.of_nat bsize) as Hbs1 by (destruct a5 as (_ & _ & -> & _); done).
    destruct (IH f1 (put_bytes m buffer b) (buffer + buffer_size f1)) as (f2 & m2 & E2 & A2 & D2 & W2);
      [done|done|unfold nblocks in *; rewrite a2, a4; lia|].
    rewrite E2, Hbs1. exists f2, m2. split; [do 3 f_equal; lia|].
    split; [replace (cur f + S n)%nat with (cur f1 + n)%nat by lia; eapply at_block_trans; [|exact A2]; by split|].
    split; [congruence|]. rewrite (drop_S _ _ _ Hb). cbn [take concat].
    rewrite a4, a2, Hbs1, <- Hl in W2. eapply wrote_app; [apply wrote_put|exact W2].
Qed.

(** The whole blocks and the last part of a read that leaves the first block, when it
    does not end with a block. *)
Lemma read_rest f m buffer n l b0 :
  f_ok (v_fs f) -> buffer_size f = Z.of_nat bsize -> (0 < l < bsize)%nat ->
  f_blocks (v_fs f) !! (cur f + S n)%nat = Some b0 ->
  exists f' m' f1 m1 buf1,
    read_blocks n f m buffer = Ret (f1, m1, buf1, 0) /\ load_block f1 VFS_NEXT_BLOCK = Ret (f', 0) /\
    m' = put_bytes m1 buf1 (slice (data_buffer f') 0 (Z.of_nat l)) /\
    at_block f f' (cur f + S n) /\ data_buffer f' = b0 /\
    wrote m m' buffer (concat (take n (drop (S (cur f)) (f_blocks (v_fs f)))) ++
      take l (concat (drop (S (cur f) + n) (f_blocks (v_fs f))))).
Proof.
  intros Hs Hbs Hl Hb. pose proof (lookup_lt_Some _ _ _ Hb) as Hlt.
  destruct (read_blocks_spec n f m buffer Hs Hbs) as (f1 & m1 & E1 & A1 & D1 & W1); [unfold nblocks; lia|].
  pose proof A1 as [a1 a2 a3 a4 a5].
  destruct (load_next f1 b0 a1) as (f2 & E2 & A2 & D2); [rewrite a2, a4; by replace (S (cur f + n)) with (cur f + S n)%nat by lia|].
  eexists f2, _, f1, m1, _. split; [done|]. split; [done|]. split; [done|].
  split; [replace (cur f + S n)%nat with (S (cur f1)) by lia; by eapply at_block_trans|]. split; [done|].
  assert (length b0 = bsize) as Hl0 by exact (Forall_lookup_1 _ _ _ _ (blocks_len _ Hs) Hb).
  assert (take l (concat (drop (S (cur f) + n) (f_blocks (v_fs f)))) = slice (data_buffer f2) 0 (Z.of_nat l)) as ->.
  { replace (S (cur f) + n)%nat with (cur f + S n)%nat by lia. rewrite (drop_S _ _ _ Hb). cbn [concat].
    rewrite take_app_le by lia. unfold slice. by rewrite Nat2Z.id, D2. }
  eapply wrote_app; [exact W1|].
  rewrite (length_concat_blocks bsize) by (by apply Forall_take, Forall_drop, blocks_len).
  rewrite length_take_le by (rewrite length_drop; lia). apply wrote_put.
Qed.

(** The same file: contents, numbers of the blocks and size. *)
Definition same_file (f f' : vfile FS) : Prop :=
  f_blocks (v_fs f') = f_blocks (v_fs f) /\ f_ids (v_fs f') = f_ids (v_fs f) /\ data_size f' = data_size f.

(** Standing at another block with its contents in the buffer. *)
Lemma vinv_move f f' c pos : vinv f -> at_block f f' c -> f_blocks (v_fs f) !! c = Some (data_buffer f') ->
  0 <= pos < Z.of_nat bsize ->
  vinv (set_pos f' (Z.of_nat (c * bsize) + pos) pos) /\ same_file f (set_pos f' (Z.of_nat (c * bsize) + pos) pos).
Proof.
  intros [V1 V2 V3 V4 V5 V6] [a1 a2 a3 a4 (e1 & e3 & e4 & e5 & e6)] Hb Hp. split; [|done].
  split; unfold cur, nblocks in *; cbn [set_pos v_fs buffer_size rw_pos offset data_buffer data_size]; try done.
  - congruence.
  - by rewrite a4.
  - by rewrite a2, a4.
  - by rewrite a2, e3.
Qed.

(** How much of the request there is. *)
Definition read_size (f : vfile FS) (size : Z) : Z := Z.min size (data_size f - offset f).

Lemma in_block_slice f n : vinv f -> 0 <= n -> rw_pos f + n <= Z.of_nat bsize ->
  slice (data_buffer f) (rw_pos f) n = slice (bytes f) (offset f) n.
Proof.
  intros [V1 V2 V3 V4 V5 V6] Hn Hle. unfold slice, bytes. rewrite V4.
  replace (Z.to_nat (Z.of_nat (cur f * bsize) + rw_pos f)) with (cur f * bsize + Z.to_nat (rw_pos f))%nat by lia.
  pose proof (blocks_len _ V1) as Hb. pose proof (lookup_lt_Some _ _ _ V5).
  assert (length (data_buffer f) = bsize) by exact (Forall_lookup_1 _ _ _ _ Hb V5).
  rewrite <- drop_drop, (drop_concat bsize) by (done || lia). rewrite (drop_S _ _ _ V5). cbn [concat].
  rewrite drop_app_le by lia. rewrite take_app_le by (rewrite length_drop; lia). done.
Qed.

(** Where a read or write of [d] bytes behind the current block ends. *)
Lemma end_block f off d : vinv f -> 0 <= d -> off = Z.of_nat (S (cur f) * bsize) + d -> off mod Z.of_nat bsize <> 0 ->
  off <= Z.of_nat (nblocks f * bsize) ->
  let n := Z.to_nat (d / Z.of_nat bsize) in
  let l := Z.to_nat (d mod Z.of_nat bsize) in
  d / Z.of_nat bsize = Z.of_nat n /\ d mod Z.of_nat bsize = Z.of_nat l /\ d = Z.of_nat (n * bsize + l) /\
  (0 < l < bsize)%nat /\ (cur f + S n < nblocks f)%nat.
Proof.
  intros V Hd -> Hm Hle n l. destruct bsize_pos as [Hp _]. set (B := Z.of_nat bsize) in *.
  assert (0 < B) as HB by lia. pose proof (Z.div_mod d B ltac:(lia)) as E. pose proof (Z.mod_pos_bound d B HB) as Hr.
  assert (0 <= d / B) by (apply Z.div_pos; lia).
  assert (d mod B <> 0) as Hl.
  { intros E0. apply Hm. replace (Z.of_nat (S (cur f) * bsize) + d) with (d + Z.of_nat (S (cur f)) * B) by lia.
    by rewrite Z.mod_add by lia. }
  split; [lia|]. split; [lia|]. split; [unfold n, l; nia|]. split; [lia|].
  assert ((Z.of_nat (cur f) + 1 + d / B) * B < Z.of_nat (nblocks f) * B) as Hlt by nia.
  apply Z.mul_lt_mono_pos_r in Hlt; [|done]. unfold n. lia.
Qed.

(** A read inside the block. *)
Lemma vfs_read_inside f m buffer size : vinv f -> 0 < size -> offset f + size < 2147483648 ->
  offset f < data_size f -> rw_pos f + read_size f size < Z.of_nat bsize ->
  exists f' m', vfs_read f m buffer size = Ret (f', m', read_size f size) /\
    wrote m m' buffer (slice (bytes f) (offset f) (read_size f size)) /\
    vinv f' /\ same_file f f' /\ offset f' = offset f + read_size f size.
Proof.
  intros V Hs Hmax Hd Hin. pose proof V as [V1 V2 V3 V4 V5 V6]. unfold vfs_read.
  rewrite s32_small by lia. set (real := if data_size f <? offset f + size then _ else _).
  assert (real = read_size f size) as Er by (unfold real, read_size; zcases).
  assert (0 < real) as Hr by (rewrite Er; unfold read_size; lia). rewrite <- Er in *. clearbody real. clear Er.
  rewrite (proj2 (Z.eqb_neq real 0)) by lia. rewrite V2, (proj2 (Z.ltb_lt real (Z.of_nat bsize - rw_pos f))) by lia.
  rewrite (proj2 (Z.ltb_ge (Z.of_nat bsize) (rw_pos f + real))) by lia.
  change (Z.to_nat 0) with 0%nat. cbn [read_blocks Z.eqb negb]. rewrite !ret_bind. cbn [Z.eqb negb].
  rewrite (proj2 (Z.eqb_neq real (Z.of_nat bsize))) by lia. rewrite ret_bind. cbn [Z.eqb negb].
  rewrite Z.rem_small by lia. rewrite (in_block_slice f real V) by lia.
  eexists _, _. split; [done|]. split; [apply wrote_put|].
  replace (offset f + real) with (Z.of_nat (cur f * bsize) + (rw_pos f + real)) by lia.
  destruct (vinv_move f f (cur f) (rw_pos f + real) V (at_block_refl f V1) V5) as [? ?]; [lia|]. done.
Qed.

(** A read that goes on in the next blocks. *)
Lemma vfs_read_across f m buffer size : vinv f -> 0 < size -> offset f + size < 2147483648 ->
  offset f < data_size f -> Z.of_nat bsize <= rw_pos f + read_size f size ->
  (offset f + read_size f size) mod Z.of_nat bsize <> 0 ->
  exists f' m', vfs_read f m buffer size = Ret (f', m', read_size f size) /\
    wrote m m' buffer (slice (bytes f) (offset f) (read_size f size)) /\
    vinv f' /\ same_file f f' /\ offset f' = offset f + read_size f size.
Proof.
  intros V Hs Hmax Hd Hout Hm. pose proof V as [V1 V2 V3 V4 V5 V6]. destruct bsize_pos as (Hp & _).
  unfold vfs_read. rewrite s32_small by lia. set (real := if data_size f <? offset f + size then _ else _).
  assert (real = read_size f size) as Er by (unfold real, read_size; zcases).
  assert (0 < real /\ offset f + real <= data_size f) as [Hr Hle] by (rewrite Er; unfold read_size; lia).
  rewrite <- Er in *. clearbody real. clear Er. set (B := Z.of_nat bsize) in *.
  rewrite (proj2 (Z.eqb_neq real 0)) by lia. rewrite V2, (proj2 (Z.ltb_ge real (B - rw_pos f))) by lia.
  rewrite (proj2 (Z.ltb_ge B (rw_pos f + (B - rw_pos f)))) by lia.
  set (d := real - (B - rw_pos f)). rewrite (Z.quot_div_nonneg d B), (Z.rem_mod_nonneg d B) by (unfold d; lia).
  destruct (end_block f (offset f + real) d V) as (En & El & Ed & Hl & Hn); [unfold d; lia|unfold d; rewrite V4; lia|done|lia|].
  fold B in En, El, Ed, Hl, Hn. set (n := Z.to_nat (d / B)) in *. set (l := Z.to_nat (d mod B)) in *.
  rewrite El. rewrite (proj2 (Z.eqb_neq (Z.of_nat l) 0)) by lia. cbn [negb].
  destruct (lookup_lt_is_Some_2 (f_blocks (v_fs f)) (cur f + S n)%nat Hn) as [b0 Hb0].
  destruct (read_rest f (put_bytes m buffer (slice (data_buffer f) (rw_pos f) (B - rw_pos f))) (buffer + (B - rw_pos f)) n l b0 V1 V2 Hl Hb0)
    as (f' & m' & f1 & m1 & buf1 & E1 & E2 & -> & A & D & W).
  rewrite E1, Ret_bind. cbn [Z.eqb negb]. rewrite E2, Ret_bind. cbn [Z.eqb negb]. rewrite ret_bind. cbn [Z.eqb negb].
  rewrite (proj2 (Z.eqb_neq (B - Z.of_nat l) B)) by lia. rewrite ret_bind. cbn [Z.eqb negb].
  pose proof A as [a1 a2 a3 a4 (e1 & e3 & e4 & e5 & e6)].
  eexists _, _. split; [done|]. split.
  - assert (slice (bytes f) (offset f) real = slice (data_buffer f) (rw_pos f) (B - rw_pos f) ++
      concat (take n (drop (S (cur f)) (f_blocks (v_fs f)))) ++ take l (concat (drop (S (cur f) + n) (f_blocks (v_fs f))))) as ->.
    { assert (length (data_buffer f) = bsize) as Hlb by exact (Forall_lookup_1 _ _ _ _ (blocks_len _ V1) V5).
      assert (slice (data_buffer f) (rw_pos f) (B - rw_pos f) = drop (Z.to_nat (rw_pos f)) (data_buffer f)) as ->.
      { unfold slice. rewrite take_ge; [done|]. rewrite length_drop. lia. }
      rewrite <- (bytes_split bsize (f_blocks (v_fs f)) (cur f) (data_buffer f) (Z.to_nat (rw_pos f)) n l (blocks_len _ V1) V5)
        by (unfold nblocks in Hn; lia).
      unfold slice, bytes. f_equal; [unfold d in Ed; lia|]. f_equal. lia. }
    eapply wrote_app; [apply wrote_put|].
    assert (Z.of_nat (length (slice (data_buffer f) (rw_pos f) (B - rw_pos f))) = B - rw_pos f) as ->; [|exact W].
    assert (length (data_buffer f) = bsize) by exact (Forall_lookup_1 _ _ _ _ (blocks_len _ V1) V5).
    unfold slice. rewrite length_take, length_drop. lia.
  - assert (Z.rem (rw_pos f + real) B = Z.of_nat l) as ->.
    { rewrite Z.rem_mod_nonneg by lia. rewrite <- El. replace (rw_pos f + real) with (d + 1 * B) by (unfold d; lia).
      by rewrite Z.mod_add by lia. }
    rewrite e1. replace (offset f + real) with (Z.of_nat ((cur f + S n) * bsize) + Z.of_nat l) by (unfold d in Ed; lia).
    destruct (vinv_move f f' (cur f + S n) (Z.of_nat l) V A) as [? ?]; [by rewrite D|lia|]. done.
Qed.

Lemma vfs_read_spec f m buffer size : vinv f -> 0 < size -> offset f + size < 2147483648 ->
  offset f < data_size f -> (offset f + read_size f size) mod Z.of_nat bsize <> 0 ->
  exists f' m', vfs_read f m buffer size = Ret (f', m', read_size f size) /\
    wrote m m' buffer (slice (bytes f) (offset f) (read_size f size)) /\
    vinv f' /\ same_file f f' /\ offset f' = offset f + read_size f size.
Proof.
  intros. destruct (decide (rw_pos f + read_size f size < Z.of_nat bsize)).
  - by apply vfs_read_inside.
  - apply vfs_read_across; try done. lia.
Qed.

(** ** Seeking *)

Lemma get_next f i : f_ok (v_fs f) -> f_ids (v_fs f) !! S (cur f) = Some i ->
  exists f', vfs_get_data_block f VFS_NEXT_BLOCK = Ret (f', i) /\ at_block f f' (S (cur f)) /\ data_buffer f' = data_buffer f.
Proof.
  intros Hs Hi. destruct (f_next (v_fs f) i Hs Hi) as (s' & E & H1 & H2 & H3 & H4).
  unfold vfs_get_data_block. rewrite E, Ret_bind. exists (set_fs f s'). split; [done|]. split; [|done]. by split.
Qed.

Lemma get_prev f c i : Z.land fs_flag FS_FOPS_PREV_BLOCK <> 0 -> f_ok (v_fs f) -> cur f = S c -> f_ids (v_fs f) !! c = Some i ->
  exists f', vfs_get_data_block f VFS_PREV_BLOCK = Ret (f', i) /\ at_block f f' c /\ data_buffer f' = data_buffer f.
Proof.
  intros Hfl Hs Hc Hi. destruct (f_prev (v_fs f) i c Hfl Hs Hc Hi) as (s' & E & H1 & H2 & H3 & H4).
  unfold vfs_get_data_block. rewrite E, Ret_bind. exists (set_fs f s'). split; [done|]. split; [|done]. by split.
Qed.

(** Walking from block [a] to block [b], one step at a time in the direction [whence]. *)
Definition steps_to (whence : Z) (f : vfile FS) (c : nat) : Prop :=
  if decide (whence = VFS_NEXT_BLOCK) then (cur f <= c)%nat
  else whence = VFS_PREV_BLOCK /\ Z.land fs_flag FS_FOPS_PREV_BLOCK <> 0 /\ (c <= cur f)%nat.

Definition distance (whence : Z) (f : vfile FS) (c : nat) : nat :=
  if decide (whence = VFS_NEXT_BLOCK) then (c - cur f)%nat else (cur f - c)%nat.

Lemma one_step whence f c n : f_ok (v_fs f) -> (cur f < nblocks f)%nat -> (c < nblocks f)%nat -> steps_to whence f c ->
  distance whence f c = S n ->
  exists f' i, vfs_get_data_block f whence = Ret (f', i) /\ i <> 0 /\ data_buffer f' = data_buffer f /\
    at_block f f' (cur f') /\ f_ids (v_fs f) !! cur f' = Some i /\ steps_to whence f' c /\ distance whence f' c = n.
Proof.
  intros Hs Hc0 Hc Hst Hd. destruct (f_shape _ Hs) as (Hl & _ & Hnz). unfold nblocks in *. unfold steps_to, distance in *.
  destruct (decide (whence = VFS_NEXT_BLOCK)) as [->|].
  - destruct (lookup_lt_is_Some_2 (f_ids (v_fs f)) (S (cur f))) as [i Hi]; [lia|].
    destruct (get_next f i Hs Hi) as (f' & E & A & D). pose proof (ab_cur _ _ _ A) as Ec. exists f', i.
    split; [done|]. split; [by apply (Forall_lookup_1 _ _ _ _ Hnz Hi)|]. rewrite Ec. split_and!; try done; lia.
  - destruct Hst as (-> & Hfl & Hle). destruct (cur f) as [|k] eqn:Ek; [lia|].
    destruct (lookup_lt_is_Some_2 (f_ids (v_fs f)) k) as [i Hi]; [lia|].
    destruct (get_prev f k i Hfl Hs Ek Hi) as (f' & E & A & D). pose proof (ab_cur _ _ _ A) as Ec. exists f', i.
    split; [done|]. split; [by apply (Forall_lookup_1 _ _ _ _ Hnz Hi)|]. rewrite Ec. split_and!; try done; lia.
Qed.

Lemma walk_blocks_spec whence n : forall f c block, f_ok (v_fs f) -> (cur f < nblocks f)%nat -> (c < nblocks f)%nat ->
  steps_to whence f c -> distance whence f c = S n ->
  exists f' i, walk_blocks (S n) f whence block = Ret (f', Some i) /\ at_block f f' c /\ f_ids (v_fs f) !! c = Some i.
Proof.
  induction n as [|n IH]; intros f c block Hs Hc0 Hc Hst Hd.
  - destruct (one_step whence f c 0 Hs Hc0 Hc Hst Hd) as (f' & i & E & Hi & _ & A & Ei & Hst' & Hd').
    assert (cur f' = c) as <-.
    { unfold steps_to, distance in *. destruct (decide (whence = VFS_NEXT_BLOCK)); lia. }
    cbn [walk_blocks]. rewrite E, Ret_bind, (proj2 (Z.eqb_neq i 0) Hi). exists f', i. done.
  - destruct (one_step whence f c (S n) Hs Hc0 Hc Hst Hd) as (f1 & i & E & Hi & _ & A & Ei & Hst' & Hd').
    pose proof A as [a1 a2 a3 a4 a5]. assert (nblocks f1 = nblocks f) as En by (unfold nblocks; by rewrite a2).
    destruct (IH f1 c i a1) as (f' & j & E' & A' & Ej); [|rewrite En; done|done|done|].
    { rewrite En. unfold nblocks. destruct (f_shape _ Hs) as (Hl & _). rewrite <- Hl. by eapply lookup_lt_Some. }
    change (walk_blocks (S (S n)) f whence block) with
      ('(f, block) ← vfs_get_data_block f whence; if block =? 0 then mret (f, None) else walk_blocks (S n) f whence block).
    rewrite E, Ret_bind, (proj2 (Z.eqb_neq i 0) Hi), E'. exists f', j. split; [done|]. split; [by eapply at_block_trans|]. by rewrite <- a3.
Qed.

Lemma walk_to_spec f f0 whence n c p new : vinv f -> at_block f f0 (cur f0) -> (cur f0 < nblocks f)%nat -> (c < nblocks f)%nat ->
  steps_to whence f0 c -> distance whence f0 c = S n -> 0 <= p -> new = Z.of_nat (c * bsize) + Z.rem p (Z.of_nat bsize) ->
  exists f', walk_to f0 (Z.of_nat (S n)) whence p new = Ret (f', new) /\ vinv f' /\ same_file f f' /\ offset f' = new.
Proof.
  intros V A0 Hc0 Hc Hst Hd Hp ->. pose proof A0 as [a1 a2 a3 a4 (e1 & e3 & e4 & e5 & e6)].
  assert (nblocks f0 = nblocks f) as En by (unfold nblocks; by rewrite a2). destruct bsize_pos as [HB _].
  destruct (walk_blocks_spec whence n f0 c 0 a1) as (f1 & i & E & A1 & Ei); [by rewrite En|by rewrite En|done|done|].
  unfold walk_to. rewrite Nat2Z.id, E, Ret_bind. pose proof A1 as [b1 b2 b3 b4 b5].
  destruct (lookup_lt_is_Some_2 (f_blocks (v_fs f)) c Hc) as [b Hb].
  assert (read_block (v_fs f1) i = inl b) as ->.
  { apply (f_read (v_fs f1) i c); [done|by rewrite b3|by rewrite b2, a2]. }
  assert (buffer_size f1 = Z.of_nat bsize) as ->.
  { destruct b5 as (_ & _ & -> & _). rewrite e4. apply V. }
  eexists. split; [done|].
  assert (at_block f (set_buffer f1 b) c) as A2 by (destruct (at_block_trans _ _ _ _ _ A0 A1); by split).
  destruct (vinv_move f (set_buffer f1 b) c (Z.rem p (Z.of_nat bsize)) V A2 Hb) as [? ?]; [|done].
  pose proof (Z.rem_bound_pos p (Z.of_nat bsize) Hp). lia.
Qed.

Lemma ceil_blocks d : 0 <= d < 2147483648 -> u32 (baligin d (Z.of_nat bsize)) / Z.of_nat bsize = (d + Z.of_nat bsize - 1) / Z.of_nat bsize.
Proof.
  intros Hd. destruct bsize_pos as (Hp & E & Hlt). pose proof f_bits_ok as Hb.
  rewrite baligin_align, E. destruct (align_ceil d f_bits) as [Hc Hm]; [lia|]. rewrite u32_small by lia.
  set (B := 2 ^ f_bits) in *. set (a := align d B) in *. clearbody a.
  apply Z.div_unique with (r := d + B - 1 - a); [lia|].
  pose proof (Z.div_mod a B ltac:(lia)). lia.
Qed.

(** Forward from [f0], which stands at one of the blocks of [f] with its bytes in the
    buffer. *)
Lemma seek_forward_spec f f0 new_off : vinv f -> at_block f f0 (cur f0) ->
  f_blocks (v_fs f) !! cur f0 = Some (data_buffer f0) -> 0 <= rw_pos f0 < Z.of_nat bsize -> 0 <= new_off ->
  let t := Z.of_nat (cur f0 * bsize) + rw_pos f0 + new_off in
  t < Z.of_nat (nblocks f * bsize) ->
  forall new, new = t -> exists f', seek_forward f0 new_off new = Ret (f', new) /\ vinv f' /\ same_file f f' /\ offset f' = new.
Proof.
  intros V A Hb Hp Hn t Ht new ->. destruct bsize_pos as (HB & EB & HB31). rewrite <- EB in HB31. clear EB. pose proof A as [a1 a2 a3 a4 (e1 & e3 & e4 & e5 & e6)].
  assert (buffer_size f0 = Z.of_nat bsize) as Hbs by (rewrite e4; apply V). unfold seek_forward. rewrite Hbs.
  set (B := Z.of_nat bsize) in *. assert (Z.of_nat (nblocks f * bsize) < 2147483648) as Hmax by apply V.
  pose proof (lookup_lt_Some _ _ _ Hb) as Hc0. fold (nblocks f) in Hc0.
  rewrite (u32_small (B - rw_pos f0)) by lia. destruct (Z.leb_spec (B - rw_pos f0) new_off) as [Hge|Hlt].
  - rewrite u32_small by (unfold t in Ht; lia). set (d := new_off - (B - rw_pos f0)).
    assert (0 <= d < 2147483648) as Hd by (unfold d, t in *; lia). rewrite ceil_blocks by done. fold B.
    pose proof (Z.div_mod d B ltac:(lia)) as E. pose proof (Z.mod_pos_bound d B ltac:(lia)) as Hr.
    assert (0 <= d / B) as Hq by (apply Z.div_pos; lia).
    assert ((if d mod B =? 0 then (d + B - 1) / B + 1 else (d + B - 1) / B) = Z.of_nat (S (Z.to_nat (d / B)))) as ->.
    { destruct (Z.eqb_spec (d mod B) 0) as [E0|E0].
      - assert ((d + B - 1) / B = d / B) as ->; [|lia]. symmetry. apply Z.div_unique with (r := B - 1); lia.
      - assert ((d + B - 1) / B = d / B + 1) as ->; [|lia]. symmetry. apply Z.div_unique with (r := d mod B - 1); lia. }
    assert (t = Z.of_nat ((cur f0 + S (Z.to_nat (d / B))) * bsize) + d mod B) as Et by (unfold t, d in *; nia).
    apply (walk_to_spec f f0 VFS_NEXT_BLOCK (Z.to_nat (d / B)) (cur f0 + S (Z.to_nat (d / B)))); try done.
    + clear - Et Ht Hr HB. unfold nblocks in *. nia.
    + unfold steps_to. rewrite decide_True by done. lia.
    + unfold distance. rewrite decide_True by done. lia.
    + lia.
    + rewrite Z.rem_small by lia. done.
  - rewrite Z.rem_small by lia. eexists. split; [done|].
    replace t with (Z.of_nat (cur f0 * bsize) + (rw_pos f0 + new_off)) by (unfold t; lia).
    destruct (vinv_move f f0 (cur f0) (rw_pos f0 + new_off) V A Hb) as [? ?]; [lia|]. done.
Qed.

Lemma seek_back_spec f new_off : vinv f -> Z.land fs_flag FS_FOPS_PREV_BLOCK <> 0 \/ new_off <= rw_pos f ->
  0 < new_off <= offset f ->
  forall new, new = offset f - new_off ->
  exists f', seek_back f new_off new = Ret (f', new) /\ vinv f' /\ same_file f f' /\ offset f' = new.
Proof.
  intros V Hfl Hn new ->. destruct bsize_pos as (HB & EB & HB31). rewrite <- EB in HB31. clear EB. pose proof V as [V1 V2 V3 V4 V5 V6].
  unfold seek_back. rewrite V2. set (B := Z.of_nat bsize) in *. pose proof (lookup_lt_Some _ _ _ V5) as Hc0. fold (nblocks f) in Hc0.
  assert (offset f < 2147483648) as Hmax by nia.
  rewrite (u32_small (rw_pos f)) by lia. destruct (Z.ltb_spec (rw_pos f) new_off) as [Hgt|Hle].
  - destruct Hfl as [Hfl|?]; [|lia]. rewrite (u32_small (new_off - rw_pos f)) by lia. set (d := new_off - rw_pos f).
    assert (0 < d < 2147483648) as Hd by (unfold d; lia). rewrite ceil_blocks by lia. fold B.
    pose proof (Z.div_mod d B ltac:(lia)) as E. pose proof (Z.mod_pos_bound d B ltac:(lia)) as Hr.
    pose proof (Z.div_mod (d + B - 1) B ltac:(lia)) as E'. pose proof (Z.mod_pos_bound (d + B - 1) B ltac:(lia)) as Hr'.
    set (q := (d + B - 1) / B) in *.
    assert (1 <= q <= Z.of_nat (cur f)) as Hq.
    { assert (d <= Z.of_nat (cur f) * B) by (unfold d; nia). split; nia. }
    replace q with (Z.of_nat (S (Z.to_nat (q - 1)))) by lia.
    apply (walk_to_spec f f VFS_PREV_BLOCK (Z.to_nat (q - 1)) (cur f - Z.to_nat q));
      [exact V|exact (at_block_refl f V1)|exact Hc0|lia| | |lia|].
    + unfold steps_to. rewrite decide_False by done. split; [done|]. split; [done|]. lia.
    + unfold distance. rewrite decide_False by done. lia.
    + fold B. assert (Z.rem (B - d mod B) B = q * B - d) as ->.
      { rewrite Z.rem_mod_nonneg by lia. symmetry. apply (Z.mod_unique_pos _ _ (d / B - q + 1)); lia. }
      assert (Z.of_nat ((cur f - Z.to_nat q) * bsize) = Z.of_nat (cur f) * B - q * B) as ->
        by (rewrite Nat2Z.inj_mul, Nat2Z.inj_sub, Z2Nat.id by lia; fold B; lia).
      unfold d. lia.
  - rewrite Z.rem_small by lia. eexists. split; [done|].
    replace (offset f - new_off) with (Z.of_nat (cur f * bsize) + (rw_pos f - new_off)) by lia.
    destruct (vinv_move f f (cur f) (rw_pos f - new_off) V (at_block_refl f V1) V5) as [? ?]; [lia|]. done.
Qed.

Lemma load_start f b : Z.land fs_flag FS_FOPS_PREV_BLOCK = 0 -> f_ok (v_fs f) -> f_blocks (v_fs f) !! 0%nat = Some b ->
  exists f', load_block f VFS_START_BLOCK = Ret (f', 0) /\ at_block f f' 0 /\ data_buffer f' = b /\ rw_pos f' = rw_pos f.
Proof.
  intros Hfl Hs Hb. destruct (block_id _ _ _ Hs Hb) as (i & Ei & Hi).
  destruct (f_start (v_fs f) i Hfl Hs Ei) as (s' & E & H1 & H2 & H3 & H4).
  unfold load_block, vfs_read_block, vfs_get_data_block. rewrite E, Ret_bind, ret_bind, (proj2 (Z.eqb_neq i 0) Hi).
  cbn [set_block set_fs v_fs]. rewrite (f_read s' i 0 b) by congruence.
  eexists. split; [done|]. split; [|done]. by split.
Qed.

Lemma vfs_seek_spec f t : vinv f -> 0 <= t <= data_size f -> t < Z.of_nat (nblocks f * bsize) ->
  exists f', vfs_seek f t SEEK_SET = Ret (f', if t =? offset f then 0 else t) /\ vinv f' /\ same_file f f' /\ offset f' = t.
Proof.
  intros V Ht Hn. pose proof V as [V1 V2 V3 V4 V5 V6]. unfold vfs_seek. change (SEEK_SET =? SEEK_SET) with true. cbn [andb].
  rewrite (proj2 (Z.ltb_ge (data_size f) t)) by lia. pose proof (lookup_lt_Some _ _ _ V5) as Hc0. fold (nblocks f) in Hc0.
  destruct (Z.ltb_spec t (offset f)) as [Hb|Hf]; rewrite ret_bind.
  - rewrite (proj2 (Z.leb_gt (offset f - t) 0)), (proj2 (Z.eqb_neq t (offset f))) by lia. cbn [andb].
    destruct (Z.eqb_spec (Z.land fs_flag FS_FOPS_PREV_BLOCK) 0) as [E0|E0]; cbn [andb].
    + destruct (Z.ltb_spec (rw_pos f) (offset f - t)) as [Hlt|Hge].
      * destruct (lookup_lt_is_Some_2 (f_blocks (v_fs f)) 0) as [b Hb0]; [unfold nblocks in *; lia|].
        destruct (load_start (set_pos f (offset f) 0) b E0 V1 Hb0) as (f0 & E & A & D & P). rewrite E, Ret_bind, ret_bind.
        destruct (seek_forward_spec f f0 t V) with (new := t) as (f' & E' & R).
        { destruct A as [a1 a2 a3 a4 a5]. split; try done. }
        { rewrite (ab_cur _ _ _ A). by rewrite D. }
        { rewrite P. cbn [set_pos rw_pos]. destruct bsize_pos. lia. }
        { lia. }
        { rewrite (ab_cur _ _ _ A), P. cbn [set_pos rw_pos]. lia. }
        { rewrite (ab_cur _ _ _ A), P. cbn [set_pos rw_pos]. lia. }
        replace (offset f - (offset f - t)) with t by lia. rewrite E'. by exists f'.
      * destruct (seek_back_spec f (offset f - t) V) with (new := t) as (f' & E' & R); [by right|lia|lia|]. rewrite ret_bind, E'. by exists f'.
    + destruct (seek_back_spec f (offset f - t) V) with (new := t) as (f' & E' & R); [by left|lia|lia|]. rewrite ret_bind, E'. by exists f'.
  - destruct (Z.eqb_spec t (offset f)) as [->|Hne].
    + rewrite (proj2 (Z.leb_le (offset f - offset f) 0)) by lia. by exists f.
    + rewrite (proj2 (Z.leb_gt (t - offset f) 0)) by lia. cbn [andb].
      destruct (seek_forward_spec f f (t - offset f) V (at_block_refl f V1) V5 V3) with (new := t) as (f' & E' & R); [lia..|].
      rewrite ret_bind, E'. by exists f'.
Qed.

(** Opening a file that stands at its first block. *)
Lemma vfs_open_spec f b : f_ok (v_fs f) -> cur f = 0%nat -> f_blocks (v_fs f) !! 0%nat = Some b -> offset f = 0 -> rw_pos f = 0 ->
  buffer_size f = Z.of_nat bsize -> 0 <= data_size f <= Z.of_nat (nblocks f * bsize) -> Z.of_nat (nblocks f * bsize) < 2147483648 ->
  exists f', vfs_open f = Ret (f', 0) /\ vinv f' /\ same_file f f' /\ offset f' = 0.
Proof.
  intros Hs Hc Hb Ho Hp Hbs Hd Hm. destruct (block_id _ _ _ Hs Hb) as (i & Ei & Hi). unfold cur in Hc. destruct bsize_pos as [HB _].
  destruct (f_first (v_fs f) i Hs Hc Ei) as (s' & E & H1 & H2 & H3 & H4).
  unfold vfs_open, load_block, vfs_read_block, vfs_get_data_block. rewrite E, Ret_bind, ret_bind, (proj2 (Z.eqb_neq i 0) Hi).
  rewrite ret_bind. cbn [set_block set_fs v_fs]. rewrite (f_read s' i 0 b) by congruence. eexists. split; [done|].
  split; [|done]. split; unfold cur, nblocks in *; cbn [set_buffer set_block set_fs v_fs buffer_size rw_pos offset data_buffer data_size]; try done.
  - lia.
  - rewrite H4. lia.
  - by rewrite H2, H4.
  - by rewrite H2.
Qed.

(** ** Writing *)

(** [f'] is [f] with the blocks [bs], standing at block [c]. *)
Record wrote_blocks (f f' : vfile FS) (c : nat) (bs : list (list Z)) : Prop := {
  wb_ok : f_ok (v_fs f');
  wb_blocks : f_blocks (v_fs f') = bs;
  wb_ids : f_ids (v_fs f') = f_ids (v_fs f);
  wb_cur : cur f' = c;
  wb_rest : offset f' = offset f /\ rw_pos f' = rw_pos f /\ data_size f' = data_size f /\
    buffer_size f' = buffer_size f /\ ftype f' = ftype f }.

Lemma wrote_blocks_trans f g h c d bs bs' : wrote_blocks f g c bs -> wrote_blocks g h d bs' -> wrote_blocks f h d bs'.
Proof.
  intros [A1 A2 A3 A4 A5] [B1 B2 B3 B4 B5]. split; try congruence.
  destruct A5 as (-> & -> & -> & -> & ->) in B5. done.
Qed.

Lemma write_current f b : f_ok (v_fs f) -> (cur f < nblocks f)%nat -> length b = bsize ->
  exists f', vfs_write_block f b VFS_CURRENT_BLOCK = Ret (f', 0) /\
    wrote_blocks f f' (cur f) (<[cur f := b]> (f_blocks (v_fs f))) /\ data_buffer f' = data_buffer f.
Proof.
  intros Hs Hc Hl. destruct (lookup_lt_is_Some_2 (f_blocks (v_fs f)) (cur f) Hc) as [b0 Hb0].
  destruct (block_id _ _ _ Hs Hb0) as (i & Ei & Hi). destruct bsize_pos as (_ & EB & _).
  destruct (f_write (v_fs f) i (cur f) b Hs Ei) as (s' & E & H1 & H2 & H3 & H4); [lia|].
  unfold vfs_write_block, vfs_get_data_block. rewrite (f_current _ i Hs Ei), Ret_bind, ret_bind, (proj2 (Z.eqb_neq i 0) Hi).
  unfold __vfs_write_block. cbn [set_block set_fs v_fs]. rewrite E.
  eexists. split; [done|]. split; [|done]. by split.
Qed.

Lemma write_one f b : f_ok (v_fs f) -> (S (cur f) < nblocks f)%nat -> length b = bsize ->
  exists s1 i s', write_next f false = Ret (set_fs f s1, false, inl i) /\ write_block s1 b i = (s', 0) /\
    wrote_blocks f (set_fs f s') (S (cur f)) (<[S (cur f) := b]> (f_blocks (v_fs f))).
Proof.
  intros Hs Hc Hl. destruct (lookup_lt_is_Some_2 (f_blocks (v_fs f)) (S (cur f)) Hc) as [b0 Hb0].
  destruct (block_id _ _ _ Hs Hb0) as (i & Ei & Hi). destruct bsize_pos as (_ & EB & _).
  destruct (f_next (v_fs f) i Hs Ei) as (s1 & E1 & K1 & K2 & K3 & K4).
  assert (f_ids s1 !! f_cur s1 = Some i) as Ei1 by (rewrite K3, K4; exact Ei).
  destruct (f_write s1 i (f_cur s1) b K1 Ei1) as (s' & E & H1 & H2 & H3 & H4); [lia|].
  unfold write_next, vfs_get_data_block. cbn [negb]. rewrite E1, Ret_bind, ret_bind, (proj2 (Z.eqb_neq i 0) Hi).
  exists s1, i, s'. split; [done|]. split; [done|].
  split; unfold cur; cbn [set_fs v_fs]; try done; [by rewrite H2, K4, K2|congruence|congruence].
Qed.

Lemma write_blocks_spec n : forall f m buffer, f_ok (v_fs f) -> buffer_size f = Z.of_nat bsize -> (cur f + n < nblocks f)%nat ->
  exists f' cs, write_blocks n f false m buffer = Ret (f', false, buffer + Z.of_nat (n * bsize), 0) /\
    length cs = n /\ Forall (fun b => length b = bsize) cs /\ concat cs = read_bytes m buffer (n * bsize) /\
    data_buffer f' = data_buffer f /\
    wrote_blocks f f' (cur f + n)
      (take (S (cur f)) (f_blocks (v_fs f)) ++ cs ++ drop (S (cur f) + n) (f_blocks (v_fs f))).
Proof.
  induction n as [|n IH]; intros f m buffer Hs Hbs Hn.
  - exists f, []. simpl. rewrite Z.add_0_r, !Nat.add_0_r. split_and!; try done.
    split; try done. change (drop (S (cur f)) _) with (drop (S (cur f)) (f_blocks (v_fs f))). by rewrite take_drop.
  - set (b := read_bytes m buffer bsize). assert (length b = bsize) as Hl by apply length_read_bytes.
    destruct (write_one f b Hs ltac:(lia) Hl) as (s1 & i & s2 & E & E2 & W).
    cbn [write_blocks]. rewrite E, Ret_bind. unfold __vfs_write_block. cbn [set_fs v_fs buffer_size]. rewrite Hbs, Nat2Z.id. fold b.
    rewrite E2. cbn [Z.eqb negb]. change (set_fs (set_fs f s1) s2) with (set_fs f s2). pose proof W as [w1 w2 w3 w4 w5].
    cbn [set_fs buffer_size]. rewrite Hbs.
    destruct (IH (set_fs f s2) m (buffer + Z.of_nat bsize)) as (f' & cs & E' & L & F & C & D & W');
      [done|done|unfold nblocks; rewrite w2, w4, length_insert; fold (nblocks f); lia|].
    cbn [set_fs v_fs buffer_size offset rw_pos data_size data_buffer current_block blk_cnt ftype] in E' |- *. fold (set_fs f s2).
    rewrite E'. exists f', (b :: cs). split; [do 3 f_equal; lia|]. split; [simpl; lia|]. split; [by constructor|].
    split; [simpl; rewrite C; unfold b; by rewrite <- read_bytes_app|]. split; [done|].
    replace (cur f + S n)%nat with (cur (set_fs f s2) + n)%nat by (rewrite w4; lia).
    eapply wrote_blocks_trans; [exact W|]. rewrite w2, w4 in W'. rewrite w4.
    replace (take (S (cur f)) (f_blocks (v_fs f)) ++ (b :: cs) ++ drop (S (cur f) + S n) (f_blocks (v_fs f))) with
      (take (S (S (cur f))) (<[S (cur f) := b]> (f_blocks (v_fs f))) ++ cs ++
       drop (S (S (cur f)) + n) (<[S (cur f) := b]> (f_blocks (v_fs f)))); [exact W'|].
    rewrite (take_S_r _ _ b) by (apply list_lookup_insert_eq; unfold nblocks in Hn; lia).
    rewrite take_insert_ge, drop_insert_lt by lia. rewrite <- app_assoc. simpl. do 4 f_equal. lia.
Qed.

Lemma prefix_split (bs : list (list Z)) c b p : Forall (fun b => length b = bsize) bs -> bs !! c = Some b -> (p <= bsize)%nat ->
  take (c * bsize + p) (concat bs) = concat (take c bs) ++ take p b.
Proof.
  intros Hb Hc Hp. pose proof (lookup_lt_Some _ _ _ Hc) as Hlt.
  rewrite <- (take_concat bsize) by (done || lia). rewrite <- take_take_drop. f_equal.
  rewrite (drop_concat bsize) by (done || lia). rewrite (drop_S _ _ _ Hc). cbn [concat].
  assert (length b = bsize) by exact (Forall_lookup_1 _ _ _ _ Hb Hc). by rewrite take_app_le by lia.
Qed.

(** Bytes up to the end of a write: old blocks, the patched one, whole new ones, and [l]
    bytes of what follows. *)
Lemma written_bytes (bs cs : list (list Z)) c b y l :
  Forall (fun b => length b = bsize) bs -> (c <= length bs)%nat -> length b = bsize -> Forall (fun b => length b = bsize) cs ->
  take (c * bsize + bsize + length cs * bsize + l) (concat (take c bs ++ [b] ++ cs ++ y)) =
    concat (take c bs) ++ b ++ concat cs ++ take l (concat y).
Proof.
  intros Hb Hc Hl Hcs. rewrite !concat_app. cbn [concat]. rewrite app_nil_r.
  assert (length (concat (take c bs)) = c * bsize)%nat as E1.
  { rewrite (length_concat_blocks bsize) by (by apply Forall_take). by rewrite length_take_le by lia. }
  assert (length (concat cs) = length cs * bsize)%nat as E2 by (by apply length_concat_blocks).
  replace (c * bsize + bsize + length cs * bsize + l)%nat with
    (length (concat (take c bs)) + (length b + (length (concat cs) + l)))%nat by lia.
  by rewrite !take_app_add.
Qed.

Lemma length_patch b pos d : 0 <= pos -> (Z.to_nat pos + length d <= length b)%nat -> length (patch b pos d) = length b.
Proof. intros Hp Hd. unfold patch. rewrite !length_app, length_take_le, length_drop by lia. lia. Qed.

(** What a write leaves: the bytes before it and the new ones, and nothing behind them. *)
Definition written (f f' : vfile FS) (data : list Z) : Prop :=
  f_ok (v_fs f') /\ f_ids (v_fs f') = f_ids (v_fs f) /\ data_size f' = offset f + Z.of_nat (length data) /\
  offset f' = data_size f' /\
  take (Z.to_nat (data_size f')) (bytes f') = take (Z.to_nat (offset f)) (bytes f) ++ data /\
  (data_size f' mod Z.of_nat bsize <> 0 -> vinv f').

(** A write inside the block. *)
Lemma vfs_write_inside f m buffer size : vinv f -> 0 < size -> rw_pos f + size < Z.of_nat bsize ->
  exists f', vfs_write f m buffer size = Ret (f', 0) /\ written f f' (read_bytes m buffer (Z.to_nat size)).
Proof.
  intros V Hs Hin. pose proof V as [V1 V2 V3 V4 V5 V6]. pose proof (lookup_lt_Some _ _ _ V5) as Hc. fold (nblocks f) in Hc.
  pose proof (blocks_len _ V1) as Hb. assert (length (data_buffer f) = bsize) as Hl by exact (Forall_lookup_1 _ _ _ _ Hb V5).
  set (d := read_bytes m buffer (Z.to_nat size)). assert (length d = Z.to_nat size) as Hd by apply length_read_bytes.
  set (b := patch (data_buffer f) (rw_pos f) d). assert (length b = bsize) as Hlb by (unfold b; rewrite length_patch; lia).
  assert (offset f + size <= Z.of_nat (nblocks f * bsize)) as Hfit by nia.
  unfold vfs_write. rewrite V2, (proj2 (Z.ltb_lt size (Z.of_nat bsize - rw_pos f))) by lia.
  rewrite (proj2 (Z.ltb_ge (Z.of_nat bsize) (rw_pos f + size))) by lia. fold d b.
  destruct (write_current (set_buffer f b) b V1 Hc Hlb) as (f1 & E & W & D). cbn [set_buffer data_buffer] in E |- *.
  fold (set_buffer f b). rewrite E, Ret_bind. change (Z.to_nat 0) with 0%nat. cbn [Z.eqb negb write_blocks]. rewrite !ret_bind. cbn [Z.eqb negb]. pose proof W as [w1 w2 w3 w4 (e1 & e2 & e3 & e4 & e5)].
  cbn [set_buffer v_fs offset rw_pos data_size buffer_size ftype] in w2, w3, e1, e2, e3, e4, e5.
  rewrite e1, s32_small, Z.rem_small by lia. eexists. split; [done|]. unfold written, bytes, cur, nblocks in *.
  cbn [set_pos set_size set_buffer v_fs offset rw_pos data_size buffer_size ftype data_buffer] in *.
  rewrite Hd, Z2Nat.id by lia. split; [done|]. split; [done|]. split; [done|]. split; [done|]. split.
  - rewrite w2, insert_take_drop by done. rewrite V4.
    replace (Z.to_nat (Z.of_nat (f_cur (v_fs f) * bsize) + rw_pos f + size)) with
      (f_cur (v_fs f) * bsize + (Z.to_nat (rw_pos f) + Z.to_nat size))%nat by lia.
    replace (Z.to_nat (Z.of_nat (f_cur (v_fs f) * bsize) + rw_pos f)) with (f_cur (v_fs f) * bsize + Z.to_nat (rw_pos f))%nat by lia.
    rewrite (prefix_split _ _ _ (Z.to_nat (rw_pos f)) Hb V5) by lia. rewrite <- insert_take_drop by done.
    rewrite (prefix_split _ (f_cur (v_fs f)) b (Z.to_nat (rw_pos f) + Z.to_nat size));
      [|rewrite <- w2; by apply blocks_len|by apply list_lookup_insert_eq|lia].
    rewrite take_insert_ge, <- app_assoc by lia. f_equal. unfold b, patch.
    rewrite take_app_add' by (rewrite length_take_le; lia). f_equal. by rewrite take_app_length'.
  - intros _. split; unfold cur, nblocks; cbn [set_pos set_size v_fs offset rw_pos data_size buffer_size data_buffer]; try done.
    + congruence.
    + lia.
    + rewrite w4. lia.
    + rewrite w2, w4, D. by apply list_lookup_insert_eq.
    + rewrite w2, length_insert. lia.
Qed.

(** The bytes after a write that leaves the first block. *)
Lemma across_bytes (bs cs y : list (list Z)) m buffer c b0 p l :
  Forall (fun b => length b = bsize) bs -> bs !! c = Some b0 -> (p <= bsize)%nat -> Forall (fun b => length b = bsize) cs ->
  concat cs = read_bytes m (buffer + Z.of_nat (bsize - p)) (length cs * bsize) ->
  take l (concat y) = read_bytes m (buffer + Z.of_nat (bsize - p + length cs * bsize)) l ->
  take (c * bsize + bsize + length cs * bsize + l)
    (concat (take c bs ++ [take p b0 ++ read_bytes m buffer (bsize - p)] ++ cs ++ y)) =
  take (c * bsize + p) (concat bs) ++ read_bytes m buffer (bsize - p + length cs * bsize + l).
Proof.
  intros Hb Hc Hp Hcs Ec El. pose proof (lookup_lt_Some _ _ _ Hc).
  assert (length b0 = bsize) by exact (Forall_lookup_1 _ _ _ _ Hb Hc).
  rewrite written_bytes; [|done|lia|rewrite length_app, length_take_le, length_read_bytes; lia|done].
  rewrite (prefix_split bs c b0 p Hb Hc Hp), <- !app_assoc. do 2 f_equal.
  rewrite read_bytes_app, read_bytes_app, Ec, El, <- app_assoc. done.
Qed.

(** The blocks after the first one and [n] more were written. *)
Lemma spliced (bs cs : list (list Z)) c b n : (c < length bs)%nat ->
  take (S c) (<[c := b]> bs) ++ cs ++ drop (S c + n) (<[c := b]> bs) = take c bs ++ [b] ++ cs ++ drop (S c + n) bs.
Proof.
  intros Hc. rewrite (take_S_r _ _ b) by (by apply list_lookup_insert_eq).
  by rewrite take_insert_ge, drop_insert_lt, <- app_assoc by lia.
Qed.

(** The first block and the [n] whole ones. *)
Lemma write_first f m buffer n : vinv f -> (cur f + n < nblocks f)%nat ->
  let p := Z.to_nat (rw_pos f) in
  let b := take p (data_buffer f) ++ read_bytes m buffer (bsize - p) in
  exists f1 f2 cs,
    vfs_write_block (set_buffer f (patch (data_buffer f) (rw_pos f) (read_bytes m buffer (bsize - p))))
      (patch (data_buffer f) (rw_pos f) (read_bytes m buffer (bsize - p))) VFS_CURRENT_BLOCK = Ret (f1, 0) /\
    write_blocks n f1 false m (buffer + Z.of_nat (bsize - p)) =
      Ret (f2, false, buffer + Z.of_nat (bsize - p) + Z.of_nat (n * bsize), 0) /\
    length cs = n /\ Forall (fun b => length b = bsize) cs /\
    concat cs = read_bytes m (buffer + Z.of_nat (bsize - p)) (n * bsize) /\ data_buffer f2 = b /\
    wrote_blocks f f2 (cur f + n) (take (cur f) (f_blocks (v_fs f)) ++ [b] ++ cs ++ drop (S (cur f) + n) (f_blocks (v_fs f))).
Proof.
  intros V Hn p b. pose proof V as [V1 V2 V3 V4 V5 V6]. pose proof (blocks_len _ V1) as Hb.
  assert (length (data_buffer f) = bsize) as Hl by exact (Forall_lookup_1 _ _ _ _ Hb V5).
  assert (patch (data_buffer f) (rw_pos f) (read_bytes m buffer (bsize - p)) = b) as ->.
  { unfold patch. rewrite length_read_bytes, drop_ge by lia. by rewrite app_nil_r. }
  assert (length b = bsize) as Hlb by (unfold b; rewrite length_app, length_take_le, length_read_bytes; lia).
  assert (cur f < nblocks f)%nat as Hc by lia.
  destruct (write_current (set_buffer f b) b V1 Hc Hlb) as (f1 & E & W & D). pose proof W as [w1 w2 w3 w4 (e1 & e2 & e3 & e4 & e5)].
  change (cur (set_buffer f b)) with (cur f) in *. change (v_fs (set_buffer f b)) with (v_fs f) in *.
  assert (nblocks f1 = nblocks f) as En by (unfold nblocks; by rewrite w2, length_insert).
  destruct (write_blocks_spec n f1 m (buffer + Z.of_nat (bsize - p)) w1) as (f2 & cs & E2 & L & F & C & D2 & W2);
    [rewrite e4; exact V2|rewrite w4, En; done|].
  exists f1, f2, cs. split; [done|]. split; [done|]. split; [done|]. split; [done|]. split; [done|].
  split; [by rewrite D2, D|]. rewrite w2, w4, spliced in W2 by done. rewrite <- w4 at 1. rewrite w4.
  destruct W2 as [x1 x2 x3 x4 (y1 & y2 & y3 & y4 & y5)]. split; try done; [congruence|].
  rewrite y1, y2, y3, y4, y5, e1, e2, e3, e4, e5. done.
Qed.

(** Moving on to [data_size = offset + size]. *)
Lemma written_intro f f2 c bs blk size pos d :
  vinv f -> wrote_blocks f f2 c bs -> length bs = nblocks f -> Z.of_nat (length d) = size ->
  0 <= offset f + size <= Z.of_nat (nblocks f * bsize) ->
  take (Z.to_nat (offset f + size)) (concat bs) = take (Z.to_nat (offset f)) (bytes f) ++ d ->
  ((offset f + size) mod Z.of_nat bsize <> 0 ->
     0 <= pos < Z.of_nat bsize /\ offset f + size = Z.of_nat (c * bsize) + pos /\ bs !! c = Some (data_buffer f2)) ->
  written f (set_pos (set_size f2 (offset f + size) blk) (offset f + size) pos) d.
Proof.
  intros V [w1 w2 w3 w4 (e1 & e2 & e3 & e4 & e5)] Hl Hd Hfit Hby Hv. unfold written, bytes.
  cbn [set_pos set_size v_fs offset rw_pos data_size buffer_size data_buffer]. rewrite Hd, w2.
  do 5 (split; [done|]). intros Hm. destruct (Hv Hm) as (H1 & H2 & H3).
  split; unfold cur, nblocks in *; cbn [set_pos set_size v_fs offset rw_pos data_size buffer_size data_buffer]; try done.
  - rewrite e4. apply V.
  - by rewrite w4.
  - by rewrite w2, w4.
  - rewrite w2, Hl. split; [done|]. apply V.
Qed.

(** The last part of a write, in a block of its own. *)
Lemma write_last f f2 m buffer n l cs b :
  vinv f -> wrote_blocks f f2 (cur f + n) (take (cur f) (f_blocks (v_fs f)) ++ [b] ++ cs ++ drop (S (cur f) + n) (f_blocks (v_fs f))) ->
  length cs = n -> data_buffer f2 = b -> length b = bsize -> (l < bsize)%nat -> (cur f + S n < nblocks f)%nat ->
  let last := patch b 0 (read_bytes m buffer l) in
  exists s1 i s', write_next f2 false = Ret (set_fs f2 s1, false, inl i) /\ write_block s1 last i = (s', 0) /\
    wrote_blocks f (set_fs f2 s') (cur f + S n)
      (take (cur f) (f_blocks (v_fs f)) ++ [b] ++ cs ++ last :: drop (S (cur f) + S n) (f_blocks (v_fs f))).
Proof.
  intros V W L D Hlb Hl Hn last. pose proof W as [w1 w2 w3 w4 w5].
  assert (length (take (cur f) (f_blocks (v_fs f))) = cur f) as Ht by (rewrite length_take_le; unfold nblocks in Hn; lia).
  assert (nblocks f2 = nblocks f) as En.
  { unfold nblocks in *. rewrite w2, !length_app, Ht, length_drop. simpl. lia. }
  destruct (write_one f2 last w1) as (s1 & i & s' & E1 & E2 & W2);
    [rewrite w4, En; lia|unfold last; rewrite length_patch; rewrite ?length_read_bytes; lia|].
  exists s1, i, s'. split; [done|]. split; [done|].
  replace (cur f + S n)%nat with (S (cur f2)) by lia. eapply wrote_blocks_trans; [exact W|].
  replace (take (cur f) (f_blocks (v_fs f)) ++ [b] ++ cs ++ last :: drop (S (cur f) + S n) (f_blocks (v_fs f)))
    with (<[S (cur f2) := last]> (f_blocks (v_fs f2))); [exact W2|].
  rewrite w2, w4. destruct (lookup_lt_is_Some_2 (f_blocks (v_fs f)) (cur f + S n)%nat Hn) as [y Hy].
  replace (S (cur f) + n)%nat with (cur f + S n)%nat by lia. rewrite (drop_S _ _ _ Hy).
  replace (S (cur f + n)) with (length (take (cur f) (f_blocks (v_fs f)) ++ [b] ++ cs) + 0)%nat
    by (rewrite !length_app, Ht; simpl; lia).
  rewrite !(app_assoc [b]), !(app_assoc (take _ _)). rewrite insert_app_r. simpl. do 2 f_equal. 
Qed.

Lemma wrote_buffer f g c bs b : wrote_blocks f g c bs -> wrote_blocks f (set_buffer g b) c bs.
Proof. by intros []; split. Qed.

(** A write that leaves the first block: [n] whole blocks and [l] bytes more. *)
Lemma split_size f size : vinv f -> 0 < size -> Z.of_nat bsize <= rw_pos f + size ->
  offset f + size <= Z.of_nat (nblocks f * bsize) ->
  let B := Z.of_nat bsize in let p := Z.to_nat (rw_pos f) in
  exists n l : nat, Z.quot (size - (B - rw_pos f)) B = Z.of_nat n /\ Z.rem (size - (B - rw_pos f)) B = Z.of_nat l /\
    B - rw_pos f = Z.of_nat (bsize - p) /\ (p <= bsize)%nat /\ (l < bsize)%nat /\ Z.to_nat size = (bsize - p + n * bsize + l)%nat /\
    Z.to_nat (offset f) = (cur f * bsize + p)%nat /\ offset f + size = Z.of_nat ((cur f + S n) * bsize) + Z.of_nat l /\
    (cur f + n < nblocks f)%nat /\ (l <> 0%nat -> (cur f + S n < nblocks f)%nat) /\ Z.rem (rw_pos f + size) B = Z.of_nat l.
Proof.
  intros V Hs Hout Hfit B p. pose proof V as [V1 V2 V3 V4 V5 V6]. destruct bsize_pos as (HB & _).
  assert (0 < B) as HB' by lia. set (d := size - (B - rw_pos f)). assert (0 <= d) as Hd by (unfold d; lia).
  rewrite Z.quot_div_nonneg, Z.rem_mod_nonneg by lia.
  pose proof (Z.div_mod d B ltac:(lia)) as Ed. pose proof (Z.mod_pos_bound d B HB') as Hr.
  assert (0 <= d / B) as Hq by (apply Z.div_pos; lia).
  exists (Z.to_nat (d / B)), (Z.to_nat (d mod B)). set (n := Z.to_nat (d / B)). set (l := Z.to_nat (d mod B)).
  assert (d / B = Z.of_nat n /\ d mod B = Z.of_nat l) as [En El] by lia. rewrite En, El in Ed |- *.
  assert (d = Z.of_nat (n * bsize + l)) as Ed' by lia.
  assert (offset f + size = Z.of_nat ((cur f + S n) * bsize) + Z.of_nat l) as Eo by (rewrite V4; unfold d in Ed'; lia).
  assert (((cur f + S n) * bsize + l <= nblocks f * bsize)%nat) as Hle by lia.
  split_and!; try done; try lia.
  - clear - Hle HB. destruct (decide (nblocks f <= cur f + n)%nat) as [Hc|]; [|lia].
    assert (nblocks f * bsize <= (cur f + n) * bsize)%nat by (by apply Nat.mul_le_mono_r). lia.
  - intros Hl. clear - Hle HB Hl. destruct (decide (nblocks f <= cur f + S n)%nat) as [Hc|]; [|lia].
    assert (nblocks f * bsize <= (cur f + S n) * bsize)%nat by (by apply Nat.mul_le_mono_r). lia.
  - rewrite Z.rem_mod_nonneg by lia. rewrite <- El. replace (rw_pos f + size) with (d + 1 * B) by (unfold d; lia).
    by rewrite Z.mod_add by lia.
Qed.

Lemma vfs_write_across f m buffer size : vinv f -> 0 < size -> Z.of_nat bsize <= rw_pos f + size ->
  offset f + size <= Z.of_nat (nblocks f * bsize) ->
  exists f', vfs_write f m buffer size = Ret (f', 0) /\ written f f' (read_bytes m buffer (Z.to_nat size)).
Proof.
  intros V Hs Hout Hfit. pose proof V as [V1 V2 V3 V4 V5 V6]. destruct bsize_pos as (HB & _).
  pose proof (blocks_len _ V1) as Hb. assert (length (data_buffer f) = bsize) as Hlb by exact (Forall_lookup_1 _ _ _ _ Hb V5).
  destruct (split_size f size V Hs Hout Hfit) as (n & l & Eq & Er & Ep & Hp & Hl & Esz & Eof & Eo & Hn & Hnl & Erem).
  set (p := Z.to_nat (rw_pos f)) in *. unfold vfs_write. rewrite V2.
  rewrite (proj2 (Z.ltb_ge size _)), (proj2 (Z.ltb_ge _ (rw_pos f + (Z.of_nat bsize - rw_pos f)))) by lia.
  rewrite Eq, Er, Erem, Ep, !Nat2Z.id.
  destruct (write_first f m buffer n V Hn) as (f1 & f2 & cs & E1 & E2 & L & F & C & D & W). fold p in E1, E2, C, D, W.
  cbn [set_buffer data_buffer]. fold (set_buffer f (patch (data_buffer f) (rw_pos f) (read_bytes m buffer (bsize - p)))).
  rewrite E1, Ret_bind. cbn [Z.eqb negb]. rewrite E2, Ret_bind. cbn [Z.eqb negb].
  set (b := take p (data_buffer f) ++ read_bytes m buffer (bsize - p)) in *.
  assert (length (take (cur f) (f_blocks (v_fs f))) = cur f) as Ht by (rewrite length_take_le; unfold nblocks in *; lia).
  assert (Z.of_nat (length (read_bytes m buffer (Z.to_nat size))) = size) as Hlr by (rewrite length_read_bytes; lia).
  assert (forall y, take l (concat y) = read_bytes m (buffer + Z.of_nat (bsize - p + length cs * bsize)) l ->
    take (Z.to_nat (offset f + size)) (concat (take (cur f) (f_blocks (v_fs f)) ++ [b] ++ cs ++ y)) =
    take (Z.to_nat (offset f)) (bytes f) ++ read_bytes m buffer (Z.to_nat size)) as Hby.
  { intros y Hy. rewrite Eo, Eof, Esz, <- L. unfold bytes.
    replace (Z.to_nat _) with (cur f * bsize + bsize + length cs * bsize + l)%nat by lia. apply across_bytes; try done. by rewrite L. }
  pose proof (wb_rest _ _ _ _ W) as (e1 & _). destruct (Z.eqb_spec (Z.of_nat l) 0) as [E0|E0]; cbn [negb].
  - rewrite ret_bind. cbn [Z.eqb negb]. rewrite e1, s32_small by lia. eexists. split; [done|].
    eapply written_intro; [done|exact W| |done|lia| |].
    + rewrite !length_app, Ht, length_drop. unfold nblocks in *. simpl. lia.
    + apply Hby. by replace l with 0%nat by lia.
    + intros Hm. exfalso. apply Hm. rewrite Eo, E0, Z.add_0_r, Nat2Z.inj_mul. apply Z.mod_mul. lia.
  - assert (length b = bsize) as Hlen by (unfold b; rewrite length_app, length_take_le, length_read_bytes; lia).
    destruct (write_last f f2 m (buffer + Z.of_nat (bsize - p) + Z.of_nat (n * bsize)) n l cs b V W L D Hlen Hl) as (s1 & i & s' & N & E3 & W'); [lia|].
    rewrite N, Ret_bind. unfold __vfs_write_block. cbn [set_buffer set_fs data_buffer v_fs]. rewrite D, E3, ret_bind. cbn [Z.eqb negb].
    set (dl := read_bytes m (buffer + Z.of_nat (bsize - p) + Z.of_nat (n * bsize)) l) in *. change (set_fs (set_buffer (set_fs f2 s1) (patch b 0 dl)) s') with (set_buffer (set_fs f2 s') (patch b 0 dl)).
    change (offset (set_buffer (set_fs f2 s') (patch b 0 dl))) with (offset f2). rewrite e1, s32_small by lia. eexists. split; [done|].
    eapply written_intro; [done|apply wrote_buffer, W'| |done|lia| |].
    + rewrite !length_app, Ht. cbn [length]. rewrite length_drop. unfold nblocks in *. lia.
    + apply Hby. cbn [concat]. unfold patch. change (Z.to_nat 0) with 0%nat. rewrite take_0, app_nil_l, <- app_assoc.
      rewrite take_app_length' by (symmetry; apply length_read_bytes). unfold dl. f_equal. rewrite L. lia.
    + intros _. split; [lia|]. split; [done|]. cbn [set_buffer data_buffer].
      rewrite (app_assoc [b]), (app_assoc (take _ _)). apply list_lookup_middle. rewrite !length_app, Ht. simpl. lia.
Qed.

Lemma vfs_write_spec f m buffer size : vinv f -> 0 < size -> offset f + size <= Z.of_nat (nblocks f * bsize) ->
  exists f', vfs_write f m buffer size = Ret (f', 0) /\ written f f' (read_bytes m buffer (Z.to_nat size)).
Proof.
  intros. destruct (decide (rw_pos f + size < Z.of_nat bsize)).
  - by apply vfs_write_inside.
  - apply vfs_write_across; try done. lia.
Qed.
End Files.
