(* ===== verification/Lmfs.v ===== *)
(** * The file system LMFS (fs/lmfs.c)

    A block is eight sectors of the disk.  [lmfs_fnode] is the
    private part of an open file: the table of its blocks is the page [lvl1] of 1024 words.
    [lmfs_super_block] has the two pools of free numbers, each a stack whose top part is
    in memory and whose full blocks are on the disk. *)

From S2P Require Import Prelude CString Disk Vfs.

(** ** Words of a block *)

Fixpoint le_words (b : list Z) : list Z :=
  match b with
  | x0 :: x1 :: x2 :: x3 :: b => (x0 + 256 * x1 + 65536 * x2 + 16777216 * x3) :: le_words b
  | _ => []
  end.
Definition word_bytes (w : Z) : list Z := [w mod 256; w / 256 mod 256; w / 65536 mod 256; w / 16777216 mod 256].
Definition le_bytes (ws : list Z) : list Z := concat (map word_bytes ws).

Definition word_at (ws : list Z) (i : Z) : Z := default 0 (ws !! Z.to_nat i).

(** ** Data *)

Record lmfs_super_block := LmfsSb {
  ib_pool_current_block : Z;
  ib_pool_pos : Z;
  db_pool_start_block : Z;
  db_pool_current_block : Z;
  db_pool_pos : Z;
  fnode_start_block : Z;
  fnode_free : Z;
  data_free_blocks : Z;
  ib_pool : list Z;
  db_pool : list Z }.

(** [lvl0_off] is the place of [lvl0] in [data_block]: 0, or 32 behind the bitmap of a
    directory. *)
Record lmfs_fnode := LmfsFnode {
  fnode_index : Z;
  lvl1 : list Z;
  data_block : list Z;
  lvl0_off : Z;
  pos_in_lvl1 : Z;
  pos_in_lvl0 : Z;
  l_current_block : Z;
  block_count : Z;
  file_nr : Z }.

Record lmfs_st := LmfsSt {
  ldisk : sectors;
  lbdev : bdev;
  lsb : lmfs_super_block;
  lnode : lmfs_fnode }.

Definition set_disk (s : lmfs_st) (d : sectors) : lmfs_st := LmfsSt d (lbdev s) (lsb s) (lnode s).
Definition set_sb (s : lmfs_st) (b : lmfs_super_block) : lmfs_st := LmfsSt (ldisk s) (lbdev s) b (lnode s).
Definition set_node (s : lmfs_st) (n : lmfs_fnode) : lmfs_st := LmfsSt (ldisk s) (lbdev s) (lsb s) n.

(** ** Blocks *)

Definition lmfs_read_block (s : lmfs_st) (block : Z) : list Z + Z := read_sectors (ldisk s) (lbdev s) (u32 (block * 8)) 8.
Definition lmfs_write_block (s : lmfs_st) (b : list Z) (block : Z) : lmfs_st * Z :=
  let '(d, err) := write_sectors (ldisk s) (lbdev s) b (u32 (block * 8)) 8 in (set_disk s d, err).

(** ** Pools of free numbers *)

Definition sb_ib (b : lmfs_super_block) (blk pos free : Z) (pool : list Z) : lmfs_super_block :=
  LmfsSb blk pos (db_pool_start_block b) (db_pool_current_block b) (db_pool_pos b) (fnode_start_block b) free
    (data_free_blocks b) pool (db_pool b).
Definition sb_db (b : lmfs_super_block) (blk pos : Z) (pool : list Z) : lmfs_super_block :=
  LmfsSb (ib_pool_current_block b) (ib_pool_pos b) (db_pool_start_block b) blk pos (fnode_start_block b)
    (fnode_free b) (data_free_blocks b) (ib_pool b) pool.

(** The step down in a pool: the new block, position and page; [None] on a read error. *)
Definition pool_down (s : lmfs_st) (start blk pos : Z) (pool : list Z) : option (Z * Z * list Z) :=
  if pos =? 0 then
    let blk := u32 (blk - 1) in
    if start <=? blk then
      match lmfs_read_block s blk with inl b => Some (blk, 1023, le_words b) | inr _ => None end
    else Some (blk, 1023, pool)
  else Some (blk, pos - 1, pool).

(** The step up, which writes a full page to the disk. *)
Definition pool_up (s : lmfs_st) (blk pos : Z) (pool : list Z) (v : Z) : option (lmfs_st * Z * Z * list Z) :=
  let pos := pos + 1 in
  if pos =? 1024 then
    match lmfs_write_block s (le_bytes pool) blk with
    | (s, 0) => Some (s, u32 (blk + 1), 0, <[0%nat := v]> pool)
    | (_, _) => None
    end
  else Some (s, blk, pos, <[Z.to_nat pos := v]> pool).

(** The start block tested is the one of the other pool. *)
Definition lmfs_pop_fnode (s : lmfs_st) : lmfs_st * Z :=
  let b := lsb s in
  if fnode_free b =? 0 then (s, 0)
  else
    match pool_down s (db_pool_start_block b) (ib_pool_current_block b) (ib_pool_pos b) (ib_pool b) with
    | None => (s, 0)
    | Some (blk, pos, pool) =>
      (set_sb s (sb_ib b blk pos (u32 (fnode_free b - 1)) pool), word_at (ib_pool b) (ib_pool_pos b))
    end.

Definition lmfs_push_fnode (s : lmfs_st) (index : Z) : lmfs_st * Z :=
  let b := lsb s in
  if index =? 0 then (s, 0)
  else
    match pool_up s (ib_pool_current_block b) (ib_pool_pos b) (ib_pool b) index with
    | None => (s, u32 (- EIO))
    | Some (s, blk, pos, pool) => (set_sb s (sb_ib b blk pos (u32 (fnode_free b + 1)) pool), 0)
    end.

Definition lmfs_pop_block (s : lmfs_st) : lmfs_st * Z :=
  let b := lsb s in
  if data_free_blocks b =? 0 then (s, 0)
  else
    match pool_down s (db_pool_start_block b) (db_pool_current_block b) (db_pool_pos b) (db_pool b) with
    | None => (s, 0)
    | Some (blk, pos, pool) => (set_sb s (sb_db b blk pos pool), word_at (db_pool b) (db_pool_pos b))
    end.

Definition lmfs_push_block (s : lmfs_st) (block : Z) : lmfs_st * Z :=
  let b := lsb s in
  if block =? 0 then (s, - EINVAL)
  else
    match pool_up s (db_pool_current_block b) (db_pool_pos b) (db_pool b) block with
    | None => (s, - EIO)
    | Some (s, blk, pos, pool) => (set_sb s (sb_db b blk pos pool), 0)
    end.

(** ** Blocks of a file *)

Definition node_lvl1 (n : lmfs_fnode) (p0 p1 cur : Z) (l : list Z) : lmfs_fnode :=
  LmfsFnode (fnode_index n) l (data_block n) (lvl0_off n) p1 p0 cur (block_count n) (file_nr n).

(** A table that is full is only replaced when [pos_in_lvl0] is 64 at the same time;
    otherwise the entry goes behind the page. *)
Definition lmfs_get_new_block (s : lmfs_st) : outcome (lmfs_st * Z) :=
  let n := lnode s in
  let pos1 := pos_in_lvl0 n in
  let pos2 := pos_in_lvl1 n in
  let '(s, new_block) := lmfs_pop_block s in
  if new_block =? 0 then mret (s, u32 (- ENOSPC))
  else if (pos2 =? 1024) && (pos1 =? 64) then
    let '(s, new_level1) := lmfs_pop_block s in
    if new_level1 =? 0 then let '(s, _) := lmfs_push_block s new_block in mret (s, 0)
    else
      let '(s, err) := lmfs_write_block s (le_bytes (lvl1 n)) pos1 in
      if negb (err =? 0) then
        let '(s, _) := lmfs_push_block s new_level1 in
        let '(s, _) := lmfs_push_block s new_block in mret (s, 0)
      else Fault
  else if pos2 <? 1024 then
    let n := node_lvl1 n pos1 (pos2 + 1) (l_current_block n) (<[Z.to_nat pos2 := new_block]> (lvl1 n)) in
    let '(s, _) := lmfs_write_block (set_node s n) (le_bytes (lvl1 n)) pos1 in
    mret (s, new_block)
  else Fault.

(** The tables of the blocks are looked up in [lvl1], where the code means [lvl0]. *)
Definition lmfs_get_data_block (s : lmfs_st) (whence : Z) : lmfs_st * Z :=
  let n := lnode s in
  let pos := pos_in_lvl0 n in
  let pos_db := pos_in_lvl1 n in
  let move p0 p1 l := let n := node_lvl1 n p0 p1 (word_at l p1) l in (set_node s n, l_current_block n) in
  let load blk p0 p1 := match lmfs_read_block s blk with inl b => move p0 p1 (le_words b) | inr _ => (s, 0) end in
  if whence =? VFS_START_BLOCK then
    if (pos =? 0) && (pos_db =? 0) then (s, l_current_block n) else load (word_at (lvl1 n) 0) 0 0
  else if whence =? VFS_CURRENT_BLOCK then (s, l_current_block n)
  else if whence =? VFS_NEXT_BLOCK then
    if pos_db =? 1023 then
      if word_at (lvl1 n) (pos + 1) =? 0 then (s, 0) else load (word_at (lvl1 n) (pos + 1)) (pos + 1) 0
    else move pos (pos_db + 1) (lvl1 n)
  else if whence =? VFS_PREV_BLOCK then
    if pos_db =? 0 then
      if pos =? 0 then (s, 0) else load (word_at (lvl1 n) (pos - 1)) (pos - 1) 1023
    else move pos (pos_db - 1) (lvl1 n)
  else (s, 0).

(** With a block given, the variable [block] that is pushed is still 0. *)
Fixpoint free_blocks_loop (fuel : nat) (s : lmfs_st) (block : Z) : outcome lmfs_st :=
  if block =? 0 then mret s
  else
    match fuel with
    | O => NoFuel
    | S fuel =>
      let '(s, _) := lmfs_push_block s block in
      let '(s, block) := lmfs_get_data_block s VFS_NEXT_BLOCK in
      free_blocks_loop fuel s block
    end.
Definition lmfs_free_block (fuel : nat) (s : lmfs_st) (blk : Z) : outcome lmfs_st :=
  if blk =? 0 then
    let '(s, block) := lmfs_get_data_block s VFS_START_BLOCK in free_blocks_loop fuel s block
  else mret (fst (lmfs_push_block s 0)).

(** ** Entries on the disk *)

(** A [struct lmfs_fnode_entry] of 128 words. *)
Definition entry_words (b : list Z) (j : Z) : list Z := take 128 (drop (Z.to_nat (128 * j)) (le_words b)).

Definition fnode_location (s : lmfs_st) (index : Z) : Z * Z :=
  (u32 (index / 8 + fnode_start_block (lsb s)), index mod 8).

Definition init_data_block_info (s : lmfs_st) (index fnr : Z) (e : list Z) : lmfs_st * Z :=
  let blocks := drop 64 e in
  let off := if word_at e 2 =? DT_BLK then 0 else 32 in
  let n := lnode s in
  match lmfs_read_block s (word_at blocks off) with
  | inr err => (set_node s (LmfsFnode index (lvl1 n) blocks off 0 0 (l_current_block n) (word_at e 9) fnr), err)
  | inl b =>
    let l := le_words b in
    (set_node s (LmfsFnode index l blocks off 0 0 (word_at l 0) (word_at e 9) fnr), 0)
  end.

Definition lmfs_fill_fnode (s : lmfs_st) (index : Z) : lmfs_st * option fattr * Z :=
  let '(i, j) := fnode_location s index in
  if (i =? 0) && (j =? 0) then (s, None, - EINVAL)
  else
    match lmfs_read_block s i with
    | inr err => (s, None, err)
    | inl b =>
      let e := entry_words b j in
      let a := FAttr (u8 (word_at e 1)) (word_at e 0) (u8 (word_at e 2)) (word_at e 9) (word_at e 7) 4096 0 in
      let '(s, err) := init_data_block_info s index (word_at e 8) e in (s, Some a, err)
    end.

Definition lmfs_copy_fnode (s : lmfs_st) (parent : Z) : lmfs_st * option fattr * Z := lmfs_fill_fnode s parent.

(** The 16 entries of 256 bytes of a directory block: name, type, number. *)
Fixpoint chars_to_zero (s : list Z) : list Z :=
  match s with [] => [] | c :: s => if c =? 0 then [] else c :: chars_to_zero s end.
Definition dir_entry (b : list Z) (j : Z) : list Z := drop (Z.to_nat (256 * j)) b.
Definition entry_name (e : list Z) : list Z := chars_to_zero e.
Definition entry_index (e : list Z) : Z := word_at (le_words (drop 252 e)) 0.

Definition lmfs_find_file (s : lmfs_st) (name : list Z) (buffer : list Z) : lmfs_st * option fattr * Z :=
  match zfirst 16 0 (fun j => bool_decide (name = entry_name (dir_entry buffer j))) with
  | Some j => lmfs_fill_fnode s (entry_index (dir_entry buffer j))
  | None => (s, None, - ENOENT)
  end.

Fixpoint getdents_entries (n : nat) (data : list Z) : list Z * Z :=
  match n with
  | O => ([], 0)
  | S n =>
    if word_at data 0 =? 0 then let '(name, k) := getdents_entries n (drop 256 data) in (name, k + 256)
    else (entry_name data, 256)
  end.
Definition lmfs_getdents (s : lmfs_st) (rw_pos : Z) (data : list Z) : list Z * Z :=
  getdents_entries (Z.to_nat ((4096 - rw_pos + 255) / 256)) data.

(** ** Mounting *)

(** "LMFS". *)
Definition lmfs_magic : list Z := [76; 77; 70; 83].

(** The super block in block 0 and the top block of each pool; memory is there. *)
Definition lmfs_fill_super (d : sectors) (b : bdev) : lmfs_super_block + Z :=
  match read_sectors d b 0 8 with
  | inr err => inr err
  | inl buf =>
    if negb (bool_decide (take 4 buf = lmfs_magic)) then inr (- EINVAL)
    else
      let ws := le_words buf in
      match read_sectors d b (u32 (word_at ws 5 * 8)) 8 with
      | inr _ => inr (- EIO)
      | inl ib =>
        match read_sectors d b (u32 (word_at ws 9 * 8)) 8 with
        | inr _ => inr (- EIO)
        | inl db =>
          inl (LmfsSb (word_at ws 5) (word_at ws 6) (word_at ws 8) (word_at ws 9) (word_at ws 10) (word_at ws 12)
                 (word_at ws 13) (word_at ws 17) (le_words ib) (le_words db))
        end
      end
  end.

(** Only the number of the root directory is set; [lmfs_copy_fnode] reads the rest. *)
Definition lmfs_get_root_fnode : lmfs_fnode * fattr := (LmfsFnode 0 [] [] 0 0 0 0 0 0, FAttr 0 0 0 0 0 4096 0).

#[export] Instance lmfs_ops : FsOps lmfs_st := {
  get_data_block := fun s whence => mret (lmfs_get_data_block s whence);
  read_block := lmfs_read_block;
  write_block := lmfs_write_block;
  get_block := Some lmfs_get_new_block;
  getdents := Some lmfs_getdents;
  fs_flag := 3 }.

#[export] Instance lmfs_dir : FsDir lmfs_st := {
  parse_name := fun nb name => mret (nb, name);
  find_file := fun s a name buffer =>
    let '(s, b, err) := lmfs_find_file s name buffer in mret (s, default a b, err);
  copy_fnode := fun s a =>
    let '(s, b, err) := lmfs_copy_fnode s (fnode_index (lnode s)) in (s, default a b, err) }.
