(* ===== verification/LmfsSpec.v ===== *)
(** * Correctness of LMFS (fs/lmfs.c) and of files on it

    LMFS keeps the contract [FileLaws] for files whose blocks are in one table, so reading,
    writing and seeking are right on it; the pools of free numbers are stacks. *)

From S2P Require Import Prelude CString Disk Vfs VfsSpec Lmfs.

(** ** The contract of an open file *)

Fixpoint nz_prefix (l : list Z) : list Z :=
  match l with [] => [] | x :: l => if x =? 0 then [] else x :: nz_prefix l end.

Definition lm_ids (s : lmfs_st) : list Z := nz_prefix (lvl1 (lnode s)).
Definition lm_block (s : lmfs_st) (i : Z) : list Z := memdisk_read_sectors (ldisk s) (i * 8) 8.
Definition lmax (s : lmfs_st) : Z := max_start (lbdev s).

(** [s] with the bytes [b] in block [i]. *)
Definition lm_put (s : lmfs_st) (i : Z) (b : list Z) : lmfs_st := set_disk s (memdisk_write_sectors (ldisk s) b (i * 8) 8).

Definition lm_blocks (s : lmfs_st) : list (list Z) := lm_block s <$> lm_ids s.
Definition lm_cur (s : lmfs_st) : nat := Z.to_nat (pos_in_lvl1 (lnode s)).

Record lm_ok (s : lmfs_st) : Prop := {
  lo_len : length (lvl1 (lnode s)) = 1024%nat;
  lo_pos : pos_in_lvl0 (lnode s) = 0 /\ 0 <= pos_in_lvl1 (lnode s) < 1024;
  lo_cur : l_current_block (lnode s) = word_at (lvl1 (lnode s)) (pos_in_lvl1 (lnode s));
  lo_nodup : NoDup (lm_ids s);
  lo_disk : forall i, i ∈ lm_ids s -> 0 < i /\ i * 8 <= lmax s < 4294967296 /\ length (lm_block s i) = 4096%nat }.

Lemma nz_prefix_nz l : Forall (fun i => i <> 0) (nz_prefix l).
Proof. induction l as [|x l IH]; simpl; [done|]. destruct (Z.eqb_spec x 0); [done|]. by constructor. Qed.

Lemma nz_prefix_lookup l k i : nz_prefix l !! k = Some i -> l !! k = Some i.
Proof.
  revert k. induction l as [|x l IH]; intros k; simpl; [done|]. destruct (x =? 0); [done|]. destruct k; [done|]. apply IH.
Qed.

Lemma nz_prefix_length l : (length (nz_prefix l) <= length l)%nat.
Proof. induction l as [|x l IH]; simpl; [done|]. destruct (x =? 0); simpl; lia. Qed.

Lemma id_word s k i : lm_ids s !! k = Some i -> word_at (lvl1 (lnode s)) (Z.of_nat k) = i.
Proof. intros H. unfold word_at. rewrite Nat2Z.id. by rewrite (nz_prefix_lookup _ _ _ H). Qed.

(** A step inside the table. *)
Definition lm_at (s : lmfs_st) (p : Z) : lmfs_st :=
  set_node s (node_lvl1 (lnode s) 0 p (word_at (lvl1 (lnode s)) p) (lvl1 (lnode s))).

Lemma lm_at_ok s p : lm_ok s -> 0 <= p < 1024 -> lm_ok (lm_at s p).
Proof. intros [H1 H2 H3 H4 H5] Hp. by split. Qed.

Lemma disk_read s i : 0 <= i -> i * 8 <= lmax s < 4294967296 -> lmfs_read_block s i = inl (lm_block s i).
Proof.
  intros H1 H2. unfold lmfs_read_block, read_sectors. fold (lmax s). rewrite u32_small by lia.
  by rewrite (proj2 (Z.ltb_ge _ _)) by lia.
Qed.

Lemma disk_write s i b : 0 <= i -> i * 8 <= lmax s < 4294967296 -> lmfs_write_block s b i = (lm_put s i b, 0).
Proof.
  intros H1 H2. unfold lmfs_write_block, write_sectors. fold (lmax s). rewrite u32_small by lia.
  by rewrite (proj2 (Z.ltb_ge _ _)) by lia.
Qed.

Lemma lm_put_eq s i b : length b = 4096%nat -> lm_block (lm_put s i b) i = b.
Proof. intros Hb. by apply (read_write_same _ _ _ 8). Qed.

Lemma lm_put_ne s i j b : i <> j -> lm_block (lm_put s i b) j = lm_block s j.
Proof. intros H. apply (read_write_other _ _ _ 8). lia. Qed.

Lemma lm_read s i : lm_ok s -> i ∈ lm_ids s -> lmfs_read_block s i = inl (lm_block s i).
Proof. intros H Hi. destruct (lo_disk s H i Hi) as (H1 & H2 & H3). apply disk_read; lia. Qed.

Lemma lm_write s i b : lm_ok s -> i ∈ lm_ids s -> lmfs_write_block s b i = (lm_put s i b, 0).
Proof. intros H Hi. destruct (lo_disk s H i Hi) as (H1 & H2 & H3). apply disk_write; lia. Qed.

Lemma lm_write_ok s i b : lm_ok s -> length b = 4096%nat -> lm_ok (lm_put s i b).
Proof.
  intros [H1 H2 H3 H4 H5] Hb. split; try done. intros j Hj. destruct (H5 j Hj) as (? & ? & ?). split; [done|]. split; [done|].
  destruct (decide (i = j)) as [->|]; [by rewrite lm_put_eq|by rewrite lm_put_ne].
Qed.

(** Writing one block changes that block of the file only. *)
Lemma map_insert s (ids : list Z) i k b : NoDup ids -> ids !! k = Some i -> length b = 4096%nat ->
  lm_block (lm_put s i b) <$> ids = <[k := b]> (lm_block s <$> ids).
Proof.
  intros Hnd Hk Hb. apply list_eq. intros n. rewrite list_lookup_fmap.
  destruct (decide (n = k)) as [->|Hne].
  - rewrite Hk. simpl. rewrite lm_put_eq, list_lookup_insert_eq by (try done; rewrite length_fmap; by eapply lookup_lt_Some). done.
  - rewrite list_lookup_insert_ne, list_lookup_fmap by done. destruct (ids !! n) as [j|] eqn:En; [|done]. simpl.
    rewrite lm_put_ne; [done|]. intros ->. apply Hne. by eapply NoDup_lookup.
Qed.

#[local] Obligation Tactic := idtac.

#[export, program] Instance lmfs_laws : FileLaws lmfs_st := {
  f_ok := lm_ok;
  f_bits := 12;
  f_blocks := lm_blocks;
  f_ids := lm_ids;
  f_cur := lm_cur }.
Next Obligation. lia. Qed.
Next Obligation.
  intros s H. unfold lm_blocks. rewrite length_fmap. split; [done|]. split; [|apply nz_prefix_nz].
  apply Forall_fmap, Forall_forall. intros i Hi. destruct (lo_disk s H i Hi) as (_ & _ & E). unfold compose. by rewrite E.
Qed.
Next Obligation.
  intros s i H Hi. unfold lm_cur in *. destruct (lo_pos s H) as [E0 Hp]. pose proof (lookup_lt_Some _ _ _ Hi) as Hlt.
  pose proof (nz_prefix_length (lvl1 (lnode s))) as Hl. fold (lm_ids s) in Hl. rewrite (lo_len s H) in Hl.
  exists (lm_at s (pos_in_lvl1 (lnode s) + 1)). split.
  - unfold get_data_block, lmfs_ops. change (mret ?x) with (Ret x). f_equal. unfold lmfs_get_data_block. cbn [Z.eqb VFS_NEXT_BLOCK VFS_START_BLOCK VFS_CURRENT_BLOCK].
    rewrite (proj2 (Z.eqb_neq (pos_in_lvl1 (lnode s)) 1023)) by lia. rewrite E0. unfold lm_at. f_equal.
    rewrite <- (id_word s _ i Hi). cbn [node_lvl1 l_current_block]. f_equal. lia.
  - split; [apply lm_at_ok; [done|lia]|]. split; [done|]. split; [done|]. simpl. lia.
Qed.
Next Obligation.
  intros s i c _ H Hc Hi. unfold lm_cur in *. destruct (lo_pos s H) as [E0 Hp]. exists (lm_at s (pos_in_lvl1 (lnode s) - 1)). split.
  - unfold get_data_block, lmfs_ops. change (mret ?x) with (Ret x). f_equal. unfold lmfs_get_data_block.
    cbn [Z.eqb VFS_NEXT_BLOCK VFS_START_BLOCK VFS_CURRENT_BLOCK VFS_PREV_BLOCK Pos.eqb].
    rewrite (proj2 (Z.eqb_neq (pos_in_lvl1 (lnode s)) 0)) by lia. rewrite E0. unfold lm_at. f_equal.
    rewrite <- (id_word s _ i Hi). cbn [node_lvl1 l_current_block]. f_equal. lia.
  - split; [apply lm_at_ok; [done|lia]|]. split; [done|]. split; [done|]. simpl. lia.
Qed.
Next Obligation. intros s i E. by vm_compute in E. Qed.
Next Obligation.
  intros s i H Hc Hi. exists s. split; [|by split_and!]. unfold lm_cur in Hc. destruct (lo_pos s H) as [E0 Hp].
  assert (pos_in_lvl1 (lnode s) = 0) as E1 by lia. unfold get_data_block, lmfs_ops. change (mret ?x) with (Ret x). f_equal.
  unfold lmfs_get_data_block. change (VFS_START_BLOCK =? VFS_START_BLOCK) with true. rewrite E0, E1. cbn [Z.eqb andb]. f_equal.
  rewrite (lo_cur s H), E1. by rewrite <- (id_word s 0 i Hi).
Qed.
Next Obligation.
  intros s i H Hi. unfold lm_cur in Hi. unfold get_data_block, lmfs_ops. change (mret ?x) with (Ret x). f_equal. unfold lmfs_get_data_block.
  cbn [Z.eqb VFS_NEXT_BLOCK VFS_START_BLOCK VFS_CURRENT_BLOCK Pos.eqb]. rewrite (lo_cur s H). f_equal.
  rewrite <- (id_word s _ i Hi). f_equal. destruct (lo_pos s H). lia.
Qed.
Next Obligation.
  intros s i k b H Hi Hb. unfold read_block, lmfs_ops. rewrite lm_read; [|done|by eapply list_elem_of_lookup_2].
  unfold lm_blocks in Hb. rewrite list_lookup_fmap, Hi in Hb. by injection Hb as <-.
Qed.
Next Obligation.
  intros s i k b H Hi Hb. eexists. split; [unfold write_block, lmfs_ops; apply lm_write; [done|by eapply list_elem_of_lookup_2]|].
  split; [apply lm_write_ok; [done|change (2 ^ 12) with 4096 in Hb; lia]|]. split; [|done].
  apply map_insert; [apply (lo_nodup s H)|done|change (2 ^ 12) with 4096 in Hb; lia].
Qed.

(** ** Properties of files *)

(** C8: on every file system that keeps the contract, [vfs_read] returns the number of
    bytes there are up to the size asked for, puts exactly those bytes of the file into
    the caller's buffer, and stands behind them, when they do not end with a block. *)
Theorem vfs_read_correct {FS} `{FileLaws FS} (f : vfile FS) m buffer size
    (V : vinv f) (Hs : 0 < size) (Hmax : offset f + size < 2147483648) (Hd : offset f < data_size f)
    (Hm : (offset f + read_size f size) mod Z.of_nat bsize <> 0) :
  exists f' m', vfs_read f m buffer size = Ret (f', m', read_size f size) /\
    wrote m m' buffer (slice (bytes f) (offset f) (read_size f size)) /\
    vinv f' /\ same_file f f' /\ offset f' = offset f + read_size f size.
Proof. by apply vfs_read_spec. Qed.

(** C9: [vfs_write] into blocks the file has returns 0; the file is then what it was
    before the offset followed by the new bytes, and ends there. *)
Theorem vfs_write_correct {FS} `{FileLaws FS} (f : vfile FS) m buffer size
    (V : vinv f) (Hs : 0 < size) (Hfit : offset f + size <= Z.of_nat (nblocks f * bsize)) :
  exists f', vfs_write f m buffer size = Ret (f', 0) /\ written f f' (read_bytes m buffer (Z.to_nat size)).
Proof. by apply vfs_write_spec. Qed.

(** [vfs_seek] to an offset inside the file goes there from any offset, forward and
    back, by single steps or by starting again, and changes nothing else of the file. *)
Theorem vfs_seek_correct {FS} `{FileLaws FS} (f : vfile FS) t
    (V : vinv f) (Ht : 0 <= t <= data_size f) (Hn : t < Z.of_nat (nblocks f * bsize)) :
  exists f', vfs_seek f t SEEK_SET = Ret (f', if t =? offset f then 0 else t) /\ vinv f' /\ same_file f f' /\ offset f' = t.
Proof. by apply vfs_seek_spec. Qed.

Module LmfsDemo.
(** A file of 6000 bytes in the blocks 10 and 11. *)
Definition table : list Z := [10; 11] ++ replicate 1022 0.
Definition node : lmfs_fnode := LmfsFnode 1 table [] 0 0 0 10 2 0.
Definition sb : lmfs_super_block := LmfsSb 1 5 2 3 1 4 100 100 [] ([50; 51] ++ replicate 1022 0).
Definition disk : sectors := disk_of [(10, replicate 4096 65); (11, replicate 4096 66)].
Definition fs : lmfs_st := LmfsSt disk (Bdev 0 16008 16000 0) sb node.
Definition file (size : Z) : vfile lmfs_st := VFile fs 0 0 size 4096 (replicate 4096 65) 10 2 6.

Lemma ids : lm_ids fs = [10; 11].
Proof. by vm_compute. Qed.

Lemma fs_ok : lm_ok fs.
Proof.
  split; [by vm_compute|by vm_compute|by vm_compute| |]; rewrite ids.
  - apply NoDup_cons. split; [by intros ?%list_elem_of_singleton|apply NoDup_singleton].
  - intros i [-> | ->%list_elem_of_singleton]%elem_of_cons; (split; [done|]); (split; [done|]); by vm_compute.
Qed.

Lemma file_ok size : 0 <= size <= 8192 -> vinv (file size).
Proof.
  intros Hs. split; [exact fs_ok|by vm_compute|split; by vm_compute|by vm_compute|by vm_compute|].
  assert (Z.of_nat (nblocks (file size) * bsize) = 8192) as -> by by vm_compute. cbn [file data_size]. lia.
Qed.
End LmfsDemo.

Lemma vfs_read_correct_witness :
  exists f' m', vfs_read (LmfsDemo.file 6000) ∅ 0x100000 5000 = Ret (f', m', 5000) /\
    wrote ∅ m' 0x100000 (slice (bytes (LmfsDemo.file 6000)) 0 5000) /\
    vinv f' /\ same_file (LmfsDemo.file 6000) f' /\ offset f' = 0 + 5000.
Proof.
  apply (vfs_read_correct (LmfsDemo.file 6000) ∅ 0x100000 5000); [apply LmfsDemo.file_ok; lia|lia|by vm_compute|by vm_compute|by vm_compute].
Defined.

Lemma vfs_write_correct_witness :
  exists f', vfs_write (LmfsDemo.file 6000) ∅ 0x100000 5000 = Ret (f', 0) /\
    written (LmfsDemo.file 6000) f' (read_bytes ∅ 0x100000 (Z.to_nat 5000)).
Proof.
  apply (vfs_write_correct (LmfsDemo.file 6000) ∅ 0x100000 5000); [apply LmfsDemo.file_ok; lia|lia|by vm_compute].
Defined.

Lemma vfs_seek_correct_witness :
  exists f', vfs_seek (LmfsDemo.file 6000) 5000 SEEK_SET = Ret (f', 5000) /\ vinv f' /\ same_file (LmfsDemo.file 6000) f' /\ offset f' = 5000.
Proof.
  apply (vfs_seek_correct (LmfsDemo.file 6000) 5000); [apply LmfsDemo.file_ok; lia|cbn; lia|by vm_compute].
Defined.

(** ** The pool of free blocks *)

Lemma le_words_bytes ws : Forall (fun w => 0 <= w < 4294967296) ws -> le_words (le_bytes ws) = ws.
Proof.
  induction 1 as [|w ws Hw _ IH]; [done|]. unfold le_bytes in *. cbn [map concat word_bytes app le_words]. rewrite IH. f_equal.
  Z.to_euclidean_division_equations; lia.
Qed.

Lemma length_le_bytes ws : length (le_bytes ws) = (4 * length ws)%nat.
Proof. induction ws as [|w ws IH]; [done|]. unfold le_bytes in *. cbn [map concat]. rewrite length_app, IH. simpl. lia. Qed.

(** The words of a block of the pool on the disk. *)
Definition pool_words (s : lmfs_st) (k : Z) : list Z := le_words (lm_block s (db_pool_start_block (lsb s) + k)).

(** The free blocks, the top one last. *)
Definition free_stack (s : lmfs_st) : list Z :=
  let b := lsb s in
  concat (pool_words s <$> seqZ 0 (db_pool_current_block b - db_pool_start_block b)) ++
  take (Z.to_nat (db_pool_pos b + 1)) (db_pool b).

Record pool_ok (s : lmfs_st) : Prop := {
  po_len : length (db_pool (lsb s)) = 1024%nat;
  po_words : Forall (fun w => 0 <= w < 4294967296) (db_pool (lsb s));
  po_pos : 0 <= db_pool_pos (lsb s) < 1024;
  po_range : 0 <= db_pool_start_block (lsb s) <= db_pool_current_block (lsb s) /\
    (db_pool_current_block (lsb s) + 1) * 8 <= lmax s < 4294967296;
  po_full : forall k, 0 <= k < db_pool_current_block (lsb s) - db_pool_start_block (lsb s) ->
    length (pool_words s k) = 1024%nat /\ Forall (fun w => 0 <= w < 4294967296) (pool_words s k) }.

(** The words below block [n] of the pool do not depend on that block. *)
Lemma pool_words_below s b sb n i : db_pool_start_block sb = db_pool_start_block (lsb s) -> i = db_pool_start_block sb + n ->
  pool_words (set_sb (lm_put s i b) sb) <$> seqZ 0 n = pool_words s <$> seqZ 0 n.
Proof.
  intros Es ->. apply list_fmap_ext. intros _ k Hk%list_elem_of_lookup_2%elem_of_seqZ.
  unfold pool_words. cbn [set_sb lsb]. rewrite Es. f_equal. apply (lm_put_ne s). lia.
Qed.

Lemma seqZ_snoc n : 0 <= n -> seqZ 0 (n + 1) = seqZ 0 n ++ [n].
Proof. intros Hn. rewrite seqZ_app by lia. simpl. by rewrite Z.add_0_l. Qed.

Lemma push_block_spec s v : pool_ok s -> 0 < v < 4294967296 -> (db_pool_current_block (lsb s) + 2) * 8 <= lmax s ->
  exists s', lmfs_push_block s v = (s', 0) /\ pool_ok s' /\ free_stack s' = free_stack s ++ [v] /\
    data_free_blocks (lsb s') = data_free_blocks (lsb s).
Proof.
  intros [P1 P2 P3 P4 P5] Hv Hm. unfold lmfs_push_block. rewrite (proj2 (Z.eqb_neq v 0)) by lia. unfold pool_up.
  set (b := lsb s) in *. destruct (Z.eqb_spec (db_pool_pos b + 1) 1024) as [E|E].
  - rewrite disk_write by lia. rewrite (u32_small (db_pool_current_block b + 1)) by lia.
    set (n := db_pool_current_block b - db_pool_start_block b). set (s1 := set_sb _ _). exists s1. split; [done|].
    assert (pool_words s1 <$> seqZ 0 n = pool_words s <$> seqZ 0 n) as Eb by (apply pool_words_below; [done|unfold n; cbn; lia]).
    assert (pool_words s1 n = db_pool b) as En.
    { unfold pool_words, s1. cbn [set_sb lsb sb_db db_pool_start_block].
      replace (db_pool_start_block b + n) with (db_pool_current_block b) by (unfold n; lia).
      etransitivity; [apply f_equal, (lm_put_eq s); rewrite length_le_bytes; lia|]. by apply le_words_bytes. }
    assert (lmax s1 = lmax s) as Em by done. split; [split; cbn; rewrite ?Em; try lia|split; [|done]].
    + by rewrite length_insert.
    + apply Forall_insert; [done|lia].
    + intros k Hk. destruct (decide (k = n)) as [->|Hne]; [rewrite En; done|].
      assert (pool_words s1 k = pool_words s k) as ->; [|apply P5; fold b; unfold n in *; lia].
      unfold pool_words, s1. cbn [set_sb lsb sb_db db_pool_start_block]. fold b.
      f_equal. apply (lm_put_ne s). unfold n in Hne. lia.
    + unfold free_stack. fold b n. change (db_pool_start_block (lsb s1)) with (db_pool_start_block b).
      change (db_pool_current_block (lsb s1)) with (db_pool_current_block b + 1). change (db_pool_pos (lsb s1)) with 0.
      change (db_pool (lsb s1)) with (<[0%nat := v]> (db_pool b)).
      replace (db_pool_current_block b + 1 - db_pool_start_block b) with (n + 1) by (unfold n; lia).
      rewrite seqZ_snoc by (unfold n; lia). rewrite fmap_app, concat_app, Eb. cbn [fmap list_fmap concat]. rewrite En, app_nil_r.
      rewrite (take_ge (db_pool b)) by lia. rewrite <- !app_assoc. by destruct (db_pool b); [simpl in P1; lia|].
  - exists (set_sb s (sb_db b (db_pool_current_block b) (db_pool_pos b + 1) (<[Z.to_nat (db_pool_pos b + 1) := v]> (db_pool b)))).
    split; [done|]. split; [split; unfold lmax in *; cbn; try done; try lia|split; [|done]].
    + by rewrite length_insert.
    + apply Forall_insert; [done|lia].
    + unfold free_stack. cbn [set_sb lsb sb_db db_pool_current_block db_pool_start_block db_pool_pos db_pool]. fold b.
      rewrite <- app_assoc. f_equal. replace (Z.to_nat (db_pool_pos b + 1 + 1)) with (S (Z.to_nat (db_pool_pos b + 1))) by lia.
      rewrite (take_S_r _ _ v) by (apply list_lookup_insert_eq; lia). by rewrite take_insert_ge by lia.
Qed.

Lemma pop_block_spec s st v : pool_ok s -> free_stack s = st ++ [v] -> st <> [] -> data_free_blocks (lsb s) <> 0 ->
  exists s', lmfs_pop_block s = (s', v) /\ pool_ok s' /\ free_stack s' = st.
Proof.
  intros [P1 P2 P3 P4 P5] Hst Hne Hfree. unfold lmfs_pop_block. rewrite (proj2 (Z.eqb_neq _ 0) Hfree). unfold pool_down.
  set (b := lsb s) in *. unfold free_stack in Hst. fold b in Hst. set (n := db_pool_current_block b - db_pool_start_block b) in *.
  assert (exists w, db_pool b !! Z.to_nat (db_pool_pos b) = Some w) as [w Hw] by (apply lookup_lt_is_Some_2; lia).
  replace (Z.to_nat (db_pool_pos b + 1)) with (S (Z.to_nat (db_pool_pos b))) in Hst by lia.
  rewrite (take_S_r _ _ w Hw), app_assoc in Hst. apply app_inj_tail in Hst as [Hst <-].
  assert (word_at (db_pool b) (db_pool_pos b) = w) as -> by (unfold word_at; by rewrite Hw).
  destruct (Z.eqb_spec (db_pool_pos b) 0) as [E|E].
  - rewrite E in Hst. change (Z.to_nat 0) with 0%nat in Hst. rewrite take_0, app_nil_r in Hst.
    assert (0 < n) as Hn by (destruct (decide (n = 0)) as [E0|]; [rewrite E0 in Hst; by subst|unfold n in *; lia]).
    rewrite (u32_small (db_pool_current_block b - 1)) by lia. rewrite (proj2 (Z.leb_le _ _)) by (unfold n in Hn; lia).
    rewrite disk_read by (unfold n in Hn; lia). destruct (P5 (n - 1)) as [L F]; [fold n; lia|].
    unfold pool_words in L, F. replace (db_pool_start_block (lsb s) + (n - 1)) with (db_pool_current_block b - 1) in L, F by (unfold n, b; lia).
    eexists. split; [done|]. split; [split; unfold lmax in *; cbn; try done; try lia; intros k Hk; apply P5; fold b n; unfold n; lia|].
    unfold free_stack. cbn [set_sb lsb sb_db db_pool_current_block db_pool_start_block db_pool_pos db_pool].
    replace (db_pool_current_block b - 1 - db_pool_start_block b) with (n - 1) by (unfold n; lia).
    rewrite <- Hst. replace n with ((n - 1) + 1) at 2 by lia. rewrite seqZ_snoc by lia.
    rewrite fmap_app, concat_app. cbn [fmap list_fmap concat]. rewrite app_nil_r, take_ge by (rewrite L; lia). f_equal.
    unfold pool_words. f_equal. f_equal. unfold n, b. lia.
  - eexists. split; [done|]. split; [split; unfold lmax in *; cbn; try done; lia|].
    unfold free_stack. cbn [set_sb lsb sb_db db_pool_current_block db_pool_start_block db_pool_pos db_pool].
    fold n. rewrite <- Hst. f_equal. f_equal. lia.
Qed.

(** C10: the pool of free blocks is a stack, also where its page is written to the disk and
    read back: [lmfs_push_block] puts a number on top, and [lmfs_pop_block] takes off the
    top one of at least two. *)
Theorem lmfs_pool_stack s v (P : pool_ok s) (Hv : 0 < v < 4294967296)
    (Hm : (db_pool_current_block (lsb s) + 2) * 8 <= lmax s) (Hf : data_free_blocks (lsb s) <> 0)
    (Hne : free_stack s <> []) :
  exists s1 s2, lmfs_push_block s v = (s1, 0) /\ pool_ok s1 /\ free_stack s1 = free_stack s ++ [v] /\
    lmfs_pop_block s1 = (s2, v) /\ pool_ok s2 /\ free_stack s2 = free_stack s.
Proof.
  destruct (push_block_spec s v P Hv Hm) as (s1 & E1 & P1 & S1 & F1).
  destruct (pop_block_spec s1 (free_stack s) v P1 S1 Hne) as (s2 & E2 & P2 & S2); [by rewrite F1|].
  by exists s1, s2.
Qed.

(** A pool with a full page: the next number goes to a new one. *)
Definition full_pool : lmfs_st :=
  set_sb LmfsDemo.fs (LmfsSb 1 5 2 3 1023 4 100 100 [] (replicate 1024 77)).

Lemma full_pool_ok : pool_ok (lm_put full_pool 2 (le_bytes (replicate 1024 55))).
Proof.
  split; cbn [lm_put set_disk set_sb full_pool lsb db_pool]; [done|by apply Forall_replicate|by vm_compute|by vm_compute|].
  intros k Hk. cbn in Hk. assert (k = 0) as -> by lia.
  assert (pool_words (lm_put full_pool 2 (le_bytes (replicate 1024 55))) 0 = replicate 1024 55) as -> by (by vm_compute).
  split; [done|]. by apply Forall_replicate.
Qed.

Lemma lmfs_pool_stack_witness :
  let s := lm_put full_pool 2 (le_bytes (replicate 1024 55)) in
  exists s1 s2, lmfs_push_block s 99 = (s1, 0) /\ pool_ok s1 /\ free_stack s1 = free_stack s ++ [99] /\
    lmfs_pop_block s1 = (s2, 99) /\ pool_ok s2 /\ free_stack s2 = free_stack s.
Proof.
  intros s. apply (lmfs_pool_stack s 99 full_pool_ok); [lia|by vm_compute|by vm_compute|by vm_compute].
Defined.

(** ** Where files and LMFS differ from this *)

(** A read that starts inside a block and ends with one leaves the old block in the
    buffer: the byte at offset 4096 is 66, the next read gives 65. *)
Theorem vfs_read_stale :
  match vfs_seek (LmfsDemo.file 6000) 100 SEEK_SET with
  | Ret (f, _) =>
    match vfs_read f ∅ 0x100000 3996 with
    | Ret (f, m, 3996) =>
      match vfs_read f m 0x200000 1 with
      | Ret (_, m, 1) => offset f = 4096 /\ rd m 0x200000 = 65 /\ (bytes f !! 4096%nat) = Some 66
      | _ => False
      end
    | _ => False
    end
  | _ => False
  end.
Proof. by vm_compute. Qed.

(** Reading a file of whole blocks to its end reports that there is no space. *)
Theorem vfs_read_end_error :
  match vfs_read (LmfsDemo.file 8192) ∅ 0x100000 8192 with Ret (_, _, r) => r = - ENOSPC | _ => False end.
Proof. by vm_compute. Qed.

(** [vfs_mmap] takes the new offset [vfs_seek] returns for an error, and reads nothing. *)
Theorem vfs_mmap_reads_nothing :
  match vfs_mmap (LmfsDemo.file 6000) ∅ 0x100000 10 5000 with Ret (_, m, r) => r = 5000 /\ m = ∅ | _ => False end.
Proof. by vm_compute. Qed.

(** Going back to the start reads the first block of data as a table of blocks. *)
Theorem lmfs_start_reads_data :
  snd (lmfs_get_data_block (fst (lmfs_get_data_block LmfsDemo.fs VFS_NEXT_BLOCK)) VFS_START_BLOCK) = 0x41414141.
Proof. by vm_compute. Qed.

(** A new block of a file makes its table overwrite block 0, the super block. *)
Theorem lmfs_new_block_hits_super :
  match lmfs_get_new_block LmfsDemo.fs with
  | Ret (s, b) => b = 51 /\ lm_block s 0 = le_bytes (lvl1 (lnode s))
  | _ => False
  end.
Proof. by vm_compute. Qed.

(** [data_free_blocks] is never lowered: when the last free block has been taken, the next
    call gives another number. *)
Theorem lmfs_pop_past_empty :
  let s := set_sb LmfsDemo.fs (LmfsSb 1 5 3 3 0 4 100 1 [] (replicate 1024 77)) in
  snd (lmfs_pop_block s) = 77 /\ snd (lmfs_pop_block (fst (lmfs_pop_block s))) = 77.
Proof. by vm_compute. Qed.
