(* ===== verification/Path.v ===== *)
(** * Names, mounts and lookup (fs/fnode.c, fs/mount.c)

    A name is the list of its characters.  The lookup of a name works on any file system
    with the operations of [FsDir]; memory for a new [fnode] is there. *)

From S2P Require Import Prelude Bitops CString Vfs Lmfs.

Definition slash : Z := 47.
Definition dot : Z := 46.
Definition O_CREAT : Z := 64.
Definition O_DIRECTORY : Z := 16384.
Definition DT_ANY : Z := 255.
Definition FILE_OPENS : Z := 64.

(** ** Names *)

(** [strchr] for a slash: the characters before it and behind it. *)
Fixpoint split_slash (s : list Z) : option (list Z * list Z) :=
  match s with
  | [] => None
  | c :: s => if c =? slash then Some ([], s) else '(a, b) ← split_slash s; Some (c :: a, b)
  end.

(** The first part of the name, and the rest. *)
Definition find_file_name (org : list Z) : option (list Z * list Z) :=
  match org with
  | [] => None
  | _ => match split_slash org with None => Some (org, []) | Some r => Some r end
  end.

Fixpoint name_parts (fuel : nat) (s : list Z) : option (list (list Z)) :=
  match find_file_name s with
  | None => Some []
  | Some (a, r) => match fuel with O => None | S fuel => ps ← name_parts fuel r; Some (a :: ps) end
  end.

(** A block device name must not end in a slash: the character tested is the terminator. *)
Definition check_file_name (name : list Z) : Z :=
  match name with
  | [] => - EINVAL
  | c :: r => if (c =? dot) && negb (match r with d :: _ => d =? slash | [] => false end) then - EINVAL else 0
  end.

(** ** Mounts *)

(** A mount, with what names the super block mounted there. *)
Record mount_point := Mount { path : list Z; mnt_sb : Z }.

(** [strncmp] of the first [length p] characters. *)
Fixpoint is_prefix (p s : list Z) : bool :=
  match p, s with
  | [], _ => true
  | c :: p, d :: s => (c =? d) && is_prefix p s
  | _, [] => false
  end.

(** The loop over the mounts behind the root. *)
Definition mount_step (name : list Z) (best : mount_point * nat) (m : mount_point) : mount_point * nat :=
  let '(mnt, len_old) := best in
  if (len_old <? length (path m))%nat && (length (path m) <=? length name)%nat && is_prefix (path m) name
  then (m, length (path m)) else (mnt, len_old).
Definition get_mount_point (root : mount_point) (ms : list mount_point) (name : list Z) : mount_point :=
  fst (foldl (mount_step name) (root, 0%nat) ms).

Definition get_file_fs_name (m : mount_point) (name : list Z) : option (list Z) :=
  if is_prefix (path m) name then Some (drop (length (path m)) name) else None.

(** A new mount goes behind the root, or is the root. *)
Definition add_mount (tree : option (mount_point * list mount_point)) (m : mount_point) : option (mount_point * list mount_point) :=
  match tree with Some (root, ms) => Some (root, m :: ms) | None => Some (m, []) end.

(** The mount a name is on and the name there; none for a name the checks refuse. *)
Fixpoint skip_slashes (s : list Z) : list Z :=
  match s with c :: r => if c =? slash then skip_slashes r else s | [] => [] end.

(** A name that does not start with a slash has no root to start from. *)
Definition resolve (tree : mount_point * list mount_point) (name : list Z) : outcome (option (mount_point * list Z)) :=
  if negb (check_file_name name =? 0) then mret None
  else
    match name with
    | c :: _ =>
      if c =? slash then
        let mnt := get_mount_point (fst tree) (snd tree) name in
        match get_file_fs_name mnt name with
        | None => mret None
        | Some real =>
          let real := match real with d :: r => if d =? dot then r else real | [] => real end in
          mret (Some (mnt, skip_slashes real))
        end
      else Fault
    | [] => Fault
    end.

(** ** Buffers for parts of names *)

(** A bitmap of eight buffers, in word memory of its own. *)
Definition INAME_SIZE : Z := 512.
Definition INAME_NR : Z := 8.
Definition iname_buffer : Z := 4096.

Definition init_iname_buffer : gmap Z Z := init_bitmap ∅ iname_buffer INAME_NR.

Definition get_iname_buffer (nb : gmap Z Z) : gmap Z Z * option Z :=
  match zfirst (Z.to_nat INAME_NR) 0 (fun i => read_bit nb iname_buffer i =? 0) with
  | Some i => (set_bit nb iname_buffer i, Some i)
  | None => (nb, None)
  end.

Definition put_iname_buffer (nb : gmap Z Z) (i : Z) : gmap Z Z :=
  if read_bit nb iname_buffer i =? 0 then nb else clear_bit nb iname_buffer i.

(** ** Lookup *)

Section Lookup.
Context {FS : Type} `{FsDir FS}.

(** The blocks of a directory, from [block] on: whether the file was found and the error,
    or [None] when a block cannot be read. *)
Fixpoint find_in_blocks (fuel : nat) (s : FS) (a : fattr) (type : Z) (name : list Z) (block : Z)
  : outcome (FS * fattr * option (bool * Z)) :=
  match fuel with
  | O => NoFuel
  | S fuel =>
    match read_block s block with
    | inr _ => mret (s, a, None)
    | inl b =>
      '(s, a, r) ← find_file s a name b;
      if r =? 0 then mret (s, a, Some (true, if negb (Z.land (a_type a) type =? a_type a) then - ENOTDIR else 0))
      else
        '(s, block) ← get_data_block s VFS_NEXT_BLOCK;
        if block =? 0 then mret (s, a, Some (false, 0)) else find_in_blocks fuel s a type name block
    end
  end.

(** The type a part of a name must have. *)
Definition part_type (flag : Z) (rest : list Z) : Z :=
  match rest with
  | [] => if Z.land flag O_DIRECTORY =? O_DIRECTORY then DT_DIR else DT_ANY
  | _ => DT_DIR
  end.

(** [file_find] is not reset between the parts of a name.  The last component tells whether
    the buffer [tname] is given back; a part that is longer than it is a fault. *)
Fixpoint lookup_loop (fuel fuelb : nat) (nb : gmap Z Z) (s : FS) (a : fattr) (flag : Z) (file_find : bool) (name : list Z)
  : outcome (gmap Z Z * FS * fattr * Z * bool) :=
  match find_file_name name with
  | None => mret (nb, s, a, 0, true)
  | Some (part, rest) =>
    match fuel with
    | O => NoFuel
    | S fuel =>
      '(s, block) ← get_data_block s VFS_START_BLOCK;
      if INAME_SIZE <=? Z.of_nat (length part) then Fault
      else if block =? 0 then mret (nb, s, a, - ENOSPC, false)
      else
        '(nb, tname) ← parse_name nb part;
        '(s, a, r) ← find_in_blocks fuelb s a (part_type flag rest) tname block;
        match r with
        | None => mret (nb, s, a, - EIO, false)
        | Some (found, err) =>
          let file_find := file_find || found in
          if negb (err =? 0) then mret (nb, s, a, err, true)
          else if negb file_find then mret (nb, s, a, - ENOENT, true)
          else lookup_loop fuel fuelb nb s a flag file_find rest
        end
    end
  end.

(** Returns in the middle keep the buffer. *)
Definition __get_file_fnode (fuel fuelb : nat) (nb : gmap Z Z) (s : FS) (a : fattr) (flag : Z) (name : list Z)
  : outcome (gmap Z Z * FS * fattr * Z) :=
  match get_iname_buffer nb with
  | (nb, None) => mret (nb, s, a, - EAGAIN)
  | (nb, Some i) =>
    '(nb, s, a, err, put) ← lookup_loop fuel fuelb nb s a flag false name;
    mret (if put : bool then put_iname_buffer nb i else nb, s, a, err)
  end.

(** [s] and [a] are the directory to start from.  The error of the lookup is only looked at
    together with [O_CREAT]; creating is not implemented and gives no file. *)
Definition _get_file_fnode (fuel fuelb : nat) (nb : gmap Z Z) (s : FS) (a : fattr) (flag : Z) (name : list Z)
  : outcome (gmap Z Z * FS * option fattr) :=
  let '(s, a, err) := copy_fnode s a in
  if negb (err =? 0) then mret (nb, s, None)
  else
    match name with
    | [] => mret (nb, s, Some a)
    | _ =>
      '(nb, s, a, ret) ← __get_file_fnode fuel fuelb nb s a flag name;
      if (ret =? - ENOENT) && negb (Z.land O_CREAT flag =? 0) then mret (nb, s, None) else mret (nb, s, Some a)
    end.
End Lookup.

(** ** Open files of a task *)

(** [file_open] by descriptor; a file is named by its address. *)
Record file_desc := FileDesc { open_nr : Z; file_open : list Z }.

Definition zero_desc : file_desc := FileDesc 0 (replicate (Z.to_nat FILE_OPENS) 0).

(** [file] is the result of [__sys_open], 0 for none. *)
Definition _sys_open (d : file_desc) (file : Z) : file_desc * Z :=
  match zfirst (Z.to_nat FILE_OPENS) 0 (fun i => word_at (file_open d) i =? 0) with
  | None => (d, - EMFILE)
  | Some fd =>
    if file =? 0 then (d, - ENOENT)
    else (FileDesc (s32 (open_nr d + 1)) (<[Z.to_nat fd := file]> (file_open d)), fd)
  end.

(** The bound lets 64 through, and every negative number. *)
Definition fd_to_file (d : file_desc) (fd : Z) : outcome Z :=
  if FILE_OPENS <? fd then mret 0
  else if (0 <=? fd) && (fd <? FILE_OPENS) then mret (word_at (file_open d) fd)
  else Fault.

(** [_sys_close] without the release of the file itself. *)
Definition _sys_close (d : file_desc) (fd : Z) : outcome (file_desc * Z) :=
  file ← fd_to_file d fd;
  if file =? 0 then mret (d, - ENOENT)
  else mret (FileDesc (s32 (open_nr d - 1)) (<[Z.to_nat fd := 0]> (file_open d)), 0).
