(* ===== verification/PathSpec.v ===== *)
(** * Correctness of names, mounts and descriptors (fs/fnode.c, fs/mount.c, fs/file.c) *)

From S2P Require Import Prelude Bitops CString Disk Vfs VfsSpec Lmfs LmfsSpec Path.

(** ** Names *)

Definition part_ok (p : list Z) : Prop := p <> [] /\ slash ∉ p /\ (length p < 512)%nat.

Fixpoint join (ps : list (list Z)) : list Z :=
  match ps with
  | [] => []
  | [p] => p
  | p :: ps => p ++ slash :: join ps
  end.

Lemma split_slash_none p : slash ∉ p -> split_slash p = None.
Proof.
  induction p as [|c p IH]; intros Hp; simpl; [done|]. apply not_elem_of_cons in Hp as [Hc Hp].
  rewrite (proj2 (Z.eqb_neq c slash)) by done. by rewrite IH.
Qed.

Lemma split_slash_app p r : slash ∉ p -> split_slash (p ++ slash :: r) = Some (p, r).
Proof.
  induction p as [|c p IH]; intros Hp; simpl; [done|]. apply not_elem_of_cons in Hp as [Hc Hp].
  rewrite (proj2 (Z.eqb_neq c slash)) by done. by rewrite IH.
Qed.

(** the parts [find_file_name] takes off a name one after the other are the parts it
    was joined from. *)
Theorem name_parts_join ps (Hp : Forall part_ok ps) : name_parts (length ps) (join ps) = Some ps.
Proof.
  induction Hp as [|p ps (Hne & Hs & _) Hps IH]; [done|]. destruct ps as [|q ps].
  - cbn [join]. destruct p as [|c p]; [done|]. cbn [length name_parts]. unfold find_file_name.
    rewrite (split_slash_none (c :: p) Hs). done.
  - change (join (p :: q :: ps)) with (p ++ slash :: join (q :: ps)).
    assert (find_file_name (p ++ slash :: join (q :: ps)) = Some (p, join (q :: ps))) as E.
    { unfold find_file_name. rewrite (split_slash_app p _ Hs). by destruct p. }
    change (length (p :: q :: ps)) with (S (length (q :: ps))). cbn [name_parts]. rewrite E, IH. done.
Qed.

Lemma name_parts_join_witness : name_parts 2 (join [[97; 98]; [99]]) = Some [[97; 98]; [99]].
Proof.
  apply (name_parts_join [[97; 98]; [99]]).
  repeat constructor; try done; intros H; repeat (apply elem_of_cons in H as [H|H]; [done|]); by apply elem_of_nil in H.
Defined.

(** ** Mounts *)

Definition mounted_at (m : mount_point) (name : list Z) : Prop := path m <> [] /\ is_prefix (path m) name = true.

Lemma is_prefix_length p s : is_prefix p s = true -> (length p <= length s)%nat.
Proof.
  revert s. induction p as [|c p IH]; intros [|d s]; simpl; try done; [lia|]. intros [_ H]%andb_true_iff. apply IH in H. lia.
Qed.

(** The best one so far is the root or a mount of the list, and no mount seen is longer. *)
Lemma mount_fold name ms : forall best len, len = length (path best) \/ len = 0%nat ->
  let r := foldl (mount_step name) (best, len) ms in
  (len <= snd r)%nat /\ (r = (best, len) \/ (fst r ∈ ms /\ mounted_at (fst r) name /\ snd r = length (path (fst r)))) /\
  (forall m, m ∈ ms -> mounted_at m name -> (length (path m) <= snd r)%nat).
Proof.
  induction ms as [|m ms IH]; intros best len Hb; cbn [foldl].
  - split; [done|]. split; [by left|]. by intros m Hm%elem_of_nil.
  - destruct ((len <? length (path m))%nat && (length (path m) <=? length name)%nat && is_prefix (path m) name) eqn:E.
    + replace (mount_step name (best, len) m) with (m, length (path m)) by (unfold mount_step; by rewrite E).
      apply andb_true_iff in E as [[E1%Nat.ltb_lt E2%Nat.leb_le]%andb_true_iff E3].
      destruct (IH m (length (path m)) ltac:(by left)) as (H1 & H2 & H3). cbv zeta. split; [lia|].
      assert (mounted_at m name) as Hm by (split; [intros E0; rewrite E0 in E1; simpl in E1; lia|done]). split.
      * right. destruct H2 as [->|(Hin & Hat & Hl)]; [split; [left|done]|]. split; [by right|done].
      * intros k [->|Hk]%elem_of_cons Hat; [done|by apply H3].
    + replace (mount_step name (best, len) m) with (best, len) by (unfold mount_step; by rewrite E).
      destruct (IH best len Hb) as (H1 & H2 & H3). cbv zeta. split; [done|]. split.
      * destruct H2 as [->|(Hin & Hat & Hl)]; [by left|right]. split; [by right|done].
      * intros k [->|Hk]%elem_of_cons Hat; [|by apply H3]. destruct Hat as [Hn Hp]. pose proof (is_prefix_length _ _ Hp).
        destruct (decide (len < length (path m))%nat) as [Hlt|]; [|lia]. exfalso.
        rewrite (proj2 (Nat.ltb_lt _ _) Hlt), (proj2 (Nat.leb_le _ _)), Hp in E by done. done.
Qed.

(** [get_mount_point] gives a mount whose path is a prefix of the name, and no other
    such mount has a longer path; without one it gives the root. *)
Theorem get_mount_point_longest root ms name :
  let r := get_mount_point root ms name in
  (r = root /\ forall m, m ∈ ms -> ~ mounted_at m name) \/
  (r ∈ ms /\ mounted_at r name /\ forall m, m ∈ ms -> mounted_at m name -> (length (path m) <= length (path r))%nat).
Proof.
  destruct (mount_fold name ms root 0 ltac:(by right)) as (_ & [E|(Hin & Hat & Hl)] & Hmax); unfold get_mount_point.
  - left. rewrite E in *. split; [done|]. intros m Hm Hat. specialize (Hmax m Hm Hat). destruct Hat as [Hn _]. simpl in Hmax.
    destruct (path m); [done|simpl in Hmax; lia].
  - right. split; [done|]. split; [done|]. by rewrite <- Hl.
Qed.

(** The prefix is one of characters: a mount at /dev takes names that start with /device. *)
Theorem mount_takes_longer_name :
  get_mount_point (Mount [slash] 0) [Mount [slash; 100; 101; 118] 1] [slash; 100; 101; 118; 105; 99; 101] = Mount [slash; 100; 101; 118] 1.
Proof. by vm_compute. Qed.

(** ** Descriptors *)

Record desc_ok (d : file_desc) : Prop := {
  do_len : length (file_open d) = 64%nat;
  do_nr : 0 <= open_nr d <= 64 }.

(** Opening takes the lowest free descriptor and fails exactly when there is none;
    reading it back gives the file, the other descriptors keep theirs, and closing it
    restores the table. *)
Theorem sys_open_close d file (D : desc_ok d) (Hf : file <> 0) (Hn : open_nr d < 64) :
  (_sys_open d file = (d, - EMFILE) /\ forall i, 0 <= i < 64 -> word_at (file_open d) i <> 0) \/
  exists d' fd, _sys_open d file = (d', fd) /\ 0 <= fd < 64 /\ word_at (file_open d) fd = 0 /\
    (forall i, 0 <= i < fd -> word_at (file_open d) i <> 0) /\ desc_ok d' /\ fd_to_file d' fd = Ret file /\
    (forall i, 0 <= i < 64 -> i <> fd -> fd_to_file d' i = fd_to_file d i) /\ _sys_close d' fd = Ret (d, 0).
Proof.
  destruct D as [D1 D2]. unfold _sys_open. change (Z.to_nat FILE_OPENS) with 64%nat.
  destruct (zfirst 64 0 _) as [fd|] eqn:E.
  - right. apply zfirst_Some in E as (Hr & Hz & Hlow). apply Z.eqb_eq in Hz. rewrite (proj2 (Z.eqb_neq file 0) Hf).
    rewrite s32_small by lia. set (d' := FileDesc _ _). assert (0 <= fd < 64) as Hfd by lia.
    assert (fd_to_file d' fd = Ret file) as Eg.
    { unfold fd_to_file, FILE_OPENS. rewrite (proj2 (Z.ltb_ge 64 fd)), (proj2 (Z.leb_le 0 fd)), (proj2 (Z.ltb_lt fd 64)) by lia.
      unfold word_at, d'. cbn [file_open andb]. rewrite list_lookup_insert_eq by lia. done. }
    exists d', fd. split; [done|]. split; [done|]. split; [done|].
    split; [intros i Hi; apply Z.eqb_neq; apply Hlow; lia|]. split; [split; cbn; [by rewrite length_insert|lia]|].
    split; [done|]. split.
    + intros i Hi Hne. unfold fd_to_file. destruct (FILE_OPENS <? i); [done|]. destruct ((0 <=? i) && _); [|done].
      unfold word_at, d'. cbn [file_open]. by rewrite list_lookup_insert_ne by lia.
    + unfold _sys_close. rewrite Eg, Ret_bind, (proj2 (Z.eqb_neq file 0) Hf). unfold d'. cbn [open_nr file_open].
      rewrite s32_small by lia. destruct d as [nr l]. cbn [open_nr file_open] in *. unfold mret, outcome_ret. do 3 f_equal; [lia|].
      rewrite list_insert_insert_eq. apply list_insert_id. unfold word_at in Hz.
      destruct (lookup_lt_is_Some_2 l (Z.to_nat fd)) as [x Hx]; [lia|]. rewrite Hx in Hz |- *. simpl in Hz. by subst.
  - left. split; [done|]. intros i Hi Hz. pose proof (zfirst_None _ _ _ E i ltac:(lia)) as Hp. simpl in Hp. rewrite Hz in Hp. done.
Qed.

Lemma sys_open_close_witness :
  (_sys_open zero_desc 0x80300000 = (zero_desc, - EMFILE) /\ forall i, 0 <= i < 64 -> word_at (file_open zero_desc) i <> 0) \/
  exists d' fd, _sys_open zero_desc 0x80300000 = (d', fd) /\ 0 <= fd < 64 /\ word_at (file_open zero_desc) fd = 0 /\
    (forall i, 0 <= i < fd -> word_at (file_open zero_desc) i <> 0) /\ desc_ok d' /\ fd_to_file d' fd = Ret 0x80300000 /\
    (forall i, 0 <= i < 64 -> i <> fd -> fd_to_file d' i = fd_to_file zero_desc i) /\ _sys_close d' fd = Ret (zero_desc, 0).
Proof. apply (sys_open_close zero_desc 0x80300000); [split; by vm_compute|done|by vm_compute]. Defined.

(** Descriptor 64 passes the test and is read behind the table. *)
Lemma fd_64_fault d : fd_to_file d 64 = Fault.
Proof. done. Qed.

(** ** Lookup in one directory *)

Lemma nz_prefix_end l : (length (nz_prefix l) < length l)%nat -> l !! length (nz_prefix l) = Some 0.
Proof.
  induction l as [|x l IH]; simpl; [lia|]. destruct (Z.eqb_spec x 0) as [->|]; simpl; [done|]. intros H. apply IH. lia.
Qed.

(** The entry of a directory block with a given name. *)
Definition dir_find (b name : list Z) : option Z := zfirst 16 0 (fun j => bool_decide (name = entry_name (dir_entry b j))).

Section Directory.
Context (s : lmfs_st) (name : list Z).
Context (Hs : lm_ok s) (Hpos : pos_in_lvl1 (lnode s) = 0).
Context (Hn : (0 < length (lm_ids s) < 1024)%nat).

Definition block_at (k : nat) : list Z := lm_block s (default 0 (lm_ids s !! k)).

Lemma read_at k i : lm_ids s !! k = Some i -> lmfs_read_block (lm_at s (Z.of_nat k)) i = inl (block_at k).
Proof.
  intros Hi. unfold block_at. rewrite Hi. apply (lm_read s i Hs). by eapply list_elem_of_lookup_2.
Qed.

Lemma next_at k : (k < length (lm_ids s))%nat ->
  lmfs_get_data_block (lm_at s (Z.of_nat k)) VFS_NEXT_BLOCK = (lm_at s (Z.of_nat (S k)), default 0 (lm_ids s !! S k)).
Proof.
  intros Hk. unfold lmfs_get_data_block. cbn [lm_at set_node lnode node_lvl1 pos_in_lvl1 pos_in_lvl0 lvl1 l_current_block].
  change (VFS_NEXT_BLOCK =? VFS_START_BLOCK) with false. change (VFS_NEXT_BLOCK =? VFS_CURRENT_BLOCK) with false.
  change (VFS_NEXT_BLOCK =? VFS_NEXT_BLOCK) with true. cbv iota. rewrite (proj2 (Z.eqb_neq (Z.of_nat k) 1023)) by lia.
  replace (Z.of_nat k + 1) with (Z.of_nat (S k)) by lia. unfold lm_at. f_equal.
  destruct (lm_ids s !! S k) as [i|] eqn:Ei; [by rewrite (id_word s _ i Ei)|].
  apply lookup_ge_None in Ei. assert (S k = length (nz_prefix (lvl1 (lnode s)))) as -> by (fold (lm_ids s); lia).
  unfold word_at. rewrite Nat2Z.id, nz_prefix_end; [done|]. rewrite (lo_len s Hs). fold (lm_ids s). lia.
Qed.

(** No block from [k] on has the name. *)
Lemma find_none m : forall k i fuel a type, lm_ids s !! k = Some i -> (length (lm_ids s) - k <= m)%nat -> (m <= fuel)%nat ->
  (forall c, (k <= c < length (lm_ids s))%nat -> dir_find (block_at c) name = None) ->
  find_in_blocks fuel (lm_at s (Z.of_nat k)) a type name i = Ret (lm_at s (Z.of_nat (length (lm_ids s))), a, Some (false, 0)).
Proof.
  induction m as [|m IH]; intros k i fuel a type Hi Hm Hf Hno; pose proof (lookup_lt_Some _ _ _ Hi) as Hk; [lia|].
  destruct fuel as [|fuel]; [lia|]. cbn [find_in_blocks read_block lmfs_ops find_file lmfs_dir]. rewrite (read_at k i Hi).
  unfold lmfs_find_file. fold (dir_find (block_at k) name). rewrite (Hno k) by lia. rewrite ret_bind. cbn [Z.eqb].
  change (get_data_block ?x ?y) with (Ret (lmfs_get_data_block x y)). rewrite Ret_bind, next_at by done.
  destruct (lm_ids s !! S k) as [j|] eqn:Ej; cbn [default from_option].
  - unfold id. assert (j <> 0) as Hj by exact (Forall_lookup_1 _ _ _ _ (nz_prefix_nz _) Ej).
    rewrite (proj2 (Z.eqb_neq j 0) Hj). apply IH; [done|lia|lia|]. intros c Hc. apply Hno. lia.
  - apply lookup_ge_None in Ej. replace (S k) with (length (lm_ids s)) by lia. done.
Qed.

(** The first block that has the name is the one with number [c]. *)
Lemma find_some m c j s1 a1 : dir_find (block_at c) name = Some j -> (c < length (lm_ids s))%nat ->
  lmfs_fill_fnode (lm_at s (Z.of_nat c)) (entry_index (dir_entry (block_at c) j)) = (s1, Some a1, 0) ->
  forall k i fuel a type, lm_ids s !! k = Some i -> (c - k <= m)%nat -> (k <= c)%nat -> (m < fuel)%nat ->
  (forall b, (k <= b < c)%nat -> dir_find (block_at b) name = None) ->
  find_in_blocks fuel (lm_at s (Z.of_nat k)) a type name i =
    Ret (s1, a1, Some (true, if negb (Z.land (a_type a1) type =? a_type a1) then - ENOTDIR else 0)).
Proof.
  intros Hc Hlt Hfill. induction m as [|m IH]; intros k i fuel a type Hi Hm Hle Hf Hno; destruct fuel as [|fuel]; try lia;
    cbn [find_in_blocks read_block lmfs_ops find_file lmfs_dir]; rewrite (read_at k i Hi); unfold lmfs_find_file;
    fold (dir_find (block_at k) name); (destruct (decide (k = c)) as [->|Hne]; [rewrite Hc, Hfill, ret_bind; done|]); [lia|].
  rewrite (Hno k) by lia. rewrite ret_bind. cbn [Z.eqb].
  change (get_data_block ?x ?y) with (Ret (lmfs_get_data_block x y)). rewrite Ret_bind, next_at by lia.
  destruct (lookup_lt_is_Some_2 (lm_ids s) (S k)) as [n Hk]; [lia|]. rewrite Hk. cbn [default from_option]. unfold id.
  assert (n <> 0) as Hnz by exact (Forall_lookup_1 _ _ _ _ (nz_prefix_nz _) Hk). rewrite (proj2 (Z.eqb_neq n 0) Hnz).
  apply IH; try done; try lia. intros b Hb. apply Hno. lia.
Qed.

Lemma start_here : lmfs_get_data_block s VFS_START_BLOCK = (s, default 0 (lm_ids s !! 0%nat)) /\ s = lm_at s (Z.of_nat 0).
Proof.
  destruct (lo_pos s Hs) as [E0 _]. pose proof (lo_cur s Hs) as Ec. rewrite Hpos in Ec. split.
  - unfold lmfs_get_data_block. change (VFS_START_BLOCK =? VFS_START_BLOCK) with true. cbv iota. rewrite E0, Hpos. cbn [Z.eqb andb].
    rewrite Ec. destruct (lookup_lt_is_Some_2 (lm_ids s) 0) as [i Hi]; [lia|]. rewrite Hi. f_equal. by rewrite <- (id_word s 0 i Hi).
  - clear Hs Hn. destruct s as [d ms sb n]. destruct n. unfold lm_at. cbn in *. by subst.
Qed.
End Directory.

(** An open directory of fewer than 1024 blocks that stands at its start. *)
Definition dir_at (s : lmfs_st) : Prop :=
  lm_ok s /\ pos_in_lvl1 (lnode s) = 0 /\ (0 < length (lm_ids s) < 1024)%nat.

(** The first entry with the name, in the order of the blocks, is the file [s1]. *)
Definition dir_step (s : lmfs_st) (name : list Z) (s1 : lmfs_st) (a1 : fattr) : Prop :=
  exists c j, (c < length (lm_ids s))%nat /\ dir_find (block_at s c) name = Some j /\
    (forall b, (b < c)%nat -> dir_find (block_at s b) name = None) /\
    lmfs_fill_fnode s (entry_index (dir_entry (block_at s c) j)) = (s1, Some a1, 0).

Definition dir_lacks (s : lmfs_st) (name : list Z) : Prop :=
  forall c, (c < length (lm_ids s))%nat -> dir_find (block_at s c) name = None.

(** The file that is opened does not depend on the block the directory stands at. *)
Lemma fill_at s k index s1 a1 : lmfs_fill_fnode s index = (s1, Some a1, 0) -> lmfs_fill_fnode (lm_at s k) index = (s1, Some a1, 0).
Proof.
  unfold lmfs_fill_fnode, init_data_block_info. change (fnode_location (lm_at s k) index) with (fnode_location s index).
  destruct (fnode_location s index) as [i j]. destruct ((i =? 0) && (j =? 0)); [done|].
  change (lmfs_read_block (lm_at s k)) with (lmfs_read_block s). destruct (lmfs_read_block s i) as [b|]; [|done].
  destruct (lmfs_read_block s (word_at _ _)) as [b'|err] eqn:Er; intros H; [by injection H as <- <-|]. exfalso.
  injection H as _ _ ->. unfold lmfs_read_block, read_sectors in Er. by destruct (_ <? _).
Qed.

(** One part of a name. *)
Lemma lookup_part s name a fuelb type : dir_at s -> part_ok name -> (length (lm_ids s) < fuelb)%nat ->
  exists i, lmfs_get_data_block s VFS_START_BLOCK = (s, i) /\ i <> 0 /\
  (dir_lacks s name -> find_in_blocks fuelb s a type name i = Ret (lm_at s (Z.of_nat (length (lm_ids s))), a, Some (false, 0))) /\
  (forall s1 a1, dir_step s name s1 a1 -> find_in_blocks fuelb s a type name i =
     Ret (s1, a1, Some (true, if negb (Z.land (a_type a1) type =? a_type a1) then - ENOTDIR else 0))).
Proof.
  intros (Hs & Hpos & Hn) (Hne & Hsl & _) Hf. destruct (start_here s Hs Hpos Hn) as [E0 Es].
  destruct (lookup_lt_is_Some_2 (lm_ids s) 0) as [i Hi]; [lia|]. rewrite Hi in E0. exists i. split; [done|].
  split; [exact (Forall_lookup_1 _ _ _ _ (nz_prefix_nz _) Hi)|]. split.
  - intros Hno. rewrite Es at 1. apply (find_none s name Hs Hn (length (lm_ids s)) 0 i); try done; try lia.
    intros c Hc. apply Hno. lia.
  - intros s1 a1 (c & j & Hc & Hj & Hfirst & Hfill). rewrite Es at 1.
    apply (find_some s name Hs Hn (length (lm_ids s)) c j s1 a1 Hj Hc (fill_at _ _ _ _ _ Hfill) 0 i); try done; try lia.
    intros b Hb. apply Hfirst. lia.
Qed.

(** From an open directory along the parts of a name to a file. *)
Inductive path_walk : lmfs_st -> list (list Z) -> lmfs_st -> fattr -> Prop :=
  | walk_last s p s1 a1 : dir_at s -> dir_step s p s1 a1 -> path_walk s [p] s1 a1
  | walk_cons s p ps s1 a1 s2 a2 : dir_at s -> dir_step s p s1 a1 -> a_type a1 = DT_DIR ->
      path_walk s1 ps s2 a2 -> path_walk s (p :: ps) s2 a2.

Definition wanted_type (flag : Z) (a : fattr) : Prop :=
  Z.land (a_type a) (part_type flag []) = a_type a.

Lemma find_name_join p ps : part_ok p -> Forall part_ok ps -> find_file_name (join (p :: ps)) = Some (p, join ps).
Proof.
  intros (Hne & Hs & _) Hps. destruct ps as [|q ps].
  - cbn [join]. unfold find_file_name. rewrite (split_slash_none p Hs). by destruct p.
  - change (join (p :: q :: ps)) with (p ++ slash :: join (q :: ps)). unfold find_file_name.
    rewrite (split_slash_app p _ Hs). by destruct p.
Qed.

Lemma join_nonempty p ps : part_ok p -> exists c r, join (p :: ps) = c :: r.
Proof. intros [Hne _]. destruct p as [|c p]; [done|]. destruct ps; by eexists _, _. Qed.

Lemma part_short p : part_ok p -> (INAME_SIZE <=? Z.of_nat (length p)) = false.
Proof. intros (_ & _ & H). apply Z.leb_gt. unfold INAME_SIZE. lia. Qed.

Lemma lookup_loop_walk s ps s' a' : path_walk s ps s' a' -> Forall part_ok ps ->
  forall fuel fuelb nb a flag ff, (length ps <= fuel)%nat -> (1024 <= fuelb)%nat -> wanted_type flag a' ->
  lookup_loop fuel fuelb nb s a flag ff (join ps) = Ret (nb, s', a', 0, true).
Proof.
  induction 1 as [s p s1 a1 D St|s p ps s1 a1 s2 a2 D St Hd W IH]; intros Hok fuel fuelb nb a flag ff Hf Hb Ht;
    apply Forall_cons in Hok as [Hp Hps]; (destruct fuel as [|fuel]; [simpl in Hf; lia|]); cbn [lookup_loop];
    rewrite (find_name_join p _ Hp Hps).
  - destruct (lookup_part s p a fuelb (part_type flag []) D Hp) as (i & E & Hi & _ & H1); [destruct D as (_ & _ & ?); lia|].
    change (get_data_block ?x ?y) with (Ret (lmfs_get_data_block x y)). rewrite Ret_bind, E, (part_short p Hp), (proj2 (Z.eqb_neq i 0) Hi).
    cbn [parse_name lmfs_dir]. rewrite ret_bind. change (join []) with (@nil Z). rewrite (H1 _ _ St), Ret_bind, Ht, Z.eqb_refl. cbn [negb Z.eqb]. rewrite orb_true_r. cbn [negb].
    by destruct fuel.
  - destruct (lookup_part s p a fuelb DT_DIR D Hp) as (i & E & Hi & _ & H1); [destruct D as (_ & _ & ?); lia|].
    change (get_data_block ?x ?y) with (Ret (lmfs_get_data_block x y)). rewrite Ret_bind, E, (part_short p Hp), (proj2 (Z.eqb_neq i 0) Hi).
    cbn [parse_name lmfs_dir]. rewrite ret_bind. assert (part_type flag (join ps) = DT_DIR) as ->.
    { inversion W; subst; apply Forall_cons in Hps as [Hq _]; (destruct (join_nonempty _ ps0 Hq) as (c & r & ->) || destruct (join_nonempty p0 [] Hq) as (c & r & ->)); done. }
    rewrite (H1 _ _ St), Ret_bind, Hd. cbn [negb Z.eqb Z.land DT_DIR]. rewrite orb_true_r. cbn [negb].
    apply IH; [done|simpl in Hf; lia|done|done].
Qed.

(** ** Buffers for parts of names *)

(** A buffer taken and given back leaves all eight as they were. *)
Lemma iname_get_put nb nb1 i : get_iname_buffer nb = (nb1, Some i) ->
  0 <= i < 8 /\ read_bit nb iname_buffer i = 0 /\ read_bit nb1 iname_buffer i = 1 /\
  forall k, 0 <= k < 8 -> read_bit (put_iname_buffer nb1 i) iname_buffer k = read_bit nb iname_buffer k.
Proof.
  unfold get_iname_buffer. destruct (zfirst _ _ _) as [j|] eqn:E; [|done]. intros H. injection H as <- <-.
  apply zfirst_Some in E as (Hr & Hz%Z.eqb_eq & _). change (0 + Z.of_nat (Z.to_nat INAME_NR)) with 8 in Hr.
  assert (iname_buffer <> 0) as Hm by done. assert (read_bit (set_bit nb iname_buffer j) iname_buffer j = 1) as H1.
  { by rewrite read_bit_spec, bit_at_set, decide_True by done. }
  split; [done|]. split; [done|]. split; [done|]. intros k Hk. unfold put_iname_buffer. rewrite H1. cbn [Z.eqb].
  rewrite !read_bit_spec in * by done. rewrite bit_at_clear, bit_at_set by done.
  destruct (decide (u32 j = u32 k)) as [Ek|]; [|done]. rewrite !u32_small in Ek by lia. by subst.
Qed.

Lemma iname_free nb k : 0 <= k < 8 -> read_bit nb iname_buffer k = 0 -> exists nb1 i, get_iname_buffer nb = (nb1, Some i).
Proof.
  intros Hk Hz. unfold get_iname_buffer. destruct (zfirst _ _ _) as [i|] eqn:E; [by eexists _, _|].
  pose proof (zfirst_None _ _ _ E k) as H. change (0 + Z.of_nat (Z.to_nat INAME_NR)) with 8 in H. specialize (H Hk).
  cbv beta in H. by rewrite Hz in H.
Qed.


(** A name whose first part no block of the directory has gives ENOENT, keeps the
    attributes of the directory, and gives the buffer back. *)
Theorem lookup_missing nb k s p ps a flag fuel fuelb (D : dir_at s) (Hl : dir_lacks s p) (Hp : Forall part_ok (p :: ps))
    (Hb : (1024 <= fuelb)%nat) (Hk : 0 <= k < 8) (Hfree : read_bit nb iname_buffer k = 0) :
  exists nb', __get_file_fnode (S fuel) fuelb nb s a flag (join (p :: ps)) =
      Ret (nb', lm_at s (Z.of_nat (length (lm_ids s))), a, - ENOENT) /\
    forall i, 0 <= i < 8 -> read_bit nb' iname_buffer i = read_bit nb iname_buffer i.
Proof.
  apply Forall_cons in Hp as [Hp Hps]. destruct (iname_free nb k Hk Hfree) as (nb1 & i & E).
  unfold __get_file_fnode. rewrite E. cbn [lookup_loop]. rewrite (find_name_join p ps Hp Hps).
  destruct (lookup_part s p a fuelb (part_type flag (join ps)) D Hp) as (b & Eb & Hb0 & H1 & _); [destruct D as (_ & _ & ?); lia|].
  change (get_data_block ?x ?y) with (Ret (lmfs_get_data_block x y)). rewrite Ret_bind, Eb, (part_short p Hp), (proj2 (Z.eqb_neq b 0) Hb0).
  cbn [parse_name lmfs_dir]. rewrite ret_bind, (H1 Hl), Ret_bind. cbn [negb Z.eqb orb]. rewrite ret_bind.
  eexists. split; [done|]. by apply iname_get_put.
Qed.

Module DirDemo.
(** A directory with the entries d, a directory without entries, and f. *)
Definition entry (name index : Z) : list Z := [name] ++ replicate 251 0 ++ word_bytes index.
Definition entry_words (type table : Z) (off : nat) : list Z := <[2%nat := type]> (<[off := table]> (replicate 128 0)).
Definition disk : sectors := disk_of [
  (10, entry 100 9 ++ entry 102 10 ++ replicate 3584 0);
  (4, le_bytes (entry_words 4 30 96 ++ replicate 896 0));
  (5, le_bytes (replicate 128 0 ++ entry_words 4 31 96 ++ entry_words 6 33 64 ++ replicate 640 0));
  (30, le_bytes ([10] ++ replicate 1023 0)); (31, le_bytes ([20] ++ replicate 1023 0)); (20, entry 120 10 ++ replicate 3840 0);
  (33, le_bytes ([21] ++ replicate 1023 0)); (21, replicate 4096 7)].
Definition base : lmfs_st := LmfsSt disk (Bdev 0 16008 16000 0) LmfsDemo.sb (LmfsFnode 0 [] [] 0 0 0 0 0 0).
Definition fs : lmfs_st := fst (fst (lmfs_fill_fnode base 0)).
Definition sub : lmfs_st := fst (fst (lmfs_fill_fnode base 9)).
Definition attr : fattr := FAttr 0 0 4 0 0 4096 0.
Definition file_attr : fattr := FAttr 0 0 6 0 0 4096 0.
Definition file : lmfs_st := fst (fst (lmfs_fill_fnode base 10)).

Lemma dir_ids : lm_ids fs = [10] /\ lm_ids sub = [20].
Proof. by vm_compute. Qed.

(** A directory of one block. *)
Lemma one_block (s : lmfs_st) i : lm_ids s = [i] -> length (lvl1 (lnode s)) = 1024%nat ->
  pos_in_lvl0 (lnode s) = 0 -> pos_in_lvl1 (lnode s) = 0 -> l_current_block (lnode s) = word_at (lvl1 (lnode s)) 0 ->
  0 < i -> i * 8 <= lmax s < 4294967296 -> length (lm_block s i) = 4096%nat -> dir_at s.
Proof.
  intros Hi Hl H0 H1 Hc Hp Hm Hb. split; [split|]; rewrite ?Hi, ?H0, ?H1; try done.
  - apply NoDup_singleton.
  - by intros j ->%list_elem_of_singleton.
  - split; [done|]. simpl. lia.
Qed.

Lemma dir_ok : dir_at fs /\ dir_at sub.
Proof.
  split; [apply (one_block fs 10 (proj1 dir_ids))|apply (one_block sub 20 (proj2 dir_ids))]; by vm_compute.
Qed.

Lemma walk : path_walk fs [[100]; [120]] file file_attr.
Proof.
  apply (walk_cons fs [100] [[120]] sub attr file file_attr (proj1 dir_ok)).
  - exists 0%nat, 0. split; [rewrite (proj1 dir_ids); simpl; lia|].
    split; [by vm_compute|].
    split; [intros b Hb; lia|].
    by vm_compute.
  - done.
  - apply (walk_last sub [120] file file_attr (proj2 dir_ok)). exists 0%nat, 0. split; [rewrite (proj2 dir_ids); simpl; lia|].
    split; [by vm_compute|].
    split; [intros b Hb; lia|].
    by vm_compute.
Qed.

Lemma parts_ok (l : list Z) : Forall (fun c => c <> slash) l -> l <> [] -> (length l < 512)%nat -> part_ok l.
Proof. intros H Hn Hl. split; [done|]. split; [|done]. intros Hs. by apply (proj1 (Forall_forall _ _) H slash Hs). Qed.
End DirDemo.


Lemma lookup_missing_witness :
  exists nb', __get_file_fnode 1 1024 init_iname_buffer DirDemo.fs DirDemo.attr 0 [121] =
      Ret (nb', lm_at DirDemo.fs 1, DirDemo.attr, - ENOENT) /\
    forall i, 0 <= i < 8 -> read_bit nb' iname_buffer i = read_bit init_iname_buffer iname_buffer i.
Proof.
  apply (lookup_missing init_iname_buffer 0 DirDemo.fs [121] [] DirDemo.attr 0 0 1024);
    [exact (proj1 DirDemo.dir_ok)| |repeat constructor; apply DirDemo.parts_ok; (done || (simpl; lia) || by repeat constructor)|lia|lia|by vm_compute].
  intros c Hc. rewrite (proj1 DirDemo.dir_ids) in Hc. assert (c = 0%nat) as -> by (simpl in Hc; lia). by vm_compute.
Defined.

(** The second part of d/y is in no block, but the first one was found: the lookup reports
    no error and gives the attributes of d. *)
Theorem missing_file_found :
  match __get_file_fnode 2 3 init_iname_buffer DirDemo.fs DirDemo.attr 0 [100; slash; 121] with
  | Ret (_, _, a, err) => err = 0 /\ a_type a = DT_DIR
  | _ => False
  end.
Proof. by vm_compute. Qed.

(** Also where the lookup reports an error the file is opened: the directory itself. *)
Theorem missing_file_opened :
  match _get_file_fnode 2 3 init_iname_buffer DirDemo.fs DirDemo.attr 0 [121] with
  | Ret (_, _, Some a) => a_type a = DT_DIR
  | _ => False
  end.
Proof. by vm_compute. Qed.

(** A lookup that ends in the middle keeps its buffer: eight of them, and no name is found
    any more. *)
Theorem iname_buffers_leak :
  let bad := set_node DirDemo.fs (LmfsFnode 0 (replicate 1024 0) [] 32 0 0 0 0 0) in
  let try nb := match __get_file_fnode 1 3 nb bad DirDemo.attr 0 [102] with Ret (nb, _, _, _) => nb | _ => nb end in
  match __get_file_fnode 1 3 (Nat.iter 8 try init_iname_buffer) DirDemo.fs DirDemo.attr 0 [102] with
  | Ret (_, _, _, err) => err = - EAGAIN
  | _ => False
  end.
Proof. by vm_compute. Qed.
