(* ===== verification/Mklmfs.v ===== *)
(** * The tool that makes images of LMFS (tools/mklmfs/mklmfs.c)

    The image is memory of [MAX_SIZE] bytes, kept as the sectors of [Disk]; the super block
    and the pools of free numbers are words of it.  The directory to pack is a [listing]:
    what the calls of [readdir] give, with the contents of the files and the listings of
    the directories.  Memory is there; a write outside the image is a fault. *)

From S2P Require Import Prelude CString Disk Vfs Lmfs Path.

Definition MAX_SIZE : Z := 1048576.
Definition MAX_FILE : Z := 32.
Definition BLOCK_SIZE : Z := 4096.
Definition EACCES : Z := 13.

(** ** Words of the image *)

Definition get_word (d : sectors) (a : Z) : Z := word_at (le_words (sector d (a / 512))) (a mod 512 / 4).
Definition set_word (d : sectors) (a v : Z) : sectors :=
  <[a / 512 := le_bytes (<[Z.to_nat (a mod 512 / 4) := u32 v]> (le_words (sector d (a / 512))))]> d.

(** Bytes of the image; the super block is at 0. *)
Record lmfs_address := LmfsAddress {
  p_ib : Z; p_db : Z; p_inode : Z; p_data : Z; ib_size : Z; db_size : Z; inode_size : Z }.

(** Members of the super block, by the number of their word. *)
Definition sb_get (d : sectors) (k : Z) : Z := get_word d (4 * k).
Definition sb_set (d : sectors) (k v : Z) : sectors := set_word d (4 * k) v.
Definition sb_ib_start : Z := 4.
Definition sb_ib_current : Z := 5.
Definition sb_ib_pos : Z := 6.
Definition sb_db_start : Z := 8.
Definition sb_db_current : Z := 9.
Definition sb_db_pos : Z := 10.
Definition sb_inode_start : Z := 12.
Definition sb_inode_free : Z := 13.
Definition sb_data_free : Z := 17.

(** ** Formatting *)

Fixpoint init_buffer_pool (d : sectors) (addr base : Z) (count : nat) : sectors :=
  match count with
  | O => d
  | S n => init_buffer_pool (set_word d addr (base + Z.of_nat count - 1)) (addr + 4) base n
  end.

Definition init_super_block (d : sectors) (p : lmfs_address) (data_start free_block block_cnt : Z) : sectors :=
  let d := set_word d 0 (word_at (le_words lmfs_magic) 0) in
  let d := sb_set (sb_set (sb_set d 1 block_cnt) 2 0) 3 BLOCK_SIZE in
  let ib_start := p_ib p / BLOCK_SIZE in
  let d := sb_set d sb_ib_start ib_start in
  let d := sb_set d sb_ib_current (baligin (MAX_FILE * 4) BLOCK_SIZE / BLOCK_SIZE - 1 + ib_start) in
  let d := sb_set d sb_ib_pos (MAX_FILE - 2) in
  let d := sb_set d 7 (ib_size p / BLOCK_SIZE) in
  let d := init_buffer_pool d (p_ib p) 1 (Z.to_nat (MAX_FILE - 1)) in
  let db_start := p_db p / BLOCK_SIZE in
  let d := sb_set d sb_db_start db_start in
  let d := sb_set d sb_db_current (baligin (free_block * 4) BLOCK_SIZE / BLOCK_SIZE - 1 + db_start) in
  let d := sb_set d sb_db_pos (free_block - 1) in
  let d := sb_set d 11 (db_size p / BLOCK_SIZE) in
  let d := init_buffer_pool d (p_db p) data_start (Z.to_nat free_block) in
  let d := sb_set d sb_inode_start (p_inode p / BLOCK_SIZE) in
  let d := sb_set (sb_set d sb_inode_free MAX_FILE) 15 MAX_FILE in
  let d := sb_set d 14 (inode_size p / BLOCK_SIZE) in
  sb_set (sb_set (sb_set d 16 data_start) sb_data_free free_block) 18 0.

(** The size of the pool of blocks is computed from the number of files. *)
Definition format_disk (d : sectors) (files : Z) : sectors * lmfs_address :=
  let block_cnt := MAX_SIZE / BLOCK_SIZE in
  let sb_size := BLOCK_SIZE in
  let ib_size := baligin (4 * files) BLOCK_SIZE in
  let inode_size := baligin (512 * files) BLOCK_SIZE in
  let db_size := baligin (4 * files) BLOCK_SIZE in
  let p := LmfsAddress sb_size (sb_size + ib_size) (sb_size + ib_size + db_size)
             (sb_size + ib_size + db_size + inode_size) ib_size db_size inode_size in
  let data_start_block := p_data p / BLOCK_SIZE in
  (init_super_block d p data_start_block (block_cnt - data_start_block) block_cnt, p).

(** ** Free numbers *)

Definition in_image (a n : Z) : bool := (0 <=? a) && (a + n <=? MAX_SIZE).

(** Both pools are taken from in the same way: [cur], [pos] and [start] are the words of the
    super block, [base] the place of the pool; [free] is counted down. *)
Definition pop (d : sectors) (base start cur pos free : Z) : outcome (sectors * Z) :=
  if (sb_get d pos =? 1023) && (sb_get d cur =? u32 (sb_get d start - 1)) then mret (d, - ENOSPC)
  else
    let a := base + 4 * u32 (u32 (sb_get d cur - sb_get d start) * 1024) + 4 * sb_get d pos in
    if in_image a 4 then
      let v := get_word d a in
      let d := set_word d a 0 in
      let d := if sb_get d pos =? 0 then sb_set (sb_set d pos 1023) cur (sb_get d cur - 1)
               else sb_set d pos (sb_get d pos - 1) in
      mret (sb_set d free (sb_get d free - 1), v)
    else Fault.
Definition pop_inode (d : sectors) (p : lmfs_address) : outcome (sectors * Z) :=
  '(d, v) ← pop d (p_ib p) sb_ib_start sb_ib_current sb_ib_pos sb_inode_free; mret (d, s32 v).
Definition pop_block (d : sectors) (p : lmfs_address) : outcome (sectors * Z) :=
  '(d, v) ← pop d (p_db p) sb_db_start sb_db_current sb_db_pos sb_data_free; mret (d, u32 v).

(** ** Buffers of files *)

Definition zero_data : list Z := replicate 4096 0.
Definition zero_table : list Z := replicate 1024 0.

(** [fb_entry] has the 128 words of the inode, [fb_block_buffer] 1024 words; [fb_lvl0] is the
    word of the inode where the table [lvl0_buf] starts. *)
Record file_buffer := FileBuffer {
  fb_entry : list Z; fb_inode : Z; fb_lvl1_pos : Z; fb_lvl0_pos : Z; fb_data_pos : Z; fb_data : Z; fb_lvl1 : Z;
  fb_block_buffer : list Z; fb_data_buffer : list Z; fb_lvl0 : Z }.

Definition allocate_file_buffer : file_buffer :=
  FileBuffer (replicate 128 0) 0 0 0 0 0 0 zero_table zero_data 0.

Definition TYPE_FILE : Z := 0.
Definition TYPE_DIR : Z := 1.

Definition init_file_buffer (fb : file_buffer) (type : Z) : file_buffer :=
  FileBuffer (fb_entry fb) (fb_inode fb) 0 0 0 0 0 (fb_block_buffer fb) (fb_data_buffer fb) (if type =? TYPE_FILE then 64 else 96).

Definition set_entry (fb : file_buffer) (e : list Z) : file_buffer :=
  FileBuffer e (fb_inode fb) (fb_lvl1_pos fb) (fb_lvl0_pos fb) (fb_data_pos fb) (fb_data fb) (fb_lvl1 fb)
    (fb_block_buffer fb) (fb_data_buffer fb) (fb_lvl0 fb).
Definition set_inode (fb : file_buffer) (i : Z) : file_buffer :=
  FileBuffer (fb_entry fb) i (fb_lvl1_pos fb) (fb_lvl0_pos fb) (fb_data_pos fb) (fb_data fb) (fb_lvl1 fb)
    (fb_block_buffer fb) (fb_data_buffer fb) (fb_lvl0 fb).
Definition set_fb_pos (fb : file_buffer) (p1 p0 dp : Z) : file_buffer :=
  FileBuffer (fb_entry fb) (fb_inode fb) p1 p0 dp (fb_data fb) (fb_lvl1 fb) (fb_block_buffer fb) (fb_data_buffer fb) (fb_lvl0 fb).
Definition set_data (fb : file_buffer) (blk : Z) (b : list Z) : file_buffer :=
  FileBuffer (fb_entry fb) (fb_inode fb) (fb_lvl1_pos fb) (fb_lvl0_pos fb) (fb_data_pos fb) blk (fb_lvl1 fb)
    (fb_block_buffer fb) b (fb_lvl0 fb).
Definition set_lvl1 (fb : file_buffer) (blk : Z) (ws : list Z) : file_buffer :=
  FileBuffer (fb_entry fb) (fb_inode fb) (fb_lvl1_pos fb) (fb_lvl0_pos fb) (fb_data_pos fb) (fb_data fb) blk
    ws (fb_data_buffer fb) (fb_lvl0 fb).

Definition entry_set (fb : file_buffer) (k v : Z) : file_buffer := set_entry fb (<[Z.to_nat k := u32 v]> (fb_entry fb)).
Definition entry_add (fb : file_buffer) (k v : Z) : file_buffer := entry_set fb k (word_at (fb_entry fb) k + v).

Definition e_size : Z := 7.
Definition e_file_nr : Z := 8.
Definition e_block_nr : Z := 9.
Definition e_pos_in_lvl1 : Z := 10.
Definition e_pos_in_lvl0 : Z := 11.

(** [type] is never [TYPE_DIR]: directories have the type [DT_DIR]. *)
Definition init_inode_entry (fb : file_buffer) (type : Z) : file_buffer :=
  let size := if type =? TYPE_DIR then 4096 else 0 in
  set_entry fb (map u32 [type; type; type; 0x19700101; 0; 0; 0x1234; size; 0; 0; 0; 0] ++ drop 12 (fb_entry fb)).

(** ** Writing *)

Definition flush_data (d : sectors) (b : list Z) (block : Z) : outcome sectors :=
  let a := u32 (block * 4096) in
  if in_image a 4096 then mret (memdisk_write_sectors d b (a / 512) 8) else Fault.
Definition flush_if (d : sectors) (b : list Z) (block : Z) : outcome sectors :=
  if negb (block =? 0) then flush_data d b block else mret d.

Definition write_sector (d : sectors) (b : list Z) (sector : Z) : outcome sectors :=
  if in_image (sector * 512) 512 then mret (memdisk_write_sectors d b sector 1) else Fault.

Definition inode_to_sector (d : sectors) (inode : Z) : Z := s32 (sb_get d sb_inode_start * 8 + inode).

Definition write_inode (d : sectors) (fb : file_buffer) : outcome sectors :=
  let fb := entry_set (entry_set fb e_pos_in_lvl1 (fb_lvl1_pos fb)) e_pos_in_lvl0 (fb_lvl0_pos fb) in
  d ← flush_if d (fb_data_buffer fb) (fb_data fb);
  d ← flush_if d (le_bytes (fb_block_buffer fb)) (fb_lvl1 fb);
  write_sector d (le_bytes (fb_entry fb)) (inode_to_sector d (fb_inode fb)).

(** The start of a data block, in [write_file] and in [write_entry_to_dir]: the full buffers
    go to their blocks, and a new data block is entered into the table.  The tests for 0 do
    not see the error of [pop_block]. *)
Definition new_data_block (d : sectors) (p : lmfs_address) (fb : file_buffer) : outcome (sectors * file_buffer * Z) :=
  if negb (fb_data_pos fb =? 0) then mret (d, fb, 0)
  else
    d ← flush_if d (fb_data_buffer fb) (fb_data fb);
    '(d, data) ← pop_block d p;
    if data =? 0 then mret (d, set_data fb 0 (fb_data_buffer fb), - ENOSPC)
    else
      let fb := set_data fb data zero_data in
      '(d, fb, err) ←
        (if fb_lvl1_pos fb =? 0 then
           d ← flush_if d (le_bytes (fb_block_buffer fb)) (fb_lvl1 fb);
           '(d, lvl1) ← pop_block d p;
           if lvl1 =? 0 then mret (d, set_lvl1 fb 0 (fb_block_buffer fb), - ENOSPC)
           else
             let fb := set_lvl1 fb lvl1 zero_table in
             if fb_lvl0_pos fb =? 32 then mret (d, fb, - ENOSPC)
             else mret (d, entry_set fb (fb_lvl0 fb + fb_lvl0_pos fb) lvl1, 0)
         else mret (d, fb, 0));
      if negb (err =? 0) then mret (d, fb, err)
      else
        let fb := entry_add fb e_block_nr 1 in
        mret (d, set_lvl1 fb (fb_lvl1 fb) (<[Z.to_nat (fb_lvl1_pos fb) := data]> (fb_block_buffer fb)), 0).

(** [content] is what is left to read; a file is written from the start of its buffer. *)
Fixpoint write_loop (fuel : nat) (d : sectors) (p : lmfs_address) (fb : file_buffer) (content : list Z)
  : outcome (sectors * file_buffer * Z) :=
  match fuel with
  | O => NoFuel
  | S fuel =>
    '(d, fb, err) ← new_data_block d p fb;
    if negb (err =? 0) then mret (d, fb, err)
    else
      let chunk := take (Z.to_nat 4096) content in
      let read_size := Z.of_nat (length chunk) in
      if 0 <? read_size then
        let fb := set_data fb (fb_data fb) (chunk ++ drop (length chunk) (fb_data_buffer fb)) in
        let pos := fb_data_pos fb + read_size in
        let fb :=
          if pos =? 4096 then
            if fb_lvl1_pos fb + 1 =? 1024 then set_fb_pos fb 0 (fb_lvl0_pos fb + 1) 0
            else set_fb_pos fb (fb_lvl1_pos fb + 1) (fb_lvl0_pos fb) 0
          else set_fb_pos fb (fb_lvl1_pos fb) (fb_lvl0_pos fb) pos in
        let fb := entry_add fb e_size read_size in
        if read_size <? 4096 then mret (d, fb, 0) else write_loop fuel d p fb (drop (Z.to_nat 4096) content)
      else mret (d, fb, 0)
  end.

Definition write_file (d : sectors) (p : lmfs_address) (fb : file_buffer) (content : list Z) : outcome (sectors * file_buffer * Z) :=
  '(d, fb, err) ← write_loop (S (length content)) d p fb content;
  if negb (err =? 0) then mret (d, fb, err)
  else d ← write_inode d fb; mret (d, fb, 0).

(** ** Directories *)

Definition update_bitmap (dir : file_buffer) : outcome file_buffer :=
  let n := word_at (fb_entry dir) e_file_nr - 1 in
  let x := n / 32 in
  let y := n mod 32 in
  if (0 <=? x) && (x <? 64) then mret (entry_set dir (64 + x) (Z.lor (word_at (fb_entry dir) (64 + x)) (Z.shiftl 1 y)))
  else Fault.

(** Behind the last entry of a block the number of the table is raised, not the position
    in it. *)
Definition write_entry_to_dir (d : sectors) (p : lmfs_address) (dir : file_buffer) (name : list Z) (inode type : Z)
  : outcome (sectors * file_buffer * Z) :=
  '(d, dir, err) ← new_data_block d p dir;
  if negb (err =? 0) then mret (d, dir, err)
  else
    let pos := fb_data_pos dir in
    if 4096 <? pos + Z.of_nat (length name) + 1 then Fault
    else
      let b := patch (fb_data_buffer dir) pos (name ++ [0]) in
      let b := patch (patch b (pos + 248) (word_bytes (u32 type))) (pos + 252) (word_bytes (u32 inode)) in
      let dir := set_data dir (fb_data dir) b in
      let dir :=
        if pos + 256 =? 4096 then
          let lvl1 := u32 (fb_lvl1 dir + 1) in
          set_fb_pos (set_lvl1 dir (if lvl1 =? 1024 then 0 else lvl1) (fb_block_buffer dir)) (fb_lvl1_pos dir) (fb_lvl0_pos dir) 0
        else set_fb_pos dir (fb_lvl1_pos dir) (fb_lvl0_pos dir) (pos + 256) in
      dir ← update_bitmap (entry_add dir e_file_nr 1);
      mret (d, dir, 0).

(** What [readdir] gives: files with their contents, none if they cannot be opened, and
    directories, which may not be opened either. *)
Inductive listing :=
  | End
  | File (name : list Z) (content : option (list Z)) (rest : listing)
  | Dir (name : list Z) (opened : bool) (sub rest : listing).

(** . and .. *)
Definition skipped (name : list Z) : bool := bool_decide (name = [dot]) || bool_decide (name = [dot; dot]).

(** The name of an entry in the buffer of 1024 bytes. *)
Definition entry_path (dir_name name : list Z) : list Z :=
  dir_name ++ (if bool_decide (last dir_name = Some slash) then [] else [slash]) ++ name.

Definition new_dir (inode : Z) : file_buffer :=
  init_inode_entry (set_inode (init_file_buffer allocate_file_buffer DT_DIR) inode) DT_DIR.

(** The loop of [create_files]; the flag tells that it did not leave the function.  The
    results of the calls are not looked at. *)
Fixpoint read_entries (d : sectors) (p : lmfs_address) (dir_name : list Z) (bdir bfile : file_buffer) (l : listing)
  : outcome (sectors * file_buffer * bool) :=
  match l with
  | End => mret (d, bdir, true)
  | File name content rest =>
    if skipped name then read_entries d p dir_name bdir bfile rest
    else
      '(d, finode) ← pop_inode d p;
      if finode =? 0 then mret (d, bdir, false)
      else if 1023 <? Z.of_nat (length (entry_path dir_name name)) then Fault
      else
        '(d, bdir, _) ← write_entry_to_dir d p bdir name finode DT_BLK;
        let bfile := init_inode_entry (set_inode (init_file_buffer bfile TYPE_FILE) finode) DT_BLK in
        match content with
        | None => read_entries d p dir_name bdir bfile rest
        | Some c => '(d, bfile, _) ← write_file d p bfile c; read_entries d p dir_name bdir bfile rest
        end
  | Dir name opened sub rest =>
    if skipped name then read_entries d p dir_name bdir bfile rest
    else
      '(d, finode) ← pop_inode d p;
      if finode =? 0 then mret (d, bdir, false)
      else if 1023 <? Z.of_nat (length (entry_path dir_name name)) then Fault
      else
        '(d, bdir, _) ← write_entry_to_dir d p bdir name finode DT_DIR;
        d ←
          (if opened : bool then
             '(d, sdir, ok) ← read_entries d p (entry_path dir_name name) (new_dir finode) allocate_file_buffer sub;
             if ok : bool then write_inode d sdir else mret d
           else mret d);
        read_entries d p dir_name bdir bfile rest
  end.

Definition create_files (d : sectors) (p : lmfs_address) (dir_name : list Z) (opened : bool) (l : listing) (inode : Z)
  : outcome (sectors * Z) :=
  if opened then
    '(d, bdir, ok) ← read_entries d p dir_name (new_dir inode) allocate_file_buffer l;
    d ← (if ok : bool then write_inode d bdir else mret d);
    mret (d, 0)
  else mret (d, - EACCES).

Definition _mklmfs (dir_name : list Z) (opened : bool) (l : listing) : outcome (sectors * Z) :=
  let '(d, p) := format_disk ∅ MAX_FILE in create_files d p dir_name opened l 0.

(** The bytes of the image file, none when there was an error. *)
Definition mklmfs (dir_name : list Z) (opened : bool) (l : listing) : outcome (option (list Z)) :=
  '(d, err) ← _mklmfs dir_name opened l;
  mret (if negb (err =? 0) then None else Some (memdisk_read_sectors d 0 (Z.to_nat (MAX_SIZE / 512)))).
