(* ===== verification/MklmfsSpec.v ===== *)
(** * Images made by mklmfs, read by the kernel (tools/mklmfs/mklmfs.c, fs/lmfs.c)

    The pools of a formatted image give out consecutive numbers, so what the tool writes
    for a file or a directory is in a range of inodes and blocks of its own; [stored]
    states that the image has a listing.  The kernel mounts such an image, finds every
    file by its path and reads its contents. *)

From S2P Require Import Prelude Bitops CString Disk Vfs VfsSpec Lmfs LmfsSpec Path PathSpec Mklmfs.

(** ** Words of the image *)

Definition byte (c : Z) : Prop := 0 <= c < 256.

(** The sectors of the super block and the pools have bytes. *)
Record meta (d : sectors) : Prop := {
  me_wf : disk_wf d;
  me_bytes : forall i, 0 <= i < 24 -> Forall byte (sector d i) }.

Lemma le_words_range b : Forall byte b -> Forall (fun w => 0 <= w < 4294967296) (le_words b).
Proof.
  remember (length b) as n eqn:E. revert b E. induction n as [n IH] using lt_wf_ind. intros b -> Hb.
  destruct b as [|x0 [|x1 [|x2 [|x3 b]]]]; try by constructor. cbn [le_words].
  apply Forall_cons in Hb as [H0 Hb]. apply Forall_cons in Hb as [H1 Hb]. apply Forall_cons in Hb as [H2 Hb].
  apply Forall_cons in Hb as [H3 Hb]. unfold byte in *. constructor; [lia|]. eapply IH; [|done|done]. simpl. lia.
Qed.

Lemma length_le_words b n : length b = (4 * n)%nat -> length (le_words b) = n.
Proof.
  revert b. induction n as [|n IH]; intros b Hb; [by destruct b|].
  destruct b as [|x0 [|x1 [|x2 [|x3 b]]]]; simpl in Hb; try lia. cbn [le_words length]. f_equal. apply IH. lia.
Qed.

Lemma le_bytes_bytes ws : Forall byte (le_bytes ws).
Proof.
  unfold le_bytes. induction ws as [|w ws IH]; [constructor|]. cbn [map concat]. apply Forall_app. split; [|done].
  unfold word_bytes. repeat constructor; apply Z.mod_pos_bound; lia.
Qed.

Section Words.
Context (d : sectors) (M : meta d) (a : Z) (Ha : 0 <= a < 12288) (H4 : a mod 4 = 0).

Lemma sector_of : 0 <= a / 512 < 24.
Proof using Ha. split; [apply Z.div_pos; lia|apply Z.div_lt_upper_bound; lia]. Qed.

Lemma meta_words i : 0 <= i < 24 -> length (le_words (sector d i)) = 128%nat /\ Forall (fun w => 0 <= w < 4294967296) (le_words (sector d i)).
Proof using M. intros Hi. split; [apply length_le_words; by rewrite (me_wf d M)|by apply le_words_range, (me_bytes d M)]. Qed.

Lemma set_words v : le_words (sector (set_word d a v) (a / 512)) = <[Z.to_nat (a mod 512 / 4) := u32 v]> (le_words (sector d (a / 512))).
Proof using M Ha.
  unfold set_word. rewrite sector_insert_eq. destruct (meta_words _ sector_of) as [_ H]. apply le_words_bytes.
  apply Forall_insert; [done|]. apply u32_range.
Qed.

Lemma set_sector v i : i <> a / 512 -> sector (set_word d a v) i = sector d i.
Proof. intros H. by apply sector_insert_ne. Qed.

Lemma set_meta v : meta (set_word d a v).
Proof using M Ha.
  destruct (meta_words _ sector_of) as [Hl _]. split.
  - apply insert_wf; [apply (me_wf d M)|]. rewrite length_le_bytes, length_insert, Hl. done.
  - intros i Hi. destruct (decide (i = a / 512)) as [->|Hne]; [|rewrite set_sector by done; by apply (me_bytes d M)].
    unfold set_word. rewrite sector_insert_eq. apply le_bytes_bytes.
Qed.

Lemma get_set v b : 0 <= b < 12288 -> b mod 4 = 0 -> get_word (set_word d a v) b = if decide (a = b) then u32 v else get_word d b.
Proof using M Ha H4.
  intros Hb Hb4. unfold get_word. destruct (decide (b / 512 = a / 512)) as [E|E].
  - rewrite E, set_words. destruct (meta_words _ sector_of) as [Hl _].
    pose proof (Z.mod_pos_bound a 512). assert (a mod 512 / 4 < 128) by (apply Z.div_lt_upper_bound; lia).
    unfold word_at. destruct (decide (a = b)) as [<-|Hne].
    + rewrite list_lookup_insert_eq; [done|]. lia.
    + rewrite list_lookup_insert_ne; [done|]. intros Eq. apply Hne.
      pose proof (Z.div_mod a 512). pose proof (Z.div_mod b 512). pose proof (Z.mod_pos_bound b 512).
      assert (0 <= a mod 512 / 4) by (apply Z.div_pos; lia). assert (0 <= b mod 512 / 4) by (apply Z.div_pos; lia).
      assert (a mod 512 / 4 = b mod 512 / 4) by lia. assert (a mod 512 mod 4 = 0 /\ b mod 512 mod 4 = 0).
      { rewrite <- !Znumtheory.Zmod_div_mod; try lia; by exists 128. }
      pose proof (Z.div_mod (a mod 512) 4). pose proof (Z.div_mod (b mod 512) 4). lia.
  - rewrite set_sector by done. rewrite decide_False by congruence. done.
Qed.
End Words.

(** ** Pools *)

(** The numbers from [next] up to [top] are free; they are in the words of the pool at
    [base], the next one on top. *)
Record pool (d : sectors) (base start cur pos st top next : Z) : Prop := {
  pl_start : sb_get d start = st;
  pl_cur : sb_get d cur = if next =? top then st - 1 else st;
  pl_pos : sb_get d pos = if next =? top then 1023 else top - next - 1;
  pl_word : forall i, 0 <= i < top - next -> get_word d (base + 4 * i) = top - 1 - i }.

(** Everything but the words of one pool is as before. *)
Definition pool_frame (d d' : sectors) (base cur pos free : Z) : Prop :=
  (forall i, 24 <= i -> sector d' i = sector d i) /\
  (forall a, 0 <= a < 12288 -> a mod 4 = 0 -> ~ base <= a < base + 4096 -> a <> 4 * cur -> a <> 4 * pos -> a <> 4 * free ->
     get_word d' a = get_word d a).

Lemma pop_next d base start cur pos free st top next : meta d -> pool d base start cur pos st top next ->
  4096 <= base <= 8192 -> base mod 4096 = 0 -> 0 <= start < 32 -> 0 <= cur < 32 -> 0 <= pos < 32 -> 0 <= free < 32 ->
  start <> cur -> start <> pos -> start <> free -> cur <> pos -> cur <> free -> pos <> free ->
  0 < st < 256 -> 0 < next < top -> top - next < 1024 -> top <= 256 ->
  exists d', pop d base start cur pos free = Ret (d', next) /\ meta d' /\ pool d' base start cur pos st top (next + 1) /\
    pool_frame d d' base cur pos free.
Proof.
  intros M [Ps Pc Pp Pw] Hb Hb4 R1 R2 R3 R4 N1 N2 N3 N4 N5 N6 Hst Hn Hr Ht.
  assert (forall k, 0 <= k -> (base + 4 * k) mod 4 = 0) as B4.
  { intros k _. replace (base + 4 * k) with ((base / 4096 * 1024 + k) * 4) by (pose proof (Z.div_mod base 4096); lia). apply Z.mod_mul. lia. }
  assert (forall k, (4 * k) mod 4 = 0) as K4 by (intros k; rewrite Z.mul_comm; by apply Z.mod_mul).
  unfold sb_get in Ps, Pc, Pp. rewrite (proj2 (Z.eqb_neq next top)) in Pc, Pp by lia.
  unfold pop, sb_get, sb_set. rewrite Ps, Pc, Pp. rewrite (proj2 (Z.eqb_neq (top - next - 1) 1023)) by lia. cbn [andb].
  rewrite Z.sub_diag. change (u32 (u32 0 * 1024)) with 0. rewrite Z.mul_0_r, Z.add_0_r.
  set (a := base + 4 * (top - next - 1)). assert (a mod 4 = 0) as Ha4 by (apply B4; lia).
  assert (in_image a 4 = true) as -> by (unfold in_image, MAX_SIZE; apply andb_true_iff; split; apply Z.leb_le; lia).
  assert (get_word d a = next) as -> by (unfold a; rewrite Pw; lia).
  pose proof (set_meta d M a ltac:(lia) 0) as M1. set (d1 := set_word d a 0) in *.
  assert (forall b, 0 <= b < 12288 -> b mod 4 = 0 -> get_word d1 b = if decide (a = b) then 0 else get_word d b) as G1
    by (intros b Hb1 Hb2; apply (get_set d M a); lia).
  rewrite !G1 by (try apply K4; lia). rewrite !decide_False by lia. rewrite Pp, Pc.
  set (d2 := if top - next - 1 =? 0 then _ else _).
  assert (meta d2 /\ (forall b, 0 <= b < 12288 -> b mod 4 = 0 -> get_word d2 b =
     if decide (b = 4 * pos) then if next + 1 =? top then 1023 else top - (next + 1) - 1
     else if decide (b = 4 * cur) then if next + 1 =? top then st - 1 else st else get_word d1 b) /\
     forall i, 24 <= i -> sector d2 i = sector d1 i) as (M2 & G2 & S2).
  { unfold d2. destruct (Z.eqb_spec (top - next - 1) 0) as [E|E].
    - rewrite (proj2 (Z.eqb_eq (next + 1) top)) by lia. pose proof (set_meta d1 M1 (4 * pos) ltac:(lia) 1023) as M3.
      split; [apply set_meta; [done|lia]|]. split.
      + intros b Hb1 Hb2. rewrite (get_set _ M3 (4 * cur)), (get_set _ M1 (4 * pos)) by (try apply K4; lia).
        rewrite (u32_small 1023), (u32_small (st - 1)) by lia. repeat case_decide; try lia.
      + intros i Hi. unfold sb_set. rewrite !set_sector; [done|rewrite Z.div_small by lia; lia..].
    - rewrite (proj2 (Z.eqb_neq (next + 1) top)) by lia. split; [apply set_meta; [done|lia]|]. split.
      + intros b Hb1 Hb2. rewrite (get_set _ M1 (4 * pos)) by (try apply K4; lia). rewrite u32_small by lia.
        destruct (decide (4 * pos = b)) as [<-|Hne]; [rewrite decide_True by done; lia|]. rewrite decide_False by congruence.
        destruct (decide (b = 4 * cur)) as [->|]; [|done]. rewrite G1 by (try apply K4; lia). by rewrite decide_False by lia.
      + intros i Hi. unfold sb_set. rewrite !set_sector; [done|rewrite Z.div_small by lia; lia..]. }
  eexists. split; [done|]. set (v := get_word d2 (4 * free) - 1). split; [apply set_meta; [done|lia]|].
  assert (forall b, 0 <= b < 12288 -> b mod 4 = 0 -> b <> 4 * free -> get_word (set_word d2 (4 * free) v) b = get_word d2 b) as G3.
  { intros b Hb1 Hb2 Hb3. rewrite (get_set _ M2 (4 * free)) by (try apply K4; lia). by rewrite decide_False by lia. }
  split.
  - split; unfold sb_get; rewrite ?G3, ?G2 by (try apply K4; lia).
    + rewrite !decide_False by lia. rewrite G1 by (try apply K4; lia). by rewrite decide_False by lia.
    + by rewrite decide_False, decide_True by lia.
    + by rewrite decide_True by done.
    + intros i Hi. rewrite G3, G2 by (try apply B4; lia). rewrite !decide_False by lia. rewrite G1 by (try apply B4; lia).
      rewrite decide_False by lia. apply Pw. lia.
  - split.
    + intros i Hi. rewrite set_sector, S2 by (rewrite ?Z.div_small by lia; lia). apply set_sector.
      assert (a / 512 < 24); [apply Z.div_lt_upper_bound; lia|lia].
    + intros b Hb1 Hb2 Hb3 Hb5 Hb6 Hb7. rewrite G3, G2 by done. rewrite !decide_False by done. rewrite G1 by done. by rewrite decide_False by lia.
Qed.

(** The image is ready for inode [n] and block [b]. *)
Record ready (d : sectors) (n b : Z) : Prop := {
  rd_meta : meta d;
  rd_ib : pool d 4096 sb_ib_start sb_ib_current sb_ib_pos 1 32 n;
  rd_db : pool d 8192 sb_db_start sb_db_current sb_db_pos 2 256 b;
  rd_start : sb_get d sb_inode_start = 3;
  rd_magic : sb_get d 0 = word_at (le_words lmfs_magic) 0 }.

Definition addr : lmfs_address := LmfsAddress 4096 8192 12288 28672 4096 4096 16384.

Lemma pool_keep d d' base base' start cur pos cur' pos' free st top next : pool d base start cur pos st top next ->
  pool_frame d d' base' cur' pos' free -> base mod 4 = 0 -> 4096 <= base <= 8192 -> 0 < next -> top <= 256 ->
  (forall i, 0 <= i < 256 -> ~ base' <= base + 4 * i < base' + 4096) ->
  4096 <= base' -> 0 <= cur' < 32 -> 0 <= pos' < 32 -> 0 <= free < 32 ->
  0 <= start < 32 -> 0 <= cur < 32 -> 0 <= pos < 32 ->
  ~ In start [cur'; pos'; free] -> ~ In cur [cur'; pos'; free] -> ~ In pos [cur'; pos'; free] ->
  pool d' base start cur pos st top next.
Proof.
  intros [Ps Pc Pp Pw] [_ F] Hb4 Hb Hn Ht Hap Hb' R1 R2 R3 R4 R5 R6 N1 N2 N3. simpl in *.
  assert (forall k, (4 * k) mod 4 = 0) as K4 by (intros k; rewrite Z.mul_comm; by apply Z.mod_mul).
  split; unfold sb_get in *.
  - rewrite F; [done|lia|apply K4|lia|lia|lia|lia].
  - rewrite F; [done|lia|apply K4|lia|lia|lia|lia].
  - rewrite F; [done|lia|apply K4|lia|lia|lia|lia].
  - intros i Hi. rewrite F; [by apply Pw|lia| |apply Hap; lia|lia|lia|lia].
    pose proof (Z.div_mod base 4). rewrite Hb4, Z.add_0_r in H. rewrite H by lia. rewrite <- Z.mul_add_distr_l. apply K4.
Qed.

Lemma pop_inode_ready d n b : ready d n b -> 0 < n < 32 -> 0 < b ->
  exists d', pop_inode d addr = Ret (d', n) /\ ready d' (n + 1) b /\ forall i, 24 <= i -> sector d' i = sector d i.
Proof.
  intros [M I D S Mg] Hn Hb. destruct (pop_next d 4096 sb_ib_start sb_ib_current sb_ib_pos sb_inode_free 1 32 n M I)
    as (d' & E & M' & I' & F); try done; try lia. exists d'. split; [|split; [|apply F]].
  - unfold pop_inode. cbn [addr p_ib]. rewrite E, Ret_bind. change (mret ?x) with (Ret x). rewrite s32_small by lia. done.
  - split; [done|done| | |].
    + eapply pool_keep; [exact D|exact F|done|lia|lia|lia|lia|lia|..]; simpl; unfold sb_ib_current, sb_ib_pos, sb_inode_free, sb_db_start, sb_db_current, sb_db_pos; lia.
    + unfold sb_get in *. destruct F as [_ F]. unfold sb_inode_start in *; rewrite F; [done|lia|done|lia|done|done|done].
    + unfold sb_get in *. destruct F as [_ F]. rewrite F; [done|lia|done|lia|done|done|done].
Qed.

Lemma pop_block_ready d n b : ready d n b -> 0 < n -> 0 < b < 256 -> 256 - b < 1024 ->
  exists d', pop_block d addr = Ret (d', b) /\ ready d' n (b + 1) /\ forall i, 24 <= i -> sector d' i = sector d i.
Proof.
  intros [M I D S Mg] Hn Hb Hr. destruct (pop_next d 8192 sb_db_start sb_db_current sb_db_pos sb_data_free 2 256 b M D)
    as (d' & E & M' & D' & F); try done; try lia. exists d'. split; [|split; [|apply F]].
  - unfold pop_block. cbn [addr p_db]. rewrite E, Ret_bind. change (mret ?x) with (Ret x). rewrite u32_small by lia. done.
  - split; [done| |done| |].
    + eapply pool_keep; [exact I|exact F|done|lia|lia|lia|lia|lia|..]; simpl; unfold sb_db_current, sb_db_pos, sb_data_free, sb_ib_start, sb_ib_current, sb_ib_pos; lia.
    + unfold sb_get in *. destruct F as [_ F]. unfold sb_inode_start in *; rewrite F; [done|lia|done|lia|done|done|done].
    + unfold sb_get in *. destruct F as [_ F]. rewrite F; [done|lia|done|lia|done|done|done].
Qed.

(** The formatted image, before the first file. *)
Definition formatted : sectors := fst (format_disk ∅ MAX_FILE).

Lemma map_meta (d : sectors) : bool_decide (map_Forall (fun _ b => length b = 512%nat /\ Forall (fun c => 0 <= c < 256) b) d) = true -> meta d.
Proof.
  intros H%bool_decide_eq_true. assert (forall i, length (sector d i) = 512%nat /\ Forall byte (sector d i)) as A.
  { intros i. unfold sector. destruct (d !! i) as [b|] eqn:E; [by apply (H i b E)|]. split; [done|]. by apply Forall_replicate. }
  split; [intros i|intros i _]; apply A.
Qed.

Lemma map_pool d base (start cur pos : Z) (st top next : Z) : 
  forallb (fun i => get_word d (base + 4 * i) =? top - 1 - i) (seqZ 0 (top - next)) = true ->
  sb_get d start = st -> sb_get d cur = st -> sb_get d pos = top - next - 1 -> next < top ->
  pool d base start cur pos st top next.
Proof.
  intros Hw H1 H2 H3 Hn. split; rewrite ?(proj2 (Z.eqb_neq next top)) by lia; try done.
  intros i Hi. apply Z.eqb_eq. rewrite forallb_forall in Hw. apply Hw, list_elem_of_In, elem_of_seqZ. lia.
Qed.

Lemma format_ready : format_disk ∅ MAX_FILE = (formatted, addr) /\ ready formatted 1 7.
Proof.
  split; [by vm_compute|]. split; [apply map_meta; by vm_compute|apply map_pool; by vm_compute|apply map_pool; by vm_compute|by vm_compute|by vm_compute].
Qed.

(** ** Blocks of the image *)

Definition blk (d : sectors) (i : Z) : list Z := memdisk_read_sectors d (i * 8) 8.
Definition put (d : sectors) (i : Z) (b : list Z) : sectors := memdisk_write_sectors d b (i * 8) 8.

Lemma blk_put_eq d i b : Z.of_nat (length b) = 4096 -> blk (put d i b) i = b.
Proof. intros Hb. apply (read_write_same _ _ _ 8). lia. Qed.
Lemma blk_put_ne d i j b : i <> j -> blk (put d i b) j = blk d j.
Proof. intros H. apply (read_write_other _ _ _ 8). lia. Qed.
Lemma put_sector_img d i b j : j < 8 * i \/ 8 * i + 8 <= j -> sector (put d i b) j = sector d j.
Proof. intros H. apply write_sector_other. lia. Qed.
Lemma read_ext d d' s n : (forall j, s <= j < s + Z.of_nat n -> sector d' j = sector d j) ->
  memdisk_read_sectors d' s n = memdisk_read_sectors d s n.
Proof.
  revert s. induction n as [|n IH]; intros s H; [done|]. change (sector d' s ++ memdisk_read_sectors d' (s + 1) n = sector d s ++ memdisk_read_sectors d (s + 1) n).
  rewrite (H s) by lia. f_equal. apply IH. intros j Hj. apply H. lia.
Qed.
Lemma blk_ext d d' i : (forall j, 8 * i <= j < 8 * i + 8 -> sector d' j = sector d j) -> blk d' i = blk d i.
Proof. intros H. apply read_ext. intros j Hj. apply H. lia. Qed.

Lemma flush_ok d b i : 0 <= i < 256 -> flush_data d b i = Ret (put d i b).
Proof.
  intros Hi. unfold flush_data. rewrite u32_small by lia.
  assert (in_image (i * 4096) 4096 = true) as -> by (unfold in_image, MAX_SIZE; apply andb_true_iff; split; apply Z.leb_le; lia).
  replace (i * 4096 / 512) with (i * 8); [done|]. replace (i * 4096) with (i * 8 * 512) by lia. by rewrite Z.div_mul.
Qed.
Lemma flush_if_ok d b i : 0 < i < 256 -> flush_if d b i = Ret (put d i b).
Proof. intros Hi. unfold flush_if. rewrite (proj2 (Z.eqb_neq i 0)) by lia. apply flush_ok. lia. Qed.

(** The pools and the super block are in the first 24 sectors. *)
Lemma get_word_ext d d' a : (forall i, 0 <= i < 24 -> sector d' i = sector d i) -> 0 <= a < 12288 -> get_word d' a = get_word d a.
Proof. intros H Ha. unfold get_word. rewrite H; [done|]. by apply sector_of. Qed.

Lemma ready_ext d d' n b : (forall i, 0 <= i < 24 -> sector d' i = sector d i) -> disk_wf d' -> ready d n b -> 0 < n -> 0 < b -> ready d' n b.
Proof.
  intros E W [[M1 M2] [I1 I2 I3 I4] [D1 D2 D3 D4] S Mg] Hn Hb.
  assert (forall a, 0 <= a < 12288 -> get_word d' a = get_word d a) as G by (intros a Ha; by apply get_word_ext).
  split; [split; [done|]| | | |]; [intros i Hi; rewrite E by done; by apply M2|..]; [split|split| |];
    unfold sb_get in *; rewrite ?G by done; try done; intros i Hi; rewrite G by lia; [by apply I4|by apply D4].
Qed.

Lemma put_ready d n b i x : ready d n b -> 0 < n -> 0 < b -> 3 <= i -> Z.of_nat (length x) = 4096 -> ready (put d i x) n b.
Proof.
  intros R Hn Hb Hi Hx. apply (ready_ext d); [|apply write_wf; [apply (me_wf _ (rd_meta _ _ _ R))|lia]|done|done|done].
  intros j Hj. apply put_sector_img. lia.
Qed.

(** ** Data blocks *)

(** The first data block comes with the table. *)
Lemma new_block_first d n b fb : ready d n b -> 0 < n -> 0 < b < 255 ->
  fb_data_pos fb = 0 -> fb_data fb = 0 -> fb_lvl1_pos fb = 0 -> fb_lvl0_pos fb = 0 -> fb_lvl1 fb = 0 -> 0 <= fb_lvl0 fb ->
  exists d', new_data_block d addr fb = Ret (d', FileBuffer
      (fb_entry (entry_add (entry_set fb (fb_lvl0 fb) (b + 1)) e_block_nr 1)) (fb_inode fb) 0 0 0 b (b + 1)
      (<[0%nat := b]> zero_table) zero_data (fb_lvl0 fb), 0) /\
    ready d' n (b + 2) /\ forall i, 24 <= i -> sector d' i = sector d i.
Proof.
  intros R Hn Hb E1 E2 E3 E4 E5 E6. destruct (pop_block_ready d n b R Hn) as (d1 & P1 & R1 & S1); [lia|lia|].
  destruct (pop_block_ready d1 n (b + 1) R1 Hn) as (d2 & P2 & R2 & S2); [lia|lia|].
  exists d2. split; [|split; [by replace (b + 2) with (b + 1 + 1) by lia|intros i Hi; by rewrite S2, S1]].
  unfold new_data_block. rewrite E1. cbn [Z.eqb negb]. rewrite E2. change (flush_if d ?x 0) with (Ret d). rewrite Ret_bind, P1, Ret_bind.
  rewrite (proj2 (Z.eqb_neq b 0)) by lia. cbn [set_data fb_lvl1_pos fb_lvl1]. rewrite E3, E5. cbn [Z.eqb].
  change (flush_if d1 ?x 0) with (Ret d1). rewrite Ret_bind, P2, Ret_bind. rewrite (proj2 (Z.eqb_neq (b + 1) 0)) by lia.
  cbn [set_lvl1 set_data fb_lvl0_pos]. rewrite E4. cbn [Z.eqb]. rewrite ret_bind. cbn [negb Z.eqb]. rewrite Z.add_0_r. unfold entry_add, entry_set, set_lvl1, set_data. cbn.
  by rewrite E1, E3, E4.
Qed.

(** Later ones go into the next place of the table. *)
Lemma new_block_next d n b fb : ready d n b -> 0 < n -> 0 < b < 256 ->
  fb_data_pos fb = 0 -> 3 <= fb_data fb < 256 -> 0 < fb_lvl1_pos fb -> Z.of_nat (length (fb_data_buffer fb)) = 4096 ->
  exists d', new_data_block d addr fb = Ret (d', FileBuffer
      (fb_entry (entry_add fb e_block_nr 1)) (fb_inode fb) (fb_lvl1_pos fb) (fb_lvl0_pos fb) 0 b (fb_lvl1 fb)
      (<[Z.to_nat (fb_lvl1_pos fb) := b]> (fb_block_buffer fb)) zero_data (fb_lvl0 fb), 0) /\
    ready d' n (b + 1) /\ forall i, 24 <= i -> sector d' i = sector (put d (fb_data fb) (fb_data_buffer fb)) i.
Proof.
  intros R Hn Hb E1 E2 E3 E4. pose proof (put_ready d n b (fb_data fb) _ R Hn ltac:(lia) ltac:(lia) E4) as R1.
  destruct (pop_block_ready _ n b R1 Hn) as (d2 & P2 & R2 & S2); [lia|lia|].
  exists d2. split; [|done]. unfold new_data_block. rewrite E1. cbn [Z.eqb negb]. rewrite flush_if_ok by lia. rewrite Ret_bind, P2, Ret_bind.
  rewrite (proj2 (Z.eqb_neq b 0)) by lia. cbn [set_data fb_lvl1_pos]. rewrite (proj2 (Z.eqb_neq (fb_lvl1_pos fb) 0)) by lia.
  rewrite ret_bind. cbn [negb Z.eqb]. unfold entry_add, entry_set, set_lvl1, set_data. cbn. by rewrite E1.
Qed.

(** ** Files *)

Definition word (w : Z) : Prop := 0 <= w < 4294967296.
Definition zeros (n : nat) : list Z := replicate n 0.

Lemma word_insert l k j v : 0 <= k < Z.of_nat (length l) -> 0 <= j ->
  word_at (<[Z.to_nat k := v]> l) j = if decide (k = j) then v else word_at l j.
Proof.
  intros Hk Hj. unfold word_at. destruct (decide (k = j)) as [->|Hne]; [by rewrite list_lookup_insert_eq by lia|].
  by rewrite list_lookup_insert_ne by lia.
Qed.

(** An inode of 128 words. *)
Definition ent (e : list Z) : Prop := length e = 128%nat /\ Forall word e.

Lemma ent_insert e k v : ent e -> ent (<[k := u32 v]> e).
Proof. intros [H1 H2]. split; [by rewrite length_insert|]. apply Forall_insert; [done|]. apply u32_range. Qed.

Lemma entry_set_word fb k j v : ent (fb_entry fb) -> 0 <= k < 128 -> 0 <= j ->
  word_at (fb_entry (entry_set fb k v)) j = if decide (k = j) then u32 v else word_at (fb_entry fb) j.
Proof. intros [H _] Hk Hj. cbn. apply word_insert; lia. Qed.

Lemma entry_set_ent fb k v : ent (fb_entry fb) -> ent (fb_entry (entry_set fb k v)).
Proof. apply ent_insert. Qed.

Ltac entry_word :=
  rewrite entry_set_word by (first [by repeat apply entry_set_ent|lia]);
  first [rewrite decide_True by done|rewrite decide_False by done].

(** A file whose blocks before the current one are [ids] with the bytes [front], and whose
    current block has the bytes [rest] in the buffer.  Its blocks are from [b0] on and
    below [b]. *)
Record holds (d : sectors) (fb : file_buffer) (b0 b : Z) (ids : list Z) (front rest : list Z) : Prop := {
  ho_tab : fb_block_buffer fb = ids ++ fb_data fb :: zeros (Z.to_nat (1023 - Z.of_nat (length ids))) /\ Z.of_nat (length ids) < 1024;
  ho_ids : Forall (fun i => b0 <= i < b) (fb_lvl1 fb :: fb_data fb :: ids) /\ NoDup (fb_lvl1 fb :: fb_data fb :: ids);
  ho_buf : fb_data_buffer fb = rest ++ zeros (Z.to_nat (4096 - Z.of_nat (length rest))) /\ Z.of_nat (length rest) <= 4096;
  ho_front : concat (blk d <$> ids) = front /\ Z.of_nat (length front) = 4096 * Z.of_nat (length ids);
  ho_ent : ent (fb_entry fb);
  ho_words : word_at (fb_entry fb) e_size = Z.of_nat (length front + length rest) /\
    word_at (fb_entry fb) e_block_nr = Z.of_nat (S (length ids)) /\ word_at (fb_entry fb) 64 = fb_lvl1 fb /\
    word_at (fb_entry fb) 2 = DT_BLK /\ fb_lvl0 fb = 64 }.

(** The sectors from 24 on and below a limit are the same. *)
Definition below (lim : Z) (d d' : sectors) : Prop := forall i, 24 <= i < lim -> sector d' i = sector d i.

#[export] Instance below_preorder lim : PreOrder (below lim).
Proof. split; [by intros d i Hi|]. intros d1 d2 d3 H1 H2 i Hi. by rewrite H2, H1. Qed.

Lemma holds_range d fb b0 b ids front rest i : holds d fb b0 b ids front rest -> i ∈ ids -> b0 <= i < b /\ i <> fb_data fb /\ i <> fb_lvl1 fb.
Proof.
  intros [_ [Hr Hn] _ _ _ _] Hi. rewrite Forall_forall in Hr. split; [apply Hr; by right; right|].
  apply NoDup_cons in Hn as [H1 Hn]. apply NoDup_cons in Hn as [H2 _]. split; intros ->; [done|]. apply H1. by right.
Qed.

Lemma front_ext d d' (ids : list Z) : (forall i, i ∈ ids -> blk d' i = blk d i) -> blk d' <$> ids = blk d <$> ids.
Proof. intros H. apply list_fmap_ext. intros k i Hi. apply H. by eapply list_elem_of_lookup_2. Qed.

(** A new file. *)
Record fresh_file (fb : file_buffer) : Prop := {
  ff_pos : fb_data_pos fb = 0 /\ fb_lvl1_pos fb = 0 /\ fb_lvl0_pos fb = 0;
  ff_blocks : fb_data fb = 0 /\ fb_lvl1 fb = 0;
  ff_ent : ent (fb_entry fb);
  ff_words : word_at (fb_entry fb) e_size = 0 /\ word_at (fb_entry fb) e_block_nr = 0 /\ word_at (fb_entry fb) 2 = DT_BLK /\ fb_lvl0 fb = 64 }.

Lemma holds_first d n b fb : ready d n b -> 0 < n -> 3 <= b < 255 -> fresh_file fb ->
  exists d' fb', new_data_block d addr fb = Ret (d', fb', 0) /\ holds d' fb' b (b + 2) [] [] [] /\ ready d' n (b + 2) /\
    (forall i, 24 <= i -> sector d' i = sector d i) /\ fb_data_pos fb' = 0 /\ fb_lvl1_pos fb' = 0 /\ fb_lvl0_pos fb' = 0 /\
    fb_inode fb' = fb_inode fb.
Proof.
  intros R Hn Hb [(P1 & P2 & P3) (B1 & B2) He (W1 & W2 & W3 & W4)].
  destruct (new_block_first d n b fb R Hn) as (d' & E & R' & S'); try done; try lia.
  eexists d', _. split; [exact E|]. split; [|by split_and!].
  assert (ent (fb_entry (entry_set fb (fb_lvl0 fb) (b + 1)))) as He1 by by apply entry_set_ent.
  split; cbn [fb_block_buffer fb_data fb_lvl1 fb_data_buffer fb_entry fb_lvl0 length app fmap list_fmap concat].
  - split; [by vm_compute|lia].
  - split; [repeat constructor; lia|]. apply NoDup_cons. split; [|apply NoDup_singleton]. intros ?%list_elem_of_singleton. lia.
  - split; [by vm_compute|lia].
  - done.
  - by apply entry_set_ent.
  - unfold entry_add, e_size, e_block_nr in *. rewrite W4 in *. repeat entry_word. rewrite W2. by rewrite (u32_small (b + 1)) by lia.
Qed.

Lemma holds_next d n b fb b0 ids front rest : ready d n b -> 0 < n -> 3 <= b0 -> b < 256 -> holds d fb b0 b ids front rest ->
  Z.of_nat (length rest) = 4096 -> Z.of_nat (length ids) + 1 < 1024 -> Z.of_nat (length front) + 4096 < 4294967296 ->
  fb_data_pos fb = 0 -> fb_lvl1_pos fb = Z.of_nat (length ids) + 1 ->
  exists d' fb', new_data_block d addr fb = Ret (d', fb', 0) /\ holds d' fb' b0 (b + 1) (ids ++ [fb_data fb]) (front ++ rest) [] /\
    ready d' n (b + 1) /\ below (8 * b0) d d' /\ fb_data_pos fb' = 0 /\ fb_lvl1_pos fb' = fb_lvl1_pos fb /\
    fb_lvl0_pos fb' = fb_lvl0_pos fb /\ fb_inode fb' = fb_inode fb.
Proof.
  intros R Hn Hb0 Hb H Hr Hl Hf P1 P2. pose proof (fun i => holds_range _ _ _ _ _ _ _ i H) as Hids.
  destruct H as [[T1 T2] [I1 I2] [B1 B2] [F1 F2] He (W1 & W2 & W3 & W4 & W5)].
  assert (b0 <= fb_lvl1 fb < b /\ b0 <= fb_data fb < b) as [Hlv Hdt] by (rewrite !Forall_cons in I1; by destruct_and!).
  assert (fb_data_buffer fb = rest) as EB. { rewrite B1, Hr. change (zeros _) with (@nil Z). by rewrite app_nil_r. }
  destruct (new_block_next d n b fb R Hn) as (d' & E & R' & S'); [lia|done|lia|lia|by rewrite EB|].
  assert (forall i, 24 <= 8 * i -> blk d' i = blk (put d (fb_data fb) rest) i) as Hblk.
  { intros i Hi. apply blk_ext. intros j Hj. rewrite S', EB by lia. done. }
  eexists d', _. split; [exact E|]. split; [|split_and!; try done; intros i Hi; rewrite S' by lia; apply put_sector_img; lia].
  split; cbn [fb_block_buffer fb_data fb_lvl1 fb_data_buffer fb_entry fb_lvl0 length].
  - rewrite length_app. cbn [length]. split; [|lia]. rewrite P2, T1.
    replace (Z.to_nat (1023 - Z.of_nat (length ids))) with (S (Z.to_nat (1023 - Z.of_nat (length ids + 1)))) by lia.
    rewrite insert_app_r_alt by lia. rewrite <- app_assoc. cbn [app]. f_equal.
    replace (Z.to_nat (Z.of_nat (length ids) + 1) - length ids)%nat with 1%nat by lia. done.
  - rewrite !Forall_cons, Forall_app, Forall_singleton in *. rewrite Forall_forall in I1. split.
    { split; [lia|]. split; [lia|]. split; [|lia]. rewrite Forall_forall. intros i Hi. destruct (Hids i Hi). lia. }
    assert (b ∉ fb_lvl1 fb :: fb_data fb :: ids) as Hnew.
    { intros [->|[->|Hi]%elem_of_cons]%elem_of_cons; [lia|lia|]. destruct (Hids b Hi). lia. }
    assert (fb_lvl1 fb :: b :: ids ++ [fb_data fb] ≡ₚ b :: fb_lvl1 fb :: fb_data fb :: ids) as ->.
    { rewrite (Permutation_app_comm ids [fb_data fb]). cbn [app]. apply Permutation_swap. }
    by apply NoDup_cons.
  - split; [done|simpl; lia].
  - rewrite fmap_app, concat_app, !length_app. cbn [fmap list_fmap concat length]. rewrite app_nil_r. split; [|lia].
    rewrite (Hblk (fb_data fb)), blk_put_eq by lia. f_equal. rewrite <- F1. f_equal. apply front_ext. intros i Hi.
    destruct (Hids i Hi) as (? & ? & ?). rewrite Hblk by lia. apply blk_put_ne. congruence.
  - by apply entry_set_ent.
  - unfold entry_add, e_size, e_block_nr in *. repeat entry_word. rewrite !length_app, W1, W2, u32_small by lia. simpl. split_and!; try done; lia.
Qed.

(** The blocks behind the first that are needed for [k] bytes. *)
Definition more_blocks (content : list Z) : Z := Z.of_nat (length content) / 4096.

Lemma holds_chunk d fb b0 b ids front chunk p1 p0 dp : holds d fb b0 b ids front [] ->
  Z.of_nat (length chunk) <= 4096 -> Z.of_nat (length front) + 4096 < 4294967296 ->
  holds d (entry_add (set_fb_pos (set_data fb (fb_data fb) (chunk ++ drop (length chunk) (fb_data_buffer fb))) p1 p0 dp) e_size (Z.of_nat (length chunk)))
    b0 b ids front chunk.
Proof.
  intros [T I [B1 B2] F He (W1 & W2 & W3 & W4 & W5)] Hc Hf.
  split; cbn [entry_add entry_set set_entry set_fb_pos set_data fb_block_buffer fb_data fb_lvl1 fb_data_buffer fb_lvl0]; try done.
  - split; [|done]. rewrite B1. cbn [app length]. unfold zeros. rewrite drop_replicate. do 2 f_equal. lia.
  - by apply entry_set_ent.
  - unfold entry_add, e_size, e_block_nr in *. repeat (rewrite entry_set_word; [|by cbn|lia|lia]).
    rewrite decide_True, !decide_False by done. cbn [fb_entry set_fb_pos set_data]. rewrite W1, W2, u32_small by (simpl; lia).
    split_and!; try done. simpl. lia.
Qed.

(** The last, partial block. *)
Lemma write_last_block fuel content d fb n b b0 ids front d1 fb1 :
  new_data_block d addr fb = Ret (d1, fb1, 0) -> holds d1 fb1 b0 b ids front [] -> ready d1 n b ->
  fb_data_pos fb1 = 0 -> Z.of_nat (length content) < 4096 -> b0 + 2 + Z.of_nat (length ids) <= b -> b <= 256 -> 0 < b0 ->
  exists d2 fb2 ids' front' rest', write_loop (S fuel) d addr fb content = Ret (d2, fb2, 0) /\
    holds d2 fb2 b0 b ids' front' rest' /\ front' ++ rest' = front ++ content /\
    ready d2 n b /\ below (8 * b0) d1 d2 /\ fb_inode fb2 = fb_inode fb1.
Proof.
  intros E H R P1 Hs Hi Hb Hb0. cbn [write_loop]. rewrite E, Ret_bind. cbn [negb Z.eqb].
  rewrite (firstn_all2 content) by lia. destruct content as [|c content].
  - exists d1, fb1, ids, front, []. by split_and!.
  - pose proof (ho_front _ _ _ _ _ _ _ H) as [_ Hfl].
    rewrite (proj2 (Z.ltb_lt 0 _)), (proj2 (Z.ltb_lt _ 4096) Hs) by (simpl; lia). cbn [set_data fb_data_pos fb_lvl1_pos fb_lvl0_pos].
    rewrite P1, (proj2 (Z.eqb_neq _ 4096)) by lia. eexists d1, _, ids, front, (c :: content). split; [done|].
    split; [apply holds_chunk; [done|lia|lia]|]. by split_and!.
Qed.

Lemma write_loop_holds fuel : forall content d fb n b b0 ids front d1 fb1,
  new_data_block d addr fb = Ret (d1, fb1, 0) -> holds d1 fb1 b0 b ids front [] -> ready d1 n b -> 0 < n -> 3 <= b0 ->
  fb_data_pos fb1 = 0 -> fb_lvl1_pos fb1 = Z.of_nat (length ids) -> fb_lvl0_pos fb1 = 0 ->
  b + more_blocks content <= 256 -> b0 + 2 + Z.of_nat (length ids) <= b -> more_blocks content <= Z.of_nat fuel ->
  exists d2 fb2 ids' front' rest', write_loop (S fuel) d addr fb content = Ret (d2, fb2, 0) /\
    holds d2 fb2 b0 (b + more_blocks content) ids' front' rest' /\ front' ++ rest' = front ++ content /\
    ready d2 n (b + more_blocks content) /\ below (8 * b0) d1 d2 /\ fb_inode fb2 = fb_inode fb1.
Proof.
  induction fuel as [|fuel IH]; intros content d fb n b b0 ids front d1 fb1 E H R Hn Hb0 P1 P2 P3 Hb Hi Hf;
    (destruct (Z_lt_le_dec (Z.of_nat (length content)) 4096) as [Hs|Hs];
     [assert (more_blocks content = 0) as Em by (apply Z.div_small; lia); rewrite Em, Z.add_0_r;
      apply (write_last_block _ content d fb n b b0 ids front); try done; lia|assert (1 <= more_blocks content) as Em by (apply Z.div_le_lower_bound; lia)]).
  { simpl in Hf. lia. }
  cbn [write_loop]. rewrite E, Ret_bind. cbn [negb Z.eqb]. set (chunk := take (Z.to_nat 4096) content).
  assert (Z.of_nat (length chunk) = 4096) as Hc by (unfold chunk; rewrite length_take; lia).
  rewrite Hc. change (0 <? 4096) with true. change (4096 <? 4096) with false. cbv iota. cbn [set_data fb_data_pos fb_lvl1_pos fb_lvl0_pos].
  rewrite P1, P2, P3. change (0 + 4096 =? 4096) with true. rewrite (proj2 (Z.eqb_neq (Z.of_nat (length ids) + 1) 1024)) by lia. cbv iota.
  assert (more_blocks content = 1 + more_blocks (drop (Z.to_nat 4096) content)) as Em'.
  { unfold more_blocks. rewrite length_drop. replace (Z.of_nat (length content)) with (Z.of_nat (length content - Z.to_nat 4096) + 1 * 4096) by lia.
    rewrite Z.div_add by lia. lia. }
  pose proof (ho_front _ _ _ _ _ _ _ H) as [_ Hfl].
  pose proof (holds_chunk d1 fb1 b0 b ids front chunk (Z.of_nat (length ids) + 1) 0 0 H ltac:(lia) ltac:(lia)) as H1. rewrite Hc in H1.
  match type of H1 with holds _ ?f _ _ _ _ _ => set (fb2 := f) in * end.
  destruct (holds_next d1 n b fb2 b0 ids front chunk R Hn Hb0) as (d' & fb' & E2 & H2 & R2 & L2 & Q1 & Q2 & Q3 & Q4); [lia|done|done|lia|lia|done|done|].
  destruct (IH (drop (Z.to_nat 4096) content) d1 fb2 n (b + 1) b0 _ _ d' fb' E2 H2 R2 Hn Hb0 Q1) as (d3 & fb3 & ids' & fr & re & E3 & H3 & C3 & R3 & L3 & I3).
  { rewrite Q2, length_app. cbn. lia. } { by rewrite Q3. } { lia. } { rewrite length_app. cbn [length]. lia. } { lia. }
  exists d3, fb3, ids', fr, re. split; [exact E3|]. replace (b + more_blocks content) with (b + 1 + more_blocks (drop (Z.to_nat 4096) content)) by lia.
  split; [done|]. split; [rewrite C3, <- app_assoc; unfold chunk; by rewrite take_drop|]. split; [done|]. split; [by transitivity d'|]. by rewrite I3, Q4.
Qed.

Definition put_if (d : sectors) (i : Z) (b : list Z) : sectors := if i =? 0 then d else put d i b.

Definition final_entry (fb : file_buffer) : list Z :=
  fb_entry (entry_set (entry_set fb e_pos_in_lvl1 (fb_lvl1_pos fb)) e_pos_in_lvl0 (fb_lvl0_pos fb)).

(** A block that is flushed if there is one. *)
Definition flushable (i : Z) (b : list Z) : Prop := i = 0 \/ 7 <= i < 256 /\ Z.of_nat (length b) = 4096.

Lemma flush_if_ready d n b i x : ready d n b -> 0 < n -> 0 < b -> flushable i x ->
  flush_if d x i = Ret (put_if d i x) /\ ready (put_if d i x) n b /\
  forall j, (j < 8 * i \/ 8 * i + 8 <= j \/ i = 0) -> sector (put_if d i x) j = sector d j.
Proof.
  intros R Hn Hb [->|[Hi Hx]]; [done|]. unfold flush_if, put_if. rewrite (proj2 (Z.eqb_neq i 0)) by lia. cbn [negb].
  split; [apply flush_ok; lia|]. split; [apply put_ready; try done; lia|]. intros j Hj. apply put_sector_img. lia.
Qed.

Lemma write_inode_eq d n b fb : ready d n b -> 0 < n -> 0 < b -> flushable (fb_data fb) (fb_data_buffer fb) ->
  flushable (fb_lvl1 fb) (le_bytes (fb_block_buffer fb)) -> 0 <= fb_inode fb < 32 -> ent (fb_entry fb) ->
  exists d', write_inode d fb = Ret d' /\ ready d' n b /\
    d' = <[24 + fb_inode fb := le_bytes (final_entry fb)]>
      (put_if (put_if d (fb_data fb) (fb_data_buffer fb)) (fb_lvl1 fb) (le_bytes (fb_block_buffer fb))).
Proof.
  intros R Hn Hb F1 F2 Hi He. destruct (flush_if_ready d n b _ _ R Hn Hb F1) as (E1 & R1 & _).
  destruct (flush_if_ready _ n b _ _ R1 Hn Hb F2) as (E2 & R2 & _).
  unfold write_inode. cbn [entry_set set_entry fb_data_buffer fb_data fb_block_buffer fb_lvl1 fb_inode fb_lvl0_pos].
  rewrite E1, Ret_bind, E2, Ret_bind. set (d2 := put_if (put_if _ _ _) _ _) in *.
  assert (inode_to_sector d2 (fb_inode fb) = 24 + fb_inode fb) as -> by (unfold inode_to_sector; rewrite (rd_start _ _ _ R2); apply s32_small; lia).
  unfold write_sector. assert (in_image ((24 + fb_inode fb) * 512) 512 = true) as ->
    by (unfold in_image, MAX_SIZE; apply andb_true_iff; split; apply Z.leb_le; lia).
  assert (length (le_bytes (final_entry fb)) = 512%nat) as Hl.
  { rewrite length_le_bytes. assert (ent (final_entry fb)) as [-> _] by by repeat apply entry_set_ent. done. }
  eexists. split; [done|]. change (memdisk_write_sectors d2 ?x ?s 1) with (<[s := take 512 x]> d2).
  fold (final_entry fb). rewrite firstn_all2 by (rewrite Hl; done). split; [|done].
  apply (ready_ext d2); [|apply insert_wf; [apply (me_wf _ (rd_meta _ _ _ R2))|done]|done|done|done].
  intros j Hj. apply sector_insert_ne. lia.
Qed.

(** The inode of a file or a directory. *)
Definition inode_words (d : sectors) (i : Z) : list Z := le_words (sector d (24 + i)).

(** The table of blocks [ids] in block [tb]. *)
Definition table_is (d : sectors) (tb : Z) (ids : list Z) : Prop :=
  le_words (blk d tb) = ids ++ zeros (Z.to_nat (1024 - Z.of_nat (length ids))) /\ 0 < Z.of_nat (length ids) < 1024.

(** Inode [i] is a file with the given bytes, and its blocks are in the range. *)
Definition stored_file (d : sectors) (b0 b1 i : Z) (content : list Z) : Prop :=
  exists tb ids k, word_at (inode_words d i) 2 = DT_BLK /\ word_at (inode_words d i) e_size = Z.of_nat (length content) /\
    word_at (inode_words d i) 64 = tb /\ table_is d tb ids /\ Forall (fun j => b0 <= j < b1) (tb :: ids) /\ NoDup ids /\
    concat (blk d <$> ids) = content ++ zeros k.

Lemma fresh_init fb i : ent (fb_entry fb) -> fresh_file (init_inode_entry (set_inode (init_file_buffer fb TYPE_FILE) i) DT_BLK).
Proof.
  intros [Hl Hw]. assert (ent (map u32 [DT_BLK; DT_BLK; DT_BLK; 0x19700101; 0; 0; 0x1234; 0; 0; 0; 0; 0] ++ drop 12 (fb_entry fb))) as H.
  { split; [rewrite length_app, length_drop, Hl; done|]. apply Forall_app. split; [|by apply Forall_drop].
    apply Forall_map. repeat constructor; apply u32_range. }
  by split.
Qed.

Lemma fb_tables d fb b0 b ids front rest : holds d fb b0 b ids front rest -> 0 <= b0 -> b <= 256 ->
  Forall word (fb_block_buffer fb) /\ length (le_bytes (fb_block_buffer fb)) = (4 * 1024)%nat /\ Z.of_nat (length (fb_data_buffer fb)) = 4096.
Proof.
  intros [[T1 T2] [I1 _] [B1 B2] _ _ _] Hb0 Hb. rewrite !Forall_cons in I1. destruct I1 as (I1 & I2 & I3). unfold word. split; [|split].
  - rewrite T1. apply Forall_app. split; [eapply Forall_impl; [exact I3|]; simpl; lia|]. constructor; [lia|]. apply Forall_replicate. lia.
  - rewrite length_le_bytes, T1, length_app. cbn [length]. unfold zeros. rewrite length_replicate. lia.
  - rewrite B1, length_app. unfold zeros. rewrite length_replicate. lia.
Qed.

(** The inode written last is read back, and the blocks are not touched by it. *)
Lemma inode_insert d i e : ent e -> inode_words (<[24 + i := le_bytes e]> d) i = e.
Proof. intros [_ H]. unfold inode_words. rewrite sector_insert_eq. by apply le_words_bytes. Qed.
Lemma blk_insert d s b j : s < 8 * j \/ 8 * j + 8 <= s -> blk (<[s := b]> d) j = blk d j.
Proof. intros H. apply blk_ext. intros k Hk. apply sector_insert_ne. lia. Qed.

Lemma final_word fb j : ent (fb_entry fb) -> 0 <= j -> j <> 10 -> j <> 11 -> word_at (final_entry fb) j = word_at (fb_entry fb) j.
Proof.
  intros He Hj H1 H2. unfold final_entry. rewrite !entry_set_word; try done; try (by apply entry_set_ent).
  unfold e_pos_in_lvl0, e_pos_in_lvl1. by rewrite !decide_False by congruence.
Qed.

(** What [write_inode] makes of a file that is in its buffers. *)
Lemma holds_stored d fb b0 b ids front rest n : ready d n b -> 0 < n -> 7 <= b0 -> b <= 256 -> holds d fb b0 b ids front rest ->
  0 <= fb_inode fb < 32 -> Z.of_nat (length ids) < 1023 ->
  exists d', write_inode d fb = Ret d' /\ ready d' n b /\ stored_file d' b0 b (fb_inode fb) (front ++ rest) /\
    (forall s, 24 <= s < 8 * b0 -> s <> 24 + fb_inode fb -> sector d' s = sector d s).
Proof.
  intros R Hn Hb0 Hb H Hi Hl. destruct (fb_tables _ _ _ _ _ _ _ H ltac:(lia) Hb) as (Tw & Tl & Bl).
  pose proof (fun i => holds_range _ _ _ _ _ _ _ i H) as Hids.
  destruct H as [[T1 T2] [I1 I2] [B1 B2] [F1 F2] He (W1 & W2 & W3 & W4 & W5)].
  assert (b0 <= fb_lvl1 fb < b /\ b0 <= fb_data fb < b) as [Hlv Hdt] by (rewrite !Forall_cons in I1; by destruct_and!).
  assert (fb_lvl1 fb <> fb_data fb) as Hne by (apply NoDup_cons in I2 as [I2 _]; intros E; apply I2; rewrite E; by left).
  destruct (write_inode_eq d n b fb R Hn) as (d' & E & R' & Ed); [lia|right; split; [lia|done]|right; split; [lia|rewrite Tl; lia]|done|done|].
  exists d'. split; [done|]. split; [done|]. unfold put_if in Ed.
  rewrite (proj2 (Z.eqb_neq (fb_data fb) 0)), (proj2 (Z.eqb_neq (fb_lvl1 fb) 0)) in Ed by lia.
  assert (forall j, b0 <= j -> blk d' j = blk (put (put d (fb_data fb) (fb_data_buffer fb)) (fb_lvl1 fb) (le_bytes (fb_block_buffer fb))) j) as Hblk.
  { intros j Hj. rewrite Ed. apply blk_insert. lia. }
  split; [|intros s Hs Hsi; rewrite Ed, sector_insert_ne, !put_sector_img by lia; done].
  exists (fb_lvl1 fb), (ids ++ [fb_data fb]), (Z.to_nat (4096 - Z.of_nat (length rest))).
  assert (ent (final_entry fb)) as Hfe by by repeat apply entry_set_ent.
  assert (inode_words d' (fb_inode fb) = final_entry fb) as -> by (rewrite Ed; by apply inode_insert).
  rewrite !final_word by (try done; unfold e_size; lia). split; [done|]. split; [by rewrite W1, length_app|]. split; [done|].
  split; [|split; [|split]].
  - unfold table_is. rewrite Hblk, blk_put_eq, le_words_bytes, length_app by (try done; lia). split; [|simpl; lia].
    rewrite T1, <- app_assoc. cbn [app length]. do 3 f_equal. lia.
  - apply Forall_cons. split; [lia|]. apply Forall_app. split; [|by apply Forall_singleton]. rewrite !Forall_cons in I1. by destruct_and!.
  - rewrite (Permutation_app_comm ids [fb_data fb]). apply NoDup_cons in I2. apply I2.
  - rewrite fmap_app, concat_app. cbn [fmap list_fmap concat]. rewrite app_nil_r, Hblk, blk_put_ne, blk_put_eq, B1, app_assoc by (try done; lia).
    f_equal. f_equal. rewrite <- F1. f_equal. apply front_ext. intros j Hj. destruct (Hids j Hj) as (? & ? & ?).
    rewrite Hblk, !blk_put_ne by (congruence || lia). done.
Qed.

Lemma NoDup_range_length (l : list Z) lo hi : NoDup l -> Forall (fun i => lo <= i < hi) l -> Z.of_nat (length l) <= Z.max 0 (hi - lo).
Proof.
  intros Hnd Hr. assert (length l <= length (seqZ lo (hi - lo)))%nat as H; [|rewrite length_seqZ in H; lia].
  apply submseteq_length, NoDup_submseteq; [done|]. intros i Hi. rewrite Forall_forall in Hr. apply elem_of_seqZ. specialize (Hr i Hi). simpl in Hr. lia.
Qed.

Definition file_blocks (content : list Z) : Z := 2 + more_blocks content.

Lemma write_file_ok d n b fb content : ready d n b -> 0 < n -> 7 <= b -> b + file_blocks content <= 256 ->
  fresh_file fb -> 0 <= fb_inode fb < 32 ->
  exists d' fb', write_file d addr fb content = Ret (d', fb', 0) /\ ready d' n (b + file_blocks content) /\
    stored_file d' b (b + file_blocks content) (fb_inode fb) content /\ ent (fb_entry fb') /\
    (forall s, 24 <= s < 8 * b -> s <> 24 + fb_inode fb -> sector d' s = sector d s).
Proof.
  intros R Hn Hb Hm Hf Hi. unfold file_blocks in *. assert (0 <= more_blocks content <= Z.of_nat (length content)) as Hmb.
  { split; [apply Z.div_pos; lia|]. apply Z.div_le_upper_bound; lia. }
  destruct (holds_first d n b fb R Hn) as (d1 & fb1 & E1 & H1 & R1 & S1 & P1 & P2 & P3 & Q1); [lia|done|].
  destruct (write_loop_holds (length content) content d fb n (b + 2) b [] [] d1 fb1 E1 H1 R1 Hn) as (d2 & fb2 & ids & front & rest & E2 & H2 & C2 & R2 & L2 & Q2);
    try done; try lia; [simpl; lia|].
  assert (Z.of_nat (length ids) < 1023) as Hl.
  { pose proof (ho_ids _ _ _ _ _ _ _ H2) as [Hr Hnd]. pose proof (NoDup_range_length (fb_lvl1 fb2 :: fb_data fb2 :: ids) b (b + 2 + more_blocks content) Hnd Hr). simpl in *. lia. }
  destruct (holds_stored d2 fb2 b _ ids front rest n R2 Hn) as (d3 & E3 & R3 & St & S3); [lia|lia|done|lia|done|].
  exists d3, fb2. unfold write_file. rewrite E2, Ret_bind. cbn [negb Z.eqb]. rewrite E3, Ret_bind. split; [done|].
  rewrite Q2, Q1, C2, Z.add_assoc in *. split; [done|]. split; [done|]. split; [apply (ho_ent _ _ _ _ _ _ _ H2)|].
  intros s Hs Hsi. rewrite S3, L2, S1 by lia. done.
Qed.

(** ** Directories *)

(** Name, type and inode of an entry, in 256 bytes. *)
Abbreviation dent := (list Z * Z * Z)%type.
Definition dent_bytes (e : dent) : list Z :=
  let '(name, type, i) := e in name ++ zeros (248 - length name) ++ word_bytes type ++ word_bytes i.
Definition name_ok (name : list Z) : Prop := part_ok name /\ Forall (fun c => c <> 0) name /\ Z.of_nat (length name) < 248.

(** A directory with the entries [es] in its buffer; its two blocks are from [lo] on and
    below [hi]. *)
Record dir_holds (fb : file_buffer) (es : list dent) (lo hi : Z) : Prop := {
  dh_pos : fb_data_pos fb = 256 * Z.of_nat (length es) /\ fb_lvl1_pos fb = 0 /\ fb_lvl0_pos fb = 0;
  dh_nil : es = [] -> fb_data fb = 0 /\ fb_lvl1 fb = 0;
  dh_cons : es <> [] -> lo <= fb_data fb < hi /\ lo <= fb_lvl1 fb < hi /\ fb_data fb <> fb_lvl1 fb /\
    fb_block_buffer fb = <[0%nat := fb_data fb]> zero_table /\ word_at (fb_entry fb) 96 = fb_lvl1 fb;
  dh_buf : fb_data_buffer fb = concat (dent_bytes <$> es) ++ zeros (Z.to_nat (4096 - 256 * Z.of_nat (length es)));
  dh_ents : Forall (fun e : dent => Z.of_nat (length e.1.1) < 248) es /\ Z.of_nat (length es) < 16;
  dh_ent : ent (fb_entry fb);
  dh_words : word_at (fb_entry fb) 2 = DT_DIR /\ word_at (fb_entry fb) e_file_nr = Z.of_nat (length es) /\ fb_lvl0 fb = 96 }.

Lemma length_dent e : Z.of_nat (length e.1.1) < 248 -> Z.of_nat (length (dent_bytes e)) = 256.
Proof. destruct e as [[name type] i]. cbn [fst dent_bytes]. intros H. rewrite !length_app. unfold zeros. rewrite length_replicate. simpl. lia. Qed.

Lemma length_dents es : Forall (fun e : dent => Z.of_nat (length e.1.1) < 248) es -> Z.of_nat (length (concat (dent_bytes <$> es))) = 256 * Z.of_nat (length es).
Proof. induction 1 as [|e es He _ IH]; [done|]. cbn [fmap list_fmap concat length]. rewrite length_app, Nat2Z.inj_add, length_dent by done. fold (fmap dent_bytes es). lia. Qed.

Lemma patch_app (x y z w : list Z) pos : pos = Z.of_nat (length x) -> length y = length w -> patch (x ++ y ++ z) pos w = x ++ w ++ z.
Proof.
  intros -> H. unfold patch. rewrite Nat2Z.id, take_app_length. f_equal. f_equal. rewrite <- H, app_assoc, <- length_app. apply drop_app_length.
Qed.

Lemma zeros_add n m : zeros (n + m) = zeros n ++ zeros m.
Proof. apply replicate_add. Qed.

(** The three writes of an entry. *)
Lemma patch_dent (front name : list Z) type i m : Z.of_nat (length name) < 248 -> 256 <= Z.of_nat m ->
  let pos := Z.of_nat (length front) in
  patch (patch (patch (front ++ zeros m) pos (name ++ [0])) (pos + 248) (word_bytes type)) (pos + 252) (word_bytes i) =
    front ++ dent_bytes (name, type, i) ++ zeros (m - 256).
Proof.
  intros Hn Hm pos. assert (exists k, k = length name + 1)%nat as [k Hk] by eauto.
  replace m with (k + ((247 - length name) + (4 + (4 + (m - 256)))))%nat at 1 by lia.
  rewrite !zeros_add. rewrite patch_app; [|done|rewrite length_app; unfold zeros; by rewrite length_replicate].
  assert (front ++ (name ++ [0]) ++ zeros (247 - length name) ++ zeros 4 ++ zeros 4 ++ zeros (m - 256) =
    (front ++ name ++ zeros (248 - length name)) ++ zeros 4 ++ zeros 4 ++ zeros (m - 256)) as ->.
  { replace (248 - length name)%nat with (1 + (247 - length name))%nat by lia. rewrite zeros_add, <- !app_assoc. done. }
  rewrite patch_app; [|unfold zeros; rewrite !length_app, length_replicate; unfold pos; lia|done].
  rewrite app_assoc, patch_app; [|unfold zeros; rewrite !length_app, length_replicate; unfold pos; simpl; lia|done].
  cbn [dent_bytes]. by rewrite <- !app_assoc.
Qed.

Definition first_blocks (es : list dent) : Z := match es with [] => 2 | _ => 0 end.
Definition next_hi (es : list dent) (b hi : Z) : Z := match es with [] => b + 2 | _ => hi end.

(** The two blocks of a directory come with its first entry. *)
Lemma dir_block d n b fb es lo hi : ready d n b -> 0 < n -> 7 <= b -> b + first_blocks es <= 256 -> lo <= b -> dir_holds fb es lo hi ->
  exists d' fb', new_data_block d addr fb = Ret (d', fb', 0) /\ ready d' n (b + first_blocks es) /\
    (forall i, 24 <= i -> sector d' i = sector d i) /\ fb_inode fb' = fb_inode fb /\ ent (fb_entry fb') /\
    fb_data_pos fb' = fb_data_pos fb /\ fb_lvl1_pos fb' = 0 /\ fb_lvl0_pos fb' = 0 /\ fb_lvl0 fb' = 96 /\ fb_data_buffer fb' = fb_data_buffer fb /\
    lo <= fb_data fb' < next_hi es b hi /\ lo <= fb_lvl1 fb' < next_hi es b hi /\ fb_data fb' <> fb_lvl1 fb' /\
    fb_block_buffer fb' = <[0%nat := fb_data fb']> zero_table /\ word_at (fb_entry fb') 96 = fb_lvl1 fb' /\
    word_at (fb_entry fb') 2 = DT_DIR /\ word_at (fb_entry fb') e_file_nr = Z.of_nat (length es).
Proof.
  intros R Hn Hb Hb1 Hlo [(P1 & P2 & P3) Dn Dc B [E1 E2] He (W1 & W2 & W3)]. destruct es as [|e es].
  - destruct (Dn eq_refl) as [D1 D2]. cbn [first_blocks next_hi] in *.
    destruct (new_block_first d n b fb R Hn) as (d' & E & R' & S'); try done; try lia.
    eexists d', _. split; [exact E|]. split; [done|]. split; [done|].
    cbn [fb_inode fb_entry fb_data_pos fb_lvl1_pos fb_lvl0_pos fb_lvl0 fb_data_buffer fb_data fb_lvl1 fb_block_buffer].
    split; [done|]. split; [by repeat apply entry_set_ent|]. rewrite P1. split_and!; try done; try lia; unfold entry_add, e_block_nr, e_file_nr in *; rewrite W3 in *.
    + rewrite entry_set_word by (try apply entry_set_ent; done || lia). rewrite decide_False by done.
      rewrite entry_set_word by (done || lia). rewrite decide_True by done. apply u32_small. lia.
    + by repeat entry_word.
    + by repeat entry_word.
  - destruct (Dc ltac:(done)) as (C1 & C2 & C3 & C4 & C5). cbn [first_blocks next_hi] in *. rewrite Z.add_0_r in *.
    exists d, fb. split; [|split_and!; try done; lia]. unfold new_data_block. rewrite P1. rewrite (proj2 (Z.eqb_neq _ 0)) by (simpl; lia). done.
Qed.

Lemma write_entry_ok d n b fb es lo hi name type i : ready d n b -> 0 < n -> 7 <= b -> b + first_blocks es <= 256 -> lo <= b ->
  dir_holds fb es lo hi -> Z.of_nat (length es) < 15 -> Z.of_nat (length name) < 248 -> word type -> word i ->
  exists d' fb', write_entry_to_dir d addr fb name i type = Ret (d', fb', 0) /\ ready d' n (b + first_blocks es) /\
    dir_holds fb' (es ++ [(name, type, i)]) lo (next_hi es b hi) /\ fb_inode fb' = fb_inode fb /\
    (forall j, 24 <= j -> sector d' j = sector d j).
Proof.
  intros R Hn Hb Hb1 Hlo H Hl Hname Ht Hi.
  destruct (dir_block d n b fb es lo hi R Hn Hb Hb1 Hlo H) as (d' & f1 & E & R' & S' & In & He & P1 & P2 & P3 & V & B & C1 & C2 & C3 & C4 & C5 & W1 & W2).
  destruct H as [(Q1 & _ & _) _ _ B0 [E1 _] _ _]. rewrite B0 in B. rewrite Q1 in P1. pose proof (length_dents es E1) as Hfl.
  unfold write_entry_to_dir. rewrite E, Ret_bind. cbn [negb Z.eqb]. rewrite P1, (proj2 (Z.ltb_ge 4096 _)) by lia.
  rewrite (u32_small type), (u32_small i), B, <- Hfl by done. rewrite patch_dent by (try done; lia). rewrite Hfl.
  rewrite (proj2 (Z.eqb_neq (256 * Z.of_nat (length es) + 256) 4096)) by lia.
  unfold update_bitmap. cbn [set_data set_fb_pos entry_add entry_set set_entry fb_entry].
  assert (ent (<[Z.to_nat e_file_nr := u32 (word_at (fb_entry f1) e_file_nr + 1)]> (fb_entry f1))) as He1 by by apply ent_insert.
  rewrite word_insert, decide_True by (try done; destruct He as [-> _]; done). rewrite W2, u32_small by lia.
  replace (Z.of_nat (length es) + 1 - 1) with (Z.of_nat (length es)) by lia. rewrite (Z.div_small (Z.of_nat (length es)) 32) by lia.
  change ((0 <=? 0) && (0 <? 64)) with true. cbv iota. rewrite ret_bind. eexists d', _. split; [done|]. split; [done|]. split; [|by split].
  split; cbn [set_data set_fb_pos entry_add entry_set set_entry fb_entry fb_data_pos fb_lvl1_pos fb_lvl0_pos fb_data fb_lvl1 fb_block_buffer fb_data_buffer fb_lvl0].
  - rewrite length_app. cbn [length]. split_and!; [lia|done|done].
  - by destruct es.
  - intros _. split_and!; try done; try lia. rewrite !word_insert by (rewrite ?length_insert, ?(proj1 He); unfold e_file_nr; lia). by rewrite !decide_False by done.
  - rewrite fmap_app, concat_app, length_app, <- app_assoc. cbn [fmap list_fmap concat length]. rewrite app_nil_r. do 3 f_equal. lia.
  - rewrite length_app. cbn [length]. split; [|lia]. apply Forall_app. split; [done|by apply Forall_singleton].
  - by repeat apply ent_insert.
  - rewrite !word_insert by (rewrite ?length_insert, ?(proj1 He); unfold e_file_nr; lia). rewrite !(decide_False (P := 64 + 0 = _)) by done.
    rewrite decide_False, decide_True by done. rewrite length_app, W2, u32_small by lia. cbn [length]. split_and!; try done; lia.
Qed.
