(* ===== verification/MklmfsTree.v ===== *)
(** * Directory trees in images of LMFS (tools/mklmfs/mklmfs.c, fs/lmfs.c)

    [stored] states that an image has a listing, with all files and directories below it;
    [create_files] establishes it, and the kernel finds and reads what is stored. *)

From S2P Require Import Prelude Bitops CString Disk Vfs VfsSpec Lmfs LmfsSpec Path PathSpec Mklmfs MklmfsSpec.

(** ** Listings in an image *)

(** Inode [i] is a directory with the entries [es]; one without entries has no blocks. *)
Definition dir_node (d : sectors) (b0 b1 i : Z) (es : list dent) : Prop :=
  word_at (inode_words d i) 2 = DT_DIR /\
  (es <> [] -> exists tb db k, word_at (inode_words d i) 96 = tb /\ table_is d tb [db] /\ b0 <= tb < b1 /\ b0 <= db < b1 /\
    blk d db = concat (dent_bytes <$> es) ++ zeros k).

(** The entries of a listing are [es]: their inodes are from [n0] on and below [n1], their
    blocks from [b0] on and below [b1]. *)
Fixpoint stored (d : sectors) (n0 n1 b0 b1 : Z) (l : listing) (es : list dent) : Prop :=
  match l with
  | End => es = []
  | File name content rest =>
    if skipped name then stored d n0 n1 b0 b1 rest es
    else exists i es', es = (name, DT_BLK, i) :: es' /\ n0 <= i < n1 /\
      match content with Some c => stored_file d b0 b1 i c | None => True end /\ stored d n0 n1 b0 b1 rest es'
  | Dir name opened sub rest =>
    if skipped name then stored d n0 n1 b0 b1 rest es
    else exists i es' sub_es, es = (name, DT_DIR, i) :: es' /\ n0 <= i < n1 /\
      (opened = true -> dir_node d b0 b1 i sub_es /\ stored d n0 n1 b0 b1 sub sub_es) /\ stored d n0 n1 b0 b1 rest es'
  end.

(** The sectors of the inodes and of the blocks of a range. *)
Definition in_range (n0 n1 b0 b1 s : Z) : Prop := 24 + n0 <= s < 24 + n1 \/ 8 * b0 <= s < 8 * b1.

Section Frame.
Context (d d' : sectors) (n0 n1 b0 b1 : Z).
Context (H : forall s, in_range n0 n1 b0 b1 s -> sector d' s = sector d s).

Lemma frame_inode i : n0 <= i < n1 -> inode_words d' i = inode_words d i.
Proof using H. intros Hi. unfold inode_words. rewrite H; [done|]. left. lia. Qed.

Lemma frame_blk i : b0 <= i < b1 -> blk d' i = blk d i.
Proof using H. intros Hi. apply blk_ext. intros j Hj. apply H. right. lia. Qed.

Lemma frame_table tb ids : b0 <= tb < b1 -> table_is d tb ids -> table_is d' tb ids.
Proof using H. intros Ht. unfold table_is. by rewrite frame_blk. Qed.

Lemma frame_file i c : n0 <= i < n1 -> stored_file d b0 b1 i c -> stored_file d' b0 b1 i c.
Proof using H.
  intros Hi (tb & ids & k & H1 & H2 & H3 & H4 & H5 & H6 & H7). exists tb, ids, k. rewrite frame_inode by done.
  pose proof (Forall_inv H5) as Ht. pose proof (Forall_inv_tail H5) as Hr. simpl in Ht. split_and!; try done; [by apply frame_table|].
  rewrite <- H7. f_equal. apply front_ext. intros j Hj. rewrite Forall_forall in Hr. apply frame_blk. by apply Hr.
Qed.

Lemma frame_dir i es : n0 <= i < n1 -> dir_node d b0 b1 i es -> dir_node d' b0 b1 i es.
Proof using H.
  intros Hi [H1 H2]. split; [by rewrite frame_inode|]. intros Hes. destruct (H2 Hes) as (tb & db & k & T1 & T2 & T3 & T4 & T5).
  exists tb, db, k. rewrite frame_inode, frame_blk by done. split_and!; try done; try lia. by apply frame_table.
Qed.

Lemma frame_stored l : forall es, stored d n0 n1 b0 b1 l es -> stored d' n0 n1 b0 b1 l es.
Proof using H.
  induction l as [|name content rest IH|name opened sub IHs rest IH]; intros es; cbn [stored]; [done| |].
  - destruct (skipped name); [apply IH|]. intros (i & es' & H1 & H2 & H3 & H4). exists i, es'. split_and!; try done; try lia; [|by apply IH].
    destruct content; [by apply frame_file|done].
  - destruct (skipped name); [apply IH|]. intros (i & es' & sub_es & H1 & H2 & H3 & H4). exists i, es', sub_es.
    split_and!; try done; try lia; [|by apply IH]. intros Ho. destruct (H3 Ho). split; [by apply frame_dir|by apply IHs].
Qed.
End Frame.

Section Mono.
Context (d : sectors) (n0 n1 b0 b1 n0' n1' b0' b1' : Z).
Context (Hn : n0' <= n0 /\ n1 <= n1') (Hb : b0' <= b0 /\ b1 <= b1').

Lemma mono_file i c : stored_file d b0 b1 i c -> stored_file d b0' b1' i c.
Proof using Hb.
  intros (tb & ids & k & H1 & H2 & H3 & H4 & H5 & H6 & H7). exists tb, ids, k. split_and!; try done.
  eapply Forall_impl; [exact H5|]. simpl. lia.
Qed.
Lemma mono_dir i es : dir_node d b0 b1 i es -> dir_node d b0' b1' i es.
Proof using Hb.
  intros [H1 H2]. split; [done|]. intros Hes. destruct (H2 Hes) as (tb & db & k & T1 & T2 & T3 & T4 & T5). exists tb, db, k.
  split_and!; try done; lia.
Qed.
Lemma mono_stored l : forall es, stored d n0 n1 b0 b1 l es -> stored d n0' n1' b0' b1' l es.
Proof using Hn Hb.
  induction l as [|name content rest IH|name opened sub IHs rest IH]; intros es; cbn [stored]; [done| |].
  - destruct (skipped name); [apply IH|]. intros (i & es' & H1 & H2 & H3 & H4). exists i, es'. split_and!; try done; try lia; [|by apply IH].
    destruct content; [by apply mono_file|done].
  - destruct (skipped name); [apply IH|]. intros (i & es' & sub_es & H1 & H2 & H3 & H4). exists i, es', sub_es.
    split_and!; try done; try lia; [|by apply IH]. intros Ho. destruct (H3 Ho). split; [by apply mono_dir|by apply IHs].
Qed.
End Mono.

(** ** Room in the image *)

(** Entries of a listing itself, and inodes and blocks of all that is below it. *)
Fixpoint kept (l : listing) : Z :=
  match l with
  | End => 0
  | File name _ rest | Dir name _ _ rest => (if skipped name then 0 else 1) + kept rest
  end.
Fixpoint inodes (l : listing) : Z :=
  match l with
  | End => 0
  | File name _ rest => (if skipped name then 0 else 1) + inodes rest
  | Dir name opened sub rest => (if skipped name then 0 else 1 + if opened : bool then inodes sub else 0) + inodes rest
  end.
Definition dir_blocks (l : listing) : Z := if 0 <? kept l then 2 else 0.
Fixpoint blocks (l : listing) : Z :=
  match l with
  | End => 0
  | File name content rest => (if skipped name then 0 else match content with Some c => file_blocks c | None => 0 end) + blocks rest
  | Dir name opened sub rest => (if skipped name then 0 else if opened : bool then dir_blocks sub + blocks sub else 0) + blocks rest
  end.

(** Every directory has at most 15 entries, and the names fit. *)
Fixpoint fits (dir_name : list Z) (l : listing) : Prop :=
  match l with
  | End => True
  | File name _ rest => (skipped name = false -> name_ok name /\ Z.of_nat (length (entry_path dir_name name)) < 1024) /\ fits dir_name rest
  | Dir name opened sub rest =>
    (skipped name = false -> name_ok name /\ Z.of_nat (length (entry_path dir_name name)) < 1024 /\
       (opened = true -> kept sub < 16 /\ fits (entry_path dir_name name) sub)) /\ fits dir_name rest
  end.

Lemma counts_pos l : 0 <= kept l /\ 0 <= inodes l /\ 0 <= blocks l.
Proof.
  induction l as [|name content rest IH|name opened sub IHs rest IH]; cbn [kept inodes blocks]; [done| |].
  - assert (forall c, 0 <= file_blocks c) as Hf by (intros c; unfold file_blocks, more_blocks; pose proof (Z.div_pos (Z.of_nat (length c)) 4096); lia).
    destruct (skipped name), content as [c|]; try lia. specialize (Hf c). lia.
  - unfold dir_blocks. destruct (skipped name), opened, (0 <? kept sub); lia.
Qed.

(** ** Creating the files *)

Lemma new_dir_holds i lo hi : dir_holds (new_dir i) [] lo hi.
Proof.
  split; [done|done|done|by vm_compute|split; [done|cbn; lia]| |done].
  split; [by vm_compute|]. change (fb_entry (new_dir i)) with (fb_entry (new_dir 0)). apply Forall_forall. intros w Hw.
  assert (forallb (fun w => (0 <=? w) && (w <? 4294967296)) (fb_entry (new_dir 0)) = true) as H by by vm_compute.
  rewrite forallb_forall in H. apply list_elem_of_In in Hw. specialize (H w Hw). unfold word. lia.
Qed.

Lemma dir_written d n b fb es lo hi : ready d n b -> 0 < n -> 0 < b -> 7 <= lo -> hi <= 256 -> dir_holds fb es lo hi -> 0 <= fb_inode fb < 32 ->
  exists d', write_inode d fb = Ret d' /\ ready d' n b /\ dir_node d' lo hi (fb_inode fb) es /\
    (forall s, 24 <= s -> s <> 24 + fb_inode fb -> ~ 8 * lo <= s < 8 * hi -> sector d' s = sector d s).
Proof.
  intros R Hn Hb Hlo Hhi [(P1 & P2 & P3) Dn Dc B [E1 E2] He (W1 & W2 & W3)] Hi.
  assert (Z.of_nat (length (fb_data_buffer fb)) = 4096) as Bl.
  { rewrite B, length_app, Nat2Z.inj_add, length_dents by done. unfold zeros. rewrite length_replicate. lia. }
  assert (ent (final_entry fb)) as Hfe by by repeat apply entry_set_ent. destruct es as [|e es].
  - destruct (Dn eq_refl) as [D1 D2].
    destruct (write_inode_eq d n b fb R Hn Hb) as (d' & E & R' & Ed); [by left|by left|done|done|].
    rewrite D1, D2 in Ed. unfold put_if in Ed. cbn [Z.eqb] in Ed. exists d'. split; [done|]. split; [done|].
    split; [|intros s Hs Hsi _; rewrite Ed; by apply sector_insert_ne]. split; [|done]. rewrite Ed, inode_insert, final_word by done. done.
  - destruct (Dc ltac:(done)) as (C1 & C2 & C3 & C4 & C5).
    assert (Forall word (fb_block_buffer fb) /\ length (le_bytes (fb_block_buffer fb)) = (4 * 1024)%nat) as [Tw Tl].
    { rewrite C4, length_le_bytes, length_insert. split; [|done]. apply Forall_insert; [apply Forall_replicate; unfold word; lia|unfold word; lia]. }
    destruct (write_inode_eq d n b fb R Hn Hb) as (d' & E & R' & Ed); [right; split; [lia|done]|right; split; [lia|rewrite Tl; lia]|done|done|].
    unfold put_if in Ed. rewrite (proj2 (Z.eqb_neq (fb_data fb) 0)), (proj2 (Z.eqb_neq (fb_lvl1 fb) 0)) in Ed by lia.
    exists d'. split; [done|]. split; [done|]. split; [|intros s Hs Hsi Hr; rewrite Ed, sector_insert_ne, !put_sector_img by lia; done].
    split; [rewrite Ed, inode_insert, final_word by done; done|]. intros _.
    exists (fb_lvl1 fb), (fb_data fb), (Z.to_nat (4096 - 256 * Z.of_nat (length (e :: es)))).
    unfold table_is. rewrite Ed, inode_insert, final_word, !blk_insert by (done || lia). rewrite blk_put_eq, (blk_put_ne _ _ (fb_data fb)), blk_put_eq by (done || lia).
    rewrite le_words_bytes, C4 by done. split_and!; try done; try lia.
Qed.

(** The blocks a directory still needs, and where its own are then. *)
Definition room (es : list dent) (l : listing) : Z := match es with [] => dir_blocks l | _ => 0 end.
Definition room_hi (es : list dent) (l : listing) (b hi : Z) : Z := match es with [] => b + dir_blocks l | _ => hi end.

(** The sectors of the inodes below [n] and of the blocks below [b]. *)
Definition early (n b s : Z) : Prop := 24 <= s < 24 + n \/ 56 <= s < 8 * b.

Record created (d : sectors) (n b : Z) (bdir : file_buffer) (es : list dent) (l : listing) (lo hi : Z)
    (d' : sectors) (bdir' : file_buffer) (es' : list dent) : Prop := {
  cr_ready : ready d' (n + inodes l) (b + room es l + blocks l);
  cr_dir : dir_holds bdir' (es ++ es') lo (room_hi es l b hi);
  cr_inode : fb_inode bdir' = fb_inode bdir;
  cr_stored : stored d' n (n + inodes l) (b + room es l) (b + room es l + blocks l) l es';
  cr_frame : forall s, early n (b + room es l) s -> sector d' s = sector d s }.

Lemma room_first es l : 0 < kept l -> room es l = first_blocks es /\ forall b hi, room_hi es l b hi = next_hi es b hi.
Proof. intros H. unfold room, room_hi, dir_blocks. by rewrite (proj2 (Z.ltb_lt 0 (kept l)) H). Qed.

(** An entry, whose file or directory is in the inodes up to [n2] and the blocks up to [b2],
    and the rest of the listing. *)
Lemma created_rest d n b bdir es l lo hi d3 n2 b2 bdir2 e rest d' bdir' es' :
  created d3 n2 b2 bdir2 (es ++ [e]) rest lo (next_hi es b hi) d' bdir' es' -> fb_inode bdir2 = fb_inode bdir ->
  0 < kept l -> inodes l = n2 - n + inodes rest -> b + first_blocks es + blocks l = b2 + blocks rest -> n <= n2 -> b + first_blocks es <= b2 ->
  (forall s, early n (b + first_blocks es) s -> sector d3 s = sector d s) -> n2 + inodes rest <= 32 -> 7 <= b ->
  stored d' n (n + inodes l) (b + room es l) (b + room es l + blocks l) l (e :: es') ->
  created d n b bdir es l lo hi d' bdir' (e :: es').
Proof.
  intros [C1 C2 C3 C4 C5] Hbd Hk Hin Hbl Hn Hb2 Hf H32 H7 Hst. destruct (room_first es l Hk) as [Er Eh].
  assert (room (es ++ [e]) rest = 0 /\ room_hi (es ++ [e]) rest b2 (next_hi es b hi) = next_hi es b hi) as [Er' Eh'] by by destruct es.
  rewrite Er', Z.add_0_r in *. rewrite Eh' in *. destruct (counts_pos rest) as (? & ? & ?).
  split.
  - rewrite Er, Hbl. replace (n + inodes l) with (n2 + inodes rest) by lia. done.
  - rewrite Eh. by rewrite <- app_assoc in C2.
  - congruence.
  - done.
  - intros s Hs. rewrite Er in Hs. rewrite C5, Hf by (unfold early in *; lia). done.
Qed.

Lemma rest_keeps d3 n2 b2 bdir2 es e rest lo hi d' bdir' es' n b0 :
  created d3 n2 b2 bdir2 (es ++ [e]) rest lo hi d' bdir' es' -> 0 <= n <= n2 -> n2 + inodes rest <= 32 -> 7 <= b0 <= b2 ->
  (forall s, in_range n n2 b0 b2 s -> sector d' s = sector d3 s) /\
  stored d' n (n2 + inodes rest) b0 (b2 + blocks rest) rest es'.
Proof.
  intros [_ _ _ C4 C5] Hn H32 H7. assert (room (es ++ [e]) rest = 0) as Er by by destruct es.
  rewrite Er, Z.add_0_r in *. destruct (counts_pos rest) as (? & ? & ?). split.
  - intros s Hs. apply C5. unfold in_range, early in *. lia.
  - eapply mono_stored; [| |exact C4]; lia.
Qed.

(** The inode and the entry of a name. *)
Lemma entry_written d n b bdir es lo hi name type : ready d n b -> 0 < n < 32 -> 7 <= lo <= b -> b + first_blocks es <= 256 ->
  dir_holds bdir es lo hi -> Z.of_nat (length es) < 15 -> name_ok name -> word type ->
  exists d1 d2 bdir2, pop_inode d addr = Ret (d1, n) /\ write_entry_to_dir d1 addr bdir name n type = Ret (d2, bdir2, 0) /\
    ready d2 (n + 1) (b + first_blocks es) /\ dir_holds bdir2 (es ++ [(name, type, n)]) lo (next_hi es b hi) /\
    fb_inode bdir2 = fb_inode bdir /\ (forall s, 24 <= s -> sector d2 s = sector d s).
Proof.
  intros R Hn Hb Hf H Hl (_ & _ & Hname) Ht. destruct (pop_inode_ready d n b R Hn) as (d1 & E1 & R1 & S1); [lia|].
  destruct (write_entry_ok d1 (n + 1) b bdir es lo hi name type n R1) as (d2 & bdir2 & E2 & R2 & H2 & I2 & S2); try done; try lia; [unfold word; lia|].
  exists d1, d2, bdir2. split_and!; try done. intros s Hs. by rewrite S2, S1.
Qed.

(** An entry that is skipped. *)
Lemma created_skip d n b bdir es l rest lo hi d' bdir' es' : inodes l = inodes rest -> blocks l = blocks rest -> kept l = kept rest ->
  (forall n0 n1 b0 b1, stored d' n0 n1 b0 b1 rest es' -> stored d' n0 n1 b0 b1 l es') ->
  created d n b bdir es rest lo hi d' bdir' es' -> created d n b bdir es l lo hi d' bdir' es'.
Proof.
  intros Hi Hb Hk Hst [C1 C2 C3 C4 C5]. assert (room es l = room es rest /\ room_hi es l b hi = room_hi es rest b hi) as [Er Eh].
  { unfold room, room_hi, dir_blocks. by rewrite Hk. }
  split; rewrite ?Er, ?Eh, ?Hi, ?Hb; try done. by apply Hst.
Qed.

(** A file. *)
Lemma file_created d n b bfile content : ready d (n + 1) b -> 0 < n < 32 -> 7 <= b ->
  b + match content with Some c => file_blocks c | None => 0 end <= 256 -> ent (fb_entry bfile) ->
  let bf := init_inode_entry (set_inode (init_file_buffer bfile TYPE_FILE) n) DT_BLK in
  let b2 := b + match content with Some c => file_blocks c | None => 0 end in
  exists d3 bf3, match content with None => Ret (d, bf, 0) | Some c => write_file d addr bf c end = Ret (d3, bf3, 0) /\
    ready d3 (n + 1) b2 /\ ent (fb_entry bf3) /\ match content with Some c => stored_file d3 b b2 n c | None => True end /\
    (forall s, early n b s -> sector d3 s = sector d s).
Proof.
  intros R Hn Hb Hbl Hf bf b2. pose proof (fresh_init bfile n Hf) as Fr. fold bf in Fr. unfold b2 in *. destruct content as [c|].
  - destruct (write_file_ok d (n + 1) b bf c R) as (d3 & bf3 & E & R3 & St & He & S3); try done; try lia; [cbn; lia|].
    change (fb_inode bf) with n in *. exists d3, bf3. split_and!; try done. intros s Hs. unfold early in Hs. apply S3; lia.
  - exists d, bf. rewrite Z.add_0_r. split_and!; try done. apply (ff_ent _ Fr).
Qed.

(** A directory, whose listing is created first. *)
Lemma dir_created d n b sub ds sdir es : 0 < n < 32 -> 7 <= b -> created d (n + 1) b (new_dir n) [] sub b b ds sdir es ->
  n + 1 + inodes sub <= 32 -> b + dir_blocks sub + blocks sub <= 256 ->
  let n2 := n + 1 + inodes sub in
  let b2 := b + dir_blocks sub + blocks sub in
  exists d3, write_inode ds sdir = Ret d3 /\ ready d3 n2 b2 /\ dir_node d3 b b2 n es /\ stored d3 n n2 b b2 sub es /\
    (forall s, early n b s -> sector d3 s = sector d s).
Proof.
  intros Hn Hb [C1 C2 C3 C4 C5] Hin Hbl n2 b2. cbn [room room_hi app] in *. destruct (counts_pos sub) as (? & ? & ?).
  assert (0 <= dir_blocks sub) by (unfold dir_blocks; destruct (0 <? kept sub); lia). change (fb_inode (new_dir n)) with n in C3.
  destruct (dir_written ds n2 b2 sdir es b (b + dir_blocks sub) C1) as (d3 & E & R3 & Dn & S3); try done; try lia. rewrite C3 in *.
  exists d3. split; [done|]. split; [done|]. split; [eapply mono_dir; [|exact Dn]; lia|]. split.
  - eapply mono_stored; [| |eapply frame_stored; [|exact C4]]; try lia. intros s Hs. apply S3; unfold in_range in *; lia.
  - intros s Hs. rewrite S3, C5 by (unfold early in *; lia). done.
Qed.

(** [read_entries] creates what a listing has. *)
Definition entries_ok (l : listing) : Prop :=
  forall d n b dir_name bdir bfile es lo hi, ready d n b -> 0 < n -> 7 <= lo <= b -> n + inodes l <= 32 ->
  b + room es l + blocks l <= 256 -> fits dir_name l -> dir_holds bdir es lo hi -> Z.of_nat (length es) + kept l < 16 -> ent (fb_entry bfile) ->
  exists d' bdir' es', read_entries d addr dir_name bdir bfile l = Ret (d', bdir', true) /\ created d n b bdir es l lo hi d' bdir' es'.

Lemma entries_end : entries_ok End.
Proof.
  intros d n b dir_name bdir bfile es lo hi R Hn Hb Hin Hbl Hfit Hd Hk Hf. exists d, bdir, []. split; [done|].
  split; cbn [inodes blocks]; rewrite ?app_nil_r, ?Z.add_0_r; try done.
  - destruct es; [|by rewrite Z.add_0_r]. cbn. by rewrite Z.add_0_r.
  - destruct es; [|done]. destruct Hd. by split.
Qed.

Lemma entries_skip l rest : entries_ok rest -> inodes l = inodes rest -> blocks l = blocks rest -> kept l = kept rest ->
  (forall dir_name, fits dir_name l -> fits dir_name rest) -> (forall d n0 n1 b0 b1 es, stored d n0 n1 b0 b1 rest es -> stored d n0 n1 b0 b1 l es) ->
  (forall d p dir_name bdir bfile, read_entries d p dir_name bdir bfile l = read_entries d p dir_name bdir bfile rest) -> entries_ok l.
Proof.
  intros IH Hi Hb Hk Hf Hs Hr d n b dir_name bdir bfile es lo hi R Hn Hlo Hin Hbl Hfit Hd Hke Hfb.
  assert (room es l = room es rest) as Er by (unfold room, dir_blocks; by rewrite Hk). rewrite Er, Hb in Hbl. rewrite Hi in Hin. rewrite Hk in Hke.
  destruct (IH d n b dir_name bdir bfile es lo hi) as (d' & bdir' & es' & E & C); try done; [by apply Hf|].
  exists d', bdir', es'. split; [by rewrite Hr|]. eapply created_skip; [..|exact C]; try done. intros ? ? ? ?. apply Hs.
Qed.

Lemma entries_file name content rest : entries_ok rest -> entries_ok (File name content rest).
Proof.
  destruct (skipped name) eqn:Es.
  { intros IH. apply (entries_skip _ rest IH); intros; cbn [inodes blocks kept fits stored read_entries] in *; rewrite ?Es in *; try done.
    by destruct_and!. }
  intros IH d n b dir_name bdir bfile es lo hi R Hn Hb Hin Hbl Hfit Hd Hk Hf. destruct (counts_pos rest) as (? & ? & ?).
  cbn [inodes blocks kept fits] in *. rewrite Es in *. destruct Hfit as [Hfn Hfit]. destruct (Hfn eq_refl) as [Hname Hpath].
  pose proof (room_first es (File name content rest)) as [Er _]; [cbn [kept]; rewrite Es; lia|]. rewrite Er in Hbl.
  assert (0 <= match content with Some c => file_blocks c | None => 0 end) as Hc.
  { destruct content as [c|]; [|done]. unfold file_blocks, more_blocks. pose proof (Z.div_pos (Z.of_nat (length c)) 4096). lia. }
  destruct (entry_written d n b bdir es lo hi name DT_BLK R) as (d1 & d2 & bdir2 & E1 & E2 & R2 & H2 & I2 & S2); try done; try lia.
  assert (0 <= first_blocks es) by by destruct es.
  destruct (file_created d2 n (b + first_blocks es) bfile content R2) as (d3 & bf3 & E3 & R3 & Hb3 & St & S3); try done; try lia.
  cbv zeta in R3, St, S3. set (b2 := b + first_blocks es + match content with Some c => file_blocks c | None => 0 end) in *.
  destruct (IH d3 (n + 1) b2 dir_name bdir2 bf3 (es ++ [(name, DT_BLK, n)]) lo (next_hi es b hi)) as (d' & bdir' & es' & E & C); try done; try (unfold b2; lia).
  { assert (room (es ++ [(name, DT_BLK, n)]) rest = 0) as -> by by destruct es. unfold b2. lia. } { rewrite length_app. cbn [length]. lia. }
  exists d', bdir', ((name, DT_BLK, n) :: es'). split.
  - cbn [read_entries]. rewrite Es, E1, Ret_bind, (proj2 (Z.eqb_neq n 0)), (proj2 (Z.ltb_ge 1023 _)), E2, Ret_bind by lia.
    destruct content as [c|]; [rewrite E3, Ret_bind; done|]. injection E3 as -> ->. done.
  - destruct (rest_keeps _ _ _ _ _ _ _ _ _ _ _ _ n (b + first_blocks es) C) as [K1 K2]; [lia|lia|unfold b2; lia|].
    eapply created_rest; [exact C|done|..]; cbn [inodes blocks kept]; rewrite ?Es; try (unfold b2; lia).
    + intros s Hs. rewrite S3, S2 by (unfold early in *; lia). done.
    + rewrite Er. cbn [stored]. rewrite Es. exists n, es'. split; [done|]. split; [lia|].
      replace (n + (1 + inodes rest)) with (n + 1 + inodes rest) by lia.
      replace (b + first_blocks es + (_ + blocks rest)) with (b2 + blocks rest) by (unfold b2; lia). split; [|done].
      destruct content as [c|]; [|done]. eapply mono_file; [|eapply (frame_file d3 d' n (n + 1)); [exact K1|lia|exact St]]. lia.
Qed.

Lemma sub_created d n b path (opened : bool) sub : entries_ok sub -> ready d (n + 1) b -> 0 < n < 32 -> 7 <= b ->
  let n2 := n + 1 + (if opened then inodes sub else 0) in
  let b2 := b + (if opened then dir_blocks sub + blocks sub else 0) in
  n2 <= 32 -> b2 <= 256 -> (opened = true -> kept sub < 16 /\ fits path sub) ->
  exists d3 es, (if opened then
      '(d, sdir, ok) ← read_entries d addr path (new_dir n) allocate_file_buffer sub;
      if ok : bool then write_inode d sdir else mret d
    else mret d) = Ret d3 /\ ready d3 n2 b2 /\ (opened = true -> dir_node d3 b b2 n es /\ stored d3 n n2 b b2 sub es) /\
    (forall s, early n b s -> sector d3 s = sector d s).
Proof.
  intros IH R Hn Hb n2 b2 Hn2 Hb2 Hs. unfold n2, b2 in *. destruct opened; cbv iota in *.
  - destruct (Hs eq_refl) as [Hk Hfit]. pose proof (new_dir_holds n b b) as Hd. pose proof (dh_ent _ _ _ _ Hd) as He.
    destruct (IH d (n + 1) b path (new_dir n) allocate_file_buffer [] b b) as (ds & sdir & es & E & C); try done; try lia.
    { cbn [room]. lia. } { split; [by vm_compute|apply Forall_replicate; unfold word; lia]. }
    destruct (dir_created d n b sub ds sdir es Hn Hb C) as (d3 & E3 & R3 & Dn & St & S3); [lia|lia|].
    exists d3, es. rewrite E, Ret_bind. rewrite Z.add_assoc in *. by split_and!.
  - exists d, []. rewrite !Z.add_0_r. by split_and!.
Qed.

Lemma entries_dir name opened sub rest : entries_ok sub -> entries_ok rest -> entries_ok (Dir name opened sub rest).
Proof.
  intros IHs. destruct (skipped name) eqn:Es.
  { intros IH. apply (entries_skip _ rest IH); intros; cbn [inodes blocks kept fits stored read_entries] in *; rewrite ?Es in *; try done.
    by destruct_and!. }
  intros IH d n b dir_name bdir bfile es lo hi R Hn Hb Hin Hbl Hfit Hd Hk Hf. destruct (counts_pos rest) as (? & ? & ?).
  destruct (counts_pos sub) as (? & ? & ?). assert (0 <= dir_blocks sub) by (unfold dir_blocks; destruct (0 <? kept sub); lia).
  cbn [inodes blocks kept fits] in *. rewrite Es in *. destruct Hfit as [Hfn Hfit]. destruct (Hfn eq_refl) as (Hname & Hpath & Hsub).
  pose proof (room_first es (Dir name opened sub rest)) as [Er _]; [cbn [kept]; rewrite Es; lia|]. rewrite Er in Hbl.
  assert (0 <= (if opened then inodes sub else 0) /\ 0 <= if opened then dir_blocks sub + blocks sub else 0) as [Hc1 Hc2] by (destruct opened; lia).
  destruct (entry_written d n b bdir es lo hi name DT_DIR R) as (d1 & d2 & bdir2 & E1 & E2 & R2 & Hd2 & I2 & S2); try done; try lia.
  assert (0 <= first_blocks es) by by destruct es.
  destruct (sub_created d2 n (b + first_blocks es) (entry_path dir_name name) opened sub IHs R2) as (d3 & sub_es & E3 & R3 & St & S3); try done; try lia.
  set (n2 := n + 1 + (if opened then inodes sub else 0)) in *. set (b2 := b + first_blocks es + (if opened then dir_blocks sub + blocks sub else 0)) in *.
  destruct (IH d3 n2 b2 dir_name bdir2 bfile (es ++ [(name, DT_DIR, n)]) lo (next_hi es b hi)) as (d' & bdir' & es' & E & C); try done; try (unfold b2, n2; lia).
  { assert (room (es ++ [(name, DT_DIR, n)]) rest = 0) as -> by by destruct es. unfold b2. lia. } { rewrite length_app. cbn [length]. lia. }
  exists d', bdir', ((name, DT_DIR, n) :: es'). split.
  - cbn [read_entries]. rewrite Es, E1, Ret_bind, (proj2 (Z.eqb_neq n 0)), (proj2 (Z.ltb_ge 1023 _)), E2, Ret_bind by lia.
    rewrite E3, Ret_bind. done.
  - destruct (rest_keeps _ _ _ _ _ _ _ _ _ _ _ _ n (b + first_blocks es) C) as [K1 K2]; [unfold n2; lia|unfold n2; lia|unfold b2; lia|].
    eapply created_rest; [exact C|done|..]; cbn [inodes blocks kept]; rewrite ?Es; try (unfold b2, n2; lia).
    + intros s Hs. rewrite S3, S2 by (unfold early in *; lia). done.
    + rewrite Er. cbn [stored]. rewrite Es. exists n, es', sub_es. split; [done|]. split; [lia|].
      replace (n + (1 + _ + inodes rest)) with (n2 + inodes rest) by (unfold n2; lia).
      replace (b + first_blocks es + (_ + blocks rest)) with (b2 + blocks rest) by (unfold b2; lia). split; [|done].
      intros Ho. destruct (St Ho) as [St1 St2]. split.
      * eapply mono_dir; [|eapply (frame_dir d3 d' n n2); [exact K1|unfold n2; lia|exact St1]]. lia.
      * eapply mono_stored; [| |eapply frame_stored; [exact K1|exact St2]]; lia.
Qed.

Lemma read_entries_ok l : entries_ok l.
Proof. induction l; [apply entries_end|by apply entries_file|by apply entries_dir]. Qed.

(** The image of a directory that fits has its listing, below inode 0. *)
Lemma create_files_ok dir_name l : inodes l < 32 -> dir_blocks l + blocks l <= 249 -> kept l < 16 -> fits dir_name l ->
  exists d es, _mklmfs dir_name true l = Ret (d, 0) /\ ready d (1 + inodes l) (7 + dir_blocks l + blocks l) /\
    dir_node d 7 256 0 es /\ stored d 1 32 7 256 l es.
Proof.
  intros Hi Hb Hk Hf. destruct (counts_pos l) as (? & ? & ?). pose proof (proj2 format_ready) as R.
  unfold _mklmfs. rewrite (proj1 format_ready). unfold create_files.
  pose proof (new_dir_holds 0 7 7) as Hd.
  destruct (read_entries_ok l formatted 1 7 dir_name (new_dir 0) allocate_file_buffer [] 7 7) as (d1 & bdir & es & E1 & [C1 C2 C3 C4 C5]); try done; try lia.
  { cbn [room]. lia. } { split; [by vm_compute|apply Forall_replicate; unfold word; lia]. }
  assert (0 <= dir_blocks l) by (unfold dir_blocks; destruct (0 <? kept l); lia).
  cbn [room room_hi app] in *. change (fb_inode (new_dir 0)) with 0 in C3.
  destruct (dir_written d1 (1 + inodes l) (7 + dir_blocks l + blocks l) bdir es 7 (7 + dir_blocks l) C1) as (d3 & E3 & R3 & Dn & S3); try done; try lia.
  rewrite C3 in *. exists d3, es. rewrite E1, Ret_bind, E3, Ret_bind. split; [done|].
  split; [done|].
  split; [eapply mono_dir; [|exact Dn]; lia|].
  eapply mono_stored; [| |eapply frame_stored; [|exact C4]]; try lia. intros s Hs. apply S3; unfold in_range in *; lia.
Qed.
