(* ===== verification/MklmfsMount.v ===== *)
(** * The kernel on an image of mklmfs (fs/lmfs.c, fs/fnode.c, fs/vfs.c)

    A file packed by the tool is mounted, looked up by its path, opened and read. *)

From S2P Require Import Prelude Bitops CString Disk Vfs VfsSpec Lmfs LmfsSpec Path PathSpec Mklmfs MklmfsSpec MklmfsTree.

(** ** Words of blocks *)

Lemma le_words_app n : forall a b, length a = (4 * n)%nat -> le_words (a ++ b) = le_words a ++ le_words b.
Proof.
  induction n as [|n IH]; intros a b Ha; [by destruct a|].
  destruct a as [|x0 [|x1 [|x2 [|x3 a]]]]; simpl in Ha; try lia. cbn [app le_words]. f_equal. apply IH. lia.
Qed.

Lemma blk_split d b j : 0 <= j < 8 ->
  blk d b = memdisk_read_sectors d (b * 8) (Z.to_nat j) ++ sector d (8 * b + j) ++ memdisk_read_sectors d (8 * b + j + 1) (7 - Z.to_nat j).
Proof.
  intros Hj. unfold blk. replace 8%nat with (Z.to_nat j + (1 + (7 - Z.to_nat j)))%nat by lia. rewrite read_sectors_add, (read_sectors_add _ _ 1). f_equal.
  replace (b * 8 + Z.of_nat (Z.to_nat j)) with (8 * b + j) by lia. change (memdisk_read_sectors d ?x 1) with (sector d x ++ []). by rewrite app_nil_r.
Qed.

Lemma block_words d b j : disk_wf d -> 0 <= j < 8 -> entry_words (blk d b) j = le_words (sector d (8 * b + j)).
Proof.
  intros W Hj. unfold entry_words. rewrite (blk_split d b j Hj). pose proof (length_read d (b * 8) (Z.to_nat j) W) as L1.
  rewrite (le_words_app (128 * Z.to_nat j)) by (rewrite L1; lia). rewrite (le_words_app 128) by (by rewrite W).
  assert (length (le_words (memdisk_read_sectors d (b * 8) (Z.to_nat j))) = (128 * Z.to_nat j)%nat) as L2 by (apply length_le_words; rewrite L1; lia).
  assert (length (le_words (sector d (8 * b + j))) = 128%nat) as L3 by (apply length_le_words; by rewrite W).
  replace (Z.to_nat (128 * j)) with (length (le_words (memdisk_read_sectors d (b * 8) (Z.to_nat j)))) by (rewrite L2; lia).
  rewrite drop_app_length. rewrite <- L3. apply take_app_length.
Qed.

Lemma first_words d k : disk_wf d -> 0 <= k < 128 -> word_at (le_words (blk d 0)) k = sb_get d k.
Proof.
  intros W Hk. rewrite (blk_split d 0 0) by lia. change (memdisk_read_sectors d (0 * 8) (Z.to_nat 0)) with (@nil Z). cbn [app].
  rewrite (le_words_app 128) by (by rewrite W). unfold word_at. rewrite lookup_app_l by (rewrite (length_le_words _ 128); [lia|by rewrite W]).
  unfold sb_get, get_word, word_at. rewrite (Z.div_small (4 * k) 512), (Z.mod_small (4 * k) 512) by lia. by rewrite (Z.mul_comm 4), Z.div_mul by lia.
Qed.

(** ** Mounting *)

Lemma magic_bytes b : Forall byte b -> (4 <= length b)%nat -> word_at (le_words b) 0 = word_at (le_words lmfs_magic) 0 -> take 4 b = lmfs_magic.
Proof.
  intros Hb Hl. destruct b as [|x0 [|x1 [|x2 [|x3 b]]]]; simpl in Hl; try lia. unfold word_at. cbn. rewrite !Forall_cons in Hb. unfold byte in Hb.
  destruct Hb as (H0 & H1 & H2 & H3 & _). intros E. change (x0 + 256 * x1 + 65536 * x2 + 16777216 * x3 = 76 + 256 * 77 + 65536 * 70 + 16777216 * 83) in E. assert (x0 = 76 /\ x1 = 77 /\ x2 = 70 /\ x3 = 83) as (-> & -> & -> & ->); [lia|done].
Qed.

Lemma mount_ok d n b : ready d n b -> 0 < n -> 0 < b -> exists sb, lmfs_fill_super d first_bdev = inl sb /\ fnode_start_block sb = 3.
Proof.
  intros [[W M] I D S Mg] Hn Hb. unfold lmfs_fill_super, read_sectors. change (max_start first_bdev) with 2044. change (2044 <? 0) with false. cbv iota.
  change (memdisk_read_sectors d 0 (Z.to_nat 8)) with (blk d 0). rewrite !(first_words d) by (done || lia).
  assert (take 4 (blk d 0) = lmfs_magic) as ->.
  { apply magic_bytes; [|unfold blk; rewrite (length_read _ _ _ W); lia|by rewrite first_words].
    assert (forall k s, 0 <= s -> s + Z.of_nat k <= 24 -> Forall byte (memdisk_read_sectors d s k)) as H; [|unfold blk; apply H; lia].
    induction k as [|k IH]; intros s Hs Hk; [constructor|]. apply (Forall_app_2 _ (sector d s)); [apply M; lia|apply IH; lia]. }
  rewrite bool_decide_eq_true_2 by done. cbn [negb]. change 5 with sb_ib_current. change 9 with sb_db_current.
  rewrite (pl_cur _ _ _ _ _ _ _ _ I), (pl_cur _ _ _ _ _ _ _ _ D).
  assert ((2044 <? u32 ((if n =? 32 then 1 - 1 else 1) * 8)) = false) as -> by by destruct (n =? 32).
  assert ((2044 <? u32 ((if b =? 256 then 2 - 1 else 2) * 8)) = false) as -> by by destruct (b =? 256).
  eexists. split; [done|]. cbn [fnode_start_block]. exact S.
Qed.

(** ** Opening *)

Lemma nz_prefix_zeros ids k : Forall (fun j => j <> 0) ids -> nz_prefix (ids ++ zeros k) = ids.
Proof. induction 1 as [|j ids Hj _ IH]; [by destruct k|]. cbn [app nz_prefix]. rewrite (proj2 (Z.eqb_neq j 0) Hj). by f_equal. Qed.

Section Open.
Context (d : sectors) (W : disk_wf d) (sb : lmfs_super_block) (Hsb : fnode_start_block sb = 3).

(** The kernel with the node [node] in its hands. *)
Definition img (node : lmfs_fnode) : lmfs_st := LmfsSt d first_bdev sb node.

Lemma img_read node i : 0 <= i < 256 -> lmfs_read_block (img node) i = inl (blk d i).
Proof using. intros Hi. apply (disk_read (img node)); change (lmax (img node)) with 2044; lia. Qed.

(** An inode whose table is in a block of the image. *)
Lemma img_open node i tb : 0 <= i < 32 -> 0 <= tb < 256 ->
  tb = word_at (inode_words d i) (if word_at (inode_words d i) 2 =? DT_BLK then 64 else 96) ->
  exists node', lmfs_fill_fnode (img node) i = (img node', Some (FAttr (u8 (word_at (inode_words d i) 1)) (word_at (inode_words d i) 0)
      (u8 (word_at (inode_words d i) 2)) (word_at (inode_words d i) 9) (word_at (inode_words d i) 7) 4096 0), 0) /\
    lvl1 node' = le_words (blk d tb) /\ pos_in_lvl1 node' = 0 /\ pos_in_lvl0 node' = 0 /\ l_current_block node' = word_at (lvl1 node') 0.
Proof using W Hsb.
  intros Hi Ht Etb. unfold lmfs_fill_fnode, fnode_location. cbn [lsb img]. rewrite Hsb.
  assert (0 <= i / 8 < 4) as Hi8 by (split; [apply Z.div_pos; lia|apply Z.div_lt_upper_bound; lia]). pose proof (Z.mod_pos_bound i 8).
  rewrite u32_small by lia. rewrite (proj2 (Z.eqb_neq (i / 8 + 3) 0)) by lia. cbn [andb]. rewrite img_read by lia.
  rewrite block_words by (done || lia). replace (8 * (i / 8 + 3) + i mod 8) with (24 + i) by (pose proof (Z.div_mod i 8); lia).
  fold (inode_words d i). set (e := inode_words d i) in *. unfold init_data_block_info.
  assert (word_at (drop 64 e) (if word_at e 2 =? DT_BLK then 0 else 32) = tb) as Eo.
  { rewrite Etb. unfold word_at. rewrite lookup_drop. by destruct (_ =? DT_BLK). }
  rewrite Eo, img_read by done. eexists. by split_and!.
Qed.

(** The table of an open file or directory. *)
Lemma img_table node tb ids : lvl1 node = le_words (blk d tb) -> table_is d tb ids -> Forall (fun j => 7 <= j < 256) ids -> NoDup ids ->
  pos_in_lvl1 node = 0 -> pos_in_lvl0 node = 0 -> l_current_block node = word_at (lvl1 node) 0 ->
  lm_ids (img node) = ids /\ lm_ok (img node) /\ lm_blocks (img node) = blk d <$> ids.
Proof using W.
  intros El [Et Hl] Hr Hnd P1 P0 Ec. assert (lm_ids (img node) = ids) as Eids.
  { unfold lm_ids. cbn [lnode img]. rewrite El, Et. apply nz_prefix_zeros. eapply Forall_impl; [exact Hr|]. simpl. lia. }
  split; [done|]. split; [|unfold lm_blocks; by rewrite Eids].
  split; cbn [lnode img]; try done.
  - rewrite El, Et, length_app. unfold zeros. rewrite length_replicate. lia.
  - by rewrite P1.
  - by rewrite P1.
  - by rewrite Eids.
  - rewrite Eids. intros i Hi. rewrite Forall_forall in Hr. specialize (Hr i Hi). simpl in Hr. change (lmax (img node)) with 2044.
    split; [lia|]. split; [lia|]. apply (length_read d (i * 8) 8 W).
Qed.
End Open.

(** ** Entries of a directory block *)

Definition ent_name_ok (e : dent) : Prop := name_ok e.1.1 /\ word e.2.

Lemma chars_name (name r : list Z) : Forall (fun c => c <> 0) name -> chars_to_zero (name ++ 0 :: r) = name.
Proof. induction 1 as [|c name Hc _ IH]; [done|]. cbn [app chars_to_zero]. rewrite (proj2 (Z.eqb_neq c 0) Hc). by f_equal. Qed.

Lemma dent_name e r : ent_name_ok e -> entry_name (dent_bytes e ++ r) = e.1.1.
Proof.
  destruct e as [[name t] i]. intros [(_ & Hz & Hl) _]. cbn [fst dent_bytes] in *. unfold entry_name. rewrite <- app_assoc.
  replace (248 - length name)%nat with (S (247 - length name)) by lia. cbn [zeros replicate app]. by apply chars_name.
Qed.

Lemma dent_index e r : ent_name_ok e -> entry_index (dent_bytes e ++ r) = e.2.
Proof.
  destruct e as [[name t] i]. intros [(_ & _ & Hl) Hi]. cbn [fst snd dent_bytes] in *. unfold entry_index.
  assert (drop 252 ((name ++ zeros (248 - length name) ++ word_bytes t ++ word_bytes i) ++ r) = word_bytes i ++ r) as ->.
  { rewrite !app_assoc, <- (app_assoc _ (word_bytes i)). apply drop_app_length'. unfold zeros. rewrite !length_app, length_replicate. simpl. lia. }
  unfold word_bytes. cbn [app le_words]. unfold word_at. cbn. unfold word in Hi.
  pose proof (le_words_bytes [i]) as E. cbn in E. assert (Forall (fun w => 0 <= w < 4294967296) [i]) as H by (constructor; [lia|constructor]).
  by injection (E H).
Qed.

Lemma dir_entry_at es k : Forall ent_name_ok es -> forall j,
  exists r, dir_entry (concat (dent_bytes <$> es) ++ zeros k) (Z.of_nat j) = match es !! j with Some e => dent_bytes e ++ r | None => zeros (k - 256 * (j - length es)) end.
Proof.
  induction 1 as [|e es He _ IH]; intros j.
  - exists []. cbn [fmap list_fmap concat app lookup list_lookup length]. unfold dir_entry, zeros. rewrite drop_replicate. f_equal. lia.
  - cbn [fmap list_fmap concat]. destruct j as [|j]; [eexists; cbn; rewrite <- app_assoc; done|]. destruct (IH j) as [r Hr]. exists r.
    change ((e :: es) !! S j) with (es !! j). cbn [length]. replace (S j - S (length es))%nat with (j - length es)%nat by lia. rewrite <- Hr. unfold dir_entry.
    assert (Z.of_nat (length (dent_bytes e)) = 256) as Hl by (apply length_dent; apply He).
    replace (Z.to_nat (256 * Z.of_nat (S j))) with (length (dent_bytes e) + Z.to_nat (256 * Z.of_nat j))%nat by lia.
    rewrite <- app_assoc, <- drop_drop, drop_app_length. done.
Qed.

(** The first entry with a name. *)
Lemma dir_find_entry es k p t i j : Forall ent_name_ok es -> Z.of_nat (length es) < 16 -> es !! j = Some (p, t, i) ->
  (forall j' e, (j' < j)%nat -> es !! j' = Some e -> e.1.1 <> p) -> p <> [] ->
  let b := concat (dent_bytes <$> es) ++ zeros k in
  dir_find b p = Some (Z.of_nat j) /\ entry_index (dir_entry b (Z.of_nat j)) = i.
Proof.
  intros Hes Hl Hj Hfirst Hp b. pose proof (dir_entry_at es k Hes) as Hat. pose proof (Forall_lookup_1 _ _ _ _ Hes Hj) as Hok.
  assert (entry_name (dir_entry b (Z.of_nat j)) = p /\ entry_index (dir_entry b (Z.of_nat j)) = i) as [En Ei].
  { destruct (Hat j) as [r Hr]. rewrite Hj in Hr. unfold b. rewrite Hr, dent_name, dent_index by done. done. }
  split; [|done]. unfold dir_find. pose proof (lookup_lt_Some _ _ _ Hj) as Hlt. destruct (zfirst _ _ _) as [m|] eqn:Ez.
  - apply zfirst_Some in Ez as (Hm & Hpm & Hlow). apply bool_decide_eq_true in Hpm. f_equal.
    destruct (Z_lt_le_dec (Z.of_nat j) m) as [Hjm|Hjm].
    { specialize (Hlow (Z.of_nat j)). rewrite En, bool_decide_eq_true_2 in Hlow by done. lia. }
    destruct (decide (m = Z.of_nat j)) as [|Hne]; [done|]. exfalso. destruct (Hat (Z.to_nat m)) as [r Hr]. rewrite Z2Nat.id in Hr by lia.
    fold b in Hr. destruct (es !! Z.to_nat m) as [e|] eqn:Ee; [|apply lookup_ge_None in Ee; lia].
    apply (Hfirst (Z.to_nat m) e); [lia|done|]. rewrite Hpm, Hr. symmetry. apply dent_name. by apply (Forall_lookup_1 _ _ _ _ Hes Ee).
  - pose proof (zfirst_None _ _ _ Ez (Z.of_nat j) ltac:(lia)) as H. simpl in H. rewrite En, bool_decide_eq_true_2 in H; done.
Qed.

(** ** Paths in a listing *)

Inductive item := IFile (content : option (list Z)) | IDir (opened : bool) (sub : listing).

Fixpoint entry_of (l : listing) (p : list Z) : option item :=
  match l with
  | End => None
  | File name c rest => if skipped name then entry_of rest p else if decide (name = p) then Some (IFile c) else entry_of rest p
  | Dir name o sub rest => if skipped name then entry_of rest p else if decide (name = p) then Some (IDir o sub) else entry_of rest p
  end.

(** The contents of the file a path leads to. *)
Fixpoint file_at (l : listing) (ps : list (list Z)) : option (list Z) :=
  match ps with
  | [] => None
  | p :: ps' =>
    match ps', entry_of l p with
    | [], Some (IFile c) => c
    | _ :: _, Some (IDir true sub) => file_at sub ps'
    | _, _ => None
    end
  end.

(** What an item of a listing is in the image. *)
Definition item_stored (d : sectors) (i t : Z) (it : item) : Prop :=
  match it with
  | IFile (Some c) => t = DT_BLK /\ stored_file d 7 256 i c
  | IDir true sub => t = DT_DIR /\ exists es, dir_node d 7 256 i es /\ stored d 1 32 7 256 sub es
  | _ => True
  end.

Lemma stored_find d l p it : forall es, stored d 1 32 7 256 l es -> entry_of l p = Some it ->
  exists j t i, es !! j = Some (p, t, i) /\ (forall j' e, (j' < j)%nat -> es !! j' = Some e -> e.1.1 <> p) /\ 1 <= i < 32 /\ item_stored d i t it.
Proof.
  induction l as [|name c rest IH|name o sub _ rest IH]; intros es; cbn [stored entry_of]; [done| |]; (destruct (skipped name); [apply IH|]).
  - intros (i & es' & -> & Hi & Hc & Hs) E. destruct (decide (name = p)) as [->|Hne].
    + injection E as <-. exists 0%nat, DT_BLK, i. split; [done|]. split; [lia|]. split; [done|]. by destruct c.
    + destruct (IH es' Hs E) as (j & t & k & H1 & H2 & H3). exists (S j), t, k. split; [done|]. split; [|done].
      intros [|j'] e Hj He; [by injection He as <-|]. apply (H2 j' e); [lia|done].
  - intros (i & es' & sub_es & -> & Hi & Hc & Hs) E. destruct (decide (name = p)) as [->|Hne].
    + injection E as <-. exists 0%nat, DT_DIR, i. split; [done|]. split; [lia|]. split; [done|]. destruct o; [|done]. split; [done|]. exists sub_es. by apply Hc.
    + destruct (IH es' Hs E) as (j & t & k & H1 & H2 & H3). exists (S j), t, k. split; [done|]. split; [|done].
      intros [|j'] e Hj He; [by injection He as <-|]. apply (H2 j' e); [lia|done].
Qed.

Lemma stored_names d l dn : forall es, stored d 1 32 7 256 l es -> fits dn l -> Forall ent_name_ok es /\ Z.of_nat (length es) = kept l.
Proof.
  induction l as [|name c rest IH|name o sub _ rest IH]; intros es; cbn [stored fits kept]; [by intros ->| |]; (destruct (skipped name); [intros Hs [_ Hf]; by apply IH|]).
  - intros (i & es' & -> & Hi & _ & Hs) [Hn Hf]. destruct (IH es' Hs Hf) as [H1 H2]. destruct (Hn eq_refl) as [Hname _]. split.
    + constructor; [|done]. split; [done|]. unfold word. simpl. lia.
    + cbn [length]. lia.
  - intros (i & es' & sub_es & -> & Hi & _ & Hs) [Hn Hf]. destruct (IH es' Hs Hf) as [H1 H2]. destruct (Hn eq_refl) as [Hname _]. split.
    + constructor; [|done]. split; [done|]. unfold word. simpl. lia.
    + cbn [length]. lia.
Qed.

(** ** Walking to a file *)

Lemma fits_sub dn l p sub : fits dn l -> entry_of l p = Some (IDir true sub) -> kept sub < 16 /\ exists dn', fits dn' sub.
Proof.
  induction l as [|name c rest IH|name o s _ rest IH]; cbn [fits entry_of]; [done| |]; (destruct (skipped name); [intros [_ Hf]; by apply IH|]).
  - intros [_ Hf]. destruct (decide (name = p)); [done|by apply IH].
  - intros [Hn Hf]. destruct (decide (name = p)); [|by apply IH]. intros E. injection E as -> ->. destruct (Hn eq_refl) as (_ & _ & H).
    destruct (H eq_refl). split; [done|by eexists].
Qed.

Section Walk.
Context (d : sectors) (W : disk_wf d) (sb : lmfs_super_block) (Hsb : fnode_start_block sb = 3).

(** The file is open at its start. *)
Definition opened_file (s : lmfs_st) (a : fattr) (c : list Z) : Prop :=
  lm_ok s /\ pos_in_lvl1 (lnode s) = 0 /\ a_type a = DT_BLK /\ a_data_size a = Z.of_nat (length c) /\ a_buffer_size a = 4096 /\
  (exists k, concat (lm_blocks s) = c ++ zeros k) /\ 0 < Z.of_nat (length (lm_ids s)) < 1024.

Lemma open_file node i c : stored_file d 7 256 i c -> 0 <= i < 32 ->
  exists s a, lmfs_fill_fnode (img d sb node) i = (s, Some a, 0) /\ opened_file s a c.
Proof using W Hsb.
  intros (tb & ids & k & H1 & H2 & H3 & H4 & H5 & H6 & H7) Hi. apply Forall_cons in H5 as [Ht Hr].
  destruct (img_open d W sb Hsb node i tb Hi) as (node' & E & El & P1 & P0 & Ec); [lia|by rewrite H1|].
  destruct (img_table d W sb node' tb ids El H4 Hr H6 P1 P0 Ec) as (T1 & T2 & T3).
  eexists _, _. split; [exact E|]. unfold opened_file. cbn [a_type a_data_size a_buffer_size]. rewrite H1, T1, T3. destruct H4 as [_ H4].
  split_and!; try done; try lia. exists k. done.
Qed.

Lemma open_dir node i es : dir_node d 7 256 i es -> es <> [] -> 0 <= i < 32 ->
  exists nd a k, lmfs_fill_fnode (img d sb node) i = (img d sb nd, Some a, 0) /\ a_type a = DT_DIR /\ dir_at (img d sb nd) /\
    length (lm_ids (img d sb nd)) = 1%nat /\ block_at (img d sb nd) 0 = concat (dent_bytes <$> es) ++ zeros k.
Proof using W Hsb.
  intros [H1 H2] Hes Hi. destruct (H2 Hes) as (tb & db & k & H3 & H4 & H5 & H6 & H7).
  destruct (img_open d W sb Hsb node i tb Hi) as (nd & E & El & P1 & P0 & Ec); [lia|by rewrite H1|].
  destruct (img_table d W sb nd tb [db] El H4) as (T1 & T2 & T3); [by apply Forall_singleton|apply NoDup_singleton|done|done|done|].
  eexists nd, _, k. split; [exact E|]. cbn [a_type]. rewrite H1. split; [done|]. unfold dir_at, block_at. rewrite T1.
  split; [split; [done|]; split; [done|simpl; lia]|]. split; [done|]. exact H7.
Qed.

Lemma walk_file c ps : forall l es i node dn, dir_node d 7 256 i es -> stored d 1 32 7 256 l es -> fits dn l -> kept l < 16 ->
  file_at l ps = Some c -> 0 <= i < 32 ->
  exists nd a s' a', lmfs_fill_fnode (img d sb node) i = (img d sb nd, Some a, 0) /\ a_type a = DT_DIR /\
    path_walk (img d sb nd) ps s' a' /\ Forall part_ok ps /\ opened_file s' a' c.
Proof using W Hsb.
  induction ps as [|p ps IH]; intros l es i node dn Hd Hs Hf Hk Hat Hi; [done|].
  destruct (entry_of l p) as [it|] eqn:Eit; [|cbn [file_at] in Hat; rewrite Eit in Hat; by destruct ps].
  destruct (stored_find d l p it es Hs Eit) as (j & t & k & Hj & Hfirst & Hkr & Hit).
  destruct (stored_names d l dn es Hs Hf) as [Hnames Hlen]. pose proof (Forall_lookup_1 _ _ _ _ Hnames Hj) as [(Hpart & _) _]. cbn [fst] in Hpart.
  assert (es <> []) as Hes by (intros ->; done).
  destruct (open_dir node i es Hd Hes Hi) as (nd & a & z & E & Ea & D & L1 & Eb).
  destruct (dir_find_entry es z p t k j Hnames ltac:(lia) Hj Hfirst (proj1 Hpart)) as [Ef Ei]. rewrite <- Eb in Ef, Ei.
  assert (forall s1 a1, lmfs_fill_fnode (img d sb nd) k = (s1, Some a1, 0) -> dir_step (img d sb nd) p s1 a1) as Hstep.
  { intros s1 a1 E1. exists 0%nat, (Z.of_nat j). rewrite L1, Ei. split; [lia|]. split; [done|]. split; [lia|done]. }
  exists nd, a. cbn [file_at] in Hat. rewrite Eit in Hat. destruct ps as [|q ps].
  - destruct it as [c'|]; [|done]. subst c'. destruct Hit as [_ Hit]. destruct (open_file nd k c Hit ltac:(lia)) as (s1 & a1 & E1 & O).
    exists s1, a1. split_and!; try done; [by apply walk_last, Hstep|by apply Forall_singleton].
  - destruct it as [|[] sub]; try done. destruct Hit as (_ & sub_es & Hd' & Hs'). destruct (fits_sub dn l p sub Hf Eit) as [Hk' [dn' Hf']].
    destruct (IH sub sub_es k nd dn' Hd' Hs' Hf' Hk' Hat ltac:(lia)) as (nd' & a1 & s' & a' & E1 & Ea1 & Wk & Hps & O).
    exists s', a'. split_and!; try done; [eapply walk_cons; [done|by apply Hstep|done|done]|by apply Forall_cons].
Qed.
End Walk.

(** ** The image in memory *)

(** The sectors of a memory disk that holds the bytes of an image. *)
Definition ramdisk (image : list Z) : sectors := memdisk_write_sectors ∅ image 0 (Z.to_nat 2048).

Lemma copy_sector d d0 n : disk_wf d -> forall s j, s <= j < s + Z.of_nat n ->
  sector (memdisk_write_sectors d0 (memdisk_read_sectors d s n) s n) j = sector d j.
Proof.
  intros Wd. revert d0. induction n as [|n IH]; intros d0 s j Hj; [lia|].
  change (memdisk_read_sectors d s (S n)) with (sector d s ++ memdisk_read_sectors d (s + 1) n).
  change (memdisk_write_sectors d0 ?b s (S n)) with (memdisk_write_sectors (<[s := take 512 b]> d0) (drop 512 b) (s + 1) n).
  rewrite take_app_length', drop_app_length' by (by rewrite Wd). destruct (decide (j = s)) as [->|Hne].
  - rewrite write_sector_other by lia. apply sector_insert_eq.
  - apply IH. lia.
Qed.

Lemma image_loads dir_name l : inodes l < 32 -> dir_blocks l + blocks l <= 249 -> kept l < 16 -> fits dir_name l ->
  exists image n b es, mklmfs dir_name true l = Ret (Some image) /\ ready (ramdisk image) n b /\ 0 < n /\ 0 < b /\
    dir_node (ramdisk image) 7 256 0 es /\ stored (ramdisk image) 1 32 7 256 l es.
Proof.
  intros Hi Hb Hk Hf. destruct (create_files_ok dir_name l Hi Hb Hk Hf) as (d & es & E & R & Dn & St).
  destruct (counts_pos l) as (? & ? & ?). assert (0 <= dir_blocks l) by (unfold dir_blocks; destruct (0 <? kept l); lia).
  pose proof (me_wf _ (rd_meta _ _ _ R)) as Wd. set (image := memdisk_read_sectors d 0 (Z.to_nat 2048)).
  assert (forall s, 0 <= s < 2048 -> sector (ramdisk image) s = sector d s) as Hs
    by (intros s Hs; unfold ramdisk, image; apply (copy_sector d ∅ (Z.to_nat 2048) Wd 0 s); lia).
  assert (disk_wf (ramdisk image)) as Wi.
  { unfold ramdisk. apply (write_wf ∅ image 0 (Z.to_nat 2048) empty_wf). unfold image. exact (length_read d 0 (Z.to_nat 2048) Wd). }
  assert (mklmfs dir_name true l = Ret (Some image)) as Em by (unfold mklmfs; rewrite E, Ret_bind; reflexivity).
  clearbody image. exists image, (1 + inodes l), (7 + dir_blocks l + blocks l), es. split; [exact Em|].
  split; [|split; [lia|split; [lia|split]]].
  - apply (ready_ext d); [intros i Hi'; apply Hs; lia|exact Wi|exact R|lia|lia].
  - apply (frame_dir d _ 0 32); [|lia|done]. intros s Hr. apply Hs. unfold in_range in Hr. lia.
  - apply (frame_stored d); [|done]. intros s Hr. apply Hs. unfold in_range in Hr. lia.
Qed.

Definition file_of (s : lmfs_st) (a : fattr) : vfile lmfs_st := VFile s 0 0 (a_data_size a) (a_buffer_size a) [] 0 (a_blk_cnt a) (a_type a).

(** Opening a file gives a view of it at its start. *)
Lemma open_opened s a c : opened_file s a c -> Z.of_nat (length c) <> 0 ->
  exists f1 k, vfs_open (file_of s a) = Ret (f1, 0) /\ @vinv lmfs_st lmfs_ops lmfs_laws f1 /\ offset f1 = 0 /\
    data_size f1 = Z.of_nat (length c) /\ bytes f1 = c ++ zeros k.
Proof.
  intros (O & Hp & Ht & Hd & Hbs & [k Hc] & Hl) Hne. set (f := file_of s a).
  assert (Forall (fun b => length b = bsize) (lm_blocks s)) as HL by exact (blocks_len (v_fs f) O).
  assert (Z.of_nat (length c) <= Z.of_nat (length (lm_blocks s) * bsize)) as Hlen.
  { rewrite <- (length_concat_blocks bsize _ HL), Hc, length_app. lia. }
  assert (Z.of_nat bsize = 4096) as EB by done. assert (length (lm_blocks s) = length (lm_ids s)) as Hn by apply length_fmap.
  destruct (lookup_lt_is_Some_2 (lm_blocks s) 0) as [b Hb]; [lia|].
  destruct (@vfs_open_spec lmfs_st lmfs_ops lmfs_laws f b O) as (f1 & E1 & V & (S1 & _ & S2) & Ho); try done.
  { unfold cur. change (f_cur (v_fs f)) with (Z.to_nat (pos_in_lvl1 (lnode s))). by rewrite Hp. }
  { change (data_size f) with (a_data_size a). rewrite Hd. split; [lia|exact Hlen]. }
  { change (nblocks f) with (length (lm_blocks s)). rewrite Nat2Z.inj_mul, EB. lia. }
  change (data_size f) with (a_data_size a) in S2. rewrite Hd in S2.
  exists f1, k. split; [done|]. split; [done|]. split; [done|]. split; [done|].
  unfold bytes. rewrite S1. exact Hc.
Qed.

Lemma read_opened s a c m buffer size : opened_file s a c -> 0 < size < 2147483648 -> Z.min size (Z.of_nat (length c)) mod 4096 <> 0 ->
  exists f1 f2 m', vfs_open (file_of s a) = Ret (f1, 0) /\ vfs_read f1 m buffer size = Ret (f2, m', Z.min size (Z.of_nat (length c))) /\
    wrote m m' buffer (take (Z.to_nat (Z.min size (Z.of_nat (length c)))) c).
Proof.
  intros Ho Hs Hm. assert (Z.of_nat (length c) <> 0) as Hne by (intros E0; rewrite E0, Z.min_r in Hm; [done|lia]).
  destruct (open_opened s a c Ho Hne) as (f1 & k & E1 & V & Hz & S2 & Hb).
  assert (Z.of_nat bsize = 4096) as EB by done.
  assert (read_size f1 size = Z.min size (Z.of_nat (length c))) as Er by (unfold read_size; rewrite S2, Hz; f_equal; lia).
  destruct (@vfs_read_spec lmfs_st lmfs_ops lmfs_laws f1 m buffer size V) as (f2 & m' & E2 & Wr & _); [lia|lia|lia|by rewrite Er, Hz, EB|].
  rewrite Er in *. exists f1, f2, m'. split; [done|]. split; [done|]. unfold slice in Wr. rewrite Hz, Hb in Wr.
  change (drop (Z.to_nat 0) ?x) with x in Wr. rewrite take_app_le in Wr by lia. exact Wr.
Qed.

(** The lookup from the root directory of a mounted image. *)
Lemma root_walk d sb nd a0 ps s a nb k flag fuel : lmfs_fill_fnode (img d sb (fst lmfs_get_root_fnode)) 0 = (img d sb nd, Some a0, 0) ->
  path_walk (img d sb nd) ps s a -> Forall part_ok ps -> wanted_type flag a -> (length ps <= fuel)%nat -> 0 <= k < 8 -> read_bit nb iname_buffer k = 0 ->
  exists nb', _get_file_fnode fuel (Z.to_nat 1024) nb (img d sb (fst lmfs_get_root_fnode)) (snd lmfs_get_root_fnode) flag (join ps) = Ret (nb', s, Some a) /\
    forall i, 0 <= i < 8 -> read_bit nb' iname_buffer i = read_bit nb iname_buffer i.
Proof.
  intros E Wk Hps Ht Hf Hk Hfree. destruct (iname_free nb k Hk Hfree) as (nb1 & i & Eb). destruct (iname_get_put nb nb1 i Eb) as (_ & _ & _ & Hput).
  exists (put_iname_buffer nb1 i). split; [|exact Hput]. unfold _get_file_fnode. cbn [copy_fnode lmfs_dir lnode fnode_index fst snd lmfs_get_root_fnode img]. unfold lmfs_copy_fnode.
  change (LmfsSt d first_bdev sb ?x) with (img d sb x). change (fst lmfs_get_root_fnode) with (LmfsFnode 0 [] [] 0 0 0 0 0 0) in E.
  rewrite E. cbn [negb Z.eqb default]. destruct ps as [|p ps]; [by inversion Wk|]. pose proof (Forall_inv Hps) as Hp.
  destruct (join_nonempty p ps Hp) as (ch & r & Ej). rewrite Ej at 1. unfold __get_file_fnode. rewrite Eb.
  rewrite (lookup_loop_walk _ _ s a Wk Hps); [|exact Hf|lia|exact Ht]. rewrite !Ret_bind. reflexivity.
Qed.

Lemma file_wanted s a c : opened_file s a c -> wanted_type 0 a.
Proof. intros (_ & _ & E & _). unfold wanted_type. by rewrite E. Qed.

(** The image mklmfs makes of a directory tree that fits is mounted by the kernel, and
    every file of the tree is found by its path, opened, and read back with the contents
    it was packed with. *)
Theorem packed_file_read dir_name l ps c m buffer size
    (Hi : inodes l < 32) (Hb : dir_blocks l + blocks l <= 249) (Hk : kept l < 16) (Hf : fits dir_name l)
    (Hat : file_at l ps = Some c) (Hs : 0 < size < 2147483648) (Hm : Z.min size (Z.of_nat (length c)) mod 4096 <> 0) :
  exists image sb nb s a f1 f2 m', mklmfs dir_name true l = Ret (Some image) /\
    lmfs_fill_super (ramdisk image) first_bdev = inl sb /\
    _get_file_fnode (length ps) (Z.to_nat 1024) init_iname_buffer
      (LmfsSt (ramdisk image) first_bdev sb (fst lmfs_get_root_fnode)) (snd lmfs_get_root_fnode) 0 (join ps) = Ret (nb, s, Some a) /\
    vfs_open (file_of s a) = Ret (f1, 0) /\
    vfs_read f1 m buffer size = Ret (f2, m', Z.min size (Z.of_nat (length c))) /\
    wrote m m' buffer (take (Z.to_nat (Z.min size (Z.of_nat (length c)))) c).
Proof.
  destruct (image_loads dir_name l Hi Hb Hk Hf) as (image & n & b & es & Em & R & Hn & Hbp & Dn & St).
  destruct (mount_ok _ n b R Hn Hbp) as (sb & Esb & Hsb). pose proof (me_wf _ (rd_meta _ _ _ R)) as Wd.
  destruct (walk_file _ Wd sb Hsb c ps l es 0 (fst lmfs_get_root_fnode) dir_name Dn St Hf Hk Hat) as (nd & a0 & s & a & E & Ea & Wk & Hps & O); [lia|].
  destruct (root_walk _ sb nd a0 ps s a init_iname_buffer 0 0 (length ps) E Wk Hps (file_wanted s a c O) ltac:(lia) ltac:(lia) ltac:(done)) as (nb & El & _).
  destruct (read_opened s a c m buffer size O Hs Hm) as (f1 & f2 & m' & E1 & E2 & Wr).
  exists image, sb, nb, s, a, f1, f2, m'. split; [exact Em|]. split; [exact Esb|]. split; [exact El|]. exact (conj E1 (conj E2 Wr)).
Qed.

Module PackDemo.
(** A file a, and a directory b with a file c. *)
Definition tree : listing :=
  File [97] (Some (replicate (Z.to_nat 5000) 65)) (Dir [dot] true End (Dir [98] true (File [99] (Some [1; 2; 3]) End) End)).

Lemma one_char c : c <> 0 -> c <> slash -> name_ok [c].
Proof.
  intros H0 Hs. split; [|split; [by constructor|done]]. split; [done|]. split; [by intros H%list_elem_of_singleton|simpl; lia].
Qed.

Lemma tree_fits : fits [120] tree.
Proof.
  cbn [tree fits]. split_and!; try done; intros _; (split; [by apply one_char|]); [done|]. split; [done|]. intros _. split; [done|].
  split; [|done]. intros _. split; [by apply one_char|done].
Qed.

(** Sixteen files with names from 97 on, and one file too many. *)
Fixpoint files (n : nat) (c : Z) : listing := match n with O => End | S n => File [c] (Some []) (files n (c + 1)) end.

(** What the kernel makes of a path in the image of a listing: the error of the lookup. *)
Definition lookup_error (l : listing) (ps : list (list Z)) : outcome Z :=
  '(d, _) ← _mklmfs [120] true l;
  match lmfs_fill_super d first_bdev with
  | inr err => mret err
  | inl sb =>
    let '(s, a, err) := copy_fnode (LmfsSt d first_bdev sb (fst lmfs_get_root_fnode)) (snd lmfs_get_root_fnode) in
    if negb (err =? 0) then mret err
    else '(_, _, _, err) ← __get_file_fnode 16 (Z.to_nat 1024) init_iname_buffer s a 0 (join ps); mret err
  end.
End PackDemo.

Lemma packed_file_read_witness :
  exists image sb nb s a f1 f2 m', mklmfs [120] true PackDemo.tree = Ret (Some image) /\
    lmfs_fill_super (ramdisk image) first_bdev = inl sb /\
    _get_file_fnode 2 (Z.to_nat 1024) init_iname_buffer
      (LmfsSt (ramdisk image) first_bdev sb (fst lmfs_get_root_fnode)) (snd lmfs_get_root_fnode) 0 (join [[98]; [99]]) = Ret (nb, s, Some a) /\
    vfs_open (file_of s a) = Ret (f1, 0) /\ vfs_read f1 ∅ 0x100000 100 = Ret (f2, m', 3) /\ wrote ∅ m' 0x100000 [1; 2; 3].
Proof.
  exact (packed_file_read [120] PackDemo.tree [[98]; [99]] [1; 2; 3] ∅ 0x100000 100 ltac:(by vm_compute) ltac:(by vm_compute)
    ltac:(by vm_compute) PackDemo.tree_fits ltac:(by vm_compute) ltac:(lia) ltac:(by vm_compute)).
Defined.

(** ** Where the limits are *)

(** Fifteen entries are found; with sixteen the table of the directory is written to
    another block, and no file of it is found. *)
Lemma sixteen_entries_lost :
  PackDemo.lookup_error (PackDemo.files 15 97) [[97]] = Ret 0 /\ PackDemo.lookup_error (PackDemo.files 16 97) [[97]] <> Ret 0.
Proof. split; vm_compute; congruence. Qed.

(** A directory without entries has no table; the kernel takes the super block for it. *)
Lemma empty_directory_error : PackDemo.lookup_error (Dir [98] true End End) [[98]; [99]] = Ret (- EIO).
Proof. by vm_compute. Qed.

(** The thirty-second file gets the inode -28, in front of the image. *)
Lemma inodes_run_out_fault : 
  _mklmfs [120] true (Dir [98] true (PackDemo.files 14 97) (Dir [99] true (PackDemo.files 14 97) (PackDemo.files 2 110))) = Fault.
Proof. by vm_compute. Qed.

(** A directory is packed with size 0, since its type is never TYPE_DIR. *)
Lemma directory_size_zero : word_at (fb_entry (new_dir 0)) e_size = 0.
Proof. by vm_compute. Qed.
