(* ===== verification/Fat.v ===== *)
(** * The file system FAT (fs/fat.c, fs/fat.h)

    The volume is on the disk of [Disk]; [fat_super_block] has what the boot sector gives
    and the cache [buf] of the allocation table, [fat_fnode] the cluster an open file
    stands at.  Bytes of a C string of type [char] are signed where the code does not
    cast them.  A lock that a failed read left taken is waited for without end. *)

From S2P Require Import Prelude Bitops CString Disk Vfs Lmfs Path.

Definition FAT12 : Z := 0.
Definition FAT16 : Z := 1.
Definition FAT32 : Z := 2.
Definition FAT_NAME_TYPE_SHORT : Z := 0.
Definition FAT_NAME_TYPE_LONG : Z := 1.
Definition FAT_NAME_TYPE_UNKNOWN : Z := 255.
Definition FAT_ATTR_VOLUME_ID : Z := 8.
Definition FAT_ATTR_DIRECTORY : Z := 16.
Definition FAT_ATTR_LONG_NAME : Z := 15.
Definition FAT_ATTR_LONG_NAME_MASK : Z := 63.

(** ** Data *)

Definition byte_at (b : list Z) (i : Z) : Z := default 0 (b !! Z.to_nat i).
Definition u8_to_u16 (low high : Z) : Z := Z.lor (Z.shiftl high 8) low.
Definition u8_to_u32 (u1 u2 u3 u4 : Z) : Z :=
  u32 (Z.lor (Z.lor (Z.lor (Z.shiftl u4 24) (Z.shiftl u3 16)) (Z.shiftl u2 8)) u1).
Definition u16_to_u32 (low high : Z) : Z := u32 (Z.lor (Z.shiftl high 16) low).
Definition u16_at (b : list Z) (i : Z) : Z := u8_to_u16 (byte_at b i) (byte_at b (i + 1)).
Definition u32_at (b : list Z) (i : Z) : Z :=
  u8_to_u32 (byte_at b i) (byte_at b (i + 1)) (byte_at b (i + 2)) (byte_at b (i + 3)).

(** What the boot sector says. *)
Record fat_bpb := FatBpb {
  byts_per_sec : Z; sec_per_clus : Z; res_sec_cnt : Z; fat_num : Z; root_ent_cnt : Z; total_sec16 : Z; media : Z;
  fat16_sec_size : Z; sec_per_trk : Z; num_heads : Z; hide_sec : Z; total_sec32 : Z }.

(** What follows from it. *)
Record fat_super_block := FatSb {
  bpb : fat_bpb;
  total_sec : Z; fat_size : Z; data_sec : Z; clus_count : Z; fat_type : Z; fat_offset : Z; root_dir_sectors : Z;
  root_dir_start_sector : Z; clus_size : Z; first_data_sector : Z; dentry_per_block : Z; fat12_16_root_dir_blk : Z;
  buf_mutex : bool; buf_sector_base : Z; fbuf : list Z }.

Record fat_fnode := FatFnode {
  first_clus : Z; first_sector : Z; prev_clus : Z; prev_sector : Z; current_clus : Z; current_sector : Z;
  file_entry_clus : Z; file_entry_pos : Z; same_name : Z }.

Record fat_st := FatSt { fdisk : sectors; fbdev : bdev; fsb : fat_super_block; ffnode : fat_fnode }.

Definition set_fdisk (s : fat_st) (d : sectors) : fat_st := FatSt d (fbdev s) (fsb s) (ffnode s).
Definition set_fsb (s : fat_st) (b : fat_super_block) : fat_st := FatSt (fdisk s) (fbdev s) b (ffnode s).
Definition set_ffnode (s : fat_st) (n : fat_fnode) : fat_st := FatSt (fdisk s) (fbdev s) (fsb s) n.
Definition set_cache (b : fat_super_block) (locked : bool) (base : Z) (buf : list Z) : fat_super_block :=
  FatSb (bpb b) (total_sec b) (fat_size b) (data_sec b) (clus_count b) (fat_type b) (fat_offset b) (root_dir_sectors b)
    (root_dir_start_sector b) (clus_size b) (first_data_sector b) (dentry_per_block b) (fat12_16_root_dir_blk b)
    locked base buf.
Definition set_clus (n : fat_fnode) (prev cur : Z) : fat_fnode :=
  FatFnode (first_clus n) (first_sector n) prev (prev_sector n) cur (current_sector n) (file_entry_clus n)
    (file_entry_pos n) (same_name n).

(** ** The boot sector *)

Definition read_bpb (tmp : list Z) : fat_bpb :=
  FatBpb (u16_at tmp 11) (byte_at tmp 13) (u16_at tmp 14) (byte_at tmp 16) (u16_at tmp 17) (u16_at tmp 19) (byte_at tmp 21)
    (u16_at tmp 22) (u16_at tmp 24) (u16_at tmp 26) (u32_at tmp 28) (u32_at tmp 32).

(** The size of a table in FAT32 is put together from signed bytes; [fat_size] and
    [root_dir_start_sector] are 16 bits wide.  The result has the members it sets. *)
Definition get_fat_type (b : fat_bpb) (tmp : list Z) : outcome fat_super_block :=
  if byts_per_sec b =? 0 then Fault
  else
    let root_dir_sectors := (root_ent_cnt b * 32 + (byts_per_sec b - 1)) / byts_per_sec b in
    let fat_size := if negb (fat16_sec_size b =? 0) then fat16_sec_size b
      else u8_to_u32 (s8 (byte_at tmp 36)) (s8 (byte_at tmp 37)) (s8 (byte_at tmp 38)) (s8 (byte_at tmp 39)) in
    let total_sec := if negb (total_sec16 b =? 0) then total_sec16 b else total_sec32 b in
    let data_sec := u32 (total_sec - (res_sec_cnt b + fat_num b * fat_size + root_dir_sectors)) in
    if sec_per_clus b =? 0 then Fault
    else
      let clus_count := data_sec / sec_per_clus b in
      let fat_type := if clus_count <? 4085 then FAT12 else if clus_count <? 65525 then FAT16 else FAT32 in
      mret (FatSb b total_sec (u16 fat_size) data_sec clus_count fat_type (if fat_type =? FAT32 then 4 else 2)
              root_dir_sectors (u16 (res_sec_cnt b + fat_num b * fat_size)) 0 0 0 0 false 0 []).

(** The error, or the super block without its cache. *)
Definition fill_fat_super (buf : list Z) : outcome (fat_super_block + Z) :=
  if negb (byte_at buf 510 =? 0x55) || negb (byte_at buf 511 =? 0xaa) then mret (inr (- EINVAL))
  else
    let b := read_bpb buf in
    sb ← get_fat_type b buf;
    let clus_size := byts_per_sec b * sec_per_clus b in
    mret (inl (FatSb b (total_sec sb) (fat_size sb) (data_sec sb) (clus_count sb) (fat_type sb) (fat_offset sb)
      (root_dir_sectors sb) (root_dir_start_sector sb) clus_size
      (u32 (res_sec_cnt b + fat_num b * fat_size sb + root_dir_sectors sb)) (u16 (clus_size / 32))
      (u16 ((root_dir_sectors sb + (sec_per_clus b - 1)) / sec_per_clus b)) false 0 [])).

(** Pages for [size] bytes. *)
Definition pages_of (size : Z) : Z := (size + 4095) / 4096.

(** The cache has the pages of a cluster; memory is there. *)
Definition fat_fill_super (d : sectors) (b : bdev) : outcome (fat_super_block + Z) :=
  match read_sectors d b 0 8 with
  | inr err => mret (inr err)
  | inl buf =>
    r ← fill_fat_super buf;
    match r with
    | inr err => mret (inr err)
    | inl sb => mret (inl (set_cache sb false 0 (replicate (Z.to_nat (4096 * pages_of (clus_size sb))) 0)))
    end
  end.

(** ** Clusters *)

(** The clusters of the root directory of FAT12 and FAT16 are numbered downwards from
    0xfff7, and their sectors as well. *)
Definition get_first_sector (b : fat_super_block) (clus : Z) : Z :=
  if u32 (0xfff7 - fat12_16_root_dir_blk b) <? clus then
    u32 (root_dir_start_sector b + u32 (u32 (clus - 0xfff7) * sec_per_clus (bpb b)))
  else u32 (u32 (u32 (clus - 2) * sec_per_clus (bpb b)) + first_data_sector b).

Definition fat_read_block (s : fat_st) (block : Z) : list Z + Z :=
  read_sectors (fdisk s) (fbdev s) (get_first_sector (fsb s) block) (sec_per_clus (bpb (fsb s))).
Definition fat_write_block (s : fat_st) (b : list Z) (block : Z) : fat_st * Z :=
  let '(d, err) := write_sectors (fdisk s) (fbdev s) b (get_first_sector (fsb s) block) (sec_per_clus (bpb (fsb s))) in
  (set_fdisk s d, err).

(** Sector and byte of the entry of a cluster. *)
Definition clus_in_fat (b : fat_super_block) (clus : Z) : Z * Z :=
  let offset := if fat_type b =? FAT12 then u32 (clus + clus / 2) else u32 (fat_offset b * clus) in
  (s32 (res_sec_cnt (bpb b) + offset / byts_per_sec (bpb b)), offset mod byts_per_sec (bpb b)).

(** The place of the entry in the cache, 0 for none.  Sectors are counted in entries. *)
Definition sector_in_fat_buffer (b : fat_super_block) (i j : Z) : Z :=
  if buf_sector_base b =? 0 then 0
  else if (buf_sector_base b <=? u32 i) && (u32 i <? u32 (buf_sector_base b + sec_per_clus (bpb b))) then
    s32 (u32 (u32 (u32 i - buf_sector_base b) * byts_per_sec (bpb b)) / fat_offset b + j)
  else 0.

(** The sectors read for the cache from sector [i] on; a fault when they are more than it
    holds. *)
Definition load_fat (s : fat_st) (i : Z) : outcome (list Z + Z) :=
  let b := fsb s in
  match read_sectors (fdisk s) (fbdev s) (u32 i) (4096 / byts_per_sec (bpb b)) with
  | inr err => mret (inr err)
  | inl d => if (length (fbuf b) <? length d)%nat then Fault else mret (inl (d ++ drop (length d) (fbuf b)))
  end.

(** [n] bytes of the cache from [k] on. *)
Definition cache_bytes (b : fat_super_block) (k n : Z) : outcome (list Z) :=
  if (0 <=? k) && (k + n <=? Z.of_nat (length (fbuf b))) then mret (slice (fbuf b) k n) else Fault.

(** The entry of [clus] at place [k] of the cache. *)
Definition fat_entry (b : fat_super_block) (clus k : Z) : outcome Z :=
  if fat_type b =? FAT32 then e ← cache_bytes b k 4; mret (Z.land (u32_at e 0) 0x0fffffff)
  else if fat_type b =? FAT16 then e ← cache_bytes b k 2; mret (u16_at e 0)
  else
    e ← cache_bytes b k 2;
    let v := u32 (u8_to_u16 (s8 (byte_at e 0)) (s8 (byte_at e 1))) in
    mret (if Z.odd clus then Z.shiftr v 4 else Z.land v 0x0fff).

(** A read that fails, and an entry of FAT12 at the end of the cache, return with the lock
    taken. *)
Definition __fat_get_data_block (s : fat_st) : outcome (fat_st * Z) :=
  let b := fsb s in
  let n := ffnode s in
  if buf_mutex b then NoFuel
  else
    let '(i, j) := clus_in_fat b (current_clus n) in
    let k := sector_in_fat_buffer b i j in
    let locked base buf := set_fsb s (set_cache b true base buf) in
    if k =? 0 then
      r ← load_fat s i;
      match r with
      | inr _ => mret (locked (buf_sector_base b) (fbuf b), 0)
      | inl buf =>
        let b := set_cache b false (u32 i) buf in
        clus ← fat_entry b (current_clus n) j;
        mret (set_ffnode (set_fsb s b) (set_clus n (current_clus n) clus), clus)
      end
    else if (fat_type b =? FAT12) && (k =? 4095) then
      r ← load_fat s i;
      match r with
      | inr _ => mret (locked (buf_sector_base b) (fbuf b), 0)
      | inl buf => mret (locked (buf_sector_base b) buf, 0)
      end
    else
      clus ← fat_entry b (current_clus n) k;
      mret (set_ffnode s (set_clus n (current_clus n) clus), clus).

Definition fat12_16_get_data_block (s : fat_st) : outcome (fat_st * Z) :=
  let n := ffnode s in
  let last := u32 (0xfff7 - fat12_16_root_dir_blk (fsb s)) in
  if (last <? current_clus n) && negb (current_clus n =? 0) then
    let cur := u32 (current_clus n - 1) in
    let cur := if cur =? last then 0 else cur in
    mret (set_ffnode s (set_clus n (current_clus n) cur), cur)
  else if current_clus n =? 0 then mret (s, 0)
  else __fat_get_data_block s.

(** The result of the step is not looked at; the end of a file in FAT32 is compared with a
    number of 32 bits. *)
Definition fat_get_data_block (s : fat_st) (whence : Z) : outcome (fat_st * Z) :=
  let result s :=
    let cur := current_clus (ffnode s) in
    if (if fat_type (fsb s) =? FAT32 then 0xfffffff8 else 0xfff8) <=? cur then (s, 0) else (s, cur) in
  if whence =? VFS_NEXT_BLOCK then
    '(s, _) ← (if fat_type (fsb s) =? FAT32 then __fat_get_data_block s else fat12_16_get_data_block s);
    mret (result s)
  else if whence =? VFS_START_BLOCK then
    let n := ffnode s in mret (result (set_ffnode s (set_clus n (first_clus n) (first_clus n))))
  else if whence =? VFS_CURRENT_BLOCK then mret (result s)
  else mret (s, 0).

(** ** Directories *)

(** The entry at place [i], of 32 bytes. *)
Definition fat_dir_entry (b : list Z) (i : Z) : list Z := slice b (32 * i) 32.
Definition dir_attr (e : list Z) : Z := byte_at e 11.

Definition fat_file_type (e : list Z) : Z :=
  let attr := dir_attr e in
  if negb (Z.land attr FAT_ATTR_LONG_NAME_MASK =? FAT_ATTR_LONG_NAME) then
    if negb (Z.land attr FAT_ATTR_DIRECTORY =? 0) then DT_DIR
    else if negb (Z.land attr FAT_ATTR_VOLUME_ID =? 0) then FAT_ATTR_VOLUME_ID
    else if Z.land attr (Z.lor FAT_ATTR_VOLUME_ID FAT_ATTR_DIRECTORY) =? 0 then DT_BLK
    else DT_UNKNOWN
  else DT_UNKNOWN.

Definition entry_name_type (e : list Z) : Z :=
  if Z.land (dir_attr e) FAT_ATTR_LONG_NAME_MASK =? FAT_ATTR_LONG_NAME then FAT_NAME_TYPE_LONG else FAT_NAME_TYPE_SHORT.

Definition fat_fill_fnode (s : fat_st) (e : list Z) : fat_st * fattr :=
  let b := fsb s in
  let n := ffnode s in
  let first := if fat_type b =? FAT32 then u16_to_u32 (u16_at e 26) (u16_at e 20) else u16_at e 26 in
  let sec := get_first_sector b first in
  (set_ffnode s (FatFnode first sec first sec first sec (file_entry_clus n) (file_entry_pos n) (same_name n)),
   FAttr (dir_attr e) (dir_attr e) (fat_file_type e) (Z.quot (u32_at e 28) (clus_size b)) (u32_at e 28) (clus_size b) 0).

(** Parts of 10, 12 and 4 bytes of a long name, each compared with [name1]; the rest of the
    name that was not compared, 0 when all of it was. *)
Fixpoint cmp_parts (sizes : list Z) (e : list Z) (long : list Z) (size : Z) : list Z * Z * bool :=
  match sizes with
  | [] => (long, size, false)
  | c :: sizes =>
    let n := Z.min size c in
    if negb (bool_decide (take (Z.to_nat n) long = slice e 1 n)) then (long, size, true)
    else if size - n =? 0 then (long, 0, true)
    else cmp_parts sizes e (drop (Z.to_nat n) long) (size - n)
  end.

Fixpoint cmp_long_loop (fuel : nat) (s : fat_st) (buf : list Z) (i : Z) (long : list Z) (size : Z)
  : outcome (list Z * Z) :=
  match fuel with
  | O => NoFuel
  | S fuel =>
    let '(long, size, stop) := cmp_parts [10; 12; 4] (fat_dir_entry buf i) long size in
    if stop : bool then mret (buf, size)
    else if i - 1 <? 0 then
      match fat_read_block s (prev_clus (ffnode s)) with
      | inr _ => mret (buf, - EIO)
      | inl b => cmp_long_loop fuel s b (dentry_per_block (fsb s) - 1) long size
      end
    else cmp_long_loop fuel s buf (i - 1) long size
  end.
Definition cmp_long_name (s : fat_st) (buf : list Z) (i : Z) (long : list Z) (size : Z) : outcome (list Z * Z) :=
  if size <=? 0 then mret (buf, - EINVAL) else cmp_long_loop (Z.to_nat size) s buf i long size.

(** The entries of a block: [i] counts them, [e] is the one looked at, which a long name
    that does not match does not leave.  The result is the block in the buffer and the
    place of the file. *)
Fixpoint find_entry (n : nat) (s : fat_st) (name buf : list Z) (i e : Z) : outcome (fat_st * list Z * option (Z * Z)) :=
  match n with
  | O => mret (s, buf, None)
  | S n =>
    let entry := fat_dir_entry buf e in
    if (entry_name_type entry =? FAT_NAME_TYPE_LONG) || (byte_at entry 0 =? 0) then find_entry n s name buf (i + 1) (e + 1)
    else if negb (byte_at name 11 =? 0) then
      if negb (bool_decide (take 6 name = take 6 entry)) then find_entry n s name buf (i + 1) e
      else
        let k := ffnode s in
        let s := set_ffnode s (FatFnode (first_clus k) (first_sector k) (prev_clus k) (prev_sector k) (current_clus k)
                   (current_sector k) (file_entry_clus k) (file_entry_pos k) (u16 (same_name k + 1))) in
        '(buf, r) ← cmp_long_name s buf i (drop 12 name) (Z.of_nat (length (chars_to_zero name)) - 12);
        if r =? 0 then mret (s, buf, Some (i, e)) else find_entry n s name buf (i + 1) (e + 1)
    else if bool_decide (take 11 name = take 11 entry) then mret (s, buf, Some (i, e))
    else find_entry n s name buf (i + 1) (e + 1)
  end.

Definition fat_find_file (s : fat_st) (a : fattr) (name buf : list Z) : outcome (fat_st * fattr * Z) :=
  '(s, buf, r) ← find_entry (Z.to_nat (dentry_per_block (fsb s))) s name buf 0 0;
  match r with
  | None => mret (s, a, - ENOENT)
  | Some (i, e) =>
    '(s, clus) ← fat_get_data_block s VFS_CURRENT_BLOCK;
    let k := ffnode s in
    let s := set_ffnode s (FatFnode (first_clus k) (first_sector k) (prev_clus k) (prev_sector k) (current_clus k)
               (current_sector k) clus (u16 i) (same_name k)) in
    let '(s, a) := fat_fill_fnode s (fat_dir_entry buf e) in
    mret (s, a, 0)
  end.

(** The root directory; its type is not set. *)
Definition fat_get_root_fnode (b : fat_super_block) : fat_fnode * fattr :=
  let first := if fat_type b =? FAT32 then 2 else 0xfff7 in
  (FatFnode first 0 first 0 first 0 0 0 0, FAttr 0 0 0 0 0 (clus_size b) 0).

Definition fat_copy_fnode (s : fat_st) (parent : fat_fnode) : fat_st := set_ffnode s parent.

(** ** Names *)

(** [f] characters before the last dot and [b] behind it. *)
Definition get_file_name_type (name : list Z) (f b : Z) : Z :=
  if byte_at name 0 =? dot then FAT_NAME_TYPE_LONG
  else if 8 <? f then FAT_NAME_TYPE_LONG
  else if f =? 0 then if 3 <? b then FAT_NAME_TYPE_LONG else FAT_NAME_TYPE_SHORT
  else if f <? 8 then if b <=? 3 then FAT_NAME_TYPE_SHORT else FAT_NAME_TYPE_LONG
  else FAT_NAME_TYPE_UNKNOWN.

Definition is_lower (ch : Z) : bool := (ch <=? 122) && (97 <=? ch).
Definition lower_to_upper (ch : Z) : Z := if is_lower ch then ch - 97 + 65 else ch.

Definition space : Z := 32.
Definition tilde : Z := 126.

(** The dots at the start of the rest of the name. *)
Fixpoint skip_dots (s : list Z) : Z := match s with c :: s => if c =? dot then 1 + skip_dots s else 0 | [] => 0 end.

(** The [do] loop of both routines: the characters copied, at most [max]; the string ends
    with the list.  [pos] is the place of the next character, [drop] tells which ones are
    left out. *)
Fixpoint copy_name (s : list Z) (left_out : Z -> bool) (pos len : Z) (max : nat) : list Z :=
  match max with
  | O => []
  | S n =>
    match s with
    | [] => []
    | c :: s =>
      let ch := lower_to_upper c in
      if left_out ch then if pos + 1 =? len then [] else copy_name s left_out (pos + 1) len max
      else ch :: (if pos + 1 =? len then [] else copy_name s left_out (pos + 1) len n)
    end
  end.

(** Eight characters: at most six of the name, and ~1 when the type is not 0. *)
Definition fill_fat_name (source : list Z) (len type : Z) : list Z :=
  let p := skip_dots source in
  let cs := copy_name (drop (Z.to_nat p) source) (fun ch => (ch =? space) || (ch =? dot)) p len 6 in
  if type =? 0 then cs ++ replicate (8 - length cs) space
  else cs ++ [tilde; 49] ++ replicate (6 - length cs) space.

Definition fill_fat_appendix (source : list Z) (len : Z) : list Z :=
  let cs :=
    if len =? 0 then []
    else
      let p := skip_dots source in
      copy_name (drop (Z.to_nat p) source) (fun ch => ch =? space) p len 3 in
  cs ++ replicate (3 - length cs) space.

(** The last dot of the name, 0 when there is none behind the first character. *)
Fixpoint last_dot (n : nat) (name : list Z) : Z :=
  match n with O => 0 | S n' => if byte_at name (Z.of_nat n) =? dot then Z.of_nat n else last_dot n' name end.

(** The name in the form of a directory entry, its type, and the characters with 16 bits
    each, in a buffer of 512 bytes. *)
Definition parsed_name (name : list Z) : list Z :=
  let len := Z.of_nat (length name) in
  let dot_pos := last_dot (length name) name in
  let f := if dot_pos =? 0 then len else dot_pos in
  let b := if dot_pos =? 0 then 0 else len - dot_pos - 1 in
  let type := get_file_name_type name f b in
  let buf := fill_fat_name name f type ++ fill_fat_appendix (drop (Z.to_nat (f + 1)) name) b ++ [type] ++
    concat (map (fun c => [c; if c <? 128 then 0 else 255]) name) in
  buf ++ replicate (512 - length buf) 0.

(** A name of more than 250 characters leaves the buffer. *)
Definition fat_parse_name (nb : gmap Z Z) (name : list Z) : outcome (gmap Z Z * list Z * Z) :=
  match name with
  | [] => mret (nb, name, - EINVAL)
  | _ =>
    match get_iname_buffer nb with
    | (nb, None) => mret (nb, name, - EAGAIN)
    | (nb, Some i) =>
      if 250 <? Z.of_nat (length name) then Fault
      else mret (put_iname_buffer nb i, parsed_name name, 0)
    end
  end.

#[export] Instance fat_ops : FsOps fat_st := {
  get_data_block := fat_get_data_block;
  read_block := fat_read_block;
  write_block := fat_write_block;
  get_block := None;
  getdents := None;
  fs_flag := 0 }.

#[export] Instance fat_dir : FsDir fat_st := {
  parse_name := fun nb name => '(nb, name, _) ← fat_parse_name nb name; mret (nb, name);
  find_file := fat_find_file;
  copy_fnode := fun s a => (fat_copy_fnode s (ffnode s), a, 0) }.
