(* ===== verification/FatSpec.v ===== *)
(** * Correctness of FAT (fs/fat.c)

    An open file of FAT16 or FAT32 keeps the contract [FileLaws]: the steps through the
    cached table follow the chain of clusters on the disk.  The cache is only right for
    entries in its first sector, which the invariant asks for. *)

From S2P Require Import Prelude Bitops CString Disk Vfs VfsSpec Lmfs LmfsSpec Path PathSpec Fat.

(** ** The chain of clusters *)

(** Bytes of an entry. *)
Definition entry_width (s : fat_st) : Z := if fat_type (fsb s) =? FAT32 then 4 else 2.

(** The entry of a cluster in the table on the disk. *)
Definition next_clus (s : fat_st) (c : Z) : Z :=
  let '(i, j) := clus_in_fat (fsb s) c in
  let e := slice (sector (fdisk s) i) j (entry_width s) in
  if fat_type (fsb s) =? FAT32 then Z.land (u32_at e 0) 0x0fffffff else u16_at e 0.

Definition is_end (s : fat_st) (c : Z) : bool := (if fat_type (fsb s) =? FAT32 then 0x0ffffff8 else 0xfff8) <=? c.

Fixpoint chain_from (n : nat) (s : fat_st) (c : Z) : list Z :=
  match n with O => [] | S n => if is_end s c then [] else c :: chain_from n s (next_clus s c) end.

Definition fat_ids (s : fat_st) : list Z := chain_from (Z.to_nat (clus_count (fsb s))) s (first_clus (ffnode s)).
Definition fat_block (s : fat_st) (c : Z) : list Z :=
  memdisk_read_sectors (fdisk s) (get_first_sector (fsb s) c) (Z.to_nat (sec_per_clus (bpb (fsb s)))).
Definition fat_blocks (s : fat_st) : list (list Z) := fat_block s <$> fat_ids s.

(** The place of a number in a list without duplicates. *)
Definition index_of (l : list Z) (c : Z) : nat := default 0%nat (fst <$> list_find (fun x => x = c) l).
Definition fat_cur (s : fat_st) : nat := index_of (fat_ids s) (current_clus (ffnode s)).

Lemma index_of_lookup l k c : NoDup l -> l !! k = Some c -> index_of l c = k.
Proof.
  intros Hnd Hk. unfold index_of.
  assert (list_find (fun x => x = c) l = Some (k, c)) as ->; [|done].
  apply list_find_Some. split_and!; [done|done|]. intros j y Hj Hlt ->. pose proof (NoDup_lookup _ _ _ _ Hnd Hj Hk). lia.
Qed.

Lemma index_of_elem l c : c ∈ l -> l !! index_of l c = Some c.
Proof.
  intros Hc. unfold index_of. destruct (list_find (fun x => x = c) l) as [[k y]|] eqn:E.
  - apply list_find_Some in E as (Hk & -> & _). done.
  - exfalso. apply list_find_None in E. by apply (proj1 (Forall_forall _ _) E c Hc).
Qed.

(** A later sector whose entries the cache would give from the wrong place. *)
Definition far (spc i i' : Z) : Prop := i = i' \/ i' < i \/ i + spc <= i'.

Definition fat_sec (s : fat_st) (c : Z) : Z := fst (clus_in_fat (fsb s) c).

Record fat_ok (bits : Z) (s : fat_st) : Prop := {
  fo_bps : byts_per_sec (bpb (fsb s)) = 512;
  fo_spc : 1 <= sec_per_clus (bpb (fsb s)) < 256 /\ 2 ^ bits = 512 * sec_per_clus (bpb (fsb s));
  fo_type : fat_type (fsb s) = FAT16 /\ fat_offset (fsb s) = 2 \/ fat_type (fsb s) = FAT32 /\ fat_offset (fsb s) = 4;
  fo_root : 0 <= fat12_16_root_dir_blk (fsb s) < 0xfff7;
  fo_lock : buf_mutex (fsb s) = false;
  fo_buf : (4096 <= length (fbuf (fsb s)))%nat;
  fo_base : buf_sector_base (fsb s) = 0 \/
    (0 < buf_sector_base (fsb s) < first_data_sector (fsb s) /\
     take 512 (fbuf (fsb s)) = sector (fdisk s) (buf_sector_base (fsb s)) /\
     forall c, c ∈ fat_ids s -> far (sec_per_clus (bpb (fsb s))) (buf_sector_base (fsb s)) (fat_sec s c));
  fo_wf : disk_wf (fdisk s);
  fo_max : max_start (fbdev s) < 2147483648 - 256;
  fo_nodup : NoDup (fat_ids s);
  fo_cur : current_clus (ffnode s) ∈ fat_ids s;
  fo_res : 0 < res_sec_cnt (bpb (fsb s)) < 65536;
  fo_clus : forall c, c ∈ fat_ids s -> 2 <= c <= 0xfff7 - fat12_16_root_dir_blk (fsb s) /\
    res_sec_cnt (bpb (fsb s)) + fat_offset (fsb s) * c / 512 < first_data_sector (fsb s) /\
    first_data_sector (fsb s) + (c - 2) * sec_per_clus (bpb (fsb s)) <= max_start (fbdev s);
  fo_far : forall c c', c ∈ fat_ids s -> c' ∈ fat_ids s -> far (sec_per_clus (bpb (fsb s))) (fat_sec s c) (fat_sec s c') }.

Lemma chain_ext s s' n c : fat_type (fsb s') = fat_type (fsb s) -> (forall c, next_clus s' c = next_clus s c) ->
  chain_from n s' c = chain_from n s c.
Proof.
  intros E H. revert c. induction n as [|n IH]; intros c; [done|]. cbn [chain_from]. unfold is_end. rewrite E, H, IH. done.
Qed.

Lemma chain_lookup n s c0 k c c' : chain_from n s c0 !! k = Some c -> chain_from n s c0 !! S k = Some c' -> c' = next_clus s c.
Proof.
  revert c0 k. induction n as [|n IH]; intros c0 k; cbn [chain_from]; [done|]. destruct (is_end s c0); [done|].
  destruct k as [|k]; [|apply IH]. intros H. injection H as <-. cbn. destruct n; cbn [chain_from]; [done|].
  destruct (is_end s _); [done|]. intros H. by injection H as <-.
Qed.

Lemma chain_end n s c0 c : c ∈ chain_from n s c0 -> is_end s c = false.
Proof.
  revert c0. induction n as [|n IH]; intros c0; cbn [chain_from]; [by intros ?%elem_of_nil|].
  destruct (is_end s c0) eqn:E; [by intros ?%elem_of_nil|]. intros [->|Hc]%elem_of_cons; [done|by eapply IH].
Qed.

Lemma chain_head n s c0 c : chain_from n s c0 !! 0%nat = Some c -> c = c0.
Proof. destruct n; cbn [chain_from]; [done|]. destruct (is_end s c0); [done|]. intros H. by injection H as <-. Qed.

(** ** Steps along the chain *)

(** Everything but the cache and the cluster the file stands at. *)
Record fat_keeps (s s' : fat_st) : Prop := {
  fk_disk : fdisk s' = fdisk s;
  fk_bdev : fbdev s' = fbdev s;
  fk_sb : exists locked base buf, fsb s' = set_cache (fsb s) locked base buf;
  fk_first : first_clus (ffnode s') = first_clus (ffnode s) }.

Lemma keeps_ids s s' : fat_keeps s s' -> fat_ids s' = fat_ids s /\ fat_blocks s' = fat_blocks s /\ forall c, fat_sec s' c = fat_sec s c.
Proof.
  intros [E1 E2 (l & b & buf & E3) E4].
  assert (fat_ids s' = fat_ids s) as Ei.
  { unfold fat_ids. rewrite E4, E3. apply chain_ext; [by rewrite E3|]. intros c. unfold next_clus, entry_width. by rewrite E1, E3. }
  split; [done|]. split; [|intros c; unfold fat_sec; by rewrite E3].
  unfold fat_blocks. rewrite Ei. apply list_fmap_ext. intros _ c _. unfold fat_block. by rewrite E1, E3.
Qed.

Lemma fat_ok_keeps bits s s' : fat_ok bits s -> fat_keeps s s' ->
  buf_mutex (fsb s') = false -> (4096 <= length (fbuf (fsb s')))%nat ->
  (buf_sector_base (fsb s') = 0 \/
    (0 < buf_sector_base (fsb s') < first_data_sector (fsb s) /\
     take 512 (fbuf (fsb s')) = sector (fdisk s) (buf_sector_base (fsb s')) /\
     forall c, c ∈ fat_ids s -> far (sec_per_clus (bpb (fsb s))) (buf_sector_base (fsb s')) (fat_sec s c))) ->
  current_clus (ffnode s') ∈ fat_ids s -> fat_ok bits s'.
Proof.
  intros O K Hm Hb Hbase Hc. destruct (keeps_ids s s' K) as (Ei & _ & Es). destruct K as [E1 E2 (l & b & buf & E3) E4].
  destruct O. split; rewrite ?Ei, ?E1, ?E2; try (rewrite E3; done); try done.
  - destruct Hbase as [H|(H1 & H2 & H3)]; [by left|right]. rewrite E3 in *. split; [done|]. split; [done|].
    intros c Hc'. rewrite Es. by apply H3.
  - intros c c' Hc1 Hc2. rewrite !Es, E3. by apply fo_far0.
Qed.

Section Step.
Context (bits : Z) (s : fat_st) (O : fat_ok bits s).

Lemma width_cases : entry_width s = fat_offset (fsb s) /\ (fat_offset (fsb s) = 2 \/ fat_offset (fsb s) = 4) /\
  (fat_type (fsb s) =? FAT12) = false.
Proof. unfold entry_width. destruct (fo_type _ _ O) as [[-> ->]|[-> ->]]; cbn; split_and!; auto. Qed.

Lemma clus_place c : c ∈ fat_ids s ->
  clus_in_fat (fsb s) c = (res_sec_cnt (bpb (fsb s)) + fat_offset (fsb s) * c / 512, (fat_offset (fsb s) * c) mod 512) /\
  0 < fat_sec s c < first_data_sector (fsb s) /\ fat_sec s c <= max_start (fbdev s) /\
  fat_sec s c = res_sec_cnt (bpb (fsb s)) + fat_offset (fsb s) * c / 512 /\
  0 <= (fat_offset (fsb s) * c) mod 512 <= 512 - entry_width s.
Proof.
  intros Hc. destruct (fo_clus _ _ O c Hc) as (Hr & Hs & Hd). pose proof (fo_root _ _ O). pose proof (fo_res _ _ O).
  destruct width_cases as (Ew & Hw & E12). pose proof (fo_max _ _ O). destruct (fo_spc _ _ O) as [Hspc _].
  assert (0 <= (c - 2) * sec_per_clus (bpb (fsb s))) by nia.
  assert (0 <= fat_offset (fsb s) * c < 4294967296) as Ho by (destruct Hw as [-> | ->]; lia).
  assert (0 <= fat_offset (fsb s) * c / 512) by (apply Z.div_pos; lia).
  assert (clus_in_fat (fsb s) c = (res_sec_cnt (bpb (fsb s)) + fat_offset (fsb s) * c / 512, (fat_offset (fsb s) * c) mod 512)) as E.
  { unfold clus_in_fat. rewrite E12, (fo_bps _ _ O), u32_small, s32_small by lia. done. }
  unfold fat_sec. rewrite E. cbn [fst]. split_and!; try done; try lia.
  - apply Z.mod_pos_bound. lia.
  - rewrite Ew. clear - Hw. destruct Hw as [-> | ->].
    + change 512 with (2 * 256) at 1. rewrite Z.mul_mod_distr_l by lia. pose proof (Z.mod_pos_bound c 256). lia.
    + change 512 with (4 * 128) at 1. rewrite Z.mul_mod_distr_l by lia. pose proof (Z.mod_pos_bound c 128). lia.
Qed.

(** The entry read from a cache whose first sector is the one of the cluster. *)
Lemma cached_entry b c : c ∈ fat_ids s -> fat_type b = fat_type (fsb s) -> (4096 <= length (fbuf b))%nat ->
  take 512 (fbuf b) = sector (fdisk s) (fat_sec s c) ->
  fat_entry b c ((fat_offset (fsb s) * c) mod 512) = Ret (next_clus s c).
Proof.
  intros Hc Et Hl Hsec. destruct (clus_place c Hc) as (E & _ & _ & Ei & Hj). destruct width_cases as (Ew & _ & E12).
  set (j := (fat_offset (fsb s) * c) mod 512) in *.
  assert (forall n, n = entry_width s -> cache_bytes b j n = Ret (slice (sector (fdisk s) (fat_sec s c)) j n)) as Hcb.
  { intros n ->. unfold cache_bytes. rewrite (proj2 (Z.leb_le 0 j)), (proj2 (Z.leb_le _ (Z.of_nat (length (fbuf b))))) by lia.
    cbn [andb]. unfold mret, outcome_ret. f_equal. rewrite <- Hsec. unfold slice. rewrite skipn_firstn_comm, firstn_firstn.
    f_equal. rewrite Ew in *. lia. }
  unfold fat_entry, next_clus. rewrite E, Et. unfold entry_width in *.
  replace (res_sec_cnt (bpb (fsb s)) + fat_offset (fsb s) * c / 512) with (fat_sec s c). destruct (fo_type _ _ O) as [[E1 _]|[E1 _]]; rewrite E1 in *; cbn in Hcb |- *; by rewrite Hcb.
Qed.

(** The place the cache gives for the entry: its own in the first sector, or none. *)
Lemma cache_place c i j : c ∈ fat_ids s -> clus_in_fat (fsb s) c = (i, j) ->
  sector_in_fat_buffer (fsb s) i j = 0 \/
  (sector_in_fat_buffer (fsb s) i j = j /\ take 512 (fbuf (fsb s)) = sector (fdisk s) i).
Proof.
  intros Hc E. destruct (clus_place c Hc) as (E' & Hi & Hm & _ & Hj). rewrite E' in E. unfold fat_sec in *. rewrite E' in *.
  injection E as <- <-. cbn [fst] in *. set (i := res_sec_cnt _ + _) in *. set (j := _ mod 512) in *.
  pose proof (fo_max _ _ O). destruct (fo_spc _ _ O) as [Hspc _]. pose proof (proj1 width_cases). pose proof (proj1 (proj2 width_cases)).
  unfold sector_in_fat_buffer.
  destruct (Z.eqb_spec (buf_sector_base (fsb s)) 0) as [|Hb]; [by left|].
  destruct (fo_base _ _ O) as [?|(Hr & Ht & Hf)]; [done|]. specialize (Hf c Hc). unfold fat_sec in Hf. rewrite E' in Hf. cbn [fst] in Hf.
  destruct (fo_clus _ _ O c Hc) as (Hr' & _ & Hd). assert (0 <= (c - 2) * sec_per_clus (bpb (fsb s))) by nia.
  rewrite (u32_small i), (u32_small (buf_sector_base _ + _)) by lia.
  destruct Hf as [Ei|Hf]; [right|left].
  - rewrite Ei, (proj2 (Z.leb_le i i)), (proj2 (Z.ltb_lt i _)), Z.sub_diag by lia. cbn [andb].
    rewrite Ei in Ht. split; [|done]. rewrite (u32_small 0) by lia. rewrite Z.mul_0_l, (u32_small 0), Z.div_0_l by (try lia; destruct width_cases as (_ & [-> | ->] & _); lia).
    rewrite s32_small by lia. lia.
  - destruct Hf as [Hf|Hf]; [by rewrite (proj2 (Z.leb_gt _ i)) by lia|]. rewrite (proj2 (Z.ltb_ge i _)) by lia. by rewrite andb_false_r.
Qed.

Lemma load_table i : 0 <= i <= max_start (fbdev s) ->
  load_fat s i = Ret (inl (memdisk_read_sectors (fdisk s) i 8 ++ drop 4096 (fbuf (fsb s)))) /\
  take 512 (memdisk_read_sectors (fdisk s) i 8 ++ drop 4096 (fbuf (fsb s))) = sector (fdisk s) i /\
  (4096 <= length (memdisk_read_sectors (fdisk s) i 8 ++ drop 4096 (fbuf (fsb s))))%nat.
Proof.
  intros Hi. pose proof (fo_max _ _ O). pose proof (fo_buf _ _ O). pose proof (length_read (fdisk s) i 8 (fo_wf _ _ O)) as Hl.
  unfold load_fat, read_sectors. rewrite (fo_bps _ _ O), u32_small, (proj2 (Z.ltb_ge _ i)) by lia.
  change (Z.to_nat (4096 / 512)) with 8%nat. rewrite Hl. change (512 * 8)%nat with 4096%nat in *.
  rewrite (proj2 (Nat.ltb_ge _ _)) by done. split; [done|]. split; [|rewrite length_app; lia].
  rewrite take_app_le by lia. change 8%nat with (1 + 7)%nat. rewrite read_sectors_add.
  change (memdisk_read_sectors (fdisk s) i 1) with (sector (fdisk s) i ++ []). rewrite app_nil_r. rewrite take_app_le by (rewrite (fo_wf _ _ O); lia). rewrite take_ge; [done|]. by rewrite (fo_wf _ _ O).
Qed.

Lemma table_step : exists s', __fat_get_data_block s = Ret (s', next_clus s (current_clus (ffnode s))) /\ fat_keeps s s' /\
  current_clus (ffnode s') = next_clus s (current_clus (ffnode s)) /\
  (next_clus s (current_clus (ffnode s)) ∈ fat_ids s -> fat_ok bits s').
Proof.
  set (c := current_clus (ffnode s)). pose proof (fo_cur _ _ O) as Hc. fold c in Hc.
  destruct (clus_place c Hc) as (E & Hi & Hm & Ei & Hj). unfold __fat_get_data_block. rewrite (fo_lock _ _ O). fold c. rewrite E.
  destruct width_cases as (_ & _ & ->). cbn [andb].
  destruct (load_table (fat_sec s c)) as (El & Et & Hl); [lia|]. rewrite Ei in El, Et, Hl. unfold fat_sec in Ei. rewrite E in Ei.
  set (i := res_sec_cnt _ + _) in *. set (j := (fat_offset (fsb s) * c) mod 512) in *.
  set (buf := memdisk_read_sectors (fdisk s) i 8 ++ drop 4096 (fbuf (fsb s))) in *.
  assert (fat_sec s c = i) as Es by (unfold fat_sec; by rewrite E). rewrite Es in Hi, Hm. pose proof (fo_max _ _ O).
  assert (forall b, fat_type b = fat_type (fsb s) -> (4096 <= length (fbuf b))%nat -> take 512 (fbuf b) = sector (fdisk s) i ->
    fat_entry b c j = Ret (next_clus s c)) as Hce by (intros b; rewrite <- Es; by apply cached_entry).
  destruct (cache_place c i j Hc E) as [Ek|[Ek Ht]]; rewrite Ek; [|destruct (Z.eqb_spec j 0) as [|Hnz]].
  1, 2: rewrite El, Ret_bind, Hce by done;
    rewrite Ret_bind; eexists; (split; [done|]); (split; [split; try done; by eexists _, _, _|]); (split; [done|]); intros Hn;
    eapply fat_ok_keeps; [done|split; try done; by eexists _, _, _|done|done| |done]; right; cbn;
    rewrite u32_small by lia; (split; [lia|]); (split; [done|]); intros c' Hc'; rewrite <- Es; by apply (fo_far _ _ O).
  rewrite Hce by (try done; apply O). rewrite Ret_bind.
  eexists. split; [done|]. assert (fat_keeps s (set_ffnode s (set_clus (ffnode s) c (next_clus s c)))) as K.
  { split; try done. exists (buf_mutex (fsb s)), (buf_sector_base (fsb s)), (fbuf (fsb s)). by destruct s as [? ? [] ?]. }
  split; [done|]. split; [done|]. intros Hn. eapply fat_ok_keeps; [done|done| | | |done]; apply O.
Qed.
End Step.

(** ** The contract of an open file *)

Section Laws.
Context (bits : Z).

Lemma clus_sector s c : fat_ok bits s -> c ∈ fat_ids s ->
  get_first_sector (fsb s) c = first_data_sector (fsb s) + (c - 2) * sec_per_clus (bpb (fsb s)) /\
  0 < first_data_sector (fsb s) <= get_first_sector (fsb s) c /\ get_first_sector (fsb s) c <= max_start (fbdev s).
Proof.
  intros O Hc. destruct (fo_clus _ _ O c Hc) as (H1 & H2 & H3). pose proof (fo_root _ _ O). pose proof (fo_max _ _ O).
  destruct (fo_spc _ _ O) as [Hspc _]. pose proof (fo_res _ _ O). pose proof (proj1 (proj2 (width_cases _ _ O))).
  assert (0 <= (c - 2) * sec_per_clus (bpb (fsb s))) by nia.
  assert (0 <= fat_offset (fsb s) * c / 512) by (apply Z.div_pos; [destruct H5 as [-> | ->]; lia|lia]).
  unfold get_first_sector. rewrite (u32_small (0xfff7 - _)), (proj2 (Z.ltb_ge _ c)) by lia.
  rewrite (u32_small (c - 2)) by lia. rewrite (u32_small ((c - 2) * _)) by lia. rewrite u32_small by lia. lia.
Qed.

Lemma fat_cur_lookup s : fat_ok bits s -> fat_ids s !! fat_cur s = Some (current_clus (ffnode s)).
Proof. intros O. apply index_of_elem, (fo_cur _ _ O). Qed.

(** The cluster the file stands at, in range for every type. *)
Lemma clus_result s c : fat_ok bits s -> c ∈ fat_ids s ->
  ((if fat_type (fsb s) =? FAT32 then 0xfffffff8 else 0xfff8) <=? c) = false.
Proof.
  intros O Hc. destruct (fo_clus _ _ O c Hc) as (H1 & _). pose proof (fo_root _ _ O). apply Z.leb_gt. destruct (_ =? _); lia.
Qed.

Lemma fat_step s i : fat_ok bits s -> fat_ids s !! S (fat_cur s) = Some i ->
  exists s', fat_get_data_block s VFS_NEXT_BLOCK = Ret (s', i) /\ fat_ok bits s' /\ fat_blocks s' = fat_blocks s /\
    fat_ids s' = fat_ids s /\ fat_cur s' = S (fat_cur s).
Proof.
  intros O Hi. pose proof (fat_cur_lookup s O) as Hc. pose proof (list_elem_of_lookup_2 _ _ _ Hi) as Hin.
  pose proof (chain_lookup _ _ _ _ _ _ Hc Hi) as En. destruct (table_step bits s O) as (s' & E & K & Ec & O').
  rewrite <- En in E, Ec, O'. specialize (O' Hin). destruct (keeps_ids s s' K) as (Ei & Eb & _).
  exists s'. split; [|split_and!; try done; unfold fat_cur; rewrite Ei, Ec; apply index_of_lookup; [apply (fo_nodup _ _ O)|done]].
  unfold fat_get_data_block. cbn [Z.eqb VFS_NEXT_BLOCK].
  assert ((if fat_type (fsb s) =? FAT32 then __fat_get_data_block s else fat12_16_get_data_block s) = Ret (s', i)) as ->.
  { destruct (fat_type (fsb s) =? FAT32); [done|]. destruct (fo_clus _ _ O _ (fo_cur _ _ O)) as (H1 & _). pose proof (fo_root _ _ O).
    unfold fat12_16_get_data_block. rewrite u32_small, (proj2 (Z.ltb_ge _ (current_clus _))), (proj2 (Z.eqb_neq (current_clus _) 0)) by lia. done. }
  rewrite Ret_bind, Ec. rewrite <- Ei in Hin. by rewrite (clus_result s' i O' Hin).
Qed.

Lemma fat_restart s i : fat_ok bits s -> fat_ids s !! 0%nat = Some i ->
  exists s', fat_get_data_block s VFS_START_BLOCK = Ret (s', i) /\ fat_ok bits s' /\ fat_blocks s' = fat_blocks s /\
    fat_ids s' = fat_ids s /\ fat_cur s' = 0%nat.
Proof.
  intros O Hi. pose proof (chain_head _ _ _ _ Hi) as ->. pose proof (list_elem_of_lookup_2 _ _ _ Hi) as Hin.
  set (s' := set_ffnode s (set_clus (ffnode s) (first_clus (ffnode s)) (first_clus (ffnode s)))).
  assert (fat_keeps s s') as K.
  { split; try done. exists (buf_mutex (fsb s)), (buf_sector_base (fsb s)), (fbuf (fsb s)). by destruct s as [? ? [] ?]. }
  destruct (keeps_ids s s' K) as (Ei & Eb & _). exists s'. split.
  - unfold fat_get_data_block. cbn [Z.eqb VFS_NEXT_BLOCK VFS_START_BLOCK]. fold s'. cbn [current_clus s' set_ffnode ffnode set_clus fsb].
    by rewrite (clus_result s _ O Hin).
  - split; [eapply fat_ok_keeps; [done|done| | | |done]; apply O|]. split; [done|]. split; [done|].
    unfold fat_cur. rewrite Ei. apply index_of_lookup; [apply (fo_nodup _ _ O)|done].
Qed.

(** Writing the sectors of a cluster of the file. *)
Definition fat_put (s : fat_st) (c : Z) (b : list Z) : fat_st :=
  set_fdisk s (memdisk_write_sectors (fdisk s) b (get_first_sector (fsb s) c) (Z.to_nat (sec_per_clus (bpb (fsb s))))).

Lemma put_sector s c b i : fat_ok bits s -> c ∈ fat_ids s -> i < first_data_sector (fsb s) ->
  sector (fdisk (fat_put s c b)) i = sector (fdisk s) i.
Proof. intros O Hc Hi. destruct (clus_sector s c O Hc) as (_ & ? & _). apply write_sector_other. lia. Qed.

Lemma put_ids s c b : fat_ok bits s -> c ∈ fat_ids s -> fat_ids (fat_put s c b) = fat_ids s.
Proof.
  intros O Hc. unfold fat_ids. cbn [fat_put set_fdisk fsb ffnode]. set (n := Z.to_nat _).
  assert (forall m c0, (forall x, x ∈ chain_from m s c0 -> x ∈ fat_ids s) -> chain_from m (fat_put s c b) c0 = chain_from m s c0) as H.
  { induction m as [|m IH]; intros c0 Hsub; [done|]. cbn [chain_from] in *. unfold is_end in *. cbn [fat_put set_fdisk fsb].
    destruct (_ <=? c0) eqn:Ee; [done|]. assert (c0 ∈ fat_ids s) as H0 by (apply Hsub; left).
    assert (next_clus (fat_put s c b) c0 = next_clus s c0) as ->.
    { unfold next_clus, entry_width. cbn [fat_put set_fdisk fsb].
      destruct (clus_place bits s O c0 H0) as (E & Hi & _). unfold fat_sec in Hi. rewrite E in Hi |- *. cbn [fst] in Hi.
      by rewrite (put_sector s c b _ O Hc) by lia. }
    rewrite IH; [done|]. intros x Hx. apply Hsub. by right. }
  by apply H.
Qed.

Lemma block_length s c : fat_ok bits s -> Z.of_nat (length (fat_block s c)) = 2 ^ bits.
Proof.
  intros O. unfold fat_block. rewrite (length_read _ _ _ (fo_wf _ _ O)). destruct (fo_spc _ _ O) as [? ->]. lia.
Qed.

Lemma put_ok s c b : fat_ok bits s -> c ∈ fat_ids s -> Z.of_nat (length b) = 2 ^ bits -> fat_ok bits (fat_put s c b).
Proof.
  intros O Hc Hb. pose proof (put_ids s c b O Hc) as Ei. pose proof O as []. split; try rewrite Ei; try done.
  - destruct fo_base0 as [H|(H1 & H2 & H3)]; [by left|right]. split; [done|]. split; [|done].
    change (fbuf (fsb (fat_put s c b))) with (fbuf (fsb s)). rewrite H2. symmetry. apply put_sector; [done|done|]. cbn. lia.
  - apply write_wf; [done|]. destruct fo_spc0 as [? Hs]. rewrite Hs in Hb. lia.
Qed.

Lemma put_blocks s c b k : fat_ok bits s -> fat_ids s !! k = Some c -> Z.of_nat (length b) = 2 ^ bits ->
  fat_blocks (fat_put s c b) = <[k := b]> (fat_blocks s).
Proof.
  intros O Hk Hb. pose proof (list_elem_of_lookup_2 _ _ _ Hk) as Hc. unfold fat_blocks. rewrite (put_ids s c b O Hc).
  destruct (fo_spc _ _ O) as [Hspc Hs]. set (n := Z.to_nat (sec_per_clus (bpb (fsb s)))).
  apply list_eq. intros m. rewrite list_lookup_fmap. destruct (decide (m = k)) as [->|Hne].
  - rewrite Hk. simpl. rewrite list_lookup_insert_eq by (rewrite length_fmap; by eapply lookup_lt_Some). f_equal.
    apply (read_write_same (fdisk s) b _ n). lia.
  - rewrite list_lookup_insert_ne, list_lookup_fmap by done. destruct (fat_ids s !! m) as [c'|] eqn:Em; [|done]. simpl. f_equal.
    apply (read_write_other (fdisk s) b _ n _ n). change (fsb (fat_put s c b)) with (fsb s).
    destruct (clus_sector s c O Hc) as (-> & _). destruct (clus_sector s c' O (list_elem_of_lookup_2 _ _ _ Em)) as (-> & _).
    assert (c <> c') as Hcc by (intros ->; apply Hne; by eapply NoDup_lookup; [apply (fo_nodup _ _ O)| |]).
    assert (Z.of_nat n = sec_per_clus (bpb (fsb s))) as -> by (unfold n; lia).
    set (spc := sec_per_clus (bpb (fsb s))) in *. clearbody spc. clear - Hcc Hspc.
    assert (c < c' \/ c' < c) as [?|?] by lia; nia.
Qed.

#[local] Obligation Tactic := idtac.

Context (Hbits : 0 <= bits < 31).

(** FAT16 and FAT32 keep the contract of an open file, with clusters of [2 ^ bits] bytes. *)
#[program] Definition fat_laws : FileLaws fat_st := {|
  f_ok := fat_ok bits;
  f_bits := bits;
  f_blocks := fat_blocks;
  f_ids := fat_ids;
  f_cur := fat_cur |}.
Next Obligation. exact Hbits. Qed.
Next Obligation.
  intros s O. unfold fat_blocks. rewrite length_fmap. split; [done|]. split.
  - apply Forall_fmap, Forall_forall. intros c _. by apply block_length.
  - apply Forall_forall. intros c Hc. destruct (fo_clus _ _ O c Hc) as (? & _). lia.
Qed.
Next Obligation. exact fat_step. Qed.
Next Obligation. by intros s i c H. Qed.
Next Obligation. intros s i _. apply fat_restart. Qed.
Next Obligation. intros s i O _. by apply fat_restart. Qed.
Next Obligation.
  intros s i O Hi. rewrite (fat_cur_lookup s O) in Hi. injection Hi as <-.
  unfold get_data_block, fat_ops, fat_get_data_block. cbn [Z.eqb VFS_NEXT_BLOCK VFS_START_BLOCK VFS_CURRENT_BLOCK Pos.eqb].
  by rewrite (clus_result s _ O (fo_cur _ _ O)).
Qed.
Next Obligation.
  intros s i k b O Hi Hb. unfold fat_blocks in Hb. rewrite list_lookup_fmap, Hi in Hb. injection Hb as <-.
  destruct (clus_sector s i O (list_elem_of_lookup_2 _ _ _ Hi)) as (_ & _ & Hm).
  unfold read_block, fat_ops, fat_read_block, read_sectors. by rewrite (proj2 (Z.ltb_ge _ _)) by lia.
Qed.
Next Obligation.
  intros s i k b O Hi Hb. pose proof (list_elem_of_lookup_2 _ _ _ Hi) as Hc. destruct (clus_sector s i O Hc) as (_ & _ & Hm).
  exists (fat_put s i b). split; [unfold write_block, fat_ops, fat_write_block, write_sectors; by rewrite (proj2 (Z.ltb_ge _ _)) by lia|].
  split; [by apply put_ok|]. split; [by apply put_blocks|]. split; [by apply put_ids|].
  unfold fat_cur. by rewrite (put_ids s i b O Hc).
Qed.
End Laws.

(** ** Names and directories *)

(** Characters of names that the short form keeps. *)
Definition legal_char (c : Z) : Prop := 0 < c < 256 /\ c <> dot /\ c <> space /\ c <> slash.

Definition pad (n : nat) (l : list Z) : list Z := l ++ replicate (n - length l) space.
Definition short_form (base ext : list Z) : list Z := pad 8 (map lower_to_upper base) ++ pad 3 (map lower_to_upper ext).
Definition file_name (base ext : list Z) : list Z := base ++ match ext with [] => [] | _ => dot :: ext end.

Record short_name (base ext : list Z) : Prop := {
  sn_base : (1 <= length base <= 6)%nat;
  sn_ext : (length ext <= 3)%nat;
  sn_legal : Forall legal_char (base ++ ext) }.

Lemma upper_legal c : legal_char c -> (lower_to_upper c =? space) = false /\ (lower_to_upper c =? dot) = false.
Proof.
  intros (Hr & Hd & Hs & _). unfold lower_to_upper, is_lower, dot, space in *.
  destruct (Z.leb_spec c 122); destruct (Z.leb_spec 97 c); cbn; split; apply Z.eqb_neq; lia.
Qed.

(** A part of the name without characters to leave out is copied whole. *)
Lemma copy_name_all cs rest lo pos len max : Forall legal_char cs -> (forall ch, lo ch = true -> ch = space \/ ch = dot) ->
  cs <> [] -> pos + Z.of_nat (length cs) = len -> (length cs <= max)%nat ->
  copy_name (cs ++ rest) lo pos len max = map lower_to_upper cs.
Proof.
  intros Hl Hlo. revert pos max. induction Hl as [|c cs Hc Hl IH]; intros pos max Hne Hlen Hmax; [done|]. simpl in Hlen, Hmax.
  destruct max as [|max]; [lia|]. cbn [app copy_name map]. destruct (upper_legal c Hc) as [E1 E2].
  destruct (lo (lower_to_upper c)) eqn:E.
  - destruct (Hlo _ E) as [E'|E']; rewrite E' in *; by rewrite Z.eqb_refl in *.
  - f_equal. destruct cs as [|d cs].
    + by rewrite (proj2 (Z.eqb_eq (pos + 1) len)) by (simpl in Hlen; lia).
    + rewrite (proj2 (Z.eqb_neq (pos + 1) len)) by (simpl in Hlen; lia). apply IH; [done|simpl in *; lia|simpl in *; lia].
Qed.

Lemma byte_at_app_l a b i : 0 <= i < Z.of_nat (length a) -> byte_at (a ++ b) i = byte_at a i.
Proof. intros H. unfold byte_at. by rewrite lookup_app_l by lia. Qed.

Lemma last_dot_none n name : (forall i, 0 < i -> byte_at name i <> dot) -> last_dot n name = 0.
Proof. intros H. induction n as [|n IH]; [done|]. cbn [last_dot]. rewrite (proj2 (Z.eqb_neq _ _)); [done|]. apply H. lia. Qed.

Lemma last_dot_some n k name : (0 < k <= n)%nat -> byte_at name (Z.of_nat k) = dot ->
  (forall i, Z.of_nat k < i -> byte_at name i <> dot) -> last_dot n name = Z.of_nat k.
Proof.
  intros Hk Hd Hno. induction n as [|n IH]; [lia|]. cbn [last_dot]. destruct (decide (k = S n)) as [->|].
  - by rewrite Hd, Z.eqb_refl.
  - rewrite (proj2 (Z.eqb_neq _ _)); [apply IH; lia|]. apply Hno. lia.
Qed.

Lemma legal_byte l i : Forall legal_char l -> byte_at l i <> dot.
Proof.
  intros Hl. unfold byte_at. destruct (l !! Z.to_nat i) as [c|] eqn:E; [|done]. by apply (Forall_lookup_1 _ _ _ _ Hl E).
Qed.

Lemma skip_dots_legal l : Forall legal_char l -> skip_dots l = 0.
Proof. destruct 1 as [|c l (_ & H & _)]; [done|]. cbn. by rewrite (proj2 (Z.eqb_neq c dot)). Qed.

(** The place of the dot. *)
Lemma name_dot base ext : short_name base ext ->
  last_dot (length (file_name base ext)) (file_name base ext) = match ext with [] => 0 | _ => Z.of_nat (length base) end.
Proof.
  intros [Hb He Hl]. apply Forall_app in Hl as [Hlb Hle]. unfold file_name. destruct ext as [|x ext].
  - rewrite app_nil_r. apply last_dot_none. intros i _. by apply legal_byte.
  - apply last_dot_some; [rewrite length_app; simpl; lia| |].
    + unfold byte_at. rewrite Nat2Z.id. by rewrite list_lookup_middle.
    + intros i Hi. unfold byte_at. rewrite lookup_app_r by lia.
      destruct (Z.to_nat i - length base)%nat as [|m] eqn:E; [lia|]. change (default 0 ((x :: ext) !! m) <> dot).
      pose proof (legal_byte (x :: ext) (Z.of_nat m) Hle) as H. unfold byte_at in H. by rewrite Nat2Z.id in H.
Qed.

(** The first twelve bytes of the parsed name. *)
Lemma parsed_short base ext : short_name base ext ->
  take 11 (parsed_name (file_name base ext)) = short_form base ext /\ byte_at (parsed_name (file_name base ext)) 11 = 0.
Proof.
  intros S. pose proof (name_dot base ext S) as Hd. destruct S as [Hb He Hl]. apply Forall_app in Hl as [Hlb Hle].
  unfold parsed_name. rewrite Hd.
  set (f := if _ =? 0 then Z.of_nat (length (file_name base ext)) else _). set (b := if _ =? 0 then 0 else _).
  assert (f = Z.of_nat (length base) /\ b = Z.of_nat (length ext)) as [-> ->].
  { unfold f, b, file_name. destruct ext as [|x ext]; [by rewrite app_nil_r|].
    rewrite (proj2 (Z.eqb_neq _ 0)) by lia. rewrite length_app. simpl. lia. }
  assert (get_file_name_type (file_name base ext) (Z.of_nat (length base)) (Z.of_nat (length ext)) = 0) as ->.
  { unfold get_file_name_type. assert (byte_at (file_name base ext) 0 <> dot) as H0.
    { unfold file_name. rewrite byte_at_app_l by lia. by apply legal_byte. }
    rewrite (proj2 (Z.eqb_neq _ _) H0), (proj2 (Z.ltb_ge 8 _)), (proj2 (Z.eqb_neq _ 0)), (proj2 (Z.ltb_lt _ 8)), (proj2 (Z.leb_le _ 3)) by lia. done. }
  assert (fill_fat_name (file_name base ext) (Z.of_nat (length base)) 0 = pad 8 (map lower_to_upper base)) as ->.
  { unfold fill_fat_name, file_name. assert (skip_dots (base ++ match ext with [] => [] | _ => dot :: ext end) = 0) as ->.
    { destruct Hlb as [|c l (_ & H & _)]; [simpl in Hb; lia|]. cbn. by rewrite (proj2 (Z.eqb_neq c dot)). }
    change (drop (Z.to_nat 0) ?x) with x. rewrite copy_name_all; try done; try lia.
    intros ->. simpl in Hb. lia. }
  assert (fill_fat_appendix (drop (Z.to_nat (Z.of_nat (length base) + 1)) (file_name base ext)) (Z.of_nat (length ext)) =
    pad 3 (map lower_to_upper ext)) as ->.
  { unfold fill_fat_appendix, file_name. destruct ext as [|x ext]; [done|]. rewrite (proj2 (Z.eqb_neq _ 0)) by (simpl; lia).
    replace (Z.to_nat (Z.of_nat (length base) + 1)) with (S (length base)) by lia.
    rewrite drop_app_ge by lia. replace (S (length base) - length base)%nat with 1%nat by lia. cbn [drop].
    rewrite (skip_dots_legal _ Hle). change (drop (Z.to_nat 0) ?x) with x.
    pose proof (copy_name_all (x :: ext) [] (fun ch => ch =? space) 0 (Z.of_nat (length (x :: ext))) 3 Hle) as H.
    rewrite app_nil_r in H. rewrite H; try done. intros ch Hs%Z.eqb_eq. auto. }
  assert (forall n l, (length l <= n)%nat -> length (pad n l) = n) as Hp.
  { intros n l Hn. unfold pad. rewrite length_app, length_replicate. lia. }
  assert (length (short_form base ext) = 11%nat) as H11.
  { unfold short_form. rewrite length_app, !Hp by (rewrite length_map; lia). done. }
  set (u := concat _). set (r := replicate (512 - _) 0).
  assert ((pad 8 (map lower_to_upper base) ++ pad 3 (map lower_to_upper ext) ++ [0] ++ u) ++ r = short_form base ext ++ 0 :: (u ++ r)) as ->
    by (unfold short_form; by rewrite <- !app_assoc).
  split; [by apply take_app_length'|]. unfold byte_at. by rewrite list_lookup_middle by (by rewrite H11).
Qed.

(** The entry of the block a name in short form belongs to. *)
Definition entry_is (buf name : list Z) (k : Z) : bool :=
  let e := fat_dir_entry buf k in
  negb (entry_name_type e =? FAT_NAME_TYPE_LONG) && negb (byte_at e 0 =? 0) && bool_decide (take 11 name = take 11 e).

Lemma find_entry_short n s name buf i : byte_at name 11 = 0 ->
  find_entry n s name buf i i = Ret (s, buf, (fun k => (k, k)) <$> zfirst n i (entry_is buf name)).
Proof.
  intros H0. revert i. induction n as [|n IH]; intros i; [done|]. cbn [find_entry zfirst]. unfold entry_is at 1.
  destruct (entry_name_type (fat_dir_entry buf i) =? FAT_NAME_TYPE_LONG); cbn [orb negb andb]; [apply IH|].
  destruct (byte_at (fat_dir_entry buf i) 0 =? 0); cbn [negb andb]; [apply IH|]. rewrite H0. cbn [Z.eqb negb].
  destruct (bool_decide _); [done|apply IH].
Qed.

(** ** The boot sector *)

Definition le16 (w : Z) : list Z := [w mod 256; w / 256 mod 256].

Lemma u16_le w : 0 <= w < 65536 -> u8_to_u16 (w mod 256) (w / 256 mod 256) = w.
Proof.
  intros Hw. pose proof (Z.mod_pos_bound w 256). unfold u8_to_u16. rewrite (lor_shiftl _ _ 8) by lia.
  rewrite (Z.mod_small (w / 256)) by (split; [apply Z.div_pos; lia|apply Z.div_lt_upper_bound; lia]).
  pose proof (Z.div_mod w 256). change (2 ^ 8) with 256. lia.
Qed.

Lemma u32_le w : 0 <= w < 4294967296 ->
  u8_to_u32 (w mod 256) (w / 256 mod 256) (w / 65536 mod 256) (w / 16777216 mod 256) = w.
Proof.
  intros Hw. pose proof (Z.mod_pos_bound w 256). pose proof (Z.mod_pos_bound (w / 256) 256). pose proof (Z.mod_pos_bound (w / 65536) 256).
  unfold u8_to_u32. rewrite <- !Z.lor_assoc. rewrite (lor_shiftl _ _ 8) by lia. change (2 ^ 8) with 256.
  rewrite (lor_shiftl _ _ 16) by (change (2 ^ 16) with 65536; lia). change (2 ^ 16) with 65536.
  rewrite (lor_shiftl _ _ 24) by (change (2 ^ 24) with 16777216; lia). change (2 ^ 24) with 16777216.
  rewrite (Z.mod_small (w / 16777216)) by (split; [apply Z.div_pos; lia|apply Z.div_lt_upper_bound; lia]).
  replace (w / 16777216) with (w / 65536 / 256) by (rewrite Z.div_div by lia; done).
  replace (w / 65536) with (w / 256 / 256) by (rewrite Z.div_div by lia; done).
  pose proof (Z.div_mod w 256). pose proof (Z.div_mod (w / 256) 256). pose proof (Z.div_mod (w / 256 / 256) 256).
  rewrite u32_small; lia.
Qed.

(** The bytes of a boot sector with the parameters [b], between 11 bytes of code and name
    and 474 bytes of which only FAT32 and the code of the boot loader use any. *)
Definition boot_sector (b : fat_bpb) (pre mid : list Z) : list Z :=
  pre ++ le16 (byts_per_sec b) ++ [sec_per_clus b] ++ le16 (res_sec_cnt b) ++ [fat_num b] ++ le16 (root_ent_cnt b) ++
  le16 (total_sec16 b) ++ [media b] ++ le16 (fat16_sec_size b) ++ le16 (sec_per_trk b) ++ le16 (num_heads b) ++
  word_bytes (hide_sec b) ++ word_bytes (total_sec32 b) ++ mid ++ [0x55; 0xaa].

Record bpb_ok (b : fat_bpb) : Prop := {
  bo_bps : 0 < byts_per_sec b < 65536;
  bo_spc : 0 < sec_per_clus b < 256;
  bo_res : 0 <= res_sec_cnt b < 65536;
  bo_num : 0 <= fat_num b < 256;
  bo_16 : 0 <= root_ent_cnt b < 65536 /\ 0 <= total_sec16 b < 65536 /\ 0 < fat16_sec_size b < 65536 /\
    0 <= sec_per_trk b < 65536 /\ 0 <= num_heads b < 65536;
  bo_32 : 0 <= hide_sec b < 4294967296 /\ 0 <= total_sec32 b < 4294967296 }.

Lemma byte_at_pre pre l i : length pre = 11%nat -> 0 <= i -> byte_at (pre ++ l) (11 + i) = byte_at l i.
Proof. intros Hp Hi. unfold byte_at. rewrite lookup_app_r by lia. f_equal. f_equal. lia. Qed.

Lemma read_boot_sector b pre mid : bpb_ok b -> length pre = 11%nat -> read_bpb (boot_sector b pre mid) = b.
Proof.
  intros [B1 B2 B3 B4 (B5 & B6 & B7 & B8 & B9) (B10 & B11)] Hp.
  assert (forall i, 11 <= i -> byte_at (boot_sector b pre mid) i = byte_at (drop 11 (boot_sector b pre mid)) (i - 11)) as H.
  { intros i Hi. unfold boot_sector. rewrite drop_app_length' by done. replace i with (11 + (i - 11)) at 1 by lia. apply byte_at_pre; [done|lia]. }
  unfold boot_sector at 2 in H. rewrite drop_app_length' in H by done.
  unfold read_bpb, u16_at, u32_at. rewrite !H by lia.
  transitivity (FatBpb (u8_to_u16 (byts_per_sec b mod 256) (byts_per_sec b / 256 mod 256)) (sec_per_clus b)
    (u8_to_u16 (res_sec_cnt b mod 256) (res_sec_cnt b / 256 mod 256)) (fat_num b) (u8_to_u16 (root_ent_cnt b mod 256) (root_ent_cnt b / 256 mod 256))
    (u8_to_u16 (total_sec16 b mod 256) (total_sec16 b / 256 mod 256)) (media b) (u8_to_u16 (fat16_sec_size b mod 256) (fat16_sec_size b / 256 mod 256))
    (u8_to_u16 (sec_per_trk b mod 256) (sec_per_trk b / 256 mod 256)) (u8_to_u16 (num_heads b mod 256) (num_heads b / 256 mod 256))
    (u8_to_u32 (hide_sec b mod 256) (hide_sec b / 256 mod 256) (hide_sec b / 65536 mod 256) (hide_sec b / 16777216 mod 256))
    (u8_to_u32 (total_sec32 b mod 256) (total_sec32 b / 256 mod 256) (total_sec32 b / 65536 mod 256) (total_sec32 b / 16777216 mod 256))); [done|].
  rewrite !u16_le, !u32_le by lia. by destruct b.
Qed.

(** ** Properties *)

(** The clusters a file gives one after the other. *)
Fixpoint fat_walk (n : nat) (s : fat_st) (whence : Z) : outcome (fat_st * list Z) :=
  match n with
  | O => mret (s, [])
  | S n =>
    '(s, c) ← fat_get_data_block s whence;
    '(s, cs) ← fat_walk n s VFS_NEXT_BLOCK;
    mret (s, c :: cs)
  end.

Lemma fat_walk_next bits n : forall s, fat_ok bits s -> (S (fat_cur s) + n = length (fat_ids s))%nat ->
  exists s', fat_walk n s VFS_NEXT_BLOCK = Ret (s', drop (S (fat_cur s)) (fat_ids s)) /\ fat_ok bits s'.
Proof.
  induction n as [|n IH]; intros s O Hn.
  - exists s. rewrite drop_ge by lia. done.
  - destruct (lookup_lt_is_Some_2 (fat_ids s) (S (fat_cur s))) as [c Hc]; [lia|].
    destruct (fat_step bits s c O Hc) as (s1 & E1 & O1 & _ & Ei & Ec).
    destruct (IH s1 O1) as (s2 & E2 & O2); [rewrite Ei, Ec; lia|]. exists s2. split; [|done].
    cbn [fat_walk]. rewrite E1, Ret_bind, E2, Ret_bind, Ei, Ec. by rewrite (drop_S _ _ _ Hc).
Qed.


(** An entry of a directory as an open file. *)
Definition fat_vfile (s : fat_st) (e : list Z) : vfile fat_st :=
  let '(s, a) := fat_fill_fnode s e in VFile s 0 0 (a_data_size a) (a_buffer_size a) [] 0 (a_blk_cnt a) (a_type a).

(** C18: a file opened from its directory entry reads as the bytes of the clusters of its
    chain, up to the size in the entry, when the read does not end with a cluster. *)
Theorem fat_open_read bits s e m buffer size (Hbits : 0 <= bits < 31)
    (O : fat_ok bits (v_fs (fat_vfile s e))) (Hc : clus_size (fsb s) = 2 ^ bits) (Hs : 0 < size < 2147483648)
    (Hd : 0 < u32_at e 28 <= Z.of_nat (length (concat (fat_blocks (v_fs (fat_vfile s e))))))
    (Hmax : Z.of_nat (length (concat (fat_blocks (v_fs (fat_vfile s e))))) < 2147483648)
    (Hm : Z.min size (u32_at e 28) mod 2 ^ bits <> 0) :
  exists f1 f2 m', vfs_open (fat_vfile s e) = Ret (f1, 0) /\
    vfs_read f1 m buffer size = Ret (f2, m', Z.min size (u32_at e 28)) /\
    wrote m m' buffer (take (Z.to_nat (Z.min size (u32_at e 28))) (concat (fat_blocks (v_fs (fat_vfile s e))))).
Proof.
  pose (L := fat_laws bits Hbits). set (f := fat_vfile s e) in *.
  assert (Z.of_nat bsize = 2 ^ bits) as EB by exact (proj1 (proj2 bsize_pos)).
  assert (Forall (fun b => length b = bsize) (fat_blocks (v_fs f))) as HL by exact (blocks_len (v_fs f) O).
  rewrite (length_concat_blocks bsize _ HL) in Hd, Hmax.
  assert (current_clus (ffnode (v_fs f)) = first_clus (ffnode (v_fs f))) as Ecur by done.
  assert (fat_ids (v_fs f) !! 0%nat = Some (first_clus (ffnode (v_fs f)))) as H0.
  { pose proof (fo_cur _ _ O) as Hin. rewrite Ecur in Hin. destruct (fat_ids (v_fs f)) as [|c ids] eqn:E; [by apply elem_of_nil in Hin|].
    pose proof (chain_head (Z.to_nat (clus_count (fsb (v_fs f)))) (v_fs f) (first_clus (ffnode (v_fs f))) c) as Hh.
    unfold fat_ids in E. rewrite E in Hh. by rewrite <- (Hh eq_refl). }
  assert (fat_cur (v_fs f) = 0%nat) as Hz by (unfold fat_cur; rewrite Ecur; apply index_of_lookup; [apply (fo_nodup _ _ O)|done]).
  destruct (lookup_lt_is_Some_2 (fat_blocks (v_fs f)) 0) as [b Hb]; [unfold fat_blocks; rewrite length_fmap; by eapply lookup_lt_Some|].
  destruct (@vfs_open_spec fat_st fat_ops L f b O Hz Hb) as (f1 & E1 & V & (S1 & _ & S2) & Ho);
    [done|done|by rewrite EB|split; [apply Z.lt_le_incl|]; apply Hd|exact Hmax|].
  change (data_size f) with (u32_at e 28) in S2.
  assert (read_size f1 size = Z.min size (u32_at e 28)) as Er by (unfold read_size; rewrite S2, Ho; f_equal; lia).
  destruct (@vfs_read_spec fat_st fat_ops L f1 m buffer size V) as (f2 & m' & E2 & W & _); [lia|lia|lia|by rewrite Er, Ho, EB|].
  rewrite Er in *. exists f1, f2, m'. split; [done|]. split; [done|]. unfold slice, bytes in W. rewrite Ho in W.
  change (f_blocks (v_fs f1)) with (fat_blocks (v_fs f1)) in W. change (f_blocks (v_fs f)) with (fat_blocks (v_fs f)) in S1.
  change (f_blocks (v_fs f1)) with (fat_blocks (v_fs f1)) in S1. rewrite S1 in W. exact W.
Qed.

(** A name of at most six characters with an extension of at most three is looked up in
    its short form, in capitals and filled up with blanks: the first entry of the block
    with that form becomes the open file, with its first cluster and its size, and ENOENT
    is reported when there is none. *)
Theorem fat_find_short base ext nb k s a buf (S : short_name base ext) (Hk : 0 <= k < 8)
    (Hfree : read_bit nb iname_buffer k = 0) :
  exists nb' name, fat_parse_name nb (file_name base ext) = Ret (nb', name, 0) /\
    take 11 name = short_form base ext /\
    match zfirst (Z.to_nat (dentry_per_block (fsb s))) 0 (entry_is buf name) with
    | None => fat_find_file s a name buf = Ret (s, a, - ENOENT)
    | Some i =>
      exists s' a', fat_find_file s a name buf = Ret (s', a', 0) /\ fdisk s' = fdisk s /\ fsb s' = fsb s /\
        (fat_type (fsb s) <> FAT32 -> first_clus (ffnode s') = u16_at (fat_dir_entry buf i) 26) /\
        current_clus (ffnode s') = first_clus (ffnode s') /\
        a_data_size a' = u32_at (fat_dir_entry buf i) 28 /\ a_type a' = fat_file_type (fat_dir_entry buf i)
    end.
Proof.
  destruct (iname_free nb k Hk Hfree) as (nb1 & i & E). destruct (parsed_short base ext S) as [H11 H0].
  exists (put_iname_buffer nb1 i), (parsed_name (file_name base ext)). split.
  - unfold fat_parse_name. destruct S as [Hb He Hl]. destruct (file_name base ext) as [|c n] eqn:En.
    { destruct base; [simpl in Hb; lia|done]. }
    rewrite E, <- En. rewrite (proj2 (Z.ltb_ge 250 _)); [done|]. unfold file_name. rewrite length_app. destruct ext; simpl in *; lia.
  - split; [done|]. unfold fat_find_file. rewrite find_entry_short, Ret_bind by done.
    destruct (zfirst _ _ _) as [e|]; cbn [fmap option_fmap option_map]; [|done].
    unfold fat_get_data_block. cbn [Z.eqb VFS_NEXT_BLOCK VFS_START_BLOCK VFS_CURRENT_BLOCK Pos.eqb].
    destruct (_ <=? _); rewrite ret_bind; eexists _, _; (split; [done|]); (split; [done|]); (split; [done|]); cbn;
      (split; [intros Hf; by rewrite (proj2 (Z.eqb_neq _ _) Hf)|done]).
Qed.

(** The parameters of a boot sector are read back as they were written, and the places
    and the kind of the volume follow from them as the format defines them. *)
Theorem boot_sector_round_trip b pre mid (B : bpb_ok b) (Hp : length pre = 11%nat) (Hm : length mid = 474%nat)
    (Ht : total_sec16 b <> 0) :
  let roots := (root_ent_cnt b * 32 + byts_per_sec b - 1) / byts_per_sec b in
  let first := res_sec_cnt b + fat_num b * fat16_sec_size b + roots in
  first <= total_sec16 b ->
  exists sb, fill_fat_super (boot_sector b pre mid) = Ret (inl sb) /\ bpb sb = b /\
    first_data_sector sb = first /\ root_dir_start_sector sb = first - roots /\
    clus_count sb = (total_sec16 b - first) / sec_per_clus b /\ clus_size sb = byts_per_sec b * sec_per_clus b /\
    fat_type sb = (if decide (clus_count sb < 4085) then FAT12 else if decide (clus_count sb < 65525) then FAT16 else FAT32).
Proof.
  intros roots first Hle. assert (Z.of_nat (length (boot_sector b pre mid)) = 512) as Hl.
  { unfold boot_sector. rewrite !length_app, Hp, Hm. done. }
  assert (forall i, 0 <= i < 2 -> byte_at (boot_sector b pre mid) (510 + i) = byte_at [0x55; 0xaa] i) as Hsig.
  { intros i Hi. unfold byte_at, boot_sector. rewrite !app_assoc, lookup_app_r; rewrite !length_app, Hp, Hm; simpl; [|lia].
    f_equal. f_equal. lia. }
  unfold fill_fat_super. rewrite (Hsig 0 ltac:(lia) : byte_at _ 510 = 85), (Hsig 1 ltac:(lia) : byte_at _ 511 = 170).
  cbn [Z.eqb Pos.eqb negb orb].
  rewrite (read_boot_sector b pre mid B Hp). destruct B as [B1 B2 B3 B4 (B5 & B6 & B7 & B8 & B9) (B10 & B11)].
  unfold get_fat_type. rewrite (proj2 (Z.eqb_neq (byts_per_sec b) 0)), (proj2 (Z.eqb_neq (fat16_sec_size b) 0)),
    (proj2 (Z.eqb_neq (total_sec16 b) 0)), (proj2 (Z.eqb_neq (sec_per_clus b) 0)) by lia. cbn [negb].
  replace (root_ent_cnt b * 32 + (byts_per_sec b - 1)) with (root_ent_cnt b * 32 + byts_per_sec b - 1) by lia. fold roots.
  assert (0 <= roots) as Hr by (apply Z.div_pos; lia). assert (0 <= fat_num b * fat16_sec_size b) by nia.
  fold first. rewrite (u32_small (total_sec16 b - first)) by lia. rewrite ret_bind. eexists. split; [done|]. cbn.
  rewrite (u16_small (fat16_sec_size b)), (u16_small (_ + _)), u32_small by lia. fold first.
  split; [done|]. split; [done|]. split; [unfold first; lia|]. split; [done|]. split; [done|].
  destruct (Z.ltb_spec ((total_sec16 b - first) / sec_per_clus b) 4085) as [H1|H1];
    [by rewrite decide_True by lia|rewrite decide_False by lia].
  by destruct (Z.ltb_spec ((total_sec16 b - first) / sec_per_clus b) 65525) as [H2|H2];
    [rewrite decide_True by lia|rewrite decide_False by lia].
Qed.

Module FatDemo.
(** A volume of FAT16 with clusters of one sector; HELLO.TXT has 1300 bytes in the clusters
    2, 3 and 5. *)
Definition params : fat_bpb := FatBpb 512 1 1 1 16 8000 0xf8 20 0 0 0 0.
Definition boot : list Z := boot_sector params (replicate 11 0) (replicate 474 0).
Definition zeros (n : nat) : list Z := replicate n 0.
Definition table : list Z := concat (map le16 [0xfff8; 0xffff; 3; 5; 0; 0xffff]) ++ zeros 500.
Definition hello : list Z :=
  [72; 69; 76; 76; 79; 32; 32; 32; 84; 88; 84; 32] ++ zeros 14 ++ le16 2 ++ word_bytes 1300.
Definition root : list Z := hello ++ zeros 480.
Definition disk : sectors := disk_of
  [(0, boot ++ table ++ zeros 3072); (2, zeros 2560 ++ root ++ replicate 512 65 ++ replicate 512 66);
   (3, zeros 512 ++ replicate 512 67 ++ zeros 3072)].
Definition dev : bdev := Bdev 0 16008 16000 0.
Definition no_sb : fat_super_block := FatSb params 0 0 0 0 0 0 0 0 0 0 0 0 false 0 [].
Definition super : fat_super_block := match fat_fill_super disk dev with Ret (inl b) => b | _ => no_sb end.
Definition fs : fat_st := FatSt disk dev super (fst (fat_get_root_fnode super)).
Definition file : vfile fat_st := fat_vfile fs hello.

Lemma file_ids : fat_ids (v_fs file) = [2; 3; 5].
Proof. by vm_compute. Qed.

Lemma disk_ok : disk_wf disk.
Proof. apply disk_of_wf. repeat (apply Forall_cons; split; [by vm_compute|]). by apply Forall_nil_2. Qed.

Lemma chain_cases (P : Z -> Prop) : P 2 -> P 3 -> P 5 -> forall c, c ∈ fat_ids (v_fs file) -> P c.
Proof. intros H2 H3 H5 c. rewrite file_ids. by intros [-> | [-> | ->%list_elem_of_singleton]%elem_of_cons]%elem_of_cons. Qed.

Lemma file_fat_ok : fat_ok 9 (v_fs file).
Proof.
  split; [by vm_compute|by vm_compute|left; by vm_compute|by vm_compute|by vm_compute|vm_compute; lia|left; by vm_compute| |by vm_compute| | |by vm_compute| |].
  - exact disk_ok.
  - rewrite file_ids. repeat (apply NoDup_cons; split; [set_solver by lia|]). apply NoDup_nil_2.
  - rewrite file_ids. apply elem_of_cons. left. by vm_compute.
  - intros c Hc. pattern c. revert c Hc. apply chain_cases; by vm_compute.
  - intros c c' Hc Hc'. pattern c. revert c Hc. apply chain_cases; pattern c'; revert c' Hc'; apply chain_cases; left; by vm_compute.
Qed.
End FatDemo.


Lemma fat_open_read_witness :
  exists f1 f2 m', vfs_open FatDemo.file = Ret (f1, 0) /\ vfs_read f1 ∅ 0x100000 2000 = Ret (f2, m', 1300) /\
    wrote ∅ m' 0x100000 (take 1300 (concat (fat_blocks (v_fs FatDemo.file)))).
Proof.
  exact (fat_open_read 9 FatDemo.fs FatDemo.hello ∅ 0x100000 2000 ltac:(lia) FatDemo.file_fat_ok ltac:(by vm_compute)
    ltac:(lia) ltac:(by vm_compute) ltac:(by vm_compute) ltac:(by vm_compute)).
Defined.

Lemma fat_find_short_witness :
  exists nb name, fat_parse_name init_iname_buffer (file_name [104; 101; 108; 108; 111] [116; 120; 116]) = Ret (nb, name, 0) /\
    take 11 name = take 11 FatDemo.hello.
Proof.
  destruct (fat_find_short [104; 101; 108; 108; 111] [116; 120; 116] init_iname_buffer 0 FatDemo.fs (FAttr 0 0 0 0 0 0 0) FatDemo.root)
    as (nb & name & E & H & _); [|lia|by vm_compute|].
  - split; [simpl; lia|simpl; lia|]. repeat (apply Forall_cons; split; [vm_compute; intuition lia|]). apply Forall_nil_2.
  - exists nb, name. split; [exact E|]. rewrite H. by vm_compute.
Defined.

Lemma boot_sector_round_trip_witness :
  exists b, fill_fat_super FatDemo.boot = Ret (inl b) /\ first_data_sector b = 22 /\ fat_type b = FAT16.
Proof.
  destruct (boot_sector_round_trip FatDemo.params (replicate 11 0) (replicate 474 0)) as (b & E & _ & Hf & _ & Hc & _ & Ht);
    [split; vm_compute; intuition congruence|by vm_compute|by vm_compute|by vm_compute|by vm_compute|].
  exists b. split; [exact E|]. split; [by rewrite Hf|]. rewrite Ht, Hc. by vm_compute.
Defined.

(** ** Where the code does not follow the format *)

Module FatFaults.
Import FatDemo.
(** Clusters of two sectors, and a table whose cached sectors start at 1: the entry of
    cluster 300 is in its second sector. *)
Definition params2 : fat_bpb := FatBpb 512 2 1 1 16 16000 0xf8 40 0 0 0 0.
Definition table2 : list Z := le16 0xfff8 ++ zeros 598 ++ le16 301 ++ zeros 422 ++ zeros 3072.
Definition disk2 : sectors := disk_of [(0, boot_sector params2 (zeros 11) (zeros 474) ++ take 3584 table2)].
Definition super2 : fat_super_block := match fat_fill_super disk2 dev with Ret (inl b) => b | _ => no_sb end.
Definition at_clus (b : fat_super_block) (d : sectors) (c : Z) : fat_st := FatSt d dev b (FatFnode c 0 c 0 c 0 0 0 0).
Definition cached : fat_st := at_clus (set_cache super2 false 1 table2) disk2 300.

(** The cache gives another entry than the table has, since the place is divided by the
    size of an entry. *)
Lemma cached_entry_wrong : next_clus cached 300 = 301 /\
  ('(s, c) ← fat_get_data_block cached VFS_NEXT_BLOCK; mret (current_clus (ffnode s), c)) = Ret (0, 0).
Proof. split; vm_compute; reflexivity. Qed.

(** The mark of the last cluster in FAT32 is given out as a cluster. *)
Lemma fat32_end_not_seen s : fat_type (fsb s) = FAT32 -> current_clus (ffnode s) = 0x0fffffff ->
  fat_get_data_block s VFS_CURRENT_BLOCK = Ret (s, 0x0fffffff).
Proof. intros Ht Hc. unfold fat_get_data_block. cbn. by rewrite Ht, Hc. Qed.

(** After a read of the table that fails the old cluster is given again, and the step
    after it waits for the lock without end. *)
Definition short_disk : fat_st := FatSt disk (Bdev 0 8 0 0) super (FatFnode 2 0 2 0 2 0 0 0 0).

Lemma failed_read_keeps_lock :
  ('(s, c) ← fat_get_data_block short_disk VFS_NEXT_BLOCK; mret c) = Ret 2 /\
  ('(s, _) ← fat_get_data_block short_disk VFS_NEXT_BLOCK; '(_, c) ← fat_get_data_block s VFS_NEXT_BLOCK; mret c) = NoFuel.
Proof. split; vm_compute; reflexivity. Qed.

(** The bytes of an entry of FAT12 are signed: 0x380 is read as 0xf80, the same value as
    that of a table with 0xf80. *)
Definition super12 : fat_super_block :=
  FatSb params 0 0 0 0 FAT12 2 0 0 512 22 16 1 false 1 [0; 0; 0; 0x80; 3].

Lemma fat12_entry_signed : fat_entry super12 2 3 = Ret 0xf80.
Proof. by vm_compute. Qed.

(** Of a name of seven characters the last is lost, though the directory has all of them. *)
Lemma seventh_character_lost :
  take 11 (parsed_name [97; 98; 99; 100; 101; 102; 103; 46; 99]) = [65; 66; 67; 68; 69; 70; 32; 32; 67; 32; 32].
Proof. by vm_compute. Qed.

(** A name of eight characters, which the format keeps as it is, is looked up as a long one. *)
Lemma eight_characters_long :
  take 12 (parsed_name [97; 98; 99; 100; 101; 102; 103; 104; 46; 99]) =
    [65; 66; 67; 68; 69; 70; 126; 49; 67; 32; 32; FAT_NAME_TYPE_UNKNOWN].
Proof. by vm_compute. Qed.

(** The second cluster of the root directory is looked for before the first. *)
Lemma root_goes_backwards : get_first_sector (set_cache (FatSb params 0 20 0 7000 FAT16 2 32 21 512 53 16 32 false 0 []) false 0 []) 0xfff6 = 20.
Proof. by vm_compute. Qed.
End FatFaults.
