(* ===== verification/Devfs.v ===== *)
(** * Devices and their files (fs/devfs.c, drivers/device.c, drivers/tty.c)

    A node of devfs is named by its address: the head of the list of its children is at
    that address, its place in the list of its parent 8 bytes behind it.  The number of a
    block is the address of a place in a list, and the block is that address.  Memory of new
    objects is there and comes as an argument. *)

From S2P Require Import Prelude Bitops Dlist CString Disk Vfs Lmfs Path.

Definition MAX_MAJOR : Z := 256.
Definition TTY_MAJOR : Z := 4.
Definition TTY_NR : Z := 8.

Definition MAJOR (dev : Z) : Z := Z.shiftr dev 16.
Definition MINOR (dev : Z) : Z := Z.land dev 0xffff.
Definition MKDEV (major minor : Z) : Z := Z.lor (Z.shiftl major 16) minor.

(** ** Nodes *)

Record devfs_node := DevfsNode { dn_type : Z; dn_dev : Z; dn_name : list Z; nr_child : Z; current_child : Z }.

Definition child_of (n : Z) : Z := n.
Definition list_of (n : Z) : Z := n + 8.
Definition node_at (l : Z) : Z := l - 8.

(** All nodes; [root] is the one of the directory itself. *)
Record devfs := Devfs { dheap : @lheap Z; dnodes : gmap Z devfs_node; root : Z }.

Definition set_nodes (d : devfs) (n : gmap Z devfs_node) : devfs := Devfs (dheap d) n (root d).

(** 31 bytes of a name. *)
Definition name31 (name : list Z) : list Z := take 31 (name ++ replicate 31 0).

Definition devfs_init (h : @lheap Z) (root : Z) : devfs :=
  Devfs (init_list (init_list h (list_of root)) (child_of root))
    {[root := DevfsNode DT_DIR 0 (name31 [100; 101; 118; 102; 115]) 0 0]} root.

Definition new_node (d : devfs) (n : Z) (nd : devfs_node) : devfs :=
  Devfs (init_list (init_list (dheap d) (list_of n)) (child_of n)) (<[n := nd]> (dnodes d)) (root d).

(** The node inside a device, and that of a directory. *)
Definition init_devfs_node (d : devfs) (n dev : Z) (name : list Z) : devfs := new_node d n (DevfsNode DT_CHR dev (name31 name) 0 0).
Definition create_devfs_dir_node (d : devfs) (n : Z) (name : list Z) : devfs := new_node d n (DevfsNode DT_DIR 0 (name31 name) 0 0).

(** [p] is 0 for the root. *)
Definition devfs_create_entry (d : devfs) (p n : Z) : outcome (devfs * Z) :=
  let p := if p =? 0 then root d else p in
  match dnodes d !! p with
  | None => Fault
  | Some nd =>
    if negb (dn_type nd =? DT_DIR) then mret (d, - EINVAL)
    else
      mret (Devfs (list_add_tail (dheap d) (child_of p) (list_of n))
              (<[p := DevfsNode (dn_type nd) (dn_dev nd) (dn_name nd) (nr_child nd + 1) (current_child nd)]> (dnodes d)) (root d), 0)
  end.

(** ** The file system *)

(** An open file: the node it stands for and the type in its [fnode]. *)
Record dev_st := DevSt { ddev : devfs; dnode : Z; dtype : Z }.

Definition devfs_get_root_fnode (d : devfs) : dev_st * fattr := (DevSt d (root d) DT_DIR, FAttr 0 0 DT_DIR 0 0 4 0).

Definition set_current (d : devfs) (n : Z) (nd : devfs_node) (l : Z) : devfs :=
  set_nodes d (<[n := DevfsNode (dn_type nd) (dn_dev nd) (dn_name nd) (nr_child nd) l]> (dnodes d)).

(** The place reached is kept in the node, where every open file of it shares it. *)
Definition devfs_get_data_block (s : dev_st) (whence : Z) : outcome (dev_st * Z) :=
  let n := dnode s in
  match dnodes (ddev s) !! n with
  | None => Fault
  | Some nd =>
    let found l :=
      if l =? child_of n then mret (s, 0) else mret (DevSt (set_current (ddev s) n nd l) n (dtype s), l) in
    if whence =? VFS_START_BLOCK then
      if dtype s =? DT_DIR then found (list_next (dheap (ddev s)) (child_of n)) else mret (s, list_of n)
    else if whence =? VFS_NEXT_BLOCK then
      if dtype s =? DT_DIR then found (list_next (dheap (ddev s)) (current_child nd)) else mret (s, 0)
    else found (current_child nd)
  end.

Definition devfs_fill_fnode (s : dev_st) (a : fattr) (n : Z) (nd : devfs_node) : dev_st * fattr :=
  (DevSt (ddev s) n (dn_type nd), FAttr (a_mode a) (a_flags a) (dn_type nd) 1 (a_data_size a) (a_buffer_size a) (dn_dev nd)).

(** As many characters as the name has are compared; behind the 31 of a node there is other
    memory. *)
Definition devfs_find_file (s : dev_st) (a : fattr) (name buffer : list Z) : outcome (dev_st * fattr * Z) :=
  let n := node_at (word_at (le_words buffer) 0) in
  match dnodes (ddev s) !! n with
  | None => Fault
  | Some nd =>
    if is_prefix name (dn_name nd) then let '(s, a) := devfs_fill_fnode s a n nd in mret (s, a, 0)
    else if (31 <? Z.of_nat (length name)) && is_prefix (dn_name nd) name then Fault
    else mret (s, a, - ENOENT)
  end.

Definition devfs_read_block (s : dev_st) (block : Z) : list Z + Z := inl (word_bytes block).
Definition devfs_write_block (s : dev_st) (b : list Z) (block : Z) : dev_st * Z := (s, 0).

(** [devfs_getdents] takes the address of the buffer for a place in a list, so it reads
    memory that is not a node; it has no model, and using it is a fault. *)
#[export] Instance devfs_ops : FsOps dev_st := {
  get_data_block := devfs_get_data_block;
  read_block := devfs_read_block;
  write_block := devfs_write_block;
  get_block := None;
  getdents := None;
  fs_flag := 1 }.

#[export] Instance devfs_dir : FsDir dev_st := {
  parse_name := fun nb name => mret (nb, name);
  find_file := devfs_find_file;
  copy_fnode := fun s a => (s, a, 0) }.

(** ** Classes and devices *)

(** [c_fops] stands for the table of operations, 0 for none; [c_devices] are the devices of
    the class, the latest first. *)
Record device_class := DeviceClass { c_name : list Z; c_char : bool; c_fops : Z; c_devices : list Z; device_nr : Z }.

(** [d_pnode] is the directory of the node, 0 for the root; the node is inside the device. *)
Record device := Device { d_dev : Z; d_devname : list Z; d_pnode : Z }.
Definition dnode_of (dev : Z) : Z := dev + 44.

Record dev_sys := DevSys { ctable : gmap Z device_class; devs : gmap Z device; dfs : devfs }.

Definition allocate_device_class (major : Z) : option device_class :=
  if (MAX_MAJOR - 1 <? major) || (major <? 0) then None else Some (DeviceClass [] false 0 [] 0).

Definition register_device_class (s : dev_sys) (major : Z) (c : device_class) : dev_sys * Z :=
  match ctable s !! major with
  | Some _ => (s, - EINVAL)
  | None => (DevSys (<[major := c]> (ctable s)) (devs s) (dfs s), 0)
  end.
Definition register_chardev_class (s : dev_sys) (major : Z) (c : device_class) : dev_sys * Z :=
  register_device_class s major (DeviceClass (c_name c) true (c_fops c) (c_devices c) (device_nr c)).
Definition register_blockdev_class (s : dev_sys) (major : Z) (c : device_class) : dev_sys * Z :=
  register_device_class s major (DeviceClass (c_name c) false (c_fops c) (c_devices c) (device_nr c)).
Definition unregister_device_class (s : dev_sys) (major : Z) : dev_sys * Z :=
  match ctable s !! major with
  | None => (s, - ENODEV)
  | Some _ => (DevSys (delete major (ctable s)) (devs s) (dfs s), 0)
  end.

(** A class that is not there is a null pointer. *)
Definition get_device_fops (s : dev_sys) (dev : Z) : outcome Z :=
  match ctable s !! MAJOR dev with Some c => mret (c_fops c) | None => Fault end.

Definition alloc_device (s : dev_sys) (a major minor : Z) : dev_sys :=
  DevSys (ctable s) (<[a := Device (MKDEV major minor) [] 0]> (devs s)) (dfs s).

(** The number is written to an array of four characters. *)
Definition register_device (s : dev_sys) (a : Z) : outcome (dev_sys * Z) :=
  match devs s !! a with
  | None => Fault
  | Some dv =>
    match ctable s !! MAJOR (d_dev dv) with
    | None => Fault
    | Some c =>
      ds ← fuelled (digits_loop 32 (MINOR (d_dev dv)) 10);
      if 4 <? Z.of_nat (length ds) then Fault
      else if 32 <? Z.of_nat (length (c_name c) + length ds) then Fault
      else
        let name := c_name c ++ reverse ds in
        let ct := <[MAJOR (d_dev dv) := DeviceClass (c_name c) (c_char c) (c_fops c) (a :: c_devices c) (device_nr c + 1)]> (ctable s) in
        '(d, _) ← devfs_create_entry (init_devfs_node (dfs s) (dnode_of a) (d_dev dv) name) (d_pnode dv) (dnode_of a);
        mret (DevSys ct (<[a := Device (d_dev dv) name (d_pnode dv)]> (devs s)) d, 0)
    end
  end.

(** The node stays in the list of devfs, in memory that is free. *)
Definition unregister_device (s : dev_sys) (a : Z) : outcome (dev_sys * Z) :=
  match devs s !! a with
  | None => Fault
  | Some dv =>
    match ctable s !! MAJOR (d_dev dv) with
    | None => Fault
    | Some c =>
      let ct := <[MAJOR (d_dev dv) := DeviceClass (c_name c) (c_char c) (c_fops c) (filter (fun x => x <> a) (c_devices c)) (device_nr c - 1)]> (ctable s) in
      mret (DevSys ct (delete a (devs s)) (set_nodes (dfs s) (delete (dnode_of a) (dnodes (dfs s)))), 0)
    end
  end.

(** ** Terminals *)

(** [t_ops] stands for the operations of the driver, 0 for none. *)
Record tty := Tty { t_dev : Z; t_ops : Z; is_console : bool }.
Record tty_sys := TtySys { tty_bitmap : gmap Z Z; ttys_of : gmap Z tty; tty_table : list (option Z); tdev : dev_sys }.

Definition tty_bits : Z := 8192.
Definition tty_fops : Z := 1.
Definition ttyS : list Z := [116; 116; 121; 83].

Definition tty_core_init (s : dev_sys) : tty_sys * Z :=
  match allocate_device_class TTY_MAJOR with
  | None => (TtySys ∅ ∅ [] s, - ENOMEM)
  | Some c =>
    let '(s, err) := register_chardev_class s TTY_MAJOR (DeviceClass ttyS (c_char c) tty_fops (c_devices c) (device_nr c)) in
    (TtySys (init_bitmap ∅ tty_bits TTY_NR) ∅ (replicate (Z.to_nat TTY_NR) None) s, err)
  end.

(** [t] and [dev] are the memory of the terminal and of its device. *)
Definition allocate_tty (s : tty_sys) (t dev : Z) : tty_sys * bool :=
  match zfirst (Z.to_nat TTY_NR) 0 (fun i => read_bit (tty_bitmap s) tty_bits i =? 0) with
  | None => (s, false)
  | Some minor =>
    (TtySys (set_bit (tty_bitmap s) tty_bits minor) (<[t := Tty dev 0 false]> (ttys_of s)) (tty_table s)
       (alloc_device (tdev s) dev TTY_MAJOR minor), true)
  end.

Definition register_tty (s : tty_sys) (t : Z) : outcome (tty_sys * Z) :=
  match ttys_of s !! t with
  | None => Fault
  | Some ty =>
    if t_ops ty =? 0 then mret (s, - EINVAL)
    else
      '(d, err) ← register_device (tdev s) (t_dev ty);
      if negb (err =? 0) then mret (TtySys (tty_bitmap s) (ttys_of s) (tty_table s) d, err)
      else
        match devs d !! t_dev ty with
        | None => Fault
        | Some dv =>
          let console := is_console ty || bool_decide (d_devname dv = ttyS ++ [48]) in
          let minor := MINOR (d_dev dv) in
          if minor <? TTY_NR then
            mret (TtySys (tty_bitmap s) (<[t := Tty (t_dev ty) (t_ops ty) console]> (ttys_of s))
                    (<[Z.to_nat minor := Some t]> (tty_table s)) d, 0)
          else Fault
        end
  end.

(** The terminal of a file; a null pointer when there is none. *)
Definition tty_open (s : tty_sys) (dev : Z) : outcome Z :=
  if MINOR dev <? TTY_NR then
    match tty_table s !! Z.to_nat (MINOR dev) with Some (Some t) => mret t | _ => Fault end
  else Fault.
