(* ===== verification/DevfsSpec.v ===== *)
(** * Correctness of device files (fs/devfs.c, drivers/device.c, drivers/tty.c)

    A lookup in devfs goes along the list of children and takes the first node whose name
    starts with the name asked for; a device that is registered is then found. *)

From S2P Require Import Prelude Bitops Dlist CString Disk Vfs VfsSpec Lmfs LmfsSpec Path PathSpec Devfs.

(** ** Directories *)

(** [n] is a directory with the children [ns]. *)
Record devdir (d : devfs) (n : Z) (ns : list Z) : Prop := {
  dd_dir : exists nd, dnodes d !! n = Some nd /\ dn_type nd = DT_DIR;
  dd_list : dlist (dheap d) (child_of n) (list_of <$> ns);
  dd_nodes : forall m, m ∈ ns -> m <> n /\ 0 < list_of m < 4294967296 /\ exists nd, dnodes d !! m = Some nd /\ length (dn_name nd) = 31%nat }.

(** The first child whose name starts with [name]. *)
Fixpoint dev_match (d : devfs) (name : list Z) (ns : list Z) : option (Z * devfs_node) :=
  match ns with
  | [] => None
  | m :: ns =>
    match dnodes d !! m with
    | Some nd => if is_prefix name (dn_name nd) then Some (m, nd) else dev_match d name ns
    | None => dev_match d name ns
    end
  end.

(** [d'] is [d] but for the place the directory [n] has reached. *)
Definition like (n : Z) (d d' : devfs) : Prop :=
  dheap d' = dheap d /\ root d' = root d /\ (forall m, m <> n -> dnodes d' !! m = dnodes d !! m) /\
  (forall nd, dnodes d !! n = Some nd -> exists l, dnodes d' !! n = Some (DevfsNode (dn_type nd) (dn_dev nd) (dn_name nd) (nr_child nd) l)).

Lemma like_refl n d : like n d d.
Proof. split; [done|]. split; [done|]. split; [done|]. intros nd H. exists (current_child nd). by destruct nd. Qed.

Lemma like_trans n d1 d2 d3 : like n d1 d2 -> like n d2 d3 -> like n d1 d3.
Proof.
  intros (A1 & A2 & A3 & A4) (B1 & B2 & B3 & B4). split; [congruence|]. split; [congruence|].
  split; [intros m Hm; by rewrite B3, A3|]. intros nd H. destruct (A4 nd H) as [l Hl]. destruct (B4 _ Hl) as [l' Hl']. by exists l'.
Qed.

#[export] Instance like_preorder n : PreOrder (like n).
Proof. split; [intros d; apply like_refl|intros d1 d2 d3; apply like_trans]. Qed.

Lemma devdir_like n d d' ns : like n d d' -> devdir d n ns -> devdir d' n ns.
Proof.
  intros (L1 & L2 & L3 & L4) [(nd & D1 & D2) D3 D4]. split.
  - destruct (L4 nd D1) as [l Hl]. by eexists.
  - by rewrite L1.
  - intros m Hm. destruct (D4 m Hm) as (N1 & N2 & nm & N3 & N4). split; [done|]. split; [done|]. exists nm. by rewrite L3.
Qed.

Lemma match_like n d d' name ns : like n d d' -> n ∉ ns -> dev_match d' name ns = dev_match d name ns.
Proof.
  intros (_ & _ & L3 & _). induction ns as [|m ns IH]; intros Hn; [done|]. apply not_elem_of_cons in Hn as [Hm Hn]. cbn [dev_match].
  rewrite (L3 m) by congruence. rewrite IH by done. done.
Qed.

Lemma set_current_like d n nd l : dnodes d !! n = Some nd -> like n d (set_current d n nd l).
Proof.
  intros H. split; [done|]. split; [done|]. split.
  - intros m Hm. unfold set_current, set_nodes. cbn. by rewrite lookup_insert_ne.
  - intros nd' H'. rewrite H in H'. injection H' as <-. exists l. unfold set_current, set_nodes. cbn. by rewrite lookup_insert_eq.
Qed.

(** ** Lookup *)

(** The result of the search from a child on. *)
Definition search_result (a : fattr) (type : Z) (m : option (Z * devfs_node)) : fattr * option (bool * Z) :=
  match m with
  | Some (_, nd) => (FAttr (a_mode a) (a_flags a) (dn_type nd) 1 (a_data_size a) (a_buffer_size a) (dn_dev nd),
                     Some (true, if negb (Z.land (dn_type nd) type =? dn_type nd) then - ENOTDIR else 0))
  | None => (a, Some (false, 0))
  end.
Definition search_state (n : Z) (m : option (Z * devfs_node)) (s' : dev_st) : Prop :=
  match m with Some (m, nd) => dnode s' = m /\ dtype s' = dn_type nd | None => dnode s' = n /\ dtype s' = DT_DIR end.

Lemma word_block l : 0 <= l < 4294967296 -> word_at (le_words (word_bytes l)) 0 = l.
Proof. intros H. pose proof (le_words_bytes [l] ltac:(by constructor)) as E. cbn in E. unfold word_at. cbn. by injection E. Qed.

Lemma devfs_step d n nd front m rest : devdir d n (front ++ m :: rest) -> dnodes d !! n = Some nd -> current_child nd = list_of m ->
  devfs_get_data_block (DevSt d n DT_DIR) VFS_NEXT_BLOCK =
    match rest with [] => Ret (DevSt d n DT_DIR, 0) | m' :: _ => Ret (DevSt (set_current d n nd (list_of m')) n DT_DIR, list_of m') end.
Proof.
  intros [_ D3 D4] Hn Hc. unfold devfs_get_data_block. cbn [dnode ddev dtype]. rewrite Hn. cbn [Z.eqb VFS_NEXT_BLOCK VFS_START_BLOCK DT_DIR Pos.eqb].
  rewrite Hc. rewrite fmap_app in D3. cbn [fmap list_fmap] in D3. unfold list_next. rewrite (dlist_next _ _ _ _ _ D3). destruct rest as [|m' rest]; cbn [list_fmap hd].
  - by rewrite Z.eqb_refl.
  - rewrite (proj2 (Z.eqb_neq _ _)); [done|]. destruct D3 as [D3 _]. apply NoDup_cons in D3 as [D3 _]. intros E. apply D3. rewrite <- E.
    apply elem_of_app. right. right. left.
Qed.

Lemma find_children name type rest : forall front m d n nd fuel a, devdir d n (front ++ m :: rest) -> dnodes d !! n = Some nd ->
  current_child nd = list_of m -> (length rest < fuel)%nat -> Z.of_nat (length name) <= 31 ->
  exists s', find_in_blocks fuel (DevSt d n DT_DIR) a type name (list_of m) =
      Ret (s', fst (search_result a type (dev_match d name (m :: rest))), snd (search_result a type (dev_match d name (m :: rest)))) /\
    search_state n (dev_match d name (m :: rest)) s' /\ like n d (ddev s').
Proof.
  induction rest as [|m' rest IH]; intros front m d n nd fuel a D Hn Hc Hf Hl; (destruct fuel as [|fuel]; [simpl in Hf; lia|]);
    destruct (dd_nodes d n _ D m) as (Hmn & Hm & nm & Enm & Hnm); try (apply elem_of_app; right; left);
    cbn [find_in_blocks read_block devfs_ops]; unfold devfs_read_block at 1; cbn [find_file devfs_dir]; unfold devfs_find_file at 1;
    rewrite word_block by lia; (replace (node_at (list_of m)) with m by (unfold node_at, list_of; lia)); cbn [ddev]; rewrite Enm; cbn [dev_match]; rewrite Enm;
    (destruct (is_prefix name (dn_name nm)) eqn:Ep; [unfold devfs_fill_fnode; cbv beta iota zeta; rewrite ret_bind; eexists; split; [done|]; split; [done|apply like_refl]|]);
    rewrite (proj2 (Z.ltb_ge 31 _)) by lia; cbn [andb]; rewrite ret_bind; cbn [Z.eqb];
    change (- ENOENT =? 0) with false; cbv iota; cbn [get_data_block devfs_ops]; rewrite (devfs_step d n nd front m _ D Hn Hc), Ret_bind.
  - cbn [Z.eqb]. eexists. split; [done|]. split; [done|apply like_refl].
  - destruct (dd_nodes d n _ D m') as (_ & Hm' & _); [apply elem_of_app; right; right; left|]. rewrite (proj2 (Z.eqb_neq (list_of m') 0)) by lia.
    pose proof (set_current_like d n nd (list_of m') Hn) as L. set (d1 := set_current d n nd (list_of m')) in *.
    destruct (IH (front ++ [m]) m' d1 n (DevfsNode (dn_type nd) (dn_dev nd) (dn_name nd) (nr_child nd) (list_of m')) fuel a) as (s' & E & S & L'); try done.
    { rewrite <- app_assoc. by apply (devdir_like n d). } { unfold d1, set_current, set_nodes. cbn. by rewrite lookup_insert_eq. } { simpl in Hf. lia. }
    assert (Hin : n ∉ m' :: rest). { intros Hin. destruct (dd_nodes d n _ D n) as [H _]; [apply elem_of_app; right; by right|done]. }
    rewrite (match_like n d d1 name (m' :: rest) L Hin) in E, S. exists s'. split; [exact E|]. split; [exact S|by transitivity d1].
Qed.

Lemma devfs_start d n nd ns : devdir d n ns -> dnodes d !! n = Some nd ->
  devfs_get_data_block (DevSt d n DT_DIR) VFS_START_BLOCK =
    match ns with [] => Ret (DevSt d n DT_DIR, 0) | m :: _ => Ret (DevSt (set_current d n nd (list_of m)) n DT_DIR, list_of m) end.
Proof.
  intros [_ D3 _] Hn. unfold devfs_get_data_block. cbn [dnode ddev dtype]. rewrite Hn. change (VFS_START_BLOCK =? VFS_START_BLOCK) with true.
  change (DT_DIR =? DT_DIR) with true. cbv iota zeta. unfold list_next. rewrite (dlist_first _ _ _ D3). destruct ns as [|m ns]; cbn [fmap list_fmap hd] in *.
  - by rewrite Z.eqb_refl.
  - rewrite (proj2 (Z.eqb_neq _ _)); [done|]. destruct D3 as [D3 _]. apply NoDup_cons in D3 as [D3 _]. intros E. apply D3. rewrite <- E. left.
Qed.

(** What a lookup of one part in a directory that is not empty gives. *)
Definition dev_found (a : fattr) (m : option (Z * devfs_node)) (flag : Z) : fattr * Z :=
  match m with
  | Some (_, nd) => (FAttr (a_mode a) (a_flags a) (dn_type nd) 1 (a_data_size a) (a_buffer_size a) (dn_dev nd),
                     if negb (Z.land (dn_type nd) (part_type flag []) =? dn_type nd) then - ENOTDIR else 0)
  | None => (a, - ENOENT)
  end.

Lemma lookup_dev d n m ns name fuel fuelb nb a flag : devdir d n (m :: ns) -> part_ok name -> Z.of_nat (length name) <= 31 ->
  (length ns < fuelb)%nat ->
  exists s', lookup_loop (S fuel) fuelb nb (DevSt d n DT_DIR) a flag false name =
      Ret (nb, s', fst (dev_found a (dev_match d name (m :: ns)) flag), snd (dev_found a (dev_match d name (m :: ns)) flag), true) /\
    search_state n (dev_match d name (m :: ns)) s' /\ like n d (ddev s').
Proof.
  intros D Hp Hl Hf. destruct (dd_dir d n _ D) as (nd & Hn & Ht). pose proof (set_current_like d n nd (list_of m) Hn) as L.
  assert (Hin : n ∉ m :: ns). { intros Hin. by destruct (dd_nodes d n _ D n Hin) as [H _]. }
  destruct (find_children name (part_type flag []) ns [] m (set_current d n nd (list_of m)) n
    (DevfsNode (dn_type nd) (dn_dev nd) (dn_name nd) (nr_child nd) (list_of m)) fuelb a) as (s' & E & S & L'); try done.
  { by apply (devdir_like n d). } { unfold set_current, set_nodes. cbn. by rewrite lookup_insert_eq. }
  destruct (dd_nodes d n _ D m ltac:(left)) as (_ & Hm & _). rewrite (match_like n d _ name (m :: ns) L Hin) in E, S.
  exists s'. split; [|split; [done|by transitivity (set_current d n nd (list_of m))]].
  change name with (join [name]) at 1. cbn [lookup_loop]. rewrite (find_name_join name [] Hp ltac:(done)). cbn [get_data_block devfs_ops].
  rewrite (devfs_start d n nd _ D Hn), Ret_bind, (part_short name Hp), (proj2 (Z.eqb_neq (list_of m) 0)) by lia.
  cbn [parse_name devfs_dir]. rewrite ret_bind. change (join []) with (@nil Z). rewrite E, Ret_bind. clear E S.
  destruct (dev_match d name (m :: ns)) as [[m' nd']|]; cbn [search_result dev_found fst snd]; [|done].
  destruct (negb (Z.land (dn_type nd') (part_type flag []) =? dn_type nd')) eqn:Et; [done|]. cbn. by destruct fuel.
Qed.

(** With a buffer free, the lookup of a name in a directory of devfs gives the first
    node of the directory whose name starts with it: its device number and type, or
    ENOTDIR when the type is not the one asked for.  When there is none the error is
    ENOENT, and ENOSPC in an empty directory.  Nothing in devfs changes but the place the
    directory has reached, and the buffer is given back unless the directory is empty. *)
Theorem devfs_lookup d n ns name fuel fuelb nb k a flag (D : devdir d n ns) (Hp : part_ok name) (Hl : Z.of_nat (length name) <= 31)
    (Hf : (length ns < fuelb)%nat) (Hk : 0 <= k < 8) (Hfree : read_bit nb iname_buffer k = 0) :
  exists nb' s', __get_file_fnode (S fuel) fuelb nb (DevSt d n DT_DIR) a flag name =
      Ret (nb', s', fst (dev_found a (dev_match d name ns) flag), match ns with [] => - ENOSPC | _ => snd (dev_found a (dev_match d name ns) flag) end) /\
    search_state n (dev_match d name ns) s' /\ like n d (ddev s') /\
    (ns <> [] -> forall i, 0 <= i < 8 -> read_bit nb' iname_buffer i = read_bit nb iname_buffer i).
Proof.
  destruct (iname_free nb k Hk Hfree) as (nb1 & i & Eg). destruct (iname_get_put nb nb1 i Eg) as (_ & _ & _ & Hput).
  unfold __get_file_fnode. rewrite Eg. destruct ns as [|m ns].
  - exists nb1, (DevSt d n DT_DIR). split; [|done || (split; [done|]; split; [apply like_refl|done])].
    destruct (dd_dir d n _ D) as (nd & Hn & _). change name with (join [name]) at 1. cbn [lookup_loop]. rewrite (find_name_join name [] Hp ltac:(done)).
    cbn [get_data_block devfs_ops]. by rewrite (devfs_start d n nd _ D Hn), Ret_bind, (part_short name Hp).
  - destruct (lookup_dev d n m ns name fuel fuelb nb1 a flag D Hp Hl) as (s' & E & S & L); [simpl in Hf; lia|].
    exists (put_iname_buffer nb1 i), s'. rewrite E, Ret_bind. split; [done|]. split; [done|]. split; [done|]. intros _. exact Hput.
Qed.

(** ** Registration *)

(** [n] is memory for a node outside the directory [p] with the children [ns]. *)
Definition fresh_node (p : Z) (ns : list Z) (n : Z) : Prop :=
  n <> p /\ 0 < list_of n < 4294967296 /\ child_of n ∉ child_of p :: (list_of <$> ns) /\ list_of n ∉ child_of p :: (list_of <$> ns) /\ n ∉ ns.

Lemma init_list_other (h : @lheap Z) n head xs : n ∉ head :: xs -> dlist h head xs -> dlist (init_list h n) head xs.
Proof.
  intros Hn. apply dlist_frame. intros u Hu. assert (u <> n) by (intros ->; done). unfold init_list. cbn. by rewrite !decide_False by congruence.
Qed.

Lemma name31_length name : length (name31 name) = 31%nat.
Proof. unfold name31. rewrite length_take, length_app, length_replicate. lia. Qed.

(** A node that is made and entered is the last of its directory. *)
Lemma create_entry_devdir d p ns n nd : p <> 0 -> devdir d p ns -> fresh_node p ns n -> length (dn_name nd) = 31%nat ->
  exists d', devfs_create_entry (new_node d n nd) (if decide (p = root d) then 0 else p) n = Ret (d', 0) /\
    devdir d' p (ns ++ [n]) /\ root d' = root d /\ dnodes d' !! n = Some nd /\
    (forall m, m ∈ ns -> dnodes d' !! m = dnodes d !! m).
Proof.
  intros Hp0 [(pd & P1 & P2) D3 D4] (F1 & F2 & F3 & F4 & F5) Hnm. unfold devfs_create_entry.
  assert (Hr : (if (if decide (p = root d) then 0 else p) =? 0 then root (new_node d n nd) else if decide (p = root d) then 0 else p) = p).
  { destruct (decide (p = root d)) as [->|]; [done|]. by rewrite (proj2 (Z.eqb_neq p 0)). }
  rewrite Hr. cbn [new_node dnodes dheap root]. rewrite lookup_insert_ne by congruence. rewrite P1, P2. cbn [negb Z.eqb]. rewrite Z.eqb_refl. cbn [negb].
  eexists. split; [reflexivity|]. split; [split|]; cbn [dnodes dheap root].
  - eexists. rewrite lookup_insert_eq. done.
  - rewrite fmap_app. apply list_add_tail_dlist; [|done]. do 2 (apply init_list_other; [done|]). done.
  - intros m Hm. apply elem_of_app in Hm as [Hm|Hm%list_elem_of_singleton].
    + destruct (D4 m Hm) as (N1 & N2 & N3). split; [done|]. split; [done|]. rewrite !lookup_insert_ne by (congruence || (intros ->; done)). done.
    + subst m. split; [done|]. split; [done|]. exists nd. rewrite lookup_insert_ne, lookup_insert_eq by congruence. done.
  - split; [done|]. split; [by rewrite lookup_insert_ne, lookup_insert_eq by congruence|].
    intros m Hm. destruct (D4 m Hm) as (N1 & _). rewrite !lookup_insert_ne by (congruence || (intros ->; done)). done.
Qed.

Lemma match_app d d' name ns n nd : (forall m, m ∈ ns -> dnodes d' !! m = dnodes d !! m) -> dnodes d' !! n = Some nd ->
  is_prefix name (dn_name nd) = true -> dev_match d name ns = None -> dev_match d' name (ns ++ [n]) = Some (n, nd).
Proof.
  intros He Hn Hp. induction ns as [|m ns IH]; cbn [dev_match app].
  - intros _. by rewrite Hn, Hp.
  - rewrite (He m) by left. intros H. destruct (dnodes d !! m) as [md|]; [destruct (is_prefix name (dn_name md)); [done|]|];
      (apply IH; [intros x Hx; apply He; by right|done]).
Qed.

Lemma name31_prefix name : Z.of_nat (length name) <= 31 -> is_prefix name (name31 name) = true.
Proof.
  intros H. unfold name31. replace (take 31 (name ++ replicate 31 0)) with (name ++ replicate (31 - length name) 0).
  - clear H. generalize (replicate (31 - length name) 0). induction name as [|c name IH]; intros r; [done|]. cbn. by rewrite Z.eqb_refl, IH.
  - rewrite take_app_ge by lia. f_equal. symmetry. rewrite take_replicate. f_equal. lia.
Qed.

Definition dev_name (c : device_class) (ds : list Z) : list Z := c_name c ++ reverse ds.

(** A device is registered under the name of its class and its number. *)
Lemma register_device_ok s a dv c ds ns : devs s !! a = Some dv -> d_pnode dv = 0 -> ctable s !! MAJOR (d_dev dv) = Some c ->
  digits_loop 32 (MINOR (d_dev dv)) 10 = Some ds -> Z.of_nat (length ds) <= 4 -> Z.of_nat (length (dev_name c ds)) <= 31 ->
  root (dfs s) <> 0 -> devdir (dfs s) (root (dfs s)) ns -> fresh_node (root (dfs s)) ns (dnode_of a) ->
  exists s', register_device s a = Ret (s', 0) /\ devs s' !! a = Some (Device (d_dev dv) (dev_name c ds) 0) /\
    root (dfs s') = root (dfs s) /\ devdir (dfs s') (root (dfs s)) (ns ++ [dnode_of a]) /\
    dnodes (dfs s') !! dnode_of a = Some (DevfsNode DT_CHR (d_dev dv) (name31 (dev_name c ds)) 0 0) /\
    (forall m, m ∈ ns -> dnodes (dfs s') !! m = dnodes (dfs s) !! m) /\
    ctable s' = <[MAJOR (d_dev dv) := DeviceClass (c_name c) (c_char c) (c_fops c) (a :: c_devices c) (device_nr c + 1)]> (ctable s).
Proof.
  intros Ed Hp Ec Eds Hds Hnl Hr D F. unfold register_device. rewrite Ed, Ec, Eds. cbn [fuelled]. rewrite Ret_bind.
  rewrite (proj2 (Z.ltb_ge 4 _)) by lia. unfold dev_name in Hnl. rewrite length_app, length_reverse in Hnl. rewrite (proj2 (Z.ltb_ge 32 _)) by lia.
  destruct (create_entry_devdir (dfs s) _ ns (dnode_of a) (DevfsNode DT_CHR (d_dev dv) (name31 (dev_name c ds)) 0 0) Hr D F (name31_length _)) as (d' & E & D' & R' & N' & O').
  rewrite decide_True in E by done. unfold init_devfs_node. fold (dev_name c ds). rewrite Hp, E, Ret_bind. eexists. split; [reflexivity|]. cbn [devs dfs ctable].
  rewrite lookup_insert_eq. done.
Qed.

Lemma tty_digits minor : 0 <= minor < TTY_NR -> digits_loop 32 minor 10 = Some [48 + minor].
Proof. unfold TTY_NR. intros H. assert (minor = 0 \/ minor = 1 \/ minor = 2 \/ minor = 3 \/ minor = 4 \/ minor = 5 \/ minor = 6 \/ minor = 7) as Hm by lia.
  repeat (destruct Hm as [->|Hm]; [done|]). by subst.
Qed.

Lemma major_minor major minor : 0 <= minor < 65536 -> MAJOR (MKDEV major minor) = major /\ MINOR (MKDEV major minor) = minor.
Proof.
  intros H. unfold MAJOR, MINOR, MKDEV. split.
  - rewrite Z.shiftr_lor, Z.shiftr_shiftl_l, Z.sub_diag, Z.shiftl_0_r by lia. rewrite (Z.shiftr_div_pow2 minor) by lia.
    change (2 ^ 16) with 65536. rewrite Z.div_small by done. apply Z.lor_0_r.
  - change 0xffff with (Z.ones 16). rewrite Z.land_ones by lia. rewrite <- (Z.land_ones _ 16), Z.land_lor_distr_l, !Z.land_ones by lia.
    rewrite Z.shiftl_mul_pow2, Z.mod_mul by lia. change (2 ^ 16) with 65536. by rewrite Z.mod_small.
Qed.

Definition tty_name (minor : Z) : list Z := ttyS ++ [48 + minor].

Lemma tty_name_ok minor : 0 <= minor < TTY_NR -> part_ok (tty_name minor).
Proof.
  unfold TTY_NR. intros H. split; [done|]. split; [|by cbn; lia]. unfold tty_name, ttyS, slash. cbn. rewrite !elem_of_cons, elem_of_nil. lia.
Qed.

(** Registering a terminal that has operations and a number under eight succeeds: its
    name, ttyS and the number, can then be looked up in devfs, as long as no node that was
    there starts with that name; the lookup gives a character device with the terminal's
    number, and opening that number gives the terminal.  The terminals registered under
    other numbers stay. *)
Theorem register_tty_found s t ty nm minor c ns nb k a fuel fuelb (Ht : ttys_of s !! t = Some ty) (Ho : t_ops ty <> 0)
    (Hd : devs (tdev s) !! t_dev ty = Some (Device (MKDEV TTY_MAJOR minor) nm 0)) (Hmin : 0 <= minor < TTY_NR)
    (Hc : ctable (tdev s) !! TTY_MAJOR = Some c) (Hcn : c_name c = ttyS) (Hlen : length (tty_table s) = Z.to_nat TTY_NR)
    (Hr : root (dfs (tdev s)) <> 0) (D : devdir (dfs (tdev s)) (root (dfs (tdev s))) ns)
    (F : fresh_node (root (dfs (tdev s))) ns (dnode_of (t_dev ty))) (Hno : dev_match (dfs (tdev s)) (tty_name minor) ns = None)
    (Hf : (length ns < fuelb)%nat) (Hk : 0 <= k < 8) (Hfree : read_bit nb iname_buffer k = 0) :
  exists s' nb' st' a', register_tty s t = Ret (s', 0) /\
    __get_file_fnode (S fuel) fuelb nb (fst (devfs_get_root_fnode (dfs (tdev s')))) a 0 (tty_name minor) = Ret (nb', st', a', 0) /\
    a_type a' = DT_CHR /\ a_dev a' = MKDEV TTY_MAJOR minor /\ tty_open s' (a_dev a') = Ret t /\
    forall dev, MINOR dev <> minor -> 0 <= MINOR dev -> tty_open s' dev = tty_open s dev.
Proof.
  destruct (major_minor TTY_MAJOR minor) as [Emaj Emin]; [unfold TTY_NR in Hmin; lia|].
  destruct (register_device_ok (tdev s) (t_dev ty) _ c [48 + minor] ns Hd) as (d' & E & Ed & R' & D' & N' & O' & _); try done.
  { cbn [d_dev]. by rewrite Emaj. } { cbn [d_dev]. rewrite Emin. by apply tty_digits. } { unfold dev_name. by rewrite Hcn. }
  assert (En : dev_name c [48 + minor] = tty_name minor) by (unfold dev_name; by rewrite Hcn). rewrite En in *. cbn [d_dev] in *.
  unfold register_tty. rewrite Ht, (proj2 (Z.eqb_neq (t_ops ty) 0) Ho), E, Ret_bind. cbn [Z.eqb negb]. rewrite Ed. cbn [d_dev d_devname].
  rewrite Emin, (proj2 (Z.ltb_lt minor TTY_NR)) by lia.
  destruct (iname_free nb k Hk Hfree) as (nb1 & i & Eg). pose proof (match_app _ _ _ _ _ _ O' N' (name31_prefix (tty_name minor) ltac:(done)) Hno) as M.
  pose proof (tty_name_ok minor Hmin) as Hpart.
  assert (exists m l, ns ++ [dnode_of (t_dev ty)] = m :: l /\ length l = length ns) as (m & l & El & Hl).
  { destruct ns as [|m ns]; [by eexists _, []|exists m, (ns ++ [dnode_of (t_dev ty)])]. split; [done|]. rewrite length_app. cbn. lia. }
  rewrite El in *. destruct (lookup_dev _ _ _ _ _ fuel fuelb nb1 a 0 D' Hpart ltac:(done)) as (st' & Ef & _); [lia|].
  rewrite M in Ef. eexists _, _, st', _. split; [reflexivity|]. cbn [tdev devfs_get_root_fnode fst]. rewrite R'. unfold __get_file_fnode. rewrite Eg.
  rewrite Ef, Ret_bind. split; [reflexivity|]. cbn [dev_found fst a_type a_dev dn_type dn_dev]. split; [done|]. split; [done|]. unfold tty_open. cbn [tty_table].
  rewrite Emin, (proj2 (Z.ltb_lt minor TTY_NR)) by lia. rewrite list_lookup_insert_eq by (rewrite Hlen; lia). split; [done|].
  intros dev Hne H0. rewrite list_lookup_insert_ne by lia. done.
Qed.

(** ** Examples *)
Module DevDemo.
Definition d0 : devfs := devfs_init (Lheap (fun _ => 0) (fun _ => 0)) 4096.
Definition ts0 : tty_sys := fst (tty_core_init (DevSys ∅ ∅ d0)).
(** A driver allocates a terminal and sets its operations. *)
Definition with_tty (s : tty_sys) (t dev : Z) : tty_sys :=
  let s := fst (allocate_tty s t dev) in
  TtySys (tty_bitmap s) (<[t := Tty dev 5 false]> (ttys_of s)) (tty_table s) (tdev s).
Definition ts1 : tty_sys := with_tty ts0 8192 12288.
Definition ts2 : tty_sys := match register_tty ts1 8192 with Ret (s, _) => s | _ => ts1 end.

Lemma root_empty : devdir d0 4096 [].
Proof.
  split.
  - eexists. split; [apply lookup_singleton_eq|done].
  - apply dlist_init.
  - intros m Hm. by apply elem_of_nil in Hm.
Qed.
Lemma fresh : fresh_node 4096 [] (dnode_of 12288).
Proof. unfold fresh_node, dnode_of, list_of, child_of. rewrite !elem_of_cons, !elem_of_nil. lia. Qed.
End DevDemo.

Lemma register_tty_found_witness : exists s' nb' st' a', register_tty DevDemo.ts1 8192 = Ret (s', 0) /\
  __get_file_fnode 1 1 ∅ (fst (devfs_get_root_fnode (dfs (tdev s')))) (FAttr 0 0 DT_DIR 0 0 4 0) 0 (tty_name 0) = Ret (nb', st', a', 0) /\
  a_type a' = DT_CHR /\ a_dev a' = MKDEV TTY_MAJOR 0 /\ tty_open s' (a_dev a') = Ret 8192 /\
  forall dev, MINOR dev <> 0 -> 0 <= MINOR dev -> tty_open s' dev = tty_open DevDemo.ts1 dev.
Proof.
  apply (register_tty_found DevDemo.ts1 8192 (Tty 12288 5 false) [] 0 (DeviceClass ttyS true tty_fops [] 0) [] ∅ 0 (FAttr 0 0 DT_DIR 0 0 4 0) 0 1);
    try reflexivity; try (vm_compute; congruence); [split; vm_compute; congruence|exact DevDemo.root_empty|exact DevDemo.fresh|vm_compute; lia|lia].
Defined.

Lemma devfs_lookup_witness : exists nb' s', __get_file_fnode 1 1 ∅ (DevSt DevDemo.d0 4096 DT_DIR) (FAttr 0 0 DT_DIR 0 0 4 0) 0 (tty_name 0) =
    Ret (nb', s', FAttr 0 0 DT_DIR 0 0 4 0, - ENOSPC) /\
  search_state 4096 None s' /\ like 4096 DevDemo.d0 (ddev s') /\
  (@nil Z <> [] -> forall i, 0 <= i < 8 -> read_bit nb' iname_buffer i = read_bit ∅ iname_buffer i).
Proof.
  apply (devfs_lookup DevDemo.d0 4096 [] (tty_name 0) 0 1 ∅ 0 (FAttr 0 0 DT_DIR 0 0 4 0) 0);
    [exact DevDemo.root_empty|apply tty_name_ok; vm_compute; by split|vm_compute; congruence|vm_compute; lia|lia|reflexivity].
Defined.

(** The start of a name is enough: "tty" opens ttyS0. *)
Lemma prefix_opens :
  match __get_file_fnode 1 4 ∅ (fst (devfs_get_root_fnode (dfs (tdev DevDemo.ts2)))) (FAttr 0 0 DT_DIR 0 0 4 0) 0 [116; 116; 121] with
  | Ret (_, _, a, err) => (a_dev a, err) = (MKDEV TTY_MAJOR 0, 0)
  | _ => False
  end.
Proof. vm_compute. reflexivity. Qed.

(** Looking a name up in a devfs without nodes keeps the buffer for the name: the ninth
    lookup finds none. *)
Lemma empty_keeps_buffer :
  match __get_file_fnode 1 1 ∅ (fst (devfs_get_root_fnode DevDemo.d0)) (FAttr 0 0 DT_DIR 0 0 4 0) 0 [116] with
  | Ret (nb, _, _, err) => (err, read_bit nb iname_buffer 0) = (- ENOSPC, 1)
  | _ => False
  end.
Proof. vm_compute. reflexivity. Qed.

(** After a device is unregistered its node is still in the list: the next lookup follows a
    pointer into memory that is free. *)
Lemma unregister_leaves_node :
  match unregister_device (tdev DevDemo.ts2) 12288 with
  | Ret (s, 0) => __get_file_fnode 1 4 ∅ (fst (devfs_get_root_fnode (dfs s))) (FAttr 0 0 DT_DIR 0 0 4 0) 0 [120] = Fault
  | _ => False
  end.
Proof. vm_compute. reflexivity. Qed.
