(* ===== verification/File.v ===== *)
(** * Mounted file systems and the files of a task (fs/filesystem.c, fs/mount.c, fs/fnode.c, fs/file.c)

    The disks, the super blocks, the devices and the buffers for names are shared by all open
    files: an operation on a file takes the shared parts from the state and puts them back.
    Memory of new objects comes as an argument, 0 when there is none.  The driver of a
    terminal is not part of the sources: it is a parameter. *)

From S2P Require Import Prelude Bitops Dlist CString Disk Vfs Lmfs Path Fat Devfs.

(** ** Registered file systems *)

Inductive fs_kind := FsLmfs | FsFat | FsDevfs.
Record filesystem := Filesystem { fs_name : list Z; fs_fops : fs_kind }.

Definition lmfs_name : list Z := [108; 109; 102; 115].
Definition msdos_name : list Z := [109; 115; 100; 111; 115].
Definition devfs_name : list Z := [100; 101; 118; 102; 115].
Definition lmfs : filesystem := Filesystem lmfs_name FsLmfs.
Definition fat : filesystem := Filesystem msdos_name FsFat.
Definition devfs_fs : filesystem := Filesystem devfs_name FsDevfs.

(** Every file system of the sources has [fill_super]. *)
Definition register_filesystem (head : list filesystem) (fs : filesystem) : list filesystem * Z := (head ++ [fs], 0).

(** [fs] is left at the last entry when no name fits. *)
Fixpoint lookup_loop_fs (head : list filesystem) (name : list Z) (fs : option filesystem) : option filesystem :=
  match head with
  | [] => fs
  | f :: head => if bool_decide (name = fs_name f) then Some f else lookup_loop_fs head name (Some f)
  end.
Definition lookup_filesystem (head : list filesystem) (name : list Z) : option filesystem := lookup_loop_fs head name None.

(** ** Nodes, super blocks and open files of any file system *)

Inductive any_node := LNode (n : lmfs_fnode) | FNode (n : fat_fnode) | DNode (n type : Z).
Inductive any_sb := LSb (disk : nat) (b : bdev) (s : lmfs_super_block) | FSb (disk : nat) (b : bdev) (s : fat_super_block) | DSb.
Inductive any_vfile := VL (f : vfile lmfs_fnode) | VF (f : vfile fat_fnode) | VD (f : vfile (Z * Z)).

(** [k_sb] is the number of the super block; a terminal has the node that was found only for
    its attributes. *)
Inductive file_body := BVfs (v : any_vfile) | BTty (t : Z).
Record file := KFile { k_flag : Z; k_sb : nat; k_attr : fattr; k_body : file_body }.

Definition vmap {A B} (g : A -> B) (f : vfile A) : vfile B :=
  VFile (g (v_fs f)) (offset f) (rw_pos f) (data_size f) (buffer_size f) (data_buffer f) (current_block f) (blk_cnt f) (ftype f).

(** The functions a driver gives a terminal, on the state of the driver; [get_chars] gives
    the bytes it puts in the buffer and its result. *)
Record tty_operations (D : Type) := TtyOperations {
  drv_open : D -> Z -> D * Z;
  put_chars : D -> Z -> list Z -> D * Z;
  get_chars : D -> Z -> Z -> D * list Z * Z }.
Arguments drv_open {D}.
Arguments put_chars {D}.
Arguments get_chars {D}.

Record kfs (D : Type) := Kfs {
  filesystem_head : list filesystem;
  ks_disks : disk_table;
  ks_sbs : list any_sb;
  mount_tree : option (mount_point * list mount_point);
  ks_tty : tty_sys;
  ks_names : gmap Z Z;
  ks_files : gmap Z file;
  ks_drv : D }.
Arguments Kfs {D}.
Arguments filesystem_head {D}.
Arguments ks_disks {D}.
Arguments ks_sbs {D}.
Arguments mount_tree {D}.
Arguments ks_tty {D}.
Arguments ks_names {D}.
Arguments ks_files {D}.
Arguments ks_drv {D}.

Section Files.
Context {D : Type} (drv : tty_operations D).

Definition set_names (g : kfs D) (nb : gmap Z Z) : kfs D :=
  Kfs (filesystem_head g) (ks_disks g) (ks_sbs g) (mount_tree g) (ks_tty g) nb (ks_files g) (ks_drv g).
Definition set_files (g : kfs D) (fs : gmap Z file) : kfs D :=
  Kfs (filesystem_head g) (ks_disks g) (ks_sbs g) (mount_tree g) (ks_tty g) (ks_names g) fs (ks_drv g).
Definition set_drv (g : kfs D) (d : D) : kfs D :=
  Kfs (filesystem_head g) (ks_disks g) (ks_sbs g) (mount_tree g) (ks_tty g) (ks_names g) (ks_files g) d.
Definition set_data (dk : disk) (d : sectors) : disk :=
  Disk (d_name dk) d (d_bdev dk) (blk_n_sectors dk) (partitions dk) (d_sector_size dk) (d_sector_nr dk).
(** What is shared, after an operation. *)
Definition set_shared (g : kfs D) (i : nat) (sb : any_sb) (disks : disk_table) : kfs D :=
  Kfs (filesystem_head g) disks (<[i := sb]> (ks_sbs g)) (mount_tree g) (ks_tty g) (ks_names g) (ks_files g) (ks_drv g).
Definition set_devfs (g : kfs D) (d : devfs) : kfs D :=
  let t := ks_tty g in
  Kfs (filesystem_head g) (ks_disks g) (ks_sbs g) (mount_tree g)
    (TtySys (tty_bitmap t) (ttys_of t) (tty_table t) (DevSys (ctable (tdev t)) (devs (tdev t)) d)) (ks_names g) (ks_files g) (ks_drv g).

(** An operation of a file system on the node [n] of the super block [i]. *)
Definition with_node {A} (g : kfs D) (i : nat) (n : any_node)
    (op : forall FS (ops : FsOps FS) (dir : FsDir FS), FS -> outcome (FS * A)) : outcome (kfs D * any_node * A) :=
  match ks_sbs g !! i, n with
  | Some (LSb k b s), LNode n =>
    match ks_disks g !! k with
    | None => Fault
    | Some dk =>
      '(s, r) ← op lmfs_st lmfs_ops lmfs_dir (LmfsSt (d_data dk) b s n);
      mret (set_shared g i (LSb k b (lsb s)) (<[k := set_data dk (ldisk s)]> (ks_disks g)), LNode (lnode s), r)
    end
  | Some (FSb k b s), FNode n =>
    match ks_disks g !! k with
    | None => Fault
    | Some dk =>
      '(s, r) ← op fat_st fat_ops fat_dir (FatSt (d_data dk) b s n);
      mret (set_shared g i (FSb k b (fsb s)) (<[k := set_data dk (fdisk s)]> (ks_disks g)), FNode (ffnode s), r)
    end
  | Some DSb, DNode n t =>
    '(s, r) ← op dev_st devfs_ops devfs_dir (DevSt (dfs (tdev (ks_tty g))) n t);
    mret (set_devfs g (ddev s), DNode (dnode s) (dtype s), r)
  | _, _ => Fault
  end.

(** The same for an open file. *)
Definition node_of (v : any_vfile) : any_node :=
  match v with VL f => LNode (v_fs f) | VF f => FNode (v_fs f) | VD f => DNode (fst (v_fs f)) (snd (v_fs f)) end.
Definition with_vfs {A} (g : kfs D) (i : nat) (v : any_vfile)
    (op : forall FS (ops : FsOps FS), vfile FS -> outcome (vfile FS * A)) : outcome (kfs D * any_vfile * A) :=
  match ks_sbs g !! i, v with
  | Some (LSb k b s), VL f =>
    match ks_disks g !! k with
    | None => Fault
    | Some dk =>
      '(f, r) ← op lmfs_st lmfs_ops (vmap (LmfsSt (d_data dk) b s) f);
      mret (set_shared g i (LSb k b (lsb (v_fs f))) (<[k := set_data dk (ldisk (v_fs f))]> (ks_disks g)), VL (vmap lnode f), r)
    end
  | Some (FSb k b s), VF f =>
    match ks_disks g !! k with
    | None => Fault
    | Some dk =>
      '(f, r) ← op fat_st fat_ops (vmap (FatSt (d_data dk) b s) f);
      mret (set_shared g i (FSb k b (fsb (v_fs f))) (<[k := set_data dk (fdisk (v_fs f))]> (ks_disks g)), VF (vmap ffnode f), r)
    end
  | Some DSb, VD f =>
    '(f, r) ← op dev_st devfs_ops (vmap (fun n => DevSt (dfs (tdev (ks_tty g))) (fst n) (snd n)) f);
    mret (set_devfs g (ddev (v_fs f)), VD (vmap (fun s => (dnode s, dtype s)) f), r)
  | _, _ => Fault
  end.

(** ** Names *)

Definition root_fnode (g : kfs D) (i : nat) : option (any_node * fattr) :=
  match ks_sbs g !! i with
  | Some (LSb _ _ _) => let '(n, a) := lmfs_get_root_fnode in Some (LNode n, a)
  | Some (FSb _ _ s) => let '(n, a) := fat_get_root_fnode s in Some (FNode n, a)
  | Some DSb => let '(s, a) := devfs_get_root_fnode (dfs (tdev (ks_tty g))) in Some (DNode (dnode s) (dtype s), a)
  | None => None
  end.

(** [fuelb] bounds the blocks of a directory; before anything is mounted the tree is a null
    pointer. *)
Definition get_file_fnode (fuelb : nat) (g : kfs D) (name : list Z) (flag : Z) : outcome (kfs D * option (nat * any_node * fattr)) :=
  match mount_tree g with
  | None => if check_file_name name =? 0 then Fault else mret (g, None)
  | Some tree =>
    r ← resolve tree name;
    match r with
    | None => mret (g, None)
    | Some (mnt, real) =>
      let i := Z.to_nat (mnt_sb mnt) in
      match root_fnode g i with
      | None => Fault
      | Some (n, a) =>
        '(g, n, r) ← with_node g i n (fun FS ops dir s =>
           '(nb, s, a) ← _get_file_fnode (S (length name)) fuelb (ks_names g) s a flag real; mret (s, (nb, a)));
        let '(nb, a) := r : gmap Z Z * option fattr in
        mret (set_names g nb, match a with Some a => Some (i, n, a) | None => None end)
      end
    end
  end.

(** ** Mounting *)

Definition O_RDWR : Z := 2.
Definition MS_NODEV : Z := 4.

Definition _sys_access (fuelb : nat) (g : kfs D) (name : list Z) (flag : Z) : outcome (kfs D * Z) :=
  '(g, f) ← get_file_fnode fuelb g name flag;
  match f with None => mret (g, - ENODEV) | Some _ => mret (g, 0) end.

(** The super block of a device; [None] stands for a device that is not there. *)
Definition fill_super (g : kfs D) (dev : option (nat * bdev)) (fs : fs_kind) : outcome (any_sb + Z) :=
  match fs, dev with
  | FsDevfs, _ => mret (inl DSb)
  | FsLmfs, Some (k, b) =>
    match ks_disks g !! k with
    | None => Fault
    | Some dk => match lmfs_fill_super (d_data dk) b with inl s => mret (inl (LSb k b s)) | inr err => mret (inr err) end
    end
  | FsFat, Some (k, b) =>
    match ks_disks g !! k with
    | None => Fault
    | Some dk => r ← fat_fill_super (d_data dk) b; match r with inl s => mret (inl (FSb k b s)) | inr err => mret (inr err) end
    end
  | _, None => Fault
  end.

(** The directory mounted on is only looked up when it is not the root. *)
Definition do_mount (fuelb : nat) (g : kfs D) (dev : option (nat * bdev)) (path : list Z) (fs : filesystem) : outcome (kfs D * Z) :=
  '(g, err) ← if bool_decide (path = [slash]) then mret (g, 0) else _sys_access fuelb g path O_DIRECTORY;
  if negb (err =? 0) then mret (g, - ENOENT)
  else
    r ← fill_super g dev (fs_fops fs);
    match r with
    | inr err => mret (g, err)
    | inl sb =>
      mret (Kfs (filesystem_head g) (ks_disks g) (ks_sbs g ++ [sb]) (add_mount (mount_tree g) (Mount path (Z.of_nat (length (ks_sbs g)))))
              (ks_tty g) (ks_names g) (ks_files g) (ks_drv g), 0)
    end.

(** "/dev/disk" and two digits around a p; behind the end of a shorter name there is zero. *)
Definition dev_disk : list Z := [47; 100; 101; 118; 47; 100; 105; 115; 107].
Definition get_bdev_by_name (t : disk_table) (name : list Z) : option (nat * bdev) :=
  if negb (is_prefix dev_disk name) then None
  else if negb (default 0 (name !! 10%nat) =? 112) then None
  else
    let major := u8 (default 0 (name !! 9%nat) - 48) in
    let minor := u8 (default 0 (name !! 11%nat) - 48) in
    '(_, b) ← disk_get_bdev t major minor;
    Some (Z.to_nat major, b).

Definition sys_mount (fuelb : nat) (g : kfs D) (dev_path path fs : list Z) (flag : Z) : outcome (kfs D * Z) :=
  let mount dev :=
    match lookup_filesystem (filesystem_head g) fs with
    | None => mret (g, - ENOENT)
    | Some f => do_mount fuelb g dev path f
    end in
  if Z.land flag MS_NODEV =? 0 then
    match get_bdev_by_name (ks_disks g) dev_path with
    | None => mret (g, - ENODEV)
    | Some b => mount (Some b)
    end
  else mount None.

Definition mount_root (fuelb : nat) (g : kfs D) (dev_path path fs : list Z) (flag : Z) : outcome (kfs D * Z) := sys_mount fuelb g dev_path path fs flag.

(** "/dev/disk0p0". *)
Definition disk0p0 : list Z := dev_disk ++ [48; 112; 48].
Definition slash_dev : list Z := [47; 100; 101; 118].
Definition mount_init (fuelb : nat) (g : kfs D) : outcome (kfs D) :=
  let g := Kfs (filesystem_head g) (ks_disks g) (ks_sbs g) None (ks_tty g) (ks_names g) (ks_files g) (ks_drv g) in
  '(g, err) ← mount_root fuelb g disk0p0 [slash] lmfs_name 0;
  if err =? 0 then '(g, _) ← sys_mount fuelb g devfs_name slash_dev devfs_name MS_NODEV; mret g else mret g.

(** ** Opening and closing *)

Definition vfile_of {N} (n : N) (a : fattr) : vfile N :=
  VFile n 0 0 (a_data_size a) (a_buffer_size a) [] 0 (a_blk_cnt a) (a_type a).
Definition new_vfile (n : any_node) (a : fattr) : any_vfile :=
  match n with LNode n => VL (vfile_of n a) | FNode n => VF (vfile_of n a) | DNode n t => VD (vfile_of (n, t) a) end.

Definition file_of_addr (g : kfs D) (f : Z) : outcome file := match ks_files g !! f with Some k => mret k | None => Fault end.
Definition set_file (g : kfs D) (f : Z) (k : file) : kfs D := set_files g (<[f := k]> (ks_files g)).
Definition set_body (k : file) (b : file_body) : file := KFile (k_flag k) (k_sb k) (k_attr k) b.

(** Terminals have no function to close them, so nothing is released. *)
Definition release_file (g : kfs D) (f : Z) : outcome (kfs D) :=
  k ← file_of_addr g f;
  match k_body k with BVfs _ => mret (set_files g (delete f (ks_files g))) | BTty _ => mret g end.

(** [f] is the memory of the file.  The sources have one class of character devices, the
    terminals. *)
Definition __sys_open (fuelb : nat) (g : kfs D) (f : Z) (name : list Z) (flag : Z) : outcome (kfs D * Z) :=
  '(g, r) ← get_file_fnode fuelb g name flag;
  match r with
  | None => mret (g, 0)
  | Some (i, n, a) =>
    if f =? 0 then mret (g, 0)
    else if a_type a =? DT_CHR then
      fops ← get_device_fops (tdev (ks_tty g)) (a_dev a);
      if negb (fops =? tty_fops) then Fault
      else
        t ← tty_open (ks_tty g) (a_dev a);
        let '(d, err) := drv_open drv (ks_drv g) t in
        let g := set_drv g d in
        let g := set_file g f (KFile flag i a (BTty t)) in
        if negb (err =? 0) then mret (g, 0) else mret (g, f)
    else
      '(g, v, err) ← with_vfs g i (new_vfile n a) (fun FS ops v => vfs_open v);
      let g := set_file g f (KFile flag i a (BVfs v)) in
      if negb (err =? 0) then g ← release_file g f; mret (g, 0) else mret (g, f)
  end.

Definition _sys_open (fuelb : nat) (g : kfs D) (d : file_desc) (f : Z) (name : list Z) (flag : Z) : outcome (kfs D * file_desc * Z) :=
  match zfirst (Z.to_nat FILE_OPENS) 0 (fun i => word_at (file_open d) i =? 0) with
  | None => mret (g, d, - EMFILE)
  | Some _ =>
    '(g, f) ← __sys_open fuelb g f name flag;
    let '(d, r) := Path._sys_open d f in mret (g, d, r)
  end.

Definition _sys_close (g : kfs D) (d : file_desc) (fd : Z) : outcome (kfs D * file_desc * Z) :=
  f ← fd_to_file d fd;
  if f =? 0 then mret (g, d, - ENOENT)
  else
    g ← release_file g f;
    '(d, r) ← Path._sys_close d fd;
    mret (g, d, r).

(** ** Transfers *)

Definition kernel_read (g : kfs D) (f : Z) (m : bmem) (buffer size : Z) : outcome (kfs D * bmem * Z) :=
  k ← file_of_addr g f;
  match k_body k with
  | BVfs v =>
    '(g, v, r) ← with_vfs g (k_sb k) v (fun FS ops v => '(v, m, r) ← vfs_read v m buffer size; mret (v, (m, r)));
    mret (set_file g f (set_body k (BVfs v)), fst r, snd r)
  | BTty t =>
    let '(d, bytes, r) := get_chars drv (ks_drv g) t size in
    mret (set_drv g d, put_bytes m buffer bytes, r)
  end.

Definition kernel_write (g : kfs D) (f : Z) (m : bmem) (buffer size : Z) : outcome (kfs D * Z) :=
  k ← file_of_addr g f;
  match k_body k with
  | BVfs v =>
    '(g, v, r) ← with_vfs g (k_sb k) v (fun FS ops v => vfs_write v m buffer size);
    mret (set_file g f (set_body k (BVfs v)), r)
  | BTty t =>
    let '(d, r) := put_chars drv (ks_drv g) t (read_bytes m buffer (Z.to_nat size)) in
    mret (set_drv g d, r)
  end.

(** A terminal has no function to seek, to map or to close. *)
Definition kernel_seek (g : kfs D) (f off whence : Z) : outcome (kfs D * Z) :=
  k ← file_of_addr g f;
  match k_body k with
  | BVfs v =>
    '(g, v, r) ← with_vfs g (k_sb k) v (fun FS ops v => vfs_seek v off whence);
    mret (set_file g f (set_body k (BVfs v)), r)
  | BTty _ => Fault
  end.
Definition kernel_close (g : kfs D) (f : Z) : outcome (kfs D * Z) :=
  k ← file_of_addr g f;
  match k_body k with BVfs _ => mret (set_files g (delete f (ks_files g)), 0) | BTty _ => Fault end.

Definition _sys_read (g : kfs D) (d : file_desc) (m : bmem) (fd buffer size : Z) : outcome (kfs D * bmem * Z) :=
  f ← fd_to_file d fd;
  if (size <=? 0) || (f =? 0) then mret (g, m, - EINVAL) else kernel_read g f m buffer size.
Definition _sys_write (g : kfs D) (d : file_desc) (m : bmem) (fd buffer size : Z) : outcome (kfs D * Z) :=
  f ← fd_to_file d fd;
  if (size <=? 0) || (f =? 0) then mret (g, - EINVAL) else kernel_write g f m buffer size.
Definition _sys_seek (g : kfs D) (d : file_desc) (fd off whence : Z) : outcome (kfs D * Z) :=
  f ← fd_to_file d fd;
  if (off <? 0) || (f =? 0) then mret (g, - EINVAL) else kernel_seek g f off whence.
Definition _sys_ioctl (g : kfs D) (d : file_desc) (fd : Z) : outcome Z :=
  f ← fd_to_file d fd; if f =? 0 then mret (- ENOENT) else mret 0.
Definition _sys_fstat (g : kfs D) (d : file_desc) (fd : Z) : outcome Z :=
  f ← fd_to_file d fd; if f =? 0 then mret (- ENOENT) else mret 0.

(** The listing of a terminal fails as that of any file that is not a directory. *)
Definition _sys_getdents (fuel : nat) (g : kfs D) (d : file_desc) (fd count : Z) : outcome (kfs D * list (Z * Z * list Z) * Z) :=
  f ← fd_to_file d fd;
  if f =? 0 then mret (g, [], - ENOENT)
  else
    k ← file_of_addr g f;
    match k_body k with
    | BVfs v =>
      '(g, v, r) ← with_vfs g (k_sb k) v (fun FS ops v => '(v, ds, r) ← vfs_getdents fuel v count; mret (v, (ds, r)));
      mret (set_file g f (set_body k (BVfs v)), fst r, snd r)
    | BTty _ => mret (g, [], - ENOTDIR)
    end.

(** The members of [struct stat] that come from the node and are not zero. *)
Record stat := Stat { st_dev : Z; st_mode : Z; st_size : Z; st_blocks : Z }.
Definition _sys_stat (fuelb : nat) (g : kfs D) (f : Z) (path : list Z) : outcome (kfs D * option stat * Z) :=
  '(g, f) ← __sys_open fuelb g f path 0;
  if f =? 0 then mret (g, None, - ENOENT)
  else
    k ← file_of_addr g f;
    let a := k_attr k in
    '(g, _) ← kernel_close g f;
    mret (g, Some (Stat (a_dev a) (a_mode a) (a_data_size a) (a_blk_cnt a)), 0).

Definition fmmap (g : kfs D) (d : file_desc) (m : bmem) (fd buffer size off : Z) : outcome (kfs D * bmem * Z) :=
  f ← fd_to_file d fd;
  if f =? 0 then mret (g, m, - ENOENT)
  else
    k ← file_of_addr g f;
    match k_body k with
    | BVfs v =>
      '(g, v, r) ← with_vfs g (k_sb k) v (fun FS ops v => '(v, m, r) ← vfs_mmap v m buffer size off; mret (v, (m, r)));
      mret (set_file g f (set_body k (BVfs v)), fst r, snd r)
    | BTty _ => Fault
    end.
Definition fmsync (g : kfs D) (d : file_desc) (m : bmem) (fd buffer size off : Z) : outcome (kfs D * Z) :=
  f ← fd_to_file d fd;
  if f =? 0 then mret (g, - ENOENT)
  else
    k ← file_of_addr g f;
    match k_body k with
    | BVfs v =>
      '(g, v, r) ← with_vfs g (k_sb k) v (fun FS ops v => vfs_msync v m buffer size off);
      mret (set_file g f (set_body k (BVfs v)), r)
    | BTty _ => Fault
    end.

(** ** Descriptors of a task *)

(** The open files and the current directory; the name has 256 bytes. *)
Record task_files := TaskFiles { tf_desc : file_desc; cdir : option (nat * any_node * fattr); cdir_name : list Z }.

Definition home_root : list Z := [47; 104; 111; 109; 101; 47; 114; 111; 111; 116].
Definition dev_ttyS0 : list Z := [47; 100; 101; 118; 47; 116; 116; 121; 83; 48].

(** [f0], [f1] and [f2] are the memory of the three files; that of the table is there.  The
    number of open files is 3 even where one could not be opened. *)
Definition alloc_and_init_file_desc (fuelb : nat) (g : kfs D) (p : option task_files) (f0 f1 f2 : Z) : outcome (kfs D * task_files) :=
  '(g, f0) ← __sys_open fuelb g f0 dev_ttyS0 O_RDWR;
  '(g, f1) ← __sys_open fuelb g f1 dev_ttyS0 O_RDWR;
  '(g, f2) ← __sys_open fuelb g f2 dev_ttyS0 O_RDWR;
  let name := match p with Some p => cdir_name p | None => home_root end in
  '(g, c) ← get_file_fnode fuelb g name (Z.lor O_RDWR O_DIRECTORY);
  mret (g, TaskFiles (FileDesc 3 (<[2%nat := f2]> (<[1%nat := f1]> (<[0%nat := f0]> (file_open zero_desc))))) c name).

(** The two [kfree] at the end are left out: the first is given a place inside the table. *)
Definition release_task_file_desc (g : kfs D) (d : file_desc) : outcome (kfs D) :=
  foldl (fun g f => g ← g; if f =? 0 then mret g else release_file g f) (mret g) (file_open d).

Definition sys_chdir (fuelb : nat) (g : kfs D) (t : task_files) (path : list Z) : outcome (kfs D * task_files * Z) :=
  if bool_decide (path = cdir_name t) && bool_decide (is_Some (cdir t)) then mret (g, t, 0)
  else
    '(g, c) ← get_file_fnode fuelb g path (Z.lor O_RDWR O_DIRECTORY);
    match c with
    | None => mret (g, TaskFiles (tf_desc t) None (cdir_name t), - ENOENT)
    | Some c => if 255 <? Z.of_nat (length path) then Fault else mret (g, TaskFiles (tf_desc t) (Some c) path, 0)
    end.
End Files.
