(* ===== verification/FileSpec.v ===== *)
(** * Correctness of mounts and descriptors (fs/mount.c, fs/fnode.c, fs/file.c)

    Every descriptor of every task leads to an open file of its own, on a super block of the
    file system the file is from; system calls in any order keep that, and a call on one
    file leaves the others as they are. *)

From S2P Require Import Prelude Bitops Dlist CString Disk Vfs VfsSpec Lmfs LmfsSpec Path PathSpec Mklmfs MklmfsSpec MklmfsTree MklmfsMount Fat Devfs DevfsSpec File.

(** ** Types of nodes and files *)

Definition sb_node (sb : any_sb) (n : any_node) : Prop :=
  match sb, n with LSb _ _ _, LNode _ | FSb _ _ _, FNode _ | DSb, DNode _ _ => True | _, _ => False end.
Definition sb_vfile (sb : any_sb) (v : any_vfile) : Prop := sb_node sb (node_of v).

Section Typing.
Context {D : Type}.
Implicit Types g : kfs D.

Definition sb_ok g (sb : any_sb) : Prop :=
  match sb with LSb k _ _ | FSb k _ _ => (k < length (ks_disks g))%nat | DSb => True end.

Definition mounts_of g : list mount_point := match mount_tree g with Some (r, ms) => r :: ms | None => [] end.

Definition file_ok g (k : file) : Prop :=
  match k_body k with BVfs v => exists sb, ks_sbs g !! k_sb k = Some sb /\ sb_vfile sb v | BTty _ => True end.

Record kfs_ok g : Prop := {
  ko_sbs : forall i sb, ks_sbs g !! i = Some sb -> sb_ok g sb;
  ko_tree : forall m, m ∈ mounts_of g -> (Z.to_nat (mnt_sb m) < length (ks_sbs g))%nat;
  ko_files : forall f k, ks_files g !! f = Some k -> file_ok g k }.

(** A place in a table of a task. *)
Definition opened (ds : list file_desc) (i j : nat) (f : Z) : Prop := exists d, ds !! i = Some d /\ file_open d !! j = Some f /\ f <> 0.

Record descs_ok g (ds : list file_desc) : Prop := {
  do_len : forall i d, ds !! i = Some d -> length (file_open d) = Z.to_nat FILE_OPENS;
  do_file : forall i j f, opened ds i j f -> is_Some (ks_files g !! f);
  do_own : forall i j i' j' f, opened ds i j f -> opened ds i' j' f -> i' = i /\ j' = j }.

(** ** Changes that keep the types *)

Definition same_kind (sb sb' : any_sb) : Prop :=
  match sb, sb' with
  | LSb k b _, LSb k' b' _ | FSb k b _, FSb k' b' _ => k' = k /\ b' = b
  | DSb, DSb => True
  | _, _ => False
  end.

Record shape g g' : Prop := {
  sh_tree : mount_tree g' = mount_tree g;
  sh_head : filesystem_head g' = filesystem_head g;
  sh_disks : length (ks_disks g') = length (ks_disks g);
  sh_len : length (ks_sbs g') = length (ks_sbs g);
  sh_sbs : forall i sb', ks_sbs g' !! i = Some sb' -> exists sb, ks_sbs g !! i = Some sb /\ same_kind sb sb' }.

Lemma same_kind_refl sb : same_kind sb sb.
Proof. by destruct sb. Qed.

Lemma same_kind_trans sb1 sb2 sb3 : same_kind sb1 sb2 -> same_kind sb2 sb3 -> same_kind sb1 sb3.
Proof. destruct sb1, sb2, sb3; simpl; try done; intros [-> ->] [-> ->]; done. Qed.

#[export] Instance shape_preorder : PreOrder shape.
Proof.
  split.
  - intros g. split; try done. intros i sb H. exists sb. split; [done|apply same_kind_refl].
  - intros g1 g2 g3 [A1 A2 A3 A4 A5] [B1 B2 B3 B4 B5]. split; try congruence.
    intros i sb3 H. destruct (B5 i sb3 H) as (sb2 & H2 & K2). destruct (A5 i sb2 H2) as (sb1 & H1 & K1). exists sb1. split; [done|by eapply same_kind_trans].
Qed.

Lemma kind_node sb sb' n : same_kind sb sb' -> sb_node sb n -> sb_node sb' n.
Proof. by destruct sb, sb', n. Qed.

Lemma shape_sb g g' i sb : shape g g' -> ks_sbs g !! i = Some sb -> exists sb', ks_sbs g' !! i = Some sb' /\ same_kind sb sb'.
Proof.
  intros [_ _ _ S4 S5] H. destruct (ks_sbs g' !! i) as [sb'|] eqn:E.
  - destruct (S5 i sb' E) as (sb0 & H0 & K). rewrite H in H0. injection H0 as <-. by exists sb'.
  - apply lookup_ge_None in E. apply lookup_lt_Some in H. lia.
Qed.

Lemma shape_file g g' k : shape g g' -> file_ok g k -> file_ok g' k.
Proof.
  intros S. unfold file_ok. destruct (k_body k) as [v|]; [|done]. intros (sb & H & T). destruct (shape_sb g g' _ sb S H) as (sb' & H' & K).
  exists sb'. split; [done|by eapply kind_node].
Qed.

(** The types are kept when the shape is and the new files are right. *)
Lemma shape_ok g g' : shape g g' -> kfs_ok g -> (forall f k, ks_files g' !! f = Some k -> ks_files g !! f = Some k \/ file_ok g' k) -> kfs_ok g'.
Proof.
  intros S [O1 O2 O3] Hf. split.
  - intros i sb' H. destruct (sh_sbs _ _ S i sb' H) as (sb & H0 & K). specialize (O1 i sb H0). unfold sb_ok in *. rewrite (sh_disks _ _ S).
    destruct sb, sb'; simpl in K; try done; destruct K as [-> _]; done.
  - unfold mounts_of. rewrite (sh_tree _ _ S), (sh_len _ _ S). exact O2.
  - intros f k H. destruct (Hf f k H) as [H0|]; [|done]. apply (shape_file g); [done|]. by apply (O3 f).
Qed.

Lemma set_shared_shape g i sb sb' ds : ks_sbs g !! i = Some sb -> same_kind sb sb' -> length ds = length (ks_disks g) -> shape g (set_shared g i sb' ds).
Proof.
  intros H K L. split; try done; cbn [set_shared ks_sbs].
  - apply length_insert.
  - intros j sb0 H0. destruct (decide (i = j)) as [<-|Hne].
    + rewrite list_lookup_insert_eq in H0 by (by apply lookup_lt_Some in H). injection H0 as <-. by exists sb.
    + rewrite list_lookup_insert_ne in H0 by done. exists sb0. split; [done|apply same_kind_refl].
Qed.

Lemma set_devfs_shape g d : shape g (set_devfs g d).
Proof. split; try done. intros i sb H. exists sb. split; [done|apply same_kind_refl]. Qed.

Lemma set_names_shape g nb : shape g (set_names g nb).
Proof. split; try done. intros i sb H. exists sb. split; [done|apply same_kind_refl]. Qed.

Lemma set_files_shape g fs : shape g (set_files g fs).
Proof. split; try done. intros i sb H. exists sb. split; [done|apply same_kind_refl]. Qed.

Lemma set_drv_shape g d : shape g (set_drv g d).
Proof. split; try done. intros i sb H. exists sb. split; [done|apply same_kind_refl]. Qed.
End Typing.

Create HintDb kfs.
#[export] Hint Resolve set_devfs_shape set_names_shape set_files_shape set_drv_shape same_kind_refl : kfs.

(** ** Operations on one file *)

Section Ops.
Context {D : Type} (drv : tty_operations D).
Implicit Types g : kfs D.

Lemma with_vfs_ok {A} g i v op g' v' (r : A) : with_vfs g i v op = Ret (g', v', r) ->
  shape g g' /\ ks_files g' = ks_files g /\ exists sb, ks_sbs g' !! i = Some sb /\ sb_vfile sb v'.
Proof.
  unfold with_vfs. destruct (ks_sbs g !! i) as [[k b s|k b s|]|] eqn:Es; [| |destruct v; [done|done|]|done].
  1,2: destruct v as [f|f|f]; try done; destruct (ks_disks g !! k) as [dk|]; [|done]; intros H; bind_inv; destruct x as [f' r']; injection H as <- <- <-;
    (split; [eapply set_shared_shape; [exact Es|done|apply length_insert]|]); (split; [done|]); eexists; cbn [set_shared ks_sbs];
    (split; [apply list_lookup_insert_eq; by apply lookup_lt_Some in Es|done]).
  - intros H. bind_inv. destruct x as [f' r']. injection H as <- <- <-. split; [auto with kfs|]. split; [done|]. by exists DSb.
Qed.

Lemma with_node_ok {A} g i n op g' n' (r : A) : with_node g i n op = Ret (g', n', r) ->
  shape g g' /\ ks_files g' = ks_files g /\ exists sb, ks_sbs g' !! i = Some sb /\ sb_node sb n'.
Proof.
  unfold with_node. destruct (ks_sbs g !! i) as [[k b s|k b s|]|] eqn:Es; [| |destruct n; [done|done|]|done].
  1,2: destruct n as [f|f|f]; try done; destruct (ks_disks g !! k) as [dk|]; [|done]; intros H; bind_inv; destruct x as [f' r']; injection H as <- <- <-;
    (split; [eapply set_shared_shape; [exact Es|done|apply length_insert]|]); (split; [done|]); eexists; cbn [set_shared ks_sbs];
    (split; [apply list_lookup_insert_eq; by apply lookup_lt_Some in Es|done]).
  - intros H. bind_inv. destruct x as [f' r']. injection H as <- <- <-. split; [auto with kfs|]. split; [done|]. by exists DSb.
Qed.

(** [g'] differs from [g] in the file [f], which is open, and in what is shared. *)
Definition touch g g' (f : Z) : Prop :=
  shape g g' /\ (forall f', f' <> f -> ks_files g' !! f' = ks_files g !! f') /\ exists k, ks_files g' !! f = Some k /\ file_ok g' k.

Lemma vfs_touch {A} g k f v op g1 v' (r : A) : with_vfs g (k_sb k) v op = Ret (g1, v', r) -> touch g (set_file g1 f (set_body k (BVfs v'))) f.
Proof.
  intros (S & Ef & sb & Es & T)%with_vfs_ok. unfold touch, set_file. split; [transitivity g1; [done|apply set_files_shape]|]. cbn [set_files ks_files]. split.
  - intros f' Hne. by rewrite lookup_insert_ne, Ef.
  - eexists. rewrite lookup_insert_eq. split; [done|]. unfold file_ok. cbn. by exists sb.
Qed.

Lemma drv_touch g f k d : kfs_ok g -> ks_files g !! f = Some k -> touch g (set_drv g d) f.
Proof. intros O H. split; [apply set_drv_shape|]. split; [done|]. exists k. split; [done|]. by apply (ko_files g O f). Qed.

Lemma same_touch g f k : kfs_ok g -> ks_files g !! f = Some k -> touch g g f.
Proof. intros O H. split; [reflexivity|]. split; [done|]. exists k. split; [done|]. by apply (ko_files g O f). Qed.

Lemma file_of_addr_Ret g f k : file_of_addr g f = Ret k <-> ks_files g !! f = Some k.
Proof. unfold file_of_addr. destruct (ks_files g !! f) as [k'|]; split; intros H; try done; by injection H as <-. Qed.

Ltac op_touch O :=
  let k := fresh "k" in let Hk := fresh "Hk" in let v := fresh "v" in
  intros H; bind_inv; match goal with Hf : file_of_addr _ _ = Ret ?x |- _ => rename x into k; apply file_of_addr_Ret in Hf as Hk end;
  destruct (k_body k) as [v|]; [bind_inv; match goal with Hw : with_vfs _ _ _ _ = Ret ?x |- _ => destruct x as [[? ?] ?]; bind_inv; subst; by eapply vfs_touch end|].

Lemma kernel_read_touch g f m buffer size g' m' r : kfs_ok g -> kernel_read drv g f m buffer size = Ret (g', m', r) -> touch g g' f.
Proof. intros O. unfold kernel_read. op_touch O. destruct (get_chars drv (ks_drv g) t size) as [[d bytes] r']. injection H as <- _ _. by eapply drv_touch. Qed.

Lemma kernel_write_touch g f m buffer size g' r : kfs_ok g -> kernel_write drv g f m buffer size = Ret (g', r) -> touch g g' f.
Proof. intros O. unfold kernel_write. op_touch O. destruct (put_chars drv (ks_drv g) t _) as [d r']. injection H as <- _. by eapply drv_touch. Qed.

Lemma kernel_seek_touch g f off whence g' r : kfs_ok g -> kernel_seek g f off whence = Ret (g', r) -> touch g g' f.
Proof. intros O. unfold kernel_seek. op_touch O. done. Qed.

(** ** Names and opening *)

Lemma get_file_fnode_ok fuelb g name flag g' r : get_file_fnode fuelb g name flag = Ret (g', r) ->
  shape g g' /\ ks_files g' = ks_files g /\ forall i n a, r = Some (i, n, a) -> exists sb, ks_sbs g' !! i = Some sb /\ sb_node sb n.
Proof.
  unfold get_file_fnode. destruct (mount_tree g) as [tree|].
  2:{ destruct (_ =? 0); [done|]. intros H. injection H as <- <-. split; [reflexivity|]. by split. }
  intros H. bind_inv. destruct x as [[mnt real]|]; [|injection H as <- <-; split; [reflexivity|by split]].
  destruct (root_fnode g (Z.to_nat (mnt_sb mnt))) as [[n a]|]; [|done]. bind_inv. destruct x as [[g1 n1] [nb a1]]. injection H as <- <-.
  apply with_node_ok in H1 as (S & Ef & sb & Es & T). split; [transitivity g1; [done|apply set_names_shape]|]. split; [done|].
  intros i n2 a2 E. destruct a1 as [a1|]; [|done]. injection E as <- <- _. by exists sb.
Qed.

Lemma release_file_ok g f g' : release_file g f = Ret g' ->
  exists k, ks_files g !! f = Some k /\ (g' = set_files g (delete f (ks_files g)) \/ g' = g).
Proof.
  unfold release_file. intros H. bind_inv. apply file_of_addr_Ret in H0. exists x. split; [done|]. destruct (k_body x); bind_inv; subst; [by left|by right].
Qed.

(** What opening leaves: nothing, or a file at its memory. *)
Definition after_open g g' (f r : Z) : Prop :=
  shape g g' /\ (forall f', f' <> f -> ks_files g' !! f' = ks_files g !! f') /\
  (r = 0 \/ r = f /\ is_Some (ks_files g' !! f)) /\ (forall k, ks_files g' !! f = Some k -> file_ok g' k).

Lemma sys_open_file_ok fuelb g f name flag g' r : ks_files g !! f = None -> __sys_open drv fuelb g f name flag = Ret (g', r) -> after_open g g' f r.
Proof.
  intros Hf. unfold __sys_open, after_open. intros H. bind_inv. destruct x as [g1 [[[i n] a]|]].
  2:{ injection H as <- <-. apply get_file_fnode_ok in H0 as (S & Ef & _). rewrite Ef, Hf. split; [done|]. split; [done|]. split; [by left|done]. }
  apply get_file_fnode_ok in H0 as (S & Ef & T). destruct (T i n a eq_refl) as (sb & Es & Tn). clear T.
  destruct (f =? 0). { injection H as <- <-. rewrite Ef, Hf. split; [done|]. split; [done|]. split; [by left|done]. }
  destruct (a_type a =? DT_CHR).
  - bind_inv. destruct (negb (x =? tty_fops)); [done|]. bind_inv. destruct (drv_open drv (ks_drv g1) x0) as [d err].
    assert (shape g (set_file (set_drv g1 d) f (KFile flag i a (BTty x0)))) as S1.
    { transitivity g1; [done|]. transitivity (set_drv g1 d); [apply set_drv_shape|apply set_files_shape]. }
    assert (forall f', f' <> f -> ks_files (set_file (set_drv g1 d) f (KFile flag i a (BTty x0))) !! f' = ks_files g !! f') as F1.
    { intros f' Hne. unfold set_file, set_files. cbn [ks_files]. rewrite lookup_insert_ne by done. cbn. by rewrite Ef. }
    destruct (negb (err =? 0)); injection H as <- <-; (split; [done|]); (split; [done|]); unfold set_file, set_files; cbn [ks_files]; rewrite lookup_insert_eq.
    + split; [by left|]. intros k E. by injection E as <-.
    + split; [right; split; [done|by eexists]|]. intros k E. by injection E as <-.
  - bind_inv. destruct x as [[g2 v] err]. pose proof (vfs_touch g1 (KFile flag i a (BVfs v)) f _ _ _ _ _ H0) as (S2 & F2 & k & Ek & Ok).
    change (set_body _ _) with (KFile flag i a (BVfs v)) in *. rewrite Ef in F2. destruct (negb (err =? 0)).
    + bind_inv. subst. apply release_file_ok in H1 as (k' & Ek' & [->| ->]); (split; [transitivity g1; [done|]; etransitivity; [exact S2|]; try apply set_files_shape; reflexivity|]).
      * unfold set_files at 1 2 3. cbn [ks_files]. split; [intros f' Hne; by rewrite lookup_delete_ne, F2|]. rewrite lookup_delete_eq. split; [by left|done].
      * split; [done|]. split; [by left|]. intros k2 E. rewrite Ek in E. by injection E as <-.
    + injection H as <- <-. split; [by transitivity g1|]. split; [done|]. rewrite Ek. split; [right; split; [done|by eexists]|].
      intros k' E. by injection E as <-.
Qed.

(** ** Tables of descriptors *)

Lemma opened_insert ds i d d' i1 j f : ds !! i = Some d ->
  opened (<[i := d']> ds) i1 j f -> (i1 = i /\ file_open d' !! j = Some f /\ f <> 0) \/ (i1 <> i /\ opened ds i1 j f).
Proof.
  intros Hi (d1 & E & F & Hf). destruct (decide (i1 = i)) as [->|Hne].
  - rewrite list_lookup_insert_eq in E by (by apply lookup_lt_Some in Hi). injection E as <-. by left.
  - rewrite list_lookup_insert_ne in E by done. right. split; [done|]. by exists d1.
Qed.

(** The entry [j] of the new table is the old one, or a file that was not open. *)
Definition entry_kept g (d d' : file_desc) (j : nat) (f : Z) : Prop :=
  file_open d !! j = Some f \/ (ks_files g !! f = None /\ forall j', file_open d' !! j' = Some f -> j' = j).

Lemma descs_update g g' ds i d d' : ds !! i = Some d -> descs_ok g ds -> length (file_open d') = Z.to_nat FILE_OPENS ->
  (forall j f, file_open d' !! j = Some f -> f <> 0 -> is_Some (ks_files g' !! f) /\ entry_kept g d d' j f) ->
  (forall i1 j f, opened ds i1 j f -> i1 <> i -> is_Some (ks_files g' !! f)) -> descs_ok g' (<[i := d']> ds).
Proof.
  intros Hi [O1 O2 O3] Hl Hn Ho. split.
  - intros i1 d1 E. destruct (decide (i = i1)) as [<-|Hne].
    + rewrite list_lookup_insert_eq in E by (by apply lookup_lt_Some in Hi). by injection E as <-.
    + rewrite list_lookup_insert_ne in E by done. by apply (O1 i1).
  - intros i1 j f H. destruct (opened_insert ds i d d' i1 j f Hi H) as [(-> & E & Hf)|[Hne H']]; [by apply (Hn j)|by apply (Ho i1 j)].
  - intros i1 j1 i2 j2 f H1 H2. destruct (opened_insert ds i d d' i1 j1 f Hi H1) as [(-> & E1 & Hf)|[Hne1 H1']];
      destruct (opened_insert ds i d d' i2 j2 f Hi H2) as [(-> & E2 & Hf2)|[Hne2 H2']].
    + destruct (Hn j1 f E1 Hf) as [_ [A|[_ A]]]; [|split; [done|by apply A]]. destruct (Hn j2 f E2 Hf) as [_ [B|[B _]]].
      * apply (O3 i j1 i j2 f); by exists d.
      * destruct (O2 i j1 f) as [k K]; [by exists d|congruence].
    + destruct (Hn j1 f E1 Hf) as [_ [A|[A _]]]; [destruct (O3 i j1 i2 j2 f) as [-> _]; [by exists d|done|done]|]. destruct (O2 i2 j2 f H2') as [k K]. congruence.
    + destruct (Hn j2 f E2 Hf2) as [_ [A|[A _]]]; [destruct (O3 i1 j1 i j2 f) as [-> _]; [done|by exists d|done]|]. destruct (O2 i1 j1 f H1') as [k K]. congruence.
    + by apply (O3 i1 j1 i2 j2 f).
Qed.

Lemma descs_same g g' ds : descs_ok g ds -> (forall f, is_Some (ks_files g !! f) -> is_Some (ks_files g' !! f)) -> descs_ok g' ds.
Proof. intros [O1 O2 O3] H. split; [done| |done]. intros i j f Ho. apply H. by apply (O2 i j). Qed.

Definition ok g ds : Prop := kfs_ok g /\ descs_ok g ds.

Lemma touch_ok g g' f ds : ok g ds -> touch g g' f -> ok g' ds.
Proof.
  intros [O Ds] (S & F & k & Ek & Ok). split.
  - apply (shape_ok g); [done|done|]. intros f' k' H. destruct (decide (f' = f)) as [->|Hne]; [|left; by rewrite <- F].
    right. rewrite Ek in H. by injection H as <-.
  - apply (descs_same g); [done|]. intros f' [k' H]. destruct (decide (f' = f)) as [->|Hne]; [by exists k|]. rewrite F by done. by exists k'.
Qed.

Lemma files_ok g g' ds : ok g ds -> shape g g' -> ks_files g' = ks_files g -> ok g' ds.
Proof.
  intros [O Ds] S F. split; [apply (shape_ok g); [done|done|]; intros f k H; left; by rewrite <- F|].
  apply (descs_same g); [done|]. intros f. by rewrite F.
Qed.

Lemma after_open_ok g g' f r ds : ok g ds -> ks_files g !! f = None -> after_open g g' f r -> ok g' ds.
Proof.
  intros [O Ds] Hf (S & F & _ & Ok). split.
  - apply (shape_ok g); [done|done|]. intros f' k H. destruct (decide (f' = f)) as [->|Hne]; [right; by apply Ok|left; by rewrite <- F].
  - apply (descs_same g); [done|]. intros f' [k' H]. rewrite F by congruence. by exists k'.
Qed.

Lemma fd_file d fd f : fd_to_file d fd = Ret f -> f <> 0 -> length (file_open d) = Z.to_nat FILE_OPENS -> 0 <= fd < FILE_OPENS /\ file_open d !! Z.to_nat fd = Some f.
Proof.
  unfold fd_to_file. intros H Hf Hl. destruct (FILE_OPENS <? fd); [injection H as <-; done|]. destruct (_ && _) eqn:E; [|done].
  apply andb_true_iff in E as [?%Z.leb_le ?%Z.ltb_lt]. injection H as H. split; [done|]. unfold word_at in H.
  destruct (file_open d !! Z.to_nat fd) as [x|] eqn:Ex; [by subst|]. by subst.
Qed.

Lemma release_all g g' fs : foldl (fun (o : outcome (kfs D)) f => g ← o; if f =? 0 then mret g else release_file g f) (mret g) fs = Ret g' ->
  shape g g' /\ (forall f, f ∉ fs -> ks_files g' !! f = ks_files g !! f) /\ (forall f k, ks_files g' !! f = Some k -> ks_files g !! f = Some k).
Proof.
  change (mret g) with (Ret g). revert g. induction fs as [|f fs IH]; intros g; cbn [foldl]; [intros H; injection H as <-; split; [reflexivity|done]|].
  rewrite Ret_bind. intros H. assert (exists g1, (if f =? 0 then mret g else release_file g f) = Ret g1) as [g1 E].
  { destruct (if f =? 0 then mret g else release_file g f) as [g1| | |]; [by exists g1|exfalso..].
    all: clear IH; revert H; induction fs as [|f' fs IH]; [done|exact IH]. }
  rewrite E in H. destruct (IH g1 H) as (S & F & K). destruct (f =? 0).
  - injection E as <-. split; [done|]. split; [|done]. intros f' [_ Hn]%not_elem_of_cons. by apply F.
  - apply release_file_ok in E as (k & Ek & [->| ->]).
    + split; [etransitivity; [|exact S]; apply set_files_shape|]. cbn [set_files ks_files] in F, K. split.
      * intros f' [Hne Hn]%not_elem_of_cons. rewrite (F f' Hn). by rewrite lookup_delete_ne.
      * intros f' k' H'. specialize (K f' k' H'). by apply lookup_delete_Some in K as [_ K].
    + split; [done|]. split; [|done]. intros f' [_ Hn]%not_elem_of_cons. by apply F.
Qed.

(** ** System calls *)

Lemma sys_access_ok fuelb g name flag g' r ds : ok g ds -> _sys_access fuelb g name flag = Ret (g', r) -> ok g' ds.
Proof.
  intros O H. unfold _sys_access in H. bind_inv. destruct x as [g1 f]. apply get_file_fnode_ok in H0 as (S & F & _).
  destruct f; injection H as <- _; by apply (files_ok g).
Qed.

Lemma do_mount_ok fuelb g dev path fs g' r ds : ok g ds -> do_mount fuelb g dev path fs = Ret (g', r) -> ok g' ds.
Proof.
  intros O H. unfold do_mount in H. bind_inv. destruct x as [g1 err]. assert (ok g1 ds) as O1.
  { destruct (bool_decide (path = [slash])); [injection H0 as <- _; done|by eapply sys_access_ok]. }
  clear H0 O. destruct (negb (err =? 0)); [injection H as <- _; done|]. bind_inv. destruct x as [sb|e]; [|injection H as <- _; done].
  injection H as <- _. destruct O1 as [[K1 K2 K3] Ds]. split; [|by apply (descs_same g1)]. split; cbn [ks_sbs ks_files].
  - intros i sb' H. apply lookup_app_Some in H as [H|[_ H]]; [by apply (K1 i)|]. apply list_lookup_singleton_Some in H as [_ <-].
    unfold fill_super in H0. unfold sb_ok. cbn [ks_disks].
    destruct (fs_fops fs); [destruct dev as [[k b]|]; [|done]; destruct (ks_disks g1 !! k) eqn:E; [|done]..|by injection H0 as <-].
    + destruct (lmfs_fill_super _ b); [|done]. injection H0 as <-. by apply lookup_lt_Some in E.
    + bind_inv. destruct x; [|done]. injection H0 as <-. by apply lookup_lt_Some in E.
  - intros m Hm. rewrite length_app. cbn [length]. unfold mounts_of in Hm. cbn [mount_tree] in Hm.
    assert (m = Mount path (Z.of_nat (length (ks_sbs g1))) \/ m ∈ mounts_of g1) as [->|Hin].
    { unfold mounts_of, add_mount in *. destruct (mount_tree g1) as [[r0 ms]|]; [|apply list_elem_of_singleton in Hm; by left].
      rewrite !elem_of_cons in *. tauto. }
    + cbn [mnt_sb]. lia.
    + specialize (K2 m Hin). lia.
  - intros f k H. specialize (K3 f k H). unfold file_ok in *. destruct (k_body k); [|done]. destruct K3 as (sb' & E & T). exists sb'. split; [|done].
    cbn [ks_sbs]. by apply lookup_app_l_Some.
Qed.

Lemma sys_mount_ok fuelb g dev path fs flag g' r ds : ok g ds -> sys_mount fuelb g dev path fs flag = Ret (g', r) -> ok g' ds.
Proof.
  intros O H. unfold sys_mount in H. destruct (_ =? 0); [destruct (get_bdev_by_name _ dev); [|by injection H as <- _]|];
    (destruct (lookup_filesystem _ fs); [by eapply do_mount_ok|by injection H as <- _]).
Qed.

(** What the tasks with the tables [ds] can do; memory for a file is not in use. *)
Inductive call : kfs D * list file_desc -> kfs D * list file_desc -> Prop :=
  | c_open g ds i d fuelb f name flag g' d' r : ds !! i = Some d -> ks_files g !! f = None ->
      _sys_open drv fuelb g d f name flag = Ret (g', d', r) -> call (g, ds) (g', <[i := d']> ds)
  | c_close g ds i d fd g' d' r : ds !! i = Some d -> _sys_close g d fd = Ret (g', d', r) -> call (g, ds) (g', <[i := d']> ds)
  | c_read g ds i d m fd buffer size g' m' r : ds !! i = Some d -> _sys_read drv g d m fd buffer size = Ret (g', m', r) -> call (g, ds) (g', ds)
  | c_write g ds i d m fd buffer size g' r : ds !! i = Some d -> _sys_write drv g d m fd buffer size = Ret (g', r) -> call (g, ds) (g', ds)
  | c_seek g ds i d fd off whence g' r : ds !! i = Some d -> _sys_seek g d fd off whence = Ret (g', r) -> call (g, ds) (g', ds)
  | c_getdents g ds i d fuel fd count g' l r : ds !! i = Some d -> _sys_getdents fuel g d fd count = Ret (g', l, r) -> call (g, ds) (g', ds)
  | c_mmap g ds i d m fd buffer size off g' m' r : ds !! i = Some d -> fmmap g d m fd buffer size off = Ret (g', m', r) -> call (g, ds) (g', ds)
  | c_msync g ds i d m fd buffer size off g' r : ds !! i = Some d -> fmsync g d m fd buffer size off = Ret (g', r) -> call (g, ds) (g', ds)
  | c_stat g ds fuelb f path g' st r : ks_files g !! f = None -> _sys_stat drv fuelb g f path = Ret (g', st, r) -> call (g, ds) (g', ds)
  | c_access g ds fuelb name flag g' r : _sys_access fuelb g name flag = Ret (g', r) -> call (g, ds) (g', ds)
  | c_chdir g ds fuelb t path g' t' r : sys_chdir fuelb g t path = Ret (g', t', r) -> call (g, ds) (g', ds)
  | c_mount g ds fuelb dev path fs flag g' r : sys_mount fuelb g dev path fs flag = Ret (g', r) -> call (g, ds) (g', ds)
  | c_start g ds fuelb p f0 f1 f2 g' t : ks_files g !! f0 = None -> ks_files g !! f1 = None -> ks_files g !! f2 = None ->
      f0 <> f1 -> f1 <> f2 -> f0 <> f2 -> alloc_and_init_file_desc drv fuelb g p f0 f1 f2 = Ret (g', t) -> call (g, ds) (g', ds ++ [tf_desc t])
  | c_exit g ds i d g' : ds !! i = Some d -> release_task_file_desc g d = Ret g' -> call (g, ds) (g', <[i := zero_desc]> ds).

(** A call on one descriptor. *)
Definition on_file (d : file_desc) (fd : Z) g g' : Prop := g' = g \/ exists f, fd_to_file d fd = Ret f /\ f <> 0 /\ touch g g' f.

Ltac on_fd :=
  intros H; bind_inv; match goal with Hf : fd_to_file _ _ = Ret ?x |- _ => destruct (Z.eqb_spec x 0) as [->|?]; rewrite ?orb_true_r, ?orb_false_r in * end.

Lemma sys_read_on g d m fd buffer size g' m' r : kfs_ok g -> _sys_read drv g d m fd buffer size = Ret (g', m', r) -> on_file d fd g g'.
Proof.
  intros O. unfold _sys_read. on_fd; [by injection H as <- _ _; left|]. destruct (size <=? 0); [by injection H as <- _ _; left|].
  right. eexists. split; [done|]. split; [done|]. by eapply kernel_read_touch.
Qed.

Lemma sys_write_on g d m fd buffer size g' r : kfs_ok g -> _sys_write drv g d m fd buffer size = Ret (g', r) -> on_file d fd g g'.
Proof.
  intros O. unfold _sys_write. on_fd; [by injection H as <- _; left|]. destruct (size <=? 0); [by injection H as <- _; left|].
  right. eexists. split; [done|]. split; [done|]. by eapply kernel_write_touch.
Qed.

Lemma sys_seek_on g d fd off whence g' r : kfs_ok g -> _sys_seek g d fd off whence = Ret (g', r) -> on_file d fd g g'.
Proof.
  intros O. unfold _sys_seek. on_fd; [by injection H as <- _; left|]. destruct (off <? 0); [by injection H as <- _; left|].
  right. eexists. split; [done|]. split; [done|]. by eapply kernel_seek_touch.
Qed.

Lemma fmmap_on g d m fd buffer size off g' m' r : kfs_ok g -> fmmap g d m fd buffer size off = Ret (g', m', r) -> on_file d fd g g'.
Proof.
  intros O. unfold fmmap. on_fd; [by injection H as <- _ _; left|]. right. eexists. split; [done|]. split; [done|]. revert H. op_touch O. done.
Qed.

Lemma fmsync_on g d m fd buffer size off g' r : kfs_ok g -> fmsync g d m fd buffer size off = Ret (g', r) -> on_file d fd g g'.
Proof.
  intros O. unfold fmsync. on_fd; [by injection H as <- _; left|]. right. eexists. split; [done|]. split; [done|]. revert H. op_touch O. done.
Qed.

Lemma sys_getdents_on g d fuel fd count g' l r : kfs_ok g -> _sys_getdents fuel g d fd count = Ret (g', l, r) -> on_file d fd g g'.
Proof.
  intros O. unfold _sys_getdents. on_fd; [by injection H as <- _ _; left|]. right. eexists. split; [done|]. split; [done|]. revert H. op_touch O.
  injection H as <- _ _. by eapply same_touch.
Qed.

Lemma on_file_ok g g' ds d fd : ok g ds -> on_file d fd g g' -> ok g' ds.
Proof. intros O [->|(f & _ & _ & T)]; [done|by eapply touch_ok]. Qed.

(** ** Opening, closing, starting and ending *)

Lemma sys_open_ok g ds i d fuelb f name flag g' d' r : ok g ds -> ds !! i = Some d -> ks_files g !! f = None ->
  _sys_open drv fuelb g d f name flag = Ret (g', d', r) -> ok g' (<[i := d']> ds).
Proof.
  intros O Hi Hf. unfold _sys_open. destruct (zfirst _ _ _) as [fd|] eqn:Ez; [|intros H; injection H as <- <- _; by rewrite list_insert_id].
  intros H. bind_inv. destruct x as [g1 f1]. apply (sys_open_file_ok _ _ _ _ _ _ _ Hf) in H0 as A. pose proof (after_open_ok _ _ _ _ _ O Hf A) as O1.
  unfold Path._sys_open in H. rewrite Ez in H. destruct (Z.eqb_spec f1 0) as [->|Hne]; [injection H as <- <- _; by rewrite list_insert_id|].
  injection H as <- <- _. destruct O1 as [K1 D1]. split; [done|]. destruct A as (_ & F & [->|[-> Hs]] & _); [done|]. destruct O as [_ Ds].
  pose proof (do_len _ _ Ds i d Hi) as Hl. apply zfirst_Some in Ez as (Hr & _). change (0 + Z.of_nat (Z.to_nat FILE_OPENS)) with 64 in Hr.
  apply (descs_update g g1 ds i d); [done|done| | |].
  - cbn [file_open]. by rewrite length_insert.
  - cbn [file_open]. intros j f' E Hf'. destruct (decide (j = Z.to_nat fd)) as [->|Hj].
    + rewrite list_lookup_insert_eq in E by (rewrite Hl; unfold FILE_OPENS; lia). injection E as <-. split; [done|]. right. split; [done|].
      intros j' E'. destruct (decide (j' = Z.to_nat fd)) as [|Hj']; [done|]. cbn [file_open] in E'. rewrite list_lookup_insert_ne in E' by done.
      destruct (do_file _ _ Ds i j' f) as [k K]; [by exists d|congruence].
    + rewrite list_lookup_insert_ne in E by done. split; [apply (do_file _ _ D1 i j); by exists d|by left].
  - intros i1 j f' H _. by apply (do_file _ _ D1 i1 j).
Qed.

Lemma sys_close_ok g ds i d fd g' d' r : ok g ds -> ds !! i = Some d -> _sys_close g d fd = Ret (g', d', r) -> ok g' (<[i := d']> ds).
Proof.
  intros [K Ds] Hi. unfold _sys_close. intros H. bind_inv. destruct (Z.eqb_spec x 0) as [->|Hx]; [injection H as <- <- _; by rewrite list_insert_id|].
  bind_inv. destruct x1 as [d1 r1]. injection H as <- <- <-. pose proof (do_len _ _ Ds i d Hi) as Hl. destruct (fd_file d fd x H0 Hx Hl) as [Hr Ef].
  unfold Path._sys_close in H2. rewrite H0, Ret_bind in H2. rewrite (proj2 (Z.eqb_neq x 0) Hx) in H2. injection H2 as <- _.
  assert (opened ds i (Z.to_nat fd) x) as Hop by by exists d.
  apply release_file_ok in H1 as (k & Ek & H1). assert (shape g x0 /\ (forall f, f <> x -> ks_files x0 !! f = ks_files g !! f) /\ (forall f k, ks_files x0 !! f = Some k -> ks_files g !! f = Some k)) as (S & F & Fs).
  { destruct H1 as [->| ->]; [|split; [reflexivity|done]]. split; [apply set_files_shape|]. cbn [set_files ks_files]. split; [intros f Hf; by apply lookup_delete_ne|].
    intros f k' H%lookup_delete_Some. apply H. }
  split; [apply (shape_ok g); [done|done|]; intros f k' H; left; by apply Fs|].
  apply (descs_update g x0 ds i d); [done|done|cbn [file_open]; by rewrite length_insert| |].
  - cbn [file_open]. intros j f E Hf. destruct (decide (j = Z.to_nat fd)) as [->|Hj].
    + rewrite list_lookup_insert_eq in E by (rewrite Hl; unfold FILE_OPENS in *; lia). by injection E as <-.
    + rewrite list_lookup_insert_ne in E by done. split; [|by left]. assert (opened ds i j f) as Ho by by exists d. rewrite F; [by apply (do_file _ _ Ds i j)|].
      intros ->. destruct (do_own _ _ Ds _ _ _ _ _ Hop Ho) as [_ ?]. done.
  - intros i1 j f Ho Hne. rewrite F; [by apply (do_file _ _ Ds i1 j)|]. intros ->. destruct (do_own _ _ Ds _ _ _ _ _ Hop Ho) as [? _]. done.
Qed.

Lemma zero_entry j f : file_open zero_desc !! j = Some f -> f = 0.
Proof. intros H. cbn [zero_desc file_open] in H. by apply lookup_replicate in H as [-> _]. Qed.

Lemma exit_ok g ds i d g' : ok g ds -> ds !! i = Some d -> release_task_file_desc g d = Ret g' -> ok g' (<[i := zero_desc]> ds).
Proof.
  intros [K Ds] Hi H. apply release_all in H as (S & F & Fs). split; [apply (shape_ok g); [done|done|]; intros f k H; left; by apply Fs|].
  apply (descs_update g g' ds i d); [done|done|done| |].
  - intros j f E Hf. by apply zero_entry in E.
  - intros i1 j f Ho Hne. rewrite F; [by apply (do_file _ _ Ds i1 j)|]. intros [j' E]%list_elem_of_lookup. destruct Ho as (d1 & E1 & E2 & Hf).
    destruct (do_own _ _ Ds i1 j i j' f) as [-> _]; [by exists d1|by exists d|done].
Qed.

Lemma descs_app g ds : descs_ok g ds -> descs_ok g (ds ++ [zero_desc]).
Proof.
  intros [O1 O2 O3]. assert (forall i j f, opened (ds ++ [zero_desc]) i j f -> opened ds i j f) as H.
  { intros i j f (d & E & F & Hf). apply lookup_app_Some in E as [E|[_ E]]; [by exists d|]. apply list_lookup_singleton_Some in E as [_ <-]. by apply zero_entry in F. }
  split; [|intros i j f Ho; by apply (O2 i j), H|intros i j i' j' f H1 H2; by apply (O3 i j i' j' f); apply H].
  intros i d E. apply lookup_app_Some in E as [E|[_ E]]; [by apply (O1 i)|]. by apply list_lookup_singleton_Some in E as [_ <-].
Qed.

Lemma after_open_none g g' f r f' : after_open g g' f r -> f' <> f -> ks_files g !! f' = None -> ks_files g' !! f' = None.
Proof. intros (_ & F & _) Hne H. by rewrite F. Qed.

Lemma after_open_some g g' f r f' : after_open g g' f r -> ks_files g !! f = None -> is_Some (ks_files g !! f') -> is_Some (ks_files g' !! f').
Proof. intros (_ & F & _) Hn [k H]. rewrite F by congruence. by exists k. Qed.

Lemma start_ok g ds fuelb p f0 f1 f2 g' t : ok g ds -> ks_files g !! f0 = None -> ks_files g !! f1 = None -> ks_files g !! f2 = None ->
  f0 <> f1 -> f1 <> f2 -> f0 <> f2 -> alloc_and_init_file_desc drv fuelb g p f0 f1 f2 = Ret (g', t) -> ok g' (ds ++ [tf_desc t]).
Proof.
  intros O N0 N1 N2 D01 D12 D02 H. unfold alloc_and_init_file_desc in H. bind_inv. destruct x as [g1 r0]. bind_inv. destruct x as [g2 r1]. bind_inv. destruct x as [g3 r2].
  bind_inv. destruct x as [g4 c]. injection H as <- <-. cbn [tf_desc].
  apply sys_open_file_ok in H0 as A0; [|done]. pose proof (after_open_none _ _ _ _ f1 A0 ltac:(congruence) N1) as N1'. pose proof (after_open_none _ _ _ _ f2 A0 ltac:(congruence) N2) as N2'.
  apply sys_open_file_ok in H1 as A1; [|done]. pose proof (after_open_none _ _ _ _ f2 A1 ltac:(congruence) N2') as N2''. apply sys_open_file_ok in H2 as A2; [|done].
  apply get_file_fnode_ok in H3 as (S & F & _). destruct O as [K Ds]. assert (ok g (ds ++ [zero_desc])) as O by (split; [done|by apply descs_app]).
  assert (ok g4 (ds ++ [zero_desc])) as [K4 D4].
  { apply (files_ok g3); [|done|done]. apply (after_open_ok g2 g3 f2 r2); [|done|done]. apply (after_open_ok g1 g2 f1 r1); [|done|done]. by apply (after_open_ok g g1 f0 r0). }
  split; [done|]. assert (r0 <> 0 -> r0 = f0 /\ is_Some (ks_files g4 !! r0)) as P0.
  { intros Hr. destruct A0 as (_ & _ & [->|[-> Hs]] & _); [done|]. split; [done|]. rewrite F. apply (after_open_some g2 g3 f2 r2); [done|done|]. by apply (after_open_some g1 g2 f1 r1). }
  assert (r1 <> 0 -> r1 = f1 /\ is_Some (ks_files g4 !! r1)) as P1.
  { intros Hr. destruct A1 as (_ & _ & [->|[-> Hs]] & _); [done|]. split; [done|]. rewrite F. by apply (after_open_some g2 g3 f2 r2). }
  assert (r2 <> 0 -> r2 = f2 /\ is_Some (ks_files g4 !! r2)) as P2.
  { intros Hr. destruct A2 as (_ & _ & [->|[-> Hs]] & _); [done|]. split; [done|]. by rewrite F. }
  replace (ds ++ [FileDesc 3 _]) with (<[length ds := FileDesc 3 (<[2%nat := r2]> (<[1%nat := r1]> (<[0%nat := r0]> (file_open zero_desc))))]> (ds ++ [zero_desc])).
  2:{ rewrite insert_app_r_alt by lia. by rewrite Nat.sub_diag. }
  destruct O as [_ Ds0]. apply (descs_update g g4 _ _ zero_desc); [by rewrite lookup_app_r, Nat.sub_diag by lia|done|done| |].
  - cbn [file_open]. intros j f E Hf. assert (forall j f, (<[2%nat:=r2]> (<[1%nat:=r1]> (<[0%nat:=r0]> (file_open zero_desc)))) !! j = Some f -> f <> 0 ->
      (j = 0%nat /\ f = r0) \/ (j = 1%nat /\ f = r1) \/ (j = 2%nat /\ f = r2)) as Hc.
    { clear. intros [|[|[|j]]] f E Hf; [injection E as <-; by left|injection E as <-; right; by left|injection E as <-; right; by right|].
      rewrite !list_lookup_insert_ne in E by done. by apply zero_entry in E. }
    destruct (Hc j f E Hf) as [[-> ->]|[[-> ->]|[-> ->]]]; [destruct (P0 Hf) as [Q1 Q2]|destruct (P1 Hf) as [Q1 Q2]|destruct (P2 Hf) as [Q1 Q2]];
      (split; [done|]); right; (split; [by rewrite Q1|]); intros j' E'; cbn [file_open] in E'; destruct (Hc j' _ E' Hf) as [[-> Q]|[[-> Q]|[-> Q]]]; try done; exfalso;
      rewrite Q in Hf; (destruct (P0 Hf) || destruct (P1 Hf) || destruct (P2 Hf)); congruence.
  - intros i1 j f Ho _. by apply (do_file _ _ D4 i1 j).
Qed.

Lemma stat_ok g ds fuelb f path g' st r : ok g ds -> ks_files g !! f = None -> _sys_stat drv fuelb g f path = Ret (g', st, r) -> ok g' ds.
Proof.
  intros O Hf. unfold _sys_stat. intros H. bind_inv. destruct x as [g1 f1]. apply sys_open_file_ok in H0 as A; [|done].
  pose proof (after_open_ok _ _ _ _ _ O Hf A) as [K1 D1]. destruct (f1 =? 0) eqn:Ef1; [by injection H as <- _ _|]. bind_inv. destruct x0 as [g2 r2]. injection H as <- _ _.
  destruct A as (_ & F & [->|[-> _]] & _); [done|]. unfold kernel_close in H2. bind_inv. apply file_of_addr_Ret in H. destruct (k_body x0); [|done]. injection H2 as <- _. split.
  - apply (shape_ok g1); [apply set_files_shape|done|]. cbn [set_files ks_files]. intros f' k [_ H']%lookup_delete_Some. by left.
  - destruct O as [_ Ds]. apply (descs_same g); [done|]. cbn [set_files ks_files]. intros f' [k E]. rewrite lookup_delete_ne by congruence. rewrite F by congruence. by exists k.
Qed.

Lemma chdir_ok g ds fuelb t path g' t' r : ok g ds -> sys_chdir fuelb g t path = Ret (g', t', r) -> ok g' ds.
Proof.
  intros O. unfold sys_chdir. destruct (_ && _); [intros H; by injection H as <- _ _|]. intros H. bind_inv. destruct x as [g1 c].
  apply get_file_fnode_ok in H0 as (S & F & _). destruct c; [destruct (255 <? _); [done|]|]; injection H as <- _ _; by apply (files_ok g).
Qed.

Lemma call_ok g ds g' ds' : call (g, ds) (g', ds') -> ok g ds -> ok g' ds'.
Proof.
  intros C O. pose proof (proj1 O) as K. inversion C; subst;
    first [eapply sys_open_ok; eassumption|eapply sys_close_ok; eassumption|eapply stat_ok; eassumption|eapply sys_access_ok; eassumption
          |eapply chdir_ok; eassumption|eapply sys_mount_ok; eassumption|eapply exit_ok; eassumption|idtac].
  7: match goal with H : alloc_and_init_file_desc _ _ _ _ _ _ _ = _ |- _ => eapply start_ok; [exact O| | | | | | |exact H]; assumption end.
  all: eapply on_file_ok; [exact O|].
  all: first [eapply sys_read_on; eassumption|eapply sys_write_on; eassumption|eapply sys_seek_on; eassumption|eapply sys_getdents_on; eassumption
             |eapply fmmap_on; eassumption|eapply fmsync_on; eassumption].
Qed.

Definition boot_fs (head : list filesystem) (disks : disk_table) (t : tty_sys) (nb : gmap Z Z) (dr : D) : kfs D := Kfs head disks [] None t nb ∅ dr.

(** C14: after any sequence of system calls of any number of tasks the file tables are well
    typed: every mount has its super block, every super block its disk, every open file a
    node of the file system its super block is of, every descriptor of every task leads to a
    file that is open, and no two descriptors share one. *)
Theorem calls_typed head disks t nb dr g ds (H : rtc call (boot_fs head disks t nb dr, []) (g, ds)) : ok g ds.
Proof.
  assert (ok (boot_fs head disks t nb dr) []) as O.
  { split; split; [done|intros m Hm; by apply elem_of_nil in Hm|done|done| |]; [intros i j f (d & E & _); done|intros i j i' j' f (d & E & _); done]. }
  revert H O. generalize (boot_fs head disks t nb dr). generalize (@nil file_desc). intros ds0 g0 H.
  remember (g0, ds0) as s0 eqn:E0. remember (g, ds) as s1 eqn:E1. revert g0 ds0 E0. induction H as [s|s [g1 ds1] s' C _ IH]; intros g0 ds0 -> O.
  - by injection E1 as -> ->.
  - apply (IH E1 g1 ds1 eq_refl). by eapply call_ok.
Qed.

(** A call that transfers data or moves the position of one descriptor. *)
Inductive file_call (d : file_desc) (fd : Z) : kfs D -> kfs D -> Prop :=
  | fc_read g m buffer size g' m' r : _sys_read drv g d m fd buffer size = Ret (g', m', r) -> file_call d fd g g'
  | fc_write g m buffer size g' r : _sys_write drv g d m fd buffer size = Ret (g', r) -> file_call d fd g g'
  | fc_seek g off whence g' r : _sys_seek g d fd off whence = Ret (g', r) -> file_call d fd g g'
  | fc_getdents g fuel count g' l r : _sys_getdents fuel g d fd count = Ret (g', l, r) -> file_call d fd g g'
  | fc_mmap g m buffer size off g' m' r : fmmap g d m fd buffer size off = Ret (g', m', r) -> file_call d fd g g'
  | fc_msync g m buffer size off g' r : fmsync g d m fd buffer size off = Ret (g', r) -> file_call d fd g g'.

(** C15: reading, writing, seeking, listing or mapping through one descriptor leaves every
    other descriptor of every task as it is: its file, its position and its buffer. *)
Theorem calls_isolated g ds i d fd g' i' j f (O : ok g ds) (Hi : ds !! i = Some d) (C : file_call d fd g g')
    (Ho : opened ds i' j f) (Hne : i' <> i \/ Z.of_nat j <> fd) : ks_files g' !! f = ks_files g !! f.
Proof.
  pose proof (proj1 O) as K. assert (on_file d fd g g') as [->|(f0 & Ef & Hf & _ & F & _)]; [|done|].
  { inversion C; subst; [eapply sys_read_on|eapply sys_write_on|eapply sys_seek_on|eapply sys_getdents_on|eapply fmmap_on|eapply fmsync_on]; eassumption. }
  apply F. intros ->. destruct O as [_ Ds]. destruct (fd_file d fd f0 Ef Hf (do_len _ _ Ds i d Hi)) as [Hr E].
  destruct (do_own _ _ Ds i (Z.to_nat fd) i' j f0) as [-> ->]; [by exists d|done|]. destruct Hne as [?|Hne]; [done|lia].
Qed.
End Ops.
