(* ===== verification/FileReads.v ===== *)
(** * Calls that do not write (fs/fnode.c, fs/vfs.c, fs/file.c)

    Looking up names, opening, reading, seeking and listing leave every disk as it is.  What a
    file system promises for this is a class; LMFS and FAT are its instances, and devfs has
    no disk. *)

From S2P Require Import Prelude Bitops Dlist CString Disk Vfs VfsSpec Lmfs LmfsSpec Path PathSpec Fat Devfs DevfsSpec File FileSpec.

(** The functions that find blocks and names leave [data], a part of the state, alone. *)
Class FsReads (FS : Type) `{FsDir FS} {X : Type} (data : FS -> X) := {
  reads_block : forall s w s' b, get_data_block s w = Ret (s', b) -> data s' = data s;
  reads_find : forall s a name buf s' a' r, find_file s a name buf = Ret (s', a', r) -> data s' = data s;
  reads_copy : forall s a s' a' r, copy_fnode s a = (s', a', r) -> data s' = data s }.

Section Reads.
Context {FS : Type} {ops : FsOps FS} {dir : FsDir FS} {X : Type} (data : FS -> X) {R : FsReads FS data}.
Implicit Types f : vfile FS.

Lemma get_block_data f w f' b : vfs_get_data_block f w = Ret (f', b) -> data (v_fs f') = data (v_fs f).
Proof using R. unfold vfs_get_data_block. intros H. bind_inv. destruct x as [s b']. injection H as <- _. by eapply reads_block. Qed.

Lemma read_block_data f w f' r : vfs_read_block f w = Ret (f', r) -> data (v_fs f') = data (v_fs f).
Proof using R.
  unfold vfs_read_block. intros H. bind_inv. destruct x as [f1 b]. apply get_block_data in H0. destruct (b =? 0); injection H as <- _; done.
Qed.

Lemma load_block_data f w f' r : load_block f w = Ret (f', r) -> data (v_fs f') = data (v_fs f).
Proof using R.
  unfold load_block. intros H. bind_inv. destruct x as [f1 [b|e]]; apply read_block_data in H0; injection H as <- _; done.
Qed.

Lemma read_blocks_data n : forall f m b f' m' b' e, read_blocks n f m b = Ret (f', m', b', e) -> data (v_fs f') = data (v_fs f).
Proof using R.
  induction n as [|n IH]; intros f m b f' m' b' e; cbn [read_blocks]; [intros H; by injection H as <- _ _ _|].
  intros H. bind_inv. destruct x as [f1 [bs|err]]; apply read_block_data in H0.
  - apply IH in H. congruence.
  - injection H as <- _ _ _. done.
Qed.

Lemma read_data f m b n f' m' r : vfs_read f m b n = Ret (f', m', r) -> data (v_fs f') = data (v_fs f).
Proof using R.
  unfold vfs_read. destruct (_ =? 0); [intros H; by injection H as <- _ _|].
  destruct (if _ <? _ then _ else _) as [[ib blocks] rest]. destruct (_ <? _); [done|]. intros H. bind_inv. destruct x as [[[f1 m1] b1] e1].
  apply read_blocks_data in H0. destruct (negb (e1 =? 0)); [injection H as <- _ _; done|]. bind_inv. destruct x as [[[f2 m2] ib2] e2].
  assert (data (v_fs f2) = data (v_fs f1)) as E2.
  { destruct (negb (rest =? 0)); [|by injection H1 as <- _ _ _]. bind_inv. destruct x as [f3 e3]. apply load_block_data in H2.
    destruct (negb (e3 =? 0)); injection H1 as <- _ _ _; done. }
  destruct (negb (e2 =? 0)); [injection H as <- _ _; congruence|]. bind_inv. destruct x as [f3 e3].
  assert (data (v_fs f3) = data (v_fs f2)) as E3 by (destruct (ib2 =? buffer_size f); [by eapply load_block_data|by injection H2 as <- _]).
  destruct (negb (e3 =? 0)); injection H as <- _ _; cbn [v_fs set_pos]; congruence.
Qed.

Lemma walk_blocks_data n : forall f w b f' r, walk_blocks n f w b = Ret (f', r) -> data (v_fs f') = data (v_fs f).
Proof using R.
  induction n as [|n IH]; intros f w b f' r; cbn [walk_blocks]; [intros H; by injection H as <- _|].
  intros H. bind_inv. destruct x as [f1 b1]. apply get_block_data in H0. destruct (b1 =? 0); [injection H as <- _; done|]. apply IH in H. congruence.
Qed.

Lemma walk_to_data f n w p new f' r : walk_to f n w p new = Ret (f', r) -> data (v_fs f') = data (v_fs f).
Proof using R.
  unfold walk_to. intros H. bind_inv. destruct x as [f1 [b|]]; apply walk_blocks_data in H0; [|injection H as <- _; done].
  destruct (read_block _ b); injection H as <- _; done.
Qed.

Lemma seek_data f off w f' r : vfs_seek f off w = Ret (f', r) -> data (v_fs f') = data (v_fs f).
Proof using R.
  unfold vfs_seek. destruct (_ && _); [intros H; by injection H as <- _|]. intros H. bind_inv. destruct x as [[no back] new].
  destruct (no <=? 0); [injection H as <- _; done|]. bind_inv. destruct x as [[f1 no1] back1]. clear H0.
  assert (data (v_fs f1) = data (v_fs f)) as E1.
  { destruct (_ && _ && _); [|by injection H1 as <- _ _]. bind_inv. destruct x as [f2 e2]. apply load_block_data in H0. injection H1 as <- _ _. done. }
  destruct back1; [unfold seek_back in H|unfold seek_forward in H]; (destruct (_ : bool) in H; [apply walk_to_data in H; congruence|injection H as <- _; done]).
Qed.

Lemma mmap_data f m b n off f' m' r : vfs_mmap f m b n off = Ret (f', m', r) -> data (v_fs f') = data (v_fs f).
Proof using R.
  unfold vfs_mmap. destruct (negb _); [|apply read_data]. intros H. bind_inv. destruct x as [f1 e]. apply seek_data in H0.
  destruct (negb (e =? 0)); [injection H as <- _ _; done|]. apply read_data in H. congruence.
Qed.

Lemma getdents_loop_data fuel : forall f at_ c n out f' out' r, getdents_loop fuel f at_ c n out = Ret (f', out', r) -> data (v_fs f') = data (v_fs f).
Proof using R.
  induction fuel as [|fuel IH]; intros f at_ c n out f' out' r; cbn [getdents_loop]; [done|]. destruct (negb _); [intros H; by injection H as <- _ _|].
  intros H. bind_inv. destruct (x _ _ _) as [name handled]. destruct (handled =? 0); [injection H as <- _ _; done|].
  destruct (if _ =? 0 then _ else _) as [out1 c1]. destruct (_ <=? _); [|apply IH in H; done]. bind_inv. destruct x0 as [f1 e]. apply load_block_data in H1.
  destruct (negb (e =? 0)); [injection H as <- _ _; done|]. apply IH in H. cbn [set_pos v_fs] in *. congruence.
Qed.

Lemma getdents_data fuel f n f' out r : vfs_getdents fuel f n = Ret (f', out, r) -> data (v_fs f') = data (v_fs f).
Proof using R.
  unfold vfs_getdents. do 3 (destruct (_ : bool); [intros H; by injection H as <- _ _|]). apply getdents_loop_data.
Qed.

Lemma find_in_blocks_data fuel : forall s a t name b s' a' r, find_in_blocks fuel s a t name b = Ret (s', a', r) -> data s' = data s.
Proof using R.
  induction fuel as [|fuel IH]; intros s a t name b s' a' r; cbn [find_in_blocks]; [done|]. destruct (read_block s b) as [bs|]; [|intros H; by injection H as <- _ _].
  intros H. bind_inv. destruct x as [[s1 a1] e]. apply reads_find in H0. destruct (e =? 0); [injection H as <- _ _; done|]. bind_inv. destruct x as [s2 b2].
  apply reads_block in H1. destruct (b2 =? 0); [injection H as <- _ _; congruence|]. apply IH in H. congruence.
Qed.

Lemma lookup_loop_data fuel : forall fuelb nb s a flag ff name nb' s' a' r p, lookup_loop fuel fuelb nb s a flag ff name = Ret (nb', s', a', r, p) -> data s' = data s.
Proof using R.
  induction fuel as [|fuel IH]; intros fuelb nb s a flag ff name nb' s' a' r p; cbn [lookup_loop]; (destruct (find_file_name name) as [[part rest]|]; [|intros H; by injection H as _ <- _ _ _]); [done|].
  intros H. bind_inv. destruct x as [s1 b1]. apply reads_block in H0. destruct (_ <=? _); [done|]. destruct (b1 =? 0); [injection H as _ <- _ _ _; done|].
  bind_inv. destruct x as [nb1 tname]. bind_inv. destruct x as [[s2 a2] r2]. apply find_in_blocks_data in H2. destruct r2 as [[found err]|]; [|injection H as _ <- _ _ _; congruence].
  destruct (negb (err =? 0)); [injection H as _ <- _ _ _; congruence|]. destruct (negb _); [injection H as _ <- _ _ _; congruence|]. apply IH in H. congruence.
Qed.

Lemma file_fnode_data fuel fuelb nb s a flag name nb' s' r : _get_file_fnode fuel fuelb nb s a flag name = Ret (nb', s', r) -> data s' = data s.
Proof using R.
  unfold _get_file_fnode. destruct (copy_fnode s a) as [[s1 a1] e] eqn:E. apply reads_copy in E. destruct (negb (e =? 0)); [intros H; by injection H as _ <- _|].
  destruct name as [|c name]; [intros H; by injection H as _ <- _|]. intros H. bind_inv. destruct x as [[[nb2 s2] a2] r2].
  assert (data s2 = data s1) as E2.
  { unfold __get_file_fnode in H0. destruct (get_iname_buffer nb) as [nb3 [i|]]; [|by injection H0 as _ <- _ _]. bind_inv.
    destruct x as [[[[nb4 s4] a4] r4] p]. apply lookup_loop_data in H1. injection H0 as _ <- _ _. done. }
  destruct (_ && _); injection H as _ <- _; congruence.
Qed.
End Reads.

(** ** The file systems *)

(** Everything of LMFS but the node. *)
Definition lmfs_static (s : lmfs_st) : sectors * bdev * lmfs_super_block := (ldisk s, lbdev s, lsb s).

Lemma lmfs_fill_data s i s' a r : lmfs_fill_fnode s i = (s', a, r) -> lmfs_static s' = lmfs_static s.
Proof.
  unfold lmfs_fill_fnode. destruct (fnode_location s i) as [b j]. destruct (_ && _); [intros H; by injection H as <- _ _|].
  destruct (lmfs_read_block s b); [|intros H; by injection H as <- _ _]. unfold init_data_block_info. destruct (lmfs_read_block s _); intros H; by injection H as <- _ _.
Qed.

#[export] Instance lmfs_static_reads : FsReads lmfs_st lmfs_static.
Proof.
  split.
  - intros s w s' b. cbn [get_data_block lmfs_ops]. unfold lmfs_get_data_block. intros H. injection H as H.
    repeat (destruct (_ : bool) in H; try (injection H as <- _; done)); try (injection H as <- _; done);
      destruct (lmfs_read_block s _); injection H as <- _; done.
  - intros s a name buf s' a' r. cbn [find_file lmfs_dir]. unfold lmfs_find_file. destruct (zfirst _ _ _) as [j|]; [|intros H; by injection H as <- _ _].
    destruct (lmfs_fill_fnode s _) as [[s1 a1] r1] eqn:E. apply lmfs_fill_data in E. intros H. by injection H as <- _ _.
  - intros s a s' a' r. cbn [copy_fnode lmfs_dir]. unfold lmfs_copy_fnode. destruct (lmfs_fill_fnode s _) as [[s1 a1] r1] eqn:E. apply lmfs_fill_data in E.
    intros H. by injection H as <- _ _.
Qed.

#[export] Instance lmfs_reads : FsReads lmfs_st ldisk.
Proof.
  assert (forall s s', lmfs_static s' = lmfs_static s -> ldisk s' = ldisk s) as H by (intros s s' E; by injection E).
  split; intros; eapply H; [by eapply reads_block|by eapply reads_find|by eapply reads_copy].
Qed.

Lemma fat_step_data s s' b : __fat_get_data_block s = Ret (s', b) -> fdisk s' = fdisk s.
Proof.
  unfold __fat_get_data_block. destruct (buf_mutex (fsb s)); [done|]. destruct (clus_in_fat _ _) as [i j]. destruct (_ =? 0).
  - intros H. bind_inv. destruct x; bind_inv; subst; done.
  - destruct (_ && _); intros H; bind_inv; [destruct x|]; bind_inv; subst; done.
Qed.

Lemma fat_block_data s w s' b : fat_get_data_block s w = Ret (s', b) -> fdisk s' = fdisk s.
Proof.
  unfold fat_get_data_block. destruct (w =? VFS_NEXT_BLOCK).
  - intros H. bind_inv. destruct x as [s1 b1]. assert (fdisk s1 = fdisk s) as E.
    { destruct (_ =? FAT32); [by eapply fat_step_data|]. unfold fat12_16_get_data_block in H0. destruct (_ && _); [injection H0 as <- _; done|].
      destruct (_ =? 0); [injection H0 as <- _; done|by eapply fat_step_data]. }
    destruct (_ <=? _) in H; injection H as <- _; done.
  - repeat (destruct (_ : bool)); intros H; injection H as <- _; done.
Qed.

Lemma find_entry_data n : forall s name buf i e s' buf' r, find_entry n s name buf i e = Ret (s', buf', r) -> fdisk s' = fdisk s.
Proof.
  induction n as [|n IH]; intros s name buf i e s' buf' r; cbn [find_entry]; [intros H; by injection H as <- _ _|].
  destruct (_ || _); [apply IH|]. destruct (negb (byte_at name 11 =? 0)).
  - destruct (negb _); [apply IH|]. intros H. bind_inv. destruct x as [b1 r1]. destruct (r1 =? 0); [injection H as <- _ _; done|]. apply IH in H. done.
  - destruct (bool_decide _); [intros H; by injection H as <- _ _|apply IH].
Qed.

#[export] Instance fat_reads : FsReads fat_st fdisk.
Proof.
  split.
  - apply fat_block_data.
  - intros s a name buf s' a' r. cbn [find_file fat_dir]. unfold fat_find_file. intros H. bind_inv. destruct x as [[s1 b1] r1]. apply find_entry_data in H0.
    destruct r1 as [[i e]|]; [|injection H as <- _ _; done]. bind_inv. destruct x as [s2 c]. apply fat_block_data in H1. injection H as <- _ _. cbn. congruence.
  - intros s a s' a' r. cbn [copy_fnode fat_dir]. intros H. by injection H as <- _ _.
Qed.

(** ** The disks of the kernel *)

Section Disks.
Context {D : Type} (drv : tty_operations D).
Implicit Types g : kfs D.

Lemma same_disk (ds : disk_table) k dk d : ds !! k = Some dk -> d = d_data dk -> <[k := set_data dk d]> ds = ds.
Proof. intros H ->. apply list_insert_id. destruct dk. exact H. Qed.

Lemma with_vfs_disks {A} g i v op g' v' (r : A) : with_vfs g i v op = Ret (g', v', r) ->
  (forall FS (ops : FsOps FS) (dir : FsDir FS) (data : FS -> sectors), FsReads FS data -> forall f f' r, op FS ops f = Ret (f', r) -> data (v_fs f') = data (v_fs f)) ->
  ks_disks g' = ks_disks g.
Proof using.
  intros H Hop. unfold with_vfs in H. destruct (ks_sbs g !! i) as [[k b s|k b s|]|]; [| |destruct v; [done|done|]|done].
  1,2: destruct v as [f|f|f]; try done; destruct (ks_disks g !! k) as [dk|] eqn:Ek; [|done]; bind_inv; destruct x as [f' r']; injection H as <- _ _;
    cbn [set_shared ks_disks]; apply (same_disk _ k dk _ Ek).
  - exact (Hop _ _ _ _ lmfs_reads _ _ _ H0).
  - exact (Hop _ _ _ _ fat_reads _ _ _ H0).
  - bind_inv. destruct x as [f' r']. by injection H as <- _ _.
Qed.

Lemma with_node_disks {A} g i n op g' n' (r : A) : with_node g i n op = Ret (g', n', r) ->
  (forall FS (ops : FsOps FS) (dir : FsDir FS) (data : FS -> sectors), FsReads FS data -> forall s s' r, op FS ops dir s = Ret (s', r) -> data s' = data s) ->
  ks_disks g' = ks_disks g.
Proof using.
  intros H Hop. unfold with_node in H. destruct (ks_sbs g !! i) as [[k b s|k b s|]|]; [| |destruct n; [done|done|]|done].
  1,2: destruct n as [f|f|f]; try done; destruct (ks_disks g !! k) as [dk|] eqn:Ek; [|done]; bind_inv; destruct x as [f' r']; injection H as <- _ _;
    cbn [set_shared ks_disks]; apply (same_disk _ k dk _ Ek).
  - exact (Hop _ _ _ _ lmfs_reads _ _ _ H0).
  - exact (Hop _ _ _ _ fat_reads _ _ _ H0).
  - bind_inv. destruct x as [f' r']. by injection H as <- _ _.
Qed.

Lemma fnode_disks fuelb g name flag g' r : get_file_fnode fuelb g name flag = Ret (g', r) -> ks_disks g' = ks_disks g.
Proof using.
  unfold get_file_fnode. destruct (mount_tree g) as [tree|]; [|destruct (_ =? 0); [done|intros H; by injection H as <- _]].
  intros H. bind_inv. destruct x as [[mnt real]|]; [|by injection H as <- _]. destruct (root_fnode g _) as [[n a]|]; [|done]. bind_inv.
  destruct x as [[g1 n1] [nb a1]]. injection H as <- _. cbn [set_names ks_disks]. apply with_node_disks in H1; [done|].
  intros FS ops dir data R s s' [nb2 a2] H. bind_inv. destruct x as [[nb3 s3] a3]. injection H as <- _ _. by eapply file_fnode_data.
Qed.

Lemma open_disks fuelb g f name flag g' r : __sys_open drv fuelb g f name flag = Ret (g', r) -> ks_disks g' = ks_disks g.
Proof using.
  unfold __sys_open. intros H. bind_inv. destruct x as [g1 [[[i n] a]|]]; apply fnode_disks in H0; [|injection H as <- _; done].
  destruct (f =? 0); [injection H as <- _; done|]. destruct (a_type a =? DT_CHR).
  - bind_inv. destruct (negb (x =? tty_fops)); [done|]. bind_inv. destruct (drv_open drv (ks_drv g1) x0) as [d e]. destruct (negb (e =? 0)); injection H as <- _; done.
  - bind_inv. destruct x as [[g2 v] e]. apply with_vfs_disks in H1; [|intros FS ops dir data R fl fl' r' H'; unfold vfs_open in H'; by eapply load_block_data].
    destruct (negb (e =? 0)); [|injection H as <- _; cbn [set_file set_files ks_disks]; congruence]. bind_inv. subst.
    apply release_file_ok in H2 as (k & _ & [->| ->]); cbn [set_file set_files ks_disks]; congruence.
Qed.

(** The calls that have no reason to write. *)
Inductive read_call : kfs D -> kfs D -> Prop :=
  | rc_open g fuelb d f name flag g' d' r : _sys_open drv fuelb g d f name flag = Ret (g', d', r) -> read_call g g'
  | rc_close g d fd g' d' r : _sys_close g d fd = Ret (g', d', r) -> read_call g g'
  | rc_read g d m fd buffer size g' m' r : _sys_read drv g d m fd buffer size = Ret (g', m', r) -> read_call g g'
  | rc_seek g d fd off whence g' r : _sys_seek g d fd off whence = Ret (g', r) -> read_call g g'
  | rc_getdents g fuel d fd count g' l r : _sys_getdents fuel g d fd count = Ret (g', l, r) -> read_call g g'
  | rc_mmap g d m fd buffer size off g' m' r : fmmap g d m fd buffer size off = Ret (g', m', r) -> read_call g g'
  | rc_stat g fuelb f path g' st r : _sys_stat drv fuelb g f path = Ret (g', st, r) -> read_call g g'
  | rc_access g fuelb name flag g' r : _sys_access fuelb g name flag = Ret (g', r) -> read_call g g'
  | rc_chdir g fuelb t path g' t' r : sys_chdir fuelb g t path = Ret (g', t', r) -> read_call g g'.

Lemma read_disks g f m b n g' m' r : kernel_read drv g f m b n = Ret (g', m', r) -> ks_disks g' = ks_disks g.
Proof using.
  unfold kernel_read. intros H. bind_inv. destruct (k_body x) as [v|t].
  - bind_inv. destruct x0 as [[g1 v1] r1]. injection H as <- _ _. cbn [set_file set_files ks_disks]. apply with_vfs_disks in H1; [done|].
    intros FS ops dir data R fl fl' [m1 r2] H. bind_inv. destruct x0 as [[f3 m3] r3]. injection H as <- _ _. by eapply read_data.
  - destruct (get_chars drv (ks_drv g) t n) as [[d bs] r1]. by injection H as <- _ _.
Qed.

Lemma seek_disks g f off w g' r : kernel_seek g f off w = Ret (g', r) -> ks_disks g' = ks_disks g.
Proof using.
  unfold kernel_seek. intros H. bind_inv. destruct (k_body x) as [v|t]; [|done]. bind_inv. destruct x0 as [[g1 v1] r1]. injection H as <- _.
  cbn [set_file set_files ks_disks]. apply with_vfs_disks in H1; [done|]. intros FS ops dir data R fl fl' r2 H. by eapply seek_data.
Qed.

Lemma getdents_disks fuel g d fd count g' l r : _sys_getdents fuel g d fd count = Ret (g', l, r) -> ks_disks g' = ks_disks g.
Proof using.
  unfold _sys_getdents. intros H. bind_inv. destruct (x =? 0); [by injection H as <- _ _|]. bind_inv. destruct (k_body x0) as [v|t]; [|by injection H as <- _ _]. bind_inv.
  destruct x1 as [[g1 v1] r1]. injection H as <- _ _. cbn [set_file set_files ks_disks]. apply with_vfs_disks in H2; [done|].
  intros FS ops dir data R fl fl' [l1 r2] H. bind_inv. destruct x1 as [[f3 l3] r3]. injection H as <- _ _. by eapply getdents_data.
Qed.

Lemma mmap_disks g d m fd b n off g' m' r : fmmap g d m fd b n off = Ret (g', m', r) -> ks_disks g' = ks_disks g.
Proof using.
  unfold fmmap. intros H. bind_inv. destruct (x =? 0); [by injection H as <- _ _|]. bind_inv. destruct (k_body x0) as [v|t]; [|done]. bind_inv.
  destruct x1 as [[g1 v1] r1]. injection H as <- _ _. cbn [set_file set_files ks_disks]. apply with_vfs_disks in H2; [done|].
  intros FS ops dir data R fl fl' [m1 r2] H. bind_inv. destruct x1 as [[f3 m3] r3]. injection H as <- _ _. by eapply mmap_data.
Qed.

(** C16: opening, closing, reading, seeking, listing, mapping, asking for the state of a file
    and changing the directory leave every sector of every disk as it is, on every file
    system. *)
Theorem read_calls_keep_disks g g' (C : read_call g g') : ks_disks g' = ks_disks g.
Proof using.
  inversion C as [? ? ? ? ? ? ? ? ? H|? ? ? ? ? ? H|? ? ? ? ? ? ? ? ? H|? ? ? ? ? ? ? H|? ? ? ? ? ? ? ? H|? ? ? ? ? ? ? ? ? ? H|? ? ? ? ? ? ? H|? ? ? ? ? ? H|? ? ? ? ? ? ? H]; subst.
  - unfold _sys_open in H. destruct (zfirst _ _ _); [|by injection H as <- _ _]. bind_inv. destruct x as [g1 f1]. apply open_disks in H0.
    destruct (Path._sys_open d f1) as [d1 r1]. injection H as <- _ _. done.
  - unfold _sys_close in H. bind_inv. destruct (x =? 0); [by injection H as <- _ _|]. bind_inv. destruct x1 as [d1 r1]. injection H as <- _ _.
    by apply release_file_ok in H1 as (k & _ & [->| ->]).
  - unfold _sys_read in H. bind_inv. destruct (_ || _); [by injection H as <- _ _|by eapply read_disks].
  - unfold _sys_seek in H. bind_inv. destruct (_ || _); [by injection H as <- _|by eapply seek_disks].
  - by eapply getdents_disks.
  - by eapply mmap_disks.
  - unfold _sys_stat in H. bind_inv. destruct x as [g1 f1]. apply open_disks in H0. destruct (f1 =? 0); [injection H as <- _ _; done|]. bind_inv. destruct x0 as [g2 r2].
    injection H as <- _ _. unfold kernel_close in H2. bind_inv. destruct (k_body x0); [|done]. injection H2 as <- _. done.
  - unfold _sys_access in H. bind_inv. destruct x as [g1 [f1|]]; apply fnode_disks in H0; injection H as <- _; done.
  - unfold sys_chdir in H. destruct (_ && _); [by injection H as <- _ _|]. bind_inv. destruct x as [g1 [c|]]; apply fnode_disks in H0; [destruct (255 <? _); [done|]|];
      injection H as <- _ _; done.
Qed.
End Disks.
