(* ===== verification/FileBoot.v ===== *)
(** * From an image to a descriptor (tools/mklmfs, kernel/disk.c, fs)

    The kernel mounts the image of mklmfs as its root and devfs on /dev; every file of the
    image can then be opened by its path and read through a descriptor. *)

From S2P Require Import Prelude Bitops Dlist CString Disk Vfs VfsSpec Lmfs LmfsSpec Path PathSpec Mklmfs MklmfsSpec MklmfsTree MklmfsMount Fat Devfs DevfsSpec File FileSpec FileReads.

(** ** The root directory of an image *)

Lemma stored_lacks d l p : forall es, stored d 1 32 7 256 l es -> entry_of l p = None -> Forall (fun e : dent => e.1.1 <> p) es.
Proof.
  induction l as [|name c rest IH|name o sub _ rest IH]; intros es; cbn [stored entry_of]; [by intros ->| |]; (destruct (skipped name); [apply IH|]).
  - intros (i & es' & -> & _ & _ & Hs) E. destruct (decide (name = p)); [done|]. constructor; [done|by apply IH].
  - intros (i & es' & sub_es & -> & _ & _ & Hs) E. destruct (decide (name = p)); [done|]. constructor; [done|by apply IH].
Qed.

Lemma dir_find_none es k p : Forall ent_name_ok es -> Forall (fun e : dent => e.1.1 <> p) es -> p <> [] -> dir_find (concat (dent_bytes <$> es) ++ zeros k) p = None.
Proof.
  intros Hes Hno Hp. unfold dir_find. destruct (zfirst _ _ _) as [m|] eqn:E; [|done]. exfalso. apply zfirst_Some in E as (Hm & E & _). apply bool_decide_eq_true in E.
  destruct (dir_entry_at es k Hes (Z.to_nat m)) as [r Hr]. rewrite Z2Nat.id in Hr by lia. rewrite Hr in E. destruct (es !! Z.to_nat m) as [e|] eqn:Ee.
  - rewrite (dent_name e r) in E by exact (Forall_lookup_1 _ _ _ _ Hes Ee). by apply (Forall_lookup_1 _ _ _ _ Hno Ee).
  - unfold entry_name in E. destruct (k - _)%nat; done.
Qed.

Lemma file_kept d l es dn ps c : stored d 1 32 7 256 l es -> fits dn l -> file_at l ps = Some c -> 0 < kept l.
Proof.
  intros St Hf Hat. destruct (stored_names d l dn es St Hf) as [_ Hle]. destruct ps as [|p ps]; [done|].
  destruct (entry_of l p) as [it|] eqn:Eit; [|cbn [file_at] in Hat; rewrite Eit in Hat; by destruct ps].
  destruct (stored_find d l p it es St Eit) as (j & ? & ? & Hj & _). destruct es; [done|]. cbn [length] in Hle. lia.
Qed.

Section Root.
Context (d : sectors) (W : disk_wf d) (sb : lmfs_super_block) (Hsb : fnode_start_block sb = 3).
Context (l : listing) (es : list dent) (dn : list Z) (Dn : dir_node d 7 256 0 es) (St : stored d 1 32 7 256 l es) (Hf : fits dn l) (Hk : kept l < 16).

Lemma root_lacks p : entry_of l p = None -> p <> [] -> 0 < kept l ->
  exists nd a0, lmfs_fill_fnode (img d sb (fst lmfs_get_root_fnode)) 0 = (img d sb nd, Some a0, 0) /\ dir_at (img d sb nd) /\ dir_lacks (img d sb nd) p.
Proof using W Hsb Dn St Hf.
  intros Hp Hne H0. destruct (stored_names d l dn es St Hf) as [Hn Hl].
  destruct (open_dir d W sb Hsb (fst lmfs_get_root_fnode) 0 es Dn) as (nd & a & k & E & _ & Da & L1 & Eb); [by destruct es; [simpl in Hl; lia|]|lia|].
  exists nd, a. split; [done|]. split; [done|]. intros c Hc. replace c with 0%nat by lia. rewrite Eb. apply dir_find_none; [done|by apply (stored_lacks d l p)|done].
Qed.

Lemma root_dir p sub : entry_of l p = Some (IDir true sub) -> 0 < kept sub ->
  exists nd a0 s a, lmfs_fill_fnode (img d sb (fst lmfs_get_root_fnode)) 0 = (img d sb nd, Some a0, 0) /\ path_walk (img d sb nd) [p] s a /\ part_ok p /\ a_type a = DT_DIR.
Proof using W Hsb Dn St Hf Hk.
  intros Hp H0. destruct (stored_find d l p _ es St Hp) as (j & t & i & Hj & Hfirst & Hi & _ & sub_es & Ds & Ss). destruct (stored_names d l dn es St Hf) as [Hn Hl].
  destruct (fits_sub dn l p sub Hf Hp) as [_ [dn' Hf']]. destruct (stored_names d sub dn' sub_es Ss Hf') as [_ Hls].
  pose proof (Forall_lookup_1 _ _ _ _ Hn Hj) as [(Hpart & _) _]. cbn [fst] in Hpart.
  destruct (open_dir d W sb Hsb (fst lmfs_get_root_fnode) 0 es Dn) as (nd & a0 & k & E & _ & Da & L1 & Eb); [by intros ->|lia|].
  destruct (open_dir d W sb Hsb nd i sub_es Ds) as (nd' & a & k' & E' & Ta & _); [by destruct sub_es; [simpl in Hls; lia|]|lia|].
  destruct (dir_find_entry es k p t i j Hn ltac:(lia) Hj Hfirst (proj1 Hpart)) as [Ef Ei]. rewrite <- Eb in Ef, Ei.
  exists nd, a0, (img d sb nd'), a. split; [done|]. split; [|done]. apply walk_last; [done|]. exists 0%nat, (Z.of_nat j). rewrite L1, Ei. split; [lia|]. split; [done|]. split; [lia|done].
Qed.
End Root.

(** ** Names on the root *)

Lemma not_mounted root ms name : Forall (fun m => is_prefix (path m) name = false) ms -> get_mount_point root ms name = root.
Proof.
  intros H. unfold get_mount_point. assert (forall b, foldl (mount_step name) b ms = b) as E; [|by rewrite E].
  induction H as [|m ms Hm _ IH]; intros [b n]; [done|]. cbn [foldl mount_step]. rewrite Hm, andb_false_r. apply IH.
Qed.

(** A part that does not start with a dot; the check of names takes one away. *)
Definition no_dot (ps : list (list Z)) : Prop := match ps with (c :: _) :: _ => c <> dot | _ => True end.

Lemma resolve_root i ms p ps : part_ok p -> no_dot (p :: ps) -> Forall (fun m => is_prefix (path m) (slash :: join (p :: ps)) = false) ms ->
  resolve (Mount [slash] i, ms) (slash :: join (p :: ps)) = Ret (Some (Mount [slash] i, join (p :: ps))).
Proof.
  intros Hp Hd Hm. unfold resolve. cbn [check_file_name fst snd]. change (slash =? dot) with false. cbn [andb negb Z.eqb]. rewrite not_mounted by done.
  change (slash =? slash) with true. cbv iota. unfold get_file_fs_name. cbn [path is_prefix]. rewrite Z.eqb_refl. cbn [andb length drop].
  destruct (join_nonempty p ps Hp) as (c & r & Ej). destruct p as [|c' p]; [by destruct Hp|]. assert (c' = c) as -> by (destruct ps; by injection Ej).
  rewrite drop_0, Ej. simpl in Hd. rewrite (proj2 (Z.eqb_neq c dot) Hd). destruct Hp as (_ & Hs & _). cbn [skip_slashes].
  rewrite (proj2 (Z.eqb_neq c slash)); [done|]. intros ->. apply Hs. left.
Qed.

Section Boot.
Context {D : Type} (drv : tty_operations D).
Implicit Types g : kfs D.

(** The root is the image [d] with the super block [sb]; a name buffer is free. *)
Record root_on g (d : sectors) (sb : lmfs_super_block) (ms : list mount_point) : Prop := {
  ro_tree : mount_tree g = Some (Mount [slash] 0, ms);
  ro_sb : ks_sbs g !! 0%nat = Some (LSb 0 first_bdev sb);
  ro_disk : exists dk, ks_disks g !! 0%nat = Some dk /\ d_data dk = d;
  ro_names : exists k, 0 <= k < 8 /\ read_bit (ks_names g) iname_buffer k = 0 }.

Lemma set_shared_id g i sb ds : ks_sbs g !! i = Some sb -> ds = ks_disks g -> set_shared g i sb ds = g.
Proof using. intros H ->. unfold set_shared. rewrite list_insert_id by done. by destruct g. Qed.

Lemma lmfs_state s d b sb : lmfs_static s = (d, b, sb) -> s = LmfsSt d b sb (lnode s).
Proof using. destruct s. intros H. by injection H as -> -> ->. Qed.

(** A lookup on the root changes the name buffers only. *)
Lemma root_fnode_get g d sb ms p ps s a flag nb : root_on g d sb ms -> part_ok p -> no_dot (p :: ps) ->
  Forall (fun m => is_prefix (path m) (slash :: join (p :: ps)) = false) ms ->
  _get_file_fnode (S (length (slash :: join (p :: ps)))) (Z.to_nat 1024) (ks_names g) (img d sb (fst lmfs_get_root_fnode)) (snd lmfs_get_root_fnode) flag (join (p :: ps)) =
    Ret (nb, s, Some a) -> (forall i, 0 <= i < 8 -> read_bit nb iname_buffer i = read_bit (ks_names g) iname_buffer i) ->
  get_file_fnode (Z.to_nat 1024) g (slash :: join (p :: ps)) flag = Ret (set_names g nb, Some (0%nat, LNode (lnode s), a)) /\
    lmfs_static s = (d, first_bdev, sb) /\ root_on (set_names g nb) d sb ms.
Proof using.
  intros [Rt Rs (dk & Rd & Ed) (k & Hk & Rn)] Hp Hd Hm El Hnb. set (name := slash :: join (p :: ps)) in *.
  assert (lmfs_static s = (d, first_bdev, sb)) as Hst by exact (file_fnode_data lmfs_static _ _ _ _ _ _ _ _ _ _ El).
  split; [|split; [done|]].
  - pose proof (resolve_root 0 ms p ps Hp Hd Hm) as Er. fold name in Er. unfold get_file_fnode. rewrite Rt, Er, Ret_bind. change (Z.to_nat (mnt_sb (Mount [slash] 0))) with 0%nat.
    unfold root_fnode. rewrite Rs. unfold with_node. rewrite Rs, Rd, Ed. change (LmfsFnode 0 [] [] 0 0 0 0 0 0) with (fst lmfs_get_root_fnode). cbn [lmfs_get_root_fnode fst].
    change (LmfsSt d first_bdev sb _) with (img d sb (fst lmfs_get_root_fnode)). cbn beta. fold name. change (FAttr 0 0 0 0 0 4096 0) with (snd lmfs_get_root_fnode).
    rewrite El, !Ret_bind. injection Hst as Es1 _ Es3. rewrite Es1, Es3. rewrite (same_disk _ 0%nat dk d Rd) by done. by rewrite set_shared_id.
  - split; [done|done|by exists dk|]. exists k. split; [done|]. cbn [set_names ks_names]. by rewrite Hnb.
Qed.

Lemma length_join p ps : Forall part_ok (p :: ps) -> (length (p :: ps) <= length (join (p :: ps)))%nat.
Proof using.
  revert p. induction ps as [|q ps IH]; intros p [Hp Hps]%Forall_cons; (destruct p as [|c p]; [by destruct Hp|]); [simpl; lia|].
  change (join ((c :: p) :: q :: ps)) with ((c :: p) ++ slash :: join (q :: ps)). rewrite length_app. specialize (IH q Hps). cbn [length] in *. lia.
Qed.

Lemma root_fnode_walk g d sb ms p ps nd a0 s a flag : root_on g d sb ms ->
  lmfs_fill_fnode (img d sb (fst lmfs_get_root_fnode)) 0 = (img d sb nd, Some a0, 0) -> path_walk (img d sb nd) (p :: ps) s a ->
  Forall part_ok (p :: ps) -> no_dot (p :: ps) -> wanted_type flag a -> Forall (fun m => is_prefix (path m) (slash :: join (p :: ps)) = false) ms ->
  exists nb, get_file_fnode (Z.to_nat 1024) g (slash :: join (p :: ps)) flag = Ret (set_names g nb, Some (0%nat, LNode (lnode s), a)) /\
    lmfs_static s = (d, first_bdev, sb) /\ root_on (set_names g nb) d sb ms.
Proof using.
  intros R E Wk Hps Hd Ht Hm. destruct (ro_names _ _ _ _ R) as (k & Hk & Rn). pose proof (length_join p ps Hps) as Hl.
  destruct (root_walk d sb nd a0 (p :: ps) s a (ks_names g) k flag (S (length (slash :: join (p :: ps)))) E Wk Hps Ht ltac:(cbn [length] in *; lia) Hk Rn) as (nb & El & Hnb).
  exists nb. by apply root_fnode_get; [|exact (Forall_inv Hps)|..].
Qed.

(** A name of one part that the root directory does not have gives the directory itself. *)
Lemma root_fnode_missing g d sb ms p nd a0 flag : root_on g d sb ms ->
  lmfs_fill_fnode (img d sb (fst lmfs_get_root_fnode)) 0 = (img d sb nd, Some a0, 0) -> dir_at (img d sb nd) -> dir_lacks (img d sb nd) p ->
  part_ok p -> no_dot [p] -> Z.land O_CREAT flag = 0 -> Forall (fun m => is_prefix (path m) (slash :: p) = false) ms ->
  exists nb n a, get_file_fnode (Z.to_nat 1024) g (slash :: p) flag = Ret (set_names g nb, Some (0%nat, n, a)) /\ root_on (set_names g nb) d sb ms.
Proof using.
  intros R E Dd Hno Hp Hd Hc Hm. destruct (ro_names _ _ _ _ R) as (k & Hk & Rn). destruct (iname_free (ks_names g) k Hk Rn) as (nb1 & i & Eb).
  destruct (iname_get_put (ks_names g) nb1 i Eb) as (_ & _ & _ & Hput).
  destruct (lookup_part (img d sb nd) p a0 (Z.to_nat 1024) (part_type flag []) Dd Hp) as (b & Eb0 & Hb & Hmiss & _); [destruct Dd as (_ & _ & ?); lia|].
  exists (put_iname_buffer nb1 i). eexists _, _. pose proof (root_fnode_get g d sb ms p [] (lm_at (img d sb nd) (Z.of_nat (length (lm_ids (img d sb nd))))) a0 flag (put_iname_buffer nb1 i) R Hp Hd Hm) as G.
  destruct G as (G1 & _ & G2); [|exact Hput|split; [exact G1|exact G2]]. change (join [p]) with p.
  unfold _get_file_fnode. cbn [copy_fnode lmfs_dir lnode fnode_index fst snd lmfs_get_root_fnode img]. unfold lmfs_copy_fnode.
  change (LmfsSt d first_bdev sb ?x) with (img d sb x). change (fst lmfs_get_root_fnode) with (LmfsFnode 0 [] [] 0 0 0 0 0 0) in E. rewrite E. cbn [negb Z.eqb default].
  destruct p as [|c p]; [by destruct Hp|]. set (q := c :: p) in *. unfold __get_file_fnode. rewrite Eb. cbn [lookup_loop].
  rewrite (find_name_join q [] Hp ltac:(done) : find_file_name q = Some (q, [])). change (get_data_block ?x ?y) with (Ret (lmfs_get_data_block x y)). rewrite Ret_bind, Eb0, (part_short q Hp), (proj2 (Z.eqb_neq b 0) Hb).
  cbn [parse_name lmfs_dir]. rewrite ret_bind. change (id a0) with a0. rewrite (Hmiss Hno), Ret_bind. cbn [negb Z.eqb orb]. rewrite !ret_bind, Hc. cbn [Z.eqb negb]. rewrite andb_false_r. done.
Qed.

Lemma vmap_back (f : vfile lmfs_st) d b sb : lmfs_static (v_fs f) = (d, b, sb) -> vmap (LmfsSt d b sb) (vmap lnode f) = f.
Proof using. intros H. destruct f as [[d' b' sb' n] o p ds bs bf cb bc t]. cbn in H. injection H as -> -> ->. done. Qed.

(** An operation that does not write, on a file of the root. *)
Lemma root_vfs {A} g d sb ms (f f' : vfile lmfs_st) (op : forall FS (ops : FsOps FS), vfile FS -> outcome (vfile FS * A)) (r : A) : root_on g d sb ms -> lmfs_static (v_fs f) = (d, first_bdev, sb) ->
  op lmfs_st lmfs_ops f = Ret (f', r) -> lmfs_static (v_fs f') = (d, first_bdev, sb) -> with_vfs g 0 (VL (vmap lnode f)) op = Ret (g, VL (vmap lnode f'), r).
Proof using.
  intros [_ Rs (dk & Rd & Ed) _] Hs Ho Hs'. unfold with_vfs. rewrite Rs, Rd, Ed, (vmap_back f d first_bdev sb Hs), Ho, Ret_bind.
  injection Hs' as E1 _ E3. rewrite E1, E3, (same_disk _ 0%nat dk d Rd) by done. by rewrite set_shared_id.
Qed.

(** The descriptor that is taken next. *)
Definition lowest_free (d : file_desc) (fd : Z) : Prop := zfirst (Z.to_nat FILE_OPENS) 0 (fun i => word_at (file_open d) i =? 0) = Some fd.

Lemma desc_taken d fd f : lowest_free d fd -> length (file_open d) = Z.to_nat FILE_OPENS -> f <> 0 ->
  exists d', Path._sys_open d f = (d', fd) /\ fd_to_file d' fd = Ret f /\ length (file_open d') = Z.to_nat FILE_OPENS.
Proof using.
  intros H Hl Hf. unfold Path._sys_open. unfold lowest_free in H. rewrite H, (proj2 (Z.eqb_neq f 0) Hf). apply zfirst_Some in H as (Hr & _).
  change (0 + Z.of_nat (Z.to_nat FILE_OPENS)) with 64 in Hr. eexists. split; [reflexivity|]. unfold fd_to_file. change FILE_OPENS with 64 in *. cbn [file_open]. rewrite length_insert.
  rewrite (proj2 (Z.ltb_ge 64 fd)), (proj2 (Z.leb_le 0 fd)), (proj2 (Z.ltb_lt fd 64)) by lia. cbn [andb]. unfold word_at.
  rewrite list_lookup_insert_eq by (rewrite Hl; lia). done.
Qed.

Lemma root_file_read g d sb ms s a c f fl m buffer size nb name : root_on (set_names g nb) d sb ms -> opened_file s a c -> lmfs_static s = (d, first_bdev, sb) ->
  get_file_fnode (Z.to_nat 1024) g name fl = Ret (set_names g nb, Some (0%nat, LNode (lnode s), a)) -> f <> 0 ->
  0 < size < 2147483648 -> Z.min size (Z.of_nat (length c)) mod 4096 <> 0 ->
  exists g2 g3 m', __sys_open drv (Z.to_nat 1024) g f name fl = Ret (g2, f) /\
    kernel_read drv g2 f m buffer size = Ret (g3, m', Z.min size (Z.of_nat (length c))) /\
    wrote m m' buffer (take (Z.to_nat (Z.min size (Z.of_nat (length c)))) c) /\ root_on g3 d sb ms.
Proof using.
  intros Ro O Hst Eg Hf Hs Hm. destruct (read_opened s a c m buffer size O Hs Hm) as (f1 & f2 & m' & E1 & E2 & Wr).
  assert (lmfs_static (v_fs f1) = (d, first_bdev, sb)) as Hs1 by (rewrite <- Hst; exact (load_block_data lmfs_static _ _ _ _ E1)).
  assert (lmfs_static (v_fs f2) = (d, first_bdev, sb)) as Hs2 by (rewrite <- Hs1; exact (read_data lmfs_static _ _ _ _ _ _ _ E2)).
  pose proof (root_vfs _ d sb ms (file_of s a) f1 (fun FS ops v => vfs_open v) 0 Ro Hst E1 Hs1) as W1.
  set (g1 := set_names g nb) in *. set (k1 := KFile fl 0 a (BVfs (VL (vmap lnode f1)))). set (g2 := set_file g1 f k1). assert (root_on g2 d sb ms) as R2 by (destruct Ro; by split).
  assert (with_vfs g2 0 (VL (vmap lnode f1)) (fun FS ops v => '(v, m, r) ← vfs_read v m buffer size; mret (v, (m, r))) = Ret (g2, VL (vmap lnode f2), (m', Z.min size (Z.of_nat (length c))))) as W2.
  { apply (root_vfs _ d sb ms); try done. by rewrite E2, Ret_bind. }
  exists g2. eexists _, m'. split; [|split; [|split; [exact Wr|]]].
  - unfold __sys_open. rewrite Eg, Ret_bind, (proj2 (Z.eqb_neq f 0) Hf). destruct O as (_ & _ & -> & _). change (DT_BLK =? DT_CHR) with false. cbv iota.
    change (new_vfile (LNode (lnode s)) a) with (VL (vmap lnode (file_of s a))). rewrite W1, Ret_bind. reflexivity.
  - unfold kernel_read. rewrite (proj2 (file_of_addr_Ret g2 f k1)) by (unfold g2, set_file, set_files; cbn [ks_files]; apply lookup_insert_eq).
    rewrite Ret_bind. cbn [k_body k1 k_sb]. rewrite W2, Ret_bind. reflexivity.
  - destruct R2. by split.
Qed.

(** ** Booting *)

Definition dev_part : list Z := [100; 101; 118].

(** The tree has no dev, or a directory dev that is not empty. *)
Definition dev_dir (l : listing) : Prop := entry_of l dev_part = None \/ exists sub, entry_of l dev_part = Some (IDir true sub) /\ 0 < kept sub.

Lemma dev_access g d sb l es dn : root_on g d sb [] -> disk_wf d -> fnode_start_block sb = 3 -> dir_node d 7 256 0 es -> stored d 1 32 7 256 l es ->
  fits dn l -> kept l < 16 -> 0 < kept l -> dev_dir l -> exists nb, _sys_access (Z.to_nat 1024) g slash_dev O_DIRECTORY = Ret (set_names g nb, 0) /\ root_on (set_names g nb) d sb [].
Proof using.
  intros R W Hsb Dn St Hf Hk H0 [Hno|(sub & Hd & Hs)]; unfold _sys_access.
  - destruct (root_lacks d W sb Hsb l es dn Dn St Hf dev_part Hno) as (nd & a0 & E & Da & Hl); [done|done|].
    destruct (root_fnode_missing g d sb [] dev_part nd a0 O_DIRECTORY R E Da Hl) as (nb & n & a & Eg & R'); [|done|done|done|].
    { split; [done|]. split; [|by cbn; lia]. unfold dev_part, slash. rewrite !elem_of_cons, elem_of_nil. lia. }
    change (slash :: dev_part) with slash_dev in Eg. exists nb. by rewrite Eg, Ret_bind.
  - destruct (root_dir d W sb Hsb l es dn Dn St Hf Hk dev_part sub Hd Hs) as (nd & a0 & s & a & E & Wk & Hp & Ta).
    destruct (root_fnode_walk g d sb [] dev_part [] nd a0 s a O_DIRECTORY R E Wk) as (nb & Eg & _ & R'); [by apply Forall_singleton|done|by unfold wanted_type; rewrite Ta|done|].
    change (slash :: join [dev_part]) with slash_dev in Eg. exists nb. by rewrite Eg, Ret_bind.
Qed.

(** The disk table after the memory disk is registered. *)
Definition boot_disks (nm : list Z) (d : sectors) : disk_table := fst (register_disk [] nm d).

Lemma mount_init_ok head nm d sb tt dr l es dn : lmfs_fill_super d first_bdev = inl sb ->
  lookup_filesystem head lmfs_name = Some lmfs -> lookup_filesystem head devfs_name = Some devfs_fs ->
  disk_wf d -> fnode_start_block sb = 3 -> dir_node d 7 256 0 es -> stored d 1 32 7 256 l es -> fits dn l -> kept l < 16 -> 0 < kept l -> dev_dir l ->
  exists g, mount_init (Z.to_nat 1024) (boot_fs head (boot_disks nm d) tt init_iname_buffer dr : kfs D) = Ret g /\
    root_on g d sb [Mount slash_dev 1] /\ ks_sbs g !! 1%nat = Some DSb /\ ks_tty g = tt /\ ks_files g = ∅ /\ ks_drv g = dr.
Proof using.
  intros Esb Hl Hdv W Hsb Dn St Hf Hk H0 Hdev. set (g1 := Kfs head (boot_disks nm d) [LSb 0 first_bdev sb] (Some (Mount [slash] 0, [])) tt init_iname_buffer ∅ dr : kfs D).
  assert (root_on g1 d sb []) as R1.
  { split; [done|done|eexists; split; [reflexivity|done]|]. exists 0. split; [lia|done]. }
  destruct (dev_access g1 d sb l es dn R1 W Hsb Dn St Hf Hk H0 Hdev) as (nb & Ea & R2).
  unfold mount_init, mount_root. assert (sys_mount (Z.to_nat 1024) (Kfs head (boot_disks nm d) [] None tt init_iname_buffer ∅ dr) disk0p0 [slash] lmfs_name 0 = Ret (g1, 0)) as E1.
  { unfold sys_mount. change (Z.land 0 MS_NODEV =? 0) with true. cbv iota. cbn [ks_disks filesystem_head].
    change (get_bdev_by_name (boot_disks nm d) disk0p0) with (Some (0%nat, first_bdev)). cbv iota. rewrite Hl. unfold do_mount. rewrite bool_decide_eq_true_2 by done.
    rewrite ret_bind. cbn [negb Z.eqb fs_fops lmfs fill_super]. change (ks_disks _ !! 0%nat) with (boot_disks nm d !! 0%nat).
    change (boot_disks nm d !! 0%nat) with (Some (set_disk_name (Disk [] d (<[0%nat := Some first_bdev]> (replicate (Z.to_nat DISK_MAX_PARTITIONS) None)) (4096 / 512) 1 512 2048) nm)).
    cbv iota. change (d_data _) with d. rewrite Esb, ret_bind. done. }
  cbn [filesystem_head boot_fs ks_disks ks_sbs ks_tty ks_names ks_files ks_drv]. rewrite E1, Ret_bind. cbn [Z.eqb].
  eexists. split; [|split; [|split; [|split; [|split]]]].
  - unfold sys_mount. change (Z.land MS_NODEV MS_NODEV =? 0) with false. cbv iota. change (filesystem_head g1) with head. rewrite Hdv. unfold do_mount.
    rewrite bool_decide_eq_false_2 by done. rewrite Ea, Ret_bind. cbn [negb Z.eqb fs_fops devfs_fs fill_super]. rewrite !ret_bind. reflexivity.
  - destruct R2 as [_ _ R3 R4]. split; [done|done|exact R3|exact R4].
  - done.
  - done.
  - done.
  - done.
Qed.

(** C11: the kernel boots from the image of a directory tree: mklmfs packs it, the memory disk
    holds it, mount_init mounts it as the root and devfs on /dev.  A task that opens a file of
    the tree by its path, outside /dev, gets its lowest free descriptor, and reading from
    that gives the contents the file was packed with. *)
Theorem boot_open_read dir_name l ps c head nm tt dr desc fd f m buffer size
    (Hi : inodes l < 32) (Hb : dir_blocks l + blocks l <= 249) (Hk : kept l < 16) (Hf : fits dir_name l) (Hdev : dev_dir l)
    (Hl : lookup_filesystem head lmfs_name = Some lmfs) (Hdv : lookup_filesystem head devfs_name = Some devfs_fs)
    (Hat : file_at l ps = Some c) (Hdot : no_dot ps) (Hout : is_prefix slash_dev (slash :: join ps) = false)
    (Hfd : lowest_free desc fd) (Hlen : length (file_open desc) = Z.to_nat FILE_OPENS) (Hfa : f <> 0)
    (Hs : 0 < size < 2147483648) (Hm : Z.min size (Z.of_nat (length c)) mod 4096 <> 0) :
  exists image g1 g2 desc2 g3 m', mklmfs dir_name true l = Ret (Some image) /\
    mount_init (Z.to_nat 1024) (boot_fs head (boot_disks nm (ramdisk image)) tt init_iname_buffer dr : kfs D) = Ret g1 /\
    _sys_open drv (Z.to_nat 1024) g1 desc f (slash :: join ps) 0 = Ret (g2, desc2, fd) /\
    _sys_read drv g2 desc2 m fd buffer size = Ret (g3, m', Z.min size (Z.of_nat (length c))) /\
    wrote m m' buffer (take (Z.to_nat (Z.min size (Z.of_nat (length c)))) c).
Proof using.
  destruct (image_loads dir_name l Hi Hb Hk Hf) as (image & n & b & es & Em & R & Hn & Hbp & Dn & St).
  destruct (mount_ok _ n b R Hn Hbp) as (sb & Esb & Hsb). pose proof (me_wf _ (rd_meta _ _ _ R)) as Wd. clear R.
  destruct (walk_file _ Wd sb Hsb c ps l es 0 (fst lmfs_get_root_fnode) dir_name Dn St Hf Hk Hat) as (nd & a0 & s & a & E & Ea & Wk & Hps & O); [lia|].
  pose proof (file_kept _ l es dir_name ps c St Hf Hat) as H0.
  destruct (mount_init_ok head nm (ramdisk image) sb tt dr l es dir_name Esb Hl Hdv Wd Hsb Dn St Hf Hk H0 Hdev) as (g1 & E1 & R1 & _).
  destruct ps as [|p ps]; [by inversion Wk|].
  destruct (root_fnode_walk g1 _ sb _ p ps nd a0 s a 0 R1 E Wk Hps Hdot (file_wanted s a c O)) as (nb & Eg & Hst & R2); [by apply Forall_singleton|].
  destruct (root_file_read g1 _ sb _ s a c f 0 m buffer size nb _ R2 O Hst Eg Hfa Hs Hm) as (g2 & g3 & m' & Eo & Er & Wr & _).
  destruct (desc_taken desc fd f Hfd Hlen Hfa) as (desc2 & Ed & Efd & _).
  exists image, g1, g2, desc2, g3, m'. split; [exact Em|]. split; [exact E1|]. clear Em Esb Wd Dn St Hsb E. split; [|split; [|exact Wr]].
  - unfold _sys_open. unfold lowest_free in Hfd. rewrite Hfd, Eo, Ret_bind, Ed. reflexivity.
  - unfold _sys_read. rewrite Efd, Ret_bind, (proj2 (Z.leb_gt size 0)), (proj2 (Z.eqb_neq f 0) Hfa) by lia. exact Er.
Qed.
End Boot.

(** ** Examples *)

Module FileDemo.
(** A driver whose terminals have nothing to read and take everything. *)
Definition drv : tty_operations (list Z) :=
  {| drv_open := fun d _ => (d, 0); put_chars := fun d _ s => (d ++ s, Z.of_nat (length s)); get_chars := fun d _ _ => (d, [], 0) |}.

(** devfs is the root; a task opens the terminal ttyS0 twice. *)
Definition g0 : kfs (list Z) := boot_fs [devfs_fs] [] DevDemo.ts2 init_iname_buffer [].
Definition r1 := sys_mount 4 g0 devfs_name [slash] devfs_name MS_NODEV.
Definition g1 : kfs (list Z) := fst (result (g0, 0) r1).
Definition r2 := _sys_open drv 4 g1 zero_desc 4096 (slash :: tty_name 0) O_RDWR.
Definition g2 : kfs (list Z) := fst (fst (result (g1, zero_desc, 0) r2)).
Definition d2 : file_desc := snd (fst (result (g1, zero_desc, 0) r2)).
Definition r3 := _sys_open drv 4 g2 d2 8192 (slash :: tty_name 0) O_RDWR.
Definition g3 : kfs (list Z) := fst (fst (result (g2, d2, 0) r3)).
Definition d3 : file_desc := snd (fst (result (g2, d2, 0) r3)).

Lemma mounted : call drv (g0, [zero_desc]) (g1, [zero_desc]).
Proof. eapply c_mount. unfold g1. erewrite <- surjective_pairing. apply returns_result. by vm_compute. Qed.
Lemma opened1 : call drv (g1, [zero_desc]) (g2, [d2]).
Proof.
  apply (c_open drv g1 [zero_desc] 0 zero_desc 4 4096 (slash :: tty_name 0) O_RDWR g2 d2 (snd (result (g1, zero_desc, 0) r2))); [done|by vm_compute|].
  unfold g2, d2. rewrite <- !surjective_pairing. apply returns_result. by vm_compute.
Qed.
Lemma opened2 : call drv (g2, [d2]) (g3, [d3]).
Proof.
  apply (c_open drv g2 [d2] 0 d2 4 8192 (slash :: tty_name 0) O_RDWR g3 d3 (snd (result (g2, d2, 0) r3))); [done|by vm_compute|].
  unfold g3, d3. rewrite <- !surjective_pairing. apply returns_result. by vm_compute.
Qed.
Lemma two_open : ok g3 [d3].
Proof.
  apply (call_ok drv g2 [d2]); [exact opened2|]. apply (call_ok drv g1 [zero_desc]); [exact opened1|]. apply (call_ok drv g0 [zero_desc]); [exact mounted|].
  split; split; [done|intros m Hm; by apply elem_of_nil in Hm|done| | |].
  - intros [|i] d E; [by injection E as <-|done].
  - intros [|i] j f (d & E & F & Hf); [injection E as <-|done]. by apply zero_entry in F.
  - intros [|i] j i' j' f (d & E & F & Hf); [injection E as <-|done]. by apply zero_entry in F.
Qed.

(** The root is an empty disk. *)
Definition gl : kfs (list Z) :=
  Kfs [lmfs] (boot_disks [] ∅) [LSb 0 first_bdev (LmfsSb 0 0 0 0 0 3 0 0 [] [])] (Some (Mount [slash] 0, [])) DevDemo.ts2 init_iname_buffer ∅ [].
End FileDemo.

Lemma calls_typed_witness : ok FileDemo.g1 [].
Proof.
  apply (calls_typed FileDemo.drv [devfs_fs] [] DevDemo.ts2 init_iname_buffer []). apply rtc_once. change (boot_fs _ _ _ _ _) with FileDemo.g0.
  eapply c_mount. unfold FileDemo.g1. erewrite <- surjective_pairing. apply returns_result. vm_compute. reflexivity.
Defined.

Lemma calls_isolated_witness : ks_files (fst (fst (result (FileDemo.g3, ∅, 0) (_sys_read FileDemo.drv FileDemo.g3 FileDemo.d3 ∅ 0 0 1)))) !! 8192 = ks_files FileDemo.g3 !! 8192.
Proof.
  apply (calls_isolated FileDemo.drv FileDemo.g3 [FileDemo.d3] 0 FileDemo.d3 0 _ 0 1 8192 FileDemo.two_open eq_refl).
  - eapply (fc_read FileDemo.drv FileDemo.d3 0 FileDemo.g3 ∅ 0 1). erewrite <- !surjective_pairing. apply returns_result. vm_compute. reflexivity.
  - exists FileDemo.d3. split; [reflexivity|]. split; [vm_compute; reflexivity|lia].
  - right. lia.
Defined.

Lemma read_calls_keep_disks_witness : ks_disks (fst (result (FileDemo.gl, 0) (_sys_access 1 FileDemo.gl [slash] 0))) = ks_disks FileDemo.gl.
Proof.
  apply (read_calls_keep_disks FileDemo.drv FileDemo.gl). eapply (rc_access FileDemo.drv FileDemo.gl 1 [slash] 0). erewrite <- surjective_pairing. apply returns_result. vm_compute. reflexivity.
Defined.

Lemma boot_open_read_witness : exists image g1 g2 desc2 g3 m', mklmfs [120] true PackDemo.tree = Ret (Some image) /\
  mount_init (Z.to_nat 1024) (boot_fs [fat; devfs_fs; lmfs] (boot_disks [] (ramdisk image)) DevDemo.ts2 init_iname_buffer [] : kfs (list Z)) = Ret g1 /\
  _sys_open FileDemo.drv (Z.to_nat 1024) g1 zero_desc 4096 [slash; 98; slash; 99] 0 = Ret (g2, desc2, 0) /\
  _sys_read FileDemo.drv g2 desc2 ∅ 0 0x100000 100 = Ret (g3, m', 3) /\ wrote ∅ m' 0x100000 [1; 2; 3].
Proof.
  apply (boot_open_read FileDemo.drv [120] PackDemo.tree [[98]; [99]] [1; 2; 3] [fat; devfs_fs; lmfs] [] DevDemo.ts2 [] zero_desc 0 4096 ∅ 0x100000 100);
    try reflexivity; try (vm_compute; congruence); [exact PackDemo.tree_fits|by left|by split].
Defined.

(** ** Behaviour that is not meant *)
Module FileFaults.
(** A name no file system has gives the one registered last. *)
Lemma unknown_filesystem : lookup_filesystem [lmfs; fat; devfs_fs] [101; 120; 116] = Some devfs_fs.
Proof. reflexivity. Qed.

(** Seeking in a terminal calls a null pointer. *)
Lemma tty_seek_faults : _sys_seek FileDemo.g3 FileDemo.d3 0 0 0 = Fault.
Proof. vm_compute. reflexivity. Qed.

(** Asking for the state of a terminal closes it through a null pointer. *)
Lemma tty_stat_faults : _sys_stat FileDemo.drv 4 FileDemo.g1 4096 (slash :: tty_name 0) = Fault.
Proof. vm_compute. reflexivity. Qed.

(** A terminal that is closed keeps its file. *)
Lemma tty_close_leaks : match _sys_close FileDemo.g3 FileDemo.d3 0 with Ret (g, _, r) => (bool_decide (is_Some (ks_files g !! 4096)), r) = (true, 0) | _ => False end.
Proof. vm_compute. reflexivity. Qed.

(** The dot of a hidden file is taken away: /.x is looked up as x. *)
Lemma hidden_file_renamed : resolve (Mount [slash] 0, []) [slash; dot; 120] = Ret (Some (Mount [slash] 0, [120])).
Proof. reflexivity. Qed.

(** A name that does not start with a slash has no directory to start from. *)
Lemma relative_name_faults : get_file_fnode 4 FileDemo.g1 (tty_name 0) 0 = Fault.
Proof. vm_compute. reflexivity. Qed.

(** Without a terminal the three entries are empty, yet three files count as open. *)
Lemma three_open_of_none :
  match alloc_and_init_file_desc FileDemo.drv 4 (fst (result (FileDemo.g0, 0) (sys_mount 4 (boot_fs [devfs_fs] [] (TtySys ∅ ∅ [] (DevSys ∅ ∅ DevDemo.d0)) init_iname_buffer []) devfs_name [slash] devfs_name MS_NODEV))) None 4096 8192 12288 with
  | Ret (_, t) => (open_nr (tf_desc t), take 3 (file_open (tf_desc t))) = (3, [0; 0; 0])
  | _ => False
  end.
Proof. vm_compute. reflexivity. Qed.
End FileFaults.
