(* ===== verification/Elf.v ===== *)
(** * Program files (kernel/elf.c, include/os/elf.h)

    The loader works on any store of files: [FileIo] is what it calls, the open files of
    [File] are an instance.  Memory is bytes; the structures read from the file stay in
    the memory they are read into, at the addresses the allocations of the caller gave
    ([elf_mem]; 0 is a failed allocation).  The memory a section is loaded to is the
    address space of the task whose page table is in use. *)

From S2P Require Import Prelude CString Vfs File.

(** ** The files *)

Class FileIo (S : Type) := {
  kopen : S -> list Z -> Z -> outcome (S * Z);
  kread : S -> Z -> bmem -> Z -> Z -> outcome (S * bmem * Z);
  kseek : S -> Z -> Z -> Z -> outcome (S * Z);
  kclose : S -> Z -> outcome (S * Z) }.

(** [kernel_open] and the other calls on the open files; [f] is the memory of the new
    [struct file]. *)
Definition kfs_io {D} (drv : tty_operations D) (fuelb : nat) (f : Z) : FileIo (kfs D) := {|
  kopen g name flag := __sys_open drv fuelb g f name flag;
  kread := kernel_read drv;
  kseek := kernel_seek;
  kclose := kernel_close |}.

(** ** The structures of the file *)

Definition EI_NIDENT : Z := 16.
Definition SHT_NOBITS : Z := 8.
Definition SHF_ALLOC : Z := 0x2.
Definition O_RDONLY : Z := 0.

(** Members of 2 and 4 bytes, the low byte first. *)
Definition half (m : bmem) (a : Z) : Z := rd m a + 256 * rd m (a + 1).
Definition word4 (m : bmem) (a : Z) : Z := half m a + 65536 * half m (a + 2).

Record elf_header := ElfHeader {
  e_type : Z; e_machine : Z; e_version : Z; e_entry : Z; e_phoff : Z; e_shoff : Z; e_flags : Z;
  e_ehsize : Z; e_phentsize : Z; e_phnum : Z; e_shentsize : Z; e_shnum : Z; e_shstrndx : Z }.
Definition sizeof_elf_header : Z := 52.

Definition elf_header_at (m : bmem) (a : Z) : elf_header :=
  ElfHeader (half m (a + 16)) (half m (a + 18)) (word4 m (a + 20)) (word4 m (a + 24)) (word4 m (a + 28))
    (word4 m (a + 32)) (word4 m (a + 36)) (half m (a + 40)) (half m (a + 42)) (half m (a + 44))
    (half m (a + 46)) (half m (a + 48)) (half m (a + 50)).

Record elf_section_header := ElfSectionHeader {
  sh_name : Z; sh_type : Z; sh_flags : Z; sh_addr : Z; sh_offset : Z; sh_size : Z; sh_link : Z;
  sh_info : Z; sh_addralign : Z; sh_entsize : Z }.
Definition sizeof_elf_section_header : Z := 40.

Definition elf_section_header_at (m : bmem) (a : Z) : elf_section_header :=
  ElfSectionHeader (word4 m a) (word4 m (a + 4)) (word4 m (a + 8)) (word4 m (a + 12)) (word4 m (a + 16))
    (word4 m (a + 20)) (word4 m (a + 24)) (word4 m (a + 28)) (word4 m (a + 32)) (word4 m (a + 36)).

(** [header[i]], whatever [e_shentsize] says. *)
Definition section_header (m : bmem) (header i : Z) : elf_section_header :=
  elf_section_header_at m (header + sizeof_elf_section_header * i).

Record elf_section := ElfSection {
  se_offset : Z; se_size : Z; se_load_addr : Z; se_flag : Z; se_type : Z }.

Record elf_file := ElfFile {
  section_nr : Z; ef_file : Z; elf_size : Z; sections : list elf_section;
  entry_point_address : Z; elf_base : Z }.

(** ** Parsing *)

(** One round of [__parse_elf_info]. *)
Definition parse_section (e : elf_file) (h : elf_section_header) : elf_file :=
  if Z.land (sh_flags h) SHF_ALLOC =? 0 then e
  else
    let '(base, size) :=
      if elf_base e =? 0 then
        let base := u32 (min_align (sh_addr h) PAGE_SIZE) in
        (base, u32 (elf_size e + (sh_addr h - base)))
      else (elf_base e, elf_size e) in
    let section := ElfSection (sh_offset h) (sh_size h) (sh_addr h) (u16 (sh_flags h)) (u16 (sh_type h)) in
    ElfFile (section_nr e) (ef_file e) (u32 (size + se_size section)) (sections e ++ [section])
      (entry_point_address e) base.

Definition headers (m : bmem) (header section_num : Z) : list elf_section_header :=
  (fun i : nat => section_header m header (Z.of_nat i)) <$> seq 0 (Z.to_nat section_num).

Definition __parse_elf_info (m : bmem) (header : Z) (e : elf_file) (section_num : Z) : elf_file :=
  foldl parse_section e (headers m header section_num).

Definition alloc (h : elf_section_header) : Prop := Z.land (sh_flags h) SHF_ALLOC <> 0.
#[export] Instance alloc_dec h : Decision (alloc h) := _.

(** The sections [parse_elf_info] counts. *)
Definition alloc_sections (m : bmem) (header section_num : Z) : Z :=
  Z.of_nat (length (filter alloc (headers m header section_num))).

(** The addresses the allocations give. *)
Record elf_mem := ElfMem { a_hdr : Z; a_header : Z; a_str : Z; a_efile : Z; a_sections : Z }.

Definition parse_elf_info (m : bmem) (a : elf_mem) (section_num : Z) : option elf_file :=
  if a_efile a =? 0 then None
  else
    let nr := alloc_sections m (a_header a) section_num in
    if nr =? 0 then None
    else if a_sections a =? 0 then None
    else Some (__parse_elf_info m (a_header a) (ElfFile nr 0 0 [] 0 0) section_num).

(** "\177ELF". *)
Definition ELFMAG : list Z := [0x7f; 69; 76; 70].

Section Loader.
Context {S : Type} `{FileIo S}.

(** [kzalloc] clears the memory of the headers.  Without memory for the names the pointer
    returned was never set. *)
Definition get_elf_info (st : S) (m : bmem) (a : elf_mem) (name : list Z)
  : outcome (S * bmem * option elf_file) :=
  '(st, file) ← kopen st name O_RDONLY;
  if file =? 0 then mret (st, m, None)
  else
    '(st, m, ret) ← kread st file m (a_hdr a) sizeof_elf_header;
    if ret <? 0 then mret (st, m, None)
    else if negb (bool_decide (read_bytes m (a_hdr a) 4 = ELFMAG)) then mret (st, m, None)
    else
      let hdr := elf_header_at m (a_hdr a) in
      let size := e_shnum hdr * e_shentsize hdr in
      if a_header a =? 0 then mret (st, m, None)
      else
        let m := put_bytes m (a_header a) (replicate (Z.to_nat size) 0) in
        if a_str a =? 0 then Fault
        else
          '(st, ret) ← kseek st file (s32 (e_shoff hdr)) SEEK_SET;
          if ret <? 0 then mret (st, m, None)
          else
            '(st, m, ret) ← kread st file m (a_header a) size;
            if ret <? 0 then mret (st, m, None)
            else
              '(st, ret) ← kseek st file (s32 (sh_offset (section_header m (a_header a) (e_shstrndx hdr)))) SEEK_SET;
              if ret <? 0 then mret (st, m, None)
              else
                '(st, m, ret) ← kread st file m (a_str a) 4096;
                if ret <? 0 then mret (st, m, None)
                else
                  match parse_elf_info m a (e_shnum hdr) with
                  | None => mret (st, m, None)
                  | Some e =>
                    mret (st, m, Some (ElfFile (section_nr e) file (elf_size e) (sections e) (e_entry hdr) (elf_base e)))
                  end.

(** ** Loading *)

(** One round of the loop; [pre] is [section_pre]. *)
Definition load_section (st : S) (m : bmem) (file : Z) (pre : option elf_section) (s : elf_section)
  : outcome (S * bmem * option elf_section * Z) :=
  if negb (Z.land (se_type s) SHT_NOBITS =? 0) then
    mret (st, put_bytes m (se_load_addr s) (replicate (Z.to_nat (se_size s)) 0), None, 0)
  else
    let re_seek :=
      match pre with
      | None => true
      | Some p => negb (u32 (se_load_addr p + se_size p) =? se_load_addr s)
      end in
    '(st, ret) ← (if re_seek then kseek st file (s32 (se_offset s)) SEEK_SET else mret (st, 0));
    if ret <? 0 then mret (st, m, pre, - EIO)
    else
      '(st, m, ret) ← kread st file m (se_load_addr s) (se_size s);
      if negb (ret =? se_size s) then mret (st, m, pre, - EIO)
      else mret (st, m, Some s, 0).

Fixpoint load_sections (st : S) (m : bmem) (file : Z) (pre : option elf_section) (l : list elf_section)
  : outcome (S * bmem * Z) :=
  match l with
  | [] => mret (st, m, 0)
  | s :: l =>
    '(st, m, pre, err) ← load_section st m file pre s;
    if negb (err =? 0) then mret (st, m, err) else load_sections st m file pre l
  end.

Definition elf_load_elf_image (st : S) (m : bmem) (e : elf_file) : outcome (S * bmem * Z) :=
  load_sections st m (ef_file e) None (sections e).

Definition release_elf_file (st : S) (e : option elf_file) : outcome S :=
  match e with
  | None => mret st
  | Some e => '(st, _) ← kclose st (ef_file e); mret st
  end.
End Loader.

Definition elf_memory_size (e : elf_file) : Z := elf_size e.
Definition elf_get_elf_base (e : elf_file) : Z := elf_base e.
