(* ===== verification/ElfSpec.v ===== *)
(** * Program files are parsed and loaded as they are

    [ReaderLaws] is what the loader needs of a store of files: reading and seeking inside
    a file.  Against it: the sections found are those of the section header table that
    are to be allocated, and loading puts the bytes of each at its address, and zeroes
    for the sections that have none. *)

From S2P Require Import Prelude CString Vfs VfsSpec File Elf.

Class ReaderLaws (S : Type) `{FileIo S} := {
  at_file : S -> Z -> list Z -> Z -> Prop;
  end_ok : Z -> Prop;
  kread_law st f d pos m buffer size :
    at_file st f d pos -> 0 < size -> pos + size < 2147483648 -> pos < Z.of_nat (length d) ->
    end_ok (pos + Z.min size (Z.of_nat (length d) - pos)) ->
    exists st' m', kread st f m buffer size = Ret (st', m', Z.min size (Z.of_nat (length d) - pos)) /\
      wrote m m' buffer (slice d pos (Z.min size (Z.of_nat (length d) - pos))) /\
      at_file st' f d (pos + Z.min size (Z.of_nat (length d) - pos));
  kseek_law st f d pos t :
    at_file st f d pos -> 0 <= t < Z.of_nat (length d) ->
    exists st' r, kseek st f t SEEK_SET = Ret (st', r) /\ 0 <= r /\ at_file st' f d t }.

(** ** Loading *)

Definition is_bss (s : elf_section) : bool := negb (Z.land (se_type s) SHT_NOBITS =? 0).

Definition section_bytes (d : list Z) (s : elf_section) : list Z :=
  if is_bss s then replicate (Z.to_nat (se_size s)) 0 else slice d (se_offset s) (se_size s).

Definition in_section (x : Z) (s : elf_section) : Prop := se_load_addr s <= x < se_load_addr s + se_size s.
Definition sections_apart (s t : elf_section) : Prop :=
  se_load_addr s + se_size s <= se_load_addr t \/ se_load_addr t + se_size t <= se_load_addr s.

Fixpoint apart_all (l : list elf_section) : Prop :=
  match l with [] => True | s :: l => Forall (sections_apart s) l /\ apart_all l end.

(** What is in memory behind the loading of [l]. *)
Definition loaded (d : list Z) (m m' : bmem) (l : list elf_section) : Prop :=
  Forall (fun s => bytes_at m' (se_load_addr s) (section_bytes d s)) l /\
  (forall x, Forall (fun s => ~ in_section x s) l -> rd m' x = rd m x).

(** Sections that follow each other in memory follow each other in the file: the loader
    does not seek between them. *)
Fixpoint file_order (pre : option elf_section) (l : list elf_section) : Prop :=
  match l with
  | [] => True
  | s :: l =>
    if is_bss s then file_order None l
    else match pre with
      | Some p => u32 (se_load_addr p + se_size p) = se_load_addr s -> se_offset s = se_offset p + se_size p
      | None => True
      end /\ file_order (Some s) l
  end.

Section Load.
Context {S : Type} `{IO : FileIo S} {RL : ReaderLaws S}.
Implicit Types st : S.

Definition section_ok (d : list Z) (s : elf_section) : Prop :=
  0 <= se_size s /\
  if is_bss s then True
  else 0 < se_size s /\ 0 <= se_offset s /\ se_offset s + se_size s <= Z.of_nat (length d) /\
    Z.of_nat (length d) < 2147483648 /\ end_ok (se_offset s + se_size s).

(** Where the file stands behind a section that was read. *)
Definition stands st (f : Z) (d : list Z) (pre : option elf_section) : Prop :=
  match pre with
  | Some p => at_file st f d (se_offset p + se_size p)
  | None => exists pos, at_file st f d pos
  end.

Lemma stands_some st f d pre : stands st f d pre -> exists pos, at_file st f d pos.
Proof. destruct pre; simpl; eauto. Qed.

Lemma section_bytes_length d s : section_ok d s -> Z.of_nat (length (section_bytes d s)) = se_size s.
Proof.
  unfold section_ok, section_bytes, slice. intros [Hs0 Hs1]. destruct (is_bss s).
  - rewrite length_replicate. lia.
  - rewrite length_take, length_drop. lia.
Qed.

Lemma load_section_ok st m f d pre s : stands st f d pre -> section_ok d s ->
  (if is_bss s then True else match pre with
     | Some p => u32 (se_load_addr p + se_size p) = se_load_addr s -> se_offset s = se_offset p + se_size p
     | None => True end) ->
  exists st' m', load_section st m f pre s = Ret (st', m', if is_bss s then None else Some s, 0) /\
    wrote m m' (se_load_addr s) (section_bytes d s) /\ stands st' f d (if is_bss s then None else Some s).
Proof.
  intros Hst Hok Ho. unfold load_section, section_ok, section_bytes in *. fold (is_bss s).
  destruct (is_bss s).
  - eexists _, _. split; [reflexivity|]. split; [apply wrote_put|]. by eapply stands_some.
  - destruct Hok as (_ & H1 & H2 & H3 & H4 & H5).
    set (rs := match pre with Some p => _ | None => true end).
    assert (Hseek : exists st1 r, (if rs then kseek st f (s32 (se_offset s)) SEEK_SET else mret (st, 0)) = Ret (st1, r) /\
      0 <= r /\ at_file st1 f d (se_offset s)).
    { destruct rs eqn:Ers.
      - destruct (stands_some _ _ _ _ Hst) as [pos Hp]. rewrite s32_small by lia.
        destruct (kseek_law st f d pos (se_offset s) Hp) as (st1 & r & E & Hr & Ha); [lia|]. eauto.
      - destruct pre as [p|]; [|done]. unfold rs in Ers. apply negb_false_iff, Z.eqb_eq in Ers.
        exists st, 0. rewrite (Ho Ers). split; [done|]. split; [lia|exact Hst]. }
    destruct Hseek as (st1 & r & E & Hr & Ha). rewrite E, Ret_bind.
    destruct (Z.ltb_spec r 0); [lia|].
    destruct (kread_law st1 f d (se_offset s) m (se_load_addr s) (se_size s) Ha) as (st2 & m' & E2 & Hw & Ha2);
      [lia|lia|lia|by rewrite Z.min_l by lia|].
    rewrite Z.min_l in E2, Hw, Ha2 by lia. rewrite E2, Ret_bind, Z.eqb_refl. eauto.
Qed.

Lemma load_sections_ok l : forall st m f d pre,
  stands st f d pre -> Forall (section_ok d) l -> apart_all l -> file_order pre l ->
  exists st' m' pos, load_sections st m f pre l = Ret (st', m', 0) /\ loaded d m m' l /\ at_file st' f d pos.
Proof.
  induction l as [|s l IH]; intros st m f d pre Hst Hok Hap Ho; simpl.
  - destruct (stands_some _ _ _ _ Hst) as [pos Hp]. exists st, m, pos. split; [done|]. split; [|done].
    split; [by apply Forall_nil_2|done].
  - apply Forall_cons in Hok as [Hs Hok]. destruct Hap as [Ha Hap].
    destruct (load_section_ok st m f d pre s Hst Hs) as (st1 & m1 & E & Hw & Hst1).
    { simpl in Ho. destruct (is_bss s); [done|]. by destruct Ho. }
    rewrite E, Ret_bind. cbn [negb Z.eqb].
    destruct (IH st1 m1 f d (if is_bss s then None else Some s) Hst1 Hok Hap) as (st2 & m2 & pos & E2 & [L1 L2] & Hp).
    { simpl in Ho. destruct (is_bss s); [done|]. by destruct Ho. }
    exists st2, m2, pos. split; [done|]. split; [|done]. destruct Hw as [W1 W2].
    pose proof (section_bytes_length d s Hs) as Hlen. split.
    + apply Forall_cons. split; [|done]. intros i c Hi. rewrite L2; [by apply W1|].
      pose proof (lookup_lt_Some _ _ _ Hi). rewrite Forall_forall in Ha |- *. intros t Ht.
      specialize (Ha t Ht). unfold in_section, sections_apart in *. lia.
    + intros x Hx. apply Forall_cons in Hx as [Hx0 Hx]. rewrite L2 by done. apply W2.
      unfold in_section in Hx0. lia.
Qed.

(** [elf_load_elf_image] loads a program: when it returns 0, as it does for sections
    inside the file that do not overlap in memory, every section's bytes are at its address,
    the sections without bytes are zero, and no other byte of memory has changed. *)
Theorem elf_load_correct st m e d pos (Hat : at_file st (ef_file e) d pos)
    (Hok : Forall (section_ok d) (sections e)) (Hap : apart_all (sections e))
    (Hord : file_order None (sections e)) :
  exists st' m', elf_load_elf_image st m e = Ret (st', m', 0) /\ loaded d m m' (sections e).
Proof.
  destruct (load_sections_ok (sections e) st m (ef_file e) d None) as (st' & m' & p & E & L & _);
    [by exists pos|done..|]. eauto.
Qed.
End Load.

(** ** Parsing *)

(** The file as memory from address 0 on. *)
Definition file_mem (d : list Z) : bmem := put_bytes ∅ 0 d.
Definition file_header (d : list Z) : elf_header := elf_header_at (file_mem d) 0.
Definition file_headers (d : list Z) : list elf_section_header :=
  headers (file_mem d) (e_shoff (file_header d)) (e_shnum (file_header d)).

Definition same_bytes (m : bmem) (a : Z) (m' : bmem) (b n : Z) : Prop :=
  forall k, 0 <= k < n -> rd m (a + k) = rd m' (b + k).

Lemma half_same m a m' b n k : same_bytes m a m' b n -> 0 <= k -> k + 2 <= n ->
  half m (a + k) = half m' (b + k).
Proof. intros H Hk Hn. unfold half. rewrite <- !Z.add_assoc, !H by lia. done. Qed.

Lemma word4_same m a m' b n k : same_bytes m a m' b n -> 0 <= k -> k + 4 <= n ->
  word4 m (a + k) = word4 m' (b + k).
Proof.
  intros H Hk Hn. unfold word4. rewrite <- !Z.add_assoc, !(half_same m a m' b n) by (done || lia). done.
Qed.

Lemma elf_header_same m a m' b : same_bytes m a m' b 52 -> elf_header_at m a = elf_header_at m' b.
Proof.
  intros H. unfold elf_header_at.
  by rewrite !(half_same m a m' b 52), !(word4_same m a m' b 52) by (done || lia).
Qed.

Lemma section_header_same m a m' b n i : same_bytes m a m' b (40 * n) -> 0 <= i < n ->
  section_header m a i = section_header m' b i.
Proof.
  intros H Hi. unfold section_header, elf_section_header_at, sizeof_elf_section_header.
  rewrite <- (Z.add_0_r (a + 40 * i)), <- (Z.add_0_r (b + 40 * i)).
  rewrite <- !Z.add_assoc, !(word4_same m a m' b (40 * n)) by (done || lia). done.
Qed.

Lemma headers_same m a m' b n : same_bytes m a m' b (40 * n) -> headers m a n = headers m' b n.
Proof.
  intros H. unfold headers. apply list_fmap_ext. intros i j Hj. apply lookup_seq in Hj as [-> Hj].
  apply (section_header_same m a m' b n); [done|]. lia.
Qed.

Lemma rd_file_mem d k : 0 <= k -> rd (file_mem d) k = default 0 (d !! Z.to_nat k).
Proof.
  intros Hk. unfold file_mem. destruct (d !! Z.to_nat k) as [c|] eqn:E.
  - pose proof (put_bytes_at ∅ 0 d (Z.to_nat k) c E) as H. replace (0 + Z.of_nat (Z.to_nat k)) with k in H by lia. done.
  - apply lookup_ge_None_1 in E. rewrite put_bytes_other by lia. done.
Qed.

(** Bytes read from the file. *)
Lemma wrote_same_bytes m m' a d pos n : wrote m m' a (slice d pos n) -> 0 <= pos -> 0 <= n ->
  pos + n <= Z.of_nat (length d) -> same_bytes m' a (file_mem d) pos n.
Proof.
  intros [Hw _] Hp Hn Hl k Hk. rewrite rd_file_mem by lia.
  destruct (lookup_lt_is_Some_2 d (Z.to_nat (pos + k))) as [c Hc]; [lia|]. rewrite Hc.
  replace k with (Z.of_nat (Z.to_nat k)) at 1 by lia. apply Hw. unfold slice.
  rewrite lookup_take_lt by lia. rewrite lookup_drop. cbn [default from_option id]. rewrite <- Hc. f_equal. lia.
Qed.

Lemma same_bytes_keep m m1 a m' b n : same_bytes m a m' b n ->
  (forall x, a <= x < a + n -> rd m1 x = rd m x) -> same_bytes m1 a m' b n.
Proof. intros H Hk k Hn. rewrite Hk by lia. by apply H. Qed.

(** ** The table of sections *)

Definition section_of (h : elf_section_header) : elf_section :=
  ElfSection (sh_offset h) (sh_size h) (sh_addr h) (u16 (sh_flags h)) (u16 (sh_type h)).

Lemma parse_section_skip e h : ~ alloc h -> parse_section e h = e.
Proof.
  unfold alloc, parse_section. intros Hn. destruct (Z.eqb_spec (Z.land (sh_flags h) SHF_ALLOC) 0); [done|].
  by destruct Hn.
Qed.

Lemma parse_section_sections e h : alloc h ->
  sections (parse_section e h) = sections e ++ [section_of h] /\
  section_nr (parse_section e h) = section_nr e.
Proof.
  unfold alloc, parse_section. intros Hn. destruct (Z.eqb_spec (Z.land (sh_flags h) SHF_ALLOC) 0); [done|].
  by destruct (elf_base e =? 0).
Qed.

Lemma parse_sections hs : forall e,
  sections (foldl parse_section e hs) = sections e ++ (section_of <$> filter alloc hs) /\
  section_nr (foldl parse_section e hs) = section_nr e.
Proof.
  induction hs as [|h hs IH]; intros e; cbn [foldl].
  - by rewrite app_nil_r.
  - destruct (IH (parse_section e h)) as [-> ->]. destruct (decide (alloc h)) as [Ha|Ha].
    + destruct (parse_section_sections e h Ha) as [-> ->]. rewrite filter_cons_True by done.
      by rewrite <- app_assoc.
    + rewrite parse_section_skip by done. by rewrite filter_cons_False by done.
Qed.

Definition total_size (hs : list elf_section_header) : Z := foldr (fun h n => sh_size h + n) 0 hs.

(** Behind the first section the base is fixed and the sizes add up. *)
Lemma parse_rest hs : forall e, elf_base e <> 0 -> 0 <= elf_size e -> Forall (fun h => 0 <= sh_size h) hs ->
  elf_size e + total_size (filter alloc hs) < 4294967296 ->
  elf_base (foldl parse_section e hs) = elf_base e /\
  elf_size (foldl parse_section e hs) = elf_size e + total_size (filter alloc hs).
Proof.
  assert (Hpos : forall l, Forall (fun h => 0 <= sh_size h) l -> 0 <= total_size (filter alloc l)).
  { induction l as [|h l IH]; intros Hl; [done|]. apply Forall_cons in Hl as [Hh Hl]. specialize (IH Hl).
    destruct (decide (alloc h)); [rewrite filter_cons_True by done; simpl; lia|by rewrite filter_cons_False]. }
  induction hs as [|h hs IH]; intros e Hb Hs Hf Ht; cbn [foldl].
  - simpl. lia.
  - apply Forall_cons in Hf as [Hh Hf]. pose proof (Hpos hs Hf). destruct (decide (alloc h)) as [Ha|Ha].
    + rewrite filter_cons_True in Ht |- * by done. cbn [total_size foldr] in Ht |- *. fold (total_size (filter alloc hs)) in *.
      assert (Hp : elf_base (parse_section e h) = elf_base e /\ elf_size (parse_section e h) = elf_size e + sh_size h).
      { unfold parse_section. destruct (Z.eqb_spec (Z.land (sh_flags h) SHF_ALLOC) 0); [done|].
        destruct (Z.eqb_spec (elf_base e) 0); [done|]. cbn. rewrite u32_small by lia. done. }
      destruct Hp as [Hp1 Hp2]. destruct (IH (parse_section e h)) as [I1 I2]; [congruence|lia|done|lia|].
      rewrite I1, I2. lia.
    + rewrite parse_section_skip by done. rewrite filter_cons_False in Ht |- * by done. by apply IH.
Qed.

Lemma parse_extent hs : forall e h0 rest, filter alloc hs = h0 :: rest -> elf_base e = 0 -> elf_size e = 0 ->
  4096 <= sh_addr h0 < 4294967296 -> Forall (fun h => 0 <= sh_size h) hs ->
  sh_addr h0 mod 4096 + total_size (h0 :: rest) < 4294967296 ->
  elf_base (foldl parse_section e hs) = sh_addr h0 - sh_addr h0 mod 4096 /\
  elf_size (foldl parse_section e hs) = sh_addr h0 mod 4096 + total_size (h0 :: rest).
Proof.
  induction hs as [|h hs IH]; intros e h0 rest Hf Hb Hs Ha Hsz Ht; [done|]. cbn [foldl].
  apply Forall_cons in Hsz as [Hh Hsz]. pose proof (Z.mod_pos_bound (sh_addr h0) 4096 ltac:(lia)) as Hm.
  destruct (decide (alloc h)) as [Hal|Hal].
  - rewrite filter_cons_True in Hf by done. injection Hf as -> <-.
    cbn [total_size foldr] in Ht |- *. fold (total_size (filter alloc hs)) in *.
    assert (Hpos : 0 <= total_size (filter alloc hs)).
    { clear -Hsz. induction hs as [|h l IH]; [done|]. apply Forall_cons in Hsz as [Hh Hl]. specialize (IH Hl).
      destruct (decide (alloc h)); [rewrite filter_cons_True by done; simpl; lia|by rewrite filter_cons_False]. }
    assert (Hp : elf_base (parse_section e h0) = sh_addr h0 - sh_addr h0 mod 4096 /\
      elf_size (parse_section e h0) = sh_addr h0 mod 4096 + sh_size h0).
    { unfold parse_section. destruct (Z.eqb_spec (Z.land (sh_flags h0) SHF_ALLOC) 0); [done|].
      rewrite Hb, Hs. cbn [Z.eqb]. change PAGE_SIZE with (2 ^ 12). rewrite min_align_spec by lia.
      change (2 ^ 12) with 4096. cbn. rewrite (u32_small (sh_addr h0 - _)) by lia.
      rewrite !u32_small by (rewrite ?u32_small by lia; lia). lia. }
    destruct Hp as [Hp1 Hp2].
    destruct (parse_rest hs (parse_section e h0)) as [-> ->]; [|lia|done|lia|lia].
    rewrite Hp1. Z.to_euclidean_division_equations; lia.
  - rewrite filter_cons_False in Hf by done. rewrite parse_section_skip by done. by apply IH.
Qed.

Section Parse.
Context {S : Type} `{IO : FileIo S} {RL : ReaderLaws S}.
Implicit Types st : S.

(** A program file the loader accepts. *)
Record valid_elf (d : list Z) : Prop := {
  ve_len : 52 <= Z.of_nat (length d) < 2147483648 - 4096;
  ve_magic : take 4 d = ELFMAG;
  ve_entsize : e_shentsize (file_header d) = 40;
  ve_shnum : 0 <= e_shstrndx (file_header d) < e_shnum (file_header d);
  ve_shoff : 0 <= e_shoff (file_header d);
  ve_table : e_shoff (file_header d) + 40 * e_shnum (file_header d) <= Z.of_nat (length d);
  ve_names : 0 <= sh_offset (section_header (file_mem d) (e_shoff (file_header d)) (e_shstrndx (file_header d)))
    < Z.of_nat (length d);
  ve_alloc : Exists alloc (file_headers d);
  ve_end1 : end_ok 52;
  ve_end2 : end_ok (e_shoff (file_header d) + 40 * e_shnum (file_header d));
  ve_end3 : let o := sh_offset (section_header (file_mem d) (e_shoff (file_header d)) (e_shstrndx (file_header d))) in
    end_ok (o + Z.min 4096 (Z.of_nat (length d) - o)) }.

(** The allocations succeeded and do not overlap. *)
Definition elf_mem_ok (a : elf_mem) (n : Z) : Prop :=
  a_header a <> 0 /\ a_str a <> 0 /\ a_efile a <> 0 /\ a_sections a <> 0 /\
  (a_header a + 40 * n <= a_str a \/ a_str a + 4096 <= a_header a).

Lemma same_read_bytes m a m' b n : same_bytes m a m' b (Z.of_nat n) -> read_bytes m a n = read_bytes m' b n.
Proof.
  revert a b. induction n as [|n IH]; intros a b Hs; simpl; [done|]. f_equal.
  - rewrite <- (Z.add_0_r a), <- (Z.add_0_r b). apply Hs. lia.
  - apply IH. intros k Hk. replace (a + 1 + k) with (a + (1 + k)) by lia.
    replace (b + 1 + k) with (b + (1 + k)) by lia. apply Hs. lia.
Qed.

Lemma read_file_mem d n : (n <= length d)%nat -> read_bytes (file_mem d) 0 n = take n d.
Proof.
  intros Hn. rewrite <- (length_take_le d n) at 1 by done. apply read_bytes_at. intros i c Hi.
  rewrite rd_file_mem by lia. apply lookup_take_Some in Hi as [Hi _].
  replace (Z.to_nat (0 + Z.of_nat i)) with i by lia. by rewrite Hi.
Qed.

(** What [get_elf_info] makes of the bytes of a file. *)
Definition elf_of (d : list Z) (file : Z) (e : elf_file) : Prop :=
  ef_file e = file /\ entry_point_address e = e_entry (file_header d) /\
  sections e = section_of <$> filter alloc (file_headers d) /\
  section_nr e = Z.of_nat (length (sections e)) /\
  forall h0 rest, filter alloc (file_headers d) = h0 :: rest ->
    4096 <= sh_addr h0 < 4294967296 -> Forall (fun h => 0 <= sh_size h) (file_headers d) ->
    sh_addr h0 mod 4096 + total_size (h0 :: rest) < 4294967296 ->
    elf_base e = sh_addr h0 - sh_addr h0 mod 4096 /\
    elf_size e = sh_addr h0 mod 4096 + total_size (h0 :: rest).

(** The parse of a table that is a copy of the file's. *)
Lemma parse_elf_info_ok m a d : elf_mem_ok a (e_shnum (file_header d)) ->
  same_bytes m (a_header a) (file_mem d) (e_shoff (file_header d)) (40 * e_shnum (file_header d)) ->
  Exists alloc (file_headers d) ->
  exists e, parse_elf_info m a (e_shnum (file_header d)) = Some e /\
    forall file, elf_of d file (ElfFile (section_nr e) file (elf_size e) (sections e) (e_entry (file_header d)) (elf_base e)).
Proof.
  intros (A1 & A2 & A3 & A4 & _) Hs Hex. unfold parse_elf_info, alloc_sections, __parse_elf_info.
  rewrite (proj2 (Z.eqb_neq _ _) A3), (proj2 (Z.eqb_neq _ _) A4).
  rewrite (headers_same _ _ _ _ _ Hs). fold (file_headers d).
  destruct (Z.eqb_spec (Z.of_nat (length (filter alloc (file_headers d)))) 0) as [E|E].
  { exfalso. apply Exists_exists in Hex as (h & Hin & Ha).
    assert (Hin' : h ∈ filter alloc (file_headers d)) by by apply list_elem_of_filter.
    destruct (filter alloc (file_headers d)); [by apply elem_of_nil in Hin'|simpl in E; lia]. }
  eexists. split; [reflexivity|]. intros file.
  set (e0 := ElfFile _ 0 0 [] 0 0). destruct (parse_sections (file_headers d) e0) as [P1 P2].
  unfold elf_of. cbn [ef_file entry_point_address sections section_nr elf_base elf_size].
  rewrite P1, P2. cbn [sections e0 section_nr app]. split_and!; try done; [by rewrite length_fmap|].
  intros h0 rest Hf Ha Hsz Ht. by apply parse_extent.
Qed.

(** The header of the file, as [get_elf_info] reads it. *)
Lemma read_header st1 m ad file d : at_file st1 file d 0 -> 52 <= Z.of_nat (length d) < 2147483648 - 4096 -> end_ok 52 ->
  exists st2 m2, kread st1 file m ad sizeof_elf_header = Ret (st2, m2, 52) /\
    read_bytes m2 ad 4 = take 4 d /\ elf_header_at m2 ad = file_header d /\ at_file st2 file d 52.
Proof.
  intros Hat Hlen Hend. unfold sizeof_elf_header.
  destruct (kread_law st1 file d 0 m ad 52 Hat) as (st2 & m2 & E2 & W2 & At2); [lia|lia|lia|by rewrite Z.min_l by lia|].
  rewrite Z.min_l in E2, W2, At2 by lia.
  pose proof (wrote_same_bytes _ _ _ _ _ _ W2 ltac:(lia) ltac:(lia) ltac:(lia)) as S2.
  exists st2, m2. split; [exact E2|]. split; [|split; [exact (elf_header_same _ _ _ _ S2)|exact At2]].
  rewrite <- read_file_mem by lia. apply same_read_bytes. intros k Hk. apply S2. lia.
Qed.

Lemma get_elf_info_valid st m a name st1 file d :
  kopen st name O_RDONLY = Ret (st1, file) -> file <> 0 -> at_file st1 file d 0 ->
  valid_elf d -> elf_mem_ok a (e_shnum (file_header d)) ->
  exists st' m' e pos, get_elf_info st m a name = Ret (st', m', Some e) /\ elf_of d file e /\ at_file st' file d pos.
Proof.
  intros Hopen Hfile Hat [Hlen V2 V3 V4 V5 V6 V7 V8 V9 V10 V11] Ha.
  unfold get_elf_info. rewrite Hopen, Ret_bind, (proj2 (Z.eqb_neq _ _) Hfile).
  destruct (read_header st1 m (a_hdr a) file d Hat Hlen V9) as (st2 & m2 & E2 & Hmag & Hhdr & At2).
  rewrite E2, Ret_bind, Hmag, Hhdr, bool_decide_true by exact V2. cbn [Z.ltb Z.compare negb].
  pose proof Ha as (A1 & A2 & _ & _ & A5).
  rewrite (proj2 (Z.eqb_neq _ _) A1), (proj2 (Z.eqb_neq _ _) A2), V3, (Z.mul_comm _ 40).
  set (h := file_header d) in *. set (m3 := put_bytes m2 _ _). clearbody m3.
  destruct (kseek_law st2 file d 52 (e_shoff h) At2) as (st3 & r3 & E3 & R3 & At3); [lia|].
  rewrite (s32_small (e_shoff h)), E3, Ret_bind by lia. destruct (Z.ltb_spec r3 0); [lia|].
  destruct (kread_law st3 file d (e_shoff h) m3 (a_header a) (40 * e_shnum h) At3) as (st4 & m4 & E4 & W4 & At4);
    [lia|lia|lia|by rewrite Z.min_l by lia|].
  rewrite Z.min_l in E4, W4, At4 by lia. rewrite E4, Ret_bind. destruct (Z.ltb_spec (40 * e_shnum h) 0); [lia|].
  pose proof (wrote_same_bytes _ _ _ _ _ _ W4 ltac:(lia) ltac:(lia) ltac:(lia)) as S4.
  rewrite (section_header_same _ _ _ _ (e_shnum h) (e_shstrndx h) S4) by lia.
  set (o := sh_offset _) in *.
  destruct (kseek_law st4 file d _ o At4) as (st5 & r5 & E5 & R5 & At5); [lia|].
  rewrite (s32_small o), E5, Ret_bind by lia. destruct (Z.ltb_spec r5 0); [lia|].
  destruct (kread_law st5 file d o m4 (a_str a) 4096 At5) as (st6 & m6 & E6 & W6 & At6); [lia|lia|lia|done|].
  rewrite E6, Ret_bind. destruct (Z.ltb_spec (Z.min 4096 (Z.of_nat (length d) - o)) 0); [lia|].
  assert (S6 : same_bytes m6 (a_header a) (file_mem d) (e_shoff h) (40 * e_shnum h)).
  { apply (same_bytes_keep m4); [done|]. intros x Hx. destruct W6 as [_ W6]. apply W6.
    unfold slice. rewrite length_take, length_drop. lia. }
  destruct (parse_elf_info_ok m6 a d Ha S6 V8) as (e & Ee & He). fold h in Ee. rewrite Ee.
  eexists _, _, _, _. split; [reflexivity|]. split; [apply He|exact At6].
Qed.

(** [get_elf_info] parses a program file: for a valid file that is opened by its name it
    returns the entry point and exactly the sections to be allocated, in the order of the
    section header table, with the page the first one starts in as the base of the image;
    a file that does not start with the ELF magic number is refused. *)
Theorem get_elf_info_correct st m a name st1 file d
    (Hopen : kopen st name O_RDONLY = Ret (st1, file)) (Hfile : file <> 0) (Hat : at_file st1 file d 0)
    (Hlen : 52 <= Z.of_nat (length d) < 2147483648 - 4096) (Hend : end_ok 52) :
  (take 4 d <> ELFMAG -> exists st' m', get_elf_info st m a name = Ret (st', m', None)) /\
  (valid_elf d -> elf_mem_ok a (e_shnum (file_header d)) ->
   exists st' m' e, get_elf_info st m a name = Ret (st', m', Some e) /\ elf_of d file e).
Proof.
  split.
  - intros Hne. unfold get_elf_info. rewrite Hopen, Ret_bind, (proj2 (Z.eqb_neq _ _) Hfile).
    destruct (read_header st1 m (a_hdr a) file d Hat Hlen Hend) as (st2 & m2 & E2 & Hmag & _).
    rewrite E2, Ret_bind, Hmag, bool_decide_false by done. cbn. eauto.
  - intros V Ha. destruct (get_elf_info_valid st m a name st1 file d Hopen Hfile Hat V Ha) as (st' & m' & e & pos & E & He & _).
    eauto.
Qed.
End Parse.
