(* ===== verification/ElfBoot.v ===== *)
(** * From an image to a loaded program

    The open files of the root satisfy what the loader needs ([ReaderLaws]); a program
    packed by mklmfs is found by its path after the boot, parsed and loaded into memory. *)

From S2P Require Import Prelude Bitops Dlist CString Disk Vfs VfsSpec Lmfs LmfsSpec Path PathSpec Mklmfs MklmfsSpec MklmfsTree MklmfsMount Fat Devfs DevfsSpec File FileSpec FileReads FileBoot Elf ElfSpec.

Section Reader.
Context {D : Type} (drv : tty_operations D) (fa : Z).
Implicit Types g : kfs D.

#[local] Instance root_io : FileIo (kfs D) := kfs_io drv (Z.to_nat 1024) fa.

(** The file [f] is an open file of the root with the contents [c], at [pos]. *)
Definition root_file g (f : Z) (c : list Z) (pos : Z) : Prop :=
  exists d sb ms fl a (v : vfile lmfs_st) k, root_on g d sb ms /\
    ks_files g !! f = Some (KFile fl 0 a (BVfs (VL (vmap lnode v)))) /\
    lmfs_static (v_fs v) = (d, first_bdev, sb) /\ @vinv lmfs_st lmfs_ops lmfs_laws v /\ offset v = pos /\
    data_size v = Z.of_nat (length c) /\ bytes v = c ++ zeros k.

Lemma root_on_file g d sb ms f k : root_on g d sb ms -> root_on (set_file g f k) d sb ms.
Proof. intros []. by split. Qed.

Lemma slice_app c z pos n : 0 <= pos -> 0 <= n -> pos + n <= Z.of_nat (length c) -> slice (c ++ z) pos n = slice c pos n.
Proof.
  intros. unfold slice. rewrite drop_app_le by lia. rewrite take_app_le; [done|]. rewrite length_drop. lia.
Qed.

Lemma root_read g f c pos m buffer size : root_file g f c pos -> 0 < size -> pos + size < 2147483648 ->
  pos < Z.of_nat (length c) -> (pos + Z.min size (Z.of_nat (length c) - pos)) mod 4096 <> 0 ->
  exists g' m', kernel_read drv g f m buffer size = Ret (g', m', Z.min size (Z.of_nat (length c) - pos)) /\
    wrote m m' buffer (slice c pos (Z.min size (Z.of_nat (length c) - pos))) /\
    root_file g' f c (pos + Z.min size (Z.of_nat (length c) - pos)).
Proof.
  intros (d & sb & ms & fl & a & v & k & Ro & Hf & Hs & V & <- & Hd & Hb) H1 H2 H3 H4.
  assert (Z.of_nat bsize = 4096) as EB by done.
  assert (read_size v size = Z.min size (Z.of_nat (length c) - offset v)) as Er by (unfold read_size; by rewrite Hd).
  assert (0 <= offset v) as H0 by (destruct V as [_ _ V3 V4 _ _]; lia).
  destruct (@vfs_read_spec lmfs_st lmfs_ops lmfs_laws v m buffer size V) as (v' & m' & E & Wr & V' & (S1 & _ & S2) & Ho);
    [lia|lia|lia|by rewrite Er, EB|].
  rewrite Er in *. set (n := Z.min _ _) in *.
  assert (lmfs_static (v_fs v') = (d, first_bdev, sb)) as Hs' by (rewrite <- Hs; exact (read_data lmfs_static _ _ _ _ _ _ _ E)).
  assert (with_vfs g 0 (VL (vmap lnode v)) (fun FS ops v => '(v, m, r) ← vfs_read v m buffer size; mret (v, (m, r))) =
    Ret (g, VL (vmap lnode v'), (m', n))) as W.
  { apply (root_vfs _ d sb ms); try done. by rewrite E, Ret_bind. }
  eexists _, m'. split; [|split].
  - unfold kernel_read. rewrite (proj2 (file_of_addr_Ret _ _ _) Hf), Ret_bind. cbn [k_body k_sb]. rewrite W, Ret_bind. reflexivity.
  - rewrite Hb, slice_app in Wr by (unfold n; lia). exact Wr.
  - exists d, sb, ms, fl, a, v', k. split; [by apply root_on_file|]. split; [apply lookup_insert_eq|].
    split; [done|]. split; [done|]. split; [done|]. split; [congruence|]. unfold bytes in *. congruence.
Qed.

Lemma root_seek g f c pos t : root_file g f c pos -> 0 <= t < Z.of_nat (length c) ->
  exists g' r, kernel_seek g f t SEEK_SET = Ret (g', r) /\ 0 <= r /\ root_file g' f c t.
Proof.
  intros (d & sb & ms & fl & a & v & k & Ro & Hf & Hs & V & <- & Hd & Hb) Ht.
  assert (data_size v <= Z.of_nat (nblocks v * bsize)) as Hn by apply (vi_size v V).
  destruct (@vfs_seek_spec lmfs_st lmfs_ops lmfs_laws v t V) as (v' & E & V' & (S1 & _ & S2) & Ho); [lia|lia|].
  assert (lmfs_static (v_fs v') = (d, first_bdev, sb)) as Hs' by (rewrite <- Hs; exact (seek_data lmfs_static _ _ _ _ _ E)).
  assert (with_vfs g 0 (VL (vmap lnode v)) (fun FS ops v => vfs_seek v t SEEK_SET) =
    Ret (g, VL (vmap lnode v'), if t =? offset v then 0 else t)) as W by (apply (root_vfs _ d sb ms); try done).
  eexists _, _. split; [|split].
  - unfold kernel_seek. rewrite (proj2 (file_of_addr_Ret _ _ _) Hf), Ret_bind. cbn [k_body k_sb]. rewrite W, Ret_bind. reflexivity.
  - destruct (t =? offset v); lia.
  - exists d, sb, ms, fl, a, v', k. split; [by apply root_on_file|]. split; [apply lookup_insert_eq|].
    split; [done|]. split; [done|]. split; [done|]. split; [congruence|]. unfold bytes in *. congruence.
Qed.

#[local] Instance root_reader : ReaderLaws (kfs D) := {|
  at_file := root_file;
  end_ok n := n mod 4096 <> 0;
  kread_law := root_read;
  kseek_law := root_seek |}.

Lemma root_file_open g d sb ms s a c f fl nb name : root_on (set_names g nb) d sb ms -> opened_file s a c ->
  lmfs_static s = (d, first_bdev, sb) -> Z.of_nat (length c) <> 0 ->
  get_file_fnode (Z.to_nat 1024) g name fl = Ret (set_names g nb, Some (0%nat, LNode (lnode s), a)) -> f <> 0 ->
  exists g2, __sys_open drv (Z.to_nat 1024) g f name fl = Ret (g2, f) /\ root_file g2 f c 0.
Proof.
  intros Ro O Hst Hne Eg Hf. destruct (open_opened s a c O Hne) as (f1 & k & E1 & V & Hz & S2 & Hb).
  assert (lmfs_static (v_fs f1) = (d, first_bdev, sb)) as Hs1 by (rewrite <- Hst; exact (load_block_data lmfs_static _ _ _ _ E1)).
  pose proof (root_vfs _ d sb ms (file_of s a) f1 (fun FS ops v => vfs_open v) 0 Ro Hst E1 Hs1) as W1.
  eexists. split.
  - unfold __sys_open. rewrite Eg, Ret_bind, (proj2 (Z.eqb_neq f 0) Hf). destruct O as (_ & _ & -> & _). change (DT_BLK =? DT_CHR) with false. cbv iota.
    change (new_vfile (LNode (lnode s)) a) with (VL (vmap lnode (file_of s a))). rewrite W1, Ret_bind. reflexivity.
  - exists d, sb, ms, fl, a, f1, k. split; [by apply root_on_file|]. by split; [apply lookup_insert_eq|].
Qed.

(** C12: a program on the image runs from the boot to memory.  mklmfs packs a tree with a
    valid program file; the kernel mounts the image; [get_elf_info] opens the file by its
    path and finds its sections; [elf_load_elf_image] then puts the bytes of every section,
    as they were packed, at its address, zeroes the sections without bytes and changes
    nothing else. *)
Theorem boot_program_loaded dir_name l ps c head nm tt dr m a
    (Hi : inodes l < 32) (Hb : dir_blocks l + blocks l <= 249) (Hk : kept l < 16) (Hf : fits dir_name l) (Hdev : dev_dir l)
    (Hl : lookup_filesystem head lmfs_name = Some lmfs) (Hdv : lookup_filesystem head devfs_name = Some devfs_fs)
    (Hat : file_at l ps = Some c) (Hdot : no_dot ps) (Hout : is_prefix slash_dev (slash :: join ps) = false)
    (Hfa : fa <> 0) (Hv : valid_elf c) (Ha : elf_mem_ok a (e_shnum (file_header c)))
    (Hok : Forall (section_ok c) (section_of <$> filter alloc (file_headers c)))
    (Hap : apart_all (section_of <$> filter alloc (file_headers c)))
    (Hord : file_order None (section_of <$> filter alloc (file_headers c))) :
  exists image g1 g2 m1 e g3 m2, mklmfs dir_name true l = Ret (Some image) /\
    mount_init (Z.to_nat 1024) (boot_fs head (boot_disks nm (ramdisk image)) tt init_iname_buffer dr : kfs D) = Ret g1 /\
    get_elf_info g1 m a (slash :: join ps) = Ret (g2, m1, Some e) /\ elf_of c fa e /\
    elf_load_elf_image g2 m1 e = Ret (g3, m2, 0) /\ loaded c m1 m2 (sections e).
Proof.
  destruct (image_loads dir_name l Hi Hb Hk Hf) as (image & n & b & es & Em & R & Hn & Hbp & Dn & St).
  destruct (mount_ok _ n b R Hn Hbp) as (sb & Esb & Hsb). pose proof (me_wf _ (rd_meta _ _ _ R)) as Wd. clear R.
  destruct (walk_file _ Wd sb Hsb c ps l es 0 (fst lmfs_get_root_fnode) dir_name Dn St Hf Hk Hat) as (nd & a0 & s & at1 & E & Ea & Wk & Hps & O); [lia|].
  pose proof (file_kept _ l es dir_name ps c St Hf Hat) as H0.
  destruct (mount_init_ok head nm (ramdisk image) sb tt dr l es dir_name Esb Hl Hdv Wd Hsb Dn St Hf Hk H0 Hdev) as (g1 & E1 & R1 & _).
  destruct ps as [|p ps]; [by inversion Wk|].
  destruct (root_fnode_walk g1 _ sb _ p ps nd a0 s at1 0 R1 E Wk Hps Hdot (file_wanted s at1 c O)) as (nb & Eg & Hst & R2); [by apply Forall_singleton|].
  pose proof (ve_len c Hv) as Hlen.
  destruct (root_file_open g1 _ sb _ s at1 c fa 0 nb (slash :: join (p :: ps)) R2 O Hst) as (g2 & Eo & Rf); [lia|exact Eg|exact Hfa|].
  destruct (@get_elf_info_valid (kfs D) root_io root_reader g1 m a (slash :: join (p :: ps)) g2 fa c Eo Hfa Rf Hv Ha) as (g3 & m1 & e & pos & Ei & Hof & Hpos).
  destruct Hof as (F1 & F2 & F3 & F4 & F5). pose proof Hpos as Hpos'. rewrite <- F1 in Hpos'. rewrite <- F3 in Hok, Hap, Hord.
  destruct (load_sections_ok (sections e) g3 m1 (ef_file e) c None) as (g4 & m2 & pos' & El & Ld & _); [by exists pos|done..|].
  exists image, g1, g3, m1, e, g4, m2. split; [exact Em|]. split; [exact E1|]. split; [exact Ei|].
  split; [exact (conj F1 (conj F2 (conj F3 (conj F4 F5))))|]. split; [exact El|exact Ld].
Qed.
End Reader.

(** ** A small program *)
Module ElfDemo.
Definition le (n : nat) (v : Z) : list Z := (fun i : nat => (v / 256 ^ Z.of_nat i) mod 256) <$> seq 0 n.
Definition header_bytes (shoff shnum : Z) : list Z :=
  ELFMAG ++ zeros 12 ++ le 2 2 ++ le 2 3 ++ le 4 1 ++ le 4 0x400000 ++ le 4 0 ++ le 4 shoff ++ le 4 0 ++ le 2 52 ++ le 2 0 ++
  le 2 0 ++ le 2 40 ++ le 2 shnum ++ le 2 0.
Definition section_entry (type flags addr off size : Z) : list Z :=
  le 4 0 ++ le 4 type ++ le 4 flags ++ le 4 addr ++ le 4 off ++ le 4 size ++ zeros 16.

(** Names, eight bytes of text at 4 MB and sixteen bytes without contents behind them. *)
Definition program : list Z :=
  header_bytes 64 3 ++ [184; 1; 0; 0; 0; 205; 48; 144] ++ zeros 4 ++
  section_entry 3 0 0 60 4 ++ section_entry 1 6 0x400000 52 8 ++ section_entry 8 3 0x400008 0 16.
Definition tree : listing := Dir [98] true (File [99] (Some program) End) End.

Lemma program_tree_fits : fits [120] tree.
Proof.
  cbn [tree fits]. split_and!; try done. intros _. split; [by apply PackDemo.one_char|].
  split; [done|]. intros _. split; [done|]. split; [|done]. intros _. split; [by apply PackDemo.one_char|done].
Qed.

Lemma program_header : file_header program = ElfHeader 2 3 1 0x400000 0 64 0 52 0 0 40 3 0.
Proof. vm_compute. reflexivity. Qed.

Lemma program_alloc :
  section_of <$> filter alloc (file_headers program) = [ElfSection 52 8 0x400000 6 1; ElfSection 0 16 0x400008 3 8].
Proof. vm_compute. reflexivity. Qed.

Lemma program_valid : @valid_elf _ _ (root_reader FileDemo.drv 4096) program.
Proof.
  split; cbn [end_ok root_reader]; rewrite ?program_header; cbn [e_shentsize e_shstrndx e_shnum e_shoff]; try (vm_compute; intuition congruence).
  vm_compute. right. left. discriminate.
Qed.

Lemma program_sections : Forall (@section_ok _ _ (root_reader FileDemo.drv 4096) program) (section_of <$> filter alloc (file_headers program)).
Proof.
  rewrite program_alloc. repeat constructor; vm_compute; congruence.
Qed.

Definition mem : elf_mem := ElfMem 0x1000 0x2000 0x3000 0x5000 0x6000.

(** A single open file with the contents [d]; the state is the position. *)
Definition one_file (d : list Z) : FileIo Z := {|
  kopen _ _ _ := Ret (0, 1);
  kread pos _ m a n := let c := slice d pos n in Ret (pos + Z.of_nat (length c), put_bytes m a c, Z.of_nat (length c));
  kseek _ _ off _ := Ret (off, 0);
  kclose st _ := Ret (st, 0) |}.

Definition load_result (d : list Z) (l : list elf_section) : outcome (bmem * Z) :=
  '(_, m, r) ← @elf_load_elf_image Z (one_file d) 0 ∅ (ElfFile (Z.of_nat (length l)) 1 0 l 0 0); mret (m, r).
End ElfDemo.

Lemma boot_program_loaded_witness : exists image g1 g2 m1 e g3 m2,
  mklmfs [120] true ElfDemo.tree = Ret (Some image) /\
  mount_init (Z.to_nat 1024) (boot_fs [fat; devfs_fs; lmfs] (boot_disks [] (ramdisk image)) DevDemo.ts2 init_iname_buffer [] : kfs (list Z)) = Ret g1 /\
  @get_elf_info _ (kfs_io FileDemo.drv (Z.to_nat 1024) 4096) g1 ∅ ElfDemo.mem [slash; 98; slash; 99] = Ret (g2, m1, Some e) /\ elf_of ElfDemo.program 4096 e /\
  @elf_load_elf_image _ (kfs_io FileDemo.drv (Z.to_nat 1024) 4096) g2 m1 e = Ret (g3, m2, 0) /\ loaded ElfDemo.program m1 m2 (sections e).
Proof.
  apply (boot_program_loaded FileDemo.drv 4096 [120] ElfDemo.tree [[98]; [99]] ElfDemo.program [fat; devfs_fs; lmfs] [] DevDemo.ts2 [] ∅ ElfDemo.mem);
    [vm_compute; congruence..|exact ElfDemo.program_tree_fits|by left|reflexivity|reflexivity|reflexivity|vm_compute; congruence|reflexivity|done| | | | |].
  - exact ElfDemo.program_valid.
  - rewrite ElfDemo.program_header. unfold elf_mem_ok. cbn. lia.
  - exact ElfDemo.program_sections.
  - rewrite ElfDemo.program_alloc. split; [|done]. constructor; [left; cbn; lia|constructor].
  - rewrite ElfDemo.program_alloc. done.
Defined.

(** ** Behaviour that is not meant *)
Module ElfFaults.
(** Two sections that follow each other in memory but not in the file: the second one gets
    the bytes behind the first. *)
Lemma no_seek_between : match ElfDemo.load_result [1; 2; 3; 4; 5; 6] [ElfSection 0 2 0x400000 6 1; ElfSection 4 2 0x400002 6 1] with
  | Ret (m, r) => (read_bytes m 0x400000 4, r) = ([1; 2; 3; 4], 0)
  | _ => False
  end.
Proof. vm_compute. reflexivity. Qed.

(** Relocations (type 9) have the bit of the sections without contents: they are zeroed. *)
Lemma relocations_zeroed : match ElfDemo.load_result [1; 2; 3; 4] [ElfSection 0 4 0x400000 2 9] with
  | Ret (m, r) => (read_bytes m 0x400000 4, r) = ([0; 0; 0; 0], 0)
  | _ => False
  end.
Proof. vm_compute. reflexivity. Qed.
End ElfFaults.
