(* ===== verification/TaskMm.v ===== *)
(** * The memory of a task (kernel/task_mm.c, kernel/mmap.c, include/os/task_mm.h)

    A task has four sections, each with the list of its pages; the list heads are addresses
    in the page lists of the allocator, as in [Pgt].  The contents of user pages are bytes
    at physical addresses and are reached through the page table in use, [translate];
    kernel addresses of page tables stay in [pg_mem].  The image of a program is loaded
    through the files of [Elf]. *)

From S2P Require Import Prelude Bitops Dlist CString Mm MmInit Mmu Pgt PgtSpec Vfs Path File Elf.

(** ** Data *)

Inductive task_mm_section_t :=
  | TASK_MM_SECTION_ELF
  | TASK_MM_SECTION_STACK
  | TASK_MM_SECTION_MMAP
  | TASK_MM_SECTION_META.

#[export] Instance task_mm_section_t_eq : EqDecision task_mm_section_t.
Proof. solve_decision. Defined.

Definition all_sections : list task_mm_section_t :=
  [TASK_MM_SECTION_ELF; TASK_MM_SECTION_STACK; TASK_MM_SECTION_MMAP; TASK_MM_SECTION_META].

Definition TASK_MM_SECTION_FLAG_RO : Z := 0x1.
Definition TASK_MM_SECTION_FLAG_STACK : Z := 0x2.
Definition TASK_MM_SECTION_FLAG_MMAP : Z := 0x4.
Definition TASK_MM_SECTION_FLAG_META : Z := 0x8.

Definition GFP_MMAP : Z := Z.lor __GFP_USER 0x200.
Definition PGT_MAP_NORMAL : Z := 0.
Definition PROCESS_USER_STACK_BASE : Z := 0x80000000.
Definition PROCESS_USER_META_BASE : Z := 0x400000.

Record task_mm_section := TaskMmSection {
  section_size : Z; mapped_size : Z; base_addr : Z; alloc_pages : Z; alloc_mem : Z; sflag : Z }.

Record mm_struct := MmStruct {
  mm_elf_file : option elf_file;
  page_table : task_page_table;
  mm_section : task_mm_section_t -> task_mm_section }.

Definition set_section (mm : mm_struct) (i : task_mm_section_t) (s : task_mm_section) : mm_struct :=
  MmStruct (mm_elf_file mm) (page_table mm) (fun j => if decide (j = i) then s else mm_section mm j).
Definition set_table (mm : mm_struct) (t : task_page_table) : mm_struct :=
  MmStruct (mm_elf_file mm) t (mm_section mm).
Definition set_elf (mm : mm_struct) (e : option elf_file) : mm_struct :=
  MmStruct e (page_table mm) (mm_section mm).

Definition set_lists (st : pgst) (l : lheap Z) : pgst :=
  set_mm st (set_pages (pg_mm st) (pages (pg_mm st)) l).

(** ** Release *)

Fixpoint free_sections (fuel : nat) (b : mm_bank) (mm : mm_struct) (l : list task_mm_section_t) : outcome mm_bank :=
  match l with
  | [] => mret b
  | i :: l => b ← free_pages_on_list fuel b (alloc_mem (mm_section mm i)); free_sections fuel b mm l
  end.

(** The pointer is set from the index in every round; what the loop adds to it is lost. *)
Definition free_sections_memory (fuel : nat) (st : pgst) (mm : mm_struct) : outcome pgst :=
  b ← free_sections fuel (pg_mm st) mm all_sections; mret (set_mm st b).

Definition task_mm_release_task_memory (fuel : nat) (st : pgst) (mm : mm_struct) : outcome (pgst * mm_struct) :=
  '(st, t) ← free_task_page_table fuel st (page_table mm);
  st ← free_sections_memory fuel st (set_table mm t);
  mret (st, set_table mm t).

(** ** Sections *)

(** [size], [base] and [flag] of a new section; 16K of meta data, 1M of stack. *)
Definition section_layout (mm : mm_struct) (i : task_mm_section_t) : outcome (Z * Z * Z) :=
  match i with
  | TASK_MM_SECTION_ELF =>
    match mm_elf_file mm with
    | Some e => mret (elf_memory_size e, elf_get_elf_base e, TASK_MM_SECTION_FLAG_RO)
    | None => Fault
    end
  | TASK_MM_SECTION_STACK => mret (0x100000, PROCESS_USER_STACK_BASE, TASK_MM_SECTION_FLAG_STACK)
  | TASK_MM_SECTION_MMAP => mret (0x20000000, PROCESS_USER_MMAP_BASE, TASK_MM_SECTION_FLAG_MMAP)
  | TASK_MM_SECTION_META => mret (0x4000, PROCESS_USER_META_BASE, TASK_MM_SECTION_FLAG_META)
  end.

(** Pages the task already has are kept. *)
Definition init_task_mm_section (st : pgst) (mm : mm_struct) (i : task_mm_section_t) : outcome (pgst * mm_struct) :=
  let s := mm_section mm i in
  '(size, base, flag) ← section_layout mm i;
  let s' := TaskMmSection size 0 base (alloc_pages s) (alloc_mem s) flag in
  let st := if alloc_pages s =? 0 then set_lists st (init_list (plists (pg_mm st)) (alloc_mem s)) else st in
  mret (st, set_section mm i s').

Definition copy_mm_section_info (st : pgst) (c p : mm_struct) (i : task_mm_section_t) : pgst * mm_struct :=
  let s := mm_section p i in
  let head := alloc_mem (mm_section c i) in
  (set_lists st (init_list (plists (pg_mm st)) head),
   set_section c i (TaskMmSection (section_size s) 0 (base_addr s) 0 head (sflag s))).

(** The loop that adds pages, one at a time. *)
Fixpoint get_pages (n : nat) (st : pgst) (s : task_mm_section) (flag : Z) : outcome (pgst * task_mm_section * Z) :=
  match n with
  | O => mret (st, s, 0)
  | S n =>
    '(b, pg) ← request_pages (pg_mm st) 1 flag;
    let st := set_mm st b in
    if pg =? 0 then mret (st, s, - ENOMEM)
    else
      let st := set_mm st (add_page_to_list_tail (pg_mm st) pg (alloc_mem s)) in
      get_pages n st (TaskMmSection (section_size s) (u32 (mapped_size s + PAGE_SIZE)) (base_addr s) (alloc_pages s + 1)
        (alloc_mem s) (sflag s)) flag
  end.

(** The loop for fewer pages: the last page of the list is released in every round and
    stays on the list. *)
Fixpoint drop_pages (n : nat) (st : pgst) (s : task_mm_section) : outcome pgst :=
  match n with
  | O => mret st
  | S n =>
    b ← release_page (pg_mm st) (list_to_page (list_prve (plists (pg_mm st)) (alloc_mem s)));
    drop_pages n (set_mm st b) s
  end.

Definition section_get_memory (st : pgst) (count : Z) (s : task_mm_section) : outcome (pgst * task_mm_section * Z) :=
  if count =? 0 then mret (st, s, 0)
  else
    let flag := if negb (Z.land (sflag s) TASK_MM_SECTION_FLAG_MMAP =? 0) then GFP_MMAP else GFP_USER in
    if 0 <? count then get_pages (Z.to_nat count) st s flag
    else st ← drop_pages (Z.to_nat (- count)) st s; mret (st, s, 0).

Section TaskMm.
Context (u : mmu) (fuel : nat).

(** [pgt_map_task_memory] on a section of the task. *)
Definition map_task_section (st : pgst) (mm : mm_struct) (i : task_mm_section_t) (type : Z) : outcome (pgst * mm_struct * Z) :=
  let s := mm_section mm i in
  '(st, t, ret) ← pgt_map_task_memory u fuel st (page_table mm) (alloc_mem s) (base_addr s) type;
  mret (st, set_table mm t, ret).

(** [section_get_memory] on a section of the task. *)
Definition section_memory (st : pgst) (mm : mm_struct) (i : task_mm_section_t) (count : Z) : outcome (pgst * mm_struct * Z) :=
  '(st, s, ret) ← section_get_memory st count (mm_section mm i);
  mret (st, set_section mm i s, ret).

Definition alloc_task_user_stack (st : pgst) (mm : mm_struct) : outcome (pgst * mm_struct * Z) :=
  let nr_page := 4 - alloc_pages (mm_section mm TASK_MM_SECTION_STACK) in
  '(st, mm, ret) ← section_memory st mm TASK_MM_SECTION_STACK nr_page;
  if negb (ret =? 0) then mret (st, mm, ret)
  else map_task_section st mm TASK_MM_SECTION_STACK PGT_MAP_STACK.

Definition init_task_meta_section (st : pgst) (mm : mm_struct) : outcome (pgst * mm_struct * Z) :=
  if alloc_pages (mm_section mm TASK_MM_SECTION_META) =? 0 then
    '(st, mm, ret) ← section_memory st mm TASK_MM_SECTION_META 1;
    if negb (ret =? 0) then mret (st, mm, - ENOMEM)
    else
      '(st, mm, ret) ← map_task_section st mm TASK_MM_SECTION_META PGT_MAP_NORMAL;
      if negb (ret =? 0) then mret (st, mm, - EFAULT) else mret (st, mm, 0)
  else mret (st, mm, 0).

(** The last part of [init_mm_struct]: a stack and a page of meta data. *)
Definition init_user_memory (st : pgst) (mm : mm_struct) : outcome (pgst * mm_struct * Z) :=
  '(st, mm, ret) ← alloc_task_user_stack st mm;
  if negb (ret =? 0) then mret (st, mm, ret)
  else init_task_meta_section st mm.

(** ** The image of the program *)

Section Image.
Context {F : Type} `{FileIo F}.

Definition load_image (fs : F) (m : bmem) (mm : mm_struct) : outcome (F * bmem * Z) :=
  match mm_elf_file mm with
  | Some e => elf_load_elf_image fs m e
  | None => Fault
  end.

Definition task_mm_load_elf_image (st : pgst) (mm : mm_struct) (fs : F) (m : bmem)
  : outcome (pgst * mm_struct * F * bmem * Z) :=
  let s := mm_section mm TASK_MM_SECTION_ELF in
  let nr := page_nr (section_size s) - alloc_pages s in
  '(st, mm, ret) ← section_memory st mm TASK_MM_SECTION_ELF nr;
  if ret =? - ENOMEM then mret (st, mm, fs, m, - ENOMEM)
  else
    '(st, mm, ret) ← map_task_section st mm TASK_MM_SECTION_ELF PGT_MAP_NORMAL;
    if negb (ret =? 0) then mret (st, mm, fs, m, ret)
    else '(fs, m, ret) ← load_image fs m mm; mret (st, mm, fs, m, ret).

(** The same for a program the kernel starts: the pages are also mapped into the table in
    use, [cur], to be filled through it. *)
Definition task_mm_load_elf_image_1 (st : pgst) (mm : mm_struct) (cur : task_page_table) (fs : F) (m : bmem)
  : outcome (pgst * mm_struct * task_page_table * F * bmem * Z) :=
  '(st, mm, ret) ← section_memory st mm TASK_MM_SECTION_ELF (page_nr (section_size (mm_section mm TASK_MM_SECTION_ELF)));
  if negb (ret =? 0) then mret (st, mm, cur, fs, m, - ENOMEM)
  else
    '(st, mm, ret) ← map_task_section st mm TASK_MM_SECTION_ELF PGT_MAP_NORMAL;
    if negb (ret =? 0) then mret (st, mm, cur, fs, m, ret)
    else
      let s := mm_section mm TASK_MM_SECTION_ELF in
      '(st, cur, ret) ← pgt_map_task_memory u fuel st cur (alloc_mem s) (base_addr s) PGT_MAP_NORMAL;
      if negb (ret =? 0) then mret (st, mm, cur, fs, m, ret)
      else '(fs, m, ret) ← load_image fs m mm; mret (st, mm, cur, fs, m, ret).

(** [init_mm_struct]: a kernel thread has no memory of its own; a new program gets new
    sections, a copy takes them from [parent]. *)
Definition _PROCESS_FLAG_USER_EXEC : Z := 0x20.
Definition _PROCESS_FLAG_KERN_EXEC : Z := 0x40.
Definition PROCESS_TYPE_KERNEL : Z := 0x1.

Definition execs (flag : Z) : bool :=
  negb (Z.land flag _PROCESS_FLAG_USER_EXEC =? 0) || negb (Z.land flag _PROCESS_FLAG_KERN_EXEC =? 0).

Fixpoint init_sections (st : pgst) (mm parent : mm_struct) (flag : Z) (l : list task_mm_section_t) : outcome (pgst * mm_struct) :=
  match l with
  | [] => mret (st, mm)
  | i :: l =>
    '(st, mm) ← (if execs flag then init_task_mm_section st mm i else mret (copy_mm_section_info st mm parent i));
    init_sections st mm parent flag l
  end.

Definition init_mm_struct (st : pgst) (mm parent : mm_struct) (flag : Z) (fs : F) (m : bmem) (a : elf_mem) (name : list Z)
  : outcome (pgst * mm_struct * F * bmem * Z) :=
  if negb (Z.land flag PROCESS_TYPE_KERNEL =? 0) then mret (st, mm, fs, m, 0)
  else
    fs ← release_elf_file fs (mm_elf_file mm);
    '(fs, m, e) ← get_elf_info fs m a name;
    let mm := set_elf mm e in
    match e with
    | None => mret (st, mm, fs, m, - ENOMEM)
    | Some _ =>
      '(st, mm) ← init_sections st mm parent flag all_sections;
      '(st, t, ret) ← init_task_page_table u st (page_table mm);
      let mm := set_table mm t in
      if negb (ret =? 0) then mret (st, mm, fs, m, ret)
      else
        '(st, mm, ret) ← init_user_memory st mm; mret (st, mm, fs, m, ret)
    end.
End Image.

(** ** Copying *)

Section Copy.
Context (kmem : Z -> Z).

(** A byte read through the table [t]; the kernel's own memory below its temporary mapping
    holds the bytes [kmem]. *)
Definition vread (st : pgst) (t : task_page_table) (pm : bmem) (va : Z) : option Z :=
  if (2147483648 <=? va) && (va <? KERNEL_TEMP_BUFFER_BASE) then Some (kmem va)
  else pa ← translate u st t va; Some (rd pm (pa + va mod 4096)).

(** [memcpy] to a page that [t] maps; an address without a page is a page fault. *)
Fixpoint copy_bytes (n : nat) (st : pgst) (t : task_page_table) (pm : bmem) (dst src : Z) : outcome bmem :=
  match n with
  | O => mret pm
  | S n =>
    match translate u st t dst, vread st t pm src with
    | Some d, Some c => copy_bytes n st t (wr pm (d + dst mod 4096) c) (dst + 1) (src + 1)
    | _, _ => Fault
    end
  end.

(** The loop on [pbase]; [list] is not advanced. *)
Fixpoint copy_section_loop (count : nat) (st : pgst) (cur : task_page_table) (pm : bmem) (list pbase type : Z)
  : outcome (pgst * bmem * Z) :=
  match count with
  | O => mret (st, pm, 0)
  | S count =>
    '(st, nbase) ← pgt_map_temp_page u st cur (list_to_page list);
    if nbase =? 0 then mret (st, pm, - EFAULT)
    else
      pm ← copy_bytes 4096 st cur pm nbase pbase;
      copy_section_loop count st cur pm list
        (if type =? PGT_MAP_STACK then u32 (pbase - PAGE_SIZE) else u32 (pbase + PAGE_SIZE)) type
  end.

Definition copy_section_memory (st : pgst) (cur : task_page_table) (pm : bmem) (new parent : task_mm_section) (type : Z)
  : outcome (pgst * bmem * Z) :=
  let list := list_next (plists (pg_mm st)) (alloc_mem new) in
  if negb (alloc_pages new =? alloc_pages parent) then mret (st, pm, - EINVAL)
  else copy_section_loop (Z.to_nat (alloc_pages new)) st cur pm list (base_addr parent) type.

Definition copy_task_mm_section (st : pgst) (cur : task_page_table) (pm : bmem) (nmm pmm : mm_struct) (i : task_mm_section_t) (type : Z)
  : outcome (pgst * bmem * mm_struct * Z) :=
  '(st, nmm, ret) ← map_task_section st nmm i type;
  if negb (ret =? 0) then mret (st, pm, nmm, ret)
  else '(st, pm, ret) ← copy_section_memory st cur pm (mm_section nmm i) (mm_section pmm i) type; mret (st, pm, nmm, ret).

Definition copy_task_elf st cur pm nmm pmm := copy_task_mm_section st cur pm nmm pmm TASK_MM_SECTION_ELF PGT_MAP_NORMAL.
Definition copy_task_stack st cur pm nmm pmm := copy_task_mm_section st cur pm nmm pmm TASK_MM_SECTION_STACK PGT_MAP_STACK.
Definition copy_task_meta st cur pm nmm pmm := copy_task_mm_section st cur pm nmm pmm TASK_MM_SECTION_META PGT_MAP_NORMAL.

(** The loop of [copy_task_mmap] on [nl], [pl]; the parent's page is read at its own user
    address. *)
Fixpoint copy_mmap_loop (count : nat) (st : pgst) (cur ptable : task_page_table) (pm : bmem) (t : task_page_table) (nl pl : Z)
  : outcome (pgst * bmem * task_page_table * Z) :=
  match count with
  | O => mret (st, pm, t, 0)
  | S count =>
    let np := list_to_page nl in
    let pp := list_to_page pl in
    '(st, t, ret) ← pgt_map_mmap_page u st t np (page_get_map_address (pg_mm st) pp);
    if negb (ret =? 0) then mret (st, pm, t, ret)
    else
      '(st, base) ← pgt_map_temp_page u st ptable np;
      if base =? 0 then mret (st, pm, t, - EFAULT)
      else
        va ← page_va st pp;
        pm ← copy_bytes 4096 st cur pm base va;
        copy_mmap_loop count st cur ptable pm t (list_next (plists (pg_mm st)) nl) (list_next (plists (pg_mm st)) pl)
  end.

Definition copy_task_mmap (st : pgst) (cur : task_page_table) (pm : bmem) (nmm pmm : mm_struct)
  : outcome (pgst * bmem * mm_struct * Z) :=
  let n := mm_section nmm TASK_MM_SECTION_MMAP in
  let p := mm_section pmm TASK_MM_SECTION_MMAP in
  if negb (alloc_pages n =? alloc_pages p) then mret (st, pm, nmm, - EINVAL)
  else
    '(st, pm, t, ret) ← copy_mmap_loop (Z.to_nat (alloc_pages n)) st cur (page_table pmm) pm (page_table nmm)
      (list_next (plists (pg_mm st)) (alloc_mem n)) (list_next (plists (pg_mm st)) (alloc_mem p));
    mret (st, pm, set_table nmm t, ret).

Fixpoint copy_sections_memory (st : pgst) (nmm pmm : mm_struct) (l : list task_mm_section_t) : outcome (pgst * mm_struct * Z) :=
  match l with
  | [] => mret (st, nmm, 0)
  | i :: l =>
    '(st, nmm, ret) ← section_memory st nmm i (alloc_pages (mm_section pmm i) - alloc_pages (mm_section nmm i));
    if ret =? - ENOMEM then mret (st, nmm, ret) else copy_sections_memory st nmm pmm l
  end.

(** The copies in the order of the code, until one fails. *)
Fixpoint copy_steps (st : pgst) (pm : bmem) (nmm : mm_struct)
    (l : list (pgst -> bmem -> mm_struct -> outcome (pgst * bmem * mm_struct * Z))) : outcome (pgst * bmem * mm_struct * Z) :=
  match l with
  | [] => mret (st, pm, nmm, 0)
  | f :: l =>
    '(st, pm, nmm, ret) ← f st pm nmm;
    if negb (ret =? 0) then mret (st, pm, nmm, ret) else copy_steps st pm nmm l
  end.

Definition task_mm_copy_task_memory (st : pgst) (cur : task_page_table) (pm : bmem) (nmm pmm : mm_struct)
  : outcome (pgst * bmem * mm_struct * Z) :=
  '(st, nmm, ret) ← copy_sections_memory st nmm pmm all_sections;
  '(st, pm, nmm, ret) ←
    (if negb (ret =? 0) then mret (st, pm, nmm, ret)
     else copy_steps st pm nmm
       [fun st pm nmm => copy_task_meta st cur pm nmm pmm; fun st pm nmm => copy_task_stack st cur pm nmm pmm;
        fun st pm nmm => copy_task_mmap st cur pm nmm pmm; fun st pm nmm => copy_task_elf st cur pm nmm pmm]);
  if negb (ret =? 0) then st ← free_sections_memory fuel st nmm; mret (st, pm, nmm, - ENOMEM)
  else mret (st, pm, nmm, 0).

End Copy.

(** The functions that fill the first page of the meta data, [base] being where it is
    mapped; another task's page is mapped into the table in use for it.  [m] is the memory as this
    table shows it. *)
Definition task_mm_setup_meta_data (st : pgst) (cur : task_page_table) (mm : mm_struct) (is_current : bool) (m : bmem)
    (callback : list (Z -> bmem -> outcome bmem)) : outcome (pgst * bmem * Z) :=
  let s := mm_section mm TASK_MM_SECTION_META in
  let list := list_next (plists (pg_mm st)) (alloc_mem s) in
  '(st, base) ← (if is_current then mret (st, base_addr s) else pgt_map_temp_page u st cur (list_to_page list));
  if negb is_current && (base =? 0) then mret (st, m, - ENOMEM)
  else
    m ← foldl (fun r func => m ← r; func base m) (mret m) callback;
    mret (st, m, 0).


(** ** mmap *)

Section Mmap.
Context {D : Type}.

(** [page->pinfo] and [page->pdata] remember the file and the offset. *)
Definition note_file (b : mm_bank) (pg fd off : Z) : mm_bank :=
  page_set_pdata (set_pinfo b pg fd) pg (u32 off).

(** The loop on [i] and [ua]; what the mapping answers is not looked at. *)
Fixpoint mmap_loop (n : nat) (st : pgst) (t : task_page_table) (head ua fd off : Z) : outcome (pgst * task_page_table * Z * bool) :=
  match n with
  | O => mret (st, t, ua, true)
  | S n =>
    '(b, pg) ← request_pages (pg_mm st) 1 GFP_MMAP;
    let st := set_mm st b in
    if pg =? 0 then mret (st, t, ua, false)
    else
      let st := set_mm st (add_page_to_list_tail (pg_mm st) pg head) in
      '(st, t, _) ← pgt_map_mmap_page u st t pg ua;
      let st := set_mm st (note_file (pg_mm st) pg fd off) in
      mmap_loop n st t head (u32 (ua + PAGE_SIZE)) fd (off + PAGE_SIZE)
  end.

(** Without an address [pgt_get_mmap_base] is called with the table itself for the pointer
    to it: the call has no meaning.  The file is read to the address behind the pages. *)
Definition task_mm_mmap (st : pgst) (mm : mm_struct) (g : kfs D) (d : file_desc) (m : bmem) (start len flags fd off : Z)
  : outcome (pgst * mm_struct * kfs D * bmem * Z) :=
  let nr := page_nr len in
  if start =? 0 then Fault
  else
    ret ← pgt_check_mmap_addr u st (page_table mm) start nr;
    if negb (ret =? 0) then mret (st, mm, g, m, 0)
    else
      '(st, t, ua, ok) ← mmap_loop (Z.to_nat nr) st (page_table mm) (alloc_mem (mm_section mm TASK_MM_SECTION_MMAP)) start fd off;
      let mm := set_table mm t in
      if negb ok then mret (st, mm, g, m, 0)
      else if 0 <? fd then
        '(g, m, ret) ← fmmap g d m fd ua len off;
        if negb (u32 ret =? len) then mret (st, mm, g, m, 0) else mret (st, mm, g, m, start)
      else mret (st, mm, g, m, start).

Fixpoint munmap_loop (n : nat) (st : pgst) (t : task_page_table) (start : Z) : pgst :=
  match n with
  | O => st
  | S n =>
    let '(st, pg) := pgt_unmap_mmap_page u st t start in
    let st := if pg =? 0 then st else set_mm st (del_page_from_list (pg_mm st) pg) in
    munmap_loop n st t (u32 (start + PAGE_SIZE))
  end.

(** The page stays allocated; [pinfo] is unsigned and never below 0. *)
Definition task_mm_munmap (st : pgst) (mm : mm_struct) (g : kfs D) (d : file_desc) (m : bmem) (start len flags sync : Z)
  : outcome (pgst * kfs D * Z) :=
  let nr := page_nr len in
  '(g, err) ←
    (if negb (sync =? 0) then
       pg ← pgt_get_task_page u st (page_table mm) start;
       if pg =? 0 then mret (g, - EINVAL)
       else
         let p := page_at (pg_mm st) pg in
         '(g, _) ← fmsync g d m (pinfo p) start len (pdata p); mret (g, 0)
     else mret (g, 0));
  if negb (err =? 0) then mret (st, g, err)
  else mret (munmap_loop (Z.to_nat nr) st (page_table mm) start, g, 0).

Definition os_mmap (st : pgst) (mm : mm_struct) (g : kfs D) (d : file_desc) (m : bmem) (start length prot flags fd offset : Z)
  : outcome (pgst * mm_struct * kfs D * bmem * Z) :=
  if length =? 0 then mret (st, mm, g, m, 0) else task_mm_mmap st mm g d m start length flags fd offset.

Definition __os_munmap (st : pgst) (mm : mm_struct) (g : kfs D) (d : file_desc) (m : bmem) (addr length flags sync : Z)
  : outcome (pgst * kfs D * Z) :=
  if addr =? 0 then mret (st, g, - EINVAL)
  else if negb (is_align addr PAGE_SIZE) then mret (st, g, - EINVAL)
  else task_mm_munmap st mm g d m addr length flags sync.

Definition os_munmap st mm g d m addr length := __os_munmap st mm g d m addr length 0 0.
Definition os_msync st mm g d m addr length flags := __os_munmap st mm g d m addr length flags 1.
End Mmap.
End TaskMm.
