(* ===== verification/TaskMmSpec.v ===== *)
(** * The memory of a task is its own

    [task_ok]: every section of a task owns the pages on its list, no two sections share a
    page, and none is part of the page table.  Getting memory adds pages nobody had;
    mapping puts them where the section says; loading a program puts its bytes there. *)

From S2P Require Import Prelude Bitops Dlist CString Mm MmAlloc MmSpec Mmu MmInit Pgt PgtSpec PgtMap Vfs VfsSpec Path File Elf ElfSpec FileBoot ElfBoot TaskMm.

(** A page that is taken and queued leaves the page table as it is. *)
Section Taken.
Context (u : mmu) {L : MmuLaws (ops u)} (reserved : sref -> Z -> Prop).
Context (st : pgst) (t : task_page_table) (live : list block) (bp : block) (ptes : gmap Z block) (pts : list block).
Context (mm1 mm' : mm_bank) (b : block).
Hypothesis Hspace : space u reserved st t live bp ptes pts.
Hypothesis N : taken_ok reserved (pg_mm st) mm1 live b.
Hypothesis So : soft mm1 mm'.
Hypothesis Hpg : pages mm' = pages mm1.

Lemma taken_layout : same_layout (pg_mm st) mm'.
Proof. etrans; [apply N|]. apply same_layout_zones; apply So. Qed.

Lemma taken_inv : pgt_inv u reserved (set_mm st mm') t (b :: live) bp ptes.
Proof.
  destruct Hspace as [[I1 Im I2 I3 I4 I5 I6 I7 I8 I9 I10] _ _ _]. pose proof taken_layout as HL.
  pose proof (fun x => block_layout _ _ x HL) as Hbl. pose proof (fun r => layout_fields _ _ r HL) as Hf.
  split; cbn [set_mm pg_mm pg_mem]; try done.
  - eapply soft_inv; [done|]. apply N.
  - intros r Hz Hu. destruct (Hf r) as (_ & -> & _). apply Im; [done|]. by apply (used_sec_layout _ _ _ HL).
  - intros r Hu. destruct (Hf r) as (-> & _). apply I2. by apply (used_sec_layout _ _ _ HL).
  - by right.
  - by rewrite (proj1 (Hbl bp)).
  - intros i b' Hb'. destruct (I7 i b' Hb') as (Hl & Hz & Hn & Hk). split; [by right|]. split; [done|]. split; [done|].
    unfold kernel_page in *. destruct (Hbl b') as (-> & _ & ->). rewrite <- Hk, <- (tk_keep _ _ _ _ _ N b' Hl).
    unfold page_at. by rewrite Hpg.
  - intros i b' Hb'. destruct (Hbl b') as (_ & -> & _). rewrite (proj1 (Hbl bp)). by apply I8.
  - intros i Hi Hn. rewrite (proj1 (Hbl bp)). by apply I9.
Qed.

Lemma taken_view : same_view u st t (set_mm st mm') t.
Proof.
  intros va Hva. destruct Hspace as [I _ _ _].
  rewrite (translate_entry u reserved _ _ _ _ _ taken_inv va Hva), (translate_entry u reserved _ _ _ _ _ I va Hva).
  apply entry_of_layout, taken_layout.
Qed.
End Taken.

(** ** The pages of a task *)

Section Own.
Context (u : mmu) {L : MmuLaws (ops u)} (reserved : sref -> Z -> Prop).

Definition head_of (mm : mm_struct) (i : task_mm_section_t) : Z := alloc_mem (mm_section mm i).

Record task_ok (st : pgst) (mm : mm_struct) (live : list block) (bp : block) (ptes : gmap Z block) (pts : list block)
    (own : task_mm_section_t -> list block) : Prop := {
  to_space : space u reserved st (page_table mm) live bp ptes pts;
  to_pages : forall i, pages_of st (page_table mm) live bp ptes pts (head_of mm i) (own i);
  to_heads : forall i j, head_of mm i = head_of mm j -> i = j;
  to_apart : forall i j b, b ∈ own i -> b ∈ own j -> i = j;
  to_count : forall i, alloc_pages (mm_section mm i) = Z.of_nat (length (own i)) }.

(** Only the pages of section [i] and their numbers may differ. *)
Definition same_sections (mm mm' : mm_struct) (i : task_mm_section_t) : Prop :=
  mm_elf_file mm' = mm_elf_file mm /\ (forall j, j <> i -> mm_section mm' j = mm_section mm j) /\
  section_size (mm_section mm' i) = section_size (mm_section mm i) /\
  base_addr (mm_section mm' i) = base_addr (mm_section mm i) /\
  alloc_mem (mm_section mm' i) = alloc_mem (mm_section mm i) /\ sflag (mm_section mm' i) = sflag (mm_section mm i).

(** A section with one page more. *)
Definition grown (s : task_mm_section) : task_mm_section :=
  TaskMmSection (section_size s) (u32 (mapped_size s + PAGE_SIZE)) (base_addr s) (alloc_pages s + 1) (alloc_mem s) (sflag s).

Definition with_page (own : task_mm_section_t -> list block) (i : task_mm_section_t) (b : block) (j : task_mm_section_t) : list block :=
  if decide (j = i) then own i ++ [b] else own j.

Lemma fresh_user st t live bp ptes pts b : space u reserved st t live bp ptes pts -> b ∉ live ->
  user_page (b :: live) bp ptes b.
Proof.
  intros [I _ _ _] Hfr. split; [by left|]. split.
  - intros ->. apply Hfr, (pi_bp _ _ _ _ _ _ _ I).
  - intros k Hk. apply Hfr. by apply (pi_pte _ _ _ _ _ _ _ I k b Hk).
Qed.

Lemma with_page_cases own i b j x : x ∈ with_page own i b j -> x ∈ own j \/ (x = b /\ j = i).
Proof.
  unfold with_page. case_decide as E; [subst|by left]. intros [?|?%list_elem_of_singleton]%elem_of_app; auto.
Qed.

Lemma add_page_ok st mm live bp ptes pts own i mm1 b : task_ok st mm live bp ptes pts own ->
  taken_ok reserved (pg_mm st) mm1 live b -> b_count b = 1 ->
  let st' := set_mm st (add_page_to_list_tail mm1 (block_page (pg_mm st) b) (head_of mm i)) in
  task_ok st' (set_section mm i (grown (mm_section mm i))) (b :: live) bp ptes pts (with_page own i b) /\
  same_view u st (page_table mm) st' (page_table mm).
Proof.
  intros [T1 T2 T3 T4 T5] N Hc st'. set (mm' := add_page_to_list_tail mm1 _ _) in st'.
  assert (soft mm1 mm') as So by apply soft_plists.
  pose proof (taken_inv u reserved st _ live bp ptes pts mm1 mm' b T1 N So eq_refl) as I'.
  pose proof (taken_layout reserved st live mm1 mm' b N So) as HL.
  pose proof (pi_alloc _ _ _ _ _ _ _ I') as A'. cbn [set_mm pg_mm] in A'.
  pose proof (pi_alloc _ _ _ _ _ _ _ (sp_inv _ _ _ _ _ _ _ _ T1)) as A.
  assert (queued (pg_mm st) mm' (head_of mm i) (node (pg_mm st) b)) as Hq.
  { exists (plists mm1). split; [|done]. intros a Ha. by apply (tk_nodes _ _ _ _ _ N Hc). }
  pose proof (tk_fresh _ _ _ _ _ N) as Hfr.
  assert (forall j x, x ∈ own j -> x ∈ live) as Hl.
  { intros j x Hx. pose proof (li_live _ _ _ _ (po_list _ _ _ _ _ _ _ _ (T2 j))) as H. rewrite Forall_forall in H. by apply H. }
  assert (forall j, head_of (set_section mm i (grown (mm_section mm i))) j = head_of mm j) as Hhd.
  { intros j. unfold head_of, set_section. cbn. case_decide as E; [by subst|done]. }
  assert (forall x, user_page live bp ptes x -> user_page (b :: live) bp ptes x) as Hus by (intros x (? & ? & ?); split; [by right|done]).
  split; [split|by eapply taken_view].
  - destruct T1 as [S1 S2 S3 S4]. split; [exact I'| |done|].
    + apply (sealed_soft mm1); [done|]. by apply N.
    + destruct (T2 i) as [P1 P2 P3 P4]. eapply (listed_queued_other reserved (pg_mm st) mm' live b (head_of mm i) (own i)); try done.
      intros x Hx Hx'. by apply (P4 x).
  - intros j. rewrite Hhd. destruct (T2 i) as [P1 P2 P3 P4]. unfold with_page. case_decide as E.
    + subst j. split; [by eapply listed_queued| |done|].
      * apply Forall_app. split; [by eapply Forall_impl|]. constructor; [by eapply fresh_user|constructor].
      * intros x Hx [Hx'|Hx'%list_elem_of_singleton]%elem_of_app; [by apply (P4 x)|]. subst x. apply Hfr.
        pose proof (li_live _ _ _ _ (sp_list _ _ _ _ _ _ _ _ T1)) as H. rewrite Forall_forall in H. by apply H.
    + destruct (T2 j) as [Q1 Q2 Q3 Q4]. split; [|by eapply Forall_impl|done|done].
      eapply (listed_queued_other reserved (pg_mm st) mm' live b (head_of mm i) (own i)); try done.
      * intros Eh. by apply E, T3.
      * intros x Hx Hx'. by apply E, (T4 j i x).
  - intros j k. rewrite !Hhd. apply T3.
  - intros j k x Hj%with_page_cases Hk%with_page_cases.
    destruct Hj as [Hj|[-> ->]], Hk as [Hk|[E2 ->]]; [by apply (T4 j k x)| |exfalso; by apply Hfr, (Hl k)|done].
    subst x. exfalso. by apply Hfr, (Hl j).
  - intros j. unfold with_page, set_section. cbn. case_decide as E; [|by apply T5]. subst. cbn. rewrite T5, length_app. simpl. lia.
Qed.

(** Equal sections, one by one. *)
Lemma task_ok_ext st mm mm' live bp ptes pts own own' : page_table mm' = page_table mm ->
  (forall j, mm_section mm' j = mm_section mm j) -> (forall j, own' j = own j) ->
  task_ok st mm live bp ptes pts own -> task_ok st mm' live bp ptes pts own'.
Proof.
  intros Et Es Eo [T1 T2 T3 T4 T5]. assert (forall j, head_of mm' j = head_of mm j) as Eh by (intros j; unfold head_of; by rewrite Es).
  split; [by rewrite Et|intros j; by rewrite Et, Eh, Eo|intros j k; rewrite !Eh; apply T3|intros j k b; rewrite !Eo; apply T4|].
  intros j. by rewrite Es, Eo.
Qed.

Lemma same_view_trans st t st1 t1 st2 t2 : same_view u st t st1 t1 -> same_view u st1 t1 st2 t2 -> same_view u st t st2 t2.
Proof. intros H1 H2 va Hva. by rewrite H2, H1. Qed.

(** A step of the page table that keeps all lists. *)
Lemma task_ok_keeps st mm live bp ptes pts own st' t' live' ptes' pts' : task_ok st mm live bp ptes pts own ->
  space u reserved st' t' live' bp ptes' pts' -> keeps st (page_table mm) live bp ptes pts st' t' live' ptes' pts' ->
  task_ok st' (set_table mm t') live' bp ptes' pts' own.
Proof.
  intros [T1 T2 T3 T4 T5] S' (_ & _ & _ & K). split; [done| |exact T3|exact T4|exact T5]. intros i. apply K, T2.
Qed.

Lemma task_ok_quiet st mm live bp ptes pts own mm1 : task_ok st mm live bp ptes pts own -> quiet (pg_mm st) mm1 ->
  task_ok (set_mm st mm1) mm live bp ptes pts own /\ same_view u st (page_table mm) (set_mm st mm1) (page_table mm).
Proof.
  intros T Q. pose proof (to_space _ _ _ _ _ _ _ T) as [S1 S2 S3 S4]. pose proof (q_layout _ _ Q) as HL.
  assert (pgt_inv u reserved (set_mm st mm1) (page_table mm) live bp ptes) as I' by (by eapply quiet_pgt).
  split.
  - apply (task_ok_ext _ (set_table mm (page_table mm)) _ _ _ _ _ own); try done. eapply task_ok_keeps; [exact T| |by apply keeps_same; [apply same_table_refl|done|apply Q]].
    split; [done|by eapply sealed_quiet|done|]. by eapply listed_same; [..|exact S4]; [done|apply Q].
  - intros va Hva. rewrite (translate_entry u reserved _ _ _ _ _ I' va Hva), (translate_entry u reserved _ _ _ _ _ S1 va Hva).
    by apply entry_of_layout.
Qed.

Definition same_place (s s' : task_mm_section) : Prop :=
  section_size s' = section_size s /\ base_addr s' = base_addr s /\ alloc_mem s' = alloc_mem s /\ sflag s' = sflag s.

Definition with_pages (own : task_mm_section_t -> list block) (i : task_mm_section_t) (new : list block) (j : task_mm_section_t) : list block :=
  if decide (j = i) then own i ++ new else own j.

Lemma task_ok_same st mm live bp ptes pts own i : task_ok st mm live bp ptes pts own ->
  task_ok st (set_section mm i (mm_section mm i)) live bp ptes pts (with_pages own i []).
Proof.
  intros T. eapply task_ok_ext, T; [done| |].
  - intros j. unfold set_section. cbn. case_decide; by subst.
  - intros j. unfold with_pages. case_decide; [subst; by rewrite app_nil_r|done].
Qed.

Lemma get_pages_ok i flag id n : get_zone_id flag = Some id -> 0 <= id < 4 -> forall st mm live bp ptes pts own,
  task_ok st mm live bp ptes pts own ->
  exists st' s' ret live' new, get_pages n st (mm_section mm i) flag = Ret (st', s', ret) /\
    task_ok st' (set_section mm i s') live' bp ptes pts (with_pages own i new) /\
    same_view u st (page_table mm) st' (page_table mm) /\ same_place (mm_section mm i) s' /\
    same_layout (pg_mm st) (pg_mm st') /\ (forall b, b ∈ live -> b ∈ live') /\
    Forall (fun b => b ∉ live) new /\ ((ret = 0 /\ length new = n) \/ (ret = - ENOMEM /\ (length new < n)%nat)).
Proof.
  intros Hid Hid4. induction n as [|n IH]; intros st mm live bp ptes pts own T.
  { exists st, (mm_section mm i), 0, live, []. split; [done|]. split; [by apply task_ok_same|].
    split; [done|]. split; [done|]. split; [done|]. split; [done|]. split; [constructor|by left]. }
  pose proof T as [T1 _ _ _ _]. cbn [get_pages].
  destruct (request_page reserved (pg_mm st) live flag id) as (mm1 & pg & -> & R); [apply T1|apply sealed_start, T1|done|done|].
  rewrite Ret_bind. cbv beta iota. destruct R as [[-> Q]|(b & Hc & -> & Hne & N)].
  { exists (set_mm st mm1), (mm_section mm i), (- ENOMEM), live, []. split; [done|].
    destruct (task_ok_quiet _ _ _ _ _ _ _ _ T Q) as [T' V']. split; [by apply task_ok_same|]. split; [done|]. split; [done|].
    split; [apply Q|]. split; [done|]. split; [constructor|right]. split; [done|]. simpl. lia. }
  rewrite (proj2 (Z.eqb_neq _ _) Hne). destruct (add_page_ok st mm live bp ptes pts own i mm1 b T N Hc) as [T' V'].
  set (st1 := set_mm st _) in *. set (mm' := set_section mm i _) in *.
  destruct (IH st1 mm' (b :: live) bp ptes pts (with_page own i b) T') as (st' & s' & ret & live' & new & E & T2 & V2 & P2 & L2 & I2 & F2 & R2).
  assert (mm_section mm' i = grown (mm_section mm i)) as Es by (unfold mm', set_section; cbn; by rewrite decide_True).
  rewrite Es in E, P2. exists st', s', ret, live', (b :: new). split; [exact E|]. split; [|split; [|split; [exact P2|split; [|split; [|split]]]]].
  - eapply task_ok_ext, T2; [done| |].
    + intros j. unfold set_section. cbn. by case_decide.
    + intros j. unfold with_pages, with_page. case_decide; [|done]. subst. rewrite decide_True by done. by rewrite <- app_assoc.
  - by eapply same_view_trans.
  - etrans; [|exact L2]. etrans; [apply N|]. by apply same_layout_zones.
  - intros x Hx. apply I2. by right.
  - constructor; [apply N|]. eapply Forall_impl; [exact F2|]. intros x Hx Hin. apply Hx. by right.
  - simpl. destruct R2 as [[-> <-]|[-> ?]]; [by left|right; split; [done|lia]].
Qed.

Lemma section_memory_ok st mm live bp ptes pts own i count : task_ok st mm live bp ptes pts own -> 0 <= count ->
  exists st' mm' ret live' new, section_memory st mm i count = Ret (st', mm', ret) /\
    task_ok st' mm' live' bp ptes pts (with_pages own i new) /\ same_view u st (page_table mm) st' (page_table mm') /\
    page_table mm' = page_table mm /\ same_sections mm mm' i /\ same_layout (pg_mm st) (pg_mm st') /\
    (forall b, b ∈ live -> b ∈ live') /\ Forall (fun b => b ∉ live) new /\
    ((ret = 0 /\ Z.of_nat (length new) = count) \/ ret = - ENOMEM).
Proof.
  intros T Hc. unfold section_memory, section_get_memory.
  set (flag := if negb _ then GFP_MMAP else GFP_USER). assert (get_zone_id flag = Some 3) as Hid by (unfold flag; by destruct (negb _)).
  destruct (get_pages_ok i flag 3 (Z.to_nat count) Hid ltac:(lia) st mm live bp ptes pts own T)
    as (st' & s' & ret & live' & new & E & T' & V' & (P1 & P2 & P3 & P4) & L' & I' & F' & R').
  exists st', (set_section mm i s'), ret, live', new. split.
  - destruct (Z.eqb_spec count 0) as [->|Hne]; [by cbn in E; injection E as <- <- <-|].
    destruct (Z.ltb_spec 0 count); [|lia]. by rewrite E.
  - split; [done|]. split; [done|]. split; [done|]. split; [|split; [done|split; [done|split; [done|]]]].
    + unfold same_sections, set_section. cbn. rewrite decide_True by done. split; [done|]. split; [|done].
      intros j Hj. by rewrite decide_False.
    + destruct R' as [[-> Hl]|[-> _]]; [left; split; [done|lia]|by right].
Qed.

Lemma map_task_section_ok fuel st mm live bp ptes pts own i type : task_ok st mm live bp ptes pts own ->
  (S (length (own i)) < fuel)%nat -> 0 < base_addr (mm_section mm i) ->
  fits_window type (base_addr (mm_section mm i)) (Z.of_nat (length (own i))) ->
  exists st' t' ret live' ptes' pts', map_task_section u fuel st mm i type = Ret (st', set_table mm t', ret) /\
    task_ok st' (set_table mm t') live' bp ptes' pts' own /\ same_layout (pg_mm st) (pg_mm st') /\
    (forall b, b ∈ live -> b ∈ live') /\
    ((ret = - ENOMEM /\ same_view u st (page_table mm) st' t') \/
     (ret = 0 /\ forall va, 0 <= va < 2147483648 -> translate u st' t' va =
        placed (pg_mm st) (slot_of type (base_addr (mm_section mm i)) va) (own i) (translate u st (page_table mm) va))).
Proof.
  intros T Hf Hb Hw. pose proof T as [T1 T2 _ _ _].
  destruct (map_memory_ok u reserved fuel st (page_table mm) live bp ptes pts (head_of mm i) (own i) (base_addr (mm_section mm i))
    T1 (T2 i) Hf Hb type Hw) as (st' & t' & ret & live' & ptes' & pts' & E & S' & K' & R).
  exists st', t', ret, live', ptes', pts'. unfold map_task_section. fold (head_of mm i). rewrite E. split; [done|].
  split; [by eapply task_ok_keeps|]. split; [apply K'|]. split; [apply K'|]. exact R.
Qed.

(** A section is given pages up to [n] and mapped. *)
Definition filled (st : pgst) (mm : mm_struct) (live : list block) (bp : block) (own : task_mm_section_t -> list block) i (type n : Z) (st' : pgst) (mm' : mm_struct) (live' : list block) ptes' pts' own' : Prop :=
  task_ok st' mm' live' bp ptes' pts' own' /\ (forall j, j <> i -> own' j = own j) /\
  (exists new, own' i = own i ++ new /\ Forall (fun b => b ∉ live) new) /\ Z.of_nat (length (own' i)) = n /\
  (forall b, b ∈ live -> b ∈ live') /\ same_layout (pg_mm st) (pg_mm st') /\ same_sections mm mm' i /\
  forall va, 0 <= va < 2147483648 -> translate u st' (page_table mm') va =
    placed (pg_mm st) (slot_of type (base_addr (mm_section mm i)) va) (own' i) (translate u st (page_table mm) va).

(** Memory ran out: the task keeps what it got, nothing is mapped differently. *)
Definition starved (st : pgst) (mm : mm_struct) st' mm' live' bp ptes' pts' own' i : Prop :=
  task_ok st' mm' live' bp ptes' pts' own' /\ same_view u st (page_table mm) st' (page_table mm') /\ same_sections mm mm' i.

Lemma fill_ok fuel st mm live bp ptes pts own i type n : task_ok st mm live bp ptes pts own ->
  alloc_pages (mm_section mm i) <= n -> (Z.to_nat n + 1 < fuel)%nat -> 0 < base_addr (mm_section mm i) ->
  fits_window type (base_addr (mm_section mm i)) n ->
  exists st1 mm1 ret1, section_memory st mm i (n - alloc_pages (mm_section mm i)) = Ret (st1, mm1, ret1) /\
    ((ret1 = - ENOMEM /\ exists live' own', starved st mm st1 mm1 live' bp ptes pts own' i) \/
     (ret1 = 0 /\ exists st' mm' ret live' ptes' pts' own', map_task_section u fuel st1 mm1 i type = Ret (st', mm', ret) /\
        ((ret = - ENOMEM /\ starved st mm st' mm' live' bp ptes' pts' own' i) \/
         (ret = 0 /\ filled st mm live bp own i type n st' mm' live' ptes' pts' own')))).
Proof.
  intros T Hn Hf Hb Hw. destruct (section_memory_ok st mm live bp ptes pts own i (n - alloc_pages (mm_section mm i)) T ltac:(lia))
    as (st1 & mm1 & ret1 & live1 & new & E1 & T1 & V1 & Ht & (S1 & S2 & S3 & S4 & S5 & S6) & L1 & I1 & F1 & R1).
  exists st1, mm1, ret1. split; [exact E1|]. destruct R1 as [[-> Hlen]| ->].
  2: { left. split; [done|]. exists live1, (with_pages own i new). split; [done|]. split; [done|]. by split. }
  right. split; [done|]. set (own1 := with_pages own i new) in *.
  assert (own1 i = own i ++ new) as Eo by (unfold own1, with_pages; by rewrite decide_True).
  assert (Z.of_nat (length (own1 i)) = n) as Hl by (rewrite Eo, length_app; pose proof (to_count _ _ _ _ _ _ _ T i); lia).
  rewrite <- S4 in Hb, Hw. destruct (map_task_section_ok fuel st1 mm1 live1 bp ptes pts own1 i type T1) as (st' & t' & ret & live' & ptes' & pts' & E2 & T2 & L2 & I2 & R2);
    [lia|done|by rewrite Hl|].
  exists st', (set_table mm1 t'), ret, live', ptes', pts', own1. split; [done|]. destruct R2 as [[-> V2]|[-> V2]]; [left|right]; (split; [done|]).
  - split; [done|]. split; [by eapply same_view_trans|done].
  - split; [done|]. split; [intros j Hj; unfold own1, with_pages; by rewrite decide_False|]. split; [by exists new|].
    split; [done|]. split; [auto|]. split; [by etrans|]. split; [done|]. intros va Hva. cbn [set_table page_table].
    rewrite V2, V1, S4 by done. by apply placed_layout.
Qed.

(** ** Stack and meta data *)

Definition answered (st : pgst) (mm : mm_struct) (live : list block) bp own i type n (r : outcome (pgst * mm_struct * Z)) (err : Z) : Prop :=
  exists st' mm' ret live' ptes' pts' own', r = Ret (st', mm', ret) /\
    (((ret = - ENOMEM \/ ret = err) /\ starved st mm st' mm' live' bp ptes' pts' own' i) \/
     (ret = 0 /\ filled st mm live bp own i type n st' mm' live' ptes' pts' own')).

Lemma stack_ok fuel st mm live bp ptes pts own : task_ok st mm live bp ptes pts own -> (5 < fuel)%nat ->
  alloc_pages (mm_section mm TASK_MM_SECTION_STACK) <= 4 ->
  base_addr (mm_section mm TASK_MM_SECTION_STACK) = PROCESS_USER_STACK_BASE ->
  answered st mm live bp own TASK_MM_SECTION_STACK PGT_MAP_STACK 4 (alloc_task_user_stack u fuel st mm) (- ENOMEM).
Proof.
  intros T Hf Hn Hb. unfold alloc_task_user_stack.
  destruct (fill_ok fuel st mm live bp ptes pts own TASK_MM_SECTION_STACK PGT_MAP_STACK 4 T Hn) as (st1 & mm1 & ret1 & E1 & R);
    [lia|by rewrite Hb|rewrite Hb; unfold fits_window; vm_compute; intuition congruence|].
  rewrite E1, Ret_bind. destruct R as [[-> (live' & own' & St)]|[-> (st' & mm' & ret & live' & ptes' & pts' & own' & E2 & R)]].
  - exists st1, mm1, (- ENOMEM), live', ptes, pts, own'. split; [done|]. left. split; [by left|done].
  - cbn [negb Z.eqb]. exists st', mm', ret, live', ptes', pts', own'. split; [exact E2|]. destruct R as [[-> St]|[-> Fl]]; [left|right]; auto.
Qed.

Lemma meta_ok fuel st mm live bp ptes pts own : task_ok st mm live bp ptes pts own -> (2 < fuel)%nat ->
  alloc_pages (mm_section mm TASK_MM_SECTION_META) = 0 ->
  base_addr (mm_section mm TASK_MM_SECTION_META) = PROCESS_USER_META_BASE ->
  answered st mm live bp own TASK_MM_SECTION_META PGT_MAP_NORMAL 1 (init_task_meta_section u fuel st mm) (- EFAULT).
Proof.
  intros T Hf Hn Hb. unfold init_task_meta_section. rewrite Hn. change (0 =? 0) with true. cbv iota.
  destruct (fill_ok fuel st mm live bp ptes pts own TASK_MM_SECTION_META PGT_MAP_NORMAL 1 T) as (st1 & mm1 & ret1 & E1 & R);
    [lia|lia|by rewrite Hb|rewrite Hb; unfold fits_window; vm_compute; intuition congruence|].
  rewrite Hn in E1. change (1 - 0) with 1 in E1.
  rewrite E1, Ret_bind. destruct R as [[-> (live' & own' & St)]|[-> (st' & mm' & ret & live' & ptes' & pts' & own' & E2 & R)]].
  - exists st1, mm1, (- ENOMEM), live', ptes, pts, own'. split; [done|]. left. split; [by left|done].
  - cbn [negb Z.eqb]. rewrite E2, Ret_bind. destruct R as [[-> St]|[-> Fl]].
    + exists st', mm', (- EFAULT), live', ptes', pts', own'. split; [done|]. left. auto.
    + exists st', mm', 0, live', ptes', pts', own'. split; [done|]. right. auto.
Qed.

(** ** The image *)

(** A section of the program lies in the memory of the image. *)
Definition inside (base size : Z) (s : elf_section) : Prop :=
  base <= se_load_addr s /\ se_load_addr s + se_size s <= base + size.

Lemma page_nr_bounds size : 4096 * page_nr size - 4096 < size <= 4096 * page_nr size.
Proof. rewrite page_nr_spec. Z.to_euclidean_division_equations; lia. Qed.

Lemma placed_page mm base size bs f x : base mod 4096 = 0 -> 0 <= size -> Z.of_nat (length bs) = page_nr size ->
  base <= x < base + size -> exists k b, bs !! k = Some b /\ placed mm (slot_up base x) bs f = Some (block_pa mm b).
Proof.
  intros Hb Hs Hl Hx. pose proof (page_nr_bounds size). unfold placed, slot_up.
  assert (0 <= x / 4096 - base / 4096 < page_nr size) as Hk by (Z.to_euclidean_division_equations; lia).
  destruct (decide (0 <= x / 4096 - base / 4096)); [|lia].
  destruct (lookup_lt_is_Some_2 bs (Z.to_nat (x / 4096 - base / 4096))) as [b E]; [lia|]. rewrite E. eauto.
Qed.

Section Image.
Context {F : Type} `{IO : FileIo F} {RL : ReaderLaws F}.

Lemma load_program_ok fuel st mm live bp ptes pts own (fs : F) m e d pos :
  let s := mm_section mm TASK_MM_SECTION_ELF in
  let n := page_nr (section_size s) in
  task_ok st mm live bp ptes pts own -> mm_elf_file mm = Some e -> alloc_pages s <= n -> (Z.to_nat n + 1 < fuel)%nat ->
  0 < base_addr s -> base_addr s mod 4096 = 0 -> 0 <= section_size s -> fits_window PGT_MAP_NORMAL (base_addr s) n ->
  Forall (inside (base_addr s) (section_size s)) (sections e) ->
  at_file fs (ef_file e) d pos -> Forall (section_ok d) (sections e) -> apart_all (sections e) -> file_order None (sections e) ->
  exists st' mm' fs' m' ret live' ptes' pts' own', task_mm_load_elf_image u fuel st mm fs m = Ret (st', mm', fs', m', ret) /\
    ((ret = - ENOMEM /\ m' = m /\ starved st mm st' mm' live' bp ptes' pts' own' TASK_MM_SECTION_ELF) \/
     (ret = 0 /\ filled st mm live bp own TASK_MM_SECTION_ELF PGT_MAP_NORMAL n st' mm' live' ptes' pts' own' /\
      loaded d m m' (sections e) /\
      Forall (fun s => forall x, ElfSpec.in_section x s -> exists k b, own' TASK_MM_SECTION_ELF !! k = Some b /\
        translate u st' (page_table mm') x = Some (block_pa (pg_mm st) b)) (sections e))).
Proof.
  intros s n T He Hn Hf Hb Hal Hs0 Hw Hin Hat Hok Hap Hord. unfold task_mm_load_elf_image. fold s n.
  destruct (fill_ok fuel st mm live bp ptes pts own TASK_MM_SECTION_ELF PGT_MAP_NORMAL n T Hn Hf Hb Hw) as (st1 & mm1 & ret1 & E1 & R).
  unfold s, n in E1 |- *. rewrite E1, Ret_bind. fold s n.
  destruct R as [[-> (live' & own' & St)]|[-> (st' & mm' & ret & live' & ptes' & pts' & own' & E2 & R)]].
  { exists st1, mm1, fs, m, (- ENOMEM), live', ptes, pts, own'. split; [done|]. by left. }
  change (0 =? - ENOMEM) with false. cbv iota. rewrite E2, Ret_bind. destruct R as [[-> St]|[-> Fl]].
  { exists st', mm', fs, m, (- ENOMEM), live', ptes', pts', own'. split; [done|]. by left. }
  pose proof Fl as (_ & _ & _ & Hl & _ & _ & (Ee & _) & Htr). cbn [negb Z.eqb]. unfold load_image. rewrite Ee, He.
  destruct (load_sections_ok (sections e) fs m (ef_file e) d None) as (fs' & m' & p & El & Ld & _); [by exists pos|done..|].
  unfold elf_load_elf_image. rewrite El, Ret_bind. exists st', mm', fs', m', 0, live', ptes', pts', own'. split; [done|]. right.
  split; [done|]. split; [done|]. split; [done|]. eapply Forall_impl; [exact Hin|]. intros sc [H1 H2] x [Hx1 Hx2].
  fold s in Htr. unfold fits_window in Hw. cbn in Hw. pose proof (page_nr_bounds (section_size s)) as Hn'. fold n in Hn'.
  destruct (placed_page (pg_mm st) (base_addr s) (section_size s) (own' TASK_MM_SECTION_ELF) (translate u st (page_table mm) x) x)
    as (k & b & Ek & Ep); try done; try lia.
  exists k, b. split; [done|]. rewrite Htr by lia. exact Ep.
Qed.

(** A task that is to run the program [e], whose file [d] is open: new sections, and an
    image that fits one window of the page table. *)
Record exec_ready (fuel : nat) (st : pgst) (mm : mm_struct) (live : list block) bp ptes pts own (fs : F) (e : elf_file) (d : list Z)
    : Prop := {
  er_task : task_ok st mm live bp ptes pts own;
  er_elf : mm_elf_file mm = Some e;
  er_meta : own TASK_MM_SECTION_META = [];
  er_stack : alloc_pages (mm_section mm TASK_MM_SECTION_STACK) <= 4;
  er_image : alloc_pages (mm_section mm TASK_MM_SECTION_ELF) <= page_nr (section_size (mm_section mm TASK_MM_SECTION_ELF));
  er_fuel : (Z.to_nat (page_nr (section_size (mm_section mm TASK_MM_SECTION_ELF))) + 6 < fuel)%nat;
  er_stack_base : base_addr (mm_section mm TASK_MM_SECTION_STACK) = PROCESS_USER_STACK_BASE;
  er_meta_base : base_addr (mm_section mm TASK_MM_SECTION_META) = PROCESS_USER_META_BASE;
  er_base : 0 < base_addr (mm_section mm TASK_MM_SECTION_ELF) /\ base_addr (mm_section mm TASK_MM_SECTION_ELF) mod 4096 = 0;
  er_size : 0 <= section_size (mm_section mm TASK_MM_SECTION_ELF);
  er_window : fits_window PGT_MAP_NORMAL (base_addr (mm_section mm TASK_MM_SECTION_ELF))
    (page_nr (section_size (mm_section mm TASK_MM_SECTION_ELF)));
  er_inside : Forall (inside (base_addr (mm_section mm TASK_MM_SECTION_ELF)) (section_size (mm_section mm TASK_MM_SECTION_ELF)))
    (sections e);
  er_file : exists pos, at_file fs (ef_file e) d pos;
  er_sections : Forall (section_ok d) (sections e);
  er_apart : apart_all (sections e);
  er_order : file_order None (sections e) }.

(** C13: a program gets memory of its own.  The stack, the page of meta data and the image
    are given pages that no one else has, each section its own; afterwards the page table
    sends the image to its pages, the four pages under 2G to the stack, the page at 4M to
    the meta data, and every other address where it went before; every byte of every section
    of the program is mapped and holds what the file has.  Without memory an error is
    returned and the task still owns what it was given. *)
Theorem program_in_memory fuel st mm live bp ptes pts own (fs : F) m e d
    (Hready : exec_ready fuel st mm live bp ptes pts own fs e d) :
  let base := base_addr (mm_section mm TASK_MM_SECTION_ELF) in
  exists st1 mm1 ret1, init_user_memory u fuel st mm = Ret (st1, mm1, ret1) /\
    (((ret1 = - ENOMEM \/ ret1 = - EFAULT) /\ exists live1 ptes1 pts1 own1, task_ok st1 mm1 live1 bp ptes1 pts1 own1) \/
     ret1 = 0 /\ exists st' mm' fs' m' ret live' ptes' pts' own',
       task_mm_load_elf_image u fuel st1 mm1 fs m = Ret (st', mm', fs', m', ret) /\ task_ok st' mm' live' bp ptes' pts' own' /\
       ((ret = - ENOMEM /\ m' = m) \/
        (ret = 0 /\ loaded d m m' (sections e) /\ length (own' TASK_MM_SECTION_STACK) = 4%nat /\
         length (own' TASK_MM_SECTION_META) = 1%nat /\
         Z.of_nat (length (own' TASK_MM_SECTION_ELF)) = page_nr (section_size (mm_section mm TASK_MM_SECTION_ELF)) /\
         (Forall (fun s => forall x, ElfSpec.in_section x s -> exists k b, own' TASK_MM_SECTION_ELF !! k = Some b /\
            translate u st' (page_table mm') x = Some (block_pa (pg_mm st) b)) (sections e)) /\
         forall va, 0 <= va < 2147483648 -> translate u st' (page_table mm') va =
           placed (pg_mm st) (slot_up base va) (own' TASK_MM_SECTION_ELF)
             (placed (pg_mm st) (slot_up PROCESS_USER_META_BASE va) (own' TASK_MM_SECTION_META)
               (placed (pg_mm st) (slot_down PROCESS_USER_STACK_BASE va) (own' TASK_MM_SECTION_STACK)
                 (translate u st (page_table mm) va)))))).
Proof.
  destruct Hready as [T He Hm Hst Hn Hf Hbs Hbm [Hb Hal] Hs0 Hw Hin [pos Hat] Hok Hap Hord]. intros base.
  set (s := mm_section mm TASK_MM_SECTION_ELF) in *. unfold init_user_memory.
  destruct (stack_ok fuel st mm live bp ptes pts own T ltac:(lia) Hst Hbs) as (st1 & mm1 & r1 & l1 & pt1 & ps1 & own1 & E1 & R1).
  rewrite E1, Ret_bind. destruct R1 as [[Hr (T1 & _)]|[-> (T1 & O1 & (new1 & Eo1 & _) & N1 & I1 & L1 & (S1 & S2 & _) & V1)]].
  { exists st1, mm1, r1. assert (negb (r1 =? 0) = true) as -> by (by destruct Hr as [-> | ->]). split; [done|]. left.
    split; [left; by destruct Hr as [-> | ->]|]. eauto. }
  cbn [negb Z.eqb]. assert (mm_section mm1 TASK_MM_SECTION_META = mm_section mm TASK_MM_SECTION_META) as Em by (by apply S2).
  assert (own1 TASK_MM_SECTION_META = []) as Hm1 by (by rewrite O1).
  destruct (meta_ok fuel st1 mm1 l1 bp pt1 ps1 own1 T1 ltac:(lia)) as (st2 & mm2 & r2 & l2 & pt2 & ps2 & own2 & E2 & R2);
    [by rewrite (to_count _ _ _ _ _ _ _ T1), Hm1|by rewrite Em|].
  exists st2, mm2, r2. split; [exact E2|].
  destruct R2 as [[Hr (T2 & _)]|[-> (T2 & O2 & _ & N2 & I2 & L2 & (Z1 & Z2 & _) & V2)]]; [left; split; [exact Hr|]; eauto|].
  right. split; [done|]. assert (mm_section mm2 TASK_MM_SECTION_ELF = s) as Es by (rewrite Z2 by done; by apply S2).
  destruct (load_program_ok fuel st2 mm2 l2 bp pt2 ps2 own2 fs m e d pos) as (st' & mm' & fs' & m' & ret & l' & pt' & ps' & own' & E3 & R3);
    rewrite ?Es; try done; [congruence|lia|].
  exists st', mm', fs', m', ret, l', pt', ps', own'. split; [done|].
  assert (same_layout (pg_mm st) (pg_mm st2)) as Lay by (by etrans).
  destruct R3 as [(-> & -> & T3 & _)|(-> & (T3 & O3 & _ & N3 & I3 & L3 & _ & V3) & Ld & Fm)]; (split; [exact T3|]); [by left|right].
  rewrite Es in N3, V3. split; [done|]. split; [done|]. rewrite !O3, (O2 TASK_MM_SECTION_STACK) by done.
  split; [lia|]. split; [lia|]. split; [done|]. split.
  - eapply Forall_impl; [exact Fm|]. intros sc Hx x Hi. destruct (Hx x Hi) as (k & b & Ek & Et). exists k, b.
    split; [done|]. rewrite Et. by destruct (block_layout _ _ b Lay) as (_ & -> & _).
  - intros va Hva. rewrite V3, (placed_layout _ _ _ _ _ Lay), V2, Em, Hbm, (placed_layout _ _ _ _ _ L1), V1, Hbs by done. done.
Qed.
End Image.
End Own.

(** ** A task on a small machine *)
Module ExecDemo.
Definition file : list Z := ElfDemo.program.

#[export] Instance io : FileIo Z := ElfDemo.one_file file.

#[export] Program Instance laws : ReaderLaws Z := {|
  at_file st f d pos := d = file /\ st = pos /\ 0 <= pos;
  end_ok _ := True |}.
Next Obligation.
  intros st f d pos m buffer size (-> & -> & H0) H1 _ H2 _. cbn [kread io ElfDemo.one_file].
  assert (slice file pos size = slice file pos (Z.min size (Z.of_nat (length file) - pos))) as ->.
  { unfold slice. destruct (Z.min_spec size (Z.of_nat (length file) - pos)) as [[_ ->]|[Hc ->]]; [done|].
    rewrite !take_ge; [done|rewrite length_drop; lia..]. }
  assert (Z.of_nat (length (slice file pos (Z.min size (Z.of_nat (length file) - pos)))) = Z.min size (Z.of_nat (length file) - pos)) as ->.
  { unfold slice. rewrite length_take, length_drop. lia. }
  eexists _, _. split; [done|]. split; [apply wrote_put|]. split; [done|]. split; [done|lia].
Qed.
Next Obligation.
  intros st f d pos t (-> & -> & H0) Ht. exists t, 0. split; [done|]. split; [lia|]. split; [done|]. split; [done|lia].
Qed.

Definition program : elf_file :=
  ElfFile 2 1 24 [ElfSection 52 8 0x404000 6 1; ElfSection 0 16 0x404008 3 8] 0x404000 0x404000.

Definition head (i : task_mm_section_t) : Z :=
  match i with
  | TASK_MM_SECTION_ELF => 0x80001020 | TASK_MM_SECTION_STACK => 0x80001040
  | TASK_MM_SECTION_MMAP => 0x80001060 | TASK_MM_SECTION_META => 0x80001080
  end.
Definition zero_mm : mm_struct :=
  MmStruct (Some program) PgtDemo.table (fun i => TaskMmSection 0 0 0 0 (head i) 0).
Definition r0 : outcome (pgst * mm_struct) := init_sections PgtDemo.state zero_mm zero_mm _PROCESS_FLAG_KERN_EXEC all_sections.
Definition st0 : pgst := fst (result (PgtDemo.state, zero_mm) r0).
Definition mm0 : mm_struct := snd (result (PgtDemo.state, zero_mm) r0).

Lemma bank_layout : same_layout Demo.bank (pg_mm st0).
Proof. by apply same_layout_zones. Qed.

Lemma no_node (h : Z) : 0x80001000 <= h ->
  forall r k, MmAlloc.in_section Demo.bank r k -> h <> page_ref (section_at Demo.bank r) k + plist_offset.
Proof.
  intros Hh r k [[-> | ->]%Demo.used Hk].
  - change (section_at Demo.bank (0, 0)%nat) with Demo.ksec in *. change (nr_page Demo.ksec) with 64 in Hk.
    unfold page_ref, sizeof_page, plist_offset. change (Mm.page_table Demo.ksec) with 0x80000400. rewrite u32_small; lia.
  - change (section_at Demo.bank (3, 0)%nat) with Demo.usec in *. change (nr_page Demo.usec) with 32 in Hk.
    unfold page_ref, sizeof_page, plist_offset. change (Mm.page_table Demo.usec) with 0x80000c00. rewrite u32_small; lia.
Qed.

Lemma no_list (h : Z) : 0x80001000 <= h -> lnext (plists (pg_mm st0)) h = h -> lpre (plists (pg_mm st0)) h = h ->
  listed (pg_mm st0) Demo.live h [].
Proof.
  intros Hh H1 H2. split; [split; [apply NoDup_singleton|done]| |constructor].
  by apply (head_layout Demo.bank _ h bank_layout), no_node.
Qed.

Lemma space0 : space x86_mmu Demo.reserved st0 (page_table mm0) Demo.live Demo.blk ∅ [].
Proof.
  assert (soft Demo.bank (pg_mm st0)) as So by (split; by vm_compute || done).
  split.
  - apply (soft_pgt x86_mmu Demo.reserved PgtDemo.state PgtDemo.table Demo.live Demo.blk ∅ PgtDemo.pgt_demo_inv (pg_mm st0) So).
    intros i b H. by rewrite lookup_empty in H.
  - by apply (sealed_soft Demo.bank), Demo.seal.
  - done.
  - by apply no_list; vm_compute.
Qed.

Lemma image_section : mm_section mm0 TASK_MM_SECTION_ELF = TaskMmSection 24 0 0x404000 0 0x80001020 1.
Proof. vm_compute. reflexivity. Qed.

Lemma task0 : task_ok x86_mmu Demo.reserved st0 mm0 Demo.live Demo.blk ∅ [] (fun _ => []).
Proof.
  split; [exact space0| | | |by intros []].
  - intros i. split; [|constructor|by destruct i|intros x Hx; by apply elem_of_nil in Hx].
    by apply no_list; destruct i; vm_compute.
  - by intros [] [].
  - intros i j b Hb. by apply elem_of_nil in Hb.
Qed.

Lemma demo_sections : Forall (section_ok file) (sections program).
Proof.
  assert (Z.of_nat (length file) = 184) as El by (vm_compute; reflexivity).
  repeat constructor; cbn; rewrite ?El; lia.
Qed.

Lemma ready : exec_ready x86_mmu Demo.reserved 20 st0 mm0 Demo.live Demo.blk ∅ [] (fun _ => []) 0 program file.
Proof.
  split; rewrite ?image_section.
  - exact task0.
  - reflexivity.
  - reflexivity.
  - by vm_compute.
  - by vm_compute.
  - change (page_nr _) with 1. lia.
  - reflexivity.
  - reflexivity.
  - split; reflexivity.
  - cbn. lia.
  - vm_compute. split; congruence.
  - repeat constructor; cbn; lia.
  - exists 0. split; [reflexivity|]. split; [reflexivity|lia].
  - exact demo_sections.
  - split; [|done]. constructor; [left; cbn; lia|constructor].
  - done.
Qed.
End ExecDemo.

Lemma program_in_memory_witness : exists st1 mm1 ret1, init_user_memory x86_mmu 20 ExecDemo.st0 ExecDemo.mm0 = Ret (st1, mm1, ret1).
Proof.
  destruct (program_in_memory x86_mmu Demo.reserved 20 ExecDemo.st0 ExecDemo.mm0 Demo.live Demo.blk ∅ [] (fun _ => []) 0 ∅
    ExecDemo.program ExecDemo.file ExecDemo.ready) as (st1 & mm1 & ret1 & E & _).
  exists st1, mm1, ret1. exact E.
Defined.

(** ** What the demonstration gives, and behaviour that is not meant *)
Module TaskMmFaults.
Import ExecDemo.
Definition r1 := init_user_memory x86_mmu 20 st0 mm0.
Definition r2 := '(st, mm, _) ← r1; task_mm_load_elf_image x86_mmu 20 st mm 0 ∅.

(** The program is in memory. *)
Lemma program_loaded : match r2 with
  | Ret (st, mm, _, m, ret) => (ret, translate x86_mmu st (page_table mm) 0x404000, translate x86_mmu st (page_table mm) 0x7ffff000,
      read_bytes m 0x404000 8) = (0, Some 0x206000, Some 0x201000, [184; 1; 0; 0; 0; 205; 48; 144])
  | _ => False
  end.
Proof. vm_compute. reflexivity. Qed.

(** ELF memory of [n] pages at [base]. *)
Definition image_at (st : pgst) (base n : Z) : outcome (pgst * mm_struct * Z) :=
  '(st, mm, _) ← section_memory st (set_section mm0 TASK_MM_SECTION_ELF (TaskMmSection (n * 4096) 0 base 0 0x80001020 1)) TASK_MM_SECTION_ELF n;
  map_task_section x86_mmu 20 st mm TASK_MM_SECTION_ELF PGT_MAP_NORMAL.

(** An image that leaves its window of 256 entries starts again at its own first entry: the
    second page takes the place of the first, its address is not mapped. *)
Lemma image_wraps : match image_at st0 0x4ff000 2 with
  | Ret (st, mm, ret) => (ret, translate x86_mmu st (page_table mm) 0x4ff000, translate x86_mmu st (page_table mm) 0x500000) = (0, Some 0x202000, None)
  | _ => False
  end.
Proof. vm_compute. reflexivity. Qed.

(** A section that shrinks by two pages gives its last page back twice; the page stays on the
    list, in the count and in the page table. *)
Lemma last_page_freed_twice : match '(st, mm, _) ← image_at st0 0x404000 4; section_memory st mm TASK_MM_SECTION_ELF (-2) with
  | Ret (st, mm, ret) => (ret, alloc_pages (mm_section mm TASK_MM_SECTION_ELF), translate x86_mmu st (page_table mm) 0x407000,
      page_used (pg_mm st) (3, 0)%nat 4, page_used (pg_mm st) (3, 0)%nat 3, zone_free_pages (zone_at (pg_mm st) 3))
      = (0, 4, Some 0x204000, false, true, zone_free_pages (zone_at (pg_mm st0) 3) - 4 + 2)
  | _ => False
  end.
Proof. vm_compute. reflexivity. Qed.

(** What is unmapped again stays allocated, and pages of [mmap] are not counted: a fork does
    not copy them. *)
Lemma munmap_leaks : match
    '(st, mm, g, m, r) ← os_mmap x86_mmu st0 mm0 FileDemo.gl zero_desc ∅ 0x50000000 4096 0 0 (-1) 0;
    '(st', _, _) ← os_munmap x86_mmu st mm g zero_desc m 0x50000000 4096; mret (st, mm, r, st') with
  | Ret (st, mm, r, st') => (r, translate x86_mmu st (page_table mm) 0x50000000, alloc_pages (mm_section mm TASK_MM_SECTION_MMAP),
      translate x86_mmu st' (page_table mm) 0x50000000, page_used (pg_mm st') (3, 0)%nat 1) = (0x50000000, Some 0x201000, 0, None, true)
  | _ => False
  end.
Proof. vm_compute. reflexivity. Qed.

(** The table in use, with a page for its temporary mapping. *)
Definition cur (c : pte_cache_list) : task_page_table :=
  TaskPageTable 0x80002000 0x102000 c (PteCacheList 0x80001010 0 0 0) 0 0x80004000 (block_page Demo.bank Demo.kblk) 1024.
Definition stc : pgst :=
  set_mem st0 (mmu_create_pde_entry x86_mmu (pg_mem st0) (0x80002000 + 4 * 944) 0x104000 KERNEL_TEMP_BUFFER_BASE).

(** Both pages of a section are copied into the first page of the new one. *)
Lemma copies_into_one_page : match
    '(st, mm, _) ← image_at stc 0x404000 2;
    '(st, new, _) ← section_get_memory st 2 (TaskMmSection 8192 0 0x404000 0 0x80001040 1);
    copy_section_memory x86_mmu (fun _ => 0) st (cur (task_list (page_table mm))) (wr (wr ∅ 0x201000 7) 0x202000 9) new
      (mm_section mm TASK_MM_SECTION_ELF) PGT_MAP_NORMAL with
  | Ret (_, pm, r) => (r, rd pm 0x203000, rd pm 0x204000) = (0, 9, 0)
  | _ => False
  end.
Proof. vm_compute. reflexivity. Qed.

(** The copy of a stack starts above the stack, with the first page of the kernel. *)
Lemma stack_copies_kernel : match
    '(st, new, _) ← section_get_memory stc 1 (TaskMmSection 0x100000 0 PROCESS_USER_STACK_BASE 0 0x80001040 2);
    copy_section_memory x86_mmu (fun a => a mod 251) st (cur PgtDemo.heads) ∅ new new PGT_MAP_STACK with
  | Ret (_, pm, r) => (r, rd pm 0x201000) = (0, 0x80000000 mod 251)
  | _ => False
  end.
Proof. vm_compute. reflexivity. Qed.
End TaskMmFaults.
