(* ===== verification/X86.v ===== *)
(** * Descriptor tables and interrupt controllers of the x86 port
    (arch/x86/kernel/gdt.c, idt.c, tss.c, trap.c, ioapic.c, lapic.c, mm/io.c)

    A descriptor is a 64-bit word and its members are bit fields of it; the tables
    are maps from the entry's index to that word.  The handlers are assembly symbols:
    [isr] names them, and the address the linker gives a symbol is the argument
    [addr] of the operations.  The I/O APIC is its select register and the registers
    behind its window. *)

From S2P Require Import Prelude Mmu.

(** ** Bit fields of a 64-bit word *)

Definition get_field (w off n : Z) : Z := Z.land (Z.shiftr w off) (Z.ones n).
Definition set_field (w off n v : Z) : Z :=
  Z.lor (Z.land w (Z.lnot (Z.shiftl (Z.ones n) off))) (Z.shiftl (Z.land v (Z.ones n)) off).

(** ** Selectors (include/gdt.h) and the fixed tables (include/x86_config.h) *)

Definition KERNEL_CS : Z := 0x08.
Definition KERNEL_DS : Z := 0x10.
Definition KERNEL_SS : Z := 0x18.
Definition KERNEL_ES : Z := 0x20.
Definition KERNEL_FS : Z := 0x28.
Definition KERNEL_GS : Z := 0x30.
Definition USER_CS : Z := Z.lor 0x38 0x3.
Definition USER_DS : Z := Z.lor 0x40 0x3.
Definition USER_SS : Z := Z.lor 0x48 0x3.
Definition USER_ES : Z := Z.lor 0x50 0x3.
Definition USER_FS : Z := Z.lor 0x58 0x3.
Definition USER_GS : Z := Z.lor 0x60 0x3.
Definition KERNEL_TSS : Z := 0x68.

Module X86Config.
Definition KERNEL_VIRTUAL_BASE : Z := 0x80000000.
Definition KERNEL_PDE_BASE : Z := KERNEL_VIRTUAL_BASE.
Definition KERNEL_PDE_SIZE : Z := 0x1000.
Definition X86_KERNEL_STACK_SIZE : Z := 0x2000.
Definition X86_KERNEL_STACK_BASE : Z := KERNEL_PDE_BASE + KERNEL_PDE_SIZE + X86_KERNEL_STACK_SIZE.
Definition SYSTEM_GDT_BASE : Z := X86_KERNEL_STACK_BASE + X86_KERNEL_STACK_SIZE.
Definition SYSTEM_GDT_SIZE : Z := 0x1000.
Definition SYSTEM_IDT_BASE : Z := SYSTEM_GDT_BASE + SYSTEM_GDT_SIZE.
Definition SYSTEM_IDT_SIZE : Z := 0x1000.
Definition SYSTEM_TSS_BASE : Z := SYSTEM_IDT_BASE + SYSTEM_IDT_SIZE.
Definition SYSTEM_TSS_SIZE : Z := 0x1000.
Definition SYSTEM_ISR_STACK_SIZE : Z := 0x2000.
Definition SYSTEM_ISR_STACK_BASE : Z := SYSTEM_TSS_BASE + SYSTEM_TSS_SIZE + SYSTEM_ISR_STACK_SIZE.
End X86Config.
Import X86Config.

(** ** The global descriptor table (gdt.c) *)

(** [struct gdt_des]: offset and width of each member. *)
Module Gdt.
Definition s_limit_l : Z * Z := (0, 16).
Definition base_l : Z * Z := (16, 16).
Definition base_h1 : Z * Z := (32, 8).
Definition type : Z * Z := (40, 4).
Definition s : Z * Z := (44, 1).
Definition dpl : Z * Z := (45, 2).
Definition p : Z * Z := (47, 1).
Definition s_limit_h : Z * Z := (48, 4).
Definition avl : Z * Z := (52, 1).
Definition l : Z * Z := (53, 1).
Definition db : Z * Z := (54, 1).
Definition g : Z * Z := (55, 1).
Definition base_h2 : Z * Z := (56, 8).
End Gdt.

Definition getf (w : Z) (f : Z * Z) : Z := get_field w f.1 f.2.
Definition setf (w : Z) (f : Z * Z) (v : Z) : Z := set_field w f.1 f.2 v.

(** The store to an entry: [gdt_base + index] is inside the table or the store is
    outside of it. *)
Definition store_entry (size : Z) (t : gmap Z Z) (index : Z) (w : Z) : outcome (gmap Z Z) :=
  if (0 <=? index) && (index * 8 <? size) then Ret (wr t index w) else Fault.

Definition setup_tss_des (gdt : gmap Z Z) (index base page : Z) : outcome (gmap Z Z) :=
  let d := rd gdt index in
  let d := setf d Gdt.s_limit_l (Z.land page 0xffff) in
  let d := setf d Gdt.base_l (Z.land base 0xffff) in
  let d := setf d Gdt.base_h1 (Z.land (Z.shiftr base 16) 0xff) in
  let d := setf d Gdt.type 9 in
  let d := setf d Gdt.s 0 in
  let d := setf d Gdt.dpl 3 in
  let d := setf d Gdt.p 1 in
  let d := setf d Gdt.s_limit_h (Z.land (Z.shiftr page 16) 0xf) in
  let d := setf d Gdt.avl 0 in
  let d := setf d Gdt.l 0 in
  let d := setf d Gdt.db 0 in
  let d := setf d Gdt.g 0 in
  let d := setf d Gdt.base_h2 (Z.land (Z.shiftr base 24) 0xff) in
  store_entry SYSTEM_GDT_SIZE gdt index d.

Definition setup_kernel_tss_des (gdt : gmap Z Z) (base size : Z) : outcome (gmap Z Z) :=
  if negb (base =? 0) && negb (size =? 0)
  then setup_tss_des gdt (Z.shiftr KERNEL_TSS 3) base size
  else Ret gdt.

(** ** The task state segment (tss.c) *)

(** The members of [struct x86_tss] the code uses, by their byte offset in the
    declared structure: [ss1], [res_ss1], [ss2] and [res_ss2] are longs. *)
Module Tss.
Definition esp0 : Z := 4.
Definition ss0 : Z := 8.
Definition cr3 : Z := 36.
Definition es : Z := 80.
Definition cs : Z := 84.
Definition ss : Z := 88.
Definition ds : Z := 92.
Definition fs : Z := 96.
Definition gs : Z := 100.
Definition size : Z := 112.
End Tss.

(** The segment, by byte offset; the short members are followed by their reserved
    half, which stays zero. *)
Definition tss_init (gdt : gmap Z Z) : outcome (gmap Z Z * gmap Z Z * Z) :=
  let t : gmap Z Z := zfor (Z.to_nat (Tss.size / 4)) 0 (fun i t => wr t (4 * i) 0) ∅ in
  let t := wr t Tss.ss0 KERNEL_SS in
  let t := wr t Tss.es (Z.lor KERNEL_ES 0x3) in
  let t := wr t Tss.cs (Z.lor KERNEL_CS 0x3) in
  let t := wr t Tss.ss (Z.lor KERNEL_SS 0x3) in
  let t := wr t Tss.ds (Z.lor KERNEL_DS 0x3) in
  let t := wr t Tss.fs (Z.lor KERNEL_FS 0x3) in
  let t := wr t Tss.gs (Z.lor KERNEL_GS 0x3) in
  gdt ← setup_kernel_tss_des gdt SYSTEM_TSS_BASE Tss.size;
  Ret (gdt, t, 0x68).

(** [x86_setup_tss]: the ring 0 stack of the task that runs next. *)
Definition x86_setup_tss (t : gmap Z Z) (stack_base : Z) : gmap Z Z := wr t Tss.esp0 stack_base.

(** ** The interrupt descriptor table (idt.c, include/idt.h) *)

(** [struct interrupt_gate] and [struct trap_gate] have the same members. *)
Module Gate.
Definition offset_l : Z * Z := (0, 16).
Definition seg_sel : Z * Z := (16, 16).
Definition res_1 : Z * Z := (32, 5).
Definition it : Z * Z := (37, 3).
Definition attr : Z * Z := (40, 5).
Definition dpl : Z * Z := (45, 2).
Definition p : Z * Z := (47, 1).
Definition offset_h : Z * Z := (48, 16).
End Gate.

Inductive idt_type := IDT_TYPE_INTERRUPT_GATE | IDT_TYPE_TRAP_GATE
  | IDT_TYPE_TASK_GATE | IDT_TYPE_SYSCALL_GATE.
#[export] Instance idt_type_eq : EqDecision idt_type.
Proof. solve_decision. Defined.

Definition MAX_IDT_ENTRY : Z := 512.

Definition get_idt_entry (index : Z) : option Z :=
  if MAX_IDT_ENTRY <? index then None else Some index.

Definition setup_interrupt_gate (w func : Z) : Z :=
  let w := setf w Gate.offset_l (Z.land func 0xffff) in
  let w := setf w Gate.seg_sel KERNEL_CS in
  let w := setf w Gate.attr 0xe in
  let w := setf w Gate.dpl 0x0 in
  let w := setf w Gate.p 1 in
  setf w Gate.offset_h (Z.shiftr (Z.land func 0xffff0000) 16).

Definition setup_trap_gate (w func : Z) : Z :=
  let w := setf w Gate.offset_l (Z.land func 0xffff) in
  let w := setf w Gate.seg_sel KERNEL_CS in
  let w := setf w Gate.attr 0xf in
  let w := setf w Gate.dpl 0x0 in
  let w := setf w Gate.p 1 in
  setf w Gate.offset_h (Z.shiftr (Z.land func 0xffff0000) 16).

Definition setup_syscall_gate (w func : Z) : Z :=
  let w := setf w Gate.offset_l (Z.land func 0xffff) in
  let w := setf w Gate.seg_sel KERNEL_CS in
  let w := setf w Gate.attr 0xe in
  let w := setf w Gate.dpl 0x3 in
  let w := setf w Gate.p 1 in
  setf w Gate.offset_h (Z.shiftr (Z.land func 0xffff0000) 16).

Definition setup_task_gate (w func : Z) : Z := w.

Definition setup_gate (type : idt_type) (w func : Z) : Z :=
  match type with
  | IDT_TYPE_INTERRUPT_GATE => setup_interrupt_gate w func
  | IDT_TYPE_TRAP_GATE => setup_trap_gate w func
  | IDT_TYPE_TASK_GATE => setup_task_gate w func
  | IDT_TYPE_SYSCALL_GATE => setup_syscall_gate w func
  end.

Definition setup_idt_entry (idt : gmap Z Z) (index func : Z) (type : idt_type) : outcome (gmap Z Z * Z) :=
  match get_idt_entry index with
  | None => Ret (idt, - EINVAL)
  | Some index =>
    idt ← store_entry SYSTEM_IDT_SIZE idt index 0;
    idt ← store_entry SYSTEM_IDT_SIZE idt index (setup_gate type (rd idt index) func);
    Ret (idt, 0)
  end.

Definition install_interrupt_gate (idt : gmap Z Z) (index func : Z) : outcome (gmap Z Z * Z) :=
  setup_idt_entry idt index func IDT_TYPE_INTERRUPT_GATE.
Definition install_trap_gate (idt : gmap Z Z) (index func : Z) : outcome (gmap Z Z * Z) :=
  setup_idt_entry idt index func IDT_TYPE_TRAP_GATE.
Definition install_task_gate (idt : gmap Z Z) (index func : Z) : outcome (gmap Z Z * Z) :=
  setup_idt_entry idt index func IDT_TYPE_TASK_GATE.
Definition install_syscall_gate (idt : gmap Z Z) (index func : Z) : outcome (gmap Z Z * Z) :=
  setup_idt_entry idt index func IDT_TYPE_SYSCALL_GATE.

(** ** The handlers and [trap_init] (trap.c, include/trap.h) *)

(** The exceptions, and the symbols of trap_s.S. *)
Inductive trap_no := X86_TRAP_DE | X86_TRAP_DB | X86_TRAP_NMI | X86_TRAP_BP | X86_TRAP_OF
  | X86_TRAP_BR | X86_TRAP_UD | X86_TRAP_NM | X86_TRAP_DF | X86_TRAP_OLD_MF | X86_TRAP_TS
  | X86_TRAP_NP | X86_TRAP_SS | X86_TRAP_GP | X86_TRAP_PF | X86_TRAP_SPURIOUS | X86_TRAP_MF
  | X86_TRAP_AC | X86_TRAP_MC | X86_TRAP_XF.
Inductive isr := x86_trap (n : trap_no) | x86_trap_undef | x86_irq (n : Z) | x86_irq_syscall.
#[export] Instance trap_no_eq : EqDecision trap_no.
Proof. solve_decision. Defined.
#[export] Instance isr_eq : EqDecision isr.
Proof. solve_decision. Defined.

(** The exceptions in the order of the enumeration: their position is their vector. *)
Definition trap_nos : list trap_no :=
  [X86_TRAP_DE; X86_TRAP_DB; X86_TRAP_NMI; X86_TRAP_BP; X86_TRAP_OF; X86_TRAP_BR; X86_TRAP_UD;
   X86_TRAP_NM; X86_TRAP_DF; X86_TRAP_OLD_MF; X86_TRAP_TS; X86_TRAP_NP; X86_TRAP_SS; X86_TRAP_GP;
   X86_TRAP_PF; X86_TRAP_SPURIOUS; X86_TRAP_MF; X86_TRAP_AC; X86_TRAP_MC; X86_TRAP_XF].

Definition irq_gates (first : Z) (n : nat) : list (Z * idt_type * isr) :=
  (fun i : nat => (first + Z.of_nat i, IDT_TYPE_INTERRUPT_GATE, x86_irq (first + Z.of_nat i - 32)))
    <$> seq 0 n.

(** The calls of [trap_init] in their order. *)
Definition trap_gates : list (Z * idt_type * isr) :=
  imap (fun v n => (Z.of_nat v, IDT_TYPE_TRAP_GATE, x86_trap n)) trap_nos ++
  ((fun i : nat => (20 + Z.of_nat i, IDT_TYPE_TRAP_GATE, x86_trap_undef)) <$> seq 0 12) ++
  irq_gates 32 96 ++
  [(128, IDT_TYPE_SYSCALL_GATE, x86_irq_syscall)] ++
  irq_gates 129 127.

Section Handlers.
Context (addr : isr -> Z).

Fixpoint install_gates (idt : gmap Z Z) (gates : list (Z * idt_type * isr)) : outcome (gmap Z Z) :=
  match gates with
  | [] => Ret idt
  | (v, t, h) :: gates =>
    '(idt, _) ← setup_idt_entry idt v (addr h) t;
    install_gates idt gates
  end.

Definition trap_init (idt : gmap Z Z) : outcome (gmap Z Z) := install_gates idt trap_gates.

(** The [memset] of the whole table: its [SYSTEM_IDT_SIZE / 8] entries. *)
Definition x86_idt_init (idt : gmap Z Z) : outcome (gmap Z Z) :=
  trap_init (zfor (Z.to_nat (SYSTEM_IDT_SIZE / 8)) 0 (fun i t => wr t i 0) idt).
End Handlers.

(** ** I/O memory and the I/O APIC (ioapic.c, without [CONFIG_X86_SOFIA])

    The chip has an index register at its base and a window on the selected register
    0x10 behind it. *)

Definition IOAPIC_PADDR_BASE : Z := 0xfec00000.
Definition IOAPIC_RTE_START_OFFSET : Z := 0x10.
Definition IOAPIC_RTE_SIZE : Z := 0x02.
Definition IOAPIC_RTE_LOW_ADDR (irq : Z) : Z := IOAPIC_RTE_START_OFFSET + IOAPIC_RTE_SIZE * irq.
Definition IOAPIC_RTE_HIGH_ADDR (irq : Z) : Z := IOAPIC_RTE_START_OFFSET + IOAPIC_RTE_SIZE * irq + 0x01.
Definition IOAPIC_RTE_REG (irq : Z) : Z := IOAPIC_RTE_START_OFFSET + irq * IOAPIC_RTE_SIZE.

Record ioapic := Ioapic { ioregsel : Z; ioregs : gmap Z Z }.

(** The device's answer to [iowrite32] and [ioread32]. *)
Definition ioapic_write32 (c : ioapic) (a v : Z) : ioapic :=
  if a =? IOAPIC_PADDR_BASE then Ioapic (u8 v) (ioregs c)
  else if a =? IOAPIC_PADDR_BASE + 0x10 then Ioapic (ioregsel c) (wr (ioregs c) (ioregsel c) (u32 v))
  else c.
Definition ioapic_read32 (c : ioapic) (a : Z) : Z :=
  if a =? IOAPIC_PADDR_BASE then ioregsel c
  else if a =? IOAPIC_PADDR_BASE + 0x10 then rd (ioregs c) (ioregsel c)
  else 0.

(** [offset] is a [uint8_t]: the argument is cut to 8 bits. *)
Definition set_ioapic_reg (c : ioapic) (offset val : Z) : ioapic :=
  let c := ioapic_write32 c IOAPIC_PADDR_BASE (u8 offset) in
  ioapic_write32 c (IOAPIC_PADDR_BASE + 0x10) val.
Definition get_ioapic_reg (c : ioapic) (offset : Z) : ioapic * Z :=
  let c := ioapic_write32 c IOAPIC_PADDR_BASE (u8 offset) in
  (c, ioapic_read32 c (IOAPIC_PADDR_BASE + 0x10)).

Definition x86_ioapic_init (c : ioapic) : ioapic :=
  zfor 256 0 (fun i c => set_ioapic_reg c (IOAPIC_RTE_LOW_ADDR i) 0x10000) c.
Definition x86_ioapic_unmask_irq (c : ioapic) (irq : Z) : ioapic :=
  let '(c, value) := get_ioapic_reg c (IOAPIC_RTE_LOW_ADDR irq) in
  set_ioapic_reg c (IOAPIC_RTE_LOW_ADDR irq) (Z.land value (lnot32 (Z.shiftl 1 16))).
Definition x86_ioapic_get_irq_nr (c : ioapic) : Z := 0.
Definition x86_ioapic_mask_irq (c : ioapic) (irq : Z) : ioapic :=
  let '(c, value) := get_ioapic_reg c (IOAPIC_RTE_LOW_ADDR irq) in
  set_ioapic_reg c (IOAPIC_RTE_LOW_ADDR irq) (Z.lor value (Z.shiftl 1 16)).
Definition x86_ioapic_eoi (c : ioapic) (irq : Z) : ioapic := c.

Definition x86_ioapic_set_affinity (c : ioapic) (irq affinity : Z) : ioapic :=
  let '(c, value) := get_ioapic_reg c (IOAPIC_RTE_REG irq) in
  let masked := Z.land value 0x10000 in
  let c := if masked =? 0
    then set_ioapic_reg c (IOAPIC_RTE_REG irq) (Z.lor value (Z.shiftl 1 16)) else c in
  let value := Z.land value (lnot32 0xf00) in
  let value := Z.lor value 0x900 in
  let c := set_ioapic_reg c (IOAPIC_RTE_HIGH_ADDR irq) (Z.shiftl (Z.land affinity 0xff) 24) in
  set_ioapic_reg c (IOAPIC_RTE_LOW_ADDR irq) value.

Definition x86_ioapic_setup (c : ioapic) (irq vector affinity : Z) : ioapic :=
  let c := set_ioapic_reg c (IOAPIC_RTE_HIGH_ADDR irq) (Z.shiftl (Z.land affinity 0xff) 24) in
  set_ioapic_reg c (IOAPIC_RTE_LOW_ADDR irq) (Z.lor 0x18900 vector).

(** ** I/O mappings (mm/io.c) *)

Section Io.
Context (u : mmu).

Definition iomap_to_addr (m : gmap Z Z) (io_phy vir : Z) : outcome (gmap Z Z * Z) :=
  fuelled (build_kernel_pde_entry u m vir io_phy PDE_ALIGN_SIZE PDE_ATTR_IO_MEMORY).
Definition iomap (io_phy : Z) : Z := 0.
Definition iounmap (vir : Z) : Z := 0.

(** ** The local APIC (lapic.c)

    Its registers are words of I/O memory, [io]. *)

Definition LAPIC_PADDR_BASE : Z := 0xfee00000.
Definition LAPIC_EOI : Z := LAPIC_PADDR_BASE + 0xB0.
Definition LAPIC_LDR : Z := LAPIC_PADDR_BASE + 0xD0.
Definition LAPIC_LVT_TMR : Z := LAPIC_PADDR_BASE + 0x320.
Definition LAPIC_LVT_THERMAL_MONITOR : Z := LAPIC_PADDR_BASE + 0x330.
Definition LAPIC_LVT_PERF_COUNTER : Z := LAPIC_PADDR_BASE + 0x340.
Definition LAPIC_LVT_LINT0 : Z := LAPIC_PADDR_BASE + 0x350.
Definition LAPIC_LVT_LINT1 : Z := LAPIC_PADDR_BASE + 0x360.
Definition LAPIC_LVT_ERROR : Z := LAPIC_PADDR_BASE + 0x370.

Definition x86_pic_eoi (io : gmap Z Z) (vector : Z) : gmap Z Z := wr io LAPIC_EOI 0xdeadbeef.

Definition x86_lapic_init (m io : gmap Z Z) (cpu : Z) : outcome (gmap Z Z * gmap Z Z) :=
  m ← (if cpu =? 0 then
         '(m, ret) ← iomap_to_addr m LAPIC_PADDR_BASE LAPIC_PADDR_BASE;
         if negb (s32 ret =? 0) then Panic else Ret m
       else Ret m);
  let io := wr io LAPIC_LVT_TMR 0x10000 in
  let io := wr io LAPIC_LVT_THERMAL_MONITOR 0x10000 in
  let io := wr io LAPIC_LVT_PERF_COUNTER 0x10000 in
  let io := wr io LAPIC_LVT_LINT0 0x10000 in
  let io := wr io LAPIC_LVT_LINT1 0x10000 in
  let io := wr io LAPIC_LVT_ERROR 0x10000 in
  let io := wr io LAPIC_LDR (u32 (Z.shiftl 1 (cpu + 24))) in
  Ret (m, io).
End Io.
