(* ===== verification/X86Spec.v ===== *)
(** * The descriptor tables and the I/O APIC: what the processor reads

    The processor's reading of a gate and of a segment descriptor ([decode_gate],
    [decode_des]) against what the code stores in the tables, the handlers reached
    after [x86_idt_init], and the lines of the I/O APIC. *)

From S2P Require Import Prelude Mmu X86.

(** ** Bit fields *)

Lemma testbit_get_field w off n i : 0 <= off -> 0 <= n -> 0 <= i ->
  Z.testbit (get_field w off n) i = (i <? n) && Z.testbit w (i + off).
Proof.
  intros. unfold get_field. rewrite Z.land_spec, Z.shiftr_spec, Z.testbit_ones by lia.
  destruct (Z.ltb_spec i n), (Z.leb_spec 0 i); simpl; rewrite ?andb_true_r, ?andb_false_r; (lia || done).
Qed.

Lemma testbit_set_field w off n v i : 0 <= off -> 0 <= n -> 0 <= i ->
  Z.testbit (set_field w off n v) i =
  if (off <=? i) && (i <? off + n) then Z.testbit v (i - off) else Z.testbit w i.
Proof.
  intros. unfold set_field.
  rewrite Z.lor_spec, Z.land_spec, Z.lnot_spec, !Z.shiftl_spec by lia.
  destruct (Z.leb_spec off i) as [Hi|Hi]; simpl.
  - rewrite Z.land_spec, Z.testbit_ones by lia.
    destruct (Z.ltb_spec (i - off) n), (Z.ltb_spec i (off + n)), (Z.leb_spec 0 (i - off)); try lia; simpl;
      rewrite ?andb_true_r, ?andb_false_r, ?orb_false_r; done.
  - rewrite !(Z.testbit_neg_r _ (i - off)) by lia. simpl. by rewrite andb_true_r, orb_false_r.
Qed.

Definition field_ok (f : Z * Z) : bool := (0 <=? f.1) && (0 <=? f.2).
Definition fields_apart (f g : Z * Z) : bool := (f.1 + f.2 <=? g.1) || (g.1 + g.2 <=? f.1).

Lemma getf_setf_eq w f v : field_ok f = true -> getf (setf w f v) f = v mod 2 ^ f.2.
Proof.
  unfold field_ok, getf, setf. intros Hf. apply Z.bits_inj'. intros i Hi.
  rewrite testbit_get_field, testbit_set_field by lia.
  destruct (Z.ltb_spec i f.2) as [Hl|Hl]; simpl.
  - rewrite Z.mod_pow2_bits_low by lia.
    destruct (Z.leb_spec f.1 (i + f.1)), (Z.ltb_spec (i + f.1) (f.1 + f.2)); try lia; simpl. f_equal. lia.
  - by rewrite Z.mod_pow2_bits_high by lia.
Qed.

Lemma getf_setf_ne w f g v :
  field_ok f = true -> field_ok g = true -> fields_apart f g = true ->
  getf (setf w f v) g = getf w g.
Proof.
  unfold field_ok, fields_apart, getf, setf. intros Hf Hg Ha. apply Z.bits_inj'. intros i Hi.
  rewrite !testbit_get_field, testbit_set_field by lia.
  destruct (Z.ltb_spec i g.2) as [Hl|Hl]; simpl; [|done].
  by destruct (Z.leb_spec f.1 (i + g.1)), (Z.ltb_spec (i + g.1) (f.1 + f.2)); try lia; simpl.
Qed.

Lemma getf_0 f : field_ok f = true -> getf 0 f = 0.
Proof.
  unfold field_ok, getf, get_field. intros. by rewrite Z.shiftr_0_l, Z.land_0_l.
Qed.

(** Reads of the members of a descriptor just written. *)
Ltac read_fields :=
  repeat first [ rewrite getf_setf_eq by reflexivity
               | rewrite getf_setf_ne by reflexivity ];
  rewrite ?getf_0 by reflexivity.

Lemma land_ones_small x n : 0 <= n -> Z.land x (Z.ones n) mod 2 ^ n = x mod 2 ^ n.
Proof. intros. rewrite Z.land_ones by lia. apply Z.mod_mod. lia. Qed.

Lemma low_half x : Z.land x 0xffff mod 2 ^ 16 = x mod 65536.
Proof. exact (land_ones_small x 16 ltac:(lia)). Qed.

Lemma high_half x : 0 <= x < 4294967296 ->
  Z.shiftr (Z.land x 0xffff0000) 16 mod 2 ^ 16 = x / 65536.
Proof.
  intros. rewrite Z.shiftr_land. change (Z.shiftr 0xffff0000 16) with (Z.ones 16).
  rewrite land_ones_small, Z.shiftr_div_pow2 by lia. apply Z.mod_small.
  change (2 ^ 16) with 65536. Z.to_euclidean_division_equations; lia.
Qed.

(** ** Gates *)

Record gate := MkGate { gate_p : Z; gate_dpl : Z; gate_attr : Z; gate_sel : Z; gate_offset : Z }.

Definition decode_gate (w : Z) : gate :=
  MkGate (getf w Gate.p) (getf w Gate.dpl) (getf w Gate.attr) (getf w Gate.seg_sel)
    (65536 * getf w Gate.offset_h + getf w Gate.offset_l).

Definition gate_of (t : idt_type) (func : Z) : gate :=
  match t with
  | IDT_TYPE_INTERRUPT_GATE => MkGate 1 0 0xe KERNEL_CS func
  | IDT_TYPE_TRAP_GATE => MkGate 1 0 0xf KERNEL_CS func
  | IDT_TYPE_TASK_GATE => MkGate 0 0 0 0 0
  | IDT_TYPE_SYSCALL_GATE => MkGate 1 3 0xe KERNEL_CS func
  end.

Lemma decode_setup_gate t func : 0 <= func < 4294967296 ->
  decode_gate (setup_gate t 0 func) = gate_of t func.
Proof.
  intros. unfold decode_gate.
  destruct t; simpl; unfold setup_interrupt_gate, setup_trap_gate, setup_syscall_gate, setup_task_gate;
    cbv zeta; read_fields; try done.
  all: cbn [Gate.offset_h Gate.offset_l Gate.p Gate.dpl Gate.attr Gate.seg_sel snd].
  all: rewrite low_half, high_half by lia; f_equal; Z.to_euclidean_division_equations; lia.
Qed.

(** ** The table *)

Lemma setup_idt_entry_ok idt v func t : 0 <= v < 512 ->
  exists idt', setup_idt_entry idt v func t = Ret (idt', 0) /\
    rd idt' v = setup_gate t 0 func /\ (forall w, w <> v -> rd idt' w = rd idt w).
Proof.
  intros. unfold setup_idt_entry, get_idt_entry, MAX_IDT_ENTRY, store_entry, X86Config.SYSTEM_IDT_SIZE.
  destruct (Z.ltb_spec 512 v); [lia|].
  destruct (Z.leb_spec 0 v), (Z.ltb_spec (v * 8) 0x1000); try lia. simpl.
  rewrite rd_wr_eq. eexists. split; [done|]. rewrite rd_wr_eq. split; [done|].
  intros w Hw. by rewrite !rd_wr_ne.
Qed.

Section Install.
Context (addr : isr -> Z).

Lemma install_gates_spec gates idt :
  Forall (fun g => 0 <= g.1.1 < 512) gates -> NoDup ((fun g => g.1.1) <$> gates) ->
  exists idt', install_gates addr idt gates = Ret idt' /\
    (forall v t h, (v, t, h) ∈ gates -> rd idt' v = setup_gate t 0 (addr h)) /\
    (forall v, v ∉ ((fun g => g.1.1) <$> gates) -> rd idt' v = rd idt v).
Proof.
  revert idt. induction gates as [|[[v t] h] gates IH]; intros idt Hr Hnd.
  - exists idt. split_and!; [done| |done]. intros v t h Hin. by apply elem_of_nil in Hin.
  - apply Forall_cons in Hr as [Hv Hr]. rewrite fmap_cons in Hnd. apply NoDup_cons in Hnd as [Hni Hnd].
    simpl in *. destruct (setup_idt_entry_ok idt v (addr h) t Hv) as (i1 & E & Hi1 & Ho1).
    rewrite E, Ret_bind. destruct (IH i1 Hr Hnd) as (i2 & E2 & Hin2 & Hout2).
    exists i2. split_and!; [done| |].
    + intros v' t' h' Hin. apply elem_of_cons in Hin as [[= -> -> ->]|Hin]; [|by apply Hin2].
      rewrite Hout2 by done. done.
    + intros w Hw. apply not_elem_of_cons in Hw as [Hne Hw]. rewrite Hout2 by done. by apply Ho1.
Qed.
End Install.

(** Which symbol serves which vector. *)
Definition isr_of (v : Z) : isr :=
  match trap_nos !! Z.to_nat v with
  | Some n => x86_trap n
  | None => if v <? 32 then x86_trap_undef else if v =? 128 then x86_irq_syscall else x86_irq (v - 32)
  end.
Definition gate_type (v : Z) : idt_type :=
  if v <? 32 then IDT_TYPE_TRAP_GATE
  else if v =? 128 then IDT_TYPE_SYSCALL_GATE else IDT_TYPE_INTERRUPT_GATE.

Lemma trap_gates_in v : 0 <= v < 256 -> (v, gate_type v, isr_of v) ∈ trap_gates.
Proof.
  intros. replace v with (Z.of_nat (Z.to_nat v)) by lia.
  assert (Hall : Forall (fun n => (Z.of_nat n, gate_type (Z.of_nat n), isr_of (Z.of_nat n)) ∈ trap_gates)
    (seq 0 256)).
  { apply (bool_decide_unpack _). by vm_compute. }
  rewrite Forall_forall in Hall. apply Hall. apply elem_of_seq. lia.
Qed.

Lemma trap_gates_vectors v : v ∈ ((fun g => g.1.1) <$> trap_gates) -> 0 <= v < 256.
Proof.
  intros Hin.
  assert (Hall : Forall (fun w => 0 <= w < 256) ((fun g => g.1.1) <$> trap_gates)).
  { apply (bool_decide_unpack _). by vm_compute. }
  rewrite Forall_forall in Hall. by apply Hall.
Qed.

Lemma trap_gates_NoDup : NoDup ((fun g => g.1.1) <$> trap_gates).
Proof. apply (bool_decide_unpack _). by vm_compute. Qed.

Lemma trap_gates_range : Forall (fun g => 0 <= g.1.1 < 512) trap_gates.
Proof. apply (bool_decide_unpack _). by vm_compute. Qed.

Lemma clear_words n i (t : gmap Z Z) v :
  rd (zfor n i (fun i t => wr t i 0) t) v = if decide (i <= v < i + Z.of_nat n) then 0 else rd t v.
Proof.
  revert i t. induction n as [|n IH]; intros i t; simpl.
  - case_decide; [lia|done].
  - rewrite IH. rewrite rd_wr. repeat case_decide; try lia; done.
Qed.

(** The entries after [x86_idt_init], as words. *)
Lemma x86_idt_init_entries addr idt :
  exists idt', x86_idt_init addr idt = Ret idt' /\
    (forall v, 0 <= v < 256 -> rd idt' v = setup_gate (gate_type v) 0 (addr (isr_of v))) /\
    (forall v, 256 <= v < 512 -> rd idt' v = 0).
Proof.
  unfold x86_idt_init, trap_init.
  set (i0 := zfor _ _ _ _).
  destruct (install_gates_spec addr trap_gates i0 trap_gates_range trap_gates_NoDup)
    as (idt' & E & Hin & Hout).
  exists idt'. split_and!; [done| |].
  - intros v Hv. by apply Hin, trap_gates_in.
  - intros v Hv. rewrite Hout by (intros Hv'; apply trap_gates_vectors in Hv'; lia).
    unfold i0. rewrite clear_words. rewrite decide_True; [done|].
    change (X86Config.SYSTEM_IDT_SIZE / 8) with 512. lia.
Qed.

(** C25: after [x86_idt_init] every vector of the processor, 0 to 255, has a present gate
    into the kernel's code segment whose offset is the handler of that vector: a trap gate
    for the 32 exceptions, an interrupt gate (interrupts off) for the rest.  Only vector
    128, the system call, can be raised from user mode (privilege level 3); the upper half
    of the table stays not present. *)
Theorem x86_idt_init_gates addr idt (Haddr : forall h, 0 <= addr h < 4294967296) :
  exists idt', x86_idt_init addr idt = Ret idt' /\
    (forall v, 0 <= v < 256 ->
      decode_gate (rd idt' v) =
      MkGate 1 (if decide (v = 128) then 3 else 0) (if decide (v < 32) then 0xf else 0xe)
        KERNEL_CS (addr (isr_of v))) /\
    (forall v, 256 <= v < 512 -> gate_p (decode_gate (rd idt' v)) = 0).
Proof.
  destruct (x86_idt_init_entries addr idt) as (idt' & E & Hin & Hout).
  exists idt'. split_and!; [done| |].
  - intros v Hv. rewrite Hin, decode_setup_gate by done. unfold gate_type.
    destruct (Z.ltb_spec v 32), (Z.eqb_spec v 128); repeat case_decide; try lia; done.
  - intros v Hv. rewrite Hout by done. by vm_compute.
Qed.

Definition addr_example (h : isr) : Z :=
  match h with
  | x86_trap n => 0x80010000 | x86_trap_undef => 0x80010800
  | x86_irq n => 0x80011000 + n mod 256 * 8 | x86_irq_syscall => 0x80012000
  end.

Lemma addr_example_range h : 0 <= addr_example h < 4294967296.
Proof. destruct h as [n| |n|]; simpl; try lia. pose proof (Z.mod_pos_bound n 256). lia. Qed.

Lemma x86_idt_init_gates_witness :
  exists idt', x86_idt_init addr_example ∅ = Ret idt' /\
    decode_gate (rd idt' 128) = MkGate 1 3 0xe KERNEL_CS 0x80012000.
Proof.
  destruct (x86_idt_init_gates addr_example ∅ addr_example_range) as (idt' & E & Hin & _).
  exists idt'. split; [exact E|]. rewrite Hin; [reflexivity|lia].
Defined.

(** The range test of [get_idt_entry] lets one entry behind the table, and every
    negative index, pass. *)
Lemma get_idt_entry_outside func t :
  setup_idt_entry ∅ 512 func t = Fault /\ setup_idt_entry ∅ (-1) func t = Fault.
Proof. done. Qed.

(** ** The descriptor of the task state segment *)

Record seg_des := MkSegDes { des_base : Z; des_limit : Z; des_type : Z; des_s : Z;
  des_dpl : Z; des_p : Z; des_g : Z }.

Definition decode_des (w : Z) : seg_des :=
  MkSegDes (getf w Gdt.base_l + 65536 * getf w Gdt.base_h1 + 16777216 * getf w Gdt.base_h2)
    (getf w Gdt.s_limit_l + 65536 * getf w Gdt.s_limit_h)
    (getf w Gdt.type) (getf w Gdt.s) (getf w Gdt.dpl) (getf w Gdt.p) (getf w Gdt.g).

(** [setup_tss_des] writes an available 32-bit TSS descriptor, present and of
    privilege level 3, from which the processor reads back the base address and the limit
    it was given, whatever the entry held before; the other entries keep their value. *)
Theorem setup_tss_des_decodes gdt index base page
    (Hi : 0 <= index < 512) (Hb : 0 <= base < 4294967296) (Hp : 0 <= page < 1048576) :
  exists gdt', setup_tss_des gdt index base page = Ret gdt' /\
    decode_des (rd gdt' index) = MkSegDes base page 9 0 3 1 0 /\
    (forall i, i <> index -> rd gdt' i = rd gdt i).
Proof.
  unfold setup_tss_des, store_entry, X86Config.SYSTEM_GDT_SIZE. cbv zeta.
  destruct (Z.leb_spec 0 index), (Z.ltb_spec (index * 8) 0x1000); try lia. cbn [andb].
  eexists. split; [done|]. split; [|intros i Hne; by rewrite rd_wr_ne].
  rewrite rd_wr_eq. unfold decode_des. read_fields. cbn [snd Gdt.base_l Gdt.base_h1 Gdt.base_h2
    Gdt.s_limit_l Gdt.s_limit_h Gdt.type Gdt.s Gdt.dpl Gdt.p Gdt.g].
  rewrite !low_half.
  change 0xff with (Z.ones 8). change 0xf with (Z.ones 4).
  rewrite !land_ones_small, !Z.shiftr_div_pow2 by lia.
  f_equal; change (2 ^ 16) with 65536; change (2 ^ 8) with 256; change (2 ^ 24) with 16777216;
    change (2 ^ 4) with 16; Z.to_euclidean_division_equations; lia.
Qed.

Lemma setup_tss_des_decodes_witness :
  exists gdt', setup_tss_des ∅ 13 0x80007000 112 = Ret gdt' /\
    decode_des (rd gdt' 13) = MkSegDes 0x80007000 112 9 0 3 1 0 /\
    (forall i, i <> 13 -> rd gdt' i = rd ∅ i).
Proof. apply (setup_tss_des_decodes ∅ 13 0x80007000 112); lia. Defined.
