(* ===== verification/Irq.v ===== *)
(** * Interrupt lines and handlers (kernel/irq.c, include/os/irq.h)

    The interrupt controller is a record of operations on its own state, as
    [struct irq_chip] is; [ChipLaws] is what the generic code relies on, and the I/O
    APIC of the x86 port satisfies it for the lines its index register reaches.  The
    table of handlers is memory: a pair of words for each line, behind
    [irq_table_base].  [enter_critical] and [exit_critical] only switch the
    processor's interrupt flag and are left out. *)

From S2P Require Import Prelude Mmu Mm X86 X86Spec.

Definition IRQ_NR : Z := 512.
Definition sizeof_irq_des : Z := 8.

Record irq_chip (C : Type) := IrqChip {
  irq_nr : Z;
  unmask : C -> Z -> C;
  get_irq_nr : C -> Z;
  mask : C -> Z -> C;
  eoi : C -> Z -> C;
  chip_init : C -> C;
  set_affinity : C -> Z -> Z -> C;
  setup : C -> Z -> Z -> Z -> C }.
Arguments IrqChip {C}.
Arguments irq_nr {C}.
Arguments unmask {C}.
Arguments get_irq_nr {C}.
Arguments mask {C}.
Arguments eoi {C}.
Arguments chip_init {C}.
Arguments set_affinity {C}.
Arguments setup {C}.

Record irq_state (C : Type) := IrqState {
  irq_mm : mm_bank;
  irq_mem : gmap Z Z;
  irq_table_base : Z;
  irq_chip_st : C;
  in_interrupt : Z }.
Arguments IrqState {C}.
Arguments irq_mm {C}.
Arguments irq_mem {C}.
Arguments irq_table_base {C}.
Arguments irq_chip_st {C}.
Arguments in_interrupt {C}.

Section Irq.
Context {C : Type} (chip : irq_chip C).
Implicit Types s : irq_state C.

Definition set_irq_mem s (m : gmap Z Z) : irq_state C :=
  IrqState (irq_mm s) m (irq_table_base s) (irq_chip_st s) (in_interrupt s).
Definition set_irq_chip s (c : C) : irq_state C :=
  IrqState (irq_mm s) (irq_mem s) (irq_table_base s) c (in_interrupt s).
Definition set_in_interrupt s (b : Z) : irq_state C :=
  IrqState (irq_mm s) (irq_mem s) (irq_table_base s) (irq_chip_st s) b.

(** The line number reaches the chip as an [unsigned int]. *)
Definition enable_irq s (nr : Z) : irq_state C := set_irq_chip s (unmask chip (irq_chip_st s) (u32 nr)).
Definition disable_irq s (nr : Z) : irq_state C := set_irq_chip s (mask chip (irq_chip_st s) (u32 nr)).

Definition get_irq_description s (nr : Z) : Z := u32 (irq_table_base s + sizeof_irq_des * nr).
Definition des_fn s (des : Z) : Z := rd (irq_mem s) des.
Definition des_arg s (des : Z) : Z := rd (irq_mem s) (des + 4).
Definition set_des s (des fn arg : Z) : irq_state C :=
  set_irq_mem s (wr (wr (irq_mem s) des fn) (des + 4) arg).

Definition free_irq s (nr : Z) : irq_state C :=
  if IRQ_NR - 1 <? nr then s
  else
    let des := get_irq_description s nr in
    if negb (des =? 0) && negb (des_fn s des =? 0)
    then disable_irq (set_des s des 0 0) nr
    else s.

Definition register_irq s (nr fn arg : Z) : irq_state C * Z :=
  if (IRQ_NR - 1 <? nr) || (fn =? 0) then (s, - EINVAL)
  else
    let des := get_irq_description s nr in
    if negb (des =? 0) && (des_fn s des =? 0)
    then (enable_irq (set_des s des fn arg) nr, 0)
    else (s, - EINVAL).

(** [call fn arg] is the call of the function at address [fn]. *)
Context (call : Z -> Z -> irq_state C -> outcome (irq_state C * Z)).

Definition do_irq_handler s (nr : Z) : outcome (irq_state C * Z) :=
  let des := get_irq_description s nr in
  if des =? 0 then Ret (s, - EINVAL)
  else if des_fn s des =? 0 then Fault
  else call (des_fn s des) (des_arg s des) s.

Definition irq_handler s : outcome (irq_state C) :=
  let s := set_in_interrupt s 1 in
  let nr := get_irq_nr chip (irq_chip_st s) in
  '(s, _) ← do_irq_handler s nr;
  let s := set_irq_chip s (eoi chip (irq_chip_st s) (u32 nr)) in
  Ret (set_in_interrupt s 0).

Definition irq_init s : outcome (irq_state C * Z) :=
  let irq_table_size := IRQ_NR * sizeof_irq_des in
  let nr := page_nr irq_table_size in
  '(mm, base) ← get_free_pages (irq_mm s) nr GFP_KERNEL;
  if base =? 0
  then Ret (IrqState mm (irq_mem s) base (irq_chip_st s) (in_interrupt s), - ENOMEM)
  else
    let m := memset0 (irq_mem s) base (Z.shiftl nr PAGE_SHIFT) in
    Ret (IrqState mm m base (chip_init chip (irq_chip_st s)) (in_interrupt s), 0).
End Irq.

(** ** What a controller promises *)

(** [is_open c n]: interrupts of line [n] reach the processor. *)
Class ChipLaws {C} (chip : irq_chip C) (is_open : C -> Z -> bool) (lines : Z) := {
  chip_unmask c n k : 0 <= n < lines -> 0 <= k < lines ->
    is_open (unmask chip c n) k = bool_decide (k = n) || is_open c k;
  chip_mask c n k : 0 <= n < lines -> 0 <= k < lines ->
    is_open (mask chip c n) k = negb (bool_decide (k = n)) && is_open c k;
  chip_eoi c n k : is_open (eoi chip c n) k = is_open c k;
  chip_closed c k : 0 <= k < lines -> is_open (chip_init chip c) k = false }.

(** ** The I/O APIC *)

Definition x86_ioapic : irq_chip ioapic :=
  IrqChip 256 x86_ioapic_unmask_irq x86_ioapic_get_irq_nr x86_ioapic_mask_irq x86_ioapic_eoi
    x86_ioapic_init x86_ioapic_set_affinity x86_ioapic_setup.

(** The register of a line behind the 8-bit index, and its mask bit. *)
Definition rte_low (n : Z) : Z := u8 (IOAPIC_RTE_LOW_ADDR n).
Definition rte (c : ioapic) (n : Z) : Z := rd (ioregs c) (rte_low n).
Definition rte_open (c : ioapic) (n : Z) : bool := negb (Z.testbit (rte c n) 16).

Lemma set_ioapic_reg_regs c off v : ioregs (set_ioapic_reg c off v) = wr (ioregs c) (u8 off) (u32 v).
Proof. unfold set_ioapic_reg, ioapic_write32, u8. simpl. by rewrite Z.mod_mod. Qed.

Lemma get_ioapic_reg_val c off :
  ioregs (get_ioapic_reg c off).1 = ioregs c /\ (get_ioapic_reg c off).2 = rd (ioregs c) (u8 off).
Proof. unfold get_ioapic_reg, ioapic_write32, ioapic_read32, u8. simpl. by rewrite Z.mod_mod. Qed.

Lemma rte_low_inj n k : 0 <= n < 120 -> 0 <= k < 120 -> rte_low n = rte_low k -> n = k.
Proof.
  unfold rte_low, IOAPIC_RTE_LOW_ADDR, IOAPIC_RTE_START_OFFSET, IOAPIC_RTE_SIZE. intros.
  rewrite !u8_small in * by lia. lia.
Qed.

Lemma unmask_regs c n :
  ioregs (x86_ioapic_unmask_irq c n) =
  wr (ioregs c) (rte_low n) (u32 (Z.land (rte c n) (lnot32 (Z.shiftl 1 16)))).
Proof.
  unfold x86_ioapic_unmask_irq. destruct (get_ioapic_reg_val c (IOAPIC_RTE_LOW_ADDR n)) as [E1 E2].
  destruct (get_ioapic_reg c _) as [c' v]. cbn [fst snd] in *. by rewrite set_ioapic_reg_regs, E1, E2.
Qed.

Lemma mask_regs c n :
  ioregs (x86_ioapic_mask_irq c n) =
  wr (ioregs c) (rte_low n) (u32 (Z.lor (rte c n) (Z.shiftl 1 16))).
Proof.
  unfold x86_ioapic_mask_irq. destruct (get_ioapic_reg_val c (IOAPIC_RTE_LOW_ADDR n)) as [E1 E2].
  destruct (get_ioapic_reg c _) as [c' v]. cbn [fst snd] in *. by rewrite set_ioapic_reg_regs, E1, E2.
Qed.

Lemma u32_testbit x i : 0 <= i < 32 -> Z.testbit (u32 x) i = Z.testbit x i.
Proof. intros. unfold u32. change 4294967296 with (2 ^ 32). apply Z.mod_pow2_bits_low. lia. Qed.

Lemma ioapic_init_regs n c k : (n <= 256)%nat -> 0 <= k < Z.of_nat n ->
  rd (ioregs (zfor n 0 (fun i c => set_ioapic_reg c (IOAPIC_RTE_LOW_ADDR i) 0x10000) c)) (rte_low k) = 0x10000.
Proof.
  intros _ Hk. revert c. assert (Hg : forall i c, i <= k < i + Z.of_nat n ->
    rd (ioregs (zfor n i (fun i c => set_ioapic_reg c (IOAPIC_RTE_LOW_ADDR i) 0x10000) c)) (rte_low k) = 0x10000);
    [|intros c; apply Hg; lia].
  assert (Hkeep : forall n i c, rd (ioregs c) (rte_low k) = 0x10000 ->
    rd (ioregs (zfor n i (fun i c => set_ioapic_reg c (IOAPIC_RTE_LOW_ADDR i) 0x10000) c)) (rte_low k) = 0x10000).
  { clear. induction n as [|n IH]; intros i c Hc; simpl; [done|]. apply IH.
    rewrite set_ioapic_reg_regs, rd_wr. case_decide; done. }
  clear Hk. induction n as [|n IH]; intros i c Hk; [lia|]. simpl.
  destruct (decide (k = i)) as [->|Hne]; [|apply IH; lia].
  apply Hkeep. rewrite set_ioapic_reg_regs. unfold rte_low. by rewrite rd_wr_eq.
Qed.

#[export] Instance ioapic_laws : ChipLaws x86_ioapic rte_open 120.
Proof.
  split; unfold rte_open, rte; cbn [unmask mask eoi chip_init x86_ioapic].
  - intros c n k Hn Hk. rewrite unmask_regs, rd_wr. case_decide as He.
    + apply rte_low_inj in He as ->; [|done..]. rewrite bool_decide_true by done.
      rewrite u32_testbit, Z.land_spec by lia.
      change (Z.testbit (lnot32 _) 16) with false. by rewrite andb_false_r.
    + rewrite bool_decide_false by congruence. done.
  - intros c n k Hn Hk. rewrite mask_regs, rd_wr. case_decide as He.
    + apply rte_low_inj in He as ->; [|done..]. rewrite bool_decide_true by done.
      rewrite u32_testbit, Z.lor_spec by lia.
      change (Z.testbit (Z.shiftl 1 16) 16) with true. by rewrite orb_true_r.
    + rewrite bool_decide_false by congruence. done.
  - done.
  - intros c k Hk. unfold x86_ioapic_init. by rewrite ioapic_init_regs by lia.
Qed.
