(* ===== verification/IrqSpec.v ===== *)
(** * Interrupt lines are open exactly when they have a handler

    Proved for every controller that satisfies [ChipLaws]: the table and the mask bits
    agree after [irq_init], [register_irq] and [free_irq], so an interrupt that reaches
    the processor finds its handler. *)

From S2P Require Import Prelude Mmu Mm MmSpec X86 X86Spec Irq.

Section Lines.
Context {C : Type} (chip : irq_chip C) (is_open : C -> Z -> bool) (lines : Z).
Context `{!ChipLaws chip is_open lines} (Hlines : lines <= 512).
Implicit Types s : irq_state C.

(** The table is a page of memory, away from address 0 and from the end of memory. *)
Definition table_ok s : Prop := 0 < irq_table_base s <= 4294967296 - 4096.

Definition handler s (nr : Z) : Z * Z :=
  (rd (irq_mem s) (irq_table_base s + 8 * nr), rd (irq_mem s) (irq_table_base s + 8 * nr + 4)).

Definition lines_agree s : Prop :=
  forall nr, 0 <= nr < lines -> is_open (irq_chip_st s) nr = negb ((handler s nr).1 =? 0).

Lemma description_at s nr : table_ok s -> 0 <= nr < 512 ->
  get_irq_description s nr = irq_table_base s + 8 * nr.
Proof.
  unfold table_ok, get_irq_description, sizeof_irq_des. intros. apply u32_small. lia.
Qed.

Lemma handler_set s nr fn arg k : table_ok s -> 0 <= nr < 512 -> 0 <= k < 512 ->
  handler (set_des s (get_irq_description s nr) fn arg) k =
  if decide (k = nr) then (fn, arg) else handler s k.
Proof.
  intros Ht Hn Hk. rewrite description_at by done. unfold handler, set_des. simpl.
  rewrite !rd_wr. repeat case_decide; subst; try lia; done.
Qed.

(** [register_irq] in range: the entry of a free line is filled and the line opened; a
    taken line is refused and nothing changes. *)
Lemma register_irq_cases s nr fn arg : table_ok s -> 0 <= nr < 512 -> fn <> 0 ->
  register_irq chip s nr fn arg =
  if (handler s nr).1 =? 0
  then (enable_irq chip (set_des s (get_irq_description s nr) fn arg) nr, 0)
  else (s, - EINVAL).
Proof.
  intros Ht Hn Hf. unfold register_irq, IRQ_NR.
  destruct (Z.ltb_spec (512 - 1) nr), (Z.eqb_spec fn 0); try lia; try done. cbn [orb].
  unfold des_fn. rewrite description_at by done. unfold table_ok in Ht.
  destruct (Z.eqb_spec (irq_table_base s + 8 * nr) 0); [lia|]. simpl. done.
Qed.

Lemma register_irq_keeps s nr fn arg s' r :
  table_ok s -> lines_agree s -> 0 <= nr < lines -> fn <> 0 ->
  register_irq chip s nr fn arg = (s', r) -> table_ok s' /\ lines_agree s'.
Proof.
  intros Ht Ha Hn Hf. rewrite register_irq_cases by (done || lia).
  destruct (Z.eqb_spec (handler s nr).1 0) as [E|E]; intros [= <- <-]; [|done]. split; [done|].
  intros k Hk. pose proof (handler_set s nr fn arg k Ht ltac:(lia) ltac:(lia)) as Hs.
  change (handler (enable_irq chip ?x nr) k) with (handler x k). rewrite Hs. simpl.
  rewrite u32_small, chip_unmask, Ha by lia.
  destruct (decide (k = nr)) as [->|Hne]; [|by rewrite bool_decide_false].
  rewrite bool_decide_true by done. cbn [fst]. by destruct (Z.eqb_spec fn 0).
Qed.

Lemma free_irq_keeps s nr :
  table_ok s -> lines_agree s -> 0 <= nr < lines ->
  table_ok (free_irq chip s nr) /\ lines_agree (free_irq chip s nr).
Proof.
  intros Ht Ha Hn. unfold free_irq, IRQ_NR.
  destruct (Z.ltb_spec (512 - 1) nr); [done|].
  destruct (negb _ && negb _) eqn:E; [|done]. split; [done|].
  intros k Hk. pose proof (handler_set s nr 0 0 k Ht ltac:(lia) ltac:(lia)) as Hs.
  change (handler (disable_irq chip ?x nr) k) with (handler x k). rewrite Hs. simpl.
  rewrite u32_small, chip_mask, Ha by lia.
  case_decide; subst; [by rewrite bool_decide_true|by rewrite bool_decide_false].
Qed.

Lemma memset0_zero m base n a : base <= a < base + 4 * Z.of_nat n -> (a - base) mod 4 = 0 ->
  rd (zfor n 0 (fun i m => wr m (base + 4 * i) 0) m) a = 0.
Proof.
  intros Ha Hal.
  assert (Hg : forall n i m, rd m a = 0 \/ base + 4 * i <= a < base + 4 * (i + Z.of_nat n) ->
    rd (zfor n i (fun i m => wr m (base + 4 * i) 0) m) a = 0).
  { clear Ha. clear n m. induction n as [|n IH]; intros i m [H|H]; simpl; [done|lia| |].
    - apply IH. left. rewrite rd_wr. by case_decide.
    - apply IH. rewrite rd_wr. case_decide; [by left|].
      right. Z.to_euclidean_division_equations; lia. }
  apply Hg. right. lia.
Qed.

Lemma irq_init_agrees s s' : irq_init chip s = Ret (s', 0) -> table_ok s' -> lines_agree s'.
Proof.
  unfold irq_init. intros H Ht. change (page_nr (IRQ_NR * sizeof_irq_des)) with 1 in H.
  destruct (get_free_pages _ _ _) as [[mm z]| | |]; try done. cbn [mbind outcome_bind] in H.
  destruct (Z.eqb_spec z 0); [by injection H|].
  injection H as <-. intros nr Hn. unfold handler. cbn [fst irq_chip_st irq_mem irq_table_base].
  rewrite chip_closed by done. unfold memset0. change (Z.shiftl 1 PAGE_SHIFT / 4) with 1024.
  rewrite memset0_zero; [done|lia|].
  replace (z + 8 * nr - z) with (2 * nr * 4) by lia. apply Z.mod_mul. lia.
Qed.

(** The calls of the interface. *)
Inductive irq_step : irq_state C -> irq_state C -> Prop :=
  | step_register s nr fn arg s' r : 0 <= nr < lines -> fn <> 0 ->
      register_irq chip s nr fn arg = (s', r) -> irq_step s s'
  | step_free s nr : 0 <= nr < lines -> irq_step s (free_irq chip s nr).

Inductive irq_reach : irq_state C -> Prop :=
  | reach_init s s' : irq_init chip s = Ret (s', 0) -> table_ok s' -> irq_reach s'
  | reach_step s s' : irq_reach s -> irq_step s s' -> irq_reach s'.

Lemma irq_reach_agree s : irq_reach s -> table_ok s /\ lines_agree s.
Proof.
  induction 1 as [s s' Hi Ht|s s' _ [Ht Ha] Hs]; [eauto using irq_init_agrees|].
  destruct Hs; [by eapply register_irq_keeps|by apply free_irq_keeps].
Qed.

(** C26: in every state reached from [irq_init] by registering and freeing handlers, an
    interrupt of an open line is served: [irq_handler] calls exactly the function and
    argument registered for the line the controller reports, with [in_interrupt] set
    during the call and cleared behind it; it never calls through an empty entry. *)
Theorem irq_handler_serves s call (Hr : irq_reach s) nr
    (Hnr : get_irq_nr chip (irq_chip_st s) = nr) (Hl : 0 <= nr < lines)
    (Ho : is_open (irq_chip_st s) nr = true) :
  exists fn arg, handler s nr = (fn, arg) /\ fn <> 0 /\
    irq_handler chip call s =
    ('(s1, _) ← call fn arg (set_in_interrupt s 1);
     Ret (set_in_interrupt (set_irq_chip s1 (eoi chip (irq_chip_st s1) nr)) 0)).
Proof.
  destruct (irq_reach_agree s Hr) as [Ht Ha]. exists (handler s nr).1, (handler s nr).2.
  specialize (Ha nr Hl). rewrite Ho in Ha.
  assert (Hf : (handler s nr).1 <> 0) by (destruct (Z.eqb_spec (handler s nr).1 0); done).
  split_and!; [done..|]. unfold irq_handler, do_irq_handler, des_fn, des_arg.
  cbn [irq_chip_st set_in_interrupt]. rewrite Hnr.
  change (get_irq_description (set_in_interrupt s 1) nr) with (get_irq_description s nr).
  cbn [irq_mem set_in_interrupt].
  rewrite description_at by (done || lia). unfold table_ok in Ht.
  destruct (Z.eqb_spec (irq_table_base s + 8 * nr) 0); [lia|].
  unfold handler in Hf. simpl in Hf. destruct (Z.eqb_spec (rd (irq_mem s) (irq_table_base s + 8 * nr)) 0); [done|].
  rewrite u32_small by lia. done.
Qed.
End Lines.

(** ** The x86 controller *)

Module IrqDemo.
Definition s0 : irq_state ioapic := IrqState Demo.bank ∅ 0 (Ioapic 0 ∅) 0.
Definition s1 : irq_state ioapic := (result (s0, 0) (irq_init x86_ioapic s0)).1.
Definition s2 : irq_state ioapic := (register_irq x86_ioapic s1 0 0x80010000 7).1.

Lemma reached : irq_reach x86_ioapic 120 s2.
Proof.
  apply (reach_step _ _ s1).
  - apply (reach_init _ _ s0); [|by vm_compute].
    assert (E : (result (s0, 0) (irq_init x86_ioapic s0)).2 = 0) by (vm_compute; reflexivity).
    transitivity (Ret (result (s0, 0) (irq_init x86_ioapic s0))).
    + apply returns_result. vm_compute. reflexivity.
    + unfold s1. revert E. generalize (result (s0, 0) (irq_init x86_ioapic s0)). intros [s r] E.
      cbn [fst snd] in *. by rewrite E.
  - apply (step_register _ _ s1 0 0x80010000 7 s2 (register_irq x86_ioapic s1 0 0x80010000 7).2);
      [lia|lia|apply surjective_pairing].
Qed.
End IrqDemo.

Lemma irq_handler_serves_witness :
  exists fn arg, handler IrqDemo.s2 0 = (fn, arg) /\ fn <> 0 /\
    irq_handler x86_ioapic (fun fn arg s => Ret (s, 0)) IrqDemo.s2 =
    Ret (set_in_interrupt (set_irq_chip (set_in_interrupt IrqDemo.s2 1) (irq_chip_st IrqDemo.s2)) 0).
Proof.
  exact (irq_handler_serves x86_ioapic rte_open 120 ltac:(lia) IrqDemo.s2 (fun fn arg s => Ret (s, 0))
    IrqDemo.reached 0 eq_refl ltac:(lia) ltac:(vm_compute; reflexivity)).
Defined.

(** The I/O APIC code reports line 0 for every interrupt: the handler the timer
    registers for line 14 is not called, and with line 0 empty the call goes through a
    null pointer. *)
Lemma timer_interrupt_lost :
  let s := (register_irq x86_ioapic IrqDemo.s1 14 0x80010000 0).1 in
  handler s 14 = (0x80010000, 0) /\ rte_open (irq_chip_st s) 14 = true /\
  irq_handler x86_ioapic (fun _ _ s => Ret (s, 0)) s = Fault.
Proof. vm_compute. done. Qed.

(** The index of a register has 8 bits: the entries of the lines from 120 on wrap, and
    [x86_ioapic_init] overwrites the identification register with the mask value; lines
    128 apart share one entry. *)
Lemma ioapic_index_wraps c :
  rd (ioregs (x86_ioapic_init c)) 0 = 0x10000 /\ rte_low 3 = rte_low 131.
Proof.
  split; [|by vm_compute].
  exact (ioapic_init_regs 256 c 120 ltac:(lia) ltac:(lia)).
Qed.
