(* ===== verification/Syscall.v ===== *)
(** * System call numbers and the dispatch table (kernel/syscall.c,
    include/os/syscall.h, include/os/syscall_nr.h, the [DEFINE_SYSCALL] entries)

    The table of handlers is memory behind [syscall_table_base], a word for each
    number.  The entries come from the linker section [.__syscall]; the address of each
    handler is an argument. *)

From S2P Require Import Prelude Mmu Mm MmSpec IrqSpec.

Definition SYSCALL_NR : Z := 1024.
Definition __NR_SYSCALL_BASE : Z := 0.

(** The numbers of include/os/syscall_nr.h, relative to the base. *)
Definition syscall_numbers : list (string * Z) :=
  [("exit", 1); ("fork", 2); ("read", 3); ("write", 4); ("open", 5); ("close", 6); ("creat", 8);
   ("link", 9); ("unlink", 10); ("execve", 11); ("chdir", 12); ("time", 13); ("mknod", 14);
   ("chmod", 15); ("lchown", 16); ("lseek", 19); ("getpid", 20); ("mount", 21); ("umount", 22);
   ("setuid", 23); ("getuid", 24); ("stime", 25); ("ptrace", 26); ("alarm", 27); ("pause", 29);
   ("utime", 30); ("access", 33); ("nice", 34); ("sync", 36); ("kill", 37); ("rename", 38);
   ("mkdir", 39); ("rmdir", 40); ("dup", 41); ("pipe", 42); ("times", 43); ("brk", 45);
   ("setgid", 46); ("getgid", 47); ("signal", 48); ("geteuid", 49); ("getegid", 50); ("acct", 51);
   ("umount2", 52); ("ioctl", 54); ("fcntl", 55); ("setpgid", 57); ("umask", 60); ("chroot", 61);
   ("ustat", 62); ("dup2", 63); ("getppid", 64); ("getpgrp", 65); ("setsid", 66);
   ("sigaction", 67); ("setreuid", 70); ("setregid", 71); ("sigsuspend", 72); ("sigpending", 73);
   ("sethostname", 74); ("setrlimit", 75); ("getrlimit", 76); ("getrusage", 77);
   ("gettimeofday", 78); ("settimeofday", 79); ("getgroups", 80); ("setgroups", 81);
   ("select", 82); ("symlink", 83); ("readlink", 85); ("uselib", 86); ("swapon", 87);
   ("reboot", 88); ("readdir", 89); ("mmap", 90); ("munmap", 91); ("truncate", 92);
   ("ftruncate", 93); ("fchmod", 94); ("fchown", 95); ("getpriority", 96); ("setpriority", 97);
   ("statfs", 99); ("fstatfs", 100); ("socketcall", 102); ("syslog", 103); ("setitimer", 104);
   ("getitimer", 105); ("stat", 106); ("lstat", 107); ("fstat", 108); ("vhangup", 111);
   ("syscall", 113); ("wait4", 114); ("swapoff", 115); ("sysinfo", 116); ("ipc", 117);
   ("fsync", 118); ("sigreturn", 119); ("clone", 120); ("setdomainname", 121); ("uname", 122);
   ("adjtimex", 124); ("mprotect", 125); ("sigprocmask", 126); ("create_module", 127);
   ("init_module", 128); ("delete_module", 129); ("get_kernel_syms", 130); ("quotactl", 131);
   ("getpgid", 132); ("fchdir", 133); ("bdflush", 134); ("sysfs", 135); ("personality", 136);
   ("setfsuid", 138); ("setfsgid", 139); ("_llseek", 140); ("getdents", 141); ("_newselect", 142);
   ("flock", 143); ("msync", 144); ("readv", 145); ("writev", 146); ("getsid", 147);
   ("fdatasync", 148); ("_sysctl", 149); ("mlock", 150); ("munlock", 151); ("mlockall", 152);
   ("munlockall", 153); ("sched_setparam", 154); ("sched_getparam", 155);
   ("sched_setscheduler", 156); ("sched_getscheduler", 157); ("sched_yield", 158);
   ("sched_get_priority_max", 159); ("sched_get_priority_min", 160);
   ("sched_rr_get_interval", 161); ("nanosleep", 162); ("mremap", 163); ("setresuid", 164);
   ("getresuid", 165); ("query_module", 167); ("poll", 168); ("nfsservctl", 169);
   ("setresgid", 170); ("getresgid", 171); ("prctl", 172); ("rt_sigreturn", 173);
   ("rt_sigaction", 174); ("rt_sigprocmask", 175); ("rt_sigpending", 176);
   ("rt_sigtimedwait", 177); ("rt_sigqueueinfo", 178); ("rt_sigsuspend", 179); ("pread", 180);
   ("pwrite", 181); ("chown", 182); ("getcwd", 183); ("capget", 184); ("capset", 185);
   ("sigaltstack", 186); ("sendfile", 187); ("vfork", 190); ("ugetrlimit", 191); ("mmap2", 192);
   ("truncate64", 193); ("ftruncate64", 194); ("stat64", 195); ("lstat64", 196); ("fstat64", 197);
   ("lchown32", 198); ("getuid32", 199); ("getgid32", 200); ("geteuid32", 201); ("getegid32", 202);
   ("setreuid32", 203); ("setregid32", 204); ("getgroups32", 205); ("setgroups32", 206);
   ("fchown32", 207); ("setresuid32", 208); ("getresuid32", 209); ("setresgid32", 210);
   ("getresgid32", 211); ("chown32", 212); ("setuid32", 213); ("setgid32", 214);
   ("setfsuid32", 215); ("setfsgid32", 216); ("getdents64", 217); ("pivot_root", 218);
   ("mincore", 219); ("madvise", 220); ("fcntl64", 221); ("gettid", 224); ("readahead", 225);
   ("setxattr", 226); ("lsetxattr", 227); ("fsetxattr", 228); ("getxattr", 229);
   ("lgetxattr", 230); ("fgetxattr", 231); ("listxattr", 232); ("llistxattr", 233);
   ("flistxattr", 234); ("removexattr", 235); ("lremovexattr", 236); ("fremovexattr", 237);
   ("tkill", 238); ("sendfile64", 239); ("futex", 240); ("sched_setaffinity", 241);
   ("sched_getaffinity", 242); ("io_setup", 243); ("io_destroy", 244); ("io_getevents", 245);
   ("io_submit", 246); ("io_cancel", 247); ("exit_group", 248); ("lookup_dcookie", 249);
   ("epoll_create", 250); ("epoll_ctl", 251); ("epoll_wait", 252); ("remap_file_pages", 253);
   ("set_tid_address", 256); ("timer_create", 257); ("timer_settime", 258); ("timer_gettime", 259);
   ("timer_getoverrun", 260); ("timer_delete", 261); ("clock_settime", 262);
   ("clock_gettime", 263); ("clock_getres", 264); ("clock_nanosleep", 265); ("statfs64", 266);
   ("fstatfs64", 267); ("tgkill", 268); ("utimes", 269); ("fadvise64", 270);
   ("pciconfig_iobase", 271); ("pciconfig_read", 272); ("pciconfig_write", 273); ("mq_open", 274);
   ("mq_unlink", 275); ("mq_timedsend", 276); ("mq_timedreceive", 277); ("mq_notify", 278);
   ("mq_getsetattr", 279); ("waitid", 280); ("debug", 281)]%string.

Definition nr_of (name : string) : option Z :=
  (fun e => __NR_SYSCALL_BASE + e.2.2) <$> list_find (fun e => e.1 = name) syscall_numbers.

(** The functions the entries of the x86 build name. *)
Inductive sys_fn := sys_open | sys_fork | sys_seek | sys_mmap | sys_munmap | sys_ioctl | sys_stat
  | sys_fstat | sys_getcwd | sys_close | sys_uname | sys_getuid | sys_getdents | sys_read
  | sys_signal | sigaction | sys_sigreturn | sys_kill | sys_write | sys_exit | sys_geteuid
  | sys_getpid | sys_chdir.
#[export] Instance sys_fn_eq : EqDecision sys_fn.
Proof. solve_decision. Defined.

(** [DEFINE_SYSCALL (name, number, function)]. *)
Definition syscall_entries : list (string * sys_fn) :=
  [("open", sys_open); ("fork", sys_fork); ("lseek", sys_seek); ("mmap", sys_mmap);
   ("mmap2", sys_mmap); ("munmap", sys_munmap); ("ioctl", sys_ioctl); ("stat", sys_stat);
   ("lstat", sys_stat); ("fstat", sys_fstat); ("getcwd", sys_getcwd); ("close", sys_close);
   ("uname", sys_uname); ("getuid", sys_getuid); ("getdents", sys_getdents);
   ("getdents64", sys_getdents); ("read", sys_read); ("signal", sys_signal);
   ("sigaction", sigaction); ("rt_sigaction", sigaction); ("sigreturn", sys_sigreturn);
   ("kill", sys_kill); ("write", sys_write); ("exit", sys_exit); ("geteuid", sys_geteuid);
   ("getpid", sys_getpid); ("chdir", sys_chdir)]%string.

(** ** The table *)

Record sys_state := SysState { sys_mm : mm_bank; sys_mem : gmap Z Z; syscall_table_base : Z }.
Implicit Types s : sys_state.

(** The number is a signed [int] and only its upper bound is tested. *)
Definition get_syscall_handler s (nr : Z) : Z :=
  if SYSCALL_NR - 1 <? nr then 0 else rd (sys_mem s) (u32 (syscall_table_base s + 4 * nr)).

Definition install_syscall s (nr addr : Z) : sys_state * Z :=
  let real_nr := nr - __NR_SYSCALL_BASE in
  if (SYSCALL_NR - 1 <? real_nr) || (real_nr <? 0) || (addr =? 0) then (s, - EINVAL)
  else
    let tmp := u32 (syscall_table_base s + 4 * real_nr) in
    if rd (sys_mem s) tmp =? 0
    then (SysState (sys_mm s) (wr (sys_mem s) tmp addr) (syscall_table_base s), 0)
    else (s, - EINVAL).

(** The loop over the section; a refused entry is only reported. *)
Fixpoint install_all s (table : list (Z * Z)) : sys_state :=
  match table with
  | [] => s
  | (nr, addr) :: table => install_all (install_syscall s nr addr).1 table
  end.

Definition syscall_init s (table : list (Z * Z)) : outcome (sys_state * Z) :=
  let pages := page_nr (SYSCALL_NR * 4) in
  '(mm, base) ← get_free_pages (sys_mm s) pages GFP_KERNEL;
  if base =? 0 then Panic
  else
    let m := memset0 (sys_mem s) base (Z.shiftl pages PAGE_SHIFT) in
    Ret (install_all (SysState mm m base) table, 0).

Definition default_syscall_handler (num : Z) : Z := 0.

(** The section of the x86 build, with the addresses of the functions. *)
Definition syscall_table (addr : sys_fn -> Z) : list (Z * Z) :=
  (fun e => (default (-1) (nr_of e.1), addr e.2)) <$> syscall_entries.

(** ** Correctness *)

Lemma Ret_pair {A B} (a a' : A) (b b' : B) : Ret (a, b) = Ret (a', b') -> a = a' /\ b = b'.
Proof. by intros [= -> ->]. Qed.

Definition entry_at s (nr : Z) : Z := rd (sys_mem s) (syscall_table_base s + 4 * nr).
Definition sys_table_ok s : Prop := 0 < syscall_table_base s <= 4294967296 - 4096.

Lemma install_syscall_ok s nr addr : sys_table_ok s -> 0 <= nr < 1024 -> addr <> 0 -> entry_at s nr = 0 ->
  exists s', install_syscall s nr addr = (s', 0) /\ syscall_table_base s' = syscall_table_base s /\
    forall k, entry_at s' k = if decide (k = nr) then addr else entry_at s k.
Proof.
  unfold install_syscall, entry_at, sys_table_ok, SYSCALL_NR, __NR_SYSCALL_BASE. intros Ht Hn Ha He.
  rewrite Z.sub_0_r.
  destruct (Z.ltb_spec (1024 - 1) nr), (Z.ltb_spec nr 0), (Z.eqb_spec addr 0); try lia. cbn [orb].
  rewrite u32_small by lia. rewrite He. cbn [Z.eqb].
  eexists. split; [done|]. split; [done|]. intros k. cbn [sys_mem syscall_table_base].
  rewrite rd_wr. repeat case_decide; subst; try lia; done.
Qed.

Lemma install_all_base table s : syscall_table_base (install_all s table) = syscall_table_base s.
Proof.
  revert s. induction table as [|[nr addr] table IH]; intros s; simpl; [done|].
  rewrite IH. unfold install_syscall. cbv zeta. by repeat case_match.
Qed.

Lemma install_all_spec table : forall s,
  sys_table_ok s -> Forall (fun e => 0 <= e.1 < 1024 /\ e.2 <> 0) table -> NoDup (table.*1) ->
  Forall (fun e => entry_at s e.1 = 0) table ->
  let s' := install_all s table in
  syscall_table_base s' = syscall_table_base s /\
  Forall (fun e => entry_at s' e.1 = e.2) table /\
  (forall k, k ∉ table.*1 -> entry_at s' k = entry_at s k).
Proof.
  induction table as [|[nr addr] table IH]; intros s Ht Hr Hnd Hz; simpl.
  { split_and!; [done|by apply Forall_nil_2|done]. }
  apply Forall_cons in Hr as [[Hn Ha] Hr]. apply Forall_cons in Hz as [Hz0 Hz].
  rewrite fmap_cons in Hnd. apply NoDup_cons in Hnd as [Hni Hnd]. simpl in *.
  destruct (install_syscall_ok s nr addr Ht Hn Ha Hz0) as (s1 & E & Hb & Hs). rewrite E. cbn [fst].
  assert (Hkeep : forall e, e ∈ table -> entry_at s1 e.1 = entry_at s e.1).
  { intros e Hin. rewrite Hs. case_decide as Hd; [|done].
    destruct Hni. rewrite <- Hd. by apply list_elem_of_fmap_2. }
  destruct (IH s1) as (Hb' & Hin & Hout); [unfold sys_table_ok; by rewrite Hb|done|done| |].
  { rewrite Forall_forall in *. intros e Hin. rewrite Hkeep by done. by apply Hz. }
  split_and!; [by rewrite Hb'| |].
  - apply Forall_cons. split; [|done]. simpl. rewrite Hout by done. rewrite Hs. by case_decide.
  - intros k Hk. apply not_elem_of_cons in Hk as [Hne Hk].
    rewrite Hout by done. rewrite Hs. by case_decide.
Qed.

Lemma get_syscall_handler_in s nr : sys_table_ok s -> 0 <= nr < 1024 ->
  get_syscall_handler s nr = entry_at s nr.
Proof.
  unfold get_syscall_handler, entry_at, sys_table_ok, SYSCALL_NR. intros.
  destruct (Z.ltb_spec (1024 - 1) nr); [lia|]. by rewrite u32_small by lia.
Qed.

Lemma syscall_table_nrs addr : (syscall_table addr).*1 = (fun e => default (-1) (nr_of e.1)) <$> syscall_entries.
Proof. unfold syscall_table. by rewrite <- list_fmap_compose. Qed.

Lemma syscall_nrs_NoDup : NoDup ((fun e => default (-1) (nr_of e.1)) <$> syscall_entries).
Proof. apply (bool_decide_unpack _). by vm_compute. Qed.

Lemma syscall_nrs_range : Forall (fun n => 0 <= n < 1024) ((fun e => default (-1) (nr_of e.1)) <$> syscall_entries).
Proof. apply (bool_decide_unpack _). by vm_compute. Qed.

(** The numbers of the header are distinct and fit the table. *)
Lemma syscall_numbers_distinct :
  NoDup (syscall_numbers.*1) /\ NoDup (syscall_numbers.*2) /\
  Forall (fun e => 0 <= e.2 < SYSCALL_NR) syscall_numbers.
Proof. split_and!; apply (bool_decide_unpack _); by vm_compute. Qed.

(** C27: when [syscall_init] returns, the number of every system call the sources define
    reaches exactly its function, and every other number from 0 on has no handler: no
    entry of the section is refused and none hides another. *)
Theorem syscall_init_dispatch s addr s' r (Haddr : forall f, addr f <> 0)
    (H : syscall_init s (syscall_table addr) = Ret (s', r)) (Ht : sys_table_ok s') :
  r = 0 /\
  (forall name f, (name, f) ∈ syscall_entries -> exists nr, nr_of name = Some nr /\ get_syscall_handler s' nr = addr f) /\
  (forall nr, 0 <= nr -> nr ∉ (fun e => default (-1) (nr_of e.1)) <$> syscall_entries -> get_syscall_handler s' nr = 0).
Proof.
  unfold syscall_init in H. change (page_nr (SYSCALL_NR * 4)) with 1 in H.
  destruct (get_free_pages _ _ _) as [[mm base]| | |]; try done. rewrite Ret_bind in H.
  destruct (Z.eqb_spec base 0); [done|]. apply Ret_pair in H as [H <-].
  set (s1 := SysState _ _ _) in H.
  assert (Hz : forall k, 0 <= k < 1024 -> entry_at s1 k = 0).
  { intros k Hk. unfold entry_at, s1. cbn [sys_mem syscall_table_base].
    apply memset0_zero; change (Z.to_nat (Z.shiftl 1 PAGE_SHIFT / 4)) with (Z.to_nat 1024); [lia|].
    replace (base + 4 * k - base) with (k * 4) by lia. apply Z.mod_mul. lia. }
  assert (Ht1 : sys_table_ok s1).
  { unfold sys_table_ok. rewrite <- (install_all_base (syscall_table addr)), H. exact Ht. }
  assert (Hrange : Forall (fun e => 0 <= e.1 < 1024 /\ e.2 <> 0) (syscall_table addr)).
  { rewrite Forall_forall. intros e He. split.
    - pose proof syscall_nrs_range as Hr. rewrite Forall_forall in Hr. apply Hr.
      rewrite <- (syscall_table_nrs addr). by apply list_elem_of_fmap_2.
    - apply list_elem_of_fmap in He as (e' & -> & _). apply Haddr. }
  destruct (install_all_spec (syscall_table addr) s1) as (_ & Hin & Hout); [done|done| | |].
  { rewrite syscall_table_nrs. exact syscall_nrs_NoDup. }
  { rewrite Forall_forall in *. intros e He. apply Hz. by apply Hrange. }
  rewrite H in Hin, Hout. clear H. rewrite Forall_forall in Hin, Hrange. split_and!; [done| |].
  - intros name f He.
    assert (Hi : (default (-1) (nr_of name), addr f) ∈ syscall_table addr).
    { unfold syscall_table. apply list_elem_of_fmap. by exists (name, f). }
    destruct (Hrange _ Hi) as [Hr _]. specialize (Hin _ Hi). cbn [fst snd] in *.
    destruct (nr_of name) as [nr|]; cbn [default] in *; [|lia].
    exists nr. split; [done|]. by rewrite get_syscall_handler_in.
  - intros nr Hn Hni. rewrite <- (syscall_table_nrs addr) in Hni.
    destruct (decide (nr < 1024)) as [Hl|Hl].
    + rewrite get_syscall_handler_in by done. rewrite Hout by done. by apply Hz.
    + unfold get_syscall_handler, SYSCALL_NR. destruct (Z.ltb_spec (1024 - 1) nr); [done|lia].
Qed.

Module SysDemo.
Definition s0 : sys_state := SysState Demo.bank ∅ 0.
Definition addr (f : sys_fn) : Z := 0x80020000.
Definition s1 : sys_state := (result (s0, 0) (syscall_init s0 (syscall_table addr))).1.
Lemma init : syscall_init s0 (syscall_table addr) = Ret (s1, (result (s0, 0) (syscall_init s0 (syscall_table addr))).2).
Proof. unfold s1. rewrite <- surjective_pairing. apply returns_result. vm_compute. reflexivity. Qed.
Lemma addr_ok f : addr f <> 0.
Proof. done. Qed.
End SysDemo.

Lemma syscall_init_dispatch_witness : get_syscall_handler SysDemo.s1 1022 = 0.
Proof.
  apply (syscall_init_dispatch SysDemo.s0 SysDemo.addr SysDemo.s1 _ SysDemo.addr_ok SysDemo.init);
    [vm_compute; split; [reflexivity|discriminate]|lia|].
  apply (bool_decide_unpack _). vm_compute. exact I.
Defined.

(** A negative number passes the test of [get_syscall_handler]: the handler is then a
    word of the memory in front of the table. *)
Lemma get_syscall_handler_negative s nr : sys_table_ok s -> -1024 <= nr < 0 -> 4096 <= syscall_table_base s ->
  get_syscall_handler s nr = rd (sys_mem s) (syscall_table_base s + 4 * nr).
Proof.
  unfold get_syscall_handler, sys_table_ok, SYSCALL_NR. intros.
  destruct (Z.ltb_spec (1024 - 1) nr); [lia|]. by rewrite u32_small by lia.
Qed.
