(* ===== verification/Trap.v ===== *)
(** * Traps, system calls and task switches on x86
    (arch/x86/kernel/trap_s.S, cpu_s.S, isr.S, cpu.c)

    The assembly is translated instruction by instruction on a machine state: the
    registers, the words of the kernel stacks, the two variables [current] and
    [next_run], the part of the task structures the code reads (its first member,
    [stack_base], among them), the task state segment and [cr3].  The stacks are word
    aligned and apart from the variables.  A C function the assembly calls is a function
    on the machine state. *)

From S2P Require Import Prelude X86.

Inductive reg := EAX | ECX | EDX | EBX | ESP | EBP | ESI | EDI | EIP | EFLAGS
  | CS | SS | DS | ES | FS | GS.
#[export] Instance reg_eq : EqDecision reg.
Proof. solve_decision. Defined.

Record task_ctx := TaskCtx { stack_base : Z; flag : Z; pde_base_pa : Z }.

Record machine := Machine {
  regs : reg -> Z;
  mem : gmap Z Z;
  tasks : gmap Z task_ctx;
  current : Z;
  next_run : Z;
  tss : gmap Z Z;
  cr3 : Z }.
Implicit Types s : machine.

(** ** Instructions *)

Definition set_reg s (r : reg) (v : Z) : machine :=
  Machine (fun r' => if decide (r' = r) then v else regs s r') (mem s) (tasks s) (current s) (next_run s)
    (tss s) (cr3 s).
Definition set_word s (a v : Z) : machine :=
  Machine (regs s) (wr (mem s) a v) (tasks s) (current s) (next_run s) (tss s) (cr3 s).
Definition word s (a : Z) : Z := rd (mem s) a.

(** [add $n, %esp]. *)
Definition add_esp s (n : Z) : machine := set_reg s ESP (u32 (regs s ESP + n)).
Definition push s (v : Z) : machine :=
  let s := add_esp s (-4) in set_word s (regs s ESP) v.
Definition pushes s (vs : list Z) : machine := foldl push s vs.
Definition pop s (r : reg) : machine :=
  let v := word s (regs s ESP) in set_reg (add_esp s 4) r v.
(** A selector is 16 bits of the popped word. *)
Definition pop_seg s (r : reg) : machine :=
  let v := word s (regs s ESP) in set_reg (add_esp s 4) r (u16 v).

Definition pusha s : machine :=
  pushes s [regs s EAX; regs s ECX; regs s EDX; regs s EBX; regs s ESP; regs s EBP; regs s ESI; regs s EDI].
Definition popa s : machine :=
  let s := pop (pop (pop s EDI) ESI) EBP in
  let s := add_esp s 4 in
  pop (pop (pop (pop s EBX) EDX) ECX) EAX.

Definition IF : Z := 0x200.
Definition cli s : machine := set_reg s EFLAGS (Z.land (regs s EFLAGS) (lnot32 IF)).
Definition sti s : machine := set_reg s EFLAGS (Z.lor (regs s EFLAGS) IF).

Definition user_mode (cs : Z) : bool := negb (Z.land cs 0x3 =? 0).

(** Return from an interrupt: to user mode the stack of that mode is loaded as well. *)
Definition iret s : machine :=
  let s := pop_seg (pop s EIP) CS in
  let s := pop s EFLAGS in
  if user_mode (regs s CS) then
    let esp := word s (regs s ESP) in
    let ss := word s (u32 (regs s ESP + 4)) in
    set_reg (set_reg s SS (u16 ss)) ESP esp
  else s.

(** What the processor does when it takes an interrupt or exception: from user mode it
    changes to the stack of the task state segment; it saves where it was, and the error
    code of the exceptions that have one. *)
Definition deliver s (err : option Z) : machine :=
  let c := regs s in
  let s := if user_mode (c CS) then
      let s := set_reg s ESP (rd (tss s) Tss.esp0) in
      let s := set_reg s SS (u16 (rd (tss s) Tss.ss0)) in
      pushes s [c SS; c ESP]
    else s in
  let s := pushes s [c EFLAGS; c CS; c EIP] in
  let s := match err with Some e => push s e | None => s end in
  set_reg s CS KERNEL_CS.

(** The exceptions that push an error code. *)
Definition has_error_code (v : Z) : bool := (v =? 8) || ((10 <=? v) && (v <=? 14)) || (v =? 17).

(** ** Task switch in C (cpu.c) *)

Definition PROCESS_TYPE_USER : Z := 2.
Definition task_is_user (t : task_ctx) : bool := negb (Z.land (flag t) PROCESS_TYPE_USER =? 0).

(** [x86_switch_page_table] loads its argument into [cr3]. *)
Definition x86_switch_page_table s (base : Z) : machine :=
  Machine (regs s) (mem s) (tasks s) (current s) (next_run s) (tss s) base.
Definition set_tss s (t : gmap Z Z) : machine :=
  Machine (regs s) (mem s) (tasks s) (current s) (next_run s) t (cr3 s).

Definition x86_switch_task s (cur next : Z) : outcome machine :=
  if cur =? next then Ret s
  else
    t ← defined (tasks s !! next);
    if task_is_user t
    then Ret (x86_switch_page_table (set_tss s (x86_setup_tss (tss s) (stack_base t))) (pde_base_pa t))
    else Ret s.

(** ** The common part of the stubs (trap_s.S) *)

Section Stubs.
(** The return addresses the calls push. *)
Context (ra : Z).

(** [call f]. *)
Definition call s (f : machine -> outcome machine) : outcome machine :=
  s ← f (push s ra);
  Ret (add_esp s 4).

Definition store_stack_base s (t : Z) : outcome machine :=
  c ← defined (tasks s !! t);
  Ret (Machine (regs s) (mem s) (<[t := TaskCtx (regs s ESP) (flag c) (pde_base_pa c)]> (tasks s))
         (current s) (next_run s) (tss s) (cr3 s)).
Definition set_current s (t : Z) : machine :=
  Machine (regs s) (mem s) (tasks s) t (next_run s) (tss s) (cr3 s).

(** The arguments of a C function, behind the return address. *)
Definition arg s (i : Z) : Z := word s (u32 (regs s ESP + 4 + 4 * i)).

(** From the store of the stack pointer of [current] to the stack of [next_run]; [adj] is
    the register the two arguments are dropped from behind the call. *)
Definition switch_stacks (adj : reg) s : outcome machine :=
  let s := set_reg (set_reg s EAX (current s)) EBX (next_run s) in
  s ← store_stack_base s (regs s EAX);
  let s := pushes s [regs s EBX; regs s EAX] in
  s ← call s (fun s => x86_switch_task s (arg s 0) (arg s 1));
  let s := set_reg s adj (u32 (regs s adj + 8)) in
  let s := set_reg (set_reg s EAX (current s)) EBX (next_run s) in
  let s := set_current s (regs s EBX) in
  t ← defined (tasks s !! regs s EBX);
  Ret (set_reg s ESP (stack_base t)).

(** The pops behind it. *)
Definition restore s : machine :=
  let s := pop_seg (pop_seg (pop_seg (pop_seg s GS) FS) DS) ES in
  popa (add_esp s 8).

(** [ISR_COMMON_HANDLER] up to the call of the handler: the rest of the frame, and the
    arguments: the error code and the address of the frame. *)
Definition isr_enter s : machine :=
  let s := set_reg s EAX (word s (u32 (regs s ESP + 32))) in
  let s := set_reg s EBX (u32 (regs s ESP - 24)) in
  let s := set_reg s EDX (Z.land (word s (u32 (regs s ESP + 40))) 0x3) in
  let s := if regs s EDX =? 0 then
      pushes s [0; KERNEL_SS; KERNEL_ES; KERNEL_DS; KERNEL_FS; KERNEL_GS]
    else
      let s := add_esp s (-4) in
      let s := set_reg s EDX (word s (u32 (regs s ESP + 52))) in
      let s := set_word s (regs s ESP) (regs s EDX) in
      pushes s [USER_SS; USER_ES; USER_DS; USER_FS; USER_GS] in
  pushes s [regs s EAX; regs s EBX].

Definition isr_common_handler s (handler : machine -> outcome machine) : outcome machine :=
  let s := isr_enter s in
  s ← call s handler;
  let s := add_esp s 8 in
  s ← switch_stacks ESP s;
  Ret (restore s).

Definition isr_common_stub_nec s (handler : machine -> outcome machine) : outcome machine :=
  s ← isr_common_handler s handler;
  Ret (iret (add_esp s 4)).
Definition isr_common_stub_ec s (handler : machine -> outcome machine) : outcome machine :=
  s ← isr_common_handler s handler;
  Ret (iret s).

(** ** The handlers *)

(** Each of the exception handlers of trap.c stops the kernel. *)
Definition x86_trap_handler s : outcome machine := Panic.

(** isr.S: a jump to itself. *)
Definition x86_int_handler s : outcome machine := NoFuel.

(** [get_syscall_handler] on a number, and the call of the function at an address; the
    function finds its arguments on the stack and leaves its result in [eax]. *)
Context (get_handler : Z -> Z) (sys_call : Z -> machine -> outcome machine).

Definition x86_trap_syscall_handler s : outcome machine :=
  let s := pushes s [regs s EBX; regs s EAX] in
  s ← call s (fun s => Ret (set_reg s EAX (get_handler (s32 (arg s 0)))));
  let s := add_esp s 4 in
  let s := pop s EBX in
  s ← (if regs s EAX =? 0 then Ret (set_reg s EAX (u32 (-22)))
       else
         let frame := regs s EBX in
         let s := pushes s [frame; word s (u32 (frame + 24)); word s (u32 (frame + 32));
           word s (u32 (frame + 28)); word s (u32 (frame + 44)); word s (u32 (frame + 48));
           word s (u32 (frame + 40))] in
         let s := sti s in
         s ← call s (sys_call (regs s EAX));
         let s := cli s in
         let s := add_esp s 24 in
         Ret (pop s EBX));
  Ret (set_word s (u32 (regs s EBX + 52)) (regs s EAX)).

(** Which exceptions the stubs expect an error code of. *)
Definition trap_errcode (n : trap_no) : bool :=
  match n with
  | X86_TRAP_DF | X86_TRAP_TS | X86_TRAP_NP | X86_TRAP_SS | X86_TRAP_GP | X86_TRAP_PF => true
  | _ => false
  end.

(** The entry points. *)
Definition isr_stub (h : isr) s : outcome machine :=
  let s := cli s in
  match h with
  | x86_trap n =>
    if trap_errcode n then isr_common_stub_ec (pusha s) x86_trap_handler
    else isr_common_stub_nec (pusha (push s 0)) x86_trap_handler
  | x86_irq n => isr_common_stub_nec (pusha (push s (word s (n + 32)))) x86_int_handler
  | x86_trap_undef => isr_common_stub_nec (pusha s) x86_trap_handler
  | x86_irq_syscall => isr_common_stub_nec (pusha (push s (regs s EAX))) x86_trap_syscall_handler
  end.

(** [get_pt_regs]: the frame of the running system call, from the frame pointer of the C
    function that calls it. *)
Definition get_pt_regs s : Z := word s (u32 (regs s EBP + 32)).

(** ** The switch from C, [arch_switch_task_sw] (cpu_s.S) *)

(** The return address goes to where [eip] will be in the frame. *)
Definition sw_return_address s : machine :=
  let s := push s (regs s EAX) in
  let s := add_esp s 4 in
  let s := pop s EAX in
  let s := set_word s (u32 (regs s ESP - 12)) (regs s EAX) in
  set_reg s EAX (word s (u32 (regs s ESP - 8))).

(** A frame that returns to the caller. *)
Definition sw_save s : machine :=
  let s := sw_return_address s in
  let s := pushes s [regs s EFLAGS; regs s CS] in
  let s := add_esp s (-4) in
  let s := push s 0 in
  let s := pusha s in
  pushes s [0; regs s SS; regs s ES; regs s DS; regs s FS; regs s GS].

Definition arch_switch_task_sw s : outcome machine :=
  s ← switch_stacks ESI (sw_save s);
  let s := restore s in
  Ret (iret (add_esp s 4)).
End Stubs.

(** ** Critical sections (cpu_s.S) *)

(** The flags are saved through the pointer, then interrupts are switched off; they come
    back on if they were on. *)
Definition arch_enter_critical s (val : Z) : machine := cli (set_word s val (regs s EFLAGS)).
Definition arch_exit_critical s (val : Z) : machine :=
  if Z.land (word s val) 0x200 =? 0x200 then sti s else s.

(** ** The first frame of a task (cpu.c, include/asm/asm_sched.h) *)

Record pt_regs := PtRegs {
  r_gs : Z; r_fs : Z; r_ds : Z; r_es : Z; r_ss : Z; r_esp_cr3 : Z;
  r_edi : Z; r_esi : Z; r_ebp : Z; r_esp_cr0 : Z; r_ebx : Z; r_edx : Z; r_ecx : Z; r_eax : Z;
  r_error_code : Z; r_eip : Z; r_cs : Z; r_eflags : Z }.

Definition PROCESS_USER_STACK_BASE : Z := 0x80000000.
Definition PROCESS_USER_META_BASE : Z := 0x400000.
Definition PROCESS_USER_EXEC_BASE : Z := 0x404000.

Definition arch_init_pt_regs (fn arg : Z) : pt_regs :=
  if negb (fn =? 0) then
    PtRegs KERNEL_GS KERNEL_FS KERNEL_DS KERNEL_ES KERNEL_SS 0
      0 0 0 0x0 0x0 0x0 0x0 arg
      0 fn KERNEL_CS 0x200
  else
    PtRegs USER_GS USER_FS USER_DS USER_ES USER_SS PROCESS_USER_STACK_BASE
      0 0 0 0x0 PROCESS_USER_META_BASE 0x0 0x0 arg
      0 PROCESS_USER_EXEC_BASE USER_CS 0x200.

Definition arch_set_up_task_return_value (value : Z) (r : pt_regs) : pt_regs :=
  PtRegs (r_gs r) (r_fs r) (r_ds r) (r_es r) (r_ss r) (r_esp_cr3 r) (r_edi r) (r_esi r) (r_ebp r)
    (r_esp_cr0 r) (r_ebx r) (r_edx r) (r_ecx r) (u32 value) (r_error_code r) (r_eip r) (r_cs r) (r_eflags r).

(** The stores [*(--stack_base) = v]. *)
Definition store_down (p : gmap Z Z * Z) (v : Z) : gmap Z Z * Z :=
  let a := u32 (p.2 - 4) in (wr p.1 a v, a).

Definition arch_set_up_task_stack (m : gmap Z Z) (stack_base : Z) (r : pt_regs) : gmap Z Z * Z :=
  foldl store_down (m, stack_base)
    [r_ss r; r_esp_cr3 r; r_eflags r; r_cs r; r_eip r; r_error_code r; r_eax r; r_ecx r; r_edx r;
     r_ebx r; r_esp_cr0 r; r_ebp r; r_esi r; r_esi r; r_esp_cr3 r; r_ss r; r_es r; r_ds r; r_fs r;
     r_gs r].
