(* ===== verification/TrapSpec.v ===== *)
(** * Traps and task switches keep every register

    [frame_at m sp c]: the words from [sp] on are a frame the exit path turns into the
    registers [c].  Entering a stub builds such a frame for the interrupted code, a switch
    leaves it in the task's [stack_base], and the exit path of any stub, or of
    [arch_switch_task_sw], resumes it. *)

From S2P Require Import Prelude X86 Trap.

Implicit Types s : machine.
Implicit Types m : gmap Z Z.

(** ** Reads of a state just changed *)

Lemma regs_set_reg s r v r' : regs (set_reg s r v) r' = if decide (r' = r) then v else regs s r'.
Proof. done. Qed.
Lemma regs_set_eq s r v : regs (set_reg s r v) r = v.
Proof. simpl. by rewrite decide_True. Qed.
Lemma regs_set_ne s r v r' : r' <> r -> regs (set_reg s r v) r' = regs s r'.
Proof. intros. simpl. by rewrite decide_False. Qed.

(** Consecutive pushes, on the memory alone. *)
Fixpoint push_words m (sp : Z) (vs : list Z) : gmap Z Z :=
  match vs with
  | [] => m
  | v :: vs => push_words (wr m (sp - 4) v) (sp - 4) vs
  end.

Lemma push_words_app m sp vs ws :
  push_words m sp (vs ++ ws) = push_words (push_words m sp vs) (sp - 4 * Z.of_nat (length vs)) ws.
Proof.
  revert m sp. induction vs as [|v vs IH]; intros m sp; simpl length; simpl app; simpl push_words.
  - f_equal. lia.
  - rewrite IH. f_equal. lia.
Qed.

Lemma push_words_below m sp vs a : a < sp - 4 * Z.of_nat (length vs) \/ sp <= a ->
  rd (push_words m sp vs) a = rd m a.
Proof.
  revert m sp. induction vs as [|v vs IH]; intros m sp; simpl; intros Ha; [done|].
  rewrite IH by lia. rewrite rd_wr_ne by lia. done.
Qed.

Lemma push_words_at m sp vs i v : vs !! i = Some v ->
  rd (push_words m sp vs) (sp - 4 * (Z.of_nat i + 1)) = v.
Proof.
  revert m sp i. induction vs as [|w vs IH]; intros m sp i; [done|]. destruct i as [|i]; simpl.
  - intros [= ->]. rewrite push_words_below by lia.
    replace (sp - 4 * (0 + 1)) with (sp - 4) by lia. apply rd_wr_eq.
  - intros Hi. replace (sp - 4 * (Z.of_nat (S i) + 1)) with (sp - 4 - 4 * (Z.of_nat i + 1)) by lia. by apply IH.
Qed.

Record same_tasks s s' : Prop := SameTasks {
  same_ctx : tasks s' = tasks s;
  same_current : current s' = current s;
  same_next : next_run s' = next_run s;
  same_tss : tss s' = tss s;
  same_cr3 : cr3 s' = cr3 s }.

Lemma same_tasks_trans s1 s2 s3 : same_tasks s1 s2 -> same_tasks s2 s3 -> same_tasks s1 s3.
Proof. intros [????] [????]. split; congruence. Qed.

Lemma pushes_spec s vs : 4 * Z.of_nat (length vs) <= regs s ESP < 4294967296 ->
  regs (pushes s vs) ESP = regs s ESP - 4 * Z.of_nat (length vs) /\
  mem (pushes s vs) = push_words (mem s) (regs s ESP) vs /\
  (forall r, r <> ESP -> regs (pushes s vs) r = regs s r) /\
  same_tasks s (pushes s vs).
Proof.
  revert s. induction vs as [|v vs IH]; intros s Hb; simpl length in *.
  - simpl. split_and!; [lia|done|done|done].
  - change (pushes s (v :: vs)) with (pushes (push s v) vs).
    assert (Hesp : regs (push s v) ESP = regs s ESP - 4).
    { unfold push, add_esp. simpl. rewrite u32_small by lia. lia. }
    destruct (IH (push s v)) as (He & Hm & Hr & Ht); [rewrite Hesp; lia|]. rewrite Hesp in *.
    split_and!.
    + rewrite He. lia.
    + rewrite Hm. simpl. f_equal. f_equal. rewrite u32_small by lia. lia.
    + intros r Hne. rewrite Hr by done. unfold push, add_esp. simpl. by rewrite decide_False.
    + eapply same_tasks_trans; [|exact Ht]. done.
Qed.

(** ** Frames *)

Definition frame_at m (sp : Z) (c : reg -> Z) : Prop :=
  u16 (rd m sp) = c GS /\ u16 (rd m (sp + 4)) = c FS /\ u16 (rd m (sp + 8)) = c DS /\
  u16 (rd m (sp + 12)) = c ES /\
  rd m (sp + 24) = c EDI /\ rd m (sp + 28) = c ESI /\ rd m (sp + 32) = c EBP /\
  rd m (sp + 40) = c EBX /\ rd m (sp + 44) = c EDX /\ rd m (sp + 48) = c ECX /\ rd m (sp + 52) = c EAX /\
  rd m (sp + 60) = c EIP /\ u16 (rd m (sp + 64)) = c CS /\ rd m (sp + 68) = c EFLAGS /\
  if user_mode (c CS) then rd m (sp + 72) = c ESP /\ u16 (rd m (sp + 76)) = c SS
  else c ESP = sp + 72 /\ c SS = KERNEL_SS.

(** Words of the frame of [c]. *)
Definition frame_size (c : reg -> Z) : Z := if user_mode (c CS) then 80 else 72.

Lemma frame_at_keep m m' sp c : frame_at m sp c ->
  (forall a, sp <= a < sp + frame_size c -> rd m' a = rd m a) -> frame_at m' sp c.
Proof.
  unfold frame_at, frame_size. intros Hf Hk. destruct (user_mode (c CS)); rewrite !Hk by lia; exact Hf.
Qed.

(** Registers of a state written with [set_reg]. *)
Ltac read_regs := repeat first [rewrite regs_set_eq | rewrite regs_set_ne by discriminate].

Lemma add_esp_eq s a n : regs s ESP = a -> 0 <= a + n < 4294967296 ->
  add_esp s n = set_reg s ESP (a + n).
Proof. intros <- H. unfold add_esp. by rewrite u32_small. Qed.

Lemma pop_eq s r a : regs s ESP = a -> 0 <= a < 4294967296 - 4 ->
  pop s r = set_reg (set_reg s ESP (a + 4)) r (rd (mem s) a).
Proof. intros H Ha. unfold pop, word. rewrite (add_esp_eq s a) by (done || lia). by rewrite H. Qed.

Lemma pop_seg_eq s r a : regs s ESP = a -> 0 <= a < 4294967296 - 4 ->
  pop_seg s r = set_reg (set_reg s ESP (a + 4)) r (u16 (rd (mem s) a)).
Proof. intros H Ha. unfold pop_seg, word. rewrite (add_esp_eq s a) by (done || lia). by rewrite H. Qed.

Lemma mem_set_reg s r v : mem (set_reg s r v) = mem s.
Proof. done. Qed.

(** Runs the pops of a goal, the innermost first. *)
Ltac settled x := lazymatch x with
  | context [pop_seg] => fail | context [pop] => fail | context [add_esp] => fail | _ => idtac end.
Ltac run_pops H :=
  repeat match type of H with
  | context [pop_seg ?x ?r] => settled x; erewrite (pop_seg_eq x r) in H; [|read_regs; eassumption || reflexivity|lia]
  | context [pop ?x ?r] => settled x; erewrite (pop_eq x r) in H; [|read_regs; eassumption || reflexivity|lia]
  | context [add_esp ?x ?n] => settled x; erewrite (add_esp_eq x _ n) in H; [|read_regs; eassumption || reflexivity|lia]
  end;
  rewrite ?mem_set_reg in H.
Ltac same_word :=
  repeat match goal with |- u16 _ = u16 _ => f_equal | |- rd _ _ = rd _ _ => f_equal end; lia.

(** [restore] leaves the stack at the error code. *)
Lemma restore_regs s sp : regs s ESP = sp -> 0 <= sp < 4294967296 - 80 ->
  let m := mem s in
  let s' := restore s in
  regs s' ESP = sp + 56 /\
  regs s' GS = u16 (rd m sp) /\ regs s' FS = u16 (rd m (sp + 4)) /\ regs s' DS = u16 (rd m (sp + 8)) /\
  regs s' ES = u16 (rd m (sp + 12)) /\ regs s' EDI = rd m (sp + 24) /\ regs s' ESI = rd m (sp + 28) /\
  regs s' EBP = rd m (sp + 32) /\ regs s' EBX = rd m (sp + 40) /\ regs s' EDX = rd m (sp + 44) /\
  regs s' ECX = rd m (sp + 48) /\ regs s' EAX = rd m (sp + 52) /\ regs s' SS = regs s SS /\
  mem s' = m /\ same_tasks s s'.
Proof.
  intros Hsp Hb. cbv zeta. remember (restore s) as s' eqn:E. unfold restore, popa in E. cbv zeta in E.
  run_pops E. subst s'. split_and!; read_regs; try done; same_word.
Qed.

(** [iret] behind it. *)
Lemma iret_regs s sp : regs s ESP = sp -> 0 <= sp < 4294967296 - 20 ->
  let m := mem s in
  let s' := iret s in
  let cs := u16 (rd m (sp + 4)) in
  regs s' EIP = rd m sp /\ regs s' CS = cs /\ regs s' EFLAGS = rd m (sp + 8) /\
  regs s' ESP = (if user_mode cs then rd m (sp + 12) else sp + 12) /\
  regs s' SS = (if user_mode cs then u16 (rd m (sp + 16)) else regs s SS) /\
  (forall r, r ∉ [EIP; CS; EFLAGS; ESP; SS] -> regs s' r = regs s r) /\
  mem s' = m /\ same_tasks s s'.
Proof.
  intros Hsp Hb. cbv zeta. remember (iret s) as s' eqn:E. unfold iret in E. cbv zeta in E. run_pops E.
  rewrite regs_set_ne, regs_set_ne, regs_set_eq in E by discriminate.
  destruct (user_mode _).
  - unfold word in E. rewrite !mem_set_reg, regs_set_ne, regs_set_eq, u32_small in E by (discriminate || lia).
    subst s'. split_and!; read_regs; try done; try same_word.
    + intros r Hr. rewrite !not_elem_of_cons in Hr. destruct Hr as (?&?&?&?&?&_).
      rewrite !regs_set_ne by done. done.
  - subst s'. split_and!; read_regs; try done; try same_word.
    intros r Hr. rewrite !not_elem_of_cons in Hr. destruct Hr as (?&?&?&?&?&_).
    rewrite !regs_set_ne by done. done.
Qed.

(** The exit path of the stubs resumes a frame. *)
Lemma exit_frame s c sp : regs s ESP = sp -> 0 <= sp < 4294967296 - 80 -> regs s SS = KERNEL_SS ->
  frame_at (mem s) sp c ->
  let s' := iret (add_esp (restore s) 4) in
  (forall r, regs s' r = c r) /\ mem s' = mem s /\ same_tasks s s'.
Proof.
  intros Hsp Hb Hss Hf. cbv zeta.
  destruct (restore_regs s sp Hsp Hb) as (He&Hgs&Hfs&Hds&Hes&Hdi&Hsi&Hbp&Hbx&Hdx&Hcx&Hax&Hsr&Hm&Ht).
  set (s1 := restore s) in *.
  rewrite (add_esp_eq s1 (sp + 56) 4) by (done || lia).
  destruct (iret_regs (set_reg s1 ESP (sp + 56 + 4)) (sp + 60)) as (Hip&Hcs&Hfl&Hsp'&Hss'&Ho&Hm'&Ht');
    [read_regs; lia|lia|].
  rewrite mem_set_reg, Hm in *. set (s2 := iret _) in *.
  destruct Hf as (F1&F2&F3&F4&F5&F6&F7&F8&F9&F10&F11&F12&F13&F14&F15).
  replace (sp + 60 + 4) with (sp + 64) in * by lia. replace (sp + 60 + 8) with (sp + 68) in * by lia.
  replace (sp + 60 + 12) with (sp + 72) in * by lia. replace (sp + 60 + 16) with (sp + 76) in * by lia.
  rewrite F13 in *. rewrite regs_set_ne in Hss' by discriminate.
  split_and!; [|done|eapply same_tasks_trans; [exact Ht|by destruct Ht']].
  intros r. destruct (user_mode (c CS)); destruct F15 as [F15 F16]; destruct r; try congruence.
  all: rewrite Ho by (rewrite !not_elem_of_cons, elem_of_nil; split_and!; (discriminate || intros [])).
  all: rewrite regs_set_ne by discriminate; congruence.
Qed.

(** ** The switch *)

Section Switch.
Context (ra : Z).

(** What becomes of the task state segment and of [cr3]. *)
Definition switched s (cur next : Z) (t : task_ctx) (s' : machine) : Prop :=
  if (cur =? next) || negb (task_is_user t) then tss s' = tss s /\ cr3 s' = cr3 s
  else tss s' = wr (tss s) Tss.esp0 (stack_base t) /\ cr3 s' = pde_base_pa t.

Lemma x86_switch_task_spec s cur next t : tasks s !! next = Some t ->
  exists s', x86_switch_task s cur next = Ret s' /\ regs s' = regs s /\ mem s' = mem s /\
    tasks s' = tasks s /\ current s' = current s /\ next_run s' = next_run s /\
    switched s cur next t s'.
Proof.
  intros Ht. unfold x86_switch_task, switched. destruct (cur =? next); simpl.
  - eexists. by split_and!.
  - rewrite Ht. simpl. destruct (task_is_user t); simpl; eexists; by split_and!.
Qed.

Lemma arg_pushed s i v F : regs s ESP = F -> 0 <= i < 100 -> 0 <= F < 4294967296 - 400 ->
  rd (mem s) (F + 4 + 4 * i) = v -> arg s i = v.
Proof. intros HF Hi Hb Hv. unfold arg, word. by rewrite HF, u32_small by lia. Qed.

(** The call of [x86_switch_task] with its two arguments on the stack. *)
Lemma call_switch_task s F cur next tb : regs s ESP = F -> 12 <= F < 4294967296 - 400 ->
  tasks s !! next = Some tb ->
  exists s', call ra (pushes s [next; cur]) (fun s => x86_switch_task s (arg s 0) (arg s 1)) = Ret s' /\
    (forall r, r <> ESP -> regs s' r = regs s r) /\
    (forall a, a < F - 12 \/ F <= a -> rd (mem s') a = rd (mem s) a) /\
    tasks s' = tasks s /\ current s' = current s /\ next_run s' = next_run s /\
    switched s cur next tb s'.
Proof.
  intros HF Hb Htb.
  destruct (pushes_spec s [next; cur; ra]) as (He&Hm&Hr&Hs); [rewrite HF; simpl length; lia|].
  unfold call. change (push (pushes s [next; cur]) ra) with (pushes s [next; cur; ra]).
  set (s3 := pushes s _) in *. rewrite HF in He, Hm. simpl length in He.
  assert (Ha0 : arg s3 0 = cur).
  { apply (arg_pushed _ _ _ (F - 12)); [lia|lia|lia|]. rewrite Hm.
    replace (F - 12 + 4 + 4 * 0) with (F - 4 * (Z.of_nat 1 + 1)) by lia. by apply push_words_at. }
  assert (Ha1 : arg s3 1 = next).
  { apply (arg_pushed _ _ _ (F - 12)); [lia|lia|lia|]. rewrite Hm.
    replace (F - 12 + 4 + 4 * 1) with (F - 4 * (Z.of_nat 0 + 1)) by lia. by apply push_words_at. }
  rewrite Ha0, Ha1. destruct Hs as [Hst Hsc Hsn Hss Hs3].
  destruct (x86_switch_task_spec s3 cur next tb) as (s4&E4&Hr4&Hm4&Ht4&Hc4&Hn4&Hsw); [by rewrite Hst|].
  rewrite E4, Ret_bind. eexists. split; [done|]. split_and!.
  - intros r Hne. unfold add_esp. rewrite regs_set_ne by done. by rewrite Hr4, Hr.
  - intros a Ha. change (mem (add_esp s4 4)) with (mem s4). rewrite Hm4, Hm.
    by rewrite push_words_below by (simpl length; lia).
  - change (tasks (add_esp s4 4)) with (tasks s4). congruence.
  - change (current (add_esp s4 4)) with (current s4). congruence.
  - change (next_run (add_esp s4 4)) with (next_run s4). congruence.
  - unfold switched in *. rewrite Hss, Hs3 in Hsw. exact Hsw.
Qed.

Lemma switch_stacks_spec adj s F ta tb :
  regs s ESP = F -> 12 <= F < 4294967296 - 400 -> adj <> SS ->
  tasks s !! current s = Some ta ->
  <[current s := TaskCtx F (flag ta) (pde_base_pa ta)]> (tasks s) !! next_run s = Some tb ->
  exists s', switch_stacks ra adj s = Ret s' /\ regs s' ESP = stack_base tb /\ regs s' SS = regs s SS /\
    (forall a, a < F - 12 \/ F <= a -> rd (mem s') a = rd (mem s) a) /\
    tasks s' = <[current s := TaskCtx F (flag ta) (pde_base_pa ta)]> (tasks s) /\
    current s' = next_run s /\ next_run s' = next_run s /\ switched s (current s) (next_run s) tb s'.
Proof.
  intros HF Hb Hadj Hta Htb. unfold switch_stacks. cbv zeta.
  set (s1 := set_reg (set_reg s EAX _) EBX _).
  unfold store_stack_base. change (tasks s1) with (tasks s).
  replace (regs s1 EAX) with (current s) by (unfold s1; by read_regs). rewrite Hta. cbn [defined].
  rewrite !Ret_bind. set (s2 := Machine (regs s1) _ _ _ _ _ _).
  assert (HF2 : regs s2 ESP = F) by (change (regs s2) with (regs s1); unfold s1; by read_regs).
  assert (Ht2 : tasks s2 = <[current s := TaskCtx F (flag ta) (pde_base_pa ta)]> (tasks s)).
  { unfold s2. cbn [tasks]. change (regs s1 ESP) with (regs s2 ESP). by rewrite HF2. }
  replace (regs s2 EBX) with (next_run s) by (change (regs s2) with (regs s1); unfold s1; by read_regs).
  replace (regs s2 EAX) with (current s) by (change (regs s2) with (regs s1); unfold s1; by read_regs).
  destruct (call_switch_task s2 F (current s) (next_run s) tb HF2 Hb) as (s4&E4&Hr4&Hm4&Ht4&Hc4&Hn4&Hsw);
    [by rewrite Ht2|].
  rewrite E4, !Ret_bind. set (s5 := set_reg _ EBX _).
  assert (Hx : regs s5 EBX = next_run s) by (unfold s5; read_regs; exact Hn4).
  change (regs (set_current s5 (regs s5 EBX)) EBX) with (regs s5 EBX). rewrite Hx.
  change (tasks (set_current s5 (next_run s))) with (tasks s4).
  rewrite Ht4, Ht2, Htb. cbn [defined]. rewrite Ret_bind. eexists. split; [done|].
  split_and!; [by read_regs| |done| |done| |done].
  - rewrite regs_set_ne by discriminate. change (regs (set_current s5 ?x) SS) with (regs s5 SS).
    unfold s5. rewrite !regs_set_ne by done. rewrite Hr4 by discriminate.
    change (regs s2) with (regs s1). unfold s1. by read_regs.
  - change (tasks (set_reg _ _ _)) with (tasks s4). by rewrite Ht4.
  - exact Hn4.
Qed.
End Switch.

(** ** Entry *)

(** The segments of each mode. *)
Definition mode_ok (c : reg -> Z) : Prop :=
  if user_mode (c CS) then
    c CS = USER_CS /\ c SS = USER_SS /\ c DS = USER_DS /\ c ES = USER_ES /\ c FS = USER_FS /\ c GS = USER_GS
  else
    c CS = KERNEL_CS /\ c SS = KERNEL_SS /\ c DS = KERNEL_DS /\ c ES = KERNEL_ES /\ c FS = KERNEL_FS /\
    c GS = KERNEL_GS.

(** The stack an interrupt is taken on. *)
Definition entry_top s : Z := if user_mode (regs s CS) then rd (tss s) Tss.esp0 else regs s ESP.
Definition entry_frame s : Z := entry_top s - frame_size (regs s).

Record entry_ok s : Prop := EntryOk {
  entry_mode : mode_ok (regs s);
  entry_ss0 : rd (tss s) Tss.ss0 = KERNEL_SS;
  entry_room : 400 <= entry_top s < 4294967296 - 400 }.

(** [s] is [s0] with the words [l] pushed from [E] down. *)
Record pushed (s0 : machine) (E : Z) (l : list Z) (s : machine) : Prop := Pushed {
  pushed_esp : regs s ESP = E - 4 * Z.of_nat (length l);
  pushed_mem : mem s = push_words (mem s0) E l;
  pushed_tasks : same_tasks s0 s }.

Lemma pushed_pushes s0 E l s vs : pushed s0 E l s ->
  4 * Z.of_nat (length l + length vs) <= E < 4294967296 -> pushed s0 E (l ++ vs) (pushes s vs).
Proof.
  intros [He Hm Ht] Hb. destruct (pushes_spec s vs) as (He'&Hm'&_&Ht'); [lia|].
  split.
  - rewrite He', He, length_app. lia.
  - by rewrite Hm', Hm, He, push_words_app.
  - by eapply same_tasks_trans.
Qed.

Lemma pushed_set_reg s0 E l s r v : pushed s0 E l s -> r <> ESP -> pushed s0 E l (set_reg s r v).
Proof.
  intros [He Hm Ht] Hr. split; [by rewrite regs_set_ne by congruence|done|by destruct Ht].
Qed.

Lemma pushed_word s0 E l s n v : pushed s0 E l s -> 0 <= E < 4294967296 -> 4 * Z.of_nat (length l) <= E ->
  forall i, l !! i = Some v -> n = 4 * (Z.of_nat (length l) - (Z.of_nat i + 1)) ->
  word s (u32 (regs s ESP + n)) = v.
Proof.
  intros [He Hm _] Hb Hl i Hi ->. pose proof (lookup_lt_Some _ _ _ Hi). unfold word.
  rewrite He, Hm, u32_small by lia.
  replace (E - _ + _) with (E - 4 * (Z.of_nat i + 1)) by lia. by apply push_words_at.
Qed.

Lemma regs_pushes s vs r : r <> ESP -> regs (pushes s vs) r = regs s r.
Proof.
  intros Hr. revert s. induction vs as [|v vs IH]; intros s; [done|].
  change (pushes s (v :: vs)) with (pushes (push s v) vs). rewrite IH.
  unfold push, add_esp. simpl. by rewrite decide_False.
Qed.

Ltac read_pushes := unfold pusha, cli, sti; repeat first [rewrite regs_set_eq | rewrite regs_set_ne by discriminate
  | rewrite regs_pushes by discriminate].

(** The words of a frame, the first pushed first. *)
Definition frame_words (c : reg -> Z) (v top : Z) : list Z :=
  (if user_mode (c CS) then [c SS; c ESP] else []) ++
  [c EFLAGS; c CS; c EIP; v; c EAX; c ECX; c EDX; c EBX;
   top - (if user_mode (c CS) then 24 else 16); c EBP; c ESI; c EDI] ++
  if user_mode (c CS) then [c ESP; USER_SS; USER_ES; USER_DS; USER_FS; USER_GS]
  else [0; KERNEL_SS; KERNEL_ES; KERNEL_DS; KERNEL_FS; KERNEL_GS].

Lemma frame_words_frame m E c v l : mode_ok c -> (user_mode (c CS) = false -> c ESP = E) ->
  frame_at (push_words m E (frame_words c v E ++ l)) (E - frame_size c) c.
Proof.
  intros Hm He. unfold frame_at, frame_size, frame_words, mode_ok in *.
  set (L := _ ++ l).
  assert (Hat : forall i a w, L !! i = Some w -> a = E - 4 * (Z.of_nat i + 1) -> rd (push_words m E L) a = w)
    by (intros; subst; by apply push_words_at).
  destruct (user_mode (c CS)); destruct Hm as (H1&H2&H3&H4&H5&H6).
  - rewrite (Hat 19%nat (E - 80) USER_GS), (Hat 18%nat (E - 80 + 4) USER_FS), (Hat 17%nat (E - 80 + 8) USER_DS),
      (Hat 16%nat (E - 80 + 12) USER_ES), (Hat 13%nat (E - 80 + 24) (c EDI)), (Hat 12%nat (E - 80 + 28) (c ESI)),
      (Hat 11%nat (E - 80 + 32) (c EBP)), (Hat 9%nat (E - 80 + 40) (c EBX)), (Hat 8%nat (E - 80 + 44) (c EDX)),
      (Hat 7%nat (E - 80 + 48) (c ECX)), (Hat 6%nat (E - 80 + 52) (c EAX)), (Hat 4%nat (E - 80 + 60) (c EIP)),
      (Hat 3%nat (E - 80 + 64) (c CS)), (Hat 2%nat (E - 80 + 68) (c EFLAGS)), (Hat 1%nat (E - 80 + 72) (c ESP)),
      (Hat 0%nat (E - 80 + 76) (c SS)) by (reflexivity || lia).
    rewrite H1, H2, H3, H4, H5, H6. by vm_compute.
  - rewrite (Hat 17%nat (E - 72) KERNEL_GS), (Hat 16%nat (E - 72 + 4) KERNEL_FS), (Hat 15%nat (E - 72 + 8) KERNEL_DS),
      (Hat 14%nat (E - 72 + 12) KERNEL_ES), (Hat 11%nat (E - 72 + 24) (c EDI)), (Hat 10%nat (E - 72 + 28) (c ESI)),
      (Hat 9%nat (E - 72 + 32) (c EBP)), (Hat 7%nat (E - 72 + 40) (c EBX)), (Hat 6%nat (E - 72 + 44) (c EDX)),
      (Hat 5%nat (E - 72 + 48) (c ECX)), (Hat 4%nat (E - 72 + 52) (c EAX)), (Hat 2%nat (E - 72 + 60) (c EIP)),
      (Hat 1%nat (E - 72 + 64) (c CS)), (Hat 0%nat (E - 72 + 68) (c EFLAGS)) by (reflexivity || lia).
    rewrite H1, H2, H3, H4, H5, H6, He by done. split_and!; try done. lia.
Qed.

(** A stub without error code, up to the call of its handler. *)
Definition nec_entry s (v : Z) : machine := pusha (push (cli (deliver s None)) v).

Definition saved_words (c : reg -> Z) (v top : Z) : list Z :=
  (if user_mode (c CS) then [c SS; c ESP] else []) ++
  [c EFLAGS; c CS; c EIP; v; c EAX; c ECX; c EDX; c EBX;
   top - (if user_mode (c CS) then 24 else 16); c EBP; c ESI; c EDI].

Lemma deliver_pushed s : entry_ok s ->
  pushed s (entry_top s)
    ((if user_mode (regs s CS) then [regs s SS; regs s ESP] else []) ++ [regs s EFLAGS; regs s CS; regs s EIP])
    (deliver s None) /\
  regs (deliver s None) SS = KERNEL_SS /\ regs (deliver s None) CS = KERNEL_CS /\
  (forall r, r ∉ [ESP; SS; CS] -> regs (deliver s None) r = regs s r).
Proof.
  intros [Hm Hs0 Hr]. unfold deliver, entry_top in *. cbv zeta. unfold mode_ok in Hm.
  destruct (user_mode (regs s CS)).
  - set (s1 := set_reg (set_reg s ESP _) SS _).
    assert (H1 : pushed s (rd (tss s) Tss.esp0) [] s1).
    { split; [|done|done]. unfold s1. read_regs. simpl length. lia. }
    apply (pushed_pushes _ _ _ _ [regs s SS; regs s ESP]) in H1; [|simpl length; lia].
    apply (pushed_pushes _ _ _ _ [regs s EFLAGS; regs s CS; regs s EIP]) in H1; [|simpl length; lia].
    split_and!.
    + apply pushed_set_reg; [exact H1|discriminate].
    + read_pushes. unfold s1. read_pushes. change (tss (set_reg s ESP _)) with (tss s). by rewrite Hs0.
    + by read_pushes.
    + intros r Hr'. rewrite !not_elem_of_cons in Hr'. destruct Hr' as (?&?&?&_).
      rewrite regs_set_ne, !regs_pushes by done. unfold s1. by rewrite !regs_set_ne by done.
  - assert (H1 : pushed s (regs s ESP) [] s) by (split; [simpl length; lia|done|done]).
    apply (pushed_pushes _ _ _ _ [regs s EFLAGS; regs s CS; regs s EIP]) in H1; [|simpl length; lia].
    split_and!.
    + apply pushed_set_reg; [exact H1|discriminate].
    + read_pushes. apply Hm.
    + by read_pushes.
    + intros r Hr'. rewrite !not_elem_of_cons in Hr'. destruct Hr' as (?&?&?&_).
      by rewrite regs_set_ne, !regs_pushes by done.
Qed.

Lemma nec_entry_pushed s v : entry_ok s ->
  pushed s (entry_top s) (saved_words (regs s) v (entry_top s)) (nec_entry s v) /\
  regs (nec_entry s v) SS = KERNEL_SS.
Proof.
  intros Hok. destruct (deliver_pushed s Hok) as (H1 & Hss & _ & Ho). pose proof (entry_room s Hok) as Hb.
  assert (Hr : forall r, r ∉ [ESP; SS; CS; EFLAGS] -> regs (push (cli (deliver s None)) v) r = regs s r).
  { intros r Hr. rewrite !not_elem_of_cons in Hr. destruct Hr as (?&?&?&?&_).
    change (push (cli (deliver s None)) v) with (pushes (cli (deliver s None)) [v]).
    rewrite regs_pushes by done. unfold cli. rewrite regs_set_ne by done. apply Ho.
    rewrite !not_elem_of_cons. split_and!; try done. apply not_elem_of_nil. }
  set (d := push (cli (deliver s None)) v) in *.
  apply (pushed_set_reg _ _ _ _ EFLAGS (Z.land (regs (deliver s None) EFLAGS) (lnot32 IF))) in H1; [|discriminate].
  apply (pushed_pushes _ _ _ _ [v]) in H1; [|destruct (user_mode _); simpl length; lia].
  assert (Hd : regs d ESP = entry_top s - (if user_mode (regs s CS) then 24 else 16)).
  { destruct H1 as [He _ _]. change (regs d ESP) with (regs (pushes (cli (deliver s None)) [v]) ESP).
    unfold cli. rewrite He. destruct (user_mode _); simpl length; lia. }
  change (pushes _ [v]) with d in H1.
  unfold nec_entry. fold d. unfold pusha.
  rewrite Hd, (Hr EAX), (Hr ECX), (Hr EDX), (Hr EBX), (Hr EBP), (Hr ESI), (Hr EDI) by (rewrite !not_elem_of_cons; split_and!; try discriminate; apply not_elem_of_nil).
  split; [|rewrite regs_pushes by discriminate].
  - unfold saved_words.
    match goal with |- pushed _ _ _ (pushes _ ?vs) => apply (pushed_pushes _ _ _ _ vs) in H1 end;
      [|destruct (user_mode _); simpl length; lia].
    rewrite <- !app_assoc in H1. exact H1.
  - change d with (pushes (cli (deliver s None)) [v]). by read_pushes.
Qed.

Lemma saved_words_length c v E :
  Z.of_nat (length (saved_words c v E)) = if user_mode (c CS) then 14 else 12.
Proof. unfold saved_words. by destruct (user_mode _). Qed.

(** Reads of the words just saved, by their distance from the stack pointer. *)
Lemma saved_read s0 E c v e : pushed s0 E (saved_words c v E) e -> 400 <= E < 4294967296 - 400 ->
  word e (u32 (regs e ESP + 32)) = v /\ word e (u32 (regs e ESP + 40)) = c CS /\
  (user_mode (c CS) = true -> word e (u32 (regs e ESP + 48)) = c ESP).
Proof.
  intros H Hb. pose proof (saved_words_length c v E) as Hlen.
  assert (Hl : 4 * Z.of_nat (length (saved_words c v E)) <= E) by (rewrite Hlen; destruct (user_mode _); lia).
  split_and!; [| |intros Hu].
  - apply (pushed_word _ _ _ e 32 v H ltac:(lia) Hl (if user_mode (c CS) then 5%nat else 3%nat));
      [|rewrite Hlen]; unfold saved_words; by destruct (user_mode _).
  - apply (pushed_word _ _ _ e 40 (c CS) H ltac:(lia) Hl (if user_mode (c CS) then 3%nat else 1%nat));
      [|rewrite Hlen]; unfold saved_words; by destruct (user_mode _).
  - apply (pushed_word _ _ _ e 48 (c ESP) H ltac:(lia) Hl 1%nat); [|rewrite Hlen];
      unfold saved_words; by rewrite Hu.
Qed.

Lemma pushed_store s0 E l s w : pushed s0 E l s -> 4 * (Z.of_nat (length l) + 1) <= E < 4294967296 ->
  let s' := set_reg (add_esp s (-4)) EDX w in
  pushed s0 E (l ++ [w]) (set_word s' (regs s' ESP) w).
Proof.
  intros [He Hm Ht] Hb. cbv zeta.
  rewrite (add_esp_eq s (E - 4 * Z.of_nat (length l)) (-4)) by (done || lia).
  split.
  - simpl. rewrite length_app. simpl length. lia.
  - rewrite regs_set_ne, regs_set_eq by discriminate. cbn [set_word mem set_reg].
    rewrite Hm, push_words_app. done.
  - by destruct Ht.
Qed.

(** The frame is complete when the handler is called; the handler finds its address and
    the error word as arguments, and in [ebx] and [eax]. *)
Lemma isr_enter_pushed s0 E c v e : pushed s0 E (saved_words c v E) e -> 400 <= E < 4294967296 - 400 ->
  regs e SS = KERNEL_SS ->
  let F := E - frame_size c in
  pushed s0 E (frame_words c v E ++ [v; F]) (isr_enter e) /\
  regs (isr_enter e) EAX = v /\ regs (isr_enter e) EBX = F /\ regs (isr_enter e) SS = KERNEL_SS.
Proof.
  intros H Hb Hss. cbv zeta. destruct (saved_read s0 E c v e H Hb) as (Hv & Hcs & Hu).
  pose proof (saved_words_length c v E) as Hlen. pose proof (pushed_esp _ _ _ _ H) as He.
  assert (HF : u32 (regs e ESP - 24) = E - frame_size c).
  { rewrite He, Hlen. unfold frame_size. destruct (user_mode _); rewrite u32_small; lia. }
  unfold isr_enter. cbv zeta. rewrite Hv. rewrite (regs_set_ne e EAX v ESP) by discriminate. rewrite HF.
  set (e1 := set_reg (set_reg e EAX v) EBX _).
  assert (He1 : regs e1 ESP = regs e ESP) by (unfold e1; by read_regs).
  assert (Hx : regs e1 EAX = v /\ regs e1 EBX = E - frame_size c /\ regs e1 SS = KERNEL_SS)
    by (unfold e1; by read_regs).
  assert (H1 : pushed s0 E (saved_words c v E) e1)
    by (apply pushed_set_reg; [apply pushed_set_reg; [exact H|discriminate]|discriminate]).
  assert (Hw : forall a, word e1 a = word e a) by done.
  clearbody e1. rewrite Hw, He1, Hcs. destruct Hx as (Hax & Hbx & Hs1).
  apply (pushed_set_reg _ _ _ _ EDX (Z.land (c CS) 3)) in H1; [|discriminate].
  rewrite regs_set_eq. unfold frame_words, frame_size in *.
  destruct (user_mode (c CS)) eqn:Hm; unfold user_mode in Hm;
    [apply negb_true_iff in Hm|apply negb_false_iff in Hm]; rewrite Hm.
  - set (e2 := set_reg e1 EDX _) in *.
    assert (Hw2 : word (add_esp e2 (-4)) (u32 (regs (add_esp e2 (-4)) ESP + 52)) = c ESP).
    { rewrite <- (Hu eq_refl). unfold add_esp. rewrite regs_set_eq. change (word (set_reg ?x _ _)) with (word x).
      unfold e2. rewrite regs_set_ne by discriminate. change (word (set_reg ?x _ _)) with (word x).
      rewrite Hw, He1, He, Hlen. f_equal. rewrite (u32_small (_ + -4)) by lia. f_equal. lia. }
    rewrite Hw2, regs_set_eq.
    pose proof (pushed_store _ _ _ _ (c ESP) H1 ltac:(lia)) as H2. cbv zeta in H2.
    set (e3 := set_word _ _ (c ESP)) in *.
    assert (Hx : regs e3 EAX = v /\ regs e3 EBX = E - 80 /\ regs e3 SS = KERNEL_SS).
    { change (regs e3) with (regs (set_reg (add_esp e2 (-4)) EDX (c ESP))). unfold add_esp, e2. by read_regs. }
    clearbody e3. destruct Hx as (Hax3 & Hbx3 & Hs3).
    pose proof (pushed_pushes _ _ _ _ [USER_SS; USER_ES; USER_DS; USER_FS; USER_GS] H2
      ltac:(rewrite length_app; cbn [length]; lia)) as H3.
    pose proof (pushed_pushes _ _ _ _ [v; E - 80] H3 ltac:(rewrite !length_app; cbn [length]; lia)) as H4.
    read_pushes. rewrite Hax3, Hbx3. split_and!; try done.
    rewrite <- !app_assoc in H4. unfold saved_words in H4. unfold user_mode in H4. rewrite Hm in H4. exact H4.
  - pose proof (pushed_pushes _ _ _ _ [0; KERNEL_SS; KERNEL_ES; KERNEL_DS; KERNEL_FS; KERNEL_GS] H1
      ltac:(cbn [length]; lia)) as H2.
    pose proof (pushed_pushes _ _ _ _ [v; E - 72] H2 ltac:(rewrite length_app; cbn [length]; lia)) as H3.
    read_pushes. rewrite Hax, Hbx. split_and!; try done.
    rewrite <- app_assoc in H3. unfold saved_words in H3. unfold user_mode in H3. rewrite Hm in H3. exact H3.
Qed.

(** ** From entry to exit *)

Section Returns.
Context (ra : Z).

(** The state a handler is called in. *)
Definition handler_state s (v : Z) : machine := push (isr_enter (nec_entry s v)) ra.

Record called s (v : Z) (s1 : machine) : Prop := Called {
  called_esp : regs s1 ESP = entry_frame s - 12;
  called_ss : regs s1 SS = KERNEL_SS;
  called_eax : regs s1 EAX = v;
  called_ebx : regs s1 EBX = entry_frame s;
  called_frame : frame_at (mem s1) (entry_frame s) (regs s);
  called_mem a : a < entry_frame s - 12 \/ entry_top s <= a -> rd (mem s1) a = rd (mem s) a;
  called_tasks : same_tasks s s1 }.

Lemma frame_words_length c v E : Z.of_nat (length (frame_words c v E)) = frame_size c / 4.
Proof. unfold frame_words, frame_size. by destruct (user_mode _). Qed.

Lemma frame_size_cases c : frame_size c = 80 \/ frame_size c = 72.
Proof. unfold frame_size. destruct (user_mode _); auto. Qed.

Lemma handler_called s v : entry_ok s -> called s v (handler_state s v).
Proof.
  intros Hok. pose proof (entry_room s Hok) as Hb. destruct (nec_entry_pushed s v Hok) as [H1 Hss].
  destruct (isr_enter_pushed s (entry_top s) (regs s) v _ H1 Hb Hss) as (H2 & Hax & Hbx & Hs2).
  fold (entry_frame s) in *. pose proof (frame_size_cases (regs s)) as Hfs.
  pose proof (frame_words_length (regs s) v (entry_top s)) as Hlen.
  assert (Hlen' : 4 * Z.of_nat (length (frame_words (regs s) v (entry_top s))) = frame_size (regs s))
    by (rewrite Hlen; destruct Hfs as [-> | ->]; done).
  unfold handler_state. set (e := isr_enter _) in *. clearbody e.
  apply (pushed_pushes _ _ _ _ [ra]) in H2; [|rewrite length_app; cbn [length]; lia].
  change (push e ra) with (pushes e [ra]). destruct H2 as [He Hm Ht]. rewrite <- app_assoc in He, Hm.
  split; rewrite ?regs_pushes by discriminate; try done.
  - rewrite He, length_app. unfold entry_frame. cbn [length app]. lia.
  - rewrite Hm. apply frame_words_frame; [apply Hok|].
    intros Hu. unfold entry_top. by rewrite Hu.
  - intros a Ha. rewrite Hm. apply push_words_below. rewrite length_app. cbn [length app].
    unfold entry_frame in Ha. lia.
Qed.

(** The rest of a stub, once its handler has returned. *)
Lemma nec_return s v h s2 ta tb c :
  entry_ok s -> h (handler_state s v) = Ret s2 ->
  regs s2 ESP = entry_frame s - 12 -> regs s2 SS = KERNEL_SS ->
  tasks s2 !! current s2 = Some ta ->
  <[current s2 := TaskCtx (entry_frame s) (flag ta) (pde_base_pa ta)]> (tasks s2) !! next_run s2 = Some tb ->
  frame_at (mem s2) (stack_base tb) c -> 0 <= stack_base tb < 4294967296 - 80 ->
  stack_base tb + frame_size c <= entry_frame s - 12 \/ entry_frame s <= stack_base tb ->
  exists s', isr_common_stub_nec ra (nec_entry s v) h = Ret s' /\ (forall r, regs s' r = c r) /\
    (forall a, a < entry_frame s - 12 \/ entry_frame s <= a -> rd (mem s') a = rd (mem s2) a) /\
    tasks s' = <[current s2 := TaskCtx (entry_frame s) (flag ta) (pde_base_pa ta)]> (tasks s2) /\
    current s' = next_run s2 /\ next_run s' = next_run s2 /\
    switched s2 (current s2) (next_run s2) tb s'.
Proof.
  intros Hok Hh He Hss Hta Htb Hf Hsb Hap. pose proof (entry_room s Hok) as Hb.
  pose proof (frame_size_cases (regs s)) as Hfs.
  assert (HF : 300 <= entry_frame s < 4294967296 - 400) by (unfold entry_frame; lia).
  unfold isr_common_stub_nec, isr_common_handler. cbv zeta. unfold call at 1.
  fold (handler_state s v). rewrite Hh, !Ret_bind.
  rewrite (add_esp_eq s2 (entry_frame s - 12) 4) by (done || lia).
  rewrite (add_esp_eq _ (entry_frame s - 8) 8) by (rewrite ?regs_set_eq; lia).
  set (s3 := set_reg (set_reg s2 ESP _) ESP _).
  destruct (switch_stacks_spec ra ESP s3 (entry_frame s) ta tb) as (s4&E4&He4&Hs4&Hm4&Ht4&Hc4&Hn4&Hsw);
    [unfold s3; read_regs; lia|lia|discriminate|exact Hta|exact Htb|].
  rewrite E4, !Ret_bind.
  destruct (exit_frame s4 c (stack_base tb)) as (Hr & Hm & Ht); [done|done| | |].
  - rewrite Hs4. unfold s3. by read_regs.
  - apply (frame_at_keep (mem s2)); [done|]. intros a Ha. rewrite Hm4 by lia. done.
  - eexists. split; [done|]. destruct Ht as [T1 T2 T3 T4 T5].
    split_and!; [exact Hr| |by rewrite T1|by rewrite T2|by rewrite T3|].
    + intros a Ha. rewrite Hm. by rewrite Hm4 by lia.
    + unfold switched in *. by rewrite T4, T5.
Qed.

(** C20: a trap or system call that ends in a switch.  The interrupted code [A] is entered
    from user or kernel mode; its handler [h] returns with another task, or the same one,
    in [next_run], whose saved frame stands for the registers [c].  Then the stub ends with
    exactly the registers [c] and that task current; the frame of [A] is complete on its
    kernel stack and its address is in [A]'s [stack_base], so the exit path of any later
    switch to [A] gives back every register [A] had.  To a user task the ring 0 stack and
    the page directory are switched as well. *)
Theorem context_switch s v h s2 ta tb c (Hok : entry_ok s) (Hh : h (handler_state s v) = Ret s2)
    (Hesp : regs s2 ESP = entry_frame s - 12) (Hss : regs s2 SS = KERNEL_SS)
    (Hkeep : forall a, entry_frame s <= a < entry_top s -> rd (mem s2) a = rd (mem (handler_state s v)) a)
    (Hta : tasks s2 !! current s2 = Some ta)
    (Htb : <[current s2 := TaskCtx (entry_frame s) (flag ta) (pde_base_pa ta)]> (tasks s2) !! next_run s2 = Some tb)
    (Hf : frame_at (mem s2) (stack_base tb) c) (Hsb : 0 <= stack_base tb < 4294967296 - 80)
    (Hap : stack_base tb + frame_size c <= entry_frame s - 12 \/ entry_frame s <= stack_base tb) :
  exists s', isr_common_stub_nec ra (nec_entry s v) h = Ret s' /\ (forall r, regs s' r = c r) /\
    current s' = next_run s2 /\
    (tasks s' !! current s2 = Some (TaskCtx (entry_frame s) (flag ta) (pde_base_pa ta)) /\
     frame_at (mem s') (entry_frame s) (regs s)) /\
    (current s2 <> next_run s2 -> task_is_user tb = true ->
      rd (tss s') Tss.esp0 = stack_base tb /\ cr3 s' = pde_base_pa tb).
Proof.
  destruct (nec_return s v h s2 ta tb c Hok Hh Hesp Hss Hta Htb Hf Hsb Hap)
    as (s' & E & Hr & Hm & Ht & Hc & Hn & Hsw).
  exists s'. split_and!; [done|done|done| | |].
  - rewrite Ht. apply lookup_insert_eq.
  - apply (frame_at_keep (mem (handler_state s v))); [apply handler_called, Hok|].
    intros a Ha. rewrite Hm by lia. apply Hkeep. unfold entry_frame in *. lia.
  - intros Hne Hu. unfold switched in Hsw. destruct (Z.eqb_spec (current s2) (next_run s2)); [done|].
    rewrite Hu in Hsw. simpl in Hsw. destruct Hsw as [-> ->]. by rewrite rd_wr_eq.
Qed.

(** C22: a trap that does not switch is transparent.  When the handler returns without
    choosing another task and leaves the frame alone, the interrupted code, user or kernel,
    goes on with every register as it was: the frame is undone word for word. *)
Theorem trap_transparent s v h s2 ta (Hok : entry_ok s) (Hh : h (handler_state s v) = Ret s2)
    (Hesp : regs s2 ESP = entry_frame s - 12) (Hss : regs s2 SS = KERNEL_SS)
    (Hkeep : forall a, entry_frame s <= a < entry_top s -> rd (mem s2) a = rd (mem (handler_state s v)) a)
    (Hta : tasks s2 !! current s2 = Some ta) (Hnext : next_run s2 = current s2) :
  exists s', isr_common_stub_nec ra (nec_entry s v) h = Ret s' /\ (forall r, regs s' r = regs s r) /\
    current s' = current s2 /\ cr3 s' = cr3 s2.
Proof.
  pose proof (entry_room s Hok) as Hb. pose proof (frame_size_cases (regs s)) as Hfs.
  destruct (nec_return s v h s2 ta (TaskCtx (entry_frame s) (flag ta) (pde_base_pa ta)) (regs s))
    as (s' & E & Hr & Hm & Ht & Hc & Hn & Hsw); try done.
  - rewrite Hnext. apply lookup_insert_eq.
  - apply (frame_at_keep (mem (handler_state s v))); [apply handler_called, Hok|].
    intros a Ha. apply Hkeep. cbn [stack_base] in Ha. unfold entry_frame in *. lia.
  - cbn [stack_base]. unfold entry_frame. lia.
  - cbn [stack_base]. lia.
  - exists s'. split_and!; [done|done|congruence|]. unfold switched in Hsw.
    rewrite Hnext, Z.eqb_refl in Hsw. apply Hsw.
Qed.
End Returns.
