(* ===== verification/TrapSyscall.v ===== *)
(** * System calls, the switch from C and the first frame of a task

    The convention of the system calls of the x86 port from the user's instruction to
    the C function and back, [arch_switch_task_sw], and the frames [arch_set_up_task_stack]
    builds for new tasks; the stubs that do not return to where they came from. *)

From S2P Require Import Prelude X86 Trap TrapSpec.

Implicit Types s : machine.

Section Syscall.
Context (ra : Z) (get_handler : Z -> Z) (sys_call : Z -> machine -> outcome machine).

(** The state behind the look-up of the handler. *)
Lemma lookup_handler s1 F v : regs s1 ESP = F - 12 -> 300 <= F < 4294967296 - 400 ->
  regs s1 EBX = F -> regs s1 EAX = v ->
  exists t, (s ← call ra (pushes s1 [F; v]) (fun s => Ret (set_reg s EAX (get_handler (s32 (arg s 0)))));
             Ret (pop (add_esp s 4) EBX)) = Ret t /\
    regs t ESP = F - 12 /\ regs t EBX = F /\ regs t EAX = get_handler (s32 v) /\
    (forall r, r ∉ [ESP; EBX; EAX] -> regs t r = regs s1 r) /\
    (forall a, F - 12 <= a -> rd (mem t) a = rd (mem s1) a) /\
    (forall a, a < F - 24 -> rd (mem t) a = rd (mem s1) a) /\
    same_tasks s1 t.
Proof.
  intros He Hb Hbx Hax. unfold call. change (push (pushes s1 [F; v]) ra) with (pushes s1 [F; v; ra]).
  destruct (pushes_spec s1 [F; v; ra]) as (He2 & Hm & Hr & Ht); [rewrite He; cbn [length]; lia|].
  set (s2 := pushes s1 _) in *. rewrite He in He2, Hm. cbn [length] in He2.
  assert (Ha : arg s2 0 = v).
  { apply (arg_pushed _ _ _ (F - 24)); [lia|lia|lia|]. rewrite Hm.
    replace (F - 24 + 4 + 4 * 0) with (F - 12 - 4 * (Z.of_nat 1 + 1)) by lia. by apply push_words_at. }
  assert (Hw : rd (mem s2) (F - 16) = F).
  { rewrite Hm. replace (F - 16) with (F - 12 - 4 * (Z.of_nat 0 + 1)) by lia. by apply push_words_at. }
  assert (Hin : forall a, F - 12 <= a \/ a < F - 24 -> rd (mem s2) a = rd (mem s1) a).
  { intros a Ha'. rewrite Hm. apply push_words_below. cbn [length]. lia. }
  rewrite Ha, !Ret_bind. clearbody s2. eexists. split; [reflexivity|].
  set (s3 := set_reg s2 EAX _). remember (pop _ EBX) as t eqn:E.
  rewrite (add_esp_eq s3 (F - 24) 4) in E by (unfold s3; read_regs; lia).
  rewrite (add_esp_eq _ (F - 20) 4) in E by (read_regs; lia).
  rewrite (pop_eq _ _ (F - 16)) in E by (read_regs; lia).
  unfold s3 in E. rewrite !mem_set_reg, Hw in E. subst t. split_and!; read_regs; try done.
  - lia.
  - intros r Hr'. rewrite !not_elem_of_cons in Hr'. destruct Hr' as (?&?&?&_).
    rewrite !regs_set_ne by done. by apply Hr.
  - intros a Ha'. rewrite !mem_set_reg. apply Hin. lia.
  - intros a Ha'. rewrite !mem_set_reg. apply Hin. lia.
  - by destruct Ht.
Qed.

(** The registers with the result of the call. *)
Definition with_eax (c : reg -> Z) (v : Z) : reg -> Z := fun r => if decide (r = EAX) then v else c r.

Lemma frame_with_eax m m' sp c v : frame_at m sp c ->
  (forall a, sp <= a < sp + frame_size c -> rd m' a = if decide (a = sp + 52) then v else rd m a) ->
  frame_at m' sp (with_eax c v).
Proof.
  unfold frame_at, frame_size, with_eax. intros Hf Hk.
  repeat (rewrite (decide_True (P := EAX = EAX)) by done).
  repeat match goal with |- context [decide (?r = EAX)] => rewrite (decide_False (P := r = EAX)) by discriminate end.
  destruct (user_mode (c CS)).
  all: rewrite !Hk by lia; rewrite (decide_True (P := sp + 52 = sp + 52)) by done.
  all: rewrite !decide_False by lia; naive_solver.
Qed.

(** A number without handler: the stub ends with [-EINVAL] in [eax]. *)
Lemma unknown_handler s1 F v : regs s1 ESP = F - 12 -> 300 <= F < 4294967296 - 400 ->
  regs s1 EBX = F -> regs s1 EAX = v -> get_handler (s32 v) = 0 ->
  exists s2, x86_trap_syscall_handler ra get_handler sys_call s1 = Ret s2 /\
    regs s2 ESP = F - 12 /\ regs s2 SS = regs s1 SS /\
    (forall a, F <= a -> rd (mem s2) a = if decide (a = F + 52) then u32 (-22) else rd (mem s1) a) /\
    same_tasks s1 s2.
Proof.
  intros He Hb Hbx Hax Hg. unfold x86_trap_syscall_handler. cbv zeta. rewrite Hbx, Hax.
  destruct (lookup_handler s1 F v He Hb Hbx Hax) as (t & Et & Het & Hbt & Hat & Hr & Hm & _ & Ht).
  destruct (call _ _ _) as [u| | |]; try done. rewrite Ret_bind in Et |- *. injection Et as ->.
  rewrite Hat, Hg. cbn [Z.eqb]. rewrite Ret_bind. eexists. split; [done|]. read_regs. rewrite Hbt.
  rewrite (u32_small (F + 52)) by lia. cbn [set_word mem regs set_reg].
  split_and!; try done.
  - rewrite decide_False by discriminate. apply Hr. rewrite !not_elem_of_cons. split_and!; try discriminate. apply not_elem_of_nil.
  - intros a Ha. rewrite rd_wr. rewrite (Hm a) by lia. repeat case_decide; congruence || lia || done.
  - by destruct Ht.
Qed.

(** What the C function of a system call finds. *)
Record sys_entered (F : Z) (c : reg -> Z) (s1 t : machine) : Prop := SysEntered {
  sys_esp : regs t ESP = F - 44;
  sys_ss : regs t SS = regs s1 SS;
  sys_args : arg t <$> [0; 1; 2; 3; 4; 5] = [c EBX; c ECX; c EDX; c ESI; c EBP; c EDI];
  sys_if : Z.testbit (regs t EFLAGS) 9 = true;
  sys_frame a : F - 12 <= a -> rd (mem t) a = rd (mem s1) a;
  sys_pt_regs : rd (mem t) (F - 16) = F;
  sys_tasks : same_tasks s1 t }.

(** The call of the function, once the arguments are on the stack. *)
Definition sys_called t (F : Z) : machine :=
  push (sti (pushes t [F; word t (u32 (F + 24)); word t (u32 (F + 32)); word t (u32 (F + 28));
    word t (u32 (F + 44)); word t (u32 (F + 48)); word t (u32 (F + 40))])) ra.

Lemma sys_state_entered s1 t F c : frame_at (mem s1) F c -> 300 <= F < 4294967296 - 400 ->
  regs t ESP = F - 12 -> regs t SS = regs s1 SS ->
  (forall a, F - 12 <= a -> rd (mem t) a = rd (mem s1) a) -> same_tasks s1 t ->
  sys_entered F c s1 (sys_called t F).
Proof.
  intros Hf Hb He Hss Hm Ht. unfold sys_called, word.
  rewrite !u32_small by lia. rewrite !Hm by lia.
  destruct Hf as (_&_&_&_&->&->&->&->&->&->&_).
  assert (H1 : pushed t (F - 12) [] t) by (split; [cbn [length]; lia|done|done]).
  match goal with |- context [pushes t ?vs] => apply (pushed_pushes _ _ _ _ vs) in H1 end; [|cbn [length]; lia].
  apply (pushed_set_reg _ _ _ _ EFLAGS (Z.lor (regs (pushes t [F; c EDI; c EBP; c ESI; c EDX; c ECX; c EBX]) EFLAGS) IF)) in H1;
    [|discriminate].
  fold (sti (pushes t [F; c EDI; c EBP; c ESI; c EDX; c ECX; c EBX])) in H1.
  apply (pushed_pushes _ _ _ _ [ra]) in H1; [|cbn [length app]; lia].
  set (u := sti _) in *.
  assert (Hu : regs u SS = regs t SS /\ Z.testbit (regs u EFLAGS) 9 = true).
  { unfold u. read_pushes. split; [done|]. rewrite Z.lor_spec. change (Z.testbit IF 9) with true. apply orb_true_r. }
  change (push u ra) with (pushes u [ra]). clearbody u. destruct H1 as [He1 Hm1 Ht1]. cbn [app length] in He1, Hm1.
  assert (Hw : forall i w, [F; c EDI; c EBP; c ESI; c EDX; c ECX; c EBX; ra] !! i = Some w ->
    forall a, a = F - 12 - 4 * (Z.of_nat i + 1) -> rd (mem (pushes u [ra])) a = w).
  { intros i w Hi a ->. rewrite Hm1. by apply push_words_at. }
  split; rewrite ?regs_pushes by discriminate; try apply Hu.
  - lia.
  - destruct Hu as [-> _]. done.
  - unfold arg, word. rewrite He1. cbn [fmap list_fmap]. rewrite !u32_small by lia.
    rewrite (Hw 6%nat (c EBX)), (Hw 5%nat (c ECX)), (Hw 4%nat (c EDX)), (Hw 3%nat (c ESI)), (Hw 2%nat (c EBP)),
      (Hw 1%nat (c EDI)) by (reflexivity || lia). done.
  - intros a Ha. rewrite Hm1, push_words_below by (cbn [length]; lia). by apply Hm.
  - apply (Hw 0%nat F eq_refl). lia.
  - by eapply same_tasks_trans.
Qed.

Lemma known_handler s1 F v c : frame_at (mem s1) F c -> regs s1 ESP = F - 12 -> 300 <= F < 4294967296 - 400 ->
  regs s1 EBX = F -> regs s1 EAX = v -> get_handler (s32 v) <> 0 ->
  exists t4, sys_entered F c s1 t4 /\
  forall t5, sys_call (get_handler (s32 v)) t4 = Ret t5 -> regs t5 ESP = F - 44 -> rd (mem t5) (F - 16) = F ->
  exists s2, x86_trap_syscall_handler ra get_handler sys_call s1 = Ret s2 /\
    regs s2 ESP = F - 12 /\ regs s2 SS = regs t5 SS /\
    mem s2 = wr (mem t5) (F + 52) (regs t5 EAX) /\ same_tasks t5 s2.
Proof.
  intros Hf He Hb Hbx Hax Hg. unfold x86_trap_syscall_handler. cbv zeta. rewrite Hbx, Hax.
  destruct (lookup_handler s1 F v He Hb Hbx Hax) as (t & Et & Het & Hbt & Hat & Hr & Hm & _ & Ht).
  destruct (call _ _ (fun s => Ret (set_reg s EAX _))) as [u| | |]; try done.
  rewrite Ret_bind in Et |- *. injection Et as ->. rewrite Hat.
  destruct (Z.eqb_spec (get_handler (s32 v)) 0); [done|]. rewrite Hbt.
  exists (sys_called t F). split.
  { apply sys_state_entered; try done. apply Hr. rewrite !not_elem_of_cons. split_and!; try discriminate. apply not_elem_of_nil. }
  intros t5 H5 He5 Hw5. unfold call.
  replace (regs (sti _) EAX) with (get_handler (s32 v)) by (read_pushes; done).
  fold (sys_called t F). rewrite H5, !Ret_bind. eexists. split; [reflexivity|].
  remember (pop _ EBX) as w eqn:E. unfold cli in E.
  rewrite (add_esp_eq t5 (F - 44) 4) in E by (done || lia).
  rewrite (add_esp_eq _ (F - 40) 24) in E by (read_regs; lia).
  rewrite (pop_eq _ _ (F - 16)) in E by (read_regs; lia).
  rewrite !mem_set_reg, Hw5 in E. subst w. read_regs. rewrite u32_small by lia.
  split_and!; try done. change (F - 16 + 4 = F - 12). lia.
Qed.

(** The instruction [int $0x80]. *)
Definition system_call s : outcome machine :=
  isr_stub ra get_handler sys_call x86_irq_syscall (deliver s None).

Lemma system_call_entry s : entry_ok s ->
  system_call s = isr_common_stub_nec ra (nec_entry s (regs s EAX)) (x86_trap_syscall_handler ra get_handler sys_call).
Proof.
  intros Hok. unfold system_call, isr_stub. cbv zeta.
  replace (regs (cli (deliver s None)) EAX) with (regs s EAX); [done|].
  unfold cli. rewrite regs_set_ne by discriminate. symmetry. apply deliver_pushed; [done|].
  rewrite !not_elem_of_cons. split_and!; try discriminate. apply not_elem_of_nil.
Qed.

(** The end of a system call whose task goes on running. *)
Lemma system_call_ends s s2 ta v : entry_ok s ->
  x86_trap_syscall_handler ra get_handler sys_call (handler_state ra s (regs s EAX)) = Ret s2 ->
  regs s2 ESP = entry_frame s - 12 -> regs s2 SS = KERNEL_SS ->
  (forall a, entry_frame s <= a < entry_top s -> rd (mem s2) a =
    if decide (a = entry_frame s + 52) then v else rd (mem (handler_state ra s (regs s EAX))) a) ->
  tasks s2 !! current s2 = Some ta -> next_run s2 = current s2 ->
  exists s', system_call s = Ret s' /\ forall r, regs s' r = with_eax (regs s) v r.
Proof.
  intros Hok Hh He Hss Hm Hta Hn. pose proof (entry_room s Hok) as Hb.
  pose proof (frame_size_cases (regs s)) as Hfs. rewrite system_call_entry by done.
  destruct (nec_return ra s _ _ s2 ta (TaskCtx (entry_frame s) (flag ta) (pde_base_pa ta))
    (with_eax (regs s) v) Hok Hh He Hss Hta) as (s' & E & Hr & _).
  - rewrite Hn. apply lookup_insert_eq.
  - apply (frame_with_eax (mem (handler_state ra s (regs s EAX)))); [apply handler_called, Hok|].
    intros a Ha. cbn [stack_base] in *. apply Hm. unfold entry_frame in *. lia.
  - cbn [stack_base]. unfold entry_frame. lia.
  - cbn [stack_base]. lia.
  - eauto.
Qed.

(** C21: the system call convention.  A user or kernel task executes [int $0x80] with the
    number in [eax].  If the number has a handler, the C function is entered with the
    arguments [ebx], [ecx], [edx], [esi], [ebp], [edi] in this order, interrupts on, and
    the frame of the caller where [get_pt_regs] finds it; when it returns and no other task
    was chosen, the caller goes on with its result in [eax] and every other register as it
    was.  Without a handler the caller gets [-EINVAL] and nothing else changes. *)
Theorem system_call_convention s (Hok : entry_ok s) :
  (get_handler (s32 (regs s EAX)) = 0 ->
   forall ta, tasks s !! current s = Some ta -> next_run s = current s ->
   exists s', system_call s = Ret s' /\ forall r, regs s' r = with_eax (regs s) (u32 (- 22)) r) /\
  (get_handler (s32 (regs s EAX)) <> 0 ->
   exists t, arg t <$> [0; 1; 2; 3; 4; 5] =
       [regs s EBX; regs s ECX; regs s EDX; regs s ESI; regs s EBP; regs s EDI] /\
     Z.testbit (regs t EFLAGS) 9 = true /\
     get_pt_regs (set_reg t EBP (regs t ESP - 4)) = entry_frame s /\
     frame_at (mem t) (entry_frame s) (regs s) /\
     forall t' ta, sys_call (get_handler (s32 (regs s EAX))) t = Ret t' ->
       regs t' ESP = regs t ESP -> regs t' SS = regs t SS ->
       (forall a, entry_frame s - 16 <= a < entry_top s -> rd (mem t') a = rd (mem t) a) ->
       tasks t' !! current t' = Some ta -> next_run t' = current t' ->
       exists s', system_call s = Ret s' /\ forall r, regs s' r = with_eax (regs s) (regs t' EAX) r).
Proof.
  pose proof (handler_called ra s (regs s EAX) Hok) as Hc. destruct Hc as [C1 C2 C3 C4 C5 C6 C7].
  pose proof (entry_room s Hok) as Hb. pose proof (frame_size_cases (regs s)) as Hfs.
  assert (HF : 300 <= entry_frame s < 4294967296 - 400) by (unfold entry_frame; lia).
  assert (HE : entry_frame s + 72 <= entry_top s) by (unfold entry_frame; lia).
  split; intros Hg.
  - intros ta Hta Hn.
    destruct (unknown_handler _ _ _ C1 HF C4 C3 Hg) as (s2 & E2 & He2 & Hs2 & Hm2 & [T1 T2 T3 T4 T5]).
    destruct C7 as [T1' T2' T3' T4' T5'].
    apply (system_call_ends s s2 ta); try done; [congruence| |congruence|congruence].
    intros a Ha. apply Hm2. lia.
  - destruct (known_handler _ _ _ (regs s) C5 C1 HF C4 C3 Hg) as (t & [S1 S2 S3 S4 S5 S6 S7] & Hk).
    exists t. split_and!; [done|done| | |].
    + unfold get_pt_regs. rewrite regs_set_eq, S1. change (word (set_reg t _ _)) with (word t). unfold word.
      rewrite u32_small by lia. by replace (entry_frame s - 44 - 4 + 32) with (entry_frame s - 16) by lia.
    + apply (frame_at_keep _ _ _ _ C5). intros a Ha. apply S5. lia.
    + intros t' ta Hs He Hss Hm Hta Hn.
      destruct (Hk t' Hs) as (s2 & E2 & He2 & Hs2 & Hm2 & [T1 T2 T3 T4 T5]);
        [congruence|rewrite Hm; [done|lia]|].
      apply (system_call_ends s s2 ta); try done; [congruence| |congruence|congruence].
      intros a Ha. rewrite Hm2, rd_wr, Hm, S5 by lia. repeat case_decide; congruence || done.
Qed.
End Syscall.
