(* ===== verification/TrapSwitch.v ===== *)
(** * The switch from C and the first frame of a task

    [arch_switch_task_sw] saves a frame that returns to its caller and resumes the frame
    of the next task; [arch_set_up_task_stack] builds the frame a new task starts from. *)

From S2P Require Import Prelude X86 Trap TrapSpec TrapSyscall.

Implicit Types s : machine.

(** ** The switch from C *)

(** Where the caller goes on: behind the call, with the return address popped. *)
Definition caller_regs s : reg -> Z := fun r =>
  if decide (r = ESP) then regs s ESP + 4
  else if decide (r = EIP) then rd (mem s) (regs s ESP) else regs s r.

Lemma sw_return_address_spec s E : regs s ESP = E -> 100 <= E < 4294967296 - 400 ->
  let t := sw_return_address s in
  regs t ESP = E + 4 /\ (forall r, r <> ESP -> regs t r = regs s r) /\
  mem t = wr (wr (mem s) (E - 4) (regs s EAX)) (E - 8) (rd (mem s) E) /\ same_tasks s t.
Proof.
  intros HE Hb. cbv zeta.
  destruct (pushes_spec s [regs s EAX]) as (He & Hm & Hr & Ht); [cbn [length]; lia|].
  unfold sw_return_address. change (push s (regs s EAX)) with (pushes s [regs s EAX]).
  set (s1 := pushes _ _) in *. clearbody s1. cbv zeta. rewrite HE in *. cbn [length push_words] in *.
  remember (pop (add_esp s1 4) EAX) as s2 eqn:E2.
  rewrite (add_esp_eq s1 (E - 4) 4), (pop_eq _ _ E) in E2 by (rewrite ?regs_set_eq; lia).
  assert (Hv : rd (mem s1) E = rd (mem s) E) by (rewrite Hm; apply rd_wr_ne; lia).
  rewrite mem_set_reg, Hv in E2.
  assert (Hx : regs s2 ESP = E + 4 /\ regs s2 EAX = rd (mem s) E /\ mem s2 = mem s1 /\
    (forall r, r <> ESP -> r <> EAX -> regs s2 r = regs s r) /\ same_tasks s s2).
  { subst s2. split_and!; read_regs; try done; [|by destruct Ht].
    intros r ??. rewrite !regs_set_ne by done. by apply Hr. }
  clear E2 Hr Ht. destruct Hx as (X1 & X2 & X3 & X4 & X5).
  rewrite X1, X2. change (regs (set_word s2 _ _)) with (regs s2). rewrite X1. rewrite !u32_small by lia.
  replace (E + 4 - 12) with (E - 8) by lia. replace (E + 4 - 8) with (E - 4) by lia.
  unfold word. cbn [set_word mem]. rewrite X3, Hm, rd_wr_ne, rd_wr_eq by lia.
  split_and!; [by read_regs| |cbn [mem set_reg set_word]; by rewrite X3, Hm|by destruct X5].
  intros r Hr. destruct (decide (r = EAX)) as [->|Hne]; [by read_regs|].
  rewrite regs_set_ne by done. by apply X4.
Qed.

(** [add $-4, %esp] over a word that is already there is a push of it. *)
Lemma pushed_skip s0 E l s w : pushed s0 E l s -> 4 * (Z.of_nat (length l) + 1) <= E < 4294967296 ->
  mem s0 !! (E - 4 * (Z.of_nat (length l) + 1)) = Some w ->
  pushed s0 E (l ++ [w]) (add_esp s (-4)).
Proof.
  intros [He Hm Ht] Hb Hw. rewrite (add_esp_eq s (E - 4 * Z.of_nat (length l)) (-4)) by (done || lia).
  split; [|rewrite mem_set_reg, Hm, push_words_app|by destruct Ht].
  - rewrite regs_set_eq, length_app. cbn [length]. lia.
  - cbn [push_words]. symmetry. apply insert_id.
    assert (Hlow : forall vs sp m a, a < sp - 4 * Z.of_nat (length vs) -> push_words m sp vs !! a = m !! a).
    { clear. induction vs as [|v vs IH]; intros sp m a Ha; cbn [push_words length] in *; [done|].
      rewrite IH by lia. unfold wr. by rewrite lookup_insert_ne by lia. }
    rewrite Hlow by lia. rewrite <- Hw. f_equal. lia.
Qed.

Lemma sw_save_pushed s : 100 <= regs s ESP < 4294967296 - 400 ->
  mode_ok (regs s) -> user_mode (regs s CS) = false ->
  exists s0, (forall a, a < regs s ESP - 8 \/ regs s ESP <= a -> rd (mem s0) a = rd (mem s) a) /\
    pushed s0 (regs s ESP + 4) (frame_words (caller_regs s) 0 (regs s ESP + 4)) (sw_save s) /\
    regs (sw_save s) SS = regs s SS /\ same_tasks s s0.
Proof.
  intros Hb Hm Hu. set (E := regs s ESP) in *.
  destruct (sw_return_address_spec s E eq_refl Hb) as (T1 & T2 & T3 & T4).
  unfold sw_save. set (t := sw_return_address s) in *. exists t.
  assert (P0 : pushed t (E + 4) [] t) by (split; [cbn [length]; lia|done|done]).
  clearbody t. cbv zeta.
  apply (pushed_pushes _ _ _ _ [regs t EFLAGS; regs t CS]) in P0; [|cbn [length]; lia].
  apply (pushed_skip _ _ _ _ (rd (mem s) E)) in P0; [|cbn [length app]; lia|]; cycle 1.
  { cbn [length app]. rewrite T3. replace (E + 4 - _) with (E - 8) by lia. apply lookup_insert_eq. }
  apply (pushed_pushes _ _ _ _ [0]) in P0; [|cbn [length app]; lia].
  set (u := pushes _ [0]) in *. change (push (add_esp (pushes t _) (-4)) 0) with u.
  assert (Hr : forall r, r <> ESP -> regs u r = regs s r).
  { intros r Hr. unfold u. rewrite regs_pushes by done. unfold add_esp. rewrite regs_set_ne by done.
    rewrite regs_pushes by done. by apply T2. }
  clearbody u. unfold pusha. pose proof (pushed_esp _ _ _ _ P0) as Hue. cbn [app length] in Hue.
  rewrite Hue, !(regs_pushes u) by discriminate.
  rewrite (Hr EAX), (Hr ECX), (Hr EDX), (Hr EBX), (Hr EBP), (Hr ESI), (Hr EDI) by discriminate.
  rewrite (Hr SS), (Hr ES), (Hr DS), (Hr FS), (Hr GS) by discriminate.
  match goal with |- context [pushes (pushes u ?vs) ?ws] =>
    apply (pushed_pushes _ _ _ _ vs) in P0; [|cbn [length app]; lia];
    apply (pushed_pushes _ _ _ _ ws) in P0; [|cbn [length app]; lia] end.
  split_and!; [| |by rewrite !regs_pushes, Hr by discriminate|done].
  - intros a Ha. rewrite T3, !rd_wr_ne by lia. done.
  - unfold frame_words, mode_ok in *. unfold caller_regs.
    repeat match goal with |- context [decide (?r = ?r')] =>
      first [rewrite (decide_True (P := r = r')) by done | rewrite (decide_False (P := r = r')) by discriminate] end.
    rewrite Hu in *. destruct Hm as (H1&H2&H3&H4&H5&H6).
    rewrite (T2 EFLAGS), (T2 CS) in P0 by discriminate. rewrite H2, H3, H4, H5, H6 in P0 |- *.
    cbn [app] in P0 |- *. replace (E + 4 - 16) with (E + 4 - 4 * Z.of_nat 4) by lia. exact P0.
Qed.

(** C23: [arch_switch_task_sw], the switch a kernel function asks for.  The running task is
    left with a frame that resumes behind the call with every register the caller had and
    the return address popped, and the stub ends with exactly the registers [c] the frame of
    [next_run] stands for: to both tasks the switch looks like a function that returned. *)
Theorem switch_task_sw ra s ta tb c (Hb : 400 <= regs s ESP < 4294967296 - 400)
    (Hmode : mode_ok (regs s)) (Hk : user_mode (regs s CS) = false)
    (Hta : tasks s !! current s = Some ta) (Htb : tasks s !! next_run s = Some tb)
    (Hne : next_run s <> current s)
    (Hf : frame_at (mem s) (stack_base tb) c) (Hsb : 0 <= stack_base tb < 4294967296 - 80)
    (Hap : stack_base tb + frame_size c <= regs s ESP - 80 \/ regs s ESP + 4 <= stack_base tb) :
  exists s', arch_switch_task_sw ra s = Ret s' /\ (forall r, regs s' r = c r) /\
    current s' = next_run s /\
    tasks s' !! current s = Some (TaskCtx (regs s ESP - 68) (flag ta) (pde_base_pa ta)) /\
    frame_at (mem s') (regs s ESP - 68) (caller_regs s) /\
    (task_is_user tb = true -> rd (tss s') Tss.esp0 = stack_base tb /\ cr3 s' = pde_base_pa tb).
Proof.
  destruct (sw_save_pushed s ltac:(lia) Hmode Hk) as (s0 & M0 & [P1 P2 P3] & Hss & T0).
  pose proof (same_tasks_trans _ _ _ T0 P3) as [T1 T2 T3 T4 T5].
  unfold arch_switch_task_sw. set (t := sw_save s) in *. clearbody t. set (E := regs s ESP) in *.
  assert (Hu : user_mode (caller_regs s CS) = false) by exact Hk.
  rewrite frame_words_length in P1. unfold frame_size in P1. rewrite Hu in P1. change (72 / 4) with 18 in P1.
  destruct (switch_stacks_spec ra ESI t (E - 68) ta tb) as (s4&E4&He4&Hs4&Hm4&Ht4&Hc4&Hn4&Hsw);
    [lia|lia|discriminate|by rewrite T1, T2| |].
  { rewrite T1, T2, T3, lookup_insert_ne by done. exact Htb. }
  rewrite E4, Ret_bind. unfold mode_ok in Hmode. rewrite Hk in Hmode.
  assert (Hmt : forall a, a < E - 68 \/ E + 4 <= a -> rd (mem t) a = rd (mem s) a).
  { intros a Ha. rewrite P2, push_words_below; [apply M0; lia|].
    rewrite frame_words_length. unfold frame_size. rewrite Hu. change (72 / 4) with 18. lia. }
  destruct (exit_frame s4 c (stack_base tb)) as (Hr & Hm & [X1 X2 X3 X4 X5]); [done|done| | |].
  - rewrite Hs4, Hss. apply Hmode.
  - apply (frame_at_keep (mem s)); [done|]. pose proof (frame_size_cases c). intros a Ha. rewrite Hm4, Hmt by lia. done.
  - eexists. split; [reflexivity|]. rewrite X1, X2, X4, X5, Hm, Ht4, T2. split_and!; [done|congruence| | |].
    + apply lookup_insert_eq.
    + apply (frame_at_keep (mem t)).
      * rewrite P2. replace (E - 68) with (E + 4 - frame_size (caller_regs s))
          by (unfold frame_size; rewrite Hu; lia).
        rewrite <- (app_nil_r (frame_words _ _ _)). apply frame_words_frame; [|done].
        unfold mode_ok. rewrite Hu. exact Hmode.
      * unfold frame_size. rewrite Hu. intros a Ha. rewrite Hm4 by lia. done.
    + intros Huser. unfold switched in Hsw. rewrite Huser, T2, T3, T4 in Hsw.
      destruct (Z.eqb_spec (current s) (next_run s)); [congruence|]. cbn [orb negb] in Hsw.
      destruct Hsw as [-> ->]. by rewrite rd_wr_eq.
Qed.

(** ** New tasks *)

Lemma store_down_words vs m sp : 4 * Z.of_nat (length vs) <= sp < 4294967296 ->
  foldl store_down (m, sp) vs = (push_words m sp vs, sp - 4 * Z.of_nat (length vs)).
Proof.
  revert m sp. induction vs as [|v vs IH]; intros m sp Hb; cbn [foldl length push_words] in *; [f_equal; lia|].
  unfold store_down at 2. cbn [fst snd]. rewrite u32_small by lia. rewrite IH by lia. f_equal. lia.
Qed.

(** The registers a frame of [arch_set_up_task_stack] stands for: [edi] is not stored, its
    place holds [esi]. *)
Definition start_regs (r : pt_regs) (base : Z) : reg -> Z := fun x =>
  match x with
  | EAX => r_eax r | ECX => r_ecx r | EDX => r_edx r | EBX => r_ebx r | EBP => r_ebp r
  | ESI => r_esi r | EDI => r_esi r | EIP => r_eip r | EFLAGS => r_eflags r | CS => r_cs r
  | DS => r_ds r | ES => r_es r | FS => r_fs r | GS => r_gs r
  | SS => if user_mode (r_cs r) then r_ss r else KERNEL_SS
  | ESP => if user_mode (r_cs r) then r_esp_cr3 r else base - 8
  end.

Lemma set_up_task_stack_frame m base r : 80 <= base < 4294967296 ->
  u16 (r_gs r) = r_gs r -> u16 (r_fs r) = r_fs r -> u16 (r_ds r) = r_ds r -> u16 (r_es r) = r_es r ->
  u16 (r_cs r) = r_cs r -> u16 (r_ss r) = r_ss r ->
  exists m', arch_set_up_task_stack m base r = (m', base - 80) /\
    frame_at m' (base - 80) (start_regs r base) /\
    (forall a, a < base - 80 \/ base <= a -> rd m' a = rd m a).
Proof.
  intros Hb H1 H2 H3 H4 H5 H6. unfold arch_set_up_task_stack. rewrite store_down_words by (cbn [length]; lia).
  set (vs := [_; _; _; _; _; _; _; _; _; _; _; _; _; _; _; _; _; _; _; _]).
  assert (Hat : forall i a w, vs !! i = Some w -> a = base - 4 * (Z.of_nat i + 1) -> rd (push_words m base vs) a = w)
    by (intros; subst; by apply push_words_at).
  eexists. split; [done|]. split; [|intros a Ha; apply push_words_below; cbn [length vs]; lia].
  unfold frame_at. cbn [start_regs].
  rewrite (Hat 19%nat (base - 80) (r_gs r)), (Hat 18%nat (base - 80 + 4) (r_fs r)), (Hat 17%nat (base - 80 + 8) (r_ds r)),
    (Hat 16%nat (base - 80 + 12) (r_es r)), (Hat 13%nat (base - 80 + 24) (r_esi r)), (Hat 12%nat (base - 80 + 28) (r_esi r)),
    (Hat 11%nat (base - 80 + 32) (r_ebp r)), (Hat 9%nat (base - 80 + 40) (r_ebx r)), (Hat 8%nat (base - 80 + 44) (r_edx r)),
    (Hat 7%nat (base - 80 + 48) (r_ecx r)), (Hat 6%nat (base - 80 + 52) (r_eax r)), (Hat 4%nat (base - 80 + 60) (r_eip r)),
    (Hat 3%nat (base - 80 + 64) (r_cs r)), (Hat 2%nat (base - 80 + 68) (r_eflags r)), (Hat 1%nat (base - 80 + 72) (r_esp_cr3 r)),
    (Hat 0%nat (base - 80 + 76) (r_ss r)) by (reflexivity || lia).
  rewrite H1, H2, H3, H4, H5, H6. split_and!; try done. destruct (user_mode (r_cs r)); [done|]. split; [lia|done].
Qed.



(** ** What does not return to where it came from *)

(** [edi] is not in the frame: a task forked from a frame with another [edi] starts with
    its [esi] there. *)
Lemma forked_edi_lost r base : start_regs r base EDI = r_esi r.
Proof. done. Qed.

(** A device interrupt never ends: its handler is a jump to itself. *)
Lemma irq_never_returns ra get_handler sys_call n s :
  isr_stub ra get_handler sys_call (x86_irq n) s = NoFuel.
Proof. done. Qed.

(** The stub of the exceptions with an error code leaves the code on the stack: [iret]
    takes it for the address to go on at. *)
Lemma error_code_resumed s sp : regs s ESP = sp -> 0 <= sp < 4294967296 - 80 ->
  regs (iret (restore s)) EIP = rd (mem s) (sp + 56).
Proof.
  intros Hsp Hb. destruct (restore_regs s sp Hsp Hb) as (He&_&_&_&_&_&_&_&_&_&_&_&_&Hm&_).
  destruct (iret_regs (restore s) (sp + 56) He ltac:(lia)) as (Hip & _). by rewrite Hip, Hm.
Qed.

(** The ring 0 stack of a user task moves down by a frame each time the task is switched
    out and in again: [x86_setup_tss] takes the saved stack pointer, below the frame that is
    popped on the way out, for the top of the stack. *)
Lemma kernel_stack_drifts s s2 s' cur next t : user_mode (regs s CS) = true ->
  stack_base t = entry_frame s -> task_is_user t = true -> cur <> next -> switched s2 cur next t s' ->
  rd (tss s') Tss.esp0 = rd (tss s) Tss.esp0 - 80.
Proof.
  intros Hu Hb Ht Hne Hsw. unfold switched in Hsw. destruct (Z.eqb_spec cur next); [done|].
  rewrite Ht in Hsw. destruct Hsw as [-> _]. rewrite rd_wr_eq, Hb.
  unfold entry_frame, entry_top, frame_size. by rewrite Hu.
Qed.

(** ** Examples *)

Module TrapDemo.
Definition user_regs (r : reg) : Z :=
  match r with
  | EAX => 20 | ECX => 1 | EDX => 2 | EBX => 3 | ESP => 0x7ffff000 | EBP => 4 | ESI => 5 | EDI => 6
  | EIP => 0x404010 | EFLAGS => 0x202 | CS => USER_CS | SS => USER_SS | DS => USER_DS | ES => USER_ES
  | FS => USER_FS | GS => USER_GS
  end.
Definition kernel_regs (r : reg) : Z :=
  match r with
  | EAX => 20 | ECX => 1 | EDX => 2 | EBX => 3 | ESP => 0x90001f00 | EBP => 4 | ESI => 5 | EDI => 6
  | EIP => 0x80100000 | EFLAGS => 0x2 | CS => KERNEL_CS | SS => KERNEL_SS | DS => KERNEL_DS
  | ES => KERNEL_ES | FS => KERNEL_FS | GS => KERNEL_GS
  end.
Definition thread : pt_regs := arch_init_pt_regs 0x80123450 7.
Definition tss0 : gmap Z Z := {[ Tss.esp0 := 0x90002000; Tss.ss0 := KERNEL_SS ]}.
Definition ctx_a : task_ctx := TaskCtx 0x90002000 2 0x1000.
Definition ctx_b : task_ctx := TaskCtx (0x90006000 - 80) 1 0x2000.
Definition at_regs (c : reg -> Z) : machine :=
  Machine c (arch_set_up_task_stack ∅ 0x90006000 thread).1 {[ 1 := ctx_a; 2 := ctx_b ]} 1 1 tss0 0x1000.
Definition choose (t : Z) s : outcome machine :=
  Ret (Machine (regs s) (mem s) (tasks s) (current s) t (tss s) (cr3 s)).

Lemma choose_ok t s : exists s2, choose t s = Ret s2 /\ regs s2 = regs s /\ mem s2 = mem s /\
  tasks s2 = tasks s /\ current s2 = current s /\ next_run s2 = t.
Proof. eexists. by split_and!. Qed.

Lemma user_entry : entry_ok (at_regs user_regs).
Proof. by split; vm_compute. Qed.
Lemma thread_frame m : (forall a, 0x90005fb0 <= a < 0x90006000 ->
    rd m a = rd (arch_set_up_task_stack ∅ 0x90006000 thread).1 a) ->
  frame_at m (0x90006000 - 80) (start_regs thread 0x90006000).
Proof.
  intros Hm. destruct (set_up_task_stack_frame ∅ 0x90006000 thread) as (m' & E & Hf & _); [lia|done..|].
  apply (frame_at_keep m'); [exact Hf|]. intros a Ha. rewrite Hm by (change (frame_size _) with 72 in Ha; lia).
  by rewrite E.
Qed.
Lemma demo_called v : called (at_regs user_regs) v (handler_state 0 (at_regs user_regs) v).
Proof. apply handler_called, user_entry. Qed.
End TrapDemo.
Import TrapDemo.

Lemma context_switch_witness :
  exists s', isr_common_stub_nec 0 (nec_entry (at_regs user_regs) 0) (choose 2) = Ret s' /\
    regs s' EIP = 0x80123450 /\ regs s' EAX = 7 /\ current s' = 2 /\
    frame_at (mem s') (0x90002000 - 80) user_regs.
Proof.
  pose proof (demo_called 0) as [C1 C2 _ _ _ C6 [T1 T2 _ _ _]].
  destruct (choose_ok 2 (handler_state 0 (at_regs user_regs) 0)) as (s2 & E & R & M & T & Cu & N).
  rewrite T1 in T. rewrite T2 in Cu. change (tasks (at_regs user_regs)) with ({[1 := ctx_a; 2 := ctx_b]} : gmap Z task_ctx) in T.
  change (current (at_regs user_regs)) with 1 in Cu.
  destruct (context_switch 0 (at_regs user_regs) 0 (choose 2) s2 ctx_a ctx_b (start_regs thread 0x90006000))
    as (s' & Es & Hr & Hc & [_ Hf] & _).
  - exact user_entry.
  - exact E.
  - rewrite R. exact C1.
  - rewrite R. exact C2.
  - intros a _. rewrite M. reflexivity.
  - rewrite T, Cu. reflexivity.
  - rewrite T, Cu, N. reflexivity.
  - rewrite M. apply thread_frame. intros a Ha. rewrite C6; [reflexivity|].
    right. replace (entry_top (at_regs user_regs)) with 0x90002000 by reflexivity. lia.
  - change (stack_base ctx_b) with 0x90005fb0. lia.
  - right. vm_compute. discriminate.
  - exists s'. split; [exact Es|]. rewrite !Hr. split; [reflexivity|]. split; [reflexivity|].
    split; [rewrite Hc; exact N|exact Hf].
Defined.

Lemma trap_transparent_witness :
  exists s', isr_common_stub_nec 0 (nec_entry (at_regs user_regs) 0) (fun s => Ret s) = Ret s' /\
    forall r, regs s' r = user_regs r.
Proof.
  pose proof (demo_called 0) as [C1 C2 _ _ _ _ [T1 T2 T3 _ _]].
  destruct (trap_transparent 0 (at_regs user_regs) 0 (fun s => Ret s) (handler_state 0 (at_regs user_regs) 0) ctx_a)
    as (s' & E & Hr & _).
  - exact user_entry.
  - reflexivity.
  - exact C1.
  - exact C2.
  - reflexivity.
  - rewrite T1, T2. reflexivity.
  - rewrite T3, T2. reflexivity.
  - exists s'. split; [exact E|exact Hr].
Defined.

Lemma system_call_convention_witness :
  exists s', system_call 0 (fun _ => 0) (fun _ t => Ret t) (at_regs user_regs) = Ret s' /\
    regs s' EAX = u32 (- 22) /\ regs s' EBX = 3.
Proof.
  destruct (system_call_convention 0 (fun _ => 0) (fun _ t => Ret t) (at_regs user_regs) user_entry) as [Hn _].
  destruct (Hn eq_refl ctx_a eq_refl eq_refl) as (s' & E & Hr).
  exists s'. split; [exact E|]. rewrite !Hr. split; reflexivity.
Defined.

Lemma switch_task_sw_witness :
  exists s', arch_switch_task_sw 0 (Machine kernel_regs (mem (at_regs kernel_regs)) (tasks (at_regs kernel_regs)) 1 2 tss0 0)
      = Ret s' /\ regs s' EIP = 0x80123450 /\ current s' = 2.
Proof.
  destruct (switch_task_sw 0 (Machine kernel_regs (mem (at_regs kernel_regs)) (tasks (at_regs kernel_regs)) 1 2 tss0 0)
    ctx_a ctx_b (start_regs thread 0x90006000)) as (s' & E & Hr & Hc & _).
  - vm_compute. split; [discriminate|reflexivity].
  - vm_compute. repeat split.
  - reflexivity.
  - reflexivity.
  - reflexivity.
  - discriminate.
  - apply thread_frame. intros a _. reflexivity.
  - vm_compute. split; [discriminate|reflexivity].
  - right. vm_compute. discriminate.
  - exists s'. split; [exact E|]. rewrite Hr. split; [reflexivity|exact Hc].
Defined.
