(* ===== verification/Wshell.v ===== *)
(** * The shell's command line (userspace/bin/wshell)

    [read_command] cuts the line in its buffer into words, in place: the memory is bytes,
    the result an array of pointers.  What fgets left in the buffer is the initial memory.
    [parsing] looks for the operators among the words; here a pointer to a word is the word
    itself, None a null pointer. *)

From S2P Require Import Prelude CString.

(** ** read_command (read_command.c) *)

Definition MAXARG : Z := 20.

Definition SPC : Z := 32.
Definition TAB : Z := 9.
Definition NL : Z := 10.
Definition SLASH : Z := 47.

(** Both pointers stand on a blank of the same kind. *)
Fixpoint skip_blanks (fuel : nat) (m : bmem) (pStart pEnd : Z) : option (Z * Z) :=
  match fuel with
  | O => None
  | S fuel =>
    if ((rd m pEnd =? SPC) && (rd m pStart =? SPC)) || ((rd m pEnd =? TAB) && (rd m pStart =? TAB))
    then skip_blanks fuel m (pStart + 1) (pEnd + 1)
    else Some (pStart, pEnd)
  end.

Definition at_end (c : Z) : bool := (c =? 0) || (c =? NL).

(** A tab does not end a word. *)
Fixpoint word_end (fuel : nat) (m : bmem) (pEnd : Z) : option Z :=
  match fuel with
  | O => None
  | S fuel => if negb (rd m pEnd =? SPC) && negb (at_end (rd m pEnd)) then word_end fuel m (pEnd + 1) else Some pEnd
  end.

(** Backwards to the last slash. *)
Fixpoint last_slash (fuel : nat) (m : bmem) (pStart p : Z) : option Z :=
  match fuel with
  | O => None
  | S fuel => if negb (p =? pStart) && negb (rd m p =? SLASH) then last_slash fuel m pStart (p - 1) else Some p
  end.

Definition base_name (fuel : nat) (m : bmem) (pStart pEnd : Z) : option Z :=
  p ← last_slash fuel m pStart pEnd;
  Some (if rd m p =? SLASH then p + 1 else p).

(** What the loop leaves: memory, [command], [parameters], [count]; [None] for -1. *)
Definition rc_state : Type := bmem * Z * list Z * Z.

Fixpoint read_loop (fuel : nat) (s : rc_state) (pStart pEnd : Z) : option (option rc_state) :=
  match fuel with
  | O => None
  | S fuel' =>
    let '(m, command, parameters, count) := s in
    '(pStart, pEnd) ← skip_blanks fuel m pStart pEnd;
    if at_end (rd m pEnd) then Some (if count =? 0 then None else Some s)
    else
      pEnd ← word_end fuel m pEnd;
      r ← (if count =? 0 then
             p ← base_name fuel m pStart pEnd; Some (Some (pStart, <[0%nat := p]> parameters, 2))
           else if count <=? MAXARG then
             Some (Some (command, <[Z.to_nat (count - 1) := pStart]> parameters, count + 1))
           else Some None);
      match r with
      | None => Some (Some s)
      | Some (command, parameters, count) =>
        let m' := wr m pEnd 0 in
        if at_end (rd m pEnd) then Some (Some (m', command, parameters, count))
        else read_loop fuel' (m', command, parameters, count) (pEnd + 1) (pEnd + 1)
      end
  end.

(** [parameters] has [MAXARG + 2] entries. *)
Definition read_command (fuel : nat) (m : bmem) (buffer : Z) (parameters : list Z) : option (option rc_state) :=
  if rd m buffer =? 0 then Some None
  else
    r ← read_loop fuel (m, 0, parameters, 0) buffer buffer;
    match r with
    | None => Some None
    | Some (m, command, parameters, count) =>
      Some (Some (m, command, <[Z.to_nat (count - 1) := 0]> parameters, count))
    end.

(** ** parsing (parsing.c) *)

Definition BACKGROUND : Z := 1.
Definition IN_REDIRECT : Z := 2.
Definition OUT_REDIRECT : Z := 4.
Definition OUT_REDIRECT_APPEND : Z := 8.
Definition IS_PIPED : Z := 16.

Definition text : Type := list Z.
Notation params := (list (option text)).

Record parse_info := ParseInfo {
  pi_flag : Z; in_file : option text; out_file : option text; command2 : option text; parameters2 : params }.

Definition parse_info_init : parse_info := ParseInfo 0 None None None [].

Definition AMP : text := [38].
Definition LT : text := [60].
Definition LTLT : text := [60; 60].
Definition GT : text := [62].
Definition GTGT : text := [62; 62].
Definition PIPE : text := [124].

(** The part of a word behind its last slash; a slash as last character leaves nothing. *)
Fixpoint behind_slash (best w : text) : text :=
  match w with
  | [] => best
  | c :: w => behind_slash (if c =? SLASH then w else best) w
  end.
Definition basename (w : text) : text := behind_slash w w.

(** [parameters[i]], a fault where there is none. *)
Definition word_at (ps : params) (i : nat) : outcome text :=
  match ps !! i with Some (Some w) => mret w | _ => Fault end.
Definition pointer_at (ps : params) (i : nat) : outcome (option text) :=
  match ps !! i with Some p => mret p | None => Fault end.

Definition is_word (w s : text) : bool := bool_decide (w = s).

(** A redirection: the flag, and the word behind the operator as the file. *)
Definition redirect (info : parse_info) (flag : Z) (input : bool) (file : option text) : parse_info :=
  ParseInfo (Z.lor (pi_flag info) flag) (if input then file else in_file info) (if input then out_file info else file)
    (command2 info) (parameters2 info).

Fixpoint parse_loop (fuel : nat) (ps : params) (num : nat) (i : nat) (info : parse_info) : outcome (params * parse_info) :=
  match fuel with
  | O => NoFuel
  | S fuel =>
    if (i <? num)%nat then
      w ← word_at ps i;
      let ps' := <[i := None]> ps in
      if is_word w LTLT || is_word w LT then
        f ← pointer_at ps (i + 1); parse_loop fuel ps' num (i + 2) (redirect info IN_REDIRECT true f)
      else if is_word w GT then
        f ← pointer_at ps (i + 1); parse_loop fuel ps' num (i + 2) (redirect info OUT_REDIRECT false f)
      else if is_word w GTGT then
        f ← pointer_at ps (i + 1); parse_loop fuel ps' num (i + 2) (redirect info OUT_REDIRECT_APPEND false f)
      else if is_word w PIPE then
        w2 ← word_at ps (i + 1);
        let ps' := <[(i + 1)%nat := Some (basename w2)]> ps' in
        mret (ps', ParseInfo (Z.lor (pi_flag info) IS_PIPED) (in_file info) (out_file info) (Some w2) (drop (i + 1) ps'))
      else parse_loop fuel ps num (i + 1) info
    else mret (ps, info)
  end.

Definition parsing (ps : params) (ParaNum : nat) : outcome (params * parse_info) :=
  w ← match ParaNum with O => Fault | S k => word_at ps k end;
  if is_word w AMP then
    parse_loop (S ParaNum) (<[(ParaNum - 1)%nat := None]> ps) (ParaNum - 1) 0
      (ParseInfo BACKGROUND None None None [])
  else parse_loop (S ParaNum) ps ParaNum 0 parse_info_init.

(** ** Background processes (wshell.c) *)

Definition MAXPIDTABLE : nat := 1024.

(** The loop of [main] over [BPTable]. *)
Definition BPTable_init : list Z := replicate MAXPIDTABLE 0.

(** The loop of [proc] that registers a child; its counter always ends at [MAXPIDTABLE], so
    the message of a full table is always printed. *)
Definition register_background (table : list Z) (ChdPid : Z) : list Z :=
  (fun pid => if pid =? 0 then ChdPid else pid) <$> table.

Section Handler.
(** [waitpid(pid, NULL, WNOHANG)] of the C library, on a state of the processes. *)
Context {W : Type} (waitpid : W -> Z -> Z * W).

Fixpoint sig_handler (table : list Z) (w : W) : list Z * W :=
  match table with
  | [] => ([], w)
  | e :: table =>
    let '(e', w) :=
      if negb (e =? 0) then
        let '(pid, w) := waitpid w e in
        if 0 <? pid then (0, w) else (e, w)
      else (e, w) in
    let '(table, w) := sig_handler table w in
    (e' :: table, w)
  end.
End Handler.
