(* ===== verification/WshellParse.v ===== *)
(** * The shell finds the operators of a command line

    [scan] reads the words from left to right; [parsing] does the same in the array of
    words, and the words before the first operator are the arguments of the command. *)

From S2P Require Import Prelude CString Wshell.

(** What [execvp] sees of an array: the words up to the first null pointer. *)
Fixpoint argv (ps : params) : list text :=
  match ps with Some w :: ps => w :: argv ps | _ => [] end.

Inductive operator := Redir (flag : Z) (input : bool) | Pipe.

Definition operator_of (w : text) : option operator :=
  if is_word w LTLT || is_word w LT then Some (Redir IN_REDIRECT true)
  else if is_word w GT then Some (Redir OUT_REDIRECT false)
  else if is_word w GTGT then Some (Redir OUT_REDIRECT_APPEND false)
  else if is_word w PIPE then Some Pipe
  else None.

(** The words before the first operator. *)
Fixpoint before_operator (l : list text) : list text :=
  match l with
  | [] => []
  | w :: l => match operator_of w with None => w :: before_operator l | Some _ => [] end
  end.

(** The reference: redirections in order, up to a pipe; [pad] is what follows the words in
    the array.  A pipe without a command has no answer. *)
Fixpoint scan (pad : params) (l : list text) (info : parse_info) : option parse_info :=
  match l with
  | [] => Some info
  | w :: l =>
    match operator_of w with
    | None => scan pad l info
    | Some (Redir flag input) =>
      match l with
      | [] => Some (redirect info flag input None)
      | f :: l => scan pad l (redirect info flag input (Some f))
      end
    | Some Pipe =>
      match l with
      | [] => None
      | w2 :: l => Some (ParseInfo (Z.lor (pi_flag info) IS_PIPED) (in_file info) (out_file info) (Some w2)
                          (Some (basename w2) :: (Some <$> l) ++ None :: pad))
      end
    end
  end.

Lemma argv_words l ps : argv ((Some <$> l) ++ None :: ps) = l.
Proof. induction l as [|w l IH]; simpl; [done|]. f_equal. exact IH. Qed.

(** The array while the loop stands on its entry [length pre]. *)
Definition array (pre : params) (l : list text) (pad : params) : params := pre ++ (Some <$> l) ++ None :: pad.

Lemma array_word pre w l pad : word_at (array pre (w :: l) pad) (length pre) = Ret w.
Proof. unfold word_at, array. rewrite lookup_app_r by lia. by rewrite Nat.sub_diag. Qed.

Lemma array_next pre w l pad : pointer_at (array pre (w :: l) pad) (length pre + 1) = Ret (head l).
Proof.
  unfold pointer_at, array. rewrite lookup_app_r by lia. replace (length pre + 1 - length pre)%nat with 1%nat by lia.
  by destruct l.
Qed.

Lemma array_cut pre w l pad : <[length pre := None]> (array pre (w :: l) pad) = array (pre ++ [None]) l pad.
Proof. unfold array. rewrite insert_app_r_alt by lia. rewrite Nat.sub_diag. simpl. by rewrite <- app_assoc. Qed.

Lemma array_shift pre w l pad : array pre (w :: l) pad = array (pre ++ [Some w]) l pad.
Proof. unfold array. simpl. by rewrite <- app_assoc. Qed.

Definition done_parse (pre : params) (l : list text) (r : option parse_info) (o : outcome (params * parse_info)) : Prop :=
  match r with
  | Some info => exists rest, o = Ret (pre ++ rest, info) /\ argv rest = before_operator l
  | None => o = Fault
  end.

Section Loop.
Context (pad : params).

Definition loop_ok (l : list text) : Prop := forall fuel pre info, (length l < fuel)%nat ->
  done_parse pre l (scan pad l info) (parse_loop fuel (array pre l pad) (length pre + length l) (length pre) info).

(** One redirection. *)
Lemma redirect_ok w o l fuel pre info flag input : operator_of w = Some o -> (forall f l', l = f :: l' -> loop_ok l') ->
  (length l < fuel)%nat ->
  done_parse pre (w :: l)
    (match l with [] => Some (redirect info flag input None) | f :: l => scan pad l (redirect info flag input (Some f)) end)
    (f ← pointer_at (array pre (w :: l) pad) (length pre + 1);
     parse_loop fuel (<[length pre := None]> (array pre (w :: l) pad)) (length pre + S (length l)) (length pre + 2)
       (redirect info flag input f)).
Proof.
  intros Eo IH Hf. rewrite array_next, Ret_bind, array_cut. destruct l as [|f l]; cbn [head].
  - destruct fuel as [|fuel]; [simpl in Hf; lia|]. cbn [parse_loop length].
    destruct (Nat.ltb_spec (length pre + 2) (length pre + 1)); [lia|].
    exists (None :: None :: pad). split; [unfold array; simpl; by rewrite <- app_assoc|]. simpl. by rewrite Eo.
  - simpl in Hf. specialize (IH f l eq_refl fuel ((pre ++ [None]) ++ [Some f]) (redirect info flag input (Some f)) ltac:(lia)).
    rewrite array_shift. rewrite !length_app in IH. simpl in IH.
    replace (length pre + 1 + 1)%nat with (length pre + 2)%nat in IH by lia.
    replace (length pre + 2 + length l)%nat with (length pre + S (S (length l)))%nat in IH by lia. simpl.
    unfold done_parse in *. destruct (scan pad l _) as [info'|]; [|done]. destruct IH as (rest & -> & _).
    exists (None :: Some f :: rest). rewrite <- !app_assoc. split; [done|]. cbn [before_operator argv]. by rewrite Eo.
Qed.

Lemma pipe_ok w l pre info : operator_of w = Some Pipe ->
  done_parse pre (w :: l)
    (match l with
     | [] => None
     | w2 :: l => Some (ParseInfo (Z.lor (pi_flag info) IS_PIPED) (in_file info) (out_file info) (Some w2)
                         (Some (basename w2) :: (Some <$> l) ++ None :: pad))
     end)
    (w2 ← word_at (array pre (w :: l) pad) (length pre + 1);
     let ps' := <[(length pre + 1)%nat := Some (basename w2)]> (<[length pre := None]> (array pre (w :: l) pad)) in
     mret (ps', ParseInfo (Z.lor (pi_flag info) IS_PIPED) (in_file info) (out_file info) (Some w2) (drop (length pre + 1) ps'))).
Proof.
  intros Eo. rewrite array_cut.
  assert (word_at (array pre (w :: l) pad) (length pre + 1) = match l with w2 :: _ => Ret w2 | [] => Fault end) as ->.
  { unfold word_at, array. rewrite lookup_app_r by lia. replace (length pre + 1 - length pre)%nat with 1%nat by lia. by destruct l. }
  destruct l as [|w2 l]; [done|]. rewrite Ret_bind.
  assert (<[(length pre + 1)%nat := Some (basename w2)]> (array (pre ++ [None]) (w2 :: l) pad) =
    (pre ++ [None]) ++ Some (basename w2) :: (Some <$> l) ++ None :: pad) as ->.
  { unfold array. rewrite insert_app_r_alt by (rewrite length_app; simpl; lia). rewrite length_app. simpl. by rewrite Nat.sub_diag. }
  cbv zeta. rewrite drop_app_length' by (rewrite length_app; simpl; lia).
  exists (None :: Some (basename w2) :: (Some <$> l) ++ None :: pad). rewrite <- app_assoc. split; [done|].
  cbn [before_operator argv]. by rewrite Eo.
Qed.

Lemma loop_all n : forall l, (length l < n)%nat -> loop_ok l.
Proof.
  induction n as [|n IH]; intros l Hn fuel pre info Hf; [lia|]. destruct fuel as [|fuel]; [lia|]. cbn [parse_loop].
  destruct l as [|w l].
  { simpl. rewrite Nat.add_0_r, Nat.ltb_irrefl. exists (None :: pad). by split. }
  cbn [length] in *. destruct (Nat.ltb_spec (length pre) (length pre + S (length l))); [|lia].
  rewrite array_word, Ret_bind. cbn [scan].
  assert (forall f l', l = f :: l' -> loop_ok l') as IH2 by (intros f l' ->; apply IH; simpl in Hn; lia).
  assert (length l < fuel)%nat as Hf' by lia.
  destruct (operator_of w) as [o|] eqn:Eo.
  - pose proof Eo as Eo'. unfold operator_of in Eo'.
    destruct (is_word w LTLT || is_word w LT); [injection Eo' as <-; by eapply redirect_ok|].
    destruct (is_word w GT); [injection Eo' as <-; by eapply redirect_ok|].
    destruct (is_word w GTGT); [injection Eo' as <-; by eapply redirect_ok|].
    destruct (is_word w PIPE); [injection Eo' as <-; by apply pipe_ok|done].
  - pose proof Eo as Eo'. unfold operator_of in Eo'.
    destruct (is_word w LTLT || is_word w LT); [done|]. destruct (is_word w GT); [done|].
    destruct (is_word w GTGT); [done|]. destruct (is_word w PIPE); [done|].
    specialize (IH l ltac:(lia) fuel (pre ++ [Some w]) info Hf'). rewrite array_shift. rewrite length_app in IH. simpl in IH.
    replace (length pre + 1 + length l)%nat with (length pre + S (length l))%nat in IH by lia.
    unfold done_parse in *. destruct (scan pad l info) as [info'|]; [|done]. destruct IH as (rest & -> & Ea).
    exists (Some w :: rest). rewrite <- app_assoc. split; [done|]. cbn [argv before_operator]. by rewrite Eo, Ea.
Qed.
End Loop.

(** The words without a final ampersand. *)
Definition foreground (ws : list text) : list text :=
  if is_word (List.last ws []) AMP then removelast ws else ws.

(** C38: [parsing] finds the operators of a command line: the flags, the files of the
    redirections and the command behind a pipe are those of a scan of the words from left
    to right, without a final ampersand, which only sets the flag for the background; what
    is left in the array for the first command are the words before the first operator.
    A line that ends in a pipe makes it follow a null pointer. *)
Theorem parsing_correct ws pad (Hne : ws <> []) :
  let l := foreground ws in
  let info := if is_word (List.last ws []) AMP then ParseInfo BACKGROUND None None None [] else parse_info_init in
  match scan (if is_word (List.last ws []) AMP then None :: pad else pad) l info with
  | Some info' => exists ps, parsing ((Some <$> ws) ++ None :: pad) (length ws) = Ret (ps, info') /\ argv ps = before_operator l
  | None => parsing ((Some <$> ws) ++ None :: pad) (length ws) = Fault
  end.
Proof.
  destruct (exists_last Hne) as (ws' & w & ->). unfold parsing, foreground. rewrite length_app, List.last_last. simpl length.
  replace (length ws' + 1)%nat with (S (length ws')) by lia.
  assert (word_at ((Some <$> ws' ++ [w]) ++ None :: pad) (length ws') = Ret w) as ->.
  { unfold word_at. rewrite fmap_app, <- app_assoc, lookup_app_r by (by rewrite length_fmap). by rewrite length_fmap, Nat.sub_diag. }
  rewrite Ret_bind. destruct (is_word w AMP) eqn:Ea.
  - rewrite removelast_last. replace (S (length ws') - 1)%nat with (length ws') by lia.
    assert (<[length ws' := None]> ((Some <$> ws' ++ [w]) ++ None :: pad) = array [] ws' (None :: pad)) as ->.
    { unfold array. rewrite fmap_app, <- app_assoc, insert_app_r_alt by (by rewrite length_fmap). by rewrite length_fmap, Nat.sub_diag. }
    pose proof (loop_all (None :: pad) (S (length ws')) ws' ltac:(lia) (S (S (length ws'))) [] (ParseInfo BACKGROUND None None None []) ltac:(lia)) as H.
    simpl length in H. unfold done_parse in H. destruct (scan _ _ _); [|exact H]. destruct H as (rest & E & Er). exists rest. by split.
  - pose proof (loop_all pad (S (S (length ws'))) (ws' ++ [w]) ltac:(rewrite length_app; simpl; lia) (S (S (length ws'))) [] parse_info_init
      ltac:(rewrite length_app; simpl; lia)) as H.
    simpl length in H. rewrite length_app in H. simpl length in H. replace (0 + (length ws' + 1))%nat with (S (length ws')) in H by lia.
    unfold done_parse in H. destruct (scan _ _ _); [|exact H]. destruct H as (rest & E & Er). exists rest. by split.
Qed.

(** ls -l /bin | more &, and cat < a > b. *)
Definition ls : text := [108; 115].
Definition cat : text := [99; 97; 116].
Lemma parsing_correct_witness :
  exists ps, parsing ((Some <$> [cat; LT; [97]; GT; [98]]) ++ [None]) 5 =
    Ret (ps, ParseInfo (Z.lor IN_REDIRECT OUT_REDIRECT) (Some [97]) (Some [98]) None []) /\ argv ps = [cat].
Proof. exact (parsing_correct [cat; LT; [97]; GT; [98]] [] ltac:(discriminate)). Defined.

(** ** Behaviour that is not meant *)
Module ShellFaults.
(** Behind a pipe operators are arguments: ls | cat > b. *)
Lemma pipe_hides_redirection : match parsing ((Some <$> [ls; PIPE; cat; GT; [98]]) ++ [None]) 5 with
  | Ret (_, info) => argv (parameters2 info) = [cat; GT; [98]] /\ out_file info = None
  | _ => False
  end.
Proof. by vm_compute. Qed.

(** A here document is taken for a redirection. *)
Lemma here_document_redirects : match parsing ((Some <$> [cat; LTLT; [97]]) ++ [None]) 3 with
  | Ret (_, info) => in_file info = Some [97]
  | _ => False
  end.
Proof. by vm_compute. Qed.

(** The first background process takes every entry of the table, so a second one is not
    registered. *)
Lemma register_fills pid table : Forall (fun e => e = 0) table -> register_background table pid = replicate (length table) pid.
Proof. unfold register_background. induction 1 as [|e table -> _ IH]; [done|]. cbn. f_equal. exact IH. Qed.

Lemma second_job_lost pid pid2 : pid <> 0 ->
  register_background (register_background BPTable_init pid) pid2 = register_background BPTable_init pid.
Proof.
  intros H. unfold register_background. rewrite <- list_fmap_compose. apply list_fmap_ext. intros i e _. simpl.
  destruct (Z.eqb_spec e 0); [by rewrite (proj2 (Z.eqb_neq pid 0))|by rewrite (proj2 (Z.eqb_neq e 0))].
Qed.

(** The handler waits for it once per entry: the wait that succeeds clears one, and where
    every further wait fails, as for a child that is gone, the others keep the dead
    process. *)
Lemma dead_job_stays (W : Type) (waitpid : W -> Z -> Z * W) (gone : W) pid table :
  (forall p, waitpid gone p = (-1, gone)) -> sig_handler waitpid (replicate table pid) gone = (replicate table pid, gone).
Proof.
  intros Hw. induction table as [|n IH]; [done|]. cbn [replicate sig_handler]. rewrite Hw.
  destruct (negb (pid =? 0)); simpl; by rewrite IH.
Qed.
End ShellFaults.
