(* ===== verification/WshellRead.v ===== *)
(** * The shell cuts a line into words

    [tokens] reads a line from left to right and gives the words with their places;
    [read_command] leaves them as strings in its buffer, with the pointers in its array. *)

From S2P Require Import Prelude CString Wshell.

Definition blank (c : Z) : bool := (c =? SPC) || (c =? TAB).

(** What fgets leaves of a line before its end. *)
Definition line_char (c : Z) : Prop := 0 < c < 256 /\ c <> NL.

(** The words of a line that starts at [p], with their addresses; [cur] is the word that
    has been begun.  Blanks and tabs come before a word, only a blank ends it. *)
Fixpoint tokens (p : Z) (cur : option (Z * text)) (l : text) : list (Z * text) :=
  match l, cur with
  | [], None => []
  | [], Some w => [w]
  | c :: l, None => if blank c then tokens (p + 1) None l else tokens (p + 1) (Some (p, [c])) l
  | c :: l, Some (s, w) => if c =? SPC then (s, w) :: tokens (p + 1) None l else tokens (p + 1) (Some (s, w ++ [c])) l
  end.

Lemma line_char_end c : line_char c -> at_end c = false.
Proof. intros [H1 H2]. unfold at_end. apply orb_false_iff. split; apply Z.eqb_neq; [lia|done]. Qed.

Lemma at_end_not c x : at_end c = true -> x <> 0 -> x <> NL -> (c =? x) = false.
Proof. unfold at_end. intros [H|H]%orb_prop Hx Hn; apply Z.eqb_eq in H; apply Z.eqb_neq; congruence. Qed.

(** ** The three inner loops *)
Section Line.
Context (m : bmem) (t : Z) (Ht : at_end t = true).

Lemma skip_blanks_ok fuel b r p : Forall (fun c => blank c = true) b -> (forall c, head (r ++ [t]) = Some c -> blank c = false) ->
  bytes_at m p (b ++ r ++ [t]) -> (length b < fuel)%nat ->
  skip_blanks fuel m p p = Some (p + Z.of_nat (length b), p + Z.of_nat (length b)).
Proof.
  revert p b. induction fuel as [|fuel IH]; intros p b Hbl Hr Hb Hf; [lia|]. cbn [skip_blanks]. destruct b as [|c b].
  - simpl in *. rewrite Z.add_0_r. destruct (r ++ [t]) as [|c r'] eqn:E; [by destruct r|]. apply bytes_at_cons in Hb as [-> _].
    specialize (Hr c eq_refl). unfold blank in Hr. by rewrite !andb_diag, Hr.
  - rewrite <- app_comm_cons in Hb. apply bytes_at_cons in Hb as [-> Hb]. inversion Hbl as [|? ? Hc Hbl']. subst. unfold blank in Hc.
    rewrite !andb_diag, Hc. simpl in Hf. rewrite (IH (p + 1) b); [|done..|lia]. simpl. by rewrite Nat2Z.inj_succ, <- Z.add_assoc, Z.add_1_l.
Qed.

Lemma word_end_ok fuel u c p : Forall (fun c => line_char c /\ c <> SPC) u -> (c = SPC \/ at_end c = true) ->
  bytes_at m p (u ++ [c]) -> (length u < fuel)%nat -> word_end fuel m p = Some (p + Z.of_nat (length u)).
Proof.
  revert p u. induction fuel as [|fuel IH]; intros p u Hu Hc Hb Hf; [lia|]. cbn [word_end]. destruct u as [|x u].
  - apply bytes_at_cons in Hb as [-> _]. simpl. rewrite Z.add_0_r. destruct Hc as [->|Hc]; [done|]. by rewrite Hc, andb_false_r.
  - apply bytes_at_cons in Hb as [-> Hb]. inversion Hu as [|? ? [Hx Hs] Hu']. subst.
    rewrite (line_char_end x Hx), (proj2 (Z.eqb_neq x SPC) Hs). simpl in *. rewrite (IH (p + 1) u); [|done..|lia].
    by rewrite Nat2Z.inj_succ, <- Z.add_assoc, Z.add_1_l.
Qed.

Lemma last_slash_down n fuel q p : p <= q -> (forall i, q < i <= q + Z.of_nat n -> rd m i <> SLASH) -> (q = p \/ rd m q = SLASH) ->
  (n < fuel)%nat -> last_slash fuel m p (q + Z.of_nat n) = Some q.
Proof.
  revert fuel. induction n as [|n IH]; intros fuel Hp Hi Hq Hf; (destruct fuel as [|fuel]; [lia|]); cbn [last_slash].
  - rewrite Z.add_0_r. destruct Hq as [->|Hq]; [by rewrite Z.eqb_refl|]. by rewrite Hq, Z.eqb_refl, andb_false_r.
  - rewrite (proj2 (Z.eqb_neq _ p)) by lia. rewrite (proj2 (Z.eqb_neq _ SLASH)) by (apply Hi; lia). simpl.
    replace (q + Z.of_nat (S n) - 1) with (q + Z.of_nat n) by lia. apply IH; [done| |done|lia]. intros i H. apply Hi. lia.
Qed.
End Line.

(** [basename]: behind the last slash, or the whole word. *)
Lemma basename_cases w : (Forall (fun c => c <> SLASH) w /\ basename w = w) \/
  exists a b, w = a ++ SLASH :: b /\ Forall (fun c => c <> SLASH) b /\ basename w = b.
Proof.
  assert (forall w best, (Forall (fun c => c <> SLASH) w /\ behind_slash best w = best) \/
    exists a b, w = a ++ SLASH :: b /\ Forall (fun c => c <> SLASH) b /\ behind_slash best w = b) as H.
  { clear w. induction w as [|c w IH]; intros best; [by left|]. cbn [behind_slash].
    destruct (IH (if c =? SLASH then w else best)) as [[H E]|(a & b & E & Hb & E')].
    - destruct (Z.eqb_spec c SLASH) as [->|Hc]; [right; by exists [], w|left]. by split; [constructor|].
    - right. exists (c :: a), b. by rewrite E at 1. }
  exact (H w w).
Qed.

Lemma bytes_at_not m p w i : bytes_at m p w -> Forall (fun c => c <> SLASH) w -> p <= i < p + Z.of_nat (length w) -> rd m i <> SLASH.
Proof.
  intros Hb Hw Hi. destruct (lookup_lt_is_Some_2 w (Z.to_nat (i - p))) as [c Hc]; [lia|].
  pose proof (Hb _ _ Hc) as E. replace (p + Z.of_nat (Z.to_nat (i - p))) with i in E by lia. rewrite E. by eapply Forall_lookup_1 in Hw.
Qed.

Lemma base_name_ok m fuel p w : bytes_at m p w -> rd m (p + Z.of_nat (length w)) <> SLASH -> (length w < fuel)%nat ->
  base_name fuel m p (p + Z.of_nat (length w)) = Some (p + Z.of_nat (length w - length (basename w))).
Proof.
  intros Hb He Hf. unfold base_name. destruct (basename_cases w) as [[Hw ->]|(a & b & -> & Hw & ->)].
  - assert (forall i, p <= i <= p + Z.of_nat (length w) -> rd m i <> SLASH) as Hn.
    { intros i Hi. destruct (Z.eq_dec i (p + Z.of_nat (length w))) as [->|]; [done|]. apply (bytes_at_not m p w); [done..|lia]. }
    rewrite last_slash_down; [|lia|intros i Hi; apply Hn; lia|by left|done].
    cbn [mbind option_bind]. rewrite (proj2 (Z.eqb_neq _ _) (Hn p ltac:(lia))), Nat.sub_diag. by rewrite Z.add_0_r.
  - apply bytes_at_app in Hb as [_ Hb]. apply bytes_at_cons in Hb as [Es Hb]. rewrite length_app in *. simpl length in *.
    replace (p + Z.of_nat (length a + S (length b))) with (p + Z.of_nat (length a) + Z.of_nat (S (length b))) by lia.
    rewrite last_slash_down; [|lia| |by right|lia].
    + cbn [mbind option_bind]. rewrite Es, Z.eqb_refl. f_equal. lia.
    + intros i Hi. destruct (Z.eq_dec i (p + Z.of_nat (length a + S (length b)))) as [->|]; [done|].
      apply (bytes_at_not m _ b i Hb Hw). lia.
Qed.

(** ** One word *)

Lemma tokens_blanks b l p : Forall (fun c => blank c = true) b -> tokens p None (b ++ l) = tokens (p + Z.of_nat (length b)) None l.
Proof.
  revert p. induction b as [|c b IH]; intros p Hb; [simpl; by rewrite Z.add_0_r|]. inversion Hb. subst. cbn [app tokens length].
  rewrite H1, IH by done. f_equal. lia.
Qed.

Lemma tokens_word u l s w p : Forall (fun c => line_char c /\ c <> SPC) u ->
  tokens p (Some (s, w)) (u ++ l) = tokens (p + Z.of_nat (length u)) (Some (s, w ++ u)) l.
Proof.
  revert p w. induction u as [|c u IH]; intros p w Hu; [simpl; by rewrite Z.add_0_r, app_nil_r|].
  inversion Hu as [|? ? [_ Hc] Hu']. subst. cbn [app tokens length]. rewrite (proj2 (Z.eqb_neq c SPC) Hc), IH by done.
  rewrite <- app_assoc. simpl. f_equal. lia.
Qed.

(** Blanks, a word, and a blank with the rest or the end of the line. *)
Lemma cut_line l : Forall line_char l ->
  exists b r, l = b ++ r /\ Forall (fun c => blank c = true) b /\
    (r = [] \/ exists c u rest, r = (c :: u) ++ rest /\ blank c = false /\ Forall (fun c => line_char c /\ c <> SPC) (c :: u) /\
      (rest = [] \/ exists l', rest = SPC :: l')).
Proof.
  induction l as [|c l IH]; intros Hl; [exists [], []; auto|]. inversion Hl as [|? ? Hc Hl']. subst.
  destruct (blank c) eqn:Eb.
  { destruct (IH Hl') as (b & r & -> & Hb & Hr). exists (c :: b), r. split; [done|]. split; [by constructor|done]. }
  exists [], (c :: l). split; [done|]. split; [done|]. right.
  assert (exists u rest, l = u ++ rest /\ Forall (fun c => line_char c /\ c <> SPC) u /\ (rest = [] \/ exists l', rest = SPC :: l'))
    as (u & rest & -> & Hu & Hr).
  { clear IH Hl Eb Hc c. induction l as [|c l IH]; [exists [], []; auto|]. inversion Hl' as [|? ? Hc Hl]. subst.
    destruct (Z.eq_dec c SPC) as [->|Hs]; [exists [], (SPC :: l); eauto|].
    destruct (IH Hl) as (u & rest & -> & Hu & Hr). exists (c :: u), rest. split; [done|]. split; [by constructor|done]. }
  exists c, u, rest. split; [done|]. split; [done|]. split; [|done]. constructor; [|done]. split; [done|].
  intros ->. by vm_compute in Eb.
Qed.

(** What the two scanning loops find from [p]: the end of the line, or a word [u] at [s]
    and what is behind it. *)
Inductive word_found (fuel : nat) (m : bmem) (t p : Z) (l : text) : Prop :=
| no_word q : tokens p None l = [] -> skip_blanks fuel m p p = Some (q, q) -> at_end (rd m q) = true -> word_found fuel m t p l
| word_last s u : tokens p None l = [(s, u)] -> skip_blanks fuel m p p = Some (s, s) -> at_end (rd m s) = false ->
    word_end fuel m s = Some (s + Z.of_nat (length u)) -> bytes_at m s u -> Forall line_char u ->
    p <= s -> s + Z.of_nat (length u) = p + Z.of_nat (length l) -> at_end (rd m (s + Z.of_nat (length u))) = true ->
    word_found fuel m t p l
| word_more s u l' : tokens p None l = (s, u) :: tokens (s + Z.of_nat (length u) + 1) None l' ->
    skip_blanks fuel m p p = Some (s, s) -> at_end (rd m s) = false ->
    word_end fuel m s = Some (s + Z.of_nat (length u)) -> bytes_at m s u -> Forall line_char u ->
    p <= s -> s + Z.of_nat (length u) + 1 + Z.of_nat (length l') = p + Z.of_nat (length l) ->
    rd m (s + Z.of_nat (length u)) = SPC -> bytes_at m (s + Z.of_nat (length u) + 1) (l' ++ [t]) -> Forall line_char l' ->
    word_found fuel m t p l.

Lemma find_word fuel m t p l : at_end t = true -> Forall line_char l -> bytes_at m p (l ++ [t]) -> (length l < fuel)%nat ->
  word_found fuel m t p l.
Proof.
  intros Ht Hl Hb Hf. destruct (cut_line l Hl) as (b & r & -> & Hbl & Hr). rewrite length_app in Hf. rewrite <- app_assoc in Hb.
  pose proof (proj2 (proj1 (bytes_at_app _ _ _ _) Hb)) as Hb2. destruct Hr as [->|(c & u & rest & -> & Hc & Hu & Hr)].
  - apply (no_word _ _ _ _ _ (p + Z.of_nat (length b))).
    + by rewrite tokens_blanks.
    + apply (skip_blanks_ok m t fuel b [] p); [done| |done|lia]. intros x [= <-]. unfold blank.
      by rewrite !(at_end_not t) by done.
    + apply bytes_at_cons in Hb2 as [-> _]. done.
  - set (s := p + Z.of_nat (length b)) in *.
    assert (skip_blanks fuel m p p = Some (s, s)) as Es.
    { apply (skip_blanks_ok m t fuel b ((c :: u) ++ rest) p); [done| |done|lia]. by intros x [= <-]. }
    assert (at_end (rd m s) = false) as Ee.
    { simpl in Hb2. apply bytes_at_cons in Hb2 as [-> _]. inversion Hu as [|? ? [Hx _] _]. by apply line_char_end. }
    assert (Forall line_char (c :: u)) as Hu' by (eapply Forall_impl; [exact Hu|by intros ? []]).
    rewrite <- app_assoc in Hb2. pose proof (proj1 (bytes_at_app _ _ _ _) Hb2) as [Hb3 Hb4]. rewrite length_app in Hf.
    assert (forall x r', rest ++ [t] = x :: r' -> (x = SPC \/ at_end x = true) -> word_end fuel m s = Some (s + Z.of_nat (length (c :: u)))) as Ew.
    { intros x r' E Hx. apply (word_end_ok m fuel (c :: u) x s); [done|done| |lia]. apply bytes_at_app. split; [done|].
      rewrite E in Hb4. apply bytes_at_cons in Hb4 as [E4 _]. apply bytes_at_cons. split; [done|by intros ? ?]. }
    assert (tokens p None (b ++ (c :: u) ++ rest) = tokens (s + Z.of_nat (length (c :: u))) (Some (s, c :: u)) rest) as Et.
    { rewrite tokens_blanks by done. fold s. cbn [app tokens]. rewrite Hc. rewrite (tokens_word u rest s [c]) by (by inversion Hu).
      f_equal. simpl. lia. }
    destruct Hr as [->|[l' ->]]; (apply bytes_at_cons in Hb4 as [E4 Hb5] || (simpl in Hb4; apply bytes_at_cons in Hb4 as [E4 Hb5])).
    + apply (word_last _ _ _ _ _ s (c :: u)); [done|done|done|by eapply Ew; [|right]|done|done|lia| |by rewrite E4].
      rewrite !length_app. simpl. lia.
    + apply (word_more _ _ _ _ _ s (c :: u) l'); [|done|done|by eapply Ew; [|left]|done|done|lia| |done|done|].
      * rewrite Et. cbn [tokens]. by rewrite Z.eqb_refl.
      * rewrite !length_app. simpl. lia.
      * apply Forall_app in Hl as [_ Hl]. apply Forall_app in Hl as [_ Hl]. by inversion Hl.
Qed.

(** ** The loop *)

Definition unchanged (m m' : bmem) (a n : Z) : Prop := forall x, x < a \/ a + n < x -> rd m' x = rd m x.

Lemma cstr_kept m m' s u a : cstr m s u -> (forall x, x < a -> rd m' x = rd m x) -> s + Z.of_nat (length u) < a -> cstr m' s u.
Proof.
  intros [Hc Hb] Hx Ha. split; [done|]. intros i c Hi. rewrite <- (Hb i c Hi). apply Hx.
  apply lookup_lt_Some in Hi. rewrite length_app in Hi. simpl in Hi. lia.
Qed.

Lemma cstr_cut m s u : bytes_at m s u -> Forall line_char u -> cstr (wr m (s + Z.of_nat (length u)) 0) s u.
Proof.
  intros Hb Hu. split; [eapply Forall_impl; [exact Hu|by intros ? []]|]. apply bytes_at_app. split.
  - intros i c Hi. rewrite <- (Hb i c Hi). apply rd_wr_ne. apply lookup_lt_Some in Hi. lia.
  - apply bytes_at_cons. split; [apply rd_wr_eq|by intros ? ?].
Qed.

Lemma bytes_at_wr m a s x v : x < a -> bytes_at m a s -> bytes_at (wr m x v) a s.
Proof. intros Hx Hb i c Hi. rewrite <- (Hb i c Hi). apply rd_wr_ne. lia. Qed.

(** The arguments: as many as there is room for. *)
Lemma read_args t fuel : at_end t = true -> forall l m command pre rest p, Forall line_char l -> bytes_at m p (l ++ [t]) ->
  (length l < fuel)%nat -> (1 <= length pre <= 20)%nat -> (length pre + length rest = 22)%nat ->
  let kept := take (20 - length pre) (tokens p None l) in
  exists m', read_loop fuel (m, command, pre ++ rest, Z.of_nat (length pre) + 1) p p =
      Some (Some (m', command, (pre ++ kept.*1) ++ drop (length kept) rest, Z.of_nat (length pre + length kept) + 1)) /\
    Forall (fun '(s, w) => cstr m' s w) kept /\ unchanged m m' p (Z.of_nat (length l)).
Proof.
  intros Ht. induction fuel as [|fuel IH]; intros l m command pre rest p Hl Hb Hf Hp Hr; [lia|]. cbn [read_loop].
  assert (forall k, length pre = k -> (Z.of_nat k + 1 =? 0) = false) as E0 by (intros; apply Z.eqb_neq; lia).
  rewrite (E0 _ eq_refl). destruct (find_word (S fuel) m t p l Ht Hl Hb Hf) as
    [q Et Es Ee|s u Et Es Ee Ew Hu Hc Hps Hlen Hend|s u l' Et Es Ee Ew Hu Hc Hps Hlen Hend Hb' Hl']; rewrite Et, Es; cbn [mbind option_bind]; rewrite Ee.
  - rewrite take_nil. exists m. simpl. rewrite app_nil_r, Nat.add_0_r. by repeat split.
  - rewrite Ew. cbn [mbind option_bind]. destruct (Z.leb_spec (Z.of_nat (length pre) + 1) MAXARG) as [Hm|Hm]; unfold MAXARG in Hm.
    + destruct rest as [|x rest]; [simpl in Hr; lia|]. rewrite Z.add_simpl_r, Nat2Z.id, insert_app_r_alt, Nat.sub_diag by lia. cbn [mbind option_bind].
      rewrite Hend. destruct (20 - length pre)%nat as [|k] eqn:Ek; [lia|]. simpl. rewrite take_nil. exists (wr m (s + Z.of_nat (length u)) 0). split.
      { rewrite <- app_assoc. simpl. rewrite drop_0. do 3 f_equal. lia. }
      split; [constructor; [by apply cstr_cut|done]|]. intros y Hy. apply rd_wr_ne. lia.
    + cbn [mbind option_bind]. replace (20 - length pre)%nat with 0%nat by lia. exists m. simpl. rewrite app_nil_r, Nat.add_0_r. by repeat split.
  - rewrite Ew. cbn [mbind option_bind]. destruct (Z.leb_spec (Z.of_nat (length pre) + 1) MAXARG) as [Hm|Hm]; unfold MAXARG in Hm.
    + destruct rest as [|x rest]; [simpl in Hr; lia|]. rewrite Z.add_simpl_r, Nat2Z.id, insert_app_r_alt, Nat.sub_diag by lia. cbn [mbind option_bind].
      rewrite Hend. cbn [at_end SPC NL Z.eqb orb Pos.eqb]. destruct (20 - length pre)%nat as [|k] eqn:Ek; [lia|].
      set (m1 := wr m (s + Z.of_nat (length u)) 0).
      destruct (IH l' m1 command (pre ++ [s]) rest (s + Z.of_nat (length u) + 1)) as (m' & E & Hk & Hun);
        [done|apply bytes_at_wr; [lia|done]|lia|rewrite length_app; simpl; lia|rewrite length_app; simpl in *; lia|].
      rewrite length_app in E, Hk. simpl length in E, Hk. replace (20 - (length pre + 1))%nat with k in E, Hk by lia.
      exists m'. split; [|split].
      * simpl. rewrite <- app_assoc in E. simpl in E. replace (Z.of_nat (length pre) + 1 + 1) with (Z.of_nat (length pre + 1) + 1) by lia.
        etransitivity; [exact E|]. rewrite <- !app_assoc. simpl. do 3 f_equal. lia.
      * constructor; [|done]. apply (cstr_kept m1 m' s u (s + Z.of_nat (length u) + 1)); [by apply cstr_cut| |lia].
        intros y Hy. apply Hun. lia.
      * intros y Hy. rewrite Hun by lia. apply rd_wr_ne. lia.
    + cbn [mbind option_bind]. replace (20 - length pre)%nat with 0%nat by lia. exists m. simpl. rewrite app_nil_r, Nat.add_0_r. by repeat split.
Qed.

(** The place of the base name in its word. *)
Definition base_at (s : Z) (w : text) : Z := s + Z.of_nat (length w - length (basename w)).

Lemma cstr_base m s w : cstr m s w -> cstr m (base_at s w) (basename w).
Proof.
  unfold base_at. intros Hs. destruct (basename_cases w) as [[_ ->]|(a & b & -> & _ & ->)]; [by rewrite Nat.sub_diag, Z.add_0_r|].
  destruct Hs as [Hc Hb]. apply Forall_app in Hc as [_ Hc]. split; [by inversion Hc|].
  rewrite <- app_assoc in Hb. apply bytes_at_app in Hb as [_ Hb]. simpl in Hb. apply bytes_at_cons in Hb as [_ Hb].
  rewrite length_app. simpl length. replace (s + Z.of_nat (length a + S (length b) - length b)) with (s + Z.of_nat (length a) + 1) by lia. done.
Qed.

Lemma read_line t fuel l m p x ps : at_end t = true -> Forall line_char l -> bytes_at m p (l ++ [t]) ->
  (length l < fuel)%nat -> length ps = 21%nat ->
  match tokens p None l with
  | [] => read_loop fuel (m, 0, x :: ps, 0) p p = Some None
  | (s, w) :: more =>
    let args := take 19 more in
    exists m', read_loop fuel (m, 0, x :: ps, 0) p p =
        Some (Some (m', s, (base_at s w :: args.*1) ++ drop (length args) ps, Z.of_nat (length args) + 2)) /\
      cstr m' s w /\ Forall (fun '(s, w) => cstr m' s w) args /\ unchanged m m' p (Z.of_nat (length l))
  end.
Proof.
  intros Ht Hl Hb Hf Hps. destruct fuel as [|fuel]; [lia|]. cbn [read_loop].
  destruct (find_word (S fuel) m t p l Ht Hl Hb Hf) as
    [q Et Es Ee|s u Et Es Ee Ew Hu Hc Hs Hlen Hend|s u l' Et Es Ee Ew Hu Hc Hs Hlen Hend Hb' Hl']; rewrite Et, Es; cbn [mbind option_bind]; rewrite Ee;
    [done|..]; rewrite Ew; cbn [mbind option_bind].
  - rewrite Z.eqb_refl, base_name_ok; [|done| |lia].
    + cbn [mbind option_bind]. rewrite Hend. rewrite take_nil. exists (wr m (s + Z.of_nat (length u)) 0). split; [simpl; by rewrite drop_0|].
      split; [by apply cstr_cut|]. split; [done|]. intros y Hy. apply rd_wr_ne. lia.
    + intros E. by rewrite E in Hend.
  - rewrite Z.eqb_refl, base_name_ok; [|done|by rewrite Hend|lia]. cbn [mbind option_bind]. rewrite Hend. cbn [at_end SPC NL Z.eqb orb Pos.eqb].
    set (m1 := wr m (s + Z.of_nat (length u)) 0).
    destruct (read_args t fuel Ht l' m1 s [base_at s u] ps (s + Z.of_nat (length u) + 1)) as (m' & E & Hk & Hun);
      [done|apply bytes_at_wr; [lia|done]|lia|simpl; lia|simpl; lia|]. cbn [length Nat.sub] in E, Hk. exists m'. split; [|split; [|split]].
    + etransitivity; [exact E|]. do 3 f_equal. lia.
    + apply (cstr_kept m1 m' s u (s + Z.of_nat (length u) + 1)); [by apply cstr_cut| |lia]. intros y Hy. apply Hun. lia.
    + done.
    + intros y Hy. rewrite Hun by lia. apply rd_wr_ne. lia.
Qed.


(** /bin/ls -l and a newline, at 1000. *)
Definition demo_line : text := [47; 98; 105; 110; 47; 108; 115; 32; 32; 45; 108].
Definition demo_buffer : bmem := put_bytes ∅ 1000 (demo_line ++ [NL]).


(** A tab behind a word does not end it: "ls", a tab and "-l" are one word. *)
Lemma tab_joins_words : tokens 1000 None [108; 115; TAB; 45; 108] = [(1000, [108; 115; TAB; 45; 108])].
Proof. reflexivity. Qed.
