(* ===== verification/Fork.v ===== *)
(** * The start of tasks (kernel/task.c, syscall/sys_fork.c)

    Here the parts meet: a new task has a page of the page allocator, a number, its place in
    the lists of the scheduler, signals, files, memory and a kernel stack with the frame it
    starts from.  [system] holds the state of all of them; the page allocator and the words
    of kernel memory are those of the slab allocator in [sig_st], and the page tables and
    the kernel stacks are in the same memory.  The bytes of user pages are there twice, as
    in [TaskMm]: by the addresses of the table in use ([y_user]), for programs and strings,
    and by physical addresses ([y_phys]), for the copies of a fork; what one of them writes
    is not written to the other.

    [init_task_struct] links the task into the list of children of a variable that was never
    set; its value is the argument [uninit]. *)

From S2P Require Import Prelude Bitops Dlist CString Trap Vfs Path Devfs File Elf Mm Mmu Pgt TaskMm Slab Sched Mutex Signal.

(** ** State *)

(** The members of [struct task_struct] that are not in the scheduler or with the signals. *)
Record task_data := TaskData {
  stack_base : Z; stack_origin : Z; td_name : list Z; td_flag : Z; uid : Z;
  td_mm : mm_struct; file_desc : option task_files; td_argv : Z; td_envp : Z; argc : Z }.

(** Offsets of members, and the size of the structure. *)
Definition sizeof_task_struct : Z := 1120.
Definition offset_task_list (t : Z) : Z := t + 816.
Definition offset_mmap_list (t : Z) : Z := t + 836.
Definition offset_alloc_mem (t i : Z) : Z := t + 876 + 28 * i + 16.
Definition offset_mutex (t : Z) : Z := t + 1084.

Definition section_index (i : task_mm_section_t) : Z :=
  match i with TASK_MM_SECTION_ELF => 0 | TASK_MM_SECTION_STACK => 1 | TASK_MM_SECTION_MMAP => 2 | TASK_MM_SECTION_META => 3 end.

(** After the memset: lists are null pointers until their owner sets them up. *)
Definition list_heads (t : Z) : list Z :=
  [offset_task_list t; offset_mmap_list t; offset_alloc_mem t 0; offset_alloc_mem t 1; offset_alloc_mem t 2; offset_alloc_mem t 3].
Definition clear_heads (mm : mm_bank) (t : Z) : mm_bank :=
  set_pages mm (pages mm) (foldl (fun l a => set_pre (set_next l a 0) a 0) (plists mm) (list_heads t)).
Definition zero_page_table (t : Z) : task_page_table :=
  TaskPageTable 0 0 (PteCacheList (offset_task_list t) 0 0 0) (PteCacheList (offset_mmap_list t) 0 0 0) 0 0 0 0.
Definition zero_mm (t : Z) : mm_struct :=
  MmStruct None (zero_page_table t) (fun i => TaskMmSection 0 0 0 0 (offset_alloc_mem t (section_index i)) 0).
Definition zero_data (t : Z) : task_data := TaskData 0 0 [] 0 0 (zero_mm t) None 0 0 0.

Record system (D : Type) := System {
  y_sig : sig_st; y_buf : pgt_buffer; y_tasks : gmap Z task_data; y_fs : kfs D; y_user : bmem; y_phys : bmem }.
Arguments System {D}.
Arguments y_sig {D}.
Arguments y_buf {D}.
Arguments y_tasks {D}.
Arguments y_fs {D}.
Arguments y_user {D}.
Arguments y_phys {D}.

(** Memory of the slab allocator the start of a task takes: whether there is a table of
    descriptors, its three files, the file of the program and its headers. *)
Record task_mem := TaskMem { tm_desc : bool; tm_f0 : Z; tm_f1 : Z; tm_f2 : Z; tm_file : Z; tm_elf : elf_mem }.

Definition KERNEL_STACK_SIZE : Z := 4096.
Definition PROCESS_NAME_SIZE : Z := 255.
Definition PROCESS_TYPE_USER : Z := 0x2.
Definition PROCESS_FLAG_FORK : Z := 0x10.
Definition PROCESS_FLAG_USER_EXEC : Z := Z.lor _PROCESS_FLAG_USER_EXEC PROCESS_TYPE_USER.
Definition PROCESS_FLAG_KERN_EXEC : Z := Z.lor _PROCESS_FLAG_KERN_EXEC PROCESS_TYPE_USER.

Section Fork.
Context {D : Type} (drv : tty_operations D) (u : mmu) (fuel fuelb : nat) (kmem : Z -> Z).
Implicit Types (y : system D) (t : Z).

Definition y_sched y : sched_st := sg_sched (y_sig y).
Definition y_mm y : mm_bank := s_mm (sg_slab (y_sig y)).
Definition y_mem y : gmap Z Z := s_mem (sg_slab (y_sig y)).
Definition y_pg y : pgst := Pgst (y_mm y) (y_mem y) (y_buf y).
Definition data_of y t : task_data := default (zero_data t) (y_tasks y !! t).

Definition put_sig y (g : sig_st) : system D := System g (y_buf y) (y_tasks y) (y_fs y) (y_user y) (y_phys y).
Definition put_sched y (s : sched_st) : system D := put_sig y (set_sched (y_sig y) s).
Definition put_mm y (mm : mm_bank) : system D := put_sig y (set_slab (y_sig y) (set_slab_mm (sg_slab (y_sig y)) mm)).
Definition put_mem y (m : gmap Z Z) : system D := put_sig y (set_slab (y_sig y) (set_slab_mem (sg_slab (y_sig y)) m)).
Definition put_pg y (st : pgst) : system D :=
  let y := put_mem (put_mm y (pg_mm st)) (pg_mem st) in System (y_sig y) (pg_buf st) (y_tasks y) (y_fs y) (y_user y) (y_phys y).
Definition put_data y t (d : task_data) : system D :=
  System (y_sig y) (y_buf y) (<[t := d]> (y_tasks y)) (y_fs y) (y_user y) (y_phys y).
Definition put_files y (g : kfs D) (m : bmem) : system D := System (y_sig y) (y_buf y) (y_tasks y) g m (y_phys y).
Definition put_phys y (m : bmem) : system D := System (y_sig y) (y_buf y) (y_tasks y) (y_fs y) (y_user y) m.

Definition with_stack (base origin : Z) (d : task_data) : task_data :=
  TaskData base origin (td_name d) (td_flag d) (uid d) (td_mm d) (file_desc d) (td_argv d) (td_envp d) (argc d).
Definition with_name (name : list Z) (d : task_data) : task_data :=
  TaskData (stack_base d) (stack_origin d) name (td_flag d) (uid d) (td_mm d) (file_desc d) (td_argv d) (td_envp d) (argc d).
Definition with_flag (flag : Z) (d : task_data) : task_data :=
  TaskData (stack_base d) (stack_origin d) (td_name d) flag (uid d) (td_mm d) (file_desc d) (td_argv d) (td_envp d) (argc d).
Definition with_uid (v : Z) (d : task_data) : task_data :=
  TaskData (stack_base d) (stack_origin d) (td_name d) (td_flag d) v (td_mm d) (file_desc d) (td_argv d) (td_envp d) (argc d).
Definition with_mm (mm : mm_struct) (d : task_data) : task_data :=
  TaskData (stack_base d) (stack_origin d) (td_name d) (td_flag d) (uid d) mm (file_desc d) (td_argv d) (td_envp d) (argc d).
Definition with_files (f : option task_files) (d : task_data) : task_data :=
  TaskData (stack_base d) (stack_origin d) (td_name d) (td_flag d) (uid d) (td_mm d) f (td_argv d) (td_envp d) (argc d).
Definition with_args (argv envp n : Z) (d : task_data) : task_data :=
  TaskData (stack_base d) (stack_origin d) (td_name d) (td_flag d) (uid d) (td_mm d) (file_desc d) argv envp n.

Definition task_is_kernel y t : bool := negb (Z.land (td_flag (data_of y t)) PROCESS_TYPE_KERNEL =? 0).
Definition task_is_user y t : bool := negb (Z.land (td_flag (data_of y t)) PROCESS_TYPE_USER =? 0).

(** ** A new task *)

(** The memset makes the state of the scheduler's members zero as well. *)
Definition allocate_task y (name : option (list Z)) : outcome (system D * Z) :=
  '(mm, task) ← get_free_pages (y_mm y) (page_nr sizeof_task_struct) GFP_KERNEL;
  let y := put_mm y mm in
  if task =? 0 then mret (y, 0)
  else
    let y := put_mm y (clear_heads mm task) in
    let y := put_sched y (upd_task (y_sched y) task (fun _ => zero_task)) in
    let name := match name with Some n => take (Z.to_nat PROCESS_NAME_SIZE) n | None => [] end in
    mret (put_data y task (with_name name (zero_data task)), task).

(** The rest of [init_task_struct] after the number was found. *)
Definition init_members y t (flag : Z) : system D :=
  let cur := current (y_sched y) in
  let d := with_uid (uid (data_of y cur)) (with_stack 0 (stack_origin (data_of y t)) (data_of y t)) in
  let d := match td_name d with [] => with_name (td_name (data_of y cur)) d | _ => d end in
  let y := put_data y t (with_flag flag d) in
  let s := upd_task (y_sched y) t (with_parent cur) in
  let s := set_heap s (init_list (init_list (heap s) (NChild t)) (HChild t)) in
  put_sched y (init_mutex s (offset_mutex t)).

Definition init_task_struct y (uninit t flag : Z) (a : task_mem) : outcome (system D * Z) :=
  '(p, pid) ← get_new_pid (pids (y_sched y)) t;
  let y := put_sched y (upd_task (set_pids (y_sched y) p) t (with_pid pid)) in
  if pid <? 0 then mret (y, - EINVAL)
  else
    let y := init_members y t flag in
    '(y, ok) ←
      (if negb (Z.land flag PROCESS_TYPE_USER =? 0) then
         if tm_desc a then
           '(g, f) ← alloc_and_init_file_desc drv fuelb (y_fs y) (file_desc (data_of y (current (y_sched y)))) (tm_f0 a) (tm_f1 a) (tm_f2 a);
           let y := put_files y g (y_user y) in
           mret (put_data y t (with_files (Some f) (data_of y t)), true)
         else mret (y, false)
       else mret (y, true));
    if negb ok then mret (y, - ENOMEM)
    else
      let s := y_sched y in
      mret (put_sched y (set_heap s (list_add (heap s) (HChild uninit) (NChild t))), 0).

Definition release_kernel_stack y t : outcome (system D) :=
  let d := data_of y t in
  y ← (if negb (stack_origin d =? 0) then mm ← free_pages (y_mm y) (stack_origin d); mret (put_mm y mm) else mret y);
  mret (put_data y t (with_stack 0 0 d)).

Definition release_task_memory y t : outcome (system D) :=
  y ← release_kernel_stack y t;
  '(st, mm) ← task_mm_release_task_memory fuel (y_pg y) (td_mm (data_of y t));
  let y := put_pg y st in
  mret (put_data y t (with_mm mm (data_of y t))).

Definition alloc_kernel_stack y t : outcome (system D * Z) :=
  let d := data_of y t in
  if negb (stack_base d =? 0) then mret (y, - EINVAL)
  else
    '(mm, base) ← get_free_pages (y_mm y) (page_nr KERNEL_STACK_SIZE) GFP_KERNEL;
    let y := put_data (put_mm y mm) t (with_stack base base d) in
    if base =? 0 then mret (y, - ENOMEM) else mret (y, 0).

(** Its result is not looked at. *)
Definition copy_process y t : outcome (system D * Z) :=
  let old := parent (get_task (y_sched y) t) in
  let cur := page_table (td_mm (data_of y (current (y_sched y)))) in
  '(st, m, mm, _) ← task_mm_copy_task_memory u fuel kmem (y_pg y) cur (y_phys y) (td_mm (data_of y t)) (td_mm (data_of y old));
  let y := put_phys (put_pg y st) m in
  mret (put_data y t (with_mm mm (data_of y t)), 0).

Definition set_up_task_stack y t (r : pt_regs) : system D * Z :=
  let d := data_of y t in
  if stack_origin d =? 0 then (y, - EFAULT)
  else
    let '(m, base) := arch_set_up_task_stack (y_mem y) (u32 (stack_origin d + KERNEL_STACK_SIZE)) r in
    (put_data (put_mem y m) t (with_stack base (stack_origin d) d), 0).

Definition free_task y t : outcome (system D) :=
  if t =? 0 then mret y else mm ← free_pages (y_mm y) t; mret (put_mm y mm).

(** [init_mm_struct] on the task. *)
Definition init_task_mm y t (a : task_mem) : outcome (system D * Z) :=
  let d := data_of y t in
  let pmm := td_mm (data_of y (parent (get_task (y_sched y) t))) in
  '(st, mm, g, m, ret) ← @init_mm_struct u fuel (kfs D) (kfs_io drv fuelb (tm_file a)) (y_pg y) (td_mm d) pmm (td_flag d)
    (y_fs y) (y_user y) (tm_elf a) (td_name d);
  let y := put_files (put_pg y st) g m in
  mret (put_data y t (with_mm mm (data_of y t)), ret).

Definition alloc_and_init_task y (uninit : Z) (name : option (list Z)) (flag : Z) (a : task_mem) : outcome (system D * Z) :=
  '(y, new) ← allocate_task y name;
  if new =? 0 then mret (y, 0)
  else
    let exit y := y ← free_task y new; mret (y, 0) in
    '(y, ret) ← init_task_struct y uninit new flag a;
    if negb (ret =? 0) then exit y
    else
      let y := put_sched y (init_sched_struct (y_sched y) new) in
      let y := put_sig y (fst (init_signal_struct (y_sig y) new)) in
      '(y, ret) ← init_task_mm y new a;
      if negb (ret =? 0) then exit y
      else
        '(y, ret) ← alloc_kernel_stack y new;
        if negb (ret =? 0) then exit y else mret (y, new).

(** The slab allocator gets a page it did not hand out. *)
Definition release_task y t : outcome (system D) :=
  y ← release_task_memory y t;
  sl ← kfree (sg_slab (y_sig y)) t;
  mret (put_sig y (set_slab (y_sig y) sl)).

(** The registers are those of the caller and keep the number of the new task. *)
Definition do_fork y (uninit : Z) (name : option (list Z)) (r : pt_regs) (flag : Z) (a : task_mem)
  : outcome (system D * pt_regs * Z) :=
  '(y, new) ← alloc_and_init_task y uninit name flag a;
  if new =? 0 then mret (y, r, - ENOMEM)
  else
    '(y, ret) ← (if task_is_user y new then copy_process y new else mret (y, 0));
    if negb (ret =? 0) then y ← release_task y new; mret (y, r, - ENOMEM)
    else
      let r := arch_set_up_task_return_value (pid (get_task (y_sched y) new)) r in
      let '(y, _) := set_up_task_stack y new r in
      s ← set_task_state (y_sched y) new PROCESS_STATE_PREPARE;
      mret (put_sched y s, r, 0).

(** A null function gives the registers of a user task. *)
Definition kthread_run y (uninit : Z) (name : option (list Z)) (fn arg : Z) (a : task_mem) : outcome (system D * Z) :=
  '(y, _, ret) ← do_fork y uninit name (arch_init_pt_regs fn arg) PROCESS_TYPE_KERNEL a;
  mret (y, ret).

Definition sys_fork y (uninit : Z) (r : pt_regs) (a : task_mem) : outcome (system D * pt_regs * Z) :=
  do_fork y uninit (Some (td_name (data_of y (current (y_sched y))))) r (Z.lor PROCESS_TYPE_USER PROCESS_FLAG_FORK) a.
End Fork.
