(* ===== verification/ForkSpec.v ===== *)
(** * A kernel thread is started

    [system_ok] puts the invariants of the scheduler, the process numbers and the page
    allocator together, with the link between them: every task is in a live block of pages.
    [kthread_run] keeps it, and the new task has a number, a place in the lists and a stack
    of its own with the frame it starts from. *)

From S2P Require Import Prelude Trap TrapSpec TrapSwitch Bitops Dlist CString Vfs Path Devfs File Elf Mm MmAlloc MmSpec Mmu Pgt TaskMm FileBoot MmInit Slab Sched SchedSpec SchedSteps Mutex Signal Fork.

(** ** Scheduler *)

(** The state without what is known of a task. *)
Definition forget (s : sched_st) (t : Z) : sched_st := set_tasks s (delete t (tasks s)).

(** Nodes by which tasks are on lists of children or mutexes. *)
Definition off_sched (n : node) : Prop :=
  match n with HChild _ | NChild _ | HWait _ | NMutex _ => True | _ => False end.

Lemma off_sched_apart L n hd : sched_head hd -> off_sched n -> n ∉ hd :: entries L hd.
Proof.
  intros Hh Hn. apply not_elem_of_cons. split; [by intros ->; destruct hd|].
  intros (x & -> & _)%list_elem_of_fmap. by destruct hd.
Qed.

(** Links between other nodes do not matter. *)
Lemma family_off h h' L : family h sched_head (entries L) ->
  (forall n, ~ off_sched n -> lnext h' n = lnext h n /\ lpre h' n = lpre h n) -> family h' sched_head (entries L).
Proof.
  intros [Hd Hx] Hn. split; [|done]. intros a Ha. eapply dlist_frame; [|by apply Hd]. intros n Hin. apply Hn.
  intros Ho. by eapply off_sched_apart.
Qed.

Lemma kernel_links s L s' : kernel s L -> tasks s' = tasks s -> counts s' = counts s ->
  (current s', idle s', next_run s', schedule_running s', in_interrupt s') =
    (current s, idle s, next_run s, schedule_running s, in_interrupt s) ->
  (forall n, ~ off_sched n -> lnext (heap s') n = lnext (heap s) n /\ lpre (heap s') n = lpre (heap s) n) -> kernel s' L.
Proof.
  intros [[[[S1 S2 S3] M] K2 K3 K4 K5 K6 K7] (k & Hk)] Et Ec E Hn. injection E as E1 E2 E3 E4 E5.
  split; [split|exists k; by rewrite Et, E1]; rewrite ?Et, ?E1, ?E2, ?E3, ?E4, ?E5; try done.
  split; [|by rewrite Et]. split; [by eapply family_off|by rewrite Ec|done].
Qed.

Definition first_members (p i : Z) : task := with_parent p (with_pid i zero_task).

(** [init_sched_struct] does not look at what the task was before, its number and parent
    apart. *)
Lemma init_sched_forget s t p i : tasks s !! t = Some (first_members p i) ->
  init_sched_struct s t = upd_task (init_sched_struct (forget s t) t) t (fun k => with_parent p (with_pid i k)).
Proof.
  intros Hk. unfold init_sched_struct, get_task_run_time, upd_task, get_task, forget.
  cbn [tasks set_tasks set_heap set_lists idle heap counts mutexes pids current next_run schedule_running in_interrupt].
  rewrite !lookup_insert_eq, !insert_insert_eq, !insert_delete_eq, lookup_delete_eq, Hk.
  by destruct (t =? idle s).
Qed.

(** A task that is known and on no list. *)
Lemma init_new s L t p i : kernel (forget s t) L -> tasks s !! t = Some (first_members p i) -> 0 < t < 4294967296 ->
  exists k, kernel (init_sched_struct s t) L /\ same_rest s (init_sched_struct s t) /\
    tasks (init_sched_struct s t) = <[t := k]> (tasks s) /\ state k = PROCESS_STATE_UNKNOWN /\ prio k = 20 /\ pid k = i /\ parent k = p.
Proof.
  intros [K Hr] Hk Ht. set (s0 := forget s t) in *. pose proof (ka_inv _ _ _ _ K) as I0.
  assert (tasks s0 !! t = None) as Hnone by apply lookup_delete_eq.
  assert (t <> idle s0) as Hni by (destruct (ka_idle _ _ _ _ K) as (ki & Hki & _); congruence).
  destruct (init_sched_struct_spec s0 L t I0 Hnone Ht Hni) as (k & I1 & R1 & T1 & Hn1 & Hn2 & _).
  rewrite (init_sched_forget s t p i Hk). fold s0. set (f := fun k => with_parent p (with_pid i k)).
  assert (sinv (upd_task (init_sched_struct s0 t) t f) L) as I2.
  { apply (sched_inv_upd sched_head sched_heads_prio (init_sched_struct s0 t) L t k f); [done|rewrite T1; apply lookup_insert_eq|done|cbn; by rewrite Hn2|by left]. }
  assert (tasks (upd_task (init_sched_struct s0 t) t f) = <[t := f k]> (tasks s)) as T2.
  { unfold upd_task. cbn [tasks set_tasks]. rewrite (get_task_some _ t k) by (rewrite T1; apply lookup_insert_eq).
    rewrite T1, insert_insert_eq. apply insert_delete_eq. }
  exists (f k). split; [|split; [by destruct R1|by split_and!]].
  eapply kernel_sleepers; [exact K|exact Hr|done|by destruct R1|..].
  - intros x kx Hx _. rewrite T2, lookup_insert_ne by congruence. by apply (lookup_delete_Some (tasks s)) in Hx as [_ ?].
  - rewrite T2. intros x kx [[<- <-]|[Hne Hx]]%lookup_insert_Some; [right; cbn; congruence|left]. by apply (lookup_delete_Some (tasks s)).
Qed.

Lemma start_new s L t p i : kernel (forget s t) L -> tasks s !! t = Some (first_members p i) -> 0 < t < 4294967296 ->
  exists s' k, set_task_state (init_sched_struct s t) t PROCESS_STATE_PREPARE = Ret s' /\
    kernel s' (push (push L HSystem t) (HPrio 20) t) /\ same_rest s s' /\ tasks s' = <[t := k]> (tasks s) /\
    state k = PROCESS_STATE_PREPARE /\ pid k = i /\ parent k = p.
Proof.
  intros K Hk Ht. destruct (init_new s L t p i K Hk Ht) as (k & [K1 _] & R1 & T1 & Hs & Hp & Hi & Hpar).
  destruct (set_task_state_spec sched_head sched_heads_are (fun n H => H) sched_heads_prio _ L t k (ka_inv _ _ _ _ K1))
    with (new := PROCESS_STATE_PREPARE) as (s' & E & I' & R & T); [rewrite T1; apply lookup_insert_eq|done|].
  rewrite Hs, Hp in I'. rewrite Hs in T. cbn [change_table abs_change] in I', T. rewrite decide_False in T by done.
  rewrite T1, insert_insert_eq in T. exists s', (with_state PROCESS_STATE_PREPARE k). split; [done|].
  assert (same_rest s s') as R' by (by etrans). split; [|by split_and!].
  destruct K as [K Hr]. eapply kernel_sleepers; [exact K|exact Hr|done|by destruct R'|..].
  - intros x kx Hx _. apply (lookup_delete_Some (tasks s)) in Hx as [Hne Hx]. by rewrite T, lookup_insert_ne.
  - rewrite T. intros x kx [[<- <-]|[Hne Hx]]%lookup_insert_Some; [by right|left]. by apply (lookup_delete_Some (tasks s)).
Qed.

(** ** Pages *)

(** The first page of a section is a boot page, so that releases end. *)
Record pages_ok (reserved : sref -> Z -> Prop) (mm : mm_bank) (live : list block) : Prop := {
  pk_inv : alloc_inv reserved mm live;
  pk_sealed : sealed mm;
  pk_mapped : kernel_mapped mm;
  pk_ground : forall r, r.1 <> 3%nat -> used_sec mm r -> reserved r 0 }.

Definition kernel_block (b : block) : Prop := (b_sec b).1 <> 3%nat.

Lemma block_va_layout mm mm' b : same_layout mm mm' -> block_va mm' b = block_va mm b.
Proof. intros E. unfold block_va. destruct (layout_fields _ _ (b_sec b) E) as (_ & Ev & _). by rewrite Ev. Qed.

Lemma kernel_mapped_layout mm mm' : same_layout mm mm' -> kernel_mapped mm -> kernel_mapped mm'.
Proof.
  intros E H r Hr Hu. destruct (layout_fields _ _ r E) as (_ & Ev & _). rewrite Ev. apply H; [done|].
  by apply (used_sec_layout _ _ _ E).
Qed.

Lemma block_in mm b : block_ok mm b -> in_section mm (b_sec b) (b_base b).
Proof. intros [Hu (H1 & H2 & H3) _ _]. split; [done|lia]. Qed.

(** Different blocks are at different addresses. *)
Lemma block_va_apart mm b b' : mm_wf mm -> block_ok mm b -> block_ok mm b' -> kernel_block b -> kernel_block b' ->
  disjoint_blocks b b' -> block_va mm b <> block_va mm b'.
Proof.
  intros Hwf Ob Ob' Kb Kb' Hd E.
  destruct (va_to_page_found mm _ _ 0 Hwf (block_in _ _ Ob) Kb ltac:(lia)) as [E1 _].
  destruct (va_to_page_found mm _ _ 0 Hwf (block_in _ _ Ob') Kb' ltac:(lia)) as [E2 _].
  rewrite Z.add_0_r in E1, E2. fold (block_va mm b) in E1. fold (block_va mm b') in E2. rewrite E in E1.
  assert (b_sec b' = b_sec b) as Es by congruence. unfold block_va in E. rewrite Es in E.
  destruct (bok_range _ _ Ob) as (R1 & R2 & _), (bok_range _ _ Ob') as (R1' & R2' & _).
  apply (Hd (b_sec b) (b_base b)); (split; [done|lia]).
Qed.

Lemma page_taken reserved mm live : pages_ok reserved mm live ->
  exists mm' a, get_free_pages mm 1 GFP_KERNEL = Ret (mm', a) /\ same_layout mm mm' /\
    ((a = 0 /\ pages_ok reserved mm' live) \/
     exists b, a = block_va mm b /\ 0 < a /\ a + 4096 < 4294967296 /\ kernel_block b /\ pages_ok reserved mm' (b :: live) /\
       forall b', b' ∈ live -> kernel_block b' -> block_va mm b' <> a).
Proof.
  intros [HI HS HM HG]. unfold get_free_pages. replace (_ || _) with false by reflexivity.
  destruct (__get_free_pages_served 1 GFP_KERNEL true ltac:(lia) mm 0)
    as (mm' & a & E & [[Q ->]|(r & index & Hr & Hu & T & -> & Hne)]);
    [apply HI|apply HI|by apply sealed_start|done|lia|intros _ r Hr Hu; apply HM; [by eapply zone_order_kernel|done]| |].
  - exists mm', 0. split; [done|]. pose proof (q_layout _ _ Q) as QL. split; [done|]. left. split; [done|].
    split; [by eapply quiet_inv|by eapply sealed_quiet|by eapply kernel_mapped_layout|].
    intros r Hr Hu. apply HG; [done|]. by apply (used_sec_layout _ _ _ QL).
  - pose proof (took_layout _ _ _ _ _ _ T) as TL. eexists mm', _. split; [done|]. split; [done|]. right.
    destruct (took_inv reserved mm mm' live r index 1 GFP_KERNEL 0 HI Hu ltac:(lia) eq_refl ltac:(lia) T) as (HI' & _ & Hd).
    assert (r.1 <> 3%nat) as Kr by (by eapply (zone_order_kernel 0)).
    exists (Block r index 1 GFP_KERNEL). set (b := Block r index 1 GFP_KERNEL) in *. 
    pose proof (inv_live _ _ _ HI' b ltac:(by left)) as Ob. pose proof (inv_wf _ _ _ HI') as Hwf.
    destruct (wf_geo _ Hwf r (bok_sec _ _ Ob)) as [_ G2 _ _ _ G6 _ _ _]. pose proof (took_range _ _ _ _ _ _ T) as [R1 R2].
    destruct (layout_fields _ _ r TL) as (_ & Ev & En & _). unfold geo_at in G2, G6. cbn in G2, G6.
    pose proof (HM r Kr Hu) as Hpos. assert (answer (section_at mm r) index true = block_va mm b) as -> by done.
    assert (block_va mm b = vir_start (section_at mm r) + index * 4096) as Eb by done.
    split; [done|]. split; [lia|]. split; [lia|]. split; [done|]. split.
    + split; [done|apply (sealed_took mm mm' r index 1 GFP_KERNEL); [lia|done..]|by eapply kernel_mapped_layout|].
      intros r' Hr' Hu'. apply HG; [done|]. by apply (used_sec_layout _ _ _ TL).
    + intros b' Hb' Kb'. rewrite <- (block_va_layout mm mm' b' TL), <- (block_va_layout mm mm' b TL). apply not_eq_sym.
      apply (block_va_apart mm' b b'); [done|done|apply (inv_live _ _ _ HI'); by right|done|done|by apply Hd].
Qed.

Lemma page_back reserved mm b live : pages_ok reserved mm (b :: live) -> kernel_block b ->
  exists mm', free_pages mm (block_va mm b) = Ret mm' /\ alloc_inv reserved mm' live.
Proof.
  intros [HI HS HM HG] Kb. pose proof (inv_live _ _ _ HI b ltac:(by left)) as Ob.
  assert (anchored mm b) as Ha.
  { pose proof (inv_cur _ _ _ HI _ (bok_sec _ _ Ob)) as Hc. unfold anchored.
    destruct (Z.eq_dec (bm_current (section_at mm (b_sec b))) 0) as [->|Hne]; [by left|]. right. exists 0.
    pose proof (HG _ Kb (bok_sec _ _ Ob)) as Hr. split; [lia|]. split.
    - apply (inv_bits _ _ _ HI); [split; [apply Ob|lia]|by left].
    - intros Hcov. by eapply (inv_reserved _ _ _ HI); [by left|..]. }
  destruct (release_live_total reserved mm [] b live HI Ha) as [mm' E]. exists mm'.
  rewrite (free_pages_live reserved mm [] b live HI Kb). split; [done|]. by apply (release_live_effect reserved mm [] b live HI mm' E).
Qed.

(** ** The new task *)

Section Start.
Context {D : Type} (drv : tty_operations D) (u : mmu) (fuel fuelb : nat) (kmem : Z -> Z).
Implicit Types (y : system D) (t : Z).

Record system_ok (reserved : sref -> Z -> Prop) y (L : lists) (live : list block) : Prop := {
  sys_sched : kernel (y_sched y) L;
  sys_pids : pids_ok (pids (y_sched y));
  sys_pages : pages_ok reserved (y_mm y) live;
  sys_tasks : forall t, is_Some (tasks (y_sched y) !! t) ->
    exists b, b ∈ live /\ kernel_block b /\ t = block_va (y_mm y) b }.

(** A step that is about the task [t] only. *)
Record only_task y y' t : Prop := {
  ot_tasks : delete t (tasks (y_sched y')) = delete t (tasks (y_sched y));
  ot_data : forall x, x <> t -> y_tasks y' !! x = y_tasks y !! x;
  ot_counts : counts (y_sched y') = counts (y_sched y);
  ot_rest : (current (y_sched y'), idle (y_sched y'), next_run (y_sched y'), schedule_running (y_sched y'), in_interrupt (y_sched y')) =
    (current (y_sched y), idle (y_sched y), next_run (y_sched y), schedule_running (y_sched y), in_interrupt (y_sched y));
  ot_links : forall n, ~ off_sched n -> lnext (heap (y_sched y')) n = lnext (heap (y_sched y)) n /\
    lpre (heap (y_sched y')) n = lpre (heap (y_sched y)) n }.

Lemma only_task_kernel y y' t L : only_task y y' t -> tasks (y_sched y) !! t = None -> kernel (y_sched y) L ->
  kernel (forget (y_sched y') t) L.
Proof.
  intros [H1 _ H3 H4 H5] Hn K. apply (kernel_links (y_sched y)); [done| |done..].
  change (delete t (tasks (y_sched y')) = tasks (y_sched y)). rewrite H1. by apply delete_id.
Qed.

(** The links [init_task_struct] sets. *)
Definition task_links (h : lheap node) (uninit t : Z) : lheap node :=
  let h := init_list (init_list h (NChild t)) (HChild t) in
  let h := init_list (init_list h (HWait (offset_mutex t))) (NMutex (offset_mutex t)) in
  list_add h (HChild uninit) (NChild t).

Lemma set_off h n a v : ~ off_sched n -> off_sched a ->
  (lnext (set_next h a v) n = lnext h n /\ lpre (set_next h a v) n = lpre h n) /\
  (lnext (set_pre h a v) n = lnext h n /\ lpre (set_pre h a v) n = lpre h n).
Proof. intros Hn Ha. assert (n <> a) by (by intros ->). unfold set_next, set_pre. cbn. by rewrite !decide_False. Qed.

Lemma init_off h n a : ~ off_sched n -> off_sched a -> lnext (init_list h a) n = lnext h n /\ lpre (init_list h a) n = lpre h n.
Proof.
  intros Hn Ha. unfold init_list. destruct (set_off (set_next h a a) n a a Hn Ha) as [_ [-> ->]].
  by destruct (set_off h n a a Hn Ha) as [? _].
Qed.

Lemma init_next h a b : off_sched (lnext h b) -> off_sched a -> off_sched (lnext (init_list h a) b).
Proof. intros Hb Ha. unfold init_list, set_pre, set_next. cbn. by case_decide. Qed.

Lemma task_links_off h uninit t n : off_sched (lnext h (HChild uninit)) -> ~ off_sched n ->
  lnext (task_links h uninit t) n = lnext h n /\ lpre (task_links h uninit t) n = lpre h n.
Proof.
  intros Hu Hn. unfold task_links.
  set (h4 := init_list (init_list (init_list (init_list h (NChild t)) (HChild t)) (HWait (offset_mutex t))) (NMutex (offset_mutex t))).
  assert (off_sched (lnext h4 (HChild uninit))) as Hu4 by (repeat apply init_next; done).
  assert (lnext h4 n = lnext h n /\ lpre h4 n = lpre h n) as [<- <-].
  { unfold h4. do 4 (match goal with |- context [lnext (init_list ?k ?a) n] => destruct (init_off k n a Hn I) as [-> ->] end). done. }
  clearbody h4. unfold list_add.
  set (h5 := set_pre h4 _ _). assert (lnext h5 (HChild uninit) = lnext h4 (HChild uninit)) as E by done.
  destruct (set_off (set_pre (set_next h5 (NChild t) (lnext h5 (HChild uninit))) (NChild t) (HChild uninit)) n (HChild uninit) (NChild t) Hn I) as [[-> ->] _].
  destruct (set_off (set_next h5 (NChild t) (lnext h5 (HChild uninit))) n (NChild t) (HChild uninit) Hn I) as [_ [-> ->]].
  destruct (set_off h5 n (NChild t) (lnext h5 (HChild uninit)) Hn I) as [[-> ->] _].
  by destruct (set_off h4 n (lnext h4 (HChild uninit)) (NChild t) Hn Hu4) as [_ ?].
Qed.

(** A thread of the kernel has no files: what can fail is the number. *)
Lemma init_task_struct_thread y uninit t a d : pids_ok (pids (y_sched y)) -> t <> 0 ->
  tasks (y_sched y) !! t = Some zero_task -> y_tasks y !! t = Some d ->
  off_sched (lnext (heap (y_sched y)) (HChild uninit)) ->
  exists y' ret, init_task_struct drv fuelb y uninit t PROCESS_TYPE_KERNEL a = Ret (y', ret) /\
    only_task y y' t /\ y_mm y' = y_mm y /\ y_mem y' = y_mem y /\ pids_ok (pids (y_sched y')) /\
    ((ret = - EINVAL /\ map_current (pids (y_sched y)) = 1024) \/
     exists i d', ret = 0 /\ 0 <= i < 1024 /\ pid_get_task (pids (y_sched y')) i = Ret t /\
       (forall j, j <> i -> rd (addr (pids (y_sched y'))) j = rd (addr (pids (y_sched y))) j) /\
       tasks (y_sched y') = <[t := first_members (current (y_sched y)) i]> (tasks (y_sched y)) /\
       y_tasks y' !! t = Some d' /\ stack_base d' = 0 /\ td_flag d' = PROCESS_TYPE_KERNEL).
Proof.
  intros Hp Ht Hk Hd Hu. unfold init_task_struct. destruct (get_new_pid_correct (pids (y_sched y)) t Hp Ht) as (p & i & E & Hp' & Hi).
  rewrite E, ret_bind. set (y1 := put_sched y _).
  assert (tasks (y_sched y1) = <[t := with_pid i zero_task]> (tasks (y_sched y))) as T1.
  { change (<[t := with_pid i (get_task (y_sched y) t)]> (tasks (y_sched y)) = <[t := with_pid i zero_task]> (tasks (y_sched y))).
    by rewrite (get_task_some _ _ _ Hk). }
  destruct Hi as [(-> & Hm & _)|(Hr & Hi & _ & Hg & Hj)].
  - change (-1 <? 0) with true. cbv iota. exists y1, (- EINVAL). split; [done|]. split.
    { split; [rewrite T1; apply delete_insert_eq|done..]. }
    do 2 (split; [done|]). split; [done|]. by left.
  - rewrite (proj2 (Z.ltb_ge i 0)) by lia. change (negb (Z.land PROCESS_TYPE_KERNEL PROCESS_TYPE_USER =? 0)) with false.
    cbv iota. rewrite ret_bind. cbn [negb]. eexists _, 0. split; [reflexivity|].
    set (y2 := init_members y1 t PROCESS_TYPE_KERNEL). set (y3 := put_sched y2 _).
    assert (heap (y_sched y3) = task_links (heap (y_sched y)) uninit t) as H3 by reflexivity.
    assert (tasks (y_sched y3) = <[t := first_members (current (y_sched y)) i]> (tasks (y_sched y))) as T3.
    { change (tasks (y_sched y3)) with (<[t := with_parent (current (y_sched y)) (get_task (y_sched y1) t)]> (tasks (y_sched y1))).
      rewrite T1. unfold get_task. by rewrite T1, lookup_insert_eq, insert_insert_eq. }
    split; [split|split; [done|split; [done|split; [done|]]]].
    + rewrite T3. apply delete_insert_eq.
    + intros x Hx. unfold y3, y2, init_members. cbn [y_tasks put_sched put_sig put_data]. by rewrite lookup_insert_ne.
    + done.
    + done.
    + intros n Hn. rewrite H3. by apply task_links_off.
    + right. eexists i, _. split; [done|]. split; [done|]. split; [done|]. split; [done|]. split; [done|].
      split; [unfold y3, y2, init_members; cbn [y_tasks put_sched put_sig put_data]; apply lookup_insert_eq|].
      split; [|done]. by destruct (td_name _).
Qed.

Lemma put_pg_same y : put_files (put_pg y (y_pg y)) (y_fs y) (y_user y) = y.
Proof. destruct y as [[k [] g] b ts f m pm]. reflexivity. Qed.

Lemma data_some y t d : y_tasks y !! t = Some d -> data_of y t = d.
Proof. intros H. unfold data_of. by rewrite H. Qed.

(** A thread has no memory of its own. *)
Lemma init_task_mm_thread y t a d : y_tasks y !! t = Some d -> td_flag d = PROCESS_TYPE_KERNEL ->
  init_task_mm drv u fuel fuelb y t a = Ret (y, 0).
Proof.
  intros Hd Hf. unfold init_task_mm, init_mm_struct. rewrite (data_some _ _ _ Hd), Hf.
  change (negb (Z.land PROCESS_TYPE_KERNEL PROCESS_TYPE_KERNEL =? 0)) with true. cbv iota. rewrite ret_bind, put_pg_same, (data_some _ _ _ Hd). f_equal. f_equal. destruct y as [g b ts f m pm]. unfold put_data. cbn in *. f_equal.
  apply insert_id. rewrite Hd. f_equal. by destruct d.
Qed.

(** What a thread in [t] starts from. *)
Record thread_started y y' (fn t i : Z) (sb : block) (k : task) : Prop := {
  ts_new : tasks (y_sched y) !! t = None;
  ts_tasks : tasks (y_sched y') = <[t := k]> (tasks (y_sched y));
  ts_ready : state k = PROCESS_STATE_PREPARE /\ pid k = i /\ parent k = current (y_sched y);
  ts_pid : 0 <= i < 1024 /\ pid_get_task (pids (y_sched y')) i = Ret t;
  ts_others : forall x, x <> t -> y_tasks y' !! x = y_tasks y !! x;
  ts_frame : stack_base (data_of y' t) = block_va (y_mm y) sb + 4016 /\
    exists c, frame_at (y_mem y') (stack_base (data_of y' t)) c /\ mode_ok c /\ user_mode (c CS) = false /\
      c EIP = fn /\ c EAX = i /\ Z.testbit (c EFLAGS) 9 = true;
  ts_memory : forall p, p < block_va (y_mm y) sb \/ block_va (y_mm y) sb + 4096 <= p -> rd (y_mem y') p = rd (y_mem y) p }.

Lemma pages_ok_lists reserved mm live l : pages_ok reserved mm live -> pages_ok reserved (set_pages mm (pages mm) l) live.
Proof.
  intros [HI HS HM HG]. pose proof (soft_plists mm l) as S. split; [by eapply soft_inv|by eapply sealed_soft|exact HM|exact HG].
Qed.

(** The page, cleared and named. *)
Lemma allocate_task_thread reserved y L live name : system_ok reserved y L live ->
  exists y' t, allocate_task y name = Ret (y', t) /\ y_mem y' = y_mem y /\
    ((t = 0 /\ y_sched y' = y_sched y /\ alloc_inv reserved (y_mm y') live) \/
     exists b d, t = block_va (y_mm y) b /\ 0 < t < 4294967296 /\ kernel_block b /\ same_layout (y_mm y) (y_mm y') /\
       pages_ok reserved (y_mm y') (b :: live) /\ tasks (y_sched y) !! t = None /\
       y_sched y' = upd_task (y_sched y) t (fun _ => zero_task) /\
       y_tasks y' = <[t := d]> (y_tasks y)).
Proof.
  intros [K P G T]. unfold allocate_task. change (page_nr sizeof_task_struct) with 1.
  destruct (page_taken reserved (y_mm y) live G) as (mm & t & E & EL & [[-> G']|(b & Et & H1 & H2 & Kb & G' & Hf)]); rewrite E, ret_bind.
  - exists (put_mm y mm), 0. split; [done|]. split; [done|]. left. split; [done|]. split; [done|]. apply G'.
  - rewrite (proj2 (Z.eqb_neq t 0)) by lia. eexists _, t. split; [reflexivity|]. split; [done|]. right.
    eexists b, _. split; [done|]. split; [lia|]. split; [done|]. split; [etrans; [exact EL|by apply same_layout_zones]|]. split; [by apply pages_ok_lists|]. split; [|split; reflexivity].
    destruct (tasks (y_sched y) !! t) as [k|] eqn:Hk; [|done]. destruct (T t ltac:(by eexists)) as (b' & Hb' & Kb' & Eb').
    by destruct (Hf b' Hb' Kb').
Qed.

Lemma only_task_trans y1 y2 y3 t : only_task y1 y2 t -> only_task y2 y3 t -> only_task y1 y3 t.
Proof.
  intros [A1 A2 A3 A4 A5] [B1 B2 B3 B4 B5]. split; [congruence| |congruence|congruence|].
  - intros x Hx. by rewrite B2, A2.
  - intros n Hn. destruct (A5 n Hn), (B5 n Hn). split; congruence.
Qed.

Lemma free_task_thread reserved y t b live : t = block_va (y_mm y) b -> t <> 0 -> kernel_block b -> pages_ok reserved (y_mm y) (b :: live) ->
  exists y', free_task y t = Ret y' /\ alloc_inv reserved (y_mm y') live /\ y_sched y' = y_sched y.
Proof.
  intros Et Hne Kb G. unfold free_task. rewrite (proj2 (Z.eqb_neq t 0) Hne), Et.
  destruct (page_back reserved (y_mm y) b live G Kb) as (mm & E & HI). rewrite E, ret_bind. by exists (put_mm y mm).
Qed.

(** After a failure: the pages are back, and the scheduler is as it was for the tasks it
    knows. *)
Definition not_started (reserved : sref -> Z -> Prop) y' (L : lists) (live : list block) : Prop :=
  alloc_inv reserved (y_mm y') live /\ (kernel (y_sched y') L \/ exists t, kernel (forget (y_sched y') t) L).

Record thread_made (reserved : sref -> Z -> Prop) y y' (L : lists) (live : list block) (t : Z) (b sb : block) (i : Z) (s : sched_st) : Prop := {
  tm_page : t = block_va (y_mm y) b /\ 0 < t < 4294967296 /\ kernel_block b;
  tm_layout : same_layout (y_mm y) (y_mm y');
  tm_pages : pages_ok reserved (y_mm y') (sb :: b :: live);
  tm_new : tasks (y_sched y) !! t = None;
  tm_rest : kernel (forget s t) L;
  tm_tasks : tasks s = <[t := first_members (current (y_sched y)) i]> (tasks (y_sched y));
  tm_sched : y_sched y' = init_sched_struct s t;
  tm_pid : pids_ok (pids s) /\ 0 <= i < 1024 /\ pid_get_task (pids s) i = Ret t;
  tm_mem : y_mem y' = y_mem y;
  tm_others : forall x, x <> t -> y_tasks y' !! x = y_tasks y !! x;
  tm_data : exists d, y_tasks y' !! t = Some d /\ td_flag d = PROCESS_TYPE_KERNEL /\ stack_origin d = block_va (y_mm y) sb;
  tm_stack : 0 < block_va (y_mm y) sb /\ block_va (y_mm y) sb + 4096 < 4294967296 }.

Lemma alloc_thread reserved y L live uninit name a : system_ok reserved y L live ->
  off_sched (lnext (heap (y_sched y)) (HChild uninit)) ->
  exists y' t, alloc_and_init_task drv u fuel fuelb y uninit name PROCESS_TYPE_KERNEL a = Ret (y', t) /\
    ((t = 0 /\ not_started reserved y' L live) \/ exists b sb i s, thread_made reserved y y' L live t b sb i s).
Proof.
  intros Hok Hu. unfold alloc_and_init_task.
  destruct (allocate_task_thread reserved y L live name Hok) as (y1 & t & E1 & M1 & [(-> & S1 & A1)|(b & d & Et & Ht & Kb & EL1 & G1 & Hn & S1 & D1)]);
    rewrite E1, ret_bind.
  { exists y1, 0. split; [done|]. left. split; [done|]. split; [done|]. left. rewrite S1. apply Hok. }
  rewrite (proj2 (Z.eqb_neq t 0)) by lia.
  assert (only_task y y1 t) as O1.
  { split; rewrite ?S1; try done; [apply delete_insert_eq|]. intros x Hx. rewrite D1. by apply lookup_insert_ne. }
  destruct (init_task_struct_thread y1 uninit t a d) as (y2 & ret & E2 & O2 & MM2 & M2 & P2 & H2);
    [rewrite S1; apply Hok|lia|rewrite S1; apply lookup_insert_eq|rewrite D1; apply lookup_insert_eq|rewrite S1; done|].
  pose proof (only_task_trans _ _ _ _ O1 O2) as O. pose proof (only_task_kernel _ _ _ L O Hn (sys_sched _ _ _ _ Hok)) as K2.
  assert (t = block_va (y_mm y2) b) as Et2 by (by rewrite MM2, (block_va_layout _ _ b EL1)).
  rewrite E2, ret_bind. destruct H2 as [(-> & _)|(i & d' & -> & Hi & Hg & _ & T2 & D2 & Hs2 & Hf2)].
  { destruct (free_task_thread reserved y2 t b live Et2 ltac:(lia) Kb ltac:(by rewrite MM2)) as (y' & E & A & S).
    exists y', 0. cbn [negb Z.eqb Z.opp EINVAL]. rewrite E. split; [done|]. left. split; [done|]. split; [done|]. right. exists t. by rewrite S. }
  assert (tasks (y_sched y2) = <[t := first_members (current (y_sched y)) i]> (tasks (y_sched y))) as T2'.
  { rewrite T2, S1. apply insert_insert_eq. }
  cbn [negb Z.eqb]. set (y3 := put_sched y2 _). set (y4 := put_sig y3 _).
  assert (y_tasks y4 !! t = Some d') as D4 by exact D2.
  rewrite (init_task_mm_thread y4 t a d' D4 Hf2), ret_bind. cbn [negb Z.eqb]. unfold alloc_kernel_stack.
  rewrite (data_some _ _ _ D4), Hs2. cbn [negb Z.eqb]. change (page_nr KERNEL_STACK_SIZE) with 1.
  destruct (page_taken reserved (y_mm y4) (b :: live)) as (mm & base & E5 & EL5 & H5); [change (y_mm y4) with (y_mm y2); by rewrite MM2|].
  rewrite E5, ret_bind. set (y5 := put_data (put_mm y4 mm) t (with_stack base base d')).
  assert (same_layout (y_mm y) (y_mm y5)) as EL by (etrans; [exact EL1|]; rewrite <- MM2; exact EL5).
  assert (t = block_va (y_mm y5) b) as Et5 by (by rewrite (block_va_layout _ _ b EL)).
  destruct H5 as [[-> G5]|(sb & Eb & B1 & B2 & Ks & G5 & _)].
  - cbn [negb Z.eqb]. rewrite ret_bind. cbn [negb Z.eqb Z.opp ENOMEM].
    destruct (free_task_thread reserved y5 t b live Et5 ltac:(lia) Kb G5) as (y' & E & A & S).
    exists y', 0. rewrite E. split; [done|]. left. split; [done|]. split; [done|]. left. rewrite S.
    destruct (init_new (y_sched y2) L t _ _ K2 ltac:(rewrite T2'; apply lookup_insert_eq) Ht) as (k & K3 & _). exact K3.
  - rewrite (proj2 (Z.eqb_neq base 0)) by lia. rewrite ret_bind. cbn [negb Z.eqb].
    assert (base = block_va (y_mm y) sb) as Eb'.
    { rewrite Eb. change (y_mm y4) with (y_mm y2). rewrite MM2. by apply block_va_layout. }
    exists y5, t. split; [done|]. right. exists b, sb, i, (y_sched y2). split; try done.
    + by etrans; [exact M2|].
    + intros x Hx. unfold y5. cbn [y_tasks put_data put_mm put_sig y4 y3 put_sched]. rewrite lookup_insert_ne by done. by apply O.
    + exists (with_stack base base d'). split; [apply lookup_insert_eq|]. by split.
    + rewrite <- Eb'. by split.
Qed.

(** The first frame of a thread: the number of the task is in the register of the argument. *)
Lemma first_frame y t d fn arg i : y_tasks y !! t = Some d -> fn <> 0 -> 0 <= i < 1024 ->
  0 < stack_origin d -> stack_origin d + 4096 < 4294967296 ->
  exists y', set_up_task_stack y t (arch_set_up_task_return_value i (arch_init_pt_regs fn arg)) = (y', 0) /\
    y_sched y' = y_sched y /\ y_mm y' = y_mm y /\ (forall x, x <> t -> y_tasks y' !! x = y_tasks y !! x) /\
    stack_base (data_of y' t) = stack_origin d + 4016 /\
    (exists c, frame_at (y_mem y') (stack_base (data_of y' t)) c /\ mode_ok c /\ user_mode (c CS) = false /\
      c EIP = fn /\ c EAX = i /\ Z.testbit (c EFLAGS) 9 = true) /\
    forall p, p < stack_origin d \/ stack_origin d + 4096 <= p -> rd (y_mem y') p = rd (y_mem y) p.
Proof.
  intros Hd Hfn Hi H1 H2. unfold set_up_task_stack. rewrite (data_some _ _ _ Hd), (proj2 (Z.eqb_neq (stack_origin d) 0)) by lia.
  unfold KERNEL_STACK_SIZE. rewrite u32_small by lia. unfold arch_init_pt_regs. rewrite (proj2 (Z.eqb_neq fn 0) Hfn). cbn [negb].
  match goal with |- context [arch_set_up_task_stack _ _ ?r] =>
    destruct (set_up_task_stack_frame (y_mem y) (stack_origin d + 4096) r ltac:(lia)) as (m & E & Hf & Hm); [done..|]; set (r0 := r) in * end.
  rewrite E. eexists. split; [reflexivity|]. split; [done|]. split; [done|].
  split; [intros x Hx; cbn [y_tasks put_data put_mem put_sig]; by rewrite lookup_insert_ne|].
  replace (stack_origin d + 4096 - 80) with (stack_origin d + 4016) in * by lia.
  set (y' := put_data _ _ _).
  assert (stack_base (data_of y' t) = stack_origin d + 4016) as Es.
  { unfold data_of, y'. cbn [y_tasks put_data]. by rewrite lookup_insert_eq. }
  split; [done|]. split; [|intros p Hp; apply Hm; lia].
  exists (start_regs r0 (stack_origin d + 4096)). rewrite Es. split; [exact Hf|]. split; [by vm_compute|].
  split; [by vm_compute|]. split; [done|]. split; [cbn; apply u32_small; lia|by vm_compute].
Qed.

(** C28: [kthread_run] starts a thread, or fails and gives the pages back.  On success the
    scheduler, the process numbers and the page allocator are consistent again, with one
    more task at the end of the list of its priority and two more blocks of pages; the task
    is new, its number leads to it, its parent is the current task, and its stack is a page
    of its own with a frame that enters the function in kernel mode with interrupts on; no
    other task and no word outside that page has changed.  This holds when the variable the
    code never sets happens to hold a task. *)
Theorem kthread_run_correct reserved y L live uninit name fn arg a (Hok : system_ok reserved y L live)
    (Hu : off_sched (lnext (heap (y_sched y)) (HChild uninit))) (Hfn : fn <> 0) :
  exists y' ret, kthread_run drv u fuel fuelb kmem y uninit name fn arg a = Ret (y', ret) /\
    ((ret = - ENOMEM /\ not_started reserved y' L live) \/
     (ret = 0 /\ exists t b sb i k, t = block_va (y_mm y) b /\ thread_started y y' fn t i sb k /\
        system_ok reserved y' (push (push L HSystem t) (HPrio 20) t) (sb :: b :: live))).
Proof.
  unfold kthread_run, do_fork.
  destruct (alloc_thread reserved y L live uninit name a Hok Hu) as (y1 & t & E1 & [(-> & H)|(b & sb & i & s & H)]); rewrite E1, ret_bind.
  { cbn [Z.eqb]. rewrite ret_bind. exists y1, (- ENOMEM). split; [done|]. by left. }
  destruct H as [(Et & Ht & Kb) EL G Hn K T S (P & Hi & Hg) M O (d & Hd & Hfl & Ho) [B1 B2]].
  rewrite (proj2 (Z.eqb_neq t 0)) by lia.
  assert (task_is_user y1 t = false) as -> by (unfold task_is_user; by rewrite (data_some _ _ _ Hd), Hfl).
  rewrite ret_bind. cbn [negb Z.eqb].
  destruct (init_new s L t _ _ K ltac:(rewrite T; apply lookup_insert_eq) Ht) as (k1 & _ & _ & T1 & _ & _ & Hp1 & _).
  assert (pid (get_task (y_sched y1) t) = i) as ->.
  { rewrite S, (get_task_some _ t k1); [done|]. rewrite T1. apply lookup_insert_eq. }
  destruct (first_frame y1 t d fn arg i Hd Hfn Hi) as (y2 & E2 & S2 & MM2 & O2 & Hs & Hc & Hm); [lia..|]. rewrite E2, S2, S.
  destruct (start_new s L t _ _ K ltac:(rewrite T; apply lookup_insert_eq) Ht) as (s' & k & E3 & K3 & R3 & T3 & Hk1 & Hk2 & Hk3).
  rewrite E3, ret_bind, ret_bind. exists (put_sched y2 s'), 0. split; [done|]. right. split; [done|].
  assert (tasks s' = <[t := k]> (tasks (y_sched y))) as T4 by (rewrite T3, T; apply insert_insert_eq).
  assert (y_mm (put_sched y2 s') = y_mm y1) as M4 by exact MM2.
  exists t, b, sb, i, k. split; [done|]. split.
  - split; [done|done|by split_and!| | |rewrite <- Ho; by split|].
    + split; [done|]. change (pid_get_task (pids s') i = Ret t). by rewrite (sr_pids _ _ R3).
    + intros x Hx. change (y_tasks y2 !! x = y_tasks y !! x). by rewrite O2, O.
    + intros p Hp. change (rd (y_mem y2) p = rd (y_mem y) p). rewrite <- M. apply Hm. by rewrite Ho.
  - split; [exact K3| |by rewrite M4|].
    + change (pids_ok (pids s')). by rewrite (sr_pids _ _ R3).
    + change (forall x, is_Some (tasks s' !! x) -> exists b0, b0 ∈ sb :: b :: live /\ kernel_block b0 /\ x = block_va (y_mm (put_sched y2 s')) b0).
      rewrite T4, M4. intros x [kx [[<- _]|[_ Hx]]%lookup_insert_Some].
      * exists b. split; [right; by left|]. by rewrite (block_va_layout _ _ b EL).
      * destruct (sys_tasks _ _ _ _ Hok x ltac:(by eexists)) as (b' & Hb' & Kb' & ->). exists b'. split; [by do 2 right|].
        by rewrite (block_va_layout _ _ b' EL).
Qed.
End Start.

(** ** A machine that just started *)

Module ForkDemo.
(** The idle task is in a block of [Demo]; the variable that is not set holds it. *)
Definition y0 : system (list Z) :=
  System (SigSt SchedDemo.boot (Slab Demo.bank ∅ [] false 0 0 0 0 0) ∅) (PgtBuffer 0 0 0) ∅ FileDemo.g0 ∅ ∅.
Definition mem : task_mem := TaskMem true 4096 8192 12288 16384 (ElfMem 0 0 0 0 0).
Definition killer : list Z := [107; 105; 108; 108; 101; 114].
Definition fn : Z := 0x80101230.

Definition run (y : system (list Z)) : outcome (system (list Z) * Z) :=
  kthread_run FileDemo.drv x86_mmu 9 9 (fun _ => 0) y SchedDemo.IDLE (Some killer) fn 7 mem.

Lemma y0_ok : system_ok Demo.reserved y0 (fun _ => []) Demo.live.
Proof.
  split.
  - exact SchedDemo.boot_kernel.
  - exact pids_start_ok.
  - split; [exact Demo.demo_inv|exact Demo.seal|exact Demo.mapped|].
    intros r Hr [-> | ->]%Demo.used; [|done]. left. split; [done|]. left. lia.
  - intros t [k [-> _]%SchedDemo.boot_task]. exists Demo.blk. split; [by left|]. by vm_compute.
Qed.

Lemma run_returns_0 : match run y0 with Ret (_, ret) => ret = 0 | _ => False end.
Proof. by vm_compute. Qed.
End ForkDemo.

Lemma kthread_run_correct_witness :
  exists y', ForkDemo.run ForkDemo.y0 = Ret (y', 0) /\
    exists t b sb i k, t = block_va Demo.bank b /\ thread_started ForkDemo.y0 y' ForkDemo.fn t i sb k /\
      system_ok Demo.reserved y' (push (push (fun _ => []) HSystem t) (HPrio 20) t) (sb :: b :: Demo.live).
Proof.
  destruct (kthread_run_correct FileDemo.drv x86_mmu 9 9 (fun _ => 0) Demo.reserved ForkDemo.y0 (fun _ => []) Demo.live
    SchedDemo.IDLE (Some ForkDemo.killer) ForkDemo.fn 7 ForkDemo.mem ForkDemo.y0_ok) as (y' & ret & E & H); [by vm_compute|done|].
  fold (ForkDemo.run ForkDemo.y0) in E. pose proof ForkDemo.run_returns_0 as R. rewrite E in R. subst ret.
  exists y'. split; [exact E|]. destruct H as [[H _]|[_ H]]; [discriminate H|exact H].
Defined.

(** ** Behaviour that is not meant *)

Module ForkFaults.
(** The lists of pages of a thread were never set up: its end follows a null pointer. *)
Definition thread (y : system (list Z)) : system (list Z) := match ForkDemo.run y with Ret (y, _) => y | _ => y end.
Lemma thread_cannot_end : release_task_memory 9 (thread ForkDemo.y0) (match pid_get_task (pids (y_sched (thread ForkDemo.y0))) 0 with Ret t => t | _ => 0 end) = Fault.
Proof. by vm_compute. Qed.

(** All pages but one are taken. *)
Definition one_page : mm_bank :=
  Nat.iter 56 (fun mm => match get_free_pages mm 1 GFP_KERNEL with Ret (mm, _) => mm | _ => mm end) Demo.bank.

(** Without a page for the stack the page of the task is released, and the number it was
    given still leads to it. *)
Lemma number_of_freed_task : match ForkDemo.run (put_mm ForkDemo.y0 one_page) with
  | Ret (y', ret) => ret = - ENOMEM /\ pid_get_task (pids (y_sched y')) 0 = Ret 0x8003d000 /\
      page_used (y_mm y') (0, 0)%nat 0x3d = false
  | _ => False
  end.
Proof. by vm_compute. Qed.
End ForkFaults.
