(* ===== verification/Exec.v ===== *)
(** * Programs are started (kernel/task.c)

    [task_setup_argv_envp] copies the name, the arguments and the environment of a program
    into its page of meta data; [do_exec] puts it together with the memory of the task, its
    image and its first frame.  Pointers in the memory of a task are four bytes, the lowest
    first. *)

From S2P Require Import Prelude Bitops Dlist CString Trap Vfs Path Devfs Lmfs File Elf Mm Mmu Pgt TaskMm Slab Sched Mutex Signal Fork.

(** ** Arguments *)

Definition ARGV_META_TABLE_OFFSET : Z := 256.
Definition ARGV_MAX_NR : Z := 32.
Definition ENV_META_TABLE_OFFSET : Z := 384.
Definition ENV_MAX_NR : Z := 32.
Definition ARGENV_META_OFFSET : Z := 512.

Definition pointer (m : bmem) (a : Z) : Z := rd m a + 256 * rd m (a + 1) + 65536 * rd m (a + 2) + 16777216 * rd m (a + 3).
Definition put_pointer (m : bmem) (a v : Z) : bmem := put_bytes m a (word_bytes v).

(** One loop over [argv] or [envp]: the memory, the places of the next table entry and of
    the next string, the number of strings, and whether the page was full.  A string is
    copied, without its terminator, before the test. *)
Fixpoint copy_strings (fuel : nat) (limit max : Z) (m : bmem) (argv i table_base str_base : Z)
  : outcome (bmem * Z * Z * Z * bool) :=
  match fuel with
  | O => NoFuel
  | S fuel' =>
    let p := pointer m (argv + 4 * i) in
    if negb (p =? 0) && (i <? max) then
      length ← fuelled (strlen fuel m p);
      let '(m, _) := memcpy m str_base p length in
      if limit <=? str_base + length then mret (m, table_base, str_base, i, true)
      else
        copy_strings fuel' limit max (put_pointer m table_base str_base) argv (i + 1) (table_base + 4) (u32 (align (str_base + length) 4))
    else mret (m, table_base, str_base, i, false)
  end.

(** [base] is a pointer to words where the tables are, so that their offsets are taken four
    times; the members [argv] and [envp] are then set to the offsets in bytes. *)
Definition task_setup_argv_envp (fuel : nat) (m : bmem) (name : list Z) (argv envp base : Z)
  : outcome (bmem * option (Z * Z * Z)) :=
  let limit := u32 (base + 4096) in
  let table_base := base + 4 * ARGV_META_TABLE_OFFSET in
  let str_base := base + ARGENV_META_OFFSET in
  let m := put_pointer (put_bytes m str_base name) table_base str_base in
  let str_base := u32 (align (str_base + Z.of_nat (length name)) 4) in
  '(m, _, str_base, argc, out) ← copy_strings fuel limit (ARGV_MAX_NR - 1) m argv 0 (table_base + 4) str_base;
  if out : bool then mret (m, None)
  else
    let table_base := base + 4 * ENV_META_TABLE_OFFSET in
    '(m, _, str_base, _, out) ← copy_strings fuel limit ENV_MAX_NR m envp 0 table_base str_base;
    if out : bool then mret (m, None)
    else mret (m, Some (base + ARGV_META_TABLE_OFFSET, base + ENV_META_TABLE_OFFSET, argc)).

(** ** Programs *)

Section Exec.
Context {D : Type} (drv : tty_operations D) (u : mmu) (fuel fuelb : nat).
Implicit Types (y : system D) (t : Z).

(** The body of [copy_sigreturn_code] is a comment. *)
Definition task_setup_meta_data y t : outcome (system D * Z) :=
  let cur := current (y_sched y) in
  let d := data_of y t in
  let s := mm_section (td_mm d) TASK_MM_SECTION_META in
  let list := list_next (plists (y_mm y)) (alloc_mem s) in
  '(st, base) ← (if t =? cur then mret (y_pg y, base_addr s)
                 else pgt_map_temp_page u (y_pg y) (page_table (td_mm (data_of y cur))) (list_to_page list));
  let y := put_pg y st in
  if negb (t =? cur) && (base =? 0) then mret (y, - ENOMEM)
  else
    '(m, r) ← task_setup_argv_envp fuel (y_user y) (td_name d) (td_argv d) (td_envp d) base;
    let y := put_files y (y_fs y) m in
    mret (match r with Some (argv, envp, n) => put_data y t (with_args argv envp n d) | None => y end, 0).

(** What the two calls answer is not looked at. *)
Definition reinit_task y t (a : task_mem) : outcome (system D * Z) :=
  let y := put_sig y (fst (init_signal_struct (y_sig y) t)) in
  '(y, _) ← init_task_mm drv u fuel fuelb y t a;
  mret (y, 0).

(** [task_mm_load_elf_image], or [task_mm_load_elf_image_1] for a program the kernel starts. *)
Definition load_program y t (a : task_mem) : outcome (system D * Z) :=
  let d := data_of y t in
  let cur := current (y_sched y) in
  if task_is_kernel y cur then
    '(st, mm, table, g, m, ret) ← @task_mm_load_elf_image_1 u fuel (kfs D) (kfs_io drv fuelb (tm_file a)) (y_pg y) (td_mm d)
      (page_table (td_mm (data_of y cur))) (y_fs y) (y_user y);
    let y := put_files (put_pg y st) g m in
    let y := put_data y cur (with_mm (set_table (td_mm (data_of y cur)) table) (data_of y cur)) in
    mret (put_data y t (with_mm mm (data_of y t)), ret)
  else
    '(st, mm, g, m, ret) ← @task_mm_load_elf_image u fuel (kfs D) (kfs_io drv fuelb (tm_file a)) (y_pg y) (td_mm d) (y_fs y) (y_user y);
    let y := put_files (put_pg y st) g m in
    mret (put_data y t (with_mm mm (data_of y t)), ret).

(** The current task becomes the program, or, when it is one of the kernel, a new one does. *)
Definition exec_task y (uninit : Z) (name : list Z) (a : task_mem) : outcome (system D * Z) :=
  let cur := current (y_sched y) in
  if task_is_kernel y cur then
    '(y, new) ← alloc_and_init_task drv u fuel fuelb y uninit (Some name) PROCESS_FLAG_KERN_EXEC a;
    if new =? 0 then Panic else mret (y, new)
  else
    let d := with_flag PROCESS_FLAG_USER_EXEC (with_name (take (Z.to_nat PROCESS_NAME_SIZE) name) (data_of y cur)) in
    mret (put_data y cur d, cur).

(** An error of the first steps is not one of [do_exec]: [err] is that of loading. *)
Definition do_exec y (uninit : Z) (name : list Z) (argv envp : Z) (a : task_mem) : outcome (system D * Z) :=
  let cur := current (y_sched y) in
  '(y, new) ← exec_task y uninit name a;
  let y := put_data y new (with_args argv envp (argc (data_of y new)) (data_of y new)) in
  '(y, _) ← (if negb (task_is_kernel y cur) then reinit_task y new a else mret (y, 0));
  '(y, arg_num) ← task_setup_meta_data y new;
  let arg_num := if arg_num <? 0 then 0 else arg_num in
  '(y, err) ← load_program y new a;
  if negb (err =? 0) then
    y ← (if task_is_kernel y cur then release_task fuel y new else mret y);
    mret (y, err)
  else
    let '(y, _) := set_up_task_stack y new (arch_init_pt_regs 0 arg_num) in
    s ← set_task_state (y_sched y) new PROCESS_STATE_PREPARE;
    mret (put_sched y s, err).

(** [init_argv] and [init_envp] are arrays of null pointers at these addresses; the one
    entry of the second that is cleared is not its first. *)
Definition kernel_exec y (uninit : Z) (filename : list Z) (init_argv init_envp : Z) (a : task_mem) : outcome (system D * Z) :=
  let m := put_pointer (put_pointer (y_user y) init_argv 0) (init_envp + 4) 0 in
  do_exec (put_files y (y_fs y) m) uninit filename init_argv init_envp a.

(** ** The idle task, and the end of a task *)

Definition build_idle_task y (name : list Z) : outcome (system D * Z) :=
  '(y, t) ← allocate_task y (Some name);
  let s := y_sched y in
  let y := put_sched y (SchedSt (tasks s) (heap s) (counts s) (mutexes s) (pids s) (current s) t (next_run s) (schedule_running s) (in_interrupt s)) in
  if t =? 0 then mret (y, - ENOMEM)
  else
    let s := upd_task (y_sched y) t (fun k => with_parent 0 (with_pid (-1) k)) in
    let s := set_heap s (init_list (init_list (heap s) (HChild t)) (NChild t)) in
    let s := init_sched_struct (init_mutex s (offset_mutex t)) t in
    let s := upd_task s t (with_state PROCESS_STATE_RUNNING) in
    let y := put_data (put_sched y s) t (with_flag PROCESS_TYPE_KERNEL (with_uid 0 (data_of y t))) in
    '(st, table, _) ← init_task_page_table u (y_pg y) (page_table (td_mm (data_of y t)));
    let y := put_pg y st in
    let y := put_data y t (with_mm (set_table (td_mm (data_of y t)) table) (data_of y t)) in
    mret (put_sched y (set_next_run (set_current (y_sched y) t) t), 0).

(** [kill_task] with the release of files and memory at its end. *)
Definition kill_and_release y t : outcome (system D * Z) :=
  '(s, ret) ← kill_task fuel (y_sched y) t;
  let y := put_sched y s in
  if negb (ret =? 0) then mret (y, ret)
  else
    y ← (match file_desc (data_of y t) with
         | Some f => g ← release_task_file_desc (y_fs y) (tf_desc f); mret (put_files y g (y_user y))
         | None => mret y
         end);
    y ← release_task fuel y t;
    mret (y, 0).
End Exec.
