(* ===== verification/ExecSpec.v ===== *)
(** * A program finds its arguments

    The strings of a program are copied one behind the other, each to a multiple of four;
    [places] are their addresses.  The theorem says that strings and tables are where
    [task_setup_argv_envp] means them to be, as long as the strings end before the tables;
    the lemmas at the end show what the program makes of it. *)

From S2P Require Import Prelude CString Lmfs Fork Exec.

Definition text : Type := list Z.

Definition next_place (a : Z) (s : text) : Z := align (a + Z.of_nat (length s)) 4.

Fixpoint places (a : Z) (l : list text) : list Z :=
  match l with [] => [] | s :: l => a :: places (next_place a s) l end.
Fixpoint places_end (a : Z) (l : list text) : Z :=
  match l with [] => a | s :: l => places_end (next_place a s) l end.

Lemma next_place_bound a s : a + Z.of_nat (length s) <= next_place a s.
Proof. apply (align_ceil _ 2). lia. Qed.

Lemma places_end_le a l : a <= places_end a l.
Proof.
  revert a. induction l as [|s l IH]; intros a; cbn [places_end]; [lia|].
  pose proof (next_place_bound a s). pose proof (IH (next_place a s)). lia.
Qed.

Lemma length_places a l : length (places a l) = length l.
Proof. revert a. induction l as [|s l IH]; intros a; [done|]. cbn. by rewrite IH. Qed.

(** ** Memory *)

(** [m'] differs from [m] only in the two ranges. *)
Definition kept (m m' : bmem) (a b c d : Z) : Prop := forall x, ~ (a <= x < b) -> ~ (c <= x < d) -> rd m' x = rd m x.

Lemma pointer_kept m m' a : (forall x, a <= x < a + 4 -> rd m' x = rd m x) -> pointer m' a = pointer m a.
Proof. intros H. unfold pointer. rewrite !H by lia. done. Qed.

Lemma bytes_kept m m' a s : (forall x, a <= x < a + Z.of_nat (length s) -> rd m' x = rd m x) -> bytes_at m a s -> bytes_at m' a s.
Proof. intros H Hb i c Hi. rewrite H; [by apply Hb|]. apply lookup_lt_Some in Hi. lia. Qed.

Lemma string_kept m m' a s : (forall x, a <= x < a + Z.of_nat (length s) + 1 -> rd m' x = rd m x) -> cstr m a s -> cstr m' a s.
Proof. intros H [Hc Hb]. split; [done|]. eapply bytes_kept; [|done]. intros x Hx. apply H. rewrite length_app in Hx. simpl in Hx. lia. Qed.

Lemma pointer_put m a v : 0 <= v < 4294967296 -> pointer (put_pointer m a v) a = v.
Proof.
  intros Hv. unfold pointer, put_pointer. pose proof (put_bytes_at m a (word_bytes v)) as Hb. unfold word_bytes in *.
  set (m' := put_bytes _ _ _) in *. pose proof (Hb 0%nat _ eq_refl) as E0. rewrite Z.add_0_r in E0.
  assert (rd m' (a + 1) = v / 256 mod 256) as -> by exact (Hb 1%nat _ eq_refl).
  assert (rd m' (a + 2) = v / 65536 mod 256) as -> by exact (Hb 2%nat _ eq_refl).
  assert (rd m' (a + 3) = v / 16777216 mod 256) as -> by exact (Hb 3%nat _ eq_refl). rewrite E0. clear -Hv.
  Z.to_euclidean_division_equations. lia.
Qed.

Lemma put_pointer_other m a v x : x < a \/ a + 4 <= x -> rd (put_pointer m a v) x = rd m x.
Proof. intros H. apply put_bytes_other. done. Qed.

Lemma memcpy_wrote m dst src s : bytes_at m src s -> src + Z.of_nat (length s) <= dst \/ dst + Z.of_nat (length s) <= src ->
  wrote m (memcpy m dst src (Z.of_nat (length s))).1 dst s.
Proof.
  intros Hb Hd. unfold memcpy. destruct (Z.leb_spec (Z.of_nat (length s)) 0).
  { destruct s; [|simpl in *; lia]. split; [by intros i c|done]. }
  cbn [fst]. rewrite Nat2Z.id.
  pose proof (zfor_inv (fun i m' => wrote m m' dst (take (Z.to_nat i) s)) (length s) 0
    (fun i m => wr m (dst + i) (rd m (src + i))) m) as H'. rewrite Z.add_0_l, Nat2Z.id, firstn_all in H'. apply H'.
  { split; [by intros i c|done]. }
  intros j b Hj W. replace (Z.to_nat (j + 1)) with (S (Z.to_nat j)) by lia.
  destruct (lookup_lt_is_Some_2 s (Z.to_nat j)) as [c Hc]; [lia|]. rewrite (take_S_r _ _ _ Hc).
  assert (length (take (Z.to_nat j) s) = Z.to_nat j) as El by (rewrite length_take; lia).
  eapply wrote_app; [exact W|]. rewrite El, Z2Nat.id by lia. replace (rd b (src + j)) with c; [apply wrote_wr|].
  rewrite (proj2 W) by (rewrite El; lia). symmetry. pose proof (Hb _ _ Hc) as E. by rewrite Z2Nat.id in E by lia.
Qed.

(** ** The loop *)

(** [p] is a string outside the page. *)
Definition source (lo hi : Z) (m : bmem) (p : Z) (s : text) : Prop :=
  0 < p /\ cstr m p s /\ (p + Z.of_nat (length s) < lo \/ hi <= p).

Lemma source_kept lo hi m m' p s : (forall x, x < lo \/ hi <= x -> rd m' x = rd m x) -> source lo hi m p s -> source lo hi m' p s.
Proof. intros H (H1 & H2 & H3). split; [done|]. split; [|done]. eapply string_kept; [|done]. intros x Hx. apply H. lia. Qed.

(** An array of pointers to strings, ended by a null pointer. *)
Record strings_at (lo hi : Z) (m : bmem) (argv i : Z) (strs : list text) (ptrs : list Z) : Prop := {
  sa_strings : Forall2 (source lo hi m) ptrs strs;
  sa_array : forall k p, ptrs !! k = Some p -> pointer m (argv + 4 * (i + Z.of_nat k)) = p;
  sa_null : pointer m (argv + 4 * (i + Z.of_nat (length ptrs))) = 0;
  sa_apart : argv + 4 * (i + Z.of_nat (length ptrs)) + 4 <= lo \/ hi <= argv + 4 * i }.

Lemma strings_kept lo hi m m' argv i strs ptrs : (forall x, x < lo \/ hi <= x -> rd m' x = rd m x) ->
  strings_at lo hi m argv i strs ptrs -> strings_at lo hi m' argv i strs ptrs.
Proof.
  intros H [S1 S2 S3 S4]. split; [|..|done].
  - eapply Forall2_impl; [exact S1|]. intros p s. by apply source_kept.
  - intros k p Hk. rewrite <- (S2 k p Hk). apply pointer_kept. intros x Hx. apply H. apply lookup_lt_Some in Hk. lia.
  - rewrite <- S3. apply pointer_kept. intros x Hx. apply H. lia.
Qed.

Lemma strings_tail lo hi m argv i s strs p ptrs : strings_at lo hi m argv i (s :: strs) (p :: ptrs) ->
  strings_at lo hi m argv (i + 1) strs ptrs.
Proof.
  intros [S1 S2 S3 S4]. simpl in S3, S4. inversion S1. split; [done|..].
  - intros k q Hk. rewrite <- (S2 (S k) q Hk). f_equal. lia.
  - rewrite <- S3. f_equal. lia.
  - lia.
Qed.

(** Strings and table after the loop. *)
Definition copied (m : bmem) (a table : Z) (strs : list text) : Prop :=
  Forall2 (bytes_at m) (places a strs) strs /\
  forall k p, places a strs !! k = Some p -> pointer m (table + 4 * Z.of_nat k) = p.

Lemma copied_kept m m' a table strs : (forall x, a <= x < places_end a strs -> rd m' x = rd m x) ->
  (forall x, table <= x < table + 4 * Z.of_nat (length strs) -> rd m' x = rd m x) -> copied m a table strs -> copied m' a table strs.
Proof.
  intros Hs Ht [C1 C2]. split.
  - clear C2 Ht. revert a Hs C1. induction strs as [|s strs IH]; intros a Hx H; [constructor|]. cbn [places places_end] in *.
    inversion H as [|? ? ? ? H1 H2]. subst. pose proof (next_place_bound a s). pose proof (places_end_le (next_place a s) strs).
    constructor; [eapply bytes_kept; [|done]; intros x ?; apply Hx; lia|]. apply IH; [|done]. intros x ?. apply Hx. lia.
  - intros k p Hk. rewrite <- (C2 k p Hk). apply pointer_kept. intros x Hi. apply Ht.
    apply lookup_lt_Some in Hk. rewrite length_places in Hk. lia.
Qed.

Section Loop.
Context (lo hi limit max argv : Z) (Hlo : 0 <= lo) (Hhi : hi <= limit) (Hlim : limit < 4294967296).

Lemma copy_strings_ok : forall strs ptrs fuel m i table a,
  strings_at lo hi m argv i strs ptrs -> i + Z.of_nat (length strs) <= max ->
  (length strs < fuel)%nat -> Forall (fun s => length s + length strs < fuel)%nat strs ->
  lo <= a -> places_end a strs <= table -> table + 4 * Z.of_nat (length strs) <= hi ->
  exists m', copy_strings fuel limit max m argv i table a =
      Ret (m', table + 4 * Z.of_nat (length strs), places_end a strs, i + Z.of_nat (length strs), false) /\
    kept m m' a (places_end a strs) table (table + 4 * Z.of_nat (length strs)) /\ copied m' a table strs.
Proof.
  induction strs as [|s strs IH]; intros ptrs fuel m i table a HS Hmax Hf Hfs Ha He Ht;
    (destruct fuel as [|fuel]; [lia|]); cbn [copy_strings].
  { destruct HS as [S1 _ S3 _]. inversion S1. subst. simpl in S3. rewrite Z.add_0_r in S3. rewrite S3. cbn [negb Z.eqb andb].
    exists m. simpl. rewrite !Z.add_0_r. split; [done|]. split; [done|]. split; [constructor|by intros k p]. }
  cbn [places places_end length] in *. pose proof (next_place_bound a s) as Hn. pose proof (places_end_le (next_place a s) strs) as Hpe.
  pose proof (sa_strings _ _ _ _ _ _ _ HS) as S1. inversion S1 as [|p ? ptrs' ? (Hp & Hs & Hout) _]. subst.
  pose proof (sa_array _ _ _ _ _ _ _ HS 0%nat p eq_refl) as Ep. rewrite Z.add_0_r in Ep. rewrite Ep.
  rewrite (proj2 (Z.eqb_neq p 0)) by lia. rewrite (proj2 (Z.ltb_lt i max)) by lia. cbn [negb andb].
  apply Forall_cons in Hfs as [Hfs Hfs']. unfold strlen. rewrite (proj2 (Z.eqb_neq p 0)) by lia.
  rewrite (strlen_loop_spec (S fuel) m p s 0 Hs) by lia. rewrite Z.add_0_l. cbn [fuelled]. rewrite Ret_bind.
  pose proof (memcpy_wrote m a p s (proj1 (proj1 (bytes_at_app _ _ _ _) (proj2 Hs)))) as W. destruct (memcpy m a p _) as [m1 n]. cbn [fst] in W.
  destruct W as [W1 W2]; [lia|]. rewrite (proj2 (Z.leb_gt limit _)) by lia. set (m2 := put_pointer m1 table a).
  assert (kept m m2 a (next_place a s) table (table + 4)) as K2.
  { intros x H1 H2. unfold m2. rewrite put_pointer_other by lia. apply W2. lia. }
  rewrite u32_small by (fold (next_place a s); lia). fold (next_place a s).
  destruct (IH ptrs' fuel m2 (i + 1) (table + 4) (next_place a s)) as (m' & E & K & C); [|lia|lia| |lia|lia|lia|].
  { eapply strings_tail, strings_kept; [|exact HS]. intros x Hx. apply K2; lia. }
  { eapply Forall_impl; [exact Hfs'|]. cbn. lia. }
  exists m'. rewrite E. replace (table + 4 * Z.of_nat (S (length strs))) with (table + 4 + 4 * Z.of_nat (length strs)) by lia.
  replace (i + Z.of_nat (S (length strs))) with (i + 1 + Z.of_nat (length strs)) by lia. split; [done|]. split; [|split].
  - intros x H1 H2. rewrite K by lia. apply K2; lia.
  - constructor; [|apply C]. apply (bytes_kept m1); [|done]. intros x Hx. rewrite K by lia. unfold m2. apply put_pointer_other. lia.
  - intros [|k] q Hk.
    + injection Hk as <-. rewrite Z.add_0_r, (pointer_kept m2); [apply pointer_put; lia|]. intros x Hx. apply K; lia.
    + rewrite <- (proj2 C k q Hk). f_equal. lia.
Qed.
End Loop.


(** ** An example *)

(** /bin with the argument ls, and no environment; the page of meta data is at 0x400000. *)
Module ArgsDemo.
Definition name : text := [47; 98; 105; 110].
Definition ls : text := [108; 115].
Definition base : Z := 0x400000.
Definition m : bmem := put_bytes (put_pointer (put_pointer (put_pointer ∅ 0x1000 0x2000) 0x1004 0) 0x3000 0) 0x2000 (ls ++ [0]).

Lemma args_at : strings_at (base + 512) (base + 4096) m 0x1000 0 [ls] [0x2000].
Proof.
  split.
  - constructor; [|constructor]. split; [done|]. split; [|left; by vm_compute]. split; [repeat constructor; lia|]. apply put_bytes_at.
  - intros [|k] p [= <-]. by vm_compute.
  - by vm_compute.
  - left. by vm_compute.
Qed.

Lemma envs_at : strings_at (base + 512) (base + 4096) m 0x3000 0 [] [].
Proof. split; [constructor|done|by vm_compute|left; by vm_compute]. Qed.

Definition made : outcome (bmem * option (Z * Z * Z)) := task_setup_argv_envp 80 m name 0x1000 0x3000 base.
End ArgsDemo.


(** ** Behaviour that is not meant *)

Module ExecFaults.
(** The tables are at four times the offsets the program is told: where it looks for its
    arguments there is nothing. *)
Lemma no_arguments_found : match ArgsDemo.made with
  | Ret (m', Some (argv, _, argc)) => argc = 1 /\ pointer m' argv = 0 /\ pointer m' (ArgsDemo.base + 4 * ARGV_META_TABLE_OFFSET) = 0x400200
  | _ => False
  end.
Proof. by vm_compute. Qed.

(** Strings are copied without their end: one of four characters runs into the next. *)
Lemma strings_run_together : match ArgsDemo.made with
  | Ret (m', _) => read_bytes m' 0x400200 7 = ArgsDemo.name ++ ArgsDemo.ls ++ [0]
  | _ => False
  end.
Proof. by vm_compute. Qed.

(** An argument that reaches the table is written over the entries it already has. *)
Definition long_m : bmem := put_bytes ArgsDemo.m 0x2000 (replicate (Z.to_nat 600) 120 ++ [0]).
Lemma strings_over_table : match task_setup_argv_envp (Z.to_nat 700) long_m ArgsDemo.name 0x1000 0x3000 ArgsDemo.base with
  | Ret (m', Some _) => pointer m' (ArgsDemo.base + 4 * ARGV_META_TABLE_OFFSET) = 0x78787878
  | _ => False
  end.
Proof. by vm_compute. Qed.
End ExecFaults.
