(* ===== verification/Soc.v ===== *)
(** * The platform and the board (init/soc.c)

    The linker collects pointers to the descriptions of platforms and boards between two
    symbols; [find_system_soc] looks for the ones the kernel was built for.  Descriptions
    and arrays are words of the memory of the kernel, a description of a platform has eight
    of them and one of a board two.  [call] stands for the functions of the platform, which
    are known by their address only. *)

From S2P Require Import Prelude MmInit Irq.

Record soc_desc := SocDesc { platform_id : Z; board_id : Z }.
Record soc_platform := SocPlatform { p_id : Z; system_clk_init : Z; system_timer_init : Z; p_parse : Z; init_action : Z }.
Record soc_board := SocBoard { b_id : Z; b_parse : Z }.

(** The two [memcpy]; the members for the interrupt controller and the MMU are not read
    here. *)
Definition read_platform (m : gmap Z Z) (p : Z) : soc_platform :=
  SocPlatform (u16 (rd m p)) (rd m (p + 4)) (rd m (p + 8)) (rd m (p + 20)) (rd m (p + 28)).
Definition read_board (m : gmap Z Z) (p : Z) : soc_board := SocBoard (u16 (rd m p)) (rd m (p + 4)).

Fixpoint find_platform (n : nat) (m : gmap Z Z) (id start : Z) : option soc_platform :=
  match n with
  | O => None
  | S n =>
    let platform_tmp := rd m start in
    if u16 (rd m platform_tmp) =? id then Some (read_platform m platform_tmp) else find_platform n m id (start + 4)
  end.

(** [board_tmp[i]] is the [i]-th board from the [i]-th pointer on. *)
Fixpoint find_board (n : nat) (m : gmap Z Z) (id i start : Z) : option soc_board :=
  match n with
  | O => None
  | S n =>
    let board_tmp := rd m start in
    if u16 (rd m (board_tmp + 8 * i)) =? id then Some (read_board m board_tmp) else find_board n m id (i + 1) (start + 4)
  end.

(** The values of the symbols around the two arrays. *)
Record symbols := Symbols { soc_platform_start : Z; soc_platform_end : Z; soc_board_start : Z; soc_board_end : Z }.

Definition find_system_soc (m : gmap Z Z) (y : symbols) (d : soc_desc) : (soc_platform * soc_board) + Z :=
  match find_platform (Z.to_nat ((soc_platform_end y - soc_platform_start y) / 4)) m (platform_id d) (soc_platform_start y) with
  | None => inr (- EFAULT)
  | Some p =>
    match find_board (Z.to_nat ((soc_board_end y - soc_board_start y) / 4)) m (board_id d) 0 (soc_board_start y) with
    | None => inr (- EFAULT)
    | Some b => inl (p, b)
    end
  end.

Section Calls.
Context {S : Type} (call : Z -> S -> S).

(** The calls of [init_action] up to the null pointer. *)
Fixpoint late_loop (fuel : nat) (m : gmap Z Z) (actions i : Z) (s : S) : option S :=
  match fuel with
  | O => None
  | Datatypes.S fuel =>
    let fn := rd m (actions + 4 * i) in
    if negb (fn =? 0) then late_loop fuel m actions (i + 1) (call fn s) else Some s
  end.
Definition soc_late_init (fuel : nat) (m : gmap Z Z) (p : soc_platform) (s : S) : option S := late_loop fuel m (init_action p) 0 s.

Definition soc_clock_init (p : soc_platform) (s : S) : S :=
  if negb (system_clk_init p =? 0) then call (system_clk_init p) s else s.

Lemma late_loop_calls fuel m actions i fns s : (length fns < fuel)%nat -> Forall (fun f => f <> 0) fns ->
  (forall k f, (fns ++ [0]) !! k = Some f -> rd m (actions + 4 * (i + Z.of_nat k)) = f) ->
  late_loop fuel m actions i s = Some (foldl (fun s f => call f s) s fns).
Proof.
  revert i s fns. induction fuel as [|fuel IH]; intros i s fns Hf Hn Hm; [lia|]. cbn [late_loop].
  pose proof (Hm 0%nat) as H0. rewrite Z.add_0_r in H0. destruct fns as [|f fns].
  - by rewrite (H0 0 eq_refl).
  - rewrite (H0 f eq_refl). inversion Hn as [|? ? Hf0 Hn']. subst. rewrite (proj2 (Z.eqb_neq f 0) Hf0). cbn [negb foldl].
    apply IH; [simpl in Hf; lia|done|]. intros k g Hk. rewrite <- (Hm (Datatypes.S k) g Hk). f_equal. lia.
Qed.
End Calls.

(** The memory map of the kernel, then what platform and board report. *)
Section MemInfo.
Context (call : Z -> soc_memory_info -> soc_memory_info).

Definition soc_get_mem_info (code_end kernel_phy_start : Z) (p : soc_platform) (b : soc_board) (info : soc_memory_info) : soc_memory_info :=
  let info := SocInfo code_end kernel_phy_start (region info) in
  let info := if negb (p_parse p =? 0) then call (p_parse p) info else info in
  if negb (b_parse b =? 0) then call (b_parse b) info else info.

Definition soc_early_init (m : gmap Z Z) (y : symbols) (d : soc_desc) (code_end kernel_phy_start : Z) (info : soc_memory_info)
  : outcome (soc_platform * soc_board * soc_memory_info) :=
  match find_system_soc m y d with
  | inl (p, b) => mret (p, b, soc_get_mem_info code_end kernel_phy_start p b info)
  | _ => Panic
  end.
End MemInfo.

(** The timer is started before its interrupt has a handler. *)
Definition SYSTEM_TIMER_IRQ_NUMBER : Z := 14.
Definition HZ : Z := 100.
Definition timer_tick_init {C} (chip : irq_chip C) (start_timer : Z -> irq_state C -> irq_state C) (os_tick_handler : Z)
    (p : soc_platform) (s : irq_state C) : irq_state C * Z :=
  let s := if negb (system_timer_init p =? 0) then start_timer HZ s else s in
  register_irq chip s SYSTEM_TIMER_IRQ_NUMBER os_tick_handler 0.

(** ** What is found *)

Definition array_of (m : gmap Z Z) (start : Z) (ps : list Z) : Prop :=
  forall k p, ps !! k = Some p -> rd m (start + 4 * Z.of_nat k) = p.

Lemma array_tail m start p ps : array_of m start (p :: ps) -> rd m start = p /\ array_of m (start + 4) ps.
Proof.
  intros H. split; [pose proof (H 0%nat p eq_refl) as E; by rewrite Z.add_0_r in E|].
  intros k q Hk. rewrite <- (H (S k) q Hk). f_equal. lia.
Qed.

Lemma find_platform_first m id start ps : array_of m start ps ->
  find_platform (length ps) m id start = read_platform m <$> List.find (fun p => u16 (rd m p) =? id) ps.
Proof.
  revert start. induction ps as [|p ps IH]; intros start H; [done|]. apply array_tail in H as [E H]. cbn [length find_platform List.find].
  rewrite E. destruct (u16 (rd m p) =? id); [done|]. by apply IH.
Qed.

(** Boards with no other board behind them: only the first one can be found. *)
Lemma find_board_first m id start b bs : array_of m start (b :: bs) -> u16 (rd m b) = id ->
  find_board (length (b :: bs)) m id 0 start = Some (read_board m b).
Proof.
  intros H Hb. apply array_tail in H as [E _]. cbn [length find_board]. rewrite E, Z.mul_0_r, Z.add_0_r, Hb. by rewrite Z.eqb_refl.
Qed.

(** The kernel finds its platform, and its board when that is the first one. *)
Theorem find_system_soc_correct m y d ps p bs b
    (Hp : array_of m (soc_platform_start y) ps) (Hpe : soc_platform_end y = soc_platform_start y + 4 * Z.of_nat (length ps))
    (Hb : array_of m (soc_board_start y) (b :: bs)) (Hbe : soc_board_end y = soc_board_start y + 4 * Z.of_nat (length (b :: bs)))
    (Hf : List.find (fun p => u16 (rd m p) =? platform_id d) ps = Some p) (Hid : u16 (rd m b) = board_id d) :
  find_system_soc m y d = inl (read_platform m p, read_board m b).
Proof.
  unfold find_system_soc. rewrite Hpe, Hbe, !Z.add_simpl_l, !(Z.mul_comm 4), !Z.div_mul, !Nat2Z.id by lia.
  by rewrite (find_platform_first _ _ _ ps Hp), Hf, (find_board_first _ _ _ b bs Hb Hid).
Qed.

Module SocFaults.
(** Two boards, at 2000 and 3000: the second one is not found. *)
Definition m : gmap Z Z := {[ 1000 := 2000; 1004 := 3000; 2000 := 1; 3000 := 2; 500 := 600; 600 := 5 ]}.
Lemma second_board_missed : find_system_soc m (Symbols 500 504 1000 1008) (SocDesc 5 2) = inr (- EFAULT).
Proof. by vm_compute. Qed.
End SocFaults.
